(* ===== verification/_CoqProject ===== *)
-Q . S2P
Prelude.v
PyStr.v
PyVal.v
PyTime.v
StorageScope.v
AsyncJobs.v
AsyncMiddleware.v
RefreshGraph.v
RefreshOutcome.v
Permissions.v
ToolPolicy.v
SqlLexer.v
SqlGuard.v
PyIp.v
RateLimit.v
PyJson.v
PyUuid.v
PyIo.v
ActionStore.v
ActionTokens.v
ActionAuthority.v
ActionSafety.v
PyUrl.v
EgressGuard.v
RefreshLease.v
ServiceJobs.v
AsyncService.v
SignedContext.v
RunAdmission.v
RefreshAdmission.v
RefreshRun.v
PartitionedParquet.v
Publication.v
PublicationSafety.v
PublicationStore.v
PublicationVerifier.v
PublishedSnapshots.v
PublicSemantics.v
PublicationObjects.v
PublicationEngine.v
PublicationRuns.v
SyncProgress.v
SyncState.v
PipelineRuns.v
RunsFrame.v
ExtractSlots.v
PipelineRunsSafety.v
SyncSafety.v
StuckRuns.v
StuckRunsSafety.v
SyncRefreshes.v
SyncNow.v
SyncNowSafety.v
Workflow.v
WorkflowRoutes.v
WorkflowApprovals.v
WorkflowShape.v
