(* ===== verification/Prelude.v ===== *)
(** Verification of the platform's core: the synchronisation of sources and the record of
    its runs, the lakehouse and its refreshes, the publication of datasets, the authority
    over the control room's actions, the workflows of the copilot, and the guards of the
    console.  Names of files are under src/.

    * The program

    Data enters as raw objects that connectors write, becomes silver and gold datasets
    that the refinement service materializes with DuckDB, and is read by the console,
    its agents and the infrastructure gateway.  The parts that decide are these.

    - The console synchronises a source when asked to (console/app/main.py): it records a
      run, probes the connection, triggers the extraction in Airflow, waits for it,
      refreshes what depends on it and reports progress; runs that were left behind are
      recovered from what Airflow, the refinement service and the lakehouse say of them.
    - Airflow refreshes the datasets that new data makes stale (airflow/dags).  A run is
      admitted under a signed envelope, plans the datasets in order, and asks the
      refinement service for each: it reserves a slot, signs a context, submits an
      asynchronous job and polls it.
    - The refinement service (refinement/app) authorizes each request, runs it as a job,
      and materializes the dataset as a publication: a run is reserved against the head
      of the dataset, its object is uploaded and verified by a process of its own, its
      evidence is attested, and one compare-and-set in PostgreSQL makes it the head.
    - Readers (refinement/app, mcp-infra/app) read heads: a snapshot validated against
      the evidence, or an object the gateway serves because it is that of a head.
    - The copilot's workflows (console/app) are planned by a language model over the tools
      that are available, executed a step at a time with retries, and paused where a
      person has to approve.
    - The console (console/app/services) approves and executes actions of the control
      room under two persons, and guards what users and agents do: permissions, tools,
      SQL in what is published, rates and outgoing requests.
    - omega_lakehouse names the objects: every key carries its tenant and workspace.

    * The files

    Foundations: [Prelude] (exceptions, the result monad, loops, lists), [PyStr] and
    [PyVal] (text and dynamic values), [PyTime], [PyJson], [PyUuid], [PyIp], [PyUrl], and
    [PyIo] (computations over a world, with try, except and finally, and their triples).

    Lakehouse: [StorageScope] is omega_lakehouse/storage_scope.py, keys.py and errors.py.

    Jobs: [AsyncJobs] and [AsyncMiddleware] are refinement/app/async_jobs.py, the
    registry and the middleware in front of it; [ServiceJobs] is its client,
    airflow/dags/service_job_client.py, over the interface [JobService]; [AsyncService]
    implements that interface with the middleware, other requests interleaved.

    Refreshes (airflow/dags): [RefreshGraph] is dataset_refresh_graph.py, [RefreshLease]
    dataset_refresh_idempotency.py, [RefreshOutcome] dataset_refresh_outcome.py,
    [SignedContext] runtime_security_context.py of both sides with the ledger of
    infra/init/99zzo_runtime_hmac_authority.sql, [RunAdmission]
    cartridge_run_admission.py, [RefreshAdmission] dataset_refresh_admission.py, and
    [RefreshRun] dataset_refresh_materialize.py, which composes them.

    Publication: [Publication] is the tables and functions of infra/init_gold/40 to 45;
    [PublicationSafety] what they guarantee under any calls; [PublicationStore]
    refinement/app/publication_contract.py and publication_store.py, the calls of the
    publisher; [PublicationVerifier] publication_verifier_worker.py; [PartitionedParquet]
    partitioned_parquet.py; [PublishedSnapshots] publication_snapshot.py,
    publication_inputs.py and mcp-infra/app/publication_heads.py; [PublicSemantics]
    publication_semantics.py; [PublicationObjects] publication_objects.py and the copies
    of duckdb_engine.py; [PublicationEngine] staged_publication_engine.py,
    publication_finalize.py, publication_recovery.py, publication_evidence.py,
    publication_replay.py and publication_read_guard.py; [PublicationRuns] what a
    materialization and a recovery come to.

    Control room (console/app/services/control_room): [ActionTokens], [ActionStore] and
    [ActionAuthority] are business_action_tokens.py, _policy.py, _digest.py, _ledger.py,
    _intent_store.py, _transitions.py, _revalidation.py and their neighbours, with the
    tables of infra/init/99zzb_control_room_action_authority.sql; [ActionSafety] is what
    they guarantee.

    Synchronisations (console/app): [SyncProgress] is services/sync_progress.py and
    [SyncState] the pure parts of domains/pipeline/sync_state.py with the payloads of
    services/sync_control_room.py and sync_agentops.py; [PipelineRuns] is the table
    pipeline_runs of infra/init/00_schema.sql under its row-level security, and the code
    that moves it, domains/pipeline/status_transitions.py, recording.py, scope.py and
    db_scope.py with the upsert of main.py; [ExtractSlots] is
    domains/pipeline/successfactors_reservation.py, [StuckRuns]
    stuck_run_recovery.py and stuck_run_recovery_service.py, [SyncRefreshes]
    control_room_refresh.py and agentops_refresh.py, and [SyncNow] the handlers of main.py
    from the request to the end of the run, with build_sync_run_status and
    aggregate_trigger.py.  [RunsFrame] has two logics of actions on the table of runs that
    others write too, one of what was asked and written, one of what holds under a lock;
    [SyncSafety], [PipelineRunsSafety], [StuckRunsSafety] and [SyncNowSafety] are what the
    five guarantee.

    Workflows (console/app): [Workflow] is services/workflow_executor.py over the tables of
    infra/init/53_copilot_workflows.sql, 56_workflow_executor_runtime.sql and the policies
    of 99w_tenant_isolation_20b.sql; [WorkflowRoutes] is routers/copilot_workflows.py, the
    planner and the routes; [WorkflowApprovals] and [WorkflowShape] are what any sequence
    of requests guarantees.

    Guards of the console (console/app/services): [Permissions] is permission_*.py,
    [ToolPolicy] tool_policy.py and tool_manifest.py, [SqlLexer] and [SqlGuard]
    public_sql_*.py, [RateLimit] rate_limiter.py and request_rate_limits.py,
    [EgressGuard] egress_guard.py.

    * How the code is translated

    A function of the source is a definition of its name; a part of a long function has
    a name of its own and the map gives its lines.  A call that can fail returns [res]
    (a value or an exception of [exn], with its class and message); [raise] and [except]
    are [raise] and [catch].  Code with effects is a function of a world: a record of
    the state it owns, or any type with the operations it calls, given as a class
    ([JobService], [PublicationWorld], [ObjectStorage], [DuckDB], [EngineWorld],
    [RunsWorld], [SyncWorld], [WorkflowWorld] ...), whose laws, where a theorem needs any,
    are a class of their own ([FairWorld], [SharedWorld], [WorkflowLaws] ...).
    A dictionary is a list of pairs in insertion order, a table a [gmap] by its key, a
    transaction one step on the tables that is undone when it raises; that of a workflow
    spans the calls of its tools, whose effects stay when its rows are undone.

    Text is a sequence of Latin-1 characters, one [ascii] each, whose case mappings and
    classes are those of Python there; numbers are [Z], with the bounds of bigint and of
    the code written out where they decide; a float is a binary64 [spec_float] with its
    correctly rounded arithmetic and an abstract [repr] ([PyRepr]).  Clocks are
    microseconds.

    Parameters stand for what is not source here: digests and HMAC, JSON parsing, the
    text and comparison of jsonb, PostgreSQL's reading of a UUID, Parquet, DuckDB, the
    object store, HTTP, Redis, sockets.  Theorems hold for every instance; where one
    needs a fact of a parameter it is a named hypothesis, and a witness instantiates it.

    Concurrency is interference.  The registry of jobs, the slots and the publication
    authority are step relations that any callers take in any order; an operation of the
    world may be followed by any steps of others ([others], [FairWorld], the oracles of
    [AsyncService]).  What a theorem says of a client it says under that interference.
    The recovery of runs is proved of every world, whatever others write between its
    steps; the reservation of a synchronisation of those where, while its lock is held,
    others start no run of its key.

    * What the theorems show

    - Isolation: a key granted to two contexts belongs to one tenant and workspace, and
      every key of one's own is granted ([StorageScope]).
    - Jobs: at most one live job per idempotency key; what a submission answers in every
      case; and the client returns the result of its own request ([AsyncJobs],
      [AsyncMiddleware], [AsyncService]).
    - Refreshes: a plan lists upstreams first, and planning ends on every graph (in
      Python a deep one may reach the limit on recursion first); slots refine leases
      with fencing tokens and never stay stuck; contexts are consumed once, for the
      request they sign; a run ends within its bounds, stops what depends on a failure
      and reports as refreshed only what is durable.
    - Synchronisations: a run is started under the lock of its source, mode, target and
      connection, and none of them is then in progress beside it, though the lock keeps
      requests for two connections apart no more than their lookups do; the writers of
      [PipelineRuns] and [ExtractSlots] only advance the status of a run, in any order
      (those of the slots of [RefreshLease] share the table and may reopen theirs, and
      three of the writers may change what a run is called); a synchronisation is called
      a success only when no run that is counted stands in the way, and some statuses are
      not counted; a stuck run is closed only on answers Airflow gave, while it is as it
      was read; the steps that are shown stay within their bounds, the children of a run
      are shown as they are stored, and a slot of extraction is granted within the limit
      as far as the fifty newest runs show.
    - Publication: the head of each dataset refines a register advanced by
      compare-and-set; what is published stays, was attested by the verifier after
      reading the object at its version, and is what readers see; a materialization that
      returns has published its run, whatever others did, and a recovery ends published,
      pending or quarantined.
    - Workflows: a tool that takes an approval is called only for a step that was approved
      before, and the approval is in the audit, also when the transaction around either was
      undone; steps end in their order, and a failed run has completed what comes before
      the step that failed and skipped the rest; an execution answers the status it leaves;
      what a plan lets run without a person only reads ([plans_only_read]).
    - Actions: no one approves or executes an intent they made, the ledger of an intent
      replays to its row, a handle decides once.
    - Guards: the in-memory limiter is the sliding window over the whole log, limits
      fail closed in production, the client address is not the client's to choose;
      requests leave to addresses that are public, or allowed by the configuration, or
      that map the shared space into IPv6, and nothing escapes its place on the wire;
      tool arguments that are accepted have the schema's types, and the texts among their
      values, keys aside, are scanned unless the tool only reads; the SQL detector ends on
      every text and never lets an incomplete statement through.

    * Bounds

    [while] takes a bound on its iterations.  The planner computes its own
    ([frontier_fuel], 2 + the number of names for the search of cycles) and it is proved
    enough.  [RefreshRun.FUEL] is 1100 polls: a deadline of three hours at ten seconds a
    poll allows 1080, and [refresh_ends] proves it is not reached.  [hex_digits] has
    more digits than 128 bits need.  Every other recursion is structural, or on a list
    that is consumed.

    * Not modelled

    Third-party parsers (sqlglot, http.client, h11) and with them the SQL policies of
    the readers and of the cartridge kit; the queries of DuckDB and the base
    materializers (any program over the engine's methods stands for them); the SQL
    rewriting of publication_input_binding.py; grants, triggers and row-level security of
    the databases, except the checks written in the functions and the policies of
    pipeline_runs and of the tables of workflows; of the synchronisations, the check of the DAGs before a trigger, the
    extraction entity by entity and the scan for orphaned objects, which are operations of
    [SyncWorld] and [RunsWorld]; the promotion, discard and external effects of the control
    room's actions; the connectors, which are clients of foreign services; the narratives
    and projections of the control room and the conversations of the agents, which compose
    text; the sign-in of the console, its vault and workspace services; routes, user
    interface and deployment.  The manifest lists each part with its reason. *)

From Stdlib Require Export ZArith Lia Bool Ascii Sorted.
From stdpp Require Export base tactics list sets strings pretty gmap.

(** ** Exceptions and the result monad *)

(** The exception classes the modelled code raises or catches by name. *)
Inductive exn_class :=
  | ValueError
  | RuntimeError
  | TypeError
  | AttributeError
  | KeyError
  | IndexError
  | OverflowError
  | ImportError
  | UniqueViolationError
  | ZeroDivisionError
  | PermissionError
  | TimeoutError
  | HTTPException (status : Z)
  | ReaderUriError
  | StorageError
  | InvalidObjectKey
  | UnsafePrefixDelete
  | ToolPolicyError
  | DockerLockError
  | EgressGuardError
  | DataError
  | TransportError
  | HTTPStatusError
  | JSONDecodeError
  | ServiceJobError
  | RunAdmissionError
  | InsufficientPrivilege
  | PgError (sqlstate constraint : string)
  | PreparedObjectIncomplete
  | PreparedObjectUnavailable
  | PreparedObjectCorrupt
  | PublicationRecoveryPending
  | PublicationIntegrityError
  | PublicationRejected
  | PublicationHeadUnavailable
  | JobConflict
  | JobCapacityExceeded.

#[export] Instance exn_class_eq_dec : EqDecision exn_class.
Proof. solve_decision. Defined.

(** An exception value: its class and its message ([""] for the exceptions
    the interpreter itself raises, whose text no code here reads). *)
Record exn := Exn { exn_cls : exn_class; exn_msg : string }.

#[export] Instance exn_eq_dec : EqDecision exn.
Proof. solve_decision. Defined.

(** The subclass relation of the classes above, as [except] clauses see it:
    the project's own input errors derive from [ValueError], and the lock's
    from [RuntimeError]. *)
Definition exn_isa (c base : exn_class) : bool :=
  bool_decide (c = base) ||
  match base, c with
  | ValueError, (ReaderUriError | ToolPolicyError | EgressGuardError | JSONDecodeError | RunAdmissionError) => true
  | RuntimeError, (DockerLockError | ServiceJobError | StorageError | InvalidObjectKey | UnsafePrefixDelete
                   | PreparedObjectIncomplete | PreparedObjectUnavailable | PreparedObjectCorrupt
                   | PublicationRecoveryPending | PublicationIntegrityError | PublicationRejected
                   | PublicationHeadUnavailable) => true
  | PublicationIntegrityError, PublicationRejected => true
  | StorageError, (InvalidObjectKey | UnsafePrefixDelete) => true
  | _, _ => false
  end.

Inductive res (A : Type) :=
  | Ok (a : A)
  | Raise (e : exn).
Arguments Ok {A} a.
Arguments Raise {A} e.

#[export] Instance res_eq_dec `{EqDecision A} : EqDecision (res A).
Proof. solve_decision. Defined.

Definition raise {A} (c : exn_class) (msg : string) : res A := Raise (Exn c msg).

#[export] Instance res_ret : MRet res := @Ok.
#[export] Instance res_bind : MBind res :=
  λ A B f m, match m with Ok a => f a | Raise e => Raise e end.

(** [try: body except cls: handler]. *)
Definition catch {A} (cls : exn_class) (body handler : res A) : res A :=
  match body with
  | Ok a => Ok a
  | Raise e => if exn_isa (exn_cls e) cls then handler else Raise e
  end.

Definition is_ok {A} (r : res A) : bool :=
  match r with Ok _ => true | Raise _ => false end.

(** [if not b: raise cls(msg)]. *)
Definition require (b : bool) (c : exn_class) (msg : string) : res unit := if b then Ok tt else raise c msg.

(** A loop over a list whose body may raise: [for x in l: body]. *)
Fixpoint mapR {A B} (f : A → res B) (l : list A) : res (list B) :=
  match l with
  | [] => Ok []
  | x :: l => y ← f x; ys ← mapR f l; Ok (y :: ys)
  end.

Fixpoint iterR {A} (f : A → res unit) (l : list A) : res unit :=
  match l with
  | [] => Ok tt
  | x :: l => _ ← f x; iterR f l
  end.

Fixpoint foldR {A S} (f : S → A → res S) (l : list A) (s : S) : res S :=
  match l with
  | [] => Ok s
  | x :: l => s' ← f s x; foldR f l s'
  end.

(** ** Booleans tested by membership in a literal collection *)

Definition mem `{EqDecision A} (x : A) (l : list A) : bool := bool_decide (x ∈ l).

(** [dict.fromkeys(l)] and [set(l)] read as a list: first occurrences, in order. *)
Fixpoint dedup_go `{EqDecision A} (seen l : list A) : list A :=
  match l with
  | [] => []
  | x :: l => if mem x seen then dedup_go seen l else x :: dedup_go (x :: seen) l
  end.
Definition dedup `{EqDecision A} (l : list A) : list A := dedup_go [] l.

(** [sorted] on strings: code-point order, stable insertion. *)
Section Sorting.
Context {A : Type} (leb : A → A → bool).

Fixpoint insert_by (x : A) (l : list A) : list A :=
  match l with
  | [] => [x]
  | y :: l' => if leb x y then x :: y :: l' else y :: insert_by x l'
  end.

(** Inserting from the right keeps equal keys in their original order. *)
Fixpoint sort_by (l : list A) : list A :=
  match l with
  | [] => []
  | x :: l => insert_by x (sort_by l)
  end.
End Sorting.

Definition sort_strings (l : list string) : list string := sort_by String.leb l.

(** ** Loops

    [while] with the number of its iterations bounded by a binary number: an
    iteration goes on from a state or leaves the loop with a result. *)
Section Loop.
Context {S R : Type} (body : S → S + R).

Fixpoint while (fuel : positive) (s : S) : S + R :=
  match fuel with
  | xH => body s
  | xO p => match while p s with inl s => while p s | inr r => inr r end
  | xI p =>
      match body s with
      | inl s => match while p s with inl s => while p s | inr r => inr r end
      | inr r => inr r
      end
  end.

(** [k] iterations that all go on. *)
Fixpoint goes_on (k : nat) (s s' : S) : Prop :=
  match k with
  | O => s = s'
  | Datatypes.S k => ∃ t, body s = inl t ∧ goes_on k t s'
  end.

Lemma goes_on_app j k s t u : goes_on j s t → goes_on k t u → goes_on (j + k) s u.
Proof.
  revert s; induction j as [|j IH]; simpl; intros s; [by intros -> |].
  intros (s' & Hs & H) Hk. eauto.
Qed.

Lemma goes_on_1 s t : body s = inl t → goes_on 1 s t.
Proof. intros H. exists t. done. Qed.

Lemma while_spec p s :
  match while p s with
  | inl s' => goes_on (Pos.to_nat p) s s'
  | inr r => ∃ k t, goes_on k s t ∧ body t = inr r
  end.
Proof.
  assert (Twice : ∀ p s,
    (∀ s, match while p s with
     | inl s' => goes_on (Pos.to_nat p) s s'
     | inr r => ∃ k t, goes_on k s t ∧ body t = inr r end) →
    match match while p s with inl s => while p s | inr r => inr r end with
    | inl s' => goes_on (Pos.to_nat p + Pos.to_nat p) s s'
    | inr r => ∃ k t, goes_on k s t ∧ body t = inr r end).
  { intros q x H. pose proof (H x) as H1. destruct (while q x) as [y|]; [|done].
    pose proof (H y) as H2. destruct (while q y) as [z|]; [by eapply goes_on_app|].
    destruct H2 as (k & t & Hk & Ht). exists (Pos.to_nat q + k)%nat, t. split; [by eapply goes_on_app|done]. }
  revert s; induction p as [p IH|p IH|]; intros s; cbn [while].
  - destruct (body s) as [s1|r] eqn:E; [|by exists 0%nat, s].
    specialize (Twice p s1 IH). destruct (match while p s1 with _ => _ end).
    + replace (Pos.to_nat p~1) with (1 + (Pos.to_nat p + Pos.to_nat p))%nat by lia.
      eapply goes_on_app; [by apply goes_on_1|done].
    + destruct Twice as (k & t & Hk & Ht). exists (1 + k)%nat, t.
      split; [by eapply goes_on_app; [apply goes_on_1|]|done].
  - specialize (Twice p s IH). destruct (match while p s with _ => _ end); [|done].
    by replace (Pos.to_nat p~0) with (Pos.to_nat p + Pos.to_nat p)%nat by lia.
  - destruct (body s) as [s1|r] eqn:E; [by apply goes_on_1|by exists 0%nat, s].
Qed.

Lemma goes_on_inv (I : S → Prop) k s s' :
  (∀ s s', I s → body s = inl s' → I s') → I s → goes_on k s s' → I s'.
Proof.
  intros Hstep. revert s; induction k as [|k IH]; simpl; intros s Hs; [by intros <-|].
  intros (t & Ht & Hk). eapply IH; [|exact Hk]. by eapply Hstep.
Qed.

(** What holds on leaving the loop. *)
Lemma while_inv (I : S → Prop) (Q : R → Prop) p s r :
  (∀ s s', I s → body s = inl s' → I s') →
  (∀ s r, I s → body s = inr r → Q r) →
  I s → while p s = inr r → Q r.
Proof.
  intros Hstep Hout Hs Hr. pose proof (while_spec p s) as H. rewrite Hr in H.
  destruct H as (k & t & Hk & Ht). eapply Hout; [|exact Ht]. by eapply goes_on_inv.
Qed.

(** A measure that every iteration decreases bounds their number. *)
Lemma while_terminates (I : S → Prop) (mu : S → N) p s :
  (∀ s s', I s → body s = inl s' → I s' ∧ (mu s' < mu s)%N) →
  I s → (mu s < Npos p)%N → ∃ r, while p s = inr r.
Proof.
  intros Hstep Hs Hmu. pose proof (while_spec p s) as H.
  destruct (while p s) as [s'|r]; [|eauto]. exfalso.
  assert (Hk : ∀ k s s', I s → goes_on k s s' → (N.of_nat k <= mu s)%N).
  { induction k as [|k IH]; simpl; intros x y Hx; [lia|]. intros (t & Ht & Hk).
    destruct (Hstep x t Hx Ht) as [HIt Hlt]. specialize (IH t y HIt Hk). lia. }
  specialize (Hk _ _ _ Hs H). lia.
Qed.
End Loop.

(** ** Dictionaries with string keys, in insertion order *)
Section Assoc.
Context {V : Type}.
Implicit Types d : list (string * V).

Fixpoint afind (k : string) d : option V :=
  match d with
  | [] => None
  | (k', v) :: d => if decide (k = k') then Some v else afind k d
  end.

(** [d[k] = v]: in place when the key is present, appended otherwise. *)
Fixpoint aput (k : string) (v : V) d : list (string * V) :=
  match d with
  | [] => [(k, v)]
  | (k', v') :: d => if decide (k = k') then (k', v) :: d else (k', v') :: aput k v d
  end.

(** [d.pop(k, None)]. *)
Fixpoint adel (k : string) d : list (string * V) :=
  match d with
  | [] => []
  | (k', v') :: d => if decide (k = k') then adel k d else (k', v') :: adel k d
  end.
End Assoc.

(** ** Tactics *)

(** Inverts every equation between results in the context. *)
Ltac inv_res :=
  repeat match goal with
  | H : Ok _ = Ok _ |- _ => injection H as H; subst
  | H : Raise _ = Raise _ |- _ => injection H as H; subst
  | H : Ok _ = Raise _ |- _ => discriminate H
  | H : Raise _ = Ok _ |- _ => discriminate H
  | H : raise _ _ = Ok _ |- _ => discriminate H
  | H : Ok _ = raise _ _ |- _ => discriminate H
  | H : mret _ = Ok _ |- _ => injection H as H; subst
  end.

(** Evaluates a decidable closed proposition. *)
Ltac decide_now := apply (bool_decide_unpack _); vm_compute; exact I.

(** Splits the scrutinee of the first [if]/[match] of a hypothesis. *)
Ltac step_in H :=
  match type of H with
  | context [ mbind _ ?m ] =>
      let E := fresh "E" in destruct m eqn:E; cbn [mbind res_bind] in H
  | context [ if ?b then _ else _ ] =>
      let E := fresh "E" in destruct b eqn:E
  | context [ match ?x with _ => _ end ] =>
      let E := fresh "E" in destruct x eqn:E
  end; try discriminate H.

(** Splits the outermost [if] of the goal, naming its equation. *)
Tactic Notation "step_if" ident(E) :=
  match goal with |- context [ if ?b then _ else _ ] => destruct b eqn:E end; try done.

Ltac step_goal :=
  match goal with
  | |- context [ if ?b then _ else _ ] => let E := fresh "E" in destruct b eqn:E
  | |- context [ match ?x with _ => _ end ] => let E := fresh "E" in destruct x eqn:E
  end.

(** Turns boolean facts of the context into propositions. *)
Ltac boolify :=
  repeat match goal with
  | H : negb _ = true |- _ => apply negb_true_iff in H
  | H : negb _ = false |- _ => apply negb_false_iff in H
  | H : _ && _ = true |- _ => apply andb_true_iff in H as [??]
  | H : _ || _ = false |- _ => apply orb_false_iff in H as [??]
  | H : bool_decide _ = true |- _ => apply bool_decide_eq_true in H
  | H : bool_decide _ = false |- _ => apply bool_decide_eq_false in H
  | H : (_ =? _)%string = true |- _ => apply String.eqb_eq in H
  | H : (_ =? _)%string = false |- _ => apply String.eqb_neq in H
  end.

(** ** Generic lemmas *)

Create HintDb py discriminated.
Create Rewrite HintDb py.

Lemma bind_ok {A B} (m : res A) (f : A → res B) b :
  m ≫= f = Ok b ↔ ∃ a, m = Ok a ∧ f a = Ok b.
Proof. destruct m; cbn; naive_solver. Qed.

Lemma require_ok b c msg x : require b c msg = Ok x ↔ b = true.
Proof. destruct b, x; simpl; split; done. Qed.

Lemma require_bind {A} b c msg (f : unit → res A) : b = true → mbind f (require b c msg) = f tt.
Proof. by intros ->. Qed.

(** A guard that holds. *)
Tactic Notation "pass" tactic3(t) := rewrite require_bind by t.

(** The guards a successful body passed, as booleans. *)
Ltac guards_in H :=
  repeat match type of H with
    | mbind _ (require _ _ _) = Ok _ =>
        let g := fresh "G" in apply bind_ok in H as (? & g%require_ok & H)
    end.

Lemma mapR_ok {A B} (f : A → res B) l k :
  mapR f l = Ok k ↔ Forall2 (λ x y, f x = Ok y) l k.
Proof.
  revert k; induction l as [|x l IH]; intros k; simpl.
  - split; [by intros [= <-]|by inversion 1].
  - rewrite bind_ok. setoid_rewrite bind_ok. setoid_rewrite IH. split.
    + intros (y & Hy & ys & Hys & [= <-]). by constructor.
    + inversion 1; subst; eauto.
Qed.

Lemma iterR_ok {A} (f : A → res unit) l :
  iterR f l = Ok tt ↔ Forall (λ x, f x = Ok tt) l.
Proof.
  induction l as [|x l IH]; simpl; [split; [constructor|done]|].
  rewrite Forall_cons, <- IH, bind_ok. split.
  - by intros ([] & ? & ?).
  - intros [? ?]; eauto.
Qed.

Lemma foldR_app {A S} (f : S → A → res S) l1 l2 s :
  foldR f (l1 ++ l2) s = (s' ← foldR f l1 s; foldR f l2 s').
Proof.
  revert s; induction l1 as [|x l1 IH]; intros s; simpl; [done|].
  destruct (f s x); simpl; auto.
Qed.

(** An invariant kept by every step of a fold holds after it. *)
Lemma foldR_inv {A S} (f : S → A → res S) (I : S → Prop) l s s' :
  (∀ s x s', x ∈ l → I s → f s x = Ok s' → I s') →
  I s → foldR f l s = Ok s' → I s'.
Proof.
  revert s; induction l as [|x l IH]; intros s Hstep Hs; simpl.
  - by intros [= <-].
  - rewrite bind_ok. intros (s1 & Hx & Hl). eapply IH; [|  |exact Hl].
    + intros ???? ; apply Hstep; set_solver.
    + eapply Hstep; [|done|exact Hx]. set_solver.
Qed.

Lemma mem_true `{EqDecision A} (x : A) l : mem x l = true ↔ x ∈ l.
Proof. unfold mem. by rewrite bool_decide_eq_true. Qed.

Lemma mem_false `{EqDecision A} (x : A) l : mem x l = false ↔ x ∉ l.
Proof. unfold mem. by rewrite bool_decide_eq_false. Qed.

Lemma existsb_elem {A} (f : A → bool) l :
  existsb f l = true ↔ ∃ x, x ∈ l ∧ f x = true.
Proof. rewrite existsb_exists. by setoid_rewrite <- list_elem_of_In. Qed.

Lemma forallb_elem {A} (f : A → bool) l :
  forallb f l = true ↔ ∀ x, x ∈ l → f x = true.
Proof. rewrite forallb_forall. by setoid_rewrite <- list_elem_of_In. Qed.

Lemma existsb_false_elem {A} (f : A → bool) l :
  existsb f l = false ↔ ∀ x, x ∈ l → f x = false.
Proof.
  rewrite <- not_true_iff_false, existsb_elem. split.
  - intros H x Hx. destruct (f x) eqn:E; [|done]. destruct H; eauto.
  - intros H (x & Hx & E). rewrite (H x Hx) in E. done.
Qed.

Section DedupFacts.
Context `{EqDecision A}.
Implicit Types l seen : list A.

Lemma elem_of_dedup_go x seen l :
  x ∈ dedup_go seen l ↔ x ∈ l ∧ x ∉ seen.
Proof.
  revert seen; induction l as [|y l IH]; intros seen; simpl; [set_solver|].
  destruct (mem y seen) eqn:E; [apply mem_true in E|apply mem_false in E].
  - rewrite IH. destruct (decide (x = y)); set_solver.
  - rewrite elem_of_cons, IH. destruct (decide (x = y)); set_solver.
Qed.

Lemma elem_of_dedup x l : x ∈ dedup l ↔ x ∈ l.
Proof. unfold dedup. rewrite elem_of_dedup_go. set_solver. Qed.

Lemma NoDup_dedup_go seen l : NoDup (dedup_go seen l).
Proof.
  revert seen; induction l as [|y l IH]; intros seen; simpl; [constructor|].
  destruct (mem y seen); [apply IH|].
  constructor; [|apply IH]. rewrite elem_of_dedup_go. set_solver.
Qed.

Lemma NoDup_dedup l : NoDup (dedup l).
Proof. apply NoDup_dedup_go. Qed.

Lemma dedup_perm l k : (∀ x, x ∈ l ↔ x ∈ k) → dedup l ≡ₚ dedup k.
Proof. intros H. apply NoDup_Permutation; [apply NoDup_dedup..|]. intros x. rewrite !elem_of_dedup. apply H. Qed.

Lemma dedup_go_NoDup seen l :
  NoDup l → (∀ x, x ∈ l → x ∉ seen) → dedup_go seen l = l.
Proof.
  revert seen; induction l as [|y l IH]; intros seen Hnd Hs; simpl; [done|].
  inversion Hnd; subst.
  destruct (mem y seen) eqn:E; [apply mem_true in E; set_solver|].
  f_equal. apply IH; [done|set_solver].
Qed.
End DedupFacts.

Section SortFacts.
Context {A : Type} (leb : A → A → bool).

Lemma insert_by_perm x l : insert_by leb x l ≡ₚ x :: l.
Proof.
  induction l as [|y l IH]; simpl; [done|].
  destruct (leb x y); [done|]. rewrite IH. constructor.
Qed.

Lemma sort_by_perm l : sort_by leb l ≡ₚ l.
Proof. induction l as [|x l IH]; simpl; [done|]. by rewrite insert_by_perm, IH. Qed.

Lemma elem_of_sort_by x l : x ∈ sort_by leb l ↔ x ∈ l.
Proof. by rewrite sort_by_perm. Qed.

Context (R : A → A → Prop) `{!Transitive R}.
Hypothesis leb_R : ∀ x y, leb x y = true → R x y.
Hypothesis leb_total : ∀ x y, leb x y = false → R y x.

Lemma insert_by_sorted x l :
  StronglySorted R l → StronglySorted R (insert_by leb x l).
Proof.
  induction 1 as [|y l Hl IH Hy]; simpl.
  - repeat constructor.
  - destruct (leb x y) eqn:E.
    + constructor; [by constructor|]. constructor; [by apply leb_R|].
      eapply Forall_impl; [exact Hy|]. intros z Hz. etrans; [|exact Hz]. by apply leb_R.
    + constructor; [done|]. rewrite insert_by_perm. constructor; [by apply leb_total|done].
Qed.

Lemma sort_by_sorted l : StronglySorted R (sort_by leb l).
Proof. induction l; simpl; [constructor|]. by apply insert_by_sorted. Qed.
End SortFacts.

Section ListFacts.
Context {A : Type}.
Implicit Types (f : A → bool) (l : list A).

Lemma elem_of_List_filter f x l : x ∈ List.filter f l ↔ x ∈ l ∧ f x = true.
Proof. by rewrite !list_elem_of_In, List.filter_In. Qed.

Lemma elem_of_List_filter_fmap {B} (g : B → A) f x (l : list B) :
  x ∈ List.filter f (g <$> l) ↔ ∃ y, x = g y ∧ y ∈ l ∧ f (g y) = true.
Proof. rewrite elem_of_List_filter, list_elem_of_fmap. naive_solver. Qed.

Lemma filter_all_of f l : (∀ x, x ∈ l → f x = true) → List.filter f l = l.
Proof.
  induction l as [|x l IH]; simpl; intros H; [done|]. rewrite (H x) by left. f_equal. apply IH. intros y Hy. apply H. by right.
Qed.

Lemma filter_nil_of f l : (∀ x, x ∈ l → f x = false) → List.filter f l = [].
Proof.
  induction l as [|x l IH]; simpl; [done|]. intros H. rewrite H by set_solver. apply IH. set_solver.
Qed.

Lemma find_unique f l x :
  x ∈ l → f x = true → (∀ y, y ∈ l → f y = true → y = x) → List.find f l = Some x.
Proof.
  induction l as [|y l IH]; simpl; [set_solver|]. intros Hx Hf Hu. destruct (f y) eqn:E.
  - f_equal. apply Hu; [set_solver|done].
  - apply IH; [|done|set_solver]. apply elem_of_cons in Hx as [->|Hx]; [congruence|done].
Qed.

Lemma List_filter_perm f l :
  List.filter f l ++ List.filter (λ x, negb (f x)) l ≡ₚ l.
Proof.
  induction l as [|x l IH]; simpl; [done|]. destruct (f x); simpl; [by rewrite IH|].
  by rewrite <- Permutation_middle, IH.
Qed.

#[export] Instance List_filter_Permutation f : Proper ((≡ₚ) ==> (≡ₚ)) (List.filter f).
Proof.
  intros l k. induction 1 as [|x l k _ IH|x y l|l k m _ IH1 _ IH2]; simpl; [done|by destruct (f x); rewrite IH| |by rewrite IH1].
  destruct (f x), (f y); try done. apply Permutation_swap.
Qed.

Lemma StronglySorted_filter (R : A → A → Prop) f l :
  StronglySorted R l → StronglySorted R (List.filter f l).
Proof.
  induction 1 as [|x l Hl IH Hx]; simpl; [constructor|]. destruct (f x); [|done].
  constructor; [done|]. rewrite Forall_forall in Hx |- *.
  intros y [Hy _]%elem_of_List_filter. by apply Hx.
Qed.

Lemma StronglySorted_lookup (R : A → A → Prop) l i j x y :
  StronglySorted R l → l !! i = Some x → l !! j = Some y → (i < j)%nat → R x y.
Proof.
  intros Hs. revert i j. induction Hs as [|z l _ IH Hz]; intros [|i] [|j] Hi Hj Hlt; simpl in *; try done; try lia.
  - injection Hi as ->. eapply (proj1 (Forall_forall _ _) Hz). by eapply list_elem_of_lookup_2.
  - eapply IH; eauto. lia.
Qed.

Lemma StronglySorted_cross (R : A → A → Prop) l k x y :
  StronglySorted R (l ++ k) → x ∈ l → y ∈ k → R x y.
Proof.
  induction l as [|z l IH]; simpl; [set_solver|]. intros H Hx Hy. inversion H as [|?? Hs Hf]; subst.
  apply elem_of_cons in Hx as [->|Hx]; [|by apply IH].
  rewrite Forall_forall in Hf. apply Hf. set_solver.
Qed.
End ListFacts.

Section AssocFacts.
Context {V : Type}.
Implicit Types d : list (string * V).

Lemma afind_elem k v d : afind k d = Some v → (k, v) ∈ d.
Proof. induction d as [|[j w] d IH]; simpl; [done|]. case_decide; [intros [= ->]|]; set_solver. Qed.

Lemma afind_None k d : afind k d = None ↔ k ∉ d.*1.
Proof. induction d as [|[j w] d IH]; simpl; [set_solver|]. case_decide; set_solver. Qed.

Lemma elem_of_afind k v d : NoDup d.*1 → (k, v) ∈ d ↔ afind k d = Some v.
Proof.
  intros Hnd. split; [|apply afind_elem].
  induction d as [|[j w] d IH]; simpl in *; [set_solver|].
  apply NoDup_cons in Hnd as [Hj Hnd]. rewrite elem_of_cons. intros [[= -> ->]|Hin].
  - by rewrite decide_True.
  - rewrite decide_False; [by apply IH|]. intros ->. apply Hj.
    apply list_elem_of_fmap. by exists (j, v).
Qed.

Lemma afind_aput k k' v d : afind k (aput k' v d) = if decide (k = k') then Some v else afind k d.
Proof. induction d as [|[j w] d IH]; simpl; repeat (case_decide; simpl); naive_solver. Qed.

Lemma keys_aput_in k v d : k ∈ d.*1 → (aput k v d).*1 = d.*1.
Proof.
  induction d as [|[j w] d IH]; simpl; [set_solver|]. case_decide; simpl; [done|].
  intros Hk. f_equal. apply IH. set_solver.
Qed.

Lemma aput_new k v d : k ∉ d.*1 → aput k v d = d ++ [(k, v)].
Proof.
  induction d as [|[j w] d IH]; simpl; [done|]. rewrite not_elem_of_cons. intros [Hj Hk].
  rewrite decide_False by done. by rewrite IH.
Qed.

Lemma NoDup_aput k v d : NoDup d.*1 → NoDup (aput k v d).*1.
Proof.
  intros Hnd. destruct (decide (k ∈ d.*1)); [by rewrite keys_aput_in|].
  rewrite aput_new, fmap_app by done. apply NoDup_app. split; [done|]. split; [set_solver|].
  apply NoDup_singleton.
Qed.

Lemma elem_of_adel x k d : x ∈ adel k d ↔ x ∈ d ∧ x.1 ≠ k.
Proof.
  induction d as [|[j w] d IH]; simpl; [set_solver|].
  case_decide; subst; rewrite ?elem_of_cons, IH; destruct x; naive_solver.
Qed.

Lemma NoDup_adel k d : NoDup d.*1 → NoDup (adel k d).*1.
Proof.
  induction d as [|[j w] d IH]; simpl; [done|]. intros [Hj Hnd]%NoDup_cons.
  case_decide; simpl; [by apply IH|]. apply NoDup_cons. split; [|by apply IH].
  rewrite list_elem_of_fmap. intros (y & -> & [Hy _]%elem_of_adel).
  apply Hj. apply list_elem_of_fmap. eauto.
Qed.

Lemma adel_notin k d : k ∉ d.*1 → adel k d = d.
Proof.
  induction d as [|[j w] d IH]; simpl; [done|]. rewrite not_elem_of_cons. intros [Hj Hk].
  rewrite decide_False by done. by rewrite IH.
Qed.

Lemma length_adel k d : NoDup d.*1 → k ∈ d.*1 → S (length (adel k d)) = length d.
Proof.
  induction d as [|[j w] d IH]; simpl; [set_solver|]. intros [Hj Hnd]%NoDup_cons Hk.
  case_decide; subst; simpl.
  - by rewrite adel_notin.
  - rewrite IH; [done|done|set_solver].
Qed.
End AssocFacts.

#[export] Hint Resolve NoDup_dedup : py.
#[export] Hint Rewrite @elem_of_dedup @mem_true @mem_false : py.
