(* ===== verification/PyStr.v ===== *)
(** Python [str] values and the methods the code calls on them.

    A string is a sequence of code points below 256 (Latin-1), one [ascii] each:
    on those, [lower], [strip], [isalnum] and the other character classes are
    the ones of the Unicode database, not an ASCII approximation.  A string with
    a code point above U+00FF has no counterpart here.  [sorted] on strings is
    code-point order ([String.leb]). *)
From S2P Require Import Prelude.

#[global] Arguments String.append !_ _ / : simpl nomatch.

Open Scope N_scope.

(** ** Characters *)

Definition code (c : ascii) : N := N_of_ascii c.

Definition between (lo hi : N) (c : ascii) : bool := (lo <=? code c) && (code c <=? hi).

(** [str.isspace] of a character. *)
Definition is_space (c : ascii) : bool :=
  between 9 13 c || between 28 32 c || (code c =? 133) || (code c =? 160).

Definition is_ascii_upper (c : ascii) : bool := between 65 90 c.
Definition is_ascii_lower (c : ascii) : bool := between 97 122 c.
Definition is_ascii_alpha (c : ascii) : bool := is_ascii_upper c || is_ascii_lower c.
Definition is_dec_digit (c : ascii) : bool := between 48 57 c.
Definition is_ascii_alnum (c : ascii) : bool := is_ascii_alpha c || is_dec_digit c.

(** Hexadecimal digits, as [int(_, 16)] and [[0-9a-fA-F]] read them. *)
Definition is_lower_hex (c : ascii) : bool := is_dec_digit c || between 97 102 c.
Definition is_hex_digit (c : ascii) : bool := is_lower_hex c || between 65 70 c.

(** [str.isalpha]: ASCII letters, feminine/masculine ordinals, micro sign and
    the accented letters. *)
Definition is_alpha (c : ascii) : bool :=
  is_ascii_alpha c || (code c =? 170) || (code c =? 181) || (code c =? 186)
  || (between 192 255 c && negb (code c =? 215) && negb (code c =? 247)).

(** [str.isdigit]: decimal digits and superscripts. *)
Definition is_digit (c : ascii) : bool :=
  is_dec_digit c || (code c =? 178) || (code c =? 179) || (code c =? 185).

(** [str.isalnum]: letters, digits and the vulgar fractions. *)
Definition is_alnum (c : ascii) : bool := is_alpha c || is_digit c || between 188 190 c.

(** A control character: [ord(c) < 32 or ord(c) == 127]. *)
Definition is_control (c : ascii) : bool := (code c <? 32) || (code c =? 127).

Definition lower_char (c : ascii) : ascii :=
  if is_ascii_upper c || (between 192 222 c && negb (code c =? 215))
  then ascii_of_N (code c + 32) else c.

Open Scope nat_scope.

(** ** Strings *)

Abbreviation slen := String.length.

Fixpoint sall (p : ascii → bool) (s : string) : bool :=
  match s with "" => true | String c s => p c && sall p s end.

Definition sany (p : ascii → bool) (s : string) : bool := negb (sall (λ c, negb (p c)) s).

(** ["".join(c for c in s if p(c))]. *)
Fixpoint sfilter (p : ascii → bool) (s : string) : string :=
  match s with "" => "" | String c s => if p c then String c (sfilter p s) else sfilter p s end.

Fixpoint smap (f : ascii → ascii) (s : string) : string :=
  match s with "" => "" | String c s => String (f c) (smap f s) end.

(** [c in s] for a one-character [c]. *)
Definition char_in (c : ascii) (s : string) : bool := sany (λ d, bool_decide (c = d)) s.

Definition lower (s : string) : string := smap lower_char s.

(** [upper]: sharp s becomes "SS".  (The micro sign and y with diaeresis have capitals
    outside Latin-1; they are kept, and neither they nor their capitals equal an
    ASCII letter.) *)
Definition upper_char (c : ascii) : ascii :=
  if is_ascii_lower c || (between 224 254 c && negb (code c =? 247)%N)
  then ascii_of_N (code c - 32) else c.
Fixpoint upper (s : string) : string :=
  match s with
  | "" => ""
  | String c s => if (code c =? 223)%N then String "S" (String "S" (upper s)) else String (upper_char c) (upper s)
  end.

(** [casefold]: as [lower], except that sharp s becomes "ss".  (The micro sign
    folds to U+03BC, which is not Latin-1; it is kept, and like U+03BC it equals
    no ASCII letter.) *)
Fixpoint casefold (s : string) : string :=
  match s with
  | "" => ""
  | String c s =>
      if (code c =? 223)%N then "ss" +:+ casefold s else String (lower_char c) (casefold s)
  end.

Definition is_ascii (s : string) : bool := sall (λ c, (code c <? 128)%N) s.

(** The truth value of a string. *)
Definition nonempty (s : string) : bool := negb (bool_decide (s = "")).

(** A non-empty string of characters of a class: [fullmatch] of [[class]+]. *)
Definition all_of (p : ascii → bool) (s : string) : bool :=
  nonempty s && sall p s.

Fixpoint lstrip_by (p : ascii → bool) (s : string) : string :=
  match s with
  | "" => ""
  | String c s' => if p c then lstrip_by p s' else s
  end.

Fixpoint rstrip_by (p : ascii → bool) (s : string) : string :=
  match s with
  | "" => ""
  | String c s' =>
      let r := rstrip_by p s' in
      if p c && bool_decide (r = "") then "" else String c r
  end.

Definition strip_by (p : ascii → bool) (s : string) : string := rstrip_by p (lstrip_by p s).

(** [s.strip()] and [s.strip(c)], [s.rstrip(c)] for a one-character [c]. *)
Definition strip (s : string) : string := strip_by is_space s.
Definition is_char (c d : ascii) : bool := bool_decide (d = c).
Definition strip_char (c : ascii) (s : string) : string := strip_by (is_char c) s.
Definition rstrip_char (c : ascii) (s : string) : string := rstrip_by (is_char c) s.
Definition lstrip_char (c : ascii) (s : string) : string := lstrip_by (is_char c) s.

Fixpoint startswith (p s : string) : bool :=
  match p, s with
  | "", _ => true
  | String c p, String d s => bool_decide (c = d) && startswith p s
  | _, _ => false
  end.

Definition endswith (p s : string) : bool := startswith (String.rev p) (String.rev s).

(** [s.startswith(tuple)]. *)
Definition startswith_any (ps : list string) (s : string) : bool :=
  existsb (λ p, startswith p s) ps.

(** [sub in s]. *)
Fixpoint contains (sub s : string) : bool :=
  startswith sub s || match s with "" => false | String _ s => contains sub s end.

(** [s.split(c)]: never empty. *)
Fixpoint split_on (c : ascii) (s : string) : list string :=
  match s with
  | "" => [""]
  | String d s =>
      if decide (d = c) then "" :: split_on c s
      else match split_on c s with
           | [] => [String d ""]
           | w :: ws => String d w :: ws
           end
  end.

(** [s.split(c, 1)]: the part before the first [c], and the part after it. *)
Fixpoint split_once (c : ascii) (s : string) : string * option string :=
  match s with
  | "" => ("", None)
  | String d s =>
      if decide (d = c) then ("", Some s)
      else let '(a, b) := split_once c s in (String d a, b)
  end.

(** [sep.join(parts)]. *)
Fixpoint join (sep : string) (l : list string) : string :=
  match l with
  | [] => ""
  | [w] => w
  | w :: l => w +:+ sep +:+ join sep l
  end.

Definition one (c : ascii) : string := String c "".

(** Slices [s[:n]] and [s[n:]] with [n >= 0]. *)
Fixpoint stake (n : nat) (s : string) : string :=
  match n, s with
  | S n, String c s => String c (stake n s)
  | _, _ => ""
  end.

Fixpoint sdrop (n : nat) (s : string) : string :=
  match n, s with
  | S n, String c s => sdrop n s
  | _, _ => s
  end.

(** [s[n]], [None] for an [IndexError]. *)
Fixpoint char_at (n : nat) (s : string) : option ascii :=
  match n, s with
  | _, "" => None
  | O, String c _ => Some c
  | S n, String _ s => char_at n s
  end.

Definition last_char (s : string) : option ascii :=
  match s with "" => None | _ => char_at (slen s - 1) s end.

(** [s.count(c)] for a one-character [c]. *)
Fixpoint count_char (c : ascii) (s : string) : nat :=
  match s with
  | "" => 0
  | String d s => (if decide (d = c) then 1 else 0) + count_char c s
  end.

Fixpoint repeat_char (n : nat) (c : ascii) : string :=
  match n with O => "" | S n => String c (repeat_char n c) end.

(** The text of a literal written in UTF-8, within Latin-1. *)
Fixpoint of_utf8 (s : string) : string :=
  match s with
  | String c ((String d t) as s) =>
      if (code c =? 194)%N || (code c =? 195)%N then String (ascii_of_N ((code c - 192) * 64 + (code d - 128))) (of_utf8 t)
      else String c (of_utf8 s)
  | s => s
  end.

(** ** Decimal text *)

(** [str(z)] of an [int]. *)
Definition str_of_Z (z : Z) : string := pretty z.

(** The digits of an [int] literal: decimal digits with single underscores
    between them. *)
Fixpoint parse_digits (acc : Z) (after_digit : bool) (s : string) : option Z :=
  match s with
  | "" => if after_digit then Some acc else None
  | String c s =>
      if is_dec_digit c
      then parse_digits (10 * acc + Z.of_N (code c - 48)) true s
      else if bool_decide (c = "_"%char) && after_digit then parse_digits acc false s
      else None
  end.

(** [int(s)] of a string; [None] is its [ValueError]. *)
Definition parse_int (s : string) : option Z :=
  match strip s with
  | String "+" s => parse_digits 0 false s
  | String "-" s => Z.opp <$> parse_digits 0 false s
  | s => parse_digits 0 false s
  end.

(** ** Facts *)

Lemma ascii_ind_all (P : ascii → bool) :
  (forallb P (ascii_of_N <$> (N.of_nat <$> seq 0 256))) = true → ∀ c, P c = true.
Proof.
  intros H c. rewrite forallb_elem in H.
  rewrite <- (ascii_N_embedding c). apply H.
  apply list_elem_of_fmap_2, list_elem_of_fmap. exists (N.to_nat (N_of_ascii c)). split; [lia|].
  apply elem_of_seq. pose proof (N_ascii_bounded c). lia.
Qed.

Lemma lower_char_idem c : lower_char (lower_char c) = lower_char c.
Proof.
  apply Ascii.eqb_eq. revert c.
  apply (ascii_ind_all (λ c, Ascii.eqb (lower_char (lower_char c)) (lower_char c))).
  by vm_compute.
Qed.

Lemma smap_smap f g s : smap f (smap g s) = smap (λ c, f (g c)) s.
Proof. induction s; by f_equal/=. Qed.

Lemma smap_ext f g s : (∀ c, f c = g c) → smap f s = smap g s.
Proof. intros H. induction s; simpl; by rewrite ?H; f_equal. Qed.

Lemma lower_idem s : lower (lower s) = lower s.
Proof. unfold lower. rewrite smap_smap. apply smap_ext, lower_char_idem. Qed.

Lemma smap_app f s t : smap f (s +:+ t) = smap f s +:+ smap f t.
Proof. induction s; simpl; [done|]. by rewrite IHs. Qed.

Lemma lower_app s t : lower (s +:+ t) = lower s +:+ lower t.
Proof. apply smap_app. Qed.

Lemma length_smap f s : slen (smap f s) = slen s.
Proof. induction s; simpl; congruence. Qed.

Lemma app_assoc_s (s t u : string) : (s +:+ t) +:+ u = s +:+ t +:+ u.
Proof. induction s; simpl; [done|]. by rewrite IHs. Qed.

Lemma app_nil_r_s (s : string) : s +:+ "" = s.
Proof. induction s; simpl; [done|]. by rewrite IHs. Qed.

Lemma length_app_s (s t : string) : slen (s +:+ t) = slen s + slen t.
Proof. induction s; simpl; congruence. Qed.

Lemma sall_app p s t : sall p (s +:+ t) = sall p s && sall p t.
Proof. induction s; simpl; [done|]. by rewrite IHs, andb_assoc. Qed.

Lemma app_nil_s (s t : string) : s +:+ t = "" → s = "" ∧ t = "".
Proof. by destruct s. Qed.

Lemma sall_impl (p q : ascii → bool) s :
  (∀ c, p c = true → q c = true) → sall p s = true → sall q s = true.
Proof. intros H. induction s; simpl; [done|]. rewrite !andb_true_iff. naive_solver. Qed.

Lemma char_in_head c d s : char_in c (String d s) = bool_decide (c = d) || char_in c s.
Proof. unfold char_in, sany. simpl. by rewrite negb_andb, negb_involutive. Qed.

Lemma char_not_in (p : ascii → bool) c s : p c = false → sall p s = true → char_in c s = false.
Proof.
  intros Hc. induction s as [|d s IH]; [done|]. simpl. intros [Hd Hs]%andb_true_iff. rewrite char_in_head, IH by done.
  rewrite bool_decide_eq_false_2; [done|]. intros ->. congruence.
Qed.

Lemma startswith_spec p s : startswith p s = true ↔ ∃ t, s = p +:+ t.
Proof.
  revert s; induction p as [|c p IH]; intros s; simpl; [naive_solver|].
  destruct s as [|d s]; [naive_solver|].
  rewrite andb_true_iff, bool_decide_eq_true, IH. naive_solver.
Qed.

Lemma startswith_app p s : startswith p (p +:+ s) = true.
Proof. apply startswith_spec. eauto. Qed.

Lemma startswith_refl s : startswith s s = true.
Proof. apply startswith_spec. exists "". by rewrite app_nil_r_s. Qed.

Lemma startswith_snoc p s t : slen p ≤ slen s → startswith p (s +:+ t) = startswith p s.
Proof.
  revert s; induction p as [|c p IH]; intros [|d s] Hl; simpl in *; try lia; try done.
  rewrite IH by lia. done.
Qed.

Lemma startswith_trans p q s :
  startswith p q = true → startswith q s = true → startswith p s = true.
Proof. rewrite !startswith_spec. intros [t ->] [u ->]. exists (t +:+ u). apply app_assoc_s. Qed.

Lemma rev_app_spec s t : String.rev_app s t = String.rev s +:+ t.
Proof.
  unfold String.rev. revert t. induction s as [|c s IH]; intros t; simpl; [done|].
  rewrite IH, (IH (String c "")), app_assoc_s. done.
Qed.

Lemma rev_cons c s : String.rev (String c s) = String.rev s +:+ one c.
Proof. unfold String.rev. simpl. apply rev_app_spec. Qed.

Lemma rev_app_distr_s s t : String.rev (s +:+ t) = String.rev t +:+ String.rev s.
Proof.
  induction s as [|c s IH]; [by rewrite app_nil_r_s|].
  simpl. rewrite !rev_cons, IH, app_assoc_s. done.
Qed.

Lemma rev_involutive_s s : String.rev (String.rev s) = s.
Proof. induction s as [|c s IH]; [done|]. rewrite rev_cons, rev_app_distr_s, IH. done. Qed.

Lemma endswith_spec p s : endswith p s = true ↔ ∃ t, s = t +:+ p.
Proof.
  unfold endswith. rewrite startswith_spec. split.
  - intros [t Ht]. exists (String.rev t).
    by rewrite <- (rev_involutive_s s), Ht, rev_app_distr_s, rev_involutive_s.
  - intros [t ->]. exists (String.rev t). apply rev_app_distr_s.
Qed.

Lemma endswith_app p s : endswith p (s +:+ p) = true.
Proof. apply endswith_spec. eauto. Qed.

Lemma contains_spec sub s : contains sub s = true ↔ ∃ a b, s = a +:+ sub +:+ b.
Proof.
  induction s as [|c s IH]; simpl; rewrite orb_true_iff, startswith_spec.
  - split; [intros [[t Ht]|?]; [by exists "", t|done]|]. intros (a & b & H). left. exists b.
    destruct a; simpl in H; [done|]. discriminate.
  - rewrite IH. split.
    + intros [[t ->]|(a & b & ->)]; [by exists "", t|by exists (String c a), b].
    + intros ([|d a] & b & H); simpl in H; [left; eauto|]. injection H as -> ->. right; eauto.
Qed.

Lemma nonempty_true s : nonempty s = true ↔ s ≠ "".
Proof. unfold nonempty. by rewrite negb_true_iff, bool_decide_eq_false. Qed.

Lemma char_in_false c s : char_in c s = false ↔ sall (λ d, negb (bool_decide (c = d))) s = true.
Proof. unfold char_in, sany. by rewrite negb_false_iff. Qed.

Lemma char_in_app c s t : char_in c (s +:+ t) = char_in c s || char_in c t.
Proof. unfold char_in, sany. by rewrite sall_app, negb_andb. Qed.

Lemma rstrip_by_nil p s : rstrip_by p s = "" ↔ sall p s = true.
Proof.
  induction s as [|c s IH]; simpl; [done|].
  destruct (p c); simpl; [|done]. case_bool_decide; naive_solver.
Qed.

Lemma rstrip_by_idem p s : rstrip_by p (rstrip_by p s) = rstrip_by p s.
Proof.
  induction s as [|c s IH]; simpl; [done|].
  destruct (p c && bool_decide (rstrip_by p s = "")) eqn:E; [done|].
  simpl. rewrite IH, E. done.
Qed.

Lemma rstrip_by_last p s t d : rstrip_by p s = t +:+ one d → p d = false.
Proof.
  revert t; induction s as [|c s IH]; intros t; simpl; [by destruct t|].
  destruct (p c && bool_decide (rstrip_by p s = "")) eqn:E; [by destruct t|].
  destruct t as [|c' t]; simpl; intros [= -> Hr].
  - rewrite Hr in E. simpl in E. by rewrite andb_true_r in E.
  - by eapply IH.
Qed.

(** What [rstrip(c)] removes is a run of [c]. *)
Lemma rstrip_char_spec c s : ∃ n, s = rstrip_char c s +:+ repeat_char n c.
Proof.
  unfold rstrip_char. induction s as [|d s [n IH]]; simpl; [by exists 0|].
  destruct (is_char c d && _) eqn:E.
  - apply andb_true_iff in E as [Hd Hr]. unfold is_char in Hd.
    apply bool_decide_eq_true in Hd, Hr. subst d. rewrite Hr in IH. simpl in IH.
    exists (S n). simpl. by f_equal.
  - exists n. simpl. by f_equal.
Qed.

Lemma lstrip_by_head p s c t : lstrip_by p s = String c t → p c = false.
Proof. induction s as [|d s IH]; simpl; [done|]. destruct (p d) eqn:E; naive_solver. Qed.

Lemma rstrip_by_head p c s : p c = false → rstrip_by p (String c s) = String c (rstrip_by p s).
Proof. simpl. by intros ->. Qed.

Lemma strip_by_cases p s :
  strip_by p s = "" ∨ ∃ c t, strip_by p s = String c t ∧ p c = false.
Proof.
  unfold strip_by. destruct (lstrip_by p s) as [|c t] eqn:E; [by left|].
  apply lstrip_by_head in E as Hc. right.
  exists c, (rstrip_by p t). by rewrite rstrip_by_head.
Qed.

Lemma strip_by_idem p s : strip_by p (strip_by p s) = strip_by p s.
Proof.
  destruct (strip_by_cases p s) as [E|(c & t & E & Hc)].
  - rewrite E. done.
  - unfold strip_by at 1. rewrite E. simpl lstrip_by. rewrite Hc, <- E.
    unfold strip_by. apply rstrip_by_idem.
Qed.

Lemma strip_idem s : strip (strip s) = strip s.
Proof. apply strip_by_idem. Qed.

(** *** Splitting and joining *)

Lemma split_on_cons c s : ∃ w ws, split_on c s = w :: ws.
Proof.
  induction s as [|d s (w & ws & IH)]; simpl; [eauto|].
  case_decide; [eauto|]. rewrite IH. eauto.
Qed.

Lemma split_on_not_nil c s : split_on c s ≠ [].
Proof. destruct (split_on_cons c s) as (? & ? & ->). done. Qed.

Lemma join_cons sep w ws :
  ws ≠ [] → join sep (w :: ws) = w +:+ sep +:+ join sep ws.
Proof. by destruct ws. Qed.

Lemma join_split c s : join (one c) (split_on c s) = s.
Proof.
  induction s as [|d s IHs]; simpl; [done|].
  destruct (split_on_cons c s) as (w & ws & E). rewrite E in *.
  case_decide as Hd.
  - rewrite join_cons by done. rewrite IHs, Hd. done.
  - destruct ws as [|v ws]; simpl in *; by rewrite IHs.
Qed.

Lemma join_split_slash s : join "/" (split_on "/" s) = s.
Proof. exact (join_split "/" s). Qed.

Lemma split_on_no_sep c s w : w ∈ split_on c s → char_in c w = false.
Proof.
  revert w; induction s as [|d s IH]; simpl; intros w.
  - intros ->%list_elem_of_singleton. done.
  - case_decide; [intros [->|]%elem_of_cons; [done|auto]|].
    destruct (split_on_cons c s) as (v & vs & E). rewrite E in *.
    intros [->|Hw]%elem_of_cons; [|apply IH; set_solver].
    apply char_in_false. simpl. rewrite bool_decide_eq_false_2 by congruence. simpl.
    apply char_in_false, IH. set_solver.
Qed.

Lemma split_on_plain c s : char_in c s = false → split_on c s = [s].
Proof.
  induction s as [|d s IH]; simpl; [done|].
  rewrite char_in_false. simpl. rewrite andb_true_iff, negb_true_iff, bool_decide_eq_false.
  intros [Hd Hs%char_in_false]. rewrite decide_False by congruence. by rewrite IH.
Qed.

Lemma split_on_app c s t :
  char_in c s = false → split_on c (s +:+ one c +:+ t) = s :: split_on c t.
Proof.
  induction s as [|d s IH]; simpl; [by rewrite decide_True|].
  rewrite char_in_false. simpl. rewrite andb_true_iff, negb_true_iff, bool_decide_eq_false.
  intros [Hd Hs%char_in_false]. rewrite decide_False by congruence.
  simpl in IH. by rewrite IH.
Qed.

Lemma split_on_app_gen c s t :
  split_on c (s +:+ one c +:+ t) = split_on c s ++ split_on c t.
Proof.
  induction s as [|d s IH]; simpl; [by rewrite decide_True|].
  simpl in IH. rewrite IH. case_decide; [done|].
  destruct (split_on_cons c s) as (w & ws & ->). done.
Qed.

(** No empty part: no separator at either end and none doubled. *)
Lemma no_empty_part c s :
  "" ∉ split_on c s →
  startswith (one c) s = false ∧ endswith (one c) s = false ∧
  contains (one c +:+ one c) s = false.
Proof.
  intros Hs. rewrite <- !not_true_iff_false. split_and!.
  - rewrite startswith_spec. intros [t ->]. apply Hs.
    simpl. rewrite decide_True by done. set_solver.
  - intros [t Ht]%endswith_spec. apply Hs. subst s.
    rewrite <- (app_nil_r_s (one c)), split_on_app_gen. set_solver.
  - rewrite contains_spec. intros (a & b & ->). apply Hs.
    rewrite app_assoc_s, split_on_app_gen. simpl. rewrite decide_True by done. set_solver.
Qed.

Lemma sall_split_join p c s :
  Forall (λ w, sall p w = true) (split_on c s) → sall (λ d, p d || is_char c d) s = true.
Proof.
  induction s as [|d s IH]; simpl; [done|]. case_decide as Hd.
  - intros [_ H]%Forall_cons. unfold is_char at 1. rewrite bool_decide_eq_true_2 by done.
    rewrite orb_true_r. auto.
  - destruct (split_on_cons c s) as (w & ws & E). rewrite E in *.
    intros [Hw H]%Forall_cons. simpl in Hw. apply andb_true_iff in Hw as [-> Hw]. simpl.
    apply IH. by constructor.
Qed.

(** A string none of whose characters is stripped is stripped already. *)
Lemma strip_by_id p s : sall (λ c, negb (p c)) s = true → strip_by p s = s.
Proof.
  intros Hs. assert (lstrip_by p s = s ∧ rstrip_by p s = s) as [H1 H2].
  { induction s as [|c s IH]; [done|]. simpl in *.
    apply andb_true_iff in Hs as [Hc%negb_true_iff Hs]. rewrite Hc. simpl.
    destruct (IH Hs) as [_ ->]. done. }
  unfold strip_by. by rewrite H1, H2.
Qed.

Lemma split_join c l :
  l ≠ [] → Forall (λ w, char_in c w = false) l → split_on c (join (one c) l) = l.
Proof.
  intros Hne. induction 1 as [|w l Hw Hl IH]; [done|].
  destruct l as [|v l]; [by apply split_on_plain|].
  rewrite join_cons by done. rewrite split_on_app by done. by rewrite IH.
Qed.

Lemma elem_of_split_sall p c s w :
  sall p s = true → w ∈ split_on c s → sall p w = true.
Proof.
  revert w; induction s as [|d s IH]; simpl; intros w.
  - intros _ ->%list_elem_of_singleton. done.
  - intros [Hd Hs]%andb_true_iff.
    case_decide; [intros [->|]%elem_of_cons; [done|auto]|].
    destruct (split_on_cons c s) as (v & vs & E). rewrite E in *.
    intros [->|Hw]%elem_of_cons; [|apply IH; set_solver].
    simpl. rewrite Hd. apply IH; set_solver.
Qed.

(** *** Slices *)

Lemma stake_sdrop n s : stake n s +:+ sdrop n s = s.
Proof. revert s; induction n; intros [|c s]; simpl; try done. by rewrite IHn. Qed.

Lemma sall_stake p n s : sall p s = true → sall p (stake n s) = true.
Proof. intros Hs. rewrite <- (stake_sdrop n s) in Hs. rewrite sall_app in Hs. by apply andb_true_iff in Hs as [? _]. Qed.

Lemma sall_sfilter p s : sall p (sfilter p s) = true.
Proof. induction s as [|c s IH]; [done|]. simpl. destruct (p c) eqn:E; [simpl; by rewrite E|done]. Qed.

Lemma length_stake n s : slen (stake n s) = n `min` slen s.
Proof. revert s; induction n; intros [|c s]; simpl; auto. Qed.

Lemma length_sdrop n s : slen (sdrop n s) = slen s - n.
Proof. revert s; induction n; intros [|c s]; simpl; auto. Qed.

Lemma sdrop_app s t : sdrop (slen s) (s +:+ t) = t.
Proof. induction s; simpl; auto. Qed.

Lemma stake_app s t : stake (slen s) (s +:+ t) = s.
Proof. induction s; simpl; congruence. Qed.

Lemma stake_snoc c s : stake (slen (s +:+ one c) - 1) (s +:+ one c) = s.
Proof.
  rewrite length_app_s. replace (slen s + slen (one c) - 1) with (slen s) by (simpl; lia).
  apply stake_app.
Qed.

Lemma snoc_cases s : s = "" ∨ ∃ t c, s = t +:+ one c.
Proof.
  induction s as [|c s [->|(t & d & ->)]]; [by left|right; by exists "", c|].
  right. by exists (String c t), d.
Qed.

Lemma snoc_inj s t c d : s +:+ one c = t +:+ one d → s = t ∧ c = d.
Proof.
  intros Hst. split.
  - by rewrite <- (stake_snoc c s), Hst, stake_snoc.
  - apply (f_equal String.rev) in Hst. rewrite !rev_app_distr_s in Hst. by injection Hst.
Qed.

(** A final separator doubles nothing when the string did not end with one. *)
Lemma contains_double_snoc c s :
  contains (one c +:+ one c) s = false → endswith (one c) s = false →
  contains (one c +:+ one c) (s +:+ one c) = false.
Proof.
  intros Hd He. apply not_true_iff_false. intros (a & b & Hab)%contains_spec.
  destruct (snoc_cases b) as [->|(b' & d & ->)].
  - rewrite app_nil_r_s, <- app_assoc_s in Hab. apply snoc_inj in Hab as [-> _].
    by rewrite endswith_app in He.
  - rewrite <- !app_assoc_s in Hab. apply snoc_inj in Hab as [-> _].
    apply not_true_iff_false in Hd. apply Hd, contains_spec. exists a, b'.
    by rewrite !app_assoc_s.
Qed.

(** ** UTF-8 *)

(** [str.encode()] of code points below 256, in UTF-8. *)
Definition utf8_char (c : ascii) : string :=
  if (code c <? 128)%N then one c
  else String (ascii_of_N (192 + code c / 64)) (one (ascii_of_N (128 + code c mod 64))).
Fixpoint utf8 (s : string) : string :=
  match s with "" => "" | String c s => utf8_char c +:+ utf8 s end.

Definition NUL : ascii := ascii_of_N 0.

Lemma utf8_char_prefix c d t : utf8_char d = utf8_char c +:+ t → c = d.
Proof.
  intros E. pose (P c d := negb (startswith (utf8_char c) (utf8_char d)) || bool_decide (c = d)).
  assert (H : P c d = true).
  { revert d E. intros d _. revert d. apply ascii_ind_all. revert c.
    apply (ascii_ind_all (λ c, forallb (P c) _)). vm_compute. reflexivity. }
  unfold P in H. rewrite (proj2 (startswith_spec _ _)) in H by eauto. by apply bool_decide_eq_true in H.
Qed.

Lemma app_eq_prefix (a b s t : string) :
  a +:+ s = b +:+ t → (∃ u, a = b +:+ u) ∨ (∃ u, b = a +:+ u).
Proof.
  revert b; induction a as [|x a IH]; intros [|y b]; simpl; eauto.
  intros [= -> H]. destruct (IH b H) as [[u ->]|[u ->]]; eauto.
Qed.

Lemma app_inj_l (a s t : string) : a +:+ s = a +:+ t → s = t.
Proof. induction a; simpl; [done|]. intros [= H]. auto. Qed.

Lemma utf8_char_nonempty c : ∃ a u, utf8_char c = String a u.
Proof. unfold utf8_char. case_match; simpl; eauto. Qed.

Lemma utf8_inj s t : utf8 s = utf8 t → s = t.
Proof.
  revert t; induction s as [|c s IH]; intros [|d t]; simpl; intros H.
  - done.
  - destruct (utf8_char_nonempty d) as (a & u & E). rewrite E in H. done.
  - destruct (utf8_char_nonempty c) as (a & u & E). rewrite E in H. done.
  - assert (c = d) as ->.
    { destruct (app_eq_prefix _ _ _ _ H) as [[u E]|[u E]]; [symmetry|]; by eapply utf8_char_prefix. }
    f_equal. apply IH. by eapply app_inj_l.
Qed.

Lemma utf8_no_nul s : char_in NUL (utf8 s) = char_in NUL s.
Proof.
  induction s as [|c s IH]; [done|]. simpl. rewrite char_in_app, IH.
  change (String c s) with (one c +:+ s). rewrite char_in_app. f_equal.
  apply eqb_prop. revert c.
  apply (ascii_ind_all (λ c, Bool.eqb (char_in NUL (utf8_char c)) (char_in NUL (one c)))).
  vm_compute. reflexivity.
Qed.

Lemma char_in_one c : char_in c (one c) = true.
Proof. unfold char_in, sany, one. simpl. by rewrite bool_decide_eq_true_2. Qed.

#[export] Hint Resolve startswith_app startswith_refl endswith_app split_on_not_nil : py.
#[export] Hint Rewrite app_assoc_s app_nil_r_s length_app_s strip_idem lower_idem
  join_split : py.

(** Clients reason about these through the lemmas above. *)
#[global] Arguments startswith : simpl never.
#[global] Arguments endswith : simpl never.
#[global] Arguments contains : simpl never.
#[global] Arguments lower : simpl never.
#[global] Arguments strip : simpl never.
#[global] Arguments join : simpl never.
#[global] Arguments split_on : simpl never.
