(* ===== verification/PyVal.v ===== *)
(** Dynamic Python values: what [json.loads], a JSON column or a [dict]-shaped
    payload holds, with the operations of the language the code applies to them
    (truthiness, [dict.get], [str], [int], [==], [isinstance], iteration).

    A [dict] is its items in insertion order.  A [float] is a binary64 value of
    the Standard Library's [spec_float]; its arithmetic is the correctly rounded
    one ([prec] 53, [emax] 1024).  [str] of a float, a list or a dict goes
    through [repr], which is a parameter ([PyRepr]): no theorem depends on it. *)
From Stdlib Require Import SpecFloat.
From S2P Require Import Prelude PyStr.

Open Scope Z_scope.

Inductive pykey :=
  | KStr (s : string)
  | KInt (z : Z).

#[export] Instance pykey_eq_dec : EqDecision pykey.
Proof. solve_decision. Defined.

Inductive pyval :=
  | PNone
  | PBool (b : bool)
  | PInt (z : Z)
  | PFloat (f : spec_float)
  | PStr (s : string)
  | PList (l : list pyval)
  | PDict (d : list (pykey * pyval)).

Abbreviation pydict := (list (pykey * pyval)).

(** [repr] of the values whose text the model leaves abstract. *)
Class PyRepr := py_repr : pyval → string.

(** ** Dictionaries *)

Fixpoint dict_find (k : pykey) (d : pydict) : option pyval :=
  match d with
  | [] => None
  | (k', v) :: d => if decide (k = k') then Some v else dict_find k d
  end.

(** [d.get(k)] as an option, and with Python's [None] default. *)
Definition dget (k : string) (d : pydict) : option pyval := dict_find (KStr k) d.
Definition get (k : string) (d : pydict) : pyval := default PNone (dget k d).

Definition has_key (k : string) (d : pydict) : bool := bool_decide (is_Some (dget k d)).

(** [d[k] = v]: in place when the key is present, appended otherwise. *)
Fixpoint dict_put (k : pykey) (v : pyval) (d : pydict) : pydict :=
  match d with
  | [] => [(k, v)]
  | (k', v') :: d => if decide (k = k') then (k', v) :: d else (k', v') :: dict_put k v d
  end.
Definition dset (k : string) (v : pyval) (d : pydict) : pydict := dict_put (KStr k) v d.

(** [d.pop(k, None)]. *)
Definition dpop (k : string) (d : pydict) : pydict :=
  filter (λ kv, kv.1 ≠ KStr k) d.

(** [{**d, **e}]. *)
Definition dupdate (d e : pydict) : pydict :=
  foldl (λ d kv, dict_put kv.1 kv.2 d) d e.

Definition dkeys (d : pydict) : list pykey := d.*1.
Definition dvalues (d : pydict) : list pyval := d.*2.

(** A dict literal with string keys. *)
Definition mkdict (l : list (string * pyval)) : pydict :=
  foldl (λ d kv, dset kv.1 kv.2 d) [] l.

(** [set(d) == {...}] for a set of string keys. *)
Definition keys_are (ks : list string) (d : pydict) : bool :=
  forallb (λ k, has_key k d) ks && forallb (λ k, mem k (KStr <$> ks)) (dkeys d).

(** ** Floats *)

Definition float_of_Z (z : Z) : spec_float :=
  match z with
  | Z0 => S754_zero false
  | Zpos p => binary_round 53 1024 false p 0
  | Zneg p => binary_round 53 1024 true p 0
  end.

(** [int(f)]. *)
Definition float_trunc (f : spec_float) : res Z :=
  match f with
  | S754_zero _ => Ok 0
  | S754_infinity _ => raise OverflowError ""
  | S754_nan => raise ValueError ""
  | S754_finite s m e =>
      let a := if 0 <=? e then Zpos m * 2 ^ e else Zpos m / 2 ^ (- e) in
      Ok (if s then - a else a)
  end.

(** [round(f)]: to the nearest integer, halves to even. *)
Definition round_half_even (m : Z) (k : Z) : Z :=
  let d := 2 ^ k in
  let q := m / d in
  match Z.compare (2 * (m mod d)) d with
  | Lt => q
  | Gt => q + 1
  | Eq => if Z.even q then q else q + 1
  end.

Definition float_round (f : spec_float) : res Z :=
  match f with
  | S754_zero _ => Ok 0
  | S754_infinity _ => raise OverflowError ""
  | S754_nan => raise ValueError ""
  | S754_finite s m e =>
      let a := if 0 <=? e then Zpos m * 2 ^ e else round_half_even (Zpos m) (- e) in
      Ok (if s then - a else a)
  end.

(** [a / b] of non-negative integers, [b > 0]: the correctly rounded quotient. *)
Definition ratio (a b : Z) : spec_float :=
  match a, b with
  | Zpos p, Zpos q => SFdiv 53 1024 (S754_finite false p 0) (S754_finite false q 0)
  | _, _ => S754_zero false
  end.

(** [round((a / b) * 100)] and [round(a / b)] for [0 <= a], [0 < b]. *)
Definition round_percent (a b : Z) : res Z :=
  float_round (SFmul 53 1024 (ratio a b) (float_of_Z 100)).
Definition round_ratio (a b : Z) : res Z := float_round (ratio a b).

(** [i == f] of an int and a float: exact, as Python compares them. *)
Definition Z_eq_float (z : Z) (f : spec_float) : bool :=
  match f with
  | S754_zero _ => z =? 0
  | S754_finite s m e =>
      let m := if s then Zneg m else Zpos m in
      if 0 <=? e then z =? m * 2 ^ e else z * 2 ^ (- e) =? m
  | _ => false
  end.

Definition float_eq (f g : spec_float) : bool :=
  match SFcompare f g with Some Eq => true | _ => false end.

(** ** Truthiness, types and comparisons *)

Definition truthy (v : pyval) : bool :=
  match v with
  | PNone => false
  | PBool b => b
  | PInt z => negb (z =? 0)
  | PFloat (S754_zero _) => false
  | PFloat _ => true
  | PStr s => negb (bool_decide (s = ""))
  | PList l => match l with [] => false | _ => true end
  | PDict d => match d with [] => false | _ => true end
  end.

(** [v or w]. *)
Definition py_or (v w : pyval) : pyval := if truthy v then v else w.

Definition is_none (v : pyval) : bool := match v with PNone => true | _ => false end.
Definition is_bool (v : pyval) : bool := match v with PBool _ => true | _ => false end.
Definition is_str (v : pyval) : bool := match v with PStr _ => true | _ => false end.
Definition is_list (v : pyval) : bool := match v with PList _ => true | _ => false end.
Definition is_dict (v : pyval) : bool := match v with PDict _ => true | _ => false end.
(** [isinstance(v, int)] holds of booleans too. *)
Definition is_int (v : pyval) : bool := match v with PBool _ | PInt _ => true | _ => false end.

Definition as_dict (v : pyval) : option pydict := match v with PDict d => Some d | _ => None end.
Definition as_list (v : pyval) : option (list pyval) := match v with PList l => Some l | _ => None end.

(** [v is True]. *)
Definition is_true (v : pyval) : bool := match v with PBool true => true | _ => false end.

(** The dicts among the items of a list: [[x for x in l if isinstance(x, dict)]]. *)
Definition only_dicts (l : list pyval) : list pydict := omap as_dict l.

(** The value of a number for [==]: booleans are 0 and 1. *)
Definition num_of (v : pyval) : option (Z + spec_float) :=
  match v with
  | PBool b => Some (inl (Z.b2z b))
  | PInt z => Some (inl z)
  | PFloat f => Some (inr f)
  | _ => None
  end.

Definition num_eq (a b : Z + spec_float) : bool :=
  match a, b with
  | inl x, inl y => x =? y
  | inl x, inr f | inr f, inl x => Z_eq_float x f
  | inr f, inr g => float_eq f g
  end.

(** [v == w].  Dicts compare as sets of items. *)
Fixpoint py_eq (v w : pyval) {struct v} : bool :=
  match v, w with
  | PNone, PNone => true
  | PStr s, PStr t => bool_decide (s = t)
  | PList l, PList k =>
      (fix go l k := match l, k with
                     | [], [] => true
                     | x :: l, y :: k => py_eq x y && go l k
                     | _, _ => false
                     end) l k
  | PDict d, PDict e =>
      Nat.eqb (length d) (length e) &&
      (fix go d := match d with
                   | [] => true
                   | (k, x) :: d =>
                       match dict_find k e with Some y => py_eq x y | None => false end && go d
                   end) d
  | _, _ =>
      match num_of v, num_of w with
      | Some a, Some b => num_eq a b
      | _, _ => false
      end
  end.

Definition eq_str (v : pyval) (s : string) : bool :=
  match v with PStr t => bool_decide (t = s) | _ => false end.

(** [v in {"a", "b", ...}]: hashing a list or a dict is a [TypeError]. *)
Definition in_str_set (v : pyval) (l : list string) : res bool :=
  match v with
  | PList _ | PDict _ => raise TypeError ""
  | PStr s => Ok (mem s l)
  | _ => Ok false
  end.

(** [v in (a, b, ...)] on a tuple or list of strings: only [==]. *)
Definition in_str_seq (v : pyval) (l : list string) : bool :=
  match v with PStr s => mem s l | _ => false end.

(** ** Conversions *)

Section Conversions.
Context `{PyRepr}.

Definition py_str (v : pyval) : string :=
  match v with
  | PNone => "None"
  | PBool true => "True"
  | PBool false => "False"
  | PInt z => str_of_Z z
  | PStr s => s
  | v => py_repr v
  end.

(** [str(v or "")]. *)
Definition str_or_empty (v : pyval) : string := py_str (py_or v (PStr "")).

Definition key_str (k : pykey) : string :=
  match k with KStr s => s | KInt z => str_of_Z z end.
End Conversions.

(** [int(v)]. *)
Definition py_int (v : pyval) : res Z :=
  match v with
  | PBool b => Ok (Z.b2z b)
  | PInt z => Ok z
  | PFloat f => float_trunc f
  | PStr s => match parse_int s with Some z => Ok z | None => raise ValueError "" end
  | _ => raise TypeError ""
  end.

(** [int(v or 0)]. *)
Definition int_or_zero (v : pyval) : res Z := py_int (py_or v (PInt 0)).

Definition key_val (k : pykey) : pyval := match k with KStr s => PStr s | KInt z => PInt z end.

(** [for x in v]. *)
Definition py_iter (v : pyval) : res (list pyval) :=
  match v with
  | PList l => Ok l
  | PDict d => Ok (key_val <$> dkeys d)
  | PStr s => Ok ((λ c, PStr (one c)) <$> String.list_ascii_of_string s)
  | _ => raise TypeError ""
  end.

(** [v.get(k)] of a value of unknown type. *)
Definition val_get (k : string) (v : pyval) : res pyval :=
  match v with
  | PDict d => Ok (get k d)
  | _ => raise AttributeError ""
  end.

Definition opt_str (o : option string) : pyval := match o with Some s => PStr s | None => PNone end.
Definition strs (l : list string) : pyval := PList (PStr <$> l).

(** [int(v)] in a [try] that turns its [TypeError] and [ValueError] into a [ValueError]. *)
Definition int_or_error (msg : string) (v : pyval) : res Z :=
  match py_int v with
  | Ok z => Ok z
  | Raise e => if exn_isa (exn_cls e) TypeError || exn_isa (exn_cls e) ValueError then raise ValueError msg else Raise e
  end.

(** PostgreSQL's [text::uuid]; [uuid] gives the canonical text of the value. *)
Definition cast_uuid (uuid : string → option string) (text : string) : res string :=
  match uuid text with Some u => Ok u | None => raise DataError "invalid input syntax for type uuid" end.

(** ** Facts *)

Lemma eq_str_true v s : eq_str v s = true ↔ v = PStr s.
Proof. destruct v; cbn; rewrite ?bool_decide_eq_true; naive_solver. Qed.

Lemma elem_of_put k v d j x : (j, x) ∈ dict_put k v d → (j, x) ∈ d ∨ (j = k ∧ x = v).
Proof.
  induction d as [|[i w] d IH]; simpl; [set_solver|]. case_decide; subst; set_solver.
Qed.

Lemma dict_find_put k k' v d :
  dict_find k (dict_put k' v d) = if decide (k = k') then Some v else dict_find k d.
Proof.
  induction d as [|[j w] d IH]; simpl; [done|].
  destruct (decide (k' = j)) as [->|]; simpl; repeat case_decide; naive_solver.
Qed.

Lemma dget_dset_eq k v d : dget k (dset k v d) = Some v.
Proof. unfold dget, dset. rewrite dict_find_put. by rewrite decide_True. Qed.

Lemma dget_dset_ne k k' v d : k ≠ k' → dget k (dset k' v d) = dget k d.
Proof. intros. unfold dget, dset. rewrite dict_find_put. by rewrite decide_False by congruence. Qed.

Lemma get_dset_eq k v d : get k (dset k v d) = v.
Proof. unfold get. by rewrite dget_dset_eq. Qed.

Lemma get_dset_ne k k' v d : k ≠ k' → get k (dset k' v d) = get k d.
Proof. intros. unfold get. by rewrite dget_dset_ne. Qed.

Lemma dict_find_elem k v d : dict_find k d = Some v → (k, v) ∈ d.
Proof.
  induction d as [|[j w] d IH]; simpl; [done|].
  case_decide; subst; [intros [= ->]|]; set_solver.
Qed.

Lemma dict_find_is_Some k d : is_Some (dict_find k d) ↔ k ∈ dkeys d.
Proof.
  unfold dkeys. induction d as [|[j w] d IH]; simpl.
  - split; [by intros [? ?]|set_solver].
  - case_decide; subst; [set_solver|]. rewrite IH. set_solver.
Qed.

Lemma has_key_true k d : has_key k d = true ↔ ∃ v, dget k d = Some v.
Proof. unfold has_key. rewrite bool_decide_eq_true. done. Qed.

Lemma has_key_spec k d : has_key k d = true ↔ KStr k ∈ dkeys d.
Proof. rewrite has_key_true. apply dict_find_is_Some. Qed.

Lemma keys_are_spec ks d :
  keys_are ks d = true ↔ (∀ k, k ∈ dkeys d ↔ ∃ s, k = KStr s ∧ s ∈ ks).
Proof.
  unfold keys_are. rewrite andb_true_iff, !forallb_elem.
  setoid_rewrite has_key_spec. setoid_rewrite mem_true. setoid_rewrite list_elem_of_fmap.
  naive_solver.
Qed.

Lemma py_eq_strs l : py_eq (strs l) (strs l) = true.
Proof. unfold strs. cbn [py_eq]. induction l as [|s l IH]; [done|]. cbn. by rewrite bool_decide_eq_true_2. Qed.

Lemma dpop_dset k v d : dpop k (dset k v d) = dpop k d.
Proof.
  unfold dpop, dset. induction d as [|[j w] d IH]; cbn [dict_put].
  - rewrite filter_cons_False by (intros E; by apply E). done.
  - destruct (decide (KStr k = j)) as [<-|Hne]; [by rewrite !filter_cons_False by (intros E; by apply E)|].
    rewrite !filter_cons_True by (cbn; congruence). by rewrite IH.
Qed.

Lemma dget_dpop k j d : dget k (dpop j d) = if decide (k = j) then None else dget k d.
Proof.
  unfold dget, dpop. induction d as [|[i w] d IH]; cbn [dict_find]; [by case_decide|].
  destruct (decide (i = KStr j)) as [->|Hne].
  - rewrite filter_cons_False by (intros E; by apply E). rewrite IH. case_decide as E; [done|].
    by rewrite decide_False by congruence.
  - rewrite filter_cons_True by done. cbn [dict_find]. rewrite IH. destruct (decide (KStr k = i)) as [<-|]; [|done].
    by rewrite decide_False by congruence.
Qed.

Lemma dpop_absent k d : dget k d = None → dpop k d = d.
Proof.
  unfold dget, dpop. induction d as [|[j w] d IH]; [done|]. cbn [dict_find]. case_decide; [done|]. intros Hn.
  rewrite filter_cons_True by (cbn; congruence). by rewrite IH.
Qed.

Lemma truthy_str s : truthy (PStr s) = true ↔ s ≠ "".
Proof. simpl. rewrite negb_true_iff, bool_decide_eq_false. done. Qed.

Lemma str_or_empty_str `{PyRepr} s : str_or_empty (PStr s) = s.
Proof. unfold str_or_empty, py_or. simpl. by case_bool_decide; subst. Qed.

(** Induction on a value and the values it holds. *)
Section PyvalInduction.
Context (P : pyval → Prop).
Context (HNone : P PNone) (HBool : ∀ b, P (PBool b)) (HInt : ∀ z, P (PInt z)) (HFloat : ∀ f, P (PFloat f)).
Context (HStr : ∀ s, P (PStr s)) (HList : ∀ l, Forall P l → P (PList l)).
Context (HDict : ∀ d, Forall (λ kv, P kv.2) d → P (PDict d)).

Fixpoint pyval_induction (v : pyval) : P v :=
  match v with
  | PNone => HNone
  | PBool b => HBool b
  | PInt z => HInt z
  | PFloat f => HFloat f
  | PStr s => HStr s
  | PList l =>
      HList l ((fix go l : Forall P l :=
        match l with [] => @List.Forall_nil _ _ | x :: l => @List.Forall_cons _ P x l (pyval_induction x) (go l) end) l)
  | PDict d =>
      HDict d ((fix go d : Forall (λ kv, P kv.2) d :=
        match d with
        | [] => @List.Forall_nil _ _
        | kv :: d => @List.Forall_cons _ (λ kv, P kv.2) kv d (pyval_induction kv.2) (go d)
        end) d)
  end.
End PyvalInduction.

(** [at_depth n v w]: [w] stands [n] levels inside [v]. *)
Inductive at_depth : nat → pyval → pyval → Prop :=
  | at_here v : at_depth 0 v v
  | at_list n l x v : x ∈ l → at_depth n x v → at_depth (S n) (PList l) v
  | at_dict n d k x v : (k, x) ∈ d → at_depth n x v → at_depth (S n) (PDict d) v.

(** A [repr] to evaluate witnesses with. *)
Definition some_repr : PyRepr := λ _, "<repr>".

Lemma round_percent_zero b : round_percent 0 b = Ok 0.
Proof. unfold round_percent, ratio. destruct b; vm_compute; done. Qed.

#[export] Hint Rewrite dget_dset_eq get_dset_eq @str_or_empty_str : py.
#[export] Hint Rewrite dget_dset_ne get_dset_ne using (by intros ?) : py.

(** Reads of a dict written by a sequence of literal assignments. *)
Ltac dsimpl :=
  repeat first
    [ rewrite get_dset_eq | rewrite dget_dset_eq
    | rewrite get_dset_ne by discriminate | rewrite dget_dset_ne by discriminate ].
