(* ===== verification/PyTime.v ===== *)
(** UTC instants: a clock reading is a number of microseconds since the epoch
    (the resolution of [datetime]); [isoformat] of the aware datetime. *)
From S2P Require Import Prelude PyStr.

Open Scope Z_scope.

Definition instant := Z.
Definition seconds (n : Z) : instant := n * 1000000.

(** Calendar date of a day number (1970-01-01 is day 0). *)
Definition civil (day : Z) : Z * Z * Z :=
  let z := day + 719468 in
  let era := z / 146097 in
  let doe := z mod 146097 in
  let yoe := (doe - doe / 1460 + doe / 36524 - doe / 146096) / 365 in
  let doy := doe - (365 * yoe + yoe / 4 - yoe / 100) in
  let mp := (5 * doy + 2) / 153 in
  let d := doy - (153 * mp + 2) / 5 + 1 in
  let m := if mp <? 10 then mp + 3 else mp - 9 in
  (yoe + era * 400 + (if m <=? 2 then 1 else 0), m, d).

Definition zpad (width : nat) (n : Z) : string :=
  let s := str_of_Z n in repeat_char (width - slen s) "0" +:+ s.

(** [datetime.fromtimestamp(t, tz=timezone.utc).isoformat()], years 1 to 9999. *)
Definition isoformat (t : instant) : string :=
  let us := t mod 1000000 in
  let s := t / 1000000 in
  let '(y, m, d) := civil (s / 86400) in
  let r := s mod 86400 in
  zpad 4 y +:+ "-" +:+ zpad 2 m +:+ "-" +:+ zpad 2 d +:+ "T"
  +:+ zpad 2 (r / 3600) +:+ ":" +:+ zpad 2 (r / 60 mod 60) +:+ ":" +:+ zpad 2 (r mod 60)
  +:+ (if us =? 0 then "" else "." +:+ zpad 6 us) +:+ "+00:00".

Example isoformat_leap_day : isoformat (seconds 1709164800) = "2024-02-29T00:00:00+00:00".
Proof. vm_compute. reflexivity. Qed.

Example isoformat_micros : isoformat (seconds 1767225599 + 42) = "2025-12-31T23:59:59.000042+00:00".
Proof. vm_compute. reflexivity. Qed.
