(* ===== verification/StorageScope.v ===== *)
(** The lakehouse's storage keys: [omega_lakehouse/storage_scope.py] (canonical
    keys, tenant/workspace scope, DuckDB reader URIs) and
    [omega_lakehouse/keys.py] with the error text of [omega_lakehouse/errors.py].

    Every read and write of the object store goes through these functions; the
    theorems say what an accepted key looks like and that a key accepted in one
    tenant's scope is refused in every other. *)
From S2P Require Import Prelude PyStr PyVal.

Open Scope Z_scope.

Module Scope.
Section WithRepr.
Context `{PyRepr}.

(** Segment index of [tenant_id=] per root; [workspace_id=] follows it. *)
Definition SCOPE_INDEX_BY_ROOT (root : string) : option nat :=
if mem root ["raw"; "silver"; "gold"; "knowledge_bits"] then Some 3%nat
else if bool_decide (root = "uploads") then Some 2%nat
else None.

Definition READABLE_SCOPED_ROOTS : list string := ["raw"; "silver"; "gold"; "uploads"].

(** The character classes of [_SEGMENT], [_GLOB_SEGMENT] and [_SCOPE_VALUE]. *)
Definition scope_value_char (c : ascii) : bool :=
is_ascii_alnum c || mem c ["_"; "."; ":"; "-"]%char.
Definition segment_char (c : ascii) : bool := scope_value_char c || is_char "=" c.
Definition glob_segment_char (c : ascii) : bool := segment_char c || mem c ["*"; "?"]%char.

Definition _SEGMENT (part : string) : bool := all_of segment_char part.
Definition _GLOB_SEGMENT (part : string) : bool := all_of glob_segment_char part.

Definition _READER_SCHEME_DENY : list string := ["file:"; "/"; "../"; "~"; "http:"; "https:"].

Definition _has_control_char (value : string) : bool := sany is_control value.

Definition not_canonical {A} : res A := raise ValueError "storage path is not canonical".

(** A part no canonical key contains. *)
Definition bad_part (allow_glob : bool) (part : string) : bool :=
bool_decide (part = "") || mem part ["."; ".."]
|| negb ((if allow_glob then _GLOB_SEGMENT else _SEGMENT) part).

(** On an ASCII string NFKC normalization is the identity, so the source's
  [unicodedata] test cannot fail once [isascii] has passed. *)
Definition canonical_storage_key (value : pyval) (allow_glob : bool) : res string :=
let raw := strip (str_or_empty value) in
if bool_decide (raw = "") || startswith "/" raw || char_in "%" raw || char_in "\" raw
   || contains "//" raw || negb (is_ascii raw) || _has_control_char raw
then not_canonical
else
  let raw := if endswith "/" raw then stake (slen raw - 1) raw else raw in
  if bool_decide (raw = "") then not_canonical
  else
    let parts := split_on "/" raw in
    if existsb (bad_part allow_glob) parts then not_canonical
    else Ok (join "/" parts).

(** [[index for index, part in enumerate(parts) if part.startswith(prefix)]]. *)
Fixpoint positions_from (index : nat) (prefix : string) (parts : list string) : list nat :=
match parts with
| [] => []
| part :: parts =>
    let rest := positions_from (S index) prefix parts in
    if startswith prefix part then index :: rest else rest
end.
Definition positions : string → list string → list nat := positions_from 0.

Definition has_exact_storage_scope (key tenant workspace : pyval) : bool :=
let tenant_value := strip (str_or_empty tenant) in
let workspace_value := strip (str_or_empty workspace) in
if bool_decide (tenant_value = "") || bool_decide (workspace_value = "") then false
else match canonical_storage_key key true with
| Raise _ => false
| Ok clean =>
    let parts := split_on "/" clean in
    match SCOPE_INDEX_BY_ROOT (hd "" parts) with
    | None => false
    | Some scope_index =>
        if Nat.leb (length parts) (scope_index + 1) then false
        else if existsb (λ part, sany (λ c, mem c ["*"; "?"]%char) part)
                  (take (scope_index + 2) parts) then false
        else
          bool_decide (positions "tenant_id=" parts = [scope_index]) &&
          bool_decide (positions "workspace_id=" parts = [scope_index + 1]%nat) &&
          bool_decide (parts !! scope_index = Some ("tenant_id=" +:+ tenant_value)) &&
          bool_decide (parts !! (scope_index + 1)%nat
                       = Some ("workspace_id=" +:+ workspace_value))
    end
end.

(** [{str(item).strip() for item in (v or []) if str(item).strip()}]. *)
Definition stripped_set (v : pyval) : res (list string) :=
items ← py_iter (py_or v (PList []));
Ok (List.filter nonempty (List.map (λ i, strip (py_str i)) items)).

Definition scoped_storage_key (value : pyval) (context : pyval) (bucket : option string)
  (allow_glob : bool) : res string :=
key ← canonical_storage_key value allow_glob;
let parts := split_on "/" key in
if negb (mem (hd "" parts) READABLE_SCOPED_ROOTS)
then raise ValueError "storage root is not scoped"
else
  let ctx := default [] (as_dict context) in
  let tenant := strip (str_or_empty (get "tenant_id" ctx)) in
  let workspace := strip (str_or_empty (get "workspace_id" ctx)) in
  if bool_decide (tenant = "") || bool_decide (workspace = "")
  then raise PermissionError "tenant/workspace storage scope required"
  else if negb (has_exact_storage_scope (PStr key) (PStr tenant) (PStr workspace))
  then raise PermissionError "storage scope mismatch"
  else
    allowed ← stripped_set (get "allowed_cartridges" ctx);
    match parts !! 1%nat with
    | None => raise IndexError ""
    | Some cartridge =>
        if negb (mem cartridge allowed) && negb (mem "*" allowed)
        then raise PermissionError "storage cartridge mismatch"
        else
          buckets ← stripped_set (get "allowed_buckets" ctx);
          let bucket := default "" bucket in
          if nonempty bucket && negb (bool_decide (buckets = []))
             && negb (mem bucket buckets)
          then raise PermissionError "storage bucket mismatch"
          else Ok key
    end.

Definition scoped_storage_allowed (value context : pyval) (bucket : option string) : res bool :=
match scoped_storage_key value context bucket false with
| Ok _ => Ok true
| Raise e =>
    if exn_isa (exn_cls e) PermissionError || exn_isa (exn_cls e) ValueError
    then Ok false else Raise e
end.

(** [_REQUIRED_SCOPE.fullmatch]: [tenant_id=T/workspace_id=W] with an optional
  final slash; a scope value has no slash, so [T] ends at the first one. *)
Definition match_required_scope (s : string) : option (string * string) :=
if startswith "tenant_id=" s then
  match split_once "/" (sdrop 10 s) with
  | (tenant, Some rest) =>
      if startswith "workspace_id=" rest then
        let w := sdrop 13 rest in
        let w := if endswith "/" w then stake (slen w - 1) w else w in
        if all_of scope_value_char tenant && all_of scope_value_char w
        then Some (tenant, w) else None
      else None
  | _ => None
  end
else None.

Definition parse_required_scope (marker : pyval) : res (string * string) :=
match match_required_scope (str_or_empty marker) with
| Some tw => Ok tw
| None => raise ValueError "required scope marker is malformed"
end.

(** A single prefix, or an iterable of them. *)
Definition _reader_prefixes (prefixes : pyval) : res (list string) :=
values ← (if is_str prefixes then Ok [prefixes] else py_iter prefixes);
Ok (List.map (λ s, rstrip_char "/" s +:+ "/")
      (List.filter nonempty (List.map py_str values))).

Definition uri_error {A} (reason : string) : res A := raise ReaderUriError reason.

Definition require_scoped_reader_uri (uri prefixes : pyval) (tenant workspace : option string)
  : res string :=
let value := match uri with PStr s => s | _ => "" end in
if bool_decide (value = "") || negb (bool_decide (value = strip value))
then uri_error "canonical"
else if char_in "?" value || char_in "#" value then uri_error "query"
else if startswith_any _READER_SCHEME_DENY (lower value) then uri_error "scheme"
else if negb (startswith "s3://" value) then uri_error "prefix"
else
  let rest := sdrop 5 value in
  if mem ".." (split_on "/" rest) then uri_error "traversal"
  else
    canonical ← catch ValueError (canonical_storage_key (PStr rest) true)
                  (uri_error "canonical");
    if negb (bool_decide (canonical = rest)) || negb (char_in "/" canonical)
    then uri_error "canonical"
    else
      ps ← _reader_prefixes prefixes;
      if negb (existsb (λ p, startswith p value) ps) then uri_error "prefix"
      else match tenant, workspace with
      | None, None => Ok value
      | _, _ =>
          let key := default "" (split_once "/" canonical).2 in
          if negb (has_exact_storage_scope (PStr key) (opt_str tenant) (opt_str workspace))
          then uri_error "scope"
          else Ok value
      end.
End WithRepr.
End Scope.

Module Keys.
Section WithRepr.
Context `{PyRepr}.

(** [_safe]: control characters masked, long texts cut. *)
Definition _safe (value : pyval) : string :=
let text := smap (λ c, if (32 <=? Z.of_N (code c)) && negb (Z.of_N (code c) =? 127)
                       then c else "?"%char) (str_or_empty value) in
if Nat.ltb 240 (slen text) then stake 220 text +:+ "...[truncated]" else text.

(** The message [StorageError.__init__] builds. *)
Definition storage_error_text (message : string) (provider bucket key : pyval) : string :=
let detail name v := if truthy v then [name +:+ _safe v] else [] in
let details := detail "provider=" provider ++ detail "bucket=" bucket ++ detail "key=" key in
join " " (_safe (PStr message)
  :: match details with [] => [] | _ => ["(" +:+ join ", " details +:+ ")"] end).

Definition _has_control (value : string) : bool := sany is_control value.

Definition invalid_key {A} (msg : string) (key : pyval) : res A :=
raise InvalidObjectKey (storage_error_text msg PNone PNone key).

Definition validate_key (key : pyval) : res string :=
let value := strip (str_or_empty key) in
if bool_decide (value = "") then invalid_key "object key is required" key
else if contains "://" value
then invalid_key "object key must not include a URI scheme" key
else if startswith "/" value
then invalid_key "object key must not start with slash" key
else if char_in "\" value || contains "//" value || contains ".." value
then invalid_key "object key contains an unsafe segment" key
else if _has_control value
then invalid_key "object key contains control characters" key
else Ok value.

Definition validate_prefix (prefix : pyval) (for_delete trailing_slash : bool) : res string :=
let value := strip (str_or_empty prefix) in
if for_delete && bool_decide (value = "")
then raise UnsafePrefixDelete
       (storage_error_text "delete_prefix refuses an empty prefix" PNone PNone PNone)
else
  _ ← (if bool_decide (value = "") then Ok ""
       else validate_key (PStr (if endswith "/" value then rstrip_char "/" value else value)));
  if for_delete && trailing_slash && negb (endswith "/" value)
  then raise UnsafePrefixDelete
         (storage_error_text "delete_prefix requires a trailing slash" PNone PNone (PStr value))
  else Ok value.
End WithRepr.
End Keys.

(** * Facts about canonical keys *)

Import Scope.

Section CanonicalFacts.
Context `{PyRepr}.

Lemma glob_segment_char_range c :
  glob_segment_char c = true →
  is_space c = false ∧ is_control c = false ∧ (code c <? 128)%N = true ∧
  c ≠ "%"%char ∧ c ≠ "\"%char ∧ c ≠ "/"%char.
Proof.
  intros Hc. destruct (decide (negb (is_space c) && negb (is_control c) && (code c <? 128)%N
    && negb (is_char "%" c) && negb (is_char "\" c) && negb (is_char "/" c) = true)) as [E|E].
  - repeat (apply andb_true_iff in E as [E ?]). unfold is_char in *. by boolify.
  - exfalso. apply E. clear E.
    assert (implb (glob_segment_char c) (negb (is_space c) && negb (is_control c)
      && (code c <? 128)%N && negb (is_char "%" c) && negb (is_char "\" c)
      && negb (is_char "/" c)) = true) as Hi; [|by rewrite Hc in Hi].
    revert c Hc. intros c _. revert c. apply ascii_ind_all. by vm_compute.
Qed.

Lemma segment_char_glob c : segment_char c = true → glob_segment_char c = true.
Proof. unfold glob_segment_char. by intros ->. Qed.

Definition good_parts (g : bool) (k : string) : Prop :=
  Forall (λ p, bad_part g p = false) (split_on "/" k).

Lemma bad_part_false g p :
  bad_part g p = false ↔
  p ≠ "" ∧ p ≠ "." ∧ p ≠ ".." ∧ sall (if g then glob_segment_char else segment_char) p = true.
Proof.
  unfold bad_part, _GLOB_SEGMENT, _SEGMENT, all_of, nonempty, mem.
  rewrite !orb_false_iff, !bool_decide_eq_false, !elem_of_cons, elem_of_nil, negb_false_iff.
  destruct g; rewrite andb_true_iff, negb_true_iff, bool_decide_eq_false; naive_solver.
Qed.

(** The characters of a key all of whose parts are good. *)
Lemma good_parts_chars g k :
  good_parts g k → sall (λ c, glob_segment_char c || is_char "/" c) k = true.
Proof.
  intros Hk. apply sall_split_join. eapply Forall_impl; [exact Hk|].
  intros p (_ & _ & _ & Hp)%bad_part_false. destruct g; [done|].
  eapply sall_impl; [|exact Hp]. apply segment_char_glob.
Qed.

Lemma key_char_range c :
  glob_segment_char c || is_char "/" c = true →
  is_space c = false ∧ is_control c = false ∧ (code c <? 128)%N = true ∧
  c ≠ "%"%char ∧ c ≠ "\"%char.
Proof.
  intros [Hc|Hc]%orb_true_iff; [apply glob_segment_char_range in Hc; naive_solver|].
  unfold is_char in Hc. boolify. by subst.
Qed.

Lemma good_parts_no_empty g k : good_parts g k → "" ∉ split_on "/" k.
Proof. intros Hk Hin. eapply Forall_forall in Hk; [|exact Hin]. done. Qed.

(** None of the checks made before splitting fires on such a key. *)
Lemma good_parts_raw_checks g k :
  good_parts g k →
  k ≠ "" ∧ startswith "/" k = false ∧ endswith "/" k = false ∧
  contains "//" k = false ∧ strip k = k ∧
  char_in "%" k = false ∧ char_in "\" k = false ∧ is_ascii k = true ∧
  _has_control_char k = false.
Proof.
  intros Hk. pose proof (good_parts_no_empty _ _ Hk) as Hne.
  pose proof (no_empty_part _ _ Hne) as (? & ? & ?).
  pose proof (good_parts_chars _ _ Hk) as Hc.
  split_and!; try done.
  - intros ->. apply Hne. set_solver.
  - apply strip_by_id. eapply sall_impl; [|exact Hc].
    intros c (-> & _)%key_char_range. done.
  - apply char_in_false. eapply sall_impl; [|exact Hc].
    intros c (_ & _ & _ & ? & _)%key_char_range. by rewrite bool_decide_eq_false_2 by done.
  - apply char_in_false. eapply sall_impl; [|exact Hc].
    intros c (_ & _ & _ & _ & ?)%key_char_range. by rewrite bool_decide_eq_false_2 by done.
  - eapply sall_impl; [|exact Hc]. intros c (_ & _ & ? & _)%key_char_range. done.
  - unfold _has_control_char, sany. apply negb_false_iff. eapply sall_impl; [|exact Hc].
    intros c (_ & -> & _)%key_char_range. done.
Qed.

Lemma good_parts_iff g k :
  existsb (bad_part g) (split_on "/" k) = false ↔ good_parts g k.
Proof. rewrite existsb_false_elem. unfold good_parts. by rewrite Forall_forall. Qed.
End CanonicalFacts.

Section CanonicalTheorems.
Context `{PyRepr}.

Lemma canonical_storage_key_complete g k v :
  good_parts g k →
  strip (str_or_empty v) = k ∨ strip (str_or_empty v) = k +:+ "/" →
  canonical_storage_key v g = Ok k.
Proof.
  intros Hk Hraw. pose proof (good_parts_raw_checks _ _ Hk)
    as (Hk0 & Hs & He & Hd & _ & Hp & Hb & Ha & Hc).
  unfold canonical_storage_key.
  pose proof (join_split_slash k) as Hj.
  pose proof (proj2 (good_parts_iff _ _) Hk) as Hg.
  destruct Hraw as [->| ->].
  - rewrite bool_decide_eq_false_2, Hs, Hp, Hb, Hd, Ha, Hc, He by done. simpl.
    rewrite bool_decide_eq_false_2, Hg, Hj by done. done.
  - pose proof (no_empty_part "/" k (good_parts_no_empty _ _ Hk)) as (_ & Hend & _).
    assert (contains "//" (k +:+ "/") = false) as ->
      by exact (contains_double_snoc "/" k Hd Hend).
    rewrite bool_decide_eq_false_2 by (by destruct k).
    unfold _has_control_char, sany, char_in, is_ascii in *.
    rewrite startswith_snoc, Hs by (destruct k; simpl; [done|lia]).
    unfold sany in *. rewrite !sall_app. apply negb_false_iff in Hp, Hb, Hc.
    rewrite Hp, Hb, Hc, Ha. simpl. rewrite endswith_app.
    change (k +:+ "/") with (k +:+ one "/"). rewrite stake_snoc.
    rewrite bool_decide_eq_false_2, Hg, Hj by done. done.
Qed.

Lemma canonical_storage_key_sound g k v :
  canonical_storage_key v g = Ok k →
  good_parts g k ∧ (strip (str_or_empty v) = k ∨ strip (str_or_empty v) = k +:+ "/").
Proof.
  unfold canonical_storage_key. set (raw := strip (str_or_empty v)).
  destruct (_ || _); [done|].
  set (raw' := if endswith "/" raw then _ else raw).
  case_bool_decide; [done|]. destruct (existsb _ _) eqn:Hg; [done|].
  intros [= <-]. rewrite (join_split_slash raw'). split; [by apply good_parts_iff|].
  subst raw'. destruct (endswith "/" raw) eqn:He; [right|by left].
  apply endswith_spec in He as [t ->]. change "/" with (one "/"). by rewrite stake_snoc.
Qed.

Lemma elem_of_positions_from i prefix parts j :
  j ∈ positions_from i prefix parts ↔
  ∃ n p, j = (i + n)%nat ∧ parts !! n = Some p ∧ startswith prefix p = true.
Proof.
  revert i; induction parts as [|q parts IH]; intros i; cbn [positions_from].
  - split; [set_solver|]. intros (? & ? & _ & ? & _). by rewrite lookup_nil in *.
  - assert (j ∈ positions_from (S i) prefix parts ↔
      ∃ n p, j = (i + S n)%nat ∧ (q :: parts) !! S n = Some p ∧ startswith prefix p = true)
      as Hrest.
    { rewrite IH. simpl. split; intros (n & p & -> & ?); exists n, p; split; try done; lia. }
    destruct (startswith prefix q) eqn:Eq.
    + rewrite elem_of_cons, Hrest. split.
      * intros [->|(n & p & ?)]; [exists 0%nat, q|exists (S n), p]; naive_solver lia.
      * intros ([|n] & p & -> & Hp & Hs); [left; lia|right; eauto].
    + rewrite Hrest. split; [intros (n & p & ?); eauto|].
      intros ([|n] & p & -> & Hp & Hs); [|eauto]. simpl in Hp. congruence.
Qed.

Lemma NoDup_positions_from i prefix parts : NoDup (positions_from i prefix parts).
Proof.
  revert i; induction parts as [|q parts IH]; intros i; cbn [positions_from]; [constructor|].
  destruct (startswith prefix q); [|done]. constructor; [|done].
  intros (n & p & Hn & _)%elem_of_positions_from. lia.
Qed.

Lemma positions_singleton prefix parts i :
  positions prefix parts = [i] ↔
  (∃ p, parts !! i = Some p ∧ startswith prefix p = true) ∧
  ∀ j p, parts !! j = Some p → startswith prefix p = true → j = i.
Proof.
  unfold positions.
  assert (∀ j, j ∈ positions_from 0 prefix parts ↔
    ∃ p, parts !! j = Some p ∧ startswith prefix p = true) as Hin.
  { intros j. rewrite elem_of_positions_from. simpl. naive_solver. }
  split.
  - intros E. rewrite E in Hin. split; [apply Hin; set_solver|].
    intros j p Hj Hp. assert (j ∈ [i]) as ->%list_elem_of_singleton; [|done].
    apply Hin; eauto.
  - intros [Hi Hu]. pose proof (NoDup_positions_from 0 prefix parts) as Hnd.
    apply Hin in Hi.
    assert (∀ j, j ∈ positions_from 0 prefix parts → j = i) as Hall.
    { intros j (p & ? & ?)%Hin. eauto. }
    destruct (positions_from 0 prefix parts) as [|a [|b l]]; [set_solver| |].
    + by rewrite (Hall a) by set_solver.
    + exfalso. inversion Hnd as [|? ? Ha]; subst. apply Ha.
      rewrite (Hall a), (Hall b) by set_solver. set_solver.
Qed.

(** What an exact scope is: the key is canonical, the scope segments of the
    tenant and the workspace are at the index of the root, nowhere else, and
    no glob reaches them. *)
Record exact_scope (k t w : string) (idx : nat) : Prop := {
  es_root : SCOPE_INDEX_BY_ROOT (hd "" (split_on "/" k)) = Some idx;
  es_tenant : split_on "/" k !! idx = Some ("tenant_id=" +:+ t);
  es_workspace : split_on "/" k !! S idx = Some ("workspace_id=" +:+ w);
  es_only_tenant : ∀ j p, split_on "/" k !! j = Some p →
    startswith "tenant_id=" p = true → j = idx;
  es_only_workspace : ∀ j p, split_on "/" k !! j = Some p →
    startswith "workspace_id=" p = true → j = S idx;
  es_no_glob : ∀ p, p ∈ take (S (S idx)) (split_on "/" k) →
    sany (λ c, mem c ["*"; "?"]%char) p = false;
  es_values : t ≠ "" ∧ w ≠ ""
}.

Lemma has_exact_storage_scope_iff key t w :
  has_exact_storage_scope key t w = true ↔
  ∃ k idx, canonical_storage_key key true = Ok k ∧
    exact_scope k (strip (str_or_empty t)) (strip (str_or_empty w)) idx.
Proof.
  unfold has_exact_storage_scope.
  set (t' := strip (str_or_empty t)). set (w' := strip (str_or_empty w)).
  destruct (bool_decide (t' = "")) eqn:Et; [|destruct (bool_decide (w' = "")) eqn:Ew];
    boolify; simpl.
  1,2: split; [done|]; intros (? & ? & _ & []); naive_solver.
  destruct (canonical_storage_key key true) as [k|]; [|naive_solver].
  destruct (SCOPE_INDEX_BY_ROOT (hd "" (split_on "/" k))) as [idx|] eqn:Ei;
    [|split; [done|]; intros (? & ? & [= <-] & []); congruence].
  replace (idx + 1)%nat with (S idx) by lia. replace (idx + 2)%nat with (S (S idx)) by lia.
  destruct (Nat.leb (length (split_on "/" k)) (S idx)) eqn:El.
  { split; [done|]. intros (? & idx' & [= <-] & [Hr _ Hw]).
    assert (idx = idx') as <- by congruence. apply lookup_lt_Some in Hw.
    apply Nat.leb_le in El. lia. }
  destruct (existsb _ _) eqn:Eg.
  { split; [done|]. intros (? & idx' & [= <-] & [Hr _ _ _ _ Hg _]).
    assert (idx = idx') as <- by congruence. apply existsb_elem in Eg as (p & Hp & Hpg).
    rewrite Hg in Hpg by done. done. }
  rewrite existsb_false_elem in Eg.
  rewrite !andb_true_iff, !bool_decide_eq_true, !positions_singleton. split.
  - intros [[[[_ Ht] [_ Hw]] ?] ?]. exists k, idx. split; [done|]. by constructor.
  - intros (? & idx' & [= <-] & [Hr]). assert (idx = idx') as <- by congruence.
    split_and!; try done; eexists; split; try done; apply startswith_app.
Qed.
End CanonicalTheorems.

(** * Tenant isolation and completeness of the scope check *)

Section ScopeTheorems.
Context `{PyRepr}.

(** The tenant and the workspace a security context names. *)
Definition ctx_tenant (ctx : pyval) : string :=
  strip (str_or_empty (get "tenant_id" (default [] (as_dict ctx)))).
Definition ctx_workspace (ctx : pyval) : string :=
  strip (str_or_empty (get "workspace_id" (default [] (as_dict ctx)))).

Lemma good_parts_glob g k : good_parts g k → good_parts true k.
Proof.
  destruct g; [done|]. intros Hk. eapply Forall_impl; [exact Hk|].
  intros p (? & ? & ? & ?)%bad_part_false. apply bad_part_false. split_and!; try done.
  eapply sall_impl; [|done]. apply segment_char_glob.
Qed.

Lemma canonical_storage_key_glob g v k :
  canonical_storage_key v g = Ok k → canonical_storage_key (PStr k) true = Ok k.
Proof.
  intros [Hk _]%canonical_storage_key_sound. apply good_parts_glob in Hk.
  apply canonical_storage_key_complete; [done|left].
  rewrite str_or_empty_str. by apply (good_parts_raw_checks true).
Qed.

Lemma scoped_storage_key_inv v ctx b g k :
  scoped_storage_key v ctx b g = Ok k →
  canonical_storage_key v g = Ok k ∧
  hd "" (split_on "/" k) ∈ READABLE_SCOPED_ROOTS ∧
  (∃ idx, exact_scope k (ctx_tenant ctx) (ctx_workspace ctx) idx) ∧
  (∃ cartridge allowed, split_on "/" k !! 1%nat = Some cartridge ∧
     stripped_set (get "allowed_cartridges" (default [] (as_dict ctx))) = Ok allowed ∧
     (cartridge ∈ allowed ∨ "*" ∈ allowed)) ∧
  (∃ buckets, stripped_set (get "allowed_buckets" (default [] (as_dict ctx))) = Ok buckets ∧
     (default "" b = "" ∨ buckets = [] ∨ default "" b ∈ buckets)).
Proof.
  unfold scoped_storage_key. rewrite bind_ok. intros (k' & Hk & H1). revert H1.
  fold (ctx_tenant ctx) (ctx_workspace ctx).
  step_if Hroot. apply negb_false_iff, mem_true in Hroot.
  step_if Hempty. step_if Hs. apply negb_false_iff in Hs.
  rewrite bind_ok. intros (allowed & Ha & H1). revert H1.
  destruct (split_on "/" k' !! 1%nat) as [cartridge|] eqn:Hc; [|done].
  step_if Hca.
  rewrite bind_ok. intros (buckets & Hb & H1). revert H1.
  step_if Hbu. intros [= <-].
  apply has_exact_storage_scope_iff in Hs as (k'' & idx & Hk'' & Hs).
  rewrite (canonical_storage_key_glob _ _ _ Hk) in Hk''. injection Hk'' as <-.
  rewrite !str_or_empty_str in Hs. unfold ctx_tenant, ctx_workspace in *.
  rewrite !strip_idem in Hs.
  split_and!; try done; [eauto| |].
  - exists cartridge, allowed. split_and!; try done.
    apply andb_false_iff in Hca as [E|E]; apply negb_false_iff, mem_true in E; eauto.
  - exists buckets. split; [done|].
    apply andb_false_iff in Hbu as [Hbu|E];
      [apply andb_false_iff in Hbu as [E|E]|apply negb_false_iff, mem_true in E; eauto].
    + unfold nonempty in E. apply negb_false_iff, bool_decide_eq_true in E. eauto.
    + apply negb_false_iff, bool_decide_eq_true in E. eauto.
Qed.

Lemma app_inj_s (s t u : string) : s +:+ t = s +:+ u → t = u.
Proof. by intros ?%(inj (String.app s)). Qed.

Lemma exact_scope_unique k t1 w1 i1 t2 w2 i2 :
  exact_scope k t1 w1 i1 → exact_scope k t2 w2 i2 → t1 = t2 ∧ w1 = w2.
Proof.
  intros [R1 T1 W1 _ _ _ _] [R2 T2 W2 _ _ _ _].
  assert (i1 = i2) as -> by congruence.
  split; [apply (app_inj_s "tenant_id=")|apply (app_inj_s "workspace_id=")]; congruence.
Qed.

(** C1: Tenant isolation of the object store: a storage key that
    [scoped_storage_key] grants under two security contexts belongs to one and
    the same (non-empty) tenant and workspace, whatever values, globs and
    buckets the requests were made with. *)
Theorem scoped_storage_key_isolation v1 v2 ctx1 ctx2 b1 b2 g1 g2 k :
  scoped_storage_key v1 ctx1 b1 g1 = Ok k →
  scoped_storage_key v2 ctx2 b2 g2 = Ok k →
  ctx_tenant ctx1 = ctx_tenant ctx2 ∧ ctx_workspace ctx1 = ctx_workspace ctx2 ∧
  ctx_tenant ctx1 ≠ "" ∧ ctx_workspace ctx1 ≠ "".
Proof.
  intros (_ & _ & (i1 & S1) & _)%scoped_storage_key_inv
         (_ & _ & (i2 & S2) & _)%scoped_storage_key_inv.
  destruct (exact_scope_unique _ _ _ _ _ _ _ S1 S2).
  destruct (es_values _ _ _ _ S1). eauto.
Qed.

(** A granted key is canonical, lies under a readable root, carries the
    context's own tenant and workspace segments exactly once and at the index
    its root requires with no glob before them, names an allowed cartridge,
    and respects the bucket allow-list when there is one. *)
Theorem scoped_storage_key_sound v ctx b g k :
  scoped_storage_key v ctx b g = Ok k →
  good_parts g k ∧
  hd "" (split_on "/" k) ∈ READABLE_SCOPED_ROOTS ∧
  (∃ idx, exact_scope k (ctx_tenant ctx) (ctx_workspace ctx) idx) ∧
  (∃ cartridge allowed, split_on "/" k !! 1%nat = Some cartridge ∧
     stripped_set (get "allowed_cartridges" (default [] (as_dict ctx))) = Ok allowed ∧
     (cartridge ∈ allowed ∨ "*" ∈ allowed)) ∧
  (∃ buckets, stripped_set (get "allowed_buckets" (default [] (as_dict ctx))) = Ok buckets ∧
     (default "" b = "" ∨ buckets = [] ∨ default "" b ∈ buckets)).
Proof.
  intros (Hk & ?)%scoped_storage_key_inv.
  apply canonical_storage_key_sound in Hk as [? _]. done.
Qed.

(** Canonicalization is exactly this relation: the stripped text is the
    result, or the result with one final slash, and every slash-separated part
    of the result is non-empty, neither "." nor "..", and made of the segment
    alphabet; every other input raises. *)
Theorem canonical_storage_key_iff g v k :
  canonical_storage_key v g = Ok k ↔
  Forall (λ p, p ≠ "" ∧ p ≠ "." ∧ p ≠ ".." ∧
               sall (if g then glob_segment_char else segment_char) p = true)
         (split_on "/" k) ∧
  (strip (str_or_empty v) = k ∨ strip (str_or_empty v) = k +:+ "/").
Proof.
  assert (good_parts g k ↔ Forall (λ p, p ≠ "" ∧ p ≠ "." ∧ p ≠ ".." ∧
    sall (if g then glob_segment_char else segment_char) p = true) (split_on "/" k)) as <-.
  { unfold good_parts. rewrite !Forall_forall. by setoid_rewrite bad_part_false. }
  split; [apply canonical_storage_key_sound|].
  intros [? ?]. by apply canonical_storage_key_complete.
Qed.
End ScopeTheorems.

Section CompletenessTheorems.
Context `{PyRepr}.

(** A segment of a granted key that is not a scope marker. *)
Definition plain_segment (p : string) : Prop :=
  bad_part false p = false ∧
  startswith "tenant_id=" p = false ∧ startswith "workspace_id=" p = false.

Definition scope_value (s : string) : Prop := s ≠ "" ∧ sall scope_value_char s = true.

Lemma scope_segment_good prefix s :
  prefix ≠ "" → sall segment_char prefix = true → (∃ c, char_in c prefix = true ∧ c ≠ "."%char) →
  scope_value s → bad_part false (prefix +:+ s) = false.
Proof.
  intros Hp Hc (c & Hin & Hdot) [Hs0 Hs]. apply bad_part_false.
  assert (char_in c (prefix +:+ s) = true) as Hcs by (rewrite char_in_app, Hin; done).
  split_and!.
  - intros [??]%app_nil_s. done.
  - intros E. rewrite E in Hcs. unfold char_in, sany in Hcs. simpl in Hcs.
    rewrite bool_decide_eq_false_2 in Hcs by done. done.
  - intros E. rewrite E in Hcs. unfold char_in, sany in Hcs. simpl in Hcs.
    rewrite bool_decide_eq_false_2 in Hcs by done. done.
  - rewrite sall_app, Hc. simpl. eapply sall_impl; [|exact Hs].
    unfold segment_char. by intros d ->.
Qed.

Lemma tenant_segment_good t : scope_value t → bad_part false ("tenant_id=" +:+ t) = false.
Proof. apply scope_segment_good; try done. by exists "t"%char. Qed.

Lemma workspace_segment_good w : scope_value w → bad_part false ("workspace_id=" +:+ w) = false.
Proof. apply scope_segment_good; try done. by exists "w"%char. Qed.

Lemma segment_no_slash p : bad_part false p = false → char_in "/" p = false.
Proof.
  intros (_ & _ & _ & Hp)%bad_part_false. apply char_in_false.
  eapply sall_impl; [|exact Hp]. intros c Hc%segment_char_glob.
  apply glob_segment_char_range in Hc as (_ & _ & _ & _ & _ & Hc).
  by rewrite bool_decide_eq_false_2.
Qed.

Lemma segment_no_glob p :
  bad_part false p = false → sany (λ c, mem c ["*"; "?"]%char) p = false.
Proof.
  intros (_ & _ & _ & Hp)%bad_part_false. unfold sany. apply negb_false_iff.
  eapply sall_impl; [|exact Hp]. intros c. revert c.
  assert (∀ c, implb (segment_char c) (negb (mem c ["*"; "?"]%char)) = true) as Hi
    by (apply ascii_ind_all; by vm_compute).
  intros c Hc. specialize (Hi c). by rewrite Hc in Hi.
Qed.

Lemma scope_value_strip s : scope_value s → strip s = s.
Proof.
  intros [_ Hs]. apply strip_by_id. eapply sall_impl; [|exact Hs].
  intros c Hc. assert (glob_segment_char c = true) as Hg
    by (apply segment_char_glob; unfold segment_char; by rewrite Hc).
  by apply glob_segment_char_range in Hg as [-> _].
Qed.

(** The key written for the scope: root, the segments up to the scope index,
    the two scope markers, the rest. *)
Definition scoped_parts (root : string) (mid : list string) (t w : string)
    (rest : list string) : list string :=
  root :: mid ++ ("tenant_id=" +:+ t) :: ("workspace_id=" +:+ w) :: rest.

Lemma scoped_parts_good root mid t w rest :
  plain_segment root → Forall plain_segment mid → Forall plain_segment rest →
  scope_value t → scope_value w →
  Forall (λ p, bad_part false p = false) (scoped_parts root mid t w rest).
Proof.
  intros Hr Hm Hs Ht Hw. unfold scoped_parts.
  constructor; [apply Hr|]. apply Forall_app; split.
  - eapply Forall_impl; [exact Hm|]. by intros p [? _].
  - constructor; [by apply tenant_segment_good|].
    constructor; [by apply workspace_segment_good|].
    eapply Forall_impl; [exact Hs|]. by intros p [? _].
Qed.

Lemma plain_lookup_marker (l : list string) j p marker :
  Forall plain_segment l → l !! j = Some p →
  marker = "tenant_id=" ∨ marker = "workspace_id=" → startswith marker p = true → False.
Proof.
  intros Hl Hj Hm Hs.
  pose proof (Forall_lookup_1 _ _ _ _ Hl Hj) as (_ & H1 & H2).
  destruct Hm as [-> | ->]; congruence.
Qed.

Lemma scoped_parts_exact root mid t w rest :
  plain_segment root → Forall plain_segment mid → Forall plain_segment rest →
  scope_value t → scope_value w →
  SCOPE_INDEX_BY_ROOT root = Some (S (length mid)) →
  exact_scope (join "/" (scoped_parts root mid t w rest)) t w (S (length mid)).
Proof.
  intros Hr Hm Hs Ht Hw Hi. pose proof (scoped_parts_good _ _ _ _ _ Hr Hm Hs Ht Hw) as Hg.
  assert (split_on "/" (join "/" (scoped_parts root mid t w rest))
          = scoped_parts root mid t w rest) as Hsplit.
  { apply (split_join "/"); [done|]. eapply Forall_impl; [exact Hg|]. apply segment_no_slash. }
  constructor; rewrite ?Hsplit; try done.
  - unfold scoped_parts. simpl. by rewrite lookup_app_r, Nat.sub_diag by lia.
  - unfold scoped_parts. simpl. rewrite lookup_app_r by lia.
    by replace (S (length mid) - length mid)%nat with 1%nat by lia.
  - intros [|j] p; simpl; [intros [= <-]; by destruct Hr as (_ & -> & _)|].
    intros [Hj|[Hj Hp]]%lookup_app_Some Hst;
      [exfalso; by eapply plain_lookup_marker; [exact Hm| |left|]|].
    destruct (j - length mid)%nat as [|[|n]] eqn:E; simpl in Hp; [lia| |].
    + injection Hp as <-. done.
    + exfalso. by eapply plain_lookup_marker; [exact Hs| |left|].
  - intros [|j] p; simpl; [intros [= <-]; by destruct Hr as (_ & _ & ->)|].
    intros [Hj|[Hj Hp]]%lookup_app_Some Hst;
      [exfalso; by eapply plain_lookup_marker; [exact Hm| |right|]|].
    destruct (j - length mid)%nat as [|[|n]] eqn:E; simpl in Hp; [| lia|].
    + injection Hp as <-. done.
    + exfalso. by eapply plain_lookup_marker; [exact Hs| |right|].
  - intros p Hp. apply segment_no_glob. eapply Forall_forall in Hg; [exact Hg|].
    by apply (subseteq_take (S (S (S (length mid)))) _ p).
  - by destruct Ht, Hw.
Qed.
End CompletenessTheorems.

Section ScopeRoundTrips.
Context `{PyRepr}.

(** Completeness of the check: the key written for the context's own
    tenant and workspace (root, the segments before the scope index, the two
    markers, any further plain segments) under an allowed cartridge is granted
    as it is, so the check refuses no legitimate key. *)
Theorem scoped_storage_key_complete root cart mid t w rest ctx b allowed buckets :
  root ∈ READABLE_SCOPED_ROOTS →
  SCOPE_INDEX_BY_ROOT root = Some (S (S (length mid))) →
  Forall plain_segment (cart :: mid) → Forall plain_segment rest →
  scope_value t → scope_value w →
  ctx_tenant ctx = t → ctx_workspace ctx = w →
  stripped_set (get "allowed_cartridges" (default [] (as_dict ctx))) = Ok allowed →
  cart ∈ allowed ∨ "*" ∈ allowed →
  stripped_set (get "allowed_buckets" (default [] (as_dict ctx))) = Ok buckets →
  default "" b = "" ∨ buckets = [] ∨ default "" b ∈ buckets →
  let key := join "/" (scoped_parts root (cart :: mid) t w rest) in
  scoped_storage_key (PStr key) ctx b false = Ok key.
Proof.
  intros Hroot Hidx Hm Hs Ht Hw Hct Hcw Ha Hca Hb Hbu key.
  assert (plain_segment root) as Hr.
  { unfold READABLE_SCOPED_ROOTS in Hroot. rewrite !elem_of_cons, elem_of_nil in Hroot.
    destruct_or!; subst; by vm_compute. }
  pose proof (scoped_parts_good _ _ _ _ _ Hr Hm Hs Ht Hw) as Hg.
  assert (split_on "/" key = scoped_parts root (cart :: mid) t w rest) as Hsplit.
  { apply (split_join "/"); [done|]. eapply Forall_impl; [exact Hg|]. apply segment_no_slash. }
  assert (good_parts false key) as Hgk by (unfold good_parts; by rewrite Hsplit).
  pose proof (scoped_parts_exact _ _ _ _ _ Hr Hm Hs Ht Hw Hidx) as He.
  assert (canonical_storage_key (PStr key) false = Ok key) as Hk.
  { apply canonical_storage_key_complete; [done|left]. rewrite str_or_empty_str.
    by apply (good_parts_raw_checks false). }
  unfold scoped_storage_key. rewrite Hk. cbn [mbind res_bind]. rewrite Hsplit. cbn [hd scoped_parts].
  rewrite (proj2 (mem_true _ _) Hroot). cbn [negb].
  fold (ctx_tenant ctx) (ctx_workspace ctx). rewrite Hct, Hcw.
  rewrite !bool_decide_eq_false_2 by (by destruct Ht, Hw). cbn [orb].
  assert (has_exact_storage_scope (PStr key) (PStr t) (PStr w) = true) as ->.
  { apply has_exact_storage_scope_iff. exists key, (S (S (length mid))). split.
    - eapply canonical_storage_key_glob. exact Hk.
    - rewrite !str_or_empty_str, !scope_value_strip by done. exact He. }
  cbn [negb]. rewrite Ha. cbn [mbind res_bind]. cbn [lookup list_lookup scoped_parts app].
  assert (negb (mem cart allowed) && negb (mem "*" allowed) = false) as ->.
  { destruct Hca as [E|E]; apply mem_true in E; rewrite E; simpl; [done|apply andb_false_r]. }
  rewrite Hb. cbn [mbind res_bind].
  destruct Hbu as [-> |[-> | E%mem_true]]; [done|by rewrite andb_false_r|].
  rewrite E, andb_false_r. done.
Qed.

Lemma split_once_app c s t :
  char_in c s = false → split_once c (s +:+ one c +:+ t) = (s, Some t).
Proof.
  induction s as [|d s IH]; simpl; [by rewrite decide_True|].
  rewrite char_in_false. simpl. rewrite andb_true_iff, negb_true_iff, bool_decide_eq_false.
  intros [Hd Hs%char_in_false]. rewrite decide_False by congruence.
  simpl in IH. by rewrite IH.
Qed.

Lemma scope_value_chars s d :
  scope_value s → scope_value_char d = false → char_in d s = false.
Proof.
  intros [_ Hs] Hd. apply char_in_false. eapply sall_impl; [|exact Hs].
  intros c Hc. rewrite bool_decide_eq_false_2; [done|]. congruence.
Qed.

(** Round trip of the scope marker: the marker written for a tenant and a
    workspace, with or without the final slash, parses back to that pair, so
    a reader checks the very scope the writer named. *)
Theorem parse_required_scope_roundtrip t w slash :
  scope_value t → scope_value w →
  parse_required_scope (PStr ("tenant_id=" +:+ t +:+ "/workspace_id=" +:+ w +:+
                              (if slash : bool then "/" else ""))) = Ok (t, w).
Proof.
  intros Ht Hw. unfold parse_required_scope. rewrite str_or_empty_str.
  unfold match_required_scope. rewrite startswith_app.
  change (sdrop 10 ("tenant_id=" +:+ ?x)) with x.
  change ("/workspace_id=" +:+ ?x) with (one "/" +:+ ("workspace_id=" +:+ x)).
  rewrite split_once_app by (by apply scope_value_chars). rewrite startswith_app.
  change (sdrop 13 ("workspace_id=" +:+ ?x)) with x.
  assert (endswith "/" w = false) as Hend.
  { apply not_true_iff_false. intros [u ->]%endswith_spec.
    pose proof (scope_value_chars _ "/"%char Hw eq_refl) as Hc.
    rewrite char_in_app in Hc. by rewrite orb_comm in Hc. }
  unfold all_of. destruct Ht as [Ht0%nonempty_true ->], Hw as [Hw0%nonempty_true Hw].
  rewrite Ht0. destruct slash.
  - change (w +:+ "/") with (w +:+ one "/"). rewrite endswith_app, stake_snoc, Hw0, Hw. done.
  - rewrite app_nil_r_s, Hend, Hw0, Hw. done.
Qed.

(** An accepted reader URI is the literal it was given: an [s3] URI of
    canonical parts under one of the allowed prefixes, each closed by a slash
    so that no sibling prefix matches, whose key (after the bucket) lies in the
    exact scope of the tenant and workspace whenever either of them is given. *)
Theorem require_scoped_reader_uri_sound uri prefixes t w v :
  require_scoped_reader_uri uri prefixes t w = Ok v →
  uri = PStr v ∧
  (∃ rest, v = "s3://" +:+ rest ∧ good_parts true rest ∧
    (t = None ∧ w = None ∨
     has_exact_storage_scope (PStr (default "" (split_once "/" rest).2))
       (opt_str t) (opt_str w) = true)) ∧
  (∃ ps p, _reader_prefixes prefixes = Ok ps ∧ p ∈ ps ∧ startswith p v = true ∧
     endswith "/" p = true).
Proof.
  unfold require_scoped_reader_uri.
  set (value := match uri with PStr s => s | _ => "" end).
  step_if Hcanon. apply orb_false_iff in Hcanon as [Hne _]. boolify.
  assert (uri = PStr value) as Huri by (by destruct uri).
  step_if Hq. step_if Hscheme. step_if Hs3. apply negb_false_iff in Hs3.
  step_if Htrav. rewrite bind_ok. intros (canonical & Hc & Hrest). revert Hrest.
  step_if Hcan2. apply orb_false_iff in Hcan2 as [Heq _]. boolify. subst canonical.
  rewrite bind_ok. intros (ps & Hps & Hrest). revert Hrest.
  step_if Hpre. apply negb_false_iff, existsb_elem in Hpre as (p & Hp & Hpv).
  apply startswith_spec in Hs3 as [rest Hrest]. rewrite Hrest in Hc |- *.
  change (sdrop 5 ("s3://" +:+ rest)) with rest in Hc |- *.
  assert (good_parts true rest) as Hg.
  { unfold catch in Hc. destruct (canonical_storage_key _ _) eqn:Ek.
    - injection Hc as ->. by apply canonical_storage_key_sound in Ek as [? _].
    - destruct (exn_isa _ _); discriminate. }
  assert (endswith "/" p = true) as Hslash.
  { unfold _reader_prefixes in Hps. rewrite bind_ok in Hps. destruct Hps as (vs & _ & [= <-]).
    apply list_elem_of_In, in_map_iff in Hp as (x & <- & _). apply endswith_app. }
  intros Hfin. assert (v = value) as ->.
  { rewrite Hrest. revert Hfin. destruct t, w; try step_if Hx; congruence. }
  split; [done|]. split; [|exists ps, p; by rewrite Hrest in *].
  exists rest. split; [done|]. split; [done|].
  destruct t, w; [right..|by left]; revert Hfin; step_if Hx; by apply negb_false_iff in Hx.
Qed.
End ScopeRoundTrips.

(** * Object keys and prefixes *)

Import Keys.

Section KeyTheorems.
Context `{PyRepr}.

Ltac error_branch :=
  split_and!; [split; [discriminate|naive_solver congruence]|discriminate|by intros ? [= <-]].

(** [validate_key] is exactly this predicate on the stripped text: it is
    non-empty, relative, without a URI scheme, backslash, doubled slash, ".."
    or control character; otherwise [InvalidObjectKey] is raised. *)
Theorem validate_key_iff v :
  let k := strip (str_or_empty v) in
  (validate_key v = Ok k ↔
   k ≠ "" ∧ contains "://" k = false ∧ startswith "/" k = false ∧
   char_in "\" k = false ∧ contains "//" k = false ∧ contains ".." k = false ∧
   sany is_control k = false) ∧
  (∀ k', validate_key v = Ok k' → k' = k) ∧
  (∀ e, validate_key v = Raise e → exn_cls e = InvalidObjectKey).
Proof.
  intros k. unfold validate_key, invalid_key, _has_control. fold k.
  destruct (bool_decide (k = "")) eqn:E0; boolify; [error_branch|].
  destruct (contains "://" k) eqn:E1; [error_branch|].
  destruct (startswith "/" k) eqn:E2; [error_branch|].
  destruct (char_in "\" k) eqn:E3; [error_branch|].
  destruct (contains "//" k) eqn:E4; [error_branch|].
  destruct (contains ".." k) eqn:E5; [error_branch|]. simpl.
  destruct (sany is_control k) eqn:E6; [error_branch|].
  split_and!; [by split_and!|by intros ? [= <-]|discriminate].
Qed.

(** A prefix accepted for deletion is never empty and never the whole
    bucket: it is a valid object key followed by slashes, at least one of them
    when the caller requires the trailing slash (so "a" cannot delete "ab/"). *)
Theorem validate_prefix_delete v trailing p :
  validate_prefix v true trailing = Ok p →
  ∃ k k' n, p = k +:+ repeat_char n "/" ∧ validate_key (PStr k) = Ok k' ∧ k' ≠ "" ∧
    (trailing = true → (1 ≤ n)%nat).
Proof.
  unfold validate_prefix. set (value := strip (str_or_empty v)). simpl.
  destruct (bool_decide (value = "")) eqn:E0; [done|]. boolify.
  rewrite bind_ok. intros (k' & Hk & Hrest). revert Hrest.
  assert (k' ≠ "") as Hk'.
  { pose proof (validate_key_iff (PStr (if endswith "/" value
      then rstrip_char "/" value else value))) as (Hiff & Heq & _).
    pose proof (Heq _ Hk) as ->. by apply Hiff in Hk as [? _]. }
  step_if Ht. intros [= <-].
  destruct (endswith "/" value) eqn:He.
  - destruct (rstrip_char_spec "/" value) as [n Hn].
    exists (rstrip_char "/" value), k', n. split_and!; try done.
    destruct n; [|lia]. exfalso. simpl in Hn. rewrite app_nil_r_s in Hn.
    apply endswith_spec in He as [t Hvt]. rewrite Hn in Hvt.
    by apply rstrip_by_last in Hvt.
  - exists value, k', 0%nat. rewrite app_nil_r_s. split_and!; try done.
    intros ->. simpl in Ht. done.
Qed.
End KeyTheorems.

(** * The theorems at concrete inputs *)

Section Witnesses.
#[local] Instance repr : PyRepr := some_repr.

Definition demo_ctx : pyval := PDict (mkdict
  [("tenant_id", PStr " t1 "); ("workspace_id", PStr "w1");
   ("allowed_cartridges", PList [PStr "sap_b1"])]).
Definition demo_key : string :=
  "raw/sap_b1/invoices/tenant_id=t1/workspace_id=w1/part-0.parquet".

Lemma scoped_storage_key_isolation_witness :
  scoped_storage_key (PStr demo_key) demo_ctx None false = Ok demo_key ∧
  ctx_tenant demo_ctx = ctx_tenant demo_ctx.
Proof.
  split; [vm_compute; reflexivity|].
  apply (scoped_storage_key_isolation (PStr demo_key) (PStr (demo_key +:+ "/")) demo_ctx demo_ctx
           None (Some "lake") false true demo_key); vm_compute; reflexivity.
Defined.

Lemma scoped_storage_key_sound_witness : ∃ idx, exact_scope demo_key "t1" "w1" idx.
Proof.
  apply (scoped_storage_key_sound (PStr demo_key) demo_ctx None false demo_key).
  vm_compute. reflexivity.
Defined.

Lemma scoped_storage_key_complete_witness :
  scoped_storage_key (PStr demo_key) demo_ctx None false = Ok demo_key.
Proof.
  apply (scoped_storage_key_complete "raw" "sap_b1" ["invoices"] "t1" "w1" ["part-0.parquet"]
           demo_ctx None ["sap_b1"] []); try (vm_compute; reflexivity).
  - apply mem_true. vm_compute. reflexivity.
  - repeat constructor; vm_compute; reflexivity.
  - repeat constructor; vm_compute; reflexivity.
  - split; [discriminate|vm_compute; reflexivity].
  - split; [discriminate|vm_compute; reflexivity].
  - left. apply mem_true. vm_compute. reflexivity.
  - left. reflexivity.
Defined.

Lemma parse_required_scope_roundtrip_witness :
  parse_required_scope (PStr "tenant_id=t1/workspace_id=w:1/") = Ok ("t1", "w:1").
Proof.
  apply (parse_required_scope_roundtrip "t1" "w:1" true);
    (split; [discriminate|vm_compute; reflexivity]).
Defined.

Lemma require_scoped_reader_uri_sound_witness :
  let uri := "s3://lake/gold/sap_b1/wip/tenant_id=t1/workspace_id=w1/*.parquet" in
  PStr uri = PStr uri.
Proof.
  apply (require_scoped_reader_uri_sound _ (PStr "s3://lake/gold/") (Some "t1") (Some "w1")).
  vm_compute. reflexivity.
Defined.

Lemma validate_prefix_delete_witness :
  ∃ k k' n, "raw/sap_b1/" = k +:+ repeat_char n "/" ∧ validate_key (PStr k) = Ok k' ∧
    k' ≠ "" ∧ (true = true → (1 ≤ n)%nat).
Proof.
  apply (validate_prefix_delete (PStr "raw/sap_b1/") true "raw/sap_b1/").
  vm_compute. reflexivity.
Defined.
End Witnesses.
