(* ===== verification/AsyncJobs.v ===== *)
(** Asynchronous job execution of the refinement service and the cartridges
    (refinement/app/async_jobs.py): the job registry with its idempotency keys,
    capacity and eviction, the tasks that run the jobs, and the middleware that
    submits and polls them.

    A registry operation runs between two [await]s, so it is one atomic step;
    the registry is a state and the steps of the concurrent requests and tasks
    interleave ([event], [exec], [reachable]).  A [Job] object is identified by
    its id: [_run] mutates the object, here the entry with that id. *)
From S2P Require Import Prelude PyStr PyTime.

Open Scope Z_scope.

Definition MAX_BODY_BYTES : Z := Z.shiftl 1 20.
Definition MAX_RESULT_BYTES : Z := Z.shiftl 1 20.
Definition TTL_SECONDS : instant := seconds (6 * 3600).
Definition MAX_JOBS : Z := 512.
Definition _STRIPPED_HEADERS : list string := ["prefer"; "idempotency-key"; "content-length"].

(** [JOB_PATH.fullmatch(path)], the job id it captures. *)
Definition JOB_PATH (path : string) : option string :=
  if startswith "/jobs/" path then
    let id := sdrop 6 path in
    if Nat.eqb (slen id) 32 && sall is_lower_hex id then Some id else None
  else None.

Definition is_key_char (c : ascii) : bool := is_ascii_alnum c || char_in c ":._@+=/-".

(** [IDEMPOTENCY_KEY.fullmatch(key)]. *)
Definition IDEMPOTENCY_KEY (key : string) : bool :=
  match key with
  | "" => false
  | String c rest =>
      is_ascii_alnum c && sall is_key_char rest && Nat.leb 7 (slen rest) && Nat.leb (slen rest) 255
  end.

(** ** Jobs *)

Inductive job_status := Running | Succeeded | Failed.

#[export] Instance job_status_eq_dec : EqDecision job_status.
Proof. solve_decision. Defined.

Definition status_text (s : job_status) : string :=
  match s with Running => "running" | Succeeded => "succeeded" | Failed => "failed" end.

(** What a job's [result] holds: nothing yet, the value [json.loads] gives on a
    body, the text of a body that is not JSON, a truncation notice, or the class
    of the exception the work raised. *)
Inductive payload :=
  | NoPayload
  | JsonOf (body : string)
  | TextOf (bytes : string)
  | Truncated (bytes : Z)
  | ErrorClass (name : string).

#[export] Instance payload_eq_dec : EqDecision payload.
Proof. solve_decision. Defined.

Record Job := mkJob {
  job_id : string;
  job_key : string;
  fingerprint : string;
  created_at : instant;
  status : job_status;
  finished_at : option instant;
  status_code : option Z;
  result : payload }.

#[export] Instance Job_eq_dec : EqDecision Job.
Proof. solve_decision. Defined.

Definition new_job (id key fp : string) (now : instant) : Job :=
  mkJob id key fp now Running None None NoPayload.

Definition _iso (value : option instant) : option string := isoformat <$> value.

Record snapshot_of := Snapshot {
  s_job_id : string;
  s_status : string;
  s_status_url : string;
  s_created_at : option string;
  s_finished_at : option string;
  s_status_code : option Z;
  s_result : payload }.

Definition snapshot (j : Job) : snapshot_of :=
  Snapshot (job_id j) (status_text (status j)) ("/jobs/" +:+ job_id j)
    (_iso (Some (created_at j))) (_iso (finished_at j)) (status_code j) (result j).

(** ** The registry *)

(** [_jobs] in insertion order, [_keys], and the jobs whose task runs. *)
Record JobRegistry := Registry {
  _ttl : instant;
  _max : Z;
  _jobs : list (string * Job);
  _keys : gmap string string;
  _tasks : list string }.

Definition init (ttl : instant) (max : Z) : JobRegistry := Registry ttl max [] ∅ [].

Definition with_jobs (js : list (string * Job)) (r : JobRegistry) : JobRegistry :=
  Registry (_ttl r) (_max r) js (_keys r) (_tasks r).
Definition with_keys (ks : gmap string string) (r : JobRegistry) : JobRegistry :=
  Registry (_ttl r) (_max r) (_jobs r) ks (_tasks r).
Definition with_tasks (ts : list string) (r : JobRegistry) : JobRegistry :=
  Registry (_ttl r) (_max r) (_jobs r) (_keys r) ts.

(** [job.finished_at or now]: an instant of 0 is false in Python. *)
Definition instant_or (v : option instant) (d : instant) : instant :=
  match v with Some t => if t =? 0 then d else t | None => d end.

Definition finished (j : Job) : bool := bool_decide (is_Some (finished_at j)).
Definition finish_leb (a b : Job) : bool :=
  instant_or (finished_at a) 0 <=? instant_or (finished_at b) 0.
Definition expired (ttl now : instant) (j : Job) : bool :=
  ttl <? now - instant_or (finished_at j) now.

(** The jobs [_evict] pops, in order: every expired one, then the oldest
    finished ones while the registry is full. *)
Definition victims (now : instant) (r : JobRegistry) : list Job :=
  let fin := sort_by finish_leb (List.filter finished (_jobs r).*2) in
  let exp := List.filter (expired (_ttl r) now) fin in
  let remaining := List.filter (λ j, negb (mem j exp)) fin in
  let overflow := Z.max 0 (Z.of_nat (length (_jobs r)) - Z.of_nat (length exp) - _max r + 1) in
  exp ++ take (Z.to_nat overflow) remaining.

Definition evict_one (r : JobRegistry) (j : Job) : JobRegistry :=
  let r := with_jobs (adel (job_id j) (_jobs r)) r in
  if decide (_keys r !! job_key j = Some (job_id j))
  then with_keys (delete (job_key j) (_keys r)) r else r.

Definition _evict (now : instant) (r : JobRegistry) : JobRegistry :=
  foldl evict_one r (victims now r).

Definition get (now : instant) (id : string) (r : JobRegistry) : JobRegistry * option Job :=
  let r := _evict now r in (r, afind id (_jobs r)).

(** [self._jobs.get(self._keys.get(key, ""))]. *)
Definition current (key : string) (r : JobRegistry) : option Job :=
  afind (default "" (_keys r !! key)) (_jobs r).

(** The clock is read at the eviction ([now]) and at the creation ([now']);
    [id] is the hex of the fresh uuid.  The eviction happens on every branch. *)
Definition claim (now now' : instant) (id key fp : string) (r : JobRegistry)
    : JobRegistry * res (Job * bool) :=
  let r := _evict now r in
  let create :=
    if _max r <=? Z.of_nat (length (_jobs r)) then (r, raise JobCapacityExceeded key)
    else
      let job := new_job id key fp now' in
      (with_keys (<[key := id]> (_keys r)) (with_jobs (aput id job (_jobs r)) r), Ok (job, true)) in
  match current key r with
  | Some j =>
      if bool_decide (fingerprint j ≠ fp) then (r, raise JobConflict key)
      else if bool_decide (status j ≠ Failed) then (r, Ok (j, false))
      else create
  | None => create
  end.

(** [start]: the task is created and kept. *)
Definition start (id : string) (r : JobRegistry) : JobRegistry :=
  with_tasks (id :: _tasks r) r.

(** What the awaited work gives: a status code and payload, or an exception. *)
Inductive outcome :=
  | Returned (code : Z) (p : payload)
  | Raised (class_name : string).

Definition outcome_pair (o : outcome) : Z * payload :=
  match o with Returned c p => (c, p) | Raised n => (500, ErrorClass n) end.

Definition finish_job (now : instant) (o : outcome) (j : Job) : Job :=
  let '(code, p) := outcome_pair o in
  mkJob (job_id j) (job_key j) (fingerprint j) (created_at j)
    (if (200 <=? code) && (code <? 300) then Succeeded else Failed)
    (Some now) (Some code) p.

(** The end of [_run], and the done callback that discards the task. *)
Definition run_end (now : instant) (id : string) (o : outcome) (r : JobRegistry) : JobRegistry :=
  let r := match afind id (_jobs r) with
           | Some j => with_jobs (aput id (finish_job now o j) (_jobs r)) r
           | None => r
           end in
  with_tasks (List.filter (λ t, negb (bool_decide (t = id))) (_tasks r)) r.

(** A request that claims a key starts the job it created before it awaits. *)
Definition claim_start (now now' : instant) (id key fp : string) (r : JobRegistry)
    : JobRegistry * res (Job * bool) :=
  let '(r, v) := claim now now' id key fp r in
  match v with
  | Ok (j, true) => (start (job_id j) r, v)
  | _ => (r, v)
  end.

(** ** Interleavings *)

Inductive event :=
  | EGet (now : instant) (id : string)
  | EClaim (now now' : instant) (id key fp : string)
  | EFinish (now : instant) (id : string) (o : outcome).

(** A new uuid names no job or task, and only a running task ends. *)
Definition enabled (e : event) (r : JobRegistry) : Prop :=
  match e with
  | EGet _ _ => True
  | EClaim _ _ id _ _ => id ≠ "" ∧ id ∉ (_jobs r).*1 ∧ id ∉ _tasks r
  | EFinish now id _ => id ∈ _tasks r
  end.

Definition exec (e : event) (r : JobRegistry) : JobRegistry :=
  match e with
  | EGet now id => (get now id r).1
  | EClaim now now' id key fp => (claim_start now now' id key fp r).1
  | EFinish now id o => run_end now id o r
  end.

Inductive reachable (ttl : instant) (max : Z) : JobRegistry → Prop :=
  | reach_init : reachable ttl max (init ttl max)
  | reach_step r e : reachable ttl max r → enabled e r → reachable ttl max (exec e r).

(** ** The invariant *)

(** Entries carry their id; every key points to a job made for it; a job that
    has not failed is the one its key points to; a job runs until it is
    finished, and a running job is one whose task exists. *)
Record wf (r : JobRegistry) : Prop := {
  wf_nodup : NoDup (_jobs r).*1;
  wf_id : ∀ id j, (id, j) ∈ _jobs r → job_id j = id ∧ id ≠ "";
  wf_key : ∀ key id, _keys r !! key = Some id → ∃ j, (id, j) ∈ _jobs r ∧ job_key j = key;
  wf_live : ∀ id j, (id, j) ∈ _jobs r → status j ≠ Failed → _keys r !! job_key j = Some id;
  wf_run : ∀ id j, (id, j) ∈ _jobs r → (status j = Running ↔ finished_at j = None);
  wf_task : ∀ id, id ∈ _tasks r ↔ ∃ j, (id, j) ∈ _jobs r ∧ status j = Running;
  wf_tasks : NoDup (_tasks r) }.

Lemma wf_init ttl max : wf (init ttl max).
Proof.
  split; simpl; try (intros; set_solver); [apply NoDup_nil_2|].
  apply NoDup_nil_2.
Qed.

Lemma wf_inj r id j j' : wf r → (id, j) ∈ _jobs r → (id, j') ∈ _jobs r → j = j'.
Proof. intros W H H'. rewrite !elem_of_afind in * by apply W. naive_solver. Qed.

(** *** Eviction *)

Lemma evict_one_fields r j :
  _jobs (evict_one r j) = adel (job_id j) (_jobs r) ∧ _tasks (evict_one r j) = _tasks r
  ∧ _ttl (evict_one r j) = _ttl r ∧ _max (evict_one r j) = _max r.
Proof. unfold evict_one; simpl; by case_decide. Qed.

Lemma evict_one_keys r j k :
  _keys (evict_one r j) !! k =
    if decide (k = job_key j ∧ _keys r !! k = Some (job_id j)) then None else _keys r !! k.
Proof.
  unfold evict_one; simpl. repeat case_decide; simpl; destruct_and?; subst; simplify_map_eq; try done.
  destruct (decide (k = job_key j)) as [->|]; [tauto|]. by simplify_map_eq.
Qed.

Lemma wf_evict_one r j :
  wf r → (job_id j, j) ∈ _jobs r → finished j = true → wf (evict_one r j).
Proof.
  intros W Hj Hf. apply bool_decide_eq_true in Hf.
  destruct (evict_one_fields r j) as (Ejs & Ets & _).
  assert (Hin : ∀ id k, (id, k) ∈ _jobs (evict_one r j) ↔ (id, k) ∈ _jobs r ∧ id ≠ job_id j).
  { intros. by rewrite Ejs, elem_of_adel. }
  assert (Hnr : status j ≠ Running).
  { intros E. apply (wf_run r W) in Hj. rewrite Hj in E. rewrite E in Hf. by destruct Hf. }
  split.
  - rewrite Ejs. apply NoDup_adel, W.
  - intros id k [H _]%Hin. by apply (wf_id r W).
  - intros key id. rewrite evict_one_keys. case_decide as Hd; [done|]. intros Hk.
    destruct (wf_key r W key id Hk) as (k & Hin' & <-). exists k. split; [|done].
    apply Hin. split; [done|]. intros ->. rewrite (wf_inj r _ _ _ W Hin' Hj) in *. tauto.
  - intros id k [H Hne]%Hin Hs. rewrite evict_one_keys, (wf_live r W id k H Hs).
    case_decide; [|done]. naive_solver.
  - intros id k [H _]%Hin. by eapply wf_run.
  - intros id. rewrite Ets, (wf_task r W). split; intros (k & H & Hs); exists k; split; try done.
    + apply Hin. split; [done|]. intros ->. rewrite (wf_inj r _ _ _ W H Hj) in Hs. done.
    + by apply Hin in H as [H _].
  - rewrite Ets. apply W.
Qed.

Definition entry_of (r : JobRegistry) (j : Job) : Prop :=
  (job_id j, j) ∈ _jobs r ∧ finished j = true.

(** What popping a duplicate-free list of finished jobs leaves. *)
Lemma evict_fold r vs :
  wf r → NoDup (job_id <$> vs) → Forall (entry_of r) vs →
  let r' := foldl evict_one r vs in
  wf r'
  ∧ (∀ id j, (id, j) ∈ _jobs r' ↔ (id, j) ∈ _jobs r ∧ id ∉ (job_id <$> vs))
  ∧ (length (_jobs r') + length vs = length (_jobs r))%nat
  ∧ _ttl r' = _ttl r ∧ _max r' = _max r ∧ _tasks r' = _tasks r.
Proof.
  revert r; induction vs as [|v vs IH]; intros r W Hnd Hvs; simpl.
  - split_and!; try done; try lia; set_solver.
  - apply NoDup_cons in Hnd as [Hv Hnd]. apply Forall_cons in Hvs as [[Hj Hf] Hvs].
    destruct (evict_one_fields r v) as (Ejs & Ets & Ett & Emx).
    destruct (IH (evict_one r v)) as (W' & Hin & Hlen & H1 & H2 & H3).
    + by apply wf_evict_one.
    + done.
    + rewrite Forall_forall in Hvs |- *. intros x Hx. destruct (Hvs x Hx) as [Hx1 Hx2].
      split; [|done]. rewrite Ejs, elem_of_adel. split; [done|]. intros E. apply Hv.
      apply list_elem_of_fmap. eauto.
    + split_and!; try congruence.
      * intros id j. rewrite Hin, Ejs, elem_of_adel. simpl. set_solver.
      * rewrite Ejs in Hlen. assert (S (length (adel (job_id v) (_jobs r))) = length (_jobs r)); [|lia].
        apply length_adel; [apply W|]. apply list_elem_of_fmap. by exists (job_id v, v).
Qed.

Definition finished_jobs (r : JobRegistry) : list Job := List.filter finished (_jobs r).*2.

Lemma entry_finished r j : wf r → j ∈ finished_jobs r ↔ entry_of r j.
Proof.
  intros W. unfold finished_jobs, entry_of. rewrite elem_of_List_filter, list_elem_of_fmap. split.
  - intros [([id k] & -> & H) Hf]. simpl in *. destruct (wf_id r W id k H) as [-> _]. done.
  - intros [H Hf]. split; [|done]. by exists (job_id j, j).
Qed.

Lemma NoDup_finished r : wf r → NoDup (job_id <$> finished_jobs r).
Proof.
  intros W. unfold finished_jobs.
  assert (Hids : job_id <$> (_jobs r).*2 = (_jobs r).*1).
  { rewrite <- list_fmap_compose. apply list_fmap_ext. intros i [id j] H%list_elem_of_lookup_2.
    simpl. apply (wf_id r W id j H). }
  assert (Hnd : NoDup (job_id <$> (_jobs r).*2)) by (rewrite Hids; apply W).
  rewrite <- (List_filter_perm finished (_jobs r).*2), fmap_app in Hnd.
  by apply NoDup_app in Hnd as [? _].
Qed.

Section Victims.
Context (now : instant) (r : JobRegistry) (W : wf r).

Definition sorted_finished : list Job := sort_by finish_leb (finished_jobs r).
Definition unexpired : list Job :=
  List.filter (λ j, negb (expired (_ttl r) now j)) sorted_finished.
Definition expired_jobs : list Job := List.filter (expired (_ttl r) now) sorted_finished.
Definition excess : nat :=
  Z.to_nat (Z.max 0 (Z.of_nat (length (_jobs r)) - Z.of_nat (length expired_jobs) - _max r + 1)).

Lemma victims_eq : victims now r = expired_jobs ++ take excess unexpired.
Proof using Type.
  unfold victims. f_equal. f_equal. apply List.filter_ext_in. intros j Hj.
  f_equal. apply eq_bool_prop_intro. rewrite !Is_true_true, mem_true, elem_of_List_filter.
  rewrite list_elem_of_In. naive_solver.
Qed.

Lemma victims_perm : victims now r ++ drop excess unexpired ≡ₚ finished_jobs r.
Proof using Type.
  rewrite victims_eq, <- app_assoc, take_drop. unfold expired_jobs, unexpired.
  rewrite List_filter_perm. unfold sorted_finished. by rewrite sort_by_perm.
Qed.

Lemma victims_ok : NoDup (job_id <$> victims now r) ∧ Forall (entry_of r) (victims now r).
Proof using W.
  split.
  - pose proof (NoDup_finished r W) as H. rewrite <- victims_perm, fmap_app in H.
    by apply NoDup_app in H as [? _].
  - apply Forall_forall. intros j Hj. apply entry_finished; [done|].
    rewrite <- victims_perm. set_solver.
Qed.

(** The finished jobs an eviction leaves. *)
Lemma evict_survivors :
  let r' := _evict now r in
  wf r'
  ∧ (∀ id j, (id, j) ∈ _jobs r' ↔
       (id, j) ∈ _jobs r ∧ (finished j = true → j ∈ drop excess unexpired))
  ∧ (length (_jobs r') + length (victims now r) = length (_jobs r))%nat
  ∧ _ttl r' = _ttl r ∧ _max r' = _max r ∧ _tasks r' = _tasks r.
Proof using W.
  destruct victims_ok as [Hnd Hent].
  destruct (evict_fold r (victims now r) W Hnd Hent) as (W' & Hin & Hrest).
  split; [done|]. split; [|done]. intros id j. unfold _evict. rewrite Hin.
  pose proof (NoDup_finished r W) as Hnf. rewrite <- victims_perm, fmap_app in Hnf.
  apply NoDup_app in Hnf as (_ & Hdisj & _).
  split; intros [Hj H]; (split; [done|]); destruct (wf_id r W id j Hj) as [<- _].
  - intros Hf. assert (Hj' : j ∈ finished_jobs r) by (apply entry_finished; done).
    rewrite <- victims_perm in Hj'. apply elem_of_app in Hj' as [Hv|?]; [|done].
    destruct H. apply list_elem_of_fmap. eauto.
  - intros Hv. apply list_elem_of_fmap in Hv as (k & Ek & Hk).
    assert (Hkent : entry_of r k) by (rewrite Forall_forall in Hent; by apply Hent).
    destruct Hkent as [Hkin Hkf]. rewrite <- Ek in Hkin.
    rewrite (wf_inj r _ _ _ W Hj Hkin) in *.
    apply (Hdisj (job_id k)); apply list_elem_of_fmap; eauto.
Qed.
End Victims.

(** An eviction changes no job: it removes only finished ones, all the expired
    ones among them, and leaves room for a job unless every job is running. *)
Lemma evict_facts now r :
  wf r →
  let r' := _evict now r in
  wf r' ∧ _tasks r' = _tasks r ∧ _max r' = _max r ∧ _ttl r' = _ttl r
  ∧ (∀ id j, (id, j) ∈ _jobs r' → (id, j) ∈ _jobs r)
  ∧ (∀ id j, (id, j) ∈ _jobs r → status j = Running → (id, j) ∈ _jobs r')
  ∧ (∀ id j, (id, j) ∈ _jobs r' → finished j = true → expired (_ttl r) now j = false)
  ∧ (Z.of_nat (length (_jobs r')) < _max r
     ∨ ∀ id j, (id, j) ∈ _jobs r' → status j = Running)
  ∧ (length (_jobs r') ≤ length (_jobs r))%nat.
Proof.
  intros W r'. destruct (evict_survivors now r W) as (W' & Hin & Hlen & Ht & Hm & Hts).
  fold r' in W', Hin, Hlen, Ht, Hm, Hts.
  split_and!; try done; try lia.
  - naive_solver.
  - intros id j Hj Hs. apply Hin. split; [done|].
    apply (wf_run r W id j Hj) in Hs. unfold finished. rewrite Hs. by intros ?%bool_decide_eq_true%is_Some_None.
  - intros id j [Hj Hd]%Hin Hf. specialize (Hd Hf).
    assert (Hu : j ∈ unexpired now r) by (rewrite <- (take_drop (excess now r)); set_solver).
    apply elem_of_List_filter in Hu as [_ Hu]. by apply negb_true_iff in Hu.
  - destruct (decide (drop (excess now r) (unexpired now r) = [])) as [E|E].
    + right. intros id j [Hj Hd]%Hin. destruct (status j) eqn:Es; [done|exfalso..].
      all: rewrite E in Hd; apply not_elem_of_nil with (x := j), Hd, bool_decide_eq_true.
      all: destruct (finished_at j) eqn:Ef; [done|]; apply (wf_run r W id j Hj) in Ef; congruence.
    + left. rewrite <- length_zero_iff_nil in E. rewrite length_drop in E.
      rewrite victims_eq, length_app, length_take in Hlen.
      unfold excess in *. unfold expired_jobs in *. lia.
Qed.

Lemma current_spec key r :
  wf r → current key r =
    match _keys r !! key with Some id => afind id (_jobs r) | None => None end.
Proof.
  intros W. unfold current. destruct (_keys r !! key); simpl; [done|].
  apply afind_None. intros H. apply list_elem_of_fmap in H as ([id j] & Eid & H).
  apply (wf_id r W) in H as [_ H]. simpl in *. congruence.
Qed.

Lemma current_live key r id j :
  wf r → (id, j) ∈ _jobs r → job_key j = key → status j ≠ Failed → current key r = Some j.
Proof.
  intros W Hj <- Hs. rewrite current_spec, (wf_live r W id j Hj Hs) by done.
  by apply elem_of_afind; [apply W|].
Qed.

Lemma current_some key r j :
  wf r → current key r = Some j → (job_id j, j) ∈ _jobs r ∧ job_key j = key.
Proof.
  intros W. rewrite current_spec by done. destruct (_keys r !! key) as [id|] eqn:E; [|done].
  intros Hj. apply afind_elem in Hj. destruct (wf_id r W id j Hj) as [-> _]. split; [done|].
  destruct (wf_key r W key id E) as (k & Hk & <-). by rewrite (wf_inj r _ _ _ W Hj Hk).
Qed.

(** Starting a job under a key whose current job, if any, has failed. *)
Lemma wf_create r id key fp now :
  wf r → id ≠ "" → id ∉ (_jobs r).*1 → id ∉ _tasks r →
  (∀ j, current key r = Some j → status j = Failed) →
  wf (start id (with_keys (<[key := id]> (_keys r))
       (with_jobs (aput id (new_job id key fp now) (_jobs r)) r))).
Proof.
  intros W Hid Hnew Htask Hcur.
  set (job := new_job id key fp now).
  assert (Hin : ∀ i j, (i, j) ∈ aput id job (_jobs r) ↔ (i, j) ∈ _jobs r ∨ (i = id ∧ j = job)).
  { intros. rewrite aput_new by done. set_solver. }
  assert (Hne : ∀ i j, (i, j) ∈ _jobs r → i ≠ id).
  { intros i j H ->. apply Hnew, list_elem_of_fmap. by exists (id, j). }
  split; simpl.
  - rewrite aput_new, fmap_app by done. apply NoDup_app. split; [apply W|]. split; [set_solver|].
    apply NoDup_singleton.
  - intros i j [H|[-> ->]]%Hin; [by apply (wf_id r W)|done].
  - intros k i. destruct (decide (k = key)) as [->|Hk]; simplify_map_eq.
    + intros [= <-]. exists job. split; [apply Hin; by right|done].
    + intros H. destruct (wf_key r W k i H) as (j & Hj & <-). exists j. split; [|done].
      apply Hin. by left.
  - intros i j [H|[-> ->]]%Hin Hs; [|by simplify_map_eq].
    destruct (decide (job_key j = key)) as [Ek|Ek]; simplify_map_eq.
    + destruct (Hs (Hcur j (current_live _ _ i j W H eq_refl Hs))).
    + by apply wf_live.
  - intros i j [H|[-> ->]]%Hin; [by eapply wf_run|done].
  - intros i. rewrite elem_of_cons, (wf_task r W). split.
    + intros [->|(j & Hj & Hs)]; [exists job|exists j]; split; try done; apply Hin; auto.
    + intros (j & [Hj|[-> ->]]%Hin & Hs); [right|by left]. eauto.
  - apply NoDup_cons. split; [done|apply W].
Qed.

Lemma finish_job_fields now o j :
  job_id (finish_job now o j) = job_id j ∧ job_key (finish_job now o j) = job_key j
  ∧ fingerprint (finish_job now o j) = fingerprint j
  ∧ finished_at (finish_job now o j) = Some now ∧ status (finish_job now o j) ≠ Running.
Proof. unfold finish_job. destruct (outcome_pair o). simpl. split_and!; try done. by case_match. Qed.

Lemma elem_of_aput_in k v (d : list (string * Job)) i w :
  NoDup d.*1 → k ∈ d.*1 →
  (i, w) ∈ aput k v d ↔ (i = k ∧ w = v) ∨ (i ≠ k ∧ (i, w) ∈ d).
Proof.
  intros Hnd Hk. rewrite !elem_of_afind by (rewrite ?keys_aput_in; done).
  rewrite afind_aput. case_decide; naive_solver.
Qed.

Lemma wf_finish r now id o : wf r → id ∈ _tasks r → wf (run_end now id o r).
Proof.
  intros W Ht. destruct (proj1 (wf_task r W id) Ht) as (j & Hj & Hs).
  assert (Hk : id ∈ (_jobs r).*1) by (apply list_elem_of_fmap; by exists (id, j)).
  unfold run_end. rewrite (proj1 (elem_of_afind id j _ (wf_nodup r W)) Hj). simpl.
  destruct (finish_job_fields now o j) as (E1 & E2 & _ & E4 & E5).
  set (j' := finish_job now o j) in *. destruct (wf_id r W id j Hj) as [Eid Hne].
  pose proof (λ i w, elem_of_aput_in id j' (_jobs r) i w (wf_nodup r W) Hk) as Hin.
  split; simpl.
  - rewrite keys_aput_in by done. apply W.
  - intros i w [[-> ->]|[_ H]]%Hin; [by rewrite E1|by apply (wf_id r W)].
  - intros k i H. destruct (wf_key r W k i H) as (w & Hw & <-).
    destruct (decide (i = id)) as [->|Hi].
    + rewrite (wf_inj r _ _ _ W Hw Hj). exists j'. split; [apply Hin; auto|done].
    + exists w. split; [apply Hin; auto|done].
  - intros i w [[-> ->]|[_ H]]%Hin Hf; [|by apply (wf_live r W)].
    rewrite E2. apply (wf_live r W); [done|]. by rewrite Hs.
  - intros i w [[-> ->]|[_ H]]%Hin; [|by eapply wf_run]. rewrite E4. done.
  - intros i. rewrite elem_of_List_filter, negb_true_iff, bool_decide_eq_false, (wf_task r W). split.
    + intros [(w & Hw & Hsw) Hi]. exists w. split; [apply Hin; auto|done].
    + intros (w & [[-> ->]|[Hi H]]%Hin & Hsw); [done|]. eauto.
  - pose proof (wf_tasks r W) as Hnd.
    rewrite <- (List_filter_perm (λ t, negb (bool_decide (t = id))) (_tasks r)) in Hnd.
    by apply NoDup_app in Hnd as [? _].
Qed.

(** What a claim does to a well-formed registry, on every branch. *)
Lemma claim_start_cases now now' id key fp r :
  wf r → id ≠ "" → id ∉ (_jobs r).*1 → id ∉ _tasks r →
  let e := _evict now r in
  let '(r', v) := claim_start now now' id key fp r in
  match v with
  | Ok (j, false) =>
      r' = e ∧ current key e = Some j ∧ fingerprint j = fp ∧ status j ≠ Failed
  | Ok (j, true) =>
      j = new_job id key fp now' ∧ Z.of_nat (length (_jobs e)) < _max e
      ∧ (∀ k, current key e = Some k → fingerprint k = fp ∧ status k = Failed)
      ∧ r' = start id (with_keys (<[key := id]> (_keys e)) (with_jobs (aput id j (_jobs e)) e))
  | Raise x =>
      r' = e ∧
      ((x = Exn JobConflict key ∧ ∃ k, current key e = Some k ∧ fingerprint k ≠ fp)
       ∨ (x = Exn JobCapacityExceeded key ∧ _max e <= Z.of_nat (length (_jobs e))
          ∧ ∀ k, current key e = Some k → fingerprint k = fp ∧ status k = Failed))
  end.
Proof.
  intros W Hid Hnew Ht e. unfold claim_start, claim. fold e.
  destruct (current key e) as [k|] eqn:Ek.
  - case_bool_decide as Hfp; [naive_solver|].
    case_bool_decide as Hs; [naive_solver|].
    destruct (_max e <=? _) eqn:Em; simpl; [split; [done|]; right|]; split_and!; try done; try lia;
      by intros ? [= <-].
  - destruct (_max e <=? _) eqn:Em; simpl; [split; [done|]; right|]; split_and!; try done; lia.
Qed.

Lemma evict_fresh now r id :
  wf r → id ∉ (_jobs r).*1 → id ∉ (_jobs (_evict now r)).*1.
Proof.
  intros W Hid H. apply Hid. apply list_elem_of_fmap in H as ([i j] & -> & H).
  destruct (evict_facts now r W) as (_ & _ & _ & _ & Hsub & _). apply Hsub in H.
  apply list_elem_of_fmap. eauto.
Qed.

Lemma wf_exec e r : wf r → enabled e r → wf (exec e r).
Proof.
  intros W He. destruct e as [now id|now now' id key fp|now id o]; simpl in *.
  - by apply evict_facts.
  - destruct He as (Hid & Hnew & Ht).
    pose proof (claim_start_cases now now' id key fp r W Hid Hnew Ht) as H.
    destruct (evict_facts now r W) as (We & Hts & _).
    destruct (claim_start _ _ _ _ _ r) as [r' [[j []]|x]]; simpl in *; [|by destruct H as [-> _]..].
    destruct H as (-> & _ & Hc & ->). apply wf_create; try done.
    + by apply evict_fresh.
    + by rewrite Hts.
    + intros k Hk. by apply Hc.
  - by apply wf_finish.
Qed.

(** An entry after a step: one that was there, with its key and target, or the
    job a claim created. *)
Lemma exec_entries e r :
  wf r → enabled e r → ∀ id j, (id, j) ∈ _jobs (exec e r) →
  (∃ j0, (id, j0) ∈ _jobs r ∧ job_key j0 = job_key j ∧ fingerprint j0 = fingerprint j)
  ∨ ∃ now now', e = EClaim now now' id (job_key j) (fingerprint j) ∧ j = new_job id (job_key j) (fingerprint j) now'.
Proof.
  intros W He id j Hj.
  assert (Hsame : (id, j) ∈ _jobs r → ∃ j0, (id, j0) ∈ _jobs r ∧ job_key j0 = job_key j ∧ fingerprint j0 = fingerprint j).
  { intros H. by exists j. }
  destruct e as [now i|now now' i key fp|now i o]; simpl in *.
  - left. by apply Hsame, (evict_facts now r W).
  - destruct He as (Hid & Hnew & Ht). pose proof (claim_start_cases now now' i key fp r W Hid Hnew Ht) as H.
    destruct (evict_facts now r W) as (_ & _ & _ & _ & Hsub & _).
    destruct (claim_start _ _ _ _ _ r) as [r' [[k []]|x]]; simpl in *; [|destruct H as [-> _]; auto..].
    destruct H as (-> & _ & _ & ->). simpl in Hj. rewrite aput_new in Hj by by apply evict_fresh.
    apply elem_of_app in Hj as [Hj|Hj%list_elem_of_singleton]; [auto|]. simplify_eq. right. by exists now, now'.
  - left. unfold run_end in Hj. destruct (afind i (_jobs r)) as [k|] eqn:E; simpl in Hj; [|auto].
    apply afind_elem in E. assert (Hk : i ∈ (_jobs r).*1) by (apply list_elem_of_fmap; by exists (i, k)).
    apply elem_of_aput_in in Hj as [[-> ->]|[_ Hj]]; [|auto|apply W|done].
    exists k. destruct (finish_job_fields now o k) as (_ & -> & -> & _). done.
Qed.

Lemma length_aput_in k v (d : list (string * Job)) : k ∈ d.*1 → length (aput k v d) = length d.
Proof. intros H. by rewrite <- (length_fmap fst), keys_aput_in, length_fmap. Qed.

Definition bounded (ttl : instant) (max : Z) (r : JobRegistry) : Prop :=
  _ttl r = ttl ∧ _max r = max ∧ Z.of_nat (length (_jobs r)) <= Z.max 0 max.

Lemma bounded_exec ttl max e r : wf r → enabled e r → bounded ttl max r → bounded ttl max (exec e r).
Proof.
  intros W He (Ett & Em & Hl). unfold bounded.
  destruct e as [now id|now now' id key fp|now id o]; simpl in *.
  - destruct (evict_facts now r W) as (_ & _ & -> & -> & _ & _ & _ & _ & Hle).
    split_and!; try done. lia.
  - destruct He as (Hid & Hnew & Ht).
    pose proof (claim_start_cases now now' id key fp r W Hid Hnew Ht) as H.
    destruct (evict_facts now r W) as (_ & _ & Hm & Htt & _ & _ & _ & _ & Hle).
    destruct (claim_start _ _ _ _ _ r) as [r' [[j []]|x]]; simpl in *.
    + destruct H as (-> & Hlt & _ & ->). simpl. rewrite aput_new, length_app by by apply evict_fresh.
      simpl. split_and!; [congruence..|lia].
    + destruct H as [-> _]. split_and!; [congruence..|lia].
    + destruct H as [-> _]. split_and!; [congruence..|lia].
  - unfold run_end. destruct (afind id (_jobs r)) as [j|] eqn:E; simpl; [|done].
    rewrite length_aput_in; [done|]. apply afind_elem in E. apply list_elem_of_fmap. by exists (id, j).
Qed.

Lemma reachable_wf ttl max r : reachable ttl max r → wf r ∧ bounded ttl max r.
Proof.
  induction 1 as [|r e _ [W B] He].
  - split; [apply wf_init|]. unfold bounded. simpl. split_and!; try done. lia.
  - split; [by apply wf_exec|by apply bounded_exec].
Qed.

(** ** Properties *)

Ltac run_step := apply reach_step; [|cbn [enabled]; split_and?; decide_now].

(** C3: Idempotency under every interleaving of requests, polls and job ends:
    two jobs in the registry with one idempotency key, neither of which failed,
    are the same job; a key's work therefore never runs twice at once and never
    again after it succeeded while that job is kept.  Tasks and running jobs
    correspond one to one, and the registry holds at most [max_jobs] jobs. *)
Theorem one_live_job_per_key ttl max r :
  reachable ttl max r →
  (∀ id1 id2 j1 j2, (id1, j1) ∈ _jobs r → (id2, j2) ∈ _jobs r →
     job_key j1 = job_key j2 → status j1 ≠ Failed → status j2 ≠ Failed → id1 = id2 ∧ j1 = j2)
  ∧ NoDup (_tasks r)
  ∧ (∀ id, id ∈ _tasks r ↔ ∃ j, (id, j) ∈ _jobs r ∧ status j = Running)
  ∧ Z.of_nat (length (_jobs r)) <= Z.max 0 max.
Proof.
  intros [W (_ & _ & B)]%reachable_wf. split_and!; [|apply W|apply W|done].
  intros id1 id2 j1 j2 H1 H2 Hk Hs1 Hs2.
  pose proof (wf_live r W _ _ H1 Hs1) as E1. pose proof (wf_live r W _ _ H2 Hs2) as E2.
  rewrite Hk, E2 in E1. injection E1 as ->. split; [done|]. by eapply wf_inj.
Qed.

Definition two_claims : JobRegistry :=
  exec (EClaim 5 5 "b" "key-2" "fp") (exec (EClaim 1 2 "a" "key-1" "fp") (init TTL_SECONDS 2)).

Lemma one_live_job_per_key_witness :
  ("a" ∈ _tasks two_claims) ∧ Z.of_nat (length (_jobs two_claims)) <= 2.
Proof.
  assert (R : reachable TTL_SECONDS 2 two_claims).
  { unfold two_claims. do 2 run_step. apply reach_init. }
  destruct (one_live_job_per_key _ _ _ R) as (_ & _ & Ht & Hl). split; [|exact Hl].
  apply Ht. exists (new_job "a" "key-1" "fp" 2). split; [|reflexivity]. decide_now.
Defined.

(** C14: A claim answers exactly as the contract says, on the registry its
    eviction leaves: the key's job again when it did not fail and the target is
    the same, a conflict when the target differs, a new running job otherwise,
    refused for capacity only when every one of the [max_jobs] slots is held by
    a job still running. *)
Theorem claim_contract now now' id key fp r :
  wf r → id ≠ "" → id ∉ (_jobs r).*1 → id ∉ _tasks r →
  let e := _evict now r in
  let '(r', v) := claim_start now now' id key fp r in
  wf r' ∧
  match v with
  | Ok (j, false) => r' = e ∧ current key e = Some j ∧ fingerprint j = fp ∧ status j ≠ Failed
  | Ok (j, true) =>
      (∀ k, current key e = Some k → fingerprint k = fp ∧ status k = Failed)
      ∧ current key r' = Some j ∧ status j = Running ∧ fingerprint j = fp ∧ id ∈ _tasks r'
      ∧ (∀ i k, (i, k) ∈ _jobs e → (i, k) ∈ _jobs r')
  | Raise x =>
      r' = e ∧
      ((x = Exn JobConflict key ∧ ∃ k, current key e = Some k ∧ fingerprint k ≠ fp)
       ∨ (x = Exn JobCapacityExceeded key ∧ _max r <= Z.of_nat (length (_jobs r'))
          ∧ ∀ i k, (i, k) ∈ _jobs r' → status k = Running))
  end.
Proof.
  intros W Hid Hnew Ht e.
  pose proof (wf_exec (EClaim now now' id key fp) r W (conj Hid (conj Hnew Ht))) as Wr.
  pose proof (claim_start_cases now now' id key fp r W Hid Hnew Ht) as H.
  destruct (evict_facts now r W) as (We & _ & Hm & _ & _ & _ & _ & Hroom & _). fold e in We, Hm, Hroom.
  fold e in H. simpl in Wr. destruct (claim_start _ _ _ _ _ r) as [r' v]; simpl in Wr. split; [done|].
  destruct v as [[j []]|x]; [|exact H|].
  - destruct H as (-> & Hlt & Hc & ->). split_and!; try done; simpl; [|set_solver|].
    + unfold current; simpl. rewrite lookup_insert_eq; simpl. rewrite afind_aput. by rewrite decide_True.
    + intros i k Hik. rewrite aput_new by by apply evict_fresh. set_solver.
  - destruct H as [-> [[-> Hk]|(-> & Hfull & _)]]; split; auto. right.
    split_and!; [done|lia|]. destruct Hroom as [?|Hrun]; [lia|exact Hrun].
Qed.

Lemma claim_contract_witness :
  (claim_start 9 9 "c" "key-3" "fp" two_claims).2 = raise JobCapacityExceeded "key-3"
  ∧ wf (claim_start 9 9 "c" "key-3" "fp" two_claims).1.
Proof.
  assert (W : wf two_claims).
  { apply (reachable_wf TTL_SECONDS 2).
    unfold two_claims. do 2 run_step. apply reach_init. }
  split; [vm_compute; reflexivity|].
  refine (proj1 (claim_contract 9 9 "c" "key-3" "fp" two_claims W _ _ _)); decide_now.
Defined.

(** An eviction loses no job without cause.  It alters none; a job it
    removes has finished, and either its time to live is over or the registry
    was full of unexpired jobs and every finished job it kept finished no
    earlier; when it is not full, every unexpired job is kept. *)
Theorem evict_contract now r :
  wf r → (∀ id j t, (id, j) ∈ _jobs r → finished_at j = Some t → t ≠ 0) →
  let e := _evict now r in
  (∀ id j, (id, j) ∈ _jobs e → (id, j) ∈ _jobs r) ∧
  (∀ id j, (id, j) ∈ _jobs r → (id, j) ∉ _jobs e →
     ∃ t, finished_at j = Some t ∧
       (_ttl r < now - t
        ∨ (_max r <= Z.of_nat (length (_jobs r))
           ∧ ∀ id' j' t', (id', j') ∈ _jobs e → finished_at j' = Some t' → t <= t'))) ∧
  (∀ id j t, (id, j) ∈ _jobs e → finished_at j = Some t → now - t <= _ttl r).
Proof.
  intros W Hpos e. destruct (evict_survivors now r W) as (We & Hin & _). fold e in We, Hin.
  assert (Hor : ∀ id j t d, (id, j) ∈ _jobs r → finished_at j = Some t → instant_or (finished_at j) d = t).
  { intros id j t d Hj Ht. rewrite Ht. simpl. specialize (Hpos id j t Hj Ht).
    by rewrite (proj2 (Z.eqb_neq t 0) Hpos). }
  split_and!.
  - naive_solver.
  - intros id j Hj Hout. rewrite Hin in Hout.
    destruct (finished_at j) as [t|] eqn:Et.
    2:{ destruct Hout. split; [done|]. unfold finished. rewrite Et. by intros ?%bool_decide_eq_true%is_Some_None. }
    exists t. split; [done|].
    assert (Hd : j ∉ drop (excess now r) (unexpired now r)) by naive_solver.
    assert (Hf : j ∈ sorted_finished r).
    { unfold sorted_finished. rewrite elem_of_sort_by. destruct (wf_id r W id j Hj) as [<- _].
      apply entry_finished; [done|]. split; [done|]. unfold finished. rewrite Et. by apply bool_decide_eq_true. }
    destruct (expired (_ttl r) now j) eqn:Ex.
    { left. apply Z.ltb_lt in Ex. by rewrite (Hor _ _ _ _ Hj Et) in Ex. }
    right. assert (Hu : j ∈ take (excess now r) (unexpired now r)).
    { assert (Hu : j ∈ unexpired now r) by (apply elem_of_List_filter; by rewrite Ex).
      rewrite <- (take_drop (excess now r)) in Hu. set_solver. }
    split. { destruct (decide (excess now r = 0%nat)) as [E|E]; [rewrite E in Hu; set_solver|].
             unfold excess in E. lia. }
    intros id' j' t' [Hj' Hk']%Hin Et'.
    assert (Hd' : j' ∈ drop (excess now r) (unexpired now r)).
    { apply Hk'. unfold finished. rewrite Et'. by apply bool_decide_eq_true. }
    rewrite <- (Hor _ _ _ 0 Hj Et), <- (Hor _ _ _ 0 Hj' Et').
    apply (StronglySorted_cross (λ a b, instant_or (finished_at a) 0 <= instant_or (finished_at b) 0)
             (take (excess now r) (unexpired now r)) (drop (excess now r) (unexpired now r))); [|done..].
    rewrite take_drop. apply StronglySorted_filter, sort_by_sorted.
    + intros x y z ??. lia.
    + intros x y. unfold finish_leb. lia.
    + intros x y. unfold finish_leb. lia.
  - intros id j t Hj Et. destruct (evict_facts now r W) as (_ & _ & _ & _ & Hsub & _ & Hex & _).
    specialize (Hex id j Hj). unfold finished, expired in Hex. rewrite (Hor _ _ _ _ (Hsub _ _ Hj) Et) in Hex.
    rewrite Et in Hex. specialize (Hex ltac:(by apply bool_decide_eq_true)). lia.
Qed.

Definition one_done : JobRegistry := exec (EFinish 7 "a" (Returned 200 NoPayload)) two_claims.

Lemma evict_contract_witness :
  _jobs (_evict (8 + TTL_SECONDS) one_done) = [("b", new_job "b" "key-2" "fp" 5)]
  ∧ ∃ t, finished_at (finish_job 7 (Returned 200 NoPayload) (new_job "a" "key-1" "fp" 2)) = Some t
     ∧ (_ttl one_done < 8 + TTL_SECONDS - t
        ∨ (_max one_done <= Z.of_nat (length (_jobs one_done)) ∧
           ∀ id' j' t', (id', j') ∈ _jobs (_evict (8 + TTL_SECONDS) one_done) →
             finished_at j' = Some t' → t <= t')).
Proof.
  assert (W : wf one_done).
  { apply (reachable_wf TTL_SECONDS 2).
    unfold one_done, two_claims. do 3 run_step. apply reach_init. }
  split; [vm_compute; reflexivity|].
  refine (proj1 (proj2 (evict_contract (8 + TTL_SECONDS) one_done W _)) "a" _ _ _).
  - intros id j t. rewrite list_elem_of_In. vm_compute (_jobs one_done). simpl.
    intros [[= <- <-]|[[= <- <-]|[]]]; simpl; by intros [= <-].
  - decide_now.
  - decide_now.
Defined.
