(* ===== verification/AsyncMiddleware.v ===== *)
(** The ASGI middleware of refinement/app/async_jobs.py in front of the job
    registry: routing, authorization, submission, polling and the replay of the
    request whose response becomes the job's result.

    Byte strings are [string]s.  An ASGI channel is the list of the messages it
    delivers.  The framework's case-insensitive header lookup, the service's
    authorization, the path patterns, SHA-256 and the JSON parser's verdict are
    parameters. *)
From S2P Require Import Prelude PyStr PyTime AsyncJobs.

Open Scope Z_scope.

(** An ASGI request message: [type], [body], [more_body]. *)
Record message := Message { m_type : string; m_body : string; m_more : bool }.

(** A message the application sends: its [type], [status] and [body]. *)
Record sent := Sent { x_type : string; x_status : Z; x_body : string }.

Record scope := Scope {
  s_type : string;
  s_method : string;
  s_path : string;
  s_query_string : string;
  s_headers : list (string * string) }.

Inductive body :=
  | Detail (text : string)
  | Body (s : snapshot_of).

Record response := Response { r_status : Z; r_body : body; r_location : option string }.

Definition zlen (s : string) : Z := Z.of_nat (slen s).

(** [_read_body]: the loop over the received messages; [None] when the channel
    delivers no further message. *)
Fixpoint _read_body_loop (size : Z) (parts : list string) (receive : list message)
    : option (string * bool) :=
  match receive with
  | [] => None
  | m :: receive =>
      if bool_decide (m_type m ≠ "http.request") then Some (join "" parts, false)
      else
        let size := size + zlen (m_body m) in
        if MAX_BODY_BYTES <? size then Some ("", false)
        else
          let parts := (parts ++ [m_body m])%list in
          if m_more m then _read_body_loop size parts receive else Some (join "" parts, true)
  end.
Definition _read_body (receive : list message) : option (string * bool) :=
  _read_body_loop 0 [] receive.

Section Middleware.
Context (headers_get : list (string * string) → string → option string).
Context (authorize : list (string * string) → res unit).
Context (path_matches : string → bool).
Context (sha256_hex : string → string).
Context (json_loads_ok : string → bool).

Definition wants_async (headers : list (string * string)) : bool :=
  existsb (λ token, bool_decide (lower (strip token) = "respond-async"))
    (split_on "," (default "" (headers_get headers "prefer"))).

(** [header_authorizer]: the service's [verify] on the three key headers. *)
Definition header_authorizer (verify : option string → option string → option string → res unit)
    (headers : list (string * string)) : res unit :=
  verify (headers_get headers "x-internal-api-key") (headers_get headers "x-api-key")
    (headers_get headers "x-internal-service").

Definition _decode (body : string) : payload :=
  if nonempty body
  then if json_loads_ok body then JsonOf body else TextOf (stake 4096 body)
  else NoPayload.

(** [_denied]: an HTTP error of the authorization becomes the response, any
    other error propagates. *)
Definition _denied (headers : list (string * string)) : res (option response) :=
  match authorize headers with
  | Ok _ => Ok None
  | Raise (Exn (HTTPException st) d) => Ok (Some (Response st (Detail d) None))
  | Raise e => Raise e
  end.

Definition _status (now : instant) (id : string) (headers : list (string * string))
    (r : JobRegistry) : JobRegistry * res response :=
  match _denied headers with
  | Raise e => (r, Raise e)
  | Ok (Some resp) => (r, Ok resp)
  | Ok None =>
      let '(r, job) := get now id r in
      (r, Ok match job with
             | None => Response 404 (Detail "job not found") None
             | Some j => Response 200 (Body (snapshot j)) None
             end)
  end.

(** The digest that binds an idempotency key to its target. *)
Definition target_fingerprint (sc : scope) : string :=
  sha256_hex (join (one NUL) [utf8 (s_path sc); s_query_string sc]).

(** [_submit].  [None] when the body's channel never ends. *)
Definition _submit (now now' : instant) (uuid : string) (headers : list (string * string))
    (sc : scope) (receive : list message) (r : JobRegistry)
    : option (JobRegistry * res response) :=
  let key := default "" (headers_get headers "idempotency-key") in
  match _denied headers with
  | Raise e => Some (r, Raise e)
  | Ok (Some resp) => Some (r, Ok resp)
  | Ok None =>
      if negb (IDEMPOTENCY_KEY key) then
        Some (r, Ok (Response 400 (Detail "invalid Idempotency-Key") None))
      else
        match _read_body receive with
        | None => None
        | Some (_, false) => Some (r, Ok (Response 413 (Detail "request body too large") None))
        | Some (_, true) =>
            let '(r, v) := claim_start now now' uuid key (target_fingerprint sc) r in
            Some (r,
              match v with
              | Raise (Exn JobConflict _) =>
                  Ok (Response 409 (Detail "Idempotency-Key reused for a different target") None)
              | Raise (Exn JobCapacityExceeded _) =>
                  Ok (Response 503 (Detail "job capacity exhausted") None)
              | Raise e => Raise e
              | Ok (job, _) =>
                  Ok (Response 202 (Body (snapshot job)) (Some ("/jobs/" +:+ job_id job)))
              end)
        end
  end.

(** What a request does: answered here, or passed to the application. *)
Inductive handled :=
  | Forward
  | Answer (v : option (JobRegistry * res response)).

Definition call (now now' : instant) (uuid : string) (sc : scope) (receive : list message)
    (r : JobRegistry) : handled :=
  if bool_decide (s_type sc ≠ "http") then Forward
  else
    match JOB_PATH (s_path sc), bool_decide (s_method sc = "GET") with
    | Some id, true => Answer (Some (_status now id (s_headers sc) r))
    | _, _ =>
        if bool_decide (s_method sc = "POST") && wants_async (s_headers sc) && path_matches (s_path sc)
        then Answer (_submit now now' uuid (s_headers sc) sc receive r)
        else Forward
    end.

(** [_replay]: the headers of the inner request, and the result read off the
    messages the application sends. *)
Definition inner_headers (sc : scope) (body : string) : list (string * string) :=
  (List.filter (λ kv, negb (mem (lower kv.1) _STRIPPED_HEADERS)) (s_headers sc)
   ++ [("content-length", str_of_Z (zlen body))])%list.

Record collected := Collected { c_status : Z; c_chunks : list string; c_size : Z }.

Definition send (c : collected) (m : sent) : collected :=
  if bool_decide (x_type m = "http.response.start") then Collected (x_status m) (c_chunks c) (c_size c)
  else if bool_decide (x_type m = "http.response.body") then
    let size := c_size c + zlen (x_body m) in
    Collected (c_status c)
      (if size <=? MAX_RESULT_BYTES then (c_chunks c ++ [x_body m])%list else c_chunks c) size
  else c.

Definition _replay (app : list sent) : outcome :=
  let c := foldl send (Collected 500 [] 0) app in
  if MAX_RESULT_BYTES <? c_size c then Returned (c_status c) (Truncated (c_size c))
  else Returned (c_status c) (_decode (join "" (c_chunks c))).
End Middleware.

(** ** Reading the body *)

Lemma zlen_app s t : zlen (s +:+ t) = zlen s + zlen t.
Proof. unfold zlen. rewrite length_app_s. lia. Qed.

Lemma join_nil_app l1 l2 : join "" (l1 ++ l2) = join "" l1 +:+ join "" l2.
Proof.
  induction l1 as [|x l1 IH]; [done|]. change ((x :: l1) ++ l2)%list with (x :: (l1 ++ l2))%list.
  assert (H : ∀ y l, join "" (y :: l) = y +:+ join "" l).
  { intros y [|z l]; [by rewrite app_nil_r_s|done]. }
  by rewrite !H, IH, app_assoc_s.
Qed.

Lemma join_nil_one x : join "" [x] = x.
Proof. done. Qed.

(** The messages of a complete body: only the last one says that no more follows. *)
Definition complete_body (ms : list message) (b : string) : Prop :=
  ∃ init lst, ms = (init ++ [lst])%list ∧ Forall (λ m, m_more m = true) init ∧ m_more lst = false
    ∧ Forall (λ m, m_type m = "http.request") ms ∧ b = join "" (m_body <$> ms).

Lemma read_body_loop_spec size parts receive b :
  size = zlen (join "" parts) →
  _read_body_loop size parts receive = Some (b, true) ↔
  ∃ ms rest b', receive = (ms ++ rest)%list ∧ complete_body ms b' ∧ b = join "" parts +:+ b'
    ∧ zlen b <= MAX_BODY_BYTES.
Proof.
  revert size parts; induction receive as [|m receive IH]; intros size parts Hs; simpl.
  - split; [done|]. intros (ms & rest & b' & E & (i & l & -> & _) & _). by destruct i.
  - case_bool_decide as Et.
    { split; [done|]. intros (ms & rest & b' & E & (i & l & -> & Hi & Hl & Hty & _) & _).
      destruct i; simpl in *; simplify_eq; inversion Hty; done. }
    assert (Hsz : size + zlen (m_body m) = zlen (join "" (parts ++ [m_body m])%list)).
    { rewrite join_nil_app, join_nil_one, zlen_app. lia. }
    destruct (MAX_BODY_BYTES <? _) eqn:Emax.
    + split; [done|]. intros (ms & rest & b' & E & (i & l & -> & Hi & Hl & Hty & ->) & -> & Hmax).
      exfalso. assert (Hge : zlen (join "" parts) + zlen (m_body m) <= MAX_BODY_BYTES); [|lia].
      rewrite zlen_app in Hmax. etrans; [|exact Hmax].
      assert (∃ t, (i ++ [l])%list = m :: t) as [t ->] by (destruct i; simpl in *; simplify_eq; eauto).
      rewrite fmap_cons. change (m_body m :: (m_body <$> t)) with ([m_body m] ++ (m_body <$> t))%list.
      rewrite join_nil_app, join_nil_one, zlen_app. unfold zlen. lia.
    + destruct (m_more m) eqn:Em.
      * rewrite IH by done. rewrite join_nil_app, join_nil_one. split.
        -- intros (ms & rest & b' & -> & (i & l & -> & Hi & Hl & Hty & ->) & -> & Hm).
           exists (m :: i ++ [l])%list, rest, (m_body m +:+ join "" (m_body <$> (i ++ [l])%list)).
           split_and!; [done| |by rewrite app_assoc_s|done].
           exists (m :: i), l. split_and!; try done; [by constructor|by constructor|].
           rewrite fmap_cons. change (m_body m :: ?l) with ([m_body m] ++ l)%list.
           by rewrite join_nil_app.
        -- intros (ms & rest & b' & E & (i & l & -> & Hi & Hl & Hty & ->) & -> & Hm).
           destruct i as [|m' i]; simpl in E; simplify_eq; [congruence|].
           apply Forall_cons in Hi as [_ Hi]. apply Forall_cons in Hty as [_ Hty].
           exists (i ++ [l])%list, rest, (join "" (m_body <$> (i ++ [l])%list)).
           rewrite <- app_comm_cons, fmap_cons in *.
           change (m_body m' :: ?l) with ([m_body m'] ++ l)%list in *.
           rewrite join_nil_app, join_nil_one, <- app_assoc_s in *.
           split_and!; try done. by exists i, l.
      * split.
        -- intros [= <-]. exists [m], receive, (m_body m).
           rewrite join_nil_app, join_nil_one in *. split_and!; try done; [|lia].
           exists [], m. split_and!; try done; by constructor.
        -- intros (ms & rest & b' & E & (i & l & -> & Hi & Hl & Hty & ->) & -> & Hm).
           destruct i as [|m' i]; simpl in E; simplify_eq.
           ++ by rewrite join_nil_app.
           ++ apply Forall_cons in Hi as [? _]. congruence.
Qed.

(** A request body is accepted exactly when the channel delivers
    [http.request] messages up to one that says no more follows and their
    concatenation has at most 1 MiB; the body is that concatenation. *)
Theorem read_body_exact receive b :
  _read_body receive = Some (b, true) ↔
  ∃ ms rest, receive = (ms ++ rest)%list ∧ complete_body ms b ∧ zlen b <= MAX_BODY_BYTES.
Proof.
  unfold _read_body. rewrite read_body_loop_spec by done. split.
  - intros (ms & rest & b' & -> & Hc & -> & Hm). eauto.
  - intros (ms & rest & -> & Hc & Hm). exists ms, rest, b. eauto.
Qed.

(** ** Collecting the response *)

Definition body_chunks (app : list sent) : list string :=
  x_body <$> filter (λ m, x_type m = "http.response.body") app.
Definition last_status (app : list sent) : Z :=
  default 500 (x_status <$> last (filter (λ m, x_type m = "http.response.start") app)).

Lemma send_collects app :
  let c := foldl send (Collected 500 [] 0) app in
  c_status c = last_status app ∧ c_size c = zlen (join "" (body_chunks app))
  ∧ (c_size c <= MAX_RESULT_BYTES → c_chunks c = body_chunks app).
Proof.
  induction app as [|m app IH] using rev_ind; [done|].
  rewrite foldl_app. simpl. set (c := foldl _ _ app) in *. unfold last_status, body_chunks in *.
  destruct IH as (E1 & E2 & E3). rewrite !filter_app, !filter_cons, !filter_nil, !fmap_app.
  unfold send. case_bool_decide as Ht; [|case_bool_decide as Hb].
  - rewrite (decide_True _ _ Ht), decide_False by congruence. simpl.
    rewrite last_snoc, !app_nil_r. done.
  - rewrite (decide_True _ _ Hb), decide_False by congruence. simpl.
    rewrite app_nil_r, join_nil_app, join_nil_one, zlen_app. split_and!; [done|lia|].
    intros Hle. rewrite (proj2 (Z.leb_le _ _)) by done. rewrite E3; [done|]. unfold zlen in *. lia.
  - rewrite !decide_False by done. simpl. rewrite !app_nil_r. done.
Qed.

(** The result of a job is the whole response of the replayed request when
    it has at most 1 MiB, decoded, and otherwise a notice with its exact size;
    the code is the last status the application sent, 500 if it sent none. *)
Theorem replay_result json_ok app :
  _replay json_ok app =
    Returned (last_status app)
      (if zlen (join "" (body_chunks app)) <=? MAX_RESULT_BYTES
       then _decode json_ok (join "" (body_chunks app))
       else Truncated (zlen (join "" (body_chunks app)))).
Proof.
  unfold _replay. destruct (send_collects app) as (E1 & E2 & E3).
  rewrite E1, E2 in *. rewrite Z.ltb_antisym. destruct (_ <=? _) eqn:E; simpl; [|done].
  rewrite E3 by lia. done.
Qed.

(** ** Submission *)

Lemma split_at_char c a b s t :
  char_in c a = false → char_in c b = false →
  a +:+ String c s = b +:+ String c t → a = b ∧ s = t.
Proof.
  revert b; induction a as [|x a IH]; intros [|y b]; simpl.
  - by intros _ _ [= ->].
  - change (String y b) with (one y +:+ b). rewrite char_in_app, orb_false_iff.
    intros _ [H _] [= -> _]. by rewrite char_in_one in H.
  - change (String x a) with (one x +:+ a). rewrite char_in_app, orb_false_iff.
    intros [H _] _ [= -> _]. by rewrite char_in_one in H.
  - change (String x a) with (one x +:+ a). change (String y b) with (one y +:+ b).
    rewrite !char_in_app, !orb_false_iff. intros [_ Ha] [_ Hb] [= -> H].
    by destruct (IH b Ha Hb H) as [-> ->].
Qed.

(** Under a collision-free digest a fingerprint determines the target. *)
Lemma fingerprint_target sha256_hex sc1 sc2 :
  Inj (=) (=) sha256_hex →
  char_in NUL (s_path sc1) = false → char_in NUL (s_path sc2) = false →
  target_fingerprint sha256_hex sc1 = target_fingerprint sha256_hex sc2 →
  s_path sc1 = s_path sc2 ∧ s_query_string sc1 = s_query_string sc2.
Proof.
  intros Hinj H1 H2 H%Hinj. simpl in H.
  apply split_at_char in H as [Hp Hq]; [|by rewrite utf8_no_nul..].
  split; [by apply utf8_inj|done].
Qed.

Section Contract.
Context (headers_get : list (string * string) → string → option string).
Context (authorize : list (string * string) → res unit).
Context (sha256_hex : string → string).

Lemma _denied_none hs : _denied authorize hs = Ok None → authorize hs = Ok tt.
Proof. unfold _denied. destruct (authorize hs) as [[]|[[] d]]; naive_solver. Qed.

(** C18: A submission creates or joins a job, and answers 202 with its snapshot
    and location, only for an authorized request with a valid idempotency key
    and a complete body of at most 1 MiB; the job is then the key's current one
    and bound to the request's target.  Every other outcome starts no task and
    leaves the registry as it was, up to an eviction. *)
Theorem submit_contract now now' uuid hs sc receive r r' v :
  wf r → uuid ≠ "" → uuid ∉ (_jobs r).*1 → uuid ∉ _tasks r →
  _submit headers_get authorize sha256_hex now now' uuid hs sc receive r = Some (r', v) →
  let key := default "" (headers_get hs "idempotency-key") in
  wf r' ∧
  ((authorize hs = Ok tt ∧ IDEMPOTENCY_KEY key = true
    ∧ (∃ b ms rest, receive = (ms ++ rest)%list ∧ complete_body ms b ∧ zlen b <= MAX_BODY_BYTES)
    ∧ ∃ j, current key r' = Some j ∧ fingerprint j = target_fingerprint sha256_hex sc
        ∧ status j ≠ Failed
        ∧ v = Ok (Response 202 (Body (snapshot j)) (Some ("/jobs/" +:+ job_id j))))
   ∨ ((r' = r ∨ r' = _evict now r) ∧ _tasks r' = _tasks r
      ∧ ∀ st s loc, v ≠ Ok (Response st (Body s) loc))).
Proof.
  intros W Hu Hnew Ht Hs key. unfold _submit in Hs. fold key in Hs.
  destruct (_denied authorize hs) as [[resp|]|e] eqn:Ed.
  - injection Hs as <- <-. split; [done|]. right. split_and!; [by left|done|].
    unfold _denied in Ed. destruct (authorize hs) as [?|[[] ?]]; naive_solver.
  - apply _denied_none in Ed. destruct (IDEMPOTENCY_KEY key) eqn:Ek; simpl in Hs.
    2:{ injection Hs as <- <-. split; [done|]. right. naive_solver. }
    destruct (_read_body receive) as [[b []]|] eqn:Eb; [| |done].
    2:{ injection Hs as <- <-. split; [done|]. right. naive_solver. }
    apply read_body_exact in Eb as (ms & rest & -> & Hb & Hsz).
    set (fp := target_fingerprint sha256_hex sc) in *.
    pose proof (claim_start_cases now now' uuid key fp r W Hu Hnew Ht) as H.
    pose proof (wf_exec (EClaim now now' uuid key fp) r W (conj Hu (conj Hnew Ht))) as Wr.
    destruct (evict_facts now r W) as (_ & Hts & _). simpl in Wr.
    destruct (claim_start now now' uuid key fp r) as [r1 [[j []]|x]]; simpl in Wr.
    + injection Hs as <- <-. split; [done|]. left. split_and!; try done; [naive_solver|].
      destruct H as (-> & _ & _ & ->). exists (new_job uuid key fp now'). split_and!; try done.
      unfold current; simpl. rewrite lookup_insert_eq; simpl. rewrite afind_aput. by rewrite decide_True.
    + injection Hs as <- <-. split; [done|]. left. split_and!; try done; [naive_solver|].
      destruct H as (-> & ? & ? & ?). by exists j.
    + destruct H as (-> & [[-> _]|(-> & _)]); injection Hs as <- <-; (split; [done|]); right; naive_solver.
  - injection Hs as <- <-. split; [done|]. right. naive_solver.
Qed.

(** One idempotency key stands for one target: while a job of the key is
    kept, a submission under the key is accepted only for the path and query
    the job was created for. *)
Theorem key_bound_to_target now now' uuid hs sc sc0 receive r r' v j :
  Inj (=) (=) sha256_hex →
  wf r → uuid ≠ "" → uuid ∉ (_jobs r).*1 → uuid ∉ _tasks r →
  char_in NUL (s_path sc) = false → char_in NUL (s_path sc0) = false →
  current (default "" (headers_get hs "idempotency-key")) (_evict now r) = Some j →
  fingerprint j = target_fingerprint sha256_hex sc0 →
  _submit headers_get authorize sha256_hex now now' uuid hs sc receive r = Some (r', v) →
  (∃ st s loc, v = Ok (Response st (Body s) loc)) →
  s_path sc = s_path sc0 ∧ s_query_string sc = s_query_string sc0.
Proof.
  intros Hinj W Hu Hnew Ht Hn Hn0 Hcur Hfp Hs (st & s & loc & ->).
  apply (fingerprint_target sha256_hex); try done. rewrite <- Hfp. unfold _submit in Hs.
  destruct (_denied authorize hs) as [[resp|]|e] eqn:Ed; [|step_in Hs|naive_solver].
  { unfold _denied in Ed. destruct (authorize hs) as [?|[[] ?]]; naive_solver. }
  destruct (_read_body receive) as [[b []]|]; [|naive_solver..].
  pose proof (claim_start_cases now now' uuid
    (default "" (headers_get hs "idempotency-key")) (target_fingerprint sha256_hex sc) r W Hu Hnew Ht) as H.
  destruct (claim_start _ _ _ _ _ r) as [r1 [[k []]|x]].
  - destruct H as (_ & _ & H & _). symmetry. by apply (H j).
  - destruct H as (_ & H & <- & _). rewrite Hcur in H. by injection H as ->.
  - destruct H as (-> & [[-> _]|(-> & _)]); naive_solver.
Qed.
End Contract.

(** A concrete service to evaluate with: exact header names, one internal key,
    and the identity in the place of the digest. *)
Definition get_exact (hs : list (string * string)) (k : string) : option string := afind k hs.
Definition one_key (hs : list (string * string)) : res unit :=
  header_authorizer get_exact
    (λ k _ _, if decide (k = Some "secret") then Ok tt else raise (HTTPException 401) "unauthorized") hs.
Definition good_headers : list (string * string) :=
  [("x-internal-api-key", "secret"); ("idempotency-key", "run-0001"); ("prefer", "respond-async")].
Definition run_scope : scope := Scope "http" "POST" "/run" "a=1" good_headers.
Definition whole_body : list message := [Message "http.request" "{}" false].
Definition submit_one (sc : scope) (r : JobRegistry) :=
  _submit get_exact one_key id 10 11 "u1" good_headers sc whole_body r.

Example submit_routes :
  call get_exact one_key (λ p, bool_decide (p = "/run")) id 10 11 "u1" run_scope whole_body (init TTL_SECONDS 4)
  = Answer (submit_one run_scope (init TTL_SECONDS 4)).
Proof. vm_compute. reflexivity. Qed.

Lemma submit_contract_witness :
  ∃ r' v, submit_one run_scope (init TTL_SECONDS 4) = Some (r', v) ∧ wf r'
    ∧ r_status <$> (match v with Ok x => Some x | _ => None end) = Some 202.
Proof.
  destruct (submit_one run_scope (init TTL_SECONDS 4)) as [[r' v]|] eqn:E;
    [|vm_compute in E; discriminate].
  exists r', v. split; [done|]. split.
  - refine (proj1 (submit_contract get_exact one_key id 10 11 "u1" good_headers run_scope whole_body
      (init TTL_SECONDS 4) r' v (wf_init _ _) _ _ _ E)); decide_now.
  - vm_compute in E. injection E as _ <-. reflexivity.
Defined.

Definition running_one : JobRegistry :=
  (claim_start 1 2 "u0" "run-0001" (target_fingerprint id run_scope) (init TTL_SECONDS 4)).1.

Lemma wf_running_one : wf running_one.
Proof.
  apply (wf_exec (EClaim 1 2 "u0" "run-0001" (target_fingerprint id run_scope)));
    [apply wf_init|cbn [enabled]; split_and!; decide_now].
Qed.

Lemma key_bound_to_target_witness :
  s_path run_scope = s_path run_scope ∧ s_query_string run_scope = s_query_string run_scope.
Proof.
  destruct (submit_one run_scope running_one) as [[r' v]|] eqn:E; [|vm_compute in E; discriminate].
  refine (key_bound_to_target get_exact one_key id 10 11 "u1" good_headers run_scope run_scope whole_body
    running_one r' v (new_job "u0" "run-0001" (target_fingerprint id run_scope) 2)
    (λ _ _ h, h) wf_running_one _ _ _ _ _ _ _ E _); try decide_now.
  vm_compute in E. injection E as _ <-. eauto.
Defined.
