(* ===== verification/RefreshGraph.v ===== *)
(** The dataset refresh planner (airflow/dags/dataset_refresh_graph.py): the
    scoped dataset graph, its reverse index, the plan of the datasets a seed
    makes stale, ordered by rank, and the chain that admits it.

    The rows of the two queries are parameters, as is the JSON parser of a
    [sources] column that arrives as text. *)
From S2P Require Import Prelude PyStr PyVal.

Open Scope Z_scope.

(** A dataset of the graph. *)
Record info := Info {
  layer : string;
  cartridge : string;
  sources : list pyval;
  materialized : bool;
  unextracted_raw : list string }.

Abbreviation graph := (list (string * info)).

(** A row of the [datasets] query. *)
Record row := Row {
  r_name : pyval;
  r_layer : pyval;
  r_cartridge : pyval;
  r_sources : pyval;
  r_materialized : pyval }.

Record plan_item := Item {
  p_name : string;
  p_layer : string;
  p_cartridge : string;
  p_rank : Z;
  p_upstreams : list string;
  p_materialized : bool;
  p_never_materialized_upstreams : list string }.

#[export] Instance plan_item_eq_dec : EqDecision plan_item.
Proof. solve_decision. Defined.

(** [graph[name]]. *)
Definition lookup_info (g : graph) (name : string) : res info :=
  match afind name g with Some i => Ok i | None => raise KeyError name end.

Section Graph.
Context `{PyRepr}.

Definition _required_scope (conf : pydict) : res (string * string) :=
  let tenant := strip (str_or_empty (get "tenant_id" conf)) in
  let workspace := strip (str_or_empty (get "workspace_id" conf)) in
  if bool_decide (tenant = "") || bool_decide (workspace = "")
  then raise ValueError "tenant_id and workspace_id are required for dataset_refresh_chain"
  else Ok (tenant, workspace).

Definition _cartridge_from_seed_raw (seed_raw : string) : string :=
  match split_on "/" (strip_char "/" seed_raw) with
  | p0 :: p1 :: _ :: _ => if bool_decide (lower p0 = "raw") then p1 else ""
  | _ => ""
  end.

Definition _raw_key (source : pyval) : option string :=
  match split_on "/" (lower (strip_char "/" (strip (str_or_empty source)))) with
  | p0 :: p1 :: p2 :: _ =>
      if bool_decide (p0 = "raw") && nonempty p1 && nonempty p2 then Some (p1 +:+ "/" +:+ p2) else None
  | _ => None
  end.

(** [key.split("/", 1)[0]] and [[1]] of a raw key. *)
Definition key_head (k : string) : string := (split_once "/" k).1.
Definition key_tail (k : string) : string := default "" (split_once "/" k).2.

(** [runs cartridges entities] are the rows of the [pipeline_runs] query. *)
Definition _extracted_raw (runs : list string → list string → list (string * string))
    (keys : list string) : list string :=
  match keys with
  | [] => []
  | _ =>
      let rows := runs (sort_strings (dedup (key_head <$> keys))) (sort_strings (dedup (key_tail <$> keys))) in
      List.filter (λ k, mem k keys) ((λ ce, ce.1 +:+ "/" +:+ ce.2) <$> rows)
  end.

(** A row of the query as the graph keeps it. *)
Definition row_sources (json_loads : string → option pyval) (v : pyval) : res (list pyval) :=
  let v := match v with PStr s => default (PList []) (json_loads s) | v => v end in
  py_iter (py_or v (PList [])).

Definition add_row (json_loads : string → option pyval) (g : graph) (r : row) : res graph :=
  srcs ← row_sources json_loads (r_sources r);
  Ok (aput (py_str (r_name r))
        (Info (py_str (r_layer r)) (str_or_empty (r_cartridge r)) srcs (is_true (r_materialized r)) []) g).

Definition raw_keys (g : graph) : list string :=
  dedup (g ≫= λ ni, omap _raw_key (sources ni.2)).

Definition mark_unextracted (extracted : list string) (i : info) : info :=
  Info (layer i) (cartridge i) (sources i) (materialized i)
    (sort_strings (dedup ((λ k, "raw/" +:+ k) <$>
       List.filter (λ k, negb (mem k extracted)) (omap _raw_key (sources i))))).

Definition _load_graph (json_loads : string → option pyval)
    (runs : list string → list string → list (string * string)) (rows : list row) : res graph :=
  g ← foldR (add_row json_loads) rows [];
  let extracted := _extracted_raw runs (raw_keys g) in
  Ok ((λ ni, (ni.1, mark_unextracted extracted ni.2)) <$> g).

Definition _source_matches (source name cartridge : string) : bool :=
  let value := lower (strip source) in
  let dataset := lower name in
  let owner := lower cartridge in
  mem value [dataset; "silver_" +:+ dataset; "gold_" +:+ dataset;
             "silver/" +:+ owner +:+ "/" +:+ dataset; "gold/" +:+ owner +:+ "/" +:+ dataset].

Definition source_text (s : pyval) : string := lower (strip (py_str s)).

(** The first dataset a source names, unless it is raw. *)
Definition upstream_of (g : graph) (source : pyval) : option string :=
  if startswith "raw/" (source_text source) then None
  else fst <$> List.find (λ ni, _source_matches (py_str source) ni.1 (cartridge ni.2)) g.

Definition _upstream_datasets (g : graph) (name : string) : res (list string) :=
  i ← lookup_info g name; Ok (omap (upstream_of g) (sources i)).

(** [reverse[key].append(downstream)] on the [defaultdict]. *)
Definition rev_push (down : string) (rev : list (string * list string)) (key : string)
    : list (string * list string) :=
  aput key (default [] (afind key rev) ++ [down])%list rev.

Definition _reverse_index (g : graph) : res (list (string * list string)) :=
  foldR (λ rev ni,
    let raws := List.filter (startswith "raw/") (source_text <$> sources ni.2) in
    let rev := foldl (rev_push ni.1) rev raws in
    ups ← _upstream_datasets g ni.1;
    Ok (foldl (rev_push ni.1) rev ups)) g [].

(** [reverse.get(name, [])]. *)
Definition children (rev : list (string * list string)) (name : string) : list string :=
  default [] (afind name rev).

Definition _never_materialized_upstreams (g : graph) (name : string) (upstreams : list string)
    : res (list string) :=
  flags ← mapR (λ u, i ← lookup_info g u; Ok (u, materialized i)) upstreams;
  i ← lookup_info g name;
  Ok (sort_strings (dedup (fst <$> List.filter (λ um, negb um.2) flags)) ++ unextracted_raw i)%list.

Definition _resolve_cartridge (conf : pydict) (g : graph) (seed_raw seed_dataset : string) : res string :=
  let requested := strip (str_or_empty (get "cartridge_id" conf)) in
  let inferred :=
    match (if nonempty seed_dataset then afind seed_dataset g else None) with
    | Some i => strip (cartridge i)
    | None => _cartridge_from_seed_raw seed_raw
    end in
  if nonempty requested && nonempty inferred && negb (bool_decide (requested = inferred))
  then raise ValueError "cartridge_id does not match the scoped seed"
  else
    let c := if nonempty requested then requested else inferred in
    if nonempty c then Ok c
    else raise ValueError "cartridge_id is required or must be inferable from the seed".

Definition _validate_plan (plan : list plan_item) (c : string) : res unit :=
  if existsb (λ i, negb (bool_decide (p_cartridge i = c))) plan
  then raise ValueError "dataset_refresh_chain crossed a cartridge boundary"
  else Ok tt.
End Graph.

(** ** The traversals of [_build_plan], over the reverse index *)
Section Traversal.
Context (rev : list (string * list string)).

(** [for child in ...: visit(child)]; [None] is the fuel that ran out. *)
Fixpoint each (visit : list string → string → option (res (list string)))
    (visited cs : list string) : option (res (list string)) :=
  match cs with
  | [] => Some (Ok visited)
  | c :: cs =>
      match visit visited c with
      | Some (Ok visited) => each visit visited cs
      | r => r
      end
  end.

(** [visit]: the depth-first search; it threads [visited], last first. *)
Fixpoint visit (fuel : nat) (visiting visited : list string) (name : string)
    : option (res (list string)) :=
  match fuel with
  | O => None
  | S fuel =>
      if mem name visiting then Some (raise ValueError "dataset dependency cycle detected")
      else if mem name visited then Some (Ok visited)
      else
        match each (visit fuel (name :: visiting)) visited (children rev name) with
        | Some (Ok visited) => Some (Ok (name :: visited))
        | r => r
        end
  end.

(** [for root in roots: visit(root)]. *)
Definition visit_roots (fuel : nat) (roots : list string) : option (res (list string)) :=
  each (visit fuel []) [] roots.

(** One iteration of the [while frontier] loop. *)
Definition frontier_step (maximum_depth : Z) (s : list (string * Z) * list (string * Z))
    : (list (string * Z) * list (string * Z)) + res (list (string * Z)) :=
  let '(ranks, frontier) := s in
  match frontier with
  | [] => inr (Ok ranks)
  | (name, depth) :: frontier =>
      if maximum_depth <? depth
      then inr (raise ValueError "dataset dependency plan exceeded max_depth")
      else
        let ranks := aput name (Z.max (default (-1) (afind name ranks)) depth) ranks in
        inl (ranks, frontier ++ ((λ c, (c, depth + 1)) <$> children rev name))%list
  end.

(** The longest child list, and an entry's share of the iterations: [n] levels
    below it remain. *)
Definition fanout : N := foldr N.max 0%N ((λ kc, N.of_nat (length kc.2)) <$> rev).
Fixpoint weight (n : nat) : N :=
  match n with O => 1%N | S n => (1 + fanout * weight n)%N end.
Definition entry_weight (maximum_depth : Z) (e : string * Z) : N :=
  weight (Z.to_nat (maximum_depth + 1 - e.2)).
Definition frontier_fuel (maximum_depth : Z) (frontier : list (string * Z)) : positive :=
  N.succ_pos (foldr N.add 0%N (entry_weight maximum_depth <$> frontier)).
End Traversal.

(** Everything a path can name: the keys and the children of the index. *)
Definition rev_names (rev : list (string * list string)) : list string := rev ≫= λ kc, kc.1 :: kc.2.

Definition rank_leb (a b : string * Z) : bool :=
  (a.2 <? b.2) || ((a.2 =? b.2) && String.leb a.1 b.1).

Section Plan.
Context `{PyRepr}.

(** The roots and the ranks and depth they start from. *)
Definition plan_roots (g : graph) (rev : list (string * list string)) (seed_raw seed_dataset : string)
    : res (list string * list (string * Z) * Z) :=
  if nonempty seed_raw then
    let raw_key := lower (strip_char "/" (strip seed_raw)) in
    if endswith "/*" raw_key then
      let cartridge_prefix := stake (slen raw_key - 1) raw_key in
      if negb (Nat.eqb (count_char "/" cartridge_prefix) 2)
      then raise ValueError "cartridge raw seed must be raw/<cartridge>/*"
      else
        let roots := sort_strings (dedup
          (List.filter (λ kc, startswith cartridge_prefix kc.1) rev ≫= snd)) in
        match roots with
        | [] => raise ValueError "raw seed does not exist in the active workspace graph"
        | _ => Ok (roots, [], 1)
        end
    else
      match afind raw_key rev with
      | None => raise ValueError "raw seed does not exist in the active workspace graph"
      | Some roots => Ok (roots, [], 1)
      end
  else
    match afind seed_dataset g with
    | None => raise ValueError "seed dataset does not exist in the active workspace"
    | Some _ => Ok ([seed_dataset], [(seed_dataset, 0)], 0)
    end.

Definition make_item (g : graph) (nr : string * Z) : res plan_item :=
  let '(name, rank) := nr in
  ups ← _upstream_datasets g name;
  let upstreams := sort_strings (dedup ups) in
  i ← lookup_info g name;
  never ← _never_materialized_upstreams g name upstreams;
  Ok (Item name (layer i) (cartridge i) rank upstreams (materialized i) never).

(** [None] would be a loop out of fuel; the fuel given here always suffices. *)
Definition _build_plan (g : graph) (seed_raw seed_dataset : string) (maximum_depth : Z)
    : option (res (list plan_item)) :=
  match _reverse_index g with
  | Raise e => Some (Raise e)
  | Ok rev =>
      match plan_roots g rev seed_raw seed_dataset with
      | Raise e => Some (Raise e)
      | Ok (roots, ranks, root_depth) =>
          match visit_roots rev (2 + length (rev_names rev)) roots with
          | None => None
          | Some (Raise e) => Some (Raise e)
          | Some (Ok _) =>
              let frontier := (λ n, (n, root_depth)) <$> roots in
              match while (frontier_step rev maximum_depth)
                      (frontier_fuel rev maximum_depth frontier) (ranks, frontier) with
              | inl _ => None
              | inr (Raise e) => Some (Raise e)
              | inr (Ok ranks) => Some (mapR (make_item g) (sort_by rank_leb ranks))
              end
          end
      end
  end.

(** [resolve_chain]: the plan and the cartridge it pushes. *)
Definition resolve_chain (load_graph : string → string → res graph) (conf : pydict)
    : option (res (list plan_item * string)) :=
  match
    scope ← _required_scope conf;
    let seed_raw := strip (str_or_empty (get "seed_raw" conf)) in
    let seed_dataset := strip (str_or_empty (get "seed_dataset" conf)) in
    if bool_decide (seed_raw = "") && bool_decide (seed_dataset = "")
    then raise ValueError "conf must include seed_raw or seed_dataset"
    else
      g ← load_graph scope.1 scope.2;
      c ← _resolve_cartridge conf g seed_raw seed_dataset;
      depth ← py_int (py_or (get "max_depth" conf) (PInt 10));
      Ok (g, c, seed_raw, seed_dataset, Z.max 1 (Z.min depth 50))
  with
  | Raise e => Some (Raise e)
  | Ok (g, c, seed_raw, seed_dataset, maximum_depth) =>
      plan ← _build_plan g seed_raw seed_dataset maximum_depth;
      Some (plan ← plan; _ ← _validate_plan plan c; Ok (plan, c))
  end.
End Plan.

(** ** The depth-first search *)
Section Search.
Context (rev : list (string * list string)).

Definition edge (x y : string) : Prop := y ∈ children rev x.
Definition cycle_from (root : string) : Prop := ∃ x, rtc edge root x ∧ tc edge x x.

Lemma children_names x y : edge x y → y ∈ rev_names rev.
Proof.
  unfold edge, children, rev_names. destruct (afind x rev) as [cs|] eqn:E; simpl; [|set_solver].
  intros Hy. apply afind_elem in E. apply list_elem_of_bind. exists (x, cs). set_solver.
Qed.

(** A list in which every name comes before its children. *)
Fixpoint topological (l : list string) : Prop :=
  match l with
  | [] => True
  | x :: l => (∀ y, edge x y → y ∈ l) ∧ x ∉ l ∧ topological l
  end.

Lemma topological_closed l x y : topological l → x ∈ l → rtc edge x y → y ∈ l.
Proof.
  intros Ht Hx Hr. revert Hx. induction Hr as [x|x y z Hxy _ IH]; intros Hx; [done|]. apply IH.
  clear IH z. induction l as [|a l IHl]; [set_solver|]. destruct Ht as (Ha & _ & Ht).
  apply elem_of_cons in Hx as [->|Hx]; set_solver.
Qed.

Lemma topological_acyclic l x : topological l → x ∈ l → ¬ tc edge x x.
Proof.
  induction l as [|a l IH]; [set_solver|]. intros (Ha & Hnot & Ht) Hx Hc.
  apply elem_of_cons in Hx as [->|Hx]; [|by apply IH].
  assert (∃ b, edge a b ∧ rtc edge b a) as (b & Hb & Hr).
  { inversion Hc; subst; eauto using tc_rtc, rtc_refl. }
  apply Hnot. apply (topological_closed l b); auto.
Qed.

Definition search_post (visiting visited : list string) (name : string) (r : res (list string)) : Prop :=
  match r with
  | Ok visited' =>
      topological visited' ∧ visited ⊆ visited' ∧ name ∈ visited'
      ∧ (∀ x, x ∈ visited' → x ∈ visited ∨ x ∉ visiting)
  | Raise e => e = Exn ValueError "dataset dependency cycle detected" ∧ cycle_from name
  end.

Lemma cycle_from_step x y : rtc edge x y → cycle_from y → cycle_from x.
Proof. intros Hxy (z & Hz & Hc). exists z. split; [by etrans|done]. Qed.

Lemma each_spec f visiting visited cs r :
  (∀ visited c r, c ∈ cs → topological visited → f visited c = Some r → search_post visiting visited c r) →
  topological visited → each f visited cs = Some r →
  match r with
  | Ok visited' =>
      topological visited' ∧ visited ⊆ visited' ∧ (∀ c, c ∈ cs → c ∈ visited')
      ∧ (∀ x, x ∈ visited' → x ∈ visited ∨ x ∉ visiting)
  | Raise e => e = Exn ValueError "dataset dependency cycle detected" ∧ ∃ c, c ∈ cs ∧ cycle_from c
  end.
Proof.
  revert visited; induction cs as [|c cs IH]; intros visited Hf Ht; simpl.
  { intros [= <-]. set_solver. }
  destruct (f visited c) as [[v1|e]|] eqn:E; [| |done].
  - apply Hf in E as (Ht1 & Hsub & Hc & Hv); [|set_solver|done]. intros Hr.
    apply IH in Hr; [|intros; eapply Hf; set_solver|done].
    destruct r as [v2|e]; [|set_solver].
    destruct Hr as (Ht2 & Hsub2 & Hcs & Hv2). split_and!; [done|set_solver|set_solver|].
    intros x [Hx|Hx]%Hv2; [by apply Hv|by right].
  - intros [= <-]. apply Hf in E as [-> Hc]; [|set_solver|done]. set_solver.
Qed.

Lemma visit_spec fuel visiting visited name r :
  topological visited → (∀ v, v ∈ visiting → tc edge v name) →
  visit rev fuel visiting visited name = Some r → search_post visiting visited name r.
Proof.
  revert visiting visited name r; induction fuel as [|fuel IH]; intros visiting visited name r Ht Hp; [done|].
  simpl. destruct (mem name visiting) eqn:E1; [apply mem_true in E1|apply mem_false in E1].
  { intros [= <-]. split; [done|]. exists name. split; [done|]. by apply Hp. }
  destruct (mem name visited) eqn:E2; [apply mem_true in E2|apply mem_false in E2].
  { intros [= <-]. split_and!; try done. auto. }
  destruct (each _ _ _) as [r1|] eqn:E; [|done].
  eapply (each_spec _ (name :: visiting)) in E; [|  |exact Ht].
  - destruct r1 as [v1|e]; intros [= <-].
    + destruct E as (Ht1 & Hsub & Hc & Hv). split_and!; [|set_solver|set_solver|].
      * split_and!; [exact Hc| |done]. intros Hn. apply Hv in Hn. set_solver.
      * intros x. rewrite elem_of_cons. intros [->|Hx]; [by right|]. apply Hv in Hx. set_solver.
    + destruct E as [-> (c & Hc & Hcyc)]. split; [done|].
      eapply cycle_from_step; [by apply rtc_once|done].
  - intros v c r' Hc Hv Hr. eapply IH; [done| |exact Hr].
    intros u. rewrite elem_of_cons. intros [->|Hu]; [by apply tc_once|].
    eapply tc_r; [by apply Hp|done].
Qed.

Lemma each_fuel f visited cs :
  (∀ visited c, c ∈ cs → f visited c ≠ None) → each f visited cs ≠ None.
Proof.
  revert visited; induction cs as [|c cs IH]; intros visited Hf; simpl; [done|].
  destruct (f visited c) as [[v|e]|] eqn:E; [|done|by eapply Hf in E; set_solver].
  apply IH. set_solver.
Qed.

Lemma visit_fuel root fuel visiting visited name :
  NoDup visiting → (∀ v, v ∈ name :: visiting → v ∈ root :: rev_names rev) →
  (2 + length (rev_names rev) ≤ fuel + length visiting)%nat →
  visit rev fuel visiting visited name ≠ None.
Proof.
  revert visiting visited name; induction fuel as [|fuel IH]; intros visiting visited name Hnd Hin Hf.
  { assert (Hle : (length visiting ≤ length (root :: rev_names rev))%nat); [|simpl in *; lia].
    apply submseteq_length, NoDup_submseteq; [done|]. set_solver. }
  simpl. destruct (mem name visiting) eqn:E1; [done|apply mem_false in E1].
  destruct (mem name visited); [done|].
  assert (H : each (visit rev fuel (name :: visiting)) visited (children rev name) ≠ None).
  { apply each_fuel. intros v c Hc. apply IH; [by constructor| |simpl; lia].
    intros u. rewrite elem_of_cons. intros [->|Hu]; [|by apply Hin].
    apply elem_of_cons. right. by eapply children_names. }
  by destruct (each _ _ _) as [[]|].
Qed.

(** The search ends, and raises exactly when a root leads to a cycle. *)
Lemma visit_roots_spec roots :
  ∃ r, visit_roots rev (2 + length (rev_names rev)) roots = Some r ∧
  match r with
  | Ok visited => ∀ root, root ∈ roots → ¬ cycle_from root
  | Raise e => e = Exn ValueError "dataset dependency cycle detected" ∧ ∃ root, root ∈ roots ∧ cycle_from root
  end.
Proof.
  destruct (visit_roots _ _ roots) as [r|] eqn:E; unfold visit_roots in E.
  - exists r. split; [done|]. eapply (each_spec _ []) in E; [|  |done].
    + destruct r as [v|e]; [|done]. destruct E as (Ht & _ & Hc & _). intros root Hroot (x & Hx & Hcyc).
      apply (topological_acyclic v x); [done| |done]. eapply topological_closed; [done| |done]. by apply Hc.
    + intros v c r' _ Hv Hr. eapply visit_spec; [done| |exact Hr]. set_solver.
  - exfalso. revert E. apply each_fuel. intros v c Hc. apply (visit_fuel c); [constructor| |simpl; lia].
    set_solver.
Qed.
End Search.

(** ** The ranking loop *)
Section Ranks.
Context (rev : list (string * list string)) (maximum_depth : Z).
Context (roots : list string) (root_depth : Z) (Hdepth : 0 <= root_depth).

Definition walk (k : nat) (root n : string) : Prop := nsteps (edge rev) k root n.

(** [(n, d)] stands at the end of a walk from a root. *)
Definition stands (n : string) (d : Z) : Prop :=
  ∃ root k, root ∈ roots ∧ walk k root n ∧ d = root_depth + Z.of_nat k.

Definition settled (ranks frontier : list (string * Z)) (n : string) (d : Z) : Prop :=
  (∃ e, (n, e) ∈ frontier ∧ d <= e) ∨ (∃ r, afind n ranks = Some r ∧ d <= r).

Record frontier_ok (s : list (string * Z) * list (string * Z)) : Prop := {
  fo_nodup : NoDup s.1.*1;
  fo_ranks : ∀ n r, afind n s.1 = Some r → stands n r ∧ r <= Z.max root_depth maximum_depth;
  fo_front : ∀ n d, (n, d) ∈ s.2 → stands n d;
  fo_roots : ∀ root, root ∈ roots → settled s.1 s.2 root root_depth;
  fo_closed : ∀ n r, afind n s.1 = Some r →
    (n, r) ∈ s.2 ∨ ∀ c, edge rev n c → settled s.1 s.2 c (r + 1) }.

Lemma stands_step n d c : stands n d → edge rev n c → stands c (d + 1).
Proof.
  intros (root & k & Hr & Hw & ->) Hc. exists root, (k + 1)%nat. split_and!; [done| |lia].
  eapply nsteps_trans; [exact Hw|]. by apply nsteps_once.
Qed.

Lemma stands_nonneg n d : stands n d → 0 <= d.
Proof. intros (root & k & _ & _ & ->). lia. Qed.

Lemma frontier_ok_step s s' :
  frontier_ok s → frontier_step rev maximum_depth s = inl s' → frontier_ok s'.
Proof.
  destruct s as [ranks frontier]. intros [Hnd Hra Hfr Hro Hcl]. simpl in *. unfold frontier_step.
  destruct frontier as [|[name depth] frontier]; [done|].
  destruct (_ <? _) eqn:Emax; [done|]. intros [= <-]. apply Z.ltb_ge in Emax.
  set (r := Z.max (default (-1) (afind name ranks)) depth).
  set (new := (λ c, (c, depth + 1)) <$> children rev name).
  assert (Hst : stands name depth) by (apply Hfr; left).
  assert (Hr : r = depth ∧ (∀ q, afind name ranks = Some q → q <= depth)
             ∨ afind name ranks = Some r ∧ depth <= r).
  { pose proof (stands_nonneg _ _ Hst). unfold r. destruct (afind name ranks) as [q|]; simpl.
    - destruct (Z.max_spec q depth) as [[? ->]|[? ->]]; [left|right]; split; try done.
      intros ? [= <-]. lia.
    - left. split; [lia|done]. }
  assert (Hsettled : ∀ n d, settled ranks ((name, depth) :: frontier) n d →
            settled (aput name r ranks) (frontier ++ new) n d).
  { intros n d [(e & He & Hd)|(q & Hq & Hd)].
    - apply elem_of_cons in He as [[= -> ->]|He]; [|left; exists e; set_solver].
      right. exists r. rewrite afind_aput, decide_True by done. split; [done|lia].
    - right. rewrite afind_aput. case_decide as Hn; [subst n|eauto].
      exists r. split; [done|]. unfold r. rewrite Hq. simpl. lia. }
  assert (Hnew : r = depth → ∀ c, edge rev name c → settled (aput name r ranks) (frontier ++ new) c (r + 1)).
  { intros -> c Hc. left. exists (depth + 1). split; [|lia]. apply elem_of_app. right.
    apply list_elem_of_fmap. eauto. }
  split; simpl.
  - by apply NoDup_aput.
  - intros n q. rewrite afind_aput. case_decide as Hn; [subst n|apply Hra].
    intros [= <-]. destruct Hr as [[-> _]|[Hr _]]; [|by apply Hra]. split; [done|lia].
  - intros n d [Hin|Hin]%elem_of_app; [apply Hfr; by right|].
    apply list_elem_of_fmap in Hin as (c & [= -> ->] & Hc). by eapply stands_step.
  - intros root Hroot. by apply Hsettled, Hro.
  - intros n q. rewrite afind_aput. case_decide as Hn.
    + subst n. intros [= <-]. destruct Hr as [[Hr _]|[Hr Hle]]; [right; by apply Hnew|].
      destruct (Hcl _ _ Hr) as [Hin|Hc]; [|right; intros c Hcc; by apply Hsettled, Hc].
      apply elem_of_cons in Hin as [[= E]|Hin]; [right; by apply Hnew|left; set_solver].
    + intros Hq. destruct (Hcl _ _ Hq) as [Hin|Hc]; [left; set_solver|].
      right. intros c Hcc. by apply Hsettled, Hc.
Qed.

Lemma settled_walk ranks :
  frontier_ok (ranks, []) → ∀ k root n, root ∈ roots → walk k root n →
  ∃ r, afind n ranks = Some r ∧ root_depth + Z.of_nat k <= r.
Proof.
  intros [_ _ _ Hro Hcl] k root n Hroot Hw. simpl in *.
  assert (Hnil : ∀ n d, settled ranks [] n d → ∃ r, afind n ranks = Some r ∧ d <= r).
  { intros ? ? [(e & He & _)|?]; [set_solver|done]. }
  revert n Hw; induction k as [|k IH]; intros n Hw.
  - inversion Hw; subst. destruct (Hnil _ _ (Hro n Hroot)) as (r & ? & ?). exists r. split; [done|lia].
  - replace (S k) with (k + 1)%nat in Hw by lia.
    apply nsteps_add_inv in Hw as (m & Hm & Hmn). apply nsteps_once_inv in Hmn.
    destruct (IH m Hm) as (q & Hq & Hle). destruct (Hcl _ _ Hq) as [?|Hc]; [set_solver|].
    destruct (Hnil _ _ (Hc n Hmn)) as (r & Hr & Hqr). exists r. split; [done|lia].
Qed.

(** The iterations cannot outnumber the fuel. *)
Definition frontier_weight (s : list (string * Z) * list (string * Z)) : N :=
  foldr N.add 0%N (entry_weight rev maximum_depth <$> s.2).

Lemma fanout_children x : (N.of_nat (length (children rev x)) <= fanout rev)%N.
Proof.
  unfold children, fanout. destruct (afind x rev) as [cs|] eqn:E; simpl; [|lia].
  apply afind_elem in E. clear -E. revert E. generalize rev as l. induction l as [|kc l IH]; [set_solver|].
  rewrite elem_of_cons, fmap_cons. cbn [foldr]. intros [<-|E]; [cbn [snd]; lia|]. specialize (IH E). lia.
Qed.

Lemma sum_N_app (l k : list N) : foldr N.add 0%N (l ++ k) = (foldr N.add 0 l + foldr N.add 0 k)%N.
Proof. induction l as [|x l IH]; simpl; [done|]. rewrite IH. lia. Qed.

Lemma sum_N_const (l : list string) (f : string → N) c :
  (∀ x, f x = c) → foldr N.add 0%N (f <$> l) = (N.of_nat (length l) * c)%N.
Proof.
  intros Hf. induction l as [|x l IH]; [done|]. rewrite fmap_cons. cbn [foldr length].
  rewrite IH, Hf. lia.
Qed.

Lemma frontier_weight_step s s' :
  frontier_step rev maximum_depth s = inl s' → (frontier_weight s' < frontier_weight s)%N.
Proof.
  destruct s as [ranks [|[name depth] frontier]]; [done|]. unfold frontier_step.
  destruct (_ <? _) eqn:E; [done|]. intros [= <-]. apply Z.ltb_ge in E.
  unfold frontier_weight; simpl. rewrite fmap_app, sum_N_app, <- list_fmap_compose.
  rewrite (sum_N_const _ _ (weight rev (Z.to_nat (maximum_depth - depth)))).
  2:{ intros x. unfold compose, entry_weight. simpl. do 2 f_equal. lia. }
  unfold entry_weight at 2. simpl.
  replace (Z.to_nat (maximum_depth + 1 - depth)) with (S (Z.to_nat (maximum_depth - depth))) by lia.
  simpl. pose proof (fanout_children name).
  assert (N.of_nat (length (children rev name)) * weight rev (Z.to_nat (maximum_depth - depth))
          <= fanout rev * weight rev (Z.to_nat (maximum_depth - depth)))%N by (by apply N.mul_le_mono_r).
  change (list_fmap _ _ ?f ?l) with (f <$> l). lia.
Qed.

Lemma frontier_ends ranks frontier :
  ∃ r, while (frontier_step rev maximum_depth) (frontier_fuel rev maximum_depth frontier) (ranks, frontier) = inr r.
Proof.
  apply (while_terminates _ (λ _, True) frontier_weight); [|done|].
  - intros s s' _ H. split; [done|]. by apply frontier_weight_step.
  - unfold frontier_fuel, frontier_weight. simpl. rewrite N.succ_pos_spec. lia.
Qed.

(** The ranks the loop leaves. *)
Lemma frontier_result s0 p ranks :
  frontier_ok s0 → while (frontier_step rev maximum_depth) p s0 = inr (Ok ranks) →
  frontier_ok (ranks, []).
Proof.
  intros Hok H. revert ranks H.
  enough (G : ∀ r, while (frontier_step rev maximum_depth) p s0 = inr r →
            ∀ ranks, r = Ok ranks → frontier_ok (ranks, [])) by eauto.
  intros r. apply (while_inv _ frontier_ok (λ r, ∀ ranks, r = Ok ranks → frontier_ok (ranks, []))).
  - apply frontier_ok_step.
  - intros [ranks [|[name depth] frontier]] r' Hs; unfold frontier_step; [by intros [= <-] ? [= <-]|].
    destruct (_ <? _); by intros [= <-].
  - done.
Qed.

(** Over some frontier the loop leaves such ranks when no walk is too long, or raises
    because of one that is. *)
Lemma frontier_outcome s0 p r :
  frontier_ok s0 → s0.2 ≠ [] → while (frontier_step rev maximum_depth) p s0 = inr r →
  match r with
  | Ok ranks => frontier_ok (ranks, []) ∧ root_depth <= maximum_depth
  | Raise e => e = Exn ValueError "dataset dependency plan exceeded max_depth" ∧ ∃ n d, stands n d ∧ maximum_depth < d
  end.
Proof.
  intros Hok Hne. assert (Hinit : s0.2 ≠ [] ∨ root_depth <= maximum_depth) by by left. clear Hne.
  apply (while_inv _ (λ s, frontier_ok s ∧ (s.2 ≠ [] ∨ root_depth <= maximum_depth))
    (λ r, match r with
          | Ok ranks => frontier_ok (ranks, []) ∧ root_depth <= maximum_depth
          | Raise e => e = Exn ValueError "dataset dependency plan exceeded max_depth" ∧ ∃ n d, stands n d ∧ maximum_depth < d
          end)); [| |by split].
  - intros s s' [Hs _] Hstep. split; [by eapply frontier_ok_step|]. right.
    destruct s as [ranks [|[n d] frontier]]; [done|]. unfold frontier_step in Hstep. destruct (_ <? _) eqn:E; [done|].
    apply Z.ltb_ge in E. destruct (fo_front _ Hs n d) as (root & k & _ & _ & ->); [by left|]. lia.
  - intros [ranks [|[n d] frontier]] r' [Hs Hn]; unfold frontier_step; [intros [= <-]|].
    + split; [done|]. by destruct Hn.
    + destruct (_ <? _) eqn:E; [|done]. intros [= <-]. split; [done|]. apply Z.ltb_lt in E.
      exists n, d. split; [|done]. apply (fo_front _ Hs). by left.
Qed.
End Ranks.

(** ** The reverse index *)
Section Reverse.
Context `{PyRepr}.
Implicit Types (g : graph) (rev : list (string * list string)).

(** [y] reads [x]: [x] is a raw source of [y] or the dataset one of its sources names. *)
Definition reads g (x y : string) : Prop :=
  ∃ i, (y, i) ∈ g ∧
    (x ∈ List.filter (startswith "raw/") (source_text <$> sources i)
     ∨ ∃ ups, _upstream_datasets g y = Ok ups ∧ x ∈ ups).

Lemma children_push d rev key x :
  children (rev_push d rev key) x = if decide (x = key) then (children rev x ++ [d])%list else children rev x.
Proof. unfold children, rev_push. rewrite afind_aput. by case_decide; subst. Qed.

Lemma children_pushes d ks rev x y :
  y ∈ children (foldl (rev_push d) rev ks) x ↔ y ∈ children rev x ∨ (y = d ∧ x ∈ ks).
Proof.
  revert rev; induction ks as [|k ks IH]; intros rev; simpl; [set_solver|].
  rewrite IH, children_push. case_decide; set_solver.
Qed.

Lemma lookup_info_in g n : n ∈ g.*1 → ∃ i, lookup_info g n = Ok i ∧ (n, i) ∈ g.
Proof.
  intros Hn. unfold lookup_info. destruct (afind n g) as [i|] eqn:E; [eauto using afind_elem|].
  by apply afind_None in E.
Qed.

Lemma upstreams_in g n : n ∈ g.*1 → ∃ ups, _upstream_datasets g n = Ok ups ∧ ∀ u, u ∈ ups → u ∈ g.*1.
Proof.
  intros Hn. unfold _upstream_datasets. destruct (lookup_info_in g n Hn) as (i & -> & _). simpl.
  eexists. split; [done|]. intros u Hu. apply list_elem_of_omap in Hu as (s & _ & Hs).
  unfold upstream_of in Hs. case_match; [done|].
  destruct (List.find _ g) as [[m j]|] eqn:E; simpl in Hs; [|done]. injection Hs as ->.
  apply List.find_some in E as [E _]. apply list_elem_of_In in E. apply list_elem_of_fmap.
  by exists (u, j).
Qed.

(** The index holds, for every name, exactly the datasets that read it. *)
Lemma reverse_index_spec g :
  ∃ rev, _reverse_index g = Ok rev ∧ ∀ x y, y ∈ children rev x ↔ reads g x y.
Proof.
  assert (G : ∀ l rev, (∀ ni, ni ∈ l → ni ∈ g) →
    ∃ rev', foldR (λ rev ni,
      let raws := List.filter (startswith "raw/") (source_text <$> sources ni.2) in
      let rev := foldl (rev_push ni.1) rev raws in
      ups ← _upstream_datasets g ni.1;
      Ok (foldl (rev_push ni.1) rev ups)) l rev = Ok rev'
    ∧ ∀ x y, y ∈ children rev' x ↔ y ∈ children rev x ∨ ∃ i, (y, i) ∈ l ∧
        (x ∈ List.filter (startswith "raw/") (source_text <$> sources i)
         ∨ ∃ ups, _upstream_datasets g y = Ok ups ∧ x ∈ ups)).
  { induction l as [|[n i] l IH]; intros rev Hl.
    - exists rev. split; [done|]. set_solver.
    - destruct (upstreams_in g n) as (ups & Hups & _).
      { apply list_elem_of_fmap. exists (n, i). split; [done|]. apply Hl. left. }
      simpl. rewrite Hups. simpl.
      edestruct IH as (rev' & Hrev & Hch); [by intros; apply Hl; right|].
      exists rev'. split; [exact Hrev|]. intros x y. rewrite Hch, !children_pushes.
      setoid_rewrite elem_of_cons. split.
      + intros [[[?|[-> ?]]|[-> ?]]|(j & ? & ?)]; [by left|right..].
        * exists i. auto.
        * exists i. split; [by left|]. right. eauto.
        * exists j. auto.
      + intros [?|(j & [[= -> ->]|?] & Hx)]; [by do 3 left| |right; eauto].
        destruct Hx as [Hx|(ups' & Hu & Hx)]; [left; left; by right|left; right].
        rewrite Hups in Hu. by injection Hu as <-. }
  destruct (G g [] (λ _ h, h)) as (rev & Hrev & Hch). exists rev. split; [exact Hrev|].
  intros x y. rewrite Hch. unfold reads. set_solver.
Qed.

Lemma nsteps_mono {A} (R S : A → A → Prop) k x y :
  (∀ x y, R x y → S x y) → nsteps R k x y → nsteps S k x y.
Proof. intros HRS. induction 1; econstructor; eauto. Qed.

Lemma reads_in g x y : reads g x y → y ∈ g.*1.
Proof. intros (i & Hi & _). apply list_elem_of_fmap. by exists (y, i). Qed.

(** ** The plan *)

Lemma never_ok g n ups :
  n ∈ g.*1 → (∀ u, u ∈ ups → u ∈ g.*1) → ∃ l, _never_materialized_upstreams g n ups = Ok l.
Proof.
  intros Hn Hups. unfold _never_materialized_upstreams.
  destruct (lookup_info_in g n Hn) as (i & Hi & _).
  assert (∃ fl, mapR (λ u, i ← lookup_info g u; Ok (u, materialized i)) ups = Ok fl) as [fl ->].
  { clear -Hups. induction ups as [|u ups IH]; simpl; [eauto|].
    destruct (lookup_info_in g u) as (j & -> & _); [set_solver|]. simpl.
    destruct IH as [fl ->]; [set_solver|]. simpl. eauto. }
  simpl. rewrite Hi. simpl. eauto.
Qed.

Lemma make_item_ok g n r :
  n ∈ g.*1 → ∃ it ups, make_item g (n, r) = Ok it ∧ p_name it = n ∧ p_rank it = r
    ∧ _upstream_datasets g n = Ok ups ∧ (∀ u, u ∈ p_upstreams it ↔ u ∈ ups).
Proof.
  intros Hn. unfold make_item. destruct (upstreams_in g n Hn) as (ups & Hups & Hin).
  destruct (lookup_info_in g n Hn) as (i & Hi & _).
  destruct (never_ok g n (sort_strings (dedup ups)) Hn) as [nv Hnv].
  { intros u. unfold sort_strings. rewrite elem_of_sort_by, elem_of_dedup. apply Hin. }
  rewrite Hups. simpl. rewrite Hi. simpl. rewrite Hnv. simpl.
  eexists _, ups. split_and!; try done; simpl.
  all: unfold sort_strings; intros; by rewrite elem_of_sort_by, elem_of_dedup in *.
Qed.

Lemma make_items g nrs :
  (∀ n r, (n, r) ∈ nrs → n ∈ g.*1) →
  ∃ plan, mapR (make_item g) nrs = Ok plan
    ∧ (λ it, (p_name it, p_rank it)) <$> plan = nrs
    ∧ ∀ it, it ∈ plan → ∃ ups, _upstream_datasets g (p_name it) = Ok ups
        ∧ ∀ u, u ∈ p_upstreams it ↔ u ∈ ups.
Proof.
  induction nrs as [|[n r] nrs IH]; intros Hin; cbn [mapR].
  { exists []. split_and!; [done..|]. intros ? Hi. by apply elem_of_nil in Hi. }
  destruct (make_item_ok g n r) as (it & ups & -> & <- & <- & Hu & Hiff); [eapply Hin; left|].
  destruct IH as (plan & -> & Hmap & Hall); [set_solver|]. cbn [mbind res_bind].
  eexists. split; [done|]. rewrite fmap_cons, Hmap. split; [done|].
  intros it'. rewrite elem_of_cons. intros [->|]; eauto.
Qed.
End Reverse.

(** A dataset the seed starts from: the seed itself, a reader of the raw seed or, of
    a seed of a whole cartridge, of one of its raw sources. *)
Definition is_root `{PyRepr} (g : graph) (seed_raw seed_dataset n : string) : Prop :=
  if nonempty seed_raw then
    let key := lower (strip_char "/" (strip seed_raw)) in
    if endswith "/*" key then
      let prefix := stake (slen key - 1) key in
      count_char "/" prefix = 2%nat ∧ ∃ x, startswith prefix x = true ∧ reads g x n
    else reads g key n
  else n = seed_dataset ∧ n ∈ g.*1.

(** The rank of the roots. *)
Definition seed_depth (seed_raw : string) : Z := if nonempty seed_raw then 1 else 0.

(** The errors of a seed that no dataset starts from. *)
Definition seed_error (e : exn) : Prop :=
  e = Exn ValueError "cartridge raw seed must be raw/<cartridge>/*"
  ∨ e = Exn ValueError "raw seed does not exist in the active workspace graph"
  ∨ e = Exn ValueError "seed dataset does not exist in the active workspace".

Section PlanSpec.
Context `{PyRepr} (g : graph) (seed_raw seed_dataset : string) (maximum_depth : Z).
Context (rev : list (string * list string)) (Hrev : _reverse_index g = Ok rev).

Lemma edge_reads x y : edge rev x y ↔ reads g x y.
Proof. destruct (reverse_index_spec g) as (rev' & E & Hch). rewrite Hrev in E. injection E as <-. apply Hch. Qed.

Lemma children_in key cs c : (key, cs) ∈ rev → NoDup rev.*1 → c ∈ cs → c ∈ g.*1.
Proof.
  intros Hk Hnd Hc. apply (reads_in g key). apply edge_reads. unfold edge, children.
  by rewrite (proj1 (elem_of_afind _ _ _ Hnd) Hk).
Qed.

Lemma rev_nodup : NoDup rev.*1.
Proof.
  assert (P : ∀ d ks r, NoDup r.*1 → NoDup (foldl (rev_push d) r ks).*1).
  { intros d ks. induction ks as [|k ks IH]; intros r Hr; simpl; [done|].
    apply IH. by apply NoDup_aput. }
  unfold _reverse_index in Hrev. revert Hrev.
  apply (foldR_inv _ (λ r : list (string * list string), NoDup r.*1)); [|constructor].
  intros r ni r' _ Hr Hs. apply bind_ok in Hs as (ups & _ & [= <-]). auto.
Qed.

Lemma rev_filled key cs : afind key rev = Some cs → cs ≠ [].
Proof.
  assert (P : ∀ d ks r, (∀ k l, afind k r = Some l → l ≠ []) → ∀ k l, afind k (foldl (rev_push d) r ks) = Some l → l ≠ []).
  { intros d ks. induction ks as [|k0 ks IH]; intros r Hr; simpl; [done|]. apply IH. intros k l. unfold rev_push.
    rewrite afind_aput. case_decide; [|by apply Hr]. intros [= <-]. by destruct (default [] _). }
  unfold _reverse_index in Hrev. revert Hrev key cs.
  apply (foldR_inv _ (λ r : list (string * list string), ∀ key cs, afind key r = Some cs → cs ≠ [])); [|done].
  intros r ni r' _ Hr Hs. apply bind_ok in Hs as (ups & _ & [= <-]). by apply P, P.
Qed.

(** The roots are those of the seed; there are none exactly when the seed is refused. *)
Lemma plan_roots_root :
  match plan_roots g rev seed_raw seed_dataset with
  | Ok (roots, _, d) =>
      roots ≠ [] ∧ d = seed_depth seed_raw ∧ ∀ n, n ∈ roots ↔ is_root g seed_raw seed_dataset n
  | Raise e => (∀ n, ¬ is_root g seed_raw seed_dataset n) ∧ seed_error e
  end.
Proof.
  unfold plan_roots, is_root, seed_depth. destruct (nonempty seed_raw).
  - set (key := lower _). destruct (endswith "/*" key).
    + destruct (Nat.eqb (count_char "/" _) 2) eqn:Ec; cbn [negb].
      2: { split; [|by left]. intros n [E _]. by apply Nat.eqb_neq in Ec. }
      apply Nat.eqb_eq in Ec. set (rs := sort_strings _).
      assert (Hrs : ∀ n, n ∈ rs ↔ ∃ x, startswith (stake (slen key - 1) key) x = true ∧ reads g x n).
      { intros n. unfold rs, sort_strings. rewrite elem_of_sort_by, elem_of_dedup, list_elem_of_bind. split.
        - intros ([x cs] & Hn & [Hx Hp]%elem_of_List_filter). exists x. split; [done|]. apply edge_reads.
          unfold edge, children. by rewrite (proj1 (elem_of_afind _ _ _ rev_nodup) Hx).
        - intros (x & Hp & Hn). apply edge_reads in Hn. unfold edge, children in Hn.
          destruct (afind x rev) as [cs|] eqn:E; [|by apply elem_of_nil in Hn]. exists (x, cs). split; [done|].
          apply elem_of_List_filter. split; [by apply afind_elem|done]. }
      destruct rs as [|r0 rs'] eqn:E.
      * split; [|by right; left]. intros n (_ & Hn). apply Hrs in Hn. by apply elem_of_nil in Hn.
      * split_and!; [done..|]. intros n. rewrite Hrs. naive_solver.
    + destruct (afind key rev) as [rs|] eqn:E.
      * split; [by apply rev_filled in E|]. split; [done|]. intros n. rewrite <- edge_reads. unfold edge, children. by rewrite E.
      * split; [|by right; left]. intros n Hn%edge_reads. unfold edge, children in Hn. rewrite E in Hn. by apply elem_of_nil in Hn.
  - destruct (afind seed_dataset g) as [i|] eqn:E.
    + split_and!; [done..|]. intros n. rewrite list_elem_of_singleton. split; [|by intros [-> _]]. intros ->. split; [done|].
      apply afind_elem in E. apply list_elem_of_fmap. by exists (seed_dataset, i).
    + split; [|by right; right]. intros n [-> Hn].
      destruct (lookup_info_in g seed_dataset Hn) as (i & Hi & _). unfold lookup_info in Hi. by rewrite E in Hi.
Qed.

Lemma plan_roots_spec roots ranks d :
  plan_roots g rev seed_raw seed_dataset = Ok (roots, ranks, d) →
  0 <= d ∧ (∀ r, r ∈ roots → r ∈ g.*1)
  ∧ frontier_ok rev maximum_depth roots d (ranks, (λ n, (n, d)) <$> roots).
Proof.
  unfold plan_roots.
  assert (Hinit : ∀ roots, frontier_ok rev maximum_depth roots 1 ([], (λ n, (n, 1)) <$> roots)).
  { intros rs. split; simpl; try done.
    - constructor.
    - intros n e Hn. apply list_elem_of_fmap in Hn as (m & [= -> ->] & Hm). exists m, 0%nat.
      split_and!; [done|constructor|lia].
    - intros r Hr. left. exists 1. split; [|lia]. apply list_elem_of_fmap. eauto. }
  destruct (nonempty seed_raw).
  - set (k := lower _). destruct (endswith "/*" k).
    + destruct (negb _); [done|]. set (rs := sort_strings _). destruct rs as [|r0 rs'] eqn:Ers; [done|].
      intros [= <- <- <-]. split_and!; [lia| |apply Hinit]. intros r Hr.
      rewrite <- Ers in Hr. unfold rs, sort_strings in Hr. rewrite elem_of_sort_by, elem_of_dedup in Hr.
      apply list_elem_of_bind in Hr as ([key cs] & Hr & [Hin _]%elem_of_List_filter).
      eapply children_in; [exact Hin|apply rev_nodup|exact Hr].
    + destruct (afind k rev) as [rs|] eqn:E; [|done]. intros [= <- <- <-].
      split_and!; [lia| |apply Hinit]. intros r Hr. apply afind_elem in E.
      eapply children_in; [exact E|apply rev_nodup|exact Hr].
  - destruct (afind seed_dataset g) as [i|] eqn:E; [|done]. intros [= <- <- <-].
    split_and!; [lia| |].
    + intros r ->%list_elem_of_singleton. apply afind_elem in E. apply list_elem_of_fmap.
      by exists (seed_dataset, i).
    + assert (Hst : stands rev [seed_dataset] 0 seed_dataset 0).
      { exists seed_dataset, 0%nat. split_and!; [by left|constructor|lia]. }
      split; simpl.
      * apply NoDup_singleton.
      * intros n r. case_decide; [subst|done]. intros [= <-]. split; [done|lia].
      * intros n e Hn. apply list_elem_of_singleton in Hn as [= -> ->]. done.
      * intros r ->%list_elem_of_singleton. left. exists 0. split; [left|lia].
      * intros n r. case_decide; [subst|done]. intros [= <-]. left. left.
Qed.

Lemma ranks_in_graph roots d ranks n r :
  (∀ root, root ∈ roots → root ∈ g.*1) → frontier_ok rev maximum_depth roots d (ranks, []) →
  (n, r) ∈ sort_by rank_leb ranks → n ∈ g.*1.
Proof.
  intros Hroots Hw Hn. rewrite elem_of_sort_by in Hn.
  apply elem_of_afind in Hn; [|apply Hw]. apply (fo_ranks _ _ _ _ _ Hw) in Hn as [(root & k & Hr & Hs & _) _].
  destruct k as [|k]; [inversion Hs; subst; auto|].
  replace (S k) with (k + 1)%nat in Hs by lia. apply nsteps_add_inv in Hs as (m & _ & Hm).
  apply nsteps_once_inv, edge_reads in Hm. by eapply reads_in.
Qed.

(** What [_build_plan] computes: it always answers, with a [ValueError] or with
    the items of the ranks of its two traversals. *)
Lemma build_plan_cases :
  ∃ r, _build_plan g seed_raw seed_dataset maximum_depth = Some r ∧
  match r with
  | Raise e => exn_cls e = ValueError
  | Ok plan => ∃ roots ranks0 d ranks,
      plan_roots g rev seed_raw seed_dataset = Ok (roots, ranks0, d) ∧ 0 <= d
      ∧ (∀ root, root ∈ roots → ¬ cycle_from rev root)
      ∧ frontier_ok rev maximum_depth roots d (ranks, [])
      ∧ (λ it, (p_name it, p_rank it)) <$> plan = sort_by rank_leb ranks
      ∧ ∀ it, it ∈ plan → ∃ ups, _upstream_datasets g (p_name it) = Ok ups
          ∧ ∀ u, u ∈ p_upstreams it ↔ u ∈ ups
  end.
Proof.
  unfold _build_plan. rewrite Hrev.
  destruct (plan_roots g rev seed_raw seed_dataset) as [[[roots ranks0] d]|e] eqn:Er.
  2:{ eexists. split; [done|]. unfold plan_roots in Er. repeat case_match; try discriminate; by injection Er as <-. }
  destruct (plan_roots_spec _ _ _ Er) as (Hd & Hroots & Hok).
  destruct (visit_roots_spec rev roots) as (v & -> & Hv).
  destruct v as [visited|e]; [|eexists; split; [done|]; by destruct Hv as [-> _]].
  destruct (frontier_ends rev maximum_depth ranks0 ((λ n, (n, d)) <$> roots)) as [w Hw].
  rewrite Hw. destruct w as [ranks|e].
  - apply (frontier_result rev maximum_depth roots d Hd) in Hw; [|done].
    destruct (make_items g (sort_by rank_leb ranks)) as (plan & Hp & Hmap & Hups).
    { intros n r. by apply (ranks_in_graph roots d). }
    rewrite Hp. eexists. split; [done|]. simpl. eauto 12.
  - eexists. split; [done|].
    refine (while_inv _ (λ _, True) (λ r, ∀ e, r = Raise e → exn_cls e = ValueError) _ _ _ _ _ I Hw e eq_refl);
      [done|].
    intros [? [|[] ?]] r' _; unfold frontier_step; [by intros [= <-]|]. case_match; [|done].
    by intros [= <-] ? [= <-].
Qed.
End PlanSpec.

(** ** Properties *)

(** [n] is at the end of a chain of [k] reads that starts at a root. *)
Definition downstream_by `{PyRepr} (g : graph) (roots : list string) (k : nat) (n : string) : Prop :=
  ∃ root, root ∈ roots ∧ nsteps (reads g) k root n.

Definition planned (plan : list plan_item) (n : string) (r : Z) : Prop :=
  ∃ it, it ∈ plan ∧ p_name it = n ∧ p_rank it = r.

Lemma planned_iff plan ranks n r :
  NoDup ranks.*1 → (λ it, (p_name it, p_rank it)) <$> plan = sort_by rank_leb ranks →
  planned plan n r ↔ afind n ranks = Some r.
Proof.
  intros Hnd E. rewrite <- elem_of_afind, <- (elem_of_sort_by rank_leb), <- E, list_elem_of_fmap by done.
  unfold planned. split; [intros (it & ? & <- & <-)|intros (it & [= -> ->] & ?)]; eauto.
Qed.

Lemma walk_downstream `{PyRepr} g rev k root n :
  _reverse_index g = Ok rev → walk rev k root n ↔ nsteps (reads g) k root n.
Proof. intros Hrev. split; apply nsteps_mono; intros; by apply (edge_reads g rev Hrev). Qed.

(** The plan is exactly the datasets the seed makes stale, each at the right
    rank: a dataset is planned iff it is a root or reads, in one or more steps,
    something a root feeds, and its rank is the length of the longest such
    chain (counted from the depth of the roots). *)
Theorem build_plan_ranks `{PyRepr} g seed_raw seed_dataset maximum_depth rev roots ranks0 d plan :
  _reverse_index g = Ok rev →
  plan_roots g rev seed_raw seed_dataset = Ok (roots, ranks0, d) →
  _build_plan g seed_raw seed_dataset maximum_depth = Some (Ok plan) →
  ∀ n r, planned plan n r ↔
    ∃ k, r = d + Z.of_nat k ∧ downstream_by g roots k n
      ∧ ∀ k', downstream_by g roots k' n → (k' ≤ k)%nat.
Proof.
  intros Hrev Hroots Hplan n r.
  destruct (build_plan_cases g seed_raw seed_dataset maximum_depth rev Hrev) as (x & Hx & Hc).
  rewrite Hplan in Hx. injection Hx as <-. destruct Hc as (rs & ? & ? & ranks & Hr & Hd & _ & Hok & Hmap & _).
  rewrite Hroots in Hr. injection Hr as <- <- <-.
  rewrite (planned_iff plan ranks) by (apply Hok || done).
  assert (Hle : ∀ k', downstream_by g roots k' n → ∃ r', afind n ranks = Some r' ∧ d + Z.of_nat k' <= r').
  { intros k' (root & Hroot & Hs). apply (settled_walk rev maximum_depth roots d Hd ranks Hok k' root); [done|].
    by apply (walk_downstream g rev). }
  split.
  - intros Hn. destruct (fo_ranks _ _ _ _ _ Hok _ _ Hn) as [(root & k & Hroot & Hw & ->) _].
    exists k. split_and!; [done|exists root; split; [done|by apply (walk_downstream g rev)]|].
    intros k' Hk'. destruct (Hle k' Hk') as (r' & Hr' & ?). simpl in *. simplify_eq. lia.
  - intros (k & -> & Hk & Hmax). destruct (Hle k Hk) as (r' & Hr' & Hlek). rewrite Hr'. f_equal.
    destruct (fo_ranks _ _ _ _ _ Hok _ _ Hr') as [(root & k' & Hroot & Hw & ->) _].
    assert (k' ≤ k)%nat; [|lia]. apply Hmax. exists root. split; [done|]. by apply (walk_downstream g rev).
Qed.

Section Plans.
Context `{PyRepr} (g : graph) (seed_raw seed_dataset : string) (maximum_depth : Z) (plan : list plan_item).
Context (Hplan : _build_plan g seed_raw seed_dataset maximum_depth = Some (Ok plan)).

(** The ranks the plan was made from. *)
Lemma plan_ranks : ∃ rev roots d ranks, _reverse_index g = Ok rev ∧ frontier_ok rev maximum_depth roots d (ranks, [])
  ∧ (∀ n r, planned plan n r ↔ afind n ranks = Some r)
  ∧ (λ it, (p_name it, p_rank it)) <$> plan = sort_by rank_leb ranks
  ∧ ∀ it, it ∈ plan → ∃ ups, _upstream_datasets g (p_name it) = Ok ups ∧ ∀ u, u ∈ p_upstreams it ↔ u ∈ ups.
Proof.
  destruct (reverse_index_spec g) as (rev & Hrev & _).
  destruct (build_plan_cases g seed_raw seed_dataset maximum_depth rev Hrev) as (x & Hx & Hc).
  rewrite Hplan in Hx. injection Hx as <-.
  destruct Hc as (roots & ? & d & ranks & _ & Hd & _ & Hok & Hmap & Hups).
  exists rev, roots, d, ranks. split_and!; try done. intros. by apply planned_iff; [apply Hok|].
Qed.

Lemma plan_names_unique : NoDup (p_name <$> plan) ∧ StronglySorted (λ a b, p_rank a <= p_rank b) plan.
Proof.
  destruct plan_ranks as (rev & roots & d & ranks & _ & Hok & _ & Hmap & _).
  assert (Hnames : p_name <$> plan = (sort_by rank_leb ranks).*1) by (rewrite <- Hmap, <- list_fmap_compose; done).
  split; [rewrite Hnames, sort_by_perm; apply Hok|].
  assert (Hs : StronglySorted (λ a b : string * Z, a.2 <= b.2) (sort_by rank_leb ranks)).
  { apply sort_by_sorted; [intros ???; lia|..]; intros [] []; unfold rank_leb; simpl; lia. }
  rewrite <- Hmap in Hs. clear -Hs. induction plan as [|a l IH]; [constructor|].
  rewrite fmap_cons in Hs. apply StronglySorted_inv in Hs as [Hl Ha]. constructor; [by apply IH|].
  apply (Forall_fmap (λ it, (p_name it, p_rank it)) (λ b, p_rank a <= b.2)) in Ha.
  eapply Forall_impl; [exact Ha|done].
Qed.

Lemma plan_readers_later a x :
  a ∈ plan → reads g (p_name a) x → ∃ b, b ∈ plan ∧ p_name b = x ∧ p_rank a < p_rank b.
Proof.
  destruct plan_ranks as (rev & roots & d & ranks & Hrev & Hok & Hpl & _). intros Ha Hy.
  assert (Hra : afind (p_name a) ranks = Some (p_rank a)) by (apply Hpl; by exists a).
  destruct (fo_closed _ _ _ _ _ Hok _ _ Hra) as [Hnil|Hcl]; [by apply elem_of_nil in Hnil|].
  destruct (Hcl x) as [(? & Hnil & _)|(r & Hr & Hle)];
    [by apply (edge_reads g rev Hrev)|by apply elem_of_nil in Hnil|].
  apply Hpl in Hr as (b & Hb & <- & <-). exists b. split_and!; [done..|lia].
Qed.

Lemma plan_upstreams_first a b : a ∈ plan → b ∈ plan → p_name b ∈ p_upstreams a → p_rank b < p_rank a.
Proof.
  destruct plan_ranks as (rev & roots & d & ranks & _ & _ & Hpl & _ & Hups). intros Ha Hb Hu.
  destruct (Hups a Ha) as (ups & Hua & Hiff).
  destruct (plan_readers_later b (p_name a) Hb) as (a' & Ha' & En & Hlt).
  { assert (Hin : p_name a ∈ g.*1).
    { unfold _upstream_datasets, lookup_info in Hua. destruct (afind (p_name a) g) as [i|] eqn:E; [|done].
      apply afind_elem in E. apply list_elem_of_fmap. by exists (p_name a, i). }
    apply list_elem_of_fmap in Hin as ([? i] & E & Hi). simpl in E. subst. exists i. split; [done|].
    right. exists ups. split; [done|]. by apply Hiff. }
  assert (planned plan (p_name a) (p_rank a) ∧ planned plan (p_name a) (p_rank a')) as [H1 H2].
  { split; [exists a|exists a']; done. }
  rewrite Hpl in H1, H2. rewrite H1 in H2. injection H2 as ->. done.
Qed.
End Plans.

(** C6: The order of the plan is safe to execute: names are distinct, items come
    in rank order, every dataset that reads a planned one is planned, and an
    item's upstream that is planned has a smaller rank, so it is refreshed
    before the item. *)
Theorem build_plan_order `{PyRepr} g seed_raw seed_dataset maximum_depth plan :
  _build_plan g seed_raw seed_dataset maximum_depth = Some (Ok plan) →
  NoDup (p_name <$> plan)
  ∧ StronglySorted (λ a b, p_rank a <= p_rank b) plan
  ∧ (∀ a x, a ∈ plan → reads g (p_name a) x → ∃ b, b ∈ plan ∧ p_name b = x ∧ p_rank a < p_rank b)
  ∧ (∀ a b, a ∈ plan → b ∈ plan → p_name b ∈ p_upstreams a → p_rank b < p_rank a).
Proof.
  intros Hplan. destruct (plan_names_unique _ _ _ _ _ Hplan). split_and!; [done..| |].
  - by apply (plan_readers_later g seed_raw seed_dataset maximum_depth).
  - by apply (plan_upstreams_first g seed_raw seed_dataset maximum_depth).
Qed.

Lemma reads_paths `{PyRepr} g rev root n :
  _reverse_index g = Ok rev →
  (rtc (edge rev) root n ↔ rtc (reads g) root n) ∧ (tc (edge rev) root n ↔ tc (reads g) root n).
Proof.
  intros Hrev. assert (H1 : ∀ x y, edge rev x y → reads g x y) by (intros; by apply (edge_reads g _ Hrev)).
  assert (H2 : ∀ x y, reads g x y → edge rev x y) by (intros; by apply (edge_reads g _ Hrev)).
  split; (split; intros Hp).
  - eapply rtc_congruence with (f := λ x, x), Hp; auto.
  - eapply rtc_congruence with (f := λ x, x), Hp; auto.
  - eapply tc_congruence with (f := λ x, x), Hp; auto.
  - eapply tc_congruence with (f := λ x, x), Hp; auto.
Qed.

(** A cycle among what a root feeds, and a chain longer than the plan may be. *)
Definition cycle_below `{PyRepr} (g : graph) (seed_raw seed_dataset : string) : Prop :=
  ∃ root x, is_root g seed_raw seed_dataset root ∧ rtc (reads g) root x ∧ tc (reads g) x x.
Definition too_deep `{PyRepr} (g : graph) (seed_raw seed_dataset : string) (maximum_depth : Z) : Prop :=
  ∃ root k n, is_root g seed_raw seed_dataset root ∧ nsteps (reads g) k root n
    ∧ maximum_depth < seed_depth seed_raw + Z.of_nat k.

Inductive planning `{PyRepr} (g : graph) (seed_raw seed_dataset : string) (maximum_depth : Z) : res (list plan_item) → Prop :=
  | planning_no_root e :
      (∀ n, ¬ is_root g seed_raw seed_dataset n) → seed_error e → planning g seed_raw seed_dataset maximum_depth (Raise e)
  | planning_cycle :
      cycle_below g seed_raw seed_dataset →
      planning g seed_raw seed_dataset maximum_depth (raise ValueError "dataset dependency cycle detected")
  | planning_too_deep :
      ¬ cycle_below g seed_raw seed_dataset → too_deep g seed_raw seed_dataset maximum_depth →
      planning g seed_raw seed_dataset maximum_depth (raise ValueError "dataset dependency plan exceeded max_depth")
  | planning_done plan :
      (∃ n, is_root g seed_raw seed_dataset n) → ¬ cycle_below g seed_raw seed_dataset →
      ¬ too_deep g seed_raw seed_dataset maximum_depth → planning g seed_raw seed_dataset maximum_depth (Ok plan).

(** C28: Planning always ends, for every graph, seed and bound, and the case
    decides what it gives: an error of the seed exactly when no dataset starts from
    it, the error of a cycle when one is downstream of a root, that of the depth when
    there is none but a chain of reads from a root is longer than the bound, and
    otherwise a plan.  (The recursion limit of Python, which a chain of about a
    thousand datasets reaches, is not modelled.) *)
Theorem build_plan_total `{PyRepr} g seed_raw seed_dataset maximum_depth :
  ∃ r, _build_plan g seed_raw seed_dataset maximum_depth = Some r ∧ planning g seed_raw seed_dataset maximum_depth r.
Proof.
  destruct (reverse_index_spec g) as (rev & Hrev & _).
  destruct (build_plan_cases g seed_raw seed_dataset maximum_depth rev Hrev) as (r & Hr & Hc).
  exists r. split; [done|]. clear Hc. pose proof (plan_roots_root g seed_raw seed_dataset rev Hrev) as Hroots.
  pose proof (plan_roots_spec g seed_raw seed_dataset maximum_depth rev Hrev) as Hok.
  unfold _build_plan in Hr. rewrite Hrev in Hr. destruct (plan_roots _ _ _ _) as [[[roots ranks0] d]|e];
    [|injection Hr as <-; destruct Hroots; by constructor].
  destruct Hroots as (Hne & -> & Hroots). destruct (Hok _ _ _ eq_refl) as (Hd & Hin & Hok'). clear Hok.
  assert (Hcyc : cycle_below g seed_raw seed_dataset ↔ ∃ root, root ∈ roots ∧ cycle_from rev root).
  { unfold cycle_below, cycle_from. split; [intros (root & x & H1 & H2 & H3)|intros (root & H1 & x & H2 & H3)];
      repeat (eexists || split); try (by apply Hroots); by apply (reads_paths g rev). }
  destruct (visit_roots_spec rev roots) as (v & Hv & Hvs). rewrite Hv in Hr. destruct v as [visited|e].
  2: { destruct Hvs as [-> Hvs]. injection Hr as <-. by apply planning_cycle, Hcyc. }
  assert (Hno : ¬ cycle_below g seed_raw seed_dataset) by (intros (root & Hin' & Hcy)%Hcyc; by destruct (Hvs root Hin')).
  destruct (while _ _ _) as [?|w] eqn:Hw; [done|].
  pose proof (frontier_outcome rev maximum_depth roots _ Hd _ _ _ Hok' ltac:(by destruct roots) Hw) as Hout.
  destruct w as [ranks|e].
  - destruct Hout as [Hfin Hle]. destruct (make_items g (sort_by rank_leb ranks)) as (plan & Hp & _).
    { intros n q. by apply (ranks_in_graph g maximum_depth rev Hrev roots (seed_depth seed_raw)). }
    rewrite Hp in Hr. injection Hr as <-. constructor; [|done|].
    + destruct roots as [|root roots]; [done|]. exists root. apply Hroots. by left.
    + intros (root & k & n & Hroot%Hroots & Hn%(walk_downstream g rev _ _ _ Hrev) & Hlt).
      destruct (settled_walk rev maximum_depth roots _ Hd ranks Hfin k root n Hroot Hn) as (q & Hq & Hqk).
      apply (fo_ranks _ _ _ _ _ Hfin) in Hq as [_ Hq]. lia.
  - destruct Hout as [-> (n & dn & (root & k & Hroot & Hn & ->) & Hlt)]. injection Hr as <-. apply planning_too_deep; [done|].
    exists root, k, n. split; [by apply Hroots|]. split; [by apply (walk_downstream g rev)|done].
Qed.

(** An admitted chain stays in its scope: the graph was loaded for the
    configuration's non-empty tenant and workspace, every planned dataset
    belongs to the one cartridge of the chain, which is the requested one when
    one is requested, and no rank exceeds 50. *)
Theorem resolve_chain_scope `{PyRepr} load_graph conf plan c :
  resolve_chain load_graph conf = Some (Ok (plan, c)) →
  ∃ tenant workspace g, _required_scope conf = Ok (tenant, workspace)
    ∧ tenant ≠ "" ∧ workspace ≠ "" ∧ load_graph tenant workspace = Ok g ∧ c ≠ ""
    ∧ (let requested := strip (str_or_empty (get "cartridge_id" conf)) in requested = "" ∨ requested = c)
    ∧ ∀ it, it ∈ plan → p_cartridge it = c ∧ p_rank it <= 50.
Proof.
  unfold resolve_chain. intros Hres.
  destruct (_required_scope conf) as [[tenant workspace]|e] eqn:Es; [|done].
  assert (Ht : tenant ≠ "" ∧ workspace ≠ "").
  { unfold _required_scope in Es. destruct (_ || _) eqn:E; [done|]. boolify. by injection Es as <- <-. }
  cbn [mbind res_bind fst snd] in Hres.
  set (sr := strip (str_or_empty (get "seed_raw" conf))) in *.
  set (sd := strip (str_or_empty (get "seed_dataset" conf))) in *.
  destruct (bool_decide _ && bool_decide _); [done|].
  destruct (load_graph tenant workspace) as [g|] eqn:El; [|done]. cbn [mbind res_bind] in Hres.
  destruct (_resolve_cartridge conf g sr sd) as [c'|] eqn:Ec; [|done]. cbn [mbind res_bind] in Hres.
  destruct (py_int _) as [depth|]; [|done]. cbn [mbind res_bind] in Hres.
  destruct (reverse_index_spec g) as (rev & Hrev & _).
  destruct (build_plan_cases g sr sd (Z.max 1 (Z.min depth 50)) rev Hrev) as (r & Hr & Hc).
  rewrite Hr in Hres. destruct r as [plan'|]; [|done]. simpl in Hres.
  destruct (_validate_plan plan' c') as [[]|] eqn:Ev; [|done]. injection Hres as -> ->.
  exists tenant, workspace, g. split_and!; try done; try apply Ht.
  - unfold _resolve_cartridge in Ec. cbv zeta in Ec. step_in Ec. step_in Ec.
    injection Ec as <-. by apply nonempty_true.
  - unfold _resolve_cartridge in Ec. cbv zeta in Ec. simpl.
    destruct (nonempty (strip (str_or_empty (get "cartridge_id" conf)))) eqn:En.
    + right. simpl in Ec. step_in Ec. rewrite En in Ec. by injection Ec as <-.
    + left. clear -En. unfold nonempty in En. by boolify.
  - intros it Hit. split.
    + unfold _validate_plan in Ev. destruct (existsb _ plan) eqn:E; [done|].
      rewrite existsb_false_elem in E. specialize (E it Hit). by boolify.
    + destruct Hc as (roots & ranks0 & d & ranks & Hroots & Hd & _ & Hok & Hmap & _).
      assert (Hn : afind (p_name it) ranks = Some (p_rank it)).
      { apply (planned_iff plan); [apply Hok|done|]. by exists it. }
      destruct (fo_ranks _ _ _ _ _ Hok _ _ Hn) as [_ Hle].
      assert (d <= 1); [|lia]. unfold plan_roots in Hroots. repeat case_match; simplify_eq; lia.
Qed.

(** A graph of four datasets: [clean] reads a raw entity, [joined] reads it and
    [dim], and [report] reads [joined] by its gold name and [clean]. *)
Definition small_graph : graph :=
  [("clean", Info "silver" "crm" [PStr "raw/crm/accounts"] true []);
   ("dim", Info "silver" "crm" [PStr "raw/crm/regions"] false ["raw/crm/regions"]);
   ("joined", Info "gold" "crm" [PStr "silver_clean"; PStr "dim"] true []);
   ("report", Info "gold" "crm" [PStr "gold/crm/joined"; PStr "clean"] true [])].
Definition small_plan : list plan_item :=
  match @_build_plan some_repr small_graph "raw/crm/accounts" "" 10 with Some (Ok p) => p | _ => [] end.

Example small_plan_ranks :
  (λ it, (p_name it, p_rank it, p_never_materialized_upstreams it)) <$> small_plan
  = [("clean", 1, []); ("joined", 2, ["dim"]); ("report", 3, [])].
Proof. vm_compute. reflexivity. Qed.

Definition small_rev : list (string * list string) :=
  match @_reverse_index some_repr small_graph with Ok r => r | _ => [] end.

Lemma build_plan_ranks_witness :
  planned small_plan "report" 3 ∧
  ∃ k, 3 = 1 + Z.of_nat k ∧ @downstream_by some_repr small_graph ["clean"] k "report"
    ∧ ∀ k', @downstream_by some_repr small_graph ["clean"] k' "report" → (k' ≤ k)%nat.
Proof.
  assert (Hp : planned small_plan "report" 3).
  { exists (Item "report" "gold" "crm" 3 ["clean"; "joined"] true []).
    split; [decide_now|done]. }
  split; [done|].
  apply (@build_plan_ranks some_repr small_graph "raw/crm/accounts" "" 10 small_rev ["clean"] [] 1 small_plan);
    [vm_compute; reflexivity..|exact Hp].
Defined.

Lemma build_plan_order_witness : NoDup (p_name <$> small_plan).
Proof.
  refine (proj1 (@build_plan_order some_repr small_graph "raw/crm/accounts" "" 10 small_plan _)).
  vm_compute. reflexivity.
Defined.

(** Two datasets that read each other. *)
Definition cyclic_graph : graph :=
  [("a", Info "silver" "crm" [PStr "b"; PStr "raw/crm/x"] true []);
   ("b", Info "silver" "crm" [PStr "a"] true [])].

Lemma build_plan_total_witness : @cycle_below some_repr cyclic_graph "raw/crm/x" "".
Proof.
  destruct (@build_plan_total some_repr cyclic_graph "raw/crm/x" "" 10) as (r & Hr & Hp).
  vm_compute in Hr. injection Hr as <-. inversion Hp as [e _ Hs|Hc| |]; [|exact Hc].
  by destruct Hs as [E|[E|E]].
Defined.

Definition small_conf : pydict :=
  mkdict [("tenant_id", PStr "t"); ("workspace_id", PStr "w"); ("seed_dataset", PStr "clean")].

Lemma resolve_chain_scope_witness :
  ∃ plan c, @resolve_chain some_repr (λ _ _, Ok small_graph) small_conf = Some (Ok (plan, c)) ∧ c ≠ "".
Proof.
  destruct (@resolve_chain some_repr (λ _ _, Ok small_graph) small_conf) as [[[plan c]|]|] eqn:E;
    [|vm_compute in E; discriminate..].
  exists plan, c. split; [done|].
  by destruct (@resolve_chain_scope some_repr (λ _ _, Ok small_graph) small_conf plan c E)
    as (? & ? & ? & _ & _ & _ & _ & Hc & _).
Defined.
