(* ===== verification/RefreshOutcome.v ===== *)
(** Outcomes of a dataset refresh (airflow/dags/dataset_refresh_outcome.py):
    the checks a materialization, registry or intelligence response must pass,
    the class of each result, and the status of the whole invocation.

    The payloads are the untyped JSON values the service returns, so every check
    is the code's own test on a dynamic value. *)
From S2P Require Import Prelude PyStr PyVal.

Open Scope Z_scope.

Definition RESULT_OK : string := "ok".
Definition RESULT_DEGRADED : string := "degraded".
Definition RESULT_SKIPPED : string := "skipped".
Definition RESULT_FAILED : string := "failed".
Definition RESULT_CLASSES : list string := [RESULT_OK; RESULT_DEGRADED; RESULT_SKIPPED; RESULT_FAILED].
Definition _MISSING_SOURCE_ERROR_CODES : list string := ["source_files_missing"; "dependency_not_materialized"].
Definition _OUTDATED_DEPENDENCY_CODE : string := "dependency_not_materialized".
Definition _FALLBACK_REASON : string := "missing_materialized_dependency".
Definition _OUTCOME_KEYS : list string := ["name"; "layer"; "row_count"].
Definition _STATUS_KEYS : list string := (_OUTCOME_KEYS ++ ["status"; "degraded"])%list.
Definition PUBLISHED_CLASSES : list string := [RESULT_OK; RESULT_DEGRADED].

(** The attributes the code reads of an exception ([None] when absent). *)
Record exc_object := Exc { e_status_code : pyval; e_result : pyval }.

(** A response: its [status_code] (0 when absent) and what [json()] gives. *)
Record response := Response { r_status_code : pyval; r_json : res pyval }.

Definition outcome_unavailable {A} : res A := raise RuntimeError "materialization outcome unavailable".
Definition dependency_unavailable {A} : res A := raise RuntimeError "operational dependency unavailable".
Definition registry_unavailable {A} : res A := raise RuntimeError "pipeline run registry unavailable".
Definition trigger_unavailable {A} : res A := raise RuntimeError "Gold intelligence trigger unavailable".

(** A value that is an [int] and not a [bool]. *)
Definition plain_int (v : pyval) : option Z := match v with PInt z => Some z | _ => None end.

Section Outcome.
Context `{PyRepr}.

Definition missing_source_error_code (exc : exc_object) : option string :=
  if negb (py_eq (e_status_code exc) (PInt 409)) then None
  else
    let detail := match e_result exc with PDict d => get "detail" d | _ => PNone end in
    let code := match detail with PDict d => str_or_empty (get "code" d) | _ => "" end in
    if mem code _MISSING_SOURCE_ERROR_CODES then Some code else None.

Definition outdated_dependency (exc : exc_object) : option string :=
  if bool_decide (missing_source_error_code exc ≠ Some _OUTDATED_DEPENDENCY_CODE) then None
  else
    match e_result exc with
    | PDict d =>
        match get "detail" d with
        | PDict detail =>
            match get "dependency" detail with
            | PStr dependency => if nonempty (strip dependency) then Some dependency else None
            | _ => None
            end
        | _ => None
        end
    | _ => None
    end.

Definition _row_count (payload : pydict) : res Z :=
  match plain_int (get "row_count" payload) with
  | Some n => if n <? 0 then outcome_unavailable else Ok n
  | None => outcome_unavailable
  end.

Definition _checked (payload : pyval) : res pydict :=
  match payload with
  | PDict d =>
      if truthy (get "error" d) then dependency_unavailable
      else if has_key "ok" d && negb (is_true (get "ok" d)) then dependency_unavailable
      else Ok d
  | _ => dependency_unavailable
  end.

Definition _payload (r : response) : res pydict :=
  code ← py_int (r_status_code r);
  if negb ((200 <=? code) && (code <? 300)) then dependency_unavailable
  else
    match r_json r with
    | Ok payload => _checked payload
    | Raise _ => dependency_unavailable
    end.

Definition require_successful_materialization_payload (payload : pyval) (expected_name : string)
    : res pydict :=
  payload ← _checked payload;
  if negb (keys_are _OUTCOME_KEYS payload) then outcome_unavailable
  else if negb (bool_decide (str_or_empty (get "name" payload) = expected_name)) then outcome_unavailable
  else
    known ← in_str_set (get "layer" payload) ["silver"; "gold"];
    if negb known then outcome_unavailable
    else _ ← _row_count payload; Ok payload.

Definition require_successful_materialization_response (r : response) (expected_name : string)
    : res pydict :=
  payload ← _payload r; require_successful_materialization_payload (PDict payload) expected_name.

Definition _fallback_payload (payload : pydict) (expected_name : string) : res (string * pydict) :=
  if negb (bool_decide (str_or_empty (get "fallback_reason" payload) = _FALLBACK_REASON))
  then outcome_unavailable
  else if negb (bool_decide (str_or_empty (get "name" payload) = expected_name))
  then outcome_unavailable
  else
    known ← in_str_set (get "layer" payload) ["silver"; "gold"];
    if negb known then outcome_unavailable
    else
      match get "degraded" payload with
      | PBool degraded =>
          row_count ← _row_count payload;
          let classification :=
            if negb degraded && (0 <? row_count) then RESULT_OK else RESULT_DEGRADED in
          Ok (classification,
              mkdict [("name", PStr expected_name); ("layer", get "layer" payload);
                      ("row_count", PInt row_count)])
      | _ => outcome_unavailable
      end.

(** The three outcome keys of the payload, as a dict of its own. *)
Definition outcome_part (payload : pydict) : pydict :=
  mkdict ((λ k, (k, get k payload)) <$> _OUTCOME_KEYS).

Definition _status_payload (payload : pydict) (expected_name : string) : res (string * pydict) :=
  if negb (keys_are _STATUS_KEYS payload) then outcome_unavailable
  else
    match get "degraded" payload, get "status" payload with
    | PBool degraded, PStr status =>
        if negb (nonempty (strip status)) then outcome_unavailable
        else
          outcome ← require_successful_materialization_payload
                      (PDict (outcome_part payload)) expected_name;
          Ok (if degraded then RESULT_DEGRADED else RESULT_OK, outcome)
    | _, _ => outcome_unavailable
    end.

Definition classify_materialization_payload (payload : pyval) (expected_name : string)
    : res (string * pydict) :=
  checked ← _checked payload;
  if is_true (get "fallback" checked) then _fallback_payload checked expected_name
  else if has_key "degraded" checked then _status_payload checked expected_name
  else
    outcome ← require_successful_materialization_payload (PDict checked) expected_name;
    Ok (RESULT_OK, outcome).

Definition require_successful_registry_response (r : response) (expected_status : string)
    : res pydict :=
  payload ← _payload r;
  match get "result" payload with
  | PDict result =>
      if negb (is_true (get "saved" result)) then registry_unavailable
      else if negb (bool_decide (lower (str_or_empty (get "status" result)) = expected_status))
      then registry_unavailable
      else Ok result
  | _ => registry_unavailable
  end.

Definition require_successful_intelligence_response (r : response) : res pydict :=
  payload ← _payload r;
  if negb (is_true (get "ok" payload)) || negb (eq_str (get "status" payload) "completed")
  then trigger_unavailable
  else
    match plain_int (get "signals" payload) with
    | Some n => if n <=? 0 then trigger_unavailable else Ok payload
    | None => trigger_unavailable
    end.

Definition result_classification (item : pydict) : option string :=
  match get "ok" item with
  | PBool ok =>
      match get "classification" item with
      | PNone => Some (if ok then RESULT_OK else RESULT_FAILED)
      | PStr c =>
          if negb (mem c RESULT_CLASSES) then None
          else if negb (Bool.eqb (mem c PUBLISHED_CLASSES) ok) then None
          else Some c
      | _ => None
      end
  | _ => None
  end.

(** [counts], the four classes in order. *)
Record counts := Counts { n_ok : Z; n_degraded : Z; n_skipped : Z; n_failed : Z }.

Definition count_of (c : counts) (classification : string) : Z :=
  if decide (classification = RESULT_OK) then n_ok c
  else if decide (classification = RESULT_DEGRADED) then n_degraded c
  else if decide (classification = RESULT_SKIPPED) then n_skipped c
  else if decide (classification = RESULT_FAILED) then n_failed c else 0.

(** [counts[classification] += 1]. *)
Definition incr (c : counts) (classification : string) : counts :=
  let b k := Z.b2z (bool_decide (classification = k)) in
  Counts (n_ok c + b RESULT_OK) (n_degraded c + b RESULT_DEGRADED)
    (n_skipped c + b RESULT_SKIPPED) (n_failed c + b RESULT_FAILED).

Definition counts_dict (c : counts) : pydict :=
  mkdict [(RESULT_OK, PInt (n_ok c)); (RESULT_DEGRADED, PInt (n_degraded c));
          (RESULT_SKIPPED, PInt (n_skipped c)); (RESULT_FAILED, PInt (n_failed c))].

(** The loop over the results; [None] is its early return. *)
Fixpoint count_results (c : counts) (results : list pyval) : option counts :=
  match results with
  | [] => Some c
  | PDict item :: results =>
      if negb (nonempty (strip (str_or_empty (get "name" item)))) then None
      else
        match result_classification item with
        | None => None
        | Some k => count_results (incr c k) results
        end
  | _ :: _ => None
  end.

(** [breakdown] is absent, or a dict of plain integers equal to the counts. *)
Definition declared_ok (declared : pyval) (c : counts) : bool :=
  match declared with
  | PNone => true
  | PDict d =>
      forallb (λ v, bool_decide (is_Some (plain_int v))) (dvalues d) &&
      py_eq (PDict d) (PDict (counts_dict c))
  | _ => false
  end.

Definition _classified_counts (invocation : pyval) : option (counts * Z) :=
  match invocation with
  | PDict d =>
      if has_key "error" d then None
      else
        match get "results" d, plain_int (get "materialized" d) with
        | PList results, Some completed =>
            if completed <? 0 then None
            else
              match count_results (Counts 0 0 0 0) results with
              | None => None
              | Some c =>
                  if negb (completed =? n_ok c + n_degraded c) then None
                  else if negb (declared_ok (get "breakdown" d) c) then None
                  else Some (c, Z.of_nat (length results))
              end
        | _, _ => None
        end
  | _ => None
  end.

Definition materialization_breakdown (invocation : pyval) : option counts :=
  fst <$> _classified_counts invocation.

Definition materialization_status (invocation : pyval) (task_state : string) : string :=
  if negb (bool_decide (task_state = "success")) then "failed"
  else
    match _classified_counts invocation with
    | None => "failed"
    | Some (c, total) =>
        let reported := match invocation with PDict d => get "status" d | _ => PNone end in
        if eq_str reported "no_downstream_datasets" then if total =? 0 then "noop" else "failed"
        else if negb (eq_str reported "completed") || (total =? 0) then "failed"
        else
          let published := n_ok c + n_degraded c in
          if negb (n_failed c =? 0) then if negb (published =? 0) then "partial" else "failed"
          else if (n_ok c =? 0) && negb (n_skipped c =? 0) then "blocked"
          else if negb (n_skipped c =? 0) || negb (n_degraded c =? 0) then "partial"
          else "success"
    end.
End Outcome.

(** ** Counting *)
Section Facts.
Context `{PyRepr}.

(** A result that counts: named, and of a class. *)
Definition result_of (v : pyval) (k : string) : Prop :=
  ∃ item, v = PDict item ∧ strip (str_or_empty (get "name" item)) ≠ "" ∧ result_classification item = Some k.

Definition total_of (k : string) (ks : list string) : Z := Z.of_nat (length (filter (λ x, x = k) ks)).

Lemma degraded_not_ok : RESULT_DEGRADED ≠ RESULT_OK.
Proof. discriminate. Qed.

Lemma classification_class item k : result_classification item = Some k → k ∈ RESULT_CLASSES.
Proof.
  unfold result_classification. destruct (get "ok" item) as [|ok| | | | |]; try done.
  destruct (get "classification" item) as [| | | |c| |]; try done.
  - intros [= <-]. destruct ok; decide_now.
  - destruct (mem c RESULT_CLASSES) eqn:E; [|done]. simpl. destruct (negb _); [done|].
    intros [= <-]. by apply mem_true in E.
Qed.

Lemma count_results_spec c l c' :
  count_results c l = Some c' ↔ ∃ ks, Forall2 result_of l ks ∧ c' = foldl incr c ks.
Proof.
  revert c; induction l as [|v l IH]; intros c; simpl.
  - split; [intros [= <-]; by exists []|]. intros (ks & Hks & ->). by inversion Hks.
  - split.
    + destruct v as [| | | | | |item]; try done. destruct (nonempty _) eqn:En; simpl; [|done].
      destruct (result_classification item) as [k|] eqn:Ek; [|done]. rewrite IH.
      intros (ks & Hks & ->). exists (k :: ks). split; [|done]. constructor; [|done].
      exists item. apply nonempty_true in En. done.
    + intros (ks & Hks & ->). inversion Hks as [|? k ? ks' (item & -> & Hn & Hk) Hks']; subst.
      apply nonempty_true in Hn. rewrite Hn, Hk. simpl. apply IH. eauto.
Qed.

Lemma foldl_incr c ks :
  Forall (λ k, k ∈ RESULT_CLASSES) ks →
  n_ok (foldl incr c ks) = n_ok c + total_of RESULT_OK ks
  ∧ n_degraded (foldl incr c ks) = n_degraded c + total_of RESULT_DEGRADED ks
  ∧ n_skipped (foldl incr c ks) = n_skipped c + total_of RESULT_SKIPPED ks
  ∧ n_failed (foldl incr c ks) = n_failed c + total_of RESULT_FAILED ks
  ∧ total_of RESULT_OK ks + total_of RESULT_DEGRADED ks + total_of RESULT_SKIPPED ks
    + total_of RESULT_FAILED ks = Z.of_nat (length ks).
Proof.
  intros Hks. revert c; induction Hks as [|k ks Hk _ IH]; intros c.
  { simpl. unfold total_of. simpl. lia. }
  destruct (IH (incr c k)) as (E1 & E2 & E3 & E4 & E5). cbn [foldl length].
  rewrite E1, E2, E3, E4. unfold total_of. rewrite !filter_cons.
  unfold total_of in E5. unfold RESULT_CLASSES in Hk. rewrite !elem_of_cons in Hk.
  destruct Hk as [->|[->|[->|[->|Hk]]]]; [..|by apply elem_of_nil in Hk];
    vm_compute (decide _); cbn [length]; unfold incr; cbn [n_ok n_degraded n_skipped n_failed];
    repeat match goal with |- context [bool_decide ?P] =>
      let b := eval vm_compute in (bool_decide P) in change (bool_decide P) with b end;
    cbn [Z.b2z]; lia.
Qed.

(** The classified results of an invocation the code accepts. *)
Lemma classified_counts_spec d c total :
  _classified_counts (PDict d) = Some (c, total) ↔
  dget "error" d = None ∧ ∃ results ks,
    get "results" d = PList results ∧ Forall2 result_of results ks
    ∧ c = foldl incr (Counts 0 0 0 0) ks ∧ total = Z.of_nat (length ks)
    ∧ get "materialized" d = PInt (n_ok c + n_degraded c)
    ∧ declared_ok (get "breakdown" d) c = true.
Proof.
  unfold _classified_counts.
  assert (He : has_key "error" d = false ↔ dget "error" d = None).
  { unfold has_key. rewrite bool_decide_eq_false. symmetry. apply eq_None_not_Some. }
  destruct (has_key "error" d); [split; [done|]; intros [E _]; apply He in E; done|].
  split.
  - intros Hc. split; [by apply He|]. revert Hc.
    destruct (get "results" d) as [| | | | |results|] eqn:Er; try done.
    destruct (get "materialized" d) as [| |m| | | |] eqn:Em; try done. cbn [plain_int].
    destruct (m <? 0); [done|].
    destruct (count_results _ results) as [c'|] eqn:Ec; [|done].
    destruct (m =? _) eqn:Ez; [|done]. simpl. apply Z.eqb_eq in Ez.
    destruct (declared_ok _ c') eqn:Ed; [|done]. intros [= <- <-].
    apply count_results_spec in Ec as (ks & Hks & Hc'). exists results, ks.
    split_and!; try done; [by rewrite (Forall2_length _ _ _ Hks)|by rewrite Ez].
  - intros (_ & results & ks & -> & Hks & Hc & -> & Em & Ed). rewrite Em. cbn [plain_int].
    assert (Hcl : Forall (λ k, k ∈ RESULT_CLASSES) ks).
    { clear -Hks. induction Hks as [|? k ? ? (item & _ & _ & Hk)]; constructor; [|done].
      by eapply classification_class. }
    destruct (foldl_incr (Counts 0 0 0 0) ks Hcl) as (E1 & E2 & _). rewrite <- Hc in E1, E2.
    cbn in E1, E2. assert (Hge : n_ok c + n_degraded c <? 0 = false) by (unfold total_of in *; lia).
    rewrite Hge, (proj2 (count_results_spec _ _ _) (ex_intro _ ks (conj Hks Hc))).
    rewrite Z.eqb_refl, Ed. simpl. by rewrite (Forall2_length _ _ _ Hks).
Qed.

Lemma result_classes l ks : Forall2 result_of l ks → Forall (λ k, k ∈ RESULT_CLASSES) ks.
Proof.
  induction 1 as [|? k ? ? (item & _ & _ & Hk)]; constructor; [|done]. by eapply classification_class.
Qed.

(** *** What the checks let through *)

Lemma checked_ok payload d :
  _checked payload = Ok d → payload = PDict d ∧ truthy (get "error" d) = false.
Proof.
  destruct payload as [| | | | | |d']; try done. unfold _checked.
  destruct (truthy (get "error" d')) eqn:E; [done|]. case_match; [done|]. by intros [= ->].
Qed.

Lemma row_count_ok p n : _row_count p = Ok n → get "row_count" p = PInt n ∧ 0 <= n.
Proof.
  unfold _row_count. destruct (get "row_count" p); try done. simpl.
  destruct (z <? 0) eqn:Ez; [done|]. intros [= ->]. split; [done|lia].
Qed.

Lemma layer_ok v : in_str_set v ["silver"; "gold"] = Ok true → v = PStr "silver" ∨ v = PStr "gold".
Proof. unfold in_str_set. destruct v; try done. intros [= H0]. apply mem_true in H0. set_solver. Qed.

Lemma required_ok p name o :
  require_successful_materialization_payload (PDict p) name = Ok o →
  o = p ∧ keys_are _OUTCOME_KEYS p = true ∧ str_or_empty (get "name" o) = name
  ∧ (get "layer" o = PStr "silver" ∨ get "layer" o = PStr "gold")
  ∧ ∃ n, get "row_count" o = PInt n ∧ 0 <= n.
Proof.
  unfold require_successful_materialization_payload. rewrite bind_ok.
  intros (q & Hq & Ho). apply checked_ok in Hq as [[= <-] _].
  destruct (keys_are _ p) eqn:Ek; [|done]. simpl in Ho.
  case_bool_decide as En; [|done]. simpl in Ho. apply bind_ok in Ho as ([] & Hb & Ho); [|done].
  apply bind_ok in Ho as (n & Hn & [= <-]). apply row_count_ok in Hn. apply layer_ok in Hb. eauto 8.
Qed.

(** ** Properties *)

(** Every class is [RESULT_OK] exactly when they all count as it. *)
Lemma total_all ks : total_of RESULT_OK ks = Z.of_nat (length ks) ↔ Forall (λ k, k = RESULT_OK) ks.
Proof.
  unfold total_of. rewrite Nat2Z.inj_iff. induction ks as [|k ks IH]; [done|]. rewrite filter_cons, Forall_cons.
  pose proof (length_filter (λ x, x = RESULT_OK) ks). case_decide; simpl; [split; [intros; split; [done|]; apply IH; lia|intros [_ ?%IH]; lia]|].
  split; [lia|by intros [? _]].
Qed.

Lemma results_all_ok results :
  (∀ v, v ∈ results → result_of v RESULT_OK) ↔ Forall2 result_of results (repeat RESULT_OK (length results)).
Proof.
  rewrite <- Forall_forall. induction results as [|v l IH]; simpl; [done|]. rewrite Forall_cons, IH. split.
  - intros [Hv Hl]. by constructor.
  - intros Hall. by inversion Hall.
Qed.

(** An invocation is a success exactly when its task succeeded and its
    report is complete and clean: no error, status "completed", at least one
    result, each one named and classified ok, and a count and a breakdown that
    agree with the results. *)
Theorem materialization_success_iff d task_state :
  materialization_status (PDict d) task_state = "success" ↔
  task_state = "success" ∧ dget "error" d = None ∧ get "status" d = PStr "completed" ∧
  ∃ results, get "results" d = PList results ∧ results ≠ []
    ∧ (∀ v, v ∈ results → result_of v RESULT_OK)
    ∧ get "materialized" d = PInt (Z.of_nat (length results))
    ∧ declared_ok (get "breakdown" d) (Counts (Z.of_nat (length results)) 0 0 0) = true.
Proof.
  unfold materialization_status. split.
  - case_bool_decide as Ht; cbn [negb]; [|done].
    destruct (_classified_counts (PDict d)) as [[c total]|] eqn:Ec; [|done].
    apply classified_counts_spec in Ec as (He & results & ks & Er & Hks & Hc & -> & Em & Ed).
    destruct (eq_str _ "no_downstream_datasets"); [by case_match|].
    destruct (eq_str _ "completed") eqn:Es; [|done]. simpl.
    destruct (_ =? 0) eqn:El; [done|].
    destruct (n_failed c =? 0) eqn:Ef; simpl; [|by case_match].
    destruct ((n_ok c =? 0) && _) eqn:Eb; [done|].
    destruct (n_skipped c =? 0) eqn:Esk; [|done]. destruct (n_degraded c =? 0) eqn:Edg; [|done]. intros _.
    destruct (foldl_incr (Counts 0 0 0 0) ks (result_classes _ _ Hks)) as (E1 & E2 & E3 & E4 & E5).
    rewrite <- Hc in E1, E2, E3, E4. cbn in E1, E2, E3, E4.
    assert (Hok : total_of RESULT_OK ks = Z.of_nat (length ks)) by lia.
    assert (Hlen : length results = length ks) by by eapply Forall2_length.
    assert (Hst : get "status" d = PStr "completed").
    { destruct (get "status" d); try done. simpl in Es. by apply bool_decide_eq_true in Es as ->. }
    split_and!; try done. exists results. split_and!; try done.
    + intros ->. destruct ks; done.
    + apply results_all_ok. rewrite Hlen, <- (Forall_eq_repeat (x := RESULT_OK) (l := ks)); [exact Hks|].
      eapply Forall_impl; [exact (proj1 (total_all ks) Hok)|by intros k ->].
    + rewrite Em, Hlen. f_equal. lia.
    + rewrite Hlen. replace (Counts _ 0 0 0) with c; [done|]. destruct c; simpl in *. f_equal; lia.
  - intros (-> & He & Hs & results & Er & Hne & Hall%results_all_ok & Em & Ed).
    rewrite bool_decide_eq_true_2 by done. cbn [negb]. revert Hall. set (ks := repeat _ _). intros Hks.
    destruct (foldl_incr (Counts 0 0 0 0) ks (result_classes _ _ Hks)) as (E1 & E2 & E3 & E4 & E5).
    assert (Hlen : length ks = length results) by apply repeat_length.
    assert (Hok : total_of RESULT_OK ks = Z.of_nat (length ks)).
    { apply total_all, Forall_forall. intros k Hk. by eapply repeat_spec, list_elem_of_In. }
    assert (Hc : foldl incr (Counts 0 0 0 0) ks = Counts (Z.of_nat (length results)) 0 0 0).
    { destruct (foldl incr _ ks); unfold total_of in *; cbn in *. f_equal; lia. }
    rewrite (proj2 (classified_counts_spec d (Counts (Z.of_nat (length results)) 0 0 0) (Z.of_nat (length results)))).
    + rewrite Hs. simpl. destruct results; done.
    + split; [done|]. exists results, ks. rewrite Hlen. split_and!; try done. rewrite Em. simpl. f_equal. lia.
Qed.

(** The outcome of a payload that is published. *)
Lemma classify_outcome payload name cls out :
  classify_materialization_payload payload name = Ok (cls, out) →
  (cls = RESULT_OK ∨ cls = RESULT_DEGRADED)
  ∧ str_or_empty (get "name" out) = name
  ∧ (get "layer" out = PStr "silver" ∨ get "layer" out = PStr "gold")
  ∧ ∃ n, get "row_count" out = PInt n ∧ 0 <= n.
Proof.
  unfold classify_materialization_payload. rewrite bind_ok. intros (d & Hd & Hc).
  destruct (is_true (get "fallback" d)) eqn:Ef; [|destruct (has_key "degraded" d) eqn:Eg].
  - unfold _fallback_payload in Hc. case_bool_decide; [|done]. simpl in Hc.
    case_bool_decide; [|done]. simpl in Hc. apply bind_ok in Hc as (b & Hb & Hc).
    destruct b; [|done]. simpl in Hc. destruct (get "degraded" d) as [|dg| | | | |]; try done.
    apply bind_ok in Hc as (n & [Hn Hge]%row_count_ok & [= <- <-]).
    split_and!; [destruct (_ && _); auto|..|exists n; split; [|done]]; unfold mkdict; simpl; dsimpl; try done.
    + apply str_or_empty_str.
    + by apply layer_ok.
  - unfold _status_payload in Hc. destruct (keys_are _ d); [|done]. simpl in Hc.
    destruct (get "degraded" d) as [|dg| | | | |]; try done.
    destruct (get "status" d) as [| | | |st| |]; try done. destruct (nonempty _); [|done]. simpl in Hc.
    apply bind_ok in Hc as (o & Ho & [= <- <-]). apply required_ok in Ho as (_ & _ & Hn & Hl & Hr).
    split; [destruct dg; auto|done].
  - apply bind_ok in Hc as (o & Ho & [= <- <-]). apply required_ok in Ho as (_ & _ & Hn & Hl & Hr). auto.
Qed.

(** A payload is classified only as published, ok or degraded, and only when
    it reports the expected dataset, a silver or gold layer and a row count that
    is a non-negative integer; ok is never given to a payload that says it is
    degraded, nor to a fallback without rows. *)
Theorem classify_published payload name cls out :
  classify_materialization_payload payload name = Ok (cls, out) →
  (cls = RESULT_OK ∨ cls = RESULT_DEGRADED)
  ∧ str_or_empty (get "name" out) = name
  ∧ (get "layer" out = PStr "silver" ∨ get "layer" out = PStr "gold")
  ∧ (∃ n, get "row_count" out = PInt n ∧ 0 <= n
      ∧ ∃ d, payload = PDict d ∧ truthy (get "error" d) = false ∧
          (cls = RESULT_OK → get "degraded" d ≠ PBool true
             ∧ (get "fallback" d = PBool true → 0 < n))).
Proof.
  intros Hok. destruct (classify_outcome _ _ _ _ Hok) as (Hcls & Hname & Hlayer & n & Hn & Hge). split_and!; try done.
  exists n. split_and!; try done. revert Hok. unfold classify_materialization_payload. rewrite bind_ok. intros (d & Hd & Hc).
  apply checked_ok in Hd as [-> Herr]. exists d. split_and!; try done. intros ->.
  destruct (is_true (get "fallback" d)) eqn:Ef.
  - unfold _fallback_payload in Hc. case_bool_decide; [|done]. simpl in Hc.
    case_bool_decide; [|done]. simpl in Hc. apply bind_ok in Hc as (b & _ & Hc).
    destruct b; [|done]. simpl in Hc. destruct (get "degraded" d) as [|dg| | | | |] eqn:Edg; try done.
    apply bind_ok in Hc as (m & _ & [= Hcls' <-]). unfold mkdict in Hn. simpl in Hn. rewrite get_dset_eq in Hn. injection Hn as ->.
    destruct dg; [by destruct degraded_not_ok|]. split; [done|]. intros _. simpl in Hcls'.
    destruct (0 <? n) eqn:En; [lia|by destruct degraded_not_ok].
  - split; [|intros Hfb; by rewrite Hfb in Ef]. intros Hdg.
    assert (Eg : has_key "degraded" d = true).
    { unfold has_key, get in *. destruct (dget "degraded" d); [done|discriminate Hdg]. }
    rewrite Eg in Hc. unfold _status_payload in Hc. destruct (keys_are _ d); [|done]. simpl in Hc. rewrite Hdg in Hc.
    destruct (get "status" d) as [| | | |st| |]; try done. destruct (nonempty _); [|done]. simpl in Hc.
    apply bind_ok in Hc as (o & _ & [= Hcls' _]).
Qed.
End Facts.

(** Two published results, one of them degraded by name, and their report. *)
Definition ok_item : pyval := PDict (mkdict [("name", PStr "clean"); ("ok", PBool true)]).
Definition clean_report : pydict :=
  mkdict [("status", PStr "completed"); ("materialized", PInt 2); ("results", PList [ok_item; ok_item])].

Example degraded_is_partial :
  @materialization_status some_repr (PDict (mkdict
    [("status", PStr "completed"); ("materialized", PInt 2);
     ("results", PList [ok_item; PDict (mkdict [("name", PStr "dim"); ("ok", PBool true);
        ("classification", PStr "degraded")])])])) "success" = "partial".
Proof. vm_compute. reflexivity. Qed.

Definition plain_payload : pyval :=
  PDict (mkdict [("name", PStr "clean"); ("layer", PStr "silver"); ("row_count", PInt 3)]).

Lemma classify_published_witness :
  ∃ out, @classify_materialization_payload some_repr plain_payload "clean" = Ok (RESULT_OK, out)
    ∧ @str_or_empty some_repr (get "name" out) = "clean".
Proof.
  eexists. split; [vm_compute; reflexivity|].
  refine (proj1 (proj2 (@classify_published some_repr plain_payload "clean" RESULT_OK _ _))).
  vm_compute. reflexivity.
Defined.

Example clean_report_success : @materialization_status some_repr (PDict clean_report) "success" = "success".
Proof. vm_compute. reflexivity. Qed.
