(* ===== verification/Permissions.v ===== *)
(** Console permissions (console/app/services/permission_catalog.py,
    permission_roles.py, permissions.py): the catalog, the roles, the effective
    permissions of a user and the request guards.

    A [set] of names is the list of its elements.  A user is the session's
    [dict], with whatever values it holds; no user is the empty one, which the
    code tells apart from none nowhere. *)
From S2P Require Import Prelude PyStr PyVal.

Open Scope Z_scope.

(** Set difference. *)
Definition minus (l k : list string) : list string := List.filter (λ x, negb (mem x k)) l.

(** ** permission_catalog.py *)

(** [_permission(key, label, category, description)]. *)
Record permission := _permission {
  key : string;
  label : string;
  category : string;
  description : string }.

Definition PERMISSIONS : list permission :=
  [_permission "iam.users.read" "Read users" "IAM" "List IAM users and account state.";
   _permission "iam.users.write" "Write users" "IAM" "Create, update, disable and reset users.";
   _permission "iam.roles.read" "Read roles" "IAM" "View roles and permissions.";
   _permission "iam.roles.write" "Write roles" "IAM" "Change role policy definitions.";
   _permission "iam.policies.read" "Read policies" "IAM" "View security policies and lifetimes.";
   _permission "iam.policies.write" "Write policies" "IAM" "Change IAM policies.";
   _permission "security.audit.read" "Read audit" "Security" "View audit events.";
   _permission "security.sessions.read" "Read sessions" "Security" "View active sessions.";
   _permission "security.sessions.revoke" "Revoke sessions" "Security" "Revoke active sessions.";
   _permission "security.login_attempts.read" "Read login attempts" "Security" "View login attempts.";
   _permission "vault.connections.read" "Read vault connections" "Vault" "List masked connection metadata.";
   _permission "vault.connections.write" "Write vault connections" "Vault" "Create/update/delete connection metadata.";
   _permission "vault.secrets.read_masked" "Read masked secrets" "Vault" "List masked secret metadata.";
   _permission "vault.secrets.reveal" "Reveal secrets" "Vault" "Reveal secret values.";
   _permission "datasets.read" "Read datasets" "Data" "Read dataset metadata and data.";
   _permission "datasets.write" "Write datasets" "Data" "Create or refresh datasets.";
   _permission "datasets.delete" "Delete datasets" "Data" "Delete datasets.";
   _permission "pipelines.read" "Read pipelines" "Pipelines" "View pipelines and runs.";
   _permission "pipelines.run" "Run pipelines" "Pipelines" "Trigger pipeline runs.";
   _permission "pipelines.write" "Write pipelines" "Pipelines" "Modify pipeline configuration.";
   _permission "studio.read" "Read studio" "Studio" "View Studio resources.";
   _permission "studio.write" "Write studio" "Studio" "Modify Studio resources.";
   _permission "monitor.read" "Read monitor" "Monitor" "View monitor pages and job state.";
   _permission "workspace.access" "Access workspace" "Workspace" "Access workspace apps; /workspace now redirects to /copilot.";
   _permission "control_room.write" "Operate control room" "Workspace" "Create, dismiss and reopen OMEGA control-room items.";
   _permission "control_room.approve" "Approve control room actions" "Workspace" "Approve a separately initiated internal Control Room action.";
   _permission "control_room.execute" "Execute control room write-back" "Workspace" "Run explicitly approved Control Room write-back adapters.";
   _permission "mcp.registry.read" "Read MCP registry" "MCP" "View registered MCP services.";
   _permission "mcp.invoke" "Invoke MCP" "MCP" "Invoke MCP tools.";
   _permission "agents.read" "Read agents" "Agents" "View workspace-visible agents and their runs.";
   _permission "agents.write" "Write agents" "Agents" "Create and edit workspace-scoped agents.";
   _permission "agents.execute" "Execute agents" "Agents" "Invoke workspace-visible agents.";
   _permission "apps.read" "Read apps" "Apps" "View analytic apps.";
   _permission "apps.write" "Write apps" "Apps" "Modify analytic apps.";
   _permission "settings.read" "Read settings" "Settings" "View system settings (masked secrets).";
   _permission "settings.write" "Write settings" "Settings" "Edit/reveal/rotate system settings.";
   _permission "operations.read" "Read operations" "Operations" "View system migrations and service health.";
   _permission "operations.write" "Write operations" "Operations" "Trigger operational actions.";
   _permission "llm.keys.read" "Read workspace LLM key status" "Copilot" "Check whether the workspace has its own LLM provider key configured.";
   _permission "llm.keys.write" "Write workspace LLM key" "Copilot" "Set or rotate the workspace-scoped LLM provider key.";
   _permission "cartridges.read" "Read cartridges" "Cartridges" "List cartridges, view entities and watermarks.";
   _permission "cartridges.write" "Configure cartridges" "Cartridges" "Edit connection metadata and run test_connection probes.";
   _permission "cartridges.execute" "Run cartridge extractions" "Cartridges" "Trigger entity extractions and knowledge-bit runs.";
   _permission "marketplace.read" "Read marketplace" "Marketplace" "View available cartridges and installation status.";
   _permission "marketplace.request" "Request marketplace products" "Marketplace" "Request activation of cartridge products for a workspace.";
   _permission "marketplace.write" "Legacy marketplace write" "Marketplace" "Backward-compatible marketplace write permission.";
   _permission "marketplace.admin" "Administer marketplace products" "Marketplace" "Approve, pause, revoke and reactivate cartridge entitlements.";
   _permission "copilot.use" "Use the copilot" "Copilot" "Open the chat and invoke read-only tools.";
   _permission "copilot.write" "Copilot writes" "Copilot" "Allow the copilot to invoke write-level tools on the user's behalf.";
   _permission "copilot.execute" "Copilot destructive actions" "Copilot" "Allow destructive tool calls — always behind a user-approval card."].

Definition PERMISSION_KEYS : list string := key <$> PERMISSIONS.

Definition RESOURCE_ACTION_PERMISSIONS : list (string * string * string) :=
  [("/iam", "read", "iam.users.read");
   ("/security", "read", "security.audit.read");
   ("/security/audit", "read", "security.audit.read");
   ("/security/sessions", "read", "security.sessions.read");
   ("/security/sessions", "revoke", "security.sessions.revoke");
   ("/security/permissions", "read", "iam.roles.read");
   ("/security/login-attempts", "read", "security.login_attempts.read");
   ("/api/admin/users", "read", "iam.users.read");
   ("/api/admin/users", "write", "iam.users.write");
   ("/viewer/vault", "read", "monitor.read");
   ("/api/vault/connections/replicon", "read", "vault.connections.read");
   ("/api/vault/connections/replicon", "write", "vault.connections.write");
   ("/api/vault/secrets/replicon", "read", "vault.secrets.read_masked");
   ("/api/vault/secrets/replicon", "reveal", "vault.secrets.reveal");
   ("/api/vault/connections/hubspot", "read", "vault.connections.read");
   ("/api/vault/connections/hubspot", "write", "vault.connections.write");
   ("/api/vault/secrets/hubspot", "read", "vault.secrets.read_masked");
   ("/api/vault/secrets/hubspot", "reveal", "vault.secrets.reveal");
   ("/api/pipeline", "read", "pipelines.read");
   ("/api/pipeline/run", "run", "pipelines.run");
   ("/datasets", "read", "datasets.read");
   ("/api/datasets", "write", "datasets.write");
   ("/api/datasets", "delete", "datasets.delete");
   ("/studio", "read", "studio.read");
   ("/studio", "write", "studio.write");
   ("/monitor", "read", "monitor.read");
   ("/workspace", "access", "workspace.access");
   ("/agents", "read", "agents.read");
   ("/api/agents", "read", "agents.read");
   ("/api/agents", "write", "agents.write");
   ("/api/agents", "execute", "agents.execute");
   ("/copilot/tokens", "read", "copilot.use");
   ("/api/copilot/llm-key", "read", "llm.keys.read");
   ("/api/copilot/llm-key", "write", "llm.keys.write");
   ("/marketplace", "read", "marketplace.read");
   ("/marketplace", "request", "marketplace.request");
   ("/admin/installations", "read", "marketplace.admin");
   ("/admin/installations", "write", "marketplace.admin")].

(** ** permission_roles.py *)

Definition _AUTHORITY_PERMISSIONS : list string := ["control_room.approve"].
Definition PLATFORM_ADMIN_ROLES : list string := ["owner"; "super_admin"; "admin"].
Definition GLOBAL_ROLES : list string := (PLATFORM_ADMIN_ROLES ++ ["security_admin"; "auditor"])%list.
Definition PLATFORM_ROLE_GRANTORS : list string := ["owner"; "super_admin"].

Definition is_platform_admin_role `{PyRepr} (role : pyval) : bool :=
  mem (strip (str_or_empty role)) PLATFORM_ADMIN_ROLES.

Definition ROLE_DEFINITIONS : list (string * pydict) :=
  [("owner", mkdict
      [("label", PStr "Owner");
       ("description", PStr "Platform administration without maker-separated Control Room approval.");
       ("assignable", PBool true);
       ("builtin", PBool true);
       ("legacy", PBool false)]);
   ("super_admin", mkdict
      [("label", PStr "Super Admin");
       ("description", PStr "Platform administration without maker-separated Control Room approval.");
       ("assignable", PBool true);
       ("builtin", PBool true);
       ("legacy", PBool false)]);
   ("admin", mkdict
      [("label", PStr "Administrator");
       ("description", PStr "General administration without maker-separated Control Room approval.");
       ("assignable", PBool true);
       ("builtin", PBool true);
       ("legacy", PBool true)]);
   ("security_admin", mkdict
      [("label", PStr "Security Admin");
       ("description", PStr "IAM and security operator without production pipeline powers by default.");
       ("assignable", PBool true);
       ("builtin", PBool true);
       ("legacy", PBool false)]);
   ("workspace_admin", mkdict
      [("label", PStr "Workspace Admin");
       ("description", PStr "Workspace/data/pipeline operator without global IAM or security audit powers.");
       ("assignable", PBool true);
       ("builtin", PBool true);
       ("legacy", PBool false);
       ("assignment_note", PStr "Platform-assignable; tenant-created users receive workspace membership separately.")]);
   ("tenant_admin", mkdict
      [("label", PStr "Tenant Admin");
       ("description", PStr "Workspace-scoped account administrator without Studio, Bronze or global security access.");
       ("assignable", PBool true);
       ("builtin", PBool true);
       ("legacy", PBool false);
       ("assignment_note", PStr "Assignable only as a workspace role by non-platform admins.")]);
   ("control_room_approver", mkdict
      [("label", PStr "Control Room Approver");
       ("description", PStr "Checker for maker-separated internal Control Room actions.");
       ("assignable", PBool true);
       ("builtin", PBool true);
       ("legacy", PBool false);
       ("assignment_note", PStr "Grant explicitly per workspace; never implied by an administrative role.")]);
   ("analyst", mkdict
      [("label", PStr "Analyst");
       ("description", PStr "Read/query datasets, monitor operations and use safe Studio read flows.");
       ("assignable", PBool true);
       ("builtin", PBool true);
       ("legacy", PBool false);
       ("assignment_note", PStr "Assignable as a workspace role by tenant admins.")]);
   ("auditor", mkdict
      [("label", PStr "Auditor");
       ("description", PStr "Read-only security visibility for audit, sessions, permissions and policies.");
       ("assignable", PBool true);
       ("builtin", PBool true);
       ("legacy", PBool false)]);
   ("viewer", mkdict
      [("label", PStr "Viewer");
       ("description", PStr "Safe read-only console visibility. No IAM, Vault API or writes.");
       ("assignable", PBool true);
       ("builtin", PBool true);
       ("legacy", PBool false);
       ("assignment_note", PStr "Assignable as a workspace role by tenant admins.")]);
   ("workspace_user", mkdict
      [("label", PStr "Workspace User");
       ("description", PStr "Workspace/app access only; no global console administration.");
       ("assignable", PBool true);
       ("builtin", PBool true);
       ("legacy", PBool false)]);
   ("user", mkdict
      [("label", PStr "Legacy User");
       ("description", PStr "Existing legacy user role mapped to a conservative viewer/workspace_user permission set.");
       ("assignable", PBool true);
       ("builtin", PBool true);
       ("legacy", PBool true);
       ("canonical_alias", PStr "viewer")])].

Definition ROLE_PERMISSIONS : list (string * list string) :=
  [("owner", minus PERMISSION_KEYS _AUTHORITY_PERMISSIONS);
   ("super_admin", minus PERMISSION_KEYS _AUTHORITY_PERMISSIONS);
   ("admin", minus PERMISSION_KEYS (["iam.roles.write"; "iam.policies.write"] ++ _AUTHORITY_PERMISSIONS));
   ("security_admin", [
      "iam.users.read"; "iam.users.write"; "iam.roles.read"; "iam.policies.read";
      "security.audit.read"; "security.sessions.read"; "security.sessions.revoke";
      "security.login_attempts.read"; "vault.connections.read"; "vault.secrets.read_masked";
      "monitor.read"]);
   ("workspace_admin", [
      "iam.users.read"; "iam.users.write"; "iam.roles.read"; "datasets.read"; "datasets.write";
      "datasets.delete"; "pipelines.read"; "pipelines.run"; "pipelines.write"; "studio.read";
      "studio.write"; "monitor.read"; "workspace.access"; "control_room.write";
      "control_room.approve"; "control_room.execute"; "vault.connections.read";
      "vault.connections.write"; "vault.secrets.read_masked"; "apps.read"; "apps.write";
      "agents.read"; "agents.write"; "agents.execute"; "cartridges.read"; "cartridges.write";
      "cartridges.execute"; "marketplace.read"; "marketplace.request"; "copilot.use";
      "copilot.write"; "copilot.execute"; "llm.keys.read"; "llm.keys.write"]);
   ("tenant_admin", [
      "iam.users.read"; "iam.users.write"; "iam.roles.read"; "security.audit.read";
      "vault.connections.read"; "vault.connections.write"; "vault.secrets.read_masked";
      "datasets.read"; "pipelines.read"; "pipelines.run"; "monitor.read"; "operations.read";
      "workspace.access"; "control_room.write"; "control_room.approve"; "control_room.execute";
      "apps.read"; "apps.write"; "cartridges.read"; "cartridges.write"; "cartridges.execute";
      "marketplace.read"; "marketplace.request"; "agents.read"; "agents.write"; "agents.execute";
      "copilot.use"; "copilot.write"; "llm.keys.read"; "llm.keys.write"]);
   ("control_room_approver", [
      "workspace.access"; "datasets.read"; "control_room.approve"; "control_room.execute";
      "copilot.use"]);
   ("analyst", [
      "datasets.read"; "pipelines.read"; "monitor.read"; "workspace.access"; "apps.read";
      "cartridges.read"; "marketplace.read"; "marketplace.request"; "agents.read";
      "agents.execute"; "copilot.use"]);
   ("auditor", [
      "iam.roles.read"; "iam.policies.read"; "security.audit.read"; "security.sessions.read";
      "security.login_attempts.read"; "monitor.read"; "copilot.use"]);
   ("viewer", [
      "monitor.read"; "workspace.access"; "apps.read"; "pipelines.read"; "datasets.read";
      "cartridges.read"; "marketplace.read"; "copilot.use"]);
   ("workspace_user", [
      "workspace.access"; "apps.read"; "marketplace.read"; "marketplace.request"; "copilot.use"]);
   ("user", [
      "monitor.read"; "workspace.access"; "apps.read"; "marketplace.read"; "copilot.use"])].

(** ** permissions.py *)

(** [ROLE_PERMISSIONS.get(role, set())]. *)
Definition role_permissions (role : string) : list string := default [] (afind role ROLE_PERMISSIONS).

(** [.strip()] of a value that may not be a string. *)
Definition strip_value (v : pyval) : res string :=
  match v with PStr s => Ok (strip s) | _ => raise AttributeError "" end.

Definition canonical_role (role : pyval) : res string :=
  s ← strip_value (py_or role (PStr "user"));
  let value := if nonempty s then s else "user" in
  Ok (if mem value ROLE_DEFINITIONS.*1 then value else "__unknown__").

Definition no_user (user : pydict) : bool := match user with [] => true | _ => false end.

Definition user_role (user : pydict) : res string :=
  if no_user user then Ok "anonymous" else canonical_role (get "role" user).

Definition canonical_workspace_role (role : pyval) : res (option string) :=
  if negb (truthy role) then Ok None
  else
    resolved ← canonical_role role;
    if mem resolved PLATFORM_ADMIN_ROLES || bool_decide (resolved = "security_admin")
    then Ok (Some "workspace_admin")
    else if mem resolved ROLE_PERMISSIONS.*1 then Ok (Some resolved) else Ok None.

Definition workspace_role (user : pydict) : res (option string) :=
  if no_user user then Ok None else canonical_workspace_role (get "workspace_role" user).

Definition get_effective_permissions (user : pydict) (role : pyval) : res (list string) :=
  if truthy role then resolved ← canonical_role role; Ok (role_permissions resolved)
  else if no_user user then Ok []
  else
    r ← user_role user;
    scoped ← workspace_role user;
    Ok (role_permissions r ++ match scoped with Some s => role_permissions s | None => [] end)%list.

Definition has_permission (user : pydict) (permission : string) : res bool :=
  if negb (mem permission PERMISSION_KEYS) then Ok false
  else effective ← get_effective_permissions user PNone; Ok (mem permission effective).

(** The dependency a route declares: the request's user, or an HTTP error. *)
Definition require_permission (permission : string) (user : pydict) : res pydict :=
  if no_user user then raise (HTTPException 401) "authentication required"
  else
    allowed ← has_permission user permission;
    if negb allowed then raise (HTTPException 403) ("permission required: " +:+ permission) else Ok user.

Definition require_any_permission (permissions : list string) (user : pydict) : res pydict :=
  if no_user user then raise (HTTPException 401) "authentication required"
  else
    effective ← get_effective_permissions user PNone;
    if negb (existsb (λ p, mem p effective) permissions)
    then raise (HTTPException 403) "required permission missing" else Ok user.

Definition roles_payload : list pydict :=
  (λ ni, dset "permissions" (strs (sort_strings (role_permissions ni.1)))
           (dset "name" (PStr ni.1) ni.2)) <$> ROLE_DEFINITIONS.

Definition matrix_payload : list (string * list (string * bool)) :=
  (λ ni, (ni.1, (λ p, (p, mem p (role_permissions ni.1))) <$> sort_strings PERMISSION_KEYS)) <$> ROLE_DEFINITIONS.

Definition find_resource (resource action : string) : option string :=
  snd <$> List.find (λ e, bool_decide (e.1 = (resource, action))) RESOURCE_ACTION_PERMISSIONS.

Definition is_write (action : string) : bool := mem action ["write"; "create"; "update"; "delete"].

Definition permission_for_resource (resource action : string) : option string :=
  match find_resource resource action with
  | Some p => Some p
  | None =>
      let reading := bool_decide (action = "read") in
      if reading && startswith "/security/audit" resource then Some "security.audit.read"
      else if reading && startswith "/security/sessions" resource then Some "security.sessions.read"
      else if reading && startswith "/api/admin/users" resource then Some "iam.users.read"
      else if is_write action && startswith "/api/admin/users" resource then Some "iam.users.write"
      else if startswith "/api/vault/connections" resource then
        Some (if is_write action then "vault.connections.write" else "vault.connections.read")
      else if startswith "/api/vault/secrets" resource && bool_decide (action = "reveal")
      then Some "vault.secrets.reveal"
      else if startswith "/api/vault/secrets" resource then
        Some (if reading then "vault.secrets.read_masked" else "vault.connections.write")
      else None
  end.

Definition access_check (role : pyval) (resource action : string) : res pydict :=
  resolved_role ← canonical_role role;
  let permission := permission_for_resource resource action in
  let allowed := match permission with
                 | Some p => nonempty p && mem p (role_permissions resolved_role)
                 | None => false
                 end in
  Ok (mkdict
    [("role", PStr resolved_role); ("resource", PStr resource); ("action", PStr action);
     ("allowed", PBool allowed); ("permission", opt_str permission);
     ("source", PStr "backend_permission_registry");
     ("reason", PStr match permission with
                     | None | Some "" => "No permission mapped for this resource/action."
                     | Some p => resolved_role +:+ " " +:+ (if allowed then "includes" else "does not include")
                                 +:+ " " +:+ p +:+ "."
                     end)]).

(** ** Facts *)

Definition all_roles : list string := "__unknown__" :: ROLE_DEFINITIONS.*1.

Lemma canonical_role_in v r : canonical_role v = Ok r → r ∈ all_roles.
Proof.
  unfold canonical_role. rewrite bind_ok. intros (s & _ & H). cbv zeta in H. unfold all_roles.
  destruct (mem (if nonempty s then s else "user") ROLE_DEFINITIONS.*1) eqn:E; injection H as <-; [|left].
  right. apply mem_true in E. exact E.
Qed.

(** What a role check over the whole table gives for one role. *)
Lemma every_role (P : string → bool) :
  forallb P ("anonymous" :: all_roles) = true → ∀ r, r ∈ "anonymous" :: all_roles → P r = true.
Proof. rewrite forallb_elem. auto. Qed.

Lemma user_role_in user r : user_role user = Ok r → r ∈ "anonymous" :: all_roles.
Proof.
  unfold user_role. destruct (no_user user); [intros [= <-]; left|].
  intros H. right. by eapply canonical_role_in.
Qed.

(** A workspace role is never a platform administrator or security role. *)
Lemma workspace_role_in user r :
  workspace_role user = Ok (Some r) →
  r ∈ all_roles ∧ r ∉ PLATFORM_ADMIN_ROLES ∧ r ≠ "security_admin" ∧ r ≠ "__unknown__".
Proof.
  unfold workspace_role. destruct (no_user user); [done|]. unfold canonical_workspace_role.
  destruct (truthy _); cbn [negb]; [|done]. rewrite bind_ok. intros (q & Hq & Hr).
  destruct (mem q PLATFORM_ADMIN_ROLES || _) eqn:E.
  - injection Hr as <-. split_and!; decide_now.
  - apply orb_false_iff in E as [E1%mem_false E2%bool_decide_eq_false].
    destruct (mem q ROLE_PERMISSIONS.*1) eqn:E3; [|done]. injection Hr as <-.
    apply mem_true in E3. split_and!; try done; [by eapply canonical_role_in|].
    intros ->. revert E3. decide_now.
Qed.

Lemma effective_spec user p l :
  get_effective_permissions user PNone = Ok l →
  p ∈ l ↔ (∃ r, user_role user = Ok r ∧ user ≠ [] ∧ p ∈ role_permissions r)
        ∨ (∃ r, workspace_role user = Ok (Some r) ∧ p ∈ role_permissions r).
Proof.
  unfold get_effective_permissions. cbn [truthy]. destruct (no_user user) eqn:E.
  { destruct user; [|done]. intros [= <-]. split; [set_solver|].
    intros [(r & _ & ? & _)|(r & Hr & _)]; done. }
  rewrite bind_ok. intros (r & Hr & H). apply bind_ok in H as (s & Hs & [= <-]).
  rewrite elem_of_app, Hr, Hs. split.
  - intros [Hp|Hp]; [left; exists r; split_and!; try done; by intros ->|right].
    destruct s as [s|]; [eauto|set_solver].
  - intros [(q & [= <-] & _ & Hq)|(q & [= ->] & Hq)]; auto.
Qed.

(** ** Properties *)

(** The permissions no role below the platform administrators holds. *)
Definition PLATFORM_ONLY : list string :=
  minus PERMISSION_KEYS
    (minus ROLE_PERMISSIONS.*1 PLATFORM_ADMIN_ROLES ≫= role_permissions).

Example platform_only_list : PLATFORM_ONLY =
  ["iam.roles.write"; "iam.policies.write"; "vault.secrets.reveal"; "mcp.registry.read"; "mcp.invoke";
   "settings.read"; "settings.write"; "operations.write"; "marketplace.write"; "marketplace.admin"].
Proof. vm_compute. reflexivity. Qed.

(** No escalation through a workspace: whatever workspace role a session
    carries, a platform-only permission (revealing secrets, editing roles,
    policies or settings, invoking MCP, administering the marketplace) is granted
    only to a session whose own role is a platform administrator's. *)
Theorem platform_only_permissions user p :
  has_permission user p = Ok true → p ∈ PLATFORM_ONLY →
  ∃ r, user_role user = Ok r ∧ r ∈ PLATFORM_ADMIN_ROLES ∧ p ∈ role_permissions r.
Proof.
  intros Hp Hpo. unfold has_permission in Hp. destruct (negb _); [done|].
  apply bind_ok in Hp as (l & Hl & [= Hm]). apply mem_true in Hm.
  apply (effective_spec user p l Hl) in Hm.
  assert (Hrole : ∀ r, r ∈ "anonymous" :: all_roles → r ∉ PLATFORM_ADMIN_ROLES → p ∉ role_permissions r).
  { intros r Hr Hn Hin.
    assert (H : (λ r, mem r PLATFORM_ADMIN_ROLES || forallb (λ q, negb (mem q PLATFORM_ONLY)) (role_permissions r)) r = true).
    { revert r Hr Hn Hin. intros r Hr _ _. revert r Hr. apply every_role. vm_compute. reflexivity. }
    cbv beta in H. apply mem_false in Hn. rewrite Hn in H. simpl in H. rewrite forallb_elem in H.
    apply H in Hin. apply negb_true_iff, mem_false in Hin. done. }
  destruct Hm as [(r & Hr & _ & Hin)|(r & Hr & Hin)].
  - exists r. split_and!; try done. destruct (decide (r ∈ PLATFORM_ADMIN_ROLES)); [done|].
    destruct (Hrole r); [by eapply user_role_in|done..].
  - apply workspace_role_in in Hr as (Hr & Hn & _). destruct (Hrole r); [by right|done..].
Qed.

Definition admin_session : pydict := mkdict [("role", PStr " owner "); ("workspace_role", PStr "viewer")].

Lemma platform_only_permissions_witness :
  ∃ r, user_role admin_session = Ok r ∧ r ∈ PLATFORM_ADMIN_ROLES ∧ "vault.secrets.reveal" ∈ role_permissions r.
Proof.
  apply (platform_only_permissions admin_session "vault.secrets.reveal");
    [vm_compute; reflexivity|decide_now].
Defined.

(** Maker and checker are separate: approving a control-room action takes
    one of the three approving roles, as the session's role or as its workspace
    role; a platform administrator without a workspace role cannot approve. *)
Theorem approval_roles user :
  has_permission user "control_room.approve" = Ok true →
  (∃ r, (user_role user = Ok r ∨ workspace_role user = Ok (Some r))
        ∧ r ∈ ["workspace_admin"; "tenant_admin"; "control_room_approver"])
  ∧ (workspace_role user = Ok None → ∀ r, user_role user = Ok r → r ∉ PLATFORM_ADMIN_ROLES).
Proof.
  intros Hp. unfold has_permission in Hp. destruct (negb _); [done|].
  apply bind_ok in Hp as (l & Hl & [= Hm]). apply mem_true in Hm.
  apply (effective_spec user _ l Hl) in Hm.
  assert (Hrole : ∀ r, r ∈ "anonymous" :: all_roles → "control_room.approve" ∈ role_permissions r →
            r ∈ ["workspace_admin"; "tenant_admin"; "control_room_approver"]).
  { intros r Hr Hin.
    assert (H : (λ r, negb (mem "control_room.approve" (role_permissions r))
                 || mem r ["workspace_admin"; "tenant_admin"; "control_room_approver"]) r = true).
    { clear Hin. revert r Hr. apply every_role. vm_compute. reflexivity. }
    cbv beta in H. apply mem_true in Hin. rewrite Hin in H. by apply mem_true in H. }
  split.
  - destruct Hm as [(r & Hr & _ & Hin)|(r & Hr & Hin)]; exists r.
    + split; [by left|]. apply Hrole; [by eapply user_role_in|done].
    + split; [by right|]. apply Hrole; [right; apply (workspace_role_in _ _ Hr)|done].
  - intros Hnone r Hr Hadm. destruct Hm as [(q & Hq & _ & Hin)|(q & Hq & _)]; [|congruence].
    rewrite Hr in Hq. injection Hq as <-. apply Hrole in Hin; [|by eapply user_role_in].
    clear -Hadm Hin. unfold PLATFORM_ADMIN_ROLES in Hadm. set_solver.
Qed.

Lemma approval_roles_witness :
  ∃ r, (user_role (mkdict [("role", PStr "control_room_approver")]) = Ok r
        ∨ workspace_role (mkdict [("role", PStr "control_room_approver")]) = Ok (Some r))
     ∧ r ∈ ["workspace_admin"; "tenant_admin"; "control_room_approver"].
Proof. apply approval_roles. vm_compute. reflexivity. Defined.

(** The access explanation agrees with enforcement: [access_check] says a
    role is allowed on a resource exactly when a session of that role passes the
    guard of the permission it names. *)
Theorem access_check_agrees role resource action d p :
  access_check (PStr role) resource action = Ok d →
  permission_for_resource resource action = Some p →
  let user := mkdict [("role", PStr role)] in
  get "permission" d = PStr p ∧
  (get "allowed" d = PBool true ↔ require_permission p user = Ok user).
Proof.
  intros Hd Hp user. unfold access_check in Hd. apply bind_ok in Hd as (r & Hr & [= <-]).
  rewrite Hp. unfold mkdict; simpl. dsimpl. split; [done|].
  assert (Hkey : nonempty p = true ∧ mem p PERMISSION_KEYS = true).
  { unfold permission_for_resource in Hp. destruct (find_resource resource action) as [q|] eqn:Ef.
    - injection Hp as ->. unfold find_resource in Ef.
      destruct (List.find _ _) as [e|] eqn:E; [|done]. injection Ef as <-.
      apply List.find_some in E as [E _].
      assert (H : forallb (λ e : string * string * string, nonempty e.2 && mem e.2 PERMISSION_KEYS)
                    RESOURCE_ACTION_PERMISSIONS = true) by (vm_compute; reflexivity).
      rewrite List.forallb_forall in H. specialize (H e E). by apply andb_true_iff.
    - cbv zeta in Hp. repeat (destruct (_ && _) in Hp; [injection Hp as <-; by vm_compute|]).
      destruct (startswith "/api/vault/connections" resource).
      { destruct (is_write action); injection Hp as <-; by vm_compute. }
      repeat (destruct (_ && _) in Hp; [injection Hp as <-; by vm_compute|]).
      destruct (startswith "/api/vault/secrets" resource); [|done].
      destruct (bool_decide _); injection Hp as <-; by vm_compute. }
  destruct Hkey as [Hne Hk]. rewrite Hne. cbn [andb].
  assert (Hhas : has_permission user p = Ok (mem p (role_permissions r))).
  { unfold has_permission. rewrite Hk. cbn [negb]. unfold get_effective_permissions. cbn [truthy].
    unfold user_role, workspace_role. replace (no_user user) with false by done.
    replace (get "role" user) with (PStr role) by done.
    replace (get "workspace_role" user) with PNone by done.
    rewrite Hr. simpl. by rewrite app_nil_r. }
  unfold require_permission. replace (no_user user) with false by done. rewrite Hhas. simpl.
  destruct (mem p (role_permissions r)); simpl; split; try done.
Qed.

Lemma access_check_agrees_witness :
  require_permission "vault.secrets.reveal" (mkdict [("role", PStr "owner")]) = Ok (mkdict [("role", PStr "owner")]).
Proof.
  destruct (access_check (PStr "owner") "/api/vault/secrets/sap" "reveal") as [d|] eqn:E;
    [|vm_compute in E; discriminate].
  apply (access_check_agrees "owner" "/api/vault/secrets/sap" "reveal" d _ E); [vm_compute; reflexivity|].
  vm_compute in E. injection E as <-. reflexivity.
Defined.
