(* ===== verification/SqlLexer.v ===== *)
(** The tokenizer of the SQL detector (console/app/services/public_sql_select_lexer.py).

    A position in the text is the character before it and the text from it on,
    so [value[index]] is the head of the rest, [value.startswith(p, index)] a
    prefix test, and a scan gives the number of characters it consumes. *)
From S2P Require Import Prelude PyStr.

Open Scope nat_scope.

Definition _MAX_TOKENS : nat := 512.
Definition _MAX_COMMENT_DEPTH : nat := 64.
Definition _MULTI_CHARACTER_OPERATORS : list string :=
  ["#>>"; "->>"; "::"; "||"; "<="; ">="; "<>"; "!="; "->"; "#>"; "=>"; ":="].

Inductive kind := KWord | KIdentifier | KString | KNumber | KParameter | KSymbol.

#[export] Instance kind_eq_dec : EqDecision kind.
Proof. solve_decision. Defined.

Record SelectToken := Token { t_kind : kind; t_value : string }.

#[export] Instance token_eq_dec : EqDecision SelectToken.
Proof. solve_decision. Defined.

Definition quote : ascii := "'".
Definition dquote : ascii := ascii_of_N 34.
Definition backslash : ascii := "\".
Definition newline : ascii := ascii_of_N 10.

Definition ch (c d : ascii) : bool := bool_decide (c = d).

(** [_consume_quote], from after the opening quote to after the closing one. *)
Fixpoint _consume_quote (q : ascii) (backslash_escapes : bool) (s : string) : option nat :=
  match s with
  | "" => None
  | String c s' =>
      if backslash_escapes && ch c backslash then
        match s' with "" => None | String _ s'' => (λ n, 2 + n) <$> _consume_quote q backslash_escapes s'' end
      else if ch c q then
        match s' with
        | String d s'' =>
            if ch d q then (λ n, 2 + n) <$> _consume_quote q backslash_escapes s'' else Some 1
        | "" => Some 1
        end
      else S <$> _consume_quote q backslash_escapes s'
  end.

(** [_consume_block_comment], from after the opening mark, inside [depth] ones. *)
Fixpoint _consume_block_comment (depth : nat) (s : string) : option nat :=
  match s with
  | "" => None
  | String c s' =>
      match s' with
      | String d s'' =>
          if ch c "/" && ch d "*" then
            if Nat.ltb _MAX_COMMENT_DEPTH (S depth) then None
            else (λ n, 2 + n) <$> _consume_block_comment (S depth) s''
          else if ch c "*" && ch d "/" then
            if Nat.eqb (pred depth) 0 then Some 2
            else (λ n, 2 + n) <$> _consume_block_comment (pred depth) s''
          else S <$> _consume_block_comment depth s'
      | "" => None
      end
  end.

(** The number of leading characters that satisfy [p]. *)
Fixpoint run_length (p : ascii → bool) (s : string) : nat :=
  match s with
  | "" => 0
  | String c s => if p c then S (run_length p s) else 0
  end.

Definition is_name_char (c : ascii) : bool := is_alnum c || ch c "_".
Definition is_word_char (c : ascii) : bool := is_alnum c || ch c "_" || ch c "$".
Definition is_number_char (c : ascii) : bool := is_alnum c || ch c "_" || ch c ".".

(** The offset of the quote a string prefix leads to, and whether it escapes. *)
Definition _prefixed_string_quote (s : string) : option (nat * bool) :=
  match s with
  | "" => None
  | String c s' =>
      if mem c ["e"; "E"; "n"; "N"; "b"; "B"; "x"; "X"]%char && startswith "'" s'
      then Some (1, mem c ["e"; "E"]%char)
      else if mem c ["u"; "U"]%char && startswith "&'" s' then Some (2, false)
      else if ch c "_" then
        let n := run_length is_name_char s' in
        if Nat.ltb 0 n && startswith "'" (sdrop n s') then Some (S n, false) else None
      else None
  end.

(** [value.find(sub)] as an offset. *)
Fixpoint find_sub (sub s : string) : option nat :=
  if startswith sub s then Some 0
  else match s with "" => None | String _ s => S <$> find_sub sub s end.

Definition is_ident_start (c : ascii) : bool := is_ascii_alpha c || ch c "_".
Definition is_ident_char (c : ascii) : bool := is_ascii_alnum c || ch c "_".

(** [_DOLLAR_DELIMITER.match] at a dollar, the delimiter it matches. *)
Definition _DOLLAR_DELIMITER (s : string) : option string :=
  match sdrop 1 s with
  | "" => None
  | String c _ as s' =>
      if ch c "$" then Some "$$"
      else if is_ident_start c then
        let n := run_length is_ident_char s' in
        if startswith "$" (sdrop n s') then Some (stake (n + 2) s) else None
      else None
  end.

Record state := State { before : option ascii; rest : string; tokens : list SelectToken }.

(** [index += n]. *)
Definition advance (n : nat) (st : state) : state :=
  State (match last_char (stake n (rest st)) with Some c => Some c | None => before st end)
    (sdrop n (rest st)) (tokens st).

(** [tokens.append(SelectToken(k, value[index:index + n])); index += n], then the
    test on the number of tokens. *)
Definition emit (k : kind) (n : nat) (st : state) : state + option (list SelectToken) :=
  let ts := (tokens st ++ [Token k (stake n (rest st))])%list in
  if Nat.ltb _MAX_TOKENS (length ts) then inr None
  else inl (advance n (State (before st) (rest st) ts)).

Definition is_alpha_opt (o : option ascii) : bool := match o with Some c => is_alpha c | None => false end.

Definition operator_length (s : string) : nat :=
  match List.find (λ o, startswith o s) _MULTI_CHARACTER_OPERATORS with Some o => slen o | None => 1 end.

(** A quoted token whose opening quote is at offset [n]. *)
Definition quoted (k : kind) (q : ascii) (escapes : bool) (n : nat) (st : state)
    : state + option (list SelectToken) :=
  match _consume_quote q escapes (sdrop (S n) (rest st)) with
  | None => inr None
  | Some m => emit k (S n + m) st
  end.

(** One iteration of the loop of [tokenize_select_copy]. *)
Definition lex_step (st : state) : state + option (list SelectToken) :=
  match rest st with
  | "" => inr (Some (tokens st))
  | String char s =>
      if is_space char then inl (advance 1 st)
      else if startswith "--" (rest st) then
        match find_sub (one newline) (sdrop 2 (rest st)) with
        | None => inl (advance (slen (rest st)) st)
        | Some n => inl (advance (2 + n + 1) st)
        end
      else if startswith "/*" (rest st) then
        match _consume_block_comment 1 (sdrop 2 (rest st)) with
        | None => inr None
        | Some n => inl (advance (2 + n) st)
        end
      else
        match _prefixed_string_quote (rest st) with
        | Some (n, escapes) => quoted KString quote escapes n st
        | None =>
            if ch char quote && is_alpha_opt (before st) && is_alpha_opt (char_at 0 s)
            then emit KSymbol 1 st
            else if ch char quote then quoted KString quote false 0 st
            else if ch char dquote then quoted KIdentifier dquote false 0 st
            else if ch char "$" then
              match _DOLLAR_DELIMITER (rest st) with
              | Some marker =>
                  match find_sub marker (sdrop (slen marker) (rest st)) with
                  | None => inr None
                  | Some n => emit KString (slen marker + n + slen marker) st
                  end
              | None =>
                  let n := run_length is_digit s in
                  emit (if Nat.ltb 0 n then KParameter else KSymbol) (S n) st
              end
            else if is_alpha char || ch char "_" then emit KWord (S (run_length is_word_char s)) st
            else if is_digit char then emit KNumber (S (run_length is_number_char s)) st
            else emit KSymbol (operator_length (rest st)) st
        end
  end.

(** The loop; [inl] would be an iteration more than the characters of the text. *)
Definition lex (value : string) : state + option (list SelectToken) :=
  while lex_step (Pos.of_succ_nat (slen value)) (State None value []).

Definition tokenize_select_copy (value : string) : option (list SelectToken) :=
  match lex value with inr r => r | inl _ => None end.

Definition _word (t : SelectToken) : option string :=
  match t_kind t with KWord => Some (casefold (t_value t)) | _ => None end.

Example lex_statement :
  tokenize_select_copy "SELECT a.b, 'it''s' -- note
 FROM t /* x /* y */ */ WHERE q >= $1" =
  Some [Token KWord "SELECT"; Token KWord "a"; Token KSymbol "."; Token KWord "b"; Token KSymbol ",";
        Token KString "'it''s'"; Token KWord "FROM"; Token KWord "t"; Token KWord "WHERE"; Token KWord "q";
        Token KSymbol ">="; Token KParameter "$1"].
Proof. vm_compute. reflexivity. Qed.

Example lex_unclosed : tokenize_select_copy "select 'x" = None.
Proof. vm_compute. reflexivity. Qed.

(** ** Facts *)

Lemma run_length_all p s : sall p (stake (run_length p s) s) = true.
Proof. induction s as [|c s IH]; simpl; [done|]. destruct (p c) eqn:E; simpl; [by rewrite E|done]. Qed.

Lemma consume_comment_end d s n :
  _consume_block_comment d s = Some n → ∃ u, stake n s = u +:+ "*/" ∧ (2 ≤ n)%nat.
Proof.
  revert d n. induction s as [s IH] using (induction_ltof1 _ slen). unfold ltof in IH.
  intros d n. destruct s as [|c [|e s]]; simpl; [done|done|].
  destruct (ch c "/" && ch e "*").
  { destruct (Nat.ltb _ _); [done|]. destruct (_consume_block_comment (S d) s) as [m|] eqn:E; [|done].
    simpl. intros [= <-]. apply IH in E as (u & E & ?); [|simpl; lia].
    exists (String c (String e u)). simpl. rewrite E. split; [done|lia]. }
  destruct (ch c "*" && ch e "/") eqn:Ec.
  { apply andb_true_iff in Ec as [Ec Ee]. apply bool_decide_eq_true in Ec, Ee. subst.
    destruct (Nat.eqb _ 0); [intros [= <-]; exists ""; split; [destruct s; done|lia]|].
    destruct (_consume_block_comment (pred d) s) as [m|] eqn:E; [|done]. simpl. intros [= <-].
    apply IH in E as (u & E & ?); [|simpl; lia].
    exists (String "*" (String "/" u)). simpl. rewrite E. split; [done|lia]. }
  change (S <$> _consume_block_comment d (String e s) = Some n → ∃ u, stake n (String c (String e s)) = u +:+ "*/" ∧ 2 ≤ n).
  destruct (_consume_block_comment d (String e s)) as [m|] eqn:E; [|done]. simpl. intros [= <-].
  apply IH in E as (u & E & ?); [|simpl; lia]. exists (String c u).
  change (stake (S m) (String c (String e s))) with (String c (stake m (String e s))).
  rewrite E. split; [done|lia].
Qed.

Lemma find_sub_spec sub s n : find_sub sub s = Some n → startswith sub (sdrop n s) = true.
Proof.
  revert n; induction s as [|c s IH]; intros n; simpl.
  - destruct (startswith sub "") eqn:E; [by intros [= <-]|done].
  - destruct (startswith sub (String c s)) eqn:E; [by intros [= <-]|].
    destruct (find_sub sub s) as [m|]; [|done]. simpl. intros [= <-]. by apply IH.
Qed.

(** *** What a tokenization keeps of the text *)

(** White space and comments. *)
Definition skipped (g : string) : Prop :=
  (∃ c, g = one c ∧ is_space c = true) ∨ (∃ u, g = "--" +:+ u) ∨ (∃ u, g = "/*" +:+ u +:+ "*/").

Definition shaped (t : SelectToken) : Prop :=
  match t_kind t with
  | KWord => ∃ c s, t_value t = String c s ∧ (is_alpha c || ch c "_") = true ∧ sall is_word_char s = true
  | KNumber => ∃ c s, t_value t = String c s ∧ is_digit c = true ∧ sall is_number_char s = true
  | KParameter => ∃ s, t_value t = String "$" s ∧ s ≠ "" ∧ sall is_digit s = true
  | KSymbol => slen (t_value t) = 1 ∨ t_value t ∈ _MULTI_CHARACTER_OPERATORS
  | KString | KIdentifier => True
  end.

(** The text is its tokens, in order, with skipped text between them. *)
Inductive laid_out : string → list SelectToken → Prop :=
  | laid_nil : laid_out "" []
  | laid_skip s ts g : laid_out s ts → skipped g → laid_out (s +:+ g) ts
  | laid_token s ts t : laid_out s ts → shaped t → t_value t ≠ "" →
      laid_out (s +:+ t_value t) (ts ++ [t]).

Definition consumed (n : nat) (st st' : state) : Prop :=
  rest st' = sdrop n (rest st) ∧ (1 ≤ n)%nat ∧
  ((tokens st' = tokens st ∧ skipped (stake n (rest st)))
   ∨ ∃ k, tokens st' = (tokens st ++ [Token k (stake n (rest st))])%list
       ∧ shaped (Token k (stake n (rest st))) ∧ (length (tokens st') ≤ _MAX_TOKENS)%nat).

Lemma emit_consumed k n st st' :
  emit k n st = inl st' → (1 ≤ n)%nat → shaped (Token k (stake n (rest st))) → consumed n st st'.
Proof.
  unfold emit. destruct (Nat.ltb _ _) eqn:E; [done|]. apply Nat.ltb_ge in E. intros [= <-] Hn Hs.
  split_and!; [done|done|]. right. exists k. done.
Qed.

Lemma quoted_consumed k q b n st st' :
  quoted k q b n st = inl st' → (k = KString ∨ k = KIdentifier) → ∃ m, consumed m st st'.
Proof.
  unfold quoted. destruct (_consume_quote _ _ _) as [m|]; [|done]. intros H Hk. exists (S n + m).
  eapply emit_consumed; [exact H|lia|]. by destruct Hk as [-> | ->].
Qed.

Lemma operator_shape s : s ≠ "" → shaped (Token KSymbol (stake (operator_length s) s)).
Proof.
  intros Hs. unfold operator_length. destruct (List.find _ _) as [o|] eqn:E; simpl.
  - apply List.find_some in E as [Ho Hp]. right. apply startswith_spec in Hp as [u ->].
    rewrite stake_app. by apply list_elem_of_In.
  - left. destruct s as [|c s]; [done|by destruct s].
Qed.

Lemma operator_length_pos s : (1 ≤ operator_length s)%nat.
Proof.
  unfold operator_length. destruct (List.find _ _) as [o|] eqn:E; [|lia].
  apply List.find_some in E as [Ho _]. apply list_elem_of_In in Ho.
  assert (H : forallb (λ o, Nat.ltb 0 (slen o)) _MULTI_CHARACTER_OPERATORS = true) by (vm_compute; done).
  rewrite forallb_elem in H. apply H, Nat.ltb_lt in Ho. lia.
Qed.

Lemma lex_step_consumes st st' : lex_step st = inl st' → rest st ≠ "" ∧ ∃ n, consumed n st st'.
Proof.
  unfold lex_step. destruct (rest st) as [|char s] eqn:Er; [done|]. intros H. split; [done|].
  destruct (is_space char) eqn:Esp.
  { injection H as <-. exists 1. unfold consumed, advance; simpl. rewrite Er. split_and!; [done|lia|].
    left. split; [done|]. left. by exists char. }
  destruct (startswith "--" _) eqn:E1.
  { apply startswith_spec in E1 as [u Eu]. rewrite Eu in H.
    destruct (find_sub _ _) as [m|]; injection H as <-; (eexists; split; [done|]); rewrite Er, Eu;
      (split; [simpl; lia|left; split; [done|right; left]]); simpl; eauto. }
  destruct (startswith "/*" _) eqn:E2.
  { apply startswith_spec in E2 as [u Eu]. rewrite Eu in H. simpl in H.
    destruct (_consume_block_comment 1 u) as [m|] eqn:Ec; [|done]. injection H as <-.
    eexists; split; [done|]. rewrite Er, Eu. split; [lia|]. left. split; [done|]. right; right.
    apply consume_comment_end in Ec as (w & Ew & _). exists w. simpl. by rewrite Ew. }
  rewrite <- Er in H.
  destruct (_prefixed_string_quote (rest st)) as [[n b]|]; [eapply quoted_consumed; [exact H|auto]|].
  destruct (ch char quote && _ && _).
  { exists 1. eapply emit_consumed; [exact H|lia|]. left. rewrite Er. done. }
  destruct (ch char quote); [eapply quoted_consumed; [exact H|auto]|].
  destruct (ch char dquote); [eapply quoted_consumed; [exact H|auto]|].
  destruct (ch char "$") eqn:Ed.
  { destruct (_DOLLAR_DELIMITER (rest st)) as [mk|] eqn:Em.
    - destruct (find_sub mk _) as [m|]; [|done]. eexists. eapply emit_consumed; [exact H| |exact I].
      unfold _DOLLAR_DELIMITER in Em. destruct (sdrop 1 (rest st)) as [|c w]; [done|].
      destruct (ch c "$"); [injection Em as <-; simpl; lia|].
      destruct (is_ident_start c); [|done]. case_match; [|done]. injection Em as <-.
      rewrite length_stake, Er. simpl. lia.
    - eexists. eapply emit_consumed; [exact H|lia|]. rewrite Er. cbn [stake].
      apply bool_decide_eq_true in Ed as ->. pose proof (run_length_all is_digit s) as Ha.
      destruct (Nat.ltb 0 (run_length is_digit s)) eqn:E0; unfold shaped; cbn [t_kind t_value].
      + exists (stake (run_length is_digit s) s). split_and!; try done.
        destruct s; simpl in *; [done|]. by destruct (is_digit a).
      + left. apply Nat.ltb_ge in E0. by replace (run_length is_digit s) with 0 by lia. }
  destruct (is_alpha char || ch char "_") eqn:Ea.
  { eexists. eapply emit_consumed; [exact H|lia|]. rewrite Er. cbn [stake]. exists char.
    eexists. split_and!; [done|done|apply run_length_all]. }
  destruct (is_digit char) eqn:Edg.
  { eexists. eapply emit_consumed; [exact H|lia|]. rewrite Er. cbn [stake]. exists char.
    eexists. split_and!; [done|done|apply run_length_all]. }
  eexists. eapply emit_consumed; [exact H|apply operator_length_pos|].
  apply operator_shape. by rewrite Er.
Qed.

(** The loop ends: every iteration shortens the rest. *)
Lemma lex_ends value : ∃ r, lex value = inr r.
Proof.
  apply (while_terminates _ (λ _, True) (λ st, N.of_nat (slen (rest st)))); [|done|simpl; lia].
  intros st st' _ H. split; [done|].
  apply lex_step_consumes in H as (Hne & n & -> & Hn & _). rewrite length_sdrop.
  destruct (rest st); [done|]. simpl. lia.
Qed.

(** ** Properties *)

(** Tokenizing always ends, and an accepted text is exactly its tokens: they
    are non-empty pieces of the text, in order, with nothing but white space
    and comments before, between and after them; words, numbers, parameters and
    symbols have the lexical form of their kind, and there are at most 512. *)
Theorem tokenize_layout value :
  (∃ r, lex value = inr r)
  ∧ ∀ ts, tokenize_select_copy value = Some ts → laid_out value ts ∧ (length ts ≤ _MAX_TOKENS)%nat.
Proof.
  split; [apply lex_ends|]. intros ts. unfold tokenize_select_copy.
  destruct (lex_ends value) as [r Hr]. rewrite Hr. intros ->. unfold lex in Hr. revert ts Hr.
  enough (G : ∀ r, while lex_step (Pos.of_succ_nat (slen value)) (State None value []) = inr r →
            ∀ ts, r = Some ts → laid_out value ts ∧ (length ts ≤ _MAX_TOKENS)%nat) by eauto.
  intros r. apply (while_inv _
    (λ st, (∃ done, value = done +:+ rest st ∧ laid_out done (tokens st)) ∧ (length (tokens st) ≤ _MAX_TOKENS)%nat)
    (λ r, ∀ ts, r = Some ts → laid_out value ts ∧ (length ts ≤ _MAX_TOKENS)%nat)).
  - intros st st' [(u & -> & Hl) Hlen] H. apply lex_step_consumes in H as (Hne & n & Er & Hn & H).
    assert (Hv : u +:+ rest st = (u +:+ stake n (rest st)) +:+ rest st').
    { by rewrite Er, app_assoc_s, stake_sdrop. }
    rewrite Hv. destruct H as [[Et Hs]|(k & Et & Hs & Hmax)].
    + rewrite Et. split; [|done]. eexists. split; [done|]. by apply laid_skip.
    + split; [|done]. rewrite Et. eexists. split; [done|].
      apply (laid_token u (tokens st) (Token k (stake n (rest st)))); [done|done|].
      simpl. destruct (rest st); [done|]. destruct n; [lia|done].
  - intros st r' [(u & Hu & Hl) Hlen] H ts ->. unfold lex_step in H.
    destruct (rest st) as [|c s] eqn:Er; [|exfalso].
    + injection H as <-. rewrite app_nil_r_s in Hu. by subst.
    + assert (Hemit : ∀ k n, emit k n st ≠ inr (Some ts)) by (intros k n; unfold emit; step_if E).
      assert (Hq : ∀ k q b n, quoted k q b n st ≠ inr (Some ts)).
      { intros k q b n. unfold quoted. destruct (_consume_quote _ _ _); [apply Hemit|intros Hx; discriminate Hx]. }
      repeat case_match; first [discriminate H|by apply Hemit in H|by apply Hq in H].
  - split; [|simpl; lia]. exists "". split; [done|constructor].
Qed.

Lemma tokenize_layout_witness :
  laid_out "a /* b */ + 'c'" [Token KWord "a"; Token KSymbol "+"; Token KString "'c'"].
Proof.
  refine (proj1 (proj2 (tokenize_layout "a /* b */ + 'c'") _ _)). vm_compute. reflexivity.
Defined.
