(* ===== verification/SqlGuard.v ===== *)
(** The detector of SQL text in public output (console/app/services:
    public_sql_runtime_catalog.py, public_sql_ddl_prefix.py,
    public_sql_prefix_shapes.py, public_sql_prefix_grammar.py,
    public_sql_statement_scanner.py, public_sql_select_grammar.py): the statement
    heads, the prefixes that make a statement of a head, and the two scanners. *)
From S2P Require Import Prelude PyStr SqlLexer.

Open Scope nat_scope.

(** ** public_sql_runtime_catalog.py *)

Definition STRUCTURAL_HEADS : list string :=
  [
   "call"; "copy"; "desc"; "describe"; "grant"; "set"; "show"; "use"].

Definition FAIL_CLOSED_HEADS : list string :=
  [
   "abort"; "alter"; "analyse"; "analyze"; "attach"; "begin"; "checkpoint"; "close"; "cluster";
   "comment"; "commit"; "create"; "deallocate"; "declare"; "delete"; "detach"; "discard"; "do";
   "drop"; "end"; "exec"; "execute"; "explain"; "export"; "fetch"; "force"; "from"; "import";
   "insert"; "install"; "listen"; "load"; "lock"; "merge"; "move"; "notify"; "pivot";
   "pivot_wider"; "pragma"; "prepare"; "reassign"; "refresh"; "reindex"; "release"; "reset";
   "revoke"; "rollback"; "savepoint"; "security"; "select"; "start"; "summarize"; "table";
   "truncate"; "unlisten"; "unpivot"; "update"; "vacuum"; "values"; "with"].

(** The keys of [STATEMENT_HEAD_POLICIES]. *)
Definition STATEMENT_HEADS : list string := (STRUCTURAL_HEADS ++ FAIL_CLOSED_HEADS)%list.

(** ** Tokens *)

Definition sym (v : string) : SelectToken := Token KSymbol v.
Definition is_sym (v : string) (t : SelectToken) : bool := bool_decide (t = sym v).
Definition has_value (v : string) (t : SelectToken) : bool := bool_decide (t_value t = v).
Definition is_name (t : SelectToken) : bool := mem (t_kind t) [KIdentifier; KWord].

(** [_word(token) in {...}], [_word(token) == w] and the tests at an index. *)
Definition word_in (ws : list string) (t : SelectToken) : bool :=
  match _word t with Some w => mem w ws | None => false end.
Definition word_is (w : string) (t : SelectToken) : bool := word_in [w] t.
Definition at_index (p : SelectToken → bool) (ts : list SelectToken) (i : nat) : bool :=
  match ts !! i with Some t => p t | None => false end.

(** ** public_sql_ddl_prefix.py *)

Definition DDL_OBJECT_WORDS : list string :=
  [
   "access"; "aggregate"; "cast"; "collation"; "conversion"; "database"; "domain"; "event";
   "extension"; "foreign"; "function"; "group"; "index"; "language"; "large"; "macro";
   "materialized"; "operator"; "policy"; "procedure"; "publication"; "role"; "routine"; "rule";
   "schema"; "secret"; "sequence"; "server"; "statistics"; "subscription"; "table"; "tablespace";
   "text"; "transform"; "trigger"; "type"; "user"; "view"].

Definition _REPLACE_OBJECTS : list string :=
  [
   "aggregate"; "function"; "language"; "macro"; "procedure"; "rule"; "schema"; "secret";
   "sequence"; "table"; "transform"; "trigger"; "view"].

Definition _TEMP_OBJECTS : list string :=
  [
   "macro"; "sequence"; "table"; "view"].

Definition _TEMPORARY_OBJECTS : list string := (_TEMP_OBJECTS ++ ["secret"])%list.
Definition _GLOBAL_TEMP_OBJECTS : list string :=
  [
   "sequence"; "table"; "view"].

Definition _LOCAL_TEMP_OBJECTS : list string := _TEMP_OBJECTS.
Definition _REPLACE_GLOBAL_TEMP_OBJECTS : list string :=
  [
   "view"].

Definition _CREATE_MODIFIER_OBJECTS : list (list string * list string) :=
  [(["or"; "replace"], _REPLACE_OBJECTS);
   (["temp"], _TEMP_OBJECTS);
   (["temporary"], _TEMPORARY_OBJECTS);
   (["global"; "temp"], _GLOBAL_TEMP_OBJECTS);
   (["global"; "temporary"], _GLOBAL_TEMP_OBJECTS);
   (["local"; "temp"], _LOCAL_TEMP_OBJECTS);
   (["local"; "temporary"], _LOCAL_TEMP_OBJECTS);
   (["persistent"], ["secret"]);
   (["unlogged"], ["materialized"; "sequence"; "table"; "view"]);
   (["unique"], ["index"]);
   (["default"], ["conversion"]);
   (["constraint"], ["trigger"]);
   (["trusted"], ["language"]);
   (["procedural"], ["language"]);
   (["trusted"; "procedural"], ["language"]);
   (["or"; "replace"; "temp"], _TEMP_OBJECTS);
   (["or"; "replace"; "temporary"], _TEMPORARY_OBJECTS);
   (["or"; "replace"; "global"; "temp"], _REPLACE_GLOBAL_TEMP_OBJECTS);
   (["or"; "replace"; "global"; "temporary"], _REPLACE_GLOBAL_TEMP_OBJECTS);
   (["or"; "replace"; "local"; "temp"], _LOCAL_TEMP_OBJECTS);
   (["or"; "replace"; "local"; "temporary"], _LOCAL_TEMP_OBJECTS);
   (["or"; "replace"; "persistent"], ["secret"]);
   (["or"; "replace"; "trusted"], ["language"]);
   (["or"; "replace"; "procedural"], ["language"]);
   (["or"; "replace"; "trusted"; "procedural"], ["language"])].

Definition _DROP_MODIFIER_OBJECTS : list (list string * list string) :=
  [(["persistent"], ["secret"]);
   (["procedural"], ["language"]);
   (["temporary"], ["secret"])].

Definition _ALTER_MODIFIER_OBJECTS : list (list string * list string) :=
  [(["procedural"], ["language"])].

Definition _matches_modifier_object (tail : list SelectToken) (modifiers objects : list string) : bool :=
  let object_index := length modifiers in
  Nat.ltb object_index (length tail)
  && forallb (λ tw, word_is tw.2 tw.1) (zip tail modifiers)
  && at_index (word_in objects) tail object_index.

Definition ddl_prefix (head : string) (tail : list SelectToken) : bool :=
  at_index (word_in DDL_OBJECT_WORDS) tail 0
  || existsb (λ mo, _matches_modifier_object tail mo.1 mo.2)
       (if bool_decide (head = "create") then _CREATE_MODIFIER_OBJECTS
        else if bool_decide (head = "alter") then _ALTER_MODIFIER_OBJECTS
        else if bool_decide (head = "drop") then _DROP_MODIFIER_OBJECTS else []).

(** ** public_sql_prefix_shapes.py *)

Definition _PRIVILEGES : list string :=
  [
   "all"; "connect"; "create"; "delete"; "execute"; "insert"; "privileges"; "references"; "select";
   "temporary"; "trigger"; "truncate"; "update"; "usage"].

Definition _GRANT_OBJECTS : list string :=
  [
   "database"; "domain"; "foreign"; "function"; "language"; "large"; "procedure"; "routine";
   "schema"; "sequence"; "server"; "table"; "tablespace"; "type"].

(** The tokens of the [.name] parts that follow a name. *)
Fixpoint name_tail (ts : list SelectToken) : nat :=
  match ts with
  | d :: n :: ts => if is_sym "." d && is_name n then 2 + name_tail ts else 0
  | _ => 0
  end.

Definition _name_end (ts : list SelectToken) (start : nat) : option nat :=
  match drop start ts with
  | t :: rest => if is_name t then Some (start + 1 + name_tail rest) else None
  | [] => None
  end.

(** The loop of [_group_end], [index] tokens in. *)
Fixpoint group_scan (depth : Z) (index : nat) (ts : list SelectToken) : option nat :=
  match ts with
  | [] => None
  | t :: ts =>
      if is_sym "(" t then group_scan (depth + 1) (S index) ts
      else if is_sym ")" t then
        if (depth - 1 =? 0)%Z then Some (S index) else group_scan (depth - 1) (S index) ts
      else group_scan depth (S index) ts
  end.

Definition _group_end (ts : list SelectToken) (start : nat) : option nat :=
  if at_index (has_value "(") ts start then group_scan 0 start (drop start ts) else None.

Definition _target_end (ts : list SelectToken) (start : nat) : option nat :=
  match ts !! start with
  | None => None
  | Some t =>
      if bool_decide (t_kind t = KString) then Some (S start)
      else if is_sym "(" t then _group_end ts start
      else
        match _name_end ts start with
        | Some e => if at_index (has_value "(") ts e then _group_end ts e else Some e
        | None => None
        end
  end.

Definition _assignment_after_name (ts : list SelectToken) (start : nat) : bool :=
  match _name_end ts start with
  | Some e => at_index (λ t, is_sym "=" t || word_is "to" t) ts e
  | None => false
  end.

Definition call_prefix (tail : list SelectToken) : bool :=
  match _name_end tail 0 with Some e => at_index (has_value "(") tail e | None => false end.

Definition copy_prefix (tail : list SelectToken) : bool :=
  let start := if at_index (word_is "binary") tail 0 then 1 else 0 in
  match _target_end tail start with Some e => at_index (word_in ["from"; "to"]) tail e | None => false end.

(** The loop over the comma-separated names: [None] for its early return. *)
Fixpoint more_names (fuel : nat) (tail : list SelectToken) (e : nat) : option nat :=
  match fuel with
  | O => Some e
  | S fuel =>
      if Nat.ltb (e + 1) (length tail) && at_index (has_value ",") tail e then
        match _name_end tail (e + 1) with None => None | Some e => more_names fuel tail e end
      else Some e
  end.

(** The loop over the comma-separated targets. *)
Fixpoint more_targets (fuel : nat) (tail : list SelectToken) (e : option nat) : option nat :=
  match fuel, e with
  | S fuel, Some i =>
      if Nat.ltb (i + 1) (length tail) && at_index (has_value ",") tail i
      then more_targets fuel tail (_target_end tail (i + 1)) else e
  | _, _ => e
  end.

Definition find_word (w : string) (tail : list SelectToken) : option nat :=
  fst <$> list_find (λ t, word_is w t = true) tail.

Definition grant_or_revoke_prefix (tail : list SelectToken) (direction : string) : bool :=
  match _name_end tail 0 with
  | None => false
  | Some first_end =>
      match more_names (length tail) tail first_end with
      | None => false
      | Some first_end =>
          if at_index (word_is direction) tail first_end then true
          else
            match find_word "on" tail with
            | None => false
            | Some on_index =>
                if negb (existsb (word_in _PRIVILEGES) (take on_index tail)) then false
                else
                  let target_start := on_index + 1 in
                  let target_start :=
                    if at_index (word_in _GRANT_OBJECTS) tail target_start then target_start + 1
                    else target_start in
                  match more_targets (length tail) tail (_target_end tail target_start) with
                  | Some e => at_index (word_is direction) tail e
                  | None => false
                  end
            end
      end
  end.

Definition pivot_prefix (tail : list SelectToken) : bool :=
  match _target_end tail 0 with
  | None => false
  | Some e =>
      let e := if Nat.ltb (e + 1) (length tail) && at_index (word_is "as") tail e
               then default e (_name_end tail (e + 1)) else e in
      at_index (word_in ["on"; "using"]) tail e
      || (at_index (word_is "group") tail e && at_index (word_is "by") tail (e + 1))
  end.

Fixpoint set_prefix (tail : list SelectToken) : bool :=
  match tail with
  | [] => false
  | t0 :: rest =>
      if word_is "variable" t0 then _assignment_after_name tail 1
      else if word_in ["names"; "role"; "schema"] t0 then Nat.leb 2 (length tail)
      else if word_is "time" t0 then Nat.leb 3 (length tail) && at_index (word_is "zone") tail 1
      else if word_is "transaction" t0 then Nat.leb 2 (length tail)
      else if word_is "constraints" t0 then
        Nat.leb 3 (length tail) && at_index (word_in ["deferred"; "immediate"]) tail 2
      else if word_in ["local"; "session"] t0 then
        if word_is "session" t0 && Nat.leb 4 (length tail) && at_index (word_is "characteristics") tail 1
           && at_index (word_is "as") tail 2 && at_index (word_is "transaction") tail 3 then true
        else if Nat.leb 3 (length tail) && at_index (word_in ["authorization"; "transaction"]) tail 1 then true
        else set_prefix rest
      else if word_is "xml" t0 then
        Nat.leb 3 (length tail) && at_index (word_is "option") tail 1
        && at_index (word_in ["content"; "document"]) tail 2
      else _assignment_after_name tail 0
  end.

Definition update_prefix (tail : list SelectToken) : bool :=
  match _name_end tail 0 with
  | None => false
  | Some e =>
      let more := Nat.ltb (e + 1) (length tail) in
      let e := if more && at_index (word_is "as") tail e then default e (_name_end tail (e + 1))
               else if more && negb (at_index (word_is "set") tail e) then default e (_name_end tail e)
               else e in
      at_index (word_is "set") tail e
  end.

Definition with_prefix (tail : list SelectToken) : bool :=
  let start := if at_index (word_is "recursive") tail 0 then 1 else 0 in
  match _name_end tail start with
  | None => false
  | Some e =>
      let e := if at_index (has_value "(") tail e then default e (_group_end tail e) else e in
      if negb (at_index (word_is "as") tail e) then false
      else
        let e := e + 1 in
        if at_index (word_is "not") tail e then
          if at_index (word_is "materialized") tail (e + 1) then at_index (has_value "(") tail (e + 2) else false
        else
          let e := if at_index (word_is "materialized") tail e then e + 1 else e in
          at_index (has_value "(") tail e
  end.

(** ** public_sql_prefix_grammar.py *)

Definition _NO_ARGUMENT_HEADS : list string :=
  [
   "abort"; "analyse"; "analyze"; "begin"; "checkpoint"; "cluster"; "commit"; "end"; "rollback";
   "vacuum"].

Definition _NAME_HEADS : list string :=
  [
   "close"; "deallocate"; "detach"; "exec"; "execute"; "install"; "listen"; "load"; "notify";
   "pragma"; "savepoint"; "summarize"; "table"; "use"].

Definition _has_word (ts : list SelectToken) (expected : list string) : bool := existsb (word_in expected) ts.

Definition _starts_with_words (ts : list SelectToken) (words : list string) : bool :=
  Nat.leb (length words) (length ts) && forallb (λ tw, word_is tw.2 tw.1) (zip ts words).

Definition _has_name (ts : list SelectToken) (start : nat) : bool :=
  match _name_end ts start with Some _ => true | None => false end.

Definition _has_target (ts : list SelectToken) (start : nat) : bool :=
  at_index (λ t, mem (t_kind t) [KIdentifier; KString; KWord] || is_sym "(" t) ts start.

Definition head_is (head : string) (heads : list string) : bool := mem head heads.

Definition has_complete_statement_prefix (head : string) (tail : list SelectToken) : bool :=
  let first p := at_index p tail 0 in
  if mem head _NO_ARGUMENT_HEADS || bool_decide (head = "select") then true
  else if mem head _NAME_HEADS then _has_target tail 0
  else if head_is head ["desc"; "describe"] then _has_name tail 0
  else if head_is head ["show"] then bool_decide (tail = []) || _has_name tail 0
  else if head_is head ["from"] then _has_target tail 0
  else if head_is head ["truncate"] then
    if _starts_with_words tail ["table"] then _has_name tail 1 else _has_name tail 0
  else if head_is head ["pivot"; "pivot_wider"; "unpivot"] then pivot_prefix tail
  else if head_is head ["call"] then call_prefix tail
  else if head_is head ["set"] then set_prefix tail
  else if head_is head ["reset"] then
    if _starts_with_words tail ["variable"] then _has_name tail 1 else _has_name tail 0
  else if head_is head ["copy"] then copy_prefix tail
  else if head_is head ["grant"] then grant_or_revoke_prefix tail "to"
  else if head_is head ["revoke"] then grant_or_revoke_prefix tail "from"
  else if head_is head ["update"] then update_prefix tail
  else if head_is head ["merge"] then _starts_with_words tail ["into"] && _has_word (drop 1 tail) ["using"]
  else if head_is head ["insert"] then _starts_with_words tail ["into"]
  else if head_is head ["delete"] then _starts_with_words tail ["from"]
  else if head_is head ["alter"; "create"; "drop"] then ddl_prefix head tail
  else if head_is head ["values"] then first (is_sym "(")
  else if head_is head ["with"] then with_prefix tail
  else if head_is head ["attach"] then
    if _starts_with_words tail ["database"] then _has_target tail 1 else _has_target tail 0
  else if head_is head ["comment"] then _starts_with_words tail ["on"] && _has_word (drop 1 tail) ["is"]
  else if head_is head ["declare"] then _has_word tail ["cursor"] && _has_word tail ["for"]
  else if head_is head ["discard"] then first (word_in ["all"; "plans"; "sequences"; "temp"; "temporary"])
  else if head_is head ["do"] then
    if first (λ t, bool_decide (t_kind t = KString)) then true
    else
      match (if _starts_with_words tail ["language"] then _name_end tail 1 else None) with
      | Some e => at_index (λ t, bool_decide (t_kind t = KString)) tail e
      | None => false
      end
  else if head_is head ["explain"] then _has_word tail STATEMENT_HEADS
  else if head_is head ["export"; "import"] then first (word_in ["database"; "foreign"])
  else if head_is head ["fetch"; "move"] then _has_word tail ["from"; "in"]
  else if head_is head ["force"] then first (word_in ["checkpoint"; "install"])
  else if head_is head ["lock"] then
    let target := if _starts_with_words tail ["table"] then 1 else 0 in
    let target := if at_index (word_is "only") tail target then target + 1 else target in
    _has_name tail target
  else if head_is head ["prepare"] then _has_word tail ["as"; "transaction"]
  else if head_is head ["reassign"] then _starts_with_words tail ["owned"]
  else if head_is head ["refresh"] then _starts_with_words tail ["materialized"; "view"]
  else if head_is head ["reindex"] then first (word_in ["database"; "index"; "schema"; "system"; "table"])
  else if head_is head ["release"] then
    if _starts_with_words tail ["savepoint"] then _has_name tail 1 else _has_name tail 0
  else if head_is head ["security"] then
    if _starts_with_words tail ["label"; "on"] then Nat.leb 4 (length tail) && _has_target tail 3
    else
      match (if _starts_with_words tail ["label"; "for"] then _name_end tail 2 else None) with
      | Some e => Nat.ltb (e + 2) (length tail) && at_index (word_is "on") tail e && _has_target tail (e + 2)
      | None => false
      end
  else if head_is head ["start"] then first (word_in ["transaction"; "work"])
  else if head_is head ["unlisten"] then first (λ _, true) && (_has_name tail 0 || first (has_value "*"))
  else false.

(** ** public_sql_statement_scanner.py *)

Definition _MAX_SCAN_LENGTH : nat := 8192.
Definition _MAX_NESTING_DEPTH : nat := 64.

(** A word of [ws] in the lower-cased text, with no [bad] character before or after it. *)
Fixpoint search_word (bad : ascii → bool) (ws : list string) (before_bad : bool) (s : string) : bool :=
  (negb before_bad &&
   existsb (λ w, startswith w s && negb (match char_at 0 (sdrop (slen w) s) with Some c => bad c | None => false end)) ws)
  || match s with "" => false | String c s => search_word bad ws (bad c) s end.

(** [_HEAD_WORD.search(value)]. *)
Definition _HEAD_WORD (value : string) : bool := search_word is_word_char STATEMENT_HEADS false (lower value).

Definition _statement_tail (ts : list SelectToken) (start : nat) : list SelectToken :=
  drop 1 (take (default (length (drop start ts)) (fst <$> list_find (λ t, is_sym ";" t = true) (drop start ts)))
            (drop start ts)).

Definition opener (v : string) : option string :=
  match v with ")" => Some "(" | "]" => Some "[" | "}" => Some "{" | _ => None end.

(** The loop of [_has_invalid_nesting]; the stack's top is first. *)
Fixpoint nesting_scan (stack : list string) (ts : list SelectToken) : bool :=
  match ts with
  | [] => negb (bool_decide (stack = []))
  | t :: ts =>
      if bool_decide (t_kind t ≠ KSymbol) then nesting_scan stack ts
      else if mem (t_value t) ["("; "["; "{"] then
        if Nat.ltb _MAX_NESTING_DEPTH (S (length stack)) then true else nesting_scan (t_value t :: stack) ts
      else
        match opener (t_value t) with
        | Some o =>
            match stack with
            | top :: stack => if bool_decide (top = o) then nesting_scan stack ts else true
            | [] => true
            end
        | None => nesting_scan stack ts
        end
  end.
Definition _has_invalid_nesting (ts : list SelectToken) : bool := nesting_scan [] ts.

Definition statement_at (ts : list SelectToken) (index : nat) : bool :=
  match _word <$> ts !! index with
  | Some (Some head) => mem head STATEMENT_HEADS && has_complete_statement_prefix head (_statement_tail ts index)
  | _ => false
  end.

Definition contains_runtime_sql (value : string) : bool :=
  if negb (_HEAD_WORD value) then false
  else if Nat.ltb _MAX_SCAN_LENGTH (slen value) then true
  else
    match tokenize_select_copy value with
    | None => true
    | Some ts => if _has_invalid_nesting ts then true else existsb (statement_at ts) (seq 0 (length ts))
    end.

(** ** public_sql_select_grammar.py *)

Definition _SQL_PROJECTION_WORDS : list string :=
  [
   "all"; "and"; "any"; "array"; "as"; "asc"; "at"; "between"; "by"; "case"; "collate"; "cross";
   "desc"; "distinct"; "else"; "end"; "escape"; "except"; "false"; "fetch"; "filter"; "first";
   "for"; "full"; "glob"; "group"; "having"; "in"; "ilike"; "inner"; "intersect"; "into"; "is";
   "isnull"; "join"; "last"; "lateral"; "left"; "like"; "like_regex"; "limit"; "match"; "natural";
   "not"; "notnull"; "null"; "offset"; "on"; "only"; "or"; "order"; "outer"; "over"; "partition";
   "qualify"; "regexp"; "returning"; "right"; "rlike"; "rows"; "similar"; "some"; "tablesample";
   "then"; "time"; "true"; "union"; "unknown"; "using"; "when"; "where"; "window"; "within";
   "with"; "zone"].

(** [_SELECT_WORD.search(value)]. *)
Definition _SELECT_WORD (value : string) : bool := search_word is_name_char ["select"] false (lower value).

(** The loop over a projection: [true] for its early returns, or the final depth. *)
Fixpoint projection_scan (depth : Z) (items : list SelectToken) : bool + Z :=
  match items with
  | [] => inr depth
  | t :: items =>
      let symbol := bool_decide (t_kind t = KSymbol) in
      let depth' :=
        if symbol && mem (t_value t) ["("; "["] then (depth + 1)%Z
        else if symbol && mem (t_value t) [")"; "]"] then (depth - 1)%Z else depth in
      if symbol && mem (t_value t) ["("; "["] && (Z.of_nat _MAX_NESTING_DEPTH <? depth')%Z then inl true
      else if symbol && mem (t_value t) [")"; "]"] && (depth' <? 0)%Z then inl true
      else if mem (t_kind t) [KString; KNumber; KParameter] then inl true
      else if symbol then inl true
      else if word_in _SQL_PROJECTION_WORDS t then inl true
      else projection_scan depth' items
  end.

(** One pass of the loop at a [select]; [true] when it returns. *)
Definition projection_is_sql (projection : list SelectToken) : bool :=
  match last projection with
  | None => true
  | Some final =>
      if existsb (word_is "from") (take (length projection - 1) projection) then true
      else
        let projection :=
          if bool_decide (t_kind final = KSymbol) && mem (t_value final) ["."; "!"; "?"]
          then take (length projection - 1) projection else projection in
        match projection with
        | [] => true
        | t0 :: rest =>
            match (if word_in ["all"; "distinct"] t0 then rest else projection) with
            | [] => true
            | projection =>
                match projection_scan 0 projection with
                | inl b => b
                | inr depth =>
                    if negb (depth =? 0)%Z then true
                    else
                      let identifiers := List.filter is_name projection in
                      Nat.eqb (length identifiers) (length projection) && Nat.leb (length identifiers) 2
                end
            end
        end
  end.

Definition _select_tokens_are_sql (ts : list SelectToken) : bool :=
  existsb (λ i, at_index (word_is "select") ts i && projection_is_sql (drop (S i) ts)) (seq 0 (length ts)).

Definition contains_public_select_sql (value : string) : bool :=
  if Nat.ltb _MAX_SCAN_LENGTH (slen value) || negb (_SELECT_WORD value) then false
  else match tokenize_select_copy value with None => true | Some ts => _select_tokens_are_sql ts end.

Example runtime_sql_examples :
  contains_runtime_sql "please GRANT select ON table t TO bob" = true
  ∧ contains_runtime_sql "we call the client and set expectations" = false
  ∧ contains_runtime_sql "with t as (select 1)" = true.
Proof. vm_compute. done. Qed.

(** ** Fuel *)

Lemma name_end_gt ts start e : _name_end ts start = Some e → start < e.
Proof. unfold _name_end. destruct (drop start ts) as [|t r]; [done|]. destruct (is_name t); [|done]. intros [= <-]. lia. Qed.

(** More fuel than the tokens left changes nothing in the comma-separated names. *)
Lemma more_names_fuel tail e f g :
  length tail - e ≤ f → length tail - e ≤ g → more_names f tail e = more_names g tail e.
Proof.
  revert e g; induction f as [|f IH]; intros e [|g] Hf Hg; cbn [more_names]; try done.
  - destruct (Nat.ltb (e + 1) (length tail)) eqn:E; [apply Nat.ltb_lt in E; lia|done].
  - destruct (Nat.ltb (e + 1) (length tail)) eqn:E; [apply Nat.ltb_lt in E; lia|done].
  - destruct (_ && _); [|done]. destruct (_name_end tail (e + 1)) as [e'|] eqn:E; [|done].
    apply name_end_gt in E. apply IH; lia.
Qed.

(** ** Nesting *)

Definition is_bracket (t : SelectToken) : bool :=
  bool_decide (t_kind t = KSymbol) && mem (t_value t) ["("; "["; "{"; ")"; "]"; "}"].

(** [c] closes [o]. *)
Definition matching (o c : SelectToken) : Prop :=
  (o = sym "(" ∧ c = sym ")") ∨ (o = sym "[" ∧ c = sym "]") ∨ (o = sym "{" ∧ c = sym "}").

(** Well-bracketed tokens, at most [d] groups deep. *)
Inductive balanced : nat → list SelectToken → Prop :=
  | bal_nil d : balanced d []
  | bal_plain d t ts : is_bracket t = false → balanced d ts → balanced d (t :: ts)
  | bal_group d o inner c ts : matching o c → balanced d inner → balanced (S d) ts →
      balanced (S d) (o :: inner ++ c :: ts).

Lemma scan_plain stack t ts : is_bracket t = false → nesting_scan stack (t :: ts) = nesting_scan stack ts.
Proof.
  intros H. cbn [nesting_scan]. case_bool_decide as Hk; [done|].
  unfold is_bracket in H. rewrite bool_decide_eq_true_2 in H by done. cbn [andb] in H.
  apply mem_false in H.
  destruct (mem (t_value t) ["("; "["; "{"]) eqn:E; [apply mem_true in E; set_solver|].
  destruct (opener (t_value t)) as [o|] eqn:Eo; [|done]. exfalso. apply H. unfold opener in Eo.
  repeat case_match; simplify_eq; decide_now.
Qed.

Lemma scan_open stack o c ts :
  matching o c → length stack < _MAX_NESTING_DEPTH →
  nesting_scan stack (o :: ts) = nesting_scan (t_value o :: stack) ts.
Proof.
  intros H Hl. apply Nat.ltb_ge in Hl.
  destruct H as [[-> ->]|[[-> ->]|[-> ->]]]; cbn [nesting_scan sym t_value t_kind mem];
    (rewrite bool_decide_eq_false_2 by (by intros []));
    rewrite Hl; rewrite (proj2 (mem_true _ _)) by decide_now; done.
Qed.

Lemma scan_close stack o c ts :
  matching o c → nesting_scan (t_value o :: stack) (c :: ts) = nesting_scan stack ts.
Proof. intros [[-> ->]|[[-> ->]|[-> ->]]]; reflexivity. Qed.

Lemma balanced_scan d ts :
  balanced d ts → ∀ stack k, length stack + d ≤ _MAX_NESTING_DEPTH →
  nesting_scan stack (ts ++ k) = nesting_scan stack k.
Proof.
  induction 1 as [d|d t ts Ht _ IH|d o inner c ts Hm _ IH1 _ IH2]; intros stack k Hl; [done| |].
  - rewrite <- app_comm_cons, scan_plain by done. by apply IH.
  - rewrite <- app_comm_cons, <- app_assoc, <- app_comm_cons.
    rewrite (scan_open _ o c) by (done || lia). rewrite IH1 by (simpl; lia).
    rewrite (scan_close _ o c) by done. by apply IH2.
Qed.

(** What remains to be read when [stack] is open. *)
Fixpoint closes (stack : list string) (ts : list SelectToken) : Prop :=
  match stack with
  | [] => balanced _MAX_NESTING_DEPTH ts
  | o :: stack' => ∃ inner c rest, ts = (inner ++ c :: rest)%list ∧ matching (sym o) c
      ∧ balanced (_MAX_NESTING_DEPTH - length stack) inner ∧ closes stack' rest
  end.

Lemma closes_plain stack t ts : is_bracket t = false → closes stack ts → closes stack (t :: ts).
Proof.
  intros Ht. destruct stack as [|o stack]; simpl; [by apply bal_plain|].
  intros (inner & c & rest & -> & Hm & Hb & Hc). exists (t :: inner), c, rest.
  split_and!; try done. by apply bal_plain.
Qed.

Lemma closes_open stack o ts :
  length stack < _MAX_NESTING_DEPTH → closes (o :: stack) ts → closes stack (sym o :: ts).
Proof.
  intros Hl (inner & c & rest & -> & Hm & Hb & Hc). destruct stack as [|o' stack]; simpl in *.
  - by apply (bal_group 63).
  - destruct Hc as (inner' & c' & rest' & -> & Hm' & Hb' & Hc').
    exists (sym o :: inner ++ c :: inner')%list, c', rest'. split_and!; try done.
    + by rewrite <- app_comm_cons, <- app_assoc, <- app_comm_cons.
    + replace (63 - length stack) with (S (62 - length stack)) in * by (unfold _MAX_NESTING_DEPTH in *; lia).
      by apply bal_group.
Qed.

Lemma scan_closes ts stack :
  length stack ≤ _MAX_NESTING_DEPTH → nesting_scan stack ts = false → closes stack ts.
Proof.
  revert stack; induction ts as [|t ts IH]; intros stack Hl Hs.
  - simpl in Hs. apply negb_false_iff, bool_decide_eq_true in Hs as ->. constructor.
  - destruct (is_bracket t) eqn:Eb.
    2:{ apply closes_plain; [done|]. apply IH; [done|]. by rewrite scan_plain in Hs. }
    unfold is_bracket in Eb. apply andb_true_iff in Eb as [Ek Em]. apply bool_decide_eq_true in Ek.
    destruct t as [k v]. simpl in Ek. subst k. cbn [nesting_scan t_kind t_value] in Hs.
    rewrite bool_decide_eq_false_2 in Hs by (by intros []).
    destruct (mem v ["("; "["; "{"]) eqn:Eo.
    { destruct (Nat.ltb _ _) eqn:E in Hs; [done|]. apply Nat.ltb_ge in E.
      apply closes_open; [lia|]. apply IH; [simpl; lia|done]. }
    destruct (opener v) as [o|] eqn:Ev.
    + destruct stack as [|top stack]; [done|]. case_bool_decide; [subst top|done].
      exists [], (Token KSymbol v), ts. split_and!; [done| |constructor|apply IH; [simpl in Hl; lia|done]].
      unfold opener in Ev. unfold matching, sym. repeat case_match; simplify_eq; eauto 10.
    + exfalso. apply mem_false in Eo. apply mem_true in Em. cbn [t_value] in Em.
      rewrite !elem_of_cons in Em. destruct Em as [->|[->|[->|[->|[->|[->|Em]]]]]]; try done;
        [apply Eo; decide_now..|by apply elem_of_nil in Em].
Qed.

(** ** Properties *)

(** The nesting test accepts exactly the token lists whose brackets are
    balanced, each closed by its own kind, with at most 64 open at once. *)
Theorem nesting_exact ts : _has_invalid_nesting ts = false ↔ balanced _MAX_NESTING_DEPTH ts.
Proof.
  split.
  - apply (scan_closes ts []). simpl. lia.
  - intros H. unfold _has_invalid_nesting. rewrite <- (app_nil_r ts).
    by rewrite (balanced_scan _ _ H []) by (simpl; lia).
Qed.

(** A text for each head whose tokens complete a statement of that head. *)
Definition sample_tails : list (list SelectToken) :=
  (λ s, default [] (tokenize_select_copy s)) <$>
    [""; "t"; "f (x)"; "t from u"; "x to y"; "name = 1"; "into t using s"; "from t"; "table t"; "on x is y";
     "c cursor for q"; "all"; "'body'"; "select"; "database"; "checkpoint"; "x as y"; "owned by r";
     "materialized view v"; "index i"; "label on table t"; "transaction"; "t as (q)"; "t set c";
     "select on t to u"; "select on t from u"; "t on c"; "(1)"].

(** The statement grammar and the catalog of statement heads are the same:
    a head has a tail that completes a statement exactly when it is in the
    catalog, so no catalogued head is dead and no other head can match. *)
Theorem heads_have_productions head :
  head ∈ STATEMENT_HEADS ↔ ∃ tail, has_complete_statement_prefix head tail = true.
Proof.
  split.
  - intros Hh.
    assert (H : forallb (λ h, existsb (has_complete_statement_prefix h) sample_tails) STATEMENT_HEADS = true)
      by (vm_compute; reflexivity).
    rewrite forallb_elem in H. apply H, existsb_elem in Hh as (tail & _ & Ht). eauto.
  - intros [tail Ht].
    assert (Hsub : ∀ l, forallb (λ h, mem h STATEMENT_HEADS) l = true → mem head l = true → head ∈ STATEMENT_HEADS).
    { intros l Hl Hm. apply mem_true in Hm. rewrite forallb_elem in Hl. by apply Hl, mem_true in Hm. }
    unfold has_complete_statement_prefix, head_is in Ht. cbv zeta in Ht.
    destruct (mem head _NO_ARGUMENT_HEADS) eqn:E1; [by eapply Hsub; [|exact E1]; vm_compute|].
    destruct (bool_decide (head = "select")) eqn:E2; [apply bool_decide_eq_true in E2 as ->; decide_now|].
    cbn [orb] in Ht.
    repeat match type of Ht with
    | (if mem head ?l then _ else _) = true =>
        let E := fresh in destruct (mem head l) eqn:E;
          [eapply Hsub; [|exact E]; vm_compute; reflexivity|clear E]
    end.
    discriminate.
Qed.

(** The scanner fails closed: a text with a statement head in it passes only
    if it is short enough, tokenizes completely, nests properly and has no head
    followed by a complete statement prefix. *)
Theorem runtime_sql_fails_closed value :
  contains_runtime_sql value = false ↔
  _HEAD_WORD value = false ∨
  ((slen value ≤ _MAX_SCAN_LENGTH)%nat ∧
   ∃ ts, tokenize_select_copy value = Some ts ∧ balanced _MAX_NESTING_DEPTH ts
     ∧ ∀ i t head, ts !! i = Some t → _word t = Some head → head ∈ STATEMENT_HEADS →
         has_complete_statement_prefix head (_statement_tail ts i) = false).
Proof.
  unfold contains_runtime_sql. destruct (_HEAD_WORD value); cbn [negb]; [|tauto].
  destruct (Nat.ltb _ _) eqn:El; [apply Nat.ltb_lt in El|apply Nat.ltb_ge in El].
  { split; [done|]. intros [?|[? _]]; [done|lia]. }
  destruct (tokenize_select_copy value) as [ts|]; [|naive_solver].
  pose proof (nesting_exact ts) as Hn. destruct (_has_invalid_nesting ts).
  { split; [done|]. intros [?|(_ & ? & [= <-] & Hb & _)]; [done|]. by apply Hn in Hb. }
  rewrite existsb_false_elem. split.
  - intros Hi. right. split; [done|]. exists ts. split_and!; [done|by apply Hn|].
    intros i t head Ht Hw Hh. assert (Hlt : i < length ts) by by apply lookup_lt_Some in Ht.
    specialize (Hi i). unfold statement_at in Hi. rewrite Ht in Hi. cbn [fmap option_fmap option_map] in Hi.
    rewrite Hw, (proj2 (mem_true _ _) Hh) in Hi. apply Hi. apply elem_of_seq. lia.
  - intros [?|(_ & ? & [= <-] & _ & Hall)] i _; [done|]. unfold statement_at.
    destruct (ts !! i) as [t|] eqn:Et; [|done]. cbn [fmap option_fmap option_map].
    destruct (_word t) as [head|] eqn:Ew; [|done].
    destruct (mem head STATEMENT_HEADS) eqn:Em; [|done]. apply mem_true in Em. by eapply Hall.
Qed.
