(* ===== verification/PyIp.v ===== *)
(** IP addresses and networks of Python's [ipaddress]: parsing, membership and
    the text of an address.  A network is the integer of its address, masked,
    and the length of its prefix. *)
From S2P Require Import Prelude PyStr.

Open Scope Z_scope.

Inductive address :=
  | V4 (ip : Z)
  | V6 (ip : Z) (scope_id : option string).

Inductive network :=
  | Net4 (ip : Z) (prefix : Z)
  | Net6 (ip : Z) (prefix : Z).

#[export] Instance address_eq_dec : EqDecision address.
Proof. solve_decision. Defined.
#[export] Instance network_eq_dec : EqDecision network.
Proof. solve_decision. Defined.

(** ** Parsing *)

Definition digit_value (c : ascii) : Z := Z.of_N (N_of_ascii c) - 48.
Definition hex_value (c : ascii) : Z :=
  let n := Z.of_N (N_of_ascii c) in
  if n <? 58 then n - 48 else if n <? 71 then n - 55 else n - 87.

Fixpoint digits (base : Z) (value : ascii → Z) (acc : Z) (s : string) : Z :=
  match s with "" => acc | String c s => digits base value (acc * base + value c) s end.

Definition parse_octet (s : string) : option Z :=
  if all_of is_dec_digit s && Nat.leb (slen s) 3 && (bool_decide (s = "0") || negb (startswith "0" s)) then
    let v := digits 10 digit_value 0 s in if v <=? 255 then Some v else None
  else None.

Fixpoint parse_octets (acc : Z) (l : list string) : option Z :=
  match l with
  | [] => Some acc
  | o :: l => v ← parse_octet o; parse_octets (acc * 256 + v) l
  end.

Definition parse_v4 (s : string) : option Z :=
  let octets := split_on "." s in
  if Nat.eqb (length octets) 4 then parse_octets 0 octets else None.

Definition parse_hextet (s : string) : option Z :=
  if all_of is_hex_digit s && Nat.leb (slen s) 4 then Some (digits 16 hex_value 0 s) else None.

(** A list of groups, some of them already numbers. *)
Inductive group := Text (s : string) | Num (z : Z).
Definition group_value (g : group) : option Z :=
  match g with Text s => parse_hextet s | Num z => Some z end.
Definition empty_group (g : group) : bool := match g with Text "" => true | _ => false end.

Fixpoint group_values (acc : Z) (l : list group) : option Z :=
  match l with
  | [] => Some acc
  | g :: l => v ← group_value g; group_values (acc * 65536 + v) l
  end.

Definition v6_groups (s : string) : option (list group) :=
  let parts := split_on ":" s in
  if Nat.ltb (length parts) 3 then None
  else
    let final := List.last parts "" in
    groups ← (if char_in "." final then
                v ← parse_v4 final;
                Some (Text <$> take (length parts - 1) parts) ≫=
                  (λ l, Some (l ++ [Num (Z.shiftr v 16); Num (Z.land v 65535)])%list)
              else Some (Text <$> parts));
    if Nat.ltb 9 (length groups) then None else Some groups.

(** The positions of the empty groups strictly inside. *)
Definition inner_empty (l : list group) : list nat :=
  List.filter (λ i, match l !! i with Some g => empty_group g | None => false end)
    (seq 1 (length l - 2)).

Definition parse_v6_int (s : string) : option Z :=
  groups ← v6_groups s;
  let n := length groups in
  let first_empty := match groups !! 0%nat with Some g => empty_group g | None => false end in
  let last_empty := match groups !! (n - 1)%nat with Some g => empty_group g | None => false end in
  match inner_empty groups with
  | [] =>
      if negb (Nat.eqb n 8) || first_empty || last_empty then None else group_values 0 groups
  | [skip] =>
      let hi := (if first_empty then skip - 1 else skip)%nat in
      let lo := (if last_empty then n - skip - 2 else n - skip - 1)%nat in
      if (first_empty && negb (Nat.eqb hi 0)) || (last_empty && negb (Nat.eqb lo 0)) then None
      else if Nat.ltb 7 (hi + lo) then None
      else
        h ← group_values 0 (take hi groups);
        group_values (Z.shiftl h (Z.of_nat (16 * (8 - (hi + lo))))) (drop (n - lo) groups)
  | _ => None
  end.

Definition parse_v6 (s : string) : option address :=
  match split_once "%" s with
  | (a, None) => v ← parse_v6_int a; Some (V6 v None)
  | (a, Some scope) =>
      if nonempty scope && negb (char_in "%" scope) then v ← parse_v6_int a; Some (V6 v (Some scope))
      else None
  end.

(** [ipaddress.ip_address(s)]; [None] is its [ValueError]. *)
Definition ip_address (s : string) : option address :=
  if char_in "/" s then None
  else match parse_v4 s with Some v => Some (V4 v) | None => parse_v6 s end.

(** A prefix length, or, for IPv4, a netmask or host mask. *)
Definition parse_prefix (max : Z) (s : string) : option Z :=
  if all_of is_dec_digit s then
    let v := digits 10 digit_value 0 s in if v <=? max then Some v else None
  else None.

Definition mask_of (bits prefix : Z) : Z := Z.shiftl (Z.ones prefix) (bits - prefix).

Definition prefix_of_mask (m : Z) : option Z :=
  let candidates := Z.of_nat <$> seq 0 33 in
  match List.find (λ p, mask_of 32 p =? m) candidates with
  | Some p => Some p
  | None => List.find (λ p, mask_of 32 p =? Z.lxor m (Z.ones 32)) candidates
  end.

Definition parse_netmask4 (s : string) : option Z :=
  match parse_prefix 32 s with Some p => Some p | None => m ← parse_v4 s; prefix_of_mask m end.

(** [ipaddress.ip_network(s, strict=False)]. *)
Definition ip_network (s : string) : option network :=
  match split_on "/" s with
  | a :: rest =>
      if Nat.ltb 1 (length rest) then None
      else
        match (v ← parse_v4 a;
               p ← match rest with [] => Some 32 | m :: _ => parse_netmask4 m end;
               Some (Net4 (Z.land v (mask_of 32 p)) p)) with
        | Some n => Some n
        | None =>
            v ← parse_v6 a;
            p ← match rest with [] => Some 128 | m :: _ => parse_prefix 128 m end;
            match v with V6 ip _ => Some (Net6 (Z.land ip (mask_of 128 p)) p) | V4 _ => None end
        end
  | [] => None
  end.

(** [address.version == network.version and address in network]. *)
Definition in_network (a : address) (n : network) : bool :=
  match a, n with
  | V4 ip, Net4 net p => Z.land ip (mask_of 32 p) =? net
  | V6 ip _, Net6 net p => Z.land ip (mask_of 128 p) =? net
  | _, _ => false
  end.

(** [address.ipv4_mapped]. *)
Definition ipv4_mapped (a : address) : option address :=
  match a with
  | V6 ip _ => if Z.shiftr ip 32 =? 65535 then Some (V4 (Z.land ip (Z.ones 32))) else None
  | V4 _ => None
  end.

(** ** Text *)

Definition v4_text (ip : Z) : string :=
  join "." ((λ k, str_of_Z (Z.land (Z.shiftr ip k) 255)) <$> [24; 16; 8; 0]).

Definition hex_char (z : Z) : ascii := ascii_of_N (Z.to_N (if z <? 10 then 48 + z else 87 + z)).

Fixpoint hex_digits (fuel : nat) (z : Z) (acc : string) : string :=
  match fuel with
  | O => acc
  | S fuel =>
      let acc := String (hex_char (z mod 16)) acc in
      if z <? 16 then acc else hex_digits fuel (z / 16) acc
  end.
Definition hex_text (z : Z) : string := hex_digits 4 z "".

(** The length of the run of zero groups at the head. *)
Fixpoint zero_run (l : list Z) : nat :=
  match l with z :: l => if z =? 0 then S (zero_run l) else 0%nat | [] => 0%nat end.

(** The first longest run of zero groups: its start and length. *)
Definition best_run (l : list Z) : nat * nat :=
  foldl (λ best i, let n := zero_run (drop i l) in if Nat.ltb best.2 n then (i, n) else best)
    (0, 0)%nat (seq 0 (length l)).

Definition v6_text (ip : Z) : string :=
  let groups := (λ k, Z.land (Z.shiftr ip k) 65535) <$> [112; 96; 80; 64; 48; 32; 16; 0] in
  let '(start, n) := best_run groups in
  if Nat.ltb 1 n then
    join ":" (hex_text <$> take start groups) +:+ "::" +:+ join ":" (hex_text <$> drop (start + n) groups)
  else join ":" (hex_text <$> groups).

Definition address_text (a : address) : string :=
  match a with
  | V4 ip => v4_text ip
  | V6 ip None => v6_text ip
  | V6 ip (Some scope) => v6_text ip +:+ "%" +:+ scope
  end.

(** ** Classes of addresses (the tables of Python 3.12) *)

Definition ip4 (a b c d : Z) : Z := ((a * 256 + b) * 256 + c) * 256 + d.
Definition net4 (a b c d p : Z) : network := Net4 (ip4 a b c d) p.
(** The IPv6 network of the first two groups. *)
Definition net6 (a b p : Z) : network := Net6 (Z.shiftl a 112 + Z.shiftl b 96) p.

Definition V4_LINKLOCAL : network := net4 169 254 0 0 16.
Definition V4_LOOPBACK : network := net4 127 0 0 0 8.
Definition V4_MULTICAST : network := net4 224 0 0 0 4.
Definition V4_RESERVED : network := net4 240 0 0 0 4.
Definition V4_PRIVATE : list network :=
  [net4 0 0 0 0 8; net4 10 0 0 0 8; net4 127 0 0 0 8; net4 169 254 0 0 16; net4 172 16 0 0 12; net4 192 0 0 0 24;
   net4 192 0 0 170 31; net4 192 0 2 0 24; net4 192 168 0 0 16; net4 198 18 0 0 15; net4 198 51 100 0 24;
   net4 203 0 113 0 24; net4 240 0 0 0 4; net4 255 255 255 255 32].
Definition V4_PRIVATE_EXCEPTIONS : list network := [net4 192 0 0 9 32; net4 192 0 0 10 32].

Definition V6_LINKLOCAL : network := net6 0xfe80 0 10.
Definition V6_MULTICAST : network := net6 0xff00 0 8.
Definition V6_PRIVATE : list network :=
  [Net6 1 128; Net6 0 128; Net6 (Z.shiftl 0xffff 32) 96;
   Net6 (Z.shiftl 0x64 112 + Z.shiftl 0xff9b 96 + Z.shiftl 1 80) 48; net6 0x100 0 64; net6 0x2001 0 23;
   net6 0x2001 0xdb8 32; net6 0x2002 0 16; net6 0xfc00 0 7; net6 0xfe80 0 10].
Definition V6_PRIVATE_EXCEPTIONS : list network :=
  [Net6 (Z.shiftl 0x2001 112 + Z.shiftl 1 96 + 1) 128; Net6 (Z.shiftl 0x2001 112 + Z.shiftl 1 96 + 2) 128;
   net6 0x2001 3 32; Net6 (Z.shiftl 0x2001 112 + Z.shiftl 4 96 + Z.shiftl 0x112 80) 48; net6 0x2001 0x20 28;
   net6 0x2001 0x30 28].
Definition V6_RESERVED : list network :=
  [net6 0 0 8; net6 0x100 0 8; net6 0x200 0 7; net6 0x400 0 6; net6 0x800 0 5; net6 0x1000 0 4; net6 0x4000 0 3;
   net6 0x6000 0 3; net6 0x8000 0 3; net6 0xa000 0 3; net6 0xc000 0 3; net6 0xe000 0 4; net6 0xf000 0 5;
   net6 0xf800 0 6; net6 0xfe00 0 9].

(** The properties of an IPv6 address that holds an IPv4 one are that one's. *)
Definition unmapped (a : address) : address := default a (ipv4_mapped a).

Definition is_loopback (a : address) : bool :=
  match unmapped a with V4 ip => in_network (V4 ip) V4_LOOPBACK | V6 ip _ => ip =? 1 end.
Definition is_unspecified (a : address) : bool :=
  match unmapped a with V4 ip => ip =? 0 | V6 ip _ => ip =? 0 end.
Definition is_link_local (a : address) : bool :=
  match unmapped a with V4 ip => in_network (V4 ip) V4_LINKLOCAL | v => in_network v V6_LINKLOCAL end.
Definition is_multicast (a : address) : bool :=
  match unmapped a with V4 ip => in_network (V4 ip) V4_MULTICAST | v => in_network v V6_MULTICAST end.
Definition is_reserved (a : address) : bool :=
  match unmapped a with V4 ip => in_network (V4 ip) V4_RESERVED | v => existsb (in_network v) V6_RESERVED end.
Definition is_private (a : address) : bool :=
  match unmapped a with
  | V4 ip => existsb (in_network (V4 ip)) V4_PRIVATE && negb (existsb (in_network (V4 ip)) V4_PRIVATE_EXCEPTIONS)
  | v => existsb (in_network v) V6_PRIVATE && negb (existsb (in_network v) V6_PRIVATE_EXCEPTIONS)
  end.

Example parse_addresses :
  (address_text <$> ip_address "10.0.0.7", address_text <$> ip_address "2001:DB8:0:0:1:0:0:1",
   address_text <$> ip_address "::", address_text <$> ip_address "fe80::1%eth0",
   address_text <$> ip_address "::ffff:1.2.3.4", ip_address "010.1.1.1", ip_address "1::2::3")
  = (Some "10.0.0.7", Some "2001:db8::1:0:0:1", Some "::", Some "fe80::1%eth0", Some "::ffff:102:304", None, None).
Proof. vm_compute. reflexivity. Qed.

Example parse_networks :
  (ip_network "10.1.2.3/8", ip_network "10.0.0.0/255.255.0.0", ip_network "fd00::/8" ≫= λ n,
     a ← ip_address "fd12::1"; Some (in_network a n))
  = (Some (Net4 167772160 8), Some (Net4 167772160 16), Some true).
Proof. vm_compute. reflexivity. Qed.
