(* ===== verification/RateLimit.v ===== *)
(** Rate limits of the console (console/app/services/rate_limiter.py and
    request_rate_limits.py): the in-memory sliding window, the Redis counters,
    the choice of the backend, the client address behind trusted proxies, and
    the guards of the request handlers.

    Clocks are instants in microseconds; windows are whole seconds.  The Redis
    client and its server are not code of the repository: connecting, INCR and
    EXPIRE are parameters. *)
From S2P Require Import Prelude PyStr PyVal PyTime PyIp.

Open Scope Z_scope.

(** ** The environment *)

Definition environment := list (string * string).

Definition getenv (env : environment) (k d : string) : string := default d (afind k env).

Definition _is_production (env : environment) : bool :=
  mem (lower (getenv env "APP_ENV" "production")) ["production"; "prod"].

(** ** The in-memory limiter *)

Record InMemoryRateLimiter := InMemory {
  _buckets : gmap string (list instant);
  _calls_since_cleanup : Z }.

Definition CLEANUP_INTERVAL : Z := 1000.
Definition in_memory_init : InMemoryRateLimiter := InMemory ∅ 0.

(** [60 * 60 * 24] seconds. *)
Definition stale_after : instant := seconds (60 * 60 * 24).

(** [not hits or now - hits[-1] > stale_after]. *)
Definition stale (now : instant) (hits : list instant) : bool :=
  match last hits with None => true | Some t => stale_after <? now - t end.

Definition _maybe_cleanup (now : instant) (st : InMemoryRateLimiter) : InMemoryRateLimiter :=
  let calls := _calls_since_cleanup st + 1 in
  if calls <? CLEANUP_INTERVAL then InMemory (_buckets st) calls
  else InMemory (filter (λ kv, stale now kv.2 = false) (_buckets st)) 0.

Definition in_window (now : instant) (window : Z) (ts : instant) : bool := now - ts <? seconds window.

Definition check_in_memory (key : string) (limit window : Z) (now : instant)
    (st : InMemoryRateLimiter) : bool * InMemoryRateLimiter :=
  let st := _maybe_cleanup now st in
  let hits := List.filter (in_window now window) (default [] (_buckets st !! key)) in
  if limit <=? Z.of_nat (length hits) then
    (false, InMemory (<[key := hits]> (_buckets st)) (_calls_since_cleanup st))
  else
    (true, InMemory (<[key := (hits ++ [now])%list]> (_buckets st)) (_calls_since_cleanup st)).

(** ** The Redis limiter and the choice of a backend *)

Section Backends.
Context {client server : Type}.
Context (from_url : string → res client).
Context (incr : client → string → server → res Z * server).
Context (expire : client → string → Z → server → res unit * server).

(** [RedisRateLimiter.check]: INCR the counter of the fixed window, give the
    first hit its expiry; any exception denies a sensitive request. *)
Definition check_redis (c : client) (key : string) (limit window : Z) (sensitive : bool)
    (now : instant) (s : server) : res bool * server :=
  if window =? 0 then (raise ZeroDivisionError "", s)
  else
    let redis_key := "rl:" +:+ key +:+ ":" +:+ str_of_Z (now / seconds window) in
    let unavailable := Ok (negb sensitive) in
    match incr c redis_key s with
    | (Raise _, s) => (unavailable, s)
    | (Ok count, s) =>
        if count =? 1 then
          match expire c redis_key window s with
          | (Raise _, s) => (unavailable, s)
          | (Ok _, s) => (Ok (count <=? limit), s)
          end
        else (Ok (count <=? limit), s)
    end.

Inductive RateLimiter := MemoryLimiter (st : InMemoryRateLimiter) | RedisLimiter (c : client).

(** The process: [os.environ], the global [_LIMITER], the two clocks, and the
    Redis server behind the client. *)
Record process := Process {
  environ : environment;
  _LIMITER : option RateLimiter;
  monotonic : instant;
  wall : instant;
  redis : server }.

Definition with_limiter (l : option RateLimiter) (p : process) : process :=
  Process (environ p) l (monotonic p) (wall p) (redis p).
Definition with_redis (s : server) (p : process) : process :=
  Process (environ p) (_LIMITER p) (monotonic p) (wall p) s.

Definition reset_rate_limiter (p : process) : process := with_limiter None p.

Definition get_rate_limiter (p : process) : res unit * process :=
  match _LIMITER p with
  | Some _ => (Ok tt, p)
  | None =>
      let production := _is_production (environ p) in
      let redis_url := strip (getenv (environ p) "REDIS_URL" "") in
      let fallback := (Ok tt, with_limiter (Some (MemoryLimiter in_memory_init)) p) in
      if production && negb (nonempty redis_url) then
        (raise RuntimeError "REDIS_URL is required in production for shared rate limiting", p)
      else if nonempty redis_url then
        match from_url redis_url with
        | Ok c => (Ok tt, with_limiter (Some (RedisLimiter c)) p)
        | Raise e =>
            if negb production then fallback
            else if exn_isa (exn_cls e) ImportError then
              (raise RuntimeError "redis-py is required in production when REDIS_URL is set", p)
            else (Raise e, p)
        end
      else fallback
  end.

(** [limiter.check] on the object [get_rate_limiter] gave. *)
Definition check (key : string) (limit window : Z) (sensitive : bool) (p : process) : res bool * process :=
  match _LIMITER p with
  | Some (MemoryLimiter st) =>
      let '(ok, st) := check_in_memory key limit window (monotonic p) st in
      (Ok ok, with_limiter (Some (MemoryLimiter st)) p)
  | Some (RedisLimiter c) =>
      let '(r, s) := check_redis c key limit window sensitive (wall p) (redis p) in (r, with_redis s p)
  | None => (raise AttributeError "", p)
  end.

(** ** The client address *)

Inductive proxy := Network (n : network) | Entry (s : string).

Definition _proxy_network (value : proxy) : option network :=
  match value with Network n => Some n | Entry s => ip_network (strip s) end.

Definition _address (value : string) : option address :=
  match ip_address (strip value) with
  | Some a => match ipv4_mapped a with Some a4 => Some a4 | None => Some a end
  | None => None
  end.

Definition _is_trusted (a : address) (networks : list network) : bool := existsb (in_network a) networks.

Definition trusted_proxy_ips (env : environment) : list network :=
  dedup (omap (λ e, _proxy_network (Entry e))
    (List.filter (λ e, nonempty (strip e)) (split_on "," (getenv env "TRUSTED_PROXY_IPS" "")))).

Record Request := mkRequest {
  client_host : option string;
  x_forwarded_for : option string }.

Definition real_ip (r : Request) : string := default "unknown" (client_host r).

Definition networks_of (env : environment) (trusted : option (list proxy)) : list network :=
  let raw := match trusted with Some l => l | None => Network <$> trusted_proxy_ips env end in
  dedup (omap _proxy_network raw).

(** The loop over the entries, the nearest one first. *)
Fixpoint scan_forwarded (networks : list network) (real : string) (origin : option address)
    (entries : list string) : string :=
  match entries with
  | [] => match origin with Some a => address_text a | None => real end
  | entry :: entries =>
      match _address entry with
      | None => real
      | Some a =>
          if negb (_is_trusted a networks) then address_text a
          else scan_forwarded networks real (Some a) entries
      end
  end.

Definition client_ip (env : environment) (trusted : option (list proxy)) (r : Request) : string :=
  let networks := networks_of env trusted in
  match networks, _address (real_ip r) with
  | [], _ | _, None => real_ip r
  | _, Some peer =>
      if negb (_is_trusted peer networks) then real_ip r
      else scan_forwarded networks (real_ip r) None (reverse (split_on "," (default "" (x_forwarded_for r))))
  end.

(** ** The guards *)

Definition RATE_LIMIT_WINDOW_SECONDS : Z := 300.
Definition RATE_LIMITS : list (string * (Z * Z)) :=
  [("/auth/login", (8, RATE_LIMIT_WINDOW_SECONDS));
   ("/auth/forgot-password", (5, RATE_LIMIT_WINDOW_SECONDS));
   ("/auth/reset-password", (8, RATE_LIMIT_WINDOW_SECONDS));
   ("/auth/activate", (8, RATE_LIMIT_WINDOW_SECONDS));
   ("/auth/refresh", (60, RATE_LIMIT_WINDOW_SECONDS));
   ("/api/copilot", (120, 60));
   ("/api/agents", (80, 60));
   ("/api/mcp", (80, 60));
   ("/studio/import", (10, RATE_LIMIT_WINDOW_SECONDS));
   ("/api/explorer", (180, 60));
   ("/api/data/explore", (30, 60));
   ("/apps/content", (60, 60));
   ("pipeline_recover", (10, RATE_LIMIT_WINDOW_SECONDS));
   ("/api/control-room/refresh", (6, 60));
   ("/api/control-room/refresh:workspace", (30, 60));
   ("/api/ia/v1/openapi.json", (30, 60));
   ("ia_gateway:auth_ip", (1200, 60));
   ("ia_gateway:auth_failures", (60, 60));
   ("ia_gateway:token", (60, 60));
   ("ia_gateway:user", (120, 60));
   ("ia_gateway:workspace", (240, 60));
   ("ia_gateway:ejecutar_extraccion", (6, 600));
   ("ia_gateway:crear_app_analitica", (3, 600));
   ("access_token:create", (10, 300));
   ("access_token:create:workspace", (60, 300))].
Definition API_RATE_LIMIT_PREFIXES : list string :=
  ["/api/copilot"; "/api/agents"; "/api/mcp"; "/studio/import"; "/api/explorer"; "/api/data/explore";
   "/api/ia/v1/openapi.json"].

Definition rate_limit_disabled (env : environment) : bool :=
  match afind "RATE_LIMIT_ENABLED" env with
  | Some v => mem (lower (strip v)) ["false"; "0"; "no"; "off"]
  | None => false
  end
  || mem (lower (strip (getenv env "APP_ENV" "production"))) ["test"; "testing"].

Definition api_rate_limit_action (path : string) : option string :=
  List.find (λ prefix, bool_decide (path = prefix) || startswith (prefix +:+ "/") path) API_RATE_LIMIT_PREFIXES.

Definition too_many {A} : res A := raise (HTTPException 429) "too many requests".

(** The loop of a guard: the first key over its limit ends the request. *)
Fixpoint check_all (checks : list (string * (Z * Z))) (p : process) : res unit * process :=
  match checks with
  | [] => (Ok tt, p)
  | (key, (limit, window)) :: checks =>
      match check key limit window true p with
      | (Ok true, p) => check_all checks p
      | (Ok false, p) => (too_many, p)
      | (Raise e, p) => (Raise e, p)
      end
  end.

(** [limiter_factory()], then the loop on the checks it is built for. *)
Definition limited (checks : res (list (string * (Z * Z)))) (p : process) : res unit * process :=
  match get_rate_limiter p with
  | (Raise e, p) => (Raise e, p)
  | (Ok _, p) => match checks with Ok l => check_all l p | Raise e => (Raise e, p) end
  end.

(** [RATE_LIMITS[action]]. *)
Definition limit_of (action : string) : res (Z * Z) :=
  match afind action RATE_LIMITS with Some lw => Ok lw | None => raise KeyError action end.

Definition or_dash (s : string) : string := if nonempty s then s else "-".

Definition rate_limit (r : Request) (action subject : string) (trusted : option (list proxy))
    (p : process) : res unit * process :=
  if rate_limit_disabled (environ p) then (Ok tt, p)
  else
    match limit_of action with
    | Raise e => (Raise e, p)
    | Ok lw =>
        let ip := client_ip (environ p) trusted r in
        let subject_key := or_dash (strip (lower subject)) in
        let base := action +:+ ":" +:+ ip +:+ ":" in
        limited (Ok ((λ k, (k, lw)) <$> dedup [base +:+ subject_key; base +:+ "-"])) p
    end.

Context `{PyRepr}.

Definition rate_limit_api_surface (r : Request) (path : string) (user : pydict)
    (trusted : option (list proxy)) (p : process) : res unit * process :=
  if rate_limit_disabled (environ p) then (Ok tt, p)
  else
    match api_rate_limit_action path with
    | None => (Ok tt, p)
    | Some matched =>
        match limit_of matched with
        | Raise e => (Raise e, p)
        | Ok lw =>
            let ip := client_ip (environ p) trusted r in
            let user_key := py_str (py_or (py_or (get "id" user) (get "email" user)) (PStr "-")) in
            let base := matched +:+ ":" +:+ ip +:+ ":" in
            limited (Ok ((λ k, (k, lw)) <$> dedup [base +:+ user_key; base +:+ "-"])) p
        end
    end.

(** [str(v or empty).strip()]. *)
Definition key_text (v : pyval) : string := strip (py_str (py_or v (PStr ""))).

Definition rate_limit_authenticated_action (action : string) (user_id workspace_id : pyval)
    (p : process) : res unit * process :=
  if rate_limit_disabled (environ p) then (Ok tt, p)
  else
    let user_key := key_text user_id in
    let workspace_key := key_text workspace_id in
    if negb (nonempty user_key) || negb (nonempty workspace_key) then
      (raise (HTTPException 403) "action is not available", p)
    else
      limited
        (lw ← limit_of action;
         ww ← limit_of (action +:+ ":workspace");
         Ok [(action +:+ ":user:" +:+ user_key, lw); (action +:+ ":workspace:" +:+ workspace_key, ww)]) p.

Definition rate_limit_gateway (user : pydict) (action : option string) (p : process) : res unit * process :=
  if rate_limit_disabled (environ p) then (Ok tt, p)
  else
    let token_key := key_text (get "access_token_id" user) in
    let workspace_key := key_text (get "active_workspace_id" user) in
    let user_key := key_text (get "id" user) in
    if negb (nonempty token_key) || negb (nonempty workspace_key) || negb (nonempty user_key) then
      (raise (HTTPException 401) "personal access token required", p)
    else
      match action with
      | None =>
          match (t ← limit_of "ia_gateway:token"; u ← limit_of "ia_gateway:user";
                 w ← limit_of "ia_gateway:workspace";
                 Ok [("ia_gateway:token:" +:+ token_key, t); ("ia_gateway:user:" +:+ user_key, u);
                     ("ia_gateway:workspace:" +:+ workspace_key, w)]) with
          | Raise e => (Raise e, p)
          | Ok checks => limited (Ok checks) p
          end
      | Some action =>
          match afind ("ia_gateway:" +:+ action) RATE_LIMITS with
          | None => (Ok tt, p)
          | Some configured => limited (Ok [("ia_gateway:" +:+ action +:+ ":user:" +:+ user_key, configured)]) p
          end
      end.

Definition rate_limit_app_content_capability (claims : pydict) (p : process) : res unit * process :=
  if rate_limit_disabled (environ p) then (Ok tt, p)
  else
    let user_key := py_str (py_or (get "user" claims) (PStr "")) in
    if negb (nonempty user_key) then (raise (HTTPException 403) "app content is not available", p)
    else
      match limit_of "/apps/content" with
      | Raise e => (Raise e, p)
      | Ok lw => limited (Ok [("/apps/content:user:" +:+ user_key, lw)]) p
      end.
End Backends.

(** ** The sliding window

    A sequence of checks, at the times they happen; [reference] decides each
    one from the whole log of the accepted ones, with no pruning or cleanup. *)

Record attempt := Attempt { a_key : string; a_limit : Z; a_window : Z; a_time : instant }.

Fixpoint run (l : list attempt) (st : InMemoryRateLimiter) : list bool * InMemoryRateLimiter :=
  match l with
  | [] => ([], st)
  | a :: l =>
      let '(ok, st) := check_in_memory (a_key a) (a_limit a) (a_window a) (a_time a) st in
      let '(oks, st) := run l st in (ok :: oks, st)
  end.

Definition times (k : string) (log : list attempt) : list instant :=
  a_time <$> List.filter (λ a, bool_decide (a_key a = k)) log.

Definition admits (log : list attempt) (a : attempt) : bool :=
  Z.of_nat (length (List.filter (in_window (a_time a) (a_window a)) (times (a_key a) log))) <? a_limit a.

Fixpoint reference (log l : list attempt) : list bool :=
  match l with
  | [] => []
  | a :: l => let ok := admits log a in ok :: reference (if ok then log ++ [a] else log) l
  end.

(** The attempts that were let through. *)
Fixpoint accepted (l : list attempt) (oks : list bool) : list attempt :=
  match l, oks with
  | a :: l, ok :: oks => if ok then a :: accepted l oks else accepted l oks
  | _, _ => []
  end.

(** The hits of the key within the [window] that ends at [t]. *)
Definition hits_in (t : instant) (window : Z) (k : string) (log : list attempt) : list instant :=
  List.filter (λ ts, in_window t window ts && (ts <=? t)) (times k log).

Definition bucket (k : string) (st : InMemoryRateLimiter) : list instant := default [] (_buckets st !! k).

(** The bucket of a key agrees with the log on every window from [now] on. *)
Record agrees (win : string → Z) (now : instant) (log : list attempt) (st : InMemoryRateLimiter) : Prop := {
  agrees_sorted k : StronglySorted Z.le (bucket k st);
  agrees_past k t : t ∈ bucket k st → t <= now;
  agrees_hits k t : now <= t →
    List.filter (in_window t (win k)) (bucket k st) = List.filter (in_window t (win k)) (times k log) }.

Lemma filter_filter_impl {A} (f g : A → bool) l :
  (∀ x, f x = true → g x = true) → List.filter f (List.filter g l) = List.filter f l.
Proof.
  intros H. induction l as [|x l IH]; simpl; [done|]. destruct (g x) eqn:Eg; simpl.
  - by rewrite IH.
  - destruct (f x) eqn:Ef; [by rewrite (H x Ef) in Eg|done].
Qed.

Lemma filter_length_impl {A} (f g : A → bool) l :
  (∀ x, f x = true → g x = true) → (length (List.filter f l) <= length (List.filter g l))%nat.
Proof. intros H. rewrite <- (filter_filter_impl f g l H). apply List.filter_length_le. Qed.

Lemma sorted_last l t x : StronglySorted Z.le l → last l = Some t → x ∈ l → x <= t.
Proof.
  intros Hs Hl Hx. apply last_Some in Hl as [l' ->].
  apply elem_of_app in Hx as [Hx|Hx%list_elem_of_singleton]; [|lia].
  eapply StronglySorted_cross; [exact Hs|done|set_solver].
Qed.

Lemma StronglySorted_snoc (l : list Z) t :
  StronglySorted Z.le l → (∀ x, x ∈ l → x <= t) → StronglySorted Z.le (l ++ [t]).
Proof.
  induction 1 as [|x l Hl IH Hx]; simpl; intros H; [by repeat constructor|].
  constructor; [apply IH; set_solver|]. apply Forall_app. split; [done|].
  constructor; [apply H; set_solver|constructor].
Qed.

Lemma in_window_later now t w ts : now <= t → in_window t w ts = true → in_window now w ts = true.
Proof. unfold in_window. rewrite !Z.ltb_lt. lia. Qed.

Lemma times_app k log a :
  times k (log ++ [a]) = times k log ++ (if bool_decide (a_key a = k) then [a_time a] else []).
Proof.
  unfold times. rewrite List.filter_app, fmap_app. simpl. by destruct (bool_decide _).
Qed.

Lemma maybe_cleanup_bucket now st k :
  bucket k (_maybe_cleanup now st) = bucket k st
  ∨ bucket k (_maybe_cleanup now st) = [] ∧ stale now (bucket k st) = true.
Proof.
  unfold _maybe_cleanup, bucket. step_if E; [by left|]. simpl. rewrite map_lookup_filter.
  destruct (_buckets st !! k) as [hits|] eqn:Ek; simpl; [|by left].
  destruct (decide (stale now hits = false)) as [Hs|Hs].
  - left. by rewrite option_guard_True.
  - right. rewrite option_guard_False by done. split; [done|]. by apply not_false_is_true.
Qed.

Lemma agrees_cleanup win now now' log st :
  (∀ k, win k <= 60 * 60 * 24) → now <= now' →
  agrees win now log st → agrees win now' log (_maybe_cleanup now' st).
Proof.
  intros Hwin Hle [Hs Hp Hh]. split; intros k.
  - destruct (maybe_cleanup_bucket now' st k) as [->|[-> _]]; [done|constructor].
  - intros t. destruct (maybe_cleanup_bucket now' st k) as [->|[-> _]]; [|set_solver].
    intros Ht%Hp. lia.
  - intros t Ht. rewrite <- Hh by lia.
    destruct (maybe_cleanup_bucket now' st k) as [->|[-> Hst]]; [done|]. symmetry. apply filter_nil_of.
    intros x Hx. unfold stale in Hst. destruct (last (bucket k st)) as [u|] eqn:El.
    + pose proof (sorted_last _ _ _ (Hs k) El Hx). specialize (Hwin k).
      apply Z.ltb_lt in Hst. unfold in_window, stale_after, seconds in *. apply Z.ltb_ge. lia.
    + apply last_None in El. rewrite El in Hx. by apply elem_of_nil in Hx.
Qed.

Lemma bucket_insert k k' hits calls m :
  bucket k (InMemory (<[k' := hits]> m) calls) = if decide (k = k') then hits else default [] (m !! k).
Proof.
  unfold bucket. simpl. case_decide; [subst; by rewrite lookup_insert_eq|by rewrite lookup_insert_ne].
Qed.

(** One check: the decision of the reference, and the agreement goes on. *)
Lemma check_agrees win now log st a :
  (∀ k, win k <= 60 * 60 * 24) → a_window a = win (a_key a) → now <= a_time a →
  agrees win now log st →
  let '(ok, st') := check_in_memory (a_key a) (a_limit a) (a_window a) (a_time a) st in
  ok = admits log a ∧ agrees win (a_time a) (if ok then log ++ [a] else log) st'.
Proof.
  intros Hwin Hw Hle Hag. apply (agrees_cleanup win now (a_time a)) in Hag; [|done..].
  unfold check_in_memory. set (st1 := _maybe_cleanup (a_time a) st) in *. clearbody st1.
  destruct Hag as [Hs Hp Hh].
  change (default [] (_buckets st1 !! a_key a)) with (bucket (a_key a) st1).
  assert (Hlen : admits log a = negb (a_limit a <=? Z.of_nat (length
    (List.filter (in_window (a_time a) (a_window a)) (bucket (a_key a) st1))))).
  { unfold admits. rewrite Hw, Hh, Z.ltb_antisym by lia. done. }
  rewrite Hlen. destruct (a_limit a <=? _); simpl; (split; [done|]); split; intros k; rewrite bucket_insert;
    case_decide; subst; try exact (Hs k); try exact (Hp k).
  - by apply StronglySorted_filter.
  - intros t [Ht _]%elem_of_List_filter. by apply (Hp (a_key a)).
  - intros t Ht. rewrite Hw, filter_filter_impl; [by apply Hh|]. intros x. by apply in_window_later.
  - by apply (Hh k).
  - apply StronglySorted_snoc; [by apply StronglySorted_filter|].
    intros x [Hx%Hp _]%elem_of_List_filter. done.
  - intros t [[Ht _]%elem_of_List_filter| ->%list_elem_of_singleton]%elem_of_app; [by apply (Hp (a_key a))|lia].
  - intros t Ht. rewrite times_app, bool_decide_true by done. rewrite !List.filter_app. f_equal.
    rewrite Hw, filter_filter_impl; [by apply Hh|]. intros x. by apply in_window_later.
  - intros t Ht. rewrite times_app, bool_decide_false by done. rewrite app_nil_r. by apply (Hh k).
Qed.

Lemma run_reference win now log st l :
  (∀ k, win k <= 60 * 60 * 24) → (∀ a, a ∈ l → a_window a = win (a_key a)) →
  StronglySorted (λ a b, a_time a <= a_time b) l → (∀ a, a ∈ l → now <= a_time a) →
  agrees win now log st → (run l st).1 = reference log l.
Proof.
  intros Hwin. revert now log st. induction l as [|a l IH]; intros now log st Hw Hs Hnow Hag; [done|]. simpl.
  pose proof (check_agrees win now log st a Hwin (Hw a ltac:(set_solver)) (Hnow a ltac:(set_solver)) Hag) as Hc.
  destruct (check_in_memory _ _ _ _ st) as [ok st']. destruct Hc as [-> Hag'].
  inversion Hs as [|?? Hs' Hf]; subst. rewrite Forall_forall in Hf.
  specialize (IH (a_time a) _ st' ltac:(set_solver) Hs' Hf Hag').
  destruct (run l st') as [oks st'']. simpl in *. by rewrite IH.
Qed.

Lemma hits_in_app t w k log a :
  length (hits_in t w k (log ++ [a])) =
  (length (hits_in t w k log) +
   if bool_decide (a_key a = k) && (in_window t w (a_time a) && (a_time a <=? t)%Z) then 1 else 0)%nat.
Proof.
  unfold hits_in. rewrite times_app, List.filter_app, length_app. f_equal.
  destruct (bool_decide (a_key a = k)); simpl; [|done].
  by destruct (in_window _ _ _ && _).
Qed.

(** No window of a key holds more accepted attempts than its limit. *)
Lemma reference_bound k w n log l t :
  0 <= n → (∀ a, a ∈ l → a_key a = k → a_window a = w ∧ a_limit a <= n) →
  Z.of_nat (length (hits_in t w k log)) <= n →
  Z.of_nat (length (hits_in t w k (log ++ accepted l (reference log l)))) <= n.
Proof.
  intros Hn. revert log. induction l as [|a l IH]; intros log Hl Hlog; simpl; [by rewrite app_nil_r|].
  destruct (admits log a) eqn:Ha; [|by apply IH; [set_solver|]].
  rewrite cons_middle, (assoc_L app). apply IH; [set_solver|]. rewrite hits_in_app.
  destruct (bool_decide (a_key a = k)) eqn:Ek; simpl; [|lia]. boolify; subst.
  destruct (in_window t w (a_time a)) eqn:Ew; simpl; [|lia].
  destruct (a_time a <=? t) eqn:Et; [|lia]. apply Z.leb_le in Et.
  destruct (Hl a ltac:(set_solver) eq_refl) as [Hw Hlim].
  unfold admits in Ha. apply Z.ltb_lt in Ha. rewrite Hw in Ha.
  assert (length (hits_in t w (a_key a) log) <=
          length (List.filter (in_window (a_time a) w) (times (a_key a) log)))%nat; [|lia].
  unfold hits_in. apply filter_length_impl. intros x [Hx _]%andb_true_iff. by eapply in_window_later.
Qed.

Lemma agrees_init win now : agrees win now [] in_memory_init.
Proof.
  split; intros k; unfold bucket; simpl; rewrite lookup_empty; simpl; [constructor|set_solver|done].
Qed.

(** C31: The in-memory limiter is an exact sliding window: over any sequence of
    checks at non-decreasing times, each key with one window of at most a day, it
    decides as the limiter that keeps the log of every accepted check, whatever
    it pruned and cleaned up meanwhile; so of the checks of a key under a limit
    at most that many are accepted within any window. *)
Theorem sliding_window_exact win l :
  (∀ k, win k <= 60 * 60 * 24) → (∀ a, a ∈ l → a_window a = win (a_key a)) →
  StronglySorted (λ a b, a_time a <= a_time b) l →
  (run l in_memory_init).1 = reference [] l
  ∧ ∀ k n t, 0 <= n → (∀ a, a ∈ l → a_key a = k → a_limit a <= n) →
      Z.of_nat (length (hits_in t (win k) k (accepted l (run l in_memory_init).1))) <= n.
Proof.
  intros Hwin Hw Hs.
  assert (Hrun : (run l in_memory_init).1 = reference [] l).
  { destruct l as [|a l]; [done|]. eapply (run_reference win (a_time a)); [done..| |apply agrees_init].
    inversion Hs as [|?? _ Hf]; subst. rewrite Forall_forall in Hf.
    intros b [->|Hb]%elem_of_cons; [lia|by apply Hf]. }
  split; [exact Hrun|]. intros k n t Hn Hl. rewrite Hrun.
  apply (reference_bound k (win k) n [] l t Hn); [|done].
  intros a Ha Hk. split; [|by apply Hl]. rewrite <- Hk. by apply Hw.
Qed.

Definition three_attempts : list attempt :=
  [Attempt "k" 1 60 (seconds 5); Attempt "k" 1 60 (seconds 64); Attempt "k" 1 60 (seconds 65)].

Lemma sliding_window_exact_witness :
  (run three_attempts in_memory_init).1 = [true; false; true]
  ∧ Z.of_nat (length (hits_in (seconds 65) 60 "k"
      (accepted three_attempts (run three_attempts in_memory_init).1))) <= 1.
Proof.
  split; [vm_compute; reflexivity|].
  refine (proj2 (sliding_window_exact (λ _, 60) three_attempts _ _ _) "k" 1 (seconds 65) _ _).
  - intros k. lia.
  - intros a Ha. unfold three_attempts in Ha. rewrite !elem_of_cons, elem_of_nil in Ha. naive_solver.
  - unfold three_attempts, seconds. repeat (constructor; simpl; try lia).
  - lia.
  - intros a Ha _. unfold three_attempts in Ha. rewrite !elem_of_cons, elem_of_nil in Ha.
    destruct Ha as [-> |[-> |[-> |[]]]]; simpl; lia.
Defined.

(** ** The client address *)

Lemma client_ip_untrusted env trusted r :
  (∀ peer, _address (real_ip r) = Some peer → _is_trusted peer (networks_of env trusted) = false) →
  client_ip env trusted r = real_ip r.
Proof.
  intros H. unfold client_ip. destruct (networks_of env trusted) as [|n ns]; [done|].
  destruct (_address (real_ip r)) as [peer|]; [|done]. by rewrite H.
Qed.

(** The scan goes through the trusted hops and stops at the first other one. *)
Lemma scan_forwarded_stops networks real origin hops entry a rest :
  Forall (λ h, ∃ b, _address h = Some b ∧ _is_trusted b networks = true) hops →
  _address entry = Some a → _is_trusted a networks = false →
  scan_forwarded networks real origin (hops ++ entry :: rest) = address_text a.
Proof.
  intros Hh Ha Ht. revert origin. induction Hh as [|h hops (b & Hb & Hbt) Hh IH]; intros origin; simpl.
  - by rewrite Ha, Ht.
  - rewrite Hb, Hbt. apply IH.
Qed.

Lemma client_ip_trusted env trusted host header peer :
  _address host = Some peer → _is_trusted peer (networks_of env trusted) = true →
  client_ip env trusted (mkRequest (Some host) (Some header))
  = scan_forwarded (networks_of env trusted) host None (reverse (split_on "," header)).
Proof.
  intros Hp Ht. unfold client_ip, real_ip. cbn [client_host x_forwarded_for from_option id].
  destruct (networks_of env trusted) as [|n ns] eqn:En; [done|]. by rewrite Hp, Ht.
Qed.

(** C22: A client cannot choose the address it is limited under: a request whose
    peer is no trusted proxy counts under the address of the peer, whatever its
    X-Forwarded-For header says; behind trusted proxies it counts under the
    nearest address they saw that is not one of them, whatever text the client
    had put in the header before. *)
Theorem client_ip_unspoofable env trusted host :
  ((∀ peer, _address host = Some peer → _is_trusted peer (networks_of env trusted) = false) →
     ∀ header, client_ip env trusted (mkRequest (Some host) header) = host)
  ∧ ∀ peer a origin hops, _address host = Some peer → _is_trusted peer (networks_of env trusted) = true →
      char_in "," origin = false → _address origin = Some a → _is_trusted a (networks_of env trusted) = false →
      Forall (λ h, char_in "," h = false
        ∧ ∃ b, _address h = Some b ∧ _is_trusted b (networks_of env trusted) = true) hops →
      ∀ forged, client_ip env trusted
        (mkRequest (Some host) (Some (forged +:+ "," +:+ join "," (origin :: hops)))) = address_text a.
Proof.
  split; [intros H header; by apply client_ip_untrusted|].
  intros peer a origin hops Hp Hpt Hc Ha Hat Hh forged. rewrite (client_ip_trusted _ _ _ _ peer) by done.
  change "," with (one ",") at 1 2. rewrite split_on_app_gen, split_join; [|done|].
  - rewrite reverse_app, reverse_cons, <- (assoc_L app). apply scan_forwarded_stops; [|done..].
    apply Forall_reverse. eapply Forall_impl; [exact Hh|]. by intros h [_ Hb].
  - constructor; [done|]. eapply Forall_impl; [exact Hh|]. by intros h [Hb _].
Qed.

Lemma client_ip_unspoofable_witness :
  client_ip [("TRUSTED_PROXY_IPS", "10.0.0.0/8, bad")] None
    (mkRequest (Some "10.0.0.2") (Some ("1.2.3.4" +:+ "," +:+ join "," ["203.0.113.9"; "10.9.9.9"])))
  = "203.0.113.9".
Proof.
  apply (proj2 (client_ip_unspoofable [("TRUSTED_PROXY_IPS", "10.0.0.0/8, bad")] None "10.0.0.2")
    (V4 167772162) (V4 3405803785)); [vm_compute; reflexivity..|].
  constructor; [|constructor]. split; [reflexivity|]. exists (V4 168364297). split; vm_compute; reflexivity.
Defined.

(** ** Failing closed *)

Section FailClosed.
Context {client server : Type}.
Context (from_url : string → res client).
Context (incr : client → string → server → res Z * server).
Context (expire : client → string → Z → server → res unit * server).

(** No limiter of this process counts on its own. *)
Definition shared_only (p : process (client := client) (server := server)) : Prop :=
  match _LIMITER p with Some (MemoryLimiter _) => False | _ => True end.

Lemma get_rate_limiter_shared p :
  _is_production (environ p) = true → shared_only p →
  shared_only (get_rate_limiter from_url p).2 ∧ environ (get_rate_limiter from_url p).2 = environ p.
Proof.
  intros Hprod Hs. unfold get_rate_limiter. destruct (_LIMITER p) as [l|] eqn:El; [by split|].
  rewrite Hprod. cbn [negb andb]. repeat step_goal; simpl; split; try done.
Qed.

(** The server answers no INCR. *)
Hypothesis down : ∀ c k s, ∃ e s', incr c k s = (Raise e, s').

Lemma check_down key limit window p :
  shared_only p → ∃ r q, check incr expire key limit window true p = (r, q) ∧ r ≠ Ok true.
Proof.
  intros Hs. unfold check. unfold shared_only in Hs.
  destruct (_LIMITER p) as [[st|c]|]; [done| |by eexists _, _].
  unfold check_redis. destruct (window =? 0); [by eexists _, _|].
  destruct (down c ("rl:" +:+ key +:+ ":" +:+ str_of_Z (wall p / seconds window)) (redis p)) as (e & s' & ->).
  by eexists _, _.
Qed.

Lemma limited_down checks p :
  _is_production (environ p) = true → shared_only p → checks ≠ Ok [] →
  (limited from_url incr expire checks p).1 ≠ Ok tt.
Proof.
  intros Hprod Hs Hne. unfold limited. destruct (get_rate_limiter_shared p Hprod Hs) as [Hq _].
  destruct (get_rate_limiter from_url p) as [[[]|e] q]; [|done]. simpl in Hq.
  destruct checks as [[|[key [limit window]] checks]|e]; [done| |done]. simpl.
  destruct (check_down key limit window q Hq) as (r & q' & -> & Hr). by destruct r as [[]|].
Qed.

(** In production the limits fail closed: a process never counts on its own,
    so while the Redis server answers nothing no guard lets a limited request
    through - not on the actions keyed by address, nor the API surface, the
    signed-in actions, the gateway or the app content. *)
Theorem limits_fail_closed `{PyRepr} p :
  _is_production (environ p) = true → rate_limit_disabled (environ p) = false → shared_only p →
  shared_only (get_rate_limiter from_url p).2
  ∧ (∀ r action subject trusted, (rate_limit from_url incr expire r action subject trusted p).1 ≠ Ok tt)
  ∧ (∀ r path user trusted, is_Some (api_rate_limit_action path) →
       (rate_limit_api_surface from_url incr expire r path user trusted p).1 ≠ Ok tt)
  ∧ (∀ action user workspace,
       (rate_limit_authenticated_action from_url incr expire action user workspace p).1 ≠ Ok tt)
  ∧ (∀ user action, from_option (λ a, is_Some (afind ("ia_gateway:" +:+ a) RATE_LIMITS)) True action →
       (rate_limit_gateway from_url incr expire user action p).1 ≠ Ok tt)
  ∧ ∀ claims, (rate_limit_app_content_capability from_url incr expire claims p).1 ≠ Ok tt.
Proof.
  intros Hprod Hen Hs. split; [by apply get_rate_limiter_shared|].
  assert (Hdown : ∀ checks, checks ≠ Ok [] → (limited from_url incr expire checks p).1 ≠ Ok tt).
  { intros checks. by apply limited_down. }
  split_and!.
  - intros r action subject trusted. unfold rate_limit. rewrite Hen.
    destruct (limit_of action) as [lw|]; [|done]. by apply Hdown.
  - intros r path user trusted [m Hm]. unfold rate_limit_api_surface. rewrite Hen, Hm.
    destruct (limit_of m) as [lw|]; [|done]. by apply Hdown.
  - intros action user workspace. unfold rate_limit_authenticated_action. rewrite Hen.
    destruct (_ || _); [done|]. apply Hdown. destruct (limit_of action); [|done].
    by destruct (limit_of (action +:+ ":workspace")).
  - intros user [action|] Hact; unfold rate_limit_gateway; rewrite Hen; (destruct (_ || _); [done|]).
    + cbn [from_option] in Hact. destruct Hact as [lw ->]. by apply Hdown.
    + by apply Hdown.
  - intros claims. unfold rate_limit_app_content_capability. rewrite Hen. destruct (negb _); [done|].
    destruct (limit_of "/apps/content"); [|done]. by apply Hdown.
Qed.
End FailClosed.

Lemma limits_fail_closed_witness :
  (rate_limit (client := unit) (server := nat) (λ _, Ok tt) (λ _ _ s, (raise StorageError "down", S s))
    (λ _ _ _ s, (Ok tt, s)) (mkRequest (Some "203.0.113.9") None) "/auth/login" "a@b.c" None
    (Process [("REDIS_URL", "redis://r")] None 0 0 0%nat)).1 ≠ Ok tt.
Proof.
  apply (limits_fail_closed (λ _, Ok tt) (λ _ _ s, (raise StorageError "down", S s)) (λ _ _ _ s, (Ok tt, s))
    (λ _ _ s, ex_intro _ _ (ex_intro _ (S s) eq_refl)) (H := some_repr)
    (Process [("REDIS_URL", "redis://r")] None 0 0 0%nat)); [reflexivity|reflexivity|exact I].
Defined.
