(* ===== verification/PyJson.v ===== *)
(** The text [json.dumps] gives a value with string keys, compact separators and
    [ensure_ascii]: what the digests of the console are taken of.  The text of a
    float is its [repr]. *)
From S2P Require Import Prelude PyStr PyVal.

Definition hex_char (n : N) : ascii := ascii_of_N (if n <? 10 then 48 + n else 87 + n)%N.

(** Two lower-case hexadecimal digits. *)
Definition hex_byte (c : ascii) : string :=
  String (hex_char (code c / 16)) (String (hex_char (code c mod 16)) "").

(** [bytes.hex()]. *)
Fixpoint hex_of (s : string) : string :=
  match s with "" => "" | String c s => hex_byte c +:+ hex_of s end.

Definition hex_value (c : ascii) : N :=
  (if code c <? 58 then code c - 48 else if code c <? 71 then code c - 55 else code c - 87)%N.

(** [bytes.fromhex(s)] of an even number of digits. *)
Fixpoint unhex (s : string) : string :=
  match s with
  | String a (String b s) => String (ascii_of_N (16 * hex_value a + hex_value b)) (unhex s)
  | _ => ""
  end.

Definition backslash : string := one (ascii_of_N 92).
Definition quote_mark : string := one (ascii_of_N 34).

Definition escape_char (c : ascii) : string :=
  let n := code c in
  if (n =? 34)%N then backslash +:+ quote_mark
  else if (n =? 92)%N then backslash +:+ backslash
  else if (n =? 10)%N then backslash +:+ "n"
  else if (n =? 13)%N then backslash +:+ "r"
  else if (n =? 9)%N then backslash +:+ "t"
  else if (n =? 12)%N then backslash +:+ "f"
  else if (n =? 8)%N then backslash +:+ "b"
  else if (n <? 32)%N || (126 <? n)%N then backslash +:+ "u00" +:+ hex_byte c
  else one c.

Fixpoint escape (s : string) : string :=
  match s with "" => "" | String c s => escape_char c +:+ escape s end.

Definition json_string (s : string) : string := quote_mark +:+ escape s +:+ quote_mark.

Section Dumps.
Context `{PyRepr}.

Fixpoint json_dumps (v : pyval) : string :=
  match v with
  | PNone => "null"
  | PBool b => if b then "true" else "false"
  | PStr s => json_string s
  | PList l => "[" +:+ join "," (json_dumps <$> l) +:+ "]"
  | PDict d =>
      "{" +:+ join "," ((λ kv, json_string (key_str kv.1) +:+ ":" +:+ json_dumps kv.2) <$> d) +:+ "}"
  | v => py_str v
  end.
End Dumps.

(** ** With sorted keys

    [json.dumps] with [sort_keys], compact separators and [ensure_ascii=False]:
    the text that contexts are signed over.  Keys of two types cannot be sorted. *)
Definition plain_char (c : ascii) : string := if (126 <? code c)%N then one c else escape_char c.
Fixpoint plain_text (s : string) : string :=
  match s with "" => "" | String c s => plain_char c +:+ plain_text s end.
Definition json_plain_string (s : string) : string := quote_mark +:+ plain_text s +:+ quote_mark.

Definition is_str_key (k : pykey) : bool := match k with KStr _ => true | KInt _ => false end.
Definition sortable (d : pydict) : bool :=
  forallb is_str_key (dkeys d) || forallb (λ k, negb (is_str_key k)) (dkeys d).

Definition key_leb (a b : pykey) : bool :=
  match a, b with
  | KStr s, KStr t => String.leb s t
  | KInt x, KInt y => (x <=? y)%Z
  | KInt _, KStr _ => true
  | KStr _, KInt _ => false
  end.

(** A value with the items of its dicts by key: what [json.loads] makes of the text
    of [json_sorted]. *)
Fixpoint sorted_keys (v : pyval) : pyval :=
  match v with
  | PList l => PList (List.map sorted_keys l)
  | PDict d => PDict (sort_by (λ a b, key_leb a.1 b.1) (List.map (λ kv, (kv.1, sorted_keys kv.2)) d))
  | v => v
  end.

Section Sorted.
Context `{PyRepr}.

Fixpoint json_sorted (v : pyval) : res string :=
  match v with
  | PNone => Ok "null"
  | PBool b => Ok (if b then "true" else "false")
  | PStr s => Ok (json_plain_string s)
  | PList l =>
      items ← (fix go l := match l with
                           | [] => Ok []
                           | x :: l => t ← json_sorted x; ts ← go l; Ok (t :: ts)
                           end) l;
      Ok ("[" +:+ join "," items +:+ "]")
  | PDict d =>
      if negb (sortable d) then raise TypeError ""
      else
        items ← (fix go d := match d with
                             | [] => Ok []
                             | (k, x) :: d => t ← json_sorted x; ts ← go d; Ok ((k, t) :: ts)
                             end) d;
        Ok ("{" +:+ join "," ((λ kt, json_plain_string (key_str kt.1) +:+ ":" +:+ kt.2)
                                <$> sort_by (λ a b, key_leb a.1 b.1) items) +:+ "}")
  | v => Ok (py_str v)
  end.

(** Every dict in the value has keys of text: what JSON gives. *)
Fixpoint text_keys (v : pyval) : bool :=
  match v with
  | PList l => forallb text_keys l
  | PDict d => forallb is_str_key (dkeys d) && (fix go d := match d with [] => true | (_, x) :: d => text_keys x && go d end) d
  | _ => true
  end.

Lemma json_sorted_ok v : text_keys v = true → ∃ t, json_sorted v = Ok t.
Proof.
  induction v as [| | | | |l Hl|d Hd] using pyval_induction; cbn [json_sorted text_keys]; eauto.
  - intros Hk. enough (∃ ts, (fix go l := match l with
      | [] => Ok [] | x :: l => t ← json_sorted x; ts ← go l; Ok (t :: ts) end) l = Ok ts) as [ts ->] by (simpl; eauto).
    induction Hl as [|x l Hx _ IH]; [by eexists|]. cbn [forallb] in Hk. apply andb_true_iff in Hk as [Hk1 Hk2].
    destruct (Hx Hk1) as [t ->]. destruct (IH Hk2) as [ts ->]. by eexists.
  - intros [Hs Hk]%andb_true_iff. unfold sortable. rewrite Hs. cbn [orb negb]. clear Hs.
    enough (∃ ts, (fix go d := match d with
      | [] => Ok [] | (k, x) :: d => t ← json_sorted x; ts ← go d; Ok ((k, t) :: ts) end) d = Ok ts) as [ts ->]
      by (simpl; eauto).
    induction Hd as [|[k x] d Hx _ IH]; [by eexists|]. apply andb_true_iff in Hk as [Hk1 Hk2].
    destruct (Hx Hk1) as [t E]. cbn [snd] in E. rewrite E. destruct (IH Hk2) as [ts ->]. by eexists.
Qed.
End Sorted.

Example sorted_text :
  json_sorted (H := some_repr) (PDict (mkdict [("b", PInt 1); ("a", PDict (mkdict [("d", PBool true); ("c", PStr (one (ascii_of_N 233)))]))]))
  = Ok ("{" +:+ json_string "a" +:+ ":{" +:+ json_string "c" +:+ ":" +:+ quote_mark +:+ one (ascii_of_N 233) +:+ quote_mark
        +:+ "," +:+ json_string "d" +:+ ":true}," +:+ json_string "b" +:+ ":1}").
Proof. vm_compute. reflexivity. Qed.

Example dumps_nested :
  json_dumps (H := some_repr) (PDict (mkdict [("a", PList [PInt 1; PNone; PBool true]); ("b", PStr (one (ascii_of_N 233)))]))
  = "{" +:+ json_string "a" +:+ ":[1,null,true]," +:+ json_string "b" +:+ ":" +:+ quote_mark +:+ backslash
    +:+ "u00e9" +:+ quote_mark +:+ "}".
Proof. vm_compute. reflexivity. Qed.
