(* ===== verification/PyUuid.v ===== *)
(** [uuid]: the value of [UUID(text)], and [uuid5]. *)
From S2P Require Import Prelude PyStr PyVal PyJson.

Open Scope Z_scope.

(** [s.replace(old, new)], of a non-empty [old]; [skip] characters of it are still to pass. *)
Fixpoint replace_from (skip : nat) (old new s : string) : string :=
  match s with
  | "" => ""
  | String c t =>
      match skip with
      | S k => replace_from k old new t
      | O => if startswith old s then new +:+ replace_from (slen old - 1) old new t else String c (replace_from 0 old new t)
      end
  end.
Definition sreplace (old new s : string) : string := replace_from 0 old new s.

(** The digits of [int(s, 16)], with single underscores between them. *)
Fixpoint parse_hex_digits (acc : Z) (after_digit : bool) (s : string) : option Z :=
  match s with
  | "" => if after_digit then Some acc else None
  | String c s =>
      if is_hex_digit c then parse_hex_digits (16 * acc + Z.of_N (hex_value c)) true s
      else if bool_decide (c = "_"%char) && after_digit then parse_hex_digits acc false s
      else None
  end.
(** After [0x] an underscore may come first. *)
Definition parse_prefixed (s : string) : option Z :=
  if startswith "0x" s || startswith "0X" s
  then parse_hex_digits 0 false (if startswith "_" (sdrop 2 s) then sdrop 3 s else sdrop 2 s)
  else parse_hex_digits 0 false s.
Definition parse_int_16 (s : string) : option Z :=
  match strip s with
  | String "+" s => parse_prefixed s
  | String "-" s => Z.opp <$> parse_prefixed s
  | s => parse_prefixed s
  end.

(** [uuid.UUID(s)], its value. *)
Definition parse_uuid (s : string) : res Z :=
  let digits := sfilter (λ c, negb (bool_decide (c = "-"%char)))
                  (strip_by (λ c, char_in c "{}") (sreplace "uuid:" "" (sreplace "urn:" "" s))) in
  if negb (Nat.eqb (slen digits) 32) then raise ValueError "badly formed hexadecimal UUID string"
  else
    match parse_int_16 digits with
    | Some z => if (0 <=? z) && (z <? 2 ^ 128) then Ok z else raise ValueError "int is out of range (need a 128-bit value)"
    | None => raise ValueError "invalid literal for int() with base 16"
    end.

(** [str(u)] of its 32 digits. *)
Definition uuid_text (hex : string) : string :=
  stake 8 hex +:+ "-" +:+ stake 4 (sdrop 8 hex) +:+ "-" +:+ stake 4 (sdrop 12 hex) +:+ "-" +:+ stake 4 (sdrop 16 hex) +:+ "-"
  +:+ stake 12 (sdrop 20 hex).
(** [uuid.uuid5(namespace, name)]: the first bytes of the digest with the version
    and the variant. *)
Fixpoint map_byte (n : nat) (f : N → N) (s : string) : string :=
  match s, n with
  | "", _ => ""
  | String c s, O => String (ascii_of_N (f (code c))) s
  | String c s, S n => String c (map_byte n f s)
  end.
Definition uuid5 (sha1 : string → string) (namespace name : string) : string :=
  let bytes := stake 16 (sha1 (unhex namespace +:+ utf8 name)) in
  uuid_text (hex_of (map_byte 6 (λ b, N.lor (N.land b 15) 80) (map_byte 8 (λ b, N.lor (N.land b 63) 128) bytes))).
