(* ===== verification/PyIo.v ===== *)
(** Actions on a world: they give a value or raise an exception, and leave the world
    as they found it or changed. *)
From S2P Require Import Prelude.

Definition io (W A : Type) : Type := W → res A * W.

#[export] Instance io_ret W : MRet (io W) := λ A a w, (Ok a, w).
#[export] Instance io_bind W : MBind (io W) := λ A B f m w,
  match m w with (Ok a, w) => f a w | (Raise e, w) => (Raise e, w) end.

Definition of_res {W A} (r : res A) : io W A := λ w, (r, w).
Definition raises {W A} (c : exn_class) (msg : string) : io W A := of_res (raise c msg).
(** [try: m except Exception as e: h(e)]. *)
Definition handling {W A} (m : io W A) (h : exn → io W A) : io W A := λ w,
  match m w with (Ok a, w) => (Ok a, w) | (Raise e, w) => h e w end.
(** Whether [m] raises, and what. *)
Definition trying {W A} (m : io W A) : io W (res A) := λ w, let '(r, w) := m w in (Ok r, w).
(** [try: m finally: f]. *)
Definition finally {W A} (m : io W A) (f : io W unit) : io W A := λ w,
  let '(r, w) := m w in match f w with (Ok _, w) => (r, w) | (Raise e, w) => (Raise e, w) end.

(** ** What an action that returns has done *)

Lemma io_bind_ok {W A B} (m : io W A) (f : A → io W B) w b w' :
  (m ≫= f) w = (Ok b, w') → ∃ a w1, m w = (Ok a, w1) ∧ f a w1 = (Ok b, w').
Proof. unfold mbind, io_bind. destruct (m w) as [[a|e] w1]; [|done]. by exists a, w1. Qed.

Lemma of_res_ok {W A} (r : res A) (w : W) a w' : of_res r w = (Ok a, w') → r = Ok a ∧ w' = w.
Proof. by intros [= -> ->]. Qed.

Lemma handling_ok {W A} (m : io W A) h w a w' : (∀ e w1 w2, h e w1 ≠ (Ok a, w2)) → handling m h w = (Ok a, w') → m w = (Ok a, w').
Proof. intros Hh. unfold handling. destruct (m w) as [[a'|e] w1]; [done|]. intros H. by apply Hh in H. Qed.

(** ** Triples

    Under [P], an action that returns leaves [Q] of its value and of the world, and one that
    raises leaves [E]. *)

Definition triple {W A} (P : W → Prop) (m : io W A) (Q : A → W → Prop) (E : W → Prop) : Prop :=
  ∀ w, P w → match m w with (Ok a, w') => Q a w' | (Raise _, w') => E w' end.
(** What is kept, whatever happens. *)
Abbreviation keeps P m := (triple P m (λ _, P) P).

Section Triples.
Context {W : Type}.

Lemma triple_ret {A} (a : A) (P : W → Prop) E : triple P (mret a) (λ b w, b = a ∧ P w) E.
Proof. by intros w Hw. Qed.

Lemma triple_bind {A B} (P : W → Prop) (m : io W A) (f : A → io W B) Q R E :
  triple P m Q E → (∀ a, triple (Q a) (f a) R E) → triple P (m ≫= f) R E.
Proof. intros Hm Hf w Hw. unfold mbind, io_bind. specialize (Hm w Hw). destruct (m w) as [[a|e] w1]; [by apply Hf|done]. Qed.

Lemma triple_of_res {A} (r : res A) (P : W → Prop) : triple P (of_res r) (λ a w, r = Ok a ∧ P w) P.
Proof. intros w Hw. unfold of_res. by destruct r. Qed.

Lemma triple_handling {A} (P : W → Prop) (m : io W A) h Q F E :
  triple P m Q F → (∀ e, triple F (h e) Q E) → triple P (handling m h) Q E.
Proof. intros Hm Hh w Hw. unfold handling. specialize (Hm w Hw). destruct (m w) as [[a|e] w1]; [done|by apply Hh]. Qed.

Lemma triple_trying {A} (P : W → Prop) (m : io W A) Q F E :
  triple P m Q F → triple P (trying m) (λ r w, match r with Ok a => Q a w | Raise _ => F w end) E.
Proof. intros Hm w Hw. unfold trying. specialize (Hm w Hw). by destruct (m w) as [[a|e] w1]. Qed.

Lemma triple_conseq {A} (P P' : W → Prop) (m : io W A) (Q Q' : A → W → Prop) (E E' : W → Prop) :
  triple P' m Q' E' → (∀ w, P w → P' w) → (∀ a w, Q' a w → Q a w) → (∀ w, E' w → E w) → triple P m Q E.
Proof. intros Hm HP HQ HE w Hw. specialize (Hm w (HP w Hw)). destruct (m w) as [[a|e] w1]; [by apply HQ|by apply HE]. Qed.

Lemma triple_and {A} (P P' : W → Prop) (m : io W A) (Q Q' : A → W → Prop) (E E' : W → Prop) :
  triple P m Q E → triple P' m Q' E' → triple (λ w, P w ∧ P' w) m (λ a w, Q a w ∧ Q' a w) (λ w, E w ∧ E' w).
Proof. intros H H' w [Hw Hw']. specialize (H w Hw). specialize (H' w Hw'). by destruct (m w) as [[a|e] w1]. Qed.

(** A fact that does not depend on the world. *)
Lemma triple_fact {A} (F : Prop) (P : W → Prop) (m : io W A) Q E : (F → triple P m Q E) → triple (λ w, F ∧ P w) m Q E.
Proof. intros H w [HF Hw]. by apply H. Qed.

Lemma keeps_ret {A} (a : A) (P : W → Prop) : keeps P (mret a).
Proof. by intros w Hw. Qed.

Lemma keeps_of_res {A} (r : res A) (P : W → Prop) : keeps P (of_res r).
Proof. intros w Hw. unfold of_res. by destruct r. Qed.

Lemma keeps_bind {A B} (P : W → Prop) (m : io W A) (f : A → io W B) : keeps P m → (∀ a, keeps P (f a)) → keeps P (m ≫= f).
Proof. apply triple_bind. Qed.

Lemma keeps_bind_res {A B} (P : W → Prop) (r : res A) (f : A → io W B) : (∀ a, r = Ok a → keeps P (f a)) → keeps P (of_res r ≫= f).
Proof. intros Hf w Hw. unfold mbind, io_bind, of_res. destruct r; [by apply Hf|done]. Qed.

Lemma keeps_handling {A} (P : W → Prop) (m : io W A) h : keeps P m → (∀ e, keeps P (h e)) → keeps P (handling m h).
Proof. apply triple_handling. Qed.

Lemma keeps_trying {A} (P : W → Prop) (m : io W A) : keeps P m → keeps P (trying m).
Proof. intros Hm w Hw. unfold trying. specialize (Hm w Hw). by destruct (m w) as [[a|e] w1]. Qed.

Lemma triple_use {A} (P : W → Prop) (m : io W A) Q E w : triple P m Q E → P w → match m w with (Ok a, w') => Q a w' | (Raise _, w') => E w' end.
Proof. intros H. apply H. Qed.
End Triples.

(** Goes through an action whose calls are known to keep what is to be kept. *)
Create HintDb keeps discriminated.
Ltac keep :=
  repeat first
    [ progress cbv zeta | apply keeps_ret | apply keeps_of_res | solve [auto with keeps]
    | apply keeps_bind_res; intros ? ? | apply keeps_bind; [|intros ?] | apply keeps_handling; [|intros ?] | apply keeps_trying
    | case_match ].
