(* ===== verification/ActionStore.v ===== *)
(** The authority of the control room's actions (console/app/services/
    control_room/business_action_authority_policy.py, _digest.py, _tokens.py,
    _authorization_snapshot.py, _ledger.py, _intent_store.py and
    _transition_core.py): the tables of intents, stage tokens and ledger events,
    the queries on them, and the transition of an intent.

    A transaction reads the database's [NOW()] and the process's clock, and takes
    random bytes and identifiers: its [txn].  An operation gives a result and the
    new tables, or raises; a raise rolls back.  The CHECK constraints of the
    tables are no part of the operations: the theorems on reachable tables imply
    that they never fire.  The unique constraints are. *)
From S2P Require Import Prelude PyStr PyVal PyTime PyJson Permissions.

Open Scope Z_scope.

(** ** business_action_digest.py *)

Fixpoint canonical_action_value (v : pyval) : pyval :=
  match v with
  | PDict d =>
      PDict (mkdict (sort_by (λ a b, String.leb a.1 b.1)
        ((λ kv, (match kv.1 with KStr s => s | KInt z => str_of_Z z end, canonical_action_value kv.2)) <$> d)))
  | PList l => PList (canonical_action_value <$> l)
  | v => v
  end.

(** ** business_action_authority_policy.py *)

Definition EXECUTABLE_TEMPLATE_ID : string := "create_followup_task".
Definition INTENT_TTL_SECONDS : Z := 24 * 60 * 60.
Definition EXECUTION_HANDLE_TTL_SECONDS : Z := 5 * 60.

Definition unavailable {A} : res A := raise (HTTPException 403) "action authority is unavailable".
Definition not_found {A} : res A := raise (HTTPException 404) "action authority not found".

Definition actor_id (user : pydict) : res Z :=
  let value := get "id" user in
  if is_bool value then unavailable
  else
    resolved ← catch TypeError (catch ValueError (py_int value) unavailable) unavailable;
    if resolved <=? 0 then unavailable else Ok resolved.

Section Policy.
Context `{PyRepr} (sha256 : string → string).

(** [hashlib.sha256(canonical bytes).hexdigest()]. *)
Definition action_contract_digest (value : pydict) : string :=
  hex_of (sha256 (json_dumps (canonical_action_value (PDict value)))).

Definition authority_scope (user : pydict) : res (string * string) :=
  let tenant := strip (py_str (py_or (py_or (get "active_tenant_id" user) (get "tenant_id" user)) (PStr ""))) in
  let workspace :=
    strip (py_str (py_or (py_or (get "active_workspace_id" user) (get "workspace_id" user)) (PStr ""))) in
  if negb (nonempty tenant) || negb (nonempty workspace) then unavailable else Ok (tenant, workspace).

Definition _require (user : pydict) (permission : string) : res unit :=
  _ ← actor_id user;
  _ ← authority_scope user;
  allowed ← has_permission user permission;
  if negb allowed then unavailable else Ok tt.

Definition require_write (user : pydict) : res unit := _require user "control_room.write".
Definition require_approve (user : pydict) : res unit := _require user "control_room.approve".
Definition require_execute (user : pydict) : res unit := _require user "control_room.execute".

Definition require_distinct_actors (maker_user_id checker_user_id : Z) : res unit :=
  if maker_user_id =? checker_user_id then unavailable else Ok tt.
End Policy.

(** ** The tables *)

Record Intent := mkIntent {
  i_id : string;
  i_tenant : string;
  i_workspace : string;
  i_item : string;
  i_maker : Z;
  i_checker : option Z;
  i_executor : option Z;
  i_template : string;
  i_binding_digest : string;
  i_evidence_digest : string;
  i_observation_fingerprint : string;
  i_contract_digest : string;
  i_target_digest : string;
  i_dry_run_digest : string;
  i_dry_run_action_run_id : Z;
  i_dry_run_evidence_digest : string;
  i_decision_digest : string;
  i_state : string;
  i_version : Z;
  i_result_code : string;
  i_correlation : string;
  i_created : instant;
  i_updated : instant;
  i_expires : instant }.

Record Token := mkToken {
  t_id : string;
  t_tenant : string;
  t_workspace : string;
  t_intent : string;
  t_stage : string;
  t_subject : Z;
  t_digest : string;
  t_status : string;
  t_operation_digest : option string;
  t_result_state : option string;
  t_result_version : option Z;
  t_issued : instant;
  t_expires : instant;
  t_consumed_at : option instant;
  t_consumed_by : option Z }.

Record Event := mkEvent {
  e_tenant : string;
  e_workspace : string;
  e_intent : string;
  e_actor : Z;
  e_type : string;
  e_from : string;
  e_to : string;
  e_version : Z;
  e_result : string;
  e_operation_digest : string;
  e_permission : string;
  e_global_role : string;
  e_workspace_role : option string;
  e_grant_source : string }.

(** [users] and [user_workspace_roles]: user, workspace, role name. *)
Record Account := mkAccount { u_role : string; u_active : bool; u_tenant : option string }.

Record DB := mkDB {
  intents : gmap string Intent;
  tokens : list Token;
  events : list Event;
  users : gmap Z Account;
  memberships : list (Z * string * string) }.

Definition with_intents (rows : gmap string Intent) (db : DB) : DB :=
  mkDB rows (tokens db) (events db) (users db) (memberships db).
Definition with_tokens (ts : list Token) (db : DB) : DB :=
  mkDB (intents db) ts (events db) (users db) (memberships db).
Definition with_events (es : list Event) (db : DB) : DB :=
  mkDB (intents db) (tokens db) es (users db) (memberships db).

Record txn := mkTxn {
  now : instant;
  clock : instant;
  random_bytes : string;
  row_id : string;
  correlation_id : string }.

(** ** business_action_authorization_snapshot.py *)

Definition WORKSPACE_WIDE_SCOPED_ROLES : list string := ["tenant_admin"; "workspace_admin"].

Record AuthorizationSnapshot := mkSnapshot {
  a_permission : string;
  a_global_role : string;
  a_workspace_role : option string;
  a_workspace_wide : bool;
  a_grant_source : string }.

(** [canonical_workspace_role(role) or empty]: no [str] makes it raise. *)
Definition workspace_role_name (role : string) : string :=
  match canonical_workspace_role (PStr role) with Ok (Some r) => r | _ => "" end.

Definition user_row (tenant : string) (uid : Z) (db : DB) : option Account :=
  match users db !! uid with
  | Some u => if bool_decide (u_tenant u = Some tenant) || mem (u_role u) ["owner"; "super_admin"; "admin"]
              then Some u else None
  | None => None
  end.

Definition membership_roles (workspace : string) (uid : Z) (db : DB) : list string :=
  sort_strings ((λ m, m.2) <$> List.filter (λ m, (m.1.1 =? uid) && bool_decide (m.1.2 = workspace)) (memberships db)).

Definition capture_authorization_snapshot (tenant workspace : string) (actor_user_id : Z)
    (permission : string) (db : DB) : option AuthorizationSnapshot :=
  match user_row tenant actor_user_id db with
  | None => None
  | Some u =>
      let workspace_roles := membership_roles workspace actor_user_id db in
      if negb (u_active u) || match workspace_roles with [] => true | _ => false end then None
      else
        let global_role := u_role u in
        let global_grant := mem permission (role_permissions global_role) in
        let workspace_grants :=
          List.filter (λ role, mem permission (role_permissions (workspace_role_name role))) workspace_roles in
        if negb global_grant && match workspace_grants with [] => true | _ => false end then None
        else
          let granting := match List.find (λ r, mem r WORKSPACE_WIDE_SCOPED_ROLES) workspace_grants with
                          | Some r => Some r
                          | None => head workspace_grants
                          end in
          Some (mkSnapshot permission global_role
            (match granting with
             | Some r => if nonempty r then Some r else head workspace_roles
             | None => head workspace_roles
             end)
            (mem global_role WORKSPACE_WIDE_SCOPED_ROLES || mem global_role PLATFORM_ADMIN_ROLES
             || match granting with Some r => mem r WORKSPACE_WIDE_SCOPED_ROLES | None => false end)
            (match granting with
             | Some r => if nonempty r then "workspace_role" else "global_role"
             | None => "global_role"
             end))
  end.

Definition actor_has_current_permission (tenant workspace : string) (uid : Z) (permission : string) (db : DB) : bool :=
  bool_decide (is_Some (capture_authorization_snapshot tenant workspace uid permission db)).

(** ** business_action_ledger.py *)

Definition _permission_for_event (event_type from_state : string) : res string :=
  if bool_decide (event_type = "intent_created") then Ok "control_room.write"
  else if bool_decide (event_type = "stale") then
    Ok (if bool_decide (from_state = "approved") then "control_room.execute" else "control_room.approve")
  else if mem event_type ["approval_claimed"; "approved"; "rejected"] then Ok "control_room.approve"
  else if mem event_type ["execution_reserved"; "completed"; "failed"] then Ok "control_room.execute"
  else raise ValueError "control room authority event permission is invalid".

(** The unique constraints of the ledger. *)
Definition event_conflict (e : Event) (es : list Event) : bool :=
  existsb (λ x, bool_decide (e_workspace x = e_workspace e)
    && (bool_decide (e_intent x = e_intent e) && (e_version x =? e_version e)
        || bool_decide (e_operation_digest x = e_operation_digest e))) es.

Definition append_intent_event (intent : Intent) (actor_user_id : Z)
    (event_type from_state to_state : string) (intent_version : Z) (result_code operation_digest : string)
    (db : DB) : res DB :=
  permission ← _permission_for_event event_type from_state;
  let permission :=
    if bool_decide (event_type = "stale") && bool_decide (from_state = "pending_approval")
       && (actor_user_id =? i_maker intent)
    then "control_room.write" else permission in
  match capture_authorization_snapshot (i_tenant intent) (i_workspace intent) actor_user_id permission db with
  | None => unavailable
  | Some a =>
      let e := mkEvent (i_tenant intent) (i_workspace intent) (i_id intent) actor_user_id event_type from_state
                 to_state intent_version result_code operation_digest (a_permission a) (a_global_role a)
                 (a_workspace_role a) (a_grant_source a) in
      if event_conflict e (events db) then raise UniqueViolationError ""
      else Ok (with_events (events db ++ [e]) db)
  end.

(** ** business_action_transition_core.py *)

Definition _TRANSITIONS : list (string * (list string * string * string)) :=
  [("approval_claimed", (["pending_approval"], "pending_approval", "claimed"));
   ("approved", (["pending_approval"], "approved", "approved"));
   ("rejected", (["pending_approval"], "rejected", "rejected"));
   ("stale", (["pending_approval"; "approved"], "stale", "stale"));
   ("execution_reserved", (["approved"], "execution_reserved", "execution_reserved"));
   ("completed", (["execution_reserved"], "completed", "completed"));
   ("failed", (["execution_reserved"], "failed", "failed"))].

Definition lock_intent (x : txn) (tenant workspace intent_id : string) (db : DB) : res Intent :=
  match intents db !! intent_id with
  | Some i =>
      if bool_decide (i_tenant i = tenant) && bool_decide (i_workspace i = workspace) && (now x <? i_expires i)
      then Ok i else not_found
  | None => not_found
  end.

(** COALESCE. *)
Definition coalesce {A} (a b : option A) : option A := match a with Some _ => a | None => b end.

Definition set_state (x : txn) (state : string) (version : Z) (result_code : string)
    (checker executor : option Z) (i : Intent) : Intent :=
  mkIntent (i_id i) (i_tenant i) (i_workspace i) (i_item i) (i_maker i)
    (coalesce checker (i_checker i)) (coalesce executor (i_executor i)) (i_template i)
    (i_binding_digest i) (i_evidence_digest i) (i_observation_fingerprint i) (i_contract_digest i)
    (i_target_digest i) (i_dry_run_digest i) (i_dry_run_action_run_id i) (i_dry_run_evidence_digest i)
    (i_decision_digest i) state version result_code (i_correlation i) (i_created i)
    (Z.max (i_updated i) (now x)) (i_expires i).

(** The rows of the UPDATE: the intent's own, unchanged since it was read. *)
Definition same_version (intent row : Intent) : bool :=
  bool_decide (i_tenant row = i_tenant intent) && bool_decide (i_workspace row = i_workspace intent)
  && bool_decide (i_state row = i_state intent) && (i_version row =? i_version intent).

Definition transition_intent (x : txn) (intent : Intent) (actor_user_id : Z) (event_type operation_digest : string)
    (checker executor : option Z) (db : DB) : res (Intent * DB) :=
  match afind event_type _TRANSITIONS with
  | None => raise ValueError "control room authority transition is invalid"
  | Some (allowed, next_state, result_code) =>
      let from_state := i_state intent in
      if negb (mem from_state allowed) then not_found
      else
        let next_version := i_version intent + 1 in
        match intents db !! i_id intent with
        | Some row =>
            if same_version intent row then
              let updated := set_state x next_state next_version result_code checker executor row in
              db ← append_intent_event updated actor_user_id event_type from_state next_state next_version
                     result_code operation_digest (with_intents (<[i_id intent := updated]> (intents db)) db);
              Ok (updated, db)
            else not_found
        | None => not_found
        end
  end.
