(* ===== verification/ActionTokens.v ===== *)
(** Stage tokens of the control room's actions (console/app/services/
    control_room/business_action_tokens.py): the one-time handles of the approval
    and execution stages.  A handle is 32 random bytes in hexadecimal; its row
    keeps only a digest of it. *)
From S2P Require Import Prelude PyStr PyVal PyTime PyJson Permissions ActionStore.

Open Scope Z_scope.

Definition _STAGE_TTL : list (string * Z) :=
  [("workflow", 24 * 60 * 60); ("approval", 24 * 60 * 60); ("execution", EXECUTION_HANDLE_TTL_SECONDS)].

Record IssuedStageHandle := Issued {
  h_intent : string;
  h_stage : string;
  h_expires : instant;
  h_handle : string }.

Record ClaimedStageToken := Claimed {
  c_token : string;
  c_intent : string;
  c_stage : string;
  c_operation_digest : string;
  c_replay : bool;
  c_result_state : option string;
  c_result_version : option Z }.

Definition new_handle (x : txn) : string := hex_of (random_bytes x).

(** [_HANDLE.fullmatch(handle)]. *)
Definition _HANDLE (handle : string) : bool := Nat.eqb (slen handle) 64 && sall is_lower_hex handle.

(** The columns every query on the tokens of a caller compares. *)
Definition of_caller (tenant workspace stage : string) (subject : Z) (t : Token) : bool :=
  bool_decide (t_tenant t = tenant) && bool_decide (t_workspace t = workspace)
  && bool_decide (t_stage t = stage) && (t_subject t =? subject).

Definition is_active (t : Token) : bool := bool_decide (t_status t = "active").

Section Tokens.
Context `{PyRepr} (sha256 : string → string).

Definition handle_digest (handle : string) : res string :=
  if negb (_HANDLE handle) then not_found else Ok (sha256 (unhex handle)).

Definition server_operation_digest (workspace_id intent_id operation contract_digest : string)
    (actor_user_id : Z) : string :=
  action_contract_digest sha256
    (mkdict [("workspace_id", PStr workspace_id); ("intent_id", PStr intent_id); ("operation", PStr operation);
             ("contract_digest", PStr contract_digest); ("actor_user_id", PInt actor_user_id)]).

Definition server_binding_operation_digest (workspace_id : string) (dry_run_action_run_id : Z)
    (dry_run_evidence_digest : string) (maker_user_id : Z) (binding_digest contract_digest : string) : string :=
  action_contract_digest sha256
    (mkdict [("workspace_id", PStr workspace_id); ("dry_run_action_run_id", PInt dry_run_action_run_id);
             ("dry_run_evidence_digest", PStr dry_run_evidence_digest); ("maker_user_id", PInt maker_user_id);
             ("binding_digest", PStr binding_digest); ("operation", PStr "promote");
             ("contract_digest", PStr contract_digest)]).

Definition transition_operation_digest (intent : Intent) (operation : string) (actor_user_id : Z) : string :=
  server_operation_digest (i_workspace intent) (i_id intent) operation (i_contract_digest intent) actor_user_id.

(** The row ON CONFLICT finds: the active token of the caller on the intent. *)
Definition active_slot (tenant workspace intent_id stage : string) (subject : Z) (t : Token) : bool :=
  of_caller tenant workspace stage subject t && bool_decide (t_intent t = intent_id) && is_active t.

Definition reissue (digest : string) (issued_at expires_at : instant) (t : Token) : Token :=
  mkToken (t_id t) (t_tenant t) (t_workspace t) (t_intent t) (t_stage t) (t_subject t) digest (t_status t)
    None None None issued_at expires_at None None.

Definition issue_stage_token (x : txn) (user : pydict) (intent_id stage : string) (intent_expires_at : instant)
    (db : DB) : res (IssuedStageHandle * DB) :=
  match afind stage _STAGE_TTL with
  | None => raise ValueError "action authority token stage is invalid"
  | Some ttl =>
      '(tenant, workspace) ← authority_scope user;
      subject ← actor_id user;
      let issued_at := clock x in
      let expires_at := Z.min intent_expires_at (issued_at + seconds ttl) in
      if expires_at <=? issued_at then not_found
      else
        let handle := new_handle x in
        digest ← handle_digest handle;
        let slot := active_slot tenant workspace intent_id stage subject in
        let issued := Issued intent_id stage expires_at handle in
        if existsb (λ t, negb (slot t) && bool_decide (t_digest t = digest)) (tokens db) then
          raise UniqueViolationError ""
        else if existsb slot (tokens db) then
          Ok (issued, with_tokens
            ((λ t, if slot t then reissue digest issued_at expires_at t else t) <$> tokens db) db)
        else if existsb (λ t, bool_decide (t_id t = row_id x)) (tokens db) then raise UniqueViolationError ""
        else
          Ok (issued, with_tokens (tokens db ++ [mkToken (row_id x) tenant workspace intent_id stage subject digest
            "active" None None None issued_at expires_at None None]) db)
  end.

(** The row of a live handle of the caller. *)
Definition token_row (x : txn) (tenant workspace digest stage : string) (subject : Z) (db : DB) : option Token :=
  List.find (λ t, of_caller tenant workspace stage subject t && bool_decide (t_digest t = digest)
                  && (now x <? t_expires t)) (tokens db).

Definition claim_stage_token (x : txn) (user : pydict) (handle stage operation : string) (db : DB) :
    res ClaimedStageToken :=
  '(tenant, workspace) ← authority_scope user;
  subject ← actor_id user;
  digest ← handle_digest handle;
  match token_row x tenant workspace digest stage subject db with
  | None => not_found
  | Some t =>
      match intents db !! t_intent t with
      | None => not_found
      | Some intent =>
          if negb (bool_decide (i_tenant intent = t_tenant t) && bool_decide (i_workspace intent = t_workspace t))
             || negb (nonempty (t_intent t))
          then not_found
          else
            let operation_digest :=
              server_operation_digest workspace (t_intent t) operation (i_contract_digest intent) subject in
            if bool_decide (t_status t = "consumed") then
              if negb (bool_decide (default "" (t_operation_digest t) = operation_digest)) then not_found
              else
                Ok (Claimed (t_id t) (t_intent t) stage operation_digest true
                  (match t_result_state t with Some s => if nonempty s then Some s else None | None => None end)
                  (t_result_version t))
            else if negb (is_active t) then not_found
            else Ok (Claimed (t_id t) (t_intent t) stage operation_digest false None None)
      end
  end.

Definition peek_stage_token_intent (x : txn) (user : pydict) (handle stage : string) (db : DB) : res string :=
  '(tenant, workspace) ← authority_scope user;
  digest ← handle_digest handle;
  subject ← actor_id user;
  match List.find (λ t, of_caller tenant workspace stage subject t && bool_decide (t_digest t = digest)
                        && mem (t_status t) ["active"; "consumed"] && (now x <? t_expires t)) (tokens db) with
  | Some t => if nonempty (t_intent t) then Ok (t_intent t) else not_found
  | None => not_found
  end.

Definition consumed (x : txn) (operation_digest result_state : string) (result_version : Z) (by_ : Z)
    (t : Token) : Token :=
  mkToken (t_id t) (t_tenant t) (t_workspace t) (t_intent t) (t_stage t) (t_subject t) (t_digest t) "consumed"
    (Some operation_digest) (Some result_state) (Some result_version) (t_issued t) (t_expires t)
    (Some (Z.max (now x) (t_issued t))) (Some by_).

Definition consume_stage_token (x : txn) (token : ClaimedStageToken) (user : pydict) (result_state : string)
    (result_version : Z) (db : DB) : res DB :=
  if c_replay token then Ok db
  else
    '(tenant, workspace) ← authority_scope user;
    subject ← actor_id user;
    let hit t := of_caller tenant workspace (c_stage token) subject t && bool_decide (t_id t = c_token token)
                 && bool_decide (t_intent t = c_intent token) && is_active t in
    if negb (existsb hit (tokens db)) then not_found
    else if existsb (λ t, negb (hit t) && bool_decide (t_workspace t = workspace)
                          && bool_decide (t_operation_digest t = Some (c_operation_digest token))) (tokens db)
    then raise UniqueViolationError ""
    else
      Ok (with_tokens
        ((λ t, if hit t then consumed x (c_operation_digest token) result_state result_version subject t else t)
           <$> tokens db) db).
End Tokens.
