(* ===== verification/ActionAuthority.v ===== *)
(** Approval and execution of the control room's actions (console/app/services/
    control_room/business_action_intent_store.py, _revalidation.py,
    _transitions.py, _execution_authority.py, business_followup_intent.py and the
    authority steps of business_council_commands.py).

    Each operation is one transaction that locks the intent's row before it reads
    it, so the operations on an intent are atomic steps ([apply]); [reachable]
    interleaves them with any change of the accounts.  What the operations ask of
    other tables - the item, its contract, its dry run, the effect - is given by
    the [surroundings] of the transaction, whatever they answer. *)
From S2P Require Import Prelude PyStr PyVal PyTime Permissions ActionStore ActionTokens.

Open Scope Z_scope.

Record AuthorityItemContract := mkContract {
  k_item : string;
  k_maker : Z;
  k_tenant : string;
  k_workspace : string;
  k_decision : Z;
  k_binding_digest : string;
  k_evidence_digest : string;
  k_observation_fingerprint : string;
  k_target_digest : string;
  k_decision_digest : string;
  k_contract_digest : string;
  k_dry_run_digest : string }.

Record AuthorityDryRun := mkDryRun {
  d_action_run_id : Z;
  d_contract_digest : string;
  d_evidence_digest : string }.

Record surroundings := mkSurroundings {
  require_enabled_action_template : res unit;
  row_contract : AuthorizationSnapshot → string → res (option AuthorityItemContract);
  require_authority_dry_run : AuthorityItemContract → Z → string → string → res AuthorityDryRun;
  record_followup_dry_run : AuthorityItemContract → res (option Z);
  link_authority_dry_run : AuthorityDryRun → AuthorityItemContract → string → res unit;
  complete_followup_effect : AuthorityItemContract → res Z }.

(** ** business_action_intent_store.py *)

(** [authority_window]: the bounds of the generated range; no end is infinity. *)
Definition authority_window (i : Intent) : instant * option instant :=
  (i_created i,
   if mem (i_state i) ["pending_approval"; "rejected"; "stale"] then
     Some (if bool_decide (i_state i = "pending_approval") then i_expires i else i_updated i)
   else None).

(** Ranges closed below and open above: [&&]. *)
Definition overlap (v w : instant * option instant) : bool :=
  let lo := Z.max v.1 w.1 in
  match v.2 with Some b => lo <? b | None => true end && match w.2 with Some b => lo <? b | None => true end.

Definition same_target (i j : Intent) : bool :=
  bool_decide (i_tenant i = i_tenant j) && bool_decide (i_workspace i = i_workspace j)
  && (i_maker i =? i_maker j) && bool_decide (i_item i = i_item j) && bool_decide (i_template i = i_template j).

(** The constraints ON CONFLICT DO NOTHING gives way to. *)
Definition intent_conflict (i j : Intent) : bool :=
  bool_decide (i_id i = i_id j)
  || bool_decide (i_tenant i = i_tenant j) && bool_decide (i_workspace i = i_workspace j)
     && (i_dry_run_action_run_id i =? i_dry_run_action_run_id j)
  || same_target i j && overlap (authority_window i) (authority_window j).

Definition rows (db : DB) : list Intent := (map_to_list (intents db)).*2.

(** [ORDER BY created_at DESC, id DESC]. *)
Definition newer (i j : Intent) : bool :=
  (i_created j <? i_created i) || (i_created i =? i_created j) && String.leb (i_id j) (i_id i).

Definition find_binding_intent (x : txn) (tenant workspace : string) (maker : Z) (item : string) (db : DB) :
    option Intent :=
  head (sort_by newer (List.filter (λ i,
    bool_decide (i_tenant i = tenant) && bool_decide (i_workspace i = workspace) && (i_maker i =? maker)
    && bool_decide (i_item i = item) && bool_decide (i_template i = EXECUTABLE_TEMPLATE_ID)
    && (mem (i_state i) ["approved"; "execution_reserved"; "completed"; "failed"]
        || bool_decide (i_state i = "pending_approval") && (now x <? i_expires i))) (rows db))).

(** [str(intent.get(key) or empty) == str(value)] of the columns compared. *)
Definition all_equal (l : list (string * string)) : bool := forallb (λ p, bool_decide (p.1 = p.2)) l.
Definition int_text (z : Z) : string := if z =? 0 then "" else str_of_Z z.

Definition digests_match (i : Intent) (k : AuthorityItemContract) : list (string * string) :=
  [(i_item i, k_item k); (int_text (i_maker i), str_of_Z (k_maker k)); (i_template i, EXECUTABLE_TEMPLATE_ID);
   (i_binding_digest i, k_binding_digest k); (i_evidence_digest i, k_evidence_digest k);
   (i_observation_fingerprint i, k_observation_fingerprint k); (i_contract_digest i, k_contract_digest k);
   (i_target_digest i, k_target_digest k); (i_dry_run_digest i, k_dry_run_digest k);
   (i_decision_digest i, k_decision_digest k)].

Definition intent_matches_contract (i : Intent) (k : AuthorityItemContract) : bool :=
  all_equal ((i_tenant i, k_tenant k) :: (i_workspace i, k_workspace k) :: digests_match i k).

Definition new_intent (x : txn) (k : AuthorityItemContract) (d : AuthorityDryRun) (intent_id : string) : Intent :=
  mkIntent intent_id (k_tenant k) (k_workspace k) (k_item k) (k_maker k) None None EXECUTABLE_TEMPLATE_ID
    (k_binding_digest k) (k_evidence_digest k) (k_observation_fingerprint k) (k_contract_digest k)
    (k_target_digest k) (d_contract_digest d) (d_action_run_id d) (d_evidence_digest d) (k_decision_digest k)
    "pending_approval" 1 "created" (correlation_id x) (now x) (now x) (now x + seconds INTENT_TTL_SECONDS).

Definition insert_intent (x : txn) (k : AuthorityItemContract) (d : AuthorityDryRun) (intent_id : string) (db : DB) :
    option (Intent * DB) :=
  let i := new_intent x k d intent_id in
  if existsb (intent_conflict i) (rows db) then None
  else Some (i, with_intents (<[intent_id := i]> (intents db)) db).

(** ** business_action_revalidation.py *)

Definition _matches_intent (i : Intent) (k : AuthorityItemContract) : bool := all_equal (digests_match i k).

(** [except HTTPException as exc: if exc.status_code in codes: return None]. *)
Definition none_on {A} (codes : list Z) (r : res (option A)) : res (option A) :=
  match r with
  | Raise (Exn (HTTPException status) msg) =>
      if mem status codes then Ok None else Raise (Exn (HTTPException status) msg)
  | r => r
  end.

Definition revalidate_intent (x : txn) (s : surroundings) (i : Intent) (db : DB) :
    res (option AuthorityItemContract) :=
  if i_expires i <=? clock x then Ok None
  else if negb (nonempty (i_tenant i) && nonempty (i_workspace i) && nonempty (i_item i) && negb (i_maker i =? 0))
  then Ok None
  else
    enabled ← none_on [404] (_ ← require_enabled_action_template s; Ok (Some tt));
    match enabled, capture_authorization_snapshot (i_tenant i) (i_workspace i) (i_maker i) "control_room.write" db with
    | Some _, Some a =>
        contract ← row_contract s a (i_item i);
        match contract with
        | Some k =>
            if negb (_matches_intent i k) then Ok None
            else
              none_on [404; 409]
                (_ ← require_authority_dry_run s k (i_dry_run_action_run_id i) (i_dry_run_evidence_digest i) (i_id i);
                 Ok (Some k))
        | None => Ok None
        end
    | _, _ => Ok None
    end.

Definition temporarily_unavailable {A} : res A :=
  raise (HTTPException 503) "action authority is temporarily unavailable".

Definition intent_authority_is_current (x : txn) (s : surroundings) (i : Intent) (db : DB) : res bool :=
  match revalidate_intent x s i db with
  | Ok contract => Ok (bool_decide (is_Some contract))
  | Raise _ => temporarily_unavailable
  end.

(** ** The transactions *)

Record ApprovalClaim := mkClaim {
  ac_intent : string;
  ac_state : string;
  ac_version : Z;
  ac_expires : instant;
  ac_handle : option string }.

Record TransitionResult := mkResult {
  r_intent : string;
  r_state : string;
  r_version : Z;
  r_replay : bool }.

Section Flows.
Context `{PyRepr} (sha256 : string → string).

(** db_scope.py. *)
Definition workspace_scope_from_user (user : pydict) : res (option string * string) :=
  let tenant_id := py_or (get "active_tenant_id" user) (get "tenant_id" user) in
  let workspace_id := py_or (get "active_workspace_id" user) (get "workspace_id" user) in
  let workspace_text := strip (py_str (py_or workspace_id (PStr ""))) in
  if negb (nonempty workspace_text) then raise (HTTPException 403) "active workspace is required"
  else
    let tenant_text := if truthy tenant_id then strip (py_str tenant_id) else "" in
    Ok (if nonempty tenant_text then Some tenant_text else None, workspace_text).

(** [run_with_db_scope], and the check each operation makes of the scope it gets. *)
Definition run_with_db_scope {A} (user : pydict) (tenant workspace : string) (work : res A) : res A :=
  '(scoped_tenant, scoped_workspace) ← workspace_scope_from_user user;
  if negb (bool_decide (scoped_tenant = Some tenant)) || negb (bool_decide (scoped_workspace = workspace))
  then not_found else work.

Definition claim_intent_for_approval (x : txn) (s : surroundings) (user : pydict) (intent_id : string) (db : DB) :
    res (ApprovalClaim * DB) :=
  _ ← require_approve user;
  '(tenant, workspace) ← authority_scope user;
  checker ← actor_id user;
  run_with_db_scope user tenant workspace
    (intent ← lock_intent x tenant workspace intent_id db;
     _ ← require_distinct_actors (i_maker intent) checker;
     if negb (actor_has_current_permission tenant workspace checker "control_room.approve" db) then unavailable
     else if match i_checker intent with Some c => negb (c =? checker) | None => false end then not_found
     else if negb (bool_decide (i_state intent = "pending_approval")) then not_found
     else
       is_current ← intent_authority_is_current x s intent db;
       if negb is_current then
         '(stale, db) ← transition_intent x intent checker "stale"
           (transition_operation_digest sha256 intent "claim_approval_stale" checker) None None db;
         Ok (mkClaim (i_id stale) "stale" (i_version stale) (i_expires stale) None, db)
       else
         '(current, db) ←
           match i_checker intent with
           | None =>
               transition_intent x intent checker "approval_claimed"
                 (transition_operation_digest sha256 intent "claim_approval" checker) (Some checker) None db
           | Some _ => Ok (intent, db)
           end;
         '(token, db) ← issue_stage_token sha256 x user intent_id "approval" (i_expires current) db;
         Ok (mkClaim intent_id (i_state current) (i_version current) (i_expires current) (Some (h_handle token)), db)).

Definition replayed (token : ClaimedStageToken) : TransitionResult :=
  mkResult (c_intent token) (default "None" (c_result_state token)) (default 0 (c_result_version token)) true.

Definition result_of (updated : Intent) : TransitionResult :=
  mkResult (i_id updated) (i_state updated) (i_version updated) false.

Definition _decide_intent (x : txn) (s : surroundings) (user : pydict) (approval_handle operation : string) (db : DB) :
    res (TransitionResult * DB) :=
  _ ← require_approve user;
  '(tenant, workspace) ← authority_scope user;
  checker ← actor_id user;
  run_with_db_scope user tenant workspace
    (intent_id ← peek_stage_token_intent sha256 x user approval_handle "approval" db;
     intent ← lock_intent x tenant workspace intent_id db;
     token ← claim_stage_token sha256 x user approval_handle "approval" operation db;
     if c_replay token then Ok (replayed token, db)
     else
       _ ← require_distinct_actors (i_maker intent) checker;
       if negb (default 0 (i_checker intent) =? checker) then not_found
       else if negb (actor_has_current_permission tenant workspace checker "control_room.approve" db) then unavailable
       else
         is_current ← intent_authority_is_current x s intent db;
         let event_type :=
           if negb is_current then "stale"
           else if bool_decide (operation = "approve") then "approved" else "rejected" in
         '(updated, db) ← transition_intent x intent checker event_type (c_operation_digest token) None None db;
         db ← consume_stage_token x token user (i_state updated) (i_version updated) db;
         Ok (result_of updated, db)).

Definition approve_intent (x : txn) (s : surroundings) (user : pydict) (approval_handle : string) (db : DB) :=
  _decide_intent x s user approval_handle "approve" db.
Definition reject_intent (x : txn) (s : surroundings) (user : pydict) (approval_handle : string) (db : DB) :=
  _decide_intent x s user approval_handle "reject" db.

(** ** business_action_execution_authority.py *)

Definition issue_execution_handle (x : txn) (s : surroundings) (user : pydict) (intent_id : string) (db : DB) :
    res (ApprovalClaim * DB) :=
  _ ← require_execute user;
  '(tenant, workspace) ← authority_scope user;
  executor ← actor_id user;
  run_with_db_scope user tenant workspace
    (intent ← lock_intent x tenant workspace intent_id db;
     _ ← require_distinct_actors (i_maker intent) executor;
     if negb (bool_decide (i_state intent = "approved")) || negb (default 0 (i_checker intent) =? executor)
     then not_found
     else if negb (actor_has_current_permission tenant workspace executor "control_room.execute" db) then unavailable
     else
       is_current ← intent_authority_is_current x s intent db;
       if negb is_current then
         '(stale, db) ← transition_intent x intent executor "stale"
           (transition_operation_digest sha256 intent "issue_execution_stale" executor) None None db;
         Ok (mkClaim (i_id stale) "stale" (i_version stale) (i_expires stale) None, db)
       else
         '(token, db) ← issue_stage_token sha256 x user intent_id "execution" (i_expires intent) db;
         Ok (mkClaim intent_id "approved" (i_version intent) (i_expires intent) (Some (h_handle token)), db)).

Definition reserve_execution (x : txn) (s : surroundings) (user : pydict) (execution_handle : string) (db : DB) :
    res (TransitionResult * DB) :=
  _ ← require_execute user;
  '(tenant, workspace) ← authority_scope user;
  executor ← actor_id user;
  run_with_db_scope user tenant workspace
    (intent_id ← peek_stage_token_intent sha256 x user execution_handle "execution" db;
     intent ← lock_intent x tenant workspace intent_id db;
     token ← claim_stage_token sha256 x user execution_handle "execution" "reserve_execution" db;
     if c_replay token then Ok (replayed token, db)
     else
       _ ← require_distinct_actors (i_maker intent) executor;
       if negb (default 0 (i_checker intent) =? executor) then not_found
       else if negb (actor_has_current_permission tenant workspace executor "control_room.execute" db) then unavailable
       else
         is_current ← intent_authority_is_current x s intent db;
         let event_type := if negb is_current then "stale" else "execution_reserved" in
         '(updated, db) ← transition_intent x intent executor event_type (c_operation_digest token) None
           (if bool_decide (event_type = "execution_reserved") then Some executor else None) db;
         db ← consume_stage_token x token user (i_state updated) (i_version updated) db;
         Ok (result_of updated, db)).

(** ** business_followup_intent.py *)

(** From the dry run on: the intent, its link and the event of its creation. *)
Definition create_intent (x : txn) (s : surroundings) (k : AuthorityItemContract) (workspace : string) (maker : Z)
    (intent_id : string) (db : DB) : res (option string * DB) :=
  run ← record_followup_dry_run s k;
  match run with
  | None => Ok (None, db)
  | Some run_id =>
      dry_run ← require_authority_dry_run s k run_id "" "";
      match insert_intent x k dry_run intent_id db with
      | None => Ok (None, db)
      | Some (intent, db) =>
          _ ← link_authority_dry_run s dry_run k intent_id;
          db ← append_intent_event intent maker "intent_created" "none" "pending_approval" 1 "created"
                 (server_binding_operation_digest sha256 workspace (d_action_run_id dry_run)
                    (d_evidence_digest dry_run) maker (k_binding_digest k) (k_contract_digest k)) db;
          Ok (Some intent_id, db)
      end
  end.

Definition _prepare (x : txn) (s : surroundings) (user : pydict) (item intent_id : string) (db : DB) :
    res (option string * DB) :=
  '(tenant, workspace) ← authority_scope user;
  maker ← actor_id user;
  enabled ← none_on [404] (_ ← require_enabled_action_template s; Ok (Some tt));
  match enabled, capture_authorization_snapshot tenant workspace maker "control_room.write" db with
  | Some _, Some a =>
      let existing := find_binding_intent x tenant workspace maker item db in
      contract ← row_contract s a item;
      match contract with
      | None => Ok (None, db)
      | Some k =>
          match existing with
          | None => create_intent x s k workspace maker intent_id db
          | Some old =>
              if negb (bool_decide (i_state old = "pending_approval")) then Ok (None, db)
              else if intent_matches_contract old k then Ok (Some (i_id old), db)
              else
                '(_, db) ← transition_intent x old maker "stale"
                  (transition_operation_digest sha256 old "council_superseded" maker) None None db;
                create_intent x s k workspace maker intent_id db
          end
      end
  | _, _ => Ok (None, db)
  end.

Definition prepare_followup_intent (x : txn) (s : surroundings) (user : pydict) (item intent_id : string) (db : DB) :
    res (option string * DB) :=
  _ ← require_write user;
  _ ← workspace_scope_from_user user;
  _prepare x s user item intent_id db.

(** ** business_council_commands.py, business_council_actors.py *)

Definition CHECKER_PERMISSIONS : list string := ["control_room.approve"; "control_room.execute"].

(** What the council read of a person's proposal before the transaction. *)
Record PersonProposal := mkProposal {
  p_visible : bool;
  p_intent : option string;
  p_maker : Z;
  p_decision : Z }.

Inductive Outcome := OutcomeDone (decision : Z) | OutcomeStale.

Definition proposal_changed {A} : res A := raise (HTTPException 409) "proposal_changed".

Definition _advance (x : txn) (intent : Intent) (actor : Z) (event_type operation : string)
    (checker executor : option Z) (db : DB) : res (Intent * DB) :=
  transition_intent x intent actor event_type (transition_operation_digest sha256 intent operation actor)
    checker executor db.

Definition _require_current (tenant workspace : string) (actor : Z) (permissions : list string) (db : DB) : res unit :=
  iterR (λ p, if actor_has_current_permission tenant workspace actor p db then Ok tt else unavailable) permissions.

Definition _approve_person (x : txn) (s : surroundings) (user : pydict) (p : PersonProposal) (db : DB) :
    res (Outcome * DB) :=
  '(tenant, workspace) ← authority_scope user;
  checker ← actor_id user;
  if negb (p_visible p) then raise (HTTPException 404) "council proposal not found"
  else
    match p_intent p with
    | None => proposal_changed
    | Some intent_id =>
        _ ← match require_enabled_action_template s with
            | Raise (Exn (HTTPException 404) _) => proposal_changed
            | r => r
            end;
        intent ← lock_intent x tenant workspace intent_id db;
        if i_maker intent <=? 0 then unavailable
        else if negb (i_maker intent =? p_maker p) then proposal_changed
        else
          _ ← require_distinct_actors (i_maker intent) checker;
          _ ← _require_current tenant workspace checker CHECKER_PERMISSIONS db;
          if negb (bool_decide (i_state intent = "pending_approval"))
             || match i_checker intent with Some c => negb (c =? checker) | None => false end
          then proposal_changed
          else
            contract ← match revalidate_intent x s intent db with
                       | Raise (Exn (HTTPException c) m) => Raise (Exn (HTTPException c) m)
                       | Raise _ => temporarily_unavailable
                       | r => r
                       end;
            match contract with
            | Some k =>
                if negb (k_decision k =? p_decision p) then
                  '(_, db) ← _advance x intent checker "stale" "council_stale" None None db; Ok (OutcomeStale, db)
                else
                  '(current, db) ←
                    match i_checker intent with
                    | None => _advance x intent checker "approval_claimed" "council_claim" (Some checker) None db
                    | Some _ => Ok (intent, db)
                    end;
                  '(current, db) ← _advance x current checker "approved" "council_approve" None None db;
                  '(current, db) ← _advance x current checker "execution_reserved" "council_reserve" None
                                     (Some checker) db;
                  decision ← complete_followup_effect s k;
                  '(_, db) ← _advance x current checker "completed" "council_complete" None None db;
                  Ok (OutcomeDone decision, db)
            | None =>
                '(_, db) ← _advance x intent checker "stale" "council_stale" None None db; Ok (OutcomeStale, db)
            end
    end.

(** ** The steps *)

Inductive op :=
  | Prepare (user : pydict) (item intent_id : string)
  | ClaimApproval (user : pydict) (intent_id : string)
  | Decide (user : pydict) (handle operation : string)
  | IssueExecution (user : pydict) (intent_id : string)
  | Reserve (user : pydict) (handle : string)
  | CouncilApprove (user : pydict) (proposal : PersonProposal).

Definition tables {A} (r : res (A * DB)) : res DB := '(_, db) ← r; Ok db.

(** The new tables of an operation, or its exception. *)
Definition perform (x : txn) (s : surroundings) (o : op) (db : DB) : res DB :=
  match o with
  | Prepare user item intent_id => tables (prepare_followup_intent x s user item intent_id db)
  | ClaimApproval user intent_id => tables (claim_intent_for_approval x s user intent_id db)
  | Decide user handle operation => tables (_decide_intent x s user handle operation db)
  | IssueExecution user intent_id => tables (issue_execution_handle x s user intent_id db)
  | Reserve user handle => tables (reserve_execution x s user handle db)
  | CouncilApprove user p => tables (_approve_person x s user p db)
  end.

(** A transaction: an exception rolls it back. *)
Definition apply (x : txn) (s : surroundings) (o : op) (db : DB) : DB :=
  match perform x s o db with Ok db => db | Raise _ => db end.

Definition with_accounts (us : gmap Z Account) (ms : list (Z * string * string)) (db : DB) : DB :=
  mkDB (intents db) (tokens db) (events db) us ms.

Inductive reachable : DB → Prop :=
  | reach_init us ms : reachable (mkDB ∅ [] [] us ms)
  | reach_apply x s o db : reachable db → reachable (apply x s o db)
  | reach_accounts us ms db : reachable db → reachable (with_accounts us ms db).
End Flows.
