(* ===== verification/ActionSafety.v ===== *)
(** What the control room's approvals guarantee: the two-person rule, a ledger
    that replays to every intent's row, rows that never break the schema's checks,
    and one-time handles.  The invariant [Inv] of the tables is shown once per
    operation of ActionStore, ActionTokens and ActionAuthority, and carried to
    every reachable state. *)
From S2P Require Import Prelude PyStr PyVal PyTime PyJson Permissions ActionStore ActionTokens ActionAuthority.

Open Scope Z_scope.

#[local] Arguments afind : simpl never.

(** ** The ledger as a path of the state machine *)

(** [e] leads on from a state and version. *)
Definition legal (state : string) (version : Z) (e : Event) : bool :=
  (e_version e =? version + 1) && bool_decide (e_from e = state) &&
  if bool_decide (e_type e = "intent_created") then
    bool_decide (state = "none") && bool_decide (e_to e = "pending_approval") && bool_decide (e_result e = "created")
  else
    match afind (e_type e) _TRANSITIONS with
    | Some (allowed, next_state, result_code) =>
        mem state allowed && bool_decide (e_to e = next_state) && bool_decide (e_result e = result_code)
    | None => false
    end.

Fixpoint follows (state : string) (version : Z) (evs : list Event) : option (string * Z) :=
  match evs with
  | [] => Some (state, version)
  | e :: evs => if legal state version e then follows (e_to e) (e_version e) evs else None
  end.

Definition history (intent_id : string) (db : DB) : list Event :=
  List.filter (λ e, bool_decide (e_intent e = intent_id)) (events db).

(** The events only the checker of an intent takes part in. *)
Definition CHECKER_EVENTS : list string :=
  ["approval_claimed"; "approved"; "rejected"; "execution_reserved"; "completed"; "failed"].
Definition DECIDED : list string := ["approved"; "rejected"; "execution_reserved"; "completed"; "failed"].
Definition EXECUTED : list string := ["execution_reserved"; "completed"; "failed"].

(** ** The checks of the schema (infra/init/99zzb_control_room_action_authority.sql) *)

Definition INTENT_STATES : list string :=
  ["pending_approval"; "approved"; "rejected"; "stale"; "execution_reserved"; "completed"; "failed"].

Definition intent_row_ok (i : Intent) : bool :=
  bool_decide (i_template i = "create_followup_task") && mem (i_state i) INTENT_STATES && (1 <=? i_version i)
  && (i_created i <=? i_updated i)
  && match i_checker i with Some c => negb (c =? i_maker i) | None => true end
  && match i_executor i with Some e => bool_decide (i_checker i = Some e) | None => true end
  && (i_created i <? i_expires i) && (i_expires i <=? i_created i + seconds (24 * 60 * 60)).

Definition token_row_ok (t : Token) : bool :=
  (t_issued t <? t_expires t)
  && match afind (t_stage t) _STAGE_TTL with Some ttl => t_expires t <=? t_issued t + seconds ttl | None => false end
  && match t_status t, t_operation_digest t, t_result_state t, t_result_version t, t_consumed_at t, t_consumed_by t with
     | "active", None, None, None, None, None => true
     | "consumed", Some _, Some _, Some v, Some at_, Some _ => (1 <=? v) && (t_issued t <=? at_)
     | _, _, _, _, _, _ => false
     end.

(** ** The invariant *)

Record intent_ok (evs : list Event) (i : Intent) : Prop := {
  ok_replay : follows "none" 0 evs = Some (i_state i, i_version i);
  ok_actor e : e ∈ evs → e_type e ∈ CHECKER_EVENTS → i_checker i = Some (e_actor e);
  ok_scope e : e ∈ evs → e_tenant e = i_tenant i ∧ e_workspace e = i_workspace i;
  ok_decided : i_state i ∈ DECIDED → is_Some (i_checker i);
  ok_executed : i_state i ∈ EXECUTED → is_Some (i_executor i);
  ok_row : intent_row_ok i = true }.

Definition slot_key (t : Token) : string * string * string * string * Z :=
  (t_tenant t, t_workspace t, t_intent t, t_stage t, t_subject t).

Record tokens_ok (ts : list Token) : Prop := {
  ok_tokens t : t ∈ ts → token_row_ok t = true;
  ok_digests : NoDup (t_digest <$> ts);
  ok_ids : NoDup (t_id <$> ts);
  ok_slots : NoDup (slot_key <$> List.filter is_active ts) }.

Record Inv (db : DB) : Prop := {
  inv_intents id i : intents db !! id = Some i → i_id i = id ∧ intent_ok (history id db) i;
  inv_events e : e ∈ events db → is_Some (intents db !! e_intent e);
  inv_tokens : tokens_ok (tokens db) }.

Lemma follows_snoc state version evs s v e :
  follows state version evs = Some (s, v) → legal s v e = true →
  follows state version (evs ++ [e]) = Some (e_to e, e_version e).
Proof.
  revert state version. induction evs as [|d evs IH]; intros state version; simpl.
  - intros [= -> ->] ->. done.
  - destruct (legal state version d); [|done]. apply IH.
Qed.

(** The seven transitions. *)
Lemma transition_cases event allowed next_state result_code :
  afind event _TRANSITIONS = Some (allowed, next_state, result_code) →
  event ≠ "intent_created" ∧ next_state ∈ INTENT_STATES
  ∧ (event ∉ CHECKER_EVENTS → next_state = "stale")
  ∧ (next_state ∈ EXECUTED → event = "execution_reserved" ∨ ∀ s, s ∈ allowed → s ∈ EXECUTED).
Proof.
  intros Ht%afind_elem. unfold _TRANSITIONS in Ht. rewrite !elem_of_cons, elem_of_nil in Ht.
  destruct Ht as [Ht|[Ht|[Ht|[Ht|[Ht|[Ht|[Ht|[]]]]]]]]; injection Ht as -> -> -> ->;
    (split; [done|]; split; [set_solver|]; split; [intros He; first [done|destruct He; set_solver]|]);
    intros Hn; first [by left|right; set_solver|set_solver].
Qed.

Lemma history_snoc id db e rest :
  history id (with_events (events db ++ [e]) rest) =
  history id db ++ (if bool_decide (e_intent e = id) then [e] else []).
Proof. unfold history. simpl. rewrite List.filter_app. simpl. by case_bool_decide. Qed.

(** What an append to the ledger does. *)
Lemma append_ok intent actor event from to_ version result digest db db' :
  append_intent_event intent actor event from to_ version result digest db = Ok db' →
  ∃ e, db' = with_events (events db ++ [e]) db ∧ e_intent e = i_id intent ∧ e_actor e = actor
    ∧ e_type e = event ∧ e_from e = from ∧ e_to e = to_ ∧ e_version e = version ∧ e_result e = result
    ∧ e_tenant e = i_tenant intent ∧ e_workspace e = i_workspace intent.
Proof.
  unfold append_intent_event. intros Hr. step_in Hr.
  destruct (capture_authorization_snapshot _ _ _ _ _) as [snap|]; [|discriminate Hr].
  destruct (event_conflict _ _); [discriminate Hr|]. inv_res. eexists. split; [done|]. done.
Qed.

(** What a transition does to the tables. *)
Lemma transition_ok x intent actor event digest checker executor db updated db' :
  transition_intent x intent actor event digest checker executor db = Ok (updated, db') →
  ∃ allowed next_state result_code row e,
    afind event _TRANSITIONS = Some (allowed, next_state, result_code) ∧ i_state row ∈ allowed
    ∧ intents db !! i_id intent = Some row ∧ i_state row = i_state intent ∧ i_version row = i_version intent
    ∧ updated = set_state x next_state (i_version row + 1) result_code checker executor row
    ∧ db' = with_events (events db ++ [e]) (with_intents (<[i_id intent := updated]> (intents db)) db)
    ∧ e_intent e = i_id row ∧ e_actor e = actor ∧ e_type e = event ∧ e_from e = i_state row
    ∧ e_to e = next_state ∧ e_version e = i_version row + 1 ∧ e_result e = result_code
    ∧ e_tenant e = i_tenant row ∧ e_workspace e = i_workspace row.
Proof.
  unfold transition_intent. intros Hr.
  destruct (afind event _TRANSITIONS) as [[[allowed next_state] result_code]|] eqn:Et; [|discriminate Hr].
  destruct (mem (i_state intent) allowed) eqn:Em; [|discriminate Hr]. cbn [negb] in Hr.
  destruct (intents db !! i_id intent) as [row|] eqn:Er; [|discriminate Hr].
  destruct (same_version intent row) eqn:Es; [|discriminate Hr].
  apply bind_ok in Hr as (db1 & Ha & [= <- <-]). apply append_ok in Ha as (e & -> & He). simpl in He.
  unfold same_version in Es. boolify. apply Z.eqb_eq in H0. rewrite <- H1, <- H0 in *.
  exists allowed, next_state, result_code, row, e. apply mem_true in Em. naive_solver.
Qed.

(** Who may lead an intent on by an event: anyone to stale; else its checker, who
    is not its maker. *)
Definition may_advance (actor : Z) (event : string) (checker executor : option Z) (i : Intent) : Prop :=
  event = "stale" ∧ checker = None ∧ executor = None
  ∨ event ∈ CHECKER_EVENTS ∧ actor ≠ i_maker i ∧ coalesce checker (i_checker i) = Some actor
    ∧ (i_checker i = None ∨ i_checker i = Some actor)
    ∧ executor = (if bool_decide (event = "execution_reserved") then Some actor else None).

Lemma intent_row_spec i :
  intent_row_ok i = true ↔
  i_template i = "create_followup_task" ∧ i_state i ∈ INTENT_STATES ∧ 1 <= i_version i
  ∧ i_created i <= i_updated i ∧ (∀ c, i_checker i = Some c → c ≠ i_maker i)
  ∧ (∀ e, i_executor i = Some e → i_checker i = Some e)
  ∧ i_created i < i_expires i ∧ i_expires i <= i_created i + seconds (24 * 60 * 60).
Proof.
  unfold intent_row_ok. rewrite !andb_true_iff, bool_decide_eq_true, mem_true, !Z.leb_le, Z.ltb_lt.
  assert (Hc : match i_checker i with Some c => negb (c =? i_maker i) | None => true end = true
               ↔ ∀ c, i_checker i = Some c → c ≠ i_maker i).
  { destruct (i_checker i) as [c|]; [|naive_solver]. rewrite negb_true_iff, Z.eqb_neq. naive_solver. }
  assert (He : match i_executor i with Some e => bool_decide (i_checker i = Some e) | None => true end = true
               ↔ ∀ e, i_executor i = Some e → i_checker i = Some e).
  { destruct (i_executor i) as [e|]; [|naive_solver]. rewrite bool_decide_eq_true. naive_solver. }
  rewrite Hc, He. tauto.
Qed.

(** One event keeps an intent in order. *)
Lemma intent_ok_step x actor event allowed next_state result_code checker executor evs i e :
  intent_ok evs i → may_advance actor event checker executor i →
  afind event _TRANSITIONS = Some (allowed, next_state, result_code) → i_state i ∈ allowed →
  e_actor e = actor → e_type e = event → e_from e = i_state i → e_to e = next_state →
  e_version e = i_version i + 1 → e_result e = result_code → e_tenant e = i_tenant i → e_workspace e = i_workspace i →
  intent_ok (evs ++ [e]) (set_state x next_state (i_version i + 1) result_code checker executor i).
Proof.
  intros [Hr Ha Hs Hd He Hrow] Hmay Ht Hin Eactor Etype Efrom Eto Ever Eres Eten Ews.
  destruct (transition_cases _ _ _ _ Ht) as (Hnc & Hst & Hstale & Hexec).
  destruct (proj1 (intent_row_spec _) Hrow) as (Htp & _ & Hv & Hcr & Hck & Hex & Hexp1 & Hexp2).
  assert (Hcheck : ∀ c, coalesce checker (i_checker i) = Some c → c ≠ i_maker i).
  { destruct Hmay as [(_ & -> & _)|(_ & Hm & Hc & _)]; [exact Hck|]. intros c. rewrite Hc. by intros [= <-]. }
  assert (Hactor : event ∈ CHECKER_EVENTS → coalesce checker (i_checker i) = Some actor).
  { destruct Hmay as [(-> & _)|(_ & _ & Hc & _)]; [|done]. unfold CHECKER_EVENTS. intros Hx. exfalso. set_solver. }
  assert (Hkeep : ∀ c, i_checker i = Some c → coalesce checker (i_checker i) = Some c).
  { destruct Hmay as [(_ & -> & _)|(_ & _ & Hc & Hor & _)]; [done|]. intros c Hic. rewrite Hic in *.
    destruct Hor as [Hor|Hor]; [done|]. by rewrite Hc. }
  split; simpl.
  - rewrite <- Eto, <- Ever. eapply follows_snoc; [exact Hr|]. unfold legal.
    rewrite Etype, Ht, Ever, Efrom, Eto, Eres, Z.eqb_refl. rewrite (bool_decide_eq_false_2 _ Hnc).
    rewrite !bool_decide_eq_true_2 by done. by rewrite (proj2 (mem_true _ _) Hin).
  - intros d [Hd'| ->%list_elem_of_singleton]%elem_of_app Hev; [by apply Hkeep, Ha|].
    rewrite Eactor. apply Hactor. by rewrite <- Etype.
  - intros d [Hd'| ->%list_elem_of_singleton]%elem_of_app; [by apply Hs|done].
  - intros Hdec. destruct Hmay as [(-> & _)|(_ & _ & Hc & _)]; [|by rewrite Hc].
    rewrite (Hstale ltac:(unfold CHECKER_EVENTS; set_solver)) in Hdec. unfold DECIDED in Hdec. set_solver.
  - intros Hx. destruct (Hexec Hx) as [-> |Hall].
    + destruct Hmay as [(Hx' & _)|(_ & _ & _ & _ & ->)]; [done|]. simpl. done.
    + destruct (He (Hall _ Hin)) as [w Hw]. rewrite Hw. destruct executor; done.
  - apply intent_row_spec. simpl. split_and!; [done|done|lia|lia|done| |lia|lia]. intros w Hw.
    destruct Hmay as [(_ & -> & ->)|(_ & _ & Hc & _ & ->)]; [by apply Hex|]. case_bool_decide; simpl in Hw.
    + by rewrite Hc.
    + apply Hkeep. by apply Hex.
Qed.

Lemma transition_inv x intent actor event digest checker executor db updated db' :
  Inv db → intents db !! i_id intent = Some intent → may_advance actor event checker executor intent →
  transition_intent x intent actor event digest checker executor db = Ok (updated, db') →
  Inv db' ∧ tokens db' = tokens db ∧ intents db' = <[i_id intent := updated]> (intents db)
  ∧ ∃ allowed next_state result_code, afind event _TRANSITIONS = Some (allowed, next_state, result_code)
      ∧ updated = set_state x next_state (i_version intent + 1) result_code checker executor intent.
Proof.
  intros [Hi He Ht] Hcur Hmay Hr.
  destruct (transition_ok _ _ _ _ _ _ _ _ _ _ Hr) as (allowed & next_state & result_code & row & e & Htr & Hin
    & Hrow & _ & _ & -> & -> & Eid & Eactor & Etype & Efrom & Eto & Ever & Eres & Eten & Ews).
  rewrite Hcur in Hrow. injection Hrow as <-. split; [|simpl; split; [done|]; split; [done|by eauto 7]].
  split; [| |exact Ht].
  - intros id i Hid. rewrite history_snoc, Eid. cbn [intents with_events with_intents] in Hid.
    destruct (decide (i_id intent = id)) as [<-|Hne].
    + rewrite lookup_insert_eq in Hid. injection Hid as <-. split; [done|]. rewrite bool_decide_true by done.
      destruct (Hi _ _ Hcur) as [_ Hok]. by eapply intent_ok_step.
    + rewrite lookup_insert_ne in Hid by done. rewrite bool_decide_false, app_nil_r by done. by apply Hi.
  - intros d [Hd%He| ->%list_elem_of_singleton]%elem_of_app; cbn [intents with_events with_intents].
    + destruct (decide (i_id intent = e_intent d)) as [->|];
        [by rewrite lookup_insert_eq|by rewrite lookup_insert_ne].
    + by rewrite Eid, lookup_insert_eq.
Qed.

(** ** The tokens *)

Section Updates.
Context {A B : Type}.
Implicit Types (l : list A) (k : A → B).

Lemma nodup_filter_map k (q : A → bool) (f : A → A) l :
  (∀ t, q (f t) = true → q t = true ∧ k (f t) = k t) →
  NoDup (k <$> List.filter q l) → NoDup (k <$> List.filter q (f <$> l)).
Proof.
  intros Hf. induction l as [|t l IH]; [done|]. simpl.
  assert (Hsub : k <$> List.filter q (f <$> l) ⊆ k <$> List.filter q l).
  { intros y (z & -> & (u & -> & Hu)%elem_of_List_filter_fmap)%list_elem_of_fmap.
    destruct Hu as [Hu Hq]. destruct (Hf _ Hq) as [Hqu ->]. apply list_elem_of_fmap_2.
    by apply elem_of_List_filter. }
  destruct (q (f t)) eqn:Eq.
  - destruct (Hf _ Eq) as [-> Hk]. simpl. rewrite !NoDup_cons, Hk. intros [Hn Hl]. split; [|by apply IH].
    intros Hin. by apply Hn, Hsub.
  - intros Hl. apply IH. destruct (q t); [|done]. simpl in Hl. by apply NoDup_cons in Hl as [_ Hl].
Qed.

Lemma filter_at_most_one k (q p : A → bool) (c : B) l :
  (∀ t, p t = true → q t = true ∧ k t = c) → NoDup (k <$> List.filter q l) →
  (length (List.filter p l) <= 1)%nat.
Proof.
  intros Hp. induction l as [|t l IH]; simpl; [lia|]. intros Hnd.
  destruct (p t) eqn:Ep.
  - destruct (Hp _ Ep) as [Hq Hk]. rewrite Hq in Hnd. simpl in Hnd. apply NoDup_cons in Hnd as [Hn _].
    rewrite (filter_nil_of p l); [simpl; lia|]. intros u Hu. destruct (p u) eqn:Eu; [|done]. destruct Hn.
    destruct (Hp _ Eu) as [Hqu Hku]. rewrite Hk, <- Hku. apply list_elem_of_fmap_2. by apply elem_of_List_filter.
  - apply IH. destruct (q t); [|done]. simpl in Hnd. by apply NoDup_cons in Hnd as [_ Hnd].
Qed.

Lemma nodup_update k (p : A → bool) (g : A → A) (b : B) l :
  (∀ t, p t = true → k (g t) = b) → (∀ t, t ∈ l → p t = false → k t ≠ b) →
  (length (List.filter p l) <= 1)%nat → NoDup (k <$> l) →
  NoDup (k <$> ((λ t, if p t then g t else t) <$> l)).
Proof.
  intros Hg. induction l as [|t l IH]; [done|]. intros Hne Hlen [Hn Hnd]%NoDup_cons. simpl in Hlen |- *.
  apply NoDup_cons. split.
  - intros (y & Hy & (u & -> & Hu)%list_elem_of_fmap)%list_elem_of_fmap.
    destruct (p t) eqn:Et; destruct (p u) eqn:Eu.
    + simpl in Hlen. assert (u ∈ List.filter p l) by by apply elem_of_List_filter.
      destruct (List.filter p l); [set_solver|simpl in Hlen; lia].
    + rewrite (Hg _ Et) in Hy. by apply (Hne u); [set_solver| |].
    + rewrite (Hg _ Eu) in Hy. by apply (Hne t); [set_solver| |].
    + apply Hn. rewrite Hy. by apply list_elem_of_fmap_2.
  - apply IH; [set_solver| |done]. destruct (p t); simpl in Hlen; lia.
Qed.
End Updates.

Lemma Inv_tokens db ts : Inv db → tokens_ok ts → Inv (with_tokens ts db).
Proof. intros [Hi He _] Ht. by split. Qed.

Lemma of_caller_spec tenant workspace stage subject t :
  of_caller tenant workspace stage subject t = true ↔
  t_tenant t = tenant ∧ t_workspace t = workspace ∧ t_stage t = stage ∧ t_subject t = subject.
Proof. unfold of_caller. rewrite !andb_true_iff, !bool_decide_eq_true, Z.eqb_eq. tauto. Qed.

Lemma active_slot_spec tenant workspace intent stage subject t :
  active_slot tenant workspace intent stage subject t = true ↔
  is_active t = true ∧ slot_key t = (tenant, workspace, intent, stage, subject).
Proof.
  unfold active_slot, slot_key. rewrite !andb_true_iff, of_caller_spec, bool_decide_eq_true. naive_solver.
Qed.

(** The rows a new token leaves. *)
Lemma issued_tokens_ok ts tenant workspace intent stage subject digest id issued expires ttl :
  let slot := active_slot tenant workspace intent stage subject in
  tokens_ok ts → afind stage _STAGE_TTL = Some ttl → issued < expires → expires <= issued + seconds ttl →
  existsb (λ t, negb (slot t) && bool_decide (t_digest t = digest)) ts = false →
  (existsb slot ts = true →
     tokens_ok ((λ t, if slot t then reissue digest issued expires t else t) <$> ts))
  ∧ (existsb slot ts = false → existsb (λ t, bool_decide (t_id t = id)) ts = false →
     tokens_ok (ts ++ [mkToken id tenant workspace intent stage subject digest "active" None None None issued expires
                         None None])).
Proof.
  intros slot [Hrow Hd Hid Hs] Httl Hlt Hle Hfree. rewrite existsb_false_elem in Hfree.
  assert (Hlive : (issued <? expires) && (expires <=? issued + seconds ttl) = true).
  { by rewrite andb_true_iff, Z.ltb_lt, Z.leb_le. }
  apply andb_true_iff in Hlive as [Hl1 Hl2]. split.
  - intros _. split.
    + intros t (u & -> & Hu)%list_elem_of_fmap. destruct (slot u) eqn:Es; [|by apply Hrow].
      unfold slot in Es. apply active_slot_spec in Es as [Ha Hk]. unfold is_active in Ha. boolify.
      assert (Hst : t_stage u = stage) by (unfold slot_key in Hk; congruence). unfold token_row_ok, reissue. simpl. by rewrite Hst, Httl, Hl1, Hl2, Ha.
    + apply nodup_update with digest; [done| | |done].
      * intros t Ht Es. specialize (Hfree t Ht). rewrite Es in Hfree. simpl in Hfree. by boolify.
      * eapply filter_at_most_one; [|exact Hs]. intros t. apply active_slot_spec.
    + rewrite <- list_fmap_compose. erewrite list_fmap_ext; [exact Hid|]. intros i t _. simpl. by destruct (slot t).
    + apply nodup_filter_map; [|done]. intros t. destruct (slot t) eqn:Es; [|done].
      unfold slot in Es. apply active_slot_spec in Es as [Ha _]. done.
  - intros Hno Hnid. rewrite existsb_false_elem in Hno, Hnid. split.
    + intros t [Ht| ->%list_elem_of_singleton]%elem_of_app; [by apply Hrow|].
      unfold token_row_ok. simpl. by rewrite Httl, Hl1, Hl2.
    + rewrite fmap_app. simpl. apply NoDup_app. split; [done|]. split; [|apply NoDup_singleton].
      intros d (u & -> & Hu)%list_elem_of_fmap. rewrite list_elem_of_singleton. intros Heq.
      specialize (Hfree u Hu). rewrite (Hno u Hu), bool_decide_true in Hfree by done. done.
    + rewrite fmap_app. simpl. apply NoDup_app. split; [done|]. split; [|apply NoDup_singleton].
      intros d (u & -> & Hu)%list_elem_of_fmap. rewrite list_elem_of_singleton. intros Heq.
      specialize (Hnid u Hu). by boolify.
    + rewrite List.filter_app, fmap_app. simpl. apply NoDup_app. split; [done|]. split; [|apply NoDup_singleton].
      intros d (u & -> & [Hu Ha]%elem_of_List_filter)%list_elem_of_fmap. rewrite list_elem_of_singleton. intros Heq.
      specialize (Hno u Hu). unfold slot in Hno. apply not_true_iff_false in Hno. apply Hno.
      by apply active_slot_spec.
Qed.

Lemma issue_inv `{PyRepr} sha256 x user intent_id stage expires db token db' :
  Inv db → issue_stage_token sha256 x user intent_id stage expires db = Ok (token, db') →
  Inv db' ∧ intents db' = intents db ∧ events db' = events db.
Proof.
  unfold issue_stage_token. intros Hinv Hr. destruct (afind stage _STAGE_TTL) as [ttl|] eqn:Ettl; [|discriminate Hr].
  apply bind_ok in Hr as ([tenant workspace] & _ & Hr). apply bind_ok in Hr as (subject & _ & Hr).
  destruct (_ <=? clock x) eqn:Elt; [discriminate Hr|]. apply Z.leb_gt in Elt.
  apply bind_ok in Hr as (digest & _ & Hr).
  destruct (existsb _ (tokens db)) eqn:Efree in Hr; [discriminate Hr|].
  destruct (issued_tokens_ok (tokens db) tenant workspace intent_id stage subject digest (row_id x) (clock x)
    _ ttl (inv_tokens _ Hinv) Ettl Elt (Z.le_min_r _ _) Efree) as [H1 H2].
  destruct (existsb (active_slot _ _ _ _ _) (tokens db)) eqn:Eslot.
  - inv_res. split; [|done]. apply Inv_tokens; auto.
  - destruct (existsb (λ t, bool_decide (t_id t = row_id x)) (tokens db)) eqn:Eid; [discriminate Hr|].
    inv_res. split; [|done]. apply Inv_tokens; auto.
Qed.

Lemma consumed_tokens_ok x ts (hit : Token → bool) digest state version subject :
  tokens_ok ts → 1 <= version → 
  tokens_ok ((λ t, if hit t then consumed x digest state version subject t else t) <$> ts).
Proof.
  intros [Hrow Hd Hid Hs] Hv. split.
  - intros t (u & -> & Hu)%list_elem_of_fmap. specialize (Hrow u Hu). destruct (hit u); [|done].
    unfold token_row_ok in *. simpl. rewrite !andb_true_iff in Hrow |- *. destruct Hrow as [Hr _].
    split; [done|]. rewrite andb_true_iff, !Z.leb_le. lia.
  - rewrite <- list_fmap_compose. erewrite list_fmap_ext; [exact Hd|]. intros i t _. simpl. by destruct (hit t).
  - rewrite <- list_fmap_compose. erewrite list_fmap_ext; [exact Hid|]. intros i t _. simpl. by destruct (hit t).
  - apply nodup_filter_map; [|done]. intros t. by destruct (hit t).
Qed.

Lemma consume_inv `{PyRepr} x token user state version db db' :
  Inv db → 1 <= version → consume_stage_token x token user state version db = Ok db' →
  Inv db' ∧ intents db' = intents db ∧ events db' = events db.
Proof.
  unfold consume_stage_token. intros Hinv Hv Hr. destruct (c_replay token); [by inv_res|].
  apply bind_ok in Hr as ([tenant workspace] & _ & Hr). apply bind_ok in Hr as (subject & _ & Hr).
  destruct (negb _); [discriminate Hr|]. destruct (existsb _ _); [discriminate Hr|]. inv_res.
  split; [|done]. apply Inv_tokens; [done|]. apply consumed_tokens_ok; [apply Hinv|done].
Qed.

(** ** The operations keep the invariant *)

Lemma lock_ok x tenant workspace intent_id db i :
  Inv db → lock_intent x tenant workspace intent_id db = Ok i →
  intents db !! i_id i = Some i ∧ i_id i = intent_id ∧ i_tenant i = tenant ∧ i_workspace i = workspace
  ∧ now x < i_expires i.
Proof.
  unfold lock_intent. intros Hinv Hr. destruct (intents db !! intent_id) as [j|] eqn:E; [|discriminate Hr].
  destruct (_ && _ && _) eqn:Ec; [|discriminate Hr]. inv_res. boolify. apply Z.ltb_lt in H0.
  destruct (inv_intents _ Hinv _ _ E) as [Hid _]. by rewrite Hid.
Qed.

Lemma distinct_ok maker checker : require_distinct_actors maker checker = Ok tt → checker ≠ maker.
Proof. unfold require_distinct_actors. destruct (maker =? checker) eqn:E; [done|]. apply Z.eqb_neq in E. congruence. Qed.

Lemma actor_id_pos user z : actor_id user = Ok z → 0 < z.
Proof.
  unfold actor_id. destruct (is_bool _); [done|]. intros (r & _ & Hr)%bind_ok.
  destruct (r <=? 0) eqn:E; [discriminate Hr|]. inv_res. by apply Z.leb_gt.
Qed.

Lemma scoped_ok `{PyRepr} {A} user tenant workspace (work : res A) a :
  run_with_db_scope user tenant workspace work = Ok a → work = Ok a.
Proof.
  unfold run_with_db_scope. intros ([t w] & _ & Hr)%bind_ok. by destruct (_ || _).
Qed.

(** The checker of an intent may lead it on. *)
Lemma checker_advances actor event i :
  event ∈ CHECKER_EVENTS → actor ≠ i_maker i → i_checker i = Some actor →
  may_advance actor event None (if bool_decide (event = "execution_reserved") then Some actor else None) i.
Proof. intros. right. split_and!; [done|done|done|by right|done]. Qed.

Lemma is_checker i actor : 0 < actor → (default 0 (i_checker i) =? actor) = true → i_checker i = Some actor.
Proof. intros Hpos E%Z.eqb_eq. destruct (i_checker i) as [c|]; simpl in E; [congruence|lia]. Qed.

Lemma stale_advances actor i : may_advance actor "stale" None None i.
Proof. by left. Qed.

(** Claiming: by nobody yet, or by the actor already. *)
Lemma claim_step x db i actor digest current db' :
  Inv db → intents db !! i_id i = Some i → actor ≠ i_maker i →
  match i_checker i with Some c => negb (c =? actor) | None => false end = false →
  match i_checker i with
  | None => transition_intent x i actor "approval_claimed" digest (Some actor) None db
  | Some _ => Ok (i, db)
  end = Ok (current, db') →
  Inv db' ∧ intents db' !! i_id current = Some current ∧ i_checker current = Some actor
  ∧ i_maker current = i_maker i ∧ (i_checker i = Some actor → db' = db ∧ current = i).
Proof.
  intros Hinv Hcur Hne Hck Hr. destruct (i_checker i) as [c|] eqn:Ec.
  - inv_res. apply negb_false_iff, Z.eqb_eq in Hck as ->. done.
  - apply transition_inv in Hr; [|done|done|].
    + destruct Hr as (Hinv' & _ & Hin & al & ns & rc & _ & ->). split; [done|]. rewrite Hin. simpl.
      by rewrite lookup_insert_eq.
    + right. rewrite Ec. split_and!; [set_solver|done|done|by left|done].
Qed.

Section Operations.
Context `{PyRepr} (sha256 : string → string).

Lemma claim_inv x s user intent_id db r db' :
  Inv db → claim_intent_for_approval sha256 x s user intent_id db = Ok (r, db') → Inv db'.
Proof.
  intros Hinv Hr. unfold claim_intent_for_approval in Hr.
  apply bind_ok in Hr as (_ & _ & Hr). apply bind_ok in Hr as ([tenant workspace] & _ & Hr).
  apply bind_ok in Hr as (checker & Hact & Hr). apply scoped_ok in Hr.
  apply bind_ok in Hr as (intent & Hlock & Hr). apply bind_ok in Hr as ([] & Hdist & Hr).
  apply distinct_ok in Hdist. apply lock_ok in Hlock as (Hcur & _); [|done].
  destruct (negb _) in Hr; [discriminate Hr|].
  destruct (match i_checker intent with Some _ => _ | None => _ end) eqn:Eck in Hr; [discriminate Hr|].
  destruct (negb _) in Hr; [discriminate Hr|]. apply bind_ok in Hr as (is_current & _ & Hr).
  destruct is_current; cbn [negb] in Hr.
  - apply bind_ok in Hr as ([current db1] & Hstep & Hr). apply bind_ok in Hr as ([token db2] & Hissue & Hr).
    inv_res. destruct (claim_step _ _ _ _ _ _ _ Hinv Hcur Hdist Eck Hstep) as (Hinv1 & _).
    by apply (issue_inv _ _ _ _ _ _ _ _ _ Hinv1) in Hissue as [? _].
  - apply bind_ok in Hr as ([stale db1] & Hstep & Hr). inv_res.
    eapply transition_inv in Hstep; [|done|done|apply stale_advances]. apply Hstep.
Qed.

Lemma decide_inv x s user handle operation db r db' :
  Inv db → _decide_intent sha256 x s user handle operation db = Ok (r, db') → Inv db'.
Proof.
  intros Hinv Hr. unfold _decide_intent in Hr.
  apply bind_ok in Hr as (_ & _ & Hr). apply bind_ok in Hr as ([tenant workspace] & _ & Hr).
  apply bind_ok in Hr as (checker & Hact & Hr). apply scoped_ok in Hr.
  apply bind_ok in Hr as (intent_id & _ & Hr). apply bind_ok in Hr as (intent & Hlock & Hr).
  apply bind_ok in Hr as (token & _ & Hr). destruct (c_replay token); [by inv_res|].
  apply bind_ok in Hr as ([] & Hdist & Hr). apply distinct_ok in Hdist.
  apply lock_ok in Hlock as (Hcur & _); [|done].
  destruct (default 0 (i_checker intent) =? checker) eqn:Eck; cbn [negb] in Hr; [|discriminate Hr].
  apply is_checker in Eck; [|by eapply actor_id_pos]. destruct (negb _) in Hr; [discriminate Hr|].
  apply bind_ok in Hr as (is_current & _ & Hr). apply bind_ok in Hr as ([updated db1] & Hstep & Hr).
  apply bind_ok in Hr as (db2 & Hcons & Hr). inv_res.
  eapply transition_inv in Hstep; [|done|done|].
  - destruct Hstep as (Hinv1 & _ & _ & al & ns & rc & _ & ->). apply consume_inv in Hcons; [by destruct Hcons|done|].
    simpl. destruct (inv_intents _ Hinv _ _ Hcur) as [_ [_ _ _ _ _ Hrow]]. apply intent_row_spec in Hrow. lia.
  - destruct is_current; cbn [negb]; [|apply stale_advances].
    destruct (bool_decide (operation = "approve")); apply (checker_advances checker); set_solver.
Qed.

Lemma issue_execution_inv x s user intent_id db r db' :
  Inv db → issue_execution_handle sha256 x s user intent_id db = Ok (r, db') → Inv db'.
Proof.
  intros Hinv Hr. unfold issue_execution_handle in Hr.
  apply bind_ok in Hr as (_ & _ & Hr). apply bind_ok in Hr as ([tenant workspace] & _ & Hr).
  apply bind_ok in Hr as (executor & Hact & Hr). apply scoped_ok in Hr.
  apply bind_ok in Hr as (intent & Hlock & Hr). apply bind_ok in Hr as ([] & Hdist & Hr).
  apply lock_ok in Hlock as (Hcur & _); [|done].
  destruct (_ || _) in Hr; [discriminate Hr|]. destruct (negb _) in Hr; [discriminate Hr|].
  apply bind_ok in Hr as (is_current & _ & Hr). destruct is_current; cbn [negb] in Hr.
  - apply bind_ok in Hr as ([token db1] & Hissue & Hr). inv_res. by apply issue_inv in Hissue as [? _].
  - apply bind_ok in Hr as ([stale db1] & Hstep & Hr). inv_res.
    eapply transition_inv in Hstep; [|done|done|apply stale_advances]. apply Hstep.
Qed.

Lemma reserve_inv x s user handle db r db' :
  Inv db → reserve_execution sha256 x s user handle db = Ok (r, db') → Inv db'.
Proof.
  intros Hinv Hr. unfold reserve_execution in Hr.
  apply bind_ok in Hr as (_ & _ & Hr). apply bind_ok in Hr as ([tenant workspace] & _ & Hr).
  apply bind_ok in Hr as (executor & Hact & Hr). apply scoped_ok in Hr.
  apply bind_ok in Hr as (intent_id & _ & Hr). apply bind_ok in Hr as (intent & Hlock & Hr).
  apply bind_ok in Hr as (token & _ & Hr). destruct (c_replay token); [by inv_res|].
  apply bind_ok in Hr as ([] & Hdist & Hr). apply distinct_ok in Hdist.
  apply lock_ok in Hlock as (Hcur & _); [|done].
  destruct (default 0 (i_checker intent) =? executor) eqn:Eck; cbn [negb] in Hr; [|discriminate Hr].
  apply is_checker in Eck; [|by eapply actor_id_pos]. destruct (negb _) in Hr; [discriminate Hr|].
  apply bind_ok in Hr as (is_current & _ & Hr). apply bind_ok in Hr as ([updated db1] & Hstep & Hr).
  apply bind_ok in Hr as (db2 & Hcons & Hr). inv_res.
  eapply transition_inv in Hstep; [|done|done|].
  - destruct Hstep as (Hinv1 & _ & _ & al & ns & rc & _ & ->). apply consume_inv in Hcons; [by destruct Hcons|done|].
    simpl. destruct (inv_intents _ Hinv _ _ Hcur) as [_ [_ _ _ _ _ Hrow]]. apply intent_row_spec in Hrow. lia.
  - destruct is_current; cbn [negb]; [|apply stale_advances]. apply (checker_advances executor); set_solver.
Qed.

Lemma elem_of_rows i db : i ∈ rows db ↔ ∃ id, intents db !! id = Some i.
Proof.
  unfold rows. rewrite list_elem_of_fmap. split.
  - intros ([id j] & -> & Hin%elem_of_map_to_list). by exists id.
  - intros [id Hid]. exists (id, i). by rewrite elem_of_map_to_list.
Qed.

Lemma find_binding_ok x tenant workspace maker item db old :
  Inv db → find_binding_intent x tenant workspace maker item db = Some old → intents db !! i_id old = Some old.
Proof.
  unfold find_binding_intent. intros Hinv Hh. apply head_Some_elem_of, elem_of_sort_by, elem_of_List_filter in Hh as [Hin _].
  apply elem_of_rows in Hin as [id Hid]. destruct (inv_intents _ Hinv _ _ Hid) as [<- _]. done.
Qed.

(** A new intent and the event of its creation. *)
Lemma create_inv x k d intent_id db intent db1 actor digest db2 :
  Inv db → insert_intent x k d intent_id db = Some (intent, db1) →
  append_intent_event intent actor "intent_created" "none" "pending_approval" 1 "created" digest db1 = Ok db2 →
  Inv db2.
Proof.
  intros [Hi He Ht] Hins Happ. unfold insert_intent in Hins.
  destruct (existsb _ (rows db)) eqn:Ec; [discriminate Hins|]. injection Hins as <- <-.
  assert (Hnew : intents db !! intent_id = None).
  { destruct (intents db !! intent_id) as [j|] eqn:Ej; [|done]. exfalso. rewrite existsb_false_elem in Ec.
    assert (Hj : j ∈ rows db) by (apply elem_of_rows; by exists intent_id). specialize (Ec _ Hj).
    destruct (Hi _ _ Ej) as [Hid _]. unfold intent_conflict in Ec. simpl in Ec.
    by rewrite Hid, bool_decide_true in Ec. }
  assert (Hempty : history intent_id db = []).
  { apply filter_nil_of. intros e Hin. apply bool_decide_eq_false. intros Heq. destruct (He _ Hin) as [j Hj].
    rewrite Heq in Hj. congruence. }
  apply append_ok in Happ as (e & -> & Eid & Eact & Ety & Efrom & Eto & Ever & Eres & Eten & Ews). simpl in *.
  split; [| |exact Ht]; cbn [intents events with_events with_intents].
  - intros id i Hid. change (events (with_intents _ db)) with (events db).
    rewrite history_snoc, Eid. destruct (decide (intent_id = id)) as [<-|Hne].
    + rewrite lookup_insert_eq in Hid. injection Hid as <-. split; [done|]. rewrite bool_decide_true, Hempty by done.
      split; simpl; try by intros Hx; exfalso; unfold DECIDED, EXECUTED in Hx; set_solver.
      * unfold legal. rewrite Ety, Ever, Efrom, Eto, Eres. done.
      * intros b ->%list_elem_of_singleton. rewrite Ety. intros Hb. exfalso. unfold CHECKER_EVENTS in Hb. set_solver.
      * by intros b ->%list_elem_of_singleton.
      * apply intent_row_spec. simpl. unfold seconds, INTENT_TTL_SECONDS. split_and!; try done; try lia. set_solver.
    + rewrite lookup_insert_ne in Hid by done. rewrite bool_decide_false, app_nil_r by done. by apply Hi.
  - intros b [Hb%He| ->%list_elem_of_singleton]%elem_of_app.
    + destruct (decide (intent_id = e_intent b)) as [->|]; [by rewrite lookup_insert_eq|by rewrite lookup_insert_ne].
    + by rewrite Eid, lookup_insert_eq.
Qed.

Lemma create_intent_inv x s k workspace maker intent_id db r db' :
  Inv db → create_intent sha256 x s k workspace maker intent_id db = Ok (r, db') → Inv db'.
Proof.
  intros Hinv Hr. unfold create_intent in Hr. apply bind_ok in Hr as (run & _ & Hr).
  destruct run as [run_id|]; [|by inv_res]. apply bind_ok in Hr as (dry & _ & Hr).
  destruct (insert_intent x k dry intent_id db) as [[intent db1]|] eqn:Ei; [|by inv_res].
  apply bind_ok in Hr as (_ & _ & Hr). apply bind_ok in Hr as (db2 & Happ & Hr). inv_res.
  by eapply create_inv.
Qed.

Lemma prepare_inv x s user item intent_id db r db' :
  Inv db → prepare_followup_intent sha256 x s user item intent_id db = Ok (r, db') → Inv db'.
Proof.
  intros Hinv Hr. unfold prepare_followup_intent, _prepare in Hr.
  apply bind_ok in Hr as (_ & _ & Hr). apply bind_ok in Hr as (_ & _ & Hr).
  apply bind_ok in Hr as ([tenant workspace] & _ & Hr). apply bind_ok in Hr as (maker & _ & Hr).
  apply bind_ok in Hr as (enabled & _ & Hr). destruct enabled as [[]|]; [|by inv_res].
  destruct (capture_authorization_snapshot _ _ _ _ _) as [snap|]; [|by inv_res].
  apply bind_ok in Hr as (contract & _ & Hr). destruct contract as [k|]; [|by inv_res].
  destruct (find_binding_intent x tenant workspace maker item db) as [old|] eqn:Eo; [|by eapply create_intent_inv].
  destruct (negb _) in Hr; [by inv_res|]. destruct (intent_matches_contract old k); [by inv_res|].
  apply bind_ok in Hr as ([stale db1] & Hstep & Hr). eapply create_intent_inv; [|exact Hr].
  eapply transition_inv in Hstep; [|done|by eapply find_binding_ok|apply stale_advances]. apply Hstep.
Qed.

Lemma approve_person_inv x s user p db r db' :
  Inv db → _approve_person sha256 x s user p db = Ok (r, db') → Inv db'.
Proof.
  intros Hinv Hr. unfold _approve_person, _advance in Hr.
  apply bind_ok in Hr as ([tenant workspace] & _ & Hr). apply bind_ok in Hr as (checker & Hact & Hr).
  destruct (negb _) in Hr; [discriminate Hr|]. destruct (p_intent p) as [intent_id|]; [|discriminate Hr].
  apply bind_ok in Hr as (_ & _ & Hr). apply bind_ok in Hr as (intent & Hlock & Hr).
  destruct (i_maker intent <=? 0); [discriminate Hr|]. destruct (negb _) in Hr; [discriminate Hr|].
  apply bind_ok in Hr as ([] & Hdist & Hr). apply distinct_ok in Hdist. apply bind_ok in Hr as (_ & _ & Hr).
  apply lock_ok in Hlock as (Hcur & _); [|done].
  destruct (_ || _) eqn:Ec in Hr; [discriminate Hr|]. apply orb_false_iff in Ec as [_ Eck].
  apply bind_ok in Hr as (contract & _ & Hr).
  assert (Hstale : ∀ digest st db1, transition_intent x intent checker "stale" digest None None db = Ok (st, db1) → Inv db1).
  { intros ??? Hstep. eapply transition_inv in Hstep; [|done|done|apply stale_advances]. apply Hstep. }
  destruct contract as [k|]; [destruct (negb _) in Hr|];
    [by apply bind_ok in Hr as ([st db1] & Hstep%Hstale & Hr); inv_res| |
     by apply bind_ok in Hr as ([st db1] & Hstep%Hstale & Hr); inv_res].
  apply bind_ok in Hr as ([c1 db1] & H1 & Hr). apply bind_ok in Hr as ([c2 db2] & H2 & Hr).
  apply bind_ok in Hr as ([c3 db3] & H3 & Hr). apply bind_ok in Hr as (decision & _ & Hr).
  apply bind_ok in Hr as ([c4 db4] & H4 & Hr). inv_res.
  destruct (claim_step _ _ _ _ _ _ _ Hinv Hcur Hdist Eck H1) as (I1 & L1 & K1 & M1 & _).
  rewrite <- M1 in Hdist. clear M1.
  eapply transition_inv in H2; [|exact I1|exact L1|by apply (checker_advances checker); [set_solver| |]].
  destruct H2 as (I2 & _ & L2 & a2 & n2 & r2 & _ & ->).
  eapply transition_inv in H3; [|exact I2|by rewrite L2; simpl; rewrite lookup_insert_eq
    |by apply (checker_advances checker); [set_solver| |]].
  destruct H3 as (I3 & _ & L3 & a3 & n3 & r3 & _ & ->).
  eapply transition_inv in H4; [|exact I3|by rewrite L3; simpl; rewrite lookup_insert_eq
    |by apply (checker_advances checker); [set_solver| |]].
  apply H4.
Qed.

Lemma apply_inv x s o db : Inv db → Inv (apply sha256 x s o db).
Proof.
  intros Hinv. unfold apply. destruct (perform sha256 x s o db) as [db'|] eqn:Ep; [|done].
  destruct o; simpl in Ep; unfold tables in Ep; apply bind_ok in Ep as ([r db1] & Hr & Ep); inv_res.
  - by eapply prepare_inv.
  - by eapply claim_inv.
  - by eapply decide_inv.
  - by eapply issue_execution_inv.
  - by eapply reserve_inv.
  - by eapply approve_person_inv.
Qed.

Lemma reachable_inv db : reachable sha256 db → Inv db.
Proof.
  induction 1 as [us ms|x s o db _ IH|us ms db _ IH].
  - split; [|simpl; set_solver|split; simpl; [set_solver|constructor..]].
    intros id i Hi. cbn [intents] in Hi. by rewrite lookup_empty in Hi.
  - by apply apply_inv.
  - destruct IH as [Hi He Ht]. by split.
Qed.
End Operations.

(** ** The two-person rule *)

Definition APPROVED_ON : list string := ["approved"; "execution_reserved"; "completed"; "failed"].

Lemma legal_cases state version e :
  legal state version e = true →
  e_version e = version + 1 ∧ e_from e = state
  ∧ (e_type e = "intent_created" ∧ state = "none" ∧ e_to e = "pending_approval"
     ∨ ∃ allowed, (e_type e, (allowed, e_to e, e_result e)) ∈ _TRANSITIONS ∧ state ∈ allowed).
Proof.
  unfold legal. intros Hl. apply andb_true_iff in Hl as [Hl1 Hl2].
  apply andb_true_iff in Hl1 as [Hv%Z.eqb_eq Hf%bool_decide_eq_true]. split; [done|]. split; [done|].
  case_bool_decide; [boolify; naive_solver|].
  destruct (afind (e_type e) _TRANSITIONS) as [[[allowed next_state] result_code]|] eqn:Et; [|done].
  boolify. right. exists allowed. subst. by split; [apply afind_elem|apply mem_true].
Qed.

(** A path into the approved states goes through an approval. *)
Lemma path_through_approval state version evs s v :
  follows state version evs = Some (s, v) → state ∉ APPROVED_ON → s ∈ APPROVED_ON →
  ∃ e, e ∈ evs ∧ e_type e = "approved".
Proof.
  revert state version. induction evs as [|e evs IH]; intros state version; simpl; [by intros [= -> ->]|].
  destruct (legal state version e) eqn:El; [|done]. intros Hf Hn Hs.
  destruct (decide (e_type e = "approved")); [exists e; set_solver|].
  assert (Hto : e_to e ∉ APPROVED_ON).
  { apply legal_cases in El as (_ & _ & [(_ & _ & ->)|(allowed & Ht & Hin)]);
      [decide_now|].
    unfold _TRANSITIONS in Ht. rewrite !elem_of_cons, elem_of_nil in Ht.
    destruct Ht as [Ht|[Ht|[Ht|[Ht|[Ht|[Ht|[Ht|[]]]]]]]]; injection Ht as Hty -> Hto _; rewrite Hto;
      first [decide_now|done|apply list_elem_of_singleton in Hin as ->; destruct Hn; decide_now]. }
  destruct (IH _ _ Hf Hto Hs) as (d & Hd & Hty). exists d. set_solver.
Qed.

Section Guarantees.
Context `{PyRepr} (sha256 : string → string).

(** C2: Four eyes on every action: in every reachable state the checker of an
    intent is not its maker, and only its checker executes it; whoever claimed,
    approved, rejected, reserved or completed it is that checker; and an intent
    that is approved, or went on from there, has an approval by a person other
    than its maker in its ledger. *)
Theorem two_person_rule db id i :
  reachable sha256 db → intents db !! id = Some i →
  (∀ c, i_checker i = Some c → c ≠ i_maker i)
  ∧ (∀ e, i_executor i = Some e → i_checker i = Some e)
  ∧ (∀ e, e ∈ history id db → e_type e ∈ CHECKER_EVENTS → i_checker i = Some (e_actor e) ∧ e_actor e ≠ i_maker i)
  ∧ (i_state i ∈ APPROVED_ON →
       ∃ e, e ∈ history id db ∧ e_type e = "approved" ∧ i_checker i = Some (e_actor e) ∧ e_actor e ≠ i_maker i)
  ∧ (i_state i ∈ EXECUTED → is_Some (i_executor i)).
Proof.
  intros Hreach Hi. destruct (inv_intents _ (reachable_inv _ _ Hreach) _ _ Hi) as [_ [Hr Ha _ _ He Hrow]].
  apply intent_row_spec in Hrow as (_ & _ & _ & _ & Hck & Hex & _).
  assert (Hactor : ∀ e, e ∈ history id db → e_type e ∈ CHECKER_EVENTS →
    i_checker i = Some (e_actor e) ∧ e_actor e ≠ i_maker i).
  { intros e Hin Hev. specialize (Ha e Hin Hev). split; [done|by apply Hck]. }
  split_and!; [done|done|done| |done].
  intros Hs. destruct (path_through_approval _ _ _ _ _ Hr) as (e & Hin & Hty); [unfold APPROVED_ON; set_solver|done|].
  exists e. split; [done|]. split; [done|]. apply Hactor; [done|]. rewrite Hty. unfold CHECKER_EVENTS. set_solver.
Qed.

(** *** The ledger *)

Lemma follows_version state version evs s v :
  follows state version evs = Some (s, v) → v = version + Z.of_nat (length evs).
Proof.
  revert state version. induction evs as [|e evs IH]; intros state version; simpl; [intros [= _ ->]; lia|].
  destruct (legal state version e) eqn:El; [|done]. intros Hf%IH. apply legal_cases in El as (Hv & _). lia.
Qed.

Definition reservations (evs : list Event) : list Event :=
  List.filter (λ e, bool_decide (e_type e = "execution_reserved")) evs.

(** No path reserves the execution twice. *)
Lemma follows_reservations state version evs s v :
  follows state version evs = Some (s, v) →
  (length (reservations evs) <= if mem state ["none"; "pending_approval"; "approved"] then 1 else 0)%nat.
Proof.
  revert state version. induction evs as [|e evs IH]; intros state version; simpl; [destruct (mem _ _); lia|].
  destruct (legal state version e) eqn:El; [|done]. intros Hf%IH. revert Hf.
  apply legal_cases in El as (_ & _ & [(-> & -> & ->)|(allowed & Ht & Hin)]); [by simpl|].
  unfold _TRANSITIONS in Ht. rewrite !elem_of_cons, elem_of_nil in Ht.
  destruct Ht as [Ht|[Ht|[Ht|[Ht|[Ht|[Ht|[Ht|[]]]]]]]]; injection Ht as -> -> -> _;
    rewrite ?elem_of_cons, elem_of_nil in Hin;
    repeat match goal with H : _ ∨ _ |- _ => destruct H end; subst; try done; simpl; lia.
Qed.

(** C5: The ledger is the history of every intent: in every reachable state the
    events of an intent, in order, are a path of the transition table from its
    creation to the state and version its row has - one event per version, in the
    row's tenant and workspace - and no intent is reserved for execution twice. *)
Theorem ledger_replays_intent db id i :
  reachable sha256 db → intents db !! id = Some i →
  follows "none" 0 (history id db) = Some (i_state i, i_version i)
  ∧ i_version i = Z.of_nat (length (history id db))
  ∧ (∀ e, e ∈ history id db → e_tenant e = i_tenant i ∧ e_workspace e = i_workspace i)
  ∧ (length (reservations (history id db)) <= 1)%nat.
Proof.
  intros Hreach Hi. destruct (inv_intents _ (reachable_inv _ _ Hreach) _ _ Hi) as [_ [Hr _ Hs _ _ _]].
  split; [done|]. split; [by apply follows_version in Hr|]. split; [done|]. by apply follows_reservations in Hr.
Qed.

(** The schema's checks on states, actors, versions and lifetimes never reject
    a write of this code: in every reachable state every intent has a known state,
    a version of at least 1, a checker that is not its maker, an executor that is
    its checker and a life of at most 24 hours; and every token has the columns of
    its status and a life within that of its stage, with at most one active token
    per intent, stage and person. *)
Theorem schema_checks_hold db :
  reachable sha256 db →
  (∀ id i, intents db !! id = Some i → i_id i = id ∧ intent_row_ok i = true)
  ∧ (∀ t, t ∈ tokens db → token_row_ok t = true)
  ∧ NoDup (t_id <$> tokens db) ∧ NoDup (t_digest <$> tokens db)
  ∧ NoDup (slot_key <$> List.filter is_active (tokens db)).
Proof.
  intros Hreach. destruct (reachable_inv _ _ Hreach) as [Hi _ [Ht Hd Hn Hs]]. split; [|done].
  intros id i Hid. destruct (Hi _ _ Hid) as [Hx [_ _ _ _ _ Hrow]]. done.
Qed.

(** *** One-time handles *)

Lemma NoDup_fmap_inj {A B} (f : A → B) l x y : NoDup (f <$> l) → x ∈ l → y ∈ l → f x = f y → x = y.
Proof.
  induction l as [|z l IH]; [set_solver|]. simpl. intros [Hn Hnd]%NoDup_cons Hx Hy Heq.
  apply elem_of_cons in Hx as [->|Hx]; apply elem_of_cons in Hy as [->|Hy]; [done| | |by apply IH].
  - destruct Hn. rewrite Heq. by apply list_elem_of_fmap_2.
  - destruct Hn. rewrite <- Heq. by apply list_elem_of_fmap_2.
Qed.

Lemma scoped_again {A B} user tenant workspace (work : res A) a (work' : res B) :
  run_with_db_scope user tenant workspace work = Ok a → run_with_db_scope user tenant workspace work' = work'.
Proof.
  unfold run_with_db_scope. intros ([t w] & Hs & Hr)%bind_ok. rewrite Hs. simpl. by destruct (_ || _).
Qed.

Lemma peek_ok x user handle stage db id :
  peek_stage_token_intent sha256 x user handle stage db = Ok id →
  ∃ tenant workspace subject digest t, authority_scope user = Ok (tenant, workspace) ∧ actor_id user = Ok subject
    ∧ handle_digest sha256 handle = Ok digest ∧ t ∈ tokens db ∧ t_digest t = digest ∧ t_intent t = id ∧ id ≠ ""
    ∧ of_caller tenant workspace stage subject t = true.
Proof.
  unfold peek_stage_token_intent. intros ([tenant workspace] & Hs & Hr)%bind_ok.
  apply bind_ok in Hr as (digest & Hd & Hr). apply bind_ok in Hr as (subject & Ha & Hr).
  destruct (List.find _ _) as [t|] eqn:Ef; [|discriminate Hr]. apply List.find_some in Ef as [Hin Hp].
  destruct (nonempty (t_intent t)) eqn:En; [|discriminate Hr]. inv_res. apply nonempty_true in En.
  apply andb_true_iff in Hp as [[[? ?%bool_decide_eq_true]%andb_true_iff _]%andb_true_iff _].
  exists tenant, workspace, subject, digest, t. by rewrite list_elem_of_In.
Qed.

Lemma claim_ok x user handle stage operation db token :
  claim_stage_token sha256 x user handle stage operation db = Ok token → c_replay token = false →
  ∃ tenant workspace subject digest t i, authority_scope user = Ok (tenant, workspace) ∧ actor_id user = Ok subject
    ∧ handle_digest sha256 handle = Ok digest ∧ t ∈ tokens db ∧ t_digest t = digest
    ∧ intents db !! t_intent t = Some i ∧ i_tenant i = t_tenant t ∧ i_workspace i = t_workspace t
    ∧ token = Claimed (t_id t) (t_intent t) stage
        (server_operation_digest sha256 workspace (t_intent t) operation (i_contract_digest i) subject) false None None.
Proof.
  unfold claim_stage_token. intros ([tenant workspace] & Hs & Hr)%bind_ok Hrep.
  apply bind_ok in Hr as (subject & Ha & Hr). apply bind_ok in Hr as (digest & Hd & Hr).
  destruct (token_row _ _ _ _ _ _ _) as [t|] eqn:Ef; [|discriminate Hr].
  destruct (intents db !! t_intent t) as [i|] eqn:Ei; [|discriminate Hr].
  destruct (_ || _) eqn:Ej; [discriminate Hr|]. apply orb_false_iff in Ej as [Ej _]. boolify.
  destruct (bool_decide (t_status t = "consumed")).
  { destruct (negb _) in Hr; [discriminate Hr|]. inv_res. done. }
  destruct (negb _) in Hr; [discriminate Hr|]. inv_res.
  apply List.find_some in Ef as [Hin Hp]. apply andb_true_iff in Hp as [[? ?%bool_decide_eq_true]%andb_true_iff _].
  exists tenant, workspace, subject, digest, t, i. by rewrite list_elem_of_In.
Qed.

(** What consuming a claimed token leaves: the same rows, its own consumed. *)
Lemma consume_ok x token user state version db db' t :
  consume_stage_token x token user state version db = Ok db' → c_replay token = false →
  NoDup (t_id <$> tokens db) → t ∈ tokens db → t_id t = c_token token →
  ∃ subject, actor_id user = Ok subject ∧ intents db' = intents db
  ∧ consumed x (c_operation_digest token) state version subject t ∈ tokens db'
  ∧ ∀ u', u' ∈ tokens db' → t_digest u' = t_digest t → NoDup (t_digest <$> tokens db) →
      u' = consumed x (c_operation_digest token) state version subject t.
Proof.
  unfold consume_stage_token. intros Hr Hrep Hnd Hin Hid. rewrite Hrep in Hr. apply bind_ok in Hr as ([tenant workspace] & _ & Hr).
  apply bind_ok in Hr as (subject & Ha & Hr). destruct (negb _) eqn:Ehit in Hr; [discriminate Hr|].
  destruct (existsb _ _) in Hr; [discriminate Hr|]. inv_res. exists subject. split; [done|]. split; [done|].
  apply negb_false_iff, existsb_elem in Ehit as (u & Hu & Hhit).
  assert (u = t) as ->.
  { apply (NoDup_fmap_inj t_id (tokens db)); [done..|]. rewrite Hid. by boolify. }
  cbn [tokens with_tokens]. split.
  - apply list_elem_of_fmap. exists t. by rewrite Hhit.
  - intros u' (u & -> & Hu')%list_elem_of_fmap Hdig Hdnd.
    assert (u = t) as ->; [|by rewrite Hhit].
    apply (NoDup_fmap_inj t_digest (tokens db)); [done..|]. rewrite <- Hdig.
    by destruct (_ && is_active u).
Qed.

(** The two lookups of a consumed token that lives on. *)
Lemma consumed_lookups x' user handle stage operation db t tenant workspace subject digest i :
  authority_scope user = Ok (tenant, workspace) → actor_id user = Ok subject → handle_digest sha256 handle = Ok digest →
  t ∈ tokens db → t_digest t = digest → (∀ u, u ∈ tokens db → t_digest u = digest → u = t) →
  of_caller tenant workspace stage subject t = true → t_status t = "consumed" → now x' < t_expires t →
  t_intent t ≠ "" → intents db !! t_intent t = Some i → i_tenant i = t_tenant t → i_workspace i = t_workspace t →
  peek_stage_token_intent sha256 x' user handle stage db = Ok (t_intent t)
  ∧ claim_stage_token sha256 x' user handle stage operation db =
      let op_digest := server_operation_digest sha256 workspace (t_intent t) operation (i_contract_digest i) subject in
      if bool_decide (default "" (t_operation_digest t) = op_digest) then
        Ok (Claimed (t_id t) (t_intent t) stage op_digest true
          (match t_result_state t with Some s => if nonempty s then Some s else None | None => None end)
          (t_result_version t))
      else not_found.
Proof.
  intros Hs Ha Hd Hin Hdig Huniq Hcaller Hst Hlive Hne Hi Hten Hws. apply nonempty_true in Hne. apply Z.ltb_lt in Hlive.
  unfold peek_stage_token_intent, claim_stage_token, token_row. rewrite Hs, Ha, Hd. cbn [mbind res_bind]. split.
  - rewrite (find_unique _ (tokens db) t); [by rewrite Hne|done| |].
    + by rewrite Hcaller, Hst, Hlive, (bool_decide_eq_true_2 _ Hdig).
    + intros u Hu Hp. apply Huniq; [done|].
      by apply andb_true_iff in Hp as [[[_ ?%bool_decide_eq_true]%andb_true_iff _]%andb_true_iff _].
  - rewrite (find_unique _ (tokens db) t); [|done| |].
    + rewrite Hi, Hst, Hten, Hws, Hne, !bool_decide_eq_true_2 by done. cbn. by destruct (bool_decide _).
    + by rewrite Hcaller, Hlive, (bool_decide_eq_true_2 _ Hdig).
    + intros u Hu Hp. apply Huniq; [done|].
      by apply andb_true_iff in Hp as [[_ ?%bool_decide_eq_true]%andb_true_iff _].
Qed.

(** What a decision that is no replay did. *)
Lemma decide_ok x s user handle operation db r db' :
  Inv db → _decide_intent sha256 x s user handle operation db = Ok (r, db') → r_replay r = false →
  require_approve user = Ok tt
  ∧ ∃ tenant workspace checker digest t intent updated,
      authority_scope user = Ok (tenant, workspace) ∧ actor_id user = Ok checker
      ∧ (∀ A (work : res A), run_with_db_scope user tenant workspace work = work)
      ∧ handle_digest sha256 handle = Ok digest ∧ t ∈ tokens db ∧ t_digest t = digest ∧ t_intent t = i_id intent
      ∧ i_id intent ≠ "" ∧ of_caller tenant workspace "approval" checker t = true
      ∧ intents db !! i_id intent = Some intent ∧ i_tenant intent = tenant ∧ i_workspace intent = workspace
      ∧ (∃ state result, updated = set_state x state (i_version intent + 1) result None None intent ∧ state ∈ INTENT_STATES)
      ∧ r = result_of updated ∧ intents db' = <[i_id intent := updated]> (intents db) ∧ Inv db'
      ∧ let t' := consumed x (transition_operation_digest sha256 intent operation checker) (i_state updated)
                    (i_version updated) checker t in
        t' ∈ tokens db' ∧ ∀ u, u ∈ tokens db' → t_digest u = digest → u = t'.
Proof.
  intros Hinv Hrun Hrep. pose proof (decide_inv sha256 _ _ _ _ _ _ _ _ Hinv Hrun) as Hinv'.
  unfold _decide_intent in Hrun. apply bind_ok in Hrun as ([] & Happrove & Hr). split; [done|].
  apply bind_ok in Hr as ([tenant workspace] & Hscope & Hr). apply bind_ok in Hr as (checker & Hact & Hr).
  assert (Hscoped : ∀ A (work : res A), run_with_db_scope user tenant workspace work = work).
  { intros A work. by eapply scoped_again. }
  apply scoped_ok in Hr.
  apply bind_ok in Hr as (intent_id & Hpeek & Hr). apply bind_ok in Hr as (intent & Hlock & Hr).
  apply bind_ok in Hr as (token & Hclaim & Hr). destruct (c_replay token) eqn:Ereplay; [by inv_res|].
  apply lock_ok in Hlock as (Hcur & Hid & Hten & Hws & _); [|done].
  apply bind_ok in Hr as ([] & Hdist & Hr). apply distinct_ok in Hdist.
  destruct (default 0 (i_checker intent) =? checker) eqn:Eck; cbn [negb] in Hr; [|discriminate Hr].
  apply is_checker in Eck; [|by eapply actor_id_pos]. destruct (negb _) in Hr; [discriminate Hr|].
  apply bind_ok in Hr as (is_current & _ & Hr). apply bind_ok in Hr as ([updated db1] & Hstep & Hr).
  apply bind_ok in Hr as (db2 & Hcons & Hr). inv_res.
  apply peek_ok in Hpeek as (te & wo & su & digest & t & Hs1 & Ha1 & Hd1 & Hin & Hdig & Hint & Hne & Hcaller).
  apply claim_ok in Hclaim as (te2 & wo2 & su2 & dg2 & t2 & i2 & Hs2 & Ha2 & Hd2 & Hin2 & Hdig2 & Hi2 & _ & _ & ->);
    [|done].
  rewrite Hscope in Hs1, Hs2. rewrite Hact in Ha1, Ha2. rewrite Hd1 in Hd2.
  injection Hs1 as <- <-. injection Hs2 as <- <-. injection Ha1 as <-. injection Ha2 as <-. injection Hd2 as <-.
  destruct (inv_tokens _ Hinv) as [_ Hdnd Hind _].
  assert (t2 = t) as -> by (apply (NoDup_fmap_inj t_digest (tokens db)); [done|done|done|congruence]).
  rewrite Hint, Hcur in Hi2. injection Hi2 as <-.
  eapply transition_inv in Hstep; [|done|done|].
  2: { destruct is_current; cbn [negb]; [|apply stale_advances].
       destruct (bool_decide (operation = "approve")); apply (checker_advances checker); set_solver. }
  destruct Hstep as (_ & Htok & Hints & al & state & result & Htr & ->).
  destruct (transition_cases _ _ _ _ Htr) as (_ & Hst & _).
  apply (consume_ok _ _ _ _ _ _ _ t) in Hcons; [|done|by rewrite Htok|by rewrite Htok|done].
  destruct Hcons as (su3 & Ha3 & Hi3 & Hin3 & Huniq). rewrite Hact in Ha3. injection Ha3 as <-.
  exists (i_tenant intent), (i_workspace intent), checker, digest, t, intent. eexists.
  split_and!; try done; [by do 2 eexists|by rewrite Hi3|].
  cbn zeta. unfold transition_operation_digest. rewrite <- Hint. split; [exact Hin3|].
  intros u Hu Hdu. rewrite Htok in Huniq. apply Huniq; [done|congruence|done].
Qed.

(** C13: A handle decides once: after a decision, for as long as the handle and
    the intent live, the same person sending the same decision again gets the
    same result marked as a replay, and sending the handle with another operation
    gets 404; neither changes any table. *)
Theorem handle_decides_once x s user handle operation db r db' :
  reachable sha256 db → _decide_intent sha256 x s user handle operation db = Ok (r, db') → r_replay r = false →
  ∀ x' s', (∀ t, t ∈ tokens db → handle_digest sha256 handle = Ok (t_digest t) → now x' < t_expires t) →
    (∀ i, intents db !! r_intent r = Some i → now x' < i_expires i) →
    _decide_intent sha256 x' s' user handle operation db' = Ok (mkResult (r_intent r) (r_state r) (r_version r) true, db')
    ∧ ∀ other, (∀ i actor, transition_operation_digest sha256 i other actor
                          ≠ transition_operation_digest sha256 i operation actor) →
        _decide_intent sha256 x' s' user handle other db' = not_found.
Proof.
  intros Hreach Hrun Hrep x' s' Htl Hil. apply reachable_inv in Hreach as Hinv.
  destruct (decide_ok _ _ _ _ _ _ _ _ Hinv Hrun Hrep) as (Happ & tenant & workspace & checker & digest & t & intent
    & updated & Hscope & Hact & Hscoped & Hd & Hin & Hdig & Hint & Hne & Hcaller & Hcur & Hten & Hws
    & (state & result & -> & Hst) & -> & Hints & Hinv' & Hin' & Huniq).
  simpl in *. set (i' := set_state _ _ _ _ _ _ _) in *.
  set (t' := consumed _ _ _ _ _ _) in *.
  assert (Hrow : intents db' !! i_id intent = Some i') by by rewrite Hints, lookup_insert_eq.
  assert (Hlock : lock_intent x' tenant workspace (i_id intent) db' = Ok i').
  { unfold lock_intent. rewrite Hrow. simpl. rewrite !bool_decide_eq_true_2 by done.
    by rewrite (proj2 (Z.ltb_lt _ _) (Hil _ Hcur)). }
  pose proof (proj1 (of_caller_spec _ _ _ _ _) Hcaller) as (Ht1 & Ht2 & _ & _).
  assert (Hlive : now x' < t_expires t) by (apply Htl; [done|congruence]).
  assert (Hne' : t_intent t' ≠ "") by (simpl; congruence).
  assert (Hrow' : intents db' !! t_intent t' = Some i') by (simpl; congruence).
  assert (Hten' : i_tenant i' = t_tenant t') by (simpl; congruence).
  assert (Hws' : i_workspace i' = t_workspace t') by (simpl; congruence).
  pose proof (λ op, consumed_lookups x' user handle "approval" op db' t' tenant workspace checker digest i'
    Hscope Hact Hd Hin' Hdig Huniq Hcaller eq_refl Hlive Hne' Hrow' Hten' Hws') as Hlook.
  simpl in Hlook. rewrite Hint in Hlook. unfold _decide_intent. rewrite Happ, Hscope, Hact. cbn [mbind res_bind].
  split; [|intros other Hother]; rewrite Hscoped.
  - destruct (Hlook operation) as [-> Hclaim]. cbn [mbind res_bind]. rewrite Hlock. cbn [mbind res_bind].
    assert (Hn : nonempty state = true) by (apply nonempty_true; intros ->; unfold INTENT_STATES in Hst; set_solver).
    rewrite Hclaim, Hn. unfold transition_operation_digest. rewrite Hws.
    rewrite (bool_decide_eq_true_2 (server_operation_digest _ _ _ _ _ _ = _)) by reflexivity. reflexivity.
  - destruct (Hlook other) as [-> Hclaim]. cbn [mbind res_bind]. rewrite Hlock. cbn [mbind res_bind].
    rewrite Hclaim, (bool_decide_eq_false_2 (transition_operation_digest _ _ _ _ = _)); [done|]. specialize (Hother intent checker).
    unfold transition_operation_digest in Hother |- *. rewrite Hws in *. congruence.
Qed.
End Guarantees.

(** ** An approval from beginning to end *)

Module Scenario.

Definition hash (s : string) : string := s.
#[local] Instance repr : PyRepr := some_repr.

Definition person (n : Z) : pydict :=
  mkdict [("id", PInt n); ("role", PStr "viewer"); ("workspace_role", PStr "workspace_admin");
          ("active_tenant_id", PStr "t"); ("active_workspace_id", PStr "w")].
Definition start : DB :=
  mkDB ∅ [] [] (<[1 := mkAccount "viewer" true (Some "t")]> (<[2 := mkAccount "viewer" true (Some "t")]> ∅))
    [(1, "w", "workspace_admin"); (2, "w", "workspace_admin")].

Definition contract : AuthorityItemContract := mkContract "item" 1 "t" "w" 9 "b" "e" "o" "t" "d" "c" "r".
Definition around : surroundings :=
  mkSurroundings (Ok tt) (λ _ _, Ok (Some contract)) (λ _ _ _ _, Ok (mkDryRun 5 "r" "v")) (λ _, Ok (Some 5))
    (λ _ _ _, Ok tt) (λ _, Ok 9).
Definition at_ (n : Z) (byte : ascii) : txn :=
  mkTxn (seconds n) (seconds n) (repeat_char 32 byte) (one byte) "corr".

Definition prepared := apply hash (at_ 1 "a") around (Prepare (person 1) "item" "i1") start.
Definition claimed := apply hash (at_ 2 "b") around (ClaimApproval (person 2) "i1") prepared.
Definition approved := apply hash (at_ 3 "c") around (Decide (person 2) (hex_of (repeat_char 32 "b")) "approve") claimed.
Definition issued := apply hash (at_ 4 "d") around (IssueExecution (person 2) "i1") approved.
Definition reserved := apply hash (at_ 5 "e") around (Reserve (person 2) (hex_of (repeat_char 32 "d"))) issued.

(** The maker cannot claim; the states go from pending to reserved. *)
Example runs :
  (apply hash (at_ 2 "b") around (ClaimApproval (person 1) "i1") prepared = prepared)
  ∧ (λ db, (λ i, (i_state i, i_version i, i_checker i, i_executor i)) <$> intents db !! "i1")
      <$> [prepared; claimed; approved; issued; reserved]
    = [Some ("pending_approval", 1, None, None); Some ("pending_approval", 2, Some 2, None);
       Some ("approved", 3, Some 2, None); Some ("approved", 3, Some 2, None);
       Some ("execution_reserved", 4, Some 2, Some 2)]
  ∧ (e_type <$> events reserved) = ["intent_created"; "approval_claimed"; "approved"; "execution_reserved"].
Proof. split_and!; vm_compute; reflexivity. Qed.

Lemma reserved_reachable : reachable hash reserved.
Proof. repeat apply reach_apply. apply reach_init. Qed.

Lemma claimed_reachable : reachable hash claimed.
Proof. repeat apply reach_apply. apply reach_init. Qed.

Lemma two_person_rule_witness :
  ∃ i e, intents reserved !! "i1" = Some i ∧ e_type e = "approved" ∧ i_checker i = Some (e_actor e)
    ∧ e_actor e ≠ i_maker i.
Proof.
  destruct (intents reserved !! "i1") as [i|] eqn:E; [|exfalso; vm_compute in E; discriminate E].
  pose proof (two_person_rule hash reserved "i1" i reserved_reachable E) as (_ & _ & _ & H & _).
  assert (Hs : i_state i = "execution_reserved").
  { pose proof (eq_refl (i_state <$> intents reserved !! "i1")) as Hc. rewrite E in Hc at 1. vm_compute in Hc.
    by injection Hc. }
  destruct H as (e & _ & H); [rewrite Hs; decide_now|]. exists i, e. split; [reflexivity|exact H].
Defined.

Lemma ledger_replays_intent_witness :
  ∃ i, intents reserved !! "i1" = Some i
    ∧ follows "none" 0 (history "i1" reserved) = Some (i_state i, i_version i).
Proof.
  destruct (intents reserved !! "i1") as [i|] eqn:E; [|exfalso; vm_compute in E; discriminate E].
  exists i. split; [reflexivity|]. apply (ledger_replays_intent hash reserved "i1" i reserved_reachable E).
Defined.

Lemma schema_checks_hold_witness :
  length (tokens reserved) = 2%nat ∧ forallb token_row_ok (tokens reserved) = true.
Proof.
  split; [vm_compute; reflexivity|]. apply (proj2 (forallb_elem _ _)).
  exact (proj1 (proj2 (schema_checks_hold hash reserved reserved_reachable))).
Defined.

Definition handle : string := hex_of (repeat_char 32 "b").
Definition decide_at (x : txn) (db : DB) := _decide_intent hash x around (person 2) handle "approve" db.

Lemma first_decision :
  match decide_at (at_ 3 "c") claimed with Ok (r, _) => r_replay r = false | Raise _ => False end.
Proof. vm_compute. reflexivity. Qed.

Lemma claimed_lives :
  forallb (λ t, now (at_ 6 "f") <? t_expires t) (tokens claimed)
  && forallb (λ i, now (at_ 6 "f") <? i_expires i) (rows claimed) = true.
Proof. vm_compute. reflexivity. Qed.

Lemma handle_decides_once_witness :
  ∃ r db, decide_at (at_ 3 "c") claimed = Ok (r, db)
    ∧ decide_at (at_ 6 "f") db = Ok (mkResult (r_intent r) (r_state r) (r_version r) true, db).
Proof.
  pose proof first_decision as Hrep. destruct (decide_at (at_ 3 "c") claimed) as [[r db]|e] eqn:E; [|destruct Hrep].
  exists r, db. split; [reflexivity|].
  pose proof claimed_lives as Hl. apply andb_true_iff in Hl as [Ht Hi].
  pose proof (proj1 (forallb_elem _ _) Ht) as Ht'. pose proof (proj1 (forallb_elem _ _) Hi) as Hi'.
  refine (proj1 (handle_decides_once hash (at_ 3 "c") around (person 2) handle "approve" claimed r db
    claimed_reachable E Hrep (at_ 6 "f") around _ _)).
  - intros t Hin _. by apply Z.ltb_lt, Ht'.
  - intros i Hid. apply Z.ltb_lt, Hi', elem_of_rows. by eexists.
Defined.
End Scenario.
