(* ===== verification/PyUrl.v ===== *)
(** [urllib.parse]: [urlsplit], the parts of a network location, and [quote].
    [urlparse] gives the same scheme and network location. *)
From S2P Require Import Prelude PyStr PyIp PyJson.

Open Scope Z_scope.

Record SplitResult := mkSplit {
  scheme : string;
  netloc : string;
  path : string;
  query : string;
  fragment : string }.

Definition is_c0_or_space (c : ascii) : bool := (code c <=? 32)%N.
Definition is_removed (c : ascii) : bool := (code c =? 9)%N || (code c =? 10)%N || (code c =? 13)%N.
Definition is_scheme_char (c : ascii) : bool := is_ascii_alnum c || char_in c "+-.".

(** The characters that satisfy [p], the others dropped. *)
Fixpoint sfilter (p : ascii → bool) (s : string) : string :=
  match s with "" => "" | String c s => if p c then String c (sfilter p s) else sfilter p s end.

(** The text before the first character that satisfies [p], and the rest from it on. *)
Fixpoint split_before (p : ascii → bool) (s : string) : string * string :=
  match s with
  | "" => ("", "")
  | String c s' => if p c then ("", s) else let '(a, b) := split_before p s' in (String c a, b)
  end.

(** [s.rpartition(c)]: the text before the last separator, if any, and after it. *)
Fixpoint rsplit_once (c : ascii) (s : string) : option string * string :=
  match s with
  | "" => (None, "")
  | String d s =>
      match rsplit_once c s with
      | (Some a, b) => (Some (String d a), b)
      | (None, b) => if decide (d = c) then (Some "", b) else (None, String d b)
      end
  end.

Definition invalid_url {A} : res A := raise ValueError "Invalid IPv6 URL".

(** [_check_bracketed_host]: an IPv6 address, or an IPvFuture text. *)
Definition bracketed_host_ok (host : string) : bool :=
  if startswith "v" host then
    match split_once "." (sdrop 1 host) with
    | (digits, Some rest) => all_of is_hex_digit digits && nonempty rest
    | _ => false
    end
  else match ip_address host with Some (V6 _ _) => true | _ => false end.

Definition check_bracketed_netloc (netloc : string) : bool :=
  let '(_, host_port) := rsplit_once "@" netloc in
  match split_once "[" host_port with
  | (before, Some bracketed) =>
      let '(host, port) := split_once "]" bracketed in
      let port := default "" port in
      negb (nonempty before) && (negb (nonempty port) || startswith ":" port) && bracketed_host_ok host
  | (_, None) => bracketed_host_ok (split_once ":" host_port).1
  end.

Definition split_scheme (url : string) : string * string :=
  match split_once ":" url with
  | (String c s, Some rest) =>
      if is_ascii_alpha c && sall is_scheme_char (String c s) then (lower (String c s), rest) else ("", url)
  | _ => ("", url)
  end.

Definition urlsplit (url : string) : res SplitResult :=
  let url := sfilter (λ c, negb (is_removed c)) (lstrip_by is_c0_or_space url) in
  let '(scheme, url) := split_scheme url in
  let '(netloc, url) :=
    if startswith "//" url then split_before (λ c, char_in c "/?#") (sdrop 2 url) else ("", url) in
  if negb (Bool.eqb (char_in "[" netloc) (char_in "]" netloc)) then invalid_url
  else if char_in "[" netloc && negb (check_bracketed_netloc netloc) then invalid_url
  else
    let '(url, fragment) := split_once "#" url in
    let '(path, query) := split_once "?" url in
    Ok (mkSplit scheme netloc path (default "" query) (default "" fragment)).

(** [_userinfo] and [_hostinfo]. *)
Definition userinfo (u : SplitResult) : option string * option string :=
  match rsplit_once "@" (netloc u) with
  | (Some info, _) => let '(user, password) := split_once ":" info in (Some user, password)
  | (None, _) => (None, None)
  end.

Definition hostinfo (u : SplitResult) : string * option string :=
  let '(_, info) := rsplit_once "@" (netloc u) in
  let '(host, port) :=
    match split_once "[" info with
    | (_, Some bracketed) =>
        let '(host, rest) := split_once "]" bracketed in (host, (split_once ":" (default "" rest)).2)
    | (_, None) => split_once ":" info
    end in
  (host, match port with Some p => if nonempty p then Some p else None | None => None end).

(** [u.hostname or empty]. *)
Definition hostname (u : SplitResult) : string :=
  let '(host, zone) := split_once "%" (hostinfo u).1 in
  match zone with Some z => lower host +:+ "%" +:+ z | None => lower host end.

Definition port (u : SplitResult) : res (option Z) :=
  match (hostinfo u).2 with
  | None => Ok None
  | Some p =>
      if all_of is_dec_digit p then
        let n := digits 10 digit_value 0 p in
        if n <=? 65535 then Ok (Some n) else raise ValueError "Port out of range 0-65535"
      else raise ValueError "Port could not be cast to integer value"
  end.

(** [quote(s, safe)]: the UTF-8 bytes of the other characters as escapes. *)
Definition hex_upper (n : N) : ascii := ascii_of_N (if n <? 10 then 48 + n else 55 + n)%N.
Definition percent (n : N) : string := String "%" (String (hex_upper (n / 16)) (String (hex_upper (n mod 16)) "")).

Definition utf8_bytes (c : ascii) : list N :=
  let n := code c in if (n <? 128)%N then [n] else [(192 + n / 64)%N; (128 + n mod 64)%N].

Definition is_unreserved (c : ascii) : bool := is_ascii_alnum c || char_in c "_.-~".

Fixpoint quote (safe : string) (s : string) : string :=
  match s with
  | "" => ""
  | String c s =>
      (if is_unreserved c || char_in c safe then one c else join "" (percent <$> utf8_bytes c)) +:+ quote safe s
  end.

(** ** [urljoin] *)

Definition uses_netloc : list string :=
  [""; "ftp"; "http"; "gopher"; "nntp"; "telnet"; "imap"; "wais"; "file"; "mms"; "https"; "shttp"; "snews"; "prospero";
   "rtsp"; "rtsps"; "rtspu"; "rsync"; "svn"; "svn+ssh"; "sftp"; "nfs"; "git"; "git+ssh"; "ws"; "wss"; "itms-services"].
Definition uses_relative : list string :=
  [""; "ftp"; "http"; "gopher"; "nntp"; "imap"; "wais"; "file"; "https"; "shttp"; "mms"; "prospero"; "rtsp"; "rtsps";
   "rtspu"; "sftp"; "svn"; "svn+ssh"; "ws"; "wss"].
Definition uses_params : list string :=
  [""; "ftp"; "hdl"; "prospero"; "http"; "https"; "shttp"; "rtsp"; "rtsps"; "rtspu"; "sip"; "sips"; "mms"; "sftp"; "tel"].

Record ParseResult := mkParse { split_of : SplitResult; params : string }.

(** [_splitparams]: at the first semicolon of the last segment. *)
Definition splitparams (path : string) : string * string :=
  let '(parent, name) := rsplit_once "/" path in
  let '(name, params) := split_once ";" name in
  (match parent with Some p => p +:+ "/" +:+ name | None => name end, default "" params).

Definition urlparse (url default_scheme : string) : res ParseResult :=
  u ← urlsplit url;
  let sch := if nonempty (scheme u) then scheme u else default_scheme in
  let '(p, q) := if mem sch uses_params && char_in ";" (path u) then splitparams (path u) else (path u, "") in
  Ok (mkParse (mkSplit sch (netloc u) p (query u) (fragment u)) q).

Definition urlunparse (scheme netloc path params query fragment : string) : string :=
  let url := if nonempty params then path +:+ ";" +:+ params else path in
  let url :=
    if nonempty netloc then "//" +:+ netloc +:+ (if nonempty url && negb (startswith "/" url) then "/" +:+ url else url)
    else if startswith "//" url then "//" +:+ url
    else if nonempty scheme && mem scheme uses_netloc && (negb (nonempty url) || startswith "/" url) then "//" +:+ url
    else url in
  let url := if nonempty scheme then scheme +:+ ":" +:+ url else url in
  let url := if nonempty query then url +:+ "?" +:+ query else url in
  if nonempty fragment then url +:+ "#" +:+ fragment else url.

(** The loop over the segments; the resolved path is kept reversed. *)
Fixpoint resolve_dots (resolved : list string) (segments : list string) : list string :=
  match segments with
  | [] => rev resolved
  | segment :: segments =>
      if bool_decide (segment = "..") then resolve_dots (tail resolved) segments
      else if bool_decide (segment = ".") then resolve_dots resolved segments
      else resolve_dots (segment :: resolved) segments
  end.

(** [l[1:-1] = filter(None, l[1:-1])]. *)
Definition drop_inner_empty (l : list string) : list string :=
  match l with
  | x :: y :: rest => x :: (List.filter nonempty (removelast (y :: rest)) ++ [List.last (y :: rest) ""])%list
  | l => l
  end.

Definition urljoin (base url : string) : res string :=
  if negb (nonempty base) then Ok url
  else if negb (nonempty url) then Ok base
  else
    b ← urlparse base "";
    u ← urlparse url (scheme (split_of b));
    let bs := split_of b in
    let us := split_of u in
    let sch := scheme us in
    if negb (bool_decide (sch = scheme bs)) || negb (mem sch uses_relative) then Ok url
    else if mem sch uses_netloc && nonempty (netloc us)
    then Ok (urlunparse sch (netloc us) (path us) (params u) (query us) (fragment us))
    else
      let net := if mem sch uses_netloc then netloc bs else netloc us in
      if negb (nonempty (path us)) && negb (nonempty (params u)) then
        Ok (urlunparse sch net (path bs) (params b) (if nonempty (query us) then query us else query bs) (fragment us))
      else
        let base_parts := split_on "/" (path bs) in
        let base_parts := if nonempty (List.last base_parts "") then removelast base_parts else base_parts in
        let segments :=
          if startswith "/" (path us) then split_on "/" (path us)
          else drop_inner_empty (base_parts ++ split_on "/" (path us)) in
        let resolved := resolve_dots [] segments in
        let resolved := if mem (List.last segments "") ["."; ".."] then (resolved ++ [""])%list else resolved in
        let p := join "/" resolved in
        Ok (urlunparse sch net (if nonempty p then p else "/") (params u) (query us) (fragment us)).

Example joined :
  urljoin "http://refinement:8500/mcp/invoke?x=1" <$> ["/jobs/ab"; "../up"; "b/./c"; "https://other/z"; "//host/p"; ""]
  = [Ok "http://refinement:8500/jobs/ab"; Ok "http://refinement:8500/up"; Ok "http://refinement:8500/mcp/b/c";
     Ok "https://other/z"; Ok "http://host/p"; Ok "http://refinement:8500/mcp/invoke?x=1"].
Proof. vm_compute. reflexivity. Qed.

Example split_parts :
  (urlsplit "HTTPS://user:pw@Example.COM:8443/a b?q=1#f", hostname <$> [mkSplit "" "u@[FE80::1%eth0]:1" "" "" ""],
   urlsplit "http://[::1/x")
  = (Ok (mkSplit "https" "user:pw@Example.COM:8443" "/a b" "q=1" "f"), ["fe80::1%eth0"], invalid_url).
Proof. vm_compute. reflexivity. Qed.

(** ** Plain URLs

    A scheme, a host and a path of visible characters without delimiters are read
    back from the URL they make, and a rooted path is joined to it. *)

Definition url_char (c : ascii) : bool := between 33 126 c && negb (char_in c "?#[];").
Definition host_char (c : ascii) : bool := url_char c && negb (char_in c "/").

Lemma host_char_url c : host_char c = true → url_char c = true.
Proof. unfold host_char. by intros [? _]%andb_true_iff. Qed.

Lemma url_char_kept c : url_char c = true → is_removed c = false ∧ is_c0_or_space c = false.
Proof.
  assert (Hc : ∀ c, implb (url_char c) (negb (is_removed c) && negb (is_c0_or_space c)) = true)
    by (apply ascii_ind_all; vm_compute; reflexivity).
  intros Hu. specialize (Hc c). rewrite Hu in Hc. simpl in Hc. by apply andb_true_iff in Hc as [?%negb_true_iff ?%negb_true_iff].
Qed.

Lemma sfilter_kept s : sall url_char s = true → sfilter (λ c, negb (is_removed c)) s = s.
Proof.
  induction s as [|c s IH]; [done|]. simpl. intros [Hc Hs]%andb_true_iff. destruct (url_char_kept _ Hc) as [-> _].
  simpl. by rewrite IH.
Qed.

Lemma lstrip_kept s : sall url_char s = true → lstrip_by is_c0_or_space s = s.
Proof. destruct s as [|c s]; [done|]. simpl. intros [Hc _]%andb_true_iff. by destruct (url_char_kept _ Hc) as [_ ->]. Qed.

Lemma split_once_none c s : char_in c s = false → split_once c s = (s, None).
Proof.
  induction s as [|d s IH]; [done|]. rewrite char_in_head. intros [Hd Hs]%orb_false_iff.
  apply bool_decide_eq_false in Hd. simpl. rewrite decide_False by congruence. by rewrite IH.
Qed.

Definition rooted (p : string) : bool := bool_decide (p = "") || startswith "/" p.

Lemma split_before_host net p :
  sall host_char net = true → rooted p = true →
  split_before (λ c, char_in c "/?#") (net +:+ p) = (net, p).
Proof.
  assert (Hc : ∀ c, implb (host_char c) (negb (char_in c "/?#")) = true)
    by (apply ascii_ind_all; vm_compute; reflexivity).
  induction net as [|c net IH]; simpl.
  - intros _. unfold rooted. intros [->%bool_decide_eq_true|[t ->]%startswith_spec]%orb_true_iff; [done|]. reflexivity.
  - intros [Hh Hn]%andb_true_iff Hp. specialize (Hc c). rewrite Hh in Hc. apply negb_true_iff in Hc. rewrite Hc.
    by rewrite IH.
Qed.

Lemma startswith_head p c s : startswith (String c p) (String c s) = startswith p s.
Proof.
  change (startswith (String c p) (String c s)) with (bool_decide (c = c) && startswith p s).
  by rewrite bool_decide_eq_true_2.
Qed.

Definition http_url (scheme net p : string) : string := scheme +:+ "://" +:+ net +:+ p.

Lemma urlsplit_plain_url sch net p :
  sch ∈ ["http"; "https"] → sall host_char net = true → sall url_char p = true → rooted p = true →
  urlsplit (http_url sch net p) = Ok (mkSplit sch net p "" "").
Proof.
  intros Hs Hn Hp Hr. unfold http_url.
  assert (Hu : sall url_char (sch +:+ "://" +:+ net +:+ p) = true).
  { rewrite !sall_app, Hp, (sall_impl _ _ _ host_char_url Hn). rewrite !elem_of_cons, elem_of_nil in Hs.
    by destruct Hs as [->|[->|[]]]. }
  assert (Hsch : split_scheme (sch +:+ "://" +:+ net +:+ p) = (sch, "//" +:+ net +:+ p)).
  { rewrite !elem_of_cons, elem_of_nil in Hs. by destruct Hs as [->|[->|[]]]. }
  assert (H2 : startswith "//" ("//" +:+ net +:+ p) = true) by apply startswith_app.
  unfold urlsplit. rewrite lstrip_kept, sfilter_kept by done. rewrite Hsch, H2.
  change (sdrop 2 ("//" +:+ net +:+ p)) with (net +:+ p). rewrite split_before_host by done.
  rewrite !(char_not_in host_char _ net) by done. cbn [Bool.eqb negb andb].
  rewrite split_once_none by (by apply (char_not_in url_char)).
  by rewrite split_once_none by (by apply (char_not_in url_char)).
Qed.

(** A rooted path of plain segments, none of them a dot. *)
Lemma urlsplit_plain_path p :
  sall url_char p = true → startswith "/" p = true → startswith "//" p = false → char_in ":" p = false →
  urlsplit p = Ok (mkSplit "" "" p "" "").
Proof.
  intros Hp Hr H2 Hc. unfold urlsplit. rewrite lstrip_kept, sfilter_kept by done.
  unfold split_scheme. rewrite split_once_none by done. replace (match p with "" => _ | String c s => _ end) with ("", p) by (by destruct p).
  rewrite H2. cbn [Bool.eqb negb andb]. rewrite split_once_none by (by apply (char_not_in url_char)).
  by rewrite split_once_none by (by apply (char_not_in url_char)).
Qed.

Lemma last_elem {A} (x : A) xs d : List.last (x :: xs) d ∈ x :: xs.
Proof.
  revert x. induction xs as [|y xs IH]; intros x; [by apply elem_of_cons; left|].
  change (List.last (x :: y :: xs) d) with (List.last (y :: xs) d). apply elem_of_cons. right. apply IH.
Qed.

Lemma resolve_dots_plain acc segments :
  ".." ∉ segments → "." ∉ segments → resolve_dots acc segments = (rev acc ++ segments)%list.
Proof.
  revert acc. induction segments as [|x segments IH]; intros acc H1 H2; simpl; [by rewrite app_nil_r|].
  apply not_elem_of_cons in H1 as [H1 H1']. apply not_elem_of_cons in H2 as [H2 H2'].
  rewrite !bool_decide_eq_false_2 by done. rewrite IH by done. simpl. by rewrite <- app_assoc.
Qed.

Lemma urlparse_plain_url sch net p d :
  sch ∈ ["http"; "https"] → sall host_char net = true → sall url_char p = true → rooted p = true →
  urlparse (http_url sch net p) d = Ok (mkParse (mkSplit sch net p "" "") "").
Proof.
  intros Hs Hn Hp Hr. unfold urlparse. rewrite urlsplit_plain_url by done. cbn [mbind res_bind scheme netloc path query fragment].
  rewrite (char_not_in url_char ";" p) by done. rewrite andb_false_r.
  rewrite !elem_of_cons, elem_of_nil in Hs. by destruct Hs as [->|[->|[]]].
Qed.

Lemma urlparse_plain_path p d :
  sall url_char p = true → startswith "/" p = true → startswith "//" p = false → char_in ":" p = false →
  urlparse p d = Ok (mkParse (mkSplit d "" p "" "") "").
Proof.
  intros Hp Hr H2 Hc. unfold urlparse. rewrite urlsplit_plain_path by done.
  cbn [mbind res_bind scheme netloc path query fragment nonempty].
  by rewrite (char_not_in url_char ";" p), andb_false_r by done.
Qed.

Lemma urljoin_plain_path sch net base p :
  sch ∈ ["http"; "https"] → net ≠ "" → sall host_char net = true → sall url_char base = true → rooted base = true →
  sall url_char p = true → startswith "/" p = true → startswith "//" p = false → char_in ":" p = false →
  ".." ∉ split_on "/" p → "." ∉ split_on "/" p →
  urljoin (http_url sch net base) p = Ok (http_url sch net p).
Proof.
  intros Hs Hne Hn Hb Hr Hp Hroot H2 Hc Hd1 Hd2. unfold urljoin.
  assert (Hsch : nonempty (http_url sch net base) = true ∧ nonempty sch = true ∧ mem sch uses_relative = true
    ∧ mem sch uses_netloc = true).
  { unfold http_url. rewrite !elem_of_cons, elem_of_nil in Hs. by destruct Hs as [->|[->|[]]]. }
  destruct Hsch as (Hbase & Hsne & Hsr & Hsn).
  assert (Hpne : nonempty p = true) by (by destruct p).
  assert (Hlast : mem (List.last (split_on "/" p) "") ["."; ".."] = false).
  { apply mem_false. destruct (split_on_cons "/" p) as (x & xs & E). rewrite E in *.
    pose proof (last_elem x xs "") as Hl. rewrite !elem_of_cons, elem_of_nil. intros [El|[El|[]]]; rewrite El in Hl; tauto. }
  rewrite Hbase, Hpne, urlparse_plain_url by done. unfold mbind at 1, res_bind at 1. cbv beta match. cbn [negb].
  rewrite urlparse_plain_path by done. unfold mbind, res_bind. cbv beta match.
  cbn [scheme netloc path query fragment split_of params]. rewrite bool_decide_eq_true_2 by done.
  rewrite Hsr, Hsn, Hpne, Hroot, Hlast, resolve_dots_plain by done. cbn [negb orb andb nonempty rev app].
  rewrite join_split_slash, Hpne. f_equal. unfold urlunparse, http_url. change (nonempty "") with false. cbv iota.
  rewrite (proj2 (nonempty_true net) Hne), Hpne, Hroot, Hsne. cbn [negb andb]. reflexivity.
Qed.
