(* ===== verification/EgressGuard.v ===== *)
(** Outgoing requests of the console (console/app/services/egress_guard.py): the
    checks of a URL, the policy on the addresses it resolves to, the request line
    and headers that are sent, and the limits on what comes back.

    The resolver ([getaddrinfo]) and the IDNA codec are parameters; sockets, TLS
    and the HTTP parsers of the two transports are not modelled.  Text is sent as
    its UTF-8 bytes. *)
From S2P Require Import Prelude PyStr PyVal PyIp PyUrl.

Open Scope Z_scope.

Definition _BLOCKED_SHARED_ADDRESS_SPACE : network := net4 100 64 0 0 10.
Definition _METADATA_HOSTS : list string := ["metadata.google.internal"; "instance-data"; "169.254.169.254"].
Definition _MAX_RESPONSE_HEADER_BYTES : Z := 64 * 1024.
Definition _MAX_RESPONSE_HEADER_FIELDS : Z := 99.
Definition _TRANSPORT_OWNED_HEADERS : list string :=
  ["host"; "content-length"; "transfer-encoding"; "connection"; "accept-encoding"].
Definition is_token_char (c : ascii) : bool := is_ascii_alnum c || char_in c "!#$%&'*+-.^_`|~".
Definition _HEADER_NAME_RE (name : string) : bool := all_of is_token_char name.
Definition _METHOD_RE (verb : string) : bool := all_of is_ascii_upper verb && Nat.leb (slen verb) 16.
Definition _PATH_SAFE : string := "/%:@!$&'()*+,;=-._~".
Definition _QUERY_SAFE : string := _PATH_SAFE +:+ "?".
Definition _BODY_METHODS : list string := ["POST"; "PUT"; "PATCH"].

Definition egress_error {A} (msg : string) : res A := raise EgressGuardError msg.

(** ** The policy on hosts *)

(** [is_production_env()], given [APP_ENV] or its default. *)
Definition is_production_env (app_env : string) : bool := mem (lower (strip app_env)) ["production"; "prod"].

Definition _host_set (values : list string) : list string :=
  (λ item, lower (rstrip_char "." (strip item))) <$> List.filter (λ item, nonempty (strip item)) values.

Definition _cidr_list (values : list string) : list network := omap (λ item, ip_network (strip item)) values.

(** [ip in network] of any two versions. *)
Definition _blocked_ip (ip : address) : bool :=
  is_loopback ip || is_private ip || is_link_local ip || is_multicast ip || is_reserved ip || is_unspecified ip
  || in_network ip _BLOCKED_SHARED_ADDRESS_SPACE.

Record _Destination := mkDestination {
  label : string;
  host : string;
  dest_port : Z;
  allow_private : bool;
  allowed_hosts : list string;
  allowed_cidrs : list network }.

(** The keyword arguments of the public functions. *)
Record policy := mkPolicy {
  p_label : string;
  p_allow_private_hosts : list string;
  p_allow_private_cidrs : list string;
  p_allow_private : bool;
  p_allow_http_hosts : list string;
  p_require_https_in_prod : bool }.

Definition is_local_name (h : string) : bool :=
  bool_decide (h = "localhost") || endswith ".localhost" h || endswith ".local" h.

Definition default_port (https : bool) : Z := if https then 443 else 80.

(** [parsed.port or d]: a port of 0 is false. *)
Definition port_or (u : SplitResult) (d : Z) : res Z :=
  p ← port u; Ok (match p with Some z => if z =? 0 then d else z | None => d end).

(** A reason, or the destination. *)
Definition _destination (app_env url : string) (p : policy) : res (string + _Destination) :=
  parsed ← urlsplit url;
  let reject text := Ok (inl (p_label p +:+ text)) in
  if negb (mem (scheme parsed) ["http"; "https"]) then reject " must use http or https"
  else
    let h := lower (rstrip_char "." (hostname parsed)) in
    if negb (nonempty h) then reject " host is required"
    else
      let hosts := _host_set (p_allow_private_hosts p) in
      if p_require_https_in_prod p && is_production_env app_env && negb (bool_decide (scheme parsed = "https"))
         && negb (mem h (_host_set (p_allow_http_hosts p)))
      then reject " must use https in production"
      else if nonempty (default "" (userinfo parsed).1) || nonempty (default "" (userinfo parsed).2)
      then reject " must not include credentials"
      else if mem h _METADATA_HOSTS then reject " metadata hosts are blocked"
      else if is_local_name h && negb (p_allow_private p) && negb (mem h hosts) then reject " host is not public"
      else
        match port_or parsed (default_port (bool_decide (scheme parsed = "https"))) with
        | Raise e =>
            if exn_isa (exn_cls e) ValueError then reject " validation failed: ValueError" else Raise e
        | Ok port =>
            Ok (inr (mkDestination (p_label p) h port (p_allow_private p) hosts (_cidr_list (p_allow_private_cidrs p))))
        end.

(** The address is exempt from the test of public addresses. *)
Definition exempt (d : _Destination) (ip : address) : bool :=
  allow_private d || mem (host d) (allowed_hosts d) || existsb (in_network ip) (allowed_cidrs d).

(** The loop over the resolved addresses: a reason, or the first address. *)
Fixpoint pin_addresses (d : _Destination) (first : string) (addrinfo : list string) : string + string :=
  match addrinfo with
  | [] => if nonempty first then inr first else inl (label d +:+ " host could not be resolved")
  | address :: addrinfo =>
      match ip_address address with
      | None => inl (label d +:+ " resolved to an invalid address")
      | Some ip =>
          if negb (exempt d ip) && _blocked_ip ip then inl (label d +:+ " resolved to a non-public address")
          else pin_addresses d (if nonempty first then first else address) addrinfo
      end
  end.

Definition _pinned_address (d : _Destination) (addrinfo : list string) : string + string :=
  pin_addresses d "" addrinfo.

Section Resolver.
(** The addresses the resolver gives, or the name of its exception's class. *)
Context (getaddrinfo : string → Z → list string + string).

Definition _resolution_failure (label exception : string) : string :=
  if bool_decide (exception = "gaierror") then label +:+ " host could not be resolved"
  else label +:+ " validation failed: " +:+ exception.

Definition _resolve (d : _Destination) : string + string :=
  match getaddrinfo (host d) (dest_port d) with
  | inl addrinfo => _pinned_address d addrinfo
  | inr exception => inl (_resolution_failure (label d) exception)
  end.

Definition _resolve_async (d : _Destination) : res string :=
  match _resolve d with inl reason => egress_error reason | inr address => Ok address end.

Definition resolve_url_address (app_env url : string) (p : policy) : res (string + string) :=
  d ← _destination app_env url p;
  Ok (match d with inl reason => inl reason | inr d => _resolve d end).

Definition validation_error (app_env url : string) (p : policy) : res string :=
  r ← resolve_url_address app_env url p; Ok (match r with inl reason => reason | inr _ => "" end).

Definition validate_url (app_env url : string) (p : policy) : res string :=
  r ← resolve_url_address app_env url p; match r with inl reason => egress_error reason | inr _ => Ok url end.
End Resolver.

Definition _destination_or_raise (app_env url : string) (p : policy) : res _Destination :=
  d ← _destination app_env url p; match d with inl reason => egress_error reason | inr d => Ok d end.

(** ** The request *)

Record _PreparedRequest := mkPrepared {
  r_method : string;
  r_target : string;
  r_host : string;
  r_port : Z;
  r_https : bool;
  r_headers : list (string * string);
  r_body : string }.

Definition _request_target (u : SplitResult) : string :=
  let p := quote _PATH_SAFE (if nonempty (path u) then path u else "/") in
  if nonempty (query u) then p +:+ "?" +:+ quote _QUERY_SAFE (query u) else p.

Definition is_blank (c : ascii) : bool := (code c =? 32)%N || (code c =? 9)%N.

(** A character no header value holds: a control character other than HTAB. *)
Definition is_forbidden (c : ascii) : bool := (code c <? 32)%N && negb (code c =? 9)%N || (code c =? 127)%N.

Definition _header_value (value : string) : res string :=
  let text := strip_by is_blank value in
  if sany is_forbidden text then egress_error "request header is not valid HTTP" else Ok text.

(** The loop over the headers of the caller: those selected, and their names. *)
Fixpoint select_headers (content_type : string) (headers : list (string * string)) : res (list (string * string)) :=
  match headers with
  | [] => Ok []
  | (name, value) :: headers =>
      let lowered := lower name in
      if mem lowered _TRANSPORT_OWNED_HEADERS then
        egress_error ("request header " +:+ name +:+ " is owned by the transport")
      else if negb (_HEADER_NAME_RE name) then egress_error "request header is not valid HTTP"
      else
        encoded ← _header_value value;
        rest ← select_headers content_type headers;
        Ok (if nonempty content_type && bool_decide (lowered = "content-type") then rest else (name, encoded) :: rest)
  end.

Definition _request_headers (method : string) (headers : list (string * string)) (body content_type : string) :
    res (list (string * string)) :=
  selected ← select_headers content_type headers;
  let accept := if mem "accept" (lower <$> selected.*1) then [] else [("Accept", "*/*")] in
  let with_body := nonempty body || mem method _BODY_METHODS in
  typed ← (if nonempty content_type && with_body then v ← _header_value content_type; Ok [("Content-Type", v)]
           else Ok []);
  let sized := if with_body then [("Content-Length", str_of_Z (Z.of_nat (slen body)))] else [] in
  Ok (accept ++ selected ++ typed ++ sized ++ [("Connection", "close")])%list.

Section Prepare.
(** [host.encode("idna")] as text: the codec is not code of the repository. *)
Context (idna : string → res string).

Definition _authority (host : string) (port : Z) (https : bool) : res string :=
  name ← (if is_ascii host then Ok host else idna host);
  let name := if char_in ":" name then "[" +:+ name +:+ "]" else name in
  Ok (if port =? default_port https then name else name +:+ ":" +:+ str_of_Z port).

(** [method.upper()], as far as it can be [A-Z]: the sharp s becomes SS. *)
Definition upper_char (c : ascii) : string :=
  if is_ascii_lower c then one (ascii_of_N (code c - 32))
  else if (code c =? 223)%N then "SS" else one c.
Fixpoint upper (s : string) : string := match s with "" => "" | String c s => upper_char c +:+ upper s end.

Definition _prepare_request (method url : string) (headers : list (string * string)) (body content_type : string) :
    res _PreparedRequest :=
  let verb := upper method in
  if negb (_METHOD_RE verb) then egress_error "request method is not valid HTTP"
  else if sany is_control url then egress_error "request is not valid HTTP"
  else
    parsed ← urlsplit url;
    let https := bool_decide (scheme parsed = "https") in
    port ← catch ValueError (port_or parsed (default_port https)) (egress_error "request is not valid HTTP");
    let host := lower (rstrip_char "." (hostname parsed)) in
    authority ← _authority host port https;
    selected ← _request_headers verb headers body content_type;
    Ok (mkPrepared verb (_request_target parsed) host port https
      (("Host", authority) :: ("Accept-Encoding", "identity") :: selected) body).
End Prepare.

(** ** The response *)

Definition _join_headers (pairs : list (string * string)) : list (string * string) :=
  foldl (λ headers nv,
    let key := lower (strip nv.1) in
    let value := strip nv.2 in
    aput key (match afind key headers with Some v => v +:+ ", " +:+ value | None => value end) headers) [] pairs.

(** [_final_head] of an h11 response: its version, reason and headers. *)
Definition _final_head (version reason : string) (pairs : list (string * string)) : res (list (string * string)) :=
  if negb (mem version ["1.0"; "1.1"]) then egress_error "response is not valid HTTP"
  else
    let head_bytes := Z.of_nat (slen reason)
      + foldr Z.add 0 ((λ nv, Z.of_nat (slen nv.1 + slen nv.2 + 4)) <$> pairs) in
    if (_MAX_RESPONSE_HEADER_FIELDS <? Z.of_nat (length pairs)) || (_MAX_RESPONSE_HEADER_BYTES <? head_bytes)
    then egress_error "response headers too large" else Ok (_join_headers pairs).

Definition _declared_length_exceeds (method : string) (status : Z) (headers : list (string * string))
    (max_bytes : Z) : res bool :=
  if bool_decide (method = "HEAD") || (status =? 204) || (status =? 304)
     || bool_decide (is_Some (afind "transfer-encoding" headers))
  then Ok false
  else
    let declared := default "" (afind "content-length" headers) in
    if all_of is_digit declared then n ← py_int (PStr declared); Ok (max_bytes <? n) else Ok false.

(** The loop of [_read_body] on the chunks the connection gives; [length] is
    what is left of the declared length after each read. *)
Fixpoint read_chunks (max_bytes : Z) (body : string) (chunks : list string) : res string :=
  match chunks with
  | [] => Ok body
  | chunk :: chunks =>
      if negb (nonempty chunk) then Ok body
      else
        let body := body +:+ chunk in
        if max_bytes <? Z.of_nat (slen body) then egress_error "response exceeds size limit"
        else read_chunks max_bytes body chunks
  end.

Definition _read_body (declared : option Z) (left_ : option Z) (max_bytes : Z) (chunks : list string) : res string :=
  if match declared with Some n => max_bytes <? n | None => false end then egress_error "response exceeds size limit"
  else
    body ← read_chunks max_bytes "" chunks;
    if match left_ with Some n => negb (n =? 0) | None => false end
    then egress_error "response ended before its declared length" else Ok body.

(** ** The addresses that are connected to *)

(** The networks no public address is in: those for local and private use, the
    shared space of carriers, those for documentation, benchmarks and discarding,
    multicast and reserved ones.  Of IPv6 they leave the global unicast addresses
    (2000::/3) - and fec0::/10, once for sites, which [ipaddress] judges neither
    private nor reserved. *)
Definition NON_PUBLIC : list network :=
  [net4 127 0 0 0 8; net4 10 0 0 0 8; net4 172 16 0 0 12; net4 192 168 0 0 16; net4 169 254 0 0 16; net4 0 0 0 0 8;
   net4 192 0 2 0 24; net4 198 18 0 0 15; net4 198 51 100 0 24; net4 203 0 113 0 24; net4 240 0 0 0 4;
   net4 100 64 0 0 10; net4 224 0 0 0 4;
   Net6 1 128; Net6 0 128; net6 0x100 0 64; net6 0x2001 0xdb8 32; net6 0x2002 0 16; net6 0xfc00 0 7; net6 0xfe80 0 10;
   net6 0xff00 0 8;
   net6 0 0 8; net6 0x100 0 8; net6 0x200 0 7; net6 0x400 0 6; net6 0x800 0 5; net6 0x1000 0 4; net6 0x4000 0 3;
   net6 0x6000 0 3; net6 0x8000 0 3; net6 0xa000 0 3; net6 0xc000 0 3; net6 0xe000 0 4; net6 0xf000 0 5; net6 0xf800 0 6;
   net6 0xfe00 0 9].

(** The networks of protocol assignments, with the parts of them that are reachable. *)
Definition ASSIGNED : list (network * list network) :=
  [(net4 192 0 0 0 24, [net4 192 0 0 9 32; net4 192 0 0 10 32]);
   (net6 0x2001 0 23,
    [Net6 (Z.shiftl 0x2001 112 + Z.shiftl 1 96 + 1) 128; Net6 (Z.shiftl 0x2001 112 + Z.shiftl 1 96 + 2) 128; net6 0x2001 3 32;
     Net6 (Z.shiftl 0x2001 112 + Z.shiftl 4 96 + Z.shiftl 0x112 80) 48; net6 0x2001 0x20 28; net6 0x2001 0x30 28])].

(** An address that is public: itself, or the IPv4 address mapped in it. *)
Definition is_public (ip : address) : Prop :=
  (∀ n, n ∈ NON_PUBLIC → in_network (unmapped ip) n = false)
  ∧ ∀ n reachable, (n, reachable) ∈ ASSIGNED → in_network (unmapped ip) n = true →
      existsb (in_network (unmapped ip)) reachable = true.

(** An IPv6 address that maps one of the shared space of carriers. *)
Definition maps_shared (ip : address) : Prop :=
  ∃ v, ipv4_mapped ip = Some v ∧ in_network v (net4 100 64 0 0 10) = true.

(** Membership in a network decides membership in a wider one. *)
Lemma in_wider4 ip x q y p :
  Z.land (mask_of 32 q) (mask_of 32 p) = mask_of 32 p → in_network (V4 ip) (Net4 x q) = true →
  in_network (V4 ip) (Net4 y p) = (Z.land x (mask_of 32 p) =? y).
Proof. unfold in_network. intros Hm Hx%Z.eqb_eq. by rewrite <- Hx, <- Z.land_assoc, Hm. Qed.

Lemma in_wider6 ip scope x q y p :
  Z.land (mask_of 128 q) (mask_of 128 p) = mask_of 128 p → in_network (V6 ip scope) (Net6 x q) = true →
  in_network (V6 ip scope) (Net6 y p) = (Z.land x (mask_of 128 p) =? y).
Proof. unfold in_network. intros Hm Hx%Z.eqb_eq. by rewrite <- Hx, <- Z.land_assoc, Hm. Qed.

(** Two networks of which the wider one does not hold the other's address. *)
Definition apart (bits y p x q : Z) : bool :=
  let m p := mask_of bits p in
  (Z.land (m q) (m p) =? m p) && negb (Z.land x (m p) =? y)
  || (Z.land (m p) (m q) =? m q) && negb (Z.land y (m q) =? x).

(** A network apart from every exception: its addresses are private. *)
Definition clear_of (n : network) (exceptions : list network) : bool :=
  forallb (λ e, match n, e with
    | Net4 y p, Net4 x q => apart 32 y p x q
    | Net6 y p, Net6 x q => apart 128 y p x q
    | _, _ => false
    end) exceptions.

Lemma clear_of_sound n exceptions a :
  clear_of n exceptions = true → in_network a n = true → existsb (in_network a) exceptions = false.
Proof.
  unfold clear_of, apart. rewrite forallb_elem, existsb_false_elem. intros Hc Ha e He. specialize (Hc e He).
  destruct (in_network a e) eqn:Ee; [|done]. exfalso.
  destruct n as [y p|y p], e as [x q|x q]; try done;
    apply orb_true_iff in Hc as [[Hm%Z.eqb_eq Hn%negb_true_iff]%andb_true_iff|[Hm%Z.eqb_eq Hn%negb_true_iff]%andb_true_iff];
    destruct a as [ip|ip scope]; try discriminate Ha.
  - rewrite (in_wider4 _ _ _ _ _ Hm Ee) in Ha. congruence.
  - rewrite (in_wider4 _ _ _ _ _ Hm Ha) in Ee. congruence.
  - rewrite (in_wider6 _ _ _ _ _ _ Hm Ee) in Ha. congruence.
  - rewrite (in_wider6 _ _ _ _ _ _ Hm Ha) in Ee. congruence.
Qed.

Lemma private_network a n :
  n ∈ V4_PRIVATE ++ V6_PRIVATE → clear_of n V4_PRIVATE_EXCEPTIONS || clear_of n V6_PRIVATE_EXCEPTIONS = true →
  in_network (unmapped a) n = true → is_private a = true.
Proof.
  intros Hn Hc Hin. unfold is_private.
  assert (Hv : match unmapped a with V4 _ => n ∈ V4_PRIVATE | V6 _ _ => n ∈ V6_PRIVATE end
               ∧ match unmapped a with V4 _ => clear_of n V4_PRIVATE_EXCEPTIONS
                                     | V6 _ _ => clear_of n V6_PRIVATE_EXCEPTIONS end = true).
  { destruct (unmapped a) as [ip|ip scope], n as [y p|y p]; try discriminate Hin; split.
    - apply elem_of_app in Hn as [Hn|Hn]; [done|]. exfalso. unfold V6_PRIVATE, net6 in Hn.
      rewrite !elem_of_cons, elem_of_nil in Hn. naive_solver.
    - apply orb_true_iff in Hc as [Hc|Hc]; [done|discriminate Hc].
    - apply elem_of_app in Hn as [Hn|Hn]; [|done]. exfalso. unfold V4_PRIVATE, net4 in Hn.
      rewrite !elem_of_cons, elem_of_nil in Hn. naive_solver.
    - apply orb_true_iff in Hc as [Hc|Hc]; [discriminate Hc|done]. }
  destruct (unmapped a) as [ip|ip scope]; destruct Hv as [Hv Hcl];
    rewrite (clear_of_sound _ _ _ Hcl Hin); (replace (existsb _ _) with true; [done|]); symmetry;
    apply existsb_elem; by exists n.
Qed.

(** The tests of [_blocked_ip], one by one. *)
Lemma blocked_tests ip :
  _blocked_ip ip = false →
  is_private ip = false ∧ is_multicast ip = false ∧ is_reserved ip = false ∧ in_network ip _BLOCKED_SHARED_ADDRESS_SPACE = false.
Proof.
  unfold _blocked_ip. intros Hb.
  apply orb_false_iff in Hb as [Hb Hs]. apply orb_false_iff in Hb as [Hb _]. apply orb_false_iff in Hb as [Hb Hr].
  apply orb_false_iff in Hb as [Hb Hm]. apply orb_false_iff in Hb as [Hb _]. apply orb_false_iff in Hb as [_ Hp]. by split_and!.
Qed.

Lemma reserved_network a n :
  n ∈ V6_RESERVED → in_network (unmapped a) n = true → is_reserved a = true.
Proof.
  intros Hn Hin. unfold is_reserved. destruct (unmapped a) as [ip|ip scope]; [|apply existsb_elem; by exists n].
  exfalso. unfold V6_RESERVED, net6 in Hn. rewrite !elem_of_cons, elem_of_nil in Hn. naive_solver.
Qed.

Lemma assigned_network a n reachable :
  (n, reachable) ∈ ASSIGNED → in_network (unmapped a) n = true → is_private a = false →
  existsb (in_network (unmapped a)) reachable = true.
Proof.
  intros Hn Hin Hp. unfold ASSIGNED in Hn. rewrite !elem_of_cons, elem_of_nil in Hn.
  unfold is_private in Hp. destruct Hn as [[= -> ->]|[[= -> ->]|[]]]; destruct (unmapped a) as [ip|ip scope]; try discriminate Hin;
    apply andb_false_iff in Hp as [Hp|Hp%negb_false_iff]; try exact Hp; exfalso; rewrite existsb_false_elem in Hp;
    rewrite Hp in Hin; try discriminate Hin; apply (bool_decide_unpack _); vm_compute; exact I.
Qed.

Lemma blocked_covers ip : _blocked_ip ip = false → is_public ip ∨ maps_shared ip.
Proof.
  intros (Hp & Hm & Hr & Hs)%blocked_tests.
  assert (Hpriv : ∀ n, n ∈ V4_PRIVATE ++ V6_PRIVATE → clear_of n V4_PRIVATE_EXCEPTIONS || clear_of n V6_PRIVATE_EXCEPTIONS = true →
    in_network (unmapped ip) n = false).
  { intros n H1 H2. destruct (in_network (unmapped ip) n) eqn:E; [|done]. by rewrite (private_network _ _ H1 H2 E) in Hp. }
  assert (Hres : ∀ n, n ∈ V6_RESERVED → in_network (unmapped ip) n = false).
  { intros n H1. destruct (in_network (unmapped ip) n) eqn:E; [|done]. by rewrite (reserved_network _ _ H1 E) in Hr. }
  destruct (in_network (unmapped ip) (net4 100 64 0 0 10)) eqn:Es.
  - right. unfold unmapped in Es. unfold maps_shared. destruct (ipv4_mapped ip) as [v|]; [by exists v|].
    cbn [default] in Es. unfold _BLOCKED_SHARED_ADDRESS_SPACE in Hs. congruence.
  - left. split; [|intros n l Hn Hin; by eapply assigned_network].
    intros n Hn. unfold NON_PUBLIC in Hn. unfold is_multicast in Hm. rewrite !elem_of_cons, elem_of_nil in Hn.
    repeat destruct Hn as [->|Hn]; try done;
      first [exact Es|apply Hpriv; [apply (bool_decide_unpack _); vm_compute; exact I|vm_compute; reflexivity]
            |apply Hres; apply (bool_decide_unpack _); vm_compute; exact I
            |destruct (unmapped ip); first [reflexivity|exact Hm]].
Qed.

Lemma pin_addresses_ok d first addrs a :
  pin_addresses d first addrs = inr a →
  a = (if nonempty first then first else default "" (head addrs))
  ∧ ∀ x, x ∈ addrs → ∃ ip, ip_address x = Some ip ∧ (exempt d ip = true ∨ _blocked_ip ip = false).
Proof.
  revert first. induction addrs as [|x addrs IH]; intros first; simpl.
  - destruct (nonempty first); [|done]. intros [= <-]. split; [done|set_solver].
  - destruct (ip_address x) as [ip|] eqn:Ex; [|done].
    destruct (negb (exempt d ip) && _blocked_ip ip) eqn:Eb; [done|]. intros [Ha Hall]%IH. split.
    + rewrite Ha. destruct (nonempty first) eqn:Ef; [by rewrite Ef|]. destruct (nonempty x) eqn:En; [done|].
      apply not_true_iff_false in En. rewrite nonempty_true in En. destruct (decide (x = "")) as [->|]; [|done].
      by vm_compute in Ex.
    + intros y [->|Hy]%elem_of_cons; [|by apply Hall]. exists ip. split; [done|].
      apply andb_false_iff in Eb as [Eb|Eb]; [left; by apply negb_false_iff|by right].
Qed.

(** What a URL that gets a destination is. *)
Lemma destination_ok app_env url p d :
  _destination app_env url p = Ok (inr d) →
  ∃ u, urlsplit url = Ok u ∧ scheme u ∈ ["http"; "https"]
    ∧ (p_require_https_in_prod p = true → is_production_env app_env = true →
         scheme u = "https" ∨ host d ∈ _host_set (p_allow_http_hosts p))
    ∧ host d = lower (rstrip_char "." (hostname u)) ∧ host d ≠ "" ∧ host d ∉ _METADATA_HOSTS
    ∧ (is_local_name (host d) = true → p_allow_private p = true ∨ host d ∈ _host_set (p_allow_private_hosts p))
    ∧ allow_private d = p_allow_private p ∧ allowed_hosts d = _host_set (p_allow_private_hosts p)
    ∧ allowed_cidrs d = _cidr_list (p_allow_private_cidrs p).
Proof.
  unfold _destination. intros (u & Hu & Hr)%bind_ok. exists u. split; [done|].
  destruct (mem (scheme u) _) eqn:Es; [|discriminate Hr]. cbn [negb] in Hr. apply mem_true in Es.
  destruct (nonempty _) eqn:Eh in Hr; [|discriminate Hr]. cbn [negb] in Hr. apply nonempty_true in Eh.
  destruct (_ && _ && _ && _) eqn:Ehttps in Hr; [discriminate Hr|].
  destruct (_ || _) in Hr; [discriminate Hr|].
  destruct (mem _ _METADATA_HOSTS) eqn:Em in Hr; [discriminate Hr|]. apply mem_false in Em.
  destruct (_ && _ && _) eqn:El in Hr; [discriminate Hr|].
  destruct (port_or _ _) as [z|e]; [|destruct (exn_isa _ _) in Hr; discriminate Hr].
  injection Hr as <-. cbn [host allow_private allowed_hosts allowed_cidrs]. split_and!; try done.
  - intros H1 H2. rewrite H1, H2 in Ehttps. cbn [andb] in Ehttps. apply andb_false_iff in Ehttps as [H|H].
    + left. by apply negb_false_iff, bool_decide_eq_true in H.
    + right. by apply negb_false_iff, mem_true in H.
  - intros H1. rewrite H1 in El. cbn [andb] in El. apply andb_false_iff in El as [H|H]; apply negb_false_iff in H;
      [by left|right; by apply mem_true].
Qed.

(** C16: Outgoing requests reach public addresses only: the address a URL is
    connected to is the first its host resolved to, and every address it resolved
    to is public, also when it is an IPv4 address mapped into IPv6, except that a
    mapped address of the shared space 100.64.0.0/10 passes - or the caller allows
    private addresses, names the host, or lists a network the address is in; the URL
    is HTTP, HTTPS in production unless the host is excepted, and its host is no
    cloud metadata service. *)
Theorem egress_reaches_public getaddrinfo app_env url p a :
  resolve_url_address getaddrinfo app_env url p = Ok (inr a) →
  ∃ u h port rest, urlsplit url = Ok u ∧ scheme u ∈ ["http"; "https"] ∧ h = lower (rstrip_char "." (hostname u))
    ∧ (p_require_https_in_prod p = true → is_production_env app_env = true →
         scheme u = "https" ∨ h ∈ _host_set (p_allow_http_hosts p))
    ∧ h ∉ _METADATA_HOSTS ∧ getaddrinfo h port = inl (a :: rest)
    ∧ ∀ x, x ∈ a :: rest → ∃ ip, ip_address x = Some ip
        ∧ (is_public ip ∨ maps_shared ip ∨ p_allow_private p = true ∨ h ∈ _host_set (p_allow_private_hosts p)
           ∨ ∃ n, n ∈ _cidr_list (p_allow_private_cidrs p) ∧ in_network ip n = true).
Proof.
  unfold resolve_url_address. intros ([reason|d] & Hd & Hr)%bind_ok; [by inv_res|]. injection Hr as Hr.
  apply destination_ok in Hd as (u & Hu & Hs & Hhttps & Hh & Hne & Hm & _ & Hp & Hal & Hci).
  unfold _resolve in Hr. destruct (getaddrinfo (host d) (dest_port d)) as [addrs|e] eqn:Eg; [|done].
  destruct addrs as [|x rest]; [discriminate Hr|]. apply pin_addresses_ok in Hr as [Ha Hall].
  cbn in Ha. subst a. exists u, (host d), (dest_port d), rest. split_and!; try done.
  intros y Hy. destruct (Hall y Hy) as (ip & Hip & [He|Hb]); exists ip; (split; [done|]).
  - right. right. unfold exempt in He. rewrite Hp, Hal, Hci in He. apply orb_true_iff in He as [[He|He]%orb_true_iff|He].
    + by left.
    + right. left. by apply mem_true.
    + right. right. by apply existsb_elem in He.
  - apply blocked_covers in Hb as [Hb|Hb]; [by left|right; by left].
Qed.

Definition strict : policy := mkPolicy "URL" [] [] false [] true.

Lemma egress_reaches_public_witness :
  ∃ ip, ip_address "93.184.216.34" = Some ip ∧ is_public ip.
Proof.
  destruct (egress_reaches_public (λ _ _, inl ["93.184.216.34"; "2606:2800::1"]) "production" "https://Example.com/x"
    strict "93.184.216.34") as (u & h & port & rest & _ & _ & _ & _ & _ & _ & H); [vm_compute; reflexivity|].
  destruct (H "93.184.216.34" ltac:(set_solver)) as (ip & Hip & Hpub). exists ip. split; [exact Hip|].
  destruct Hpub as [Hpub|[(v & Hv & _)|[Hpub|[Hpub|(n & Hn & _)]]]]; [exact Hpub|..]; exfalso.
  - injection Hip as <-. discriminate Hv.
  - discriminate Hpub.
  - apply (not_elem_of_nil _ Hpub).
  - apply (not_elem_of_nil _ Hn).
Defined.

(** An IPv4-mapped address of the shared space passes: the shared network is
    compared with the IPv6 address itself, which is of the other version. *)
Example mapped_shared_address :
  (_blocked_ip <$> [V4 (ip4 100 64 0 1); V6 (Z.shiftl 0xffff 32 + ip4 100 64 0 1) None;
                    V6 (Z.shiftl 0xffff 32 + ip4 10 0 0 1) None]) = [true; false; true].
Proof. vm_compute. reflexivity. Qed.

(** So does one of fec0::/10. *)
Example site_local_address : _blocked_ip (V6 (Z.shiftl 0xfec0 112 + 1) None) = false.
Proof. vm_compute. reflexivity. Qed.

(** ** What is put on the wire *)

Definition is_plain (c : ascii) : bool := negb (is_control c).
Definition is_visible (c : ascii) : bool := between 33 126 c.

Section Parts.
Context (p : ascii → bool).
Implicit Types s t : string.

Lemma sall_cons c s : sall p (String c s) = true ↔ p c = true ∧ sall p s = true.
Proof. simpl. apply andb_true_iff. Qed.

Lemma sall_kept q s : sall p s = true → sall p (sfilter q s) = true.
Proof.
  induction s as [|c s IH]; [done|]. intros [Hc Hs]%sall_cons. simpl. destruct (q c); [|by apply IH].
  apply sall_cons. auto.
Qed.

Lemma sall_lstrip q s : sall p s = true → sall p (lstrip_by q s) = true.
Proof. induction s as [|c s IH]; [done|]. intros [Hc Hs]%sall_cons. simpl. destruct (q c); [auto|by apply sall_cons]. Qed.

Lemma sall_rstrip q s : sall p s = true → sall p (rstrip_by q s) = true.
Proof.
  induction s as [|c s IH]; [done|]. intros [Hc Hs]%sall_cons. simpl. specialize (IH Hs).
  destruct (q c && _); [done|by apply sall_cons].
Qed.

Lemma sall_strip q s : sall p s = true → sall p (strip_by q s) = true.
Proof. intros Hs. by apply sall_rstrip, sall_lstrip. Qed.

Lemma sall_sdrop n s : sall p s = true → sall p (sdrop n s) = true.
Proof. revert s. induction n as [|n IH]; intros [|c s]; simpl; try done. intros [_ Hs]%andb_true_iff. auto. Qed.

Lemma sall_split_once c s :
  sall p s = true → sall p (split_once c s).1 = true ∧ sall p (default "" (split_once c s).2) = true.
Proof.
  induction s as [|d s IH]; [done|]. intros [Hd Hs]%sall_cons. specialize (IH Hs). simpl.
  case_decide; simpl; [by split|]. destruct (split_once c s) as [a b]. simpl in *. by rewrite Hd.
Qed.

Lemma sall_rsplit_once c s : sall p s = true → sall p (rsplit_once c s).2 = true.
Proof.
  induction s as [|d s IH]; [done|]. intros [Hd Hs]%sall_cons. specialize (IH Hs). simpl.
  destruct (rsplit_once c s) as [[a|] b]; [done|]. simpl in IH. case_decide; simpl; [done|by rewrite Hd].
Qed.

Lemma sall_split_before q s :
  sall p s = true → sall p (split_before q s).1 = true ∧ sall p (split_before q s).2 = true.
Proof.
  induction s as [|d s IH]; [done|]. intros [Hd Hs]%sall_cons. specialize (IH Hs). simpl.
  destruct (q d); [simpl; by rewrite Hd, Hs|]. destruct (split_before q s) as [a b]. simpl in *. by rewrite Hd.
Qed.
End Parts.

Lemma sall_lower s : sall is_plain s = true → sall is_plain (lower s) = true.
Proof.
  assert (Hc : ∀ c, implb (is_plain c) (is_plain (lower_char c)) = true).
  { apply ascii_ind_all. vm_compute. reflexivity. }
  induction s as [|c s IH]; [done|]. intros [Hp Hs]%sall_cons. apply sall_cons. split; [|by apply IH].
  specialize (Hc c). by rewrite Hp in Hc.
Qed.

Lemma sany_false p s : sany p s = false → sall (λ c, negb (p c)) s = true.
Proof. unfold sany. apply negb_false_iff. Qed.

(** The host of a URL without control characters has none. *)
Lemma urlsplit_plain url u : sall is_plain url = true → urlsplit url = Ok u → sall is_plain (netloc u) = true.
Proof.
  unfold urlsplit. intros Hurl.
  pose proof (sall_kept is_plain (λ c, negb (is_removed c)) _ (sall_lstrip is_plain is_c0_or_space _ Hurl)) as H1.
  set (text := sfilter _ _) in *. clearbody text. clear Hurl.
  destruct (split_scheme text) as [sch rest] eqn:Es.
  assert (H2 : sall is_plain rest = true).
  { unfold split_scheme in Es. destruct (sall_split_once is_plain ":" text H1) as [_ Hr].
    destruct (split_once ":" text) as [[|c s] [t|]]; try (injection Es as _ <-; done).
    destruct (_ && _); injection Es as _ <-; done. }
  destruct (if startswith "//" rest then _ else _) as [net rest'] eqn:En.
  assert (H3 : sall is_plain net = true).
  { destruct (startswith "//" rest); [|by injection En as <- _].
    pose proof (sall_split_before is_plain (λ c, char_in c "/?#") _ (sall_sdrop is_plain 2 _ H2)) as [H3 _].
    by rewrite En in H3. }
  destruct (negb _); [done|]. destruct (_ && _); [done|]. destruct (split_once "#" rest') as [r f].
  destruct (split_once "?" r) as [pa q]. by intros [= <-].
Qed.

Lemma hostname_plain u : sall is_plain (netloc u) = true → sall is_plain (hostname u) = true.
Proof.
  intros Hn. unfold hostname, hostinfo. pose proof (sall_rsplit_once is_plain "@" _ Hn) as Hi.
  destruct (rsplit_once "@" (netloc u)) as [x info]. simpl in Hi.
  destruct (match split_once "[" info with (_, Some b) => _ | (_, None) => _ end) as [h port] eqn:Eh.
  assert (Hh : sall is_plain h = true).
  { destruct (sall_split_once is_plain "[" _ Hi) as [_ Hb]. destruct (split_once "[" info) as [a [b|]].
    - simpl in Hb. destruct (sall_split_once is_plain "]" _ Hb) as [Hh _]. destruct (split_once "]" b) as [h' rest].
      by injection Eh as <- _.
    - destruct (sall_split_once is_plain ":" _ Hi) as [Hh _]. by rewrite Eh in Hh. }
  cbn [fst]. destruct (sall_split_once is_plain "%" _ Hh) as [H1 H2]. destruct (split_once "%" h) as [a [z|]]; simpl in *.
  - rewrite !sall_app. simpl. by rewrite sall_lower, H2.
  - by apply sall_lower.
Qed.

Lemma pretty_go_digits x s : sall is_dec_digit s = true → sall is_dec_digit (pretty_N_go x s) = true.
Proof.
  revert s. induction (N.lt_wf_0 x) as [x _ IH]. intros s Hs. destruct (decide (x = 0%N)) as [->|Hx].
  - by rewrite pretty_N_go_0.
  - rewrite pretty_N_go_step by lia. apply IH; [apply N.div_lt; lia|]. apply sall_cons. split; [|done].
    assert (Hm : (x mod 10 < 10)%N) by (apply N.mod_lt; lia).
    assert (Hd : ∀ n, (n < 10)%nat → is_dec_digit (pretty_N_char (N.of_nat n)) = true).
    { intros n Hn. do 10 (destruct n as [|n]; [reflexivity|]). lia. }
    rewrite <- (N2Nat.id (x mod 10)). apply Hd. lia.
Qed.

Lemma str_of_Z_plain z : sall is_plain (str_of_Z z) = true.
Proof.
  assert (H : ∀ c, implb (is_dec_digit c) (is_plain c) = true) by (apply ascii_ind_all; vm_compute; reflexivity).
  assert (Hd : ∀ q, sall is_plain (pretty_N_go (Npos q) "") = true).
  { intros q. eapply sall_impl; [|by apply pretty_go_digits]. intros c Hc. specialize (H c). by rewrite Hc in H. }
  destruct z as [|q|q]; [reflexivity|exact (Hd q)|exact (Hd q)].
Qed.

Lemma char_in_sall (p : ascii → bool) c s : char_in c s = true → sall p s = true → p c = true.
Proof.
  unfold char_in, sany. rewrite negb_true_iff. induction s as [|d s IH]; [done|]. simpl.
  intros Hc [Hd Hs]%andb_true_iff. destruct (bool_decide (c = d)) eqn:E; [|by apply IH].
  by apply bool_decide_eq_true in E as ->.
Qed.

Lemma quote_visible safe s : sall is_visible safe = true → sall is_visible (quote safe s) = true.
Proof.
  intros Hsafe.
  assert (Hu : ∀ c, implb (is_unreserved c) (is_visible c) = true) by (apply ascii_ind_all; vm_compute; reflexivity).
  assert (Hp : ∀ c, sall is_visible (join "" (percent <$> utf8_bytes c)) = true) by (apply ascii_ind_all; vm_compute; reflexivity).
  induction s as [|c s IH]; [done|]. cbn [quote]. rewrite sall_app, IH, andb_true_r.
  destruct (is_unreserved c || char_in c safe) eqn:E; [|apply Hp]. unfold one. cbn [sall]. rewrite andb_true_r.
  apply orb_true_iff in E as [E|E]; [specialize (Hu c); by rewrite E in Hu|by eapply char_in_sall].
Qed.

Lemma target_visible u : sall is_visible (_request_target u) = true.
Proof.
  unfold _request_target. destruct (nonempty (query u)); [|by apply quote_visible].
  rewrite !sall_app, !quote_visible by (vm_compute; reflexivity). reflexivity.
Qed.

(** A value that is a header's: no control character other than HTAB. *)
Definition is_value (v : string) : bool := negb (sany is_forbidden v).

Lemma plain_value v : sall is_plain v = true → is_value v = true.
Proof.
  assert (H : ∀ c, implb (is_plain c) (negb (is_forbidden c)) = true) by (apply ascii_ind_all; vm_compute; reflexivity).
  unfold is_value, sany. rewrite negb_involutive. apply sall_impl. intros c Hc. specialize (H c). by rewrite Hc in H.
Qed.

Lemma header_value_ok v w : _header_value v = Ok w → is_value w = true.
Proof. unfold _header_value, is_value. destruct (sany _ _) eqn:E; [by inv_res|]. intros [= <-]. by rewrite E. Qed.

Definition well_formed (nv : string * string) : Prop := _HEADER_NAME_RE nv.1 = true ∧ is_value nv.2 = true.

(** The values of the fields with a name, in any case. *)
Definition values_of (name : string) (headers : list (string * string)) : list string :=
  (filter (λ nv, lower nv.1 = name) headers).*2.

Lemma values_of_app name hs hs' : values_of name (hs ++ hs') = (values_of name hs ++ values_of name hs')%list.
Proof. unfold values_of. by rewrite filter_app, fmap_app. Qed.

Lemma select_headers_ok content_type headers sel :
  select_headers content_type headers = Ok sel →
  Forall well_formed sel ∧ ∀ name, name ∈ _TRANSPORT_OWNED_HEADERS → values_of name sel = [].
Proof.
  revert sel. induction headers as [|[n v] headers IH]; intros sel; cbn [select_headers]; [by intros [= <-]|].
  destruct (mem (lower n) _) eqn:Em; [by inv_res|]. apply mem_false in Em.
  destruct (_HEADER_NAME_RE n) eqn:En; [|by inv_res]. cbn [negb].
  intros (w & Hw & (rest & Hrest & Hs)%bind_ok)%bind_ok. destruct (IH _ Hrest) as [Hwf Hv].
  destruct (_ && _); injection Hs as <-; [done|]. split.
  - constructor; [|done]. split; [done|by eapply header_value_ok].
  - intros name Hname. unfold values_of. rewrite filter_cons_False; [by apply Hv|]. cbn [fst]. by intros <-.
Qed.

Lemma authority_plain idna h p https name :
  (∀ t n, sall is_plain t = true → idna t = Ok n → sall is_plain n = true) → sall is_plain h = true →
  _authority idna h p https = Ok name → sall is_plain name = true.
Proof.
  intros Hidna Hh. unfold _authority. intros (t & Ht & Hn)%bind_ok.
  assert (Hplain : sall is_plain t = true).
  { destruct (is_ascii h); [by injection Ht as <-|by eapply Hidna]. }
  destruct (char_in ":" t), (p =? default_port https); injection Hn as <-;
    repeat (cbn [sall]; rewrite ?sall_app, ?Hplain, ?str_of_Z_plain); reflexivity.
Qed.

Lemma upper_method verb : _METHOD_RE verb = true → all_of is_ascii_upper verb = true.
Proof. unfold _METHOD_RE. by intros [H _]%andb_true_iff. Qed.

(** The headers below [Host] and [Accept-Encoding]. *)
Lemma request_headers_ok method headers body content_type hs :
  _request_headers method headers body content_type = Ok hs →
  Forall well_formed hs ∧ values_of "host" hs = [] ∧ values_of "accept-encoding" hs = []
  ∧ values_of "transfer-encoding" hs = [] ∧ values_of "connection" hs = ["close"]
  ∧ values_of "content-length" hs
    = (if nonempty body || mem method _BODY_METHODS then [str_of_Z (Z.of_nat (slen body))] else []).
Proof.
  unfold _request_headers. intros (sel & Hsel & (typed & Ht & Hs)%bind_ok)%bind_ok. injection Hs as <-.
  apply select_headers_ok in Hsel as [Hwf Hv].
  set (accept := if mem "accept" (lower <$> sel.*1) then [] else [("Accept", "*/*")]).
  set (sized := if nonempty body || mem method _BODY_METHODS then _ else _).
  assert (Ha : Forall well_formed accept ∧ ∀ n, n ∈ _TRANSPORT_OWNED_HEADERS → values_of n accept = []).
  { unfold accept. destruct (mem "accept" _); (split; [repeat constructor|]); intros n Hn; [done|].
    unfold _TRANSPORT_OWNED_HEADERS in Hn. rewrite !elem_of_cons, elem_of_nil in Hn.
    by destruct Hn as [->|[->|[->|[->|[->|[]]]]]]. }
  assert (Hty : Forall well_formed typed ∧ ∀ n, n ∈ _TRANSPORT_OWNED_HEADERS → values_of n typed = []).
  { destruct (nonempty content_type && _); [|injection Ht as <-; by split; [constructor|]].
    apply bind_ok in Ht as (v & Hval & Ht). injection Ht as <-. split.
    - repeat constructor. by eapply header_value_ok.
    - intros n Hn. unfold _TRANSPORT_OWNED_HEADERS in Hn. rewrite !elem_of_cons, elem_of_nil in Hn.
    by destruct Hn as [->|[->|[->|[->|[->|[]]]]]]. }
  assert (Hsz : Forall well_formed sized).
  { unfold sized. destruct (nonempty body || _); repeat constructor. apply plain_value, str_of_Z_plain. }
  destruct Ha as [Hawf Ha], Hty as [Htwf Hty].
  split; [rewrite !Forall_app; split_and!; [done..|repeat constructor]|].
  rewrite !values_of_app, !Ha, !Hv, !Hty by set_solver. unfold sized.
  destruct (nonempty body || _); split_and!; reflexivity.
Qed.

(** C29: Nothing of a prepared request can break out of its place on the wire: the
    method is letters, the target has no blank and no control character, every
    header name is a token and every value one line; and the fields that frame the
    message come once and from the transport alone, with the body's own length.
    Of the IDNA codec it is used that it makes no control character of a text that
    has none: the codec itself lets those of a label through, and the URL is what
    is looked at for them. *)
Theorem prepared_request_wire_safe idna method url headers body content_type r
    (Hidna : ∀ t n, sall is_plain t = true → idna t = Ok n → sall is_plain n = true) :
  _prepare_request idna method url headers body content_type = Ok r →
  all_of is_ascii_upper (r_method r) = true ∧ sall is_visible (r_target r) = true
  ∧ Forall well_formed (r_headers r) ∧ r_body r = body
  ∧ (∃ authority, values_of "host" (r_headers r) = [authority])
  ∧ values_of "transfer-encoding" (r_headers r) = []
  ∧ values_of "accept-encoding" (r_headers r) = ["identity"] ∧ values_of "connection" (r_headers r) = ["close"]
  ∧ values_of "content-length" (r_headers r)
    = (if nonempty body || mem (r_method r) _BODY_METHODS then [str_of_Z (Z.of_nat (slen body))] else []).
Proof.
  unfold _prepare_request. destruct (_METHOD_RE _) eqn:Em; [|by inv_res]. cbn [negb].
  destruct (sany is_control url) eqn:Ec; [by inv_res|]. apply sany_false in Ec.
  intros (u & Hu & (p & _ & (name & Hname & (sel & Hsel & Hr)%bind_ok)%bind_ok)%bind_ok)%bind_ok.
  injection Hr as <-. cbn [r_method r_target r_headers r_body].
  apply request_headers_ok in Hsel as (Hwf & H1 & H2 & H3 & H4 & H5).
  assert (Hplain : sall is_plain name = true).
  { eapply (authority_plain _ _ _ _ _ Hidna); [|exact Hname]. apply sall_lower, sall_rstrip, hostname_plain.
    by eapply urlsplit_plain. }
  split_and!; [by apply upper_method|by apply target_visible| |done|..].
  - repeat constructor; [by apply plain_value|done].
  - exists name. change (name :: values_of "host" sel = [name]). by rewrite H1.
  - exact H3.
  - change ("identity" :: values_of "accept-encoding" sel = ["identity"]). by rewrite H2.
  - exact H4.
  - exact H5.
Qed.

(** A codec that lets every character of an ASCII label through, as the real one. *)
Definition idna_sample (t : string) : res string :=
  if is_ascii t then Ok t else Ok ("xn--" +:+ sfilter (λ c, (code c <? 128)%N) t +:+ "-9ca").

Lemma idna_sample_plain t n : sall is_plain t = true → idna_sample t = Ok n → sall is_plain n = true.
Proof.
  intros Ht. unfold idna_sample. destruct (is_ascii t); intros [= <-]; [done|]. cbn.
  rewrite sall_app, sall_kept; done.
Qed.

Example idna_sample_controls : idna_sample (String "001" "a") = Ok (String "001" "a").
Proof. reflexivity. Qed.

Definition accented : string := "https://" +:+ one "233" +:+ "xample.com:8443/a b?q=x y".

Lemma prepared_request_wire_safe_witness :
  ∃ r, _prepare_request idna_sample "post" accented
         [("X-Trace", "1"); ("Content-Type", "text/plain")] "{}" "application/json" = Ok r
    ∧ r_target r = "/a%20b?q=x%20y" ∧ values_of "host" (r_headers r) = ["xn--xample.com-9ca:8443"]
    ∧ Forall well_formed (r_headers r) ∧ values_of "content-length" (r_headers r) = ["2"].
Proof.
  eexists. split; [vm_compute; reflexivity|]. split; [reflexivity|]. split; [reflexivity|].
  edestruct (prepared_request_wire_safe idna_sample "post" accented
    [("X-Trace", "1"); ("Content-Type", "text/plain")] "{}" "application/json")
    as (_ & _ & Hwf & _ & _ & _ & _ & _ & Hl).
  - exact idna_sample_plain.
  - vm_compute. reflexivity.
  - split; [exact Hwf|exact Hl].
Defined.
