(* ===== verification/RefreshLease.v ===== *)
(** The slots of the materializations of a refresh
    (airflow/dags/dataset_refresh_idempotency.py): a row of [pipeline_runs] per
    run and dataset, held under a lease with a fencing token.

    Each function is one transaction on the table; it changes nothing when it
    raises.  The row is locked before it is read, so the transactions on a slot
    take effect one after another, and [Lease] reads their clocks there.  SHA-256
    and the cast of a text to [uuid] are parameters.  [extra] is read back as it
    was written ([jsonb] keeps the values; the texts hold no NUL). *)
From S2P Require Import Prelude PyStr PyVal PyTime.

Open Scope Z_scope.

Definition MATERIALIZATION_LAYERS : list string := ["silver"; "gold"].
Definition MAX_SKIP_REASON_LENGTH : nat := 300.
Definition SLOT_PREFIX : string := "dataset_refresh_item:".

(** A row of [pipeline_runs]; [fencing_token] is a [bigint]. *)
Record PipelineRun := mkRun {
  r_tenant : string;
  r_workspace : string;
  r_dag : string;
  r_cartridge : string;
  r_entity : string;
  r_airflow_run : string;
  r_mode : string;
  r_status : string;
  r_started : option instant;
  r_finished : option instant;
  r_heartbeat : option instant;
  r_lease : option instant;
  r_error : option string;
  r_extra : pyval;
  r_fencing_token : Z }.

Abbreviation runs := (gmap string PipelineRun).

(** The clocks of a transaction: its [NOW()], the [clock_timestamp()] of its
    statement and the [datetime.now] of the process. *)
Record clocks := mkClocks { c_now : instant; c_statement : instant; c_utc : instant }.

Definition MAX_BIGINT : Z := 2 ^ 63 - 1.

Inductive Reservation :=
  | Completed (result : pydict)
  | Reserved (slot_id : string) (lease_token : Z).

(** [max(30, min(lease_seconds, 3600))] seconds. *)
Definition lease_length (lease_seconds : Z) : instant := seconds (Z.max 30 (Z.min lease_seconds 3600)).

Section Slots.
Context `{PyRepr}.
Context (sha256_hex : string → string).
(** [text::uuid], as the canonical text of the value. *)
Context (uuid : string → option string).

Definition _slot_id (run_id tenant_id workspace_id dataset : string) : string :=
  SLOT_PREFIX +:+ sha256_hex (utf8 (join (one NUL) [run_id; tenant_id; workspace_id; dataset])).

(** [WHERE run_id = slot AND tenant_id = tenant AND workspace_id = workspace]. *)
Definition in_scope (tenant workspace : string) (r : PipelineRun) : bool :=
  bool_decide (r_tenant r = tenant) && bool_decide (r_workspace r = workspace).
Definition select_slot (slot tenant workspace : string) (db : runs) : option PipelineRun :=
  r ← db !! slot; if in_scope tenant workspace r then Some r else None.

Definition _durable_result (existing : option PipelineRun) : option pydict :=
  match existing with
  | None => None
  | Some r =>
      let extra := default [] (as_dict (r_extra r)) in
      let result := default [] (as_dict (get "result" extra)) in
      if bool_decide (r_status r = "success") then Some result
      else if bool_decide (r_status r = "partial") && is_true (get "degraded" result) then Some result
      else None
  end.

Definition _finished_state (success : bool) (result : option pydict) (degraded : bool)
    (skipped_reason : option pyval) : res (string * option string * pydict) :=
  let result := default [] result in
  if success then
    if bool_decide (is_Some skipped_reason) then raise RuntimeError "a published materialization cannot be skipped"
    else
      let layer := strip (str_or_empty (get "layer" result)) in
      if negb (mem layer MATERIALIZATION_LAYERS) then raise RuntimeError "materialization outcome layer is unavailable"
      else
        row_count ← int_or_zero (get "row_count" result);
        let safe_result := mkdict [("name", PStr (str_or_empty (get "name" result))); ("row_count", PInt row_count);
                                   ("layer", PStr layer)] in
        if degraded then
          Ok ("partial", Some "degraded_fallback_published",
              mkdict [("result", PDict (dset "degraded" (PBool true) safe_result))])
        else Ok ("success", None, mkdict [("result", PDict safe_result)])
  else if degraded then raise RuntimeError "a failed materialization cannot be degraded"
  else
    match skipped_reason with
    | Some reason =>
        let reason := stake MAX_SKIP_REASON_LENGTH (strip (py_str reason)) in
        if negb (nonempty reason) then raise RuntimeError "materialization skip reason is unavailable"
        else Ok ("skipped", Some reason, [])
    | None => Ok ("failed", Some "materialization_failed", [])
    end.

(** The row is running and its lease has not expired on the process's clock. *)
Definition active (c : clocks) (r : PipelineRun) : bool :=
  bool_decide (r_status r = "running") && match r_lease r with Some t => c_utc c <? t | None => false end.

(** The [UPDATE] and the [INSERT] of a reservation. *)
Definition renewed (c : clocks) (lease_seconds : Z) (r : PipelineRun) : PipelineRun :=
  mkRun (r_tenant r) (r_workspace r) (r_dag r) (r_cartridge r) (r_entity r) (r_airflow_run r) (r_mode r) "running"
    (Some (c_now c)) None (Some (c_now c)) (Some (c_now c + lease_length lease_seconds)) None (r_extra r)
    (r_fencing_token r + 1).
Definition inserted (c : clocks) (lease_seconds : Z) (tenant workspace cartridge_id dataset airflow_run_id : string) :
    PipelineRun :=
  mkRun tenant workspace "dataset_refresh_chain" cartridge_id dataset airflow_run_id "materialize" "running"
    (Some (c_now c)) None (Some (c_now c)) (Some (c_now c + lease_length lease_seconds)) None (PDict []) 1.

(** [storage]: the table exists. *)
Definition reserve_materialization (c : clocks) (storage : bool) (airflow_run_id tenant_id workspace_id cartridge_id
    dataset : string) (lease_seconds : Z) (db : runs) : res (Reservation * runs) :=
  let slot := _slot_id airflow_run_id tenant_id workspace_id dataset in
  if negb storage then raise RuntimeError "materialization idempotency storage unavailable"
  else
    tenant ← cast_uuid uuid tenant_id;
    workspace ← cast_uuid uuid workspace_id;
    let existing := select_slot slot tenant workspace db in
    match _durable_result existing with
    | Some durable => Ok (Completed durable, db)
    | None =>
        match existing with
        | Some r =>
            if active c r then raise RuntimeError "materialization idempotency slot is already active"
            else if MAX_BIGINT <=? r_fencing_token r then raise DataError "bigint out of range"
            else Ok (Reserved slot (r_fencing_token r + 1), <[slot := renewed c lease_seconds r]> db)
        | None =>
            if bool_decide (is_Some (db !! slot)) then raise UniqueViolationError ""
            else
              Ok (Reserved slot 1,
                  <[slot := inserted c lease_seconds tenant workspace cartridge_id dataset airflow_run_id]> db)
        end
    end.

(** The row the caller holds: running, under its token, the lease not expired at [at_]. *)
Definition held (at_ : instant) (lease_token : Z) (r : PipelineRun) : bool :=
  bool_decide (r_status r = "running") && (r_fencing_token r =? lease_token)
  && match r_lease r with Some t => at_ <? t | None => false end.

Definition finished (c : clocks) (status : string) (error : option string) (extra : pydict) (r : PipelineRun) :
    PipelineRun :=
  mkRun (r_tenant r) (r_workspace r) (r_dag r) (r_cartridge r) (r_entity r) (r_airflow_run r) (r_mode r) status
    (r_started r) (Some (c_now c)) (r_heartbeat r) None error (PDict extra) (r_fencing_token r).

Definition finish_materialization (c : clocks) (slot_id tenant_id workspace_id : string) (lease_token : Z)
    (success : bool) (result : option pydict) (degraded : bool) (skipped_reason : option pyval) (db : runs) : res runs :=
  '(status, error, extra) ← _finished_state success result degraded skipped_reason;
  tenant ← cast_uuid uuid tenant_id;
  workspace ← cast_uuid uuid workspace_id;
  match select_slot slot_id tenant workspace db with
  | Some r =>
      if held (c_statement c) lease_token r then Ok (<[slot_id := finished c status error extra r]> db)
      else raise RuntimeError "materialization idempotency slot unavailable"
  | None => raise RuntimeError "materialization idempotency slot unavailable"
  end.

Definition kept (c : clocks) (lease_seconds : Z) (r : PipelineRun) : PipelineRun :=
  mkRun (r_tenant r) (r_workspace r) (r_dag r) (r_cartridge r) (r_entity r) (r_airflow_run r) (r_mode r) (r_status r)
    (r_started r) (r_finished r) (Some (c_now c)) (Some (c_now c + lease_length lease_seconds)) (r_error r) (r_extra r)
    (r_fencing_token r).

Definition heartbeat_materialization (c : clocks) (slot_id tenant_id workspace_id : string) (lease_token lease_seconds : Z)
    (db : runs) : res runs :=
  tenant ← cast_uuid uuid tenant_id;
  workspace ← cast_uuid uuid workspace_id;
  match select_slot slot_id tenant workspace db with
  | Some r =>
      if held (c_now c) lease_token r then Ok (<[slot_id := kept c lease_seconds r]> db)
      else raise RuntimeError "materialization lease is unavailable"
  | None => raise RuntimeError "materialization lease is unavailable"
  end.

(** ** The slots under any sequence of calls *)

(** A call, with the clocks it reads. *)
Inductive call :=
  | Reserve (c : clocks) (storage : bool) (airflow_run_id tenant_id workspace_id cartridge_id dataset : string)
      (lease_seconds : Z)
  | Finish (c : clocks) (slot_id tenant_id workspace_id : string) (lease_token : Z) (success : bool)
      (result : option pydict) (degraded : bool) (skipped_reason : option pyval)
  | Heartbeat (c : clocks) (slot_id tenant_id workspace_id : string) (lease_token lease_seconds : Z).

(** What a call that returns did to its slot. *)
Inductive event :=
  | Granted (token : Z)
  | Replayed (result : pydict)
  | Beat (token : Z)
  | Gave_up (token : Z)
  | Published (token : Z) (result : pydict).

Definition exec (op : call) (db : runs) : runs * list (string * event) :=
  match op with
  | Reserve c storage run tenant workspace cartridge dataset len =>
      match reserve_materialization c storage run tenant workspace cartridge dataset len db with
      | Ok (Completed result, db') => (db', [(_slot_id run tenant workspace dataset, Replayed result)])
      | Ok (Reserved slot token, db') => (db', [(slot, Granted token)])
      | Raise _ => (db, [])
      end
  | Finish c slot tenant workspace token success result degraded reason =>
      match finish_materialization c slot tenant workspace token success result degraded reason db with
      | Ok db' =>
          (db', [(slot, match _durable_result (db' !! slot) with
                        | Some r => Published token r | None => Gave_up token end)])
      | Raise _ => (db, [])
      end
  | Heartbeat c slot tenant workspace token len =>
      match heartbeat_materialization c slot tenant workspace token len db with
      | Ok db' => (db', [(slot, Beat token)])
      | Raise _ => (db, [])
      end
  end.

Fixpoint exec_all (ops : list call) (db : runs) : runs * list (string * event) :=
  match ops with
  | [] => (db, [])
  | op :: ops => let '(db, es) := exec op db in let '(db, es') := exec_all ops db in (db, (es ++ es')%list)
  end.

(** The specification of a slot: a work item that is leased under increasing
    tokens until the holder of the last one publishes a result, and then gives
    that result for ever. *)
Inductive slot_state :=
  | Vacant
  | Leased (token : Z)
  | Open (token : Z)
  | Done (token : Z) (result : pydict).

Definition last_token (s : slot_state) : Z :=
  match s with Vacant => 0 | Leased k | Open k | Done k _ => k end.

Inductive slot_step : slot_state → event → slot_state → Prop :=
  | step_grant s k : (∀ k r, s ≠ Done k r) → k = last_token s + 1 → slot_step s (Granted k) (Leased k)
  | step_beat k : slot_step (Leased k) (Beat k) (Leased k)
  | step_give_up k : slot_step (Leased k) (Gave_up k) (Open k)
  | step_publish k r : slot_step (Leased k) (Published k r) (Done k r)
  | step_replay k r : slot_step (Done k r) (Replayed r) (Done k r).

Inductive slot_run : slot_state → list event → slot_state → Prop :=
  | run_nil s : slot_run s [] s
  | run_cons s e s' es s'' : slot_step s e s' → slot_run s' es s'' → slot_run s (e :: es) s''.

(** The specification's state of a row. *)
Definition slot_of (row : option PipelineRun) : slot_state :=
  match row with
  | None => Vacant
  | Some r =>
      match _durable_result (Some r) with
      | Some result => Done (r_fencing_token r) result
      | None => if bool_decide (r_status r = "running") then Leased (r_fencing_token r) else Open (r_fencing_token r)
      end
  end.

Definition events_of (slot : string) (es : list (string * event)) : list event :=
  (List.filter (λ e, bool_decide (e.1 = slot)) es).*2.

Lemma events_of_app slot es es' : events_of slot (es ++ es') = (events_of slot es ++ events_of slot es')%list.
Proof. unfold events_of. by rewrite List.filter_app, fmap_app. Qed.

Lemma slot_run_app s es s' es' s'' : slot_run s es s' → slot_run s' es' s'' → slot_run s (es ++ es') s''.
Proof. induction 1 as [|s e s1 es s2 Hstep _ IH]; simpl; [done|]. intros Hr. econstructor; eauto. Qed.

Lemma select_slot_some slot tenant workspace db r :
  select_slot slot tenant workspace db = Some r → db !! slot = Some r ∧ in_scope tenant workspace r = true.
Proof.
  unfold select_slot. intros (r' & Hr & Hs)%bind_Some. destruct (in_scope tenant workspace r') eqn:E; [|done].
  by injection Hs as <-.
Qed.

Lemma running_not_durable r : r_status r = "running" → _durable_result (Some r) = None.
Proof. intros E. unfold _durable_result. by rewrite E. Qed.

Lemma slot_of_running r : r_status r = "running" → slot_of (Some r) = Leased (r_fencing_token r).
Proof. intros E. unfold slot_of. by rewrite (running_not_durable _ E), bool_decide_eq_true_2. Qed.

Lemma slot_of_durable r result :
  _durable_result (Some r) = Some result → slot_of (Some r) = Done (r_fencing_token r) result.
Proof. intros E. unfold slot_of. by rewrite E. Qed.

Lemma held_leased at_ token r : held at_ token r = true → slot_of (Some r) = Leased token.
Proof.
  unfold held. intros [[E%bool_decide_eq_true <-%Z.eqb_eq]%andb_true_iff _]%andb_true_iff.
  by rewrite slot_of_running.
Qed.

(** What a reservation does, on each of its branches. *)
Lemma reserve_cases c storage run tenant workspace cartridge dataset len db out db' :
  let slot := _slot_id run tenant workspace dataset in
  reserve_materialization c storage run tenant workspace cartridge dataset len db = Ok (out, db') →
  match out with
  | Completed result => db' = db ∧ ∃ r, db !! slot = Some r ∧ _durable_result (Some r) = Some result
  | Reserved slot' token =>
      slot' = slot ∧ token = last_token (slot_of (db !! slot)) + 1
      ∧ (∀ r, db !! slot = Some r → _durable_result (Some r) = None ∧ active c r = false
           ∧ r_fencing_token r < MAX_BIGINT)
      ∧ ∃ r', db' = <[slot := r']> db ∧ r_status r' = "running" ∧ r_fencing_token r' = token
          ∧ r_lease r' = Some (c_now c + lease_length len)
  end.
Proof.
  intros slot. unfold reserve_materialization. fold slot. destruct storage; [|by inv_res]. cbn [negb].
  intros (t & _ & (w & _ & Hr)%bind_ok)%bind_ok.
  destruct (select_slot slot t w db) as [r|] eqn:Es.
  - apply select_slot_some in Es as [Er _]. destruct (_durable_result (Some r)) as [result|] eqn:Ed.
    + injection Hr as <- <-. eauto.
    + destruct (active c r) eqn:Ea; [discriminate Hr|]. destruct (MAX_BIGINT <=? _) eqn:Eb; [discriminate Hr|].
      apply Z.leb_gt in Eb. injection Hr as <- <-. rewrite Er. split_and!; try done.
      * unfold slot_of. rewrite Ed. by destruct (bool_decide _).
      * intros r0 [= <-]. done.
      * eexists. split_and!; reflexivity.
  - cbn [_durable_result] in Hr. destruct (db !! slot) as [r|] eqn:Er; [discriminate Hr|].
    injection Hr as <- <-. split_and!; try done. eexists. split_and!; reflexivity.
Qed.

Lemma finish_cases c slot tenant workspace token success result degraded reason db db' :
  finish_materialization c slot tenant workspace token success result degraded reason db = Ok db' →
  ∃ r status error extra, db !! slot = Some r ∧ held (c_statement c) token r = true
    ∧ _finished_state success result degraded reason = Ok (status, error, extra)
    ∧ db' = <[slot := finished c status error extra r]> db.
Proof.
  unfold finish_materialization. intros ([[status error] extra] & Hs & (t & _ & (w & _ & Hr)%bind_ok)%bind_ok)%bind_ok.
  destruct (select_slot slot t w db) as [r|] eqn:Es; [|discriminate Hr]. apply select_slot_some in Es as [Er _].
  destruct (held _ _ r) eqn:Eh; [|discriminate Hr]. injection Hr as <-. by exists r, status, error, extra.
Qed.

Lemma heartbeat_cases c slot tenant workspace token len db db' :
  heartbeat_materialization c slot tenant workspace token len db = Ok db' →
  ∃ r, db !! slot = Some r ∧ held (c_now c) token r = true ∧ db' = <[slot := kept c len r]> db.
Proof.
  unfold heartbeat_materialization. intros (t & _ & (w & _ & Hr)%bind_ok)%bind_ok.
  destruct (select_slot slot t w db) as [r|] eqn:Es; [|discriminate Hr]. apply select_slot_some in Es as [Er _].
  destruct (held _ _ r) eqn:Eh; [|discriminate Hr]. injection Hr as <-. by exists r.
Qed.

(** No outcome leaves the row running. *)
Lemma finished_state_ends success result degraded reason status error extra :
  _finished_state success result degraded reason = Ok (status, error, extra) →
  status = (if success then if degraded then "partial" else "success"
            else if bool_decide (is_Some reason) then "skipped" else "failed").
Proof.
  unfold _finished_state. destruct success.
  - destruct (bool_decide _); [by inv_res|]. destruct (negb _); [by inv_res|]. intros (n & _ & Hr)%bind_ok.
    by destruct degraded; injection Hr as <-.
  - destruct degraded; [by inv_res|]. destruct reason as [v|]; [|by intros [= <-]].
    destruct (negb _); [by inv_res|]. by intros [= <-].
Qed.

Lemma exec_slot op db slot db' es :
  exec op db = (db', es) → slot_run (slot_of (db !! slot)) (events_of slot es) (slot_of (db' !! slot)).
Proof.
  unfold events_of.
  assert (Hother : ∀ slot' r, slot' ≠ slot → slot_run (slot_of (db !! slot)) [] (slot_of (<[slot' := r]> db !! slot))).
  { intros slot' r Hne. rewrite lookup_insert_ne by done. constructor. }
  assert (Hone : ∀ s e s', slot_step s e s' → slot_run s [e] s') by (intros; econstructor; [done|constructor]).
  destruct op as [c storage run tenant workspace cartridge dataset len|
                  c slot' tenant workspace token success result degraded reason|c slot' tenant workspace token len]; cbn [exec].
  - destruct (reserve_materialization _ _ _ _ _ _ _ _ _) as [[out db1]|e] eqn:Er; [|intros [= <- <-]; constructor].
    apply reserve_cases in Er. destruct out as [result|slot1 token]; intros [= <- <-]; cbn [List.filter fst].
    + destruct Er as (-> & r & Hr & Hd). case_bool_decide as Hs; [|constructor]. subst slot. rewrite Hr.
      apply Hone. rewrite (slot_of_durable _ _ Hd). constructor.
    + destruct Er as (-> & Ht & Hr & r' & -> & Hrun & Hf & _). case_bool_decide as Hs; [|by apply Hother]. subst slot.
      rewrite lookup_insert_eq, slot_of_running, Hf by done. apply Hone. constructor; [|done].
      intros k r0 E. destruct (db !! _) as [r|]; [|done]. destruct (Hr _ eq_refl) as (Hd & _).
      unfold slot_of in E. rewrite Hd in E. by destruct (bool_decide _).
  - destruct (finish_materialization _ _ _ _ _ _ _ _ _ _) as [db1|e] eqn:Ef; [|intros [= <- <-]; constructor].
    apply finish_cases in Ef as (r & status & error & extra & Hr & Hh & Hst & ->). intros [= <- <-].
    cbn [List.filter fst]. case_bool_decide as Hs; [|by apply Hother]. subst slot'.
    rewrite lookup_insert_eq, Hr, (held_leased _ _ _ Hh). apply Hone.
    destruct (_durable_result _) as [res|] eqn:Ed.
    + rewrite (slot_of_durable _ _ Ed). unfold held in Hh. apply andb_true_iff in Hh as [[_ <-%Z.eqb_eq]%andb_true_iff _].
      constructor.
    + unfold slot_of. rewrite Ed. apply finished_state_ends in Hst.
      unfold held in Hh. apply andb_true_iff in Hh as [[_ <-%Z.eqb_eq]%andb_true_iff _].
      rewrite bool_decide_eq_false_2; [constructor|]. cbn [r_status finished]. subst status. by repeat case_match.
  - destruct (heartbeat_materialization _ _ _ _ _ _ _) as [db1|e] eqn:Eb; [|intros [= <- <-]; constructor].
    apply heartbeat_cases in Eb as (r & Hr & Hh & ->). intros [= <- <-].
    cbn [List.filter fst]. case_bool_decide as Hs; [|by apply Hother]. subst slot'.
    rewrite lookup_insert_eq, Hr, (held_leased _ _ _ Hh). apply Hone.
    unfold held in Hh. apply andb_true_iff in Hh as [[Hrun%bool_decide_eq_true <-%Z.eqb_eq]%andb_true_iff _].
    rewrite slot_of_running by done. constructor.
Qed.
End Slots.

Section Properties.
Context `{PyRepr}.
Context (sha256_hex : string → string).
Context (uuid : string → option string).

Abbreviation exec := (exec sha256_hex uuid).
Abbreviation exec_all := (exec_all sha256_hex uuid).
Abbreviation reserve_materialization := (reserve_materialization sha256_hex uuid).
Abbreviation finish_materialization := (finish_materialization uuid).
Abbreviation heartbeat_materialization := (heartbeat_materialization uuid).
Abbreviation _slot_id := (_slot_id sha256_hex).

Lemma exec_all_slot ops db slot db' es :
  exec_all ops db = (db', es) → slot_run (slot_of (db !! slot)) (events_of slot es) (slot_of (db' !! slot)).
Proof.
  revert db db' es. induction ops as [|op ops IH]; intros db db' es; cbn [RefreshLease.exec_all].
  - intros [= <- <-]. constructor.
  - destruct (exec op db) as [db1 es1] eqn:E1. destruct (exec_all ops db1) as [db2 es2] eqn:E2. intros [= <- <-].
    rewrite events_of_app. eapply slot_run_app; [by eapply exec_slot|by eapply IH].
Qed.

Definition tokens_of (es : list event) : list Z := omap (λ e, match e with Granted k => Some k | _ => None end) es.
Definition results_of (es : list event) : list pydict :=
  omap (λ e, match e with Published _ r | Replayed r => Some r | _ => None end) es.

(** The tokens of a run of the specification count up from the last one. *)
Lemma slot_run_tokens s es s' :
  slot_run s es s' →
  tokens_of es = (λ i, last_token s + 1 + Z.of_nat i) <$> seq 0 (length (tokens_of es))
  ∧ last_token s' = last_token s + Z.of_nat (length (tokens_of es)).
Proof.
  induction 1 as [s|s e s1 es s2 Hstep _ [IH1 IH2]]; [simpl; split; [done|lia]|].
  destruct Hstep as [s k Hnd Hk|k|k|k r|k r]; cbn [tokens_of omap list_omap length last_token]; try by split.
  fold (tokens_of es). rewrite Hk in *. cbn [last_token] in *. split; [|rewrite IH2; lia].
  cbn [seq fmap list_fmap]. f_equal; [lia|]. rewrite <- fmap_S_seq, <- list_fmap_compose.
  etrans; [exact IH1|]. apply list_fmap_ext. intros i x _. simpl. lia.
Qed.

Lemma slot_run_done k r es s' : slot_run (Done k r) es s' → tokens_of es = [] ∧ Forall (.= r) (results_of es).
Proof.
  remember (Done k r) as s eqn:E. intros Hrun. revert E.
  induction Hrun as [s|s e s1 es s2 Hstep _ IH]; intros ->; [by split; [|constructor]|].
  inversion Hstep as [? ? Hnd| | | |]; subst; [by destruct (Hnd k r)|].
  destruct (IH eq_refl) as [H1 H2]. split; [done|by constructor].
Qed.

(** Once a result is published no token is granted and every result is that one. *)
Lemma slot_run_published s es1 k r es2 s' :
  slot_run s (es1 ++ Published k r :: es2) s' → tokens_of es2 = [] ∧ Forall (.= r) (results_of es2)
  ∧ k = last_token s + Z.of_nat (length (tokens_of es1)).
Proof.
  revert s. induction es1 as [|e es1 IH]; intros s Hrun; inversion Hrun as [|? ? s1 ? ? Hstep Hrest]; subst.
  - inversion Hstep; subst. destruct (slot_run_done _ _ _ _ Hrest) as [H1 H2]. simpl. split_and!; [done..|lia].
  - destruct (IH _ Hrest) as (H1 & H2 & H3). split_and!; [done..|]. subst k.
    inversion Hstep; subst; cbn [tokens_of omap list_omap length last_token]; try done. fold (tokens_of es1). lia.
Qed.

(** C7: The slots refine their specification: whatever calls are made, by
    whomever and in whatever order, the events of a slot are those of a work item
    leased under increasing tokens until a holder of the last one publishes, and
    the row of the slot is that item's state.  So its tokens count up by one, only
    the holder of the last token publishes, and from then on no token is granted
    and every reservation is answered with the published result. *)
Theorem slots_refine_leases ops db0 db es slot :
  exec_all ops db0 = (db, es) →
  let log := events_of slot es in
  slot_run (slot_of (db0 !! slot)) log (slot_of (db !! slot))
  ∧ tokens_of log = (λ i, last_token (slot_of (db0 !! slot)) + 1 + Z.of_nat i) <$> seq 0 (length (tokens_of log))
  ∧ ∀ es1 k r es2, log = (es1 ++ Published k r :: es2)%list →
      k = last_token (slot_of (db0 !! slot)) + Z.of_nat (length (tokens_of es1))
      ∧ tokens_of es2 = [] ∧ Forall (.= r) (results_of es2).
Proof.
  intros Hex log. pose proof (exec_all_slot _ _ slot _ _ Hex) as Hrun. fold log in Hrun.
  split_and!; [done|by eapply slot_run_tokens|]. intros es1 k r es2 E. rewrite E in Hrun.
  destruct (slot_run_published _ _ _ _ _ _ Hrun) as (H1 & H2 & H3). done.
Qed.

Definition clocks_of (op : call) : clocks :=
  match op with Reserve c _ _ _ _ _ _ _ | Finish c _ _ _ _ _ _ _ _ | Heartbeat c _ _ _ _ _ => c end.

(** No lease reaches further than an hour past [t], no token past [n]. *)
Definition bounded (t : instant) (n : Z) (db : runs) : Prop :=
  ∀ slot r, db !! slot = Some r →
    (∀ e, r_lease r = Some e → e <= t + seconds 3600) ∧ 0 < r_fencing_token r <= n.

Lemma lease_length_bounds len : seconds 30 <= lease_length len <= seconds 3600.
Proof. unfold lease_length, seconds. lia. Qed.

Lemma bounded_insert t n n' db slot r :
  bounded t n db → n <= n' → (∀ e, r_lease r = Some e → e <= t + seconds 3600) → 0 < r_fencing_token r <= n' →
  bounded t n' (<[slot := r]> db).
Proof.
  intros Hb Hn Hl Hf slot' r' [[-> <-]|[Hne Hr]]%lookup_insert_Some; [done|]. destruct (Hb _ _ Hr). split; [done|lia].
Qed.

Lemma exec_bounded t n op db db' es :
  bounded t n db → 0 <= n → c_now (clocks_of op) <= t → exec op db = (db', es) → bounded t (n + 1) db'.
Proof.
  intros Hb Hn Hc. assert (Hsame : bounded t (n + 1) db) by (intros s r Hr; destruct (Hb _ _ Hr); split; [done|lia]).
  destruct op as [c storage run tenant workspace cartridge dataset len|
                  c slot' tenant workspace token success result degraded reason|c slot' tenant workspace token len];
    cbn [RefreshLease.exec clocks_of] in *.
  - destruct (reserve_materialization _ _ _ _ _ _ _ _ _) as [[out db1]|e] eqn:Er; [|by intros [= <- <-]].
    apply reserve_cases in Er. destruct out as [result|slot1 token]; intros [= <- <-]; [by destruct Er as [-> _]|].
    destruct Er as (-> & Ht & _ & r' & -> & _ & Hf & Hl). eapply bounded_insert; [done|lia| |].
    + intros e. rewrite Hl. intros [= <-]. pose proof (lease_length_bounds len). lia.
    + rewrite Hf, Ht. destruct (db !! _) as [r|] eqn:Er; [|simpl; lia]. destruct (Hb _ _ Er) as [_ Hk].
      unfold slot_of. repeat case_match; simpl; lia.
  - destruct (finish_materialization _ _ _ _ _ _ _ _ _ _) as [db1|e] eqn:Ef; [|by intros [= <- <-]].
    apply finish_cases in Ef as (r & status & error & extra & Hr & _ & _ & ->). intros [= <- <-].
    destruct (Hb _ _ Hr) as [_ Hk]. eapply bounded_insert; [done|lia|done|simpl; lia].
  - destruct (heartbeat_materialization _ _ _ _ _ _ _) as [db1|e] eqn:Eb; [|by intros [= <- <-]].
    apply heartbeat_cases in Eb as (r & Hr & _ & ->). intros [= <- <-]. destruct (Hb _ _ Hr) as [_ Hk].
    eapply bounded_insert; [done|lia| |simpl; lia]. intros e [= <-]. pose proof (lease_length_bounds len). lia.
Qed.

Lemma exec_all_bounded t ops n db db' es :
  bounded t n db → 0 <= n → Forall (λ op, c_now (clocks_of op) <= t) ops → exec_all ops db = (db', es) →
  bounded t (n + Z.of_nat (length ops)) db'.
Proof.
  revert n db db' es. induction ops as [|op ops IH]; intros n db db' es Hb Hn Hall; cbn [RefreshLease.exec_all length].
  - intros [= <- <-]. by rewrite Z.add_0_r.
  - destruct (exec op db) as [db1 es1] eqn:E1. destruct (exec_all ops db1) as [db2 es2] eqn:E2. intros [= <- <-].
    inversion Hall as [|? ? Hop Hops]; subst. pose proof (exec_bounded _ _ _ _ _ _ Hb Hn Hop E1) as Hb1.
    pose proof (IH _ _ _ _ Hb1 ltac:(lia) Hops E2) as Hb2.
    replace (n + Z.of_nat (S (length ops))) with (n + 1 + Z.of_nat (length ops)) by lia. done.
Qed.

Lemma outdated_token c tenant workspace slot token db r :
  db !! slot = Some r → r_fencing_token r ≠ token →
  (∀ success result degraded reason,
     ¬ is_ok (finish_materialization c slot tenant workspace token success result degraded reason db))
  ∧ ∀ len, ¬ is_ok (heartbeat_materialization c slot tenant workspace token len db).
Proof.
  intros Hr Hne.
  assert (Hh : ∀ at_ r', db !! slot = Some r' → held at_ token r' = true → False).
  { intros at_ r' Hr' Hh. rewrite Hr in Hr'. injection Hr' as <-. unfold held in Hh.
    by apply andb_true_iff in Hh as [[_ E%Z.eqb_eq]%andb_true_iff _]. }
  split.
  - intros success result degraded reason Hok. destruct (finish_materialization _ _ _ _ _ _ _ _ _ _) eqn:E; [|done].
    apply finish_cases in E as (r' & ? & ? & ? & Hr' & Hheld & _). by eapply Hh.
  - intros len Hok. destruct (heartbeat_materialization _ _ _ _ _ _ _) eqn:E; [|done].
    apply heartbeat_cases in E as (r' & Hr' & Hheld & _). by eapply Hh.
Qed.

(** C24: No slot stays blocked by a holder that died: whatever calls were made
    until an hour ago, a reservation now is granted the next token, or answered
    with the result published; and once granted, the calls of every earlier holder
    are refused. *)
Theorem slots_never_stuck ops db es t c run tenant workspace cartridge dataset len u v :
  exec_all ops ∅ = (db, es) → Forall (λ op, c_now (clocks_of op) <= t) ops → Z.of_nat (length ops) < MAX_BIGINT →
  t + seconds 3600 <= c_utc c → uuid tenant = Some u → uuid workspace = Some v →
  let slot := _slot_id run tenant workspace dataset in
  (∀ r, db !! slot = Some r → in_scope u v r = true) →
  ∃ out db', reserve_materialization c true run tenant workspace cartridge dataset len db = Ok (out, db')
    ∧ match out with
      | Completed result => ∃ k, slot_of (db !! slot) = Done k result
      | Reserved slot' token => slot' = slot ∧ token = last_token (slot_of (db !! slot)) + 1
          ∧ slot_of (db' !! slot) = Leased token
          ∧ ∀ c' token', token' ≠ token →
              (∀ success result degraded reason,
                 ¬ is_ok (finish_materialization c' slot tenant workspace token' success result degraded reason db'))
              ∧ ∀ len', ¬ is_ok (heartbeat_materialization c' slot tenant workspace token' len' db')
      end.
Proof.
  intros Hex Hall Hlen Hutc Hu Hv slot Hscope.
  assert (Hb : bounded t (0 + Z.of_nat (length ops)) db).
  { eapply (exec_all_bounded t ops 0 ∅); [|lia|done|done]. intros s r Hr. by rewrite lookup_empty in Hr. }
  assert (Hok : ∃ out db', reserve_materialization c true run tenant workspace cartridge dataset len db = Ok (out, db')).
  { unfold RefreshLease.reserve_materialization, cast_uuid. rewrite Hu, Hv. cbn [negb mbind res_bind]. fold slot.
    unfold select_slot. destruct (db !! slot) as [r|] eqn:Er; cbn [mbind option_bind]; [|by eauto].
    rewrite (Hscope r eq_refl). destruct (_durable_result (Some r)); [by eauto|].
    destruct (Hb _ _ Er) as [Hl Hf]. replace (active c r) with false.
    - replace (MAX_BIGINT <=? r_fencing_token r) with false by (symmetry; apply Z.leb_gt; lia). by eauto.
    - symmetry. unfold active. apply andb_false_iff. right. destruct (r_lease r) as [e|]; [|done].
      apply Z.ltb_ge. specialize (Hl e eq_refl). lia. }
  destruct Hok as (out & db' & Hr). exists out, db'. split; [done|]. apply reserve_cases in Hr. fold slot in Hr.
  destruct out as [result|slot' token].
  - destruct Hr as (_ & r & Er & Hd). exists (r_fencing_token r). rewrite Er. by apply slot_of_durable.
  - destruct Hr as (-> & Ht & _ & r' & -> & Hrun & Hf & _). rewrite lookup_insert_eq, slot_of_running, Hf by done.
    split_and!; [done..|]. intros c' token' Hne. eapply outdated_token; [apply lookup_insert_eq|]. by rewrite Hf.
Qed.
End Properties.

(** A holder that dies, a second one that publishes, and a late call of the first. *)
Module Crash.
#[local] Instance repr : PyRepr := some_repr.
Definition hash (s : string) : string := s.
Definition at_ (n : Z) : clocks := mkClocks (seconds n) (seconds n) (seconds n).
Definition slot : string := _slot_id hash "run" "t" "w" "sales".
Definition gold : pydict := mkdict [("name", PStr "sales"); ("row_count", PInt 7); ("layer", PStr "gold")].
Definition take_ (n : Z) : call := Reserve (at_ n) true "run" "t" "w" "crm" "sales" 900.
Definition publish (n token : Z) : call := Finish (at_ n) slot "t" "w" token true (Some gold) false None.
Definition calls : list call :=
  [take_ 0; Heartbeat (at_ 60) slot "t" "w" 1 900; take_ 700; take_ 1000; publish 1010 1; publish 1020 2; take_ 1030].

Example what_happens :
  events_of slot (exec_all hash Some calls ∅).2 = [Granted 1; Beat 1; Granted 2; Published 2 gold; Replayed gold].
Proof. vm_compute. reflexivity. Qed.

Lemma slots_refine_leases_witness :
  let log := events_of slot (exec_all hash Some calls ∅).2 in
  slot_run Vacant log (slot_of ((exec_all hash Some calls ∅).1 !! slot)) ∧ tokens_of log = [1; 2].
Proof.
  pose proof (slots_refine_leases hash Some calls ∅ _ _ slot (surjective_pairing _)) as (H1 & H2 & _).
  split; [exact H1|]. rewrite H2. vm_compute. reflexivity.
Defined.

Definition crashed : runs := (exec_all hash Some [take_ 0; Heartbeat (at_ 60) slot "t" "w" 1 3600] ∅).1.

Lemma crashed_scope : match crashed !! slot with Some r => in_scope "t" "w" r = true | None => False end.
Proof. vm_compute. reflexivity. Qed.
Lemma crashed_leased : slot_of (crashed !! slot) = Leased 1.
Proof. vm_compute. reflexivity. Qed.

Lemma slots_never_stuck_witness :
  ∃ db', reserve_materialization hash Some (at_ 3660) true "run" "t" "w" "crm" "sales" 900 crashed
           = Ok (Reserved slot 2, db') ∧ slot_of (db' !! slot) = Leased 2.
Proof.
  edestruct (slots_never_stuck hash Some [take_ 0; Heartbeat (at_ 60) slot "t" "w" 1 3600] crashed _ (seconds 60) (at_ 3660)
    "run" "t" "w" "crm" "sales" 900 "t" "w" (surjective_pairing _)) as (out & db' & Hr & Hm).
  - repeat constructor; vm_compute; discriminate.
  - vm_compute. reflexivity.
  - vm_compute. discriminate.
  - reflexivity.
  - reflexivity.
  - intros r Hr. pose proof crashed_scope as Hs. unfold slot in Hs. rewrite Hr in Hs. exact Hs.
  - fold slot in Hm. rewrite crashed_leased in Hm. destruct out as [result|slot' token].
    + destruct Hm as [k Hk]. discriminate Hk.
    + destruct Hm as (-> & -> & Hl & _). exists db'. split; [exact Hr|exact Hl].
Defined.
End Crash.
