(* ===== verification/ServiceJobs.v ===== *)
(** The client of asynchronous jobs (airflow/dags/service_job_client.py): it
    submits a request under an idempotency key and polls its job until the job
    ends or the deadline passes.

    The HTTP client, the clock and [sleep] are an interface, [JobService], on the
    state of the world; [AsyncService] implements it with the middleware of the
    service.  The callables the client is given, [json] and [on_poll], act on the
    same state.  A deadline is a whole number of seconds and clocks are read in microseconds. *)
From S2P Require Import Prelude PyStr PyVal PyTime PyUrl RefreshOutcome.

Open Scope Z_scope.

Definition POLL_SECONDS : instant := seconds 10.
Definition MAX_RESUBMITS : nat := 2.

(** An exception: one with a class and a text, a [ServiceJobError] with its
    attributes, or the [HTTPStatusError] of a response. *)
Inductive failure :=
  | Plain (e : exn)
  | JobError (msg : string) (status_code result : pyval)
  | StatusError (status : Z).

Definition failure_class (f : failure) : exn_class :=
  match f with Plain e => exn_cls e | JobError _ _ _ => ServiceJobError | StatusError _ => HTTPStatusError end.

(** Its attributes [status_code] and [result], as [getattr] reads them. *)
Definition failure_object (f : failure) : exc_object :=
  match f with JobError _ code result => Exc code result | _ => Exc PNone PNone end.

Inductive out (A : Type) :=
  | Done (a : A)
  | Fail (f : failure).
Arguments Done {A} a.
Arguments Fail {A} f.

Definition lift {A} (r : res A) : out A := match r with Ok a => Done a | Raise e => Fail (Plain e) end.

(** A response, with what its [json()] gives. *)
Record Http := mkHttp { h_status : Z; h_json : res pyval }.

(** What a request gives: a response, a [TransportError], or another exception. *)
Inductive exchange :=
  | Answered (r : Http)
  | Unreachable
  | Broken (e : exn).

(** [response.raise_for_status()]. *)
Definition raise_for_status (r : Http) : out unit :=
  if (200 <=? h_status r) && (h_status r <? 300) then Done tt else Fail (StatusError (h_status r)).

Abbreviation headers := (list (string * string)).

(** The world of the client. *)
Class JobService (W : Type) := {
  clock : W → instant * W;
  post : string → headers → pyval → W → exchange * W;
  get_url : string → headers → W → exchange * W;
  sleep : instant → W → W }.

Section Client.
Context {Hrepr : PyRepr}.
Context (sha256_hex : string → string).

(** [str(item or empty)] of each part. *)
Definition _key (parts : list pyval) : string :=
  "airflow:" +:+ sha256_hex (utf8 (join (one NUL) ((λ item, str_or_empty item) <$> parts))).

(** The objects of an Airflow context by their attributes, [PNone] for one that is
    absent: [dag_id], [run_id] of the DAG run; [task_id], [map_index] of the task. *)
Record AirflowContext := mkContext {
  x_dag_run : option (pyval * pyval);
  x_task_instance : option (pyval * pyval);
  x_vars : pydict }.

Definition idempotency_key (context : AirflowContext) (parts : list pyval) : string :=
  let dag := default (PNone, PNone) (x_dag_run context) in
  let task := default (PNone, PNone) (x_task_instance context) in
  _key ([py_or dag.1 (get "dag_id" (x_vars context)); py_or dag.2 (get "run_id" (x_vars context)); task.1; task.2]
        ++ parts).

(** [environ]: the variables of the process; [token]: 32 fresh bytes in hex. *)
Definition ambient_idempotency_key (environ : string → option string) (token : string) (parts : list pyval) : string :=
  let run_id := default "" (environ "AIRFLOW_CTX_DAG_RUN_ID") in
  if negb (nonempty run_id) then "adhoc:" +:+ token
  else
    _key ([opt_str (environ "AIRFLOW_CTX_DAG_ID"); PStr run_id; opt_str (environ "AIRFLOW_CTX_TASK_ID");
           opt_str (environ "AIRFLOW_CTX_TRY_NUMBER")] ++ parts).

Definition _error_message (job : pydict) : string :=
  let detail :=
    match get "result" job with
    | PDict result => py_or (py_or (get "detail" result) (get "error" result)) (get "status" result)
    | _ => PNone
    end in
  "job " +:+ py_str (get "job_id" job) +:+ " failed with HTTP " +:+ py_str (get "status_code" job) +:+ ": "
  +:+ py_str (py_or detail (PStr "no detail")).

(** [_Tracker.accept]: the job, or the result of a service that did not queue it. *)
Definition accept (r : Http) : out (pyval * pyval) :=
  if negb (h_status r =? 202) then
    match raise_for_status r with
    | Fail f => Fail f
    | Done _ => match h_json r with Ok v => Done (PNone, v) | Raise e => Fail (Plain e) end
    end
  else match h_json r with Ok job => Done (job, PNone) | Raise e => Fail (Plain e) end.

Context {W : Type} {Hjobs : JobService W}.
(** [json() if callable(json) else json]. *)
Context (json : W → out pyval * W).

Record _Tracker := mkTracker { url : string; deadline_seconds : Z; deadline : instant; resubmits : nat }.

(** [_Tracker.settle]: the result of a job that succeeded. *)
Definition settle (t : _Tracker) (job : pyval) (w : W) : out (option pyval) * W :=
  match job with
  | PDict d =>
      let status := get "status" d in
      if eq_str status "succeeded" then (Done (Some (get "result" d)), w)
      else if eq_str status "failed" then
        (Fail (JobError (_error_message d) (get "status_code" d) (get "result" d)), w)
      else
        let '(now, w) := clock w in
        if deadline t <=? now then
          (Fail (JobError ("job " +:+ py_str (get "job_id" d) +:+ " still " +:+ py_str status +:+ " after "
             +:+ str_of_Z (deadline_seconds t) +:+ "s") PNone PNone), w)
        else (Done None, w)
  | _ => (Fail (Plain (Exn AttributeError "")), w)
  end.

(** [_Tracker.status_url]. *)
Definition status_url (t : _Tracker) (job : pyval) : out string :=
  match job with
  | PDict d =>
      match dget "status_url" d with
      | Some v => lift (urljoin (url t) (py_str v))
      | None => Fail (Plain (Exn KeyError "status_url"))
      end
  | _ => Fail (Plain (Exn TypeError ""))
  end.

Inductive step_name := Wait | Resubmit | Update (r : Http).

(** [_Tracker.next_step] of the response, [None] when there is none. *)
Definition next_step (t : _Tracker) (response : option Http) : out (step_name * _Tracker) :=
  match response with
  | None => Done (Wait, t)
  | Some r =>
      if 500 <=? h_status r then Done (Wait, t)
      else if (h_status r =? 404) && (Nat.ltb (resubmits t) MAX_RESUBMITS)
      then Done (Resubmit, mkTracker (url t) (deadline_seconds t) (deadline t) (S (resubmits t)))
      else match raise_for_status r with Fail f => Fail f | Done _ => Done (Update r, t) end
  end.

(** [{**headers, Prefer, Idempotency-Key}]. *)
Definition submit_headers (hs : headers) (key : string) : headers :=
  aput "Idempotency-Key" key (aput "Prefer" "respond-async" hs).

Definition submit (t : _Tracker) (hs : headers) (key : string) (w : W) : out (pyval * pyval) * W :=
  let '(body, w) := json w in
  match body with
  | Fail f => (Fail f, w)
  | Done body =>
      let '(e, w) := post (url t) (submit_headers hs key) body w in
      (match e with
       | Answered r => accept r
       | Unreachable => Fail (Plain (Exn TransportError ""))
       | Broken e => Fail (Plain e)
       end, w)
  end.

(** The state of the loop: the world, the tracker, the job and the direct result. *)
Record polling := mkPolling { p_world : W; p_tracker : _Tracker; p_job : pyval; p_direct : pyval }.

(** [client.get(...)] with the [TransportError] caught. *)
Definition poll_get (hs : headers) (u : string) (w : W) : out (option Http) * W :=
  let '(e, w) := get_url u hs w in
  (match e with Answered r => Done (Some r) | Unreachable => Done None | Broken e => Fail (Plain e) end, w).

(** The end of an iteration, from the response on. *)
Definition advance (hs : headers) (key : string) (t : _Tracker) (job direct : pyval) (response : option Http) (w : W) :
    polling + (out pyval * W) :=
  match next_step t response with
  | Fail f => inr (Fail f, w)
  | Done (Wait, t) => inl (mkPolling w t job direct)
  | Done (Resubmit, t) =>
      match submit t hs key w with
      | (Fail f, w) => inr (Fail f, w)
      | (Done (job, direct), w) => inl (mkPolling w t job direct)
      end
  | Done (Update r, t) =>
      match h_json r with
      | Raise e => inr (Fail (Plain e), w)
      | Ok job => inl (mkPolling w t job direct)
      end
  end.

(** [on_poll()], when there is one. *)
Definition poll_hook (on_poll : option (W → out unit * W)) (w : W) : out unit * W :=
  match on_poll with Some p => p w | None => (Done tt, w) end.

Definition poll_step (hs : headers) (key : string) (poll_seconds : instant)
    (on_poll : option (W → out unit * W)) (s : polling) :
    polling + (out pyval * W) :=
  let '(mkPolling w t job direct) := s in
  if is_none job then inr (Done direct, w)
  else
    match settle t job w with
    | (Fail f, w) => inr (Fail f, w)
    | (Done (Some result), w) => inr (Done result, w)
    | (Done None, w) =>
        let w := sleep poll_seconds w in
        match poll_hook on_poll w with
        | (Fail f, w) => inr (Fail f, w)
        | (Done _, w) =>
            match status_url t job with
            | Fail f => inr (Fail f, w)
            | Done u =>
                match poll_get hs u w with
                | (Fail f, w) => inr (Fail f, w)
                | (Done response, w) => advance hs key t job direct response w
                end
            end
        end
    end.

(** [run_service_job]; [inl] when the fuel ends. *)
Definition run_service_job (fuel : positive) (u : string) (hs : headers) (key : string) (deadline_seconds : Z)
    (poll_seconds : instant) (on_poll : option (W → out unit * W)) (w : W) : polling + (out pyval * W) :=
  let '(now, w) := clock w in
  let t := mkTracker u deadline_seconds (now + seconds deadline_seconds) 0 in
  match submit t hs key w with
  | (Fail f, w) => inr (Fail f, w)
  | (Done (job, direct), w) => while (poll_step hs key poll_seconds on_poll) fuel (mkPolling w t job direct)
  end.

(** [run_service_job_async]: the same steps, without [on_poll]. *)
Definition run_service_job_async (fuel : positive) (u : string) (hs : headers) (key : string) (deadline_seconds : Z)
    (poll_seconds : instant) (w : W) : polling + (out pyval * W) :=
  run_service_job fuel u hs key deadline_seconds poll_seconds None w.

(** ** What every step keeps

    A preorder that each operation of the world, the body and the hook respect is
    respected by the whole call. *)
Section Preservation.
Context (R : W → W → Prop) {HR : PreOrder R}.
Context (Rclock : ∀ w, R w (clock w).2) (Rsleep : ∀ d w, R w (sleep d w)).
Context (Rpost : ∀ u hs b w, R w (post u hs b w).2) (Rget : ∀ u hs w, R w (get_url u hs w).2).
Context (Rjson : ∀ w, R w (json w).2).

Lemma settle_rel t job w r w' : settle t job w = (r, w') → R w w'.
Proof.
  unfold settle. pose proof (Rclock w) as Hc. destruct job; try by intros [= <- <-].
  destruct (eq_str _ "succeeded"); [by intros [= <- <-]|]. destruct (eq_str _ "failed"); [by intros [= <- <-]|].
  destruct (clock w) as [now w1]. destruct (_ <=? now); by intros [= <- <-].
Qed.

Lemma submit_rel t hs key w r w' : submit t hs key w = (r, w') → R w w'.
Proof.
  unfold submit. pose proof (Rjson w) as Hj. destruct (json w) as [body w1]. cbn [snd] in Hj.
  destruct body as [body|f]; [|by intros [= <- <-]].
  pose proof (Rpost (url t) (submit_headers hs key) body w1) as Hp. destruct (post _ _ _ w1) as [e w2].
  intros [= <- <-]. by etrans.
Qed.

Lemma advance_rel hs key t job direct response w x :
  advance hs key t job direct response w = x → R w (match x with inl s => p_world s | inr rw => rw.2 end).
Proof.
  intros <-. unfold advance. destruct (next_step t response) as [[[| |r] t']|f]; [done| |by destruct (h_json r)|done].
  destruct (submit t' hs key w) as [[[job' direct']|f] w1] eqn:E; by apply submit_rel in E.
Qed.

Lemma poll_step_rel hs key d on_poll s :
  (∀ p, on_poll = Some p → ∀ w, R w (p w).2) →
  R (p_world s) (match poll_step hs key d on_poll s with inl s' => p_world s' | inr rw => rw.2 end).
Proof.
  intros Rhook. destruct s as [w t job direct]. unfold poll_step. cbn [p_world]. destruct (is_none job); [done|].
  destruct (settle t job w) as [r1 w1] eqn:Es. apply settle_rel in Es. destruct r1 as [[v|]|f]; [done| |done].
  pose proof (Rsleep d w1) as Hs. set (w2 := sleep d w1) in *. clearbody w2.
  assert (Hp : R w2 (poll_hook on_poll w2).2) by (unfold poll_hook; destruct on_poll as [p|]; [by apply Rhook|done]).
  destruct (poll_hook on_poll w2) as [p w3]. cbn [snd] in Hp.
  assert (H3 : R w w3) by (etrans; [exact Es|]; by etrans). destruct p as [[]|f]; [|done].
  destruct (status_url t job) as [u|f]; [|done]. unfold poll_get. pose proof (Rget u hs w3) as Hg.
  destruct (get_url u hs w3) as [e w4]. cbn [snd] in Hg. assert (H4 : R w w4) by by etrans.
  destruct e as [x| |x]; [| |done]; (etrans; [exact H4|by eapply advance_rel]).
Qed.

Lemma run_service_job_rel fuel u hs key deadline_seconds poll_seconds on_poll w r w' :
  (∀ p, on_poll = Some p → ∀ w, R w (p w).2) →
  run_service_job fuel u hs key deadline_seconds poll_seconds on_poll w = inr (r, w') → R w w'.
Proof.
  intros Rhook. unfold run_service_job. pose proof (Rclock w) as Hc. destruct (clock w) as [now w1]. cbn [snd] in Hc.
  set (t := mkTracker _ _ _ _). destruct (submit t hs key w1) as [[[job direct]|f] w2] eqn:Es; apply submit_rel in Es.
  - intros Hrun. apply (while_inv (poll_step hs key poll_seconds on_poll) (λ s, R w (p_world s)) (λ x, R w x.2) fuel _ (r, w'))
      in Hrun; [done|..|cbn; by etrans].
    + intros s s' Hs Hon. pose proof (poll_step_rel hs key poll_seconds on_poll s Rhook) as Hr. rewrite Hon in Hr. by etrans.
    + intros s x Hs Hoff. pose proof (poll_step_rel hs key poll_seconds on_poll s Rhook) as Hr. rewrite Hoff in Hr. by etrans.
  - intros [= <- <-]. by etrans.
Qed.
End Preservation.

(** ** Termination *)

(** What the clock of a world must do: no operation sets it back, and a sleep
    lasts at least as long as it says. *)
Class Timed := {
  time : W → instant;
  clock_reads : ∀ w, (clock w).1 = time w ∧ time w <= time (clock w).2;
  post_time : ∀ u hs b w, time w <= time (post u hs b w).2;
  get_time : ∀ u hs w, time w <= time (get_url u hs w).2;
  sleep_time : ∀ d w, time w + d <= time (sleep d w) }.

(** A count of the requests: each adds one to its own. *)
Class Counted := {
  posts : W → nat;
  gets : W → nat;
  clock_counts : ∀ w, posts (clock w).2 = posts w ∧ gets (clock w).2 = gets w;
  post_counts : ∀ u hs b w, posts (post u hs b w).2 = S (posts w) ∧ gets (post u hs b w).2 = gets w;
  get_counts : ∀ u hs w, posts (get_url u hs w).2 = posts w ∧ gets (get_url u hs w).2 = S (gets w);
  sleep_counts : ∀ d w, posts (sleep d w) = posts w ∧ gets (sleep d w) = gets w }.

Context {Htimed : Timed} {Hcounted : Counted}.

(** A callable that makes no request and does not set the clock back. *)
Definition quiet {A} (f : W → A * W) : Prop :=
  ∀ w, time w <= time (f w).2 ∧ posts (f w).2 = posts w ∧ gets (f w).2 = gets w.
Definition quiet_hook (on_poll : option (W → out unit * W)) : Prop := ∀ p, on_poll = Some p → quiet p.

Lemma hook_world on_poll w r w' :
  quiet_hook on_poll → poll_hook on_poll w = (r, w') → time w <= time w' ∧ posts w' = posts w ∧ gets w' = gets w.
Proof.
  unfold poll_hook. destruct on_poll as [p|]; [|by intros _ [= <- <-]]. intros Hq E.
  specialize (Hq p eq_refl w). by rewrite E in Hq.
Qed.

Context (Hjson : quiet json).

Lemma settle_world t job w r w' :
  settle t job w = (r, w') → time w <= time w' ∧ posts w' = posts w ∧ gets w' = gets w
  ∧ (r = Done None → time w < deadline t).
Proof.
  unfold settle. destruct (clock_reads w) as [Hc Hle]. destruct (clock_counts w) as [Hp Hg].
  destruct job; try (intros [= <- <-]; split_and!; [lia|done|done|done]).
  destruct (eq_str _ "succeeded"); [intros [= <- <-]; split_and!; [lia|done|done|done]|].
  destruct (eq_str _ "failed"); [intros [= <- <-]; split_and!; [lia|done|done|done]|].
  destruct (clock w) as [now w1]. cbn [fst snd] in *. subst now.
  destruct (deadline t <=? time w) eqn:E; intros [= <- <-]; split_and!; try done. intros _. by apply Z.leb_gt in E.
Qed.

Lemma submit_world t hs key w r w' :
  submit t hs key w = (r, w') → time w <= time w' ∧ (posts w' <= S (posts w))%nat ∧ gets w' = gets w.
Proof.
  unfold submit. destruct (Hjson w) as (Hb & Hbp & Hbg).
  destruct (json w) as [body w1]. cbn [snd] in *.
  destruct body as [body|f]; [|intros [= <- <-]; split_and!; [done|lia|done]].
  pose proof (post_time (url t) (submit_headers hs key) body w1) as Hp.
  destruct (post_counts (url t) (submit_headers hs key) body w1) as [Hpp Hpg].
  destruct (post _ _ _ w1) as [e w2]. cbn [snd] in *. intros [= <- <-]. split_and!; [lia|lia|congruence].
Qed.

Lemma advance_on hs key t job direct response w s' :
  advance hs key t job direct response w = inl s' →
  deadline (p_tracker s') = deadline t ∧ time w <= time (p_world s')
  ∧ (posts (p_world s') + resubmits t <= posts w + resubmits (p_tracker s'))%nat ∧ gets (p_world s') = gets w
  ∧ (resubmits t <= MAX_RESUBMITS → resubmits (p_tracker s') <= MAX_RESUBMITS)%nat.
Proof.
  unfold advance. destruct response as [r|]; cbn [next_step]; [|intros [= <-]; cbn; split_and!; [done|lia..]].
  destruct (500 <=? _); [intros [= <-]; cbn; split_and!; [done|lia..]|].
  destruct (_ && _) eqn:E.
  - apply andb_true_iff in E as [_ E%Nat.ltb_lt].
    destruct (submit _ hs key w) as [r5 w5] eqn:E5. apply submit_world in E5 as (H1 & H2 & H3).
    destruct r5 as [[job' direct']|f]; [|done]. intros [= <-]. cbn. unfold MAX_RESUBMITS in *. split_and!; [done|lia..].
  - destruct (raise_for_status r); [|done]. destruct (h_json r); [|done]. intros [= <-]. cbn. split_and!; [done|lia..].
Qed.

(** An iteration that goes on: the deadline had not passed, and the clock has
    advanced by a sleep. *)
Lemma poll_step_on hs key d polls s s' :
  quiet_hook polls → poll_step hs key d polls s = inl s' →
  time (p_world s) < deadline (p_tracker s) ∧ deadline (p_tracker s') = deadline (p_tracker s)
  ∧ time (p_world s) + d <= time (p_world s')
  ∧ (posts (p_world s') + resubmits (p_tracker s) <= posts (p_world s) + resubmits (p_tracker s'))%nat
  ∧ gets (p_world s') = S (gets (p_world s))
  ∧ (resubmits (p_tracker s) <= MAX_RESUBMITS → resubmits (p_tracker s') <= MAX_RESUBMITS)%nat.
Proof.
  destruct s as [w t job direct]. intros Hhook. unfold poll_step. cbn [p_world p_tracker].
  destruct (is_none job); [done|]. destruct (settle t job w) as [r w1] eqn:Es.
  apply settle_world in Es as (H1 & H2 & H3 & H4). destruct r as [[v|]|f]; [done| |done]. specialize (H4 eq_refl).
  pose proof (sleep_time d w1) as H5. destruct (sleep_counts d w1) as [H6 H7]. set (w2 := sleep d w1) in *. clearbody w2.
  destruct (poll_hook polls w2) as [p w3] eqn:Ep. apply (hook_world _ _ _ _ Hhook) in Ep as (H8 & H9 & H10). destruct p as [[]|f]; [|done].
  destruct (status_url t job) as [u|f]; [|done]. unfold poll_get.
  pose proof (get_time u hs w3) as H11. destruct (get_counts u hs w3) as [H12 H13].
  destruct (get_url u hs w3) as [e w4]. cbn [snd] in *.
  destruct e as [r| |e]; [| |done]; intros (K1 & K2 & K3 & K4 & K5)%advance_on; split_and!; try done; lia.
Qed.

(** An iteration that ends the loop: at most a request of each kind more. *)
Lemma advance_off hs key t job direct response w r w' :
  advance hs key t job direct response w = inr (r, w') →
  (resubmits t <= MAX_RESUBMITS → posts w' + resubmits t <= posts w + MAX_RESUBMITS)%nat ∧ gets w' = gets w.
Proof.
  unfold advance. destruct response as [x|]; cbn [next_step]; [|done].
  destruct (500 <=? _); [done|]. destruct (_ && _) eqn:E.
  - apply andb_true_iff in E as [_ E%Nat.ltb_lt].
    destruct (submit _ hs key w) as [r5 w5] eqn:E5. apply submit_world in E5 as (H1 & H2 & H3).
    destruct r5 as [[job' direct']|f]; [done|]. intros [= <- <-]. unfold MAX_RESUBMITS in *. split; lia.
  - destruct (raise_for_status x); [destruct (h_json x); [done|]|]; intros [= <- <-]; split; lia.
Qed.

Lemma poll_step_off hs key d polls s r w' :
  quiet_hook polls → poll_step hs key d polls s = inr (r, w') →
  (resubmits (p_tracker s) <= MAX_RESUBMITS →
     posts w' + resubmits (p_tracker s) <= posts (p_world s) + MAX_RESUBMITS)%nat
  ∧ (gets w' = gets (p_world s) ∨ time (p_world s) < deadline (p_tracker s) ∧ gets w' = S (gets (p_world s))).
Proof.
  destruct s as [w t job direct]. intros Hhook. unfold poll_step. cbn [p_world p_tracker].
  destruct (is_none job); [intros [= <- <-]; split; [lia|by left]|]. destruct (settle t job w) as [r1 w1] eqn:Es.
  apply settle_world in Es as (H1 & H2 & H3 & H4).
  destruct r1 as [[v|]|f]; [intros [= <- <-]; split; [lia|by left]| |intros [= <- <-]; split; [lia|by left]].
  specialize (H4 eq_refl). destruct (sleep_counts d w1) as [H6 H7]. set (w2 := sleep d w1) in *. clearbody w2.
  destruct (poll_hook polls w2) as [p w3] eqn:Ep. apply (hook_world _ _ _ _ Hhook) in Ep as (H8 & H9 & H10). destruct p as [[]|f]; [|intros [= <- <-]; split; [lia|left; congruence]].
  destruct (status_url t job) as [u|f]; [|intros [= <- <-]; split; [lia|left; congruence]]. unfold poll_get.
  destruct (get_counts u hs w3) as [H12 H13]. destruct (get_url u hs w3) as [e w4]. cbn [snd] in *.
  destruct e as [x| |e]; [| |intros [= <- <-]; split; [lia|right; split; [done|congruence]]];
    intros [K1 K2]%advance_off; (split; [lia|right; split; [done|congruence]]).
Qed.

(** The polls that fit before a deadline: its length over the pause, rounded up. *)
Definition rounds (deadline_seconds : Z) (poll_seconds : instant) : Z :=
  Z.max 0 ((seconds deadline_seconds + poll_seconds - 1) / poll_seconds).

Definition pauses (left_ : Z) (d : instant) : Z := Z.max 0 ((left_ + d - 1) / d).

Lemma pauses_less l l' d : 0 < d → 0 < l → l' <= l - d → (Z.to_N (pauses l' d) < Z.to_N (pauses l d))%N.
Proof.
  unfold pauses. intros Hd Hl Hle.
  assert (Hlt : (l' + d - 1) / d <= (l + d - 1) / d - 1).
  { replace ((l + d - 1) / d - 1) with ((l + d - 1 + (-1) * d) / d) by (rewrite Z.div_add; lia).
    apply Z.div_le_mono; lia. }
  assert (0 < (l + d - 1) / d) by (apply Z.div_str_pos; lia). lia.
Qed.

Lemma pauses_bound l d n : 0 < d → 0 <= n → l <= n * d → pauses l d <= n.
Proof.
  unfold pauses. intros Hd Hn Hl. enough ((l + d - 1) / d <= n) by lia.
  apply Z.lt_succ_r, Z.div_lt_upper_bound; [done|]. nia.
Qed.

Lemma rounds_spec ds d : 0 < d → 0 <= rounds ds d ∧ seconds ds <= rounds ds d * d.
Proof.
  unfold rounds. intros Hd. split; [lia|]. pose proof (Z.div_mod (seconds ds + d - 1) d).
  pose proof (Z.mod_pos_bound (seconds ds + d - 1) d Hd). nia.
Qed.

(** A call of the client ends: it makes at most one request per pause that
    fits before its deadline, and submits at most three times, whatever the
    service answers. *)
Lemma run_service_job_ends fuel u hs key deadline_seconds poll_seconds polls w :
  quiet_hook polls → 0 < poll_seconds → rounds deadline_seconds poll_seconds < Zpos fuel →
  ∃ r w', run_service_job fuel u hs key deadline_seconds poll_seconds polls w = inr (r, w')
    ∧ (posts w' <= posts w + 1 + MAX_RESUBMITS)%nat
    ∧ Z.of_nat (gets w') <= Z.of_nat (gets w) + rounds deadline_seconds poll_seconds.
Proof.
  intros Hhook Hd Hfuel. unfold run_service_job. destruct (clock_reads w) as [Hc Hle]. destruct (clock_counts w) as [Hcp Hcg].
  destruct (clock w) as [now w1]. cbn [fst snd] in *. subst now.
  set (D := time w + seconds deadline_seconds). set (n := rounds deadline_seconds poll_seconds) in *.
  destruct (submit _ hs key w1) as [r1 w2] eqn:Es. apply submit_world in Es as (H1 & H2 & H3).
  assert (Hn : 0 <= n ∧ D <= time w + n * poll_seconds).
  { unfold D. destruct (rounds_spec deadline_seconds poll_seconds Hd). split; [done|unfold n; lia]. }
  clearbody n D. destruct r1 as [[job direct]|f]; [|exists (Fail f), w2; split_and!; [done|unfold MAX_RESUBMITS; lia|lia]].
  set (s0 := mkPolling w2 (mkTracker u deadline_seconds D 0) job direct).
  pose (I := λ s : polling, deadline (p_tracker s) = D ∧ (resubmits (p_tracker s) <= MAX_RESUBMITS)%nat
    ∧ (posts (p_world s) <= posts w + 1 + resubmits (p_tracker s))%nat
    ∧ (Z.of_nat (gets (p_world s)) - Z.of_nat (gets w)) * poll_seconds <= time (p_world s) - time w
    ∧ Z.of_nat (gets (p_world s)) <= Z.of_nat (gets w) + n).
  assert (Hget : ∀ g t, (g - Z.of_nat (gets w)) * poll_seconds <= t - time w → t < D → g + 1 <= Z.of_nat (gets w) + n) by nia.
  assert (HI : I s0) by (unfold I; cbn; split_and!; [done|lia..]).
  assert (Hstep : ∀ s s', I s → poll_step hs key poll_seconds polls s = inl s' → I s').
  { intros s s' (J1 & J2 & J3 & J4 & J5) (K1 & K2 & K3 & K4 & K5 & K6)%poll_step_on; [|done]. unfold I. rewrite K5, Nat2Z.inj_succ.
    rewrite J1 in K1. specialize (Hget _ _ J4 K1). split_and!; [congruence|by apply K6|lia|lia|lia]. }
  destruct (while_terminates (poll_step hs key poll_seconds polls) I
    (λ s, Z.to_N (pauses (D - time (p_world s)) poll_seconds)) fuel s0) as [[r w'] Hr].
  - intros s s' Hs Hon. split; [by eapply Hstep|]. destruct Hs as (J1 & _).
    apply poll_step_on in Hon as (K1 & _ & K3 & _); [|done]. rewrite J1 in K1. apply pauses_less; lia.
  - done.
  - pose proof (pauses_bound (D - time (p_world s0)) poll_seconds n Hd). unfold s0 in *. cbn in *. lia.
  - exists r, w'. split; [exact Hr|].
    pose proof (while_inv _ I (λ x, (posts x.2 <= posts w + 1 + MAX_RESUBMITS)%nat
      ∧ Z.of_nat (gets x.2) <= Z.of_nat (gets w) + n) fuel s0 (r, w') Hstep) as Hinv.
    apply Hinv; [|done|exact Hr].
    intros s [r' w''] (J1 & J2 & J3 & J4 & J5) (K1 & K2)%poll_step_off; [|done]. cbn [snd]. split; [specialize (K1 J2); lia|].
    destruct K2 as [->|[K2 ->]]; [done|]. rewrite J1 in K2. specialize (Hget _ _ J4 K2). lia.
Qed.
End Client.
