(* ===== verification/AsyncService.v ===== *)
(** The client of asynchronous jobs against the service it talks to: the interface
    of [ServiceJobs] implemented with the middleware and the registry of
    [AsyncMiddleware] and [AsyncJobs].

    The world is the registry, the ids it has issued, the client's clock and a
    script: for each operation of the client what happens before it - requests of
    other clients, ends of jobs - how long it takes, the readings of the service's
    clock, the fresh uuid, and whether the request or its response is lost. *)
From S2P Require Import Prelude PyStr PyVal PyTime PyUrl RefreshOutcome AsyncJobs AsyncMiddleware ServiceJobs.

Open Scope Z_scope.

Record tick := mkTick {
  k_events : list event;
  k_takes : Z;
  k_now : instant;
  k_now' : instant;
  k_uuid : string;
  k_request_lost : bool;
  k_response_lost : bool }.

Definition idle : tick := mkTick [] 0 0 0 "" false false.

Record world := mkWorld {
  w_time : instant;
  w_registry : JobRegistry;
  w_issued : list string;
  w_script : list tick;
  w_posts : nat;
  w_gets : nat }.

(** [uuid.uuid4().hex]. *)
Definition uuid_hex (id : string) : bool := Nat.eqb (slen id) 32 && sall is_lower_hex id.

(** Another client's step: a claim gets an id that was never issued, and only a
    running job ends; a step that cannot happen is passed over. *)
Definition other (ri : JobRegistry * list string) (e : event) : JobRegistry * list string :=
  let '(r, issued) := ri in
  match e with
  | EGet _ _ => (exec e r, issued)
  | EClaim _ _ id _ _ =>
      if uuid_hex id && negb (mem id issued) then (exec e r, id :: issued) else ri
  | EFinish _ id _ => if mem id (_tasks r) then (exec e r, issued) else ri
  end.

(** The next operation of the client: its tick, and the world when it arrives. *)
Definition arrive (w : world) : tick * world :=
  let k := hd idle (w_script w) in
  let '(r, issued) := foldl other (w_registry w, w_issued w) (k_events k) in
  (k, mkWorld (w_time w + Z.max 0 (k_takes k)) r issued (tail (w_script w)) (w_posts w) (w_gets w)).

Definition with_registry (r : JobRegistry) (issued : list string) (w : world) : world :=
  mkWorld (w_time w) r issued (w_script w) (w_posts w) (w_gets w).
Definition counted (p g : nat) (w : world) : world :=
  mkWorld (w_time w) (w_registry w) (w_issued w) (w_script w) (p + w_posts w) (g + w_gets w).

Section Service.
Context {Hrepr : PyRepr}.
Context (headers_get : headers → string → option string).
Context (authorize : headers → res unit).
Context (path_matches : string → bool).
Context (sha256_hex : string → string).
(** The JSON texts: of a request's body, and the value of a job's result. *)
Context (dumps : pyval → string) (payload_json : payload → pyval).
(** The application behind the middleware. *)
Context (application : string → string → Http).

Definition opt_int (o : option Z) : pyval := match o with Some z => PInt z | None => PNone end.

(** [Job.snapshot()] as the JSON the client reads. *)
Definition snapshot_json (s : snapshot_of) : pydict :=
  mkdict [("job_id", PStr (s_job_id s)); ("status", PStr (s_status s)); ("status_url", PStr (s_status_url s));
          ("created_at", opt_str (s_created_at s)); ("finished_at", opt_str (s_finished_at s));
          ("status_code", opt_int (s_status_code s)); ("result", payload_json (s_result s))].

Definition response_http (r : AsyncMiddleware.response) : Http :=
  mkHttp (AsyncMiddleware.r_status r)
    (Ok (PDict match r_body r with Detail text => mkdict [("detail", PStr text)] | Body s => snapshot_json s end)).

(** The service's answer to a request with the fresh [uuid], and the registry after it. *)
Definition serve (k : tick) (verb u : string) (hs : headers) (receive : list message) (w : world) : exchange * world :=
  if k_request_lost k then (Unreachable, w)
  else
    match urlsplit u with
    | Raise e => (Broken e, w)
    | Ok parts =>
        let sc := Scope "http" verb (path parts) (query parts) hs in
        let reply r := if k_response_lost k then Unreachable else Answered r in
        match call headers_get authorize path_matches sha256_hex (k_now k) (k_now' k) (k_uuid k) sc receive
                (w_registry w) with
        | Forward => (reply (application verb (path parts)), w)
        | Answer None => (Unreachable, w)
        | Answer (Some (r, v)) =>
            (reply (match v with Ok x => response_http x | Raise _ => mkHttp 500 (raise JSONDecodeError "") end),
             with_registry r (if bool_decide (verb = "POST") then k_uuid k :: w_issued w else w_issued w) w)
        end
    end.

(** A submission is lost when the script has no fresh uuid for it. *)
Definition fresh (k : tick) (w : world) : bool := uuid_hex (k_uuid k) && negb (mem (k_uuid k) (w_issued w)).

#[local] Instance async_service : JobService world := {|
  clock w := (w_time w, w);
  post u hs body w :=
    let '(k, w) := arrive w in
    let w := counted 1 0 w in
    if fresh k w then serve k "POST" u hs [Message "http.request" (dumps body) false] w else (Unreachable, w);
  get_url u hs w := let '(k, w) := arrive w in serve k "GET" u hs [] (counted 0 1 w);
  sleep d w := let w := (arrive w).2 in
    mkWorld (w_time w + Z.max 0 d) (w_registry w) (w_issued w) (w_script w) (w_posts w) (w_gets w) |}.

(** The body the client sends, and what it does at each poll, leave the service as it is. *)
Context (json : world → out pyval * world) (hook : option (world → out unit * world)).
Definition local_step {A} (f : world → A * world) : Prop :=
  ∀ w, w_registry (f w).2 = w_registry w ∧ w_issued (f w).2 = w_issued w.
Context (Hjson : local_step json) (Hhook : ∀ p, hook = Some p → local_step p).

(** ** The registry under the client and the others *)

(** The ids in the registry are uuids that were issued. *)
Definition good (ri : JobRegistry * list string) : Prop :=
  wf ri.1 ∧ ∀ id j, (id, j) ∈ _jobs ri.1 → id ∈ ri.2 ∧ uuid_hex id = true.

(** The jobs an id names have a key and a target. *)
Definition owned (id key fp : string) (r : JobRegistry) : Prop :=
  ∀ j, (id, j) ∈ _jobs r → job_key j = key ∧ fingerprint j = fp.

Definition keeps (ri ri' : JobRegistry * list string) : Prop :=
  good ri' ∧ (∀ id, id ∈ ri.2 → id ∈ ri'.2)
  ∧ ∀ id key fp, id ∈ ri.2 → owned id key fp ri.1 → owned id key fp ri'.1.

Lemma keeps_refl ri : good ri → keeps ri ri.
Proof. intros Hg. unfold keeps. split_and!; auto. Qed.

Lemma keeps_trans a b c : keeps a b → keeps b c → keeps a c.
Proof. intros (Hb & H1 & H2) (Hc & H3 & H4). split; [done|]. split; [auto|]. intros id key fp Hin Ho. apply H4; auto. Qed.

Lemma uuid_nonempty id : uuid_hex id = true → id ≠ "".
Proof. by intros H ->. Qed.

Lemma fresh_enabled r issued id now now' key fp :
  good (r, issued) → uuid_hex id = true → id ∉ issued → enabled (EClaim now now' id key fp) r.
Proof.
  intros [W Hids] Hu Hnew. cbn [enabled fst snd] in *. split_and!; [by apply uuid_nonempty|..].
  - intros Hin. apply list_elem_of_fmap in Hin as ([i j] & -> & Hj). by apply Hids in Hj as [? _].
  - intros Hin. apply (wf_task r W) in Hin as (j & Hj & _). by apply Hids in Hj as [? _].
Qed.

Lemma exec_keeps e r issued :
  good (r, issued) → enabled e r →
  match e with EClaim _ _ id _ _ => uuid_hex id = true ∧ id ∉ issued | _ => True end →
  keeps (r, issued) (exec e r, match e with EClaim _ _ id _ _ => id :: issued | _ => issued end).
Proof.
  intros [W Hids] He Hid. pose proof (exec_entries e r W He) as Hent. cbn [fst snd] in *. split; [|split].
  - split; [by apply wf_exec|]. cbn [fst snd]. intros id j Hj. destruct (Hent _ _ Hj) as [(j0 & Hj0 & _)|(n & n' & -> & _)].
    + destruct (Hids _ _ Hj0). split; [|done]. destruct e; [done|by apply elem_of_cons; right|done].
    + split; [|by destruct Hid]. by apply elem_of_cons; left.
  - intros id Hin. cbn [snd]. destruct e; [done|by apply elem_of_cons; right|done].
  - intros id key fp Hin Ho j Hj. cbn [fst snd] in *. destruct (Hent _ _ Hj) as [(j0 & Hj0 & <- & <-)|(n & n' & -> & _)].
    + by apply Ho.
    + by destruct Hid.
Qed.

Lemma others_keep es r issued : good (r, issued) → keeps (r, issued) (foldl other (r, issued) es).
Proof.
  revert r issued. induction es as [|e es IH]; intros r issued Hg; [by apply keeps_refl|]. cbn [foldl].
  assert (Hk : keeps (r, issued) (other (r, issued) e)).
  { destruct e as [now id|now now' id key fp|now id o]; cbn [other].
    - by apply (exec_keeps (EGet now id)).
    - destruct (uuid_hex id && negb (mem id issued)) eqn:E; [|by apply keeps_refl].
      apply andb_true_iff in E as [Hu Hn%negb_true_iff%mem_false].
      apply (exec_keeps (EClaim now now' id key fp)); [done| |done]. by eapply fresh_enabled.
    - destruct (mem id (_tasks r)) eqn:E; [|by apply keeps_refl]. apply mem_true in E.
      by apply (exec_keeps (EFinish now id o)). }
  destruct (other (r, issued) e) as [r1 issued1]. eapply keeps_trans; [done|]. apply IH. by destruct Hk.
Qed.

Definition state_of (w : world) : JobRegistry * list string := (w_registry w, w_issued w).

Lemma arrive_keeps w : good (state_of w) → keeps (state_of w) (state_of (arrive w).2).
Proof.
  intros Hg. unfold arrive. pose proof (others_keep (k_events (hd idle (w_script w))) _ _ Hg) as Hk.
  by destruct (foldl other _ _).
Qed.

(** ** What the client is answered *)

Context (Hdeny : ∀ hs st text, authorize hs = Raise (Exn (HTTPException st) text) → 400 <= st).

Lemma denied_cases hs x : _denied authorize hs = Ok (Some x) → 400 <= AsyncMiddleware.r_status x ∧ ∃ t, r_body x = Detail t.
Proof.
  unfold _denied. destruct (authorize hs) as [[]|[c t]] eqn:E; [done|]. destruct c; try discriminate.
  intros [= <-]. simpl. split; [by eapply Hdeny|eauto].
Qed.

(** The answer to a poll: an error, or the snapshot of the job with its id. *)
Lemma status_answer now id hs r r' v :
  wf r → _status authorize now id hs r = (r', v) →
  (r' = r ∨ r' = exec (EGet now id) r)
  ∧ match v with
    | Ok x => 400 <= AsyncMiddleware.r_status x
        ∨ AsyncMiddleware.r_status x = 200 ∧ ∃ j, r_body x = Body (snapshot j) ∧ (id, j) ∈ _jobs r'
    | Raise _ => True
    end.
Proof.
  intros W. unfold _status. destruct (_denied authorize hs) as [[x|]|e] eqn:Ed.
  - intros [= <- <-]. apply denied_cases in Ed as [? _]. auto.
  - unfold exec, get. cbn [fst]. intros [= <- <-]. split; [by right|].
    destruct (afind id (_jobs (_evict now r))) as [j|] eqn:E; simpl; [|by left].
    right. split; [done|]. exists j. split; [done|]. by apply afind_elem.
  - intros [= <- <-]. auto.
Qed.

(** The answer to a submission: an error, or the snapshot of a job of the key for
    the target. *)
Lemma submit_answer now now' uuid hs sc receive r issued r' v :
  good (r, issued) → uuid_hex uuid = true → uuid ∉ issued →
  let key := default "" (headers_get hs "idempotency-key") in
  _submit headers_get authorize sha256_hex now now' uuid hs sc receive r = Some (r', v) →
  (r' = r ∨ r' = exec (EClaim now now' uuid key (target_fingerprint sha256_hex sc)) r)
  ∧ match v with
    | Ok x => 400 <= AsyncMiddleware.r_status x
        ∨ AsyncMiddleware.r_status x = 202 ∧ ∃ j, r_body x = Body (snapshot j) ∧ (job_id j, j) ∈ _jobs r'
            ∧ job_key j = key ∧ fingerprint j = target_fingerprint sha256_hex sc
    | Raise _ => True
    end.
Proof.
  intros Hg Hu Hnew key. unfold _submit. fold key. set (fp := target_fingerprint sha256_hex sc).
  destruct (fresh_enabled _ _ _ now now' key fp Hg Hu Hnew) as (Hid & Hjobs & Htasks). destruct Hg as [W _]. cbn [fst] in W.
  destruct (_denied authorize hs) as [[x|]|e] eqn:Ed.
  - intros [= <- <-]. apply denied_cases in Ed as [? _]. auto.
  - destruct (IDEMPOTENCY_KEY key); cbn [negb]; [|intros [= <- <-]; split; [by left|left; simpl; lia]].
    destruct (_read_body receive) as [[b []]|]; [|intros [= <- <-]; split; [by left|left; simpl; lia]|done].
    pose proof (claim_start_cases now now' uuid key fp r W Hid Hjobs Htasks) as Hc.
    unfold exec. destruct (claim_start now now' uuid key fp r) as [r1 [[k []]|x]]; cbn [fst].
    + intros [= <- <-]. destruct Hc as (-> & _ & _ & ->). split; [by right|]. right. split; [done|].
      exists (new_job uuid key fp now'). split_and!; [done| |done|done]. simpl. rewrite aput_new by by apply evict_fresh.
      apply elem_of_app. right. by apply list_elem_of_singleton.
    + intros [= <- <-]. destruct Hc as (-> & Hcur & Hfp & _). split; [by right|]. right. split; [done|].
      exists k. destruct (evict_facts now r W) as [We _]. destruct (current_some _ _ _ We Hcur). done.
    + destruct Hc as (-> & [[-> _]|(-> & _)]); intros [= <- <-]; (split; [by right|left; simpl; lia]).
  - intros [= <- <-]. auto.
Qed.

(** ** The client's result *)

Context (sch net base key : string) (hs : headers).
Context (Hsch : sch ∈ ["http"; "https"]) (Hne : net ≠ "") (Hnet : sall host_char net = true).
Context (Hbase : sall url_char base = true) (Hroot : rooted base = true) (Hmatch : path_matches base = true).
(** The header lookup of the framework finds what the client adds. *)
Context (Hprefer : headers_get (submit_headers hs key) "prefer" = Some "respond-async").
Context (Hkey : headers_get (submit_headers hs key) "idempotency-key" = Some key).

Definition service_url : string := http_url sch net base.
Definition target : string := target_fingerprint sha256_hex (Scope "http" "POST" base "" (submit_headers hs key)).

Lemma hex_plain id : uuid_hex id = true →
  sall url_char id = true ∧ char_in ":" id = false ∧ char_in "/" id = false ∧ id ≠ "." ∧ id ≠ "..".
Proof.
  intros [Hl%Nat.eqb_eq Hs]%andb_true_iff. split_and!; [|by apply (char_not_in is_lower_hex)..|by intros ->|by intros ->].
  eapply sall_impl; [|exact Hs]. intros c Hc.
  assert (H : ∀ c, implb (is_lower_hex c) (url_char c) = true) by (apply ascii_ind_all; vm_compute; reflexivity).
  specialize (H c). by rewrite Hc in H.
Qed.

Definition job_path (id : string) : string := "/jobs/" +:+ id.

Lemma job_url id : uuid_hex id = true →
  urljoin service_url (job_path id) = Ok (http_url sch net (job_path id))
  ∧ urlsplit (http_url sch net (job_path id)) = Ok (mkSplit sch net (job_path id) "" "")
  ∧ JOB_PATH (job_path id) = Some id.
Proof.
  intros Hid. destruct (hex_plain _ Hid) as (Hu & Hcol & Hsl & Hd1 & Hd2).
  assert (Hp : sall url_char (job_path id) = true) by (unfold job_path; by rewrite sall_app, Hu).
  assert (Hsp : split_on "/" (job_path id) = [""; "jobs"; id]).
  { change (job_path id) with ("" +:+ one "/" +:+ "jobs" +:+ one "/" +:+ id).
    rewrite split_on_app by done. rewrite split_on_app by done. by rewrite split_on_plain. }
  split_and!.
  - apply urljoin_plain_path; try done.
    + rewrite Hsp, !elem_of_cons, elem_of_nil. naive_solver.
    + rewrite Hsp, !elem_of_cons, elem_of_nil. naive_solver.
  - by apply urlsplit_plain_url.
  - unfold JOB_PATH, job_path. rewrite startswith_app. change (sdrop 6 ("/jobs/" +:+ id)) with id.
    unfold uuid_hex in Hid. by rewrite Hid.
Qed.

#[local] Existing Instance async_service.

Definition mine (j : Job) (r : JobRegistry) : Prop :=
  (job_id j, j) ∈ _jobs r ∧ job_key j = key ∧ fingerprint j = target.

Lemma response_json x j :
  r_body x = Body (snapshot j) → h_json (response_http x) = Ok (PDict (snapshot_json (snapshot j))).
Proof. unfold response_http. simpl. by intros ->. Qed.

Lemma post_answer b w e w' :
  good (state_of w) → post service_url (submit_headers hs key) b w = (e, w') →
  keeps (state_of w) (state_of w')
  ∧ match e with
    | Answered r => 400 <= h_status r
        ∨ h_status r = 202 ∧ ∃ j, h_json r = Ok (PDict (snapshot_json (snapshot j))) ∧ mine j (w_registry w')
    | _ => True
    end.
Proof.
  intros Hg. cbn [post async_service]. pose proof (arrive_keeps w Hg) as Hk. destruct (arrive w) as [k w1]. cbn [snd] in Hk.
  set (w2 := counted 1 0 w1). assert (Hk2 : keeps (state_of w) (state_of w2)) by done. clearbody w2.
  destruct (fresh k w2) eqn:Ef; [|by intros [= <- <-]]. unfold fresh in Ef.
  apply andb_true_iff in Ef as [Hu Hn%negb_true_iff%mem_false]. unfold serve.
  destruct (k_request_lost k); [by intros [= <- <-]|]. unfold service_url. rewrite urlsplit_plain_url by done.
  cbn [path query]. unfold call. cbn [s_type s_path s_method s_headers].
  change (bool_decide ("http" ≠ "http")) with false. change (bool_decide ("POST" = "POST")) with true.
  change (bool_decide ("POST" = "GET")) with false. cbv iota.
  assert (Hw : wants_async headers_get (submit_headers hs key) = true) by (unfold wants_async; by rewrite Hprefer).
  replace (match JOB_PATH base with Some _ => _ | None => _ end) with
    (Answer (_submit headers_get authorize sha256_hex (k_now k) (k_now' k) (k_uuid k) (submit_headers hs key)
       (Scope "http" "POST" base "" (submit_headers hs key)) [Message "http.request" (dumps b) false] (w_registry w2)))
    by (rewrite Hw, Hmatch; by destruct (JOB_PATH base)).
  assert (Hg2 : good (w_registry w2, w_issued w2)) by apply Hk2.
  destruct (_submit _ _ _ _ _ _ _ _ _ _) as [[r v]|] eqn:Es; [|by intros [= <- <-]].
  apply (submit_answer _ _ _ _ _ _ _ (w_issued w2)) in Es as [Hr Hv]; try done. rewrite Hkey in *. cbn [default] in *.
  assert (Hk3 : keeps (state_of w2) (r, k_uuid k :: w_issued w2)).
  { destruct Hr as [->| ->].
    - destruct Hg2 as [W Hids]. split; [|split; [|done]].
      + split; [done|]. intros id j Hj. destruct (Hids _ _ Hj). split; [by apply elem_of_cons; right|done].
      + intros id Hid. by apply elem_of_cons; right.
    - eapply (exec_keeps (EClaim (k_now k) (k_now' k) (k_uuid k) key _)); [done| |done].
      by eapply fresh_enabled. }
  intros [= <- <-]. split; [by eapply keeps_trans|]. destruct (k_response_lost k); [done|].
  destruct v as [x|]; [|left; simpl; lia]. destruct Hv as [Hv|(Hst & j & Hb & Hj & Hjk & Hjf)]; [by left|right].
  split; [done|]. exists j. split; [by apply response_json|]. done.
Qed.

Lemma poll_answer id w e w' :
  good (state_of w) → uuid_hex id = true → get_url (http_url sch net (job_path id)) hs w = (e, w') →
  keeps (state_of w) (state_of w')
  ∧ match e with
    | Answered r => 400 <= h_status r
        ∨ h_status r = 200 ∧ ∃ j, h_json r = Ok (PDict (snapshot_json (snapshot j))) ∧ (id, j) ∈ _jobs (w_registry w')
    | _ => True
    end.
Proof.
  intros Hg Hid. destruct (job_url id Hid) as (_ & Hsplit & Hpath).
  cbn [get_url async_service]. pose proof (arrive_keeps w Hg) as Hk. destruct (arrive w) as [k w1]. cbn [snd] in Hk.
  set (w2 := counted 0 1 w1). assert (Hk2 : keeps (state_of w) (state_of w2)) by done. clearbody w2. unfold serve.
  destruct (k_request_lost k); [by intros [= <- <-]|]. rewrite Hsplit.
  cbn [path query]. unfold call. cbn [s_type s_path s_method s_headers]. rewrite Hpath.
  change (bool_decide ("http" ≠ "http")) with false. change (bool_decide ("GET" = "GET")) with true. cbv iota.
  change (bool_decide ("GET" = "POST")) with false. cbv iota.
  assert (Hg2 : good (w_registry w2, w_issued w2)) by apply Hk2.
  destruct (_status _ _ _ _ _) as [r v] eqn:Es. apply status_answer in Es as [Hr Hv]; [|apply Hg2].
  assert (Hk3 : keeps (state_of w2) (r, w_issued w2)).
  { destruct Hr as [->| ->]; [by apply keeps_refl|]. by apply (exec_keeps (EGet (k_now k) id)). }
  intros [= <- <-]. split; [by eapply keeps_trans|]. destruct (k_response_lost k); [done|].
  destruct v as [x|]; [|left; simpl; lia]. destruct Hv as [Hv|(Hst & j & Hb & Hj)]; [by left|right].
  split; [done|]. exists j. split; [by apply response_json|done].
Qed.

Lemma advance_fails t v direct response w r w' : advance json hs key t v direct response w = inr (Done r, w') → False.
Proof.
  unfold advance. destruct (next_step t response) as [[[| |x] t']|f]; [done| | |done].
  - by destruct (submit json t' hs key w) as [[[job' direct']|f] w1].
  - by destruct (h_json x).
Qed.

(** A job the client holds: the snapshot of a job of its own, in the registry when
    it says that it succeeded. *)
Definition holds (v : pyval) (w : world) : Prop :=
  good (state_of w)
  ∧ ∃ j, v = PDict (snapshot_json (snapshot j)) ∧ job_id j ∈ w_issued w ∧ uuid_hex (job_id j) = true
    ∧ owned (job_id j) key target (w_registry w) ∧ (status j = Succeeded → mine j (w_registry w)).

Lemma mine_holds j w : good (state_of w) → mine j (w_registry w) → holds (PDict (snapshot_json (snapshot j))) w.
Proof.
  intros Hg (Hj & Hk & Hf). split; [done|]. exists j. destruct Hg as [W Hids]. cbn [fst snd state_of] in *.
  destruct (Hids _ _ Hj). split_and!; try done. intros j' Hj'. by rewrite (wf_inj _ _ _ _ W Hj' Hj).
Qed.

Lemma holds_keeps v w w' :
  holds v w → keeps (state_of w) (state_of w') →
  (∀ j, v = PDict (snapshot_json (snapshot j)) → status j ≠ Succeeded) → holds v w'.
Proof.
  intros (Hg & j & -> & Hi & Hu & Ho & Hs) (Hg' & H1 & H2) Hns. split; [done|]. exists j.
  split_and!; [done|by apply H1|done|by apply (H2 _ _ _ Hi)|]. intros E. by destruct (Hns j eq_refl).
Qed.

Lemma settle_holds t j w r w' :
  settle t (PDict (snapshot_json (snapshot j))) w = (r, w') →
  w' = w ∧ match r with
           | Done (Some v) => status j = Succeeded ∧ v = payload_json (result j)
           | Done None => status j ≠ Succeeded
           | Fail _ => True
           end.
Proof.
  unfold settle. change (PyVal.get "status" (snapshot_json (snapshot j))) with (PStr (status_text (status j))).
  change (PyVal.get "result" (snapshot_json (snapshot j))) with (payload_json (result j)).
  destruct (status j); cbn [status_text eq_str clock async_service].
  - change (eq_str (PStr "running") "succeeded") with false. change (eq_str (PStr "running") "failed") with false. cbv iota.
    destruct (deadline t <=? w_time w); by intros [= <- <-].
  - change (eq_str (PStr "succeeded") "succeeded") with true. by intros [= <- <-].
  - change (eq_str (PStr "failed") "succeeded") with false. change (eq_str (PStr "failed") "failed") with true. cbv iota.
    by intros [= <- <-].
Qed.

Lemma local_state {A} (f : world → A * world) : local_step f → ∀ w, state_of (f w).2 = state_of w.
Proof. unfold state_of. intros Hf w. by destruct (Hf w) as [-> ->]. Qed.

Lemma submit_holds t w r w' :
  url t = service_url → good (state_of w) → submit json t hs key w = (r, w') →
  keeps (state_of w) (state_of w') ∧ match r with Done (v, _) => holds v w' | Fail _ => True end.
Proof.
  intros Hurl Hg. unfold submit. rewrite Hurl. pose proof (local_state json Hjson w) as Hw.
  destruct (json w) as [body w0]. cbn [snd] in Hw. rewrite <- Hw in *.
  destruct body as [body|f]; [|intros [= <- <-]; split; [by apply keeps_refl|done]].
  destruct (post service_url _ _ w0) as [e w1] eqn:Ep. apply post_answer in Ep as [Hk He]; [|done].
  intros [= <- <-]. split; [done|]. destruct e as [x| |x]; [|done..]. unfold accept, raise_for_status.
  destruct He as [He|(Hst & j & Hj & Hm)].
  - rewrite (proj2 (Z.eqb_neq (h_status x) 202)) by lia. cbn [negb].
    rewrite (proj2 (Z.ltb_ge (h_status x) 300)) by lia. by rewrite andb_false_r.
  - rewrite Hst, Hj. cbn [Z.eqb negb]. apply mine_holds; [apply Hk|done].
Qed.

Lemma advance_holds t v direct response w s' :
  url t = service_url → good (state_of w) →
  match response with
  | Some r => 400 <= h_status r ∨ h_status r = 200 ∧ ∃ j, h_json r = Ok (PDict (snapshot_json (snapshot j))) ∧ mine j (w_registry w)
  | None => True
  end →
  holds v w → advance json hs key t v direct response w = inl s' → url (p_tracker s') = service_url ∧ holds (p_job s') (p_world s').
Proof.
  intros Hurl Hg Hr Hv. unfold advance. destruct response as [x|]; cbn [next_step]; [|by intros [= <-]].
  destruct (500 <=? _); [by intros [= <-]|]. destruct (_ && _) eqn:E4.
  - destruct (submit json _ hs key w) as [[[job' direct']|f] w1] eqn:Es; [|done]. intros [= <-].
    apply submit_holds in Es as [_ Hh]; done.
  - destruct Hr as [Hr|(Hst & j & Hj & Hm)].
    + unfold raise_for_status. rewrite (proj2 (Z.ltb_ge (h_status x) 300)), andb_false_r by lia. done.
    + unfold raise_for_status. rewrite Hst. change ((200 <=? 200) && (200 <? 300)) with true. cbv iota beta.
      rewrite Hj. intros [= <-]. split; [done|].
      by apply mine_holds.
Qed.

Lemma poll_step_holds d s :
  url (p_tracker s) = service_url → holds (p_job s) (p_world s) →
  match poll_step json hs key d hook s with
  | inl s' => url (p_tracker s') = service_url ∧ holds (p_job s') (p_world s')
  | inr (Done v, w') => ∃ j, mine j (w_registry w') ∧ status j = Succeeded ∧ v = payload_json (result j)
  | inr (Fail _, _) => True
  end.
Proof.
  destruct s as [w t v direct]. cbn [p_world p_tracker p_job]. intros Hurl Hv. unfold poll_step.
  pose proof Hv as (Hg & j & -> & Hi & Hu & Ho & Hsucc). cbn [is_none].
  destruct (settle t _ w) as [r1 w1] eqn:Es. apply settle_holds in Es as [-> Hr1].
  destruct r1 as [[v|]|f]; [destruct Hr1 as [Hst ->]; exists j; auto| |done].
  assert (Hsleep : keeps (state_of w) (state_of (sleep d w))) by (cbn [sleep async_service]; by apply (arrive_keeps w)).
  set (w2 := sleep d w) in *. clearbody w2.
  destruct (poll_hook hook w2) as [p w2'] eqn:Ep.
  assert (Hw2 : state_of w2' = state_of w2).
  { unfold poll_hook in Ep. destruct hook as [f|]; [|by injection Ep as _ <-].
    pose proof (local_state f (Hhook f eq_refl) w2) as E. by rewrite Ep in E. }
  rewrite <- Hw2 in Hsleep. clear Hw2 Ep w2. rename w2' into w2. destruct p as [[]|f]; [|done].
  destruct (job_url _ Hu) as (Hjoin & _ & _). unfold status_url.
  change (dget "status_url" (snapshot_json (snapshot j))) with (Some (PStr (job_path (job_id j)))).
  cbn [py_str]. rewrite Hurl, Hjoin. cbn [lift]. unfold poll_get.
  destruct (get_url _ hs w2) as [e w3] eqn:Eg. apply poll_answer in Eg as [Hk He]; [|apply Hsleep|done].
  pose proof (keeps_trans _ _ _ Hsleep Hk) as Hk2.
  assert (Hnot : ∀ j', PDict (snapshot_json (snapshot j)) = PDict (snapshot_json (snapshot j')) → status j' ≠ Succeeded).
  { intros j' E. apply (f_equal (λ v, match v with PDict d => PyVal.get "status" d | _ => PNone end)) in E.
    change (PStr (status_text (status j)) = PStr (status_text (status j'))) in E. intros E'. rewrite E' in E.
    by destruct (status j). }
  pose proof (holds_keeps _ _ _ Hv Hk2 Hnot) as Hv3.
  assert (Hown : ∀ j', (job_id j, j') ∈ _jobs (w_registry w3) → mine j' (w_registry w3)).
  { intros j' Hj'. destruct Hk2 as ([W _] & _ & Hown). destruct (Hown _ _ _ Hi Ho j' Hj') as [K1 K2].
    destruct (wf_id _ W _ _ Hj') as [K3 _]. unfold mine. by rewrite K3. }
  assert (Hend : ∀ response, match response with
    | Some r => 400 <= h_status r ∨ h_status r = 200 ∧ ∃ j', h_json r = Ok (PDict (snapshot_json (snapshot j'))) ∧ mine j' (w_registry w3)
    | None => True end →
    match advance json hs key t (PDict (snapshot_json (snapshot j))) direct response w3 with
    | inl s' => url (p_tracker s') = service_url ∧ holds (p_job s') (p_world s')
    | inr (Done v, w') => ∃ j, mine j (w_registry w') ∧ status j = Succeeded ∧ v = payload_json (result j)
    | inr (Fail _, _) => True end).
  { intros response Hr. destruct (advance _ _ _ _ _ _ _) as [s'|[[v|f] w']] eqn:Ea; [|by apply advance_fails in Ea|done].
    by eapply advance_holds in Ea; [| |apply Hk2|exact Hr|exact Hv3]. }
  destruct e as [x| |x]; [|by apply (Hend None)|done]. apply (Hend (Some x)).
  destruct He as [He|(Hst & j' & Hj' & Hin)]; [by left|right]. split; [done|]. exists j'. split; [done|by apply Hown].
Qed.

(** C9: What the client returns is the result of its own work: against this
    service, for any interleaving with other clients, ends of jobs, evictions and
    lost messages, a value is returned only when a job of the client's key, for
    the client's target, succeeded with that value. *)
Theorem client_gets_own_result fuel deadline_seconds poll_seconds w v w' :
  good (state_of w) →
  run_service_job json fuel service_url hs key deadline_seconds poll_seconds hook w = inr (Done v, w') →
  ∃ j, (job_id j, j) ∈ _jobs (w_registry w') ∧ job_key j = key ∧ fingerprint j = target ∧ status j = Succeeded
    ∧ v = payload_json (result j).
Proof.
  intros Hg. unfold run_service_job. cbn [clock async_service].
  set (t := mkTracker _ _ _ _). destruct (submit json t hs key w) as [[[job direct]|f] w1] eqn:Es; [|by intros [= ?]].
  apply submit_holds in Es as [_ Hh]; [|done..]. set (s0 := mkPolling w1 t job direct). intros Hrun.
  pose (I := λ s : polling, url (p_tracker s) = service_url ∧ holds (p_job s) (p_world s)).
  pose (Q := λ x : out pyval * world, ∀ v, x.1 = Done v → ∃ j, mine j (w_registry x.2) ∧ status j = Succeeded
    ∧ v = payload_json (result j)).
  destruct (while_inv (poll_step json hs key poll_seconds hook) I Q fuel s0 (Done v, w')) with (v := v)
    as (j & (H1 & H2 & H3) & H4 & H5); [| |done|done|done|by exists j].
  - intros s s' [Hurl Hv] Hon. pose proof (poll_step_holds poll_seconds s Hurl Hv) as Hp. by rewrite Hon in Hp.
  - intros s [r w2] [Hurl Hv] Hoff v2 Hr. cbn [fst snd] in *. subst r.
    pose proof (poll_step_holds poll_seconds s Hurl Hv) as Hp. by rewrite Hoff in Hp.
Qed.

#[local] Instance service_timed : Timed (W := world).
Proof.
  assert (Harrive : ∀ w, w_time w <= w_time (arrive w).2).
  { intros w. unfold arrive. destruct (foldl other _ _). simpl. lia. }
  assert (Hserve : ∀ k verb u h receive w, w_time (serve k verb u h receive w).2 = w_time w).
  { intros. unfold serve. by repeat case_match. }
  refine {| time := w_time |}; try (intros; simpl; lia).
  - intros u h b w. cbn [post async_service]. specialize (Harrive w). destruct (arrive w) as [k w1].
    destruct (fresh _ _); cbn [snd]; [rewrite Hserve|]; exact Harrive.
  - intros u h w. cbn [get_url async_service]. specialize (Harrive w). destruct (arrive w) as [k w1]. by rewrite Hserve.
  - intros d w. cbn [sleep async_service]. specialize (Harrive w). simpl. lia.
Defined.

#[local] Instance service_counted : Counted (W := world).
Proof.
  assert (Harrive : ∀ w, w_posts (arrive w).2 = w_posts w ∧ w_gets (arrive w).2 = w_gets w).
  { intros w. unfold arrive. by destruct (foldl other _ _). }
  assert (Hserve : ∀ k verb u h receive w, let w' := (serve k verb u h receive w).2 in
    w_posts w' = w_posts w ∧ w_gets w' = w_gets w).
  { intros. subst w'. unfold serve. by repeat case_match. }
  refine {| posts := w_posts; gets := w_gets |}; try done.
  - intros u h b w. cbn [post async_service]. destruct (Harrive w) as [H1 H2]. destruct (arrive w) as [k w1]. cbn [snd] in *.
    rewrite <- H1, <- H2. destruct (fresh _ _); [|done].
    by destruct (Hserve k "POST" u h [Message "http.request" (dumps b) false] (counted 1 0 w1)) as [-> ->].
  - intros u h w. cbn [get_url async_service]. destruct (Harrive w) as [H1 H2]. destruct (arrive w) as [k w1]. cbn [snd] in *.
    rewrite <- H1, <- H2. by destruct (Hserve k "GET" u h [] (counted 0 1 w1)) as [-> ->].
Defined.
End Service.

(** A job that is submitted, runs while the client sleeps, ends, and is read. *)
Module Exchange.
#[local] Instance repr : PyRepr := some_repr.
Definition lookup_header (hs : headers) (k : string) : option string :=
  snd <$> find (λ kv, bool_decide (lower kv.1 = k)) hs.
Definition anyone (hs : headers) : res unit := Ok tt.
Definition invoke (p : string) : bool := bool_decide (p = "/mcp/invoke").
Definition payload_text (p : payload) : pyval := match p with JsonOf b => PStr b | _ => PNone end.
Definition text (v : pyval) : string := "{}".
Definition nothing (verb p : string) : Http := mkHttp 404 (Ok PNone).
Definition id1 : string := "0123456789abcdef0123456789abcdef".
Definition id2 : string := "fedcba9876543210fedcba9876543210".
Definition script : list tick :=
  [mkTick [EClaim 1 1 id2 "airflow:other" "elsewhere"] 5 10 11 id1 false false;
   mkTick [] 0 0 0 "" false false;
   mkTick [] 3 20 20 "" false true;
   mkTick [EFinish 30 id1 (Returned 200 (JsonOf "rows"))] 0 0 0 "" false false;
   mkTick [EFinish 31 id2 (Raised "Boom")] 2 40 40 "" false false].
Definition start : world := mkWorld 0 (init TTL_SECONDS MAX_JOBS) [] script 0 0.

#[local] Instance service : JobService world :=
  async_service lookup_header anyone invoke id text payload_text nothing.
Definition send (w : world) : out pyval * world := (Done PNone, w).
Definition run (fuel : positive) :=
  run_service_job send fuel (http_url "http" "refinement:8500" "/mcp/invoke") [] "airflow:run-0001" 60 POLL_SECONDS None start.

Lemma run_returns : match run 10 with inr (Done v, _) => v = PStr "rows" | _ => False end.
Proof. vm_compute. reflexivity. Qed.

Lemma start_good : good (state_of start).
Proof. split; [apply wf_init|]. intros id j Hj. by apply not_elem_of_nil in Hj. Qed.

Lemma client_gets_own_result_witness :
  ∃ j w, job_key j = "airflow:run-0001" ∧ status j = Succeeded ∧ payload_text (result j) = PStr "rows"
    ∧ run 10 = inr (Done (PStr "rows"), w).
Proof.
  pose proof run_returns as Hr. destruct (run 10) as [s|[[v|f] w']] eqn:E; [destruct Hr| |destruct Hr]. subst v.
  destruct (client_gets_own_result lookup_header anyone invoke id text payload_text nothing
    send None ltac:(intros w; split; reflexivity) ltac:(intros p Hp; discriminate Hp)
    ltac:(intros hs st t Hd; discriminate Hd) "http" "refinement:8500" "/mcp/invoke" "airflow:run-0001" []
    ltac:(decide_now) ltac:(discriminate) eq_refl eq_refl eq_refl eq_refl eq_refl eq_refl 10 60 POLL_SECONDS start
    (PStr "rows") w' start_good E) as (j & _ & Hk & _ & Hs & Hv).
  exists j, w'. split; [exact Hk|]. split; [exact Hs|]. split; [symmetry; exact Hv|reflexivity].
Defined.

Example run_ends :
  ∃ r w', run 100 = inr (r, w') ∧ (w_posts w' <= 3)%nat ∧ Z.of_nat (w_gets w') <= 6.
Proof.
  destruct (run_service_job_ends (W := world) (Hjobs := service) send
    (Htimed := service_timed lookup_header anyone invoke id text payload_text nothing)
    (Hcounted := service_counted lookup_header anyone invoke id text payload_text nothing)
    ltac:(intros w; split_and!; [apply Z.le_refl|reflexivity..]) 100 (http_url "http" "refinement:8500" "/mcp/invoke") [] "airflow:run-0001" 60 POLL_SECONDS None start)
    as (r & w' & Hr & Hp & Hg);
    [intros p Hp; discriminate Hp|vm_compute; reflexivity..|].
  exists r, w'. split; [exact Hr|]. split; [exact Hp|exact Hg].
Qed.
End Exchange.
