(* ===== verification/SignedContext.v ===== *)
(** Signed runtime contexts: Airflow signs the authority of a materialization or
    of a scheduled run (airflow/dags/runtime_security_context.py), the refinement
    service checks it against the request and consumes its nonce
    (refinement/app/runtime_security_context.py), and a cartridge's DAG admits the
    run it was scheduled for (airflow/dags/cartridge_run_admission.py).

    HMAC-SHA-256 and SHA-256 are parameters, with hexadecimal digests; the variables of a process
    are the items of its environment in order, and its clock is read in seconds.
    The replay ledger, [runtime_hmac_nonces]
    (infra/init/99zzl_runtime_hmac_nonces.sql and 99zzo_runtime_hmac_authority.sql),
    is a table by nonce with its constraints. *)
From S2P Require Import Prelude PyStr PyVal PyJson.

Open Scope Z_scope.

Abbreviation environment := (list (string * string)).

(** [hmac.compare_digest] of two texts: they must be ASCII. *)
Definition compare_digest (a b : string) : res bool :=
  if is_ascii a && is_ascii b then Ok (bool_decide (a = b)) else raise TypeError "".

Definition env_text (name : string) (environ : environment) : string := strip (default "" (afind name environ)).

(** The loop over the variables: the first transport key that is the signing key. *)
Fixpoint transport_clash (key : string) (environ : environment) : res (option string) :=
  match environ with
  | [] => Ok None
  | (name, value) :: environ =>
      if negb (bool_decide (name = "INTERNAL_API_KEY") || startswith "INTERNAL_API_KEY_" name)
      then transport_clash key environ
      else if negb (nonempty (strip value)) then transport_clash key environ
      else
        equal ← compare_digest key (strip value);
        if (equal : bool) then Ok (Some name) else transport_clash key environ
  end.

(** [re.fullmatch("[0-9a-f]{64}")]. *)
Definition _HEX_64 (s : string) : bool := Nat.eqb (slen s) 64 && sall is_lower_hex s.

(** ** The replay ledger *)

Record Nonce := mkNonce {
  n_tenant : string;
  n_workspace : string;
  n_run : string;
  n_audience : string;
  n_purpose : string;
  n_body_digest : string;
  n_signed_at : Z;
  n_expires_at : Z;
  n_dag : option string;
  n_cartridge : option string }.

#[export] Instance nonce_eq_dec : EqDecision Nonce.
Proof. solve_decision. Defined.

(** The tables: the tenants, the workspaces with their tenants, the nonces. *)
Record Ledger := mkLedger {
  l_tenants : gset string;
  l_workspaces : gmap string string;
  l_nonces : gmap string Nonce }.

Definition NONCE_AUDIENCES : list string := ["refinement"; "mcp-infra"; "airflow"].
Definition NONCE_PURPOSES : list string :=
  ["refinement.mcp.materialize"; "mcp.pipeline_run_save"; "mcp.scheduled_effect"; "dataset_refresh.admit"].

(** The constraints of a row with a tenant and a workspace. *)
Definition nonce_valid (db : Ledger) (jti : string) (n : Nonce) : bool :=
  _HEX_64 jti && bool_decide (n_tenant n ∈ l_tenants db) && bool_decide (is_Some (l_workspaces db !! n_workspace n))
  && Nat.leb 1 (slen (n_run n)) && Nat.leb (slen (n_run n)) 250 && mem (n_audience n) NONCE_AUDIENCES
  && mem (n_purpose n) NONCE_PURPOSES && _HEX_64 (n_body_digest n) && (n_signed_at n <? n_expires_at n).

Definition insert_nonce (jti : string) (n : Nonce) (db : Ledger) : res Ledger :=
  if negb (nonce_valid db jti n) then raise DataError ""
  else if bool_decide (is_Some (l_nonces db !! jti)) then raise UniqueViolationError ""
  else Ok (mkLedger (l_tenants db) (l_workspaces db) (<[jti := n]> (l_nonces db))).

Lemma insert_nonce_ok jti n db db' :
  insert_nonce jti n db = Ok db' →
  l_nonces db !! jti = None ∧ db' = mkLedger (l_tenants db) (l_workspaces db) (<[jti := n]> (l_nonces db)).
Proof.
  unfold insert_nonce. destruct (nonce_valid db jti n); [|done]. cbn [negb]. case_bool_decide as Hn; [done|].
  intros [= <-]. split; [|done]. by apply eq_None_not_Some.
Qed.

Section Common.
Context {Hrepr : PyRepr}.

(** The bytes a context is signed over. *)
Definition _canonical (context : pydict) : res string :=
  text ← json_sorted (PDict (dpop "_signature" context));
  Ok (utf8 text).

(** [str(context.get(name) or "").strip()]. *)
Definition field (name : string) (context : pydict) : string := strip (str_or_empty (get name context)).

(** What the holder of a materialization's authority may touch. *)
Definition scope_prefixes (cartridge tenant workspace : string) : list string :=
  let scope := "tenant_id=" +:+ tenant +:+ "/workspace_id=" +:+ workspace +:+ "/" in
  ["raw/" +:+ cartridge +:+ "/"; "silver/" +:+ cartridge +:+ "/" +:+ scope; "gold/" +:+ cartridge +:+ "/" +:+ scope;
   "uploads/" +:+ cartridge +:+ "/" +:+ scope; "cartridges/" +:+ cartridge +:+ "/"].

(** The text of the request that materializes a dataset. *)
Definition materialize_request (dataset : string) : string :=
  utf8 (json_dumps (PDict (mkdict
    [("args", PDict (mkdict [("name", PStr dataset)])); ("tool", PStr "materialize")]))).
End Common.

(** ** Airflow: who signs *)
Module Airflow.
Definition MATERIALIZE_PURPOSE : string := "refinement.mcp.materialize".
Definition PIPELINE_RUN_PURPOSE : string := "mcp.pipeline_run_save".
Definition SCHEDULED_RUN_PURPOSE : string := "cartridge.run".
Definition SIGNATURE_VERSION : string := "hmac-sha256-v1".
Definition MATERIALIZE_SIGNATURE_VERSION : string := "hmac-sha256-v2".
Definition _MIN_KEY_LENGTH : nat := 32.
Definition _TTL_SECONDS : Z := 300.
Definition _FUTURE_SKEW_SECONDS : Z := 30.

Section Signing.
Context {Hrepr : PyRepr}.
(** Hexadecimal digests of bytes, under a key and without. *)
Context (hmac_sha256 : string → string → string) (sha256_hex : string → string).
Context (environ : environment).

Definition _signing_key : res string :=
  let key := env_text "SECURITY_CONTEXT_SIGNING_KEY" environ in
  if Nat.ltb (slen key) _MIN_KEY_LENGTH then raise RuntimeError "SECURITY_CONTEXT_SIGNING_KEY is required"
  else
    clash ← transport_clash key environ;
    match clash with
    | Some name => raise RuntimeError ("SECURITY_CONTEXT_SIGNING_KEY must be distinct from " +:+ name)
    | None => Ok key
    end.

Definition _required (value : pyval) (name : string) : res string :=
  let normalized := strip (str_or_empty value) in
  if nonempty normalized then Ok normalized else raise ValueError (name +:+ " is required").

Definition _sign_context (payload : pydict) (version : string) (now : Z) : res pydict :=
  let context := dpop "_signature_version" (dpop "_signed_at" (dpop "_signature" payload)) in
  let context := dset "_signature_version" (PStr version) (dset "_signed_at" (PInt now) context) in
  key ← _signing_key;
  bytes ← _canonical context;
  Ok (dset "_signature" (PStr (hmac_sha256 (utf8 key) bytes)) context).

Definition sign_runtime_context (payload : pydict) (now : Z) : res pydict := _sign_context payload SIGNATURE_VERSION now.

(** [token]: [secrets.token_hex(32)]. *)
Definition build_materialize_context (token tenant_id workspace_id cartridge_id dataset_name run_id : string) (now : Z) :
    res pydict :=
  tenant ← _required (PStr tenant_id) "tenant_id";
  workspace ← _required (PStr workspace_id) "workspace_id";
  cartridge ← _required (PStr cartridge_id) "cartridge_id";
  dataset ← _required (PStr dataset_name) "dataset_name";
  runtime_run ← _required (PStr run_id) "run_id";
  _sign_context (mkdict
    [("trusted", PBool true); ("source", PStr "airflow"); ("audience", PStr "refinement");
     ("purpose", PStr MATERIALIZE_PURPOSE); ("tool", PStr "materialize"); ("dataset", PStr dataset);
     ("run_id", PStr runtime_run); ("jti", PStr token);
     ("body_digest", PStr (sha256_hex (materialize_request dataset)));
     ("user_id", PStr "airflow:dataset_refresh_chain"); ("role", PStr "admin"); ("workspace_role", PStr "service");
     ("tenant_id", PStr tenant); ("workspace_id", PStr workspace);
     ("permissions", strs ["datasets.read"; "datasets.write"]); ("allowed_cartridges", strs [cartridge]);
     ("allowed_prefixes", strs (scope_prefixes cartridge tenant workspace))]) MATERIALIZE_SIGNATURE_VERSION now.

Definition RUN_FIELDS : list string := ["run_id"; "dag_id"; "cartridge_id"; "entity"; "status"].

(** [args[name]] of a key that is there. *)
Definition build_pipeline_run_context (token : string) (args : pydict) (now : Z) : res pydict :=
  if negb (forallb (λ k, has_key k args && nonempty (field k args)) RUN_FIELDS)
  then raise ValueError "pipeline telemetry identity is incomplete"
  else
    cartridge ← _required (get "cartridge_id" args) "cartridge_id";
    let tenant := field "tenant_id" args in
    let workspace := field "workspace_id" args in
    if negb (bool_decide (cartridge = "platform")) && (negb (nonempty tenant) || negb (nonempty workspace))
    then raise ValueError "pipeline telemetry scope is incomplete"
    else
      run_id ← _required (get "run_id" args) "run_id";
      dag_id ← _required (get "dag_id" args) "dag_id";
      body ← json_sorted (PDict (mkdict [("args", PDict args); ("tool", PStr "pipeline_run_save")]));
      _sign_context (mkdict
        [("trusted", PBool true); ("source", PStr "airflow"); ("audience", PStr "mcp-infra");
         ("purpose", PStr PIPELINE_RUN_PURPOSE); ("tool", PStr "pipeline_run_save"); ("run_id", PStr run_id);
         ("dag_id", PStr dag_id); ("jti", PStr token); ("body_digest", PStr (sha256_hex (utf8 body)));
         ("user_id", PStr ("airflow:" +:+ py_str (get "dag_id" args))); ("role", PStr "service");
         ("workspace_role", PStr "service"); ("tenant_id", PStr tenant); ("workspace_id", PStr workspace);
         ("permissions", strs ["pipelines.write"]); ("allowed_cartridges", strs [cartridge])])
        MATERIALIZE_SIGNATURE_VERSION now.

Definition build_scheduled_run_context (cartridge_id tenant_id workspace_id dag_id dag_run_id issuer : string) (now : Z) :
    res pydict :=
  principal ← _required (PStr issuer) "issuer";
  tenant ← _required (PStr tenant_id) "tenant_id";
  workspace ← _required (PStr workspace_id) "workspace_id";
  cartridge ← _required (PStr cartridge_id) "cartridge_id";
  dag ← _required (PStr dag_id) "dag_id";
  dag_run ← _required (PStr dag_run_id) "dag_run_id";
  _sign_context (mkdict
    [("trusted", PBool true); ("source", PStr "airflow"); ("issuer", PStr principal); ("audience", PStr "airflow");
     ("purpose", PStr SCHEDULED_RUN_PURPOSE); ("user_id", PStr ("airflow:" +:+ principal)); ("role", PStr "service");
     ("workspace_role", PStr "service"); ("tenant_id", PStr tenant); ("workspace_id", PStr workspace);
     ("permissions", strs ["pipelines.run"]); ("allowed_cartridges", strs [cartridge]); ("dag_id", PStr dag);
     ("dag_run_id", PStr dag_run)]) SIGNATURE_VERSION now.

(** Outside the window of a signature. *)
Definition expired (signed_at clock : Z) : bool :=
  (clock + _FUTURE_SKEW_SECONDS <? signed_at) || (_TTL_SECONDS <? clock - signed_at).

Definition verify_runtime_signature (context : pydict) (now : Z) : res unit :=
  _ ← require (eq_str (get "_signature_version" context) SIGNATURE_VERSION)
        ValueError "unsupported runtime context signature version";
  let signature := str_or_empty (get "_signature" context) in
  _ ← require (nonempty signature) ValueError "runtime context signature is required";
  signed_at ← int_or_error "runtime context signed_at is required" (get "_signed_at" context);
  _ ← require (negb (expired signed_at now)) ValueError "runtime context signature expired";
  key ← _signing_key;
  bytes ← _canonical context;
  equal ← compare_digest signature (hmac_sha256 (utf8 key) bytes);
  require equal ValueError "runtime context signature mismatch".
End Signing.
End Airflow.

(** ** The refinement service: who checks *)
Module Refinement.
Definition MATERIALIZE_PURPOSE : string := "refinement.mcp.materialize".
Definition SIGNATURE_VERSION : string := "hmac-sha256-v2".
Definition _TTL_SECONDS : Z := 300.
Definition _FUTURE_SKEW_SECONDS : Z := 30.
Definition _MIN_KEY_LENGTH : nat := 32.
Definition _EXACT_FIELDS : list string :=
  ["trusted"; "source"; "audience"; "purpose"; "tool"; "dataset"; "run_id"; "jti"; "body_digest"; "user_id"; "role";
   "workspace_role"; "tenant_id"; "workspace_id"; "permissions"; "allowed_cartridges"; "allowed_prefixes"; "_signed_at";
   "_signature_version"; "_signature"].

Section Checking.
Context {Hrepr : PyRepr}.
Context (hmac_sha256 : string → string → string) (sha256_hex : string → string).
(** [text::uuid], and the text the driver and the database store of a value. *)
Context (uuid : string → option string) (sql_text : pyval → res string).
Context (environ : environment).

Definition _signing_key : res string :=
  let key := env_text "SECURITY_CONTEXT_SIGNING_KEY" environ in
  if Nat.ltb (slen key) _MIN_KEY_LENGTH then raise ValueError "runtime signing key unavailable"
  else
    clash ← transport_clash key environ;
    match clash with
    | Some name => raise ValueError "runtime signing key is not isolated"
    | None => Ok key
    end.

(** The arguments of the request, [{}] when they are no mapping. *)
Definition request_args (body : pydict) : pydict := default [] (as_dict (get "args" body)).

Definition _exact_request_binding (context body : pydict) : res unit :=
  let args := request_args body in
  let mismatch what := "runtime context " +:+ what +:+ " mismatch" in
  let refuse b msg := require b ValueError msg in
  _ ← refuse (keys_are _EXACT_FIELDS context) (mismatch "envelope");
  _ ← refuse (keys_are ["tool"; "args"] (dpop "_verified_internal_service" (dpop "security_context" body)))
        (mismatch "request fields");
  _ ← refuse (keys_are ["name"] args) (mismatch "request fields");
  _ ← refuse (eq_str (get "tool" context) "materialize" && eq_str (get "tool" body) "materialize") (mismatch "tool");
  let dataset := field "dataset" context in
  _ ← refuse (nonempty dataset && bool_decide (dataset = field "name" args)) (mismatch "dataset");
  let run_id := field "run_id" context in
  _ ← refuse (nonempty run_id && Nat.leb (slen run_id) 250) (mismatch "run");
  _ ← refuse (_HEX_64 (str_or_empty (get "jti" context))) (mismatch "jti");
  _ ← refuse (eq_str (get "body_digest" context) (sha256_hex (materialize_request dataset))) (mismatch "body");
  _ ← refuse (py_eq (get "permissions" context) (strs ["datasets.read"; "datasets.write"])) (mismatch "permissions");
  match get "allowed_cartridges" context with
  | PList [c] =>
      _ ← refuse (truthy c) (mismatch "cartridge scope");
      let cartridge := strip (py_str c) in
      let tenant := field "tenant_id" context in
      let workspace := field "workspace_id" context in
      _ ← refuse (nonempty tenant) "runtime context tenant scope missing";
      _ ← refuse (nonempty workspace) "runtime context workspace scope missing";
      _ ← refuse (py_eq (get "allowed_prefixes" context) (strs (scope_prefixes cartridge tenant workspace)))
            (mismatch "prefixes");
      _ ← refuse (eq_str (get "user_id" context) "airflow:dataset_refresh_chain") (mismatch "actor");
      refuse (eq_str (get "role" context) "admin" && eq_str (get "workspace_role" context) "service") (mismatch "role")
  | _ => raise ValueError (mismatch "cartridge scope")
  end.

(** The row of a context; every exception of the insertion is a [ValueError].
    The session's scope is the row's, as the row-level policy asks. *)
Definition _consume_runtime_jti (context : pydict) (signed_at : Z) (db : Ledger) : res Ledger :=
  _ ← require (nonempty (default "" (afind "DATABASE_URL" environ))) ValueError "runtime replay ledger unavailable";
  match
    (jti ← sql_text (get "jti" context);
     tenant ← cast_uuid uuid (py_str (get "tenant_id" context));
     workspace ← cast_uuid uuid (py_str (get "workspace_id" context));
     run ← sql_text (get "run_id" context);
     audience ← sql_text (get "audience" context);
     purpose ← sql_text (get "purpose" context);
     digest ← sql_text (get "body_digest" context);
     insert_nonce jti (mkNonce tenant workspace run audience purpose digest signed_at (signed_at + _TTL_SECONDS) None None) db)
  with
  | Ok db' => Ok db'
  | Raise _ => raise ValueError "runtime context replay rejected"
  end.

Definition expired (signed_at clock : Z) : bool :=
  (clock + _FUTURE_SKEW_SECONDS <? signed_at) || (_TTL_SECONDS <? clock - signed_at).

Definition validate_runtime_context (context body : pydict) (internal_service : string) (now : Z) (consume : bool)
    (db : Ledger) : res Ledger :=
  _ ← require (bool_decide (internal_service = "airflow") && eq_str (get "source" context) "airflow")
        ValueError "runtime context source mismatch";
  _ ← require (eq_str (get "audience" context) "refinement") ValueError "runtime context audience mismatch";
  _ ← require (eq_str (get "purpose" context) MATERIALIZE_PURPOSE) ValueError "runtime context purpose mismatch";
  _ ← require (eq_str (get "_signature_version" context) SIGNATURE_VERSION)
        ValueError "runtime context signature version mismatch";
  let signature := str_or_empty (get "_signature" context) in
  _ ← require (nonempty signature) ValueError "runtime context signature missing";
  signed_at ← int_or_error "runtime context signed_at missing" (get "_signed_at" context);
  _ ← require (negb (expired signed_at now)) ValueError "runtime context signature expired";
  key ← _signing_key;
  bytes ← _canonical context;
  equal ← compare_digest signature (hmac_sha256 (utf8 key) bytes);
  _ ← require equal ValueError "runtime context signature mismatch";
  _ ← _exact_request_binding context body;
  if consume then _consume_runtime_jti context signed_at db else Ok db.
End Checking.
End Refinement.

(** ** What a signature covers *)
Section Signatures.
Context {Hrepr : PyRepr}.
Context (hmac_sha256 : string → string → string).

(** The context carries the signature of its own bytes under the key. *)
Definition signed_by (key : string) (context : pydict) : Prop :=
  ∃ bytes, _canonical context = Ok bytes
    ∧ str_or_empty (get "_signature" context) = hmac_sha256 (utf8 key) bytes.

Lemma sign_context_ok environ payload version now context :
  Airflow._sign_context hmac_sha256 environ payload version now = Ok context →
  ∃ key bytes, Airflow._signing_key environ = Ok key ∧ _canonical context = Ok bytes
    ∧ context = dset "_signature" (PStr (hmac_sha256 (utf8 key) bytes))
        (dset "_signature_version" (PStr version) (dset "_signed_at" (PInt now)
          (dpop "_signature_version" (dpop "_signed_at" (dpop "_signature" payload))))).
Proof.
  unfold Airflow._sign_context. intros (key & Hkey & (bytes & Hb & [= <-])%bind_ok)%bind_ok.
  exists key, bytes. split_and!; [done| |done]. unfold _canonical in *. by rewrite dpop_dset.
Qed.

Lemma sign_context_fields environ payload version now context :
  Airflow._sign_context hmac_sha256 environ payload version now = Ok context →
  get "_signed_at" context = PInt now ∧ get "_signature_version" context = PStr version
  ∧ (∀ k, k ∉ ["_signature"; "_signed_at"; "_signature_version"] → get k context = get k payload)
  ∧ ∃ key, Airflow._signing_key environ = Ok key ∧ signed_by key context.
Proof.
  intros (key & bytes & Hkey & Hb & E)%sign_context_ok. split_and!.
  - rewrite E. by dsimpl.
  - rewrite E. by dsimpl.
  - intros k Hk. rewrite E. assert (k ≠ "_signature" ∧ k ≠ "_signed_at" ∧ k ≠ "_signature_version") as (H1 & H2 & H3)
      by (rewrite !elem_of_cons in Hk; naive_solver).
    rewrite !get_dset_ne by done. unfold get. by rewrite !dget_dpop, !decide_False by done.
  - exists key. split; [done|]. exists bytes. split; [done|]. rewrite E at 1. by rewrite get_dset_eq, str_or_empty_str.
Qed.

Lemma compare_digest_true a b : compare_digest a b = Ok true → a = b.
Proof. unfold compare_digest. destruct (is_ascii a && is_ascii b); [|done]. intros [= E]. by apply bool_decide_eq_true in E. Qed.

Lemma int_or_error_ok msg v z : int_or_error msg v = Ok z → py_int v = Ok z.
Proof. unfold int_or_error. destruct (py_int v) as [|e]; [done|]. by destruct (_ || _). Qed.

Lemma verify_ok environ context now :
  Airflow.verify_runtime_signature hmac_sha256 environ context now = Ok tt →
  (∃ key, Airflow._signing_key environ = Ok key ∧ signed_by key context)
  ∧ ∃ signed_at, py_int (get "_signed_at" context) = Ok signed_at
      ∧ now - Airflow._TTL_SECONDS <= signed_at <= now + Airflow._FUTURE_SKEW_SECONDS.
Proof.
  unfold Airflow.verify_runtime_signature. intros H. guards_in H.
  apply bind_ok in H as (signed_at & Hat%int_or_error_ok & H). guards_in H.
  apply bind_ok in H as (key & Hkey & H). apply bind_ok in H as (bytes & Hb & H).
  apply bind_ok in H as (same & Hs & ->%require_ok). apply compare_digest_true in Hs.
  split; [exists key; split; [done|by exists bytes]|]. exists signed_at. split; [done|].
  unfold Airflow.expired in *. boolify. lia.
Qed.

Context (Hhmac : ∀ key bytes, _HEX_64 (hmac_sha256 key bytes) = true).

Lemma hex_facts s : _HEX_64 s = true → nonempty s = true ∧ is_ascii s = true ∧ char_in NUL s = false.
Proof.
  intros [Hl%Nat.eqb_eq Hs]%andb_true_iff. split_and!.
  - apply nonempty_true. by intros ->.
  - unfold is_ascii. eapply sall_impl; [|exact Hs]. intros c Hc.
    assert (H : ∀ c, implb (is_lower_hex c) (code c <? 128)%N = true) by (apply ascii_ind_all; vm_compute; reflexivity).
    specialize (H c). by rewrite Hc in H.
  - by apply (char_not_in is_lower_hex).
Qed.

(** The check of a signature, when it is there. *)
Lemma signed_by_compare key context :
  signed_by key context → ∃ bytes, _canonical context = Ok bytes
    ∧ compare_digest (str_or_empty (get "_signature" context)) (hmac_sha256 (utf8 key) bytes) = Ok true.
Proof.
  intros (bytes & Hb & E). exists bytes. split; [done|]. rewrite E. unfold compare_digest.
  destruct (hex_facts _ (Hhmac (utf8 key) bytes)) as (_ & -> & _). by rewrite bool_decide_eq_true_2.
Qed.

Lemma verify_accepts environ key context signed_at now :
  Airflow._signing_key environ = Ok key → signed_by key context →
  get "_signature_version" context = PStr Airflow.SIGNATURE_VERSION → get "_signed_at" context = PInt signed_at →
  now - Airflow._TTL_SECONDS <= signed_at <= now + Airflow._FUTURE_SKEW_SECONDS →
  Airflow.verify_runtime_signature hmac_sha256 environ context now = Ok tt.
Proof.
  intros Hkey Hsigned Hver Hat Hwin. destruct (signed_by_compare _ _ Hsigned) as (bytes & Hb & Hcmp).
  unfold Airflow.verify_runtime_signature. rewrite Hver, Hat. pass (vm_compute; reflexivity).
  pass (destruct Hsigned as (b & _ & ->); by apply (hex_facts _ (Hhmac _ _))). cbn [int_or_error py_int mbind res_bind].
  pass (unfold Airflow.expired; apply negb_true_iff, orb_false_iff; split; apply Z.ltb_ge; lia).
  rewrite Hkey, Hb. cbn [mbind res_bind]. rewrite Hcmp. done.
Qed.

End Signatures.

(** ** A materialization's authority, from Airflow to the refinement service *)
Section Authority.
Context {Hrepr : PyRepr}.
Context (hmac_sha256 : string → string → string) (sha256_hex : string → string).
Context (uuid : string → option string) (sql_text : pyval → res string).

Abbreviation validate := (Refinement.validate_runtime_context hmac_sha256 sha256_hex uuid sql_text).

(** The authority a context states for a request: the dataset it names, and the
    cartridge and scope its prefixes are made of. *)
Definition authority_of (context body : pydict) : Prop :=
  get "tool" body = PStr "materialize" ∧ keys_are ["name"] (Refinement.request_args body) = true
  ∧ field "name" (Refinement.request_args body) = field "dataset" context
  ∧ get "body_digest" context = PStr (sha256_hex (materialize_request (field "dataset" context)))
  ∧ ∃ c, get "allowed_cartridges" context = PList [c]
    ∧ py_eq (get "allowed_prefixes" context)
        (strs (scope_prefixes (strip (py_str c)) (field "tenant_id" context) (field "workspace_id" context))) = true
    ∧ field "tenant_id" context ≠ "" ∧ field "workspace_id" context ≠ "".

Lemma exact_binding context body :
  Refinement._exact_request_binding sha256_hex context body = Ok tt → authority_of context body.
Proof.
  unfold Refinement._exact_request_binding. intros H. guards_in H.
  destruct (get "allowed_cartridges" context) as [| | | | |[|c [|]]|] eqn:Ec; try done. guards_in H. boolify.
  split; [by apply eq_str_true|]. split; [done|]. split; [done|]. split; [by apply eq_str_true|].
  exists c. repeat (split; [done|]). split; by apply nonempty_true.
Qed.

Lemma consume_jti_ok environ context signed_at db db' :
  Refinement._consume_runtime_jti uuid sql_text environ context signed_at db = Ok db' →
  ∃ jti run n, sql_text (get "jti" context) = Ok jti ∧ sql_text (get "run_id" context) = Ok run
    ∧ n_run n = run ∧ uuid (py_str (get "tenant_id" context)) = Some (n_tenant n)
    ∧ uuid (py_str (get "workspace_id" context)) = Some (n_workspace n) ∧ n_signed_at n = signed_at
    ∧ insert_nonce jti n db = Ok db'.
Proof.
  unfold Refinement._consume_runtime_jti. intros H. guards_in H.
  match type of H with match ?m with _ => _ end = _ => destruct m as [dbx|] eqn:E; [|done] end. injection H as ->.
  apply bind_ok in E as (jti & Hj & E). apply bind_ok in E as (t & Ht & E). apply bind_ok in E as (w & Hw & E).
  apply bind_ok in E as (run & Hr & E). apply bind_ok in E as (a & Ha & E). apply bind_ok in E as (p & Hp & E).
  apply bind_ok in E as (d & Hd & E). unfold cast_uuid in *.
  destruct (uuid (py_str (get "tenant_id" context))) as [u|] eqn:Eu; [injection Ht as ->|done].
  destruct (uuid (py_str (get "workspace_id" context))) as [v|] eqn:Ev; [injection Hw as ->|done].
  by exists jti, run, (mkNonce t w run a p d signed_at (signed_at + Refinement._TTL_SECONDS) None None).
Qed.

(** C11: The refinement service acts on a request only under an authority that
    Airflow's key signed within the last five minutes, for exactly that request,
    and once: the nonce of an accepted context was not in the ledger, is in it
    afterwards, and from then on the context is never accepted again. *)
Theorem authority_exact_once environ context body service now db db' :
  validate environ context body service now true db = Ok db' →
  service = "airflow"
  ∧ (∃ key, Refinement._signing_key environ = Ok key ∧ signed_by hmac_sha256 key context)
  ∧ (∃ signed_at, py_int (get "_signed_at" context) = Ok signed_at
       ∧ now - Refinement._TTL_SECONDS <= signed_at <= now + Refinement._FUTURE_SKEW_SECONDS)
  ∧ authority_of context body
  ∧ (∃ jti n, sql_text (get "jti" context) = Ok jti ∧ l_nonces db !! jti = None ∧ l_nonces db' = <[jti := n]> (l_nonces db)
       ∧ sql_text (get "run_id" context) = Ok (n_run n) ∧ uuid (py_str (get "tenant_id" context)) = Some (n_tenant n)
       ∧ uuid (py_str (get "workspace_id" context)) = Some (n_workspace n))
  ∧ ∀ environ' body' service' now' later,
      l_nonces db' ⊆ l_nonces later → ¬ is_ok (validate environ' context body' service' now' true later).
Proof.
  intros H. unfold Refinement.validate_runtime_context in H. guards_in H.
  apply bind_ok in H as (signed_at & Hat%int_or_error_ok & H). guards_in H.
  apply bind_ok in H as (key & Hkey & H). apply bind_ok in H as (bytes & Hb & H).
  apply bind_ok in H as (same & Hs & H). guards_in H. apply bind_ok in H as ([] & Hbind%exact_binding & H).
  apply consume_jti_ok in H as (jti & run & n & Hj & Hr & Hrun & Ht & Hw & Hn & Hi). apply insert_nonce_ok in Hi as [Hnew ->].
  subst same. apply compare_digest_true in Hs.
  split_and!; [by boolify|by exists key; split; [|exists bytes]| |done|exists jti, n; subst run; done|].
  - exists signed_at. split; [done|]. unfold Refinement.expired in *. boolify. lia.
  - intros environ' body' service' now' later Hsub Hok.
    destruct (validate environ' context body' service' now' true later) as [db2|] eqn:E; [|done].
    unfold Refinement.validate_runtime_context in E. guards_in E.
    apply bind_ok in E as (? & _ & E). guards_in E. apply bind_ok in E as (? & _ & E). apply bind_ok in E as (? & _ & E).
    apply bind_ok in E as (? & _ & E). guards_in E. apply bind_ok in E as (? & _ & E).
    apply consume_jti_ok in E as (jti' & ? & ? & Hj' & _ & _ & _ & _ & _ & Hi'). rewrite Hj in Hj'. injection Hj' as <-.
    apply insert_nonce_ok in Hi' as [Hnone _]. cbn [l_nonces] in Hsub.
    rewrite (lookup_weaken _ _ _ _ (lookup_insert_eq (l_nonces db) jti n) Hsub) in Hnone. done.
Qed.

(** The request Airflow sends, as the service's middleware completes it. *)
Definition materialize_body (name : string) (context : pydict) : pydict :=
  mkdict [("tool", PStr "materialize"); ("args", PDict (mkdict [("name", PStr name)]));
          ("security_context", PDict context); ("_verified_internal_service", PStr "airflow")].

Lemma required_text_ok s name t : Airflow._required (PStr s) name = Ok t → t = strip s ∧ t ≠ "".
Proof.
  unfold Airflow._required. rewrite str_or_empty_str. destruct (nonempty (strip s)) eqn:E; [|done].
  intros [= <-]. split; [done|]. by apply nonempty_true.
Qed.

(** What the refinement service reads of a context Airflow built. *)
Lemma built_context environ token tenant workspace cartridge dataset run now context :
  Airflow.build_materialize_context hmac_sha256 sha256_hex environ token tenant workspace cartridge dataset run now
    = Ok context →
  (strip tenant ≠ "" ∧ strip workspace ≠ "" ∧ strip cartridge ≠ "" ∧ strip dataset ≠ "" ∧ strip run ≠ "")
  ∧ keys_are Refinement._EXACT_FIELDS context = true
  ∧ get "_signed_at" context = PInt now ∧ get "_signature_version" context = PStr Refinement.SIGNATURE_VERSION
  ∧ (∃ key, Airflow._signing_key environ = Ok key ∧ signed_by hmac_sha256 key context)
  ∧ (λ k, get k context) <$> ["source"; "audience"; "purpose"; "tool"; "user_id"; "role"; "workspace_role"]
    = PStr <$> ["airflow"; "refinement"; "refinement.mcp.materialize"; "materialize"; "airflow:dataset_refresh_chain";
                "admin"; "service"]
  ∧ (λ k, get k context) <$> ["dataset"; "run_id"; "jti"; "body_digest"; "tenant_id"; "workspace_id"]
    = PStr <$> [strip dataset; strip run; token; sha256_hex (materialize_request (strip dataset)); strip tenant;
                strip workspace]
  ∧ (λ k, get k context) <$> ["permissions"; "allowed_cartridges"; "allowed_prefixes"]
    = strs <$> [["datasets.read"; "datasets.write"]; [strip cartridge];
                scope_prefixes (strip cartridge) (strip tenant) (strip workspace)].
Proof.
  unfold Airflow.build_materialize_context. intros H.
  apply bind_ok in H as (? & [-> Ht]%required_text_ok & H). apply bind_ok in H as (? & [-> Hw]%required_text_ok & H).
  apply bind_ok in H as (? & [-> Hc]%required_text_ok & H). apply bind_ok in H as (? & [-> Hd]%required_text_ok & H).
  apply bind_ok in H as (? & [-> Hr]%required_text_ok & H). split; [done|].
  set (t := strip tenant) in *. set (w := strip workspace) in *. set (c := strip cartridge) in *.
  set (d := strip dataset) in *. set (r := strip run) in *. clearbody t w c d r.
  set (digest := sha256_hex (materialize_request d)) in *. clearbody digest.
  pose proof H as (H1 & H2 & H3 & H4)%sign_context_fields. apply sign_context_ok in H as (key & bytes & _ & _ & E).
  split; [rewrite E; vm_compute; reflexivity|]. repeat (split; [done|]).
  cbn [fmap list_fmap]. rewrite !H3 by decide_now.
  split_and!; vm_compute; reflexivity.
Qed.

Context (Hhmac : ∀ key bytes, _HEX_64 (hmac_sha256 key bytes) = true).
Context (Hsha : ∀ bytes, _HEX_64 (sha256_hex bytes) = true).
Context (Hsql : ∀ s, char_in NUL s = false → sql_text (PStr s) = Ok s).


Lemma accepted_binding name context :
  keys_are Refinement._EXACT_FIELDS context = true →
  (λ k, get k context) <$> ["source"; "audience"; "purpose"; "tool"; "user_id"; "role"; "workspace_role"]
    = PStr <$> ["airflow"; "refinement"; "refinement.mcp.materialize"; "materialize"; "airflow:dataset_refresh_chain";
                "admin"; "service"] →
  ∀ dataset run token cartridge tenant workspace,
  dataset = strip name → dataset ≠ "" → run = strip run → run ≠ "" → (slen run <= 250)%nat → _HEX_64 token = true →
  cartridge = strip cartridge → cartridge ≠ "" → tenant = strip tenant → tenant ≠ "" →
  workspace = strip workspace → workspace ≠ "" →
  (λ k, get k context) <$> ["dataset"; "run_id"; "jti"; "body_digest"; "tenant_id"; "workspace_id"]
    = PStr <$> [dataset; run; token; sha256_hex (materialize_request dataset); tenant; workspace] →
  (λ k, get k context) <$> ["permissions"; "allowed_cartridges"; "allowed_prefixes"]
    = strs <$> [["datasets.read"; "datasets.write"]; [cartridge]; scope_prefixes cartridge tenant workspace] →
  Refinement._exact_request_binding sha256_hex context (materialize_body name context) = Ok tt.
Proof.
  intros Hkeys Hfix dataset run token cartridge tenant workspace Hd Hd0 Hr Hr0 Hlen Htok Hc Hc0 Ht Ht0 Hw Hw0 Hvar Hlist.
  cbn [fmap list_fmap] in Hfix, Hvar, Hlist.
  injection Hfix as _ _ _ Htool Huser Hrole Hwrole. injection Hvar as Ed Er Ej Eb Et Ew. injection Hlist as Ep Ec Ex.
  assert (Hargs : Refinement.request_args (materialize_body name context) = [(KStr "name", PStr name)]) by (vm_compute; reflexivity).
  unfold Refinement._exact_request_binding, field. rewrite Hargs, Htool, Huser, Hrole, Hwrole, Ed, Er, Ej, Eb, Et, Ew, Ep, Ec, Ex.
  change (get "name" [(KStr "name", PStr name)]) with (PStr name). rewrite !str_or_empty_str. rewrite <- Hd, <- Hr, <- Ht, <- Hw.
  replace (strip dataset) with dataset by (subst dataset; by rewrite strip_idem).
  pass (done). pass (vm_compute; reflexivity). pass (done). pass (vm_compute; reflexivity).
  pass (by rewrite bool_decide_eq_true_2, andb_true_r by done; apply nonempty_true).
  pass (apply andb_true_iff; split; [by apply nonempty_true|by apply Nat.leb_le]).
  pass (done). pass (by apply bool_decide_eq_true). pass (reflexivity).
  change (strs [cartridge]) with (PList [PStr cartridge]). cbv iota. cbn [py_str]. rewrite <- Hc.
  pass (by apply truthy_str). pass (by apply nonempty_true). pass (by apply nonempty_true).
  pass (by apply py_eq_strs). done.
Qed.

(** The row of an accepted context satisfies the constraints of the ledger. *)
Lemma consume_accepts environ context token run digest tenant workspace u v now db :
  (λ k, get k context) <$> ["audience"; "purpose"; "run_id"; "jti"; "body_digest"; "tenant_id"; "workspace_id"]
    = PStr <$> ["refinement"; "refinement.mcp.materialize"; run; token; digest; tenant; workspace] →
  nonempty (default "" (afind "DATABASE_URL" environ)) = true →
  run ≠ "" → (slen run <= 250)%nat → char_in NUL run = false → _HEX_64 token = true → _HEX_64 digest = true →
  uuid tenant = Some u → uuid workspace = Some v → u ∈ l_tenants db → is_Some (l_workspaces db !! v) →
  l_nonces db !! token = None →
  ∃ db', Refinement._consume_runtime_jti uuid sql_text environ context now db = Ok db'.
Proof.
  intros Hget Hdsn Hr0 Hlen Hnul Htok Hdig Hu Hv Htu Hwv Hnew. cbn [fmap list_fmap] in Hget.
  injection Hget as Ea Ep Er Ej Eb Et Ew. unfold Refinement._consume_runtime_jti. pass (done).
  rewrite Ea, Ep, Er, Ej, Eb, Et, Ew. destruct (hex_facts _ Htok) as (_ & _ & Hn1). destruct (hex_facts _ Hdig) as (_ & _ & Hn2).
  rewrite !Hsql by done. unfold cast_uuid. cbn [py_str]. rewrite Hu, Hv. cbn [mbind res_bind]. unfold insert_nonce, nonce_valid.
  cbn [n_tenant n_workspace n_run n_audience n_purpose n_body_digest n_signed_at n_expires_at].
  rewrite Htok, Hdig, (bool_decide_eq_true_2 _ Htu), (bool_decide_eq_true_2 _ Hwv), (proj2 (Nat.leb_le _ _) Hlen).
  replace (Nat.leb 1 (slen run)) with true by (symmetry; apply Nat.leb_le; destruct run; [done|simpl; lia]).
  replace (now <? now + Refinement._TTL_SECONDS) with true by (symmetry; apply Z.ltb_lt; unfold Refinement._TTL_SECONDS; lia).
  change (mem "refinement" NONCE_AUDIENCES) with true. change (mem "refinement.mcp.materialize" NONCE_PURPOSES) with true.
  cbn [andb negb]. rewrite Hnew. rewrite bool_decide_eq_false_2 by (intros [? ?]; done). by eexists.
Qed.

(** C30: What Airflow signs, the refinement service accepts: a context built for a
    dataset authorizes the request that materializes it, sent to a service with
    the same key while the signature is fresh, when its nonce is unused and its
    tenant and workspace exist. *)
Theorem built_context_accepted environ environ' token tenant workspace cartridge dataset run at_ now key u v context db :
  Airflow.build_materialize_context hmac_sha256 sha256_hex environ token tenant workspace cartridge dataset run at_
    = Ok context →
  Airflow._signing_key environ = Ok key → Refinement._signing_key environ' = Ok key →
  now - Refinement._TTL_SECONDS <= at_ <= now + Refinement._FUTURE_SKEW_SECONDS →
  _HEX_64 token = true → l_nonces db !! token = None →
  (slen (strip run) <= 250)%nat → char_in NUL (strip run) = false →
  uuid (strip tenant) = Some u → uuid (strip workspace) = Some v → u ∈ l_tenants db → is_Some (l_workspaces db !! v) →
  nonempty (default "" (afind "DATABASE_URL" environ')) = true →
  ∃ db', validate environ' context (materialize_body dataset context) "airflow" now true db = Ok db'.
Proof.
  intros Hbuilt Hkey Hkey' Hwin Htok Hnew Hlen Hnul Hu Hv Htu Hwv Hdsn.
  apply built_context in Hbuilt as ((H1 & H2 & H3 & H4 & H5) & Hkeys & Hat & Hver & (key' & Hkey2 & Hsigned) & Hfix & Hvar & Hlist).
  rewrite Hkey in Hkey2. injection Hkey2 as <-.
  destruct (signed_by_compare _ Hhmac _ _ Hsigned) as (bytes & Hb & Hcmp).
  assert (Hbind : Refinement._exact_request_binding sha256_hex context (materialize_body dataset context) = Ok tt).
  { eapply (accepted_binding dataset context Hkeys Hfix (strip dataset) (strip run) token (strip cartridge) (strip tenant)
      (strip workspace)); rewrite ?strip_idem; done. }
  pose proof Hfix as Hfix0. pose proof Hvar as Hvar0. cbn [fmap list_fmap] in Hfix, Hvar.
  injection Hfix as Es Ea Ep _ _ _ _. injection Hvar as _ Er Ej Eb Et Ew.
  assert (Hsig : nonempty (str_or_empty (get "_signature" context)) = true).
  { destruct Hsigned as (b & _ & ->). by apply (hex_facts _ (Hhmac _ _)). }
  unfold Refinement.validate_runtime_context. rewrite Es, Ea, Ep, Hver, Hat.
  pass (vm_compute; reflexivity). pass (vm_compute; reflexivity). pass (vm_compute; reflexivity).
  pass (vm_compute; reflexivity). pass (done). cbn [int_or_error py_int mbind res_bind].
  pass (unfold Refinement.expired; apply negb_true_iff, orb_false_iff; split; apply Z.ltb_ge; lia).
  rewrite Hkey', Hb. cbn [mbind res_bind]. rewrite Hcmp. cbn [mbind res_bind]. pass (done). rewrite Hbind. cbn [mbind res_bind].
  apply (consume_accepts environ' context token (strip run) (sha256_hex (materialize_request (strip dataset)))
    (strip tenant) (strip workspace) u v); try done.
  cbn [fmap list_fmap]. by rewrite Ea, Ep, Er, Ej, Eb, Et, Ew.
Qed.
End Authority.

(** A context signed at second 1000, presented at second 1100, and presented again. *)
Module Presented.
#[local] Instance repr : PyRepr := some_repr.
Definition mac (key bytes : string) : string := repeat_char 64 "f".
Definition digest (bytes : string) : string := repeat_char 64 "d".
Definition text_only (v : pyval) : res string := match v with PStr s => Ok s | _ => raise TypeError "" end.
Definition variables : environment :=
  [("SECURITY_CONTEXT_SIGNING_KEY", repeat_char 32 "k"); ("INTERNAL_API_KEY_AIRFLOW_TO_REFINEMENT", "another");
   ("DATABASE_URL", "postgresql://postgres")].
Definition nonce : string := repeat_char 64 "0".
Definition ledger : Ledger := mkLedger {["t1"]} {["w1" := "t1"]} ∅.

Definition context : pydict :=
  match Airflow.build_materialize_context mac digest variables nonce "t1" "w1" "crm" "sales" "run-1" 1000 with
  | Ok c => c | Raise _ => []
  end.
Definition present (now : Z) (db : Ledger) : res Ledger :=
  Refinement.validate_runtime_context mac digest Some text_only variables context (materialize_body "sales" context)
    "airflow" now true db.

Lemma context_built :
  Airflow.build_materialize_context mac digest variables nonce "t1" "w1" "crm" "sales" "run-1" 1000 = Ok context.
Proof. vm_compute. reflexivity. Qed.

Lemma built_context_accepted_witness : ∃ db, present 1100 ledger = Ok db.
Proof.
  apply (built_context_accepted mac digest Some text_only (λ _ _, eq_refl) (λ _, eq_refl) (λ _ _, eq_refl)
    variables variables nonce "t1" "w1" "crm" "sales" "run-1" 1000 1100 (repeat_char 32 "k") "t1" "w1" context ledger).
  - exact context_built.
  - vm_compute. reflexivity.
  - vm_compute. reflexivity.
  - split; vm_compute; discriminate.
  - vm_compute. reflexivity.
  - vm_compute. reflexivity.
  - vm_compute. repeat constructor.
  - vm_compute. reflexivity.
  - vm_compute. reflexivity.
  - vm_compute. reflexivity.
  - decide_now.
  - decide_now.
  - vm_compute. reflexivity.
Defined.

Lemma presented_once : match present 1100 ledger with Ok _ => True | Raise _ => False end.
Proof. vm_compute. exact I. Qed.

Lemma authority_exact_once_witness :
  ∃ db, present 1100 ledger = Ok db ∧ field "dataset" context = "sales" ∧ ¬ is_ok (present 1101 db).
Proof.
  pose proof presented_once as Hp. unfold present in *.
  destruct (Refinement.validate_runtime_context _ _ _ _ _ _ _ _ 1100 _ ledger) as [db|] eqn:E; [|destruct Hp].
  destruct (authority_exact_once mac digest Some text_only variables context (materialize_body "sales" context) "airflow"
    1100 ledger db E) as (_ & _ & _ & _ & _ & Hagain).
  exists db. split; [reflexivity|]. split; [reflexivity|].
  apply (Hagain variables (materialize_body "sales" context) "airflow" 1101 db). reflexivity.
Defined.
End Presented.
