(* ===== verification/RunAdmission.v ===== *)
(** The admission of a cartridge's run (airflow/dags/cartridge_run_admission.py):
    a DAG runs for a tenant and a workspace only under a signed authority for its
    cartridge, and under none but its own when the authority names a run. *)
From S2P Require Import Prelude PyStr PyVal PyTime PyJson SignedContext.

Open Scope Z_scope.

Definition RUN_ISSUERS : list string := ["console"; "workspace"; "mcp-infra"; "airflow"].
Definition RUN_PERMISSIONS : list string := ["pipelines.run"; "cartridges.execute"].
Definition RUN_PURPOSE : string := "cartridge.run".
Definition RUN_AUDIENCE : string := "airflow".
Definition RESERVED_CONF_KEYS : list string :=
  ["security_context"; "tenant_id"; "workspace_id"; "cartridge_id"; "conn_id"; "connection_id"; "triggered_by"].
Definition MINTED_PERMISSIONS : list string := ["cartridges.execute"; "vault.secrets.reveal"; "pipelines.run"].
Definition _PRINCIPAL_MAX : nat := 200.

(** Groups of 8, 4, 4, 4 and 12 hexadecimal digits. *)
Definition _UUID_RE (s : string) : bool :=
  match split_on "-" s with
  | [a; b; c; d; e] =>
      forallb (λ gn, Nat.eqb (slen gn.1) gn.2 && sall is_lower_hex gn.1) [(a, 8); (b, 4); (c, 4); (d, 4); (e, 12)]%nat
  | _ => false
  end.

Definition is_cartridge_char (c : ascii) : bool := is_ascii_lower c || is_dec_digit c || bool_decide (c = "_"%char).
Definition _CARTRIDGE_RE (s : string) : bool := all_of is_cartridge_char s && Nat.leb (slen s) 64.

(** The attributes of a DAG run the code reads. *)
Record DagRun := mkDagRun { dr_dag_id : pyval; dr_run_id : pyval; queued_at : option instant; start_date : option instant }.

(** [int(moment.timestamp())]. *)
Definition admission_time (dag_run : DagRun) : option Z :=
  (λ moment, Z.quot moment 1000000) <$> (match queued_at dag_run with Some q => Some q | None => start_date dag_run end).

Record AdmittedRun := mkAdmitted {
  a_cartridge_id : string;
  a_tenant_id : string;
  a_workspace_id : string;
  a_principal : string;
  a_source : string }.

Section Admission.
Context {Hrepr : PyRepr}.
Context (hmac_sha256 : string → string → string).
Context (environ : environment).

Definition _allowed_buckets : list string :=
  foldl (λ buckets candidate,
    let value := strip candidate in if nonempty value && negb (mem value buckets) then buckets ++ [value] else buckets)%list
    [] ["lakehouse"; default "" (afind "MINIO_BUCKET" environ); default "" (afind "S3_BUCKET_NAME" environ)].

Definition refused {A} (msg : string) : res A := raise RunAdmissionError msg.

Definition _cartridge (value : pyval) : res string :=
  let cartridge := strip (str_or_empty value) in
  if _CARTRIDGE_RE cartridge then Ok cartridge else refused "run cartridge is invalid".

Definition _scope (tenant_id workspace_id : pyval) : res (string * string) :=
  let tenant := lower (strip (str_or_empty tenant_id)) in
  let workspace := lower (strip (str_or_empty workspace_id)) in
  if negb (_UUID_RE tenant) || negb (_UUID_RE workspace) then refused "run needs tenant_id and workspace_id UUIDs"
  else Ok (tenant, workspace).

Definition _principal (value : pyval) (fallback : string) : string :=
  let text := strip (if is_none value || eq_str value "" then fallback else py_str value) in
  let cut := stake _PRINCIPAL_MAX text in
  if nonempty cut then cut else fallback.

(** The methods of an admitted run. *)
Definition scope (r : AdmittedRun) : string :=
  "tenant_id=" +:+ a_tenant_id r +:+ "/workspace_id=" +:+ a_workspace_id r +:+ "/".
Definition default_prefixes (r : AdmittedRun) : list string :=
  ["raw/" +:+ a_cartridge_id r +:+ "/"; "silver/" +:+ a_cartridge_id r +:+ "/" +:+ scope r;
   "gold/" +:+ a_cartridge_id r +:+ "/" +:+ scope r].
Definition context (r : AdmittedRun) (user_id : string) (prefixes : option (list string)) (now : Z) : res pydict :=
  let actor := strip user_id in
  if negb (nonempty actor) then refused "minted context needs a user_id"
  else
    Airflow.sign_runtime_context hmac_sha256 environ (mkdict
      [("trusted", PBool true); ("source", PStr "airflow"); ("user_id", PStr actor); ("on_behalf_of", PStr (a_principal r));
       ("role", PStr "admin"); ("workspace_role", PStr "service"); ("tenant_id", PStr (a_tenant_id r));
       ("workspace_id", PStr (a_workspace_id r)); ("permissions", strs MINTED_PERMISSIONS);
       ("allowed_cartridges", strs [a_cartridge_id r]); ("allowed_buckets", strs _allowed_buckets);
       ("allowed_prefixes", strs (default (default_prefixes r) prefixes))]) now.

(** [{str(item) for item in v or []}], each text through [f]. *)
Definition text_items (f : string → string) (v : pyval) : res (list string) :=
  items ← py_iter (py_or v (PList []));
  Ok (List.map (λ x, f (py_str x)) items).

(** [v not in (None, s)]. *)
Definition none_or (v : pyval) (s : string) : bool := is_none v || eq_str v s.

(** [wall]: [int(time.time())], read when no time of admission is known. *)
Definition admit_run (conf : pyval) (cartridge_id : pyval) (dag_run : DagRun) (admitted_at : option Z) (wall : Z) :
    res AdmittedRun :=
  cartridge ← _cartridge cartridge_id;
  let values := default [] (as_dict conf) in
  match get "security_context" values with
  | PDict ctx =>
      _ ← require (is_true (get "trusted" ctx)) RunAdmissionError "signed run authority is required";
      let source := str_or_empty (get "source" ctx) in
      _ ← require (mem source RUN_ISSUERS) RunAdmissionError "run authority issuer is not accepted";
      _ ← require (none_or (get "purpose" ctx) RUN_PURPOSE && none_or (get "audience" ctx) RUN_AUDIENCE)
            RunAdmissionError "run authority was issued for another purpose";
      let clock := match admitted_at with Some t => t | None => default wall (admission_time dag_run) end in
      _ ← match Airflow.verify_runtime_signature hmac_sha256 environ ctx clock with
          | Ok _ => Ok tt
          | Raise e =>
              if exn_isa (exn_cls e) ValueError then refused ("run authority rejected: " +:+ exn_msg e) else Raise e
          end;
      '(tenant, workspace) ← _scope (get "tenant_id" ctx) (get "workspace_id" ctx);
      let matches (supplied expected : string) := negb (nonempty supplied) || bool_decide (supplied = expected) in
      _ ← require (matches (lower (field "tenant_id" values)) tenant) RunAdmissionError
            "conf tenant_id does not match run authority";
      _ ← require (matches (lower (field "workspace_id" values)) workspace) RunAdmissionError
            "conf workspace_id does not match run authority";
      allowed ← text_items strip (get "allowed_cartridges" ctx);
      _ ← require (mem "*" allowed || mem cartridge allowed) RunAdmissionError "cartridge is not allowed by run authority";
      permissions ← text_items id (get "permissions" ctx);
      _ ← require (existsb (λ p, mem p permissions) RUN_PERMISSIONS) RunAdmissionError
            "run authority lacks a run permission";
      let bound := [str_or_empty (get "dag_id" ctx); str_or_empty (get "dag_run_id" ctx)] in
      let actual := [str_or_empty (dr_dag_id dag_run); str_or_empty (dr_run_id dag_run)] in
      _ ← require (negb (has_key "dag_id" ctx || has_key "dag_run_id" ctx)
                   || forallb nonempty bound && bool_decide (bound = actual))
            RunAdmissionError "run authority is bound to another run";
      Ok (mkAdmitted cartridge tenant workspace (_principal (get "user_id" ctx) source) source)
  | _ => refused "signed run authority is required"
  end.

Definition service_run (cartridge_id : pyval) (tenant_id workspace_id : pyval) (principal : string) : res AdmittedRun :=
  '(tenant, workspace) ← _scope tenant_id workspace_id;
  let actor := strip principal in
  if negb (nonempty actor) then refused "service run needs a principal"
  else
    cartridge ← _cartridge cartridge_id;
    Ok (mkAdmitted cartridge tenant workspace (stake _PRINCIPAL_MAX actor) "airflow").

Definition strip_reserved (params : pyval) : pydict :=
  match params with
  | PDict d =>
      List.filter (λ kv, match kv.1 with
                         | KStr k => negb (mem k RESERVED_CONF_KEYS) && negb (startswith "_" k)
                         | KInt _ => false
                         end) d
  | _ => []
  end.
End Admission.

(** ** Properties *)
Section Properties.
Context {Hrepr : PyRepr}.
Context (hmac_sha256 : string → string → string) (sha256_hex : string → string).

Abbreviation admit_run := (admit_run hmac_sha256).

Lemma none_or_true v s : none_or v s = true → v = PNone ∨ v = PStr s.
Proof. unfold none_or. intros [H|H]%orb_true_iff; [left; by destruct v|right; by apply eq_str_true]. Qed.

Lemma scope_ok t w tenant workspace :
  _scope t w = Ok (tenant, workspace) →
  tenant = lower (strip (str_or_empty t)) ∧ workspace = lower (strip (str_or_empty w))
  ∧ _UUID_RE tenant = true ∧ _UUID_RE workspace = true.
Proof.
  unfold _scope. destruct (negb _ || negb _) eqn:E; [done|]. intros [= <- <-]. boolify. done.
Qed.

Lemma cartridge_ok v c : _cartridge v = Ok c → c = strip (str_or_empty v) ∧ _CARTRIDGE_RE c = true.
Proof. unfold _cartridge. destruct (_CARTRIDGE_RE _) eqn:E; [|done]. by intros [= <-]. Qed.

(** A cartridge runs only under an authority that the platform's key signed,
    fresh when the run was queued, issued for runs, with a run permission and
    for that cartridge; the run's scope is the authority's, whatever the
    configuration says; and an authority that names a run serves no other. *)
Theorem admit_run_sound environ conf cartridge_id dag_run admitted_at wall r :
  admit_run environ conf cartridge_id dag_run admitted_at wall = Ok r →
  ∃ values ctx, conf = PDict values ∧ get "security_context" values = PDict ctx
  ∧ let clock := match admitted_at with Some t => t | None => default wall (admission_time dag_run) end in
    (∃ key, Airflow._signing_key environ = Ok key ∧ signed_by hmac_sha256 key ctx)
  ∧ (∃ signed_at, py_int (get "_signed_at" ctx) = Ok signed_at
       ∧ clock - Airflow._TTL_SECONDS <= signed_at <= clock + Airflow._FUTURE_SKEW_SECONDS)
  ∧ a_source r ∈ RUN_ISSUERS ∧ get "trusted" ctx = PBool true
  ∧ (get "purpose" ctx = PNone ∨ get "purpose" ctx = PStr RUN_PURPOSE)
  ∧ a_cartridge_id r = strip (str_or_empty cartridge_id) ∧ _CARTRIDGE_RE (a_cartridge_id r) = true
  ∧ (∃ allowed, text_items strip (get "allowed_cartridges" ctx) = Ok allowed
       ∧ ("*" ∈ allowed ∨ a_cartridge_id r ∈ allowed))
  ∧ a_tenant_id r = lower (field "tenant_id" ctx) ∧ a_workspace_id r = lower (field "workspace_id" ctx)
  ∧ _UUID_RE (a_tenant_id r) = true ∧ _UUID_RE (a_workspace_id r) = true
  ∧ (has_key "dag_id" ctx = true ∨ has_key "dag_run_id" ctx = true →
       str_or_empty (get "dag_id" ctx) = str_or_empty (dr_dag_id dag_run)
       ∧ str_or_empty (get "dag_run_id" ctx) = str_or_empty (dr_run_id dag_run)).
Proof.
  unfold RunAdmission.admit_run. intros (cartridge & [Hc Hre]%cartridge_ok & H)%bind_ok.
  destruct conf as [| | | | | |values]; [discriminate H..|]. change (default [] (as_dict (PDict values))) with values in H. cbv zeta in H.
  destruct (get "security_context" values) as [| | | | | |ctx] eqn:Ectx; [discriminate H..|]. exists values, ctx.
  split; [done|]. split; [done|]. set (clock := match admitted_at with Some t => t | None => _ end) in *.
  guards_in H. apply bind_ok in H as ([] & Hver & H).
  destruct (Airflow.verify_runtime_signature hmac_sha256 environ ctx clock) as [[]|e] eqn:Ev; [|by destruct (exn_isa _ _)].
  apply verify_ok in Ev as [Hsig Hat]. apply bind_ok in H as ([tenant workspace] & (Ht & Hw & Hut & Huw)%scope_ok & H).
  guards_in H. apply bind_ok in H as (allowed & Hal & H). guards_in H. apply bind_ok in H as (perms & Hp & H).
  guards_in H. injection H as <-. cbn [a_cartridge_id a_tenant_id a_workspace_id a_source].
  split_and!; try done.
  - by apply mem_true.
  - by destruct (get "trusted" ctx) as [|[]| | | | |].
  - boolify. by apply none_or_true.
  - exists allowed. split; [done|]. rewrite <- !mem_true. by apply orb_true_iff.
  - intros Hkeys. match goal with G : negb (has_key _ _ || _) || _ = true |- _ => apply orb_true_iff in G as [HG|HG] end.
    + apply negb_true_iff, orb_false_iff in HG as [HG1 HG2]. destruct Hkeys; congruence.
    + apply andb_true_iff in HG as [_ HG%bool_decide_eq_true]. by injection HG.
Qed.

Context (Hhmac : ∀ key bytes, _HEX_64 (hmac_sha256 key bytes) = true).

Lemma get_has_key k d s : get k d = PStr s → has_key k d = true.
Proof. unfold get. rewrite has_key_true. destruct (dget k d) as [v|]; [eauto|done]. Qed.

(** What an admission reads of a context the scheduler built. *)
Lemma scheduled_context environ cartridge tenant workspace dag dag_run issuer now context :
  Airflow.build_scheduled_run_context hmac_sha256 environ cartridge tenant workspace dag dag_run issuer now = Ok context →
  (strip dag ≠ "" ∧ strip dag_run ≠ "")
  ∧ get "_signed_at" context = PInt now ∧ get "_signature_version" context = PStr Airflow.SIGNATURE_VERSION
  ∧ (∃ key, Airflow._signing_key environ = Ok key ∧ signed_by hmac_sha256 key context)
  ∧ get "trusted" context = PBool true
  ∧ (λ k, get k context) <$> ["source"; "audience"; "purpose"; "user_id"; "tenant_id"; "workspace_id"; "dag_id"; "dag_run_id"]
    = PStr <$> ["airflow"; RUN_AUDIENCE; RUN_PURPOSE; "airflow:" +:+ strip issuer; strip tenant; strip workspace; strip dag;
                strip dag_run]
  ∧ (λ k, get k context) <$> ["permissions"; "allowed_cartridges"] = strs <$> [["pipelines.run"]; [strip cartridge]].
Proof.
  unfold Airflow.build_scheduled_run_context. intros H.
  apply bind_ok in H as (? & [-> _]%required_text_ok & H). apply bind_ok in H as (? & [-> _]%required_text_ok & H).
  apply bind_ok in H as (? & [-> _]%required_text_ok & H). apply bind_ok in H as (? & [-> _]%required_text_ok & H).
  apply bind_ok in H as (? & [-> Hd]%required_text_ok & H). apply bind_ok in H as (? & [-> Hr]%required_text_ok & H). split; [done|].
  set (i := strip issuer) in *. set (t := strip tenant) in *. set (w := strip workspace) in *. set (c := strip cartridge) in *.
  set (g := strip dag) in *. set (r := strip dag_run) in *. clearbody i t w c g r.
  pose proof H as (H1 & H2 & H3 & H4)%sign_context_fields. repeat (split; [done|]).
  cbn [fmap list_fmap]. rewrite !H3 by decide_now. split_and!; vm_compute; reflexivity.
Qed.

(** The authority the scheduler signs for a run admits that run, under the
    scope it was signed for, and refuses every other one. *)
Theorem scheduled_run_admitted environ environ' key cartridge tenant workspace dag dag_run issuer at_ context values now wall d :
  Airflow.build_scheduled_run_context hmac_sha256 environ cartridge tenant workspace dag dag_run issuer at_ = Ok context →
  Airflow._signing_key environ = Ok key → Airflow._signing_key environ' = Ok key →
  now - Airflow._TTL_SECONDS <= at_ <= now + Airflow._FUTURE_SKEW_SECONDS →
  _CARTRIDGE_RE (strip cartridge) = true →
  _UUID_RE (lower (strip tenant)) = true → _UUID_RE (lower (strip workspace)) = true →
  get "security_context" values = PDict context →
  lower (field "tenant_id" values) ∈ [""; lower (strip tenant)] →
  lower (field "workspace_id" values) ∈ [""; lower (strip workspace)] →
  admit_run environ' (PDict values) (PStr cartridge) d (Some now) wall =
    if bool_decide ((str_or_empty (dr_dag_id d), str_or_empty (dr_run_id d)) = (strip dag, strip dag_run))
    then Ok (mkAdmitted (strip cartridge) (lower (strip tenant)) (lower (strip workspace))
               (_principal (PStr ("airflow:" +:+ strip issuer)) "airflow") "airflow")
    else refused "run authority is bound to another run".
Proof.
  intros Hbuilt Hkey Hkey' Hwin Hcart Hut Huw Hsc Hvt Hvw.
  apply scheduled_context in Hbuilt as ([Hd Hr] & Hat & Hver & (key' & Hkey2 & Hsigned) & Htrust & Hstr & Hlist).
  rewrite Hkey in Hkey2. injection Hkey2 as <-. cbn [fmap list_fmap] in Hstr, Hlist.
  injection Hstr as Es Ea Ep Eu Et Ew Ed Er. injection Hlist as Eperm Ec.
  unfold RunAdmission.admit_run, _cartridge. rewrite str_or_empty_str, Hcart. cbn [mbind res_bind].
  change (default [] (as_dict (PDict values))) with values. cbv zeta. rewrite Hsc, Htrust, Es, Ea, Ep.
  pass (done). pass (vm_compute; reflexivity). pass (vm_compute; reflexivity).
  rewrite (verify_accepts _ Hhmac _ _ _ at_ now Hkey' Hsigned Hver Hat Hwin). cbn [mbind res_bind].
  unfold _scope. rewrite Et, Ew, !str_or_empty_str, !strip_idem, Hut, Huw. cbn [negb orb mbind res_bind].
  assert (Hmatch : ∀ s t, s ∈ [""; t] → negb (nonempty s) || bool_decide (s = t) = true).
  { intros s t. rewrite !elem_of_cons, elem_of_nil. intros [->|[->|[]]]; [done|]. by rewrite (bool_decide_eq_true_2 (t = t)), orb_true_r. }
  pass (by apply Hmatch). pass (by apply Hmatch). rewrite Ec, Eperm.
  change (text_items strip (strs [strip cartridge])) with (@Ok (list string) [strip (strip cartridge)]).
  change (text_items id (strs ["pipelines.run"])) with (@Ok (list string) ["pipelines.run"]). cbn [mbind res_bind].
  pass (apply orb_true_iff; right; apply mem_true; rewrite strip_idem; by apply list_elem_of_singleton).
  pass (vm_compute; reflexivity). rewrite (get_has_key _ _ _ Ed). cbn [negb orb]. rewrite Ed, Er, !str_or_empty_str, Eu.
  replace (forallb nonempty [strip dag; strip dag_run]) with true
    by (symmetry; cbn [forallb]; by rewrite (proj2 (nonempty_true _) Hd), (proj2 (nonempty_true _) Hr)).
  cbn [andb]. destruct (decide ((str_or_empty (dr_dag_id d), str_or_empty (dr_run_id d)) = (strip dag, strip dag_run))) as [E|E].
  - injection E as E1 E2. rewrite E1, E2. by rewrite !bool_decide_eq_true_2.
  - rewrite !bool_decide_eq_false_2; [done|done|]. intros [= E1 E2]. by rewrite E1, E2 in E.
Qed.
End Properties.

(** A run of the scheduler, admitted twenty seconds after it was signed. *)
Module Scheduled.
#[local] Instance repr : PyRepr := some_repr.
Definition mac (key bytes : string) : string := repeat_char 64 "f".
Definition variables : environment := [("SECURITY_CONTEXT_SIGNING_KEY", repeat_char 32 "k")].
Definition tenant : string := "00000000-0000-4000-8000-000000000001".
Definition workspace : string := "00000000-0000-4000-8000-00000000000A".
Definition authority : pydict :=
  match Airflow.build_scheduled_run_context mac variables "sap_b1" tenant workspace "extract" "run-7" "entity_scheduler" 1000 with
  | Ok c => c | Raise _ => []
  end.
Definition conf : pydict := mkdict [("tenant_id", PStr tenant); ("security_context", PDict authority)].
Definition run (id : string) : DagRun := mkDagRun (PStr "extract") (PStr id) (Some (seconds 1020)) None.
Definition admitted : AdmittedRun :=
  mkAdmitted "sap_b1" tenant (lower workspace) "airflow:entity_scheduler" "airflow".

Lemma scheduled_run_admitted_witness :
  admit_run mac variables (PDict conf) (PStr "sap_b1") (run "run-7") (Some 1020) 0 = Ok admitted
  ∧ is_ok (admit_run mac variables (PDict conf) (PStr "sap_b1") (run "run-8") (Some 1020) 0) = false.
Proof.
  assert (H : ∀ d, admit_run mac variables (PDict conf) (PStr "sap_b1") d (Some 1020) 0 =
    if bool_decide ((str_or_empty (dr_dag_id d), str_or_empty (dr_run_id d)) = ("extract", "run-7"))
    then Ok admitted else refused "run authority is bound to another run").
  { intros d. apply (scheduled_run_admitted mac (λ _ _, eq_refl) variables variables (repeat_char 32 "k") "sap_b1" tenant
      workspace "extract" "run-7" "entity_scheduler" 1000 authority conf 1020 0 d); try (vm_compute; reflexivity).
    - split; vm_compute; discriminate.
    - decide_now.
    - decide_now. }
  split; rewrite H; vm_compute; reflexivity.
Defined.

Lemma admitted_by_signature :
  match admit_run mac variables (PDict conf) (PStr "sap_b1") (run "run-7") None 0 with Ok r => r = admitted | Raise _ => False end.
Proof. vm_compute. reflexivity. Qed.

Lemma admit_run_sound_witness :
  a_cartridge_id admitted = "sap_b1" ∧ _UUID_RE (a_tenant_id admitted) = true.
Proof.
  pose proof admitted_by_signature as Ha. destruct (admit_run mac variables _ _ _ _ _) as [r|] eqn:E; [|destruct Ha]. subst r.
  destruct (admit_run_sound mac variables (PDict conf) (PStr "sap_b1") (run "run-7") None 0 admitted E)
    as (values & ctx & _ & _ & _ & _ & _ & _ & _ & Hc & _ & _ & _ & _ & Hu & _).
  split; [exact Hc|exact Hu].
Defined.
End Scheduled.
