(* ===== verification/RefreshAdmission.v ===== *)
(** The admission of a dataset refresh (airflow/dags/dataset_refresh_admission.py):
    a DAG that extracted data signs an envelope for the refresh it triggers, bound
    to one run and one configuration, and the refresh consumes it in the replay
    ledger (the function [consume_dataset_refresh_admission] of
    infra/init/99zzo_runtime_hmac_authority.sql) before it does anything.

    The process reads its clock in seconds and the database in microseconds; the
    function runs alone on the row of its nonce. *)
From S2P Require Import Prelude PyStr PyVal PyTime PyJson SignedContext RunAdmission.

Open Scope Z_scope.

Definition VERSION : string := "hmac-sha256-v1".
Definition PURPOSE : string := "dataset_refresh.admit".
Definition _DIRECT_TTL : Z := 300.
Definition _BRIDGE_TTL : Z := 86400.
Definition _FIELDS : list string :=
  ["source"; "audience"; "purpose"; "dag_id"; "dag_run_id"; "tenant_id"; "workspace_id"; "cartridge_id"; "seed_raw";
   "seed_dataset"; "max_depth"; "conf_digest"; "jti"; "_signed_at"; "_expires_at"; "_signature_version"; "_signature"].
Definition UPSTREAM_SOURCES : list string := ["airflow"; "console"; "mcp-infra"; "workspace"].

(** [bytes.fromhex] accepts the text: pairs of digits, with white space between pairs. *)
Fixpoint fromhex_ok (s : string) : bool :=
  match s with
  | "" => true
  | String a t =>
      if between 9 13 a || bool_decide (a = " "%char) then fromhex_ok t
      else match t with String b u => is_hex_digit a && is_hex_digit b && fromhex_ok u | "" => false end
  end.

(** ** The ledger's function *)

(** The row of an admission. *)
Definition admission_row (tenant workspace run cartridge digest : string) (signed_at expires_at : Z) : Nonce :=
  mkNonce tenant workspace run "airflow" PURPOSE digest signed_at expires_at (Some "dataset_refresh_chain") (Some cartridge).

(** [airflow]: the session is the role of the DAGs. *)
Definition consume_dataset_refresh_admission (airflow : bool) (db_now : instant) (jti tenant workspace run cartridge digest : string)
    (signed_at expires_at : Z) (db : Ledger) : res Ledger :=
  let row := admission_row tenant workspace run cartridge digest signed_at expires_at in
  match l_nonces db !! jti with
  | Some n =>
      if bool_decide (n = row) then Ok db else raise UniqueViolationError "dataset refresh admission replay mismatch"
  | None =>
      if negb airflow || negb (_HEX_64 jti) || negb (_HEX_64 digest) || negb (nonempty run) || negb (nonempty cartridge)
         || negb ((expires_at - signed_at =? _DIRECT_TTL) || (expires_at - signed_at =? _BRIDGE_TTL))
         || (seconds expires_at <=? db_now) || negb (bool_decide (l_workspaces db !! workspace = Some tenant))
      then raise InsufficientPrivilege "dataset refresh admission is invalid"
      else insert_nonce jti row db
  end.

Section Admission.
Context {Hrepr : PyRepr}.
Context (hmac_sha256 : string → string → string) (sha256_hex : string → string).
Context (uuid : string → option string).
Context (environ : environment).

Definition _conf_digest (conf : pydict) : res string :=
  bytes ← _canonical (dpop "security_context" conf);
  Ok (sha256_hex bytes).

Definition _key : res string :=
  let value := env_text "SECURITY_CONTEXT_SIGNING_KEY" environ in
  if Nat.ltb (slen value) 32 then raise ValueError "dataset refresh admission key unavailable" else Ok (utf8 value).

(** [int(conf.get("max_depth") or 10)]. *)
Definition max_depth (conf : pydict) : res Z := py_int (py_or (get "max_depth" conf) (PInt 10)).

(** [token]: [secrets.token_hex(32)]. *)
Definition build_dataset_refresh_admission (token : string) (upstream_context conf : pydict) (dag_run_id : string) (now : Z) :
    res pydict :=
  _ ← Airflow.verify_runtime_signature hmac_sha256 environ upstream_context now;
  let tenant_id := field "tenant_id" upstream_context in
  let workspace_id := field "workspace_id" upstream_context in
  let cartridge_id := field "cartridge_id" conf in
  allowed ← text_items id (get "allowed_cartridges" upstream_context);
  permissions ← text_items id (get "permissions" upstream_context);
  _ ← require (is_true (get "trusted" upstream_context)
               && mem (str_or_empty (get "source" upstream_context)) UPSTREAM_SOURCES
               && mem "pipelines.run" permissions && nonempty tenant_id && nonempty workspace_id && nonempty cartridge_id
               && (mem "*" allowed || mem cartridge_id allowed))
        ValueError "dataset refresh upstream authority mismatch";
  depth ← max_depth conf;
  digest ← _conf_digest conf;
  let envelope := mkdict
    [("source", PStr "airflow:file_ingest"); ("audience", PStr "airflow"); ("purpose", PStr PURPOSE);
     ("dag_id", PStr "dataset_refresh_chain"); ("dag_run_id", PStr dag_run_id); ("tenant_id", PStr tenant_id);
     ("workspace_id", PStr workspace_id); ("cartridge_id", PStr cartridge_id);
     ("seed_raw", PStr (str_or_empty (get "seed_raw" conf))); ("seed_dataset", PStr (str_or_empty (get "seed_dataset" conf)));
     ("max_depth", PInt depth); ("jti", PStr token); ("conf_digest", PStr digest); ("_signed_at", PInt now);
     ("_signature_version", PStr VERSION); ("_expires_at", PInt (now + _BRIDGE_TTL))] in
  key ← _key;
  bytes ← _canonical envelope;
  Ok (dset "_signature" (PStr (hmac_sha256 key bytes)) envelope).

Definition clean_prefix (prefix : string) : string :=
  stake 40 (sfilter (λ c, is_alnum c || char_in c "_-") prefix).

(** The [dag_run_id] and the [conf] of the trigger. *)
Definition build_dataset_refresh_trigger (token : string) (upstream_context conf : pydict) (source_dag_run_id prefix : string)
    (now : Z) : res (string * pydict) :=
  let source_run := strip source_dag_run_id in
  let clean := clean_prefix prefix in
  _ ← require (nonempty source_run && nonempty clean) ValueError "dataset refresh source run is incomplete";
  bytes ← _canonical (mkdict [("source_dag_run_id", PStr source_run); ("conf", PDict conf)]);
  let target_digest := stake 32 (sha256_hex bytes) in
  let dag_run_id := clean +:+ "__dataset_refresh__" +:+ target_digest in
  admission ← build_dataset_refresh_admission token upstream_context conf dag_run_id now;
  Ok (dag_run_id, dset "security_context" (PDict admission) conf).

(** The fields of an envelope that the configuration and the run fix. *)
Definition fixed (conf : pydict) (run_id : string) (depth : Z) (digest : string) : list (string * pyval) :=
  [("audience", PStr "airflow"); ("purpose", PStr PURPOSE); ("dag_id", PStr "dataset_refresh_chain"); ("dag_run_id", PStr run_id);
   ("tenant_id", PStr (field "tenant_id" conf)); ("workspace_id", PStr (field "workspace_id" conf));
   ("cartridge_id", PStr (field "cartridge_id" conf)); ("seed_raw", PStr (str_or_empty (get "seed_raw" conf)));
   ("seed_dataset", PStr (str_or_empty (get "seed_dataset" conf))); ("max_depth", PInt depth); ("conf_digest", PStr digest);
   ("_signature_version", PStr VERSION)].

(** [airflow], [db_now] and [db]: the database; [now]: the clock of the process. *)
Definition validate_dataset_refresh_admission (context : pyval) (conf : pydict) (run_id : string) (now : Z) (airflow : bool)
    (db_now : instant) (db : Ledger) : res ((string * string) * Ledger) :=
  match context with
  | PDict context =>
      _ ← require (keys_are _FIELDS context) ValueError "dataset refresh admission envelope mismatch";
      depth ← max_depth conf;
      digest ← _conf_digest conf;
      issuer ← in_str_set (get "source" context) ["mcp-infra"; "airflow:file_ingest"];
      _ ← require issuer ValueError "dataset refresh admission issuer mismatch";
      _ ← require (forallb (λ kv, py_eq (get kv.1 context) kv.2) (fixed conf run_id depth digest))
            ValueError "dataset refresh admission binding mismatch";
      let jti := py_str (get "jti" context) in
      signed_at ← int_or_error "dataset refresh admission identity invalid" (get "_signed_at" context);
      expires_at ← int_or_error "dataset refresh admission identity invalid" (get "_expires_at" context);
      _ ← require (fromhex_ok jti) ValueError "dataset refresh admission identity invalid";
      _ ← require (Nat.eqb (slen jti) 64 && negb (now + 30 <? signed_at)
                   && (expires_at - signed_at =? if eq_str (get "source" context) "mcp-infra" then _DIRECT_TTL else _BRIDGE_TTL))
            ValueError "dataset refresh admission expired";
      key ← _key;
      bytes ← _canonical context;
      equal ← compare_digest (str_or_empty (get "_signature" context)) (hmac_sha256 key bytes);
      _ ← require equal ValueError "dataset refresh admission signature mismatch";
      let tenant := field "tenant_id" conf in
      let workspace := field "workspace_id" conf in
      _ ← require (nonempty tenant && nonempty workspace) ValueError "dataset refresh admission scope is incomplete";
      _ ← require (negb (char_in NUL run_id) && negb (char_in NUL (field "cartridge_id" conf))) ValueError "";
      u ← cast_uuid uuid tenant;
      v ← cast_uuid uuid workspace;
      db' ← consume_dataset_refresh_admission airflow db_now jti u v run_id (field "cartridge_id" conf) digest signed_at
              expires_at db;
      Ok ((tenant, workspace), db')
  | _ => raise ValueError "dataset refresh admission envelope mismatch"
  end.
End Admission.

(** ** Properties *)
Section Properties.
Context {Hrepr : PyRepr}.
Context (hmac_sha256 : string → string → string) (sha256_hex : string → string).
Context (uuid : string → option string).

Abbreviation validate := (validate_dataset_refresh_admission hmac_sha256 sha256_hex uuid).
Abbreviation _conf_digest := (_conf_digest sha256_hex).

Lemma consume_admission_ok airflow db_now jti tenant workspace run cartridge digest signed_at expires_at db db' :
  consume_dataset_refresh_admission airflow db_now jti tenant workspace run cartridge digest signed_at expires_at db = Ok db' →
  let row := admission_row tenant workspace run cartridge digest signed_at expires_at in
  l_nonces db' !! jti = Some row
  ∧ (l_nonces db !! jti = Some row ∧ db' = db
     ∨ l_nonces db !! jti = None ∧ l_nonces db' = <[jti := row]> (l_nonces db) ∧ db_now < seconds expires_at).
Proof.
  unfold consume_dataset_refresh_admission. destruct (l_nonces db !! jti) as [n|] eqn:En.
  - case_bool_decide as E; [|done]. intros [= <-]. subst n. auto.
  - destruct (_ || _) eqn:E; [done|]. intros [Hnew ->]%insert_nonce_ok. cbn [l_nonces]. rewrite lookup_insert_eq.
    split; [done|]. right. split_and!; [done..|]. boolify. by match goal with G : (_ <=? _) = false |- _ => apply Z.leb_gt in G end.
Qed.

Lemma validate_ok environ context conf run_id now airflow db_now db scope db' :
  validate environ context conf run_id now airflow db_now db = Ok (scope, db') →
  ∃ d depth digest u v signed_at expires_at,
    context = PDict d ∧ max_depth conf = Ok depth ∧ _conf_digest conf = Ok digest
    ∧ forallb (λ kv, py_eq (get kv.1 d) kv.2) (fixed conf run_id depth digest) = true
    ∧ (∃ key bytes, _key environ = Ok key ∧ _canonical d = Ok bytes
         ∧ str_or_empty (get "_signature" d) = hmac_sha256 key bytes)
    ∧ signed_at <= now + 30 ∧ py_int (get "_signed_at" d) = Ok signed_at
    ∧ scope = (field "tenant_id" conf, field "workspace_id" conf)
    ∧ uuid scope.1 = Some u ∧ uuid scope.2 = Some v
    ∧ consume_dataset_refresh_admission airflow db_now (py_str (get "jti" d)) u v run_id (field "cartridge_id" conf)
        digest signed_at expires_at db = Ok db'.
Proof.
  destruct context as [| | | | | |d]; try (intros E; discriminate E). unfold validate_dataset_refresh_admission. intros H.
  guards_in H. apply bind_ok in H as (depth & Hdepth & H). apply bind_ok in H as (digest & Hdig & H).
  apply bind_ok in H as (issuer & _ & H). guards_in H. apply bind_ok in H as (signed_at & Hat%int_or_error_ok & H).
  apply bind_ok in H as (expires_at & _ & H). guards_in H. apply bind_ok in H as (key & Hkey & H).
  apply bind_ok in H as (bytes & Hb & H). apply bind_ok in H as (equal & Hc & H). guards_in H.
  apply bind_ok in H as (u & Hu & H). apply bind_ok in H as (v & Hv & H). apply bind_ok in H as (dbx & Hcons & [= <- <-]).
  subst equal. apply compare_digest_true in Hc. unfold cast_uuid in *.
  destruct (uuid (field "tenant_id" conf)) as [u'|] eqn:Eu; [injection Hu as ->|done].
  destruct (uuid (field "workspace_id" conf)) as [v'|] eqn:Ev; [injection Hv as ->|done].
  exists d, depth, digest, u, v, signed_at, expires_at. split_and!; try done.
  - by exists key, bytes.
  - boolify. lia.
Qed.

(** An admission serves one run of one configuration: an admitted refresh
    holds an envelope the platform's key signed for this run and this
    configuration, and whoever is admitted later under the same nonce - a retry -
    is the same run with the same configuration, cartridge and scope, and changes
    nothing. *)
Theorem admission_serves_one_run environ context conf run now airflow db_now db scope db1 :
  validate environ context conf run now airflow db_now db = Ok (scope, db1) →
  ∃ d depth digest, context = PDict d ∧ max_depth conf = Ok depth ∧ _conf_digest conf = Ok digest
    ∧ (∃ key bytes, _key environ = Ok key ∧ _canonical d = Ok bytes
         ∧ str_or_empty (get "_signature" d) = hmac_sha256 key bytes)
    ∧ forallb (λ kv, py_eq (get kv.1 d) kv.2) (fixed conf run depth digest) = true
    ∧ ∀ environ' d' conf' run' now' airflow' db_now' db2 scope' db3,
        l_nonces db1 ⊆ l_nonces db2 →
        validate environ' (PDict d') conf' run' now' airflow' db_now' db2 = Ok (scope', db3) →
        py_str (get "jti" d') = py_str (get "jti" d) →
        run' = run ∧ _conf_digest conf' = Ok digest ∧ field "cartridge_id" conf' = field "cartridge_id" conf
        ∧ uuid scope'.1 = uuid scope.1 ∧ uuid scope'.2 = uuid scope.2 ∧ db3 = db2.
Proof.
  intros (d & depth & digest & u & v & at_ & exp & -> & Hdepth & Hdig & Hfix & Hsig & _ & _ & -> & Hu & Hv & Hc)%validate_ok.
  exists d, depth, digest. repeat (split; [done|]). apply consume_admission_ok in Hc as [Hrow _].
  intros environ' d' conf' run' now' airflow' db_now' db2 scope' db3 Hsub H Hjti.
  apply validate_ok in H as (d2 & depth' & digest' & u' & v' & at' & exp' & [= <-] & _ & Hdig' & _ & _ & _ & _ & -> & Hu' & Hv' & Hc').
  apply consume_admission_ok in Hc' as [_ Hcase]. rewrite Hjti in Hcase.
  pose proof (lookup_weaken _ _ _ _ Hrow Hsub) as Hrow2. destruct Hcase as [[Hrow' ->]|[Hnone _]]; [|by rewrite Hrow2 in Hnone].
  rewrite Hrow2 in Hrow'. injection Hrow' as <- <- <- <- _ _ Hcart. rewrite Hu, Hu', Hv, Hv'. done.
Qed.

(** *** Accepting what was built *)

Lemma fromhex_hex n s : slen s = (n + n)%nat → sall is_lower_hex s = true → fromhex_ok s = true.
Proof.
  revert s. induction n as [|n IH]; intros s Hl Hs; [by destruct s|].
  destruct s as [|a [|b s]]; [done|simpl in Hl; lia|]. simpl in Hl. cbn [sall] in Hs.
  apply andb_true_iff in Hs as [Ha [Hb Hs]%andb_true_iff].
  assert (Hhex : ∀ c, implb (is_lower_hex c) (is_hex_digit c && negb (between 9 13 c || bool_decide (c = " "%char))) = true)
    by (apply ascii_ind_all; vm_compute; reflexivity).
  pose proof (Hhex a) as Ha'. pose proof (Hhex b) as Hb'. rewrite Ha in Ha'. rewrite Hb in Hb'. cbn [implb] in Ha', Hb'.
  apply andb_true_iff in Ha' as [Ha1 Ha2%negb_true_iff]. apply andb_true_iff in Hb' as [Hb1 _].
  cbn [fromhex_ok]. rewrite Ha2, Ha1, Hb1, IH by (done || lia). done.
Qed.

Lemma run_id_plain prefix digest :
  clean_prefix prefix ≠ "" → _HEX_64 digest = true →
  let run := clean_prefix prefix +:+ "__dataset_refresh__" +:+ stake 32 digest in
  run ≠ "" ∧ (slen run <= 250)%nat ∧ char_in NUL run = false.
Proof.
  intros Hne [_ Hd]%andb_true_iff run. split_and!.
  - intros E. apply (f_equal slen) in E. unfold run in E. rewrite !length_app_s in E. simpl in E. lia.
  - unfold run, clean_prefix. rewrite !length_app_s, !length_stake. change (slen "__dataset_refresh__") with 19%nat. lia.
  - unfold run. rewrite !char_in_app. replace (char_in NUL (clean_prefix prefix)) with false.
    + change (char_in NUL "__dataset_refresh__") with false. cbn [orb].
      apply (char_not_in is_lower_hex); [done|]. by apply sall_stake.
    + symmetry. apply (char_not_in (λ c, is_alnum c || char_in c "_-")); [done|]. by apply sall_stake, sall_sfilter.
Qed.

(** The envelope Airflow builds, as the validation reads it. *)
Lemma built_envelope environ token upstream conf run now d :
  build_dataset_refresh_admission hmac_sha256 sha256_hex environ token upstream conf run now = Ok d →
  ∃ depth digest, max_depth conf = Ok depth ∧ _conf_digest conf = Ok digest
    ∧ field "tenant_id" upstream ≠ "" ∧ field "workspace_id" upstream ≠ "" ∧ field "cartridge_id" conf ≠ ""
    ∧ keys_are _FIELDS d = true
    ∧ (∃ key bytes, _key environ = Ok key ∧ _canonical d = Ok bytes
         ∧ get "_signature" d = PStr (hmac_sha256 key bytes))
    ∧ (λ k, get k d) <$> ["source"; "jti"; "_signed_at"; "_expires_at"]
      = [PStr "airflow:file_ingest"; PStr token; PInt now; PInt (now + _BRIDGE_TTL)]
    ∧ (field "tenant_id" upstream = field "tenant_id" conf → field "workspace_id" upstream = field "workspace_id" conf →
         Forall (λ kv, get kv.1 d = kv.2) (fixed conf run depth digest)).
Proof.
  unfold build_dataset_refresh_admission. intros (_ & _ & H)%bind_ok. apply bind_ok in H as (allowed & _ & H).
  apply bind_ok in H as (perms & _ & H). guards_in H. apply bind_ok in H as (depth & Hdepth & H).
  apply bind_ok in H as (digest & Hdig & H). apply bind_ok in H as (key & Hkey & H). apply bind_ok in H as (bytes & Hb & [= <-]).
  exists depth, digest. boolify. split; [done|]. split; [done|].
  do 3 (split; [by apply nonempty_true|]). unfold fixed. set (tenant := field "tenant_id" upstream) in *.
  set (workspace := field "workspace_id" upstream) in *. set (c := field "cartridge_id" conf) in *.
  set (sr := str_or_empty (get "seed_raw" conf)) in *. set (sd := str_or_empty (get "seed_dataset" conf)) in *.
  set (until := now + _BRIDGE_TTL) in *. clearbody tenant workspace c sr sd until. clear - Hb Hkey.
  split; [vm_compute; reflexivity|]. split; [exists key, bytes; split; [done|]; split|split].
  - unfold _canonical in *. by rewrite dpop_dset.
  - by rewrite get_dset_eq.
  - vm_compute. reflexivity.
  - intros <- <-. repeat constructor; vm_compute; reflexivity.
Qed.

Context (Hhmac : ∀ key bytes, _HEX_64 (hmac_sha256 key bytes) = true).
Context (Hsha : ∀ bytes, _HEX_64 (sha256_hex bytes) = true).

Lemma fixed_agrees d conf run depth digest :
  Forall (λ kv, get kv.1 d = kv.2) (fixed conf run depth digest) →
  forallb (λ kv, py_eq (get kv.1 d) kv.2) (fixed conf run depth digest) = true.
Proof.
  intros H. apply forallb_elem. intros kv Hin. rewrite (proj1 (Forall_forall _ _) H kv Hin).
  assert (Hrefl : Forall (λ kv, py_eq kv.2 kv.2 = true) (fixed conf run depth digest)).
  { repeat constructor; cbn [snd]; try (by apply bool_decide_eq_true_2); cbn; by apply Z.eqb_refl. }
  by apply (proj1 (Forall_forall _ _) Hrefl kv).
Qed.

(** A validation of an envelope that Airflow built is what the ledger answers. *)
Lemma validate_accepts environ environ' token upstream conf run at_ now airflow db_now d refresh digest u v db :
  build_dataset_refresh_admission hmac_sha256 sha256_hex environ token upstream conf run at_ = Ok d →
  refresh = dset "security_context" (PDict d) conf → _conf_digest conf = Ok digest →
  _key environ' = _key environ → at_ <= now + 30 → _HEX_64 token = true →
  field "tenant_id" upstream = field "tenant_id" conf → field "workspace_id" upstream = field "workspace_id" conf →
  uuid (field "tenant_id" conf) = Some u → uuid (field "workspace_id" conf) = Some v →
  char_in NUL run = false → char_in NUL (field "cartridge_id" conf) = false →
  validate environ' (PDict d) refresh run now airflow db_now db =
    (db' ← consume_dataset_refresh_admission airflow db_now token u v run (field "cartridge_id" conf) digest at_
             (at_ + _BRIDGE_TTL) db;
     Ok ((field "tenant_id" conf, field "workspace_id" conf), db')).
Proof.
  intros Hb -> Hdig Hkey Hat Htok Ht Hw Hu Hv Hn1 Hn2. pose proof Htok as [Hlen%Nat.eqb_eq Hhex]%andb_true_iff.
  apply built_envelope in Hb as (depth & digest' & Hdepth & Hdig' & Ht0 & Hw0 & Hc0 & Hkeys & (key & bytes & Hk & Hbytes & Hsig) & Hget & Hfix).
  rewrite Hdig in Hdig'. injection Hdig' as <-. specialize (Hfix Ht Hw). rewrite Ht in Ht0. rewrite Hw in Hw0.
  cbn [fmap list_fmap] in Hget. injection Hget as Es Ej Eat Eexp.
  assert (Hsame : ∀ k, k ≠ "security_context" → get k (dset "security_context" (PDict d) conf) = get k conf)
    by (intros k Hk'; by apply get_dset_ne).
  unfold validate_dataset_refresh_admission. pass (done). unfold max_depth. rewrite Hsame by done. fold (max_depth conf).
  rewrite Hdepth. cbn [mbind res_bind]. unfold RefreshAdmission._conf_digest in *. rewrite dpop_dset, Hdig. cbn [mbind res_bind].
  rewrite Es. change (in_str_set (PStr "airflow:file_ingest") ["mcp-infra"; "airflow:file_ingest"]) with (@Ok bool true).
  cbn [mbind res_bind]. pass (done).
  replace (fixed (dset "security_context" (PDict d) conf) run depth digest) with (fixed conf run depth digest)
    by (unfold fixed, field; by rewrite !Hsame by done).
  pass (by apply fixed_agrees). rewrite Ej, Eat, Eexp. cbn [py_str int_or_error py_int mbind res_bind].
  pass (by apply (fromhex_hex 32)). change (eq_str (PStr "airflow:file_ingest") "mcp-infra") with false. cbv iota.
  pass (rewrite Hlen; replace (at_ + _BRIDGE_TTL - at_) with _BRIDGE_TTL by lia; rewrite (proj2 (Z.ltb_ge _ _)) by lia; done).
  rewrite Hkey, Hk, Hbytes. cbn [mbind res_bind]. rewrite Hsig, str_or_empty_str. unfold compare_digest.
  destruct (hex_facts _ (Hhmac key bytes)) as (_ & -> & _). cbn [andb]. rewrite bool_decide_eq_true_2 by done.
  cbn [mbind res_bind]. pass (done). unfold field. rewrite !Hsame by done. fold (field "tenant_id" conf) (field "workspace_id" conf).
  fold (field "cartridge_id" conf). pass (by rewrite (proj2 (nonempty_true _) Ht0), (proj2 (nonempty_true _) Hw0)).
  pass (by rewrite Hn1, Hn2). unfold cast_uuid. by rewrite Hu, Hv.
Qed.

(** The first consumption of an envelope, while it is fresh. *)
Lemma first_admission token u v run cartridge digest at_ db_now db :
  _HEX_64 token = true → l_nonces db !! token = None → _HEX_64 digest = true → run ≠ "" → (slen run <= 250)%nat →
  cartridge ≠ "" → db_now < seconds (at_ + _BRIDGE_TTL) → u ∈ l_tenants db → l_workspaces db !! v = Some u →
  consume_dataset_refresh_admission true db_now token u v run cartridge digest at_ (at_ + _BRIDGE_TTL) db =
    Ok (mkLedger (l_tenants db) (l_workspaces db)
          (<[token := admission_row u v run cartridge digest at_ (at_ + _BRIDGE_TTL)]> (l_nonces db))).
Proof.
  intros Htok Hnew Hdh Hr0 Hrlen Hc0 Hexp Htu Hwv. unfold consume_dataset_refresh_admission. rewrite Hnew, Htok, Hdh.
  rewrite (proj2 (nonempty_true _) Hr0), (proj2 (nonempty_true _) Hc0), (proj2 (Z.leb_gt _ _) Hexp).
  replace (at_ + _BRIDGE_TTL - at_) with _BRIDGE_TTL by lia. change (_BRIDGE_TTL =? _DIRECT_TTL) with false.
  rewrite Z.eqb_refl, (bool_decide_eq_true_2 (_ !! v = _)) by done. cbn [negb orb]. unfold insert_nonce.
  rewrite Hnew, (bool_decide_eq_false_2 (is_Some None)) by (by intros []). set (row := admission_row _ _ _ _ _ _ _).
  replace (nonce_valid db token row) with true; [done|].
  symmetry. unfold nonce_valid, row. cbn [n_tenant n_workspace n_run n_audience n_purpose n_body_digest n_signed_at n_expires_at admission_row].
  rewrite Htok, Hdh, Hwv, (bool_decide_eq_true_2 _ Htu), (proj2 (Nat.leb_le _ _) Hrlen).
  replace (Nat.leb 1 (slen run)) with true by (symmetry; apply Nat.leb_le; destruct run; [done|simpl; lia]).
  rewrite bool_decide_eq_true_2 by eauto. change (mem "airflow" NONCE_AUDIENCES) with true.
  change (mem PURPOSE NONCE_PURPOSES) with true. unfold _BRIDGE_TTL. apply Z.ltb_lt. lia.
Qed.

(** The refresh a DAG triggers is admitted: the trigger's configuration passes
    the validation of the run it names, its nonce is consumed, and a retry of that
    run is admitted again - even after the envelope expired - without a change to
    the ledger. *)
Theorem triggered_refresh_admitted environ environ' token upstream conf source prefix at_ now db_now run refresh u v db :
  build_dataset_refresh_trigger hmac_sha256 sha256_hex environ token upstream conf source prefix at_ = Ok (run, refresh) →
  _key environ' = _key environ → at_ <= now + 30 → db_now < seconds (at_ + _BRIDGE_TTL) →
  field "tenant_id" upstream = field "tenant_id" conf → field "workspace_id" upstream = field "workspace_id" conf →
  _HEX_64 token = true → l_nonces db !! token = None → char_in NUL (field "cartridge_id" conf) = false →
  uuid (field "tenant_id" conf) = Some u → uuid (field "workspace_id" conf) = Some v →
  u ∈ l_tenants db → l_workspaces db !! v = Some u →
  let scope := (field "tenant_id" conf, field "workspace_id" conf) in
  ∃ d db', get "security_context" refresh = PDict d
    ∧ validate environ' (PDict d) refresh run now true db_now db = Ok (scope, db')
    ∧ is_Some (l_nonces db' !! token)
    ∧ ∀ now' db_now', at_ <= now' + 30 → validate environ' (PDict d) refresh run now' true db_now' db' = Ok (scope, db').
Proof.
  intros Hb Hkey Hat Hexp Ht Hw Htok Hnew Hnul Hu Hv Htu Hwv scope. unfold build_dataset_refresh_trigger in Hb.
  guards_in Hb. apply bind_ok in Hb as (bytes & _ & Hb). apply bind_ok in Hb as (d & Hd & [= <- <-]).
  match goal with G : nonempty _ && nonempty _ = true |- _ => apply andb_true_iff in G as [_ G%nonempty_true];
    destruct (run_id_plain prefix (sha256_hex bytes) G (Hsha _)) as (Hr0 & Hrlen & Hrnul) end.
  set (run := clean_prefix prefix +:+ _) in *. clearbody run.
  pose proof Hd as (depth & digest & _ & Hdig & _ & _ & Hc0 & _)%built_envelope.
  assert (Hval : ∀ now airflow db_now db, at_ <= now + 30 → validate environ' (PDict d) (dset "security_context" (PDict d) conf)
    run now airflow db_now db = (db' ← consume_dataset_refresh_admission airflow db_now token u v run
      (field "cartridge_id" conf) digest at_ (at_ + _BRIDGE_TTL) db; Ok (scope, db'))).
  { intros. by eapply validate_accepts. }
  set (row := admission_row u v run (field "cartridge_id" conf) digest at_ (at_ + _BRIDGE_TTL)).
  assert (Hdh : _HEX_64 digest = true).
  { unfold RefreshAdmission._conf_digest in Hdig. apply bind_ok in Hdig as (? & _ & [= <-]). apply Hsha. }
  pose proof (first_admission token u v run (field "cartridge_id" conf) digest at_ db_now db Htok Hnew Hdh Hr0 Hrlen Hc0 Hexp
    Htu Hwv) as Hins. fold row in Hins. set (db' := mkLedger _ _ _) in Hins.
  exists d, db'. split; [apply get_dset_eq|]. rewrite (Hval now true db_now db Hat), Hins. split; [done|].
  unfold db'. cbn [l_nonces]. split; [rewrite lookup_insert_eq; eauto|].
  intros now' db_now' Hat'. rewrite Hval by done. unfold consume_dataset_refresh_admission. cbn [l_nonces].
  rewrite lookup_insert_eq. fold row. by rewrite bool_decide_eq_true_2.
Qed.
End Properties.

(** An extraction triggers a refresh; the refresh is admitted, and retried. *)
Module Triggered.
#[local] Instance repr : PyRepr := some_repr.
Definition mac (key bytes : string) : string := repeat_char 64 "f".
Definition digest (bytes : string) : string := repeat_char 64 "d".
Definition variables : environment := [("SECURITY_CONTEXT_SIGNING_KEY", repeat_char 32 "k")].
Definition ledger : Ledger := mkLedger {["t1"]} {["w1" := "t1"]} ∅.
Definition nonce : string := repeat_char 64 "0".
Definition upstream : pydict :=
  match Airflow.build_scheduled_run_context mac variables "crm" "t1" "w1" "extract" "run-7" "entity_scheduler" 1000 with
  | Ok c => c | Raise _ => []
  end.
Definition conf : pydict :=
  mkdict [("tenant_id", PStr "t1"); ("workspace_id", PStr "w1"); ("cartridge_id", PStr "crm");
          ("seed_raw", PStr "raw/crm/leads")].
Definition trigger : string * pydict :=
  match build_dataset_refresh_trigger mac digest variables nonce upstream conf "run-7" "crm" 1010 with
  | Ok t => t | Raise _ => ("", [])
  end.
Definition validated (now : Z) (db : Ledger) : res ((string * string) * Ledger) :=
  validate_dataset_refresh_admission mac digest Some variables (get "security_context" trigger.2) trigger.2 trigger.1 now true
    (seconds now) db.

Lemma trigger_built :
  build_dataset_refresh_trigger mac digest variables nonce upstream conf "run-7" "crm" 1010 = Ok (trigger.1, trigger.2).
Proof. vm_compute. reflexivity. Qed.

Lemma triggered_refresh_admitted_witness :
  ∃ db, validated 1020 ledger = Ok (("t1", "w1"), db) ∧ validated 2000000 db = Ok (("t1", "w1"), db).
Proof.
  destruct (triggered_refresh_admitted mac digest Some (λ _ _, eq_refl) (λ _, eq_refl) variables variables nonce upstream conf
    "run-7" "crm" 1010 1020 (seconds 1020) trigger.1 trigger.2 "t1" "w1" ledger trigger_built)
    as (d & db & Hd & Hv & _ & Hagain); try (vm_compute; reflexivity).
  - vm_compute. discriminate.
  - unfold validated. exists db. rewrite Hd. split; [exact Hv|]. apply Hagain. vm_compute. discriminate.
Defined.

Lemma admitted : match validated 1020 ledger with Ok _ => True | Raise _ => False end.
Proof. vm_compute. exact I. Qed.

Lemma admission_serves_one_run_witness :
  ∃ scope db d, validated 1020 ledger = Ok (scope, db) ∧ get "security_context" trigger.2 = PDict d
    ∧ ∀ run scope' db', validate_dataset_refresh_admission mac digest Some variables (PDict d) trigger.2 run 1030 true
        (seconds 1030) db = Ok (scope', db') → run = trigger.1.
Proof.
  pose proof admitted as Ha. unfold validated in *.
  destruct (validate_dataset_refresh_admission _ _ _ _ _ _ _ 1020 _ _ ledger) as [[scope db]|] eqn:E; [|destruct Ha].
  destruct (admission_serves_one_run mac digest Some variables (get "security_context" trigger.2) trigger.2 trigger.1 1020 true
    (seconds 1020) ledger scope db E) as (d & depth & dig & Hd & _ & _ & _ & _ & Hone).
  exists scope, db, d. split; [reflexivity|]. split; [exact Hd|]. intros run scope' db' H.
  destruct (Hone variables d trigger.2 run 1030 true (seconds 1030) db scope' db' (reflexivity _) H eq_refl) as [Hrun _].
  exact Hrun.
Defined.
End Triggered.
