(* ===== verification/RefreshRun.v ===== *)
(** The materialization of a plan (airflow/dags/dataset_refresh_materialize.py):
    each dataset is reserved in its slot ([RefreshLease]), materialized by the
    refinement service through a job ([ServiceJobs]) under a signed context
    ([SignedContext]) while the lease is kept, classified ([RefreshOutcome]) and
    recorded; what depends on a dataset that was not refreshed is skipped.

    The world of the task is that of the job client plus a database, randomness
    and a wall clock ([RefreshWorld]); an action is a function on it that may
    raise, and that the model may leave unfinished ([None]) when a job is polled
    more than [FUEL] times. *)
From S2P Require Import Prelude PyStr PyVal PyTime RefreshGraph RefreshOutcome RefreshLease SignedContext ServiceJobs.

Open Scope Z_scope.

Definition JOB_DEADLINE_SECONDS : Z := 3 * 3600.
Definition HEARTBEAT_SECONDS : Z := 60.
(** The default of [lease_seconds]. *)
Definition LEASE_SECONDS : Z := 900.
(** More than the polls of a job before its deadline. *)
Definition FUEL : positive := 1100.

(** ** Actions *)

Definition act (W A : Type) : Type := W → option (out A * W).

#[export] Instance act_ret W : MRet (act W) := λ A a w, Some (Done a, w).
#[export] Instance act_bind W : MBind (act W) := λ A B f m w,
  match m w with
  | Some (Done a, w) => f a w
  | Some (Fail e, w) => Some (Fail e, w)
  | None => None
  end.

Definition fail {W A} (f : failure) : act W A := λ w, Some (Fail f, w).
Definition raises {W A} (c : exn_class) (msg : string) : act W A := fail (Plain (Exn c msg)).
Definition of_res {W A} (r : res A) : act W A := λ w, Some (lift r, w).

(** [try: m]: its value, or what it raised. *)
Definition attempt {W A} (m : act W A) : act W (A + failure) := λ w,
  match m w with
  | Some (Done a, w) => Some (Done (inl a), w)
  | Some (Fail f, w) => Some (Done (inr f), w)
  | None => None
  end.

(** ** The world *)

(** [connect]: a connection, with the clocks its transaction reads and whether the
    table of runs exists. *)
Class RefreshWorld (W : Type) := {
  slots : W → runs;
  set_slots : runs → W → W;
  connect : W → res (clocks * bool) * W;
  token_hex : W → string * W;
  wall : W → Z * W }.

(** What a call of the job client keeps: the context signed for the first
    submission until it is used, and the time of the last heartbeat. *)
Record local := mkLocal { contexts : option pydict; last : instant }.

#[export] Instance local_jobs {W} {Hjobs : JobService W} : JobService (W * local) := {|
  clock wl := let '(t, w) := clock wl.1 in (t, (w, wl.2));
  post u hs b wl := let '(e, w) := post u hs b wl.1 in (e, (w, wl.2));
  get_url u hs wl := let '(e, w) := get_url u hs wl.1 in (e, (w, wl.2));
  sleep d wl := (sleep d wl.1, wl.2) |}.

(** The dict of a planned dataset, as [_build_plan] makes it. *)
Definition item_dict (i : plan_item) : pydict :=
  mkdict [("name", PStr (p_name i)); ("layer", PStr (p_layer i)); ("cartridge", PStr (p_cartridge i));
          ("rank", PInt (p_rank i)); ("upstreams", strs (p_upstreams i)); ("materialized", PBool (p_materialized i));
          ("never_materialized_upstreams", strs (p_never_materialized_upstreams i))].

Section Pure.
Context {Hrepr : PyRepr}.

Definition _safe_result (name : string) (payload : pydict) (reused : bool) (classification : string) : res pydict :=
  row_count ← int_or_zero (get "row_count" payload);
  Ok (mkdict [("name", PStr name); ("layer", PStr (str_or_empty (get "layer" payload))); ("ok", PBool true);
              ("classification", PStr classification); ("reused", PBool reused); ("row_count", PInt row_count)]).

Definition _skipped_result (name reason : string) : pydict :=
  mkdict [("name", PStr name); ("ok", PBool false); ("classification", PStr RESULT_SKIPPED); ("reason", PStr reason)].

Definition failed_result (name error_code : string) : pydict :=
  mkdict [("name", PStr name); ("ok", PBool false); ("classification", PStr RESULT_FAILED);
          ("error_code", PStr error_code)].

Definition malformed {A} : res A := raise RuntimeError "dataset refresh plan is malformed".

(** [item.get(key) or []], a list of non-empty texts. *)
Definition _plan_names (item : pydict) (key : string) : res (list string) :=
  match py_or (get key item) (PList []) with
  | PList l => mapR (λ v, match v with PStr s => if nonempty s then Ok s else malformed | _ => malformed end) l
  | _ => malformed
  end.

Definition is_false (v : pyval) : bool := match v with PBool false => true | _ => false end.

(** The loop over the upstreams that were never materialized. *)
Definition add_absent (item : pydict) (refreshed absent : list string) (source : string) : list string :=
  if mem source refreshed || mem source absent then absent
  else if startswith "raw/" source && negb (is_false (get "materialized" item)) then absent
  else (absent ++ [source])%list.

Definition _structural_absence (item : pydict) (upstreams never_materialized refreshed structurally_skipped : list string)
    (exc : exc_object) : option string :=
  if negb (bool_decide (is_Some (missing_source_error_code exc))) then None
  else
    let absent := foldl (add_absent item refreshed) (List.filter (λ u, mem u structurally_skipped) upstreams)
                    never_materialized in
    match absent with
    | a :: _ => Some ("upstream_never_materialized:" +:+ a)
    | [] =>
        match outdated_dependency exc with
        | Some o => if mem o upstreams && negb (mem o refreshed) then Some ("upstream_outdated:" +:+ o) else None
        | None => None
        end
    end.

Definition _reused_layer (item payload : pydict) : res string :=
  let planned := field "layer" item in
  let durable := field "layer" payload in
  if nonempty planned && nonempty durable && negb (bool_decide (planned = durable))
  then raise RuntimeError "reused materialization layer contradicts the plan"
  else
    let layer := if nonempty durable then durable else planned in
    if mem layer MATERIALIZATION_LAYERS then Ok layer
    else raise RuntimeError "reused materialization layer is unavailable".

(** [v in {401, 403}]. *)
Definition in_codes (v : pyval) : res bool :=
  match v with
  | PList _ | PDict _ => raise TypeError ""
  | v => Ok (py_eq v (PInt 401) || py_eq v (PInt 403))
  end.

Definition authority_rejected {A} : out A := Fail (Plain (Exn PermissionError "refinement rejected runtime authority")).

(** The [except] clauses of [_invoke_materialize]. *)
Definition mapped_failure (f : failure) : out pyval :=
  match f with
  | JobError _ code _ =>
      match in_codes code with
      | Ok true => authority_rejected
      | Ok false => Fail f
      | Raise e => Fail (Plain e)
      end
  | StatusError status =>
      if (status =? 401) || (status =? 403) then authority_rejected
      else Fail (Plain (Exn RuntimeError "operational dependency unavailable"))
  | Plain _ => Fail f
  end.
End Pure.

Section Run.
Context {Hrepr : PyRepr}.
Context (hmac_sha256 : string → string → string) (sha256_hex : string → string) (uuid : string → option string).
(** [type(exc).__name__]. *)
Context (class_name : failure → string).
(** The variables of the process, the URL of the service, the headers of a
    request ([_internal_headers("REFINEMENT", context)]), the Airflow run. *)
Context (environ : environment) (refinement_url : string) (request_headers : res headers) (run_id : string).
Context {W : Type} {Hjobs : JobService W} {Hworld : RefreshWorld W}.

(** A transaction: it has no effect when it raises. *)
Definition transact {A} (f : clocks → bool → runs → res (A * runs)) : act W A := λ w,
  let '(c, w) := connect w in
  Some (match c with
        | Raise e => (Fail (Plain e), w)
        | Ok (c, storage) =>
            match f c storage (slots w) with
            | Ok (a, db) => (Done a, set_slots db w)
            | Raise e => (Fail (Plain e), w)
            end
        end).

Section Item.
Context (tenant_id workspace_id cartridge_id : string).

Definition reserve (dataset : string) : act W Reservation :=
  transact (λ c storage db,
    reserve_materialization sha256_hex uuid c storage run_id tenant_id workspace_id cartridge_id dataset LEASE_SECONDS db).

Definition finish (slot_id : string) (lease_token : Z) (success : bool) (result : option pydict) (degraded : bool)
    (skipped_reason : option string) : act W unit :=
  _ ← of_res (_finished_state success result degraded (PStr <$> skipped_reason));
  transact (λ c _ db,
    db ← finish_materialization uuid c slot_id tenant_id workspace_id lease_token success result degraded
           (PStr <$> skipped_reason) db;
    Ok (tt, db)).

Definition heartbeat (slot_id : string) (lease_token : Z) : act W unit :=
  transact (λ c _ db,
    db ← heartbeat_materialization uuid c slot_id tenant_id workspace_id lease_token LEASE_SECONDS db;
    Ok (tt, db)).

(** [build_materialize_context] with fresh randomness, at the present. *)
Definition make_context (dataset : string) (w : W) : res pydict * W :=
  let '(token, w) := token_hex w in
  let '(now, w) := wall w in
  (Airflow.build_materialize_context hmac_sha256 sha256_hex environ token tenant_id workspace_id cartridge_id dataset
     run_id now, w).

(** [body] of [_invoke_materialize]. *)
Definition body (dataset : string) (wl : W * local) : out pyval * (W * local) :=
  let request context :=
    PDict (mkdict [("tool", PStr "materialize"); ("args", PDict (mkdict [("name", PStr dataset)]));
                   ("security_context", PDict context)]) in
  match contexts wl.2 with
  | Some context => (Done (request context), (wl.1, mkLocal None (last wl.2)))
  | None =>
      let '(context, w) := make_context dataset wl.1 in
      (match context with Ok context => Done (request context) | Raise e => Fail (Plain e) end, (w, wl.2))
  end.

(** [keep] of [_lease_keeper]. *)
Definition keep (slot_id : string) (lease_token : Z) (wl : W * local) : out unit * (W * local) :=
  let '(now, w) := clock wl.1 in
  if now - last wl.2 <? seconds HEARTBEAT_SECONDS then (Done tt, (w, wl.2))
  else
    match heartbeat slot_id lease_token w with
    | Some (Done _, w) => let '(now, w) := clock w in (Done tt, (w, mkLocal (contexts wl.2) now))
    | Some (Fail f, w) => (Fail f, (w, wl.2))
    | None => (Done tt, (w, wl.2))
    end.

Definition job_key (slot_id : string) (lease_token : Z) : string :=
  "materialize:" +:+ sha256_hex (utf8 (slot_id +:+ ":" +:+ str_of_Z lease_token)).

Definition _invoke_materialize (hs : headers) (dataset : string) (first_context : pydict) (slot_id : string)
    (lease_token : Z) (last : instant) : act W pyval := λ w,
  match
    run_service_job (body dataset) FUEL (rstrip_char "/" refinement_url +:+ "/mcp/invoke") hs
      (job_key slot_id lease_token) JOB_DEADLINE_SECONDS POLL_SECONDS (Some (keep slot_id lease_token))
      (w, mkLocal (Some first_context) last)
  with
  | inl _ => None
  | inr (r, (w, _)) => Some (match r with Done v => Done v | Fail f => mapped_failure f end, w)
  end.

(** The body of the [try]: the result that was published. *)
Definition compute (dataset slot_id : string) (lease_token : Z) (context : pydict) : act W pydict :=
  hs ← of_res request_headers;
  last ← (λ w, let '(t, w) := clock w in Some (Done t, w));
  raw ← _invoke_materialize hs dataset context slot_id lease_token last;
  '(classification, payload) ← of_res (classify_materialization_payload raw dataset);
  safe ← of_res (_safe_result dataset payload false classification);
  _ ← finish slot_id lease_token true (Some safe) (bool_decide (classification = RESULT_DEGRADED)) None;
  mret safe.

(** The variables of the loop. *)
Record progress := mkProgress {
  results : list pydict;
  refreshed : list string;
  failure_chain : list string;
  structurally_skipped : list string }.

Definition add_published (name : string) (r : pydict) (s : progress) : progress :=
  mkProgress (results s ++ [r]) (name :: refreshed s) (failure_chain s) (structurally_skipped s).
Definition add_failed (name : string) (r : pydict) (s : progress) : progress :=
  mkProgress (results s ++ [r]) (refreshed s) (name :: failure_chain s) (structurally_skipped s).
Definition add_absent_item (name : string) (r : pydict) (s : progress) : progress :=
  mkProgress (results s ++ [r]) (refreshed s) (failure_chain s) (name :: structurally_skipped s).

Definition failed_closed {A} : act W A := raises RuntimeError "runtime materialization authority failed closed".
Definition isa (f : failure) (c : exn_class) : bool := exn_isa (failure_class f) c.

(** The [except Exception] of the materialization. *)
Definition recover (item : pydict) (name slot_id : string) (lease_token : Z) (upstreams never : list string) (s : progress)
    (f : failure) : act W progress :=
  if isa f PermissionError || isa f ValueError then
    _ ← finish slot_id lease_token false None false None;
    failed_closed
  else
    match _structural_absence item upstreams never (refreshed s) (structurally_skipped s) (failure_object f) with
    | Some reason =>
        _ ← finish slot_id lease_token false None false (Some reason);
        mret (add_absent_item name (_skipped_result name reason) s)
    | None =>
        _ ← finish slot_id lease_token false None false None;
        mret (add_failed name (failed_result name (class_name f)) s)
    end.

(** A dataset whose slot was granted. *)
Definition materialize_reserved (item : pydict) (name slot_id : string) (lease_token : Z) (upstreams never : list string)
    (s : progress) : act W progress :=
  match List.find (λ up, mem up (failure_chain s)) upstreams with
  | Some blocking =>
      let reason := "upstream_not_refreshed:" +:+ blocking in
      _ ← finish slot_id lease_token false None false (Some reason);
      mret (add_failed name (_skipped_result name reason) s)
  | None =>
      context ← attempt (λ w, let '(c, w) := make_context name w in Some (lift c, w));
      match context with
      | inr f =>
          if isa f RuntimeError || isa f ValueError then
            _ ← finish slot_id lease_token false None false None;
            failed_closed
          else fail f
      | inl context =>
          outcome ← attempt (compute name slot_id lease_token context);
          match outcome with
          | inl safe => mret (add_published name safe s)
          | inr f => recover item name slot_id lease_token upstreams never s f
          end
      end
  end.

(** An iteration of the loop. *)
Definition materialize_item (s : progress) (item : pydict) : act W progress :=
  name ← of_res (match dget "name" item with Some v => Ok (py_str v) | None => raise KeyError "name" end);
  upstreams ← of_res (_plan_names item "upstreams");
  never ← of_res (_plan_names item "never_materialized_upstreams");
  reservation ← reserve name;
  match reservation with
  | Completed durable =>
      layer ← of_res (_reused_layer item durable);
      safe ← of_res (_safe_result name (dset "layer" (PStr layer) durable) true
                       (if is_true (get "degraded" durable) then RESULT_DEGRADED else RESULT_OK));
      mret (add_published name safe s)
  | Reserved slot_id lease_token => materialize_reserved item name slot_id lease_token upstreams never s
  end.

Fixpoint materialize_items (s : progress) (items : list pydict) : act W progress :=
  match items with
  | [] => mret s
  | item :: items => s ← materialize_item s item; materialize_items s items
  end.
End Item.

Definition breakdown_of (results : list pydict) : counts :=
  foldl (λ c r, incr c (py_str (get "classification" r))) (Counts 0 0 0 0) results.

Definition report_of (results : list pydict) : pydict :=
  let breakdown := breakdown_of results in
  mkdict [("materialized", PInt (n_ok breakdown + n_degraded breakdown)); ("results", PList (PDict <$> results));
          ("status", PStr "completed"); ("breakdown", PDict (counts_dict breakdown))].

Definition empty_report : pydict :=
  mkdict [("materialized", PInt 0); ("results", PList []); ("status", PStr "no_downstream_datasets");
          ("breakdown", PDict (counts_dict (Counts 0 0 0 0)))].

(** The report of the task, before it is returned. *)
Definition run_plan (plan : list plan_item) (cartridge : pyval) (conf : pydict) : act W pydict :=
  '(tenant_id, workspace_id) ← of_res (_required_scope conf);
  let cartridge_id := strip (str_or_empty (py_or cartridge (get "cartridge_id" conf))) in
  if negb (nonempty cartridge_id) then raises RuntimeError "scoped cartridge is unavailable"
  else
    _ ← of_res (_validate_plan plan cartridge_id);
    match plan with
    | [] => mret empty_report
    | _ =>
        s ← materialize_items tenant_id workspace_id cartridge_id (mkProgress [] [] [] []) (item_dict <$> plan);
        mret (report_of (results s))
    end.

(** The report that is pushed, if any, and what the task returns. *)
Definition materialize_in_order (plan : list plan_item) (cartridge : pyval) (conf : pydict) (w : W) :
    option ((option pydict * out pydict) * W) :=
  match run_plan plan cartridge conf w with
  | None => None
  | Some (Fail f, w) => Some ((None, Fail f), w)
  | Some (Done report, w) =>
      let failed := match get "breakdown" report with PDict b => truthy (get RESULT_FAILED b) | _ => false end in
      Some ((Some report,
             if failed && negb (truthy (get "allow_partial" conf))
             then Fail (Plain (Exn RuntimeError "dataset_refresh_chain has failed materializations"))
             else Done report), w)
  end.
End Run.

(** ** What an iteration does *)

Lemma act_bind_done {W A B} (m : act W A) (f : A → act W B) w b w' :
  mbind f m w = Some (Done b, w') ↔ ∃ a w1, m w = Some (Done a, w1) ∧ f a w1 = Some (Done b, w').
Proof.
  unfold mbind, act_bind. destruct (m w) as [[[a|e] w1]|]; split; try done; try naive_solver.
Qed.

Lemma of_res_done {W A} (r : res A) (w : W) a w' : of_res r w = Some (Done a, w') ↔ r = Ok a ∧ w' = w.
Proof. unfold of_res, lift. destruct r; split; try done; [intros [= <- <-]; done|intros [[= <-] ->]; done|by intros [[=] _]]. Qed.

Lemma attempt_done {W A} (m : act W A) w x w' :
  attempt m w = Some (Done x, w') ↔
  match x with inl a => m w = Some (Done a, w') | inr f => m w = Some (Fail f, w') end.
Proof. unfold attempt. destruct (m w) as [[[a|e] w1]|], x; split; try done; by intros [= <- <-]. Qed.

(** The parts of an action that succeeded. *)
Ltac acts_in H :=
  repeat match type of H with
    | mbind _ (of_res _) _ = Some (Done _, _) =>
        let x := fresh "x" in let w := fresh "w" in let Hr := fresh "R" in
        apply act_bind_done in H as (x & w & [Hr ->]%of_res_done & H)
    | mbind _ _ _ = Some (Done _, _) =>
        let x := fresh "x" in let w := fresh "w" in let Hr := fresh "M" in
        apply act_bind_done in H as (x & w & Hr & H)
    end.

Section Results.
Context {Hrepr : PyRepr}.

(** A result that names a dataset and has a class. *)
Definition classed (name k : string) (r : pydict) : Prop :=
  get "name" r = PStr name ∧ get "classification" r = PStr k ∧ get "ok" r = PBool (mem k PUBLISHED_CLASSES)
  ∧ k ∈ RESULT_CLASSES.

(** The results that stop what depends on them: failures, and what a failure stopped. *)
Definition stopped (r : pydict) : bool :=
  eq_str (get "classification" r) RESULT_FAILED
  || match get "reason" r with PStr reason => startswith "upstream_not_refreshed:" reason | _ => false end.

Lemma safe_result_ok name payload reused k r :
  k ∈ PUBLISHED_CLASSES → _safe_result name payload reused k = Ok r →
  classed name k r ∧ get "reused" r = PBool reused ∧ stopped r = false
  ∧ ∃ n, int_or_zero (get "row_count" payload) = Ok n ∧ get "row_count" r = PInt n.
Proof.
  unfold _safe_result. intros Hk (n & Hn & [= <-])%bind_ok. unfold classed, stopped.
  generalize (str_or_empty (get "layer" payload)). intros layer.
  assert (Hne : k ≠ RESULT_FAILED) by (intros ->; revert Hk; decide_now).
  split; [split; [reflexivity|split; [reflexivity|split]]|split; [reflexivity|split]].
  - change (get "ok" _) with (PBool true). by rewrite (proj2 (mem_true _ _) Hk).
  - revert Hk. unfold PUBLISHED_CLASSES, RESULT_CLASSES. rewrite !elem_of_cons. naive_solver.
  - change (get "classification" _) with (PStr k). change (get "reason" _) with PNone. cbn [eq_str].
    by rewrite bool_decide_eq_false_2.
  - exists n. split; [done|reflexivity].
Qed.

Lemma skipped_result_ok name reason : classed name RESULT_SKIPPED (_skipped_result name reason).
Proof. unfold classed. split_and!; try (vm_compute; reflexivity). decide_now. Qed.

Lemma skipped_stopped name reason : stopped (_skipped_result name reason) = startswith "upstream_not_refreshed:" reason.
Proof. reflexivity. Qed.

Lemma failed_result_ok name code : classed name RESULT_FAILED (failed_result name code) ∧ stopped (failed_result name code) = true.
Proof. unfold classed. split_and!; try (vm_compute; reflexivity). decide_now. Qed.

Lemma absence_not_stopped item upstreams never refreshed skipped exc reason name :
  _structural_absence item upstreams never refreshed skipped exc = Some reason → stopped (_skipped_result name reason) = false.
Proof.
  rewrite skipped_stopped. unfold _structural_absence. destruct (negb _); [done|].
  destruct (foldl _ _ _) as [|a l]; [|by intros [= <-]]. destruct (outdated_dependency exc); [|done].
  destruct (_ && _); [|done]. by intros [= <-].
Qed.

Lemma plan_names_ok i key l :
  _plan_names (item_dict i) key = Ok l →
  (key = "upstreams" → l = p_upstreams i) ∧ (key = "never_materialized_upstreams" → l = p_never_materialized_upstreams i).
Proof.
  assert (Hnames : ∀ ns l, match py_or (strs ns) (PList []) with
    | PList l => mapR (λ v, match v with PStr s => if nonempty s then Ok s else malformed | _ => malformed end) l
    | _ => malformed end = Ok l → l = ns).
  { intros ns k. destruct ns as [|n ns]; [by intros [= <-]|]. change (py_or (strs (n :: ns)) (PList [])) with (strs (n :: ns)).
    unfold strs. generalize (n :: ns). intros ms. revert k. induction ms as [|m ms IH]; intros k; cbn [fmap list_fmap mapR].
    - by intros [= <-].
    - destruct (nonempty m); [|done]. intros (? & [= <-] & (ys & Hys%IH & [= <-])%bind_ok)%bind_ok. by subst. }
  unfold _plan_names. intros H. split; intros ->; by apply Hnames.
Qed.
End Results.

Section Iteration.
Context {Hrepr : PyRepr}.
Context (hmac_sha256 : string → string → string) (sha256_hex : string → string) (uuid : string → option string).
Context (class_name : failure → string).
Context (environ : environment) (refinement_url : string) (request_headers : res headers) (run_id : string).
Context {W : Type} {Hjobs : JobService W} {Hworld : RefreshWorld W}.
Context (tenant_id workspace_id cartridge_id : string).

Abbreviation materialize_item :=
  (materialize_item hmac_sha256 sha256_hex uuid class_name environ refinement_url request_headers run_id tenant_id
     workspace_id cartridge_id).

(** An iteration that ends adds a result; a dataset whose upstream was stopped is
    reused or stopped. *)
Lemma materialize_item_cases s i w s' w' :
  materialize_item s (item_dict i) w = Some (Done s', w') →
  ∃ r k, classed (p_name i) k r ∧ results s' = (results s ++ [r])%list
    ∧ failure_chain s' = (if stopped r then [p_name i] else []) ++ failure_chain s
    ∧ (get "reused" r = PBool true ∨ stopped r = true ∨ ∀ u, u ∈ p_upstreams i → u ∉ failure_chain s).
Proof.
  unfold RefreshRun.materialize_item. intros H. acts_in H.
  change (dget "name" (item_dict i)) with (Some (PStr (p_name i))) in R. injection R as <-. cbn [py_str] in *.
  match goal with R : _plan_names _ "upstreams" = Ok ?l |- _ =>
    apply plan_names_ok in R as [R _]; specialize (R eq_refl); subst l end.
  destruct x2 as [durable|slot token].
  - acts_in H. injection H as <- <-.
    assert (Hk : (if is_true (get "degraded" durable) then RESULT_DEGRADED else RESULT_OK) ∈ PUBLISHED_CLASSES)
      by (destruct (is_true _); decide_now).
    match goal with R : _safe_result _ _ _ _ = Ok ?r |- _ => apply safe_result_ok in R as (Hc & Hr & Hs & _); [|done]; exists r end.
    exists (if is_true (get "degraded" durable) then RESULT_DEGRADED else RESULT_OK). rewrite Hs. split_and!; auto.
  - unfold materialize_reserved in H. destruct (List.find (λ up, mem up (failure_chain s)) (p_upstreams i)) as [up|] eqn:Ef.
    { acts_in H. injection H as <- <-. eexists _, RESULT_SKIPPED. split; [by apply skipped_result_ok|]. auto. }
    assert (Hfree : ∀ u, u ∈ p_upstreams i → u ∉ failure_chain s).
    { intros u Hu. apply mem_false. apply (List.find_none _ _ Ef u). by apply list_elem_of_In. }
    apply act_bind_done in H as (ctx & w1 & _ & H). destruct ctx as [context|f].
    2: { destruct (isa f RuntimeError || isa f ValueError); acts_in H; done. }
    apply act_bind_done in H as (outcome & w2 & M1%attempt_done & H). destruct outcome as [safe|f].
    + injection H as <- <-. unfold compute in M1. acts_in M1.
      match goal with R : classify_materialization_payload _ _ = Ok ?x |- _ => destruct x as [k payload] end.
      acts_in M1. injection M1 as <- <-.
      match goal with R : classify_materialization_payload _ _ = _ |- _ =>
        assert (Hk : k ∈ PUBLISHED_CLASSES) by (apply classify_outcome in R as ([-> | ->] & _); decide_now) end.
      match goal with R : _safe_result _ _ _ _ = Ok ?r |- _ => apply safe_result_ok in R as (Hc & Hr & Hs & _); [|done]; exists r, k end.
      rewrite Hs. split_and!; auto.
    + unfold recover in H. destruct (_ || _); [acts_in H; done|]. destruct (_structural_absence _ _ _ _ _ _) as [reason|] eqn:Ea.
      * acts_in H. injection H as <- <-. eexists _, RESULT_SKIPPED. split; [by apply skipped_result_ok|].
        rewrite (absence_not_stopped _ _ _ _ _ _ _ (p_name i) Ea). split_and!; auto.
      * acts_in H. injection H as <- <-. eexists _, RESULT_FAILED. split; [apply failed_result_ok|]. auto.
Qed.

Abbreviation materialize_items :=
  (materialize_items hmac_sha256 sha256_hex uuid class_name environ refinement_url request_headers run_id tenant_id
     workspace_id cartridge_id).

(** A result that is no fresh work on what a stopped upstream feeds. *)
Definition heeds (i : plan_item) (before : list pydict) (r : pydict) : Prop :=
  get "reused" r = PBool true ∨ stopped r = true
  ∨ ∀ u r', u ∈ p_upstreams i → r' ∈ before → get "name" r' = PStr u → stopped r' = false.

(** The stopped results are on the failure chain. *)
Definition chained (s : progress) : Prop :=
  ∀ r u, r ∈ results s → stopped r = true → get "name" r = PStr u → u ∈ failure_chain s.

Lemma materialize_items_cases plan s w s' w' :
  chained s → materialize_items s (item_dict <$> plan) w = Some (Done s', w') →
  ∃ rs, results s' = (results s ++ rs)%list ∧ Forall2 (λ i r, ∃ k, classed (p_name i) k r) plan rs
    ∧ ∀ n i r, plan !! n = Some i → rs !! n = Some r → heeds i (results s ++ take n rs) r.
Proof.
  revert s w. induction plan as [|i plan IH]; intros s w Hs; cbn [fmap list_fmap RefreshRun.materialize_items].
  - intros [= <- <-]. exists []. rewrite app_nil_r. split_and!; [done|constructor|]. intros n i r Hi. by rewrite lookup_nil in Hi.
  - intros (s1 & w1 & Hi & H)%act_bind_done. apply materialize_item_cases in Hi as (r & k & Hc & Hres & Hch & Hheed).
    assert (Hs1 : chained s1).
    { intros r' u Hr' Hst Hname. rewrite Hch. rewrite Hres in Hr'. apply elem_of_app in Hr' as [Hr'|Hr'%list_elem_of_singleton].
      - apply elem_of_app. right. by eapply Hs.
      - subst r'. rewrite Hst. destruct Hc as [Hn _]. rewrite Hn in Hname. injection Hname as ->. by apply elem_of_app; left; left. }
    destruct (IH s1 w1 Hs1 H) as (rs & Hrs & Hall & Hheeds). exists (r :: rs). rewrite Hrs, Hres, <- app_assoc.
    split_and!; [done|constructor; [by exists k|done]|]. intros [|n] j r' Hj Hr'; simpl in Hj, Hr'.
    + injection Hj as <-. injection Hr' as <-. rewrite firstn_0, app_nil_r. destruct Hheed as [Hh|[Hh|Hh]]; [by left|by right; left|].
      right; right. intros u r' Hu Hr' Hn. apply not_true_is_false. intros Hst. apply (Hh u Hu). by eapply Hs.
    + specialize (Hheeds n j r' Hj Hr'). rewrite Hres, <- app_assoc in Hheeds. done.
Qed.
End Iteration.

(** ** The report *)
Section Reports.
Context {Hrepr : PyRepr}.
Context (hmac_sha256 : string → string → string) (sha256_hex : string → string) (uuid : string → option string).
Context (class_name : failure → string).
Context (environ : environment) (refinement_url : string) (request_headers : res headers) (run_id : string).
Context {W : Type} {Hjobs : JobService W} {Hworld : RefreshWorld W}.

Abbreviation materialize_in_order :=
  (materialize_in_order hmac_sha256 sha256_hex uuid class_name environ refinement_url request_headers run_id).
Abbreviation run_plan :=
  (run_plan hmac_sha256 sha256_hex uuid class_name environ refinement_url request_headers run_id).

(** The results of a run that ended: one per planned dataset, in the plan's order. *)
Lemma run_plan_cases plan cartridge conf w report w' :
  run_plan plan cartridge conf w = Some (Done report, w') →
  ∃ rs, Forall2 (λ i r, ∃ k, classed (p_name i) k r) plan rs
    ∧ report = (if decide (plan = []) then empty_report else report_of rs)
    ∧ ∀ n i r, plan !! n = Some i → rs !! n = Some r → heeds i (take n rs) r.
Proof.
  unfold RefreshRun.run_plan. intros H. acts_in H. match type of H with (let '(_, _) := ?x in _) _ = _ => destruct x as [t v] end.
  destruct (nonempty _); cbn [negb] in H; [|done]. acts_in H. destruct plan as [|i plan].
  - injection H as <- <-. exists []. split_and!; [constructor|done|]. intros n i r Hi. by rewrite lookup_nil in Hi.
  - apply act_bind_done in H as (s & w1 & Hs & [= <- <-]). apply materialize_items_cases in Hs as (rs & Hrs & Hall & Hheed).
    + exists rs. cbn [results app] in Hrs, Hheed. rewrite Hrs. done.
    + intros r u Hr. by apply not_elem_of_nil in Hr.
Qed.

Lemma in_order_cases plan cartridge conf w report result w' :
  materialize_in_order plan cartridge conf w = Some ((Some report, result), w') →
  run_plan plan cartridge conf w = Some (Done report, w')
  ∧ (let failed := match get "breakdown" report with PDict b => truthy (get RESULT_FAILED b) | _ => false end in
     result = if failed && negb (truthy (get "allow_partial" conf))
              then Fail (Plain (Exn RuntimeError "dataset_refresh_chain has failed materializations")) else Done report).
Proof.
  unfold RefreshRun.materialize_in_order. destruct (run_plan _ _ _ _) as [[[r|f] w1]|]; [|done..]. by intros [= <- <- <-].
Qed.

Lemma classed_result name k r : strip name ≠ "" → classed name k r → result_of (PDict r) k.
Proof.
  intros Hname (Hn & Hc & Hok & Hk). exists r. rewrite Hn, str_or_empty_str. split_and!; [done..|].
  unfold result_classification. rewrite Hok, Hc, (proj2 (mem_true _ _) Hk). cbn [negb]. by rewrite Bool.eqb_reflx.
Qed.

Lemma declared_counts c : declared_ok (PDict (counts_dict c)) c = true.
Proof.
  destruct c as [a b d e]. change (declared_ok _ _) with (true && ((a =? a) && ((b =? b) && ((d =? d) && ((e =? e) && true))))).
  by rewrite !Z.eqb_refl.
Qed.

Definition counted_as (r : pydict) (k : string) : Prop := result_of (PDict r) k ∧ get "classification" r = PStr k.

Lemma breakdown_foldl rs ks :
  Forall2 counted_as rs ks → breakdown_of rs = foldl incr (Counts 0 0 0 0) ks.
Proof.
  unfold breakdown_of. generalize (Counts 0 0 0 0). intros c H. revert c.
  induction H as [|r k rs ks [_ Hk] _ IH]; intros c; [done|]. cbn [foldl]. rewrite Hk. apply IH.
Qed.

(** The report of results is read back as their classes. *)
Lemma report_counts rs ks :
  Forall2 counted_as rs ks →
  _classified_counts (PDict (report_of rs)) = Some (foldl incr (Counts 0 0 0 0) ks, Z.of_nat (length ks)).
Proof.
  intros Hks. apply classified_counts_spec. split; [reflexivity|]. exists (PDict <$> rs), ks.
  split; [reflexivity|]. split; [apply Forall2_fmap_l; by eapply Forall2_impl; [exact Hks|intros ?? []]|].
  split; [done|]. split; [done|]. rewrite <- (breakdown_foldl _ _ Hks). split; [reflexivity|].
  apply declared_counts.
Qed.

Lemma total_zero k ks : total_of k ks = 0 ↔ k ∉ ks.
Proof.
  unfold total_of. split.
  - intros H Hin. assert (Hf : k ∈ filter (λ x, x = k) ks) by (by apply list_elem_of_filter).
    destruct (filter _ ks); [by apply not_elem_of_nil in Hf|simpl in H; lia].
  - induction ks as [|x ks IH]; [done|]. rewrite not_elem_of_cons. intros [Hx Hks].
    rewrite filter_cons_False by congruence. by apply IH.
Qed.

(** The status of a report, by the classes of its results. *)
Lemma report_status rs ks :
  Forall2 counted_as rs ks → Forall (λ k, k ∈ RESULT_CLASSES) ks → ks ≠ [] →
  let status := materialization_status (PDict (report_of rs)) "success" in
  (status = "success" ↔ ∀ k, k ∈ ks → k = RESULT_OK)
  ∧ (status = "failed" ↔ RESULT_FAILED ∈ ks ∧ RESULT_OK ∉ ks ∧ RESULT_DEGRADED ∉ ks)
  ∧ (status = "blocked" ↔ RESULT_SKIPPED ∈ ks ∧ RESULT_OK ∉ ks ∧ RESULT_FAILED ∉ ks)
  ∧ status ≠ "noop".
Proof.
  intros Hks Hcl Hne. unfold materialization_status. rewrite bool_decide_eq_true_2 by done. cbn [negb].
  rewrite (report_counts _ _ Hks). change (get "status" (report_of rs)) with (PStr "completed").
  change (eq_str (PStr "completed") "no_downstream_datasets") with false.
  change (eq_str (PStr "completed") "completed") with true. cbv iota. cbn [negb orb].
  destruct (foldl_incr (Counts 0 0 0 0) ks Hcl) as (E1 & E2 & E3 & E4 & E5). cbn [n_ok n_degraded n_skipped n_failed] in E1, E2, E3, E4.
  rewrite E1, E2, E3, E4, !Z.add_0_l. clear E1 E2 E3 E4.
  assert (Hlen : Z.of_nat (length ks) ≠ 0) by (destruct ks; [done|simpl; lia]).
  rewrite (proj2 (Z.eqb_neq _ _) Hlen).
  assert (Hpos : ∀ k, 0 <= total_of k ks) by (intros k; unfold total_of; lia).
  pose proof (Hpos RESULT_OK) as P1. pose proof (Hpos RESULT_DEGRADED) as P2. pose proof (Hpos RESULT_SKIPPED) as P3.
  pose proof (Hpos RESULT_FAILED) as P4.
  assert (Hok : (∀ k, k ∈ ks → k = RESULT_OK) ↔ RESULT_DEGRADED ∉ ks ∧ RESULT_SKIPPED ∉ ks ∧ RESULT_FAILED ∉ ks).
  { split.
    - intros Hall. split_and!; intros Hin%Hall; discriminate Hin.
    - intros (H1 & H2 & H3) k Hk. pose proof (proj1 (Forall_forall _ _) Hcl k Hk) as Hc.
      unfold RESULT_CLASSES in Hc. rewrite !elem_of_cons, elem_of_nil in Hc. naive_solver. }
  rewrite Hok, <- !total_zero. clear Hok.
  assert (Hin : ∀ k, k ∈ ks ↔ total_of k ks ≠ 0).
  { intros k. rewrite total_zero. destruct (decide (k ∈ ks)); naive_solver. }
  rewrite !Hin. clear Hin Hpos Hcl Hks.
  destruct (Z.eqb_spec (total_of RESULT_FAILED ks) 0), (Z.eqb_spec (total_of RESULT_OK ks) 0),
    (Z.eqb_spec (total_of RESULT_SKIPPED ks) 0), (Z.eqb_spec (total_of RESULT_DEGRADED ks) 0),
    (Z.eqb_spec (total_of RESULT_OK ks + total_of RESULT_DEGRADED ks) 0); cbn [negb andb orb];
    split_and!; (split || idtac); intros; first [discriminate|lia|congruence|intuition lia].
Qed.

Lemma classes_of plan rs :
  Forall (λ i, strip (p_name i) ≠ "") plan → Forall2 (λ i r, ∃ k, classed (p_name i) k r) plan rs →
  ∃ ks, Forall2 counted_as rs ks ∧ Forall (λ k, k ∈ RESULT_CLASSES) ks ∧ length ks = length plan.
Proof.
  intros Hn H. induction H as [|i r plan rs (k & Hk) _ IH]; [by exists []|].
  apply Forall_cons in Hn as [Hi Hn]. destruct (IH Hn) as (ks & H1 & H2 & H3). exists (k :: ks).
  split_and!; [constructor; [split; [by eapply classed_result|apply Hk]|done]|constructor; [apply Hk|done]|simpl; congruence].
Qed.

(** What the recorder derives from a report says what happened. *)
Definition status_tells (plan : list plan_item) (ks : list string) (report : pydict) : Prop :=
  let status := materialization_status (PDict report) "success" in
  (status = "noop" ↔ plan = [])
  ∧ (status = "success" ↔ plan ≠ [] ∧ ∀ k, k ∈ ks → k = RESULT_OK)
  ∧ (status = "failed" ↔ RESULT_FAILED ∈ ks ∧ RESULT_OK ∉ ks ∧ RESULT_DEGRADED ∉ ks)
  ∧ (status = "blocked" ↔ RESULT_SKIPPED ∈ ks ∧ RESULT_OK ∉ ks ∧ RESULT_FAILED ∉ ks).

Lemma empty_status : status_tells [] [] empty_report.
Proof.
  assert (Es : materialization_status (PDict empty_report) "success" = "noop") by (vm_compute; reflexivity).
  assert (Hno : ∀ k : string, k ∉ []) by (intros k; apply not_elem_of_nil). unfold status_tells. rewrite Es.
  split; [done|]. split; [split; [discriminate|by intros [? _]]|].
  split; (split; [discriminate|by intros [?%Hno _]]).
Qed.

(** The count of failed datasets in the report. *)
Lemma report_failed rs ks :
  Forall2 counted_as rs ks → Forall (λ k, k ∈ RESULT_CLASSES) ks →
  match get "breakdown" (report_of rs) with PDict b => truthy (get RESULT_FAILED b) | _ => false end
  = bool_decide (RESULT_FAILED ∈ ks).
Proof.
  intros Hks Hcl. change (get "breakdown" (report_of rs)) with (PDict (counts_dict (breakdown_of rs))). cbv iota.
  change (get RESULT_FAILED (counts_dict (breakdown_of rs))) with (PInt (n_failed (breakdown_of rs))).
  rewrite (breakdown_foldl _ _ Hks). destruct (foldl_incr (Counts 0 0 0 0) ks Hcl) as (_ & _ & _ & -> & _).
  cbn [truthy n_failed]. rewrite Z.add_0_l. pose proof (total_zero RESULT_FAILED ks) as Hz.
  destruct (Z.eqb_spec (total_of RESULT_FAILED ks) 0) as [E|E]; cbn [negb]; symmetry.
  - apply bool_decide_eq_false_2. tauto.
  - apply bool_decide_eq_true_2. destruct (decide (RESULT_FAILED ∈ ks)); [done|tauto].
Qed.

(** What the task reports is what the recorder reads: the report has a named
    result per planned dataset, in order, its counts are the classes of the
    results, and the status derived from it says what happened - a noop only for
    an empty plan, a success only when every dataset was refreshed cleanly, a
    failure only when something failed and nothing was published, a blocked run
    only when everything was skipped or better absent.  The task itself fails on
    a failed dataset, unless partial results were allowed. *)
Theorem report_understood plan cartridge conf w report result w' :
  Forall (λ i, strip (p_name i) ≠ "") plan →
  materialize_in_order plan cartridge conf w = Some ((Some report, result), w') →
  ∃ rs ks, get "results" report = PList (PDict <$> rs)
    ∧ Forall2 (λ i r, get "name" r = PStr (p_name i)) plan rs ∧ Forall2 counted_as rs ks
    ∧ materialization_breakdown (PDict report) = Some (foldl incr (Counts 0 0 0 0) ks)
    ∧ status_tells plan ks report
    ∧ (if decide (RESULT_FAILED ∈ ks ∧ truthy (get "allow_partial" conf) = false)
       then ∃ e, result = Fail (Plain e) ∧ exn_cls e = RuntimeError else result = Done report).
Proof.
  intros Hnames [H ->]%in_order_cases. apply run_plan_cases in H as (rs & Hall & -> & _).
  destruct (classes_of _ _ Hnames Hall) as (ks & Hks & Hcl & Hlen). exists rs, ks.
  assert (Hns : Forall2 (λ i r, get "name" r = PStr (p_name i)) plan rs)
    by (eapply Forall2_impl; [exact Hall|by intros i r (k & Hn & _)]).
  destruct (decide (plan = [])) as [->|Hne].
  - inversion Hall; subst. destruct ks; [|done]. split_and!; [done..|reflexivity|apply empty_status|].
    rewrite decide_False; [done|]. intros [Hno _]. by apply not_elem_of_nil in Hno.
  - assert (Hkne : ks ≠ []) by (intros ->; by destruct plan).
    destruct (report_status _ _ Hks Hcl Hkne) as (S1 & S2 & S3 & S4). cbv zeta. rewrite (report_failed _ _ Hks Hcl).
    split_and!; [reflexivity|done|done|unfold materialization_breakdown; by rewrite (report_counts _ _ Hks)| |].
    + split_and!; [tauto|rewrite S1; tauto|exact S2|exact S3].
    + case_bool_decide as Hf; destruct (truthy (get "allow_partial" conf)); cbn [negb andb];
        [rewrite decide_False|rewrite decide_True|rewrite decide_False|rewrite decide_False]; try tauto; try by intros [_ ?].
      by eexists.
Qed.

(** C19: Nothing is computed from what was not refreshed: in a run of a plan the
    planner made, a dataset one of whose planned upstreams failed, or was skipped
    because of a failure, is itself stopped - unless its own result was already
    published and is reused.  So failures travel down the whole chain. *)
Theorem refresh_heeds_failures g seed_raw seed_dataset depth plan cartridge conf w report result w' :
  _build_plan g seed_raw seed_dataset depth = Some (Ok plan) →
  materialize_in_order plan cartridge conf w = Some ((Some report, result), w') →
  ∃ rs, get "results" report = PList (PDict <$> rs) ∧ Forall2 (λ i r, get "name" r = PStr (p_name i)) plan rs
    ∧ ∀ m n j i rj ri, plan !! m = Some j → rs !! m = Some rj → plan !! n = Some i → rs !! n = Some ri →
        p_name j ∈ p_upstreams i → stopped rj = true → get "reused" ri = PBool true ∨ stopped ri = true.
Proof.
  intros Hplan [H _]%in_order_cases. apply run_plan_cases in H as (rs & Hall & -> & Hheed). exists rs.
  assert (Hns : Forall2 (λ i r, get "name" r = PStr (p_name i)) plan rs)
    by (eapply Forall2_impl; [exact Hall|by intros i r (k & Hn & _)]).
  split; [destruct (decide (plan = [])) as [->|]; [by inversion Hall|reflexivity]|]. split; [done|].
  intros m n j i rj ri Hj Hrj Hi Hri Hup Hst.
  destruct (Hheed n i ri Hi Hri) as [Hr|[Hr|Hr]]; [by left|by right|exfalso].
  assert (Hlt : (m < n)%nat).
  { pose proof (plan_upstreams_first g seed_raw seed_dataset depth plan Hplan i j (list_elem_of_lookup_2 _ _ _ Hi)
      (list_elem_of_lookup_2 _ _ _ Hj) Hup) as Hrank.
    destruct (plan_names_unique g seed_raw seed_dataset depth plan Hplan) as [_ Hsorted].
    destruct (lt_eq_lt_dec m n) as [[?| ->]|Hgt]; [done| |].
    - rewrite Hi in Hj. injection Hj as ->. lia.
    - pose proof (StronglySorted_lookup _ _ _ _ _ _ Hsorted Hi Hj Hgt) as Hle. simpl in Hle. lia. }
  rewrite (Hr (p_name j) rj Hup) in Hst; [done| |exact (Forall2_lookup_lr _ _ _ _ _ _ Hns Hj Hrj)].
  apply list_elem_of_lookup_2 with m. by rewrite lookup_take_lt.
Qed.
End Reports.

(** ** The slots during a run *)
Section Slots.
Context {Hrepr : PyRepr}.
Context (hmac_sha256 : string → string → string) (sha256_hex : string → string) (uuid : string → option string).
Context (class_name : failure → string).
Context (environ : environment) (refinement_url : string) (request_headers : res headers) (run_id : string).
Context {W : Type} {Hjobs : JobService W} {Hworld : RefreshWorld W}.

(** Every slot of the second world is reached from the first by steps of the
    specification of slots. *)
Definition evolves (w w' : W) : Prop := ∀ s, ∃ es, slot_run (slot_of (slots w !! s)) es (slot_of (slots w' !! s)).

#[export] Instance evolves_preorder : PreOrder evolves.
Proof.
  split; [intros w s; exists []; constructor|].
  intros a b c Hab Hbc s. destruct (Hab s) as [es H1]. destruct (Hbc s) as [es' H2]. eexists. by eapply slot_run_app.
Qed.

(** What the other parties do between the calls: they follow the specification
    too.  [set_slots] writes the table. *)
Class WorldLaws : Prop := {
  slots_set : ∀ db w, slots (set_slots db w) = db;
  clock_evolves : ∀ w, evolves w (clock w).2;
  sleep_evolves : ∀ d w, evolves w (sleep d w);
  post_evolves : ∀ u hs b w, evolves w (post u hs b w).2;
  get_evolves : ∀ u hs w, evolves w (get_url u hs w).2;
  connect_evolves : ∀ w, evolves w (connect w).2;
  token_evolves : ∀ w, evolves w (token_hex w).2;
  wall_evolves : ∀ w, evolves w (wall w).2 }.
Context {Hlaws : WorldLaws}.

Definition steps {A} (m : act W A) : Prop := ∀ w x w', m w = Some (x, w') → evolves w w'.

Lemma steps_ret {A} (a : A) : steps (mret a).
Proof. by intros w x w' [= <- <-]. Qed.

Lemma steps_bind {A B} (m : act W A) (f : A → act W B) : steps m → (∀ a, steps (f a)) → steps (mbind f m).
Proof.
  intros Hm Hf w x w'. unfold mbind, act_bind. destruct (m w) as [[[a|e] w1]|] eqn:E; [| |done].
  - intros H. etrans; [by eapply Hm|by eapply Hf].
  - intros [= <- <-]. by eapply Hm.
Qed.

Lemma steps_of_res {A} (r : res A) : steps (of_res r).
Proof. by intros w x w' [= <- <-]. Qed.

Lemma steps_fail {A} f : steps (@fail W A f).
Proof. by intros w x w' [= <- <-]. Qed.

Lemma steps_attempt {A} (m : act W A) : steps m → steps (attempt m).
Proof.
  intros Hm w x w'. unfold attempt. destruct (m w) as [[[a|e] w1]|] eqn:E; [..|done]; intros [= <- <-]; by eapply Hm.
Qed.

Lemma steps_transact {A} (f : clocks → bool → runs → res (A * runs)) :
  (∀ c storage db a db', f c storage db = Ok (a, db') →
     ∀ s, ∃ es, slot_run (slot_of (db !! s)) es (slot_of (db' !! s))) →
  steps (transact f).
Proof.
  intros Hf w x w'. unfold transact. pose proof (connect_evolves w) as Hc. destruct (connect w) as [c w1]. cbn [snd] in Hc.
  destruct c as [[c storage]|e]; [|by intros [= <- <-]]. destruct (f c storage (slots w1)) as [[a db]|e] eqn:E; [|by intros [= <- <-]].
  intros [= <- <-]. etrans; [exact Hc|]. intros s. rewrite slots_set. by eapply Hf.
Qed.

Context (tenant_id workspace_id cartridge_id : string).
Abbreviation reserve := (reserve sha256_hex uuid run_id tenant_id workspace_id cartridge_id).
Abbreviation finish := (finish uuid tenant_id workspace_id).
Abbreviation slot := (_slot_id sha256_hex run_id tenant_id workspace_id).

Lemma call_evolves op db db' s :
  (RefreshLease.exec sha256_hex uuid op db).1 = db' → ∃ es, slot_run (slot_of (db !! s)) es (slot_of (db' !! s)).
Proof. intros <-. eexists. eapply exec_slot. apply surjective_pairing. Qed.

Lemma reserve_evolves c storage dataset db out db' s :
  reserve_materialization sha256_hex uuid c storage run_id tenant_id workspace_id cartridge_id dataset LEASE_SECONDS db
    = Ok (out, db') → ∃ es, slot_run (slot_of (db !! s)) es (slot_of (db' !! s)).
Proof.
  intros E. eapply (call_evolves (Reserve c storage run_id tenant_id workspace_id cartridge_id dataset LEASE_SECONDS)).
  cbn [RefreshLease.exec]. rewrite E. by destruct out.
Qed.

Lemma finish_evolves c slot_id token success result degraded reason db db' s :
  finish_materialization uuid c slot_id tenant_id workspace_id token success result degraded reason db = Ok db' →
  ∃ es, slot_run (slot_of (db !! s)) es (slot_of (db' !! s)).
Proof.
  intros E. eapply (call_evolves (Finish c slot_id tenant_id workspace_id token success result degraded reason)).
  cbn [RefreshLease.exec]. by rewrite E.
Qed.

Lemma heartbeat_evolves c slot_id token len db db' s :
  heartbeat_materialization uuid c slot_id tenant_id workspace_id token len db = Ok db' →
  ∃ es, slot_run (slot_of (db !! s)) es (slot_of (db' !! s)).
Proof.
  intros E. eapply (call_evolves (Heartbeat c slot_id tenant_id workspace_id token len)). cbn [RefreshLease.exec]. by rewrite E.
Qed.

Lemma steps_reserve dataset : steps (reserve dataset).
Proof. apply steps_transact. intros c storage db a db' E s. by eapply reserve_evolves. Qed.

Lemma steps_finish slot_id token success result degraded reason : steps (finish slot_id token success result degraded reason).
Proof.
  apply steps_bind; [apply steps_of_res|]. intros _. apply steps_transact. intros c storage db [] db' E s.
  apply bind_ok in E as (dbx & E & [= <-]). by eapply finish_evolves.
Qed.

Lemma steps_heartbeat slot_id token : steps (heartbeat uuid tenant_id workspace_id slot_id token).
Proof.
  apply steps_transact. intros c storage db [] db' E s. apply bind_ok in E as (dbx & E & [= <-]). by eapply heartbeat_evolves.
Qed.

Lemma make_context_evolves dataset w :
  evolves w (make_context hmac_sha256 sha256_hex environ run_id tenant_id workspace_id cartridge_id dataset w).2.
Proof.
  unfold make_context. pose proof (token_evolves w) as Ht. destruct (token_hex w) as [token w1]. cbn [snd] in Ht.
  pose proof (wall_evolves w1) as Hw. destruct (wall w1) as [now w2]. cbn [snd] in *. by etrans.
Qed.

Lemma steps_invoke hs dataset context slot_id token last :
  steps (_invoke_materialize hmac_sha256 sha256_hex uuid environ refinement_url run_id tenant_id workspace_id cartridge_id
    hs dataset context slot_id token last).
Proof.
  intros w x w'. unfold _invoke_materialize. destruct (run_service_job _ _ _ _ _ _ _ _ _) as [s|[r [w1 l]]] eqn:E; [done|].
  assert (Hpre : PreOrder (λ a b : W * local, evolves a.1 b.1))
    by (split; [by intros a|intros a b c; apply evolves_preorder]).
  intros [= _ <-]. apply (run_service_job_rel _ (λ a b : W * local, evolves a.1 b.1)) in E; [exact E|..].
  - intros [v k]. cbn. pose proof (clock_evolves v). by destruct (clock v).
  - intros d [v k]. cbn. apply sleep_evolves.
  - intros u h b [v k]. cbn. pose proof (post_evolves u h b v). by destruct (post u h b v).
  - intros u h [v k]. cbn. pose proof (get_evolves u h v). by destruct (get_url u h v).
  - intros [v [[c|] t]]; cbn; [done|]. pose proof (make_context_evolves dataset v).
    by destruct (make_context _ _ _ _ _ _ _ _ _).
  - intros p [= <-] [v k]. unfold keep. cbn [fst snd]. pose proof (clock_evolves v) as Hc.
    destruct (clock v) as [now v2]. cbn [snd] in Hc. destruct (_ <? _); [exact Hc|].
    destruct (heartbeat _ _ _ _ _ v2) as [[[[]|f] v3]|] eqn:Eh; [| |exact Hc].
    + apply steps_heartbeat in Eh. pose proof (clock_evolves v3) as Hc3. destruct (clock v3) as [now' v4]. cbn in *.
      etrans; [exact Hc|]. by etrans.
    + apply steps_heartbeat in Eh. cbn in *. by etrans.
Qed.

#[local] Hint Resolve steps_ret steps_bind steps_of_res steps_fail steps_attempt steps_reserve steps_finish steps_invoke : steps.

Lemma steps_failed_closed {A} : steps (@failed_closed W A).
Proof. apply steps_fail. Qed.

Lemma steps_compute dataset slot_id token context :
  steps (compute hmac_sha256 sha256_hex uuid environ refinement_url request_headers run_id tenant_id workspace_id
    cartridge_id dataset slot_id token context).
Proof.
  unfold compute. apply steps_bind; [auto with steps|]. intros hs. apply steps_bind.
  - intros w x w'. pose proof (clock_evolves w). destruct (clock w). by intros [= <- <-].
  - intros last. apply steps_bind; [auto with steps|]. intros raw. apply steps_bind; [auto with steps|].
    intros [k payload]. auto 8 with steps.
Qed.

Abbreviation materialize_item :=
  (materialize_item hmac_sha256 sha256_hex uuid class_name environ refinement_url request_headers run_id tenant_id
     workspace_id cartridge_id).

Lemma steps_item s item : steps (materialize_item s item).
Proof.
  unfold RefreshRun.materialize_item. do 3 (apply steps_bind; [auto with steps|]; intros ?). apply steps_bind; [auto with steps|].
  intros [durable|slot_id token]; [auto 8 with steps|]. unfold materialize_reserved.
  destruct (List.find _ _); [auto with steps|]. apply steps_bind.
  - apply steps_attempt. intros w x w'. pose proof (make_context_evolves a w). destruct (make_context _ _ _ _ _ _ _ _ _).
    by intros [= <- <-].
  - intros [context|f].
    + apply steps_bind; [apply steps_attempt, steps_compute|]. intros [safe|f]; [auto with steps|].
      unfold recover. destruct (_ || _); [apply steps_bind; [auto with steps|intros _; apply steps_failed_closed]|].
      destruct (_structural_absence _ _ _ _ _ _); auto with steps.
    + destruct (_ || _); [|auto with steps]. apply steps_bind; [auto with steps|intros _; apply steps_failed_closed].
Qed.

(** A result whose slot holds it for good: published under some token, with the
    row count that was reported, degraded when it was reported as such. *)
Definition durable (w : W) (name : string) (r : pydict) : Prop :=
  ∃ token d n, slot_of (slots w !! slot name) = RefreshLease.Done token d
    ∧ int_or_zero (get "row_count" d) = Ok n ∧ get "row_count" r = PInt n
    ∧ (get "classification" r = PStr RESULT_DEGRADED ↔ get "degraded" d = PBool true).

Lemma run_from_done k d es s : slot_run (RefreshLease.Done k d) es s → s = RefreshLease.Done k d.
Proof.
  remember (RefreshLease.Done k d) as s0 eqn:E. induction 1 as [|s e s1 es s2 Hstep _ IH]; [done|]. subst s.
  inversion Hstep as [? ? Hnd| | | |]; subst; [by destruct (Hnd k d)|by apply IH].
Qed.

Lemma durable_evolves w w' name r : evolves w w' → durable w name r → durable w' name r.
Proof.
  intros Hw (token & d & n & Hs & Hd). exists token, d, n. split; [|done]. destruct (Hw (slot name)) as [es He].
  rewrite Hs in He. by apply run_from_done in He.
Qed.

(** The row of a published result. *)
Lemma finished_publishes c safe degraded status error extra r n :
  _finished_state true (Some safe) degraded None = Ok (status, error, extra) → get "row_count" safe = PInt n →
  ∃ d, _durable_result (Some (finished c status error extra r)) = Some d ∧ int_or_zero (get "row_count" d) = Ok n
    ∧ (get "degraded" d = PBool true ↔ degraded = true).
Proof.
  intros H Hn. unfold _finished_state in H. cbn [default] in H. destruct (negb _); [done|].
  apply bind_ok in H as (m & Hm & H). change (int_or_zero (get "row_count" safe) = Ok m) in Hm.
  unfold int_or_zero in Hm. rewrite Hn in Hm.
  assert (m = n) as -> by (unfold py_or in Hm; cbn in Hm; destruct (Z.eqb_spec n 0); cbn in Hm; congruence).
  assert (Hint : ∀ n, int_or_zero (PInt n) = Ok n)
    by (intros k; unfold int_or_zero, py_or; cbn; destruct (Z.eqb_spec k 0); cbn; congruence).
  set (nm := str_or_empty (get "name" (id safe))) in H. set (layer := strip _) in H. clearbody nm layer.
  destruct degraded; injection H as <- <- <-; eexists; (split; [vm_compute; reflexivity|]).
  - split; [apply Hint|by split].
  - split; [apply Hint|]. split; [intros E; discriminate E|done].
Qed.

Lemma slot_of_durable_inv (db : runs) s k d :
  slot_of (db !! s) = RefreshLease.Done k d → ∃ r, db !! s = Some r ∧ _durable_result (Some r) = Some d.
Proof.
  unfold slot_of. destruct (db !! s) as [r|]; [|done]. destruct (_durable_result (Some r)) as [d'|] eqn:E.
  - intros [= _ ->]. by exists r.
  - by case_bool_decide.
Qed.

Lemma reserve_completed dataset w d w' :
  reserve dataset w = Some (Done (Completed d), w') → ∃ k, slot_of (slots w' !! slot dataset) = RefreshLease.Done k d.
Proof.
  unfold RefreshRun.reserve, transact. destruct (connect w) as [[[c storage]|e] w1]; [|done].
  destruct (reserve_materialization _ _ _ _ _ _ _ _ _ _ _) as [[out db]|e] eqn:E; [|done]. intros [= -> <-].
  apply reserve_cases in E as [-> (r & Hr & Hd)]. rewrite slots_set, Hr. eexists. by apply slot_of_durable.
Qed.

Lemma reserve_granted dataset w slot_id token w' :
  reserve dataset w = Some (Done (Reserved slot_id token), w') → slot_id = slot dataset.
Proof.
  unfold RefreshRun.reserve, transact. destruct (connect w) as [[[c storage]|e] w1]; [|done].
  destruct (reserve_materialization _ _ _ _ _ _ _ _ _ _ _) as [[out db]|e] eqn:E; [|done]. intros [= -> <-].
  by apply reserve_cases in E as [-> _].
Qed.

Lemma finish_published slot_id token safe degraded w w' n :
  finish slot_id token true (Some safe) degraded None w = Some (Done tt, w') → get "row_count" safe = PInt n →
  ∃ k d, slot_of (slots w' !! slot_id) = RefreshLease.Done k d ∧ int_or_zero (get "row_count" d) = Ok n
    ∧ (get "degraded" d = PBool true ↔ degraded = true).
Proof.
  intros H Hn. unfold RefreshRun.finish in H. apply act_bind_done in H as (x & w1 & _ & H). unfold transact in H.
  destruct (connect w1) as [[[c storage]|e] w2]; [|done].
  destruct (finish_materialization _ _ _ _ _ _ _ _ _ _ _) as [db|e] eqn:E; [|done]. cbn in H. injection H as <-.
  apply finish_cases in E as (r & status & error & extra & Hr & _ & Hst & ->). cbn [fmap option_fmap option_map] in Hst.
  destruct (finished_publishes c safe degraded status error extra r n Hst Hn) as (d & Hd & Hint & Hdeg).
  eexists _, d. rewrite slots_set, lookup_insert_eq. split; [by apply slot_of_durable|done].
Qed.

Lemma materialize_items_grows items s w s' w' :
  RefreshRun.materialize_items hmac_sha256 sha256_hex uuid class_name environ refinement_url request_headers run_id tenant_id
    workspace_id cartridge_id s (item_dict <$> items) w = Some (Done s', w') →
  ∃ rs, results s' = (results s ++ rs)%list.
Proof.
  revert s w. induction items as [|i items IH]; intros s w; cbn [fmap list_fmap RefreshRun.materialize_items].
  - intros [= <- <-]. exists []. by rewrite app_nil_r.
  - intros (s1 & w1 & Hi & [rs Hrs]%IH)%act_bind_done. apply materialize_item_cases in Hi as (r & k & _ & Hres & _).
    exists (r :: rs). by rewrite Hrs, Hres, <- app_assoc.
Qed.

(** A published result of an iteration is durable at its end. *)
Lemma materialize_item_durable s i w s' w' r :
  materialize_item s (item_dict i) w = Some (Done s', w') → results s' = (results s ++ [r])%list →
  get "ok" r = PBool true → durable w' (p_name i) r.
Proof.
  unfold RefreshRun.materialize_item. intros H Hres Hok. acts_in H.
  change (dget "name" (item_dict i)) with (Some (PStr (p_name i))) in R. injection R as <-. cbn [py_str] in *.
  assert (Hlast : ∀ r', results s' = (results s ++ [r'])%list → r' = r).
  { intros r' E. rewrite Hres in E. by apply app_inj_tail in E as [_ ->]. }
  match type of H with context [match ?x with Completed _ => _ | Reserved _ _ => _ end] => destruct x as [d|slot_id token] end.
  - acts_in H. injection H as <- <-. destruct (reserve_completed _ _ _ _ M) as [k Hk].
    assert (Hcls : (if is_true (get "degraded" d) then RESULT_DEGRADED else RESULT_OK) ∈ PUBLISHED_CLASSES)
      by (destruct (is_true _); decide_now).
    match goal with R : _safe_result _ _ _ _ = Ok ?x |- _ => pose proof (Hlast x eq_refl) as Ex; subst x;
      apply safe_result_ok in R as ((_ & Hc & _) & _ & _ & n & Hn & Hr); [|exact Hcls] end.
    rewrite get_dset_ne in Hn by done.
    exists k, d, n. split; [done|]. split; [done|]. split; [done|]. rewrite Hc.
    destruct (get "degraded" d) as [|[]| | | | |]; cbn [is_true]; (split; [intros E; first [done|discriminate E]|intros E; first [done|discriminate E]]).
  - apply reserve_granted in M as ->. unfold materialize_reserved in H.
    destruct (List.find _ _); [acts_in H; injection H as <- <-; rewrite <- (Hlast _ eq_refl) in Hok; discriminate Hok|].
    apply act_bind_done in H as (ctx & w1 & _ & H). destruct ctx as [context|f].
    2: { destruct (isa f RuntimeError || isa f ValueError); acts_in H; done. }
    apply act_bind_done in H as (outcome & w2 & M1%attempt_done & H). destruct outcome as [safe|f].
    + injection H as <- <-. pose proof (Hlast safe eq_refl) as Ex. subst safe. unfold compute in M1. acts_in M1.
      match goal with R : classify_materialization_payload _ _ = Ok ?x |- _ => destruct x as [k payload] end.
      acts_in M1. injection M1 as -> <-.
      match goal with R : classify_materialization_payload _ _ = _ |- _ =>
        assert (Hk : k = RESULT_OK ∨ k = RESULT_DEGRADED) by (by apply classify_outcome in R as (? & _)) end.
      match goal with R : _safe_result _ _ _ _ = Ok r |- _ => apply safe_result_ok in R as ((_ & Hc & _) & _ & _ & n & _ & Hn);
        [|destruct Hk as [-> | ->]; decide_now] end.
      match goal with M : finish _ _ true _ _ _ _ = Some (Done ?u, _) |- _ => destruct u;
        destruct (finish_published _ _ _ _ _ _ _ M Hn) as (t & d & Hs & Hd & Hdeg) end.
      exists t, d, n. split; [done|]. split; [done|]. split; [done|]. rewrite Hc, Hdeg, bool_decide_eq_true. by split; [intros [= ->]|intros ->].
    + unfold recover in H. destruct (_ || _); [acts_in H; done|]. destruct (_structural_absence _ _ _ _ _ _);
        acts_in H; injection H as <- <-; rewrite <- (Hlast _ eq_refl) in Hok; discriminate Hok.
Qed.

Abbreviation materialize_items :=
  (materialize_items hmac_sha256 sha256_hex uuid class_name environ refinement_url request_headers run_id tenant_id
     workspace_id cartridge_id).

Lemma materialize_items_durable plan s w s' w' rs :
  materialize_items s (item_dict <$> plan) w = Some (Done s', w') → results s' = (results s ++ rs)%list →
  evolves w w' ∧ Forall2 (λ i r, get "ok" r = PBool true → durable w' (p_name i) r) plan rs.
Proof.
  revert s w rs. induction plan as [|i plan IH]; intros s w rs; cbn [fmap list_fmap RefreshRun.materialize_items].
  - intros [= <- <-] E. assert (rs = []) as -> by (by apply (app_inv_head (results s)); rewrite app_nil_r). by split.
  - intros (s1 & w1 & Hi & H)%act_bind_done E. pose proof (steps_item _ _ _ _ _ Hi) as Hw.
    pose proof Hi as (r & k & _ & Hres & _ & _)%materialize_item_cases.
    assert (∃ rs', rs = r :: rs') as [rs' ->].
    { pose proof H as Hp. apply materialize_items_grows in Hp as [more Hm]. exists more. rewrite Hm, Hres, <- app_assoc in E.
      by apply app_inv_head in E. }
    destruct (IH s1 w1 rs' H) as [Hw' Hall]; [by rewrite E, Hres, <- app_assoc|]. split; [by etrans|]. constructor; [|done].
    intros Hok. eapply durable_evolves; [exact Hw'|]. by eapply materialize_item_durable.
Qed.

(** A reservation of a durable result is answered with it. *)
Lemma durable_replays w name r c storage cartridge len out db :
  durable w name r →
  reserve_materialization sha256_hex uuid c storage run_id tenant_id workspace_id cartridge name len (slots w) = Ok (out, db) →
  ∃ d, out = Completed d ∧ int_or_zero (get "row_count" d) = py_int (get "row_count" r).
Proof.
  intros (token & d & n & Hs & Hn & Hr & _) H. apply slot_of_durable_inv in Hs as (row & Hrow & Hd).
  apply reserve_cases in H. destruct out as [d'|slot' token'].
  - destruct H as [_ (row' & Hrow' & Hd')]. rewrite Hrow in Hrow'. injection Hrow' as <-. rewrite Hd in Hd'.
    injection Hd' as <-. exists d. by rewrite Hn, Hr.
  - destruct H as (_ & _ & Hno & _). destruct (Hno row Hrow) as [Hnone _]. congruence.
Qed.
End Slots.

Section Durability.
Context {Hrepr : PyRepr}.
Context (hmac_sha256 : string → string → string) (sha256_hex : string → string) (uuid : string → option string).
Context (class_name : failure → string).
Context (environ : environment) (refinement_url : string) (request_headers : res headers) (run_id : string).
Context {W : Type} {Hjobs : JobService W} {Hworld : RefreshWorld W} {Hlaws : WorldLaws}.

(** C20: What is reported as refreshed is published for good: every dataset a run
    reports as ok or degraded is published in its slot with the rows reported, at
    the end of the run and whatever happens afterwards, and a later attempt of the
    same run is answered with that result instead of computing it again. *)
Theorem reported_is_durable plan cartridge conf w report result w' :
  materialize_in_order hmac_sha256 sha256_hex uuid class_name environ refinement_url request_headers run_id plan cartridge conf w
    = Some ((Some report, result), w') →
  ∃ tenant workspace rs, _required_scope conf = Ok (tenant, workspace) ∧ get "results" report = PList (PDict <$> rs)
    ∧ Forall2 (λ i r, get "ok" r = PBool true → ∀ later, evolves w' later →
        durable sha256_hex run_id tenant workspace later (p_name i) r
        ∧ ∀ c storage cartridge' len out db,
            reserve_materialization sha256_hex uuid c storage run_id tenant workspace cartridge' (p_name i) len (slots later)
              = Ok (out, db) →
            ∃ d, out = Completed d ∧ int_or_zero (get "row_count" d) = py_int (get "row_count" r)) plan rs.
Proof.
  intros [H _]%in_order_cases. unfold run_plan in H. acts_in H.
  match type of H with (let '(_, _) := ?x in _) _ = _ => destruct x as [t v] end. exists t, v.
  destruct (nonempty _); cbn [negb] in H; [|done]. acts_in H. destruct plan as [|i plan].
  - injection H as <- <-. exists []. split; [done|]. split; [reflexivity|constructor].
  - apply act_bind_done in H as (s & w1 & Hs & [= <- <-]). exists (results s). split; [done|]. split; [reflexivity|].
    destruct (materialize_items_durable _ _ _ _ _ _ _ _ _ _ _ _ _ _ _ _ (results s) Hs eq_refl) as [_ Hall].
    eapply Forall2_impl; [exact Hall|]. intros j r Hr Hok later Hlater. specialize (Hr Hok).
    pose proof (durable_evolves _ _ _ _ _ _ _ _ Hlater Hr) as Hd. split; [exact Hd|].
    intros c storage cartridge' len out db. by eapply durable_replays.
Qed.
End Durability.


(** ** The requests a step makes *)
Section Costs.
Context {W : Type} {Hjobs : JobService W} {Hcounted : Counted (W := W)}.

(** At most [p] submissions and [g] polls more. *)
Definition costs (p g : nat) (w w' : W) : Prop :=
  (posts w' <= posts w + p)%nat ∧ (gets w' <= gets w + g)%nat.
Definition bounded (p g : nat) {A} (m : act W A) : Prop := ∀ w, ∃ x w', m w = Some (x, w') ∧ costs p g w w'.

Lemma bounded_ret {A} (a : A) : bounded 0 0 (mret a).
Proof. intros w. eexists _, w. split; [reflexivity|]. unfold costs. lia. Qed.

Lemma bounded_of_res {A} (r : res A) : bounded 0 0 (of_res r).
Proof. intros w. eexists _, w. split; [reflexivity|]. unfold costs. lia. Qed.

Lemma bounded_fail {A} f : bounded 0 0 (@fail W A f).
Proof. intros w. eexists _, w. split; [reflexivity|]. unfold costs. lia. Qed.

Lemma bounded_more {A} p g p' g' (m : act W A) : bounded p g m → (p <= p')%nat → (g <= g')%nat → bounded p' g' m.
Proof. intros Hm Hp Hg w. destruct (Hm w) as (x & w' & E & Hc). exists x, w'. split; [done|]. unfold costs in *. lia. Qed.

Lemma bounded_bind {A B} p g p' g' (m : act W A) (f : A → act W B) :
  bounded p g m → (∀ a, bounded p' g' (f a)) → bounded (p + p') (g + g') (mbind f m).
Proof.
  intros Hm Hf w. unfold mbind, act_bind. destruct (Hm w) as ([a|e] & w1 & -> & H1).
  - destruct (Hf a w1) as (x & w2 & E & H2). exists x, w2. split; [done|]. unfold costs in *. lia.
  - exists (Fail e), w1. split; [done|]. unfold costs in *. lia.
Qed.

(** In a sequence of steps that make no request the bound is that of the rest. *)
Lemma bounded_then {A B} p g (m : act W A) (f : A → act W B) :
  bounded 0 0 m → (∀ a, bounded p g (f a)) → bounded p g (mbind f m).
Proof. intros Hm Hf. by apply (bounded_bind 0 0 p g). Qed.

Lemma bounded_attempt {A} p g (m : act W A) : bounded p g m → bounded p g (attempt m).
Proof.
  intros Hm w. unfold attempt. destruct (Hm w) as ([a|e] & w1 & -> & H1); by eexists _, w1.
Qed.
End Costs.

(** ** The end of a run *)
Section Ending.
Context {Hrepr : PyRepr}.
Context (hmac_sha256 : string → string → string) (sha256_hex : string → string) (uuid : string → option string).
Context (class_name : failure → string).
Context (environ : environment) (refinement_url : string) (request_headers : res headers) (run_id : string).
Context {W : Type} {Hjobs : JobService W} {Hworld : RefreshWorld W} {Htimed : Timed (W := W)} {Hcounted : Counted (W := W)}.

(** The database, the randomness and the wall clock make no request of the service. *)
Class WorldCosts : Prop := {
  connect_quiet : quiet connect;
  token_quiet : quiet token_hex;
  wall_quiet : quiet wall;
  set_slots_quiet : ∀ db w, time w <= time (set_slots db w) ∧ posts (set_slots db w) = posts w ∧ gets (set_slots db w) = gets w }.
Context {Hcosts : WorldCosts}.

#[local] Instance local_timed : Timed (W := W * local).
Proof.
  refine {| time := λ wl : W * local, time wl.1 |}.
  - intros [w l]. cbn. pose proof (clock_reads w). by destruct (clock w).
  - intros u h b [w l]. cbn. pose proof (post_time u h b w). by destruct (post u h b w).
  - intros u h [w l]. cbn. pose proof (get_time u h w). by destruct (get_url u h w).
  - intros d [w l]. apply sleep_time.
Defined.

#[local] Instance local_counted : Counted (W := W * local).
Proof.
  refine {| posts := λ wl : W * local, posts wl.1; gets := λ wl : W * local, gets wl.1 |}.
  - intros [w l]. cbn. pose proof (clock_counts w). by destruct (clock w).
  - intros u h b [w l]. cbn. pose proof (post_counts u h b w). by destruct (post u h b w).
  - intros u h [w l]. cbn. pose proof (get_counts u h w). by destruct (get_url u h w).
  - intros d [w l]. apply sleep_counts.
Defined.

Lemma quiet_transact {A} (f : clocks → bool → runs → res (A * runs)) w :
  ∃ x w', transact f w = Some (x, w') ∧ time w <= time w' ∧ posts w' = posts w ∧ gets w' = gets w.
Proof.
  unfold transact. destruct (connect_quiet w) as (H1 & H2 & H3). destruct (connect w) as [[[c storage]|e] w1]; cbn [snd] in *.
  - destruct (f c storage (slots w1)) as [[a db]|e]; [|by eexists _, w1].
    destruct (set_slots_quiet db w1) as (H4 & H5 & H6). eexists _, _. split; [reflexivity|]. lia.
  - by eexists _, w1.
Qed.

Lemma bounded_transact {A} (f : clocks → bool → runs → res (A * runs)) : bounded 0 0 (transact f).
Proof. intros w. destruct (quiet_transact f w) as (x & w' & E & _ & Hp & Hg). exists x, w'. split; [done|]. unfold costs. lia. Qed.

Context (tenant_id workspace_id cartridge_id : string).

Lemma make_context_quiet dataset :
  quiet (make_context hmac_sha256 sha256_hex environ run_id tenant_id workspace_id cartridge_id dataset).
Proof.
  intros w. unfold make_context. destruct (token_quiet w) as (H1 & H2 & H3). destruct (token_hex w) as [token w1]. cbn [snd] in *.
  destruct (wall_quiet w1) as (H4 & H5 & H6). destruct (wall w1) as [now w2]. cbn [snd] in *. split_and!; [lia|congruence..].
Qed.

Lemma body_quiet dataset :
  quiet (W := W * local) (body hmac_sha256 sha256_hex environ run_id tenant_id workspace_id cartridge_id dataset).
Proof.
  intros [w [[c|] t]]; cbn; [by split_and!|]. destruct (make_context_quiet dataset w) as (H1 & H2 & H3).
  destruct (make_context _ _ _ _ _ _ _ _ _). done.
Qed.

Lemma keep_quiet slot_id token : quiet (W := W * local) (keep uuid tenant_id workspace_id slot_id token).
Proof.
  intros [w l]. unfold keep. cbn [fst snd]. destruct (clock_reads w) as [_ H1]. destruct (clock_counts w) as [H2 H3].
  destruct (clock w) as [now w1]. cbn [snd] in *. destruct (_ <? _); [done|].
  destruct (quiet_transact (λ c _ db, db ← heartbeat_materialization uuid c slot_id tenant_id workspace_id token LEASE_SECONDS db;
    Ok (tt, db)) w1) as ([[]|f] & w2 & E & Hc); unfold heartbeat; rewrite E.
  - destruct (clock_reads w2) as [_ H4]. destruct (clock_counts w2) as [H5 H6]. destruct (clock w2) as [now' w3]. cbn in *. lia.
  - cbn in *. lia.
Qed.

(** A job: three submissions, and a poll per pause of its three hours. *)
Definition JOB_POLLS : nat := 1080.

Lemma bounded_invoke hs dataset context slot_id token last :
  bounded 3 JOB_POLLS (_invoke_materialize hmac_sha256 sha256_hex uuid environ refinement_url run_id tenant_id workspace_id
    cartridge_id hs dataset context slot_id token last).
Proof.
  intros w. unfold _invoke_materialize.
  edestruct (run_service_job_ends (W := W * local)
    (body hmac_sha256 sha256_hex environ run_id tenant_id workspace_id cartridge_id dataset) (body_quiet dataset)
    FUEL (rstrip_char "/" refinement_url +:+ "/mcp/invoke") hs (job_key sha256_hex slot_id token) JOB_DEADLINE_SECONDS
    POLL_SECONDS (Some (keep uuid tenant_id workspace_id slot_id token)) (w, mkLocal (Some context) last))
    as (r & [w' l] & Hrun & Hp & Hg).
  - intros p [= <-]. apply keep_quiet.
  - vm_compute. reflexivity.
  - vm_compute. reflexivity.
  - rewrite Hrun. eexists _, w'. split; [reflexivity|]. change (rounds _ _) with 1080 in Hg.
    cbn [posts gets local_counted fst] in *. unfold costs, JOB_POLLS, MAX_RESUBMITS in *. lia.
Qed.

Lemma bounded_finish slot_id token success result degraded reason :
  bounded 0 0 (finish uuid tenant_id workspace_id slot_id token success result degraded reason).
Proof. apply bounded_then; [apply bounded_of_res|intros _; apply bounded_transact]. Qed.

#[local] Hint Resolve bounded_ret bounded_of_res bounded_fail bounded_finish bounded_then : bounded.

Lemma bounded_compute dataset slot_id token context :
  bounded 3 JOB_POLLS (compute hmac_sha256 sha256_hex uuid environ refinement_url request_headers run_id tenant_id
    workspace_id cartridge_id dataset slot_id token context).
Proof.
  unfold compute. apply bounded_then; [auto with bounded|]. intros hs. apply bounded_then.
  - intros w. destruct (clock_counts w) as [H1 H2]. destruct (clock w) as [t w1]. eexists _, w1. split; [reflexivity|].
    unfold costs. cbn [snd] in *. lia.
  - intros t. apply (bounded_bind 3 JOB_POLLS 0 0); [apply bounded_invoke|]. intros raw.
    apply bounded_then; [auto with bounded|]. intros [k payload]. auto 6 with bounded.
Qed.

Abbreviation materialize_item :=
  (materialize_item hmac_sha256 sha256_hex uuid class_name environ refinement_url request_headers run_id tenant_id
     workspace_id cartridge_id).

Lemma bounded_free {A} (m : act W A) : bounded 0 0 m → bounded 3 JOB_POLLS m.
Proof. intros Hm. eapply bounded_more; [exact Hm|lia|lia]. Qed.

Lemma bounded_item s item : bounded 3 JOB_POLLS (materialize_item s item).
Proof.
  unfold RefreshRun.materialize_item. do 3 (apply bounded_then; [auto with bounded|]; intros ?).
  apply bounded_then; [apply bounded_transact|]. intros [durable|slot_id token]; [apply bounded_free; auto 8 with bounded|].
  unfold materialize_reserved. destruct (List.find _ _); [apply bounded_free; auto with bounded|]. apply bounded_then.
  - apply bounded_attempt. intros w. match goal with |- context [make_context _ _ _ _ _ _ _ ?d w] =>
      destruct (make_context_quiet d w) as (_ & H2 & H3) end.
    destruct (make_context _ _ _ _ _ _ _ _ _) as [c w1]. eexists _, w1. split; [reflexivity|]. unfold costs. cbn [snd] in *. lia.
  - intros [context|f].
    + apply (bounded_bind 3 JOB_POLLS 0 0); [apply bounded_attempt, bounded_compute|]. intros [safe|f]; [auto with bounded|].
      unfold recover. destruct (_ || _); [apply bounded_then; [auto with bounded|intros _; apply bounded_fail]|].
      destruct (_structural_absence _ _ _ _ _ _); auto with bounded.
    + apply bounded_free. destruct (_ || _); [|apply bounded_fail]. apply bounded_then; [auto with bounded|intros _; apply bounded_fail].
Qed.

Lemma bounded_items s items :
  bounded (3 * length items) (JOB_POLLS * length items)
    (materialize_items hmac_sha256 sha256_hex uuid class_name environ refinement_url request_headers run_id tenant_id
       workspace_id cartridge_id s items).
Proof.
  revert s. induction items as [|item items IH]; intros s; cbn [materialize_items length].
  - rewrite !Nat.mul_0_r. apply bounded_ret.
  - rewrite !Nat.mul_succ_r, !(Nat.add_comm (_ * length items)). apply bounded_bind; [apply bounded_item|]. intros s'. apply IH.
Qed.
End Ending.

Section Termination.
Context {Hrepr : PyRepr}.
Context (hmac_sha256 : string → string → string) (sha256_hex : string → string) (uuid : string → option string).
Context (class_name : failure → string).
Context (environ : environment) (refinement_url : string) (request_headers : res headers) (run_id : string).
Context {W : Type} {Hjobs : JobService W} {Hworld : RefreshWorld W} {Htimed : Timed (W := W)} {Hcounted : Counted (W := W)}.
Context {Hcosts : WorldCosts}.

(** C35: A run ends, whatever the service answers: the model is never out of fuel,
    and each planned dataset costs at most three submissions and one poll per ten
    seconds of its three hours. *)
Theorem refresh_ends plan cartridge conf w :
  ∃ outcome w',
    materialize_in_order hmac_sha256 sha256_hex uuid class_name environ refinement_url request_headers run_id plan cartridge conf w
      = Some (outcome, w')
    ∧ (posts w' <= posts w + 3 * length plan)%nat ∧ (gets w' <= gets w + JOB_POLLS * length plan)%nat.
Proof.
  assert (Hb : bounded (3 * length plan) (JOB_POLLS * length plan)
    (run_plan hmac_sha256 sha256_hex uuid class_name environ refinement_url request_headers run_id plan cartridge conf)).
  { assert (Hfree : ∀ A (m : act W A), bounded 0 0 m → bounded (3 * length plan) (JOB_POLLS * length plan) m)
      by (intros A m Hm; eapply bounded_more; [exact Hm|lia|lia]).
    unfold run_plan. apply bounded_then; [apply bounded_of_res|]. intros [t v].
    destruct (negb _); [apply Hfree, bounded_fail|]. apply bounded_then; [apply bounded_of_res|]. intros _.
    destruct plan as [|i plan]; [apply Hfree, bounded_ret|].
    rewrite <- (Nat.add_0_r (3 * _)), <- (Nat.add_0_r (JOB_POLLS * _)), <- (length_fmap item_dict).
    apply bounded_bind; [exact (bounded_items _ _ _ _ _ _ _ _ _ _ _ _ _)|]. intros s. apply bounded_ret. }
  unfold materialize_in_order. destruct (Hb w) as ([report|f] & w' & -> & Hp & Hg); by eexists _, w'.
Qed.
End Termination.

(** ** A run

    Three datasets: [clean] is computed by a job, [joined] fails with a status 500
    that the service answers the submission with, and [report] reads both. *)
Module Evening.
#[local] Instance repr : PyRepr := some_repr.
Record world := mkWorld { w_slots : runs; w_now : instant; w_tokens : nat; w_posts : nat; w_gets : nat }.
Definition asked_for (body : pyval) : string :=
  match body with
  | PDict b => match get "args" b with PDict args => str_or_empty (get "name" args) | _ => "" end
  | _ => ""
  end.
Definition gold (name : string) (rows : Z) : pyval :=
  PDict (mkdict [("name", PStr name); ("layer", PStr "gold"); ("row_count", PInt rows)]).
Definition queued : pyval :=
  PDict (mkdict [("job_id", PStr "j1"); ("status", PStr "running"); ("status_url", PStr "/jobs/j1")]).
Definition succeeded (name : string) : pyval :=
  PDict (mkdict [("job_id", PStr "j1"); ("status", PStr "succeeded"); ("result", gold name 7)]).
Definition submitted (body : pyval) : exchange :=
  Answered (if bool_decide (asked_for body = "clean") then mkHttp 202 (Ok queued)
            else if bool_decide (asked_for body = "joined") then mkHttp 500 (Ok PNone)
            else mkHttp 200 (Ok (gold (asked_for body) 3))).

#[local] Instance jobs : JobService world := {|
  clock w := (w_now w, mkWorld (w_slots w) (w_now w + 5) (w_tokens w) (w_posts w) (w_gets w));
  post u hs b w := (submitted b, mkWorld (w_slots w) (w_now w + 100) (w_tokens w) (S (w_posts w)) (w_gets w));
  get_url u hs w := (Answered (mkHttp 200 (Ok (if Nat.ltb (w_gets w) 2 then queued else succeeded "clean"))),
                     mkWorld (w_slots w) (w_now w + 100) (w_tokens w) (w_posts w) (S (w_gets w)));
  sleep d w := mkWorld (w_slots w) (w_now w + Z.max 0 d) (w_tokens w) (w_posts w) (w_gets w) |}.

#[local] Instance database : RefreshWorld world := {|
  slots := w_slots;
  set_slots db w := mkWorld db (w_now w) (w_tokens w) (w_posts w) (w_gets w);
  connect w := (Ok (mkClocks (w_now w) (w_now w) (w_now w), true), w);
  token_hex w := (repeat_char 63 "0" +:+ str_of_Z (Z.of_nat (w_tokens w)),
                  mkWorld (w_slots w) (w_now w) (S (w_tokens w)) (w_posts w) (w_gets w));
  wall w := (1000, w) |}.

Definition plan : list plan_item := small_plan.
Definition conf : pydict :=
  mkdict [("tenant_id", PStr "t1"); ("workspace_id", PStr "w1"); ("cartridge_id", PStr "crm")].
Definition digest (bytes : string) : string := bytes.
Definition class_of (f : failure) : string := "HTTPStatusError".
Definition start : world := mkWorld ∅ 0 0 0 0.
Definition evening (w : world) : option ((option pydict * out pydict) * world) :=
  materialize_in_order Presented.mac digest Some class_of Presented.variables "http://refinement:8500/" (Ok [])
    "run-1" plan (PStr "crm") conf w.

Definition summary (report : pydict) : list (string * string * bool) :=
  match get "results" report with
  | PList rs => (λ r, match r with
      | PDict r => (str_or_empty (get "name" r), str_or_empty (get "classification" r), stopped r) | _ => ("", "", false) end) <$> rs
  | _ => []
  end.
Example evening_goes : match evening start with
  | Some ((Some report, Fail _), w) =>
      summary report = [("clean", "ok", false); ("joined", "failed", true); ("report", "skipped", true)]
      ∧ (w_posts w, w_gets w, w_tokens w) = (2%nat, 3%nat, 2%nat)
  | _ => False
  end.
Proof. vm_compute. split; reflexivity. Qed.

Lemma evening_reports : match evening start with Some ((Some _, _), _) => True | _ => False end.
Proof. vm_compute. exact I. Qed.
Lemma evening_plan : _build_plan small_graph "raw/crm/accounts" "" 10 = Some (Ok plan).
Proof. vm_compute. reflexivity. Qed.

#[local] Instance laws : WorldLaws (W := world).
Proof. split; intros; try done; intros slot; exists []; constructor. Qed.
#[local] Instance timed : Timed (W := world).
Proof. refine {| time := w_now |}; intros; cbn; lia. Defined.
#[local] Instance counted : Counted (W := world).
Proof. refine {| posts := w_posts; gets := w_gets |}; intros; split; reflexivity. Defined.
#[local] Instance evening_costs : WorldCosts (W := world).
Proof. split; intros; try intros w; cbn; lia. Qed.

Lemma report_understood_witness :
  ∃ report result w ks, evening start = Some ((Some report, result), w) ∧ length ks = 3%nat
    ∧ materialization_breakdown (PDict report) = Some (foldl incr (Counts 0 0 0 0) ks).
Proof.
  pose proof evening_reports as Hr. destruct (evening start) as [[[[report|] result] w]|] eqn:E; [|destruct Hr..].
  unfold evening in E.
  destruct (report_understood Presented.mac digest Some class_of Presented.variables "http://refinement:8500/" (Ok []) "run-1"
    plan (PStr "crm") conf start report result w) as (rs & ks & _ & Hn & Hc & Hb & _).
  - vm_compute. repeat constructor; discriminate.
  - exact E.
  - exists report, result, w, ks. split; [reflexivity|]. split; [|exact Hb].
    rewrite <- (Forall2_length _ _ _ Hc), <- (Forall2_length _ _ _ Hn). vm_compute. reflexivity.
Defined.

Lemma refresh_heeds_failures_witness :
  ∃ report result w rs, evening start = Some ((Some report, result), w) ∧ get "results" report = PList (PDict <$> rs)
    ∧ ∀ joined above, rs !! 1%nat = Some joined → rs !! 2%nat = Some above → stopped joined = true →
        get "reused" above = PBool true ∨ stopped above = true.
Proof.
  pose proof evening_reports as Hr. destruct (evening start) as [[[[report|] result] w]|] eqn:E; [|destruct Hr..].
  unfold evening in E.
  destruct (refresh_heeds_failures Presented.mac digest Some class_of Presented.variables "http://refinement:8500/" (Ok [])
    "run-1" small_graph "raw/crm/accounts" "" 10 plan (PStr "crm") conf start report result w evening_plan E)
    as (rs & Hrs & _ & Hall).
  exists report, result, w, rs. split; [reflexivity|]. split; [exact Hrs|]. intros joined above H1 H2.
  apply (Hall 1%nat 2%nat (Item "joined" "gold" "crm" 2 ["clean"; "dim"] true ["dim"])
    (Item "report" "gold" "crm" 3 ["clean"; "joined"] true []) joined above); [vm_compute; reflexivity|exact H1|
    vm_compute; reflexivity|exact H2|decide_now].
Defined.

Lemma reported_is_durable_witness :
  ∃ report result w rs, evening start = Some ((Some report, result), w) ∧ get "results" report = PList (PDict <$> rs)
    ∧ ∀ clean, rs !! 0%nat = Some clean → get "ok" clean = PBool true → durable digest "run-1" "t1" "w1" w "clean" clean.
Proof.
  pose proof evening_reports as Hr. destruct (evening start) as [[[[report|] result] w]|] eqn:E; [|destruct Hr..].
  unfold evening in E.
  destruct (reported_is_durable Presented.mac digest Some class_of Presented.variables "http://refinement:8500/" (Ok [])
    "run-1" plan (PStr "crm") conf start report result w E) as (t & v & rs & Hscope & Hrs & Hall).
  injection Hscope as <- <-. exists report, result, w, rs. split; [reflexivity|]. split; [exact Hrs|]. intros clean H0 Hok.
  assert (Hp : plan !! 0%nat = Some (Item "clean" "silver" "crm" 1 [] true [])) by (vm_compute; reflexivity).
  apply (Forall2_lookup_lr _ _ _ _ _ _ Hall Hp H0 Hok w). reflexivity.
Defined.

Lemma refresh_ends_witness :
  ∃ outcome w, evening start = Some (outcome, w) ∧ (w_posts w <= 9)%nat ∧ (w_gets w <= 3240)%nat.
Proof.
  destruct (refresh_ends Presented.mac digest Some class_of Presented.variables "http://refinement:8500/" (Ok [])
    "run-1" plan (PStr "crm") conf start) as (outcome & w & Hrun & Hp & Hg).
  assert (Hlen : length plan = 3%nat) by (vm_compute; reflexivity). rewrite Hlen in Hp, Hg.
  exists outcome, w. split; [exact Hrun|]. split; [exact Hp|exact Hg].
Defined.
End Evening.
