(* ===== verification/PartitionedParquet.v ===== *)
(** Datasets written as a set of Parquet files, one or more per value of a column,
    named by a manifest (refinement/app/partitioned_parquet.py): the header that
    asks for it, the names of the files, the manifest as it is written and as it
    is read back.

    A manifest is itself a Parquet file, without rows, whose metadata holds a JSON
    document.  Reading and writing Parquet, reading JSON and the digest are
    parameters; a directory of the local disk is its entries. *)
From S2P Require Import Prelude PyStr PyVal PyTime PyJson SignedContext.

Open Scope Z_scope.

Definition PARTITION_SET_DIRECTORY : string := "_partitioned".
Definition MANIFEST_FORMAT : string := "omega.partitioned-parquet/v1".
Definition MAX_PARTITIONS : nat := 1000.
Definition PARTITION_HEADER : string := "-- partition_by:".
Definition HEADER_LINES : nat := 20.

(** [^[A-Za-z_][A-Za-z0-9_]{0,62}$]. *)
Definition name_head (c : ascii) : bool := is_ascii_alpha c || bool_decide (c = "_"%char).
Definition _COLUMN_RE (s : string) : bool :=
  match s with "" => false | String c t => name_head c && sall (λ d, name_head d || is_dec_digit d) t && Nat.leb (slen t) 62 end.
(** [^[A-Za-z0-9_.:-]{1,64}$]. *)
Definition PARTITION_VALUE_RE (s : string) : bool :=
  all_of (λ c, is_ascii_alnum c || char_in c "_.:-") s && Nat.leb (slen s) 64.
(** [^[0-9a-f]{64}$]. *)
Definition _DIGEST_RE : string → bool := _HEX_64.
(** [^([0-9a-f]{64})\.parquet$], with its group. *)
Definition _MANIFEST_NAME_RE (s : string) : option string :=
  if _HEX_64 (stake 64 s) && bool_decide (sdrop 64 s = ".parquet") then Some (stake 64 s) else None.

(** ** The header *)

(** The ends of line of [str.splitlines]. *)
Definition is_line_end (c : ascii) : bool :=
  between 10 13 c || between 28 30 c || bool_decide (code c = 133%N).
Definition is_cr_lf (c : ascii) (s : string) : bool :=
  bool_decide (code c = 13%N) && match s with String d _ => bool_decide (code d = 10%N) | "" => false end.

Fixpoint splitlines (s : string) : list string :=
  match s with
  | "" => []
  | String c t =>
      if is_line_end c then
        match t with
        | String d u => if is_cr_lf c t then "" :: splitlines u else "" :: splitlines t
        | "" => [""]
        end
      else match splitlines t with l :: ls => String c l :: ls | [] => [one c] end
  end.

(** The loop over the lines. *)
Definition header_column (column : option string) (line : string) : res (option string) :=
  let stripped := strip line in
  if negb (startswith PARTITION_HEADER stripped) then Ok column
  else
    let declared := strip (sdrop (slen PARTITION_HEADER) stripped) in
    if negb (_COLUMN_RE declared) then raise ValueError "partition_by header must name exactly one column"
    else
      match column with
      | Some c => if bool_decide (c = declared) then Ok (Some declared)
                  else raise ValueError "partition_by header is declared more than once"
      | None => Ok (Some declared)
      end.

Definition partition_column_from_sql (sql : option string) : res (option string) :=
  foldR header_column (take HEADER_LINES (splitlines (default "" sql))) None.

(** ** Names *)

(** [key.rsplit("/", 1)], of a key with a slash. *)
Definition dirname (key : string) : string := join "/" (removelast (split_on "/" key)).
Definition basename (key : string) : string := List.last (split_on "/" key) "".

Definition is_manifest_key (key : string) : bool :=
  let parts := split_on "/" key in
  Nat.leb 2 (length parts) && bool_decide (parts !! (length parts - 2)%nat = Some PARTITION_SET_DIRECTORY)
  && bool_decide (is_Some (_MANIFEST_NAME_RE (basename key))).

Definition part_key (set_key column value : string) (index : nat) (digest : string) : string :=
  set_key +:+ "/" +:+ column +:+ "=" +:+ value +:+ "/" +:+ zpad 5 (Z.of_nat index) +:+ "-" +:+ digest +:+ ".parquet".

(** An entry of the output: its name and, for a directory, the entries in it with
    whether each is a file. *)
Record entry := mkEntry { en_name : string; en_files : option (list (string * bool)) }.

(** [path.suffix]. *)
Definition suffix (name : string) : string :=
  match rev (split_on "." name) with
  | ext :: ((_ :: _) as stem) =>
      if nonempty ext && nonempty (join "." (rev stem)) then "." +:+ ext else ""
  | _ => ""
  end.

Definition unexpected_layout {A} : res A := raise ValueError "partitioned output has an unexpected layout".

(** A directory of the output, after [values] others. *)
Definition directory_files (column : string) (st : nat * list (string * string)) (e : entry) :
    res (nat * list (string * string)) :=
  let prefix := column +:+ "=" in
  match en_files e with
  | None => unexpected_layout
  | Some files =>
      if negb (startswith prefix (en_name e)) then unexpected_layout
      else
        let value := sdrop (slen prefix) (en_name e) in
        if negb (PARTITION_VALUE_RE value)
        then raise ValueError ("partition value of " +:+ column +:+ " is not storage-safe; use values such as 'YYYY-MM'")
        else if Nat.ltb MAX_PARTITIONS (S st.1)
        then raise ValueError (column +:+ " produces more than " +:+ str_of_Z (Z.of_nat MAX_PARTITIONS) +:+ " partitions")
        else
          found ← mapR (λ f : string * bool, if negb f.2 || negb (bool_decide (suffix f.1 = ".parquet")) then unexpected_layout
                             else Ok (value, en_name e +:+ "/" +:+ f.1))
                    (sort_by (λ a b, String.leb a.1 b.1) files);
          Ok (S st.1, st.2 ++ found)
  end.

(** [None]: the output does not exist.  The files as a value and a path. *)
Definition local_partition_files (root : option (list entry)) (column : string) : res (list (string * string)) :=
  match root with
  | None => Ok []
  | Some entries =>
      st ← foldR (directory_files column) (sort_by (λ a b, String.leb (en_name a) (en_name b)) entries) (0%nat, []);
      Ok st.2
  end.

(** ** Manifests *)

(** What the code reads of a Parquet file: its number of rows, the name and the type
    of its columns, and its metadata under the key of the manifest. *)
Record ParquetFile := mkParquet { num_rows : Z; schema_arrow : list (string * string); manifest_metadata : option string }.

(** [schema_fields]. *)
Definition field_dict (f : string * string) : pyval := PDict (mkdict [("name", PStr f.1); ("type", PStr f.2)]).
Definition schema_fields (schema : list (string * string)) : list pyval := field_dict <$> schema.

Record Manifest := mkManifest { partition_by : string; row_count : Z; parts : list pydict; schema : list (string * string) }.

Definition invalid_part {A} : res A := raise ValueError "partition manifest part is invalid".

(** The text of [key in part], or nothing. *)
Definition as_plain_int (v : pyval) : option Z := match v with PInt z => Some z | _ => None end.

Section Manifest.
Context {Hrepr : PyRepr}.
Context (parquet_file : string → res ParquetFile) (parquet_bytes : ParquetFile → string).
Context (json_loads : string → res pyval) (sha256_hex : string → string).

Definition sum_rows (parts : list pydict) : res Z := foldR (λ n p, r ← py_int (get "rows" p); Ok (n + r)) parts 0.

(** The payload of [write_manifest]. *)
Definition manifest_document (column : string) (total : Z) (parts : list pydict) : pyval :=
  PDict (mkdict [("format", PStr MANIFEST_FORMAT); ("partition_by", PStr column); ("row_count", PInt total);
                 ("parts", PList (PDict <$> parts))]).

(** The bytes [write_manifest] writes. *)
Definition write_manifest (schema : list (string * string)) (column : string) (parts : list pydict) : res string :=
  total ← sum_rows parts;
  text ← json_sorted (manifest_document column total parts);
  Ok (parquet_bytes (mkParquet 0 schema (Some text))).

Definition manifest_payload (parquet : ParquetFile) : res (option pyval) :=
  match manifest_metadata parquet with
  | None => Ok None
  | Some raw => v ← json_loads raw; Ok (Some v)
  end.

(** The loop over the parts: the values seen and the rows so far. *)
Definition read_part (set_key column : string) (st : nat * list string * Z) (part : pyval) : res (nat * list string * Z) :=
  let '(index, values, total) := st in
  match part with
  | PDict part =>
      let value := str_or_empty (get "value" part) in
      let digest := str_or_empty (get "checksum" part) in
      match as_plain_int (get "rows" part) with
      | Some rows =>
          if negb (PARTITION_VALUE_RE value) || negb (_DIGEST_RE digest) || (rows <? 0) || negb (is_str (get "version" part))
             || negb (eq_str (get "key" part) (part_key set_key column value index digest))
          then invalid_part
          else Ok (S index, value :: values, total + rows)
      | None => invalid_part
      end
  | _ => invalid_part
  end.

Definition read_manifest (raw manifest_key : string) : res Manifest :=
  if negb (is_manifest_key manifest_key) then raise ValueError "partition manifest key is invalid"
  else if negb (bool_decide (Some (sha256_hex raw) = _MANIFEST_NAME_RE (basename manifest_key)))
  then raise ValueError "partition manifest checksum mismatch"
  else
    parquet ← parquet_file raw;
    payload ← manifest_payload parquet;
    match payload with
    | Some (PDict payload) =>
        if negb (eq_str (get "format" payload) MANIFEST_FORMAT) then raise ValueError "partition manifest format is invalid"
        else
          let column := str_or_empty (get "partition_by" payload) in
          match get "parts" payload with
          | PList items =>
              if negb (_COLUMN_RE column) then raise ValueError "partition manifest is invalid"
              else if negb (num_rows parquet =? 0) then raise ValueError "partition manifest must not carry rows"
              else
                '(_, values, total) ← foldR (read_part (dirname manifest_key) column) items (0%nat, [], 0);
                if Nat.ltb MAX_PARTITIONS (length (dedup values)) || negb (py_eq (get "row_count" payload) (PInt total))
                then raise ValueError "partition manifest totals are invalid"
                else Ok (mkManifest column total (omap as_dict items) (schema_arrow parquet))
          | _ => raise ValueError "partition manifest is invalid"
          end
    | _ => raise ValueError "partition manifest format is invalid"
    end.
End Manifest.

(** The entry of a file in the manifest, as [_copy_partitioned_parquet] makes it. *)
Record part_file := mkPartFile { pf_value : string; pf_digest : string; pf_rows : Z; pf_version : string }.
Definition part_dict (set_key column : string) (index : nat) (f : part_file) : pydict :=
  mkdict [("key", PStr (part_key set_key column (pf_value f) index (pf_digest f))); ("value", PStr (pf_value f));
          ("checksum", PStr (pf_digest f)); ("rows", PInt (pf_rows f)); ("version", PStr (pf_version f))].
Fixpoint part_dicts (set_key column : string) (index : nat) (fs : list part_file) : list pydict :=
  match fs with
  | [] => []
  | f :: fs => part_dict set_key column index f :: part_dicts set_key column (S index) fs
  end.

(** ** Names of keys *)

Lemma split_key set_key name :
  char_in "/" name = false → split_on "/" (set_key +:+ "/" +:+ name) = split_on "/" set_key ++ [name].
Proof. intros Hn. change (set_key +:+ "/" +:+ name) with (set_key +:+ one "/" +:+ name). by rewrite split_on_app_gen, (split_on_plain "/" name). Qed.

Lemma dirname_key set_key name : char_in "/" name = false → dirname (set_key +:+ "/" +:+ name) = set_key.
Proof. intros Hn. unfold dirname. by rewrite split_key, removelast_last, join_split_slash. Qed.

Lemma basename_key set_key name : char_in "/" name = false → basename (set_key +:+ "/" +:+ name) = name.
Proof. intros Hn. unfold basename. by rewrite split_key, List.last_last. Qed.

Lemma hex_no_slash s t : _HEX_64 s = true → char_in "/" t = false → char_in "/" (s +:+ t) = false.
Proof.
  unfold _HEX_64. intros [_ Hs]%andb_true_iff Ht. rewrite char_in_app, Ht, orb_false_r.
  by apply (char_not_in is_lower_hex).
Qed.

Lemma manifest_name digest : _HEX_64 digest = true → _MANIFEST_NAME_RE (digest +:+ ".parquet") = Some digest.
Proof.
  intros Hd. pose proof Hd as Hd'. unfold _HEX_64 in Hd'. apply andb_true_iff in Hd' as [Hl%Nat.eqb_eq _].
  unfold _MANIFEST_NAME_RE. rewrite <- Hl, stake_app, sdrop_app, Hd. done.
Qed.

(** The directory of the set of a dataset. *)
Definition set_of (base : string) : string := base +:+ "/" +:+ PARTITION_SET_DIRECTORY.

Lemma manifest_key base digest :
  _HEX_64 digest = true → is_manifest_key (set_of base +:+ "/" +:+ digest +:+ ".parquet") = true.
Proof.
  intros Hd. pose proof (hex_no_slash digest ".parquet" Hd eq_refl) as Hn. unfold is_manifest_key.
  rewrite basename_key, manifest_name, split_key by done. unfold set_of. rewrite (split_key base PARTITION_SET_DIRECTORY eq_refl).
  rewrite <- app_assoc, !length_app. cbn [length]. rewrite lookup_app_r by lia.
  replace (length (split_on "/" base) + (1 + 1) - 2 - length (split_on "/" base))%nat with 0%nat by lia.
  rewrite bool_decide_eq_true_2 by done. rewrite bool_decide_eq_true_2 by done.
  destruct (split_on_cons "/" base) as (w & ws & ->). cbn [length]. rewrite !andb_true_r. by apply Nat.leb_le; lia.
Qed.

(** ** What is read *)

Lemma manifest_name_inv name digest :
  _MANIFEST_NAME_RE name = Some digest → name = digest +:+ ".parquet" ∧ _HEX_64 digest = true.
Proof.
  unfold _MANIFEST_NAME_RE. destruct (_ && _) eqn:E; [|done]. apply andb_true_iff in E as [Hh Hs].
  apply bool_decide_eq_true in Hs. pose proof (stake_sdrop 64 name) as Hn. rewrite Hs in Hn. intros [= <-]. by split.
Qed.

Section Reading.
Context {Hrepr : PyRepr}.

(** A part of a manifest: its key is a name of its own below the directory of the manifest. *)
Record part_ok (set_key column : string) (index : nat) (p : pydict) : Prop := {
  pk_value : PARTITION_VALUE_RE (str_or_empty (get "value" p)) = true;
  pk_digest : _HEX_64 (str_or_empty (get "checksum" p)) = true;
  pk_rows : ∃ rows, get "rows" p = PInt rows ∧ 0 ≤ rows;
  pk_version : ∃ version, get "version" p = PStr version;
  pk_key : get "key" p
    = PStr (part_key set_key column (str_or_empty (get "value" p)) index (str_or_empty (get "checksum" p))) }.

Definition rows_of (p : pydict) : Z := default 0 (as_plain_int (get "rows" p)).
Definition total_rows (ps : list pydict) : Z := foldr Z.add 0 (rows_of <$> ps).
Definition value_of (p : pydict) : string := str_or_empty (get "value" p).

Lemma read_part_ok set_key column index values total part st :
  read_part set_key column (index, values, total) part = Ok st →
  ∃ p, part = PDict p ∧ part_ok set_key column index p ∧ st = (S index, value_of p :: values, total + rows_of p).
Proof.
  cbn [read_part]. destruct part as [| | | | | |p]; try done. cbv zeta. destruct (as_plain_int _) as [rows|] eqn:Er; [|done].
  destruct (_ || _) eqn:E; [done|]. intros [= <-]. boolify. exists p. split; [done|].
  unfold rows_of. rewrite Er. split; [|done].
  match goal with H : eq_str _ _ = true |- _ => apply eq_str_true in H end. split; [done|done| | |done].
  - exists rows. destruct (get "rows" p); try done. injection Er as ->. split; [done|lia].
  - destruct (get "version" p); try done. by eexists.
Qed.

Lemma read_parts set_key column items index values total index' values' total' :
  foldR (read_part set_key column) items (index, values, total) = Ok (index', values', total') →
  ∃ ps, items = PDict <$> ps ∧ index' = (index + length ps)%nat ∧ total' = total + total_rows ps
    ∧ values' = reverse (value_of <$> ps) ++ values ∧ ∀ k p, ps !! k = Some p → part_ok set_key column (index + k) p.
Proof.
  revert index values total. induction items as [|item items IH]; intros index values total; cbn [foldR].
  - intros [= <- <- <-]. exists []. cbn. rewrite Nat.add_0_r, Z.add_0_r. by split_and!.
  - intros (st & Hst & H)%bind_ok. apply read_part_ok in Hst as (p & -> & Hp & ->).
    apply IH in H as (ps & -> & -> & -> & -> & Hps). exists (p :: ps). split; [done|]. split; [cbn; lia|].
    split; [unfold total_rows; cbn [fmap list_fmap foldr]; lia|]. split.
    { cbn [fmap list_fmap]. by rewrite reverse_cons, <- app_assoc. }
    intros [|k] q Hq; [injection Hq as <-; by rewrite Nat.add_0_r|]. rewrite <- Nat.add_succ_comm. by apply Hps.
Qed.

Lemma parts_read set_key column ps index values total :
  (∀ k p, ps !! k = Some p → part_ok set_key column (index + k) p) →
  foldR (read_part set_key column) (PDict <$> ps) (index, values, total)
    = Ok ((index + length ps)%nat, reverse (value_of <$> ps) ++ values, total + total_rows ps).
Proof.
  revert index values total. induction ps as [|p ps IH]; intros index values total Hps; cbn [fmap list_fmap foldR].
  - by rewrite Nat.add_0_r, Z.add_0_r.
  - destruct (Hps 0%nat p eq_refl) as [Hv Hd (rows & Hr & Hr0) (version & Hver) Hk]. rewrite Nat.add_0_r in Hk.
    assert (E : read_part set_key column (index, values, total) (PDict p)
      = Ok (S index, value_of p :: values, total + rows_of p)).
    { cbn [read_part]. cbv zeta. unfold rows_of. rewrite Hr. cbn [as_plain_int default]. rewrite Hver, Hv, Hk.
      unfold _DIGEST_RE. rewrite Hd. cbn [eq_str is_str negb orb]. rewrite bool_decide_eq_true_2 by done.
      replace (rows <? 0) with false by lia. done. }
    rewrite E. cbn [mbind res_bind]. rewrite IH.
    + f_equal. f_equal; [|unfold total_rows; cbn [fmap list_fmap foldr]; lia]. f_equal; [cbn [length]; lia|].
      cbn [fmap list_fmap]. by rewrite reverse_cons, <- app_assoc.
    + intros k q Hq. rewrite Nat.add_succ_comm. by apply Hps.
Qed.

Lemma only_parts (ps : list pydict) : omap as_dict (PDict <$> ps) = ps.
Proof. induction ps as [|p ps IH]; [done|]. cbn. by rewrite IH. Qed.

(** ** Soundness and round trip *)

Context (parquet_file : string → res ParquetFile) (parquet_bytes : ParquetFile → string).
Context (json_loads : string → res pyval) (sha256_hex : string → string).

(** A manifest that is read has the digest in its name, and describes at most
    1000 partitions whose files lie below its own directory, under a name made of
    their partition, position and digest; its rows are the sum of theirs. *)
Theorem read_manifest_sound raw key m :
  read_manifest parquet_file json_loads sha256_hex raw key = Ok m →
  basename key = sha256_hex raw +:+ ".parquet" ∧ _HEX_64 (sha256_hex raw) = true ∧ _COLUMN_RE (partition_by m) = true
  ∧ row_count m = total_rows (parts m) ∧ (length (dedup (value_of <$> parts m)) ≤ MAX_PARTITIONS)%nat
  ∧ ∀ i p, parts m !! i = Some p → part_ok (dirname key) (partition_by m) i p.
Proof.
  unfold read_manifest. destruct (negb (is_manifest_key key)); [done|].
  destruct (bool_decide _) eqn:Eh; [|done]. apply bool_decide_eq_true, eq_sym, manifest_name_inv in Eh as [Hname Hhex].
  cbn [negb]. intros (parquet & _ & H)%bind_ok. apply bind_ok in H as (payload & _ & H).
  destruct payload as [[| | | | | |payload]|]; try done. destruct (negb _) in H; [done|]. cbv zeta in H.
  destruct (get "parts" payload) as [| | | | |items|]; try done. destruct (_COLUMN_RE _) eqn:Ec; [|done]. cbn [negb] in H.
  destruct (negb _) in H; [done|]. apply bind_ok in H as ([[index values] total] & Hf & H).
  apply read_parts in Hf as (ps & -> & _ & -> & -> & Hps). destruct (_ || _) eqn:El in H; [done|].
  apply orb_false_iff in El as [El%Nat.ltb_ge _]. injection H as <-. cbn [partition_by row_count parts]. rewrite only_parts.
  rewrite app_nil_r in El. split_and!; [done|done|done|done| |exact Hps].
  rewrite (dedup_perm (value_of <$> ps) (reverse (value_of <$> ps))); [done|]. intros x. by rewrite elem_of_reverse.
Qed.

Definition part_file_ok (f : part_file) : bool := PARTITION_VALUE_RE (pf_value f) && _HEX_64 (pf_digest f) && (0 <=? pf_rows f).

(** The file a part of a manifest speaks of. *)
Definition file_of (p : pydict) : part_file :=
  mkPartFile (value_of p) (str_or_empty (get "checksum" p)) (rows_of p) (str_or_empty (get "version" p)).

Definition read_dict (set_key column : string) (index : nat) (f : part_file) : pydict :=
  mkdict [("checksum", PStr (pf_digest f)); ("key", PStr (part_key set_key column (pf_value f) index (pf_digest f)));
          ("rows", PInt (pf_rows f)); ("value", PStr (pf_value f)); ("version", PStr (pf_version f))].
Fixpoint read_dicts (set_key column : string) (index : nat) (fs : list part_file) : list pydict :=
  match fs with
  | [] => []
  | f :: fs => read_dict set_key column index f :: read_dicts set_key column (S index) fs
  end.

Lemma read_dicts_lookup set_key column fs index k p :
  read_dicts set_key column index fs !! k = Some p → ∃ f, fs !! k = Some f ∧ p = read_dict set_key column (index + k) f.
Proof.
  revert index k. induction fs as [|f fs IH]; intros index [|k]; cbn [read_dicts lookup list_lookup]; try done.
  - intros [= <-]. exists f. by rewrite Nat.add_0_r.
  - intros H%IH. by rewrite Nat.add_succ_r.
Qed.

Lemma file_of_read set_key column index f : file_of (read_dict set_key column index f) = f.
Proof.
  destruct f as [v d r w]. unfold file_of, value_of, rows_of. change (get "value" _) with (PStr v).
  change (get "checksum" _) with (PStr d). change (get "rows" _) with (PInt r). change (get "version" _) with (PStr w).
  by rewrite !str_or_empty_str.
Qed.

Lemma read_dicts_files set_key column fs index : file_of <$> read_dicts set_key column index fs = fs.
Proof.
  revert index. induction fs as [|f fs IH]; intros index; [done|]. cbn [read_dicts]. by rewrite fmap_cons, IH, file_of_read.
Qed.

Definition file_rows (fs : list part_file) : Z := foldr Z.add 0 (pf_rows <$> fs).

Lemma sum_rows_dicts set_key column fs index n :
  foldR (λ n p, r ← py_int (get "rows" p); Ok (n + r)) (part_dicts set_key column index fs) n = Ok (n + file_rows fs).
Proof.
  revert index n. induction fs as [|f fs IH]; intros index n; cbn [part_dicts foldR]; [by rewrite Z.add_0_r|].
  change (get "rows" (part_dict set_key column index f)) with (PInt (pf_rows f)). cbn [py_int mbind res_bind].
  rewrite IH. f_equal. unfold file_rows. cbn [fmap list_fmap foldr]. lia.
Qed.

Lemma sorted_document column total ps :
  sorted_keys (manifest_document column total ps)
  = PDict (mkdict [("format", PStr MANIFEST_FORMAT); ("partition_by", PStr column);
                   ("parts", PList (List.map sorted_keys (PDict <$> ps))); ("row_count", PInt total)]).
Proof. reflexivity. Qed.

Lemma sorted_parts set_key column fs index :
  List.map sorted_keys (PDict <$> part_dicts set_key column index fs) = PDict <$> read_dicts set_key column index fs.
Proof.
  revert index. induction fs as [|f fs IH]; intros index; [done|]. cbn [part_dicts read_dicts fmap list_fmap List.map].
  fold (PDict <$> part_dicts set_key column (S index) fs) (PDict <$> read_dicts set_key column (S index) fs). by rewrite IH.
Qed.

Lemma document_text column total set_key fs index :
  text_keys (manifest_document column total (part_dicts set_key column index fs)) = true.
Proof.
  assert (H : forallb text_keys (PDict <$> part_dicts set_key column index fs) = true).
  { revert index. induction fs as [|f fs IH]; intros index; [done|]. exact (IH (S index)). }
  change (true && (true && (true && (true && (true && (true && (true && (forallb text_keys (PDict <$> part_dicts set_key column index fs)
    && true))))))) = true). by rewrite H.
Qed.

Lemma file_part_ok set_key column index f :
  part_file_ok f = true → part_ok set_key column index (read_dict set_key column index f).
Proof.
  unfold part_file_ok. intros [[Hv Hd]%andb_true_iff Hr]%andb_true_iff. split; try (by eexists).
  - change (get "value" _) with (PStr (pf_value f)). by rewrite str_or_empty_str.
  - change (get "checksum" _) with (PStr (pf_digest f)). by rewrite str_or_empty_str.
  - exists (pf_rows f). split; [done|lia].
  - change (get "checksum" _) with (PStr (pf_digest f)). change (get "value" _) with (PStr (pf_value f)).
    by rewrite !str_or_empty_str.
Qed.

(** The manifest written for files of at most 1000 valid partitions is read back
    from under the name of its digest, with the same column, schema, files and rows,
    when Parquet keeps the schema and the metadata, and JSON the document. *)
Theorem manifest_roundtrip base column fs schema :
  (∀ bytes, _HEX_64 (sha256_hex bytes) = true) →
  (∀ text, let f := mkParquet 0 schema (Some text) in parquet_file (parquet_bytes f) = Ok f) →
  (∀ text, let doc := manifest_document column (file_rows fs) (part_dicts (set_of base) column 0 fs) in
     json_sorted doc = Ok text → json_loads text = Ok (sorted_keys doc)) →
  _COLUMN_RE column = true → forallb part_file_ok fs = true → (length (dedup (pf_value <$> fs)) ≤ MAX_PARTITIONS)%nat →
  ∃ raw m,
    write_manifest parquet_bytes schema column (part_dicts (set_of base) column 0 fs) = Ok raw
    ∧ read_manifest parquet_file json_loads sha256_hex raw (set_of base +:+ "/" +:+ sha256_hex raw +:+ ".parquet") = Ok m
    ∧ partition_by m = column ∧ PartitionedParquet.schema m = schema ∧ row_count m = file_rows fs ∧ file_of <$> parts m = fs.
Proof.
  intros Hhex Hpq Hjs Hc Hfs Hn. set (sk := set_of base) in *.
  destruct (json_sorted_ok _ (document_text column (file_rows fs) sk fs 0)) as [text Ht].
  set (raw := parquet_bytes (mkParquet 0 schema (Some text))).
  exists raw, (mkManifest column (file_rows fs) (read_dicts sk column 0 fs) schema).
  split; [|split; [|split_and!; try done; apply read_dicts_files]].
  { unfold write_manifest, sum_rows. rewrite sum_rows_dicts, Z.add_0_l. cbn [mbind res_bind]. by rewrite Ht. }
  unfold read_manifest. pose proof (Hhex raw) as Hr. pose proof (hex_no_slash _ ".parquet" Hr eq_refl) as Hns.
  pose proof (manifest_key base _ Hr) as Hk. fold sk in Hk. rewrite Hk, (basename_key _ _ Hns), (manifest_name _ Hr), (dirname_key _ _ Hns).
  rewrite bool_decide_eq_true_2 by done. cbn [negb]. unfold raw. rewrite Hpq. cbn [mbind res_bind]. unfold manifest_payload.
  cbn [manifest_metadata]. rewrite (Hjs text Ht), sorted_document, sorted_parts. cbn [mbind res_bind].
  change (get "parts" _) with (PList (PDict <$> read_dicts sk column 0 fs)).
  change (get "format" _) with (PStr MANIFEST_FORMAT). change (get "partition_by" _) with (PStr column).
  change (get "row_count" _) with (PInt (file_rows fs)). rewrite str_or_empty_str, Hc. cbn [eq_str negb num_rows schema_arrow].
  rewrite bool_decide_eq_true_2 by done. cbn [negb Z.eqb].
  rewrite parts_read.
  2: { intros k p (f & Hf & ->)%read_dicts_lookup. apply file_part_ok. rewrite forallb_forall in Hfs. apply Hfs.
       apply list_elem_of_In. by eapply list_elem_of_lookup_2. }
  cbn [mbind res_bind]. rewrite app_nil_r, only_parts.
  assert (Hv : value_of <$> read_dicts sk column 0 fs = pf_value <$> fs).
  { rewrite <- (read_dicts_files sk column fs 0) at 2. by rewrite <- list_fmap_compose. }
  assert (Htot : total_rows (read_dicts sk column 0 fs) = file_rows fs).
  { unfold total_rows, file_rows. rewrite <- (read_dicts_files sk column fs 0) at 2. by rewrite <- list_fmap_compose. }
  rewrite Hv, Htot, Z.add_0_l, (dedup_perm (reverse (pf_value <$> fs)) (pf_value <$> fs)) by (intros; by rewrite elem_of_reverse).
  replace (Nat.ltb MAX_PARTITIONS (length (dedup (pf_value <$> fs)))) with false by (symmetry; by apply Nat.ltb_ge).
  cbn [orb py_eq num_of num_eq]. by rewrite Z.eqb_refl.
Qed.
End Reading.

(** ** Two months of a dataset *)

Module Sample.
#[local] Instance repr : PyRepr := some_repr.
Definition hex (c : ascii) : string := repeat_char 64 c.
Definition files : list part_file := [mkPartFile "2024-01" (hex "1") 3 "v1"; mkPartFile "2024-02" (hex "2") 4 "v2"].
Definition columns : list (string * string) := [("month", "string"); ("total", "int64")].
Definition base : string := "gold/crm/sales/tenant_id=t1/workspace_id=w1/_snapshots/_pending/r1".
Definition dicts : list pydict := part_dicts (set_of base) "month" 0 files.
Definition document : pyval := manifest_document "month" 7 dicts.
Definition parquet_bytes (f : ParquetFile) : string := default "" (manifest_metadata f).
Definition parquet_file (bytes : string) : res ParquetFile := Ok (mkParquet 0 columns (Some bytes)).
Definition json_loads (text : string) : res pyval := Ok (sorted_keys document).
Definition sha256_hex (bytes : string) : string := hex "f".
Definition key : string := set_of base +:+ "/" +:+ hex "f" +:+ ".parquet".
Definition manifest : Manifest := mkManifest "month" 7 (read_dicts (set_of base) "month" 0 files) columns.

Lemma manifest_roundtrip_witness :
  ∃ raw m, write_manifest parquet_bytes columns "month" dicts = Ok raw
    ∧ read_manifest parquet_file json_loads sha256_hex raw key = Ok m ∧ row_count m = 7 ∧ file_of <$> parts m = files.
Proof.
  destruct (manifest_roundtrip parquet_file parquet_bytes json_loads sha256_hex base "month" files columns) as
    (raw & m & H1 & H2 & _ & _ & H5 & H6); [done|done|done|done|vm_compute; reflexivity|vm_compute; lia|].
  exists raw, m. split; [exact H1|]. split; [exact H2|]. split; [exact H5|exact H6].
Defined.

Lemma read_sample raw : read_manifest parquet_file json_loads sha256_hex raw key = Ok manifest.
Proof. vm_compute. reflexivity. Qed.

Lemma read_manifest_sound_witness :
  row_count manifest = total_rows (parts manifest)
  ∧ ∀ p, parts manifest !! 1%nat = Some p → part_ok (dirname key) "month" 1 p.
Proof.
  destruct (read_manifest_sound parquet_file json_loads sha256_hex "bytes" key manifest (read_sample "bytes")) as
    (_ & _ & _ & H1 & _ & H2).
  split; [exact H1|]. intros p Hp. exact (H2 1%nat p Hp).
Defined.

Example columns_of_headers :
  partition_column_from_sql (Some ("-- sales" +:+ one (ascii_of_N 10) +:+ " -- partition_by: month " +:+ one (ascii_of_N 13) +:+ one (ascii_of_N 10) +:+ "SELECT 1"))
    = Ok (Some "month")
  ∧ partition_column_from_sql (Some "-- partition_by: a, b") = raise ValueError "partition_by header must name exactly one column"
  ∧ partition_column_from_sql None = Ok None.
Proof. vm_compute. done. Qed.

Example files_of_output :
  local_partition_files (Some [mkEntry "month=2024-02" (Some [("b.parquet", true); ("a.parquet", true)]);
                               mkEntry "month=2024-01" (Some [("data_0.parquet", true)])]) "month"
    = Ok [("2024-01", "month=2024-01/data_0.parquet"); ("2024-02", "month=2024-02/a.parquet");
          ("2024-02", "month=2024-02/b.parquet")]
  ∧ local_partition_files (Some [mkEntry "month=a/b" (Some [])]) "month"
    = raise ValueError "partition value of month is not storage-safe; use values such as 'YYYY-MM'".
Proof. vm_compute. done. Qed.
End Sample.
