(* ===== verification/Publication.v ===== *)
(** The publication authority: the tables and functions of the gold database
    (infra/init_gold/40 to 45) that the staged publication of a dataset goes
    through.  A run is reserved against the head it read, its object is submitted,
    attested by the verifier, prepared with evidence, and published by a
    compare-and-set of the head.

    Each function is one transaction: it changes nothing when it raises; a raised
    SQLSTATE is a [PgError].  A session has the tenant and workspace it set; the row
    policies let it see the rows of that scope.  UUIDs are their canonical texts.
    The counter of attempts has no bound.  The text of a [jsonb] value and its equality, digests, the texts of instants,
    the types of columns and the value a column keeps are parameters. *)
From S2P Require Import Prelude PyStr PyVal PyTime SignedContext.

Open Scope Z_scope.

(** [RAISE EXCEPTION ... USING ERRCODE]. *)
Definition sql_error {A} (state msg : string) : res A := raise (PgError state "") msg.
Definition constraint_error {A} (state constraint : string) : res A := raise (PgError state constraint) "".

(** ** The data *)

Record PublicationScope := mkScope { s_tenant : string; s_workspace : string; s_dataset : string; s_layer : string }.

#[export] Instance scope_eq_dec : EqDecision PublicationScope.
Proof. solve_decision. Defined.
#[export] Instance scope_countable : Countable PublicationScope.
Proof.
  refine (inj_countable' (λ s, (s_tenant s, s_workspace s, s_dataset s, s_layer s)) (λ '(t, w, d, l), mkScope t w d l) _).
  by intros [].
Defined.

(** An object of the lakehouse at a version, with the checksum of its bytes. *)
Record Object := mkObject { o_uri : string; o_version : string; o_checksum : string }.

#[export] Instance object_eq_dec : EqDecision Object.
Proof. solve_decision. Defined.

(** [materialization_runs], without the time of creation; the three columns of the
    object are written together. *)
Record Run := mkRun {
  r_scope : PublicationScope;
  r_input_digest : string;
  r_contract_digest : string;
  r_expected_head : option string;
  r_expected_generation : option Z;
  r_object : option Object;
  r_row_count : option Z;
  r_schema_digest : option string;
  r_evidence_digest : option string;
  r_gold_table : option string;
  r_staging_table : option string;
  r_status : string;
  r_attempt : Z;
  r_recovery_reason : option string;
  r_prepared_at : option instant;
  r_published_at : option instant }.

(** [dataset_publication_heads]. *)
Record Head := mkHead { h_run : string; h_generation : Z; h_published_at : instant }.

(** [materialization_receipts], one per run. *)
Record Receipt := mkReceipt {
  rc_id : string;
  rc_scope : PublicationScope;
  rc_input_digest : string;
  rc_contract_digest : string;
  rc_object_checksum : string;
  rc_object_version : string;
  rc_schema_digest : string;
  rc_evidence_digest : string;
  rc_row_count : Z;
  rc_generation : Z }.

(** [materialization_evidence], one per run. *)
Record Evidence := mkEvidence {
  e_scope : PublicationScope;
  e_object : Object;
  e_row_count : Z;
  e_schema_digest : string;
  e_evidence_digest : string;
  e_attestation : option string;
  e_lineage : pyval;
  e_catalog : pyval }.

(** What a verification is asked about: [materialization_verification_candidates]
    and the attestations of it have these columns in common. *)
Record Claim := mkClaim {
  c_run : string;
  c_scope : PublicationScope;
  c_attempt : Z;
  c_object : Object;
  c_row_count : Z;
  c_schema_digest : string;
  c_input_digest : string;
  c_contract_digest : string;
  c_lineage : pyval;
  c_catalog : pyval }.

Record Candidate := mkCandidate { k_claim : Claim; k_digest : string; k_status : string; k_expires : instant }.

(** [materialization_attestations]. *)
Record Attestation := mkAttestation {
  a_claim : Claim;
  a_verifier : string;
  a_digest : string;
  a_candidate : string;
  a_signature_version : string;
  a_key_version : string;
  a_signature : string;
  a_created : instant;
  a_expires : instant;
  a_consumed : option instant;
  a_invalidated : option instant }.

Record SigningKey := mkKey { sk_secret : string; sk_retired : option instant }.

(** [materialization_recovery_events], with the evidence as it was. *)
Record RecoveryEvent := mkEvent { v_run : string; v_scope : PublicationScope; v_attempt : Z; v_reason : string;
  v_evidence : Evidence }.

(** A gold relation: its columns with their types, its rows, the tenant and
    workspace its policy names, and whether the publisher may insert into it. *)
Record Table := mkTable {
  t_columns : list (string * string);
  t_rows : list (gmap string pyval);
  t_scope : string * string;
  t_open : bool }.

Record Authority := mkAuthority {
  runs : gmap string Run;
  heads : gmap PublicationScope Head;
  receipts : gmap string Receipt;
  evidence : gmap string Evidence;
  candidates : gmap string Candidate;
  attestations : gmap string Attestation;
  signing_keys : gmap string SigningKey;
  recovery_events : list RecoveryEvent;
  relations : gmap (string * string * string) string;
  stages : gmap string Table;
  golds : gmap string Table;
  legacy : gmap string Table;
  views : gmap string string }.

(** ** Writes of a table *)
Definition set_run (id : string) (r : Run) (db : Authority) : Authority :=
  mkAuthority (<[id := r]> (runs db)) (heads db) (receipts db) (evidence db) (candidates db) (attestations db)
    (signing_keys db) (recovery_events db) (relations db) (stages db) (golds db) (legacy db) (views db).
Definition set_head (s : PublicationScope) (h : Head) (db : Authority) : Authority :=
  mkAuthority (runs db) (<[s := h]> (heads db)) (receipts db) (evidence db) (candidates db) (attestations db)
    (signing_keys db) (recovery_events db) (relations db) (stages db) (golds db) (legacy db) (views db).
Definition set_receipt (id : string) (rc : Receipt) (db : Authority) : Authority :=
  mkAuthority (runs db) (heads db) (<[id := rc]> (receipts db)) (evidence db) (candidates db) (attestations db)
    (signing_keys db) (recovery_events db) (relations db) (stages db) (golds db) (legacy db) (views db).
Definition with_evidence (f : gmap string Evidence → gmap string Evidence) (db : Authority) : Authority :=
  mkAuthority (runs db) (heads db) (receipts db) (f (evidence db)) (candidates db) (attestations db)
    (signing_keys db) (recovery_events db) (relations db) (stages db) (golds db) (legacy db) (views db).
Definition with_candidates (f : gmap string Candidate → gmap string Candidate) (db : Authority) : Authority :=
  mkAuthority (runs db) (heads db) (receipts db) (evidence db) (f (candidates db)) (attestations db)
    (signing_keys db) (recovery_events db) (relations db) (stages db) (golds db) (legacy db) (views db).
Definition with_attestations (f : gmap string Attestation → gmap string Attestation) (db : Authority) : Authority :=
  mkAuthority (runs db) (heads db) (receipts db) (evidence db) (candidates db) (f (attestations db))
    (signing_keys db) (recovery_events db) (relations db) (stages db) (golds db) (legacy db) (views db).
Definition add_event (v : RecoveryEvent) (db : Authority) : Authority :=
  mkAuthority (runs db) (heads db) (receipts db) (evidence db) (candidates db) (attestations db)
    (signing_keys db) (recovery_events db ++ [v]) (relations db) (stages db) (golds db) (legacy db) (views db).
Definition with_stages (f : gmap string Table → gmap string Table) (db : Authority) : Authority :=
  mkAuthority (runs db) (heads db) (receipts db) (evidence db) (candidates db) (attestations db)
    (signing_keys db) (recovery_events db) (relations db) (f (stages db)) (golds db) (legacy db) (views db).
Definition set_relations (rel : gmap (string * string * string) string) (st gd lg : gmap string Table) (vs : gmap string string)
    (db : Authority) : Authority :=
  mkAuthority (runs db) (heads db) (receipts db) (evidence db) (candidates db) (attestations db)
    (signing_keys db) (recovery_events db) rel st gd lg vs.

(** ** Regular expressions of the checks *)

Definition is_name_head (c : ascii) : bool := is_ascii_alpha c || bool_decide (c = "_"%char).
Definition is_name_char (c : ascii) : bool := is_name_head c || is_dec_digit c.
(** [^[A-Za-z_][A-Za-z0-9_]{0,127}$]. *)
Definition IDENTIFIER (s : string) : bool :=
  match s with "" => false | String c t => is_name_head c && sall is_name_char t && Nat.leb (slen t) 127 end.
(** [^(s3|gs)://]. *)
Definition object_uri_ok (uri : string) : bool := startswith "s3://" uri || startswith "gs://" uri.
(** [run_] and the 32 digits of the run. *)
Definition uuid_digits (id : string) : string := sfilter (λ c, negb (bool_decide (c = "-"%char))) id.
Definition stage_name (run : string) : string := "run_" +:+ uuid_digits run.
(** [^run_[0-9a-f]{32}$]. *)
Definition stage_name_ok (s : string) : bool :=
  startswith "run_" s && Nat.eqb (slen s) 36 && sall is_lower_hex (sdrop 4 s).
Definition MAX_BIGINT : Z := 2 ^ 63 - 1.
Definition LAYERS : list string := ["silver"; "gold"].
Definition VERIFIER : string := "refinement.parquet-verifier/v1".
Definition SIGNATURE_VERSION : string := "hmac-sha256-v1".
(** [interval '15 minutes']. *)
Definition CANDIDATE_TTL : instant := seconds 900.

(** ** Sessions *)

(** [app.tenant_id] and [app.workspace_id]; the empty text is [NULL]. *)
Record session := mkSession { tenant_setting : string; workspace_setting : string }.

Definition in_session (s : session) (x : PublicationScope) : bool :=
  nonempty (tenant_setting s) && nonempty (workspace_setting s)
  && bool_decide (s_tenant x = tenant_setting s) && bool_decide (s_workspace x = workspace_setting s).

(** [<>] against a setting: unknown, so not true, when it is [NULL]. *)
Definition differs (value setting : string) : bool := nonempty setting && negb (bool_decide (value = setting)).

(** The row of a run, when the session sees it. *)
Definition visible_run (s : session) (run : string) (db : Authority) : option Run :=
  match runs db !! run with
  | Some r => if in_session s (r_scope r) then Some r else None
  | None => None
  end.

(** [SELECT ... FOR UPDATE], the scope assertion, and the exception of an absent run. *)
Definition locked_run (s : session) (run : string) (db : Authority) : res Run :=
  match visible_run s run db with
  | Some r => Ok r
  | None => sql_error "42501" "materialization run unavailable"
  end.

(** [^(TEXT|BOOLEAN|...|DECIMAL\([0-9]{1,2},[0-9]{1,2}\))$] of the type in capitals. *)
Definition upper_ascii (s : string) : string :=
  smap (λ c, if is_ascii_lower c then ascii_of_N (N_of_ascii c - 32) else c) s.
Definition short_number (s : string) : bool := all_of is_dec_digit s && Nat.leb (slen s) 2.
Definition decimal_type (s : string) : bool :=
  startswith "DECIMAL(" s && endswith ")" s
  && match split_on "," (stake (slen s - 9) (sdrop 8 s)) with [p; q] => short_number p && short_number q | _ => false end.
Definition gold_type (s : string) : bool :=
  mem s ["TEXT"; "BOOLEAN"; "SMALLINT"; "INTEGER"; "BIGINT"; "REAL"; "DOUBLE PRECISION"; "DATE"; "TIMESTAMP";
         "TIMESTAMPTZ"; "TIME"; "JSONB"] || decimal_type s.
(** A name as PostgreSQL keeps it. *)
Definition pg_name (s : string) : string := stake 63 s.

(** [left(COALESCE(NULLIF(p_reason,''), standard), 240)]. *)
Definition event_reason (reason standard : string) : string := stake 240 (if nonempty reason then reason else standard).
(** [right(s, n)]. *)
Definition right_of (n : nat) (s : string) : string := sdrop (slen s - n) s.

Section Authority.
Context (jsonb_text : pyval → string) (jsonb_eq : pyval → pyval → bool) (time_text : instant → string).
Context (sha256_hex : string → string) (hmac_hex : string → string → string) (md5_hex : string → string).
(** [format_type] of the name of a type, unless PostgreSQL refuses it; the value a
    column of a type keeps of a value, unless it is refused; a cell as text, unless it is [NULL]. *)
Context (pg_type : string → option string) (store_cell : string → pyval → option pyval) (cell_text : pyval → option string).

(** [v->>k]. *)
Definition arrow (v : pyval) (k : string) : option string :=
  match v with
  | PDict d =>
      match dget k d with
      | None | Some PNone => None
      | Some (PStr s) => Some s
      | Some v => Some (jsonb_text v)
      end
  | _ => None
  end.
(** [x !~ re]: unknown, so not true, when [x] is [NULL]. *)
Definition mismatches (re : string → bool) (x : option string) : bool := match x with Some s => negb (re s) | None => false end.

(** ** Reservation *)

Definition invalidated (now : instant) (a : Attestation) : Attestation :=
  mkAttestation (a_claim a) (a_verifier a) (a_digest a) (a_candidate a) (a_signature_version a) (a_key_version a)
    (a_signature a) (a_created a) (a_expires a) (a_consumed a) (Some (default now (a_invalidated a))).
Definition invalidate_attestations (now : instant) (run : string) : gmap string Attestation → gmap string Attestation :=
  fmap (λ a, if bool_decide (c_run (a_claim a) = run) then invalidated now a else a).

Definition retried (r : Run) : Run :=
  mkRun (r_scope r) (r_input_digest r) (r_contract_digest r) (r_expected_head r) (r_expected_generation r) None None None
    None None None "reserved" (r_attempt r + 1) None None (r_published_at r).

Definition reserved_run (x : PublicationScope) (input contract : string) (expected : option string) (generation : option Z) :
    Run :=
  mkRun x input contract expected generation None None None None None None "reserved" 1 None None None.

Definition head_in (s : session) (x : PublicationScope) (db : Authority) : option Head :=
  if in_session s x then heads db !! x else None.

Definition reserve_materialization (s : session) (now : instant) (run : string) (x : PublicationScope) (input contract : string)
    (expected : option string) (db : Authority) : res (string * Authority) :=
  if negb (IDENTIFIER (s_dataset x)) || negb (mem (s_layer x) LAYERS) || negb (_HEX_64 input) || negb (_HEX_64 contract)
  then sql_error "22023" "invalid materialization identity"
  else if differs (s_tenant x) (tenant_setting s) || differs (s_workspace x) (workspace_setting s)
  then sql_error "42501" "materialization scope mismatch"
  else
    match visible_run s run db with
    | Some r =>
        if negb (bool_decide (r_scope r = x)) || negb (bool_decide (r_input_digest r = input))
           || negb (bool_decide (r_contract_digest r = contract))
        then sql_error "23505" "materialization run identity mismatch"
        else if mem (r_status r) ["failed"; "recoverable_failed"] then
          if negb (bool_decide (h_run <$> head_in s x db = expected))
          then sql_error "40001" "materialization retry head conflict"
          else Ok ("reserved", set_run run (retried r) (with_attestations (invalidate_attestations now run) db))
        else Ok (r_status r, db)
    | None =>
        let head := head_in s x db in
        if negb (bool_decide (h_run <$> head = expected))
        then sql_error "40001" "materialization reservation head conflict"
        else if bool_decide (is_Some (runs db !! run)) then constraint_error "23505" "materialization_runs_pkey"
        else if negb (in_session s x) then sql_error "42501" "new row violates row-level security policy"
        else Ok ("reserved", set_run run (reserved_run x input contract expected (h_generation <$> head)) db)
    end.

(** ** Verification *)

Definition claim_of (run : string) (r : Run) (o : Object) (rows : Z) (lineage catalog : pyval) : Claim :=
  mkClaim run (r_scope r) (r_attempt r) o rows (sha256_hex (utf8 (jsonb_text catalog))) (r_input_digest r) (r_contract_digest r)
    lineage catalog.

Definition scope_fields (x : PublicationScope) : list (string * pyval) :=
  [("tenant_id", PStr (s_tenant x)); ("workspace_id", PStr (s_workspace x)); ("dataset", PStr (s_dataset x));
   ("layer", PStr (s_layer x))].
Definition object_fields (o : Object) (rows : Z) : list (string * pyval) :=
  [("object_uri", PStr (o_uri o)); ("object_version", PStr (o_version o)); ("object_checksum", PStr (o_checksum o));
   ("row_count", PInt rows)].

Definition candidate_digest (c : Claim) : string :=
  sha256_hex (utf8 (jsonb_text (PDict (mkdict
    ([("run", PStr (c_run c)); ("attempt", PInt (c_attempt c))] ++ scope_fields (c_scope c)
     ++ object_fields (c_object c) (c_row_count c)
     ++ [("input_digest", PStr (c_input_digest c)); ("contract_digest", PStr (c_contract_digest c));
         ("lineage", c_lineage c); ("catalog", c_catalog c)]))))).

(** Pending candidates of the same attempt and digest. *)
Definition same_candidate (c : Claim) (digest : string) (k : Candidate) : bool :=
  bool_decide (c_run (k_claim k) = c_run c) && (c_attempt (k_claim k) =? c_attempt c)
  && bool_decide (k_digest k = digest) && bool_decide (k_status k = "pending").

Definition expired_candidate (k : Candidate) : Candidate := mkCandidate (k_claim k) (k_digest k) "expired" (k_expires k).
Definition expire_candidates (p : Candidate → bool) : gmap string Candidate → gmap string Candidate :=
  fmap (λ k, if p k then expired_candidate k else k).

Definition object_ok (o : Object) : bool := object_uri_ok (o_uri o) && nonempty (o_version o) && _HEX_64 (o_checksum o).
Definition in_bigint (z : Z) : bool := (- 2 ^ 63 <=? z) && (z <=? MAX_BIGINT).
Definition filled_list (v : pyval) : bool := match v with PList (_ :: _) => true | _ => false end.
Definition same_text (x : option string) (s : string) : bool := bool_decide (x = Some s).

(** [fresh] is the identifier the database generates. *)
Definition submit_verification_candidate (s : session) (now : instant) (fresh run : string) (o : Object) (rows : Z)
    (lineage catalog : pyval) (db : Authority) : res (string * Authority) :=
  if negb (in_bigint rows) then sql_error "22003" "bigint out of range"
  else
    r ← locked_run s run db;
    if negb (bool_decide (r_status r = "reserved")) || negb (object_ok o) || (rows <? 0)
       || negb (is_dict lineage) || negb (filled_list catalog)
       || negb (same_text (arrow lineage "input_digest") (r_input_digest r))
       || negb (same_text (arrow lineage "contract_digest") (r_contract_digest r))
    then sql_error "23514" "verification candidate is incomplete"
    else
      let c := claim_of run r o rows lineage catalog in
      let digest := candidate_digest c in
      match find (λ kv, same_candidate c digest kv.2 && (now <? k_expires kv.2)) (map_to_list (candidates db)) with
      | Some (id, _) => Ok (id, db)
      | None =>
          let expire k := bool_decide (c_run (k_claim k) = run) && (c_attempt (k_claim k) =? r_attempt r)
                          && bool_decide (k_status k = "pending") && (k_expires k <=? now) in
          if bool_decide (is_Some (candidates db !! fresh))
          then constraint_error "23505" "materialization_verification_candidates_pkey"
          else Ok (fresh, with_candidates (λ m, <[fresh := mkCandidate c digest "pending" (now + CANDIDATE_TTL)]>
                                                  (expire_candidates expire m)) db)
      end.

(** A pending candidate that has not expired. *)
Definition pending (now : instant) (id : string) (db : Authority) : option Candidate :=
  match candidates db !! id with
  | Some k => if bool_decide (k_status k = "pending") && (now <? k_expires k) then Some k else None
  | None => None
  end.

(** [verifier]: the session is the role of the verifier. *)
Definition load_verification_candidate (verifier : bool) (now : instant) (id : string) (db : Authority) :
    res (option Claim) :=
  if negb verifier then sql_error "42501" "verifier identity required"
  else Ok (k_claim <$> pending now id db).

Definition envelope (id : string) (k : Candidate) (version key_version verifier : string) (issued expires : instant) : string :=
  let c := k_claim k in
  jsonb_text (PDict (mkdict
    ([("version", PStr version); ("key_version", PStr key_version); ("purpose", PStr "materialization.attest");
      ("audience", PStr "omega_publication"); ("verifier", PStr verifier); ("candidate_id", PStr id);
      ("run", PStr (c_run c)); ("attempt", PInt (c_attempt c))]
     ++ scope_fields (c_scope c) ++ object_fields (c_object c) (c_row_count c)
     ++ [("schema_digest", PStr (c_schema_digest c)); ("input_digest", PStr (c_input_digest c));
         ("contract_digest", PStr (c_contract_digest c)); ("candidate_digest", PStr (k_digest k));
         ("issued_at", PStr (time_text issued)); ("expires_at", PStr (time_text expires))]))).

Definition attested_candidate (k : Candidate) : Candidate := mkCandidate (k_claim k) (k_digest k) "attested" (k_expires k).

Definition record_attestation (verifier : bool) (now : instant) (fresh id : string) (db : Authority) :
    res (string * Authority) :=
  if negb verifier then sql_error "42501" "verifier identity required"
  else
    match pending now id db with
    | None => sql_error "23514" "verification candidate unavailable"
    | Some k =>
        let text := envelope id k SIGNATURE_VERSION "v1" VERIFIER now (k_expires k) in
        match signing_keys db !! "v1" with
        | Some (mkKey secret None) =>
            let digest := sha256_hex (utf8 text) in
            let a := mkAttestation (k_claim k) VERIFIER digest id SIGNATURE_VERSION "v1" (hmac_hex secret (utf8 text)) now
                       (k_expires k) None None in
            let known := existsb (λ kv, bool_decide (c_run (a_claim kv.2) = c_run (k_claim k))
                                        && bool_decide (a_digest kv.2 = digest)) (map_to_list (attestations db)) in
            if negb known && bool_decide (is_Some (attestations db !! fresh))
            then constraint_error "23505" "materialization_attestations_pkey"
            else
              Ok (digest, with_candidates (insert id (attested_candidate k))
                            (with_attestations (if known then λ m, m else insert fresh a) db))
        | _ => sql_error "P0001" "attestation signing unavailable"
        end
    end.

Definition verify_attestation (id : string) (db : Authority) : bool :=
  match attestations db !! id with
  | Some a =>
      match candidates db !! a_candidate a, signing_keys db !! a_key_version a with
      | Some k, Some key =>
          let text := envelope (a_candidate a) k (a_signature_version a) (a_key_version a) (a_verifier a) (a_created a)
                        (a_expires a) in
          bool_decide (a_signature_version a = SIGNATURE_VERSION) && bool_decide (a_digest a = sha256_hex (utf8 text))
          && bool_decide (a_signature a = hmac_hex (sk_secret key) (utf8 text))
      | _, _ => false
      end
  | None => false
  end.

(** ** The gold stage *)

(** The name and type of a column of the stage. *)
Definition stage_column (item : pyval) : res (string * string) :=
  let type := upper_ascii <$> arrow item "type" in
  if mismatches IDENTIFIER (arrow item "name") || mismatches gold_type type
  then sql_error "22023" "invalid Gold stage schema"
  else
    match arrow item "name", type with
    | Some name, Some type =>
        match pg_type type with Some t => Ok (pg_name name, t) | None => sql_error "22023" "invalid type modifier" end
    | None, _ => sql_error "22004" "null values cannot be formatted as an SQL identifier"
    | _, None => sql_error "42601" "syntax error"
    end.

Definition with_stage (stage : string) (r : Run) : Run :=
  mkRun (r_scope r) (r_input_digest r) (r_contract_digest r) (r_expected_head r) (r_expected_generation r) (r_object r)
    (r_row_count r) (r_schema_digest r) (r_evidence_digest r) (Some stage) (Some stage) (r_status r) (r_attempt r)
    (r_recovery_reason r) (r_prepared_at r) (r_published_at r).

(** A new table, or the one that is there without its rows. *)
Definition emptied_stage (x : PublicationScope) (columns : list (string * string)) (old : option Table) : Table :=
  mkTable (match old with Some t => t_columns t | None => columns end) [] (s_tenant x, s_workspace x) true.

Definition create_gold_stage (s : session) (run : string) (columns : pyval) (db : Authority) : res (string * Authority) :=
  r ← locked_run s run db;
  if negb (bool_decide (s_layer (r_scope r) = "gold")) || negb (bool_decide (r_status r = "reserved"))
  then sql_error "P0001" "Gold run is not reserved"
  else
    match columns with
    | PList ((_ :: _) as items) =>
        cols ← mapR stage_column items;
        if negb (existsb (λ i, same_text (arrow i "name") "tenant_id") items)
           || negb (existsb (λ i, same_text (arrow i "name") "workspace_id") items)
        then sql_error "P0001" "Gold stage must be tenant/workspace scoped"
        else
          let stage := stage_name run in
          if bool_decide (stages db !! stage = None) && negb (bool_decide (NoDup cols.*1))
          then sql_error "42701" "column specified more than once"
          else Ok (stage, set_run run (with_stage stage r)
                            (with_stages (λ m, <[stage := emptied_stage (r_scope r) cols (m !! stage)]> m) db))
    | _ => sql_error "P0001" "Gold stage schema is empty"
    end.

(** The cells of a row, by column. *)
Definition stored_row (columns : list (string * string)) (cells : list (string * pyval)) : res (gmap string pyval) :=
  foldR (λ row nv,
    match afind (pg_name nv.1) columns with
    | None => sql_error "42703" "column does not exist"
    | Some type =>
        match store_cell type nv.2 with
        | Some v => Ok (<[pg_name nv.1 := v]> row)
        | None => sql_error "22P02" "invalid input syntax"
        end
    end) cells ∅.

Definition cell (row : gmap string pyval) (column : string) : pyval := default PNone (row !! column).
(** The scope a row says it has. *)
Definition row_scope (row : gmap string pyval) : option string * option string :=
  (cell_text (cell row "tenant_id"), cell_text (cell row "workspace_id")).

(** The policy of the stage: the rows of the session's scope, if it is the stage's. *)
Definition policy_row (s : session) (t : Table) (row : gmap string pyval) : bool :=
  bool_decide (row_scope row = (Some (t_scope t).1, Some (t_scope t).2))
  && bool_decide (tenant_setting s = (t_scope t).1) && bool_decide (workspace_setting s = (t_scope t).2)
  && nonempty (tenant_setting s) && nonempty (workspace_setting s).

(** [INSERT INTO omega_publication_stage.<stage> (names) VALUES rows], by the publisher. *)
Definition insert_rows (s : session) (stage : string) (names : list string) (rows : list (list pyval)) (db : Authority) :
    res Authority :=
  match stages db !! stage with
  | None => sql_error "42P01" "relation does not exist"
  | Some t =>
      if negb (t_open t) then sql_error "42501" "permission denied"
      else if negb (forallb (λ cells, Nat.eqb (length cells) (length names)) rows)
      then sql_error "42601" "INSERT columns and expressions differ in number"
      else if negb (bool_decide (NoDup (pg_name <$> names))) then sql_error "42701" "column specified more than once"
      else
        new ← mapR (λ cells,
          row ← stored_row (t_columns t) (combine names cells);
          if existsb (λ c, mem c (t_columns t).*1 && is_none (cell row c)) ["tenant_id"; "workspace_id"]
          then sql_error "23502" "null value violates not-null constraint"
          else if negb (policy_row s t row) then sql_error "42501" "new row violates row-level security policy"
          else Ok row) rows;
        Ok (with_stages (insert stage (mkTable (t_columns t) (t_rows t ++ new) (t_scope t) (t_open t))) db)
  end.

(** [SELECT names FROM omega_publication_stage.<stage>]. *)
Definition select_rows (s : session) (stage : string) (names : list string) (db : Authority) : res (list (list pyval)) :=
  match stages db !! stage with
  | None => sql_error "42P01" "relation does not exist"
  | Some t =>
      if negb (forallb (λ n, mem (pg_name n) (t_columns t).*1) names) then sql_error "42703" "column does not exist"
      else Ok ((λ row, (λ n, cell row (pg_name n)) <$> names) <$> List.filter (policy_row s t) (t_rows t))
  end.

(** ** Preparation *)

Definition LINEAGE_KEYS : list string :=
  ["source_entity"; "source_load_date"; "source_batch_id"; "sql_digest"; "column_mapping_digest"].

(** The object is in the pending place of the run, in its scope, named by its checksum. *)
Definition pending_object (run : string) (x : PublicationScope) (o : Object) : bool :=
  contains ("/tenant_id=" +:+ s_tenant x +:+ "/workspace_id=" +:+ s_workspace x +:+ "/") (o_uri o)
  && contains ("/_pending/" +:+ uuid_digits run +:+ "/") (o_uri o)
  && bool_decide (right_of 72 (o_uri o) = o_checksum o +:+ ".parquet").

Definition catalog_item_ok (item : pyval) : bool :=
  is_dict item && IDENTIFIER (default "" (arrow item "name")) && nonempty (default "" (arrow item "type")).

Definition lineage_ok (r : Run) (lineage : pyval) : bool :=
  forallb (λ k, match lineage with PDict d => has_key k d | _ => false end) LINEAGE_KEYS
  && negb (mismatches _HEX_64 (arrow lineage "sql_digest")) && negb (mismatches _HEX_64 (arrow lineage "column_mapping_digest"))
  && same_text (arrow lineage "input_digest") (r_input_digest r)
  && same_text (arrow lineage "contract_digest") (r_contract_digest r).

(** The checks of the stage of a gold run, which close it. *)
Definition close_stage (s : session) (r : Run) (rows : Z) (gold staging : option string) (catalog : list pyval)
    (db : Authority) : res Authority :=
  if negb (bool_decide (r_staging_table r = staging)) || negb (bool_decide (r_gold_table r = gold))
  then sql_error "P0001" "Gold stage identity mismatch"
  else
    match staging with
    | None => sql_error "22004" "null values cannot be formatted as an SQL identifier"
    | Some stage =>
        match stages db !! stage with
        | None => sql_error "42P01" "relation does not exist"
        | Some t =>
            let seen := List.filter (policy_row s t) (t_rows t) in
            let outside := List.filter (λ row,
              negb (bool_decide (row_scope row = (Some (s_tenant (r_scope r)), Some (s_workspace (r_scope r)))))) seen in
            if negb (Z.of_nat (length seen) =? rows) || negb (Nat.eqb (length outside) 0)
            then sql_error "23514" "Gold stage row count or scope mismatch"
            else if Nat.eqb (length (t_columns t)) 0 then sql_error "23514" "Gold stage catalog is empty"
            else if negb (bool_decide ((λ i, arrow i "name") <$> catalog = Some <$> (t_columns t).*1))
            then sql_error "23514" "Gold catalog does not match prepared relation"
            else Ok (with_stages (insert stage (mkTable (t_columns t) (t_rows t) (t_scope t) false)) db)
        end
    end.

(** The attestations that back a claim now. *)
Definition backs (now : instant) (c : Claim) (db : Authority) (kv : string * Attestation) : bool :=
  let d := a_claim kv.2 in
  bool_decide (c_run d = c_run c) && bool_decide (c_scope d = c_scope c) && (c_attempt d =? c_attempt c)
  && bool_decide (c_object d = c_object c) && (c_row_count d =? c_row_count c)
  && bool_decide (c_schema_digest d = c_schema_digest c) && bool_decide (c_input_digest d = c_input_digest c)
  && bool_decide (c_contract_digest d = c_contract_digest c) && jsonb_eq (c_lineage d) (c_lineage c)
  && jsonb_eq (c_catalog d) (c_catalog c) && bool_decide (a_verifier kv.2 = VERIFIER) && verify_attestation kv.1 db
  && bool_decide (a_consumed kv.2 = None) && bool_decide (a_invalidated kv.2 = None) && (now <? a_expires kv.2).

(** [ORDER BY created_at DESC LIMIT 1]. *)
Definition latest (l : list (string * Attestation)) : option (string * Attestation) :=
  foldl (λ best kv, match best with
                    | Some b => if a_created b.2 <? a_created kv.2 then Some kv else best
                    | None => Some kv
                    end) None l.

Definition consumed (now : instant) (a : Attestation) : Attestation :=
  mkAttestation (a_claim a) (a_verifier a) (a_digest a) (a_candidate a) (a_signature_version a) (a_key_version a)
    (a_signature a) (a_created a) (a_expires a) (Some now) (a_invalidated a).

Definition evidence_digest (c : Claim) : string :=
  sha256_hex (utf8 (jsonb_text (PDict (mkdict
    ([("run", PStr (c_run c))] ++ scope_fields (c_scope c)
     ++ [("input_digest", PStr (c_input_digest c)); ("contract_digest", PStr (c_contract_digest c))]
     ++ object_fields (c_object c) (c_row_count c)
     ++ [("schema_digest", PStr (c_schema_digest c)); ("lineage", c_lineage c); ("catalog", c_catalog c)]))))).

Definition evidence_of (c : Claim) (attestation : string) : Evidence :=
  mkEvidence (c_scope c) (c_object c) (c_row_count c) (c_schema_digest c) (evidence_digest c) (Some attestation)
    (c_lineage c) (c_catalog c).

Definition same_evidence (e f : Evidence) : bool :=
  bool_decide (e_scope e = e_scope f) && bool_decide (e_object e = e_object f) && (e_row_count e =? e_row_count f)
  && bool_decide (e_schema_digest e = e_schema_digest f) && bool_decide (e_evidence_digest e = e_evidence_digest f)
  && bool_decide (e_attestation e = e_attestation f) && jsonb_eq (e_lineage e) (e_lineage f)
  && jsonb_eq (e_catalog e) (e_catalog f).

Definition prepared_run (now : instant) (r : Run) (c : Claim) (gold staging : option string) : Run :=
  mkRun (r_scope r) (r_input_digest r) (r_contract_digest r) (r_expected_head r) (r_expected_generation r)
    (Some (c_object c)) (Some (c_row_count c)) (Some (c_schema_digest c)) (Some (evidence_digest c)) gold staging "prepared"
    (r_attempt r) (r_recovery_reason r) (Some now) (r_published_at r).

(** [None]: the run is published already. *)
Definition mark_prepared (s : session) (now : instant) (run : string) (o : Object) (rows : Z) (gold staging : option string)
    (lineage catalog : pyval) (db : Authority) : res (option (string * string) * Authority) :=
  if negb (in_bigint rows) then sql_error "22003" "bigint out of range"
  else
    r ← locked_run s run db;
    if bool_decide (r_status r = "published") then Ok (None, db)
    else if negb (object_ok o) || (rows <? 0) || negb (is_dict lineage) || negb (filled_list catalog)
            || negb (pending_object run (r_scope r) o)
            || bool_decide (s_layer (r_scope r) = "gold")
               && (mismatches stage_name_ok gold || negb (bool_decide (staging = gold)))
    then sql_error "23514" "incomplete publication evidence"
    else
      let items := default [] (as_list catalog) in
      if negb (lineage_ok r lineage) || negb (forallb catalog_item_ok items)
      then sql_error "23514" "publication lineage or catalog is incomplete"
      else
        db1 ← (if bool_decide (s_layer (r_scope r) = "gold") then close_stage s r rows gold staging items db else Ok db);
        let c := claim_of run r o rows lineage catalog in
        match latest (List.filter (backs now c db) (map_to_list (attestations db))) with
        | None => sql_error "42501" "server-owned materialization attestation is required"
        | Some (id, a) =>
            let e := evidence_of c id in
            if negb (same_evidence (default e (evidence db !! run)) e)
            then sql_error "23505" "materialization evidence replay mismatch"
            else
              Ok (Some (c_schema_digest c, evidence_digest c),
                  set_run run (prepared_run now r c gold staging)
                    (with_evidence (λ m, <[run := default e (m !! run)]> m)
                       (with_attestations (insert id (consumed now a)) db1)))
        end.

(** ** Publication *)

(** [gold_compatibility_relation]. *)
Definition gold_compatibility_relation (x : PublicationScope) : res string :=
  if negb (IDENTIFIER (s_dataset x)) then sql_error "22023" "invalid Gold dataset name"
  else Ok ("gold_" +:+ stake 38 (s_dataset x) +:+ "_"
  +:+ stake 16 (sha256_hex (utf8 (s_tenant x +:+ ":" +:+ s_workspace x +:+ ":" +:+ s_dataset x)))).

(** The columns of the legacy relation once it has those of the stage. *)
Definition merge_columns (columns : list (string * string)) (nt : string * string) : res (list (string * string)) :=
  match afind nt.1 columns with
  | None => Ok (columns ++ [nt])%list
  | Some type =>
      if bool_decide (type = nt.2) || bool_decide (type = "character varying") && bool_decide (nt.2 = "text")
      then Ok columns else sql_error "42804" "legacy Gold column type conflict"
  end.

Definition view_name (x : PublicationScope) : string :=
  "v_" +:+ md5_hex (utf8 (s_tenant x +:+ ":" +:+ s_workspace x +:+ ":" +:+ s_dataset x)).

(** The relations a gold run replaces when it is published. *)
Definition publish_gold (r : Run) (db : Authority) : res Authority :=
  let x := r_scope r in
  match r_staging_table r with
  | None => sql_error "22004" "null values cannot be formatted as an SQL identifier"
  | Some stage =>
      match stages db !! stage with
      | None => sql_error "55000" "prepared Gold stage missing"
      | Some t =>
          if negb (bool_decide (r_gold_table r = Some stage))
          then sql_error "23514" "prepared Gold relation identity mismatch"
          else
            name ← gold_compatibility_relation x;
            let taken := existsb (λ kv, bool_decide (kv.1.1.1 = s_tenant x) && bool_decide (kv.1.1.2 = s_workspace x)
                                        && negb (bool_decide (kv.1.2 = s_dataset x)) && bool_decide (kv.2 = name))
                           (map_to_list (relations db)) in
            if taken then constraint_error "23505" "dataset_gold_relations_tenant_id_workspace_id_relation_name_key"
            else
              let old := default (mkTable (t_columns t) [] (t_scope t) false) (legacy db !! name) in
              columns ← foldR merge_columns (t_columns t) (t_columns old);
              if bool_decide (is_Some (golds db !! stage)) then sql_error "42P07" "relation already exists"
              else
                let others := List.filter (λ row,
                  negb (bool_decide (row_scope row = (Some (s_tenant x), Some (s_workspace x))))) (t_rows old) in
                Ok (set_relations (<[(s_tenant x, s_workspace x, s_dataset x) := name]> (relations db))
                      (delete stage (stages db))
                      (<[stage := mkTable (t_columns t) (t_rows t) (t_scope t) false]> (golds db))
                      (<[name := mkTable columns (others ++ t_rows t) (t_scope old) false]> (legacy db))
                      (<[view_name x := stage]> (views db)) db)
      end
  end.

(** The evidence of the run with its attestation, complete, consumed and in force. *)
Definition authorized (now : instant) (run : string) (r : Run) (o : Object) (rows : Z) (schema digest : string)
    (db : Authority) : bool :=
  match evidence db !! run with
  | Some e =>
      bool_decide (e_scope e = r_scope r) && bool_decide (e_object e = o) && (e_row_count e =? rows)
      && bool_decide (e_schema_digest e = schema) && bool_decide (e_evidence_digest e = digest)
      && match e_attestation e with
         | Some id =>
             match attestations db !! id with
             | Some a =>
                 let d := a_claim a in
                 bool_decide (c_run d = run) && bool_decide (c_scope d = r_scope r) && (c_attempt d =? r_attempt r)
                 && bool_decide (c_object d = e_object e) && (c_row_count d =? e_row_count e)
                 && bool_decide (c_schema_digest d = e_schema_digest e)
                 && bool_decide (c_input_digest d = r_input_digest r)
                 && bool_decide (c_contract_digest d = r_contract_digest r)
                 && jsonb_eq (c_lineage d) (e_lineage e) && jsonb_eq (c_catalog d) (e_catalog e)
                 && bool_decide (a_verifier a = VERIFIER) && verify_attestation id db
                 && bool_decide (is_Some (a_consumed a)) && bool_decide (a_invalidated a = None) && (now <? a_expires a)
             | None => false
             end
         | None => false
         end
  | None => false
  end.

Definition published_run (now : instant) (r : Run) : Run :=
  mkRun (r_scope r) (r_input_digest r) (r_contract_digest r) (r_expected_head r) (r_expected_generation r) (r_object r)
    (r_row_count r) (r_schema_digest r) (r_evidence_digest r) (r_gold_table r) (r_staging_table r) "published" (r_attempt r)
    (r_recovery_reason r) (r_prepared_at r) (Some now).

Record Publication := mkPublication { p_receipt : string; p_generation : Z; p_replayed : bool }.

(** [fresh] is the identifier of the receipt. *)
Definition publish_materialization (s : session) (now : instant) (fresh run : string) (expected : option string)
    (db : Authority) : res (Publication * Authority) :=
  r ← locked_run s run db;
  match receipts db !! run with
  | Some rc => Ok (mkPublication (rc_id rc) (rc_generation rc) true, db)
  | None =>
      match r_object r, r_schema_digest r, r_evidence_digest r, r_row_count r with
      | Some o, Some schema, Some digest, Some rows =>
          if negb (bool_decide (r_status r = "prepared")) then sql_error "23514" "materialization is not publishable"
          else if negb (bool_decide (expected = r_expected_head r)) then sql_error "40001" "publication expected head mismatch"
          else if negb (authorized now run r o rows schema digest db)
          then sql_error "23514" "materialization authority is incomplete or expired"
          else
            let head := heads db !! r_scope r in
            if negb (bool_decide (h_run <$> head = r_expected_head r)) then sql_error "40001" "publication head conflict"
            else
              let generation := default 0 (h_generation <$> head) + 1 in
              db1 ← (if bool_decide (s_layer (r_scope r) = "gold") then publish_gold r db else Ok db);
              if negb (in_bigint generation) then sql_error "22003" "bigint out of range"
              else if existsb (λ kv, bool_decide (rc_id kv.2 = fresh)) (map_to_list (receipts db))
              then constraint_error "23505" "materialization_receipts_pkey"
              else
                let receipt := mkReceipt fresh (r_scope r) (r_input_digest r) (r_contract_digest r) (o_checksum o)
                                 (o_version o) schema digest rows generation in
                Ok (mkPublication fresh generation false,
                    set_run run (published_run now r)
                      (set_head (r_scope r) (mkHead run generation now) (set_receipt run receipt db1)))
      | _, _, _, _ => sql_error "23514" "materialization is not publishable"
      end
  end.

(** ** Abandonment and recovery *)

Definition drop_stage (staging : option string) : gmap string Table → gmap string Table :=
  match staging with Some stage => delete stage | None => id end.
(** A run of which the head or a receipt speaks. *)
Definition spoken_for (run : string) (db : Authority) : bool :=
  existsb (λ kv, bool_decide (h_run kv.2 = run)) (map_to_list (heads db)) || bool_decide (is_Some (receipts db !! run)).

Definition quarantined (reason : string) (r : Run) : Run :=
  mkRun (r_scope r) (r_input_digest r) (r_contract_digest r) (r_expected_head r) (r_expected_generation r) (r_object r)
    (r_row_count r) (r_schema_digest r) (r_evidence_digest r) None None "recoverable_failed" (r_attempt r)
    (Some (stake 240 reason)) (r_prepared_at r) (r_published_at r).

Definition quarantine_prepared (s : session) (now : instant) (run reason : string) (db : Authority) : res Authority :=
  r ← locked_run s run db;
  if negb (bool_decide (r_status r = "prepared")) then sql_error "P0001" "prepared materialization is not recoverable"
  else if spoken_for run db then sql_error "P0001" "published materialization cannot be quarantined"
  else
    match evidence db !! run with
    | None => constraint_error "23502" ""
    | Some e =>
        Ok (set_run run (quarantined reason r)
              (with_stages (drop_stage (r_staging_table r))
                 (with_attestations (invalidate_attestations now run)
                    (with_evidence (delete run)
                       (add_event (mkEvent run (r_scope r) (r_attempt r)
                          (event_reason reason "prepared_object_unavailable") e) db)))))
    end.

Definition abandoned (r : Run) : Run :=
  mkRun (r_scope r) (r_input_digest r) (r_contract_digest r) (r_expected_head r) (r_expected_generation r) (r_object r)
    (r_row_count r) (r_schema_digest r) (r_evidence_digest r) (r_gold_table r) None
    (if r_recovery_reason r then "recoverable_failed" else "failed") (r_attempt r) (r_recovery_reason r) (r_prepared_at r)
    (r_published_at r).

Definition abandon_materialization (s : session) (now : instant) (run : string) (db : Authority) : res Authority :=
  r ← locked_run s run db;
  if mem (r_status r) ["published"; "legacy_unverified"] then Ok db
  else if existsb (λ kv, bool_decide (h_run kv.2 = run)) (map_to_list (heads db))
  then sql_error "P0001" "published run cannot be abandoned"
  else Ok (set_run run (abandoned r)
             (with_attestations (invalidate_attestations now run) (with_stages (drop_stage (r_staging_table r)) db))).

Definition reopened (reason : string) (r : Run) : Run :=
  mkRun (r_scope r) (r_input_digest r) (r_contract_digest r) (r_expected_head r) (r_expected_generation r) (r_object r)
    (r_row_count r) None None (r_gold_table r) (r_staging_table r) "reserved" (r_attempt r + 1) (Some (stake 240 reason))
    None (r_published_at r).

(** What a reopened run had been prepared with. *)
Record Reopened := mkReopened {
  ro_object : Object; ro_row_count : Z; ro_staging_table : option string; ro_gold_table : option string;
  ro_lineage : pyval; ro_catalog : pyval; ro_expected_head : option string }.

Definition reopen_prepared_materialization (s : session) (now : instant) (run reason : string) (db : Authority) :
    res (Reopened * Authority) :=
  r ← locked_run s run db;
  if negb (bool_decide (r_status r = "prepared")) then sql_error "23514" "prepared materialization is not reopenable"
  else if spoken_for run db then sql_error "23514" "published materialization cannot be reopened"
  else
    match evidence db !! run with
    | None => sql_error "23514" "prepared materialization evidence is unavailable"
    | Some e =>
        if negb (bool_decide (e_scope e = r_scope r)) || negb (bool_decide (r_object r = Some (e_object e)))
           || negb (bool_decide (r_row_count r = Some (e_row_count e)))
        then sql_error "23514" "prepared materialization evidence mismatch"
        else
          let expire k := bool_decide (c_run (k_claim k) = run) && bool_decide (k_status k = "pending") in
          Ok (mkReopened (e_object e) (e_row_count e) (r_staging_table r) (r_gold_table r) (e_lineage e) (e_catalog e)
                (r_expected_head r),
              set_run run (reopened reason r)
                (with_evidence (delete run)
                   (with_candidates (expire_candidates expire)
                      (with_attestations (invalidate_attestations now run)
                         (add_event (mkEvent run (r_scope r) (r_attempt r) (event_reason reason "prepared_revalidation") e) db)))))
    end.
End Authority.
