(* ===== verification/PublicationSafety.v ===== *)
(** What the publication authority ([Publication]) guarantees, whoever calls it and
    in whatever order: the calls are steps of a relation on its tables, the heads
    refine registers that are advanced by compare-and-set, what is published was
    attested by the verifier, and what is published is final. *)
From S2P Require Import Prelude PyStr PyVal PyTime SignedContext Publication.

Open Scope Z_scope.

(** ** Calls and what they report *)

Inductive call :=
  | Reserve (s : session) (now : instant) (run : string) (x : PublicationScope) (input contract : string)
      (expected : option string)
  | Submit (s : session) (now : instant) (fresh run : string) (o : Object) (rows : Z) (lineage catalog : pyval)
  | Attest (verifier : bool) (now : instant) (fresh id : string)
  | Stage (s : session) (run : string) (columns : pyval)
  | Insert (s : session) (stage : string) (names : list string) (rows : list (list pyval))
  | Prepare (s : session) (now : instant) (run : string) (o : Object) (rows : Z) (gold staging : option string)
      (lineage catalog : pyval)
  | Publish (s : session) (now : instant) (fresh run : string) (expected : option string)
  | Quarantine (s : session) (now : instant) (run reason : string)
  | Abandon (s : session) (now : instant) (run : string)
  | Reopen (s : session) (now : instant) (run reason : string).

(** [Published]: the scope, the run with its object and rows, the head it replaced
    and its generation. *)
Inductive event :=
  | Attested (c : Claim)
  | Published (x : PublicationScope) (run : string) (o : Object) (rows : Z) (previous : option string) (generation : Z).

(** The tables a publication depends on. *)
Definition same_core (db db' : Authority) : Prop :=
  runs db' = runs db ∧ heads db' = heads db ∧ receipts db' = receipts db ∧ evidence db' = evidence db
  ∧ candidates db' = candidates db ∧ attestations db' = attestations db.

(** ** The specification of a dataset's head: a register advanced by compare-and-set *)

Definition register : Type := option (string * Z).
Definition register_of (h : option Head) : register := (λ h, (h_run h, h_generation h)) <$> h.

(** A publication in the register: the run expected there, the new run, its generation. *)
Inductive register_run : register → list (option string * string * Z) → register → Prop :=
  | reg_done st : register_run st [] st
  | reg_cas st run es st' :
      register_run (Some (run, default 0 (snd <$> st) + 1)) es st' →
      register_run st ((fst <$> st, run, default 0 (snd <$> st) + 1) :: es) st'.

(** The publications of a scope in a log. *)
Definition published_in (x : PublicationScope) (log : list event) : list (option string * string * Z) :=
  omap (λ e, match e with
             | Published y run _ _ previous generation =>
                 if decide (y = x) then Some (previous, run, generation) else None
             | Attested _ => None
             end) log.
Definition published_runs (log : list event) : list string :=
  omap (λ e, match e with Published _ run _ _ _ _ => Some run | Attested _ => None end) log.

Lemma register_run_app st es st1 es' st2 :
  register_run st es st1 → register_run st1 es' st2 → register_run st (es ++ es') st2.
Proof. induction 1; [done|]. intros. constructor. auto. Qed.

Lemma register_last st es expected run generation st' :
  register_run st (es ++ [(expected, run, generation)]) st' → st' = Some (run, generation).
Proof.
  revert st. induction es as [|[[e r] g] es IH]; intros st; cbn; inversion_clear 1 as [|? ? ? ? Hr].
  - by inversion_clear Hr.
  - by eapply IH.
Qed.

Section Safety.
Context (jsonb_text : pyval → string) (jsonb_eq : pyval → pyval → bool) (time_text : instant → string).
Context (sha256_hex : string → string) (hmac_hex : string → string → string) (md5_hex : string → string).
Context (pg_type : string → option string) (store_cell : string → pyval → option pyval) (cell_text : pyval → option string).

Abbreviation claim_of := (claim_of jsonb_text sha256_hex).
Abbreviation evidence_of := (evidence_of jsonb_text sha256_hex).
Abbreviation prepared_run := (prepared_run jsonb_text sha256_hex).

Definition outcome {A} (db : Authority) (r : res (A * Authority)) (es : A → list event) : Authority * list event :=
  match r with Ok (a, db') => (db', es a) | Raise _ => (db, []) end.
Definition effect (db : Authority) (r : res Authority) : Authority * list event :=
  match r with Ok db' => (db', []) | Raise _ => (db, []) end.

Definition exec (op : call) (db : Authority) : Authority * list event :=
  match op with
  | Reserve s now run x input contract expected =>
      outcome db (reserve_materialization s now run x input contract expected db) (λ _, [])
  | Submit s now fresh run o rows lineage catalog =>
      outcome db (submit_verification_candidate jsonb_text sha256_hex s now fresh run o rows lineage catalog db) (λ _, [])
  | Attest verifier now fresh id =>
      outcome db (record_attestation jsonb_text time_text sha256_hex hmac_hex verifier now fresh id db)
        (λ _, match pending now id db with Some k => [Attested (k_claim k)] | None => [] end)
  | Stage s run columns => outcome db (create_gold_stage jsonb_text pg_type s run columns db) (λ _, [])
  | Insert s stage names rows => effect db (insert_rows store_cell cell_text s stage names rows db)
  | Prepare s now run o rows gold staging lineage catalog =>
      outcome db (mark_prepared jsonb_text jsonb_eq time_text sha256_hex hmac_hex cell_text s now run o rows gold staging
                    lineage catalog db) (λ _, [])
  | Publish s now fresh run expected =>
      outcome db (publish_materialization jsonb_text jsonb_eq time_text sha256_hex hmac_hex md5_hex cell_text s now fresh run
                    expected db)
        (λ p, if p_replayed p then []
              else match visible_run s run db with
                   | Some r =>
                       match r_object r, r_row_count r with
                       | Some o, Some rows => [Published (r_scope r) run o rows expected (p_generation p)]
                       | _, _ => []
                       end
                   | None => []
                   end)
  | Quarantine s now run reason => effect db (quarantine_prepared s now run reason db)
  | Abandon s now run => effect db (abandon_materialization s now run db)
  | Reopen s now run reason => outcome db (reopen_prepared_materialization s now run reason db) (λ _, [])
  end.

Fixpoint exec_all (ops : list call) (db : Authority) : Authority * list event :=
  match ops with
  | [] => (db, [])
  | op :: ops => let '(db, es) := exec op db in let '(db, es') := exec_all ops db in (db, es ++ es')
  end.

(** ** The calls as steps *)

(** An attestation speaks of a claim. *)
Definition speaks (a : Attestation) (c : Claim) : Prop :=
  c_run (a_claim a) = c_run c ∧ c_scope (a_claim a) = c_scope c ∧ c_attempt (a_claim a) = c_attempt c
  ∧ c_object (a_claim a) = c_object c ∧ c_row_count (a_claim a) = c_row_count c
  ∧ c_schema_digest (a_claim a) = c_schema_digest c.

Inductive step : Authority → list event → Authority → Prop :=
  | step_idle db db' : same_core db db' → step db [] db'
  | step_reserve db run r :
      runs db !! run = None → r_status r = "reserved" → r_attempt r = 1 → step db [] (set_run run r db)
  | step_retry db now run r :
      runs db !! run = Some r → r_status r ∈ ["failed"; "recoverable_failed"] →
      step db [] (set_run run (retried r) (with_attestations (invalidate_attestations now run) db))
  | step_submit db fresh run r o rows lineage catalog digest expires expire :
      runs db !! run = Some r → r_status r = "reserved" → candidates db !! fresh = None → object_ok o = true →
      step db [] (with_candidates (λ m, <[fresh := mkCandidate (claim_of run r o rows lineage catalog) digest "pending" expires]>
                                          (expire_candidates expire m)) db)
  | step_attest db id k fresh a :
      candidates db !! id = Some k → attestations db !! fresh = None → a_claim a = k_claim k → a_candidate a = id →
      step db [Attested (k_claim k)] (with_candidates (insert id (attested_candidate k)) (with_attestations (insert fresh a) db))
  | step_attest_again db id k :
      candidates db !! id = Some k →
      step db [Attested (k_claim k)] (with_candidates (insert id (attested_candidate k)) (with_attestations (λ m, m) db))
  | step_stage db db1 run r stage :
      same_core db db1 → runs db !! run = Some r → r_status r = "reserved" →
      step db [] (set_run run (with_stage stage r) db1)
  | step_prepare db db1 now run r c id a gold staging :
      same_core db db1 → runs db !! run = Some r → r_status r ≠ "published" →
      attestations db !! id = Some a → speaks a c → a_consumed a = None → a_invalidated a = None →
      c_run c = run → c_scope c = r_scope r → c_attempt c = r_attempt r →
      step db [] (set_run run (prepared_run now r c gold staging)
                    (with_evidence (λ m, <[run := default (evidence_of c id) (m !! run)]> m)
                       (with_attestations (insert id (consumed now a)) db1)))
  | step_publish db db1 now fresh run r o schema digest rows :
      same_core db db1 → runs db !! run = Some r → receipts db !! run = None → r_status r = "prepared" →
      r_object r = Some o → r_schema_digest r = Some schema → r_evidence_digest r = Some digest → r_row_count r = Some rows →
      authorized jsonb_text jsonb_eq time_text sha256_hex hmac_hex now run r o rows schema digest db = true →
      h_run <$> heads db !! r_scope r = r_expected_head r →
      let generation := default 0 (h_generation <$> heads db !! r_scope r) + 1 in
      step db [Published (r_scope r) run o rows (r_expected_head r) generation]
        (set_run run (published_run now r)
           (set_head (r_scope r) (mkHead run generation now)
              (set_receipt run (mkReceipt fresh (r_scope r) (r_input_digest r) (r_contract_digest r) (o_checksum o) (o_version o)
                                  schema digest rows generation) db1)))
  | step_quarantine db now run r reason v st :
      runs db !! run = Some r → r_status r = "prepared" → receipts db !! run = None →
      step db [] (set_run run (quarantined reason r)
        (with_stages st (with_attestations (invalidate_attestations now run) (with_evidence (delete run) (add_event v db)))))
  | step_abandon db now run r st :
      runs db !! run = Some r → r_status r ∉ ["published"; "legacy_unverified"] →
      step db [] (set_run run (abandoned r)
        (with_attestations (invalidate_attestations now run) (with_stages st db)))
  | step_reopen db now run r reason expire v :
      runs db !! run = Some r → r_status r = "prepared" → receipts db !! run = None →
      step db [] (set_run run (reopened reason r)
        (with_evidence (delete run) (with_candidates (expire_candidates expire)
           (with_attestations (invalidate_attestations now run) (add_event v db))))).

Inductive steps : Authority → list event → Authority → Prop :=
  | steps_done db : steps db [] db
  | steps_more db es db1 es' db2 : step db es db1 → steps db1 es' db2 → steps db (es ++ es') db2.

Lemma same_core_refl db : same_core db db.
Proof. by repeat split. Qed.

Lemma step_stay db : step db [] db.
Proof. apply step_idle, same_core_refl. Qed.

Lemma locked_ok s run db r : locked_run s run db = Ok r → runs db !! run = Some r ∧ in_session s (r_scope r) = true.
Proof.
  unfold locked_run, visible_run. destruct (runs db !! run) as [r'|]; [|done]. destruct (in_session s (r_scope r')) eqn:E; [|done].
  by intros [= <-].
Qed.

Lemma visible_ok s run db r : visible_run s run db = Some r → runs db !! run = Some r.
Proof. unfold visible_run. destruct (runs db !! run) as [r'|]; [|done]. destruct (in_session _ _); [|done]. by intros [= <-]. Qed.

Lemma reserve_step s now run x input contract expected db st db' :
  reserve_materialization s now run x input contract expected db = Ok (st, db') → step db [] db'.
Proof.
  unfold reserve_materialization. destruct (_ || _); [done|]. destruct (_ || _); [done|].
  destruct (visible_run s run db) as [r|] eqn:Hr.
  - apply visible_ok in Hr. destruct (_ || _); [done|]. destruct (mem _ _) eqn:Em; [|intros [= <- <-]; apply step_stay].
    apply mem_true in Em. destruct (negb _); [done|]. intros [= <- <-]. by apply step_retry.
  - destruct (negb _); [done|]. case_bool_decide as Hn; [done|]. destruct (negb _); [done|]. intros [= <- <-].
    apply step_reserve; [by apply eq_None_not_Some|done|done].
Qed.

Lemma submit_step s now fresh run o rows lineage catalog db id db' :
  submit_verification_candidate jsonb_text sha256_hex s now fresh run o rows lineage catalog db = Ok (id, db') → step db [] db'.
Proof.
  unfold submit_verification_candidate. destruct (negb _); [done|]. intros (r & [Hr _]%locked_ok & H)%bind_ok.
  destruct (bool_decide (r_status r = "reserved")) eqn:Es; cbn [negb orb] in H; [|done]. apply bool_decide_eq_true in Es.
  destruct (object_ok o) eqn:Eo; cbn [negb orb] in H; [|done].
  destruct (_ || _) in H; [done|]. destruct (find _ _) as [[k ?]|] in H; [injection H as <- <-; apply step_stay|].
  case_bool_decide as Hf; [done|]. injection H as <- <-. eapply step_submit; [exact Hr|done|by apply eq_None_not_Some|done].
Qed.

Lemma attest_step verifier now fresh id db digest db' :
  record_attestation jsonb_text time_text sha256_hex hmac_hex verifier now fresh id db = Ok (digest, db') →
  step db (match pending now id db with Some k => [Attested (k_claim k)] | None => [] end) db'.
Proof.
  unfold record_attestation. destruct (negb verifier); [done|]. destruct (pending now id db) as [k|] eqn:Ep; [|done].
  assert (Hk : candidates db !! id = Some k).
  { revert Ep. unfold pending. destruct (candidates db !! id) as [k'|]; [|done]. destruct (_ && _); [|done]. by intros [= <-]. }
  destruct (signing_keys db !! "v1") as [[secret [?|]]|]; [done| |done]. cbv zeta.
  destruct (existsb _ _); cbn [negb andb].
  - intros [= <- <-]. by apply step_attest_again.
  - case_bool_decide as Hf; [done|]. intros [= <- <-]. apply step_attest; [done|by apply eq_None_not_Some|done|done].
Qed.

Lemma stage_step s run columns db stage db' :
  create_gold_stage jsonb_text pg_type s run columns db = Ok (stage, db') → step db [] db'.
Proof.
  unfold create_gold_stage. intros (r & [Hr _]%locked_ok & H)%bind_ok.
  destruct (negb (bool_decide (r_status r = "reserved"))) eqn:Es; [by rewrite orb_true_r in H|].
  apply negb_false_iff, bool_decide_eq_true in Es. rewrite orb_false_r in H. destruct (negb _) in H; [done|].
  destruct columns as [| | | | |[|i items]|]; try done. apply bind_ok in H as (cols & _ & H).
  destruct (_ || _) in H; [done|]. destruct (_ && _) in H; [done|]. injection H as <- <-.
  eapply step_stage; [|exact Hr|done]. by repeat split.
Qed.

Lemma insert_step s stage names rows db db' : insert_rows store_cell cell_text s stage names rows db = Ok db' → step db [] db'.
Proof.
  unfold insert_rows. destruct (stages db !! stage); [|done]. do 3 (destruct (negb _); [done|]).
  intros (new & _ & [= <-])%bind_ok. apply step_idle. by repeat split.
Qed.

Lemma close_stage_core s r rows gold staging catalog db db' :
  close_stage jsonb_text cell_text s r rows gold staging catalog db = Ok db' → same_core db db'.
Proof.
  unfold close_stage. destruct (_ || _); [done|]. destruct staging as [stage|]; [|done].
  destruct (stages db !! stage) as [t|]; [|done]. cbv zeta. destruct (_ || _); [done|]. destruct (Nat.eqb _ 0); [done|].
  destruct (negb _); [done|]. intros [= <-]. by repeat split.
Qed.

Lemma latest_elem l best : latest l = Some best → best ∈ l.
Proof.
  unfold latest. enough (∀ o, foldl (λ best kv, match best with
    | Some b => if a_created b.2 <? a_created kv.2 then Some kv else best | None => Some kv end) o l = Some best →
    o = Some best ∨ best ∈ l) as Hgo by (intros [?|?]%Hgo; done).
  induction l as [|kv l IH]; intros o; simpl; [by left|]. intros [Ho|?]%IH; [|by right; right].
  destruct o as [b|]; [destruct (_ <? _)|]; injection Ho as <-; [by right; left|by left|by right; left].
Qed.

Lemma backs_speaks now c db id a :
  backs jsonb_text jsonb_eq time_text sha256_hex hmac_hex now c db (id, a) = true →
  speaks a c ∧ a_consumed a = None ∧ a_invalidated a = None.
Proof.
  unfold backs, speaks. cbn [fst snd]. rewrite !andb_true_iff, !bool_decide_eq_true, !Z.eqb_eq. naive_solver.
Qed.

Lemma prepare_step s now run o rows gold staging lineage catalog db out db' :
  mark_prepared jsonb_text jsonb_eq time_text sha256_hex hmac_hex cell_text s now run o rows gold staging lineage catalog db
    = Ok (out, db') → step db [] db'.
Proof.
  unfold mark_prepared. destruct (negb _); [done|]. intros (r & [Hr _]%locked_ok & H)%bind_ok.
  case_bool_decide as Hs; [injection H as <- <-; apply step_stay|]. destruct (_ || _) in H; [done|]. cbv zeta in H.
  destruct (_ || _) in H; [done|]. apply bind_ok in H as (db1 & Hdb1 & H).
  assert (Hcore : same_core db db1).
  { destruct (bool_decide (s_layer (r_scope r) = "gold")) in Hdb1; [by eapply close_stage_core|]. injection Hdb1 as <-.
    apply same_core_refl. }
  set (c := claim_of run r o rows lineage catalog) in *.
  destruct (latest _) as [[id a]|] eqn:El in H; [|done]. destruct (negb _) in H; [done|]. injection H as <- <-.
  apply latest_elem, elem_of_List_filter in El as [Hin (Hsp & Hc & Hi)%backs_speaks].
  apply elem_of_map_to_list in Hin. by eapply (step_prepare db db1 now run r c id a gold staging).
Qed.

Lemma publish_gold_core r db db' : publish_gold sha256_hex md5_hex cell_text r db = Ok db' → same_core db db'.
Proof.
  unfold publish_gold. destruct (r_staging_table r) as [stage|]; [|done]. destruct (stages db !! stage) as [t|]; [|done].
  destruct (negb _); [done|]. intros (name & _ & H)%bind_ok. cbv zeta in H. destruct (existsb _ _) in H; [done|].
  apply bind_ok in H as (columns & _ & H).
  destruct (bool_decide _); [done|]. injection H as <-. by repeat split.
Qed.

(** What a first publication requires, and its effect. *)
Lemma publish_cases s now fresh run expected db p db' :
  publish_materialization jsonb_text jsonb_eq time_text sha256_hex hmac_hex md5_hex cell_text s now fresh run expected db
    = Ok (p, db') →
  (∃ rc, receipts db !! run = Some rc ∧ p = mkPublication (rc_id rc) (rc_generation rc) true ∧ db' = db)
  ∨ ∃ r o rows db1, visible_run s run db = Some r ∧ r_object r = Some o ∧ r_row_count r = Some rows
      ∧ expected = r_expected_head r ∧ same_core db db1
      ∧ p = mkPublication fresh (default 0 (h_generation <$> heads db !! r_scope r) + 1) false
      ∧ step db [Published (r_scope r) run o rows (r_expected_head r) (p_generation p)] db'.
Proof.
  unfold publish_materialization. intros (r & Hl & H)%bind_ok. pose proof (locked_ok _ _ _ _ Hl) as [Hr _].
  assert (Hv : visible_run s run db = Some r).
  { unfold locked_run in Hl. destruct (visible_run s run db); [by injection Hl as ->|done]. }
  destruct (receipts db !! run) as [rc|] eqn:Hrc; [injection H as <- <-; left; by exists rc|right].
  destruct (r_object r) as [o|] eqn:Ho; [|done]. destruct (r_schema_digest r) as [schema|] eqn:Hsd; [|done].
  destruct (r_evidence_digest r) as [digest|] eqn:Hed; [|done]. destruct (r_row_count r) as [rows|] eqn:Hrows; [|done].
  destruct (bool_decide (r_status r = "prepared")) eqn:Es; [|done]. apply bool_decide_eq_true in Es. cbn [negb] in H.
  destruct (bool_decide (expected = r_expected_head r)) eqn:Ee; [|done]. apply bool_decide_eq_true in Ee. cbn [negb] in H.
  destruct (authorized _ _ _ _ _ _ _ _ _ _ _ _ _) eqn:Ha in H; [|done]. cbn [negb] in H. cbv zeta in H.
  destruct (bool_decide (h_run <$> _ = _)) eqn:Eh in H; [|done]. apply bool_decide_eq_true in Eh. cbn [negb] in H.
  apply bind_ok in H as (db1 & Hdb1 & H). destruct (negb _) in H; [done|]. destruct (existsb _ _) in H; [done|].
  injection H as <- <-.
  assert (Hcore : same_core db db1).
  { destruct (bool_decide (s_layer (r_scope r) = "gold")) in Hdb1; [by eapply publish_gold_core|]. injection Hdb1 as <-.
    apply same_core_refl. }
  exists r, o, rows, db1. do 6 (split; [done|]). by apply step_publish.
Qed.

Lemma spoken_for_receipt run db : spoken_for run db = false → receipts db !! run = None.
Proof. unfold spoken_for. intros [_ H]%orb_false_iff. apply bool_decide_eq_false in H. by apply eq_None_not_Some. Qed.

Lemma quarantine_step s now run reason db db' : quarantine_prepared s now run reason db = Ok db' → step db [] db'.
Proof.
  unfold quarantine_prepared. intros (r & [Hr _]%locked_ok & H)%bind_ok.
  destruct (bool_decide (r_status r = "prepared")) eqn:Es; [|done]. apply bool_decide_eq_true in Es. cbn [negb] in H.
  destruct (spoken_for run db) eqn:Esp; [done|]. apply spoken_for_receipt in Esp.
  destruct (evidence db !! run) as [e|]; [|done]. injection H as <-. by eapply step_quarantine.
Qed.

Lemma abandon_step s now run db db' : abandon_materialization s now run db = Ok db' → step db [] db'.
Proof.
  unfold abandon_materialization. intros (r & [Hr _]%locked_ok & H)%bind_ok.
  destruct (mem _ _) eqn:Em; [injection H as <-; apply step_stay|]. apply mem_false in Em.
  destruct (existsb _ _); [done|]. injection H as <-. by apply step_abandon.
Qed.

Lemma reopen_step s now run reason db ro db' :
  reopen_prepared_materialization s now run reason db = Ok (ro, db') → step db [] db'.
Proof.
  unfold reopen_prepared_materialization. intros (r & [Hr _]%locked_ok & H)%bind_ok.
  destruct (bool_decide (r_status r = "prepared")) eqn:Es; [|done]. apply bool_decide_eq_true in Es. cbn [negb] in H.
  destruct (spoken_for run db) eqn:Esp; [done|]. apply spoken_for_receipt in Esp.
  destruct (evidence db !! run) as [e|]; [|done]. destruct (_ || _) in H; [done|]. injection H as <- <-.
  by eapply step_reopen.
Qed.

Lemma publish_step s now fresh run expected db db' es :
  exec (Publish s now fresh run expected) db = (db', es) → step db es db'.
Proof.
  cbn [exec]. unfold outcome. destruct (publish_materialization _ _ _ _ _ _ _ _ _ _ _ _ _) as [[p db1]|] eqn:E.
  - apply publish_cases in E as [(rc & Hrc & -> & ->)|(r & o & rows & db2 & Hv & Ho & Hrows & -> & _ & -> & Hs)];
      cbn [p_replayed]; intros [= <- <-]; [apply step_stay|]. by rewrite Hv, Ho, Hrows.
  - intros [= <- <-]. apply step_stay.
Qed.

#[local] Hint Resolve step_stay reserve_step submit_step attest_step stage_step insert_step prepare_step quarantine_step
  abandon_step reopen_step : steps.

Lemma exec_step op db db' es : exec op db = (db', es) → step db es db'.
Proof.
  destruct op; [| | | | | |apply publish_step| | |]; cbn [exec]; unfold outcome, effect;
    match goal with |- (match ?r with _ => _ end) = _ → _ => destruct r as [y|] eqn:E end;
    try destruct y; intros [= <- <-]; eauto with steps.
Qed.

Lemma exec_all_steps ops db db' log : exec_all ops db = (db', log) → steps db log db'.
Proof.
  revert db log. induction ops as [|op ops IH]; intros db log; simpl.
  - intros [= <- <-]. constructor.
  - destruct (exec op db) as [db1 es] eqn:E1. destruct (exec_all ops db1) as [db2 es'] eqn:E2. intros [= <- <-].
    econstructor; [by eapply exec_step|by apply IH].
Qed.

(** ** What is published is final *)

(** The tables of the core after a step, in terms of those before. *)
Ltac core_of H := destruct H as (Eruns & Eheads & Ereceipts & Eevidence & Ecandidates & Eattestations).
Ltac core := repeat match goal with H : same_core _ _ |- _ => core_of H end.
Ltac core_rewrite :=
  cbn [runs heads receipts evidence candidates attestations set_run set_head set_receipt with_evidence with_candidates
       with_attestations add_event with_stages]; core;
  repeat match goal with
    | E : runs ?d = _ |- _ => rewrite E; clear E
    | E : heads ?d = _ |- _ => rewrite E; clear E
    | E : receipts ?d = _ |- _ => rewrite E; clear E
    | E : evidence ?d = _ |- _ => rewrite E; clear E
    | E : candidates ?d = _ |- _ => rewrite E; clear E
    | E : attestations ?d = _ |- _ => rewrite E; clear E
    end.

(** A published run keeps its row, its receipt, its evidence and its attestations. *)
Definition keeps_run (run : string) (db db' : Authority) : Prop :=
  runs db' !! run = runs db !! run ∧ receipts db' !! run = receipts db !! run ∧ evidence db' !! run = evidence db !! run
  ∧ ∀ id a, attestations db !! id = Some a → c_run (a_claim a) = run → attestations db' !! id = Some a.

Lemma invalidate_other now run (m : gmap string Attestation) id a :
  m !! id = Some a → c_run (a_claim a) ≠ run → invalidate_attestations now run m !! id = Some a.
Proof.
  intros Ha Hne. unfold invalidate_attestations. rewrite lookup_fmap, Ha. cbn [fmap option_fmap option_map].
  by rewrite bool_decide_eq_false_2.
Qed.

Definition settled (r : Run) : Prop := r_status r = "published" ∨ r_status r = "legacy_unverified".

Lemma keeps_run_other run k r (db db' : Authority) :
  k ≠ run → runs db' = <[k := r]> (runs db) → receipts db' !! run = receipts db !! run →
  evidence db' !! run = evidence db !! run →
  (∀ id a, attestations db !! id = Some a → c_run (a_claim a) = run → attestations db' !! id = Some a) → keeps_run run db db'.
Proof. intros Hk Hr Hrc He Ha. split; [by rewrite Hr, lookup_insert_ne|by split_and!]. Qed.

Lemma other_run (db : Authority) run r k v :
  runs db !! run = Some r → settled r → runs db !! k = Some v → ¬ settled v → k ≠ run.
Proof. intros Hr Hs Hv Hn ->. rewrite Hr in Hv. by injection Hv as <-. Qed.

Lemma not_settled (r : Run) (status : string) : r_status r = status → mem status ["published"; "legacy_unverified"] = false → ¬ settled r.
Proof. intros <- Hm [H|H]; by rewrite H in Hm. Qed.

(** A claim about a run that is published, or about a run that is none. *)
Definition claims_live (db : Authority) : Prop :=
  ∀ id a r, attestations db !! id = Some a → runs db !! c_run (a_claim a) = Some r → r_status r ≠ "legacy_unverified".

Lemma step_keeps db es db' run r :
  claims_live db → step db es db' → runs db !! run = Some r → settled r → keeps_run run db db'.
Proof.
  intros Hlive Hstep Hr Hset. pose proof (λ k v, other_run db run r k v Hr Hset) as Hother.
  assert (Hinv : ∀ now k id a, k ≠ run → attestations db !! id = Some a → c_run (a_claim a) = run →
    invalidate_attestations now k (attestations db) !! id = Some a) by (intros; apply invalidate_other; congruence).
  destruct Hstep as [db db' Hc|db k v Hk|db now k v Hk Hs|db fresh k v|db id k fresh a _ Hf|db id k|db db1 k v stage Hc Hk Hs
    |db db1 now k v c id a gold staging Hc Hk Hs Ha Hsp _ _ Hrun|db db1 now fresh k v o schema digest rows Hc Hk _ Hs
    |db now k v reason ev st Hk Hs|db now k v st Hk Hs|db now k v reason expire ev Hk Hs].
  - core. unfold keeps_run. rewrite Eruns, Ereceipts, Eevidence, Eattestations. by split_and!.
  - apply (keeps_run_other _ k v); [congruence|done..].
  - assert (k ≠ run). { apply (Hother k v Hk). intros [E|E]; rewrite E in Hs; revert Hs; decide_now. }
    apply (keeps_run_other _ k (retried v)); try done. intros. by apply Hinv.
  - by split_and!.
  - split_and!; [done..|]. intros id' a' Ha' _. cbn. rewrite lookup_insert_ne; [done|congruence].
  - by split_and!.
  - assert (k ≠ run) by (eapply Hother; [exact Hk|by eapply not_settled]). core.
    apply (keeps_run_other _ k (with_stage stage v)); cbn; congruence.
  - assert (k ≠ run).
    { apply (Hother k v Hk). intros [E|E]; [done|]. destruct Hsp as [Hcr _]. apply (Hlive id a v Ha); [|done].
      by rewrite Hcr, Hrun. }
    core. apply (keeps_run_other _ k (prepared_run now v c gold staging)); cbn; [done|congruence..| |].
    + by rewrite lookup_insert_ne, Eevidence.
    + intros id' a' Ha' Hc'. rewrite Eattestations, lookup_insert_ne; [done|]. intros ->. destruct Hsp as [Hcr _]. congruence.
  - assert (k ≠ run) by (eapply Hother; [exact Hk|by eapply not_settled]). core.
    apply (keeps_run_other _ k (published_run now v)); cbn; [done|congruence| |congruence|congruence].
    by rewrite lookup_insert_ne, Ereceipts.
  - assert (k ≠ run) by (eapply Hother; [exact Hk|by eapply not_settled]).
    apply (keeps_run_other _ k (quarantined reason v)); cbn; [done..|by rewrite lookup_delete_ne|]. intros. by apply Hinv.
  - assert (k ≠ run). { apply (Hother k v Hk). intros [E|E]; rewrite E in Hs; revert Hs; decide_now. }
    apply (keeps_run_other _ k (abandoned v)); cbn; [done..|]. intros. by apply Hinv.
  - assert (k ≠ run) by (eapply Hother; [exact Hk|by eapply not_settled]).
    apply (keeps_run_other _ k (reopened reason v)); cbn; [done..|by rewrite lookup_delete_ne|]. intros. by apply Hinv.
Qed.

(** ** The consistency of the tables *)

(** A claim that a candidate or an attestation makes. *)
Definition claimed (db : Authority) (c : Claim) : Prop :=
  (∃ id k, candidates db !! id = Some k ∧ k_claim k = c) ∨ (∃ id a, attestations db !! id = Some a ∧ a_claim a = c).

(** A published run with its receipt, its evidence and the attestation of it. *)
Definition backed (db : Authority) (run : string) (r : Run) (rc : Receipt) : Prop :=
  r_status r = "published" ∧ rc_scope rc = r_scope r ∧ rc_input_digest rc = r_input_digest r
  ∧ rc_contract_digest rc = r_contract_digest r ∧ r_schema_digest r = Some (rc_schema_digest rc)
  ∧ r_evidence_digest r = Some (rc_evidence_digest rc)
  ∧ ∃ o rows e id a, r_object r = Some o ∧ r_row_count r = Some rows
      ∧ rc_object_checksum rc = o_checksum o ∧ rc_object_version rc = o_version o ∧ rc_row_count rc = rows
      ∧ evidence db !! run = Some e ∧ e_scope e = r_scope r ∧ e_object e = o ∧ e_row_count e = rows
      ∧ e_schema_digest e = rc_schema_digest rc ∧ e_evidence_digest e = rc_evidence_digest rc
      ∧ e_attestation e = Some id ∧ attestations db !! id = Some a
      ∧ c_run (a_claim a) = run ∧ c_scope (a_claim a) = r_scope r ∧ c_object (a_claim a) = o
      ∧ c_row_count (a_claim a) = rows ∧ c_input_digest (a_claim a) = r_input_digest r
      ∧ c_contract_digest (a_claim a) = r_contract_digest r ∧ is_Some (a_consumed a).

Record consistent (db : Authority) : Prop := {
  cn_claims : ∀ c, claimed db c → ∃ r, runs db !! c_run c = Some r ∧ r_status r ≠ "legacy_unverified";
  cn_heads : ∀ x h, heads db !! x = Some h →
    ∃ r, runs db !! h_run h = Some r ∧ r_scope r = x
      ∧ (r_status r = "legacy_unverified"
         ∨ r_status r = "published" ∧ ∃ rc, receipts db !! h_run h = Some rc ∧ rc_generation rc = h_generation h);
  cn_receipts : ∀ run rc, receipts db !! run = Some rc → ∃ r, runs db !! run = Some r ∧ backed db run r rc;
  cn_published : ∀ run r, runs db !! run = Some r → r_status r = "published" → is_Some (receipts db !! run) }.

Lemma consistent_live db : consistent db → claims_live db.
Proof.
  intros Hc id a r Ha Hr. destruct (cn_claims db Hc (a_claim a)) as (r' & Hr' & Hs); [by right; exists id, a|]. congruence.
Qed.

Lemma backed_keeps db db' run r rc : keeps_run run db db' → backed db run r rc → backed db' run r rc.
Proof.
  intros (_ & _ & He & Ha) (Hs & H1 & H2 & H3 & Hsd & Hed & o & rows & e & id & a & H4 & H5 & H6 & H7 & H8 & H9 & H10 & H11 & H12 & H13 & H14
    & H15 & H16 & H17 & H18). do 6 (split; [done|]). exists o, rows, e, id, a. rewrite He. specialize (Ha id a H16 H17).
  do 12 (split; [done|]). by split.
Qed.

Lemma authorized_backed now run r o rows schema digest db :
  authorized jsonb_text jsonb_eq time_text sha256_hex hmac_hex now run r o rows schema digest db = true →
  ∃ e id a, evidence db !! run = Some e ∧ e_scope e = r_scope r ∧ e_object e = o ∧ e_row_count e = rows
    ∧ e_schema_digest e = schema ∧ e_evidence_digest e = digest ∧ e_attestation e = Some id
    ∧ attestations db !! id = Some a ∧ c_run (a_claim a) = run ∧ c_scope (a_claim a) = r_scope r
    ∧ c_object (a_claim a) = o ∧ c_row_count (a_claim a) = rows ∧ c_input_digest (a_claim a) = r_input_digest r
    ∧ c_contract_digest (a_claim a) = r_contract_digest r ∧ is_Some (a_consumed a)
    ∧ c_schema_digest (a_claim a) = schema ∧ jsonb_eq (c_catalog (a_claim a)) (e_catalog e) = true.
Proof.
  unfold authorized. destruct (evidence db !! run) as [e|]; [|done].
  destruct (e_attestation e) as [id|] eqn:Eid; [|by rewrite andb_false_r].
  destruct (attestations db !! id) as [a|] eqn:Ea; [|by rewrite andb_false_r]. cbv zeta.
  rewrite !andb_true_iff, !bool_decide_eq_true, !Z.eqb_eq. intros H. decompose [and] H. clear H. exists e, id, a. subst.
  split_and!; congruence.
Qed.

(** A step does not make a run a legacy one, nor forget it. *)
Lemma step_not_legacy db es db' k r :
  step db es db' → runs db !! k = Some r → r_status r ≠ "legacy_unverified" →
  ∃ r', runs db' !! k = Some r' ∧ r_status r' ≠ "legacy_unverified".
Proof.
  assert (Hins : ∀ (m : gmap string Run) k' v, m !! k = Some r → r_status r ≠ "legacy_unverified" →
    r_status v ≠ "legacy_unverified" → ∃ r', <[k':=v]> m !! k = Some r' ∧ r_status r' ≠ "legacy_unverified").
  { intros m k' v Hm Hr Hv. destruct (decide (k' = k)) as [->|]; [exists v; by rewrite lookup_insert_eq|].
    exists r. by rewrite lookup_insert_ne. }
  intros Hstep Hk Hr.
  destruct Hstep as [db db' Hc|db k' v Hn Hs|db now k' v Hk' Hs|db fresh k' v|db id k' fresh a _ Hf|db id k'
    |db db1 k' v stage Hc Hk' Hs|db db1 now k' v c id a gold staging Hc Hk' Hs|db db1 now fresh k' v o schema digest rows Hc Hk' _ Hs
    |db now k' v reason ev st Hk' Hs|db now k' v st Hk' Hs|db now k' v reason expire ev Hk' Hs];
    cbn [runs set_run set_head set_receipt with_evidence with_candidates with_attestations add_event with_stages];
    core; rewrite ?Eruns; try (by exists r); apply Hins; try done; try by rewrite Hs.
  - cbn. by rewrite Hs.
  - unfold abandoned. cbn. by destruct (r_recovery_reason v).
Qed.

(** A run keeps its scope and its digests. *)
Definition same_identity (r r' : Run) : Prop :=
  r_scope r' = r_scope r ∧ r_input_digest r' = r_input_digest r ∧ r_contract_digest r' = r_contract_digest r.

Lemma step_same_identity db es db' k r :
  step db es db' → runs db !! k = Some r → ∃ r', runs db' !! k = Some r' ∧ same_identity r r'.
Proof.
  assert (Hins : ∀ (m : gmap string Run) k' v v', m !! k = Some r → m !! k' = Some v' → same_identity v' v →
    ∃ r', <[k':=v]> m !! k = Some r' ∧ same_identity r r').
  { intros m k' v v' Hm Hv Hs. destruct (decide (k' = k)) as [->|]; [exists v; rewrite lookup_insert_eq; split; [done|congruence]|].
    exists r. rewrite lookup_insert_ne by done. split; [done|]. by split_and!. }
  intros Hstep Hk.
  destruct Hstep as [db db' Hc|db k' v Hn Hs|db now k' v Hk' Hs|db fresh k' v|db id k' fresh a _ Hf|db id k'
    |db db1 k' v stage Hc Hk' Hs|db db1 now k' v c id a gold staging Hc Hk' Hs|db db1 now fresh k' v o schema digest rows Hc Hk' _ Hs
    |db now k' v reason ev st Hk' Hs|db now k' v st Hk' Hs|db now k' v reason expire ev Hk' Hs];
    cbn [runs set_run set_head set_receipt with_evidence with_candidates with_attestations add_event with_stages];
    core; rewrite ?Eruns; try (exists r; split; [done|by split_and!]); try (eapply Hins; [done..|by split_and!]).
  exists r. rewrite lookup_insert_ne by (intros ->; congruence). split; [done|by split_and!].
Qed.

Lemma steps_same_identity db log db' k r :
  steps db log db' → runs db !! k = Some r → ∃ r', runs db' !! k = Some r' ∧ same_identity r r'.
Proof.
  intros H. revert r. induction H as [db|db es db1 es' db2 Hs Hss IH]; intros r Hr; [exists r; split; [done|by split_and!]|].
  destruct (step_same_identity _ _ _ _ _ Hs Hr) as (r1 & Hr1 & E1 & E2 & E3). destruct (IH r1 Hr1) as (r2 & Hr2 & F1 & F2 & F3).
  exists r2. split; [done|]. split_and!; congruence.
Qed.

(** The row of a receipt. *)
Definition receipt_of (fresh : string) (r : Run) (o : Object) (schema digest : string) (rows generation : Z) : Receipt :=
  mkReceipt fresh (r_scope r) (r_input_digest r) (r_contract_digest r) (o_checksum o) (o_version o) schema digest rows generation.

Definition next_generation (db : Authority) (r : Run) : Z := default 0 (h_generation <$> heads db !! r_scope r) + 1.

(** A step that publishes a run. *)
Definition publishes (db : Authority) (es : list event) (db' : Authority) : Prop :=
  ∃ now fresh run r o schema digest rows,
    runs db !! run = Some r ∧ receipts db !! run = None ∧ r_status r = "prepared" ∧ r_object r = Some o
    ∧ r_row_count r = Some rows ∧ r_schema_digest r = Some schema ∧ r_evidence_digest r = Some digest
    ∧ authorized jsonb_text jsonb_eq time_text sha256_hex hmac_hex now run r o rows schema digest db = true
    ∧ h_run <$> heads db !! r_scope r = r_expected_head r
    ∧ es = [Published (r_scope r) run o rows (r_expected_head r) (next_generation db r)]
    ∧ runs db' = <[run := published_run now r]> (runs db)
    ∧ heads db' = <[r_scope r := mkHead run (next_generation db r) now]> (heads db)
    ∧ receipts db' = <[run := receipt_of fresh r o schema digest rows (next_generation db r)]> (receipts db)
    ∧ evidence db' = evidence db ∧ candidates db' = candidates db ∧ attestations db' = attestations db.

(** A step that does not. *)
Definition publishes_nothing (db : Authority) (es : list event) (db' : Authority) : Prop :=
  heads db' = heads db ∧ receipts db' = receipts db ∧ published_runs es = [] ∧ (∀ x, published_in x es = [])
  ∧ ∀ run r, runs db' !! run = Some r → r_status r = "published" → runs db !! run = Some r.

Lemma insert_unpublished (m : gmap string Run) k v run r :
  r_status v ≠ "published" → <[k := v]> m !! run = Some r → r_status r = "published" → m !! run = Some r.
Proof.
  intros Hv. destruct (decide (k = run)) as [->|]; [|by rewrite lookup_insert_ne]. rewrite lookup_insert_eq. by intros [= ->].
Qed.

Lemma step_publication db es db' : step db es db' → publishes db es db' ∨ publishes_nothing db es db'.
Proof.
  intros Hstep.
  destruct Hstep as [db db' Hc|db k v Hn Hs|db now k v Hk Hs|db fresh k v|db id k fresh a _ Hf|db id k
    |db db1 k v stage Hc Hk Hs|db db1 now k v c id a gold staging Hc Hk Hs|db db1 now fresh k v o schema digest rows Hc Hk Hrc Hs Ho
      Hsd Hed Hrows Hau Hh generation
    |db now k v reason ev st Hk Hs|db now k v st Hk Hs|db now k v reason expire ev Hk Hs];
    [right|right|right|right|right|right|right|right|left|right|right|right];
    [..|unfold publishes_nothing|unfold publishes_nothing|unfold publishes_nothing]; try unfold publishes_nothing; core.
  all: try (exists now, fresh, k, v, o, schema, digest, rows; unfold generation in *; cbn;
    rewrite Eruns, Eheads, Ereceipts; by split_and!).
  all: cbn; rewrite ?Eruns, ?Eheads, ?Ereceipts; split_and!; try done; intros run' r'; apply insert_unpublished; cbn; try congruence.
  by destruct (r_recovery_reason v).
Qed.

Lemma publishes_backed db db' now fresh run r o schema digest rows :
  authorized jsonb_text jsonb_eq time_text sha256_hex hmac_hex now run r o rows schema digest db = true →
  r_object r = Some o → r_row_count r = Some rows → r_schema_digest r = Some schema → r_evidence_digest r = Some digest →
  evidence db' = evidence db → attestations db' = attestations db →
  backed db' run (published_run now r) (receipt_of fresh r o schema digest rows (next_generation db r)).
Proof.
  intros (e & id & a & He & E1 & E2 & E3 & E4 & E5 & E6 & Ha & E7 & E8 & E9 & E10 & E11 & E12 & E13 & _)%authorized_backed
    Ho Hrows Hsd Hed Hev Hat. do 4 (split; [reflexivity|]). do 2 (split; [done|]). exists o, rows, e, id, a. rewrite Hev, Hat. by split_and!.
Qed.

(** The digest of the schema of a claim is that of its columns. *)
Definition digested (c : Claim) : Prop := c_schema_digest c = sha256_hex (utf8 (jsonb_text (c_catalog c))).

(** Claims are made only of runs that are reserved, of an object that is checked,
    with the digest of their columns. *)
Lemma step_claims db es db' c :
  step db es db' → claimed db' c →
  claimed db c ∨ object_ok (c_object c) = true ∧ digested c ∧ ∃ r, runs db !! c_run c = Some r ∧ r_status r = "reserved".
Proof.
  intros Hstep Hc.
  assert (Hcand : ∀ db, (∃ id k, candidates db !! id = Some k ∧ k_claim k = c) → claimed db c) by (intros ??; by left).
  assert (Hatt : ∀ db, (∃ id a, attestations db !! id = Some a ∧ a_claim a = c) → claimed db c) by (intros ??; by right).
  assert (Hinv : ∀ db now run, (∃ id a, invalidate_attestations now run (attestations db) !! id = Some a ∧ a_claim a = c) →
    claimed db c).
  { intros d now run (id & a & Ha & Hca). right. unfold invalidate_attestations in Ha. rewrite lookup_fmap in Ha.
    destruct (attestations d !! id) as [a'|] eqn:E; [|done]. exists id, a'. split; [done|]. injection Ha as <-.
    by destruct (bool_decide _). }
  assert (Hexp : ∀ db p, (∃ id k, expire_candidates p (candidates db) !! id = Some k ∧ k_claim k = c) → claimed db c).
  { intros d p (id & k & Hk & Hck). left. unfold expire_candidates in Hk. rewrite lookup_fmap in Hk.
    destruct (candidates d !! id) as [k'|] eqn:E; [|done]. exists id, k'. split; [done|]. injection Hk as <-. by destruct (p k'). }
  destruct Hstep as [db db' Hco|db k v Hn Hs|db now k v Hk Hs|db fresh k v o rows lineage catalog digest expires expire Hk Hs Hfr Hob
    |db id k fresh a Hk Hf Ea|db id k Hk
    |db db1 k v stage Hco Hk Hs|db db1 now k v d id a gold staging Hco Hk Hs Ha|db db1 now fresh k v o schema digest rows Hco
    |db now k v reason ev st Hk Hs|db now k v st Hk Hs|db now k v reason expire ev Hk Hs];
    destruct Hc as [(i & q & Hi & Hq)|(i & q & Hi & Hq)]; cbn in Hi; core; rewrite ?Ecandidates, ?Eattestations in Hi; eauto 6.
  - destruct (decide (fresh = i)) as [->|].
    + rewrite lookup_insert_eq in Hi. injection Hi as <-. cbn in Hq. subst c. right. do 2 (split; [done|]). by exists v.
    + rewrite lookup_insert_ne in Hi by done. eauto 6.
  - destruct (decide (id = i)) as [->|]; [|rewrite lookup_insert_ne in Hi by done; eauto 6].
    rewrite lookup_insert_eq in Hi. injection Hi as <-. left. apply Hcand. by exists i, k.
  - destruct (decide (fresh = i)) as [->|]; [|rewrite lookup_insert_ne in Hi by done; eauto 6].
    rewrite lookup_insert_eq in Hi. injection Hi as <-. left. apply Hcand. exists id, k. split; [done|congruence].
  - destruct (decide (id = i)) as [->|]; [|rewrite lookup_insert_ne in Hi by done; eauto 6].
    rewrite lookup_insert_eq in Hi. injection Hi as <-. left. apply Hcand. by exists i, k.
  - destruct (decide (id = i)) as [->|]; [|rewrite lookup_insert_ne in Hi by done; eauto 6].
    rewrite lookup_insert_eq in Hi. injection Hi as <-. left. apply Hatt. by exists i, a.
Qed.

Lemma step_consistent db es db' : consistent db → step db es db' → consistent db'.
Proof.
  intros Hcon Hstep. pose proof (consistent_live db Hcon) as Hlive.
  pose proof (λ run r Hr Hset, step_keeps db es db' run r Hlive Hstep Hr Hset) as Hkeep.
  assert (Hclaims : ∀ c, claimed db' c → ∃ r, runs db' !! c_run c = Some r ∧ r_status r ≠ "legacy_unverified").
  { intros c Hc. apply (step_claims _ _ _ _ Hstep) in Hc as [Hc|(_ & _ & r & Hr & Hs)].
    - destruct (cn_claims db Hcon c Hc) as (r & Hr & Hs). by eapply step_not_legacy.
    - eapply step_not_legacy; [done..|by rewrite Hs]. }
  assert (Holdheads : ∀ x h, heads db !! x = Some h → ∃ r, runs db' !! h_run h = Some r ∧ r_scope r = x
    ∧ (r_status r = "legacy_unverified"
       ∨ r_status r = "published" ∧ ∃ rc, receipts db' !! h_run h = Some rc ∧ rc_generation rc = h_generation h)).
  { intros x h Hh. destruct (cn_heads db Hcon x h Hh) as (r & Hr & Hx & Hcase).
    assert (Hset : settled r) by (destruct Hcase as [?|[? _]]; [by right|by left]).
    destruct (Hkeep _ _ Hr Hset) as (K1 & K2 & _). exists r. by rewrite K1, K2. }
  assert (Holdrc : ∀ run rc, receipts db !! run = Some rc → ∃ r, runs db' !! run = Some r ∧ backed db' run r rc).
  { intros run rc Hrc. destruct (cn_receipts db Hcon run rc Hrc) as (r & Hr & Hb). pose proof Hb as [Hs _].
    pose proof (Hkeep _ _ Hr (or_introl Hs)) as K. exists r. split; [by destruct K as [-> _]|by eapply backed_keeps]. }
  destruct (step_publication _ _ _ Hstep) as [(now & fresh & run & r & o & schema & digest & rows & Hr & Hnrc & Hs & Ho & Hrows & Hsd & Hed
    & Hau & Hh & _ & Eruns & Eheads & Erc & Eev & Ecand & Eatt)|(Eheads & Erc & _ & _ & Hpub)].
  - assert (Hb := publishes_backed db db' now fresh run r o schema digest rows Hau Ho Hrows Hsd Hed Eev Eatt).
    assert (Hrun : runs db' !! run = Some (published_run now r)) by by rewrite Eruns, lookup_insert_eq.
    split; [exact Hclaims|..].
    + intros x h. rewrite Eheads. destruct (decide (r_scope r = x)) as [<-|]; [|rewrite lookup_insert_ne by done; apply Holdheads].
      rewrite lookup_insert_eq. intros [= <-]. exists (published_run now r). do 2 (split; [done|]). right. split; [done|].
      rewrite Erc. cbn [h_run]. rewrite lookup_insert_eq. by eexists.
    + intros run' rc. rewrite Erc. destruct (decide (run = run')) as [<-|]; [|rewrite lookup_insert_ne by done; apply Holdrc].
      rewrite lookup_insert_eq. intros [= <-]. by exists (published_run now r).
    + intros run' r'. rewrite Eruns, Erc. destruct (decide (run = run')) as [<-|].
      { intros _ _. rewrite lookup_insert_eq. by eexists. }
      rewrite !lookup_insert_ne by done. apply (cn_published db Hcon).
  - split; [exact Hclaims|..].
    + intros x h. rewrite Eheads. apply Holdheads.
    + intros run rc. rewrite Erc. apply Holdrc.
    + intros run r Hr Hs. rewrite Erc. exact (cn_published db Hcon run r (Hpub run r Hr Hs) Hs).
Qed.

Lemma steps_consistent db log db' : consistent db → steps db log db' → consistent db'.
Proof. intros Hc. induction 1; [done|]. eauto using step_consistent. Qed.

(** ** Logs *)

Lemma step_events db es db' : step db es db' → es = [] ∨ ∃ e, es = [e].
Proof. destruct 1; eauto. Qed.

(** The step that reports an event, between the steps before and after. *)
Lemma steps_at l1 e l2 db db' :
  steps db (l1 ++ e :: l2) db' → ∃ db1 db2, steps db l1 db1 ∧ step db1 [e] db2 ∧ steps db2 l2 db'.
Proof.
  intros H. remember (l1 ++ e :: l2) as l eqn:El. revert l1 El.
  induction H as [db|db es db1 es' db2 Hs Hss IH]; intros l1 El; [by destruct l1|].
  destruct (step_events _ _ _ Hs) as [->|[e' ->]]; cbn in El.
  - destruct (IH l1 El) as (d1 & d2 & H1 & H2 & H3). exists d1, d2. split; [|done]. by apply (steps_more db [] db1 l1 d1).
  - destruct l1 as [|e1 l1]; injection El as -> El.
    + subst es'. exists db, db1. split; [constructor|done].
    + destruct (IH l1 El) as (d1 & d2 & H1 & H2 & H3). exists d1, d2. split; [|done].
      by apply (steps_more db [e1] db1 l1 d1).
Qed.

Lemma steps_at_in e log db db' :
  steps db log db' → e ∈ log → ∃ l1 l2 db1 db2, log = l1 ++ e :: l2 ∧ steps db l1 db1 ∧ step db1 [e] db2 ∧ steps db2 l2 db'.
Proof. intros H (l1 & l2 & ->)%list_elem_of_split. apply steps_at in H as (d1 & d2 & H). by exists l1, l2, d1, d2. Qed.

Lemma published_runs_app l l' : published_runs (l ++ l') = published_runs l ++ published_runs l'.
Proof. apply omap_app. Qed.

Lemma published_in_app x l l' : published_in x (l ++ l') = published_in x l ++ published_in x l'.
Proof. apply omap_app. Qed.

Lemma elem_published run log :
  run ∈ published_runs log → ∃ x o rows previous generation, Published x run o rows previous generation ∈ log.
Proof.
  unfold published_runs. rewrite list_elem_of_omap. intros ([c|x run' o rows prev g] & Hin & [= ->]). by exists x, o, rows, prev, g.
Qed.

(** A published event is the publication of its run. *)
Lemma step_published db x run o rows previous generation db' :
  step db [Published x run o rows previous generation] db' →
  ∃ now fresh r schema digest,
    runs db !! run = Some r ∧ receipts db !! run = None ∧ r_status r = "prepared" ∧ r_scope r = x ∧ r_object r = Some o
    ∧ r_row_count r = Some rows
    ∧ authorized jsonb_text jsonb_eq time_text sha256_hex hmac_hex now run r o rows schema digest db = true
    ∧ runs db' !! run = Some (published_run now r)
    ∧ receipts db' !! run = Some (receipt_of fresh r o schema digest rows generation)
    ∧ r_schema_digest r = Some schema ∧ evidence db' = evidence db.
Proof.
  intros [(now & fresh & run' & r & o' & schema & digest & rows' & Hr & Hrc & Hs & Ho & Hrows & Hsd & _ & Hau & _ & E & Eruns & _ & Erc
    & Eev & _)|(_ & _ & E & _)]%step_publication; [|done].
  injection E as -> -> -> -> _ ->. exists now, fresh, r, schema, digest. rewrite Eruns, Erc, !lookup_insert_eq. by split_and!.
Qed.

(** *** The registers *)

Lemma step_register db es db' x :
  step db es db' → register_run (register_of (heads db !! x)) (published_in x es) (register_of (heads db' !! x)).
Proof.
  intros [(now & fresh & run & r & o & schema & digest & rows & _ & _ & _ & _ & _ & _ & _ & _ & Hh & -> & _ & -> & _)
    |(-> & _ & _ & E & _)]%step_publication; [|rewrite E; constructor].
  unfold published_in. cbn [omap list_omap]. destruct (decide (r_scope r = x)) as [<-|]; [|rewrite lookup_insert_ne by done; constructor].
  rewrite lookup_insert_eq. unfold register_of at 2. cbn [fmap option_fmap option_map h_run h_generation].
  rewrite <- Hh. unfold next_generation. destruct (heads db !! r_scope r) as [h|];
    unfold register_of; cbn [fmap option_fmap option_map from_option default]; [|apply (reg_cas None); constructor].
  apply (reg_cas (Some (h_run h, h_generation h))). constructor.
Qed.

Lemma steps_register db log db' x :
  steps db log db' → register_run (register_of (heads db !! x)) (published_in x log) (register_of (heads db' !! x)).
Proof.
  induction 1 as [|db es db1 es' db2 Hs Hss IH]; [constructor|]. rewrite published_in_app. eapply register_run_app; [|exact IH].
  by apply step_register.
Qed.

(** *** Published runs *)

Lemma keeps_run_trans run db db1 db2 : keeps_run run db db1 → keeps_run run db1 db2 → keeps_run run db db2.
Proof.
  intros (H1 & H2 & H3 & H4) (K1 & K2 & K3 & K4). repeat split; [by rewrite K1|by rewrite K2|by rewrite K3|eauto].
Qed.

Lemma steps_keep db log db' run r :
  consistent db → steps db log db' → runs db !! run = Some r → settled r → keeps_run run db db'.
Proof.
  intros Hc Hs. revert Hc r. induction Hs as [db|db es db1 es' db2 Hs Hss IH]; intros Hc r Hr Hset; [by repeat split|].
  pose proof (step_keeps db es db1 run r (consistent_live db Hc) Hs Hr Hset) as K. eapply keeps_run_trans; [exact K|].
  apply (IH (step_consistent _ _ _ Hc Hs) r); [|done]. by destruct K as [-> _].
Qed.

(** A run that is settled is not published by a later step. *)
Lemma settled_unpublished db log db' run r :
  consistent db → steps db log db' → runs db !! run = Some r → settled r → run ∉ published_runs log.
Proof.
  intros Hc Hss Hr Hset (x & o & rows & prev & g & Hin)%elem_published.
  apply (steps_at_in _ _ _ _ Hss) in Hin as (l1 & l2 & d1 & d2 & _ & H1 & H2 & _).
  destruct (steps_keep _ _ _ _ _ Hc H1 Hr Hset) as [K _]. rewrite Hr in K.
  apply step_published in H2 as (now & fresh & r' & _ & _ & Hr' & _ & Hs & _). rewrite K in Hr'. injection Hr' as <-.
  destruct Hset as [E|E]; congruence.
Qed.

Lemma steps_published_once db log db' : consistent db → steps db log db' → NoDup (published_runs log).
Proof.
  intros Hc Hs. revert Hc. induction Hs as [db|db es db1 es' db2 Hs Hss IH]; intros Hc; [constructor|].
  pose proof (step_consistent _ _ _ Hc Hs) as Hc1. rewrite published_runs_app.
  destruct (step_events _ _ _ Hs) as [->|[e ->]]; [by apply IH|]. destruct e as [c|x run o rows prev g]; [by apply IH|].
  apply step_published in Hs as (now & fresh & r & _ & _ & _ & _ & _ & _ & _ & _ & _ & Hr & _).
  cbn [published_runs omap list_omap app]. constructor; [|by apply IH].
  eapply settled_unpublished; [exact Hc1|exact Hss|exact Hr|by left].
Qed.

Lemma published_after db log db' x run o rows previous generation :
  consistent db → steps db log db' → Published x run o rows previous generation ∈ log →
  ∃ r rc, runs db' !! run = Some r ∧ r_status r = "published" ∧ r_scope r = x ∧ r_object r = Some o ∧ r_row_count r = Some rows
    ∧ receipts db' !! run = Some rc ∧ rc_generation rc = generation ∧ rc_object_checksum rc = o_checksum o.
Proof.
  intros Hc Hss (l1 & l2 & d1 & d2 & _ & H1 & H2 & H3)%(steps_at_in _ _ _ _ Hss).
  pose proof (step_consistent _ _ _ (steps_consistent _ _ _ Hc H1) H2) as Hc2.
  apply step_published in H2 as (now & fresh & r & schema & digest & _ & _ & _ & Hx & Ho & Hrows & _ & Hr & Hrc & _).
  destruct (steps_keep _ _ _ _ _ Hc2 H3 Hr (or_introl eq_refl)) as (-> & -> & _).
  exists (published_run now r), (receipt_of fresh r o schema digest rows generation). by split_and!.
Qed.

Lemma published_fresh db log db' run :
  consistent db → steps db log db' → run ∈ published_runs log → ∀ x h, heads db !! x = Some h → h_run h ≠ run.
Proof.
  intros Hc Hss Hin x h Hh <-. destruct (cn_heads db Hc x h Hh) as (r & Hr & _ & Hcase).
  eapply settled_unpublished; [exact Hc|exact Hss|exact Hr| |exact Hin]. destruct Hcase as [?|[? _]]; [by right|by left].
Qed.

(** *** Attestations *)

Definition attested (db : Authority) (c : Claim) : Prop := ∃ id a, attestations db !! id = Some a ∧ a_claim a = c.

Lemma invalidated_attested now run (m : gmap string Attestation) id a c :
  invalidate_attestations now run m !! id = Some a → a_claim a = c → ∃ a', m !! id = Some a' ∧ a_claim a' = c.
Proof.
  unfold invalidate_attestations. rewrite lookup_fmap. destruct (m !! id) as [a'|]; [|done]. intros [= <-] <-. exists a'.
  split; [done|]. by destruct (bool_decide _).
Qed.

Lemma step_attested db es db' c : step db es db' → attested db' c → attested db c ∨ Attested c ∈ es.
Proof.
  unfold attested. intros Hstep (i & a' & Hi & Hc).
  destruct Hstep as [db db' Hco| |db now k v Hk Hs| |db id k fresh a Hk Hf Ea|db id k Hk|db db1 k v stage Hco|db db1 now k v d id a gold
    staging Hco Hk Hs Ha|db db1 now fresh k v o schema digest rows Hco| | |];
    cbn in Hi; core; rewrite ?Eattestations in Hi; try (by left; exists i, a');
    try (left; exists i; by eapply invalidated_attested).
  - destruct (decide (fresh = i)) as [->|]; [|rewrite lookup_insert_ne in Hi by done; left; by exists i, a'].
    rewrite lookup_insert_eq in Hi. injection Hi as <-. right. rewrite <- Hc, Ea. by left.
  - destruct (decide (id = i)) as [->|]; [|rewrite lookup_insert_ne in Hi by done; left; by exists i, a'].
    rewrite lookup_insert_eq in Hi. injection Hi as <-. left. by exists i, a.
Qed.

Lemma steps_attested db log db' c : steps db log db' → attested db' c → attested db c ∨ Attested c ∈ log.
Proof.
  induction 1 as [|db es db1 es' db2 Hs Hss IH]; [by left|]. intros [H|H]%IH; [|right; apply elem_of_app; by right].
  apply (step_attested _ _ _ _ Hs) in H as [H|H]; [by left|]. right. apply elem_of_app. by left.
Qed.

(** *** Candidates *)

Lemma expired_claim p (m : gmap string Candidate) id k :
  m !! id = Some k → ∃ k', expire_candidates p m !! id = Some k' ∧ k_claim k' = k_claim k.
Proof.
  intros Hk. unfold expire_candidates. rewrite lookup_fmap, Hk. eexists. split; [done|]. by destruct (p k).
Qed.

(** A candidate keeps its claim. *)
Lemma step_candidate db es db' id k :
  step db es db' → candidates db !! id = Some k → ∃ k', candidates db' !! id = Some k' ∧ k_claim k' = k_claim k.
Proof.
  intros Hstep Hk.
  destruct Hstep as [db db' Hco| | |db fresh run r o rows lineage catalog digest expires expire _ _ Hf _|db i j fresh a Hj
    |db i j Hj|db db1 run r stage Hco|db db1 now run r c i a gold staging Hco|db db1 now fresh run r o schema digest rows Hco
    | | |db now run r reason expire ev]; cbn; core; rewrite ?Ecandidates; try (by exists k).
  - rewrite lookup_insert_ne by (intros ->; congruence). by apply expired_claim.
  - destruct (decide (i = id)) as [->|]; [|rewrite lookup_insert_ne by done; by exists k].
    rewrite lookup_insert_eq. eexists. split; [done|]. by rewrite Hj in Hk; injection Hk as <-.
  - destruct (decide (i = id)) as [->|]; [|rewrite lookup_insert_ne by done; by exists k].
    rewrite lookup_insert_eq. eexists. split; [done|]. by rewrite Hj in Hk; injection Hk as <-.
  - by apply expired_claim.
Qed.

Lemma steps_candidate db log db' id k :
  steps db log db' → candidates db !! id = Some k → ∃ k', candidates db' !! id = Some k' ∧ k_claim k' = k_claim k.
Proof.
  intros H. revert k. induction H as [db|db es db1 es' db2 Hs Hss IH]; intros k Hk; [by exists k|].
  destruct (step_candidate _ _ _ _ _ Hs Hk) as (k1 & Hk1 & <-). by apply IH.
Qed.

(** The objects of the claims have been checked when they were submitted. *)
Definition claims_ok (db : Authority) : Prop := ∀ c, claimed db c → object_ok (c_object c) = true.

Lemma steps_claims_ok db log db' : steps db log db' → claims_ok db → claims_ok db'.
Proof.
  induction 1 as [|db es db1 es' db2 Hs _ IH]; [done|]. intros Hok. apply IH. intros c Hc.
  apply (step_claims _ _ _ _ Hs) in Hc as [Hc|[Ho _]]; auto.
Qed.

(** The digests of the schemas of the claims are those of their columns. *)
Definition claims_digested (db : Authority) : Prop := ∀ c, claimed db c → digested c.

Lemma steps_claims_digested db log db' : steps db log db' → claims_digested db → claims_digested db'.
Proof.
  induction 1 as [|db es db1 es' db2 Hs _ IH]; [done|]. intros Hok. apply IH. intros c Hc.
  apply (step_claims _ _ _ _ Hs) in Hc as [Hc|(_ & Hd & _)]; auto.
Qed.

(** An attestation is reported by the call that records it. *)
Lemma exec_attested op db db' es c :
  exec op db = (db', es) → Attested c ∈ es →
  ∃ verifier now fresh id k, op = Attest verifier now fresh id ∧ candidates db !! id = Some k ∧ k_claim k = c.
Proof.
  destruct op as [| |verifier now fresh id| | | |s now fresh run expected| | |]; cbn [exec]; unfold outcome, effect;
    match goal with |- (match ?r with _ => _ end) = _ → _ => destruct r as [y|] eqn:E end;
    try destruct y as [y db1]; intros [= <- <-]; try (by rewrite elem_of_nil).
  - destruct (pending now id db) as [k|] eqn:Ep; [|by rewrite elem_of_nil]. intros [= ->]%list_elem_of_singleton.
    exists verifier, now, fresh, id, k. split; [done|]. revert Ep. unfold pending.
    destruct (candidates db !! id) as [k'|]; [|done]. destruct (_ && _); [|done]. by intros [= <-].
  - destruct (p_replayed y); [by rewrite elem_of_nil|]. destruct (visible_run s run db) as [r|]; [|by rewrite elem_of_nil].
    destruct (r_object r) as [o|]; [|by rewrite elem_of_nil]. destruct (r_row_count r) as [rows|]; [|by rewrite elem_of_nil].
    by rewrite list_elem_of_singleton.
Qed.

(** What the authority holds of a run that is published for a claim: the row, the
    receipt and the evidence have the object, the rows and the schema of the claim,
    and the evidence has its columns. *)
Definition published_as (db : Authority) (run : string) (x : PublicationScope) (o : Object) (rows : Z) (c : Claim) : Prop :=
  c_run c = run ∧ c_scope c = x ∧ c_object c = o ∧ c_row_count c = rows ∧ digested c
  ∧ ∃ r rc e, runs db !! run = Some r ∧ r_status r = "published" ∧ r_scope r = x ∧ r_object r = Some o ∧ r_row_count r = Some rows
      ∧ r_schema_digest r = Some (c_schema_digest c)
      ∧ receipts db !! run = Some rc ∧ rc_object_checksum rc = o_checksum o ∧ rc_object_version rc = o_version o
      ∧ rc_row_count rc = rows ∧ rc_schema_digest rc = c_schema_digest c
      ∧ evidence db !! run = Some e ∧ e_object e = o ∧ e_row_count e = rows ∧ e_schema_digest e = c_schema_digest c
      ∧ jsonb_eq (c_catalog c) (e_catalog e) = true.

(** What is published was attested, unless it was before the log. *)
Lemma published_attested db0 l1 x run o rows previous generation l2 db :
  attestations db0 = ∅ → steps db0 (l1 ++ Published x run o rows previous generation :: l2) db →
  ∃ c, Attested c ∈ l1 ∧ c_run c = run ∧ c_scope c = x ∧ c_object c = o ∧ c_row_count c = rows
    ∧ (consistent db0 → claims_digested db0 → published_as db run x o rows c).
Proof.
  intros He (d1 & d2 & H1 & H2 & H3)%steps_at. pose proof H2 as Hstep.
  apply step_published in H2 as (now & fresh & r & schema & digest & Hr & _ & _ & <- & Hro & Hrr & Hau & Hr2 & Hrc2 & Hsd & Hev2).
  apply authorized_backed in Hau as (e & id & a & Hev & _ & Heo & Hen & Hes & _ & _ & Ha & Hrun & Hs & Ho & Hn & _ & _ & _ & Hcs & Hcat).
  exists (a_claim a). split; [|do 4 (split; [done|])].
  - destruct (steps_attested _ _ _ (a_claim a) H1) as [(i & a' & Ha' & _)|H]; [by exists id, a|by rewrite He in Ha'|done].
  - intros Hc Hd. pose proof (steps_consistent _ _ _ Hc H1) as Hc1.
    destruct (steps_keep _ _ _ _ _ (step_consistent _ _ _ Hc1 Hstep) H3 Hr2 (or_introl eq_refl)) as (K1 & K2 & K3 & _).
    assert (digested (a_claim a)) by (apply (steps_claims_digested _ _ _ H1 Hd); right; by exists id, a).
    do 5 (split; [done|]). exists (published_run now r), (receipt_of fresh r o schema digest rows generation), e.
    rewrite K1, K2, K3, Hr2, Hrc2, Hev2, Hev, Hcs. by split_and!.
Qed.

(** ** The theorems *)

(** C10: Over every sequence of calls of the authority by any sessions, from consistent
    tables, the head of each dataset is a register advanced by compare-and-set: each
    publication names the head it replaces and increments its generation.  No run is
    published twice or over a head it was before, and every publication has its run
    and its receipt afterwards, with that object, row count and generation. *)
Theorem heads_refine_registers ops db0 db log :
  consistent db0 → exec_all ops db0 = (db, log) →
  (∀ x, register_run (register_of (heads db0 !! x)) (published_in x log) (register_of (heads db !! x)))
  ∧ NoDup (published_runs log)
  ∧ (∀ run x h, run ∈ published_runs log → heads db0 !! x = Some h → h_run h ≠ run)
  ∧ ∀ x run o rows previous generation, Published x run o rows previous generation ∈ log →
      ∃ r rc, runs db !! run = Some r ∧ r_status r = "published" ∧ r_scope r = x ∧ r_object r = Some o ∧ r_row_count r = Some rows
        ∧ receipts db !! run = Some rc ∧ rc_generation rc = generation ∧ rc_object_checksum rc = o_checksum o.
Proof.
  intros Hc Hss%exec_all_steps. split_and!.
  - intros x. by apply steps_register.
  - by eapply steps_published_once.
  - intros run x h Hin. by eapply published_fresh.
  - intros x run o rows prev g. by eapply published_after.
Qed.

(** When no attestation is recorded yet, every run that is published was attested
    by the verifier before: for that run, its scope, its object and its row count. *)
Theorem published_was_attested ops db0 db l1 x run o rows previous generation l2 :
  attestations db0 = ∅ → exec_all ops db0 = (db, l1 ++ Published x run o rows previous generation :: l2) →
  ∃ c, Attested c ∈ l1 ∧ c_run c = run ∧ c_scope c = x ∧ c_object c = o ∧ c_row_count c = rows.
Proof.
  intros He Hx%exec_all_steps. destruct (published_attested _ _ _ _ _ _ _ _ _ _ He Hx) as (c & H1 & H2 & H3 & H4 & H5 & _).
  by exists c.
Qed.

(** C25: A published run keeps its row, its receipt, its evidence and its attestation
    whatever is called afterwards, and is not published again: publishing it once
    more returns the receipt it has and changes nothing. *)
Theorem publication_is_final ops db0 db log run r :
  consistent db0 → exec_all ops db0 = (db, log) → runs db0 !! run = Some r → r_status r = "published" →
  runs db !! run = Some r ∧ run ∉ published_runs log
  ∧ ∃ rc, receipts db0 !! run = Some rc ∧ backed db run r rc
      ∧ ∀ s now fresh expected, in_session s (r_scope r) = true →
          publish_materialization jsonb_text jsonb_eq time_text sha256_hex hmac_hex md5_hex cell_text s now fresh run expected db
            = Ok (mkPublication (rc_id rc) (rc_generation rc) true, db).
Proof.
  intros Hc Hss%exec_all_steps Hr Hs. pose proof (steps_keep _ _ _ _ _ Hc Hss Hr (or_introl Hs)) as K.
  pose proof K as (K1 & K2 & _). destruct (cn_published db0 Hc run r Hr Hs) as [rc Hrc].
  destruct (cn_receipts db0 Hc run rc Hrc) as (r' & Hr' & Hb). rewrite Hr in Hr'. injection Hr' as <-.
  split; [by rewrite K1|]. split; [eapply settled_unpublished; [exact Hc|exact Hss|exact Hr|by left]|].
  exists rc. split; [done|]. split; [by eapply backed_keeps|]. intros s now fresh expected Hin.
  unfold publish_materialization, locked_run, visible_run. by rewrite K1, Hr, Hin, K2, Hrc.
Qed.

(** C34: The tables stay consistent under every call: claims are of known runs, heads
    are of published runs (or legacy ones) with their generation, and receipts are
    backed by evidence and a consumed attestation of the same scope and object. *)
Theorem publications_stay_consistent ops db0 db log : consistent db0 → exec_all ops db0 = (db, log) → consistent db.
Proof. intros Hc Hss%exec_all_steps. by eapply steps_consistent. Qed.
End Safety.

(** ** A morning of publications *)

Module Morning.
Definition hex (c : ascii) : string := repeat_char 64 c.
Definition run_id (c : ascii) : string :=
  repeat_char 8 c +:+ "-" +:+ repeat_char 4 c +:+ "-" +:+ repeat_char 4 c +:+ "-" +:+ repeat_char 4 c +:+ "-" +:+ repeat_char 12 c.
Definition orders : PublicationScope := mkScope "t1" "w1" "orders" "silver".
Definition here : session := mkSession "t1" "w1".
Definition object (c : ascii) : Object :=
  mkObject ("s3://lake/silver/crm/orders/tenant_id=t1/workspace_id=w1/_pending/" +:+ repeat_char 32 c +:+ "/" +:+ hex c +:+ ".parquet")
    "v1" (hex c).
Definition lineage : pyval :=
  PDict (mkdict [("source_entity", PStr "orders"); ("source_load_date", PNone); ("source_batch_id", PStr "b1");
    ("sql_digest", PStr (hex "0")); ("column_mapping_digest", PStr (hex "0")); ("input_digest", PStr (hex "a"));
    ("contract_digest", PStr (hex "b"))]).
Definition catalog : pyval := PList [PDict (mkdict [("name", PStr "id"); ("type", PStr "BIGINT")])].

Definition jsonb_text (v : pyval) : string := "{}".
Definition jsonb_eq (v w : pyval) : bool := true.
Definition time_text (t : instant) : string := str_of_Z t.
Definition sha256_hex (s : string) : string := hex "5".
Definition hmac_hex (key s : string) : string := key.
Definition md5_hex (s : string) : string := repeat_char 32 "6".
Definition pg_type (s : string) : option string := Some s.
Definition store_cell (type : string) (v : pyval) : option pyval := Some v.
Definition cell_text (v : pyval) : option string := match v with PStr s => Some s | _ => None end.

Definition opened : Authority :=
  mkAuthority ∅ ∅ ∅ ∅ ∅ ∅ {[ "v1" := mkKey "k" None ]} [] ∅ ∅ ∅ ∅ ∅.

(** A run of the dataset up to its publication over the head it read. *)
Definition attempt (c : ascii) (now : instant) (expected : option string) : list call :=
  [Reserve here now (run_id c) orders (hex "a") (hex "b") expected;
   Submit here now ("c" +:+ run_id c) (run_id c) (object c) 7 lineage catalog;
   Attest true now ("a" +:+ run_id c) ("c" +:+ run_id c);
   Prepare here now (run_id c) (object c) 7 None None lineage catalog].
Definition publish (c : ascii) (now : instant) (expected : option string) : call :=
  Publish here now ("r" +:+ run_id c) (run_id c) expected.

(** The second and the third run are prepared over the first; the second is
    published and the third loses. *)
Definition calls : list call :=
  attempt "1" 10 None ++ [publish "1" 20 None]
  ++ attempt "2" 30 (Some (run_id "1")) ++ attempt "3" 40 (Some (run_id "1"))
  ++ [publish "2" 50 (Some (run_id "1")); publish "3" 60 (Some (run_id "1")); publish "1" 70 None;
      Quarantine here 80 (run_id "3") "head_cas_lost"; Abandon here 90 (run_id "2")].

Definition run_calls (ops : list call) (db : Authority) : Authority * list event :=
  exec_all jsonb_text jsonb_eq time_text sha256_hex hmac_hex md5_hex pg_type store_cell cell_text ops db.

Definition claim (c : ascii) : Claim :=
  mkClaim (run_id c) orders 1 (object c) 7 (hex "5") (hex "a") (hex "b") lineage catalog.

Lemma opened_consistent : consistent opened.
Proof. split; [intros c [(? & ? & H & _)|(? & ? & H & _)]; discriminate H|intros ?? H; discriminate H..]. Qed.

Definition morning_log : list event :=
  [Attested (claim "1"); Published orders (run_id "1") (object "1") 7 None 1; Attested (claim "2"); Attested (claim "3");
   Published orders (run_id "2") (object "2") 7 (Some (run_id "1")) 2].

Lemma morning_logged : (run_calls calls opened).2 = morning_log.
Proof. vm_compute. reflexivity. Qed.

Definition noon : Authority := (run_calls calls opened).1.

Lemma morning_ran : run_calls calls opened = (noon, morning_log).
Proof. rewrite <- morning_logged. apply surjective_pairing. Qed.

Definition first_published : Authority := (run_calls (take 5 calls) opened).1.
Definition first_run : option Run := runs first_published !! run_id "1".
Definition later_log : list event :=
  [Attested (claim "2"); Attested (claim "3");
   Published orders (run_id "2") (object "2") 7 (Some (run_id "1")) 2].

Lemma first_consistent : consistent first_published.
Proof.
  eapply steps_consistent; [exact opened_consistent|].
  apply (exec_all_steps jsonb_text jsonb_eq time_text sha256_hex hmac_hex md5_hex pg_type store_cell cell_text (take 5 calls)).
  unfold first_published, run_calls. apply surjective_pairing.
Qed.

Definition later : Authority := (run_calls (drop 5 calls) first_published).1.
Lemma later_ran : run_calls (drop 5 calls) first_published = (later, later_log).
Proof.
  assert ((run_calls (drop 5 calls) first_published).2 = later_log) as <- by (vm_compute; reflexivity). apply surjective_pairing.
Qed.

(** At noon the head is the second run, at generation 2. *)
Lemma heads_refine_registers_witness :
  register_run None [(None, run_id "1", 1); (Some (run_id "1"), run_id "2", 2)] (register_of (heads noon !! orders))
  ∧ register_of (heads noon !! orders) = Some (run_id "2", 2).
Proof.
  split; [|vm_compute; reflexivity].
  destruct (heads_refine_registers jsonb_text jsonb_eq time_text sha256_hex hmac_hex md5_hex pg_type store_cell cell_text calls opened
    noon morning_log opened_consistent morning_ran) as (H & _). exact (H orders).
Defined.

Lemma published_was_attested_witness :
  ∃ c, c ∈ [claim "1"; claim "2"; claim "3"] ∧ c_run c = run_id "2" ∧ c_object c = object "2" ∧ c_row_count c = 7.
Proof.
  destruct (published_was_attested jsonb_text jsonb_eq time_text sha256_hex hmac_hex md5_hex pg_type store_cell cell_text calls opened
    noon (take 4 morning_log) orders (run_id "2") (object "2") 7 (Some (run_id "1")) 2 [] eq_refl morning_ran)
    as (c & Hin & H1 & _ & H3 & H4).
  exists c. split; [|by split_and!]. cbn in Hin. rewrite !elem_of_cons, elem_of_nil in Hin. rewrite !elem_of_cons.
  naive_solver congruence.
Defined.

(** The run published first keeps its row, and publishing it again returns its receipt. *)
Lemma publication_is_final_witness :
  ∃ r, runs later !! run_id "1" = Some r ∧ r_status r = "published"
    ∧ publish_materialization jsonb_text jsonb_eq time_text sha256_hex hmac_hex md5_hex cell_text here 99 "x" (run_id "1") None
        later
      = Ok (mkPublication ("r" +:+ run_id "1") 1 true, later).
Proof.
  destruct first_run as [r|] eqn:Er; [|by vm_compute in Er]. assert (Hs : r_status r = "published").
  { vm_compute in Er. by injection Er as <-. }
  assert (Hin : in_session here (r_scope r) = true) by (vm_compute in Er; by injection Er as <-).
  destruct (publication_is_final jsonb_text jsonb_eq time_text sha256_hex hmac_hex md5_hex pg_type store_cell cell_text (drop 5 calls)
    first_published later later_log (run_id "1") r first_consistent later_ran Er Hs) as (H1 & _ & rc & Hrc & _ & H).
  exists r. split; [exact H1|]. split; [exact Hs|]. rewrite (H here 99 "x" None Hin).
  enough (rc_id rc = "r" +:+ run_id "1" ∧ rc_generation rc = 1) as [-> ->] by done.
  assert (E : (λ rc, (rc_id rc, rc_generation rc)) <$> receipts first_published !! run_id "1" = Some ("r" +:+ run_id "1", 1))
    by (vm_compute; reflexivity).
  rewrite Hrc in E. cbn [fmap option_fmap option_map] in E. injection E as H2 H3. by split.
Defined.

Lemma publications_stay_consistent_witness : consistent noon.
Proof.
  exact (publications_stay_consistent jsonb_text jsonb_eq time_text sha256_hex hmac_hex md5_hex pg_type store_cell cell_text calls opened
    noon morning_log opened_consistent morning_ran).
Defined.
End Morning.
