(* ===== verification/PublicationStore.v ===== *)
(** The publisher's view of the publication authority: which publication a request
    is (refinement/app/publication_contract.py) and the calls of the authority's
    functions (publication_store.py, publication_evidence.py), each a transaction
    on a connection.

    The world holds the tables; opening a connection may fail, and whatever others
    do meanwhile happens then.  A transaction whose commit is not acknowledged has
    its effect and raises. *)
From S2P Require Import Prelude PyStr PyVal PyTime PyJson PyIo PyUuid SignedContext Publication.

Open Scope Z_scope.

(** ** Identities *)

Definition _RUN_NAMESPACE : string := "9dbb39ad9c454accaa6a19dc2207ded8".
(** The version of [canonical_digest]'s contract. *)
Definition PUBLICATION_CONTRACT : string := "staged-cas/v2".

Record PublicationIdentity := mkIdentity {
  i_scope : PublicationScope;
  materialization_run_id : string;
  i_input_digest : string;
  i_contract_digest : string;
  expected_head_run_id : option string }.

Section Identity.
Context {Hrepr : PyRepr}.
Context (sha256_hex : string → string) (sha1 : string → string).

Definition canonical_digest (value : pyval) : res string :=
  payload ← json_sorted value; Ok (sha256_hex (utf8 payload)).

(** [PublicationScope.from_dataset]. *)
Definition from_dataset (dataset user_context : pydict) : res PublicationScope :=
  let tenant := field "tenant_id" user_context in
  let workspace := field "workspace_id" user_context in
  let name := field "name" dataset in
  let layer := lower (strip (py_str (py_or (get "layer" dataset) (PStr "silver")))) in
  if negb (nonempty tenant) || negb (nonempty workspace)
  then raise ValueError "Materialization requires tenant_id and workspace_id"
  else
    _ ← parse_uuid tenant;
    _ ← parse_uuid workspace;
    if negb (IDENTIFIER name) then raise ValueError "Invalid materialization dataset"
    else if negb (mem layer LAYERS) then raise ValueError "Invalid materialization layer"
    else Ok (mkScope tenant workspace name layer).

Definition inputs_of (dataset : pydict) (input_state : list pyval) : pyval :=
  PDict (mkdict [("sources", py_or (get "sources" dataset) (PList []));
                 ("sql", py_or (py_or (get "sql_def" dataset) (get "sql" dataset)) (PStr ""));
                 ("source_load_date", get "source_load_date" dataset); ("source_batch_id", get "source_batch_id" dataset);
                 ("resolved_source_state", PList input_state)]).
Definition contract_of (scope : PublicationScope) (dataset : pydict) : pyval :=
  PDict (mkdict [("dataset", PStr (s_dataset scope)); ("layer", PStr (s_layer scope));
                 ("cartridge", py_or (get "cartridge" dataset) (PStr "unknown"));
                 ("column_mapping", py_or (get "column_mapping" dataset) (PDict []));
                 ("publication_contract", PStr PUBLICATION_CONTRACT)]).

(** [PublicationIdentity.build]. *)
Definition build (dataset user_context : pydict) (input_state : list pyval) (expected_head : option string) :
    res PublicationIdentity :=
  scope ← from_dataset dataset user_context;
  input_digest ← canonical_digest (inputs_of dataset input_state);
  contract_digest ← canonical_digest (contract_of scope dataset);
  let expected := default "" expected_head in
  let run_key := join ":" [s_tenant scope; s_workspace scope; s_dataset scope; s_layer scope; input_digest; contract_digest;
                           if nonempty expected then expected else "empty"] in
  Ok (mkIdentity scope (uuid5 sha1 _RUN_NAMESPACE run_key) input_digest contract_digest expected_head).
End Identity.

(** ** Actions on the world *)

(** A connection: the clock of its transaction, a UUID generated in it, and whether
    its commit is acknowledged. *)
Record link := mkLink { l_now : instant; l_fresh : string; l_acked : bool }.

Class PublicationWorld (W : Type) := {
  authority : W → Authority;
  set_authority : Authority → W → W;
  dial : W → res link * W;
  (** [pg_advisory_lock] and [pg_advisory_unlock] of a run, with the commit after it. *)
  lock : string → W → res unit * W;
  unlock : string → W → res unit * W }.

(** ** The calls *)

(** The columns [head] and [run] select. *)
Record HeadRow := mkHeadRow {
  hr_run : string;
  hr_generation : Z;
  hr_object : option Object;
  hr_row_count : option Z;
  hr_status : string;
  hr_published_at : instant;
  hr_input_digest : string;
  hr_contract_digest : string;
  hr_gold_table : option string;
  hr_receipt_id : option string;
  hr_evidence_digest : option string }.

Record RunRow := mkRunRow { rr_status : string; rr_object : option Object; rr_row_count : option Z; rr_expected : option string }.

(** [_dsn]. *)
Definition _dsn (raw : string) : string := sreplace "postgresql+psycopg2://" "postgresql://" raw.

(** [self.publisher_dsn] and [self.reader_dsn]. *)
Record store := mkStore { publisher_dsn : string; reader_dsn : string }.
Definition new_store (publisher gold database : string) : store :=
  mkStore (_dsn publisher) (_dsn (if nonempty gold then gold else database)).

(** The literal of a parameter of type [uuid]. *)
Definition as_uuid (uuid : string → option string) (text : string) : res string :=
  match uuid text with Some u => Ok u | None => sql_error "22P02" "invalid input syntax for type uuid" end.

Section Store.
Context (jsonb_text : pyval → string) (jsonb_eq : pyval → pyval → bool) (time_text : instant → string).
Context (sha256_hex : string → string) (hmac_hex : string → string → string) (md5_hex : string → string).
Context (pg_type : string → option string) (store_cell : string → pyval → option pyval) (cell_text : pyval → option string).
(** The canonical text of what PostgreSQL reads as a UUID. *)
Context (uuid : string → option string).
Context (env : store).
Context {W : Type} {Hworld : PublicationWorld W}.

Definition commit_lost {A} : res A := raise (PgError "" "") "server closed the connection unexpectedly".

(** [with psycopg2.connect(dsn) as conn]. *)
Definition transact {A} (dsn : string) (f : link → Authority → res (A * Authority)) : io W A := λ w,
  if negb (nonempty dsn) then (raise RuntimeError "GOLD_PUBLISHER_DATABASE_URL is required", w)
  else
    match dial w with
    | (Raise e, w) => (Raise e, w)
    | (Ok l, w) =>
        match f l (authority w) with
        | Raise e => (Raise e, w)
        | Ok (a, db) => (if l_acked l then Ok a else commit_lost, set_authority db w)
        end
    end.
Definition publisher {A} (f : link → Authority → res (A * Authority)) : io W A := transact (publisher_dsn env) f.

(** [_scope]. *)
Definition _scope (x : PublicationScope) : session := mkSession (s_tenant x) (s_workspace x).

Definition scope_uuids (x : PublicationScope) : res PublicationScope :=
  tenant ← as_uuid uuid (s_tenant x);
  workspace ← as_uuid uuid (s_workspace x);
  Ok (mkScope tenant workspace (s_dataset x) (s_layer x)).

Section Identity.
Context (identity : PublicationIdentity).
Let here : session := _scope (i_scope identity).
Let run_id : string := materialization_run_id identity.

Definition reserve : io W string :=
  publisher (λ l db,
    x ← scope_uuids (i_scope identity);
    expected ← match expected_head_run_id identity with Some h => h ← as_uuid uuid h; Ok (Some h) | None => Ok None end;
    reserve_materialization here (l_now l) run_id x (i_input_digest identity) (i_contract_digest identity) expected db).

Definition run : io W (option RunRow) :=
  publisher (λ l db,
    Ok ((λ r, mkRunRow (r_status r) (r_object r) (r_row_count r) (r_expected_head r)) <$> visible_run here run_id db, db)).

(** The rows in the page are inserted together; the transaction is one. *)
Definition stage_gold (columns : list (string * string)) (rows : list (list pyval)) : io W (string * Z * list (list pyval)) :=
  publisher (λ l db,
    '(stage, db) ← create_gold_stage jsonb_text pg_type here run_id (PList ((λ c, PDict (mkdict [("name", PStr c.1); ("type", PStr c.2)])) <$> columns)) db;
    if negb (forallb IDENTIFIER columns.*1) then raise ValueError "invalid publication identifier"
    else
      db ← (if Nat.eqb (length rows) 0 then Ok db else insert_rows store_cell cell_text here stage columns.*1 rows db);
      frozen ← select_rows cell_text here stage columns.*1 db;
      Ok ((stage, Z.of_nat (length frozen), frozen), db)).

Definition submit (o : Object) (rows : Z) (lineage catalog : pyval) : io W string :=
  publisher (λ l db,
    submit_verification_candidate jsonb_text sha256_hex here (l_now l) (l_fresh l) run_id o rows lineage catalog db).

Definition gold_table : option string :=
  if bool_decide (s_layer (i_scope identity) = "gold") then Some (stage_name run_id) else None.

Definition mark_prepared (o : Object) (rows : Z) (staging : option string) (lineage catalog : pyval) : io W (string * string) :=
  publisher (λ l db,
    '(row, db) ← Publication.mark_prepared jsonb_text jsonb_eq time_text sha256_hex hmac_hex cell_text here (l_now l) run_id o rows
                   gold_table staging lineage catalog db;
    match row with Some digests => Ok (digests, db) | None => raise RuntimeError "publication evidence was not prepared" end).

Definition publish (expected_head : option string) : io W Publication :=
  publisher (λ l db,
    expected ← match expected_head with Some h => h ← as_uuid uuid h; Ok (Some h) | None => Ok None end;
    publish_materialization jsonb_text jsonb_eq time_text sha256_hex hmac_hex md5_hex cell_text here (l_now l) (l_fresh l) run_id
      expected db).

Definition abandon : io W unit :=
  publisher (λ l db, db ← abandon_materialization here (l_now l) run_id db; Ok (tt, db)).

Definition quarantine (reason : string) : io W unit :=
  publisher (λ l db, db ← quarantine_prepared here (l_now l) run_id (stake 240 reason) db; Ok (tt, db)).

Definition reopen_prepared (reason : string) : io W Reopened :=
  publisher (λ l db, reopen_prepared_materialization here (l_now l) run_id (stake 240 reason) db).

(** [with store.run_lock(identity)] around a body. *)
Definition run_lock {A} (body : io W A) : io W A :=
  let settled e :=
    current ← run;
    let status := default "" (rr_status <$> current) in
    if mem status ["prepared"; "published"; "recoverable_failed"] then of_res (Raise e)
    else _ ← abandon; of_res (Raise e) in
  _ ← (λ w, if nonempty (publisher_dsn env) then dial w else (raise RuntimeError "GOLD_PUBLISHER_DATABASE_URL is required", w));
  finally (_ ← lock run_id; handling body settled) (unlock run_id).
End Identity.

(** [head], by the reader. *)
Definition head (x : PublicationScope) : io W (option HeadRow) :=
  transact (if nonempty (reader_dsn env) then reader_dsn env else publisher_dsn env) (λ l db,
    y ← scope_uuids x;
    Ok (match head_in (_scope x) y db with
        | None => None
        | Some h =>
            match visible_run (_scope x) (h_run h) db with
            | None => None
            | Some r =>
                let receipt := rc ← receipts db !! h_run h; if in_session (_scope x) (rc_scope rc) then Some rc else None in
                Some (mkHeadRow (h_run h) (h_generation h) (r_object r) (r_row_count r) (r_status r) (h_published_at h)
                        (r_input_digest r) (r_contract_digest r) (r_gold_table r) (rc_id <$> receipt)
                        (rc_evidence_digest <$> receipt))
            end
        end, db)).
End Store.

(** ** What an action that returns has done *)

Lemma transact_ok {W} {Hworld : PublicationWorld W} {A} dsn (f : link → Authority → res (A * Authority)) w a w' :
  transact dsn f w = (Ok a, w') →
  ∃ l w1 db, dial w = (Ok l, w1) ∧ f l (authority w1) = Ok (a, db) ∧ w' = set_authority db w1.
Proof.
  unfold transact. destruct (negb _); [done|]. destruct (dial w) as [[l|e] w1]; [|done].
  destruct (f l (authority w1)) as [[a' db]|e] eqn:Ef; [|done]. destruct (l_acked l); [|done]. intros [= <- <-]. by exists l, w1, db.
Qed.
