(* ===== verification/PublicationVerifier.v ===== *)
(** The verifier of the publications (refinement/app/publication_verifier_worker.py):
    a process with a role of its own that reads the object of a candidate at its
    version, compares it with what the candidate claims, and only then has the
    database record an attestation.

    The storage is an interface to the object store; Parquet, JSON and the digest
    are parameters, as in [PartitionedParquet]. *)
From S2P Require Import Prelude PyStr PyVal PyTime PyUrl PyJson PyIo PyUuid StorageScope SignedContext Publication PublicationSafety PartitionedParquet PublicationStore.

Open Scope Z_scope.

(** What [stat] answers that the code reads. *)
Record ObjectStat := mkStat { st_version : option string; st_checksum : option string }.

Class ObjectStorage (W : Type) := {
  (** Of a key, and of a version unless it is empty. *)
  get_bytes : string → string → W → res string * W;
  stat : string → string → W → res ObjectStat * W;
  (** The status of [get_bucket_versioning]. *)
  bucket_versioning : W → res (option string) * W }.

Record StorageConfig := mkConfig { provider : string; bucket : string }.

(** [storage.uri_for(key)]. *)
Definition uri_for {Hrepr : PyRepr} (config : StorageConfig) (key : string) : res string :=
  clean ← Keys.validate_key (PStr key);
  Ok ((if bool_decide (provider config = "gcs") then "gs" else "s3") +:+ "://" +:+ bucket config +:+ "/" +:+ clean).

(** [item[key]]. *)
Definition item_key (key : string) (v : pyval) : res pyval :=
  match v with
  | PDict d => match dget key d with Some v => Ok v | None => raise KeyError key end
  | _ => raise TypeError ""
  end.

Definition mismatch {A} (what : string) : res A := raise RuntimeError ("publication object " +:+ what +:+ " mismatch").

Section Verifier.
Context {Hrepr : PyRepr}.
Context (parquet_file : string → res ParquetFile) (json_loads : string → res pyval).
Context (jsonb_text : pyval → string) (time_text : instant → string).
Context (sha256_hex : string → string) (hmac_hex : string → string → string).
Context (uuid : string → option string).
(** The variables of the process, its role in the database, and its storage. *)
Context (database_url : string) (current_user : string) (config : StorageConfig).
Context {W : Type} {Hworld : PublicationWorld W} {Hstorage : ObjectStorage W}.

Definition _require_immutable_object_versions : io W unit :=
  let name := lower (provider config) in
  if bool_decide (name = "gcs") then mret tt
  else if negb (mem name ["s3"; "minio"]) then raises RuntimeError "immutable object versioning is unavailable"
  else
    status ← bucket_versioning;
    if bool_decide (status = Some "Enabled") then mret tt
    else raises RuntimeError "immutable object versioning is unavailable".

(** [_dsn]. *)
Definition verifier_dsn : res string :=
  let value := sreplace "postgresql+psycopg2://" "postgresql://" database_url in
  if nonempty value then Ok value else raise RuntimeError "publication verifier database unavailable".

Definition VERIFIER_ROLE : string := "omega_gold_verifier".

Definition _load_candidate (candidate_id : string) : io W Claim :=
  _ ← of_res (parse_uuid candidate_id);
  dsn ← of_res verifier_dsn;
  row ← transact dsn (λ l db,
    if negb (bool_decide (current_user = VERIFIER_ROLE)) then raise RuntimeError "publication verifier identity mismatch"
    else
      id ← as_uuid uuid candidate_id;
      c ← load_verification_candidate (bool_decide (current_user = VERIFIER_ROLE)) (l_now l) id db;
      Ok (c, db));
  match row with
  | Some c => mret c
  | None => raises RuntimeError "publication verification candidate unavailable"
  end.

(** [path.removeprefix("/")]. *)
Definition removeprefix (p s : string) : string := if startswith p s then sdrop (slen p) s else s.

Definition _object_key (c : Claim) : res string :=
  let uri := o_uri (c_object c) in
  let x := c_scope c in
  parsed ← urlsplit uri;
  let key := removeprefix "/" (PyUrl.path parsed) in
  let parts := split_on "/" key in
  let outside : res string := raise RuntimeError "publication verification object is outside scope" in
  if negb (bool_decide (scheme parsed = (if bool_decide (provider config = "gcs") then "gs" else "s3")))
     || negb (bool_decide (netloc parsed = bucket config)) || nonempty (query parsed) || nonempty (fragment parsed)
     || bool_decide (is_Some (userinfo parsed).1) || Nat.ltb (length parts) 7
     || negb (bool_decide (parts !! 0%nat = Some (s_layer x))) || negb (bool_decide (parts !! 2%nat = Some (s_dataset x)))
     || negb (bool_decide (parts !! 3%nat = Some ("tenant_id=" +:+ s_tenant x)))
     || negb (bool_decide (parts !! 4%nat = Some ("workspace_id=" +:+ s_workspace x)))
  then outside
  else
    canonical ← uri_for config key;
    if bool_decide (canonical = uri) then Ok key else outside.

(** [storage.stat], the version and the bytes, and their digest. *)
Definition pinned_bytes (key version checksum : string) : io W string :=
  observed ← stat key version;
  if negb (bool_decide (default "" (st_version observed) = version)) then of_res (mismatch "version")
  else
    raw ← get_bytes key version;
    if bool_decide (sha256_hex raw = checksum) then mret raw else of_res (mismatch "checksum").

Definition _pinned_parquet (key version checksum : string) : io W ParquetFile :=
  if negb (nonempty version) then of_res (mismatch "version")
  else raw ← pinned_bytes key version checksum; of_res (parquet_file raw).

Definition same_fields (schema : list (string * string)) (expected : list pyval) : bool :=
  py_eq (PList (schema_fields schema)) (PList expected).

Definition verify_part (expected : list pyval) (part : pydict) : io W unit :=
  file ← _pinned_parquet (py_str (get "key" part)) (py_str (get "version" part)) (py_str (get "checksum" part));
  if py_eq (PInt (num_rows file)) (get "rows" part) && same_fields (schema_arrow file) expected then mret tt
  else of_res (mismatch "schema").

Fixpoint verify_parts (expected : list pyval) (ps : list pydict) : io W unit :=
  match ps with
  | [] => mret tt
  | p :: ps => _ ← verify_part expected p; verify_parts expected ps
  end.

Definition _verify_partition_set (key raw : string) (expected : list pyval) (rows : Z) : io W unit :=
  manifest ← of_res (read_manifest parquet_file json_loads sha256_hex raw key);
  if negb (same_fields (schema manifest) expected) then of_res (mismatch "schema")
  else
    _ ← verify_parts expected (parts manifest);
    if row_count manifest =? rows then mret tt else of_res (mismatch "schema").

Definition expected_fields (catalog : pyval) : res (list pyval) :=
  items ← py_iter catalog;
  mapR (λ item, name ← item_key "name" item; type ← item_key "type" item;
                Ok (PDict (mkdict [("name", name); ("type", type)]))) items.

(** What is compared of the object of a claim. *)
Definition verify_object (key : string) (c : Claim) : io W unit :=
  raw ← pinned_bytes key (o_version (c_object c)) (o_checksum (c_object c));
  parquet ← of_res (parquet_file raw);
  expected ← of_res (expected_fields (c_catalog c));
  if is_manifest_key key then
    if negb (same_fields (schema_arrow parquet) expected) then of_res (mismatch "schema")
    else _verify_partition_set key raw expected (c_row_count c)
  else
    payload ← of_res (manifest_payload json_loads parquet);
    if bool_decide (is_Some payload) || negb (num_rows parquet =? c_row_count c) || negb (same_fields (schema_arrow parquet) expected)
    then of_res (mismatch "schema") else mret tt.

Definition attest (candidate_id : string) : io W unit :=
  dsn ← of_res verifier_dsn;
  transact dsn (λ l db,
    id ← as_uuid uuid candidate_id;
    '(_, db) ← record_attestation jsonb_text time_text sha256_hex hmac_hex (bool_decide (current_user = VERIFIER_ROLE)) (l_now l)
                 (l_fresh l) id db;
    Ok (tt, db)).

Definition verify_candidate (candidate_id : string) : io W unit :=
  c ← _load_candidate candidate_id;
  _ ← _require_immutable_object_versions;
  key ← of_res (_object_key c);
  _ ← verify_object key c;
  attest candidate_id.

(** ** Requests over the socket *)

(** [PUBLICATION_APP_UID], and the user of the peer, if the system tells it. *)
Context (app_uid : string).

Definition _authorized_peer (peer : option Z) : res bool :=
  match parse_int app_uid with
  | None => raise ValueError ""
  | Some expected => if expected <? 1 then Ok false else Ok (bool_decide (peer = Some expected))
  end.

(** [readline(513)] of the bytes the peer sends. *)
Fixpoint readline (n : nat) (s : string) : string :=
  match n, s with
  | O, _ | _, "" => ""
  | S n, String c s => if bool_decide (code c = 10%N) then one c else String c (readline n s)
  end.

(** What [_ready] reads: the role and what it may execute. *)
Record privileges := mkPrivileges { pv_role : string; pv_load : bool; pv_attest : bool; pv_publish : bool }.
Context (granted : privileges).

Definition _ready : io W unit :=
  dsn ← of_res verifier_dsn;
  granted ← transact dsn (λ l db, Ok (granted, db));
  if negb (bool_decide (pv_role granted = VERIFIER_ROLE)) || negb (pv_load granted) || negb (pv_attest granted) || pv_publish granted
  then raises RuntimeError "publication verifier privilege mismatch"
  else _require_immutable_object_versions.

Definition invalid_request {A} : io W A := raises ValueError "invalid verifier request".

Definition PING : pyval := PDict (mkdict [("command", PStr "PING")]).
Definition okay (l : list (string * pyval)) : pydict := mkdict (("ok", PBool true) :: l).

(** [set(payload) == {"candidate_id"}]. *)
Definition is_candidate_request (payload : pyval) : res bool :=
  items ← py_iter payload;
  if existsb (λ v, is_list v || is_dict v) items then raise TypeError ""
  else Ok (negb (bool_decide (items = [])) && forallb (λ v, eq_str v "candidate_id") items).

Definition verify_request (payload : pyval) (asked : bool) : io W pydict :=
  if asked then
    id ← of_res (item_key "candidate_id" payload);
    _ ← verify_candidate (py_str id);
    mret (okay [])
  else invalid_request.

Definition _handle (peer : option Z) (sent : string) : io W pydict :=
  authorized ← of_res (_authorized_peer peer);
  if negb authorized then raises PermissionError "publication verifier peer rejected"
  else
    let line := readline 513 sent in
    if negb (nonempty line) || Nat.ltb 512 (slen line) then invalid_request
    else
      payload ← of_res (json_loads line);
      if py_eq payload PING then _ ← _ready; mret (okay [("status", PStr "ready")])
      else
        asked ← of_res (is_candidate_request payload); verify_request payload asked.

(** An iteration of [serve]: what is sent to a peer. *)
Definition served (peer : option Z) (sent : string) : W → pydict * W := λ w,
  match _handle peer sent w with
  | (Ok answer, w) => (answer, w)
  | (Raise _, w) => (mkdict [("ok", PBool false); ("error", PStr "verification unavailable")], w)
  end.
End Verifier.

(** ** What an attestation guarantees *)

Section Attested.
Context {Hrepr : PyRepr}.
Context (jsonb_text : pyval → string) (jsonb_eq : pyval → pyval → bool) (time_text : instant → string).
Context (sha256_hex : string → string) (hmac_hex : string → string → string) (md5_hex : string → string).
Context (pg_type : string → option string) (store_cell : string → pyval → option pyval) (cell_text : pyval → option string).
Context (parquet_file : string → res ParquetFile) (json_loads : string → res pyval).
Context (config : StorageConfig).
(** The bytes of a key at a version. *)
Context (content : string → string → option string).

Abbreviation exec := (exec jsonb_text jsonb_eq time_text sha256_hex hmac_hex md5_hex pg_type store_cell cell_text).
Abbreviation steps := (steps jsonb_text jsonb_eq time_text sha256_hex hmac_hex).

(** The bytes of a part of a manifest are those it names, with its rows and the columns expected. *)
Definition part_matches (expected : list pyval) (p : pydict) : Prop :=
  ∃ raw f, content (py_str (get "key" p)) (py_str (get "version" p)) = Some raw
    ∧ sha256_hex raw = py_str (get "checksum" p) ∧ parquet_file raw = Ok f
    ∧ py_eq (PInt (num_rows f)) (get "rows" p) = true ∧ same_fields (schema_arrow f) expected = true.

(** The object of a claim, at its version and in its scope, has the bytes, the
    columns and the rows the claim says. *)
Definition object_matches (c : Claim) : Prop :=
  ∃ key raw f expected, _object_key config c = Ok key ∧ content key (o_version (c_object c)) = Some raw
    ∧ sha256_hex raw = o_checksum (c_object c) ∧ parquet_file raw = Ok f
    ∧ expected_fields (c_catalog c) = Ok expected ∧ same_fields (schema_arrow f) expected = true
    ∧ if is_manifest_key key then
        ∃ m, read_manifest parquet_file json_loads sha256_hex raw key = Ok m ∧ row_count m = c_row_count c
          ∧ Forall (part_matches expected) (parts m)
      else num_rows f = c_row_count c.

(** Calls of the authority in which the verifier attests only what matches. *)
Definition allowed (op : call) (db : Authority) : Prop :=
  match op with
  | Attest true _ _ id => ∀ k, candidates db !! id = Some k → object_matches (k_claim k)
  | _ => True
  end.

Inductive moves : Authority → list event → Authority → Prop :=
  | moves_done db : moves db [] db
  | moves_more db op db1 es es' db2 : allowed op db → exec op db = (db1, es) → moves db1 es' db2 → moves db (es ++ es') db2.

Lemma moves_steps db log db' : moves db log db' → steps db log db'.
Proof. induction 1; [constructor|]. econstructor; [by eapply exec_step|done]. Qed.

Lemma moves_app db l db1 l' db2 : moves db l db1 → moves db1 l' db2 → moves db (l ++ l') db2.
Proof. induction 1; [done|]. intros. rewrite <- app_assoc. econstructor; eauto. Qed.

Lemma moves_one db op db' es : allowed op db → exec op db = (db', es) → moves db es db'.
Proof. intros Ha He. rewrite <- (app_nil_r es). econstructor; [done..|constructor]. Qed.

Lemma moves_attested db log db' c : moves db log db' → Attested c ∈ log → object_matches c.
Proof.
  induction 1 as [|db op db1 es es' db2 Ha He Hm IH]; [by rewrite elem_of_nil|]. intros [Hin|Hin]%elem_of_app; [|by apply IH].
  destruct (exec_attested _ _ _ _ _ _ _ _ _ _ _ _ _ _ He Hin) as (v & now & fresh & id & k & -> & Hk & <-).
  destruct v; [by eapply Ha|]. injection He as <- <-. by rewrite elem_of_nil in Hin.
Qed.

Fixpoint all_allowed (ops : list call) (db : Authority) : Prop :=
  match ops with [] => True | op :: ops => allowed op db ∧ all_allowed ops (exec op db).1 end.

Lemma exec_all_moves ops db :
  all_allowed ops db →
  let r := exec_all jsonb_text jsonb_eq time_text sha256_hex hmac_hex md5_hex pg_type store_cell cell_text ops db in moves db r.2 r.1.
Proof.
  revert db. induction ops as [|op ops IH]; intros db; [constructor|]. cbn [all_allowed PublicationSafety.exec_all].
  intros [Ha Hall]. destruct (exec op db) as [db1 es] eqn:E. specialize (IH db1 Hall).
  destruct (exec_all _ _ _ _ _ _ _ _ _ ops db1) as [db2 es']. by eapply moves_more.
Qed.

(** C4: When attestations are recorded only of matching objects, what is published
    has been compared with its bytes.  After any calls a published run has its row,
    its receipt and its evidence, and there is a claim with their object, rows and
    schema digest, with the columns of the evidence and the digest of those columns,
    that the object of the run matches: at its version and in its scope it has the
    checksum, the columns and the number of rows of the claim, and so has every file
    of a partitioned one. *)
Theorem published_was_verified db0 l1 x run o rows previous generation l2 db :
  consistent db0 → attestations db0 = ∅ → claims_digested jsonb_text sha256_hex db0 →
  moves db0 (l1 ++ Published x run o rows previous generation :: l2) db →
  ∃ c, published_as jsonb_text jsonb_eq sha256_hex db run x o rows c ∧ object_matches c.
Proof.
  intros Hc He Hd Hm. destruct (published_attested _ _ _ _ _ _ _ _ _ _ _ _ _ _ _ He (moves_steps _ _ _ Hm)) as
    (c & Hin & _ & _ & _ & _ & Hp).
  exists c. split; [by apply Hp|]. eapply moves_attested; [exact Hm|]. apply elem_of_app. by left.
Qed.

(** ** The worker attests only what matches *)

Section Worker.
Context (uuid : string → option string) (database_url current_user app_uid : string) (granted : privileges).
Context {W : Type} {Hworld : PublicationWorld W} {Hstorage : ObjectStorage W}.
(** What happens while the worker waits are calls of the authority; a version of a
    key keeps its bytes. *)
Context (authority_set : ∀ db w, authority (set_authority db w) = db).
Context (dial_moves : ∀ w r w', dial w = (r, w') → ∃ log, moves (authority w) log (authority w')).
Context (stat_moves : ∀ k v w r w', stat k v w = (r, w') → ∃ log, moves (authority w) log (authority w')).
Context (get_moves : ∀ k v w r w', get_bytes k v w = (r, w') → ∃ log, moves (authority w) log (authority w')).
Context (versioning_moves : ∀ w r w', bucket_versioning w = (r, w') → ∃ log, moves (authority w) log (authority w')).
Context (pinned : ∀ k v w raw w', v ≠ "" → get_bytes k v w = (Ok raw, w') → content k v = Some raw).

(** The candidate of an identifier has this claim. *)
Definition claims (id : string) (c : Claim) (db : Authority) : Prop := ∃ k, candidates db !! id = Some k ∧ k_claim k = c.

Lemma moves_claims db log db' id c : moves db log db' → claims id c db → claims id c db'.
Proof.
  intros Hm%moves_steps (k & Hk & <-). destruct (steps_candidate _ _ _ _ _ _ _ _ _ _ Hm Hk) as (k' & Hk' & E). by exists k'.
Qed.

(** An action during which only moves happen, with what its value satisfies. *)
Definition gives {A} (m : io W A) (Q : A → Prop) : Prop :=
  ∀ w r w', m w = (r, w') → (∃ log, moves (authority w) log (authority w')) ∧ ∀ a, r = Ok a → Q a.

Lemma gives_of_res {A} (r : res A) : gives (of_res r) (λ a, r = Ok a).
Proof. intros w r' w' [= <- <-]. split; [exists []; constructor|done]. Qed.

Lemma gives_ret {A} (a : A) : gives (mret a) (λ b, b = a).
Proof. intros w r' w' [= <- <-]. split; [exists []; constructor|]. by intros b [= <-]. Qed.

Lemma gives_weaken {A} (m : io W A) P Q : gives m P → (∀ a, P a → Q a) → gives m Q.
Proof. intros Hm HPQ w r w' E. destruct (Hm w r w' E) as [Hl Ha]. split; [done|]. auto. Qed.

Lemma gives_bind {A B} (m : io W A) (f : A → io W B) P Q :
  gives m P → (∀ a, P a → gives (f a) Q) → gives (m ≫= f) Q.
Proof.
  intros Hm Hf w r w' E. unfold mbind, io_bind in E. destruct (m w) as [[a|e] w1] eqn:E1; cbn in E.
  - destruct (Hm w _ w1 E1) as [[l1 Hl1] Ha]. destruct (Hf a (Ha a eq_refl) w1 r w' E) as [[l2 Hl2] Hb].
    split; [exists (l1 ++ l2); by eapply moves_app|done].
  - destruct (Hm w _ w1 E1) as [Hl1 _]. injection E as <- <-. split; [done|]. by intros a [=].
Qed.

Lemma gives_raise {A} c msg (Q : A → Prop) : gives (of_res (raise c msg)) Q.
Proof. apply (gives_weaken _ _ _ (gives_of_res _)). by intros a [=]. Qed.

Lemma gives_moves {A} (m : io W A) (Q : A → Prop) :
  (∀ w r w', m w = (r, w') → ∃ log, moves (authority w) log (authority w')) → (∀ w a w', m w = (Ok a, w') → Q a) → gives m Q.
Proof. intros H1 H2 w r w' E. split; [by eapply H1|]. intros a ->. by eapply H2. Qed.

Lemma pinned_bytes_gives k v checksum :
  gives (pinned_bytes sha256_hex k v checksum) (λ raw, sha256_hex raw = checksum ∧ (v ≠ "" → content k v = Some raw)).
Proof.
  unfold pinned_bytes. apply (gives_bind _ _ (λ _, True)); [apply gives_moves; [apply stat_moves|done]|]. intros st _.
  destruct (negb _); [apply gives_raise|].
  apply (gives_bind _ _ (λ raw, v ≠ "" → content k v = Some raw)).
  { apply gives_moves; [apply get_moves|]. intros w raw w' E Hv. by eapply pinned. }
  intros raw Hraw. case_bool_decide as Hs; [|apply gives_raise]. apply (gives_weaken _ _ _ (gives_ret _)). by intros ? ->.
Qed.

Lemma verify_part_gives expected p : gives (verify_part parquet_file sha256_hex expected p) (λ _, part_matches expected p).
Proof.
  unfold verify_part. apply (gives_bind _ _ (λ f, ∃ raw, content (py_str (get "key" p)) (py_str (get "version" p)) = Some raw
    ∧ sha256_hex raw = py_str (get "checksum" p) ∧ parquet_file raw = Ok f)).
  - unfold _pinned_parquet. destruct (nonempty _) eqn:Ev; [|apply gives_raise]. apply nonempty_true in Ev. cbn [negb].
    eapply gives_bind; [apply pinned_bytes_gives|]. cbv beta. intros raw [Hs Hc].
    apply (gives_weaken _ _ _ (gives_of_res _)). intros f Hf. exists raw. auto.
  - intros f (raw & H1 & H2 & H3). destruct (_ && _) eqn:E; [|apply gives_raise]. apply andb_true_iff in E as [E1 E2].
    apply (gives_weaken _ _ _ (gives_ret _)). intros _ _. by exists raw, f.
Qed.

Lemma verify_parts_gives expected ps : gives (verify_parts parquet_file sha256_hex expected ps) (λ _, Forall (part_matches expected) ps).
Proof.
  induction ps as [|p ps IH]; cbn [verify_parts].
  - apply (gives_weaken _ _ _ (gives_ret _)). by constructor.
  - eapply gives_bind; [apply verify_part_gives|]. cbv beta. intros _ Hp. eapply gives_weaken; [exact IH|]. by constructor.
Qed.

Lemma partition_set_gives key raw expected rows :
  gives (_verify_partition_set parquet_file json_loads sha256_hex key raw expected rows)
    (λ _, ∃ m, read_manifest parquet_file json_loads sha256_hex raw key = Ok m ∧ row_count m = rows
            ∧ Forall (part_matches expected) (parts m)).
Proof.
  unfold _verify_partition_set. eapply gives_bind; [apply gives_of_res|]. cbv beta. intros m Hm. destruct (negb _); [apply gives_raise|].
  eapply gives_bind; [apply verify_parts_gives|]. cbv beta. intros _ Hps. destruct (row_count m =? rows) eqn:Er; [|apply gives_raise].
  apply (gives_weaken _ _ _ (gives_ret _)). intros _ _. exists m. split; [done|]. split; [lia|done].
Qed.

Lemma verify_object_gives key c :
  _object_key config c = Ok key → o_version (c_object c) ≠ "" →
  gives (verify_object parquet_file json_loads sha256_hex key c) (λ _, object_matches c).
Proof.
  intros Hkey Hv. unfold verify_object. eapply gives_bind; [apply pinned_bytes_gives|]. cbv beta. intros raw [Hs Hc].
  specialize (Hc Hv). eapply gives_bind; [apply gives_of_res|]. cbv beta. intros f Hf.
  eapply gives_bind; [apply gives_of_res|]. cbv beta. intros expected He. destruct (is_manifest_key key) eqn:Em.
  - destruct (same_fields _ _) eqn:Esf; [|apply gives_raise]. cbn [negb].
    eapply gives_weaken; [apply partition_set_gives|]. cbv beta. intros _ (m & H1 & H2 & H3). exists key, raw, f, expected.
    rewrite Em. split_and!; try done. by exists m.
  - eapply gives_bind; [apply gives_of_res|]. cbv beta. intros payload _.
    destruct (_ || _) eqn:E; [apply gives_raise|]. boolify. apply (gives_weaken _ _ _ (gives_ret _)). intros _ _.
    exists key, raw, f, expected. rewrite Em. split_and!; try done. lia.
Qed.

Lemma bind_io {A B} (m : io W A) (f : A → io W B) w :
  (m ≫= f) w = match m w with (Ok a, w) => f a w | (Raise e, w) => (Raise e, w) end.
Proof. done. Qed.

(** A transaction, after what happens while it connects. *)
Lemma transact_moves {A} dsn (f : link → Authority → res (A * Authority)) w r w' :
  transact dsn f w = (r, w') →
  (∃ log, moves (authority w) log (authority w') ∧ ∀ a, r ≠ Ok a)
  ∨ ∃ log w1 l a db, moves (authority w) log (authority w1) ∧ f l (authority w1) = Ok (a, db) ∧ authority w' = db
      ∧ ∀ b, r = Ok b → b = a.
Proof.
  unfold transact. destruct (negb _); [intros [= <- <-]; left; exists []; by split; [constructor|]|].
  destruct (dial w) as [[l|e] w1] eqn:Ed; destruct (dial_moves _ _ _ Ed) as [log Hl].
  - destruct (f l (authority w1)) as [[a db]|e] eqn:Ef; intros [= <- <-].
    + right. exists log, w1, l, a, db. rewrite authority_set. split_and!; try done. destruct (l_acked l); [by intros b [= ->]|done].
    + left. exists log. by split.
  - intros [= <- <-]. left. exists log. by split.
Qed.

Abbreviation load := (_load_candidate uuid database_url current_user).
Abbreviation attest := (attest jsonb_text time_text sha256_hex hmac_hex uuid database_url current_user).
Abbreviation verify := (verify_candidate parquet_file json_loads jsonb_text time_text sha256_hex hmac_hex uuid database_url current_user config).

Lemma load_gives candidate_id w r w' :
  load candidate_id w = (r, w') →
  (∃ log, moves (authority w) log (authority w'))
  ∧ ∀ c, r = Ok c → ∃ id, uuid candidate_id = Some id ∧ claims id c (authority w').
Proof.
  unfold _load_candidate. rewrite bind_io. destruct (parse_uuid candidate_id) as [z|]; cbn [of_res];
    [|intros [= <- <-]; split; [exists []; constructor|done]].
  rewrite bind_io. destruct (verifier_dsn database_url) as [dsn|]; cbn [of_res];
    [|intros [= <- <-]; split; [exists []; constructor|done]].
  rewrite bind_io. destruct (transact dsn _ w) as [row w1] eqn:Et.
  apply transact_moves in Et as [(log & Hl & Hrow)|(log & w2 & l & c & db & Hl & Hf & Hdb & Hrow)].
  - destruct row as [c|e]; [by destruct (Hrow c)|]. intros [= <- <-]. split; [by eauto|done].
  - destruct (negb _) in Hf; [done|]. apply bind_ok in Hf as (id & Hid & Hf). apply bind_ok in Hf as (c' & Hc & Hf).
    injection Hf as <- <-. rewrite <- Hdb in Hl.
    destruct row as [c0|e]; [|intros [= <- <-]; split; [by eauto|done]]. rewrite (Hrow c0 eq_refl). destruct c' as [c|]; intros [= <- <-];
      [|split; [by eauto|done]].
    split; [by eauto|]. intros c1 [= <-]. exists id. unfold as_uuid in Hid. destruct (uuid candidate_id) as [u|]; [|done].
    injection Hid as ->. split; [done|]. rewrite Hdb. unfold load_verification_candidate in Hc. destruct (negb _) in Hc; [done|].
    injection Hc as Hc. destruct (pending (l_now l) id (authority w2)) as [k|] eqn:Ep; [|done]. injection Hc as Hk.
    exists k. split; [|done]. revert Ep. unfold pending. destruct (candidates (authority w2) !! id); [|done].
    destruct (_ && _); [|done]. by intros [= ->].
Qed.

Lemma attest_moves candidate_id id c w r w' :
  uuid candidate_id = Some id → claims id c (authority w) → object_matches c → attest candidate_id w = (r, w') →
  ∃ log, moves (authority w) log (authority w') ∧ (r = Ok tt → Attested c ∈ log).
Proof.
  intros Hid Hc Hm. unfold PublicationVerifier.attest. rewrite bind_io. destruct (verifier_dsn database_url) as [dsn|]; cbn [of_res];
    [|intros [= <- <-]; exists []; by split; [constructor|]].
  intros [(log & Hl & Hr)|(log & w2 & l & a & db & Hl & Hf & Hdb & _)]%transact_moves;
    [exists log; split; [done|intros ->; by destruct (Hr tt)]|].
  unfold as_uuid in Hf. rewrite Hid in Hf. cbn [mbind res_bind] in Hf. apply bind_ok in Hf as ([digest db1] & Hr & [= _ ->]).
  destruct (moves_claims _ _ _ _ _ Hl Hc) as (k & Hk & <-). rewrite Hdb.
  set (b := bool_decide (current_user = VERIFIER_ROLE)) in *.
  destruct (exec (Attest b (l_now l) (l_fresh l) id) (authority w2)) as [db2 es] eqn:Ee.
  assert (db2 = db ∧ es = [Attested (k_claim k)]) as [-> ->].
  { cbn in Ee. rewrite Hr in Ee. injection Ee as <- <-. split; [done|]. revert Hr. unfold record_attestation.
    destruct (negb b); [done|]. destruct (pending _ _ _) as [k'|] eqn:Ep; [|done]. intros _. revert Ep. unfold pending. rewrite Hk.
    destruct (_ && _); [|done]. by intros [= ->]. }
  exists (log ++ [Attested (k_claim k)]). split; [|intros _; apply elem_of_app; right; by left]. eapply moves_app; [exact Hl|].
  apply (moves_one _ (Attest b (l_now l) (l_fresh l) id)); [|exact Ee].
  destruct b; [|done]. intros k' Hk'. rewrite Hk in Hk'. by injection Hk' as <-.
Qed.

Lemma versioning_gives : gives (_require_immutable_object_versions config) (λ _, True).
Proof.
  unfold _require_immutable_object_versions. destruct (bool_decide _); [by eapply gives_weaken; [apply gives_ret|]|].
  destruct (negb _); [apply gives_raise|]. apply (gives_bind _ _ (λ _, True)); [apply gives_moves; [apply versioning_moves|done]|].
  intros st _. destruct (bool_decide _); [by eapply gives_weaken; [apply gives_ret|]|apply gives_raise].
Qed.

(** What is done between the load and the attestation. *)
Lemma checks_give c :
  o_version (c_object c) ≠ "" →
  gives (_ ← _require_immutable_object_versions config;
         key ← of_res (_object_key config c);
         verify_object parquet_file json_loads sha256_hex key c) (λ _, object_matches c).
Proof.
  intros Hv. eapply gives_bind; [apply versioning_gives|]. cbv beta. intros _ _.
  eapply gives_bind; [apply gives_of_res|]. cbv beta. intros key Hk. by apply verify_object_gives.
Qed.

Lemma verify_split candidate_id w :
  verify candidate_id w =
  (c ← load candidate_id;
   _ ← (_ ← _require_immutable_object_versions config;
        key ← of_res (_object_key config c);
        verify_object parquet_file json_loads sha256_hex key c);
   attest candidate_id) w.
Proof.
  unfold verify_candidate. rewrite !bind_io. destruct (load candidate_id w) as [[c|e] w1]; [|done]. rewrite !bind_io.
  destruct (_require_immutable_object_versions config w1) as [[u|e] w2]; [|done]. rewrite !bind_io.
  by destruct (of_res _ w2) as [[key|e] w3].
Qed.

Lemma verify_moves candidate_id w r w' :
  claims_ok (authority w) → verify candidate_id w = (r, w') →
  ∃ log, moves (authority w) log (authority w') ∧ (r = Ok tt → ∃ c, Attested c ∈ log).
Proof.
  intros Hok. rewrite verify_split, bind_io. destruct (load candidate_id w) as [c w1] eqn:El.
  apply load_gives in El as [[log Hl] Hc]. destruct c as [c|e]; [|intros [= <- <-]; exists log; by split].
  destruct (Hc c eq_refl) as (id & Hid & Hcl). clear Hc.
  assert (Hv : o_version (c_object c) ≠ "").
  { destruct Hcl as (k & Hk & <-). apply moves_steps in Hl. assert (Ho : object_ok (c_object (k_claim k)) = true).
    { eapply steps_claims_ok; [exact Hl|exact Hok|]. left. by exists id, k. }
    unfold object_ok in Ho. boolify. by apply nonempty_true. }
  rewrite bind_io. match goal with |- (match ?m with _ => _ end) = _ → _ => destruct m as [u w2] eqn:Eu end.
  destruct (checks_give c Hv _ _ _ Eu) as [[l2 Hl2] Hm]. assert (moves (authority w) (log ++ l2) (authority w2)) as H2 by by eapply moves_app.
  destruct u as [u|e]; [|intros [= <- <-]; eexists; by split]. specialize (Hm u eq_refl).
  intros (l3 & Hl3 & Hr)%(attest_moves _ id c); [|done|eapply moves_claims; [exact Hl2|exact Hcl]|done].
  exists ((log ++ l2) ++ l3). split; [by eapply moves_app|]. intros ->. exists c. apply elem_of_app. auto.
Qed.

Abbreviation serve := (served parquet_file json_loads jsonb_text time_text sha256_hex hmac_hex uuid database_url current_user config
  app_uid granted).

(** C12: A request to the verifier, whatever others call meanwhile, records an
    attestation only of a candidate whose object it has read and found to match; it
    answers a candidate with success only when it recorded one, and does nothing for
    a peer that is not the application. *)
Theorem verifier_attests_matches peer sent w answer w' :
  claims_ok (authority w) → serve peer sent w = (answer, w') →
  ∃ log, moves (authority w) log (authority w')
    ∧ (answer = okay [] → ∃ c, Attested c ∈ log ∧ object_matches c)
    ∧ (_authorized_peer app_uid peer ≠ Ok true → w' = w).
Proof.
  intros Hok. unfold served. match goal with |- (match ?m with _ => _ end) = _ → _ => destruct m as [r w1] eqn:Er end.
  enough (∃ log, moves (authority w) log (authority w1) ∧ (r = Ok (okay []) → ∃ c, Attested c ∈ log)
    ∧ (_authorized_peer app_uid peer ≠ Ok true → w1 = w)) as (log & Hm & Ha & Hp).
  { intros E. assert (w' = w1 ∧ (answer = okay [] → r = Ok (okay []))) as [-> Hr].
    { destruct r; injection E as <- <-; split; try done. by intros ->. }
    exists log. split; [done|]. split; [|done]. intros Hans%Hr. destruct (Ha Hans) as [c Hc]. exists c. split; [done|].
    by eapply moves_attested. }
  clear answer w'. revert Er. unfold _handle. rewrite bind_io. destruct (_authorized_peer app_uid peer) as [[|]|] eqn:Ep; cbn [of_res negb].
  2,3: intros [= <- <-]; exists []; by split_and!; [constructor|..].
  destruct (_ || _); [intros [= <- <-]; exists []; by split_and!; [constructor|..]|]. rewrite bind_io.
  destruct (json_loads _) as [payload|]; cbn [of_res]; [|intros [= <- <-]; exists []; by split_and!; [constructor|..]].
  destruct (py_eq payload PING).
  - intros Er. assert (G : gives (_ ← _ready database_url config granted; mret (okay [("status", PStr "ready")]))
      (λ a, a = okay [("status", PStr "ready")])).
    { apply (gives_bind _ _ (λ _, True)); [|intros _ _; apply gives_ret]. unfold _ready.
      eapply gives_bind; [apply gives_of_res|]. cbv beta. intros dsn _. apply (gives_bind _ _ (λ _, True)).
      - apply gives_moves; [|done]. intros v x v' [(l & Hl & _)|(l & v2 & ? & ? & db & Hl & Hf & -> & _)]%transact_moves; [by eauto|].
        injection Hf as _ <-. by eauto.
      - intros g _. destruct (_ || _); [apply gives_raise|apply versioning_gives]. }
    destruct (G _ _ _ Er) as [[log Hl] Ha]. exists log. split; [done|]. split; [|done]. intros ->.
    by specialize (Ha _ eq_refl).
  - rewrite bind_io. destruct (is_candidate_request payload) as [asked|]; cbn [of_res];
      [|intros [= <- <-]; exists []; by split_and!; [constructor|..]].
    unfold verify_request. destruct asked; [|intros [= <- <-]; exists []; by split_and!; [constructor|..]]. rewrite bind_io.
    destruct (item_key _ _) as [id|]; cbn [of_res]; [|intros [= <- <-]; exists []; by split_and!; [constructor|..]].
    rewrite bind_io. destruct (verify (py_str id) w) as [u w2] eqn:Ev. apply verify_moves in Ev as (log & Hl & Hc); [|done].
    destruct u as [[]|]; intros [= <- <-]; exists log; split; try done; split; try done. intros _. by apply Hc.
Qed.
End Worker.
End Attested.

(** ** A candidate is submitted, verified and published *)

Module Desk.
Import Morning.
#[local] Instance repr : PyRepr := some_repr.
Definition sha256_hex (bytes : string) : string := if bool_decide (bytes = "PAR1") then hex "1" else hex "5".
Definition parquet_file (bytes : string) : res ParquetFile := Ok (mkParquet 7 [("id", "BIGINT")] None).
Definition candidate : string := run_id "c".
Definition json_loads (text : string) : res pyval := Ok (PDict (mkdict [("candidate_id", PStr candidate)])).
Definition uuid (s : string) : option string := Some s.
Definition config : StorageConfig := mkConfig "minio" "lake".
Definition content (key version : string) : option string := Some "PAR1".

#[local] Instance world : PublicationWorld Authority := {|
  authority w := w;
  set_authority db w := db;
  dial w := (Ok (mkLink 20 (run_id "a") true), w);
  lock k w := (Ok tt, w);
  unlock k w := (Ok tt, w) |}.
#[local] Instance storage : ObjectStorage Authority := {|
  get_bytes k v w := (Ok "PAR1", w);
  stat k v w := (Ok (mkStat (Some v) None), w);
  bucket_versioning w := (Ok (Some "Enabled"), w) |}.

Definition submitted_calls : list call :=
  [Reserve here 10 (run_id "1") orders (hex "a") (hex "b") None;
   Submit here 10 candidate (run_id "1") (object "1") 7 lineage catalog].
Definition later_calls : list call :=
  [Attest true 20 (run_id "a") candidate; Prepare here 30 (run_id "1") (object "1") 7 None None lineage catalog;
   Publish here 40 (run_id "9") (run_id "1") None].
Definition perform (ops : list call) (db : Authority) : Authority * list event :=
  exec_all jsonb_text jsonb_eq time_text sha256_hex hmac_hex md5_hex pg_type store_cell cell_text ops db.
Definition submitted : Authority := (perform submitted_calls opened).1.
Definition claim : Claim := mkClaim (run_id "1") orders 1 (object "1") 7 (hex "5") (hex "a") (hex "b") lineage catalog.

Abbreviation matches := (object_matches sha256_hex parquet_file json_loads config content).
Abbreviation moving := (moves jsonb_text jsonb_eq time_text sha256_hex hmac_hex md5_hex pg_type store_cell cell_text parquet_file
  json_loads config content).

Lemma claim_matches : matches claim.
Proof.
  exists ("silver/crm/orders/tenant_id=t1/workspace_id=w1/_pending/" +:+ repeat_char 32 "1" +:+ "/" +:+ hex "1" +:+ ".parquet"),
    "PAR1", (mkParquet 7 [("id", "BIGINT")] None), [field_dict ("id", "BIGINT")].
  split_and!; vm_compute; reflexivity.
Qed.

Lemma one_candidate id k : candidates submitted !! id = Some k → k_claim k = claim.
Proof.
  assert (E : candidates submitted = {[ candidate := mkCandidate claim (hex "5") "pending" (10 + CANDIDATE_TTL) ]})
    by (vm_compute; reflexivity).
  rewrite E. intros H. apply lookup_singleton_Some in H as [_ <-]. reflexivity.
Qed.

Lemma submitted_ok : claims_ok submitted.
Proof.
  assert (E : attestations submitted = ∅) by (vm_compute; reflexivity).
  intros c [(id & k & Hk & <-)|(id & a & Ha & _)]; [rewrite (one_candidate id k Hk); vm_compute; reflexivity|by rewrite E in Ha].
Qed.

Lemma verifier_attests_matches_witness :
  ∃ answer w', served parquet_file json_loads jsonb_text time_text sha256_hex hmac_hex uuid "postgresql://v" VERIFIER_ROLE config
                 "1000" (mkPrivileges VERIFIER_ROLE true true false) (Some 1000) "{}" submitted = (answer, w')
    ∧ answer = okay [] ∧ ∃ log, moving submitted log w' ∧ ∃ c, Attested c ∈ log ∧ matches c.
Proof.
  destruct (served parquet_file json_loads jsonb_text time_text sha256_hex hmac_hex uuid "postgresql://v" VERIFIER_ROLE config
    "1000" (mkPrivileges VERIFIER_ROLE true true false) (Some 1000) "{}" submitted) as [answer w'] eqn:E.
  assert (Ha : answer = okay []). { change answer with (answer, w').1. rewrite <- E. vm_compute. reflexivity. }
  exists answer, w'. split; [reflexivity|]. split; [exact Ha|].
  destruct (verifier_attests_matches jsonb_text jsonb_eq time_text sha256_hex hmac_hex md5_hex pg_type store_cell cell_text
    parquet_file json_loads config content uuid "postgresql://v" VERIFIER_ROLE "1000" (mkPrivileges VERIFIER_ROLE true true false))
    with (peer := Some 1000) (sent := "{}") (w := submitted) (answer := answer) (w' := w') as (log & Hm & Hc & _);
    [done|intros w r w1 [= _ <-]; by exists []; constructor|intros k v w r w1 [= _ <-]; by exists []; constructor
    |intros k v w r w1 [= _ <-]; by exists []; constructor|intros w r w1 [= _ <-]; by exists []; constructor
    |by intros k v w raw w1 _ [= <- _]|exact submitted_ok|exact E|].
  exists log. split; [exact Hm|]. exact (Hc Ha).
Defined.

Lemma published_was_verified_witness :
  ∃ c, published_as jsonb_text jsonb_eq sha256_hex (perform (submitted_calls ++ later_calls) opened).1
         (run_id "1") orders (object "1") 7 c ∧ matches c.
Proof.
  assert (Hm : moving opened ([Attested claim] ++ [Published orders (run_id "1") (object "1") 7 None 1])
    (perform (submitted_calls ++ later_calls) opened).1).
  { assert (El : (perform (submitted_calls ++ later_calls) opened).2
      = [Attested claim] ++ [Published orders (run_id "1") (object "1") 7 None 1]) by (vm_compute; reflexivity).
    rewrite <- El. apply exec_all_moves. cbn [all_allowed app submitted_calls later_calls allowed].
    split_and!; try exact I. intros k Hk. rewrite (one_candidate _ _ Hk). apply claim_matches. }
  assert (Hd : claims_digested jsonb_text sha256_hex opened)
    by (intros c [(i & k & Hk & _)|(i & k & Hk & _)]; discriminate Hk).
  exact (published_was_verified jsonb_text jsonb_eq time_text sha256_hex hmac_hex md5_hex pg_type store_cell cell_text
    parquet_file json_loads config content opened [Attested claim] orders (run_id "1") (object "1") 7 None 1 [] _
    opened_consistent eq_refl Hd Hm).
Defined.
End Desk.
