(* ===== verification/PublishedSnapshots.v ===== *)
(** What the readers take from the publication authority: the snapshots of the
    refinement service (refinement/app/publication_snapshot.py), with the state of
    the inputs of a dataset (publication_inputs.py), and the heads of the
    infrastructure gateway (mcp-infra/app/publication_heads.py).

    A read is one transaction, repeatable read; its query sees the rows of the
    session's scope.  Which SQLSTATEs the driver raises as an [OperationalError] and
    the names of exception classes are parameters. *)
From S2P Require Import Prelude PyStr PyVal PyTime PyUrl PyJson PyIo PyUuid StorageScope SignedContext Publication PublicationSafety PartitionedParquet PublicationStore PublicationVerifier.

Open Scope Z_scope.

(** ** Snapshots *)

(** The exact columns of a snapshot: those of the evidence the receipt speaks of. *)
Record Exact := mkExact {
  x_object : Object; x_row_count : Z; x_schema_digest : string; x_evidence_digest : string }.

#[export] Instance exact_eq_dec : EqDecision Exact.
Proof. solve_decision. Defined.

Record SnapshotHead := mkSnapshotHead {
  sh_run : string;
  sh_generation : Z;
  sh_published_at : instant;
  sh_status : string;
  sh_gold_table : option string;
  sh_input_digest : string;
  sh_contract_digest : string;
  sh_exact : option Exact;
  sh_receipt_id : option string }.

(** The exact columns once more, with the lineage and the catalog. *)
Record SnapshotEvidence := mkSnapshotEvidence { se_run : string; se_exact : Exact; se_lineage : pyval; se_catalog : pyval }.

Record PublicationSnapshot := mkSnapshot { sn_scope : PublicationScope; sn_head : SnapshotHead; sn_evidence : option SnapshotEvidence }.

(** The receipt of a head, and the evidence it speaks of. *)
Definition receipt_at (x : PublicationScope) (h : Head) (db : Authority) : option Receipt :=
  match receipts db !! h_run h with
  | Some rc => if bool_decide (rc_scope rc = x) && (rc_generation rc =? h_generation h) then Some rc else None
  | None => None
  end.
Definition evidence_at (x : PublicationScope) (h : Head) (rc : Receipt) (db : Authority) : option Evidence :=
  match evidence db !! h_run h with
  | Some e =>
      if bool_decide (e_scope e = x) && bool_decide (o_version (e_object e) = rc_object_version rc)
         && bool_decide (o_checksum (e_object e) = rc_object_checksum rc) && bool_decide (e_schema_digest e = rc_schema_digest rc)
         && bool_decide (e_evidence_digest e = rc_evidence_digest rc) && (e_row_count e =? rc_row_count rc)
      then Some e else None
  | None => None
  end.

(** A row of the query of [_read_many]. *)
Record SnapshotRow := mkSnapshotRow { sr_head : Head; sr_run : Run; sr_receipt : option Receipt; sr_evidence : option Evidence }.

Definition head_row (s : session) (x : PublicationScope) (db : Authority) : option SnapshotRow :=
  match head_in s x db with
  | None => None
  | Some h =>
      match visible_run s (h_run h) db with
      | None => None
      | Some r =>
          if negb (bool_decide (r_scope r = x)) then None
          else
            let rc := receipt_at x h db in
            Some (mkSnapshotRow h r rc (match rc with Some rc => evidence_at x h rc db | None => None end))
      end
  end.

Definition exact_of (e : Evidence) : Exact := mkExact (e_object e) (e_row_count e) (e_schema_digest e) (e_evidence_digest e).

Definition _snapshot_from_row (x : PublicationScope) (row : SnapshotRow) : PublicationSnapshot :=
  let h := sr_head row in
  let r := sr_run row in
  mkSnapshot x
    (mkSnapshotHead (h_run h) (h_generation h) (h_published_at h) (r_status r) (r_gold_table r) (r_input_digest r)
       (r_contract_digest r) (exact_of <$> sr_evidence row) (rc_id <$> sr_receipt row))
    ((λ e, mkSnapshotEvidence (h_run h) (exact_of e) (e_lineage e) (e_catalog e)) <$> sr_evidence row).

Definition validate_snapshot (sn : PublicationSnapshot) : res unit :=
  let h := sn_head sn in
  if bool_decide (sh_status h = "legacy_unverified") then Ok tt
  else
    match sh_receipt_id h, sh_exact h with
    | Some _, Some x =>
        match sn_evidence sn with
        | Some e =>
            if bool_decide (se_run e = sh_run h) && bool_decide (se_exact e = x) then Ok tt
            else raise RuntimeError "published snapshot authority mismatch"
        | None => raise RuntimeError "published snapshot authority mismatch"
        end
    | _, _ => raise RuntimeError "published snapshot authority is incomplete"
    end.

(** [not version or version == "null"]. *)
Definition _require_pinned_version (version subject : string) : res unit :=
  if negb (nonempty version) || bool_decide (version = "null")
  then raise PublicationIntegrityError (subject +:+ " has no pinned version") else Ok tt.

Section Errors.
Context (operational : string → bool) (class_name : exn → string).

Definition _is_outage (e : exn) : bool :=
  match exn_cls e with
  | PgError state _ => operational state
  | PermissionError | TimeoutError | StorageError => true
  | _ => false
  end.

Definition publication_resolution_error (e : exn) : exn :=
  if _is_outage e then Exn PublicationHeadUnavailable ("publication head unavailable (http 503): " +:+ class_name e)
  else Exn PublicationIntegrityError ("publication integrity failed: " +:+ class_name e).
End Errors.

Definition is_resolution_error (e : exn) : bool :=
  exn_isa (exn_cls e) PublicationHeadUnavailable || exn_isa (exn_cls e) PublicationIntegrityError
  || exn_isa (exn_cls e) PublicationRecoveryPending.

Section Resolver.
Context {Hrepr : PyRepr}.
Context (operational : string → bool) (class_name : exn → string).
Context (uuid : string → option string).
(** [self.database_url], and the configuration of the storage when there is one. *)
Context (database_url : string) (storage : option StorageConfig).
Context {W : Type} {Hworld : PublicationWorld W} {Hstorage : ObjectStorage W}.

(** The first row of a scope is kept; a second one, or one of another scope, is an error. *)
Definition keep_row (found : list (PublicationScope * option PublicationSnapshot)) (xr : PublicationScope * SnapshotRow) :
    res (list (PublicationScope * option PublicationSnapshot)) :=
  match List.find (λ xs, bool_decide (xs.1 = xr.1)) found with
  | Some (_, None) =>
      Ok ((λ xs, if bool_decide (xs.1 = xr.1) then (xs.1, Some (_snapshot_from_row xr.1 xr.2)) else xs) <$> found)
  | _ => raise RuntimeError "publication snapshot batch result mismatch"
  end.

Definition _read_many (scopes : list PublicationScope) : io W (list (PublicationScope * option PublicationSnapshot)) :=
  let unique := dedup scopes in
  match unique with
  | [] => mret []
  | first :: _ =>
      if negb (forallb (λ x, bool_decide (s_tenant x = s_tenant first) && bool_decide (s_workspace x = s_workspace first)) scopes)
      then raises ValueError "publication snapshot batch scope mismatch"
      else
        transact database_url (λ l db,
          here ← scope_uuids uuid first;
          let row x :=
            head_row (_scope first) (mkScope (s_tenant here) (s_workspace here) (s_dataset x) (s_layer x)) db in
          let rows := omap (λ x, (λ r, (x, r)) <$> row x) unique in
          found ← foldR keep_row rows ((λ x, (x, None)) <$> unique);
          Ok (found, db))
  end.

Definition _read (x : PublicationScope) : io W (option PublicationSnapshot) :=
  found ← _read_many [x];
  match List.find (λ xs, bool_decide (xs.1 = x)) found with
  | Some (_, sn) => mret sn
  | None => raises KeyError ""
  end.

(** [path.lstrip("/")]. *)
Definition _validate_object (sn : PublicationSnapshot) : io W unit :=
  let h := sn_head sn in
  match storage with
  | None => mret tt
  | Some config =>
      if bool_decide (sh_status h = "legacy_unverified") then mret tt
      else
        match sh_exact h with
        | None => raises RuntimeError "published snapshot object is outside managed storage"
        | Some x =>
            let uri := o_uri (x_object x) in
            parsed ← of_res (urlsplit uri);
            let key := lstrip_char "/" (PyUrl.path parsed) in
            if negb (mem (scheme parsed) ["s3"; "gs"]) || negb (nonempty key)
            then raises RuntimeError "published snapshot object is outside managed storage"
            else
              canonical ← of_res (uri_for config key);
              if negb (bool_decide (canonical = uri)) then raises RuntimeError "published snapshot object scope mismatch"
              else
                _ ← of_res (_require_pinned_version (o_version (x_object x)) "published snapshot object");
                current ← handling (stat key (o_version (x_object x)))
                            (λ e, of_res (Raise (publication_resolution_error operational class_name e)));
                let recorded := default "" (st_checksum current) in
                if negb (nonempty recorded) then raises RuntimeError "published snapshot object has no recorded checksum"
                else if bool_decide (recorded = o_checksum (x_object x)) then mret tt
                else raises RuntimeError "published snapshot object checksum mismatch"
        end
  end.

(** [context["tenant_id"]] of a context whose values are texts. *)
Definition context_item (key : string) (context : pydict) : res string :=
  match dget key context with Some v => Ok (py_str v) | None => raise KeyError key end.

Definition snapshot_scope (tenant workspace : string) (ds : pydict) : PublicationScope :=
  mkScope tenant workspace (str_or_empty (get "name" ds)) (py_str (py_or (get "layer" ds) (PStr "silver"))).

Definition validated (sn : PublicationSnapshot) : io W unit :=
  _ ← of_res (validate_snapshot sn); _validate_object sn.

Definition published_snapshot (ds context : pydict) : io W (option PublicationSnapshot) :=
  tenant ← of_res (context_item "tenant_id" context);
  workspace ← of_res (context_item "workspace_id" context);
  sn ← _read (snapshot_scope tenant workspace ds);
  match sn with
  | None => mret None
  | Some sn => _ ← validated sn; mret (Some sn)
  end.

Fixpoint validate_all (found : list (PublicationScope * option PublicationSnapshot)) : io W unit :=
  match found with
  | [] => mret tt
  | (_, None) :: found => validate_all found
  | (_, Some sn) :: found => _ ← validated sn; validate_all found
  end.

Definition published_snapshots (datasets : list pydict) (context : pydict) : io W (list (option PublicationSnapshot)) :=
  scopes ← of_res (mapR (λ ds, tenant ← context_item "tenant_id" context; workspace ← context_item "workspace_id" context;
                               Ok (snapshot_scope tenant workspace ds)) datasets);
  found ← _read_many scopes;
  _ ← validate_all found;
  of_res (mapR (λ x, match List.find (λ xs, bool_decide (xs.1 = x)) found with
                     | Some (_, sn) => Ok sn
                     | None => raise KeyError ""
                     end) scopes).
End Resolver.

(** ** The state of the inputs of a dataset *)

(** An object in a listing. *)
Record Listed := mkListed { li_key : string; li_size : Z; li_etag : option string }.

Class ObjectListing (W : Type) := iter_list : string → W → res (list Listed) * W.

(** What the engine has: its storage, its bucket and the database of the publications. *)
Record engine := mkEngine { en_storage : StorageConfig; en_bucket : string; en_database : string }.

Definition _storage_scheme (en : engine) : string := if bool_decide (provider (en_storage en) = "gcs") then "gs" else "s3".
Definition _storage_uri (en : engine) (key : string) : string :=
  _storage_scheme en +:+ "://" +:+ en_bucket en +:+ "/" +:+ strip_char "/" key.
Definition _storage_uri_variants (en : engine) : list string :=
  let active := _storage_scheme en in
  (λ scheme, scheme +:+ "://" +:+ en_bucket en +:+ "/") <$> [active; if bool_decide (active = "s3") then "gs" else "s3"].

Definition _s3_object_key (en : engine) (uri : string) : option string :=
  match List.find (λ prefix, startswith prefix uri) (_storage_uri_variants en) with
  | Some prefix => let key := strip_char "/" (sdrop (slen prefix) uri) in if nonempty key then Some key else None
  | None => None
  end.

(** [^[a-zA-Z_][a-zA-Z0-9_]*$]. *)
Definition SAFE_IDENTIFIER_RE (s : string) : bool :=
  match s with "" => false | String c t => name_head c && sall (λ d, name_head d || is_dec_digit d) t end.
Definition validate_safe_identifier (value label : string) : res unit :=
  if SAFE_IDENTIFIER_RE value then Ok tt else raise ValueError ("Invalid " +:+ label +:+ " name").

Definition invalid_source {A} : res A := raise ValueError "Invalid bronze source".

(** [^[a-zA-Z0-9_./=*-]+$]. *)
Definition SAFE_S3_BRONZE_TAIL_RE : string → bool := all_of (λ c, is_ascii_alnum c || char_in c "_./=*-").

Definition _canonical_storage_uri (en : engine) (value : string) : string :=
  match List.find (λ prefix, startswith prefix value) (_storage_uri_variants en) with
  | Some prefix => _storage_uri en "" +:+ sdrop (slen prefix) value
  | None => value
  end.

Definition bronze_uri (source : string) : bool := startswith_any ["s3://"; "gs://"] source.

Definition _validate_bronze_source (en : engine) (source : string) : res string :=
  let source := strip source in
  if negb (nonempty source) then invalid_source
  else if existsb (λ token, contains token source) ["'"; quote_mark; ";"; ".."; "file://"; backslash; " "] then invalid_source
  else if startswith "/" source || startswith_any ["http://"; "https://"] source then invalid_source
  else if bronze_uri source then
    let source := _canonical_storage_uri en source in
    if negb (startswith (_storage_scheme en +:+ "://" +:+ en_bucket en +:+ "/raw/") source) then invalid_source
    else
      match split_on "/" (sdrop (slen (_storage_uri en "")) source) with
      | root :: cartridge :: entity :: rest =>
          if negb (bool_decide (root = "raw")) then invalid_source
          else
            _ ← validate_safe_identifier cartridge "cartridge";
            _ ← validate_safe_identifier entity "entity";
            if negb (Nat.eqb (length rest) 0) && negb (SAFE_S3_BRONZE_TAIL_RE (join "/" rest)) then invalid_source else Ok source
      | _ => invalid_source
      end
  else
    match split_on "/" source with
    | [root; cartridge; entity] =>
        if bool_decide (root = "raw") then
          _ ← validate_safe_identifier cartridge "cartridge";
          _ ← validate_safe_identifier entity "entity";
          Ok source
        else invalid_source
    | _ => invalid_source
    end.

Section Inputs.
Context {Hrepr : PyRepr}.

Definition _safe_scope_segment (value : pyval) (label : string) : res string :=
  let value := strip (str_or_empty value) in
  if negb (nonempty value) then Ok ""
  else if all_of (λ c, is_ascii_alnum c || char_in c "_.:-") value then Ok value else raise ValueError ("Invalid " +:+ label).

Definition _scope_values (context : pydict) : res (string * string) :=
  match context with
  | [] => Ok ("", "")
  | _ =>
      tenant ← _safe_scope_segment (get "tenant_id" context) "tenant_id";
      workspace ← _safe_scope_segment (get "workspace_id" context) "workspace_id";
      Ok (tenant, workspace)
  end.

Definition _bronze_path (en : engine) (source : string) (context : pydict) : res string :=
  source ← _validate_bronze_source en source;
  if bronze_uri source then Ok source
  else
    '(tenant, workspace) ← _scope_values context;
    Ok (_storage_uri en (source +:+ (if nonempty tenant && nonempty workspace
                                     then "/tenant_id=" +:+ tenant +:+ "/workspace_id=" +:+ workspace +:+ "/**/*.parquet"
                                     else "/load_date=*/batch_id=*/*.parquet"))).

(** Up to the first wildcard. *)
Definition _raw_prefix (en : engine) (source : string) (context : pydict) : res string :=
  uri ← _bronze_path en source context;
  Ok (split_before (λ c, char_in c "*?") (default "" (_s3_object_key en uri))).1.

Context (operational : string → bool) (class_name : exn → string).
Context (uuid : string → option string).
(** [exposure_input_state], the input a materializer adds of its own. *)
Context (_materializer_input_state : pydict → list pyval).
Context (en : engine).
Context {W : Type} {Hworld : PublicationWorld W} {Hstorage : ObjectStorage W} {Hlisting : ObjectListing W}.

Definition raw_object (o : Listed) : res (option (string * pyval)) :=
  if negb (endswith ".parquet" (li_key o)) then Ok None
  else
    let etag := strip (default "" (li_etag o)) in
    if negb (nonempty etag) then raise RuntimeError ("raw input object has no identity: " +:+ li_key o)
    else Ok (Some (li_key o, PDict (mkdict [("key", PStr (li_key o)); ("size", PInt (li_size o)); ("etag", PStr etag)]))).

Definition _raw_state (source : string) (context : pydict) : io W pyval :=
  prefix ← of_res (_raw_prefix en source context);
  listed ← iter_list prefix;
  objects ← of_res (mapR raw_object listed);
  mret (PDict (mkdict [("source", PStr source);
                       ("objects", PList (snd <$> sort_by (λ a b, String.leb a.1 b.1) (omap id objects)))])).

(** [except PUBLICATION_RESOLUTION_ERRORS: raise] and the clause after it. *)
Definition resolution_error {A} (e : exn) : io W A :=
  of_res (Raise (if is_resolution_error e then e else publication_resolution_error operational class_name e)).

Definition resolve_snapshot (ds context : pydict) : io W (option PublicationSnapshot) :=
  handling (if nonempty (en_database en)
            then published_snapshot operational class_name uuid (en_database en) (Some (en_storage en)) ds context
            else raises RuntimeError "GOLD_DATABASE_URL is required for publication snapshots")
    resolution_error.

Definition published_value (run : string) (generation : Z) (checksum version uri status : string) (gold : option string) : pyval :=
  PDict (mkdict [("run", PStr run); ("generation", PInt generation); ("checksum", PStr checksum);
                 ("object_version", PStr version); ("uri", PStr uri); ("status", PStr status); ("gold_table", opt_str gold)]).

Definition published_source (source : string) (published : pyval) : pyval :=
  PDict (mkdict [("source", PStr source); ("published", published)]).

(** [layer, cartridge, dataset] of a source of three parts. *)
Definition _published_state (source layer cartridge dataset : string) (context : pydict) : io W pyval :=
  sn ← resolve_snapshot (mkdict [("name", PStr dataset); ("layer", PStr layer); ("cartridge", PStr cartridge)]) context;
  match sn_head <$> sn with
  | None => mret (published_source source PNone)
  | Some h =>
      let o := default (mkObject "" "" "") (x_object <$> sh_exact h) in
      match _s3_object_key en (o_uri o) with
      | None => raises PublicationIntegrityError "published dependency is outside managed storage"
      | Some key =>
          _ ← of_res (_require_pinned_version (o_version o) "published dependency");
          current ← handling (stat key (o_version o))
                      (λ e, of_res (Raise (publication_resolution_error operational class_name e)));
          let actual := default "" (st_checksum current) in
          if negb (nonempty actual) then raises PublicationIntegrityError "published dependency has no recorded checksum"
          else if negb (bool_decide (actual = o_checksum o))
          then raises PublicationIntegrityError "published dependency checksum mismatch"
          else mret (published_source source
                       (published_value (sh_run h) (sh_generation h) actual (o_version o) (o_uri o) (sh_status h) (sh_gold_table h)))
      end
  end.

Definition resolve_source (context : pydict) (raw : pyval) : io W pyval :=
  let source := strip_char "/" (strip (str_or_empty raw)) in
  match split_on "/" source with
  | [layer; cartridge; dataset] =>
      if bool_decide (layer = "raw") then _raw_state source context
      else if mem layer ["silver"; "gold"] then _published_state source layer cartridge dataset context
      else mret (PDict (mkdict [("source", PStr source); ("unsupported", PBool true)]))
  | _ => mret (PDict (mkdict [("source", PStr source); ("unsupported", PBool true)]))
  end.

Fixpoint resolve_sources (context : pydict) (sources : list pyval) : io W (list pyval) :=
  match sources with
  | [] => mret []
  | raw :: sources => state ← resolve_source context raw; states ← resolve_sources context sources; mret (state :: states)
  end.

Definition resolve_input_state (dataset context : pydict) : io W (list pyval) :=
  sources ← of_res (py_iter (py_or (get "sources" dataset) (PList [])));
  resolved ← resolve_sources context sources;
  mret (resolved ++ _materializer_input_state dataset).
End Inputs.

(** ** The heads of the gateway *)

Module Gateway.
Record HeadEntry := mkHeadEntry {
  he_run : string; he_generation : Z; he_uri : string; he_checksum : string; he_row_count : Z; he_catalog : pyval }.

(** The entry of a head whose run is published, with its receipt and its evidence, all of one object. *)
Definition entry (s : session) (x : PublicationScope) (h : Head) (db : Authority) : option HeadEntry :=
  match visible_run s (h_run h) db, receipt_at x h db with
  | Some r, Some rc =>
      match evidence_at x h rc db, r_object r with
      | Some e, Some o =>
          if bool_decide (r_scope r = x) && bool_decide (r_status r = "published") && bool_decide (e_object e = o)
             && bool_decide (r_row_count r = Some (e_row_count e)) && bool_decide (r_schema_digest r = Some (e_schema_digest e))
             && bool_decide (r_evidence_digest r = Some (e_evidence_digest e)) && _HEX_64 (o_checksum o)
          then Some (mkHeadEntry (h_run h) (h_generation h) (o_uri o) (o_checksum o) (e_row_count e) (e_catalog e))
          else None
      | _, _ => None
      end
  | _, _ => None
  end.

(** The rows of the query for a tenant and a workspace. *)
Definition query_heads (s : session) (tenant workspace : string) (db : Authority) : list ((string * string) * HeadEntry) :=
  omap (λ xh : PublicationScope * Head,
    let x := xh.1 in
    if bool_decide (s_tenant x = tenant) && bool_decide (s_workspace x = workspace) && in_session s x
    then (λ e, ((s_dataset x, s_layer x), e)) <$> entry s x xh.2 db else None) (map_to_list (heads db)).

(** [_ref]: the bucket and the key of a URI. *)
Definition _ref (uri : string) : res (string * string) :=
  parsed ← urlsplit uri;
  if negb (mem (scheme parsed) ["s3"; "gs"]) || negb (nonempty (netloc parsed)) then Ok ("", "")
  else Ok (netloc parsed, lstrip_char "/" (PyUrl.path parsed)).

Definition materialized_object (key : string) : bool := mem (split_once "/" (lstrip_char "/" key)).1 ["silver"; "gold"].

Definition pair_leb (a b : string * string) : bool :=
  if bool_decide (a.1 = b.1) then String.leb a.2 b.2 else String.leb a.1 b.1.

Section Heads.
Context {Hrepr : PyRepr}.
Context (uuid : string → option string) (sha256_hex : string → string).
(** The credentials of the settings, and the address they give. *)
Context (user password dsn : string).
Context {W : Type} {Hworld : PublicationWorld W}.

Definition scope_of (context : pydict) : res (string * string) :=
  let tenant := field "tenant_id" context in
  let workspace := field "workspace_id" context in
  if negb (nonempty tenant) || negb (nonempty workspace)
  then raise PermissionError "published objects require tenant/workspace scope" else Ok (tenant, workspace).

Definition published_heads (context : pydict) : io W (list ((string * string) * HeadEntry)) :=
  scope ← of_res (scope_of context);
  if negb (nonempty user) || negb (nonempty password) then raises RuntimeError "Gold publication reader credentials are required"
  else
    transact dsn (λ l db,
      tenant ← as_uuid uuid scope.1;
      workspace ← as_uuid uuid scope.2;
      Ok (query_heads (mkSession scope.1 scope.2) tenant workspace db, db)).

Definition keys_in (bucket : string) (refs : list (string * string)) : list string :=
  omap (λ ref, if bool_decide (ref.1 = bucket) && nonempty ref.2 then Some ref.2 else None) refs.

(** The keys of the published objects in a bucket. *)
Definition object_keys (bucket : string) (found : list ((string * string) * HeadEntry)) : res (list string) :=
  refs ← mapR (λ kv : (string * string) * HeadEntry, _ref (he_uri kv.2)) found;
  Ok (keys_in bucket refs).

Definition published_objects (context : pydict) (bucket : string) : io W (list string) :=
  found ← published_heads context; of_res (object_keys bucket found).

Definition epoch_line (kv : (string * string) * HeadEntry) : string :=
  kv.1.1 +:+ "|" +:+ kv.1.2 +:+ "|" +:+ he_run kv.2 +:+ "|" +:+ str_of_Z (he_generation kv.2).

Definition epoch_of (found : list ((string * string) * HeadEntry)) : string :=
  sha256_hex (utf8 (join (one NUL) (epoch_line <$> sort_by (λ a b, pair_leb a.1 b.1) found))).

Definition publication_epoch (context : pydict) : io W string :=
  found ← published_heads context; mret (epoch_of found).

Definition published_dataset_names (context : pydict) : io W (list string) :=
  handling (found ← published_heads context; mret (dedup ((λ kv, kv.1.1) <$> found)))
    (λ e, if exn_isa (exn_cls e) PermissionError || exn_isa (exn_cls e) RuntimeError then mret [] else of_res (Raise e)).

Definition scoped_semantic_source_name (base tenant workspace : string) : io W string :=
  if negb (nonempty tenant) || negb (nonempty workspace) then mret base
  else
    epoch ← publication_epoch (mkdict [("tenant_id", PStr tenant); ("workspace_id", PStr workspace)]);
    mret (base +:+ ":head:" +:+ epoch +:+ ":tenant:" +:+ tenant +:+ ":workspace:" +:+ workspace).

(** The key, when it is canonical and in the scope of the context. *)
Definition allowed_key (key : string) (context : pydict) (bucket : string) : res (option string) :=
  match Scope.canonical_storage_key (PStr key) false with
  | Raise e => if exn_isa (exn_cls e) ValueError then Ok None else Raise e
  | Ok clean =>
      match Scope.scoped_storage_allowed (PStr clean) (PDict context) (Some bucket) with
      | Ok allowed => Ok (if allowed : bool then Some clean else None)
      | Raise e => Raise e
      end
  end.

Definition published_object (key : string) (context : pydict) (bucket : string) : io W bool :=
  clean ← of_res (allowed_key key context bucket);
  match clean with
  | None => mret false
  | Some clean =>
      if negb (materialized_object clean) then mret (bool_decide ((split_once "/" clean).1 = "raw"))
      else keys ← published_objects context bucket; mret (mem clean keys)
  end.

Fixpoint checksum_of (bucket clean : string) (found : list ((string * string) * HeadEntry)) : res (option string) :=
  match found with
  | [] => Ok None
  | kv :: found =>
      ref ← _ref (he_uri kv.2);
      if bool_decide (ref = (bucket, clean)) then Ok (if nonempty (he_checksum kv.2) then Some (he_checksum kv.2) else None)
      else checksum_of bucket clean found
  end.

Definition published_object_checksum (key : string) (context : pydict) (bucket : string) : io W (option string) :=
  clean ← of_res (allowed_key key context bucket);
  match clean with
  | None => mret None
  | Some clean => found ← published_heads context; of_res (checksum_of bucket clean found)
  end.

Definition published_prefix (key : string) (context : pydict) (bucket : string) : io W bool :=
  clean ← of_res (allowed_key key context bucket);
  match clean with
  | None => mret false
  | Some clean =>
      if negb (materialized_object clean) then mret (bool_decide ((split_once "/" clean).1 = "raw"))
      else
        keys ← published_objects context bucket;
        mret (existsb (λ value, bool_decide (value = rstrip_char "/" clean) || startswith clean value) keys)
  end.
End Heads.
End Gateway.

(** ** What the readers read of the same tables *)

(** A head whose run is published, with what the readers join to it. *)
Definition published_at (x : PublicationScope) (h : Head) (r : Run) (rc : Receipt) (e : Evidence) (db : Authority) : Prop :=
  r_status r = "published" ∧ receipt_at x h db = Some rc ∧ evidence_at x h rc db = Some e
  ∧ r_object r = Some (e_object e) ∧ r_row_count r = Some (e_row_count e) ∧ r_schema_digest r = Some (e_schema_digest e)
  ∧ r_evidence_digest r = Some (e_evidence_digest e) ∧ _HEX_64 (o_checksum (e_object e)) = true.

Lemma head_in_ok s x db h : head_in s x db = Some h → heads db !! x = Some h ∧ in_session s x = true.
Proof. unfold head_in. by destruct (in_session s x). Qed.

Lemma head_reads s x db h :
  consistent db → claims_ok db → head_in s x db = Some h →
  ∃ r, visible_run s (h_run h) db = Some r ∧ r_scope r = x
    ∧ (r_status r = "legacy_unverified" ∨ ∃ rc e, published_at x h r rc e db).
Proof.
  intros Hc Hok [Hh Hin]%head_in_ok. destruct (cn_heads db Hc x h Hh) as (r & Hr & Hx & Hcase). exists r.
  unfold visible_run. rewrite Hr, Hx, Hin. do 2 (split; [done|]).
  destruct Hcase as [Hl|(_ & rc & Hrc & Hg)]; [by left|right].
  destruct (cn_receipts db Hc _ rc Hrc) as (r' & Hr' & Hs & Hscope & _ & _ & Hsd & Hed & o & rows & e & id & a & H1 & H2 & H3 & H4 & H5
    & H6 & H7 & H8 & H9 & H10 & H11 & _ & H13 & _ & _ & H16 & _).
  rewrite Hr in Hr'. injection Hr' as <-. exists rc, e. subst o x. unfold published_at, receipt_at, evidence_at.
  rewrite Hrc, H6, Hscope, H7, Hg, H4, H3, H10, H11, H5, H9, !Z.eqb_refl, !bool_decide_eq_true_2 by done. cbn [andb].
  split_and!; try done; try congruence.
  assert (Ho : object_ok (c_object (a_claim a)) = true) by (apply Hok; right; by exists id, a).
  rewrite H16 in Ho. unfold object_ok in Ho. by boolify.
Qed.

(** What a reader of the gateway has agrees with the exact columns of a snapshot. *)
Definition same_reading (en : Gateway.HeadEntry) (sn : PublicationSnapshot) : Prop :=
  sh_status (sn_head sn) = "published" ∧ Gateway.he_run en = sh_run (sn_head sn)
  ∧ Gateway.he_generation en = sh_generation (sn_head sn)
  ∧ ∃ x, sh_exact (sn_head sn) = Some x ∧ Gateway.he_uri en = o_uri (x_object x)
      ∧ Gateway.he_checksum en = o_checksum (x_object x) ∧ Gateway.he_row_count en = x_row_count x
      ∧ Gateway.he_catalog en = default PNone (se_catalog <$> sn_evidence sn).

Lemma published_reads s x h r rc e db :
  visible_run s (h_run h) db = Some r → r_scope r = x → published_at x h r rc e db →
  Gateway.entry s x h db
    = Some (Gateway.mkHeadEntry (h_run h) (h_generation h) (o_uri (e_object e)) (o_checksum (e_object e)) (e_row_count e) (e_catalog e))
  ∧ validate_snapshot (_snapshot_from_row x (mkSnapshotRow h r (Some rc) (Some e))) = Ok tt.
Proof.
  intros Hv Hx (Hs & Hrc & He & Ho & Hrows & Hsd & Hed & Hhex). split.
  - unfold Gateway.entry. by rewrite Hv, Hrc, He, Ho, Hhex, !bool_decide_eq_true_2.
  - unfold validate_snapshot, _snapshot_from_row. cbn. rewrite Hs.
    rewrite (bool_decide_eq_false_2 ("published" = "legacy_unverified")) by done. by rewrite !bool_decide_eq_true_2.
Qed.

Lemma head_row_of s x h r db :
  head_in s x db = Some h → visible_run s (h_run h) db = Some r → r_scope r = x →
  head_row s x db = Some (mkSnapshotRow h r (receipt_at x h db)
                            (match receipt_at x h db with Some rc => evidence_at x h rc db | None => None end)).
Proof. intros Hh Hr Hx. unfold head_row. by rewrite Hh, Hr, bool_decide_eq_true_2. Qed.

Lemma legacy_entry s x h r db :
  visible_run s (h_run h) db = Some r → r_status r = "legacy_unverified" → Gateway.entry s x h db = None.
Proof.
  intros Hr Hs. unfold Gateway.entry. rewrite Hr. destruct (receipt_at x h db) as [rc|]; [|done].
  destruct (evidence_at x h rc db) as [e|]; [|done]. destruct (r_object r) as [o|]; [|done].
  rewrite (bool_decide_eq_false_2 (r_status r = "published")) by (by rewrite Hs). by rewrite andb_false_r.
Qed.

Lemma query_heads_elem s x h en db :
  heads db !! x = Some h → in_session s x = true → Gateway.entry s x h db = Some en →
  ((s_dataset x, s_layer x), en) ∈ Gateway.query_heads s (s_tenant x) (s_workspace x) db.
Proof.
  intros Hh Hin He. unfold Gateway.query_heads. apply list_elem_of_omap. exists (x, h). split; [by apply elem_of_map_to_list|].
  cbn. by rewrite Hin, He, !bool_decide_eq_true_2.
Qed.

Section Readers.
Context (jsonb_text : pyval → string) (jsonb_eq : pyval → pyval → bool) (time_text : instant → string).
Context (sha256_hex : string → string) (hmac_hex : string → string → string) (md5_hex : string → string).
Context (pg_type : string → option string) (store_cell : string → pyval → option pyval) (cell_text : pyval → option string).

Abbreviation exec_all := (exec_all jsonb_text jsonb_eq time_text sha256_hex hmac_hex md5_hex pg_type store_cell cell_text).

(** The two readers agree, whatever has been called: for every head the session
    sees, the snapshot query has a row that is complete and valid; the gateway has an
    entry of the head exactly when its run is published, with the run, generation,
    object, checksum, row count and catalog of the snapshot; a legacy run has none. *)
Theorem readers_agree ops db0 db log s x h :
  consistent db0 → claims_ok db0 → exec_all ops db0 = (db, log) → head_in s x db = Some h →
  ∃ row, head_row s x db = Some row
    ∧ let sn := _snapshot_from_row x row in
      validate_snapshot sn = Ok tt ∧ sn_scope sn = x ∧ sh_run (sn_head sn) = h_run h ∧ sh_generation (sn_head sn) = h_generation h
      ∧ match Gateway.entry s x h db with
        | Some en => same_reading en sn
        | None => sh_status (sn_head sn) = "legacy_unverified"
        end.
Proof.
  intros Hc Hok Hss%exec_all_steps Hh. pose proof (steps_consistent _ _ _ _ _ _ _ _ Hc Hss) as Hc'.
  pose proof (steps_claims_ok _ _ _ _ _ _ _ _ Hss Hok) as Hok'.
  destruct (head_reads s x db h Hc' Hok' Hh) as (r & Hr & Hx & Hcase). eexists. split; [by apply head_row_of|].
  destruct Hcase as [Hl|(rc & e & Hp)].
  - rewrite (legacy_entry _ _ _ _ _ Hr Hl). cbn. split; [|done]. unfold validate_snapshot. cbn. by rewrite Hl.
  - destruct (published_reads s x h r rc e db Hr Hx Hp) as [He Hv]. destruct Hp as (Hs & Hrc & Hev & _). rewrite Hrc, Hev, He.
    do 4 (split; [done|]). do 3 (split; [done|]). by exists (exact_of e).
Qed.

(** C15: A reader sees the last publication: when [run] is the last run of a dataset
    that is published in a sequence of calls, the snapshot query and the gateway give
    a session of that scope that run, its generation, and the object and row count
    it was published with. *)
Theorem readers_see_last_publication ops db0 db l1 x run o rows previous generation l2 s :
  consistent db0 → claims_ok db0 → exec_all ops db0 = (db, l1 ++ Published x run o rows previous generation :: l2) →
  published_in x l2 = [] → in_session s x = true →
  ∃ row e en, head_row s x db = Some row ∧ sr_evidence row = Some e
    ∧ validate_snapshot (_snapshot_from_row x row) = Ok tt
    ∧ ((s_dataset x, s_layer x), en) ∈ Gateway.query_heads s (s_tenant x) (s_workspace x) db
    ∧ same_reading en (_snapshot_from_row x row)
    ∧ h_run (sr_head row) = run ∧ h_generation (sr_head row) = generation ∧ e_object e = o ∧ e_row_count e = rows.
Proof.
  intros Hc Hok Hss%exec_all_steps Hlast Hin. pose proof (steps_consistent _ _ _ _ _ _ _ _ Hc Hss) as Hc'.
  pose proof (steps_claims_ok _ _ _ _ _ _ _ _ Hss Hok) as Hok'.
  assert (exists h, heads db !! x = Some h ∧ h_run h = run ∧ h_generation h = generation) as (h & Hh & Hrun & Hgen).
  { pose proof (steps_register _ _ _ _ _ _ _ _ x Hss) as Hreg. rewrite published_in_app in Hreg.
    unfold published_in at 2 in Hreg. cbn in Hreg. rewrite decide_True in Hreg by done.
    change (omap _ l2) with (published_in x l2) in Hreg. rewrite Hlast in Hreg. apply register_last in Hreg.
    unfold register_of in Hreg. destruct (heads db !! x) as [h|]; [|done]. exists h. by injection Hreg. }
  destruct (published_after _ _ _ _ _ _ _ _ x run o rows previous generation Hc Hss) as (r & rc & Hr & Hs & _ & Ho & Hrows & _);
    [apply elem_of_app; right; by left|].
  assert (Hh' : head_in s x db = Some h) by (unfold head_in; by rewrite Hin).
  destruct (head_reads s x db h Hc' Hok' Hh') as (r' & Hr' & Hx & Hcase).
  assert (r' = r) as -> by (apply visible_ok in Hr'; congruence).
  destruct Hcase as [Hl|(rc' & e & Hp)]; [by rewrite Hs in Hl|].
  destruct (published_reads s x h r rc' e db Hr' Hx Hp) as [He Hv]. destruct Hp as (_ & Hrc & Hev & Ho' & Hrows' & _).
  eexists (mkSnapshotRow h r (Some rc') (Some e)), e, _. split; [|split; [done|split; [exact Hv|]]].
  { erewrite head_row_of by done. by rewrite Hrc, Hev. }
  split; [by eapply query_heads_elem|]. split.
  { do 3 (split; [done|]). by exists (exact_of e). }
  do 2 (split; [done|]). split; congruence.
Qed.
End Readers.

(** ** What a snapshot that is handed out is *)

Section Pinned.
Context {Hrepr : PyRepr}.
Context (operational : string → bool) (class_name : exn → string).
Context (uuid : string → option string) (database_url : string) (config : StorageConfig).
Context {W : Type} {Hworld : PublicationWorld W} {Hstorage : ObjectStorage W}.

Abbreviation read := (_read uuid database_url).

(** The object of a snapshot, as the storage has it at the version of the authority. *)
Definition pinned (sn : PublicationSnapshot) : Prop :=
  ∃ x key, sh_exact (sn_head sn) = Some x ∧ uri_for config key = Ok (o_uri (x_object x))
    ∧ o_version (x_object x) ∉ [""; "null"]
    ∧ ∃ w current w', stat key (o_version (x_object x)) w = (Ok current, w') ∧ st_checksum current = Some (o_checksum (x_object x)).

Lemma validate_object_pinned sn w w' :
  _validate_object operational class_name (Some config) sn w = (Ok tt, w') →
  sh_status (sn_head sn) = "legacy_unverified" ∨ pinned sn.
Proof.
  unfold _validate_object. intros H. case_bool_decide as Hs; [by left|]. right.
  destruct (sh_exact (sn_head sn)) as [x|] eqn:Ex; [|done]. apply io_bind_ok in H as (parsed & w1 & _ & H). cbv zeta in H.
  destruct (_ || _) in H; [done|]. apply io_bind_ok in H as (canonical & w2 & [Hk ->]%of_res_ok & H).
  destruct (bool_decide (canonical = _)) eqn:Ec in H; [|done]. apply bool_decide_eq_true in Ec as ->. cbn [negb] in H.
  apply io_bind_ok in H as ([] & w3 & [Hv ->]%of_res_ok & H). apply io_bind_ok in H as (current & w4 & Hst & H).
  apply handling_ok in Hst; [|done]. destruct (negb (nonempty _)) eqn:En in H; [done|].
  destruct (bool_decide _) eqn:Es in H; [|done]. apply bool_decide_eq_true in Es.
  exists x, (lstrip_char "/" (PyUrl.path parsed)). do 2 (split; [done|]). split.
  - unfold _require_pinned_version in Hv. destruct (negb (nonempty _)) eqn:E1 in Hv; [done|]. case_bool_decide as E2; [done|].
    rewrite !not_elem_of_cons. apply negb_false_iff, nonempty_true in E1. split_and!; [done|done|apply not_elem_of_nil].
  - exists w1, current, w4. split; [done|]. destruct (st_checksum current) as [c|]; [by rewrite <- Es|done].
Qed.

Lemma scope_uuids_ok x here :
  scope_uuids uuid x = Ok here → here = mkScope (s_tenant here) (s_workspace here) (s_dataset x) (s_layer x).
Proof. unfold scope_uuids. intros (t & _ & (v & _ & [= <-])%bind_ok)%bind_ok. done. Qed.

(** A row of the batch of one scope. *)
Lemma read_ok x w sn w' :
  read x w = (Ok (Some sn), w') →
  ∃ l w1 here row, dial w = (Ok l, w1) ∧ scope_uuids uuid x = Ok here ∧ head_row (_scope x) here (authority w1) = Some row
    ∧ sn = _snapshot_from_row x row.
Proof.
  unfold _read. intros (found & w1 & Hread & H)%io_bind_ok. unfold _read_many in Hread. cbv zeta in Hread.
  change (dedup [x]) with [x] in Hread. cbn [forallb] in Hread. rewrite !bool_decide_eq_true_2 in Hread by done. cbn [andb negb] in Hread.
  apply transact_ok in Hread as (l & w2 & db & Hd & Hf & ->). apply bind_ok in Hf as (here & Hhere & Hf).
  apply bind_ok in Hf as (found' & Hfound & [= -> <-]).
  cbn [omap list_omap] in Hfound. rewrite <- (scope_uuids_ok x here Hhere) in Hfound.
  destruct (head_row (_scope x) here (authority w2)) as [row|] eqn:Erow; cbn in Hfound.
  - unfold keep_row in Hfound. cbn in Hfound. rewrite bool_decide_eq_true_2 in Hfound by done. cbn in Hfound.
    injection Hfound as <-. cbn in H. rewrite bool_decide_eq_true_2 in H by done. injection H as <- _. by exists l, w2, here, row.
  - injection Hfound as <-. cbn in H. rewrite bool_decide_eq_true_2 in H by done. by injection H.
Qed.

(** A snapshot that is handed out is that of the scope of the context, as the
    tables had it in the transaction of the read; it is complete and valid, and unless
    it is a legacy one its URI is that of a key of the storage, its version is pinned,
    and the storage reports that version with the checksum of the authority. *)
Theorem snapshot_pinned ds context w sn w' :
  published_snapshot operational class_name uuid database_url (Some config) ds context w = (Ok (Some sn), w') →
  ∃ tenant workspace, context_item "tenant_id" context = Ok tenant ∧ context_item "workspace_id" context = Ok workspace
    ∧ (∃ l w1 here row, let x := snapshot_scope tenant workspace ds in
         dial w = (Ok l, w1) ∧ scope_uuids uuid x = Ok here ∧ head_row (mkSession tenant workspace) here (authority w1) = Some row
         ∧ sn = _snapshot_from_row x row)
    ∧ validate_snapshot sn = Ok tt ∧ (sh_status (sn_head sn) = "legacy_unverified" ∨ pinned sn).
Proof.
  unfold published_snapshot. intros (tenant & w1 & [Ht ->]%of_res_ok & H)%io_bind_ok.
  apply io_bind_ok in H as (workspace & w2 & [Hw ->]%of_res_ok & H). apply io_bind_ok in H as (found & w3 & Hread & H).
  destruct found as [sn'|]; [|done]. apply io_bind_ok in H as ([] & w4 & Hv & [= -> ->]).
  apply read_ok in Hread as (l & w1 & here & row & Hread). unfold validated in Hv.
  apply io_bind_ok in Hv as ([] & w5 & [Hv ->]%of_res_ok & Ho). exists tenant, workspace. do 2 (split; [done|]).
  split; [by exists l, w1, here, row|]. split; [done|]. by eapply validate_object_pinned.
Qed.
End Pinned.

(** ** What the gateway serves *)

Section Served.
Context {Hrepr : PyRepr}.
Context (uuid : string → option string) (user password dsn : string).
Context {W : Type} {Hworld : PublicationWorld W}.

(** The object at a key of a bucket is that of the current head of a dataset of the
    tenant and workspace: the run of the head is of that dataset and published, its
    receipt has the generation of the head, and its evidence has the object, the
    rows and the digests of the run and of the receipt. *)
Definition head_object (tenant workspace bucket key : string) (db : Authority) : Prop :=
  ∃ x h r rc e, heads db !! x = Some h ∧ s_tenant x = tenant ∧ s_workspace x = workspace
    ∧ runs db !! h_run h = Some r ∧ r_scope r = x ∧ r_status r = "published"
    ∧ receipts db !! h_run h = Some rc ∧ rc_scope rc = x ∧ rc_generation rc = h_generation h
    ∧ evidence db !! h_run h = Some e ∧ e_scope e = x
    ∧ r_object r = Some (e_object e) ∧ r_row_count r = Some (e_row_count e) ∧ r_schema_digest r = Some (e_schema_digest e)
    ∧ r_evidence_digest r = Some (e_evidence_digest e)
    ∧ rc_object_checksum rc = o_checksum (e_object e) ∧ rc_object_version rc = o_version (e_object e)
    ∧ rc_row_count rc = e_row_count e ∧ rc_schema_digest rc = e_schema_digest e ∧ rc_evidence_digest rc = e_evidence_digest e
    ∧ _HEX_64 (o_checksum (e_object e)) = true ∧ Gateway._ref (o_uri (e_object e)) = Ok (bucket, key).

Lemma receipt_at_ok x h db rc :
  receipt_at x h db = Some rc → receipts db !! h_run h = Some rc ∧ rc_scope rc = x ∧ rc_generation rc = h_generation h.
Proof.
  unfold receipt_at. destruct (receipts db !! h_run h) as [rc'|]; [|done]. destruct (_ && _) eqn:E; [|done]. intros [= ->].
  apply andb_true_iff in E as [E1%bool_decide_eq_true E2%Z.eqb_eq]. by split_and!.
Qed.

Lemma evidence_at_ok x h rc db e :
  evidence_at x h rc db = Some e →
  evidence db !! h_run h = Some e ∧ e_scope e = x ∧ rc_object_version rc = o_version (e_object e)
  ∧ rc_object_checksum rc = o_checksum (e_object e) ∧ rc_schema_digest rc = e_schema_digest e
  ∧ rc_evidence_digest rc = e_evidence_digest e ∧ rc_row_count rc = e_row_count e.
Proof.
  unfold evidence_at. destruct (evidence db !! h_run h) as [e'|]; [|done]. destruct (_ && _) eqn:E; [|done]. intros [= ->].
  rewrite !andb_true_iff, !bool_decide_eq_true, Z.eqb_eq in E. decompose [and] E. by split_and!.
Qed.

(** The entry of a head is that of its published run. *)
Lemma entry_head_object tenant workspace bucket key x h db en :
  heads db !! x = Some h → in_session (mkSession tenant workspace) x = true →
  Gateway.entry (mkSession tenant workspace) x h db = Some en → Gateway._ref (Gateway.he_uri en) = Ok (bucket, key) →
  head_object tenant workspace bucket key db.
Proof.
  intros Hh Hx He Href. unfold Gateway.entry, visible_run in He. destruct (runs db !! h_run h) as [r|] eqn:Er; [|done].
  destruct (in_session _ (r_scope r)); [|done]. destruct (receipt_at x h db) as [rc|] eqn:Erc; [|done].
  destruct (evidence_at x h rc db) as [e|] eqn:Ee; [|done]. destruct (r_object r) as [o|] eqn:Eo; [|done].
  destruct (_ && _) eqn:Ec in He; [|done]. injection He as <-. cbn [Gateway.he_uri] in Href.
  apply receipt_at_ok in Erc as (H1 & H2 & H3). apply evidence_at_ok in Ee as (H4 & H5 & H6 & H7 & H8 & H9 & H10).
  unfold in_session in Hx. cbn in Hx.
  rewrite !andb_true_iff, !bool_decide_eq_true in *. destruct Hx as [[_ Ht] Hw]. decompose [and] Ec. subst o.
  exists x, h, r, rc, e. by split_and!.
Qed.

Lemma query_heads_ok s tenant workspace db kv :
  kv ∈ Gateway.query_heads s tenant workspace db →
  ∃ x h, heads db !! x = Some h ∧ in_session s x = true ∧ Gateway.entry s x h db = Some kv.2.
Proof.
  unfold Gateway.query_heads. intros ([x h] & Hin%elem_of_map_to_list & H)%list_elem_of_omap. cbn in H.
  destruct (in_session s x) eqn:Es; [|by rewrite andb_false_r in H]. rewrite andb_true_r in H. destruct (_ && _) in H; [|done].
  destruct (Gateway.entry s x h db) as [en|] eqn:Ee; [|done]. injection H as <-. by exists x, h.
Qed.

(** C27: The gateway serves an object of the lakehouse only when its key is allowed
    to the context, and an object of the silver or gold layer only when it is the
    object of the current head of a dataset of the tenant and workspace of the
    context in the transaction of the request: a head whose run is published, with
    the receipt of its generation and the evidence of that object. *)
Theorem gateway_serves_heads key context bucket w w' :
  Gateway.published_object uuid user password dsn key context bucket w = (Ok true, w') →
  ∃ clean, Gateway.allowed_key key context bucket = Ok (Some clean)
    ∧ (Gateway.materialized_object clean = false ∧ (split_once "/" clean).1 = "raw"
       ∨ ∃ tenant workspace l w1, Gateway.scope_of context = Ok (tenant, workspace) ∧ dial w = (Ok l, w1)
           ∧ head_object tenant workspace bucket clean (authority w1)).
Proof.
  unfold Gateway.published_object. intros (allowed & w1 & [Ha ->]%of_res_ok & H)%io_bind_ok. destruct allowed as [clean|]; [|done].
  exists clean. split; [done|]. destruct (Gateway.materialized_object clean) eqn:Em; cbn [negb] in H.
  2: { left. split; [done|]. injection H as H _. by apply bool_decide_eq_true in H. }
  right. apply io_bind_ok in H as (keys & w2 & Hkeys & [= Hm _]). apply mem_true in Hm.
  apply io_bind_ok in Hkeys as (found & w3 & Hfound & [Hk ->]%of_res_ok).
  unfold Gateway.published_heads in Hfound. apply io_bind_ok in Hfound as ([tenant workspace] & w4 & [Hs ->]%of_res_ok & Hfound).
  destruct (_ || _) in Hfound; [done|]. apply transact_ok in Hfound as (l & w1 & db & Hd & Hf & _).
  apply bind_ok in Hf as (t & _ & Hf). apply bind_ok in Hf as (v & _ & [= <- <-]).
  exists tenant, workspace, l, w1. do 2 (split; [done|]). unfold Gateway.object_keys in Hk.
  apply bind_ok in Hk as (refs & Hrefs & [= <-]). unfold Gateway.keys_in in Hm.
  apply list_elem_of_omap in Hm as ([b k] & Hin & Hb). cbn in Hb. destruct (bool_decide (b = bucket)) eqn:Eb; [|done].
  apply bool_decide_eq_true in Eb as ->. destruct (nonempty k); [|done]. injection Hb as ->.
  apply mapR_ok in Hrefs. apply list_elem_of_lookup in Hin as [i Hi].
  destruct (Forall2_lookup_r _ _ _ _ _ Hrefs Hi) as (kv & Hkv & Href). apply list_elem_of_lookup_2 in Hkv.
  apply query_heads_ok in Hkv as (x & h & Hh & Hx & He). by eapply entry_head_object.
Qed.
End Served.

(** ** The readers of a morning of publications *)

Module Noon.
Import Morning.
#[local] Instance repr : PyRepr := some_repr.
#[local] Instance world : PublicationWorld Authority := {|
  authority w := w;
  set_authority db w := db;
  dial w := (Ok (mkLink 20 (run_id "a") true), w);
  lock k w := (Ok tt, w);
  unlock k w := (Ok tt, w) |}.
#[local] Instance storage : ObjectStorage Authority := {|
  get_bytes k v w := (Ok "PAR1", w);
  stat k v w := (Ok (mkStat (Some v) (Some (hex "2"))), w);
  bucket_versioning w := (Ok (Some "Enabled"), w) |}.
Definition uuid (s : string) : option string := Some s.
Definition config : StorageConfig := mkConfig "minio" "lake".
Definition context : pydict := mkdict [("tenant_id", PStr "t1"); ("workspace_id", PStr "w1");
    ("allowed_cartridges", PList [PStr "crm"])].
Definition dataset : pydict := mkdict [("name", PStr "orders")].
Definition key : string :=
  "silver/crm/orders/tenant_id=t1/workspace_id=w1/_pending/" +:+ repeat_char 32 "2" +:+ "/" +:+ hex "2" +:+ ".parquet".

Lemma opened_ok : claims_ok opened.
Proof. intros c [(? & ? & H & _)|(? & ? & H & _)]; discriminate H. Qed.

Definition noon_head : option Head := head_in here orders noon.
Lemma noon_head_is : register_of noon_head = Some (run_id "2", 2).
Proof. vm_compute. reflexivity. Qed.

Lemma readers_agree_witness :
  ∃ row, head_row here orders noon = Some row ∧ validate_snapshot (_snapshot_from_row orders row) = Ok tt
    ∧ sh_run (sn_head (_snapshot_from_row orders row)) = run_id "2".
Proof.
  pose proof noon_head_is as Hh. destruct noon_head as [h|] eqn:E; [|discriminate Hh]. injection Hh as Hrun _.
  destruct (readers_agree jsonb_text jsonb_eq time_text sha256_hex hmac_hex md5_hex pg_type store_cell cell_text calls opened noon
    morning_log here orders h opened_consistent opened_ok morning_ran E) as (row & H1 & H2 & _ & H3 & _).
  exists row. split; [exact H1|]. split; [exact H2|]. rewrite H3. exact Hrun.
Defined.

Lemma readers_see_last_publication_witness :
  ∃ row e, head_row here orders noon = Some row ∧ sr_evidence row = Some e ∧ h_run (sr_head row) = run_id "2"
    ∧ e_object e = object "2" ∧ e_row_count e = 7.
Proof.
  destruct (readers_see_last_publication jsonb_text jsonb_eq time_text sha256_hex hmac_hex md5_hex pg_type store_cell cell_text calls
    opened noon (take 4 morning_log) orders (run_id "2") (object "2") 7 (Some (run_id "1")) 2 [] here opened_consistent opened_ok
    morning_ran eq_refl eq_refl) as (row & e & en & H1 & H2 & _ & _ & _ & H3 & _ & H4 & H5).
  exists row, e. split_and!; assumption.
Defined.

Lemma snapshot_pinned_witness :
  ∃ sn, (published_snapshot (λ _, false) (λ _, "") uuid "postgresql://r" (Some config) dataset context noon).1 = Ok (Some sn)
    ∧ validate_snapshot sn = Ok tt ∧ pinned config sn.
Proof.
  destruct (published_snapshot (λ _, false) (λ _, "") uuid "postgresql://r" (Some config) dataset context noon)
    as [r w'] eqn:E.
  assert (Hr : match r with Ok (Some sn) => sh_status (sn_head sn) | _ => "" end = "published").
  { change r with (r, w').1. rewrite <- E. vm_compute. reflexivity. }
  destruct r as [[sn|]|e]; try discriminate Hr. exists sn. split; [reflexivity|].
  destruct (snapshot_pinned (λ _, false) (λ _, "") uuid "postgresql://r" config dataset context noon sn w' E)
    as (t & w & _ & _ & _ & Hv & [Hl|Hp]); [rewrite Hr in Hl; discriminate Hl|].
  split; [exact Hv|exact Hp].
Defined.

Lemma gateway_serves_heads_witness :
  (Gateway.published_object uuid "u" "p" "postgresql://r" key context "lake" noon).1 = Ok true
  ∧ head_object "t1" "w1" "lake" key noon.
Proof.
  destruct (Gateway.published_object uuid "u" "p" "postgresql://r" key context "lake" noon) as [r w'] eqn:E.
  assert (Hr : r = Ok true). { change r with (r, w').1. rewrite <- E. vm_compute. reflexivity. }
  split; [exact Hr|]. rewrite Hr in E.
  destruct (gateway_serves_heads uuid "u" "p" "postgresql://r" key context "lake" noon w' E)
    as (clean & Ha & [[_ Hw]|(t & v & l & w1 & Hs & Hd & H)]).
  - exfalso. vm_compute in Ha. injection Ha as <-. vm_compute in Hw. discriminate Hw.
  - vm_compute in Ha. injection Ha as <-. vm_compute in Hs. injection Hs as <- <-.
    pose proof (f_equal snd Hd) as Hw. change (noon = w1) in Hw. rewrite Hw. exact H.
Defined.
End Noon.
