(* ===== verification/PublicSemantics.v ===== *)
(** What is said of a publication in public: the descriptions, tags and
    relationships that enter its attested evidence
    (refinement/app/publication_semantics.py).

    The two tables of the console's catalog are lists of rows; a row is the dict of
    its columns.  The text of an UUID that PostgreSQL reads and the reading of JSON
    are parameters. *)
From S2P Require Import Prelude PyStr PyVal PyJson PyIo PyUuid Publication PublicationStore.

Open Scope Z_scope.

(** [^[A-Za-z0-9][A-Za-z0-9_.:-]{0,63}$]. *)
Definition _TAG (s : string) : bool :=
  match s with
  | "" => false
  | String c t => is_ascii_alnum c && sall (λ d, is_ascii_alnum d || char_in d "_.:-") t && Nat.leb (slen t) 63
  end.
Definition _CARDINALITIES : list string := ["1:1"; "1:N"; "N:1"; "N:N"].

Section Semantics.
Context {Hrepr : PyRepr}.
Context (json_loads : string → res pyval) (uuid : string → option string).

Definition _text (value : pyval) : string :=
  let text := strip (str_or_empty value) in
  if negb (nonempty text) || Nat.ltb 500 (slen text) || sany (λ c, (code c <? 32)%N) text then "" else text.

(** [item is None or type(item) in {bool, int, float}]. *)
Definition plain_item (v : pyval) : bool := match v with PNone | PBool _ | PInt _ | PFloat _ => true | _ => false end.

Definition _examples (value : pyval) : res (list pyval) :=
  v ← match value with
      | PStr text =>
          match json_loads text with
          | Ok v => Ok v
          | Raise e => if exn_isa (exn_cls e) JSONDecodeError then Ok (PList []) else Raise e
          end
      | v => Ok v
      end;
  Ok (match v with PList items => List.filter plain_item (take 20 items) | _ => [] end).

(** A row of [data_catalog] as the query selects it. *)
Definition _column (row : pydict) : res pydict :=
  let inferred := eq_str (get "description_origin" row) "copilot" in
  listed ← (if inferred then Ok [] else py_iter (py_or (get "tags" row) (PList [])));
  let tags := List.filter _TAG (py_str <$> take 16 listed) in
  examples ← _examples (get "example_values" row);
  Ok (mkdict [("description", PStr (if inferred then "" else _text (get "description" row))); ("tags", strs tags);
              ("is_key", PBool (truthy (get "is_key" row) && negb inferred));
              ("is_metric", PBool (truthy (get "is_metric" row) && negb inferred)); ("example_values", PList examples)]).

Definition JOIN_HINTS : list string := [""; "INNER"; "LEFT"; "RIGHT"; "FULL"].

Definition _relationship (row : pydict) (dataset : string) : option pydict :=
  let from_column := str_or_empty (get "from_column" row) in
  let to_dataset := str_or_empty (get "to_dataset" row) in
  let to_column := str_or_empty (get "to_column" row) in
  let hint := upper (str_or_empty (get "join_hint" row)) in
  if negb (forallb IDENTIFIER [dataset; from_column; to_dataset; to_column]) then None
  else
    let cardinality := str_or_empty (get "cardinality" row) in
    Some (mkdict ([("from_dataset", PStr dataset); ("from_column", PStr from_column); ("to_dataset", PStr to_dataset);
                   ("to_column", PStr to_column); ("join_hint", PStr (if mem hint JOIN_HINTS then hint else ""));
                   ("description", PStr (_text (get "description" row)))]
                  ++ (if mem cardinality _CARDINALITIES then [("cardinality", PStr cardinality)] else []))).

(** ** The tables of the catalog *)

Record Catalog := mkCatalog { data_catalog : list pydict; data_relationships : list pydict }.

(** [tenant_id=%s::uuid AND workspace_id=%s::uuid AND ... AND scope_status='scoped']. *)
Definition in_scope (tenant workspace column name : string) (row : pydict) : bool :=
  eq_str (get "tenant_id" row) tenant && eq_str (get "workspace_id" row) workspace && eq_str (get column row) name
  && eq_str (get "scope_status" row) "scoped".

(** [CASE WHEN description_origin='copilot' THEN '' ELSE description END]. *)
Definition selected_column (row : pydict) : pydict :=
  if eq_str (get "description_origin" row) "copilot" then dset "description" (PStr "") row else row.

(** [origin<>'copilot' AND status='active'], neither [NULL]. *)
Definition authored (row : pydict) : bool :=
  negb (is_none (get "origin" row)) && negb (eq_str (get "origin" row) "copilot") && eq_str (get "status" row) "active".

Definition catalog_columns (tenant workspace name : string) (c : Catalog) : res pydict :=
  foldR (λ d row, item ← _column (selected_column row); Ok (dset (py_str (get "column_name" row)) (PDict item) d))
    (List.filter (in_scope tenant workspace "dataset" name) (data_catalog c)) [].

Definition catalog_relationships (tenant workspace name : string) (c : Catalog) : list pydict :=
  omap (λ row, _relationship row name)
    (List.filter (λ row, in_scope tenant workspace "from_dataset" name row && authored row) (data_relationships c)).

(** The relationships a definition declares. *)
Definition declared_relationship (name : string) (v : pyval) : res (option pydict) :=
  match v with PDict row => Ok (_relationship row name) | _ => raise AttributeError "" end.
Definition declared_relationships (name : string) (dataset : pydict) : res (list pydict) :=
  rows ← py_iter (py_or (get "relationships" dataset) (PList []));
  found ← mapR (declared_relationship name) rows;
  Ok (omap (M:=list) id found).

Record Semantics := mkSemantics {
  m_columns : pydict; m_description : string; m_relationships : list pydict; m_sources : list pyval }.

(** [None]: there is no catalog to connect to. *)
Definition read_catalog (catalog : option Catalog) (tenant_id workspace_id name : string) (declared : list pydict) :
    res (pydict * list pydict) :=
  match catalog with
  | None => Ok ([], declared)
  | Some c =>
      tenant ← as_uuid uuid tenant_id;
      workspace ← as_uuid uuid workspace_id;
      columns ← catalog_columns tenant workspace name c;
      Ok (columns, catalog_relationships tenant workspace name c)
  end.

Definition snapshot_public_semantics (catalog : option Catalog) (tenant_id workspace_id : string) (dataset : pydict) :
    res Semantics :=
  let name := str_or_empty (get "name" dataset) in
  declared ← declared_relationships name dataset;
  cr ← read_catalog catalog tenant_id workspace_id name declared;
  sources ← py_iter (py_or (get "sources" dataset) (PList []));
  Ok (mkSemantics cr.1 (_text (get "description" dataset)) cr.2 sources).

(** ** What enters the evidence *)

(** A text of at most 500 characters without control characters. *)
Definition public_text (s : string) : Prop := (slen s ≤ 500)%nat ∧ sall (λ c, negb (code c <? 32)%N) s = true.

Lemma text_public v : public_text (_text v).
Proof.
  unfold _text, public_text. set (s := strip (str_or_empty v)).
  destruct (nonempty s); cbn [negb orb]; [|split; [cbn; lia|done]].
  destruct (Nat.ltb 500 (slen s)) eqn:El; cbn [orb]; [split; [cbn; lia|done]|]. apply Nat.ltb_ge in El.
  destruct (sany _ s) eqn:Es; [split; [cbn; lia|done]|]. split; [done|]. unfold sany in Es. by apply negb_false_iff in Es.
Qed.

(** The item of a column of the catalog. *)
Definition column_item (row item : pydict) : Prop :=
  (∃ text, get "description" item = PStr text ∧ public_text text)
  ∧ (∃ tags, get "tags" item = strs tags ∧ Forall (λ t, _TAG t = true) tags ∧ (length tags ≤ 16)%nat)
  ∧ (get "description_origin" row = PStr "copilot" →
     get "description" item = PStr "" ∧ get "tags" item = PList [] ∧ get "is_key" item = PBool false
     ∧ get "is_metric" item = PBool false).

Lemma column_ok row item : _column row = Ok item → column_item row item.
Proof.
  unfold _column, column_item. cbv zeta. set (inferred := eq_str (get "description_origin" row) "copilot").
  intros (listed & Hl & (examples & _ & [= <-])%bind_ok)%bind_ok. split; [|split].
  - exists (if inferred then "" else _text (get "description" row)). split; [reflexivity|].
    destruct inferred; [split; [cbn; lia|done]|apply text_public].
  - exists (List.filter _TAG (py_str <$> take 16 listed)). split; [reflexivity|]. split.
    + apply Forall_forall. by intros t [_ ?]%elem_of_List_filter.
    + rewrite filter_length_le, length_fmap, length_take. lia.
  - intros Hc. assert (Hi : inferred = true) by by apply eq_str_true. rewrite Hi in Hl |- *. injection Hl as <-.
    rewrite !andb_false_r. by split_and!.
Qed.

Lemma selected_origin row : get "description_origin" (selected_column row) = get "description_origin" row.
Proof. unfold selected_column. destruct (eq_str _ _); [|done]. by rewrite get_dset_ne. Qed.

(** A relationship between identifiers, from the dataset. *)
Definition relationship_ok (name : string) (r : pydict) : Prop :=
  get "from_dataset" r = PStr name ∧ Forall (λ k, ∃ s, get k r = PStr s ∧ IDENTIFIER s = true) ["from_dataset"; "from_column"; "to_dataset"; "to_column"]
  ∧ (∃ hint, get "join_hint" r = PStr hint ∧ hint ∈ JOIN_HINTS)
  ∧ ∃ text, get "description" r = PStr text ∧ public_text text.

Lemma relationship_of row name r : _relationship row name = Some r → relationship_ok name r.
Proof.
  unfold _relationship. cbv zeta. destruct (negb _) eqn:Ef; [done|]. apply negb_false_iff in Ef. cbn [forallb] in Ef. boolify.
  match goal with |- context [mkdict (_ ++ ?l)] => set (tail := l) end. intros [= <-].
  assert (Ht : tail = [] ∨ ∃ c, tail = [("cardinality", PStr c)]) by (unfold tail; destruct (mem _ _); eauto).
  clearbody tail. unfold relationship_ok. set (hint := upper _).
  assert (Hh : (if mem hint JOIN_HINTS then hint else "") ∈ JOIN_HINTS).
  { destruct (mem hint JOIN_HINTS) eqn:E; [by apply mem_true|by left]. }
  pose proof (text_public (get "description" row)) as Hp. set (text := _text _) in *. set (h := if mem hint JOIN_HINTS then _ else _) in *.
  clearbody text h. destruct Ht as [->|[c ->]].
  all: split_and!; [reflexivity| |exists h; by split|exists text; by split].
  all: repeat constructor; eexists; (split; [reflexivity|done]).
Qed.

(** What enters the attested evidence from the catalog is authored: each column is
    that of a row of the dataset in the tenant and workspace of the publication, a
    text the copilot wrote leaves no description, tag or flag of that row, and each
    relationship is an active one of that scope that the copilot did not make,
    between identifiers; every text is short and without control characters. *)
Theorem public_semantics_authored c tenant_id workspace_id dataset m :
  snapshot_public_semantics (Some c) tenant_id workspace_id dataset = Ok m →
  ∃ tenant workspace, uuid tenant_id = Some tenant ∧ uuid workspace_id = Some workspace
    ∧ (∀ k v, (k, v) ∈ m_columns m →
         ∃ row item, row ∈ data_catalog c ∧ in_scope tenant workspace "dataset" (str_or_empty (get "name" dataset)) row = true
           ∧ k = KStr (py_str (get "column_name" row)) ∧ v = PDict item ∧ column_item row item)
    ∧ (∀ r, r ∈ m_relationships m →
         ∃ row, row ∈ data_relationships c
           ∧ in_scope tenant workspace "from_dataset" (str_or_empty (get "name" dataset)) row = true
           ∧ authored row = true ∧ relationship_ok (str_or_empty (get "name" dataset)) r)
    ∧ public_text (m_description m).
Proof.
  unfold snapshot_public_semantics. cbv zeta. set (name := str_or_empty _). intros (declared & _ & H)%bind_ok.
  apply bind_ok in H as ([columns relationships] & Hc & (sources & _ & [= <-])%bind_ok). unfold read_catalog, as_uuid in Hc.
  destruct (uuid tenant_id) as [tenant|]; [|done]. destruct (uuid workspace_id) as [workspace|]; [|done].
  cbn [mbind res_bind] in Hc. apply bind_ok in Hc as (cols & Hcols & [= <- <-]). exists tenant, workspace. do 2 (split; [done|]). cbn [m_columns m_relationships m_description fst snd].
  split; [|split; [|apply text_public]].
  - revert Hcols. unfold catalog_columns. apply (foldR_inv _ (λ d : pydict, ∀ k v, (k, v) ∈ d → ∃ row item, row ∈ data_catalog c
      ∧ in_scope tenant workspace "dataset" name row = true ∧ k = KStr (py_str (get "column_name" row)) ∧ v = PDict item ∧ column_item row item)).
    + intros d row d' [Hin Hs]%elem_of_List_filter Hd (item & Hi & [= <-])%bind_ok k v [Hkv|[-> ->]]%elem_of_put; [by apply Hd|].
      exists row, item. do 4 (split; [done|]). apply column_ok in Hi. unfold column_item in *. by rewrite selected_origin in Hi.
    + intros k v Hkv. by apply elem_of_nil in Hkv.
  - intros r (row & [Hin [Hs Ha]%andb_true_iff]%elem_of_List_filter & Hr)%list_elem_of_omap. exists row. do 3 (split; [done|]).
    by eapply relationship_of.
Qed.
End Semantics.

(** ** A dataset described by a person and by the copilot *)

Module Described.
#[local] Instance repr : PyRepr := some_repr.
Definition json_loads (text : string) : res pyval := raise JSONDecodeError "".
Definition uuid (s : string) : option string := Some s.
Definition row (column origin : string) : pydict :=
  mkdict [("tenant_id", PStr "t1"); ("workspace_id", PStr "w1"); ("dataset", PStr "orders"); ("scope_status", PStr "scoped");
          ("column_name", PStr column); ("description", PStr (column +:+ " of the order")); ("description_origin", PStr origin);
          ("tags", strs ["sales"; "not a tag!"]); ("is_key", PBool true); ("example_values", PList [PInt 7; PStr "x"])].
Definition edge (origin : string) : pydict :=
  mkdict [("tenant_id", PStr "t1"); ("workspace_id", PStr "w1"); ("from_dataset", PStr "orders"); ("scope_status", PStr "scoped");
          ("from_column", PStr "customer"); ("to_dataset", PStr "customers"); ("to_column", PStr "id"); ("join_hint", PStr "left");
          ("cardinality", PStr "N:1"); ("origin", PStr origin); ("status", PStr "active")].
Definition catalog : Catalog := mkCatalog [row "id" "packaged"; row "total" "copilot"] [edge "person"; edge "copilot"].
Definition dataset : pydict := mkdict [("name", PStr "orders"); ("description", PStr " Orders ")].
Definition semantics : res Semantics := snapshot_public_semantics json_loads uuid (Some catalog) "t1" "w1" dataset.

Example described :
  semantics = Ok (mkSemantics
    [(KStr "id", PDict (mkdict [("description", PStr "id of the order"); ("tags", strs ["sales"]); ("is_key", PBool true);
        ("is_metric", PBool false); ("example_values", PList [PInt 7])]));
     (KStr "total", PDict (mkdict [("description", PStr ""); ("tags", strs []); ("is_key", PBool false); ("is_metric", PBool false);
        ("example_values", PList [PInt 7])]))] "Orders"
    [mkdict [("from_dataset", PStr "orders"); ("from_column", PStr "customer"); ("to_dataset", PStr "customers");
             ("to_column", PStr "id"); ("join_hint", PStr "LEFT"); ("description", PStr ""); ("cardinality", PStr "N:1")]] []).
Proof. vm_compute. reflexivity. Qed.

Lemma public_semantics_authored_witness :
  ∃ m, semantics = Ok m ∧ length (m_relationships m) = 1%nat
    ∧ ∀ r, r ∈ m_relationships m → ∃ row, row ∈ data_relationships catalog ∧ authored row = true ∧ relationship_ok "orders" r.
Proof.
  destruct semantics as [m|e] eqn:E; [|vm_compute in E; discriminate E]. exists m. split; [reflexivity|]. split.
  - pose proof described as D. rewrite E in D. injection D as D. rewrite D. reflexivity.
  - destruct (public_semantics_authored json_loads uuid catalog "t1" "w1" dataset m E) as (t & w & _ & _ & _ & H & _).
    intros r Hr. destruct (H r Hr) as (x & Hx & _ & Ha & Ho). exists x. split_and!; [exact Hx|exact Ha|exact Ho].
Defined.
End Described.
