(* ===== verification/PublicationObjects.v ===== *)
(** The objects of a publication in progress: the state the engine keeps of it, what
    it uploads and reads back (refinement/app/publication_objects.py, with the
    partitioned copy of duckdb_engine.py).

    An action of the engine works on a world and on what its thread keeps.  The
    connection of DuckDB, the storage and the reading of Parquet are parameters. *)
From S2P Require Import Prelude PyStr PyVal PyTime PyUrl PyJson PyIo PyUuid StorageScope SignedContext Publication PartitionedParquet PublicationStore PublicationVerifier PublishedSnapshots.

Open Scope Z_scope.

(** ** What a thread keeps of a publication *)

Record PubState := mkPubState {
  identity : PublicationIdentity;
  expected_head : option string;
  dataset : pydict;
  user_context : pydict;
  input_state : list pyval;
  lineage : pydict;
  object : Object;
  staging_table : option string;
  state_row_count : Z;
  (** [gold_schema]: by name in lower case, the name and the type; [None] before it is set. *)
  gold_schema : option (list (string * (string * string)));
  gold_snapshot_schema : list (string * string);
  gold_columns : list (string * string);
  gold_rows : list (list pyval);
  receipt : option Publication;
  published : bool }.

Definition with_object (o : Object) (st : PubState) : PubState :=
  mkPubState (identity st) (expected_head st) (dataset st) (user_context st) (input_state st) (lineage st) o (staging_table st)
    (state_row_count st) (gold_schema st) (gold_snapshot_schema st) (gold_columns st) (gold_rows st) (receipt st) (published st).
Definition with_lineage (l : pydict) (st : PubState) : PubState :=
  mkPubState (identity st) (expected_head st) (dataset st) (user_context st) (input_state st) l (object st) (staging_table st)
    (state_row_count st) (gold_schema st) (gold_snapshot_schema st) (gold_columns st) (gold_rows st) (receipt st) (published st).
Definition with_row_count (n : Z) (st : PubState) : PubState :=
  mkPubState (identity st) (expected_head st) (dataset st) (user_context st) (input_state st) (lineage st) (object st)
    (staging_table st) n (gold_schema st) (gold_snapshot_schema st) (gold_columns st) (gold_rows st) (receipt st) (published st).
Definition with_schema (gold : list (string * (string * string))) (snapshot : list (string * string)) (st : PubState) : PubState :=
  mkPubState (identity st) (expected_head st) (dataset st) (user_context st) (input_state st) (lineage st) (object st)
    (staging_table st) (state_row_count st) (Some gold) snapshot (gold_columns st) (gold_rows st) (receipt st) (published st).
Definition with_staged (stage : string) (n : Z) (columns : list (string * string)) (rows : list (list pyval)) (st : PubState) :
    PubState :=
  mkPubState (identity st) (expected_head st) (dataset st) (user_context st) (input_state st) (lineage st) (object st) (Some stage) n
    (gold_schema st) (gold_snapshot_schema st) columns rows (receipt st) (published st).
Definition with_receipt (p : Publication) (st : PubState) : PubState :=
  mkPubState (identity st) (expected_head st) (dataset st) (user_context st) (input_state st) (lineage st) (object st)
    (staging_table st) (state_row_count st) (gold_schema st) (gold_snapshot_schema st) (gold_columns st) (gold_rows st) (Some p) true.

Definition no_object : Object := mkObject "" "" "".
Definition new_state (i : PublicationIdentity) (expected : option string) (ds context : pydict) (inputs : list pyval) : PubState :=
  mkPubState i expected ds context inputs [] no_object None 0 None [] [] [] None false.

(** [_publication_local] and [_publication_replay_local]. *)
Record Local := mkLocal { l_state : option PubState; l_replayed : bool }.

(** ** The world of the engine *)

(** [iter_chunks], [exists] and [put_file] of the storage; the last is given the
    bytes of the file and their digest. *)
Class UploadStorage (W : Type) := {
  iter_chunks : string → string → W → res (list string) * W;
  exists_object : string → W → res bool * W;
  put_file : string → string → string → W → res (string * option string) * W }.

(** What [COPY ... PARTITION_BY] leaves: the root, and the bytes of a file of it. *)
Record PartsOutput := mkPartsOutput { po_root : option (list entry); po_bytes : string → string → string }.

(** The connection of DuckDB: names and types of a [DESCRIBE]; names and rows of a
    query; the bytes [COPY ... TO] writes; a partitioned [COPY]; and statements run
    for their effect. *)
Class DuckDB (W : Type) := {
  describe : string → W → res (list (string * string)) * W;
  fetch : string → W → res (list string * list (list pyval)) * W;
  copy_to : string → W → res string * W;
  copy_parts : string → string → W → res PartsOutput * W;
  stable_types : string → list (string * string) → W → res unit * W;
  execute : string → list (list pyval) → W → res unit * W }.

Definition world_op {W A} (m : W → res A * W) : io (W * Local) A := λ wl, let '(r, w) := m wl.1 in (r, (w, wl.2)).

#[export] Instance engine_world {W} {H : PublicationWorld W} : PublicationWorld (W * Local) := {|
  authority wl := authority wl.1;
  set_authority db wl := (set_authority db wl.1, wl.2);
  dial := world_op dial;
  lock k := world_op (lock k);
  unlock k := world_op (unlock k) |}.
#[export] Instance engine_storage {W} {H : ObjectStorage W} : ObjectStorage (W * Local) := {|
  get_bytes k v := world_op (get_bytes k v);
  stat k v := world_op (stat k v);
  bucket_versioning := world_op bucket_versioning |}.
#[export] Instance engine_listing {W} {H : ObjectListing W} : ObjectListing (W * Local) := λ k, world_op (iter_list k).

(** [self._state()], subscripted. *)
Definition the_state {W} : io (W * Local) PubState := λ wl,
  match l_state wl.2 with Some st => (Ok st, wl) | None => (raise AttributeError "", wl) end.
Definition update_state {W} (f : PubState → PubState) : io (W * Local) unit := λ wl,
  (Ok tt, (wl.1, mkLocal (f <$> l_state wl.2) (l_replayed wl.2))).
Definition set_state {W} (st : option PubState) : io (W * Local) unit := λ wl,
  (Ok tt, (wl.1, mkLocal st (l_replayed wl.2))).
Definition _mark_publication_replayed {W} (b : bool) : io (W * Local) unit := λ wl,
  (Ok tt, (wl.1, mkLocal (l_state wl.2) b)).
(** The flag is taken and reset. *)
Definition consume_publication_replay {W} : io (W * Local) bool := λ wl,
  (Ok (l_replayed wl.2), (wl.1, mkLocal (l_state wl.2) false)).

(** Types of Arrow, as far as the recovery tells them apart. *)
Inductive ArrowType :=
  | ABoolean | AInt8 | AInt16 | AInt32 | AInt64 | AFloat32 | AFloating | ADate
  | ATimestamp (tz : bool) | ADecimal (precision scale : Z) | AString | ALargeString | AOther.

#[export] Instance arrow_type_eq_dec : EqDecision ArrowType.
Proof. solve_decision. Defined.

Record ArrowTable := mkArrow { at_fields : list (string * ArrowType); at_rows : list (list pyval) }.

Section Objects.
Context {Hrepr : PyRepr}.
Context (sha256_hex : string → string) (parquet_file : string → res ParquetFile) (parquet_bytes : ParquetFile → string)
  (json_loads : string → res pyval).
(** [pq.read_table]; the Arrow types of the fields of a schema. *)
Context (read_table : string → res ArrowTable) (arrow_types : list (string * string) → list (string * ArrowType)).
Context (en : engine).
Context {W : Type} {Hstorage : ObjectStorage W} {Hupload : UploadStorage W} {Hduck : DuckDB W}.

Abbreviation eng := (io (W * Local)).

Definition _object_checksum (key version : string) : eng string :=
  chunks ← world_op (iter_chunks key version); mret (sha256_hex (join "" chunks)).

Definition _verify_prepared_object (o : Object) : eng unit :=
  match _s3_object_key en (o_uri o) with
  | Some key =>
      if negb (nonempty (o_checksum o)) || negb (nonempty (o_version o))
      then raises PreparedObjectIncomplete "prepared materialization object is incomplete"
      else
        observed ← handling (_object_checksum key (o_version o))
                     (λ _, raises PreparedObjectUnavailable "prepared materialization object is unavailable");
        if bool_decide (observed = o_checksum o) then mret tt
        else raises PreparedObjectCorrupt "prepared materialization object checksum mismatch"
  | None => raises PreparedObjectIncomplete "prepared materialization object is incomplete"
  end.

Definition _pinned_partition_part (part : pydict) : eng (string * ParquetFile) :=
  key ← of_res (item_key "key" (PDict part));
  let version := str_or_empty (get "version" part) in
  if negb (nonempty version) then raises RuntimeError "partition object has no pinned version"
  else
    raw ← get_bytes (py_str key) version;
    checksum ← of_res (item_key "checksum" (PDict part));
    if negb (eq_str checksum (sha256_hex raw)) then raises RuntimeError "prepared materialization object checksum mismatch"
    else
      parquet ← of_res (parquet_file raw);
      rows ← of_res (item_key "rows" (PDict part));
      n ← of_res (py_int rows);
      if num_rows parquet =? n then mret (raw, parquet) else raises RuntimeError "prepared materialization row count mismatch".

(** [pa.concat_tables] of tables of one schema. *)
Definition concat_table (t u : ArrowTable) : res ArrowTable :=
  if bool_decide (at_fields t = at_fields u) then Ok (mkArrow (at_fields t) (at_rows t ++ at_rows u))
  else raise ValueError "Schema at index was different".

(** [max_rows] of [None] is never reached. *)
Fixpoint read_parts (max_rows : option Z) (ps : list pydict) (t : ArrowTable) : eng ArrowTable :=
  match ps with
  | [] => mret t
  | p :: ps =>
      if match max_rows with Some m => m <=? Z.of_nat (length (at_rows t)) | None => false end then mret t
      else
        file ← _pinned_partition_part p;
        u ← of_res (read_table file.1);
        t ← of_res (concat_table t u);
        read_parts max_rows ps t
  end.

Definition _read_published_table (object_uri object_version : string) (max_rows : option Z) : eng ArrowTable :=
  match _s3_object_key en object_uri with
  | None => raises RuntimeError "prepared materialization object is outside storage"
  | Some key =>
      raw ← get_bytes key object_version;
      if negb (is_manifest_key key) then of_res (read_table raw)
      else
        manifest ← of_res (read_manifest parquet_file json_loads sha256_hex raw key);
        read_parts max_rows (parts manifest) (mkArrow (arrow_types (schema manifest)) [])
  end.

Fixpoint evidence_parts (expected : list pyval) (ps : list pydict) : eng unit :=
  match ps with
  | [] => mret tt
  | p :: ps =>
      file ← _pinned_partition_part p;
      if same_fields (schema_arrow file.2) expected then evidence_parts expected ps
      else raises RuntimeError "prepared materialization catalog mismatch"
  end.

(** The rows of the object: those of its parts when it is a manifest. *)
Definition evidence_rows (key raw : string) (parquet : ParquetFile) : eng Z :=
  if is_manifest_key key then
    manifest ← of_res (read_manifest parquet_file json_loads sha256_hex raw key);
    _ ← evidence_parts (schema_fields (schema manifest)) (parts manifest);
    mret (PartitionedParquet.row_count manifest)
  else
    payload ← of_res (manifest_payload json_loads parquet);
    if payload : option pyval then raises RuntimeError "prepared materialization object is not a manifest"
    else mret (num_rows parquet).

Definition _verify_parquet_evidence (o : Object) (expected_rows : Z) (expected_columns : list string) :
    eng (Z * list pydict) :=
  match _s3_object_key en (o_uri o) with
  | None => raises RuntimeError "prepared materialization object is outside storage"
  | Some key =>
      raw ← get_bytes key (o_version o);
      if negb (bool_decide (sha256_hex raw = o_checksum o)) then raises RuntimeError "prepared materialization object checksum mismatch"
      else
        parquet ← of_res (parquet_file raw);
        n ← evidence_rows key raw parquet;
        if negb (n =? expected_rows) then raises RuntimeError "prepared materialization row count mismatch"
        else if negb (bool_decide ((schema_arrow parquet).*1 = expected_columns))
        then raises RuntimeError "prepared materialization catalog mismatch"
        else mret (n, (λ f : string * string, mkdict [("name", PStr f.1); ("type", PStr f.2)]) <$> schema_arrow parquet)
  end.

(** ** Uploads *)

(** [key.rsplit("/", 1)[0]], and [f"{directory}/{name}"]. *)
Definition sibling (key name : string) : string :=
  (match rsplit_once "/" key with (Some directory, _) => directory | (None, k) => k end) +:+ "/" +:+ name.

Definition _snapshot_prefix (layer cartridge name : string) (context : pydict) : res string :=
  if negb (mem layer LAYERS) then raise ValueError "Invalid dataset layer"
  else
    _ ← validate_safe_identifier cartridge "cartridge";
    _ ← validate_safe_identifier name "dataset";
    '(tenant, workspace) ← _scope_values context;
    let base := layer +:+ "/" +:+ cartridge +:+ "/" +:+ name in
    Ok ((if nonempty tenant && nonempty workspace
         then base +:+ "/tenant_id=" +:+ tenant +:+ "/workspace_id=" +:+ workspace else base) +:+ "/_snapshots/").

Definition _snapshot_path (layer cartridge name : string) (context : pydict) : eng string :=
  st ← the_state;
  prefix ← of_res (_snapshot_prefix layer cartridge name context);
  mret (_storage_uri en (prefix +:+ "_pending/" +:+ uuid_digits (materialization_run_id (identity st)) +:+ "/data.parquet")).

Definition _partition_set_key (parquet_path : string) : eng string :=
  match _s3_object_key en parquet_path with
  | None => raises ValueError "partitioned materialization requires managed storage"
  | Some key => mret (sibling key PARTITION_SET_DIRECTORY)
  end.

(** Bytes under a key that says their digest: those that are there, or those put there. *)
Definition _put_partition_object (bytes key digest : string) : eng (string * string) :=
  there ← world_op (exists_object key);
  if there : bool then
    st ← stat key "";
    let version := default "" (st_version st) in
    if negb (nonempty version) then raises RuntimeError "immutable materialization object checksum mismatch"
    else
      observed ← _object_checksum key version;
      if negb (bool_decide (observed = digest)) then raises RuntimeError "immutable materialization object checksum mismatch"
      else uri ← of_res (uri_for (en_storage en) key); mret (uri, version)
  else
    put ← world_op (put_file key bytes digest);
    let version := default "" put.2 in
    if negb (nonempty version) then raises RuntimeError "materialized object version is unavailable" else mret (put.1, version).

Definition _upload_local_parquet (bytes parquet_path : string) : eng string :=
  match _s3_object_key en parquet_path with
  | None => mret parquet_path
  | Some key =>
      let digest := sha256_hex bytes in
      put ← _put_partition_object bytes (sibling key (digest +:+ ".parquet")) digest;
      _ ← update_state (λ st, with_object (mkObject (o_uri (object st)) put.2 (o_checksum (object st))) st);
      mret put.1
  end.

(** The parts of a partitioned copy, uploaded one by one. *)
Fixpoint upload_parts (expected : list pyval) (set_key column : string) (index : nat) (output : PartsOutput)
    (files : list (string * string)) : eng (list pydict) :=
  match files with
  | [] => mret []
  | (value, name) :: files =>
      let bytes := po_bytes output value name in
      metadata ← of_res (parquet_file bytes);
      if negb (same_fields (schema_arrow metadata) expected) then raises RuntimeError "partition files disagree on the dataset schema"
      else
        let digest := sha256_hex bytes in
        put ← _put_partition_object bytes (part_key set_key column value index digest) digest;
        rest ← upload_parts expected set_key column (S index) output files;
        mret (part_dict set_key column index (mkPartFile value digest (num_rows metadata) put.2) :: rest)
  end.

(** The schema of a partitioned copy: that of its first file, or of an empty copy. *)
Definition parts_schema (sql column : string) (output : PartsOutput) (files : list (string * string)) :
    eng (list (string * string)) :=
  match files with
  | (value, name) :: _ =>
      _ ← world_op (stable_types column files);
      metadata ← of_res (parquet_file (po_bytes output value name));
      mret (schema_arrow metadata)
  | [] =>
      bytes ← world_op (copy_to ("SELECT * FROM (" +:+ sql +:+ ") _partition_schema LIMIT 0"));
      metadata ← of_res (parquet_file bytes);
      mret (schema_arrow metadata)
  end.

Definition _copy_partitioned_parquet (sql parquet_path partition_by : string) : eng string :=
  set_key ← _partition_set_key parquet_path;
  described ← world_op (describe ("SELECT * FROM (" +:+ sql +:+ ") _partition_probe LIMIT 0"));
  match List.filter (λ name, bool_decide (lower name = lower partition_by)) described.*1 with
  | [column] =>
      _ ← of_res (validate_safe_identifier column "partition column");
      output ← world_op (copy_parts sql column);
      files ← of_res (local_partition_files (po_root output) column);
      fields ← parts_schema sql column output files;
      uploaded ← upload_parts (schema_fields fields) set_key column 0 output files;
      manifest ← of_res (write_manifest parquet_bytes fields column uploaded);
      let digest := sha256_hex manifest in
      put ← _put_partition_object manifest (set_key +:+ "/" +:+ digest +:+ ".parquet") digest;
      mret put.1
  | _ => raises ValueError ("partition_by column " +:+ partition_by +:+ " is not produced by the dataset")
  end.

(** [super()._copy_to_parquet]; a path outside the storage is written by DuckDB. *)
Definition base_copy_to_parquet (sql parquet_path : string) (partition_by : option string) : eng string :=
  let column := default "" partition_by in
  if nonempty column then _copy_partitioned_parquet sql parquet_path column
  else
    bytes ← world_op (copy_to sql);
    _upload_local_parquet bytes parquet_path.

Definition _copy_to_parquet (sql parquet_path : string) (partition_by : option string) : eng string :=
  uri ← base_copy_to_parquet sql parquet_path partition_by;
  match _s3_object_key en uri with
  | None => raises RuntimeError "materialized object is outside managed storage"
  | Some key =>
      st ← stat key "";
      let version := default "" (st_version st) in
      if negb (nonempty version) then raises RuntimeError "materialized object version is unavailable"
      else
        checksum ← _object_checksum key version;
        _ ← update_state (with_object (mkObject uri version checksum));
        mret uri
  end.
End Objects.
