(* ===== verification/PublicationEngine.v ===== *)
(** The staged publication of a dataset: the engine of the refinement service that
    materializes it under a run of the authority (refinement/app/
    staged_publication_engine.py), recovers a run that was left prepared
    (publication_recovery.py) and finalizes one (publication_finalize.py, with
    publication_evidence.py).

    The materializer of a dataset, which runs its SQL, is any program that calls the
    engine's methods; what it does besides is a change of the world. *)
From S2P Require Import Prelude PyStr PyVal PyTime PyUrl PyJson PyIo PyUuid StorageScope SignedContext Publication PartitionedParquet PublicationStore PublicationVerifier PublishedSnapshots PublicSemantics PublicationObjects.

Open Scope Z_scope.

(** ** Reasons of a recovery *)

Definition _HEAD_CAS_LOST_SQLSTATE : string := "40001".
Definition _DETERMINISTIC_SQLSTATE_CLASSES : list string := ["22"; "23"; "42"].
Definition _REASON_BY_SQLSTATE : list (string * string) :=
  [("42804", "legacy_type_conflict"); ("55000", "gold_stage_missing"); ("23514", "publication_integrity_rejected")].
Definition _RETRY_REQUIRED : string := "prepared materialization is recoverable; retry is required".
Definition _RECOVERY_UNAVAILABLE : string := "prepared materialization recovery is unavailable".

(** [pgcode], of an error of the driver. *)
Definition _sqlstate (e : exn) : string := match exn_cls e with PgError state _ => state | _ => "" end.
Definition constraint_name (e : exn) : string := match exn_cls e with PgError _ c => c | _ => "" end.

Definition _is_deterministic (sqlstate : string) : bool :=
  Nat.eqb (slen sqlstate) 5 && mem (stake 2 sqlstate) _DETERMINISTIC_SQLSTATE_CLASSES.

Definition _recovery_reason (e : exn) : string :=
  let sqlstate := _sqlstate e in
  if startswith "23" sqlstate && nonempty (constraint_name e) then "integrity_constraint_violation"
  else
    match afind sqlstate _REASON_BY_SQLSTATE with
    | Some reason => reason
    | None =>
        if _is_deterministic sqlstate then "publication_rejected"
        else if exn_isa (exn_cls e) PreparedObjectUnavailable then "object_unavailable"
        else if exn_isa (exn_cls e) PreparedObjectCorrupt then "object_corrupt"
        else "evidence_mismatch"
    end.

Definition _postgres_type (t : ArrowType) : res string :=
  match t with
  | ABoolean => Ok "BOOLEAN"
  | AInt8 | AInt16 => Ok "SMALLINT"
  | AInt32 => Ok "INTEGER"
  | AInt64 => Ok "BIGINT"
  | AFloat32 => Ok "REAL"
  | AFloating => Ok "DOUBLE PRECISION"
  | ADate => Ok "DATE"
  | ATimestamp tz => Ok (if tz then "TIMESTAMPTZ" else "TIMESTAMP")
  | ADecimal precision scale => Ok ("DECIMAL(" +:+ str_of_Z precision +:+ "," +:+ str_of_Z scale +:+ ")")
  | AString | ALargeString => Ok "TEXT"
  | AOther => raise RuntimeError "prepared Gold schema cannot be reconstructed"
  end.

(** [tuple(item.get(name) for name in names)] of a row as a dict: the last value of a name. *)
Definition row_tuple (names : list string) (row : list pyval) : list pyval :=
  let item := mkdict (combine names row) in (λ name, get name item) <$> names.

(** ** Types of DuckDB in PostgreSQL *)

Definition _duckdb_type_to_pg_type (raw : string) : res string :=
  let typ := upper (strip raw) in
  if negb (nonempty typ) then raise ValueError "Gold query returned a column with no type"
  else if startswith "DECIMAL(" typ then Ok typ
  else if mem typ ["VARCHAR"; "TEXT"; "UUID"] then Ok "TEXT"
  else if mem typ ["BOOLEAN"; "BOOL"] then Ok "BOOLEAN"
  else if mem typ ["TINYINT"; "UTINYINT"; "SMALLINT"; "USMALLINT"] then Ok "SMALLINT"
  else if mem typ ["INTEGER"; "INT"; "UINTEGER"] then Ok "INTEGER"
  else if mem typ ["BIGINT"; "HUGEINT"; "UBIGINT"; "UHUGEINT"] then Ok "BIGINT"
  else if mem typ ["REAL"; "FLOAT"] then Ok "REAL"
  else if mem typ ["DOUBLE"; "FLOAT8"] then Ok "DOUBLE PRECISION"
  else if bool_decide (typ = "DATE") then Ok "DATE"
  else if startswith "TIMESTAMP" typ then Ok (if contains "WITH TIME ZONE" typ then "TIMESTAMPTZ" else "TIMESTAMP")
  else if startswith "TIME" typ then Ok "TIME"
  else if mem typ ["JSON"; "JSONB"] then Ok "JSONB"
  else if endswith "[]" typ || startswith_any ["STRUCT("; "MAP("; "LIST("; "UNION("] typ then Ok "JSONB"
  else raise ValueError ("Unsupported DuckDB type for Gold schema evolution: " +:+ raw).

(** ** Profiles *)

Definition _PROFILE_STAT_KEYS : list string := ["null_rate"; "distinct_count"; "min_value"; "max_value"].

(** The statistics of a field that it has. *)
Definition profile_stats (field : pydict) : pydict :=
  mkdict (omap (λ key, (λ v, (key, v)) <$> dget key field) _PROFILE_STAT_KEYS).
Definition setdefaults (item extra : pydict) : pydict :=
  foldl (λ d kv, if bool_decide (is_Some (dict_find kv.1 d)) then d else dict_put kv.1 kv.2 d) item extra.

Definition field_name {Hrepr : PyRepr} (field : pydict) : string := str_or_empty (get "name" field).

Definition _merge_profile_stats {Hrepr : PyRepr} (target source_fields : list pydict) : list pydict :=
  let stats_by_name := foldl (λ m field, aput (field_name field) (profile_stats field) m) [] source_fields in
  (λ item, match afind (field_name item) stats_by_name with Some extra => setdefaults item extra | None => item end) <$> target.

(** [PublicationEvidenceStore.prepare]: the catalog of the evidence. *)
Definition CATALOG_KEYS : list string :=
  ["description"; "tags"; "is_key"; "is_metric"; "example_values"; "null_rate"; "distinct_count"; "min_value"; "max_value"].
Definition catalog_item {Hrepr : PyRepr} (field : pydict) : pydict :=
  mkdict (("name", PStr (str_or_empty (get "name" field))) :: ("type", PStr (str_or_empty (get "type" field)))
          :: omap (λ key, (λ v, (key, v)) <$> dget key field) CATALOG_KEYS).
Definition prepare_catalog {Hrepr : PyRepr} (schema_fields : list pydict) : res (list pydict) :=
  let catalog := catalog_item <$> schema_fields in
  if Nat.eqb (length catalog) 0
     || existsb (λ item, negb (truthy (get "name" item)) || negb (truthy (get "type" item))) catalog
  then raise ValueError "materialization catalog is incomplete" else Ok catalog.

(** ** The engine *)

(** The socket of the verifier, the console's database and the gold tables. *)
Class EngineWorld (W : Type) := {
  exchange : string → W → res string * W;
  catalog_tables : W → res Catalog * W;
  base_update_catalog : string → string → string → list pydict → pydict → string → pydict → W → res unit * W }.

(** The values [_write_lineage] is called with. *)
Record LineageValues := mkLineage {
  lv_source_entity : pyval; lv_source_load_date : pyval; lv_source_batch_id : pyval; lv_sql_def : pyval;
  lv_column_mapping : pyval; lv_row_count : pyval }.

(** The methods a materializer calls, and what they answer. *)
Inductive hook :=
  | EnsureGold (table sql : string)
  | ReplaceGold (table sql : string)
  | SnapshotPath (layer cartridge name : string) (context : pydict)
  | CopyGold (table storage_path : string) (partition_by : option string)
  | CopyParquet (sql parquet_path : string) (partition_by : option string)
  | WriteLineage (values : LineageValues)
  | UpdateCatalog (name layer cartridge : string) (schema_fields : list pydict) (column_mapping : pydict) (description : string)
      (context : pydict).
Inductive reply := RNone | RCount (n : Z) | RText (s : string).

(** A materializer: it ends, changes the world, or calls a method and goes on with
    what it answers or raises. *)
Inductive program (W : Type) :=
  | Return (result : pydict)
  | Throw (e : exn)
  | Change (f : W → W) (k : W → program W)
  | Call (h : hook) (k : res reply → program W).
Arguments Return {W}. Arguments Throw {W}. Arguments Change {W}. Arguments Call {W}.

Section Engine.
Context {Hrepr : PyRepr}.
Context (jsonb_text : pyval → string) (jsonb_eq : pyval → pyval → bool) (time_text : instant → string).
Context (sha256_hex : string → string) (hmac_hex : string → string → string) (md5_hex sha1 : string → string).
Context (pg_type : string → option string) (store_cell : string → pyval → option pyval) (cell_text : pyval → option string).
Context (uuid : string → option string) (json_loads : string → res pyval).
Context (parquet_file : string → res ParquetFile) (parquet_bytes : ParquetFile → string).
Context (read_table : string → res ArrowTable) (arrow_types : list (string * string) → list (string * ArrowType)).
Context (operational : string → bool) (class_name : exn → string) (_materializer_input_state : pydict → list pyval).
(** The connections of the publisher and of the readers, the storage, and whether there is a catalog. *)
Context (env : store) (en : engine) (pg_url : bool).
Context {W : Type} {Hworld : PublicationWorld W} {Hstorage : ObjectStorage W} {Hlisting : ObjectListing W}.
Context {Hupload : UploadStorage W} {Hduck : DuckDB W} {Hengine : EngineWorld W}.

Abbreviation eng := (io (W * Local)).
Abbreviation verify_prepared_object := (_verify_prepared_object sha256_hex en).
Abbreviation publish i := (publish jsonb_text jsonb_eq time_text sha256_hex hmac_hex md5_hex cell_text uuid env i).
Abbreviation store_prepared i := (PublicationStore.mark_prepared jsonb_text jsonb_eq time_text sha256_hex hmac_hex cell_text env i).
Abbreviation submit i := (submit jsonb_text sha256_hex env i).
Abbreviation stage_gold i := (stage_gold jsonb_text pg_type store_cell cell_text env i).
Abbreviation input_state_of := (resolve_input_state operational class_name uuid _materializer_input_state en).

(** [PublicationVerifierClient._request]. *)
Definition _request (payload : pydict) : eng pydict :=
  line ← world_op (exchange (json_dumps (PDict payload)));
  result ← of_res (json_loads line);
  match result with
  | PDict result => if is_true (get "ok" result) then mret result else raises RuntimeError "publication verifier unavailable"
  | _ => raises RuntimeError "publication verifier unavailable"
  end.
Definition verify (candidate_id : string) : eng unit := _ ← _request (mkdict [("candidate_id", PStr candidate_id)]); mret tt.

(** *** Recovery *)

Definition pending {A} (msg : string) : eng A := raises PublicationRecoveryPending msg.

Definition _rebuild_gold_stage (i : PublicationIdentity) (values : Reopened) : eng string :=
  table ← _read_published_table sha256_hex parquet_file json_loads read_table arrow_types en
            (o_uri (ro_object values)) (o_version (ro_object values)) None;
  if negb (Z.of_nat (length (at_rows table)) =? ro_row_count values)
  then raises RuntimeError "prepared materialization row count mismatch"
  else
    types ← of_res (mapR (λ f : string * ArrowType, t ← _postgres_type f.2; Ok (f.1, t)) (at_fields table));
    staged ← stage_gold i types (row_tuple (at_fields table).*1 <$> at_rows table);
    if negb (staged.1.2 =? ro_row_count values) then raises RuntimeError "reconstructed Gold stage row count mismatch"
    else mret staged.1.1.

Definition _quarantine_head_cas_loser {A} (i : PublicationIdentity) : eng A :=
  _ ← handling (quarantine env i "publication_head_cas_lost") (λ _, pending _RETRY_REQUIRED);
  pending "publication head conflict; prepared run was quarantined".

Definition _settle_failed_publication {A} (i : PublicationIdentity) (e : exn) : eng A :=
  let sqlstate := _sqlstate e in
  if bool_decide (sqlstate = _HEAD_CAS_LOST_SQLSTATE) then _quarantine_head_cas_loser i
  else if negb (_is_deterministic sqlstate) then pending _RETRY_REQUIRED
  else
    _ ← handling (quarantine env i (_recovery_reason e)) (λ _, pending _RETRY_REQUIRED);
    raises PublicationRejected "prepared materialization was rejected by the publication authority".

Definition settle_reopen (i : PublicationIdentity) (reason : string) : eng (option Publication) :=
  current ← run env i;
  if bool_decide (rr_status <$> current = Some "published") then
    p ← publish i (current ≫= rr_expected);
    mret (Some (mkPublication (p_receipt p) (p_generation p) false))
  else _ ← quarantine env i reason; mret None.

Definition _settle_failed_reopen (i : PublicationIdentity) (reason : string) (e : exn) : eng Publication :=
  if negb (_is_deterministic (_sqlstate e)) then pending _RECOVERY_UNAVAILABLE
  else
    settled ← handling (settle_reopen i reason) (λ _, pending _RECOVERY_UNAVAILABLE);
    match settled with Some p => mret p | None => pending _RECOVERY_UNAVAILABLE end.

(** The body of the second [try] of [_recover_prepared]. *)
Definition prepare_again (i : PublicationIdentity) (reason : string) (values : Reopened) : eng unit :=
  let o := ro_object values in
  _ ← verify_prepared_object o;
  staging ← (if bool_decide (s_layer (i_scope i) = "gold") && bool_decide (reason = "gold_stage_missing")
             then stage ← _rebuild_gold_stage i values; mret (Some stage) else mret (ro_staging_table values));
  candidate ← submit i o (ro_row_count values) (ro_lineage values) (ro_catalog values);
  _ ← verify candidate;
  _ ← store_prepared i o (ro_row_count values) staging (ro_lineage values) (ro_catalog values);
  mret tt.

Definition abandon_unless_prepared (i : PublicationIdentity) : eng unit :=
  current ← run env i;
  if bool_decide (rr_status <$> current = Some "prepared") then mret tt else abandon env i.

Definition prepare_or_abandon (i : PublicationIdentity) (reason : string) (values : Reopened) : eng unit :=
  handling (prepare_again i reason values) (λ _,
    _ ← handling (abandon_unless_prepared i) (λ _, pending _RETRY_REQUIRED); pending _RETRY_REQUIRED).

Definition recover_from (i : PublicationIdentity) (reason : string) (values : Reopened) : eng Publication :=
  _ ← prepare_or_abandon i reason values;
  handling (publish i (ro_expected_head values)) (_settle_failed_publication i).

Definition _recover_prepared (i : PublicationIdentity) (e : exn) : eng Publication := λ w,
  let reason := _recovery_reason e in
  match reopen_prepared env i reason w with
  | (Ok values, w) => recover_from i reason values w
  | (Raise reopen_error, w) => _settle_failed_reopen i reason reopen_error w
  end.

(** [except Exception as exc] around a publication: a lost compare-and-set is not recovered. *)
Definition recovering (i : PublicationIdentity) (e : exn) : eng Publication :=
  if bool_decide (_sqlstate e = _HEAD_CAS_LOST_SQLSTATE) then _quarantine_head_cas_loser i else _recover_prepared i e.

(** *** The methods of a publication in progress *)

Abbreviation the_state := (the_state (W:=W)).
Abbreviation copy_to_parquet := (_copy_to_parquet sha256_hex parquet_file parquet_bytes en).

Definition gold_query_schema (rows : list (string * string)) : res (list (string * (string * string))) :=
  schema ← foldR (λ m row, t ← _duckdb_type_to_pg_type row.2; Ok (aput (lower row.1) (row.1, t) m)) rows [];
  if Nat.eqb (length schema) 0 then raise ValueError "Gold query must return columns" else Ok schema.

Definition _ensure_scoped_gold_table (table sql : string) : eng unit :=
  rows ← world_op (describe ("SELECT * FROM (" +:+ sql +:+ ") _q LIMIT 0"));
  gold ← of_res (gold_query_schema rows);
  snapshot ← world_op (describe ("SELECT * FROM (" +:+ sql +:+ ") _snapshot_schema LIMIT 0"));
  update_state (with_schema gold (foldl (λ m row, aput row.1 row.2 m) [] snapshot)).

Definition gold_column (schema : list (string * (string * string))) (name : string) : res (string * string) :=
  match afind (lower name) schema with Some nt => Ok (name, nt.2) | None => raise KeyError (lower name) end.

Definition _replace_scoped_gold_rows (table sql : string) : eng Z :=
  st ← the_state;
  result ← world_op (fetch ("SELECT * FROM (" +:+ sql +:+ ") _q"));
  columns ← of_res (match gold_schema st with
                    | Some schema => mapR (gold_column schema) result.1
                    | None => raise KeyError "gold_schema" end);
  staged ← stage_gold (identity st) columns result.2;
  _ ← update_state (with_staged staged.1.1 staged.1.2 columns staged.2);
  mret staged.1.2.

Definition quoted (name : string) : string := quote_mark +:+ name +:+ quote_mark.
Definition snapshot_definition (schema : list (string * string)) (column : string * string) : res string :=
  match afind column.1 schema with Some type => Ok (quoted column.1 +:+ " " +:+ type) | None => raise KeyError column.1 end.

(** The rows of the stage, as they were read back from it, are what the object holds. *)
Definition _copy_scoped_gold_table_snapshot (table storage_path : string) (partition_by : option string) : eng string :=
  st ← the_state;
  let relation := quoted ("publication_" +:+ uuid_digits (materialization_run_id (identity st))) in
  definitions ← of_res (mapR (snapshot_definition (gold_snapshot_schema st)) (gold_columns st));
  _ ← world_op (execute ("CREATE TEMP TABLE " +:+ relation +:+ " (" +:+ join "," definitions +:+ ")") []);
  finally
    (_ ← (if Nat.eqb (length (gold_rows st)) 0 then mret tt
          else world_op (execute ("INSERT INTO " +:+ relation +:+ " VALUES ("
                                  +:+ join "," ((λ _, "?") <$> gold_columns st) +:+ ")") (gold_rows st)));
     copy_to_parquet ("SELECT * FROM " +:+ relation) storage_path partition_by)
    (world_op (execute ("DROP TABLE " +:+ relation) [])).

Definition py_list (v : pyval) : res pyval := l ← py_iter v; Ok (PList l).

Definition lineage_of (st : PubState) (v : LineageValues) : res pydict :=
  let ds := dataset st in
  sql_digest ← canonical_digest sha256_hex (PStr (str_or_empty (lv_sql_def v)));
  mapping_digest ← canonical_digest sha256_hex (py_or (lv_column_mapping v) (PDict []));
  sources ← py_list (py_or (get "sources" ds) (PList []));
  relationships ← py_list (py_or (get "relationships" ds) (PList []));
  Ok (mkdict [("cartridge_id", PStr (str_or_empty (get "cartridge" ds))); ("source_entity", PStr (str_or_empty (lv_source_entity v)));
              ("source_load_date", PStr (str_or_empty (lv_source_load_date v)));
              ("source_batch_id", PStr (str_or_empty (lv_source_batch_id v))); ("sql_digest", PStr sql_digest);
              ("column_mapping_digest", PStr mapping_digest); ("input_digest", PStr (i_input_digest (identity st)));
              ("contract_digest", PStr (i_contract_digest (identity st))); ("public_sources", sources);
              ("public_metadata", PDict (mkdict [("description", PStr (str_or_empty (get "description" ds)));
                                                 ("relationships", relationships)]))]).

Definition _write_lineage (v : LineageValues) : eng unit :=
  st ← the_state;
  l ← of_res (lineage_of st v);
  _ ← update_state (with_lineage l);
  n ← of_res (int_or_zero (lv_row_count v));
  update_state (with_row_count n).

(** *** The end of a publication *)

Definition _assert_inputs_unchanged (ds context : pydict) : eng unit :=
  st ← the_state;
  current ← input_state_of ds context;
  now ← of_res (canonical_digest sha256_hex (PList current));
  captured ← of_res (canonical_digest sha256_hex (PList (input_state st)));
  if bool_decide (now = captured) then mret tt else raises RuntimeError "materialization dependencies changed before publication".

(** The fields whose columns are expected in the object. *)
Definition expected_fields_of (st : PubState) (layer : string) (schema_fields : list pydict) : list pydict :=
  match gold_schema st with
  | Some schema =>
      if bool_decide (layer = "gold") && negb (Nat.eqb (length schema) 0) then
        _merge_profile_stats ((λ kv : string * (string * string), mkdict [("name", PStr kv.2.1); ("type", PStr kv.2.2)]) <$> schema)
          schema_fields
      else schema_fields
  | None => schema_fields
  end.

Definition public_semantics (st : PubState) : eng Semantics :=
  c ← (if pg_url then c ← world_op catalog_tables; mret (Some c) else mret None);
  of_res (snapshot_public_semantics json_loads uuid c (s_tenant (i_scope (identity st))) (s_workspace (i_scope (identity st)))
            (dataset st)).

Definition described_field (columns : pydict) (field : pydict) : pydict :=
  match dget (field_name field) columns with Some (PDict extra) => dupdate field extra | _ => field end.

Definition published_lineage (sem : Semantics) (l : pydict) : pydict :=
  dset "public_metadata"
    (PDict (mkdict [("description", PStr (m_description sem)); ("relationships", PList (PDict <$> m_relationships sem))]))
    (dset "public_sources" (PList (m_sources sem)) l).

(** What is checked before the candidate is submitted: the rows, the lineage and the catalog of the evidence. *)
Definition evidence_of_state (layer : string) (schema_fields : list pydict) : eng (Z * pyval * pyval * list pydict) :=
  st ← the_state;
  let o := object st in
  if negb (nonempty (o_uri o)) || negb (nonempty (o_checksum o)) || negb (nonempty (o_version o))
  then raises RuntimeError "materialization object was not durably prepared"
  else
    let fields := expected_fields_of st layer schema_fields in
    if Nat.eqb (length fields) 0 || Nat.eqb (length (lineage st)) 0
    then raises RuntimeError "materialization schema and lineage are required"
    else
      _ ← _assert_inputs_unchanged (dataset st) (user_context st);
      checked ← _verify_parquet_evidence sha256_hex parquet_file json_loads en o (state_row_count st) (field_name <$> fields);
      _ ← update_state (with_row_count checked.1);
      sem ← public_semantics st;
      let catalog := described_field (m_columns sem) <$> _merge_profile_stats checked.2 fields in
      let l := published_lineage sem (lineage st) in
      _ ← update_state (with_lineage l);
      if negb (nonempty (en_database en)) then raises RuntimeError "GOLD_DATABASE_URL is required for publication evidence"
      else
        items ← of_res (prepare_catalog catalog);
        mret (checked.1, PDict l, PList (PDict <$> items), items).

Definition submit_and_prepare (rows : Z) (l catalog : pyval) : eng unit :=
  st ← the_state;
  candidate ← submit (identity st) (object st) rows l catalog;
  _ ← verify candidate;
  _ ← store_prepared (identity st) (object st) rows (staging_table st) l catalog;
  mret tt.

Definition publish_state : eng unit :=
  st ← the_state;
  _ ← verify_prepared_object (object st);
  p ← handling (publish (identity st) (expected_head st)) (recovering (identity st));
  _ ← update_state (with_receipt p);
  _mark_publication_replayed (p_replayed p).

Definition _update_catalog (name layer cartridge : string) (schema_fields : list pydict) (column_mapping : pydict)
    (description : string) (context : pydict) : eng unit :=
  evidence ← evidence_of_state layer schema_fields;
  let '(rows, l, catalog, items) := evidence in
  _ ← submit_and_prepare rows l catalog;
  _ ← publish_state;
  handling (world_op (base_update_catalog name layer cartridge items column_mapping description context)) (λ _, mret tt).

(** *** Materialization *)

Definition answer {A} (f : A → reply) (m : eng A) : eng reply := a ← m; mret (f a).

Definition call_hook (h : hook) : eng reply :=
  match h with
  | EnsureGold table sql => answer (λ _, RNone) (_ensure_scoped_gold_table table sql)
  | ReplaceGold table sql => answer RCount (_replace_scoped_gold_rows table sql)
  | SnapshotPath layer cartridge name context => answer RText (_snapshot_path en layer cartridge name context)
  | CopyGold table path partition_by => answer RText (_copy_scoped_gold_table_snapshot table path partition_by)
  | CopyParquet sql path partition_by => answer RText (copy_to_parquet sql path partition_by)
  | WriteLineage v => answer (λ _, RNone) (_write_lineage v)
  | UpdateCatalog name layer cartridge fields mapping description context =>
      answer (λ _, RNone) (_update_catalog name layer cartridge fields mapping description context)
  end.

Fixpoint run_program (p : program W) : eng pydict := λ wl,
  match p with
  | Return result => (Ok result, wl)
  | Throw e => (Raise e, wl)
  | Change f k => run_program (k wl.1) (f wl.1, wl.2)
  | Call h k => let '(r, wl) := call_hook h wl in run_program (k r) wl
  end.

(** [super().materialize]: the materializer of a dataset for a context. *)
Context (materializer : pydict → pydict → program W).

Definition outcome_of (scope : PublicationScope) (rows : option Z) : pydict :=
  mkdict [("name", PStr (s_dataset scope)); ("layer", PStr (s_layer scope)); ("row_count", PInt (default 0 rows))].

Definition run_rows (current : option RunRow) : option Z := current ≫= rr_row_count.

Definition materialize_prepared (i : PublicationIdentity) (current : option RunRow) : eng pydict :=
  _ ← handling
        (_ ← verify_prepared_object (default no_object (current ≫= rr_object));
         publish i (current ≫= rr_expected))
        (recovering i);
  current ← run env i;
  mret (outcome_of (i_scope i) (run_rows current)).

Definition materialize_reserved (i : PublicationIdentity) (expected : option string) (ds context : pydict) (inputs : list pyval) :
    eng pydict :=
  _ ← set_state (Some (new_state i expected ds context inputs));
  finally
    (result ← run_program (materializer ds context);
     st ← the_state;
     if published st then mret (dpop "storage_uri" result)
     else raises RuntimeError "materialization ended without a publication receipt")
    (set_state None).

Definition _materialize_locked (ds context : pydict) (i : PublicationIdentity) (inputs : list pyval) : eng pydict :=
  status ← reserve uuid env i;
  current ← run env i;
  if bool_decide (status = "published") then
    _ ← _mark_publication_replayed true; mret (outcome_of (i_scope i) (run_rows current))
  else if bool_decide (status = "prepared") then materialize_prepared i current
  else materialize_reserved i (current ≫= rr_expected) ds context inputs.

(** The head is the publication that is asked for. *)
Definition same_digests (h : HeadRow) (i : PublicationIdentity) : bool :=
  bool_decide (hr_input_digest h = i_input_digest i) && bool_decide (hr_contract_digest h = i_contract_digest i).

Definition materialize_new (ds context : pydict) (inputs : list pyval) (h : option HeadRow) : eng pydict :=
  i ← of_res (build sha256_hex sha1 ds context inputs (hr_run <$> h));
  run_lock env i (_materialize_locked ds context i inputs).

Definition materialize_top (ds context : pydict) : eng pydict :=
  _ ← _mark_publication_replayed false;
  inputs ← input_state_of ds context;
  candidate ← of_res (build sha256_hex sha1 ds context inputs None);
  found ← head uuid env (i_scope candidate);
  match found with
  | Some h =>
      if same_digests h candidate then
        _ ← verify_prepared_object (default no_object (hr_object h));
        _ ← _mark_publication_replayed true;
        mret (outcome_of (i_scope candidate) (hr_row_count h))
      else materialize_new ds context inputs found
  | None => materialize_new ds context inputs found
  end.

Definition materialize (ds context : pydict) : eng pydict := λ wl,
  match l_state wl.2 with
  | Some _ => run_program (materializer ds context) wl
  | None => materialize_top ds context wl
  end.

(** *** Reading what is published (publication_read_guard.py) *)

Definition _published_dataset_head (ds context : pydict) : eng HeadRow :=
  scope ← of_res (from_dataset ds context);
  found ← head uuid env scope;
  match found with
  | None => raises RuntimeError "dataset is not published"
  | Some h =>
      _ ← (if bool_decide (hr_status h = "legacy_unverified") then mret tt
           else verify_prepared_object (default no_object (hr_object h)));
      mret h
  end.

Definition _published_sql (ds : pydict) (h : HeadRow) : res string :=
  let layer := lower (py_str (py_or (get "layer" ds) (PStr "silver"))) in
  if bool_decide (layer = "gold") then
    let table := default "" (hr_gold_table h) in
    if bool_decide (hr_status h = "legacy_unverified") && startswith "gold_" table
    then Ok ("SELECT * FROM pggold." +:+ quoted table)
    else if startswith "run_" table then Ok ("SELECT * FROM pggold.omega_publication_gold." +:+ quoted table)
    else raise RuntimeError "published Gold relation is unavailable"
  else
    let uri := o_uri (default no_object (hr_object h)) in
    if negb (startswith "s3://" uri) then raise RuntimeError "published Silver object is unavailable"
    else Ok ("SELECT * FROM read_parquet('" +:+ sreplace "'" "''" uri +:+ "')").

Definition _published_dataset (ds context : pydict) : eng pydict :=
  h ← _published_dataset_head ds context;
  sql ← of_res (_published_sql ds h);
  mret (dset "sources" (PList []) (dset "sql_def" (PStr sql) ds)).
End Engine.
