(* ===== verification/PublicationRuns.v ===== *)
(** What a materialization that returns has done: its run is in the tables, published,
    for the scope and the digests it was asked for; how a recovery ends; and that the
    engine changes the tables by calls of the authority alone, whatever others call
    meanwhile. *)
From S2P Require Import Prelude PyStr PyVal PyTime PyUrl PyJson PyIo PyUuid StorageScope SignedContext Publication PublicationSafety PartitionedParquet PublicationStore PublicationVerifier PublishedSnapshots PublicSemantics PublicationObjects PublicationEngine.

Open Scope Z_scope.

Section Runs.
Context {Hrepr : PyRepr}.
Context (jsonb_text : pyval → string) (jsonb_eq : pyval → pyval → bool) (time_text : instant → string).
Context (sha256_hex : string → string) (hmac_hex : string → string → string) (md5_hex sha1 : string → string).
Context (pg_type : string → option string) (store_cell : string → pyval → option pyval) (cell_text : pyval → option string).
Context (uuid : string → option string) (json_loads : string → res pyval).
Context (parquet_file : string → res ParquetFile) (parquet_bytes : ParquetFile → string).
Context (read_table : string → res ArrowTable) (arrow_types : list (string * string) → list (string * ArrowType)).
Context (operational : string → bool) (class_name : exn → string) (_materializer_input_state : pydict → list pyval).
Context (env : store) (en : engine) (pg_url : bool).
Context {W : Type} {Hworld : PublicationWorld W} {Hstorage : ObjectStorage W} {Hlisting : ObjectListing W}.
Context {Hupload : UploadStorage W} {Hduck : DuckDB W} {Hengine : EngineWorld W}.

Abbreviation steps := (PublicationSafety.steps jsonb_text jsonb_eq time_text sha256_hex hmac_hex).
Abbreviation eng := (io (W * Local)).
Abbreviation tables wl := (authority (W:=W * Local) wl).

(** The tables change by calls of the authority. *)
Definition evolves (w w' : W) : Prop := ∃ log, steps (authority w) log (authority w').
Definition others {A} (m : W → res A * W) : Prop := ∀ w r w', m w = (r, w') → evolves w w'.

(** What the world promises to the engine: whatever is not the engine's doing is that
    of others, who change the tables by calls of the authority too. *)
Class FairWorld : Prop := {
  Hset : ∀ db w, authority (set_authority db w) = db;
  Hdial : others dial;
  Hlock : ∀ k, others (lock k);
  Hunlock : ∀ k, others (unlock k);
  Hget : ∀ k v, others (get_bytes k v);
  Hstat : ∀ k v, others (stat k v);
  Hlist : ∀ k, others (iter_list k);
  Hchunks : ∀ k v, others (iter_chunks k v);
  Hexists : ∀ k, others (exists_object k);
  Hput : ∀ k b d, others (put_file k b d);
  Hdescribe : ∀ q, others (describe q);
  Hfetch : ∀ q, others (fetch q);
  Hcopy : ∀ q, others (copy_to q);
  Hparts : ∀ q c, others (copy_parts q c);
  Htypes : ∀ c l, others (stable_types c l);
  Hexecute : ∀ q l, others (execute q l);
  Hexchange : ∀ q, others (exchange q);
  Hcatalog : others catalog_tables;
  Hbase : ∀ a b c d e f g, others (base_update_catalog a b c d e f g) }.
Context {Hfair : FairWorld}.

(** The run of a publication is in the tables, visible, with its scope and digests. *)
Definition known (i : PublicationIdentity) (r : Run) (db : Authority) : Prop :=
  runs db !! materialization_run_id i = Some r ∧ scope_uuids uuid (i_scope i) = Ok (r_scope r)
  ∧ in_session (_scope (i_scope i)) (r_scope r) = true
  ∧ r_input_digest r = i_input_digest i ∧ r_contract_digest r = i_contract_digest i.
Definition done_run (i : PublicationIdentity) (db : Authority) : Prop :=
  ∃ r, runs db !! materialization_run_id i = Some r ∧ r_status r = "published".

(** What holds throughout: consistent tables, and a publication in progress that is
    said to be published is. *)
Definition inv (i : PublicationIdentity) (wl : W * Local) : Prop :=
  consistent (tables wl)
  ∧ ∀ st, l_state wl.2 = Some st → identity st = i ∧ (published st = true → done_run i (tables wl)).

Definition tame {A} (i : PublicationIdentity) (m : eng A) : Prop :=
  ∀ wl r wl', inv i wl → m wl = (r, wl') → evolves wl.1 wl'.1 ∧ inv i wl'.

Lemma evolves_refl w : evolves w w.
Proof. exists []. constructor. Qed.

Lemma steps_app db l1 db1 l2 db2 : steps db l1 db1 → steps db1 l2 db2 → steps db (l1 ++ l2) db2.
Proof. induction 1; [done|]. intros. rewrite <- app_assoc. econstructor; eauto. Qed.

Lemma evolves_trans w1 w2 w3 : evolves w1 w2 → evolves w2 w3 → evolves w1 w3.
Proof. intros [l1 H1] [l2 H2]. exists (l1 ++ l2). by eapply steps_app. Qed.

Lemma evolves_one w w' db es : evolves w w' → step jsonb_text jsonb_eq time_text sha256_hex hmac_hex (authority w') es db →
  evolves w (set_authority db w').
Proof.
  intros [l H] Hs. exists (l ++ (es ++ [])). rewrite Hset. eapply steps_app; [exact H|]. econstructor; [exact Hs|constructor].
Qed.

Lemma evolves_consistent w w' : evolves w w' → consistent (authority w) → consistent (authority w').
Proof. intros [l H] Hc. by eapply steps_consistent. Qed.

Lemma done_stable i db log db' : consistent db → steps db log db' → done_run i db → done_run i db'.
Proof.
  intros Hc Hs (r & Hr & Hp). destruct (steps_keep _ _ _ _ _ _ _ _ _ _ Hc Hs Hr (or_introl Hp)) as (K & _).
  exists r. by rewrite K.
Qed.

(** An action of others, or of the engine on the tables alone, leaves the local state. *)
Lemma inv_world i wl wl' : inv i wl → evolves wl.1 wl'.1 → wl'.2 = wl.2 → inv i wl'.
Proof.
  intros [Hc Hst] He El. split; [by eapply evolves_consistent|]. rewrite El. intros st Hs. destruct (Hst st Hs) as [Hi Hp].
  split; [done|]. intros H. destruct He as [log Hl]. eapply done_stable; [exact Hc|exact Hl|]. by apply Hp.
Qed.

Definition still {A} (m : eng A) : Prop := ∀ wl r wl', m wl = (r, wl') → evolves wl.1 wl'.1 ∧ wl'.2 = wl.2.

Lemma still_tame {A} i (m : eng A) : still m → tame i m.
Proof. intros H wl r wl' Hi Hm. destruct (H _ _ _ Hm) as [He El]. split; [done|by eapply inv_world]. Qed.

Lemma still_world {A} (m : W → res A * W) : others m → still (world_op m).
Proof. intros H [w l] r wl'. unfold world_op. cbn. destruct (m w) as [r' w'] eqn:E. intros [= <- <-]. split; [by eapply H|done]. Qed.

Lemma still_of_res {A} (r : res A) : still (of_res r).
Proof. intros wl r' wl' [= <- <-]. split; [apply evolves_refl|done]. Qed.

Lemma still_bind {A B} (m : eng A) (f : A → eng B) : still m → (∀ a, still (f a)) → still (m ≫= f).
Proof.
  intros Hm Hf wl r wl'. unfold mbind, io_bind. destruct (m wl) as [[a|e] w1] eqn:E; [|intros [= <- <-]; by eapply Hm].
  intros H. destruct (Hm _ _ _ E) as [H1 E1]. destruct (Hf _ _ _ _ H) as [H2 E2]. split; [by eapply evolves_trans|congruence].
Qed.

Lemma still_handling {A} (m : eng A) h : still m → (∀ e, still (h e)) → still (handling m h).
Proof.
  intros Hm Hf wl r wl'. unfold handling. destruct (m wl) as [[a|e] w1] eqn:E; [intros [= <- <-]; by eapply Hm|].
  intros H. destruct (Hm _ _ _ E) as [H1 E1]. destruct (Hf _ _ _ _ H) as [H2 E2]. split; [by eapply evolves_trans|congruence].
Qed.

Lemma tame_bind {A B} i (m : eng A) (f : A → eng B) : tame i m → (∀ a, tame i (f a)) → tame i (m ≫= f).
Proof.
  intros Hm Hf wl r wl' Hi. unfold mbind, io_bind. destruct (m wl) as [[a|e] w1] eqn:E; [|intros [= <- <-]; by eapply Hm].
  intros H. destruct (Hm _ _ _ Hi E) as [H1 I1]. destruct (Hf _ _ _ _ I1 H) as [H2 I2]. split; [by eapply evolves_trans|done].
Qed.

Lemma tame_handling {A} i (m : eng A) h : tame i m → (∀ e, tame i (h e)) → tame i (handling m h).
Proof.
  intros Hm Hf wl r wl' Hi. unfold handling. destruct (m wl) as [[a|e] w1] eqn:E; [intros [= <- <-]; by eapply Hm|].
  intros H. destruct (Hm _ _ _ Hi E) as [H1 I1]. destruct (Hf _ _ _ _ I1 H) as [H2 I2]. split; [by eapply evolves_trans|done].
Qed.

Lemma tame_finally {A} i (m : eng A) f : tame i m → tame i f → tame i (finally m f).
Proof.
  intros Hm Hf wl r wl' Hi. unfold finally. destruct (m wl) as [r1 w1] eqn:E. destruct (Hm _ _ _ Hi E) as [H1 I1].
  destruct (f w1) as [u w2] eqn:E2. destruct (Hf _ _ _ I1 E2) as [H2 I2].
  intros H. assert (wl' = w2) as -> by (destruct u; by injection H). split; [by eapply evolves_trans|done].
Qed.

(** ** Every action of the engine evolves the tables *)

Lemma still_transact {A} dsn (f : link → Authority → res (A * Authority)) :
  (∀ l db a db', f l db = Ok (a, db') → ∃ log, steps db log db') → still (transact dsn f).
Proof.
  intros Hf [w loc] r wl'. unfold transact. destruct (negb _); [intros [= <- <-]; split; [apply evolves_refl|done]|].
  destruct (dial (w, loc)) as [d w1] eqn:Ed. assert (evolves w w1.1 ∧ w1.2 = loc) as [He El].
  { revert Ed. cbn. unfold world_op. cbn. destruct (dial w) as [d' w'] eqn:E. intros [= <- <-]. split; [by eapply Hdial|done]. }
  destruct d as [l|e]; [|intros [= <- <-]; by split]. destruct (f l _) as [[a db]|e] eqn:Ef; [|intros [= <- <-]; by split].
  destruct (Hf _ _ _ _ Ef) as [log Hl]. intros H. assert (wl' = set_authority db w1) as -> by (destruct (l_acked l); by injection H).
  split; [|done]. destruct He as [l1 H1]. exists (l1 ++ log). cbn. rewrite Hset. eapply steps_app; [exact H1|exact Hl].
Qed.

Lemma steps_one db es db' : step jsonb_text jsonb_eq time_text sha256_hex hmac_hex db es db' → ∃ log, steps db log db'.
Proof. intros H. exists (es ++ []). econstructor; [exact H|constructor]. Qed.

Lemma steps_stay db : ∃ log, steps db log db.
Proof. exists []. constructor. Qed.

Abbreviation publish i := (PublicationStore.publish jsonb_text jsonb_eq time_text sha256_hex hmac_hex md5_hex cell_text uuid env i).
Abbreviation store_prepared i := (PublicationStore.mark_prepared jsonb_text jsonb_eq time_text sha256_hex hmac_hex cell_text env i).
Abbreviation submit i := (PublicationStore.submit jsonb_text sha256_hex env i).
Abbreviation stage_gold i := (PublicationStore.stage_gold jsonb_text pg_type store_cell cell_text env i).
Abbreviation head_of := (PublicationStore.head uuid env).

Lemma reserve_still i : still (reserve uuid env i).
Proof.
  apply still_transact. intros l db st db' (x & _ & (e & _ & H)%bind_ok)%bind_ok. eapply steps_one. eapply reserve_step. exact H.
Qed.

Lemma run_still i : still (PublicationStore.run env i).
Proof. apply still_transact. intros l db st db' [= _ <-]. apply steps_stay. Qed.

Lemma head_still x : still (head_of x).
Proof. apply still_transact. intros l db h db' (y & _ & [= _ <-])%bind_ok. apply steps_stay. Qed.

Lemma submit_still i o rows l c : still (submit i o rows l c).
Proof. apply still_transact. intros k db st db' H. eapply steps_one. eapply submit_step. exact H. Qed.

Lemma prepared_still i o rows st l c : still (store_prepared i o rows st l c).
Proof.
  apply still_transact. intros k db d db' ([row db1] & Hm & H)%bind_ok. destruct row as [digests|]; [|done]. injection H as _ <-.
  eapply steps_one. exact (prepare_step _ _ _ _ _ md5_hex pg_type store_cell _ _ _ _ _ _ _ _ _ _ _ _ _ Hm).
Qed.

Lemma quarantine_still i reason : still (quarantine env i reason).
Proof. apply still_transact. intros l db u db' (db1 & H & [= _ <-])%bind_ok. eapply steps_one. eapply quarantine_step. exact H. Qed.

Lemma abandon_still i : still (abandon env i).
Proof. apply still_transact. intros l db u db' (db1 & H & [= _ <-])%bind_ok. eapply steps_one. eapply abandon_step. exact H. Qed.

Lemma reopen_still i reason : still (reopen_prepared env i reason).
Proof. apply still_transact. intros l db u db' H. eapply steps_one. eapply reopen_step. exact H. Qed.

Lemma stage_gold_still i columns rows : still (stage_gold i columns rows).
Proof.
  apply still_transact. intros l db out db' ([stage db1] & Hs & H)%bind_ok. destruct (negb _); [done|].
  apply bind_ok in H as (db2 & Hi & (frozen & _ & [= _ <-])%bind_ok). apply (stage_step jsonb_text jsonb_eq time_text sha256_hex hmac_hex) in Hs.
  destruct (Nat.eqb _ 0); [injection Hi as <-; by eapply steps_one|].
  apply (insert_step jsonb_text jsonb_eq time_text sha256_hex hmac_hex) in Hi. exists (([] : list event) ++ ([] ++ [])). econstructor; [exact Hs|]. econstructor; [exact Hi|constructor].
Qed.

(** A publication that returns has published its run. *)
Lemma publish_tables s now fresh k expected db p db' :
  consistent db →
  publish_materialization jsonb_text jsonb_eq time_text sha256_hex hmac_hex md5_hex cell_text s now fresh k expected db = Ok (p, db') →
  (∃ log, steps db log db') ∧ ∃ r, runs db' !! k = Some r ∧ r_status r = "published".
Proof.
  intros Hc [(rc & Hrc & -> & ->)|(r & o & rows & db1 & Hv & Ho & Hrows & -> & _ & -> & Hs)]%publish_cases.
  - split; [apply steps_stay|]. destruct (cn_receipts db Hc k rc Hrc) as (r & Hr & Hst & _). by exists r.
  - split; [by eapply steps_one|]. apply step_published in Hs as (n & f & r' & schema & digest & _ & _ & _ & _ & _ & _ & _ & Hr & _).
    eexists. split; [exact Hr|done].
Qed.

Lemma publish_still i e : still (publish i e).
Proof.
  apply still_transact. intros l db p db' (x & _ & H)%bind_ok. pose proof (publish_cases _ _ _ _ _ _ _ _ _ _ _ _ _ _ _ H)
    as [(rc & _ & _ & ->)|(r & o & rows & db1 & _ & _ & _ & _ & _ & _ & Hs)]; [apply steps_stay|by eapply steps_one].
Qed.

Lemma publish_done i e wl p wl' : consistent (tables wl) → publish i e wl = (Ok p, wl') → done_run i (tables wl').
Proof.
  intros Hc H. pose proof H as (l & w1 & db & Hd & Hf & ->)%transact_ok. apply bind_ok in Hf as (x & _ & Hf).
  assert (Hc1 : consistent (authority w1)).
  { revert Hd. destruct wl as [w loc]. cbn. unfold world_op. cbn. destruct (dial w) as [d' w'] eqn:E. intros [= -> <-].
    eapply evolves_consistent; [by eapply Hdial|exact Hc]. }
  destruct (publish_tables _ _ _ _ _ _ _ _ Hc1 Hf) as [_ Hr]. unfold done_run. cbn. by rewrite Hset.
Qed.

(** *** Actions that leave the state of the publication *)

Lemma still_ret {A} (a : A) : still (mret a).
Proof. exact (still_of_res (Ok a)). Qed.

Lemma still_the_state : still (the_state (W:=W)).
Proof. intros wl r wl'. unfold the_state. destruct (l_state wl.2); intros [= <- <-]; (split; [apply evolves_refl|done]). Qed.

Lemma still_stat k v : still (stat k v).
Proof. exact (still_world _ (Hstat k v)). Qed.
Lemma still_get k v : still (get_bytes k v).
Proof. exact (still_world _ (Hget k v)). Qed.
Lemma still_list k : still (iter_list k).
Proof. exact (still_world _ (Hlist k)). Qed.

Create HintDb still.
#[local] Hint Resolve still_ret still_of_res still_the_state still_stat still_get still_list still_world reserve_still run_still
  head_still submit_still prepared_still quarantine_still abandon_still reopen_still stage_gold_still publish_still
  Hchunks Hexists Hput Hdescribe Hfetch Hcopy Hparts Htypes Hexecute Hexchange Hcatalog Hbase : still.
#[local] Hint Extern 1 (still (raises _ _)) => apply still_of_res : still.

(** Through binds, handlers and branches. *)
Ltac stills :=
  repeat first
    [ solve [auto with still nocore]
    | apply still_bind; [|intros ?]
    | apply still_handling; [|intros ?]
    | match goal with
      | |- still (match ?x with _ => _ end) => destruct x
      | |- still (let _ := _ in _) => cbv zeta
      end ].

Abbreviation checksum_of := (_object_checksum sha256_hex (W:=W)).
Abbreviation verify_prepared_object := (_verify_prepared_object sha256_hex en (W:=W)).

Lemma checksum_still k v : still (checksum_of k v).
Proof. unfold _object_checksum. stills. Qed.
#[local] Hint Resolve checksum_still : still.

Lemma verify_prepared_still o : still (verify_prepared_object o).
Proof. unfold _verify_prepared_object. stills. Qed.

Lemma pinned_part_still part : still (_pinned_partition_part sha256_hex parquet_file part).
Proof. unfold _pinned_partition_part. stills. Qed.
#[local] Hint Resolve verify_prepared_still pinned_part_still : still.

Lemma read_parts_still n ps t : still (read_parts sha256_hex parquet_file read_table n ps t).
Proof. revert t. induction ps as [|p ps IH]; intros t; simpl; stills. Qed.
#[local] Hint Resolve read_parts_still : still.

Lemma read_table_still uri v n :
  still (_read_published_table sha256_hex parquet_file json_loads read_table arrow_types en uri v n).
Proof. unfold _read_published_table. stills. Qed.

Lemma evidence_parts_still l ps : still (evidence_parts sha256_hex parquet_file l ps).
Proof. induction ps as [|p ps IH]; simpl; stills. Qed.
#[local] Hint Resolve read_table_still evidence_parts_still : still.

Lemma evidence_still o n l : still (_verify_parquet_evidence sha256_hex parquet_file json_loads en o n l).
Proof. unfold _verify_parquet_evidence, evidence_rows. stills. Qed.

Lemma put_still b k d : still (_put_partition_object sha256_hex en b k d).
Proof. unfold _put_partition_object. stills. Qed.
#[local] Hint Resolve evidence_still put_still : still.

Lemma upload_parts_still l set column n out files : still (upload_parts sha256_hex parquet_file en l set column n out files).
Proof. revert n. induction files as [|[v f] files IH]; intros n; simpl; stills. Qed.

Lemma parts_schema_still sql column out files : still (parts_schema parquet_file sql column out files).
Proof. unfold parts_schema. stills. Qed.
#[local] Hint Resolve upload_parts_still parts_schema_still : still.

Lemma partitioned_still sql path column : still (_copy_partitioned_parquet sha256_hex parquet_file parquet_bytes en sql path column).
Proof. unfold _copy_partitioned_parquet, _partition_set_key. stills. Qed.

(** The state of the inputs. *)
Lemma read_still x : still (_read uuid (en_database en) x).
Proof.
  unfold _read, _read_many. cbv zeta. apply still_bind.
  - destruct (dedup [x]); [auto with still nocore|]. destruct (negb _); [auto with still nocore|].
    apply still_transact. intros lk db f db' (here & _ & (found & _ & [= _ <-])%bind_ok)%bind_ok. apply steps_stay.
  - intros found. stills.
Qed.
#[local] Hint Resolve partitioned_still read_still : still.

Lemma validated_still config sn : still (validated operational class_name config sn).
Proof. unfold validated, _validate_object. stills. Qed.
#[local] Hint Resolve validated_still : still.

Lemma snapshot_still ds context : still (resolve_snapshot operational class_name uuid en ds context).
Proof. unfold resolve_snapshot, resolution_error, published_snapshot. stills. Qed.
#[local] Hint Resolve snapshot_still : still.

Lemma source_still context raw : still (resolve_source operational class_name uuid en context raw).
Proof. unfold resolve_source, _published_state, _raw_state. stills. Qed.
#[local] Hint Resolve source_still : still.

Lemma inputs_still ds context : still (resolve_input_state operational class_name uuid _materializer_input_state en ds context).
Proof.
  unfold resolve_input_state. apply still_bind; [auto with still nocore|]. intros sources. apply still_bind; [|intros; stills].
  induction sources as [|raw sources IH]; simpl; stills.
Qed.

(** ** How a recovery ends *)

Abbreviation settle_failed_reopen := (_settle_failed_reopen jsonb_text jsonb_eq time_text sha256_hex hmac_hex md5_hex cell_text uuid env (W:=W)).
Abbreviation settle_reopen_of := (settle_reopen jsonb_text jsonb_eq time_text sha256_hex hmac_hex md5_hex cell_text uuid env (W:=W)).
Abbreviation again := (prepare_again jsonb_text jsonb_eq time_text sha256_hex hmac_hex pg_type store_cell cell_text json_loads
  parquet_file read_table arrow_types env en (W:=W)).
Abbreviation prepare_or_abandon_of := (prepare_or_abandon jsonb_text jsonb_eq time_text sha256_hex hmac_hex pg_type store_cell cell_text
  json_loads parquet_file read_table arrow_types env en (W:=W)).
Abbreviation recover_from_of := (recover_from jsonb_text jsonb_eq time_text sha256_hex hmac_hex md5_hex pg_type store_cell cell_text uuid
  json_loads parquet_file read_table arrow_types env en (W:=W)).
Abbreviation recover := (_recover_prepared jsonb_text jsonb_eq time_text sha256_hex hmac_hex md5_hex pg_type store_cell cell_text uuid
  json_loads parquet_file read_table arrow_types env en (W:=W)).
Abbreviation recovering_of := (recovering jsonb_text jsonb_eq time_text sha256_hex hmac_hex md5_hex pg_type store_cell cell_text uuid
  json_loads parquet_file read_table arrow_types env en (W:=W)).

Lemma quarantine_cas_still {A} i : still (_quarantine_head_cas_loser (A:=A) env i).
Proof. unfold _quarantine_head_cas_loser, PublicationEngine.pending. stills. Qed.
#[local] Hint Resolve @quarantine_cas_still inputs_still : still.

Lemma settle_publication_still {A} i e : still (_settle_failed_publication (A:=A) env i e).
Proof. unfold _settle_failed_publication, PublicationEngine.pending. stills. Qed.

Lemma settle_reopen_still i reason : still (settle_reopen_of i reason).
Proof. unfold settle_reopen. stills. Qed.
#[local] Hint Resolve @settle_publication_still settle_reopen_still : still.

Lemma settle_failed_still i reason e : still (settle_failed_reopen i reason e).
Proof. unfold _settle_failed_reopen, PublicationEngine.pending. stills. Qed.

Lemma verify_still candidate : still (verify json_loads candidate).
Proof. unfold verify, _request. stills. Qed.
#[local] Hint Resolve settle_failed_still verify_still : still.

Lemma prepare_or_abandon_still i reason values : still (prepare_or_abandon_of i reason values).
Proof. unfold prepare_or_abandon, prepare_again, abandon_unless_prepared, _rebuild_gold_stage, PublicationEngine.pending. stills. Qed.
#[local] Hint Resolve prepare_or_abandon_still : still.

Lemma recover_from_still i reason values : still (recover_from_of i reason values).
Proof. unfold recover_from. stills. Qed.
#[local] Hint Resolve recover_from_still : still.

Lemma recover_still i e : still (recover i e).
Proof.
  intros wl r wl'. unfold _recover_prepared. destruct (reopen_prepared env i _ wl) as [[values|e'] w1] eqn:E; intros H;
    pose proof (reopen_still _ _ _ _ _ E) as [H1 E1]; [apply recover_from_still in H as [H2 E2]|apply settle_failed_still in H as [H2 E2]];
    (split; [by eapply evolves_trans|congruence]).
Qed.
#[local] Hint Resolve recover_still : still.

Lemma recovering_still i e : still (recovering_of i e).
Proof. unfold recovering. stills. Qed.
#[local] Hint Resolve recovering_still : still.

Lemma still_consistent {A} (m : eng A) wl r wl' : still m → consistent (tables wl) → m wl = (r, wl') → consistent (tables wl').
Proof. intros Hm Hc H. destruct (Hm _ _ _ H) as [He _]. by eapply evolves_consistent. Qed.

(** The run in the tables was quarantined. *)
Definition is_quarantined (i : PublicationIdentity) (db : Authority) : Prop :=
  ∃ r, runs db !! materialization_run_id i = Some r ∧ r_status r = "recoverable_failed".

Lemma quarantine_ok i reason wl wl' : quarantine env i reason wl = (Ok tt, wl') → is_quarantined i (tables wl').
Proof.
  intros (l & w1 & db & _ & (db1 & Hq & [= ->])%bind_ok & ->)%transact_ok. unfold is_quarantined. cbn. rewrite Hset.
  unfold quarantine_prepared in Hq. apply bind_ok in Hq as (r & _ & Hq). destruct (negb _) in Hq; [done|].
  destruct (spoken_for _ _) in Hq; [done|]. destruct (evidence _ !! _) in Hq; [|done]. injection Hq as <-.
  eexists. cbn. by rewrite lookup_insert_eq.
Qed.

(** How a recovery may fail. *)
Definition recovery_failed (i : PublicationIdentity) (e : exn) (db : Authority) : Prop :=
  exn_cls e = PublicationRecoveryPending ∨ exn_cls e = PublicationRejected ∧ is_quarantined i db.

Lemma quarantine_cas_fails {A} i wl (r : res A) wl' :
  _quarantine_head_cas_loser env i wl = (r, wl') → ∃ e, r = Raise e ∧ recovery_failed i e (tables wl').
Proof.
  unfold _quarantine_head_cas_loser, PublicationEngine.pending, mbind, io_bind, handling.
  destruct (quarantine env i _ wl) as [[[]|e] w1]; intros [= <- <-]; (eexists; split; [done|by left]).
Qed.

Lemma settle_publication_fails {A} i e wl (r : res A) wl' :
  _settle_failed_publication env i e wl = (r, wl') → ∃ e', r = Raise e' ∧ recovery_failed i e' (tables wl').
Proof.
  unfold _settle_failed_publication. cbv zeta. case_bool_decide; [apply quarantine_cas_fails|]. destruct (negb _).
  { intros [= <- <-]. eexists. split; [done|by left]. }
  unfold mbind, io_bind, handling. destruct (quarantine env i _ wl) as [[[]|e'] w1] eqn:E.
  - intros [= <- <-]. eexists. split; [done|]. right. split; [done|]. by eapply quarantine_ok.
  - intros [= <- <-]. eexists. split; [done|by left].
Qed.

(** What a recovery that is over has come to. *)
Definition recovered (i : PublicationIdentity) (r : res Publication) (wl' : W * Local) : Prop :=
  match r with Ok _ => done_run i (tables wl') | Raise e => recovery_failed i e (tables wl') end.

Lemma settle_failed_reopen_ends i reason e wl r wl' :
  consistent (tables wl) → settle_failed_reopen i reason e wl = (r, wl') → recovered i r wl'.
Proof.
  intros Hc. unfold _settle_failed_reopen. destruct (negb _); [intros [= <- <-]; by left|].
  unfold mbind at 1, io_bind at 1, handling. destruct (settle_reopen_of i reason wl) as [[[p|]|e'] w1] eqn:E;
    [|intros [= <- <-]; by left..].
  intros [= <- <-]. unfold settle_reopen in E. apply io_bind_ok in E as (current & w2 & Hrun & E).
  pose proof (still_consistent _ _ _ _ (run_still i) Hc Hrun) as Hc2. case_bool_decide.
  - apply io_bind_ok in E as (p' & w3 & Hp & [= _ <-]). by eapply publish_done.
  - apply io_bind_ok in E as (u & w3 & _ & E). by injection E.
Qed.

Lemma recover_from_ends i reason values wl r wl' :
  consistent (tables wl) → recover_from_of i reason values wl = (r, wl') → recovered i r wl'.
Proof.
  intros Hc. unfold recover_from. unfold mbind at 1, io_bind at 1.
  destruct (prepare_or_abandon_of i reason values wl) as [[u|e] w1] eqn:E.
  - pose proof (still_consistent _ _ _ _ (prepare_or_abandon_still i reason values) Hc E) as Hc1. unfold handling.
    destruct (publish i _ w1) as [[p|e] w2] eqn:Ep.
    + intros [= <- <-]. by eapply publish_done.
    + intros (e' & -> & H)%settle_publication_fails. exact H.
  - intros [= <- <-]. unfold prepare_or_abandon, handling in E. destruct (again i reason values wl) as [[u|e'] w2]; [done|].
    unfold mbind, io_bind, PublicationEngine.pending in E. destruct (abandon_unless_prepared env i w2) as [[[]|e3] w3];
      injection E as <- <-; by left.
Qed.

Lemma recover_ends i e wl r wl' : consistent (tables wl) → recover i e wl = (r, wl') → recovered i r wl'.
Proof.
  intros Hc. unfold _recover_prepared. destruct (reopen_prepared env i _ wl) as [[values|e'] w1] eqn:E; intros H;
    pose proof (still_consistent _ _ _ _ (reopen_still i _) Hc E) as Hc1; [by eapply recover_from_ends|by eapply settle_failed_reopen_ends].
Qed.

Lemma recovering_ends i e wl r wl' : consistent (tables wl) → recovering_of i e wl = (r, wl') → recovered i r wl'.
Proof.
  intros Hc. unfold recovering. case_bool_decide; [|by apply recover_ends].
  intros (e' & -> & Hf)%quarantine_cas_fails. exact Hf.
Qed.

(** ** The methods of a publication in progress *)

(** What an update of the state leaves: the identity, and whether it is published. *)
Definition keeps_identity (f : PubState → PubState) : Prop := ∀ st, identity (f st) = identity st ∧ published (f st) = published st.

Lemma tame_update i f : keeps_identity f → tame i (update_state (W:=W) f).
Proof.
  intros Hf [w l] r wl' [Hc Hst] [= <- <-]. split; [apply evolves_refl|]. split; [done|]. cbn.
  destruct (l_state l) as [st|] eqn:El; [|done]. intros st' [= <-]. destruct (Hf st) as [-> ->]. by apply Hst.
Qed.

Lemma tame_mark i b : tame i (_mark_publication_replayed (W:=W) b).
Proof. intros [w l] r wl' Hi [= <- <-]. split; [apply evolves_refl|exact Hi]. Qed.

Create HintDb tame.
#[local] Hint Resolve tame_update tame_mark : tame.
#[local] Hint Extern 1 (keeps_identity _) => (intros ?; by split) : tame.

Ltac tames :=
  repeat first
    [ solve [auto with tame nocore]
    | solve [apply still_tame; stills]
    | apply tame_bind; [|intros ?]
    | apply tame_handling; [|intros ?]
    | apply tame_finally
    | match goal with
      | |- tame _ (match ?x with _ => _ end) => destruct x
      | |- tame _ (let _ := _ in _) => cbv zeta
      end ].

Abbreviation copy_parquet := (_copy_to_parquet sha256_hex parquet_file parquet_bytes en (W:=W)).

Lemma upload_tame i b path : tame i (_upload_local_parquet sha256_hex en b path).
Proof. unfold _upload_local_parquet. tames. Qed.
#[local] Hint Resolve upload_tame : tame.

Lemma copy_tame i sql path column : tame i (copy_parquet sql path column).
Proof. unfold _copy_to_parquet, base_copy_to_parquet. tames. Qed.
#[local] Hint Resolve copy_tame : tame.

Lemma ensure_tame i table sql : tame i (_ensure_scoped_gold_table table sql).
Proof. unfold _ensure_scoped_gold_table. tames. Qed.

Lemma replace_tame i table sql :
  tame i (_replace_scoped_gold_rows jsonb_text pg_type store_cell cell_text env table sql).
Proof. unfold _replace_scoped_gold_rows. tames. Qed.

Lemma copy_gold_tame i table path column :
  tame i (_copy_scoped_gold_table_snapshot sha256_hex parquet_file parquet_bytes en table path column).
Proof. unfold _copy_scoped_gold_table_snapshot. tames. Qed.

Lemma lineage_tame i v : tame i (_write_lineage sha256_hex (W:=W) v).
Proof. unfold _write_lineage. tames. Qed.

Lemma snapshot_path_tame i layer cartridge name context : tame i (_snapshot_path en layer cartridge name context (W:=W)).
Proof. unfold _snapshot_path. tames. Qed.

Abbreviation evidence_of_state_of := (evidence_of_state sha256_hex uuid json_loads parquet_file operational class_name
  _materializer_input_state en pg_url (W:=W)).
Abbreviation submit_and_prepare_of := (submit_and_prepare jsonb_text jsonb_eq time_text sha256_hex hmac_hex cell_text json_loads env (W:=W)).
Abbreviation publish_state_of := (publish_state jsonb_text jsonb_eq time_text sha256_hex hmac_hex md5_hex pg_type store_cell cell_text uuid
  json_loads parquet_file read_table arrow_types env en (W:=W)).
Abbreviation call_hook_of := (call_hook jsonb_text jsonb_eq time_text sha256_hex hmac_hex md5_hex pg_type store_cell cell_text uuid
  json_loads parquet_file parquet_bytes read_table arrow_types operational class_name _materializer_input_state env en pg_url (W:=W)).
Abbreviation run_program_of := (run_program jsonb_text jsonb_eq time_text sha256_hex hmac_hex md5_hex pg_type store_cell cell_text uuid
  json_loads parquet_file parquet_bytes read_table arrow_types operational class_name _materializer_input_state env en pg_url (W:=W)).

Lemma evidence_of_state_tame i layer fields : tame i (evidence_of_state_of layer fields).
Proof. unfold evidence_of_state, _assert_inputs_unchanged, public_semantics. tames. Qed.

Lemma submit_and_prepare_tame i rows l c : tame i (submit_and_prepare_of rows l c).
Proof. unfold submit_and_prepare. tames. Qed.
#[local] Hint Resolve ensure_tame replace_tame copy_gold_tame lineage_tame snapshot_path_tame evidence_of_state_tame
  submit_and_prepare_tame : tame.

(** The state is marked as published only after its run is. *)
Lemma publish_or_recover i wl r wl' e :
  consistent (tables wl) → handling (publish i e) (recovering_of i) wl = (r, wl') → recovered i r wl'.
Proof.
  intros Hc. unfold handling. destruct (publish i e wl) as [[p|e'] w1] eqn:E.
  - intros [= <- <-]. by eapply publish_done.
  - apply recovering_ends. by apply (still_consistent _ _ _ _ (publish_still i e) Hc E).
Qed.

Lemma publish_state_tame i : tame i publish_state_of.
Proof.
  intros wl r wl' Hi. pose proof Hi as [Hc Hst]. unfold publish_state, mbind at 1, io_bind at 1, PublicationObjects.the_state.
  destruct (l_state wl.2) as [st|] eqn:El; [|intros [= <- <-]; split; [apply evolves_refl|exact Hi]].
  destruct (Hst st eq_refl) as [Hid _]. unfold mbind at 1, io_bind at 1.
  destruct (verify_prepared_object (object st) wl) as [[u|e] w1] eqn:Ev.
  2: { intros [= <- <-]. by apply (still_tame i _ (verify_prepared_still (object st)) _ _ _ Hi Ev). }
  destruct (verify_prepared_still _ _ _ _ Ev) as [H1 E1]. pose proof (inv_world _ _ _ Hi H1 E1) as Hi1. rewrite Hid.
  unfold mbind at 1, io_bind at 1.
  destruct (handling (publish i (expected_head st)) (recovering_of i) w1) as [[p|e] w2] eqn:Ep.
  - assert (Hs : still (handling (publish i (expected_head st)) (recovering_of i))) by stills.
    destruct (Hs _ _ _ Ep) as [H2 E2]. pose proof (inv_world _ _ _ Hi1 H2 E2) as [Hc2 Hst2].
    apply publish_or_recover in Ep; [|by destruct Hi1]. intros [= <- <-]. cbn. split; [by eapply evolves_trans|].
    split; [exact Hc2|]. cbn. intros st' Hs'. destruct (l_state w2.2) as [st2|] eqn:El2; [|done]. injection Hs' as <-.
    destruct (Hst2 st2 eq_refl) as [Hid2 _]. by split.
  - intros [= <- <-]. assert (Hs : still (handling (publish i (expected_head st)) (recovering_of i))) by stills.
    destruct (Hs _ _ _ Ep) as [H2 E2]. split; [by eapply evolves_trans|by eapply inv_world].
Qed.
#[local] Hint Resolve publish_state_tame : tame.

Lemma update_catalog_tame i name layer cartridge fields mapping description context :
  tame i (_update_catalog jsonb_text jsonb_eq time_text sha256_hex hmac_hex md5_hex pg_type store_cell cell_text uuid
    json_loads parquet_file read_table arrow_types operational class_name _materializer_input_state env en pg_url
    name layer cartridge fields mapping description context).
Proof. unfold _update_catalog. tames. Qed.
#[local] Hint Resolve update_catalog_tame : tame.

Lemma hook_tame i h : tame i (call_hook_of h).
Proof. unfold call_hook, answer. tames. Qed.

(** A materializer that changes the world as others do. *)
Fixpoint fair (p : program W) : Prop :=
  match p with
  | Return _ | Throw _ => True
  | Change f k => (∀ w, evolves w (f w)) ∧ ∀ w, fair (k w)
  | Call _ k => ∀ r, fair (k r)
  end.

Lemma program_tame i p : fair p → tame i (run_program_of p).
Proof.
  induction p as [result|e|f k IH|h k IH]; intros Hf wl r wl' Hi; simpl.
  - intros [= <- <-]. split; [apply evolves_refl|done].
  - intros [= <- <-]. split; [apply evolves_refl|done].
  - destruct Hf as [Hw Hk]. intros H. pose proof (Hw wl.1) as He.
    assert (Hi1 : inv i (f wl.1, wl.2)) by by eapply inv_world. destruct (IH wl.1 (Hk wl.1) _ _ _ Hi1 H) as [H2 I2].
    split; [by eapply evolves_trans|done].
  - destruct (call_hook_of h wl) as [a w1] eqn:E. intros H. destruct (hook_tame i h _ _ _ Hi E) as [H1 I1].
    destruct (IH a (Hf a) _ _ _ I1 H) as [H2 I2]. split; [by eapply evolves_trans|done].
Qed.

(** ** What a materialization that returns has done *)

Lemma known_evolves i r w w' : evolves w w' → known i r (authority w) → ∃ r', known i r' (authority w').
Proof.
  intros [log Hl] (Hr & Hx & Hin & Hi & Hk). destruct (steps_same_identity _ _ _ _ _ _ _ _ _ _ Hl Hr) as (r' & Hr' & E1 & E2 & E3).
  exists r'. unfold known. rewrite E1, E2, E3. by split_and!.
Qed.

Lemma published_evolves i r w w' :
  consistent (authority w) → evolves w w' → known i r (authority w) → r_status r = "published" → known i r (authority w').
Proof.
  intros Hc [log Hl] (Hr & Hk) Hs. destruct (steps_keep _ _ _ _ _ _ _ _ _ _ Hc Hl Hr (or_introl Hs)) as (K & _). split; [by rewrite K|done].
Qed.

Lemma known_done i r db : known i r db → done_run i db → r_status r = "published".
Proof. intros (Hr & _) (r' & Hr' & Hs). congruence. Qed.

Lemma run_reads i r wl current wl' :
  PublicationStore.run env i wl = (Ok current, wl') → known i r (tables wl') →
  current = Some (mkRunRow (r_status r) (r_object r) (r_row_count r) (r_expected_head r)).
Proof.
  intros (l & w1 & db & _ & [= <- <-] & ->)%transact_ok (Hr & _ & Hin & _). cbn in Hr. rewrite Hset in Hr.
  unfold visible_run. by rewrite Hr, Hin.
Qed.

(** A reservation that is granted has its run in the tables. *)
Lemma reserve_known i wl status wl' :
  nonempty (s_tenant (i_scope i)) = true → nonempty (s_workspace (i_scope i)) = true →
  reserve uuid env i wl = (Ok status, wl') → ∃ r, known i r (tables wl') ∧ r_status r = status.
Proof.
  intros Ht Hw (l & w1 & db & _ & Hf & ->)%transact_ok. apply bind_ok in Hf as (x & Hx & (expected & _ & Hf)%bind_ok).
  unfold known. cbn. rewrite Hset. revert Hf. generalize (tables w1) as db0. intros db0. unfold reserve_materialization. destruct (_ || _); [done|].
  destruct (differs _ _ || differs _ _) eqn:Ed; [done|]. apply orb_false_iff in Ed as [Et Ew].
  assert (Hin : in_session (_scope (i_scope i)) x = true).
  { unfold differs in Et, Ew. cbn in Et, Ew. rewrite Ht in Et. rewrite Hw in Ew. cbn [andb] in Et, Ew.
    apply negb_false_iff, bool_decide_eq_true in Et, Ew. unfold in_session. cbn. rewrite Ht, Hw, Et, Ew. by rewrite !bool_decide_eq_true_2. }
  destruct (visible_run _ _ _) as [r|] eqn:Hr.
  - apply visible_ok in Hr. destruct (_ || _) eqn:Ei; [done|].
    rewrite !orb_false_iff, !negb_false_iff, !bool_decide_eq_true in Ei. destruct Ei as [[Es Ei] Ec]. rewrite <- Es in Hx, Hin.
    destruct (mem _ _).
    + destruct (negb _); [done|]. intros [= <- <-]. exists (retried r). cbn. rewrite lookup_insert_eq. by split_and!.
    + intros [= <- <-]. exists r. by split_and!.
  - destruct (negb _); [done|]. case_bool_decide; [done|]. destruct (negb _); [done|]. intros [= <- <-].
    eexists. cbn. rewrite lookup_insert_eq. by split_and!.
Qed.

Abbreviation materialize_prepared_of := (materialize_prepared jsonb_text jsonb_eq time_text sha256_hex hmac_hex md5_hex pg_type store_cell
  cell_text uuid json_loads parquet_file read_table arrow_types env en (W:=W)).

(** What the outcome of a materialization says of its published run. *)
Definition reports (materializer : pydict → pydict → program W) (ds context : pydict) (x : PublicationScope) (r : Run)
    (result : pydict) : Prop :=
  result = outcome_of x (r_row_count r)
  ∨ ∃ wl1 wl2 out, run_program_of (materializer ds context) wl1 = (Ok out, wl2) ∧ result = dpop "storage_uri" out.

Lemma prepared_ok i current r0 wl result wl' :
  consistent (tables wl) → known i r0 (tables wl) → materialize_prepared_of i current wl = (Ok result, wl') →
  ∃ r, known i r (tables wl') ∧ r_status r = "published" ∧ result = outcome_of (i_scope i) (r_row_count r).
Proof.
  intros Hc Hk. unfold materialize_prepared. intros (p & w1 & H1 & H)%io_bind_ok. apply io_bind_ok in H as (cur & w2 & H2 & [= <- <-]).
  match type of H1 with handling ?m ?h _ = _ => assert (Hs : still (handling m h)) by stills; assert (Hb : still m) by stills;
    set (body := m) in * end.
  destruct (Hs _ _ _ H1) as [E1 _]. pose proof (evolves_consistent _ _ E1 Hc) as Hc1.
  destruct (run_still i _ _ _ H2) as [E2 _].
  assert (Hd : done_run i (tables w1)).
  { unfold handling in H1. destruct (body wl) as [[p'|e] w3] eqn:E.
    - injection H1 as -> ->. apply io_bind_ok in E as (u & w4 & Hv & Hp).
      eapply publish_done; [|exact Hp]. by apply (still_consistent _ _ _ _ (verify_prepared_still _) Hc Hv).
    - apply recovering_ends in H1; [exact H1|]. by apply (still_consistent _ _ _ _ Hb Hc E). }
  destruct (known_evolves _ _ _ _ E1 Hk) as [r Hr]. pose proof (known_done _ _ _ Hr Hd) as Hst.
  pose proof (published_evolves _ _ _ _ Hc1 E2 Hr Hst) as Hr2. exists r. split; [exact Hr2|]. split; [done|].
  by rewrite (run_reads _ _ _ _ _ H2 Hr2).
Qed.

Abbreviation materialize_reserved_of m := (materialize_reserved jsonb_text jsonb_eq time_text sha256_hex hmac_hex md5_hex pg_type store_cell
  cell_text uuid json_loads parquet_file parquet_bytes read_table arrow_types operational class_name _materializer_input_state env en pg_url m).

Lemma reserved_ok materializer i expected ds context inputs r0 wl result wl' :
  fair (materializer ds context) → consistent (tables wl) → known i r0 (tables wl) →
  materialize_reserved_of materializer i expected ds context inputs wl = (Ok result, wl') →
  ∃ r, known i r (tables wl') ∧ r_status r = "published" ∧ consistent (tables wl') ∧ reports materializer ds context (i_scope i) r result.
Proof.
  intros Hf Hc Hk. unfold materialize_reserved. intros (u & w1 & [= <- <-] & H)%io_bind_ok. unfold finally in H.
  match type of H with (let '(_, _) := ?m in _) = _ => destruct m as [body w2] eqn:Eb end. cbn in H. injection H as -> <-.
  assert (Hi : inv i (wl.1, mkLocal (Some (new_state i expected ds context inputs)) (l_replayed wl.2))).
  { split; [exact Hc|]. intros st [= <-]. by split. }
  apply io_bind_ok in Eb as (out & w3 & Hp & Eb). destruct (program_tame i _ Hf _ _ _ Hi Hp) as [E3 [Hc3 Hst3]].
  unfold mbind, io_bind, PublicationObjects.the_state in Eb. destruct (l_state w3.2) as [st|] eqn:Est; [|done].
  destruct (Hst3 st eq_refl) as [_ Hpub]. destruct (published st) eqn:Ep; [|done]. injection Eb as <- <-.
  destruct (known_evolves _ _ _ _ E3 Hk) as [r Hr]. exists r. split; [exact Hr|]. split; [by eapply known_done; [exact Hr|apply Hpub]|].
  split; [exact Hc3|]. right. by eexists _, _, out.
Qed.

Abbreviation locked_of m := (_materialize_locked jsonb_text jsonb_eq time_text sha256_hex hmac_hex md5_hex pg_type store_cell
  cell_text uuid json_loads parquet_file parquet_bytes read_table arrow_types operational class_name _materializer_input_state env en pg_url m).

(** The run of an identity, published, and what is reported of it. *)
Definition published_for (materializer : pydict → pydict → program W) (ds context : pydict) (i : PublicationIdentity) (result : pydict)
    (db : Authority) : Prop :=
  ∃ r, known i r db ∧ r_status r = "published" ∧ reports materializer ds context (i_scope i) r result.

Lemma materialize_locked_ok materializer ds context i inputs wl result wl' :
  fair (materializer ds context) → consistent (tables wl) →
  nonempty (s_tenant (i_scope i)) = true → nonempty (s_workspace (i_scope i)) = true →
  locked_of materializer ds context i inputs wl = (Ok result, wl') →
  consistent (tables wl') ∧ published_for materializer ds context i result (tables wl').
Proof.
  intros Hf Hc Ht Hw. unfold _materialize_locked. intros (status & w1 & H1 & H)%io_bind_ok. apply io_bind_ok in H as (current & w2 & H2 & H).
  destruct (reserve_known i _ _ _ Ht Hw H1) as (r1 & Hk1 & Hs1). pose proof (still_consistent _ _ _ _ (reserve_still i) Hc H1) as Hc1.
  destruct (run_still i _ _ _ H2) as [E2 _]. pose proof (evolves_consistent _ _ E2 Hc1) as Hc2. case_bool_decide as Hp.
  - apply io_bind_ok in H as (u & w3 & [= <- <-] & [= <- <-]). split; [exact Hc2|]. rewrite <- Hs1 in Hp.
    pose proof (published_evolves _ _ _ _ Hc1 E2 Hk1 Hp) as Hk2. exists r1. split; [exact Hk2|]. split; [done|]. left.
    by rewrite (run_reads _ _ _ _ _ H2 Hk2).
  - destruct (known_evolves _ _ _ _ E2 Hk1) as [r2 Hk2]. case_bool_decide as Hq.
    + assert (Hs : still (materialize_prepared_of i current)) by (unfold materialize_prepared; stills). split.
      { by apply (still_consistent _ _ _ _ Hs Hc2 H). }
      destruct (prepared_ok _ _ _ _ _ _ Hc2 Hk2 H) as (r & Hk & Hst & Hr). exists r. split; [done|]. split; [done|by left].
    + destruct (reserved_ok _ _ _ _ _ _ _ _ _ _ Hf Hc2 Hk2 H) as (r & Hk & Hst & Hc3 & Hr). split; [done|]. by exists r.
Qed.

Lemma still_dial : still (dial (W:=W * Local)).
Proof. exact (still_world _ Hdial). Qed.
Lemma still_lock k : still (lock (W:=W * Local) k).
Proof. exact (still_world _ (Hlock k)). Qed.
Lemma still_unlock k : still (unlock (W:=W * Local) k).
Proof. exact (still_world _ (Hunlock k)). Qed.

(** What is returned under the lock of a run was returned by the body. *)
Lemma run_lock_ok {A} i (body : eng A) wl a wl' :
  consistent (tables wl) → run_lock env i body wl = (Ok a, wl') →
  ∃ w1 w2, consistent (tables w1) ∧ body w1 = (Ok a, w2) ∧ evolves w2.1 wl'.1.
Proof.
  intros Hc. unfold run_lock. intros (l & w1 & H1 & H)%io_bind_ok.
  assert (Hc1 : consistent (tables w1)).
  { destruct (nonempty (publisher_dsn env)); [|done]. by apply (still_consistent _ _ _ _ still_dial Hc H1). }
  unfold finally in H. match type of H with (let '(_, _) := ?m in _) = _ => destruct m as [r w2] eqn:Eb end.
  destruct (unlock _ w2) as [u w3] eqn:Eu. destruct u as [u|e]; [|done]. injection H as -> ->.
  apply io_bind_ok in Eb as (u' & w4 & Hl & Hb). apply handling_ok in Hb.
  - exists w4, w2. split; [by apply (still_consistent _ _ _ _ (still_lock _) Hc1 Hl)|]. split; [done|]. by apply (still_unlock _ _ _ _ Eu).
  - intros e w5 w6 He. apply io_bind_ok in He as (current & w7 & _ & He). destruct (mem _ _); [done|].
    apply io_bind_ok in He as (x & w8 & _ & He). by injection He.
Qed.

(** The head the reader sees, with its run. *)
Lemma head_ok x h wl wl' :
  consistent (tables wl) → head_of x wl = (Ok (Some h), wl') →
  ∃ r, runs (tables wl') !! hr_run h = Some r ∧ settled r ∧ scope_uuids uuid x = Ok (r_scope r)
    ∧ hr_input_digest h = r_input_digest r ∧ hr_contract_digest h = r_contract_digest r ∧ hr_row_count h = r_row_count r.
Proof.
  intros Hc H. pose proof (still_consistent _ _ _ _ (head_still x) Hc H) as Hc'. apply transact_ok in H as (l & w1 & db & _ & Hf & ->).
  revert Hc'. cbn. rewrite Hset. apply bind_ok in Hf as (y & Hy & Hf). revert Hf. generalize (tables w1) as db0. intros db0.
  destruct (head_in (_scope x) y db0) as [hd|] eqn:Hh; [|done]. destruct (visible_run _ _ _) as [r|] eqn:Hr; [|done].
  intros [= <- <-] Hc'. apply head_in_ok in Hh as [Hh _]. apply visible_ok in Hr. destruct (cn_heads db0 Hc' y hd Hh) as (r' & Hr' & Hx & Hcase).
  rewrite Hr in Hr'. injection Hr' as <-. exists r. cbn. split; [done|]. split; [by destruct Hcase as [?|[? _]]; [right|left]|].
  by rewrite Hx.
Qed.

Lemma settled_evolves k r w w' :
  consistent (authority w) → evolves w w' → runs (authority w) !! k = Some r → settled r → runs (authority w') !! k = Some r.
Proof. intros Hc [log Hl] Hr Hs. destruct (steps_keep _ _ _ _ _ _ _ _ _ _ Hc Hl Hr Hs) as (K & _). by rewrite K. Qed.

Lemma build_fields ds context inputs e i :
  build sha256_hex sha1 ds context inputs e = Ok i →
  nonempty (s_tenant (i_scope i)) = true ∧ nonempty (s_workspace (i_scope i)) = true ∧ from_dataset ds context = Ok (i_scope i)
  ∧ canonical_digest sha256_hex (inputs_of ds inputs) = Ok (i_input_digest i)
  ∧ canonical_digest sha256_hex (contract_of (i_scope i) ds) = Ok (i_contract_digest i).
Proof.
  unfold build. intros (x & Hx & (di & Hdi & (dc & Hdc & [= <-])%bind_ok)%bind_ok)%bind_ok. cbn.
  enough (nonempty (s_tenant x) = true ∧ nonempty (s_workspace x) = true) as [??] by by split_and!.
  revert Hx. unfold from_dataset. cbv zeta. destruct (nonempty (field "tenant_id" context)) eqn:Et; [|done].
  destruct (nonempty (field "workspace_id" context)) eqn:Ew; [|done]. cbn [negb orb]. intros (z & _ & (z' & _ & H)%bind_ok)%bind_ok.
  destruct (negb _) in H; [done|]. destruct (negb _) in H; [done|]. by injection H as <-.
Qed.

Abbreviation materialize_new_of m := (materialize_new jsonb_text jsonb_eq time_text sha256_hex hmac_hex md5_hex sha1 pg_type store_cell
  cell_text uuid json_loads parquet_file parquet_bytes read_table arrow_types operational class_name _materializer_input_state env en pg_url m).
Abbreviation materialize_of m := (materialize jsonb_text jsonb_eq time_text sha256_hex hmac_hex md5_hex sha1 pg_type store_cell
  cell_text uuid json_loads parquet_file parquet_bytes read_table arrow_types operational class_name _materializer_input_state env en pg_url m).
Abbreviation inputs_state := (resolve_input_state operational class_name uuid _materializer_input_state en).

(** A run that is published (or a legacy one) for what was asked, with the inputs that were read. *)
Definition published_as (materializer : pydict → pydict → program W) (ds context : pydict) (inputs : list pyval) (result : pydict)
    (db : Authority) : Prop :=
  ∃ x k r, from_dataset ds context = Ok x ∧ runs db !! k = Some r ∧ settled r ∧ scope_uuids uuid x = Ok (r_scope r)
    ∧ canonical_digest sha256_hex (inputs_of ds inputs) = Ok (r_input_digest r)
    ∧ canonical_digest sha256_hex (contract_of x ds) = Ok (r_contract_digest r)
    ∧ reports materializer ds context x r result.

Lemma materialize_new_ok materializer ds context inputs h wl result wl' :
  fair (materializer ds context) → consistent (tables wl) →
  materialize_new_of materializer ds context inputs h wl = (Ok result, wl') →
  published_as materializer ds context inputs result (tables wl').
Proof.
  intros Hf Hc. unfold materialize_new. intros (i & w1 & [Hi ->]%of_res_ok & H)%io_bind_ok.
  destruct (build_fields _ _ _ _ _ Hi) as (Ht & Hw & Hx & Hdi & Hdc).
  destruct (run_lock_ok i _ _ _ _ Hc H) as (w2 & w3 & Hc2 & Hb & He).
  destruct (materialize_locked_ok _ _ _ _ _ _ _ _ Hf Hc2 Ht Hw Hb) as (Hc3 & r & Hk & Hs & Hr).
  destruct (published_evolves _ _ _ _ Hc3 He Hk Hs) as (Hrun & Hscope & _ & Ei & Ek).
  exists (i_scope i), (materialization_run_id i), r. rewrite Ei, Ek. split_and!; try done. by left.
Qed.

(** C8: A materialization that returns leaves a published run in the tables (or answers
    from a legacy head): of the dataset, layer, tenant and workspace it was called
    for, with the digests of the inputs it resolved and of the contract of the
    dataset, whatever materializer ran and whatever others did meanwhile; and what
    it returns is that run's rows, or the result of the materializer. *)
Theorem materialize_published materializer ds context wl result wl' :
  fair (materializer ds context) → consistent (tables wl) → l_state wl.2 = None →
  materialize_of materializer ds context wl = (Ok result, wl') →
  ∃ inputs (w1 w2 : W * Local), inputs_state ds context w1 = (Ok inputs, w2)
    ∧ published_as materializer ds context inputs result (tables wl').
Proof.
  intros Hf Hc Hl. unfold materialize. rewrite Hl. unfold materialize_top. intros (u & w0 & [= <- <-] & H)%io_bind_ok.
  apply io_bind_ok in H as (inputs & w1 & H1 & H). eexists inputs, _, w1. split; [exact H1|].
  pose proof (still_consistent _ (wl.1, mkLocal (l_state wl.2) false) _ _ (inputs_still ds context) Hc H1) as Hc1.
  apply io_bind_ok in H as (c & w2 & [Hb ->]%of_res_ok & H). apply io_bind_ok in H as (found & w3 & H3 & H).
  pose proof (still_consistent _ _ _ _ (head_still (i_scope c)) Hc1 H3) as Hc3.
  destruct found as [h|]; [|by eapply materialize_new_ok]. destruct (same_digests h c) eqn:Ed; [|by eapply materialize_new_ok].
  apply io_bind_ok in H as (v & w4 & H4 & H). apply io_bind_ok in H as (u & w5 & [= <- <-] & [= <- <-]).
  destruct (head_ok _ _ _ _ Hc1 H3) as (r & Hr & Hs & Hx & Ei & Ek & En).
  destruct (verify_prepared_still _ _ _ _ H4) as [He _]. destruct (build_fields _ _ _ _ _ Hb) as (_ & _ & Hfd & Hdi & Hdc).
  unfold same_digests in Ed. apply andb_true_iff in Ed as [Ed1%bool_decide_eq_true Ed2%bool_decide_eq_true].
  exists (i_scope c), (hr_run h), r. rewrite <- Ei, <- Ek, Ed1, Ed2. split_and!; try done.
  - by apply (settled_evolves _ _ _ _ Hc3 He).
  - left. by rewrite En.
Qed.

(** C21: A recovery of a prepared run changes the tables by calls of the authority alone.
    When it returns, the run is published; otherwise it says that a retry is needed,
    or that the publication was rejected, and then the run was quarantined and can
    be reserved again. *)
Theorem recovery_settles i e wl r wl' :
  consistent (tables wl) → recover i e wl = (r, wl') →
  evolves wl.1 wl'.1
  ∧ match r with
    | Ok _ => done_run i (tables wl')
    | Raise e' => exn_cls e' = PublicationRecoveryPending ∨ exn_cls e' = PublicationRejected ∧ is_quarantined i (tables wl')
    end.
Proof.
  intros Hc H. split; [by apply (recover_still i e _ _ _ H)|]. exact (recover_ends _ _ _ _ _ Hc H).
Qed.
End Runs.

(** An engine whose storage answers with one file, whose verifier attests what is
    asked of it, and a materializer of one dataset. *)
Module Staged.
Import Morning.
#[local] Instance repr : PyRepr := some_repr.
Definition file : ParquetFile := mkParquet 7 [("id", "BIGINT")] None.
Definition fresh : string := run_id "a".
#[local] Instance world : PublicationWorld Authority := {|
  authority w := w;
  set_authority db w := db;
  dial w := (Ok (mkLink 20 fresh true), w);
  lock k w := (Ok tt, w);
  unlock k w := (Ok tt, w) |}.
#[local] Instance storage : ObjectStorage Authority := {|
  get_bytes k v w := (Ok "PAR1", w);
  stat k v w := (Ok (mkStat (Some "v1") (Some (hex "5"))), w);
  bucket_versioning w := (Ok (Some "Enabled"), w) |}.
#[local] Instance listing : ObjectListing Authority := λ k w, (Ok [], w).
#[local] Instance upload : UploadStorage Authority := {|
  iter_chunks k v w := (Ok ["PAR"; "1"], w);
  exists_object k w := (Ok false, w);
  put_file k bytes digest w := (Ok ("s3://lake/" +:+ k, Some "v1"), w) |}.
#[local] Instance duckdb : DuckDB Authority := {|
  describe q w := (Ok [("id", "BIGINT")], w);
  fetch q w := (Ok (["id"], []), w);
  copy_to q w := (Ok "PAR1", w);
  copy_parts q c w := (Ok (mkPartsOutput None (λ _ _, "")), w);
  stable_types c files w := (Ok tt, w);
  execute q rows w := (Ok tt, w) |}.
Definition attest (jsonb : pyval → string) (sha : string → string) (w : Authority) : Authority :=
  match record_attestation jsonb time_text sha hmac_hex true 20 fresh fresh w with Ok (_, w') => w' | Raise _ => w end.
Definition attesting (jsonb : pyval → string) (sha : string → string) : EngineWorld Authority := {|
  exchange line w := (Ok "{}", attest jsonb sha w);
  catalog_tables w := (raise RuntimeError "", w);
  base_update_catalog a b c d e f g w := (Ok tt, w) |}.

Definition uuid (s : string) : option string := Some s.
Definition sha1 (s : string) : string := repeat_char 20 "z".
Definition json_loads (s : string) : res pyval := Ok (PDict (mkdict [("ok", PBool true)])).
Definition config : engine := mkEngine (mkConfig "minio" "lake") "lake" "postgresql://r".
Definition connections : store := mkStore "postgresql://p" "postgresql://r".
Definition context : pydict := mkdict [("tenant_id", PStr (run_id "1")); ("workspace_id", PStr (run_id "2"))].
Definition ds : pydict := mkdict [("name", PStr "orders"); ("layer", PStr "silver"); ("cartridge", PStr "crm")].
Definition columns : list pydict := [mkdict [("name", PStr "id"); ("type", PStr "BIGINT")]].

(** What a silver dataset does: a path, the copy, the lineage and the catalog. *)
Definition then_ (h : hook) (k : reply → program Authority) : program Authority :=
  Call h (λ r, match r with Ok a => k a | Raise e => Throw e end).
Definition silver (ds context : pydict) : program Authority :=
  then_ (SnapshotPath "silver" "crm" "orders" context) (λ path,
  match path with
  | RText path =>
      then_ (CopyParquet "SELECT 1 AS id" path None) (λ uri,
      then_ (WriteLineage (mkLineage (PStr "orders") PNone (PStr "b1") (PStr "SELECT 1 AS id") (PDict []) (PInt 7))) (λ _,
      then_ (UpdateCatalog "orders" "silver" "crm" columns [] "" context) (λ _,
      Return (mkdict [("name", PStr "orders"); ("storage_uri", PStr path)]))))
  | _ => Throw (Exn RuntimeError "")
  end).

Definition materialize_silver : io (Authority * Local) pydict :=
  materialize jsonb_text jsonb_eq time_text sha256_hex hmac_hex md5_hex sha1 pg_type store_cell cell_text uuid json_loads
    (λ _, Ok file) (λ _, "PAR1") (λ _, raise RuntimeError "") (λ _, []) (λ _, false) (λ _, "") (λ _, []) connections config false
    (Hengine := attesting jsonb_text sha256_hex) silver ds context.
Definition start : Authority * Local := (opened, mkLocal None true).

(** A run left prepared, and its recovery after an error of the storage; the digest
    of a text says the codes of its characters. *)
Fixpoint code_sum (s : string) : Z := match s with EmptyString => 0 | String c s => Z.of_N (N_of_ascii c) + code_sum s end.
Definition digest (s : string) : string :=
  if bool_decide (s = "PAR1") then hex "5"
  else let n := str_of_Z (code_sum s) in
       repeat_char (64 - slen n) "0" +:+ n.
Definition left_tables : Authority :=
  (exec_all (λ v, json_dumps v) jsonb_eq time_text digest hmac_hex md5_hex pg_type store_cell cell_text (attempt "5" 10 None) opened).1.
Definition left_prepared : Authority * Local := (left_tables, mkLocal None false).
Definition left_identity : PublicationIdentity := mkIdentity orders (run_id "5") (hex "a") (hex "b") None.
Definition recover_left (e : exn) : io (Authority * Local) Publication :=
  _recover_prepared (λ v, json_dumps v) jsonb_eq time_text digest hmac_hex md5_hex pg_type store_cell cell_text uuid json_loads
    (λ _, Ok file) (λ _, raise RuntimeError "") (λ _, [])
    (Hengine := attesting (λ v, json_dumps v) digest) connections config left_identity e.

(** What the world of these examples does is the attestation of a candidate. *)
Lemma attest_evolves jsonb sha w :
  ∃ log, PublicationSafety.steps jsonb jsonb_eq time_text sha hmac_hex w log (attest jsonb sha w).
Proof.
  unfold attest. destruct (record_attestation _ _ _ _ _ _ _ _ _) as [[d w']|e] eqn:E; [|exists []; constructor].
  eapply steps_one. eapply attest_step. exact E.
Qed.

#[local] Instance fair_world jsonb sha :
  FairWorld jsonb jsonb_eq time_text sha hmac_hex (Hengine := attesting jsonb sha).
Proof.
  constructor; try (intros; intros w r w'; cbn; intros [= <- <-]; try apply evolves_refl; apply attest_evolves).
  done.
Qed.

Lemma silver_fair jsonb sha : fair jsonb jsonb_eq time_text sha hmac_hex (silver ds context).
Proof.
  unfold silver, then_. intros [[|n|path]|e]; cbn; try done. intros [uri|e]; cbn; [|done]. intros [u|e]; cbn; [|done].
  intros [u'|e]; cbn; done.
Qed.

Lemma materialize_published_witness :
  (materialize_silver start).1 = Ok (mkdict [("name", PStr "orders")])
  ∧ ∃ db x k r, from_dataset ds context = Ok x ∧ runs db !! k = Some r ∧ settled r ∧ scope_uuids uuid x = Ok (r_scope r).
Proof.
  destruct (materialize_silver start) as [r wl'] eqn:E.
  assert (Hr : r = Ok (mkdict [("name", PStr "orders")])). { change r with (r, wl').1. rewrite <- E. vm_compute. reflexivity. }
  split; [exact Hr|]. rewrite Hr in E.
  destruct (materialize_published _ _ _ _ _ _ _ _ _ _ _ _ _ _ _ _ _ _ _ _ _ _ silver ds context start _ wl'
    (silver_fair jsonb_text sha256_hex) opened_consistent eq_refl E) as (inputs & w1 & w2 & _ & x & k & run & H1 & H2 & H3 & H4 & _).
  exists (authority wl'), x, k, run. split; [exact H1|]. split; [exact H2|]. split; [exact H3|exact H4].
Defined.

Lemma left_consistent : consistent left_tables.
Proof.
  eapply steps_consistent; [exact opened_consistent|].
  apply (exec_all_steps (λ v, json_dumps v) jsonb_eq time_text digest hmac_hex md5_hex pg_type store_cell cell_text (attempt "5" 10 None)).
  unfold left_tables. apply surjective_pairing.
Qed.

Lemma prepared_consistent : consistent (authority left_prepared).
Proof. unfold left_prepared. cbn [authority engine_world world fst]. exact left_consistent. Qed.

Lemma recovery_settles_witness :
  ∃ p wl', recover_left (Exn PreparedObjectUnavailable "") left_prepared = (Ok p, wl') ∧ done_run left_identity (authority wl').
Proof.
  destruct (recover_left (Exn PreparedObjectUnavailable "") left_prepared) as [r wl'] eqn:E.
  assert (Hr : match r with Ok _ => true | Raise _ => false end = true).
  { change r with (r, wl').1. rewrite <- E. vm_compute. reflexivity. }
  destruct r as [p|e]; [|discriminate Hr]. exists p, wl'. split; [reflexivity|].
  destruct (recovery_settles _ _ _ _ _ _ _ _ _ _ _ _ _ _ _ _ _ _ left_prepared _ _ prepared_consistent E) as [_ H]. exact H.
Defined.

(** A conflict of the head refuses a run that was never reserved; the lock of the run
    then abandons it, which fails, and the conflict is lost. *)
Definition stale : PublicationIdentity := mkIdentity orders (run_id "9") (hex "a") (hex "b") None.
Definition state_of {A} (r : res A) : string := match r with Ok _ => "" | Raise e => _sqlstate e end.
Example reservation_conflict_masked :
  state_of (reserve uuid connections stale noon).1 = "40001"
  ∧ state_of (run_lock connections stale (reserve uuid connections stale) noon).1 = "42501".
Proof. split; vm_compute; reflexivity. Qed.

(** A silver object of a GCS lakehouse is published, but never read back. *)
Lemma gcs_silver_unreadable (ds : pydict) (h : HeadRow) (key : string) (en : engine) :
  provider (en_storage en) = "gcs" → get "layer" ds = PStr "silver" →
  o_uri (default no_object (hr_object h)) = _storage_uri en key →
  object_uri_ok (o_uri (default no_object (hr_object h))) = true
  ∧ _published_sql ds h = raise RuntimeError "published Silver object is unavailable".
Proof.
  intros Hp Hl Hu. unfold _published_sql. rewrite Hl, Hu. unfold _storage_uri, _storage_scheme. by rewrite Hp.
Qed.
End Staged.
