(* ===== verification/SyncProgress.v ===== *)
(** The progress of a synchronisation of a source (console/app/services/
    sync_progress.py): its five steps, what the runs of its entities, the
    materialized datasets and the control room say of each, the status they give
    together, and what is kept and shown of it.

    Steps, rows and summaries are dictionaries as they are stored.  The timestamps of
    a row come from the driver, as instants. *)
From S2P Require Import Prelude PyStr PyVal PyTime PyJson PyUuid.

Open Scope Z_scope.

Definition SYNC_STEP_RECOMPUTE_PERCENT_STATUSES : list string :=
  ["success"; "partial"; "blocked"; "failed"; "skipped"; "skipped_explicit"].
Definition SYNC_CHILD_BLOCKED_STATUSES : list string := ["blocked"; "skipped"; "skipped_explicit"].
Definition SYNC_AGGREGATE_READY_KEYS : list string :=
  ["summary"; "result_status"; "gold_refresh"; "selected"; "attempted"; "outcomes"].
Definition SYNC_STEP_ORDER : list string := ["connection"; "bronze"; "silver_gold"; "control_room"; "agents_intelligence"].

(** [**({k: v} if b else {})]. *)
Definition given (b : bool) (k : string) (v : pyval) : list (string * pyval) := if b then [(k, v)] else [].
Definition nonzero (z : Z) : bool := negb (z =? 0).
Definition count_if {A} (p : A → bool) (l : list A) : Z := Z.of_nat (length (List.filter p l)).
(** [any(f(x) for x in l)], where [f] may raise. *)
Fixpoint anyR {A} (f : A → res bool) (l : list A) : res bool :=
  match l with
  | [] => Ok false
  | x :: l => b ← f x; if b : bool then Ok true else anyR f l
  end.

(** A row of [pipeline_runs]: its columns, and those that are timestamps. *)
Record SyncRow := mkSyncRow { cols : pydict; started_at : option instant; finished_at : option instant }.

Section Progress.
Context {Hrepr : PyRepr}.
Context (json_loads : string → res pyval) (sha1 : string → string).

(** ** Steps *)

Definition sync_step (step_id label status detail : string) (attempts : Z) (error : string) (completed total percent : option Z)
    (metrics : pydict) : res pydict :=
  let normalized_total := Z.max (default 0 total) 0 in
  let normalized_completed := Z.max (default 0 completed) 0 in
  let normalized_completed :=
    if nonzero normalized_total then Z.min normalized_completed normalized_total else normalized_completed in
  normalized_percent ← match percent with
                       | Some p => Ok p
                       | None => if nonzero normalized_total then round_percent normalized_completed normalized_total
                                 else Ok (if mem status ["success"; "skipped"] then 100 else 0)
                       end;
  Ok (mkdict ([("id", PStr step_id); ("label", PStr label); ("status", PStr status); ("detail", PStr detail);
               ("attempts", PInt attempts); ("completed", PInt normalized_completed); ("total", PInt normalized_total);
               ("percent", PInt (Z.max 0 (Z.min normalized_percent 100)))]
              ++ given (nonempty error) "error" (PStr error) ++ given (truthy (PDict metrics)) "metrics" (PDict metrics))).

Definition normalize_sync_step_payload (recompute_statuses : list string) (step : pydict) : res pydict :=
  let status := py_str (py_or (get "status" step) (PStr "queued")) in
  total ← int_or_zero (get "total" step);
  completed ← int_or_zero (get "completed" step);
  let total := Z.max total 0 in
  let completed := Z.max completed 0 in
  let whole := mem status ["success"; "skipped"; "skipped_explicit"] && negb (nonzero total) in
  let completed := if whole then 1 else completed in
  let total := if whole then 1 else total in
  let total := if mem status ["failed"; "blocked"] && negb (nonzero total) then 1 else total in
  let completed := if nonzero total then Z.min completed total else completed in
  percent ← (if nonzero total && mem status recompute_statuses then round_percent completed total
             else if has_key "percent" step && negb (is_none (get "percent" step)) then int_or_zero (get "percent" step)
             else if nonzero total then round_percent completed total
             else Ok (if mem status ["success"; "skipped"; "skipped_explicit"] then 100
                      else if bool_decide (status = "running") then 50 else 0));
  Ok (dset "percent" (PInt (Z.max 0 (Z.min percent 100)))
        (dset "total" (PInt total) (dset "completed" (PInt completed) step))).

Definition initial_sync_steps : res (list pydict) :=
  mapR (λ s : string * string * string, sync_step s.1.1 (of_utf8 s.1.2) "queued" (of_utf8 s.2) 0 "" None None None [])
    [("connection", "Conexión", "Esperando preflight de extracción.");
     ("bronze", "Bronze", "Extracción pendiente.");
     ("silver_gold", "Silver/Gold", "Materialización pendiente.");
     ("control_room", "Control Room", "Refresh pendiente.");
     ("agents_intelligence", "Agentes/IA", "Monitores y simulaciones pendientes.")].

(** The steps by their identifier, and an update of one of them. *)
Definition steps_by_id (steps : list pyval) : list (string * pydict) :=
  foldl (λ base step, match step with
                      | PDict d => if truthy (get "id" d) then aput (py_str (get "id" d)) d base else base
                      | _ => base
                      end) [] steps.
Definition apply_update (normalizer : pydict → res pydict) (base : list (string * pydict)) (u : string * pydict) :
    res (list (string * pydict)) :=
  step ← normalizer (dset "id" (PStr u.1) (dupdate (default [] (afind u.1 base)) u.2)); Ok (aput u.1 step base).

Definition merge_sync_steps (normalizer : pydict → res pydict) (initial_steps_factory : res (list pydict))
    (current : option (list pyval)) (updates : list (string * pydict)) : res (list pydict) :=
  current ← (if truthy (PList (default [] current)) then Ok (default [] current)
             else match initial_steps_factory with Ok initial => Ok (PDict <$> (initial : list pydict)) | Raise e => Raise e end);
  base ← foldR (apply_update normalizer) updates (steps_by_id current);
  mapR normalizer (omap (M:=list) (λ item, afind item base) SYNC_STEP_ORDER).

Definition step_status (step : pydict) : string := str_or_empty (get "status" step).

Definition sync_status_from_steps (steps : list pydict) : string :=
  let statuses := step_status <$> steps in
  if mem "failed" statuses then "failed"
  else if mem "running" statuses || mem "queued" statuses then "running"
  else if existsb (λ s, mem s statuses) ["partial"; "blocked"; "skipped_explicit"] then "partial"
  else "success".

(** ** What a request and a row say *)

Definition sync_extra_from_row (row : pydict) : res pydict :=
  match get "extra" row with
  | PDict raw => Ok raw
  | PStr raw =>
      if nonempty (strip raw) then
        match json_loads raw with
        | Ok (PDict parsed) => Ok parsed
        | Ok _ => Ok []
        | Raise e => if exn_isa (exn_cls e) JSONDecodeError then Ok [] else Raise e
        end
      else Ok []
  | _ => Ok []
  end.

Definition clean_sync_mode (value : pyval) (valid_modes : list string) : res string :=
  let mode := lower (strip (py_str (py_or value (PStr "incremental")))) in
  if mem mode valid_modes then Ok mode else raise ValueError "mode must be incremental or full".

Definition clean_sync_target (value : pyval) (valid_targets : list string) : res string :=
  let target := lower (strip (py_str (py_or value (PStr "all")))) in
  if mem target valid_targets then Ok target else raise ValueError "target must be all, foundation or talent".

Definition pipeline_extract_all_mode_target (body : pydict) (valid_modes valid_targets : list string) : res (string * string) :=
  mode ← catch ValueError (clean_sync_mode (get "mode" body) valid_modes) (raise ValueError "invalid extract mode");
  target ← catch ValueError (clean_sync_target (get "target" body) valid_targets) (raise ValueError "invalid extract target");
  Ok (mode, target).

Definition sync_child_reason (row : pydict) : res (option string) :=
  extra ← sync_extra_from_row row;
  match List.filter truthy ((λ key, get key extra) <$> ["reason"; "blocked_reason"; "metadata_status"; "status_reason"; "error_code"]) with
  | value :: _ => Ok (Some (stake 240 (py_str value)))
  | [] =>
      let error_message := get "error_message" row in
      if truthy error_message then Ok (Some (stake 240 (py_str error_message)))
      else
        let raw_conf := default [] (as_dict (get "raw_conf" extra)) in
        let reason := py_or (get "reason" raw_conf) (get "metadata_status" raw_conf) in
        Ok (if truthy reason then Some (stake 240 (py_str reason)) else None)
  end.

Definition NAMESPACE_URL : string := "6ba7b8119dad11d180b400c04fd430c8".
(** [uuid.uuid5(uuid.NAMESPACE_URL, name).hex]. *)
Definition url_digest (name : string) : string :=
  sfilter (λ c, negb (bool_decide (c = "-"%char))) (uuid5 sha1 NAMESPACE_URL name).

Definition sync_entity_idempotency_key (base_key entity : pyval) : option string :=
  if is_none base_key then None
  else
    let base := strip (py_str base_key) in
    if negb (nonempty base) then None
    else
      let entity_name := strip (str_or_empty entity) in
      let entity_name := if nonempty entity_name then entity_name else "entity" in
      let candidate := base +:+ ":" +:+ entity_name in
      Some (if Nat.leb (slen candidate) 160 then candidate else stake 100 base +:+ ":" +:+ url_digest candidate).

(** [str(v or d).strip() or d]. *)
Definition stripped_or (v : pyval) (d : string) : string :=
  let s := strip (py_str (py_or v (PStr d))) in if nonempty s then s else d.

Definition sync_now_lock_key (cartridge mode target : string) (conn_id tenant_id workspace_id : pyval) : string :=
  join ":" ["sync-now"; stripped_or tenant_id "platform"; stripped_or workspace_id "global"; cartridge; mode; target;
            stripped_or conn_id "__default__"].

(** [[A-Za-z0-9_.:-]]. *)
Definition is_request_char (c : ascii) : bool := is_ascii_alpha c || is_dec_digit c || char_in c "_.:-".

Definition normalize_sync_now_request_id (value : pyval) : res (option string) :=
  if is_none value then Ok None
  else
    let request_id := strip (py_str value) in
    if negb (nonempty request_id) then Ok None
    else if Nat.ltb 128 (slen request_id) || negb (all_of is_request_char request_id) then raise ValueError "invalid sync request id"
    else Ok (Some request_id).

(** [conn_id or "__default__"], of an optional text. *)
Definition or_default (conn_id : option string) : string :=
  let s := default "" conn_id in if nonempty s then s else "__default__".

(** [fresh] is the text of a new [uuid4]. *)
Definition extract_all_run_id (fresh cartridge mode target : string) (conn_id : option string) (idempotency_key : pyval) :
    res string :=
  if is_none idempotency_key then Ok ("extract_all:" +:+ cartridge +:+ ":" +:+ fresh)
  else
    let key := strip (py_str idempotency_key) in
    if negb (nonempty key) then raise ValueError "invalid idempotency_key"
    else if Nat.ltb 160 (slen key) then raise ValueError "idempotency_key is too long"
    else
      let material := join ":" [cartridge; mode; target; or_default conn_id; key] in
      Ok ("extract_all:" +:+ cartridge +:+ ":" +:+ url_digest material).

Definition sync_now_run_id_from_request_id (fresh cartridge : string) (request_id : option string) (lock_key : string) : string :=
  let request := default "" request_id in
  if negb (nonempty request) then "sync_now:" +:+ cartridge +:+ ":" +:+ fresh
  else "sync_now:" +:+ cartridge +:+ ":" +:+ url_digest (lock_key +:+ ":" +:+ request).

(** In microseconds. *)
Definition sync_run_age_seconds (row : SyncRow) (now : instant) : option Z :=
  (λ started, Z.max (now - started) 0) <$> started_at row.

Definition row_status (row : pydict) : string := lower (str_or_empty (get "status" row)).
Definition entity_of (row : pydict) : string := str_or_empty (get "entity" row).

(** The runs that a trigger names: [dag_run_id] or [job_id]. *)
Definition child_run_id (item : pydict) : string := strip (str_or_empty (py_or (get "dag_run_id" item) (get "job_id" item))).

Definition list_or_nil (v : pyval) : list pyval := default [] (as_list v).
Definition is_listed (v : pyval) : bool := match v with PList (_ :: _) => true | _ => false end.

Definition sync_run_needs_final_reconcile (row extra : pydict) (terminal_statuses : list string) (initial_step_count : nat)
    (aggregate_entity : string) : bool :=
  let status := row_status row in
  if negb (mem status terminal_statuses) then true
  else
    let steps := list_or_nil (get "steps" extra) in
    if Nat.ltb (length steps) initial_step_count then true
    else if existsb (λ step, mem (row_status step) ["queued"; "running"; ""]) (only_dicts steps) then true
    else
      let triggered_entities := get "triggered_entities" extra in
      if bool_decide (status = "failed") && negb (is_listed triggered_entities) then false
      else if bool_decide (str_or_empty (get "cartridge_id" row) = "sap_successfactors") then
        let has_aggregate_child :=
          existsb (λ item, bool_decide (entity_of item = aggregate_entity) && nonempty (child_run_id item))
            (only_dicts (list_or_nil triggered_entities)) in
        if negb (bool_decide (status = "failed")) && has_aggregate_child && negb (truthy (get "extract_all_summary_seen" extra))
        then true
        else negb (truthy (get "control_room_checked_at" extra))
      else false.

(** Whether the loop goes on after an error. *)
Definition retryable_error (error : pyval) : res bool :=
  status ← val_get "status_code" error;
  status_code ← int_or_zero status;
  message ← val_get "error" error;
  if 500 <=? status_code then Ok true
  else
    reason ← val_get "reason" error;
    Ok (bool_decide (lower (str_or_empty reason) = "airflow_trigger_failed")
        || existsb (λ token, contains token (lower (str_or_empty message)))
             ["timeout"; "tempor"; "airflow trigger failed"; "connection reset"]).
Fixpoint all_retryable (errors : list pyval) : res bool :=
  match errors with
  | [] => Ok true
  | error :: errors => b ← retryable_error error; if b : bool then all_retryable errors else Ok false
  end.
Definition sync_errors_retryable (errors : list pyval) : res bool :=
  match errors with [] => Ok false | _ => all_retryable errors end.

(** ** The runs of the entities *)

Record ChildProgress := mkChildProgress {
  aggregate_child_rows : list pydict;
  aggregate_payload_ready : bool;
  entity_child_rows : list pydict;
  aggregate_summary_pending : bool;
  progress_rows : list pydict }.

(** An aggregate run that is over but has not said what it did. *)
Definition pending_row (row : pydict) : pydict :=
  dset "status" (if mem (row_status row) ["success"; "partial"] then PStr "running" else get "status" row) row.

Definition sync_child_progress_rows (child_rows : list pydict) (aggregate_entity sync_now_entity : string)
    (ready_keys : list string) : res ChildProgress :=
  let aggregate_child_rows := List.filter (λ item, bool_decide (entity_of item = aggregate_entity)) child_rows in
  aggregate_payload_ready ← anyR (λ item, extra ← sync_extra_from_row item; Ok (existsb (λ key, has_key key extra) ready_keys))
                              aggregate_child_rows;
  let entity_child_rows := List.filter (λ item, negb (mem (entity_of item) [aggregate_entity; sync_now_entity])) child_rows in
  let aggregate_summary_pending :=
    negb (Nat.eqb (length aggregate_child_rows) 0) && negb aggregate_payload_ready && Nat.eqb (length entity_child_rows) 0 in
  Ok (mkChildProgress aggregate_child_rows aggregate_payload_ready entity_child_rows aggregate_summary_pending
        (if aggregate_summary_pending then pending_row <$> aggregate_child_rows
         else if Nat.eqb (length entity_child_rows) 0 then child_rows else entity_child_rows)).

Record ChildCounts := mkChildCounts {
  statuses : list string; running : bool; failed : Z; success : Z; partial : Z; blocked : Z; terminal : Z }.

Definition sync_child_status_counts (progress_rows : list pydict) (blocked_statuses terminal_statuses : list string) : ChildCounts :=
  let statuses := row_status <$> progress_rows in
  let count l := count_if (λ s, mem s l) statuses in
  mkChildCounts statuses (existsb (λ s, mem s ["queued"; "running"; "unknown"]) statuses) (count ["failed"; "error"])
    (count ["success"]) (count ["partial"]) (count blocked_statuses) (count terminal_statuses).

(** ** What is materialized *)

Record Materialization := mkMaterialization {
  bronze_rows : list pydict; bronze_ready : Z; silver_nodes : list pydict; silver_ready : Z; gold_nodes : list pydict;
  gold_ready : Z; gold_total : Z; gold_partial : bool }.

Definition ready_status (v : pyval) : bool := mem (str_or_empty v) ["fresh"; "stale"].
Definition layer_nodes (layer : string) (rows : list pydict) : res (list pydict) :=
  nodes ← mapR (λ item, l ← py_iter (py_or (get layer item) (PList [])); Ok (only_dicts l)) rows;
  Ok (concat nodes).

Definition sync_pipeline_materialization_summary (pipeline_rows : list pyval) (gold_refresh_summary : pydict) :
    res Materialization :=
  let bronze_rows := only_dicts pipeline_rows in
  bronze_statuses ← mapR (λ item, val_get "status" (py_or (get "bronze" item) (PDict []))) bronze_rows;
  let bronze_ready := count_if ready_status bronze_statuses in
  silver_nodes ← layer_nodes "silver" bronze_rows;
  gold_nodes ← layer_nodes "gold" bronze_rows;
  let silver_ready := count_if (λ node, ready_status (get "status" node)) silver_nodes in
  let gold_ready := count_if (λ node, ready_status (get "status" node)) gold_nodes in
  gold_refresh_materialized ← int_or_zero (get "materialized" gold_refresh_summary);
  gold_refresh_total ← int_or_zero (get "total" gold_refresh_summary);
  let gold_ready :=
    if nonzero gold_refresh_total then gold_refresh_materialized
    else if gold_ready <? gold_refresh_materialized then gold_refresh_materialized else gold_ready in
  let gold_total := Z.max (Z.max (Z.of_nat (length gold_nodes)) gold_refresh_total) gold_ready in
  let gold_partial := nonzero gold_refresh_total && (gold_refresh_materialized <? gold_refresh_total)
                      || bool_decide (row_status gold_refresh_summary = "partial") in
  Ok (mkMaterialization bronze_rows bronze_ready silver_nodes silver_ready gold_nodes gold_ready gold_total gold_partial).

(** ** The updates of the steps *)

Definition CONNECTION_INVALID_DETAIL_ES : string := of_utf8 "Credenciales no válidas o incompletas en la Bóveda de Accesos".
Definition CONNECTION_PROBE_FAILED_DETAIL_ES : string := of_utf8 "No se pudo validar la conexión con el origen".
Definition CONNECTION_UNVERIFIED_DETAIL_ES : string := of_utf8 "No se pudo verificar la conexión a tiempo; continuando".
Definition CONNECTION_VERIFIED_DETAIL_ES : string := of_utf8 "Credenciales verificadas con el origen de datos.".
Definition CONNECTION_CONFIRMED_BY_DATA_DETAIL_ES : string := of_utf8 "Conexión confirmada por la extracción de datos.".

(** A step as most updates give it. *)
Definition step_of (label status detail : string) (completed total : Z) : list (string * pyval) :=
  [("label", PStr label); ("status", PStr status); ("detail", PStr detail); ("completed", PInt completed); ("total", PInt total)].
Definition with_percent (z : Z) : list (string * pyval) := [("percent", PInt z)].
Definition CONEXION : string := of_utf8 "Conexión".

(** [isinstance(connection_check, dict)], and its status. *)
Definition check_status (connection_check : option pydict) : string := row_status (default [] connection_check).

Definition sync_connection_step_update (triggered : list pyval) (child_rows : list pydict) (bronze_ready : Z)
    (connection_check : option pydict) : pydict :=
  let check := default [] connection_check in
  let status := check_status connection_check in
  if bool_decide (status = "failed") then
    let message := strip (str_or_empty (get "message" check)) in
    let failure_kind := str_or_empty (get "failure_kind" check) in
    mkdict ([("label", PStr CONEXION); ("status", PStr "failed");
             ("detail", PStr (if bool_decide (failure_kind = "source") then CONNECTION_PROBE_FAILED_DETAIL_ES
                              else CONNECTION_INVALID_DETAIL_ES))]
            ++ given (nonempty message) "error" (PStr (stake 300 message)) ++ [("completed", PInt 0); ("total", PInt 1)])
  else if bool_decide (status = "verified") then
    mkdict (step_of CONEXION "success" CONNECTION_VERIFIED_DETAIL_ES 1 1 ++ with_percent 100)
  else if bool_decide (status = "unverified") then
    if nonzero bronze_ready then mkdict (step_of CONEXION "success" CONNECTION_CONFIRMED_BY_DATA_DETAIL_ES 1 1 ++ with_percent 100)
    else mkdict (step_of CONEXION "partial" CONNECTION_UNVERIFIED_DETAIL_ES 0 1)
  else
    let started := negb (Nat.eqb (length triggered) 0) || negb (Nat.eqb (length child_rows) 0) || nonzero bronze_ready in
    mkdict (step_of CONEXION (if started then "success" else "running")
              (if started then of_utf8 "Scope y conexión aceptados por el pipeline." else of_utf8 "Validando al iniciar extracción.")
              (if started then 1 else 0) 1 ++ with_percent (if started then 100 else 20)).

Definition num (z : Z) : string := str_of_Z z.
(** [x or y] of numbers. *)
Definition or_z (x y : Z) : Z := if nonzero x then x else y.
Definition some_errors (errors : list pyval) : bool := negb (Nat.eqb (length errors) 0).

Definition sync_bronze_step_update (running_children aggregate_summary_pending : bool) (progress_count : nat)
    (failed_children success_children partial_children blocked_children : Z) (errors : list pyval)
    (child_done child_total bronze_ready : Z) (entity_summary : pydict) : option pydict :=
  let item k := default (PList []) (dget k entity_summary) in
  let base := [("label", PStr "Bronze"); ("entities", item "entities"); ("blockers", item "blockers")] in
  let step status detail completed total :=
    mkdict (base ++ [("status", PStr status); ("detail", PStr detail); ("completed", PInt completed); ("total", PInt total)]) in
  if running_children then
    Some (step "running" (if aggregate_summary_pending then "Esperando resumen final del DAG agregado."
                          else num (Z.of_nat progress_count) +:+ " corridas del sync actual en curso.") child_done child_total)
  else if nonzero failed_children && negb (nonzero success_children) && negb (nonzero partial_children) then
    Some (step "failed" "Las extracciones fallaron antes de completar Bronze." (or_z child_done failed_children) child_total)
  else if nonzero failed_children || nonzero partial_children || nonzero blocked_children || some_errors errors then
    Some (step "partial"
            (num success_children +:+ " OK; " +:+ num partial_children +:+ " parciales; " +:+ num blocked_children
             +:+ " bloqueadas; " +:+ num (failed_children + Z.of_nat (length errors)) +:+ " con error.")
            (Z.max (success_children + partial_children + blocked_children) child_done) child_total)
  else if nonzero success_children || nonzero bronze_ready then
    let completed := or_z bronze_ready success_children in
    Some (dset "percent" (PInt 100) (step "success" (num completed +:+ " entidades con datos raw.") completed (Z.max completed 1)))
  else None.

Definition sync_silver_gold_step_update (bronze_status : string) (running_children : bool)
    (gold_total silver_ready gold_ready failed_children partial_children blocked_children : Z) (gold_partial : bool)
    (errors : list pyval) : option pydict :=
  let step status detail completed total := Some (mkdict (step_of "Silver/Gold" status detail completed total)) in
  if mem bronze_status ["queued"; "running"] || running_children then
    step "queued" (of_utf8 "Esperando a que Airflow termine extracción.") 0 (Z.max (Z.max gold_total silver_ready) 1)
  else if nonzero gold_ready then
    let gold_detail :=
      if nonzero gold_total && negb (gold_total =? gold_ready)
      then num gold_ready +:+ "/" +:+ num gold_total +:+ " Gold materializados o disponibles"
      else num gold_ready +:+ " Gold frescos o disponibles" in
    step (if negb (nonzero failed_children) && negb (nonzero partial_children) && negb (nonzero blocked_children)
             && negb gold_partial then "success" else "partial")
      (num silver_ready +:+ of_utf8 " Silver · " +:+ gold_detail +:+ ".") gold_ready (Z.max (Z.max gold_total gold_ready) 1)
  else if nonzero silver_ready then
    step "partial" (num silver_ready +:+ of_utf8 " Silver disponibles; Gold todavía incompleto.") silver_ready
      (Z.max (Z.max (silver_ready + 1) gold_total) 1)
  else if nonzero failed_children || some_errors errors then
    step "failed" (of_utf8 "No se pudo confirmar materialización downstream.") 0 (Z.max gold_total 1)
  else None.

Definition sync_control_room_snapshot (dashboard_payload : pyval) (control_room_gold_refresh : pydict) : res pydict :=
  let part k := match dashboard_payload with PDict d => get k d | _ => PDict [] end in
  let count k v := x ← val_get k (py_or v (PDict [])); int_or_zero x in
  source_count ← count "source_count" (part "meta");
  item_count ← count "item_count" (part "meta");
  total_items ← count "total_items" (part "summary");
  data_ready_sources ← count "data_ready_sources" (part "summary");
  signals ← int_or_zero (get "signals" control_room_gold_refresh);
  Ok (mkdict [("source_count", PInt source_count); ("item_count", PInt item_count); ("total_items", PInt total_items);
              ("data_ready_sources", PInt data_ready_sources); ("gold_refresh_signals", PInt signals);
              ("gold_refresh_status", PStr (str_or_empty (get "status" control_room_gold_refresh)))]).

Definition counted (source_count item_count : Z) : string :=
  "(" +:+ num source_count +:+ " fuentes, " +:+ num item_count +:+ " items)".

Definition sync_control_room_step_update (control_room_snapshot : pydict) (control_room_ready control_room_publish_failed : bool)
    (gold_ready : Z) : res pydict :=
  source_count ← int_or_zero (get "source_count" control_room_snapshot);
  item_count ← int_or_zero (get "item_count" control_room_snapshot);
  let total := Z.max (or_z source_count item_count) 1 in
  '(completed, percent) ←
    (if control_room_ready then Ok (total, 100)
     else
       data_ready ← int_or_zero (get "data_ready_sources" control_room_snapshot);
       let completed := Z.min (or_z data_ready (if nonzero item_count then source_count else 0)) total in
       percent ← round_percent completed total;
       Ok (completed, Z.min 95 percent));
  let detail :=
    if control_room_ready
    then "KPIs Gold/Talent disponibles; Control Room materializado " +:+ counted source_count item_count +:+ "."
    else if control_room_publish_failed then of_utf8 "Gold materializado, pero la publicación de señales falló."
    else if nonzero gold_ready
    then "Control Room materializado " +:+ counted source_count item_count +:+ "; Gold parcial o incompleto."
    else "Control Room materializado con fuentes Bronze/Silver; esperando Gold." in
  Ok (mkdict (step_of "Control Room" (if control_room_ready then "success" else "partial") detail completed total
              ++ with_percent percent ++ [("metrics", PDict control_room_snapshot)])).

(** [error] is the text of the exception. *)
Definition sync_control_room_error_step_update (error : string) : pydict :=
  mkdict [("label", PStr "Control Room"); ("status", PStr "partial");
          ("detail", PStr (of_utf8 "Gold existe, pero Control Room aún no respondió completo.")); ("error", PStr (stake 300 error));
          ("completed", PInt 0); ("total", PInt 1)].

Definition sync_control_room_waiting_step_update (running_children : bool) : pydict :=
  mkdict (step_of "Control Room" (if running_children then "queued" else "partial") "Esperando Gold de SuccessFactors." 0 1).

Definition sync_control_room_generic_step_update (gold_ready : Z) : pydict :=
  let ready := nonzero gold_ready in
  mkdict (step_of "Control Room" (if ready then "success" else "skipped")
            (if ready then "Gold disponible para consumo." else of_utf8 "Control Room específico no aplica para esta fuente de datos.")
            (if ready then 1 else 0) 1 ++ with_percent (if ready then 100 else 0)).

Definition sync_agents_intelligence_step_update (applies can_run_agentops running_children : bool) (agentops_refresh : pydict) :
    res pydict :=
  let step status detail completed total := step_of "Agentes/IA" status detail completed total in
  if negb applies then
    Ok (mkdict (step "skipped" (of_utf8 "Monitores específicos no aplican para esta fuente de datos.") 1 1 ++ with_percent 100))
  else if negb can_run_agentops then
    Ok (mkdict (step (if running_children then "queued" else "partial")
                  "Esperando datos materializados para ejecutar monitores reales." 0 1))
  else
    let agent_status := row_status agentops_refresh in
    agent_total ← int_or_zero (get "total" agentops_refresh);
    agent_completed ← int_or_zero (get "completed" agentops_refresh);
    agent_failed ← int_or_zero (get "failed" agentops_refresh);
    let executed := num agent_completed +:+ "/" +:+ num (Z.max agent_total 1) in
    let metrics := [("metrics", PDict agentops_refresh)] in
    let reason d := py_str (py_or (get "reason" agentops_refresh) (PStr d)) in
    Ok (mkdict
      (if bool_decide (agent_status = "success") then
         step "success" (executed +:+ " monitores ejecutados con AgentOps.") agent_completed
           (Z.max (Z.max agent_total agent_completed) 1) ++ with_percent 100 ++ metrics
       else if bool_decide (agent_status = "failed") then
         step "failed" (reason (num agent_failed +:+ " monitores fallaron.")) agent_completed (Z.max (Z.max agent_total agent_failed) 1)
           ++ metrics
       else
         step "partial" (reason (executed +:+ " monitores ejecutados; " +:+ num agent_failed +:+ " con error.")) agent_completed
           (Z.max (Z.max agent_total (agent_completed + agent_failed)) 1) ++ metrics)).

(** ** What is kept and shown *)

Definition sync_run_error_message (errors : list pyval) : option string :=
  let message := join "; " ((λ item, str_or_empty (get "error" item)) <$> only_dicts (take 3 errors)) in
  if nonempty message then Some message else None.

(** [isinstance(d.get(k), dict)], as the item of a literal. *)
Definition kept_dict (k : string) (d : pydict) : list (string * pyval) := given (is_dict (get k d)) k (get k d).
Definition opt_time (t : option instant) : pyval := match t with Some t => PStr (isoformat t) | None => PNone end.

Definition sync_updated_extra (steps : list pydict) (triggered errors : list pyval) (control_room_ready : bool)
    (control_room_checked_at : pyval) (control_room_snapshot agentops_refresh gold_refresh_summary control_room_gold_refresh : pydict)
    (aggregate_payload_ready aggregate_summary_pending : bool) (child_run_count entity_child_run_count : nat)
    (entity_summary previous_extra : pydict) (row_mode : option string) : pydict :=
  let previous v k := py_or (py_or v (get k previous_extra)) (PDict []) in
  mkdict ([("steps", PList (PDict <$> steps)); ("triggered_entities", PList triggered); ("errors", PList errors);
           ("control_room_ready", PBool control_room_ready);
           ("control_room_checked_at", py_or control_room_checked_at (get "control_room_checked_at" previous_extra));
           ("control_room_snapshot", previous (PDict control_room_snapshot) "control_room_snapshot");
           ("agentops_refresh", previous (PDict agentops_refresh) "agentops_refresh");
           ("gold_refresh", previous (PDict gold_refresh_summary) "gold_refresh");
           ("control_room_gold_refresh", previous (PDict control_room_gold_refresh) "control_room_gold_refresh");
           ("extract_all_summary_seen",
             PBool (aggregate_payload_ready || truthy (get "extract_all_summary_seen" previous_extra)));
           ("aggregate_summary_pending", PBool aggregate_summary_pending);
           ("child_run_count", PInt (Z.of_nat child_run_count)); ("entity_child_run_count", PInt (Z.of_nat entity_child_run_count));
           ("entity_outcomes", py_or (get "entities" entity_summary) (PList []));
           ("blockers", py_or (get "blockers" entity_summary) (PList []));
           ("target", py_or (get "target" previous_extra) (PStr "all"));
           ("mode", py_or (py_or (get "mode" previous_extra) (opt_str row_mode)) (PStr "incremental"))]
          ++ kept_dict "automation" previous_extra ++ kept_dict "connection_check" previous_extra).

Definition is_blocker (blocked_statuses : list string) (status : string) : bool :=
  mem status blocked_statuses || mem status ["failed"; "error"].

Definition entity_item (row : pydict) : res pydict :=
  let status := lower (strip (py_str (py_or (get "status" row) (PStr "unknown")))) in
  let status := if nonempty status then status else "unknown" in
  extra ← sync_extra_from_row row;
  reason ← sync_child_reason row;
  row_count ← int_or_zero (get "row_count" row);
  let listed k := given (is_list (get k extra)) k (get k extra) in
  Ok (mkdict ([("entity", PStr (strip (entity_of row))); ("status", PStr status); ("row_count", PInt row_count)]
              ++ given (nonempty (default "" reason)) "reason" (PStr (default "" reason))
              ++ given (truthy (get "metadata_status" extra)) "metadata_status" (PStr (stake 120 (py_str (get "metadata_status" extra))))
              ++ listed "fields_missing" ++ listed "fields_used")).

Definition sync_step_entity_summary (rows : list pydict) (aggregate_entity sync_now_entity : string)
    (blocked_statuses : list string) : res pydict :=
  entities ← mapR entity_item (List.filter (λ row, let entity := strip (entity_of row) in
                                             nonempty entity && negb (mem entity [aggregate_entity; sync_now_entity])) rows);
  let status item := py_str (get "status" item) in
  let blockers := List.filter (λ item, is_blocker blocked_statuses (status item)) entities in
  let count l := PInt (count_if (λ item, mem (status item) l) entities) in
  Ok (mkdict [("entities", PList (PDict <$> entities)); ("blockers", PList (PDict <$> blockers));
              ("counts", PDict (mkdict [("success", count ["success"]); ("partial", count ["partial"]);
                                        ("blocked", count blocked_statuses); ("failed", count ["failed"; "error"])]))]).

Definition step_percent (step : pydict) : res Z := p ← int_or_zero (get "percent" step); Ok (Z.max 0 (Z.min p 100)).

Definition public_steps (normalizer : pydict → res pydict) (initial_steps_factory : res (list pydict)) (extra : pydict) :
    res (list pydict) :=
  match get "steps" extra with
  | PList steps => mapR normalizer (only_dicts steps)
  | _ => match initial_steps_factory with Ok steps => mapR normalizer (steps : list pydict) | Raise e => Raise e end
  end.

Definition sync_progress_percent (steps : list pydict) : res Z :=
  percents ← mapR step_percent steps;
  match steps with [] => Ok 0 | _ => round_ratio (foldl Z.add 0 percents) (Z.max (Z.of_nat (length steps)) 1) end.

Definition public_sync_payload (row : SyncRow) (extra : pydict) (terminal_statuses : list string)
    (normalizer : pydict → res pydict) (initial_steps_factory : res (list pydict)) : res pydict :=
  steps ← public_steps normalizer initial_steps_factory extra;
  let c := cols row in
  let status := py_str (py_or (py_or (get "status" c) (get "status" extra)) (PStr "running")) in
  progress ← sync_progress_percent steps;
  Ok (mkdict [("run_id", get "run_id" c); ("cartridge_id", get "cartridge_id" c); ("status", PStr status);
              ("active", PBool (negb (mem (lower status) terminal_statuses)));
              ("mode", py_or (py_or (get "mode" c) (get "mode" extra)) (PStr "incremental"));
              ("target", py_or (get "target" extra) (PStr "all")); ("progress_percent", PInt (Z.max 0 (Z.min progress 100)));
              ("steps", PList (PDict <$> steps)); ("triggered_entities", py_or (get "triggered_entities" extra) (PList []));
              ("errors", py_or (get "errors" extra) (PList [])); ("control_room_ready", PBool (truthy (get "control_room_ready" extra)));
              ("control_room_snapshot", py_or (get "control_room_snapshot" extra) (PDict []));
              ("agentops_refresh", py_or (get "agentops_refresh" extra) (PDict [])); ("started_at", opt_time (started_at row));
              ("finished_at", opt_time (finished_at row)); ("error_message", get "error_message" c);
              ("automation", match get "automation" extra with PDict d => PDict d | _ => PNone end)]).

Definition inactive_sync_run_payload (cartridge mode target : string) (conn_id : option string) : pydict :=
  mkdict [("run_id", PNone); ("cartridge_id", PStr cartridge); ("status", PStr "skipped"); ("active", PBool false); ("mode", PStr mode);
          ("target", PStr target); ("progress_percent", PInt 0); ("steps", PList []); ("triggered_entities", PList []);
          ("errors", PList []); ("control_room_ready", PBool false); ("control_room_snapshot", PDict []);
          ("agentops_refresh", PDict []); ("started_at", PNone); ("finished_at", PNone); ("error_message", PNone);
          ("reason", PStr "no_active_sync_run"); ("conn_id", opt_str conn_id)].

(** [v in {400, 403, 404}]. *)
Definition in_codes (v : pyval) : res bool :=
  match v with
  | PList _ | PDict _ => raise TypeError ""
  | _ => Ok (existsb (λ code, py_eq v (PInt code)) [400; 403; 404])
  end.
Definition is_blocked_error (item : pyval) : res bool := code ← val_get "status_code" item; in_codes code.
Fixpoint filterR {A} (f : A → res bool) (l : list A) : res (list A) :=
  match l with
  | [] => Ok []
  | x :: l => b ← f x; rest ← filterR f l; Ok (if b : bool then x :: rest else rest)
  end.

Definition extract_all_public_response (result : pydict) : res pydict :=
  let items k := py_iter (py_or (get k result) (PList [])) in
  let size (l : list pyval) := PInt (Z.of_nat (length l)) in
  triggered ← items "triggered";
  errors ← items "errors";
  partial ← items "partial";
  skipped_explicit ← items "skipped_explicit";
  blocked ← filterR is_blocked_error errors;
  failed ← filterR (λ item, b ← is_blocked_error item; Ok (negb b)) errors;
  let attempted := PInt (Z.of_nat (length triggered + length errors + length partial + length skipped_explicit)) in
  Ok (dupdate result (mkdict
        [("attempted", attempted); ("triggered", PList triggered); ("errors", PList errors); ("blocked", PList blocked);
         ("failed", PList failed); ("partial", PList partial); ("skipped_explicit", PList skipped_explicit);
         ("summary", PDict (mkdict [("attempted", attempted); ("triggered", size triggered); ("errors", size errors);
                                    ("blocked", size blocked); ("failed", size failed); ("partial", size partial);
                                    ("skipped_explicit", size skipped_explicit)]));
         ("count", size triggered); ("error_count", size errors)])).

(** What the loop has: materialized, total, results and statuses. *)
Record GoldRefresh := mkGoldRefresh { gr_materialized : Z; gr_total : Z; gr_results : list pydict; gr_statuses : list string }.

(** [isinstance(v, int)], and its value. *)
Definition as_int (v : pyval) : option Z := match v with PBool b => Some (Z.b2z b) | PInt z => Some z | _ => None end.

Definition add_gold_refresh (st : GoldRefresh) (row : pydict) : res GoldRefresh :=
  extra ← sync_extra_from_row row;
  match get "gold_refresh" extra with
  | PDict payload =>
      let status := lower (strip (str_or_empty (get "status" payload))) in
      items ← py_iter (py_or (get "results" payload) (PList []));
      let results := only_dicts items in
      let count v n := match as_int v with Some z => z | None => n end in
      Ok (mkGoldRefresh
            (gr_materialized st + count (get "materialized" payload) (count_if (λ item, eq_str (get "status" item) "ok") results))
            (gr_total st + count (get "total" payload) (Z.of_nat (length results)))
            (gr_results st ++ results) (gr_statuses st ++ (if nonempty status then [status] else [])))
  | _ => Ok st
  end.

Definition child_gold_refresh_summary (child_rows : list pydict) : res pydict :=
  st ← foldR add_gold_refresh child_rows (mkGoldRefresh 0 0 [] []);
  let 'mkGoldRefresh materialized total results statuses := st in
  if negb (nonzero total) && Nat.eqb (length results) 0 then Ok []
  else
    let status := if nonzero total && (total <=? materialized) then "success" else if nonzero materialized then "partial" else "failed" in
    let status := if mem "failed" statuses && negb (nonzero materialized) then "failed"
                  else if mem "partial" statuses && bool_decide (status = "success") then "partial" else status in
    let size := or_z total (Z.of_nat (length results)) in
    Ok (mkdict [("status", PStr status); ("materialized", PInt materialized); ("total", PInt size);
                ("failed", PInt (Z.max (size - materialized) 0)); ("results", PList (PDict <$> results))]).

Definition gold_refresh_dataset_names (gold_refresh_summary : pydict) : res (list string) :=
  items ← py_iter (py_or (get "results" gold_refresh_summary) (PList []));
  let names := (λ item, strip (str_or_empty (get "name" item)))
                 <$> List.filter (λ item, bool_decide (lower (strip (str_or_empty (get "status" item))) = "ok")) (only_dicts items) in
  Ok (sort_strings (dedup (List.filter nonempty names))).

Definition control_room_gold_refresh_terminal (payload : pyval) : bool :=
  match payload with
  | PDict payload =>
      mem (lower (strip (str_or_empty (get "status" payload)))) ["success"; "partial"; "failed"; "skipped"; "not_ready"; "completed"]
  | _ => false
  end.
End Progress.
