(* ===== verification/SyncState.v ===== *)
(** The state of a synchronisation of a source (console/app/domains/pipeline/
    sync_state.py): what is recorded when it starts, when the source does not answer,
    when its runs are triggered, and what its runs and the datasets say of its steps.
    The helpers of sync_progress.py are applied with the constants of this module. *)
From S2P Require Import Prelude PyStr PyVal PyTime PyJson PyUuid SyncProgress.

Open Scope Z_scope.

Definition SYNC_NOW_ENTITY : string := "__sync_now__".
Definition SYNC_AGGREGATE_ENTITY : string := "__extract_all__".
Definition SYNC_NOW_DAG_ID : string := "sync_now".
Definition SYNC_TERMINAL_STATUSES : list string := ["success"; "partial"; "failed"; "blocked"; "skipped"; "skipped_explicit"].
Definition SYNC_CHILD_TERMINAL_STATUSES : list string := SYNC_TERMINAL_STATUSES ++ ["error"].
Definition SYNC_VALID_MODES : list string := ["incremental"; "full"].
Definition SYNC_VALID_TARGETS : list string := ["all"; "foundation"; "talent"].
Definition SYNC_EXTRACT_ALL_DAGS : list (string * string) := [("sap_successfactors", "sap_successfactors_extract_all")].
Definition SAP_SUCCESSFACTORS_CARTRIDGE : string := "sap_successfactors".

(** [except ValueError as exc: raise HTTPException(400, str(exc))]. *)
Definition or_400 {A} (r : res A) : res A :=
  match r with
  | Raise e => if exn_isa (exn_cls e) ValueError then raise (HTTPException 400) (exn_msg e) else Raise e
  | r => r
  end.

(** [re.sub("[^A-Za-z0-9_.:-]+", "_", s)]; [inside] a run already replaced. *)
Fixpoint sub_runs (inside : bool) (s : string) : string :=
  match s with
  | "" => ""
  | String c s => if is_request_char c then String c (sub_runs false s)
                  else if inside then sub_runs true s else String "_" (sub_runs true s)
  end.

Definition normalize_airflow_state (state : option string) : string :=
  let s := default "" state in
  let normalized := lower (if nonempty s then s else "unknown") in
  if mem normalized ["queued"; "running"; "success"; "failed"; "partial"] then normalized else "unknown".

(** The pairs of an update, by the step it updates. *)
Abbreviation updates := (list (string * pydict)).

Definition labelled (label status detail : string) : list (string * pyval) :=
  [("label", PStr label); ("status", PStr status); ("detail", PStr detail)].

Section State.
Context {Hrepr : PyRepr}.
Context (json_loads : string → res pyval) (sha1 : string → string).

Definition sync_clean_mode (value : pyval) : res string := or_400 (clean_sync_mode value SYNC_VALID_MODES).
Definition sync_clean_target (value : pyval) : res string := or_400 (clean_sync_target value SYNC_VALID_TARGETS).

Definition airflow_run_id_fragment (value : string) : string :=
  let fragment := strip_char "_" (sub_runs false value) in stake 80 (if nonempty fragment then fragment else "entity").

Definition pipeline_extract_all_mode_target (body : pydict) : res (string * string) :=
  or_400 (SyncProgress.pipeline_extract_all_mode_target body SYNC_VALID_MODES SYNC_VALID_TARGETS).
Definition pipeline_extract_all_run_id (fresh cartridge mode target : string) (conn_id : option string) (body : pydict) : res string :=
  or_400 (extract_all_run_id sha1 fresh cartridge mode target conn_id (py_or (get "idempotency_key" body) (get "request_id" body))).
Definition normalize_sync_now_request_id (value : pyval) : res (option string) :=
  or_400 (SyncProgress.normalize_sync_now_request_id value).

Definition normalize_sync_step_payload : pydict → res pydict :=
  SyncProgress.normalize_sync_step_payload SYNC_STEP_RECOMPUTE_PERCENT_STATUSES.
Definition merge_sync_steps (current : option (list pyval)) (u : updates) : res (list pydict) :=
  SyncProgress.merge_sync_steps normalize_sync_step_payload initial_sync_steps current u.
Definition sync_step_entity_summary (rows : list pydict) : res pydict :=
  SyncProgress.sync_step_entity_summary json_loads rows SYNC_AGGREGATE_ENTITY SYNC_NOW_ENTITY SYNC_CHILD_BLOCKED_STATUSES.
Definition sync_public_payload (row : SyncRow) (extra : pydict) : res pydict :=
  public_sync_payload row extra SYNC_TERMINAL_STATUSES normalize_sync_step_payload initial_sync_steps.
Definition sync_run_needs_final_reconcile (row extra : pydict) : bool :=
  SyncProgress.sync_run_needs_final_reconcile row extra SYNC_TERMINAL_STATUSES 5 SYNC_AGGREGATE_ENTITY.

(** ** What is recorded *)

Definition sync_start_step_updates : updates :=
  [("connection", mkdict (labelled CONEXION "running" (of_utf8 "Validando scope y conexión de la fuente de datos.")))].

(** A step that failed, or waits, before it did anything. *)
Definition stopped (label status detail : string) : pydict := mkdict (step_of label status detail 0 1).

Definition sync_dataset_seed_failure_step_updates (message : string) : updates :=
  [("connection", mkdict (labelled CONEXION "success" (of_utf8 "Scope y conexión aceptados por el pipeline.")));
   ("silver_gold", mkdict (labelled "Silver/Gold" "failed" "No se pudieron preparar los refinamientos del workspace."
                           ++ [("error", PStr (stake 300 message)); ("completed", PInt 0); ("total", PInt 1)]));
   ("control_room", stopped "Control Room" "failed" "Sin Silver/Gold preparados no se puede refrescar Control Room.");
   ("agents_intelligence", stopped "Agentes/IA" "failed" (of_utf8 "Sin materialización no se ejecutan monitores."))].

(** What the extras of a run say first, and how they go on. *)
Definition extra_head (mode target : string) (conn_id request_id : option string) (steps : list pydict) : list (string * pyval) :=
  [("mode", PStr mode); ("target", PStr target); ("conn_id", opt_str conn_id); ("request_id", opt_str request_id);
   ("steps", PList (PDict <$> steps))].
Definition extra_tail (triggered errors : list pyval) : list (string * pyval) :=
  [("triggered_entities", PList triggered); ("errors", PList errors); ("control_room_ready", PBool false)].

Definition sync_running_extra (mode target : string) (conn_id request_id : option string) (steps : list pydict) : pydict :=
  mkdict (extra_head mode target conn_id request_id steps ++ extra_tail [] []).

Definition sync_dataset_seed_failure_extra (mode target : string) (conn_id request_id : option string) (steps : list pydict)
    (message : string) : pydict :=
  let reason := PStr "packaged_dataset_seed_failed" in
  mkdict (extra_head mode target conn_id request_id steps
          ++ extra_tail [] [PDict (mkdict [("entity", PStr "__dataset_seed__"); ("error", PStr message); ("reason", reason)])]
          ++ [("dataset_seed", PDict (mkdict [("status", PStr "failed"); ("reason", reason); ("error", PStr message)]))]).

(** ** The probe of the connection *)

Definition _CREDENTIAL_PROBE_STATUS_TOKENS : list string := ["credential"; "auth"; "unauthorized"; "forbidden"].
Definition _CREDENTIAL_PROBE_MESSAGE_TOKENS : list string :=
  ["401"; "403"; "unauthoriz"; "forbidden"; "invalid_client"; "invalid client"; "credencial"; "credential"; "access denied"].

Definition sync_probe_failure_kind (status message : pyval) : string :=
  let status_text := lower (strip (str_or_empty status)) in
  let message_text := lower (str_or_empty message) in
  if existsb (λ token, contains token status_text) _CREDENTIAL_PROBE_STATUS_TOKENS
     || existsb (λ token, contains token message_text) _CREDENTIAL_PROBE_MESSAGE_TOKENS
  then "credentials" else "source".

Definition sync_connection_failure_headline (failure_kind : string) : string :=
  if bool_decide (failure_kind = "source") then CONNECTION_PROBE_FAILED_DETAIL_ES else CONNECTION_INVALID_DETAIL_ES.

Definition sync_connection_check_state (probe : pydict) : pydict :=
  let checked := truthy (get "checked" probe) in
  let ok := truthy (get "ok" probe) in
  let status := if checked && ok then "verified" else if checked then "failed" else "unverified" in
  let message := strip (str_or_empty (get "message" probe)) in
  let failure_kind := sync_probe_failure_kind (get "status" probe) (PStr message) in
  let source_status := match get "status" probe with PStr s => strip s | _ => "" end in
  mkdict ([("status", PStr status)] ++ given (nonempty message) "message" (PStr (stake 300 message))
          ++ (if bool_decide (status = "failed")
              then [("failure_kind", PStr failure_kind);
                    ("reason", PStr (if bool_decide (failure_kind = "credentials") then "connection_check_failed"
                                     else "connection_probe_failed"))]
              else [])
          ++ given (nonempty source_status) "source_status" (PStr (stake 80 source_status))
          ++ given (is_int (get "latency_ms" probe)) "latency_ms" (get "latency_ms" probe)).

Definition sync_connection_failure_step_updates (message failure_kind : string) : updates :=
  [("connection", mkdict (labelled CONEXION "failed" (sync_connection_failure_headline failure_kind)
                          ++ given (nonempty message) "error" (PStr (stake 300 message)) ++ [("completed", PInt 0); ("total", PInt 1)]));
   ("bronze", stopped "Bronze" "failed" (of_utf8 "Sin conexión validada no se inicia la extracción."));
   ("silver_gold", stopped "Silver/Gold" "failed" (of_utf8 "No hay extracción base para materializar."));
   ("control_room", stopped "Control Room" "failed" "No hay Gold nuevo disponible.");
   ("agents_intelligence", stopped "Agentes/IA" "failed" "No hay datos base para ejecutar monitores.")].

Definition sync_connection_failure_extra (mode target : string) (conn_id request_id : option string) (steps : list pydict)
    (message : string) (connection_check : pydict) : pydict :=
  mkdict (extra_head mode target conn_id request_id steps
          ++ extra_tail [] [PDict (mkdict [("entity", PStr "__connection__"); ("status_code", PInt 400); ("error", PStr message);
               ("reason", PStr (py_str (py_or (get "reason" connection_check) (PStr "connection_check_failed"))))])]
          ++ [("connection_check", PDict connection_check)]).

(** ** The trigger of the extractions *)

Definition sync_extract_all_trigger_extra (mode target : string) (conn_id request_id : option string) (steps : list pydict)
    (triggered_entities errors : list pyval) (result : pydict) (dataset_seed connection_check : option pydict) : pydict :=
  let opt_dict (o : option pydict) := match o with Some d => PDict d | None => PNone end in
  let automation := match get "automation" result with PDict d => PDict d | _ => PNone end in
  mkdict (extra_head mode target conn_id request_id steps ++ extra_tail triggered_entities errors
          ++ [("extract_all_result", PDict result); ("trigger_strategy", py_or (get "trigger_strategy" result) (PStr "fanout"));
              ("dataset_seed", opt_dict dataset_seed)]
          ++ given (truthy automation) "automation" automation
          ++ given (truthy (opt_dict connection_check)) "connection_check" (opt_dict connection_check)).

Definition is_nil {A} (l : list A) : bool := match l with [] => true | _ => false end.
Definition bronze_trigger_status (triggered_entities errors : list pyval) : string :=
  if negb (is_nil triggered_entities) then "running" else if negb (is_nil errors) then "failed" else "partial".

Record ResultState := mkResultState { rs_triggered : list pyval; rs_errors : list pyval; rs_bronze_status : string }.
Definition sync_extract_all_result_state (result : pydict) : ResultState :=
  let triggered_entities := list_or_nil (get "triggered" result) in
  let errors := list_or_nil (get "errors" result) in
  mkResultState triggered_entities errors (bronze_trigger_status triggered_entities errors).

Definition _sync_connection_trigger_step (triggered_entities errors : list pyval) (attempts : Z) (connection_check : option pydict) :
    pydict :=
  let attempted := [("attempts", PInt attempts)] in
  let check := check_status connection_check in
  if bool_decide (check = "verified") then mkdict (labelled CONEXION "success" CONNECTION_VERIFIED_DETAIL_ES ++ attempted)
  else if bool_decide (check = "unverified") then mkdict (labelled CONEXION "partial" CONNECTION_UNVERIFIED_DETAIL_ES ++ attempted)
  else mkdict (labelled CONEXION (if negb (is_nil triggered_entities) || is_nil errors then "success" else "partial")
                 (if negb (is_nil triggered_entities) then of_utf8 "El pipeline aceptó la sincronización."
                  else of_utf8 "El pipeline respondió sin entidades disparadas.") ++ attempted).

Definition sync_extract_all_trigger_step_updates (triggered_entities errors : list pyval) (attempts : Z)
    (connection_check : option pydict) : updates :=
  let some := negb (is_nil triggered_entities) in
  let count (l : list pyval) := num (Z.of_nat (length l)) in
  let next := if some then "queued" else "failed" in
  [("connection", _sync_connection_trigger_step triggered_entities errors attempts connection_check);
   ("bronze", mkdict (labelled "Bronze" (bronze_trigger_status triggered_entities errors)
                        (count triggered_entities +:+ " entidades disparadas; " +:+ count errors +:+ " errores iniciales.")
                      ++ [("attempts", PInt attempts)]));
   ("silver_gold", mkdict (labelled "Silver/Gold" next
                             (if some then of_utf8 "Airflow encadenará materialización downstream."
                              else of_utf8 "No hay extracción base para materializar.")));
   ("control_room", stopped "Control Room" next
                      (if some then of_utf8 "Esperando Gold para refrescar señales." else "No hay Gold nuevo disponible."));
   ("agents_intelligence", stopped "Agentes/IA" next
                             (if some then of_utf8 "Se ejecutarán monitores reales al terminar Control Room."
                              else "No hay datos base para ejecutar monitores."))].

(** ** What a row, its runs and the datasets say *)

Record WorkingState := mkWorking {
  w_extra : pydict; w_steps : list pyval; w_triggered : list pyval; w_errors : list pyval; w_child_run_ids : list string }.

Definition sync_run_working_state (row : pydict) : res WorkingState :=
  extra ← sync_extra_from_row json_loads row;
  steps ← (match get "steps" extra with
           | PList steps => Ok steps
           | _ => match initial_sync_steps with Ok steps => Ok (PDict <$> (steps : list pydict)) | Raise e => Raise e end
           end);
  let triggered := list_or_nil (get "triggered_entities" extra) in
  Ok (mkWorking extra steps triggered (list_or_nil (get "errors" extra))
        (List.filter nonempty (child_run_id <$> only_dicts triggered))).

Record ChildRuntime := mkRuntime {
  rt_gold_refresh_summary : pydict; rt_aggregate_payload_ready : bool; rt_entity_child_rows : list pydict;
  rt_aggregate_summary_pending : bool; rt_progress_rows : list pydict; rt_running : bool; rt_failed : Z; rt_success : Z;
  rt_partial : Z; rt_blocked : Z; rt_terminal : Z; rt_entity_summary : pydict; rt_errors : list pyval; rt_child_total : Z }.

Definition stale_error : pyval :=
  PDict (mkdict [("entity", PStr SYNC_NOW_ENTITY); ("status_code", PInt 504);
                 ("error", PStr (of_utf8 "La sincronización agotó el tiempo de espera en el orquestador; inicia una nueva."));
                 ("reason", PStr "sync_stale_timeout")]).

(** A run that is not over, whose runs have gone on for longer than they may and of
    which none has succeeded.  [stale_after] is in microseconds, as an age is. *)
Definition stale_running (row : SyncRow) (counts : ChildCounts) (now : instant) (stale_after : Z) : bool :=
  negb (mem (row_status (cols row)) SYNC_TERMINAL_STATUSES) && running counts && (success counts =? 0)
  && (stale_after <? default 0 (sync_run_age_seconds row now)).

Definition sync_child_runtime_state (row : SyncRow) (child_rows : list pydict) (child_run_ids : list string)
    (triggered errors : list pyval) (now : instant) (stale_after : Z) : res ChildRuntime :=
  gold_refresh_summary ← child_gold_refresh_summary json_loads child_rows;
  p ← sync_child_progress_rows json_loads child_rows SYNC_AGGREGATE_ENTITY SYNC_NOW_ENTITY SYNC_AGGREGATE_READY_KEYS;
  let rows := progress_rows p in
  let counts := sync_child_status_counts rows SYNC_CHILD_BLOCKED_STATUSES SYNC_CHILD_TERMINAL_STATUSES in
  entity_summary ← sync_step_entity_summary rows;
  let stale := stale_running row counts now stale_after in
  let size {A} (l : list A) := Z.of_nat (length l) in
  Ok (mkRuntime gold_refresh_summary (aggregate_payload_ready p) (entity_child_rows p) (aggregate_summary_pending p) rows
        (if stale then false else running counts) (if stale then Z.max (failed counts) 1 else failed counts)
        (success counts) (partial counts) (blocked counts) (terminal counts) entity_summary
        (if stale then errors ++ [stale_error] else errors)
        (Z.max (Z.max (Z.max (Z.max (size (entity_child_rows p)) (size rows)) (size child_run_ids)) (size triggered)) 1)).

(** The summary of the rows, with the counts the steps use. *)
Definition sync_materialization_state (pipeline_rows : list pyval) (gold_refresh_summary : pydict) : res Materialization :=
  sync_pipeline_materialization_summary pipeline_rows gold_refresh_summary.

(** [updates.get(k, {}).get("status")]. *)
Definition update_status (k : string) (u : updates) : string := str_or_empty (get "status" (default [] (afind k u))).

Definition opt_update (k : string) (u : option pydict) : updates := match u with Some u => [(k, u)] | None => [] end.

Definition sync_core_step_updates (triggered : list pyval) (child_rows : list pydict) (child_runtime : ChildRuntime)
    (m : Materialization) (errors : list pyval) (connection_check : option pydict) : updates :=
  let r := child_runtime in
  let connection := [("connection", sync_connection_step_update triggered child_rows (bronze_ready m) connection_check)] in
  let bronze := opt_update "bronze"
    (sync_bronze_step_update (rt_running r) (rt_aggregate_summary_pending r) (length (rt_progress_rows r)) (rt_failed r)
       (rt_success r) (rt_partial r) (rt_blocked r) errors (rt_terminal r) (rt_child_total r) (bronze_ready m)
       (rt_entity_summary r)) in
  let silver_gold := opt_update "silver_gold"
    (sync_silver_gold_step_update (update_status "bronze" bronze) (rt_running r) (gold_total m) (silver_ready m) (gold_ready m)
       (rt_failed r) (rt_partial r) (rt_blocked r) (gold_partial m) errors) in
  connection ++ bronze ++ silver_gold.

Definition sync_extract_all_error_message (errors : list pyval) : option string := sync_run_error_message errors.
End State.

(** ** The refresh of the control room and of the agents *)

Section Refreshes.
Context {Hrepr : PyRepr}.
Context (sha1 : string → string).

Definition gold_refresh_airflow_run_id (row : pydict) (child_rows : list pydict) (aggregate_entity : string) : string :=
  let id_of item := strip (str_or_empty (py_or (get "airflow_dag_run_id" item) (get "run_id" item))) in
  match List.filter nonempty (id_of <$> List.filter (λ item, bool_decide (entity_of item = aggregate_entity)) child_rows) with
  | value :: _ => value
  | [] => let run_id := strip (str_or_empty (get "run_id" row)) in if nonempty run_id then run_id else "sync-now"
  end.

Definition gold_refresh_skipped_payload (checked_at : string) : pydict :=
  mkdict [("status", PStr "skipped"); ("checked_at", PStr checked_at);
          ("reason", PStr "No Gold datasets were materialized successfully."); ("datasets", PList [])].

Definition gold_refresh_missing_scope_payload (checked_at : string) (datasets : list string) : pydict :=
  mkdict [("status", PStr "failed"); ("checked_at", PStr checked_at);
          ("reason", PStr "Missing tenant/workspace scope for Control Room Gold refresh."); ("datasets", strs datasets)].

Definition gold_refresh_run_ref (workspace_id cartridge airflow_dag_run_id : string) : string :=
  join ":" ["gold-refresh"; workspace_id; cartridge; airflow_dag_run_id].

Definition gold_refresh_intelligence_payload (cartridge : string) (datasets : list string) (row : SyncRow)
    (airflow_dag_run_id run_ref : string) (gold_refresh_summary : pydict) : pydict :=
  mkdict [("cartridge_id", PStr cartridge); ("datasets", strs datasets); ("include_external", PBool false); ("dry_run", PBool false);
          ("run_mode", PStr "gold_refresh"); ("run_ref", PStr run_ref); ("horizon_days", PList [PInt 7; PInt 21]);
          ("metadata", PDict (mkdict
             [("trigger", PStr "sync_now_gold_refresh"); ("pipeline_run_id", get "run_id" (cols row));
              ("airflow_dag_run_id", PStr airflow_dag_run_id);
              ("materialization_status", py_or (get "status" gold_refresh_summary) (PStr "partial"));
              ("datasets_received", strs datasets); ("finished_at", opt_time (finished_at row))]))].

(** [error] is [f"{type(exc).__name__}: {exc}"]. *)
Definition gold_refresh_error_payload (checked_at run_ref : string) (datasets : list string) (error : string) : pydict :=
  mkdict [("status", PStr "failed"); ("checked_at", PStr checked_at); ("ok", PBool false); ("run_ref", PStr run_ref);
          ("datasets", strs datasets); ("error", PStr (stake 500 error))].

(** [len(v)]. *)
Definition py_len (v : pyval) : res Z :=
  match v with
  | PStr s => Ok (Z.of_nat (slen s))
  | PList l => Ok (Z.of_nat (length l))
  | PDict d => Ok (Z.of_nat (length d))
  | _ => raise TypeError "object has no len()"
  end.

Definition gold_refresh_result_payload (checked_at run_ref : string) (datasets : list string) (result : option pydict) : res pydict :=
  let p := default [] result in
  signals ← py_len (py_or (get "signals" p) (PList []));
  skipped ← py_len (py_or (get "skipped" p) (PList []));
  let engine_status := lower (strip (str_or_empty (get "status" p))) in
  let public_status := if nonempty engine_status then engine_status else if nonzero signals then "completed" else "not_ready" in
  let count k := default (PInt 0) (dget k p) in
  Ok (mkdict [("status", PStr (if mem public_status ["completed"; "success"] then "success" else "partial"));
              ("checked_at", PStr checked_at); ("ok", PBool true); ("run_ref", py_or (get "run_ref" p) (PStr run_ref));
              ("intelligence_run_id", get "intelligence_run_id" p); ("engine_status", PStr public_status);
              ("idempotent", PBool (truthy (get "idempotent" p))); ("signals", PInt signals); ("skipped", PInt skipped);
              ("dataset_unavailable_count", count "dataset_unavailable_count");
              ("insufficient_history_count", count "insufficient_history_count");
              ("skipped_counts", py_or (get "skipped_counts" p) (PDict [])); ("datasets", strs datasets)]).

Definition AGENTOPS_MONITOR_CARTRIDGES : list string := ["sap_successfactors"; "sap_s4hana"; "salesforce"; "sap_b1"].

Definition sync_agentops_is_terminal (payload : pydict) : bool :=
  mem (row_status payload) ["success"; "partial"; "failed"; "skipped"].

Definition sync_agentops_schedule_key (sync_run_id : string) : string :=
  "sync-now:" +:+ uuid5 sha1 NAMESPACE_URL sync_run_id.

Definition no_monitor_candidates_payload (checked_at : string) : pydict :=
  mkdict [("status", PStr "partial"); ("checked_at", PStr checked_at); ("total", PInt 0); ("completed", PInt 0); ("failed", PInt 0);
          ("results", PList []);
          ("reason", PStr "No hay monitores activos con contrato AgentOps para esta fuente de datos/workspace.")].

Definition missing_agent_id_result (agent_slug : string) : pydict :=
  mkdict [("agent_id", PStr ""); ("agent_slug", PStr agent_slug); ("status", PStr "failed"); ("error", PStr "agent id missing")].

Definition duplicate_monitor_counters (schedule_status : string) : Z * Z :=
  if mem schedule_status ["ok"; "skipped"] then (1, 0) else if mem schedule_status ["error"; "cancelled"] then (0, 1) else (0, 0).

Definition duplicate_monitor_result (agent_id agent_slug : string) (reservation : pydict) : pydict :=
  mkdict [("agent_id", PStr agent_id); ("agent_slug", PStr agent_slug); ("status", PStr "duplicate");
          ("schedule_status", PStr (py_str (py_or (get "status" reservation) (PStr "unknown"))));
          ("run_id", get "agent_run_id" reservation); ("schedule_run", PDict reservation)].

Definition scheduled_monitor_success_result (agent_id agent_slug : string) (result : option pydict) (reservation : pydict) : pydict :=
  let result := default [] result in
  mkdict [("agent_id", PStr agent_id); ("agent_slug", PStr agent_slug); ("status", PStr "success"); ("run_id", get "run_id" result);
          ("schedule_run", PDict reservation); ("reply", PStr (stake 500 (str_or_empty (get "reply" result))));
          ("deterministic_monitor", PBool (truthy (get "deterministic_monitor" result)))].

Definition scheduled_monitor_failure_result (agent_id agent_slug error : string) : pydict :=
  mkdict [("agent_id", PStr agent_id); ("agent_slug", PStr agent_slug); ("status", PStr "failed"); ("error", PStr (stake 500 error))].

Definition sync_agentops_summary (checked_at sync_run_id : string) (total completed failed : Z) (results : list pydict) : pydict :=
  mkdict [("status", PStr (if completed =? total then "success"
                           else if nonzero completed || negb (is_nil results) then "partial" else "failed"));
          ("checked_at", PStr checked_at); ("sync_run_id", PStr sync_run_id); ("total", PInt total); ("completed", PInt completed);
          ("failed", PInt failed); ("results", PList (PDict <$> results))].
End Refreshes.
