(* ===== verification/PipelineRuns.v ===== *)
(** The table of the runs of the pipelines: the order of their statuses
    (console/app/domains/pipeline/status_transitions.py, in Python and as the SQL it
    writes), the statements of the console that write a row (main.py, recording.py,
    stuck_run_recovery.py, successfactors_reservation.py) and those that read some.

    The console connects as a role whose rows are those of the tenant and the
    workspace set in its session (infra/init/99p_operational_rls_console_refinement.sql);
    a row that is written must be one of them.  [text::uuid] and the value a column
    [jsonb] keeps of a payload are parameters. *)
From S2P Require Import Prelude PyStr PyVal PyTime PyJson PyIo PyUuid SyncProgress SyncState.

Open Scope Z_scope.

(** ** Statuses *)

Definition PIPELINE_STATUS_RANKS : list (string * Z) :=
  [("unknown", 0); ("queued", 10); ("scheduled", 10); ("up_for_retry", 15); ("running", 20); ("success", 30); ("noop", 30);
   ("skipped", 35); ("skipped_explicit", 35); ("partial", 40); ("blocked", 50); ("failed", 60); ("error", 60);
   ("upstream_failed", 60); ("cancelled", 60); ("removed", 60)].
Definition PIPELINE_TERMINAL_STATUSES : list string := (List.filter (λ kv, 30 <=? kv.2) PIPELINE_STATUS_RANKS).*1.

(** [PIPELINE_STATUS_RANKS.get(s, 0)]. *)
Definition rank_of (s : string) : Z := default 0 (afind s PIPELINE_STATUS_RANKS).

Section Status.
Context {Hrepr : PyRepr}.

Definition normalize_pipeline_status (value : pyval) : string :=
  let s := lower (strip (py_str (py_or value (PStr "unknown")))) in if nonempty s then s else "unknown".
Definition pipeline_status_rank (value : pyval) : Z := rank_of (normalize_pipeline_status value).

Definition advance_pipeline_status (current incoming : pyval) : string :=
  let current_status := normalize_pipeline_status current in
  let incoming_status := normalize_pipeline_status incoming in
  if pipeline_status_rank (PStr current_status) <? pipeline_status_rank (PStr incoming_status) then incoming_status
  else current_status.

Definition pipeline_status_accepts (current incoming : pyval) : bool :=
  let current_status := normalize_pipeline_status current in
  let incoming_status := normalize_pipeline_status incoming in
  bool_decide (incoming_status = current_status)
  || (pipeline_status_rank (PStr current_status) <? pipeline_status_rank (PStr incoming_status)).
End Status.

(** What the SQL that is written of these computes, of texts that are not null. *)
Definition postgres_status_rank (status : string) : Z := rank_of (lower status).
Definition postgres_status_advances (current incoming : string) : bool :=
  postgres_status_rank current <? postgres_status_rank incoming.
Definition postgres_status_accepts (current incoming : string) : bool :=
  postgres_status_advances current incoming || bool_decide (lower incoming = lower current).
Definition postgres_monotonic_status (current incoming : string) : string :=
  if postgres_status_advances current incoming then incoming else current.

(** ** The table *)

Record Row := mkRow {
  r_dag_id : string; r_cartridge_id : string; r_entity : string; r_airflow_dag_run_id : option string; r_mode : option string;
  r_status : string; r_started_at : option instant; r_finished_at : option instant;
  (** In microseconds. *)
  r_duration : option Z; r_record_count : option Z; r_error_message : option string; r_extra : option pydict;
  r_tenant_id : option string; r_workspace_id : option string; r_lease_expires_at : option instant; r_fencing_token : Z }.

Abbreviation Table := (gmap string Row).

(** [app.tenant_id] and [app.workspace_id]; the empty text is [NULL]. *)
Record Session := mkSession { app_tenant_id : string; app_workspace_id : string }.
Definition no_session : Session := mkSession "" "".

Definition is_setting (value : option string) (setting : string) : bool := nonempty setting && bool_decide (value = Some setting).
Definition omega_rls_workspace_matches (s : Session) (r : Row) : bool :=
  is_setting (r_workspace_id r) (app_workspace_id s)
  && match r_tenant_id r with None => true | t => is_setting t (app_tenant_id s) end.

(** The row of a run, when the session sees it. *)
Definition seen (s : Session) (run_id : string) (t : Table) : option Row :=
  match t !! run_id with Some r => if omega_rls_workspace_matches s r then Some r else None | None => None end.

Definition refused {A} : res A := raise (PgError "42501" "") "row-level security policy".

(** [INSERT INTO pipeline_runs ... ON CONFLICT (run_id) DO UPDATE]. *)
Definition insert_or_update (s : Session) (run_id : string) (row : Row) (merge : Row → Row → Row) (t : Table) : res Table :=
  match t !! run_id with
  | None => if omega_rls_workspace_matches s row then Ok (<[run_id := row]> t) else refused
  | Some old =>
      let new := merge old row in
      if omega_rls_workspace_matches s old && omega_rls_workspace_matches s new then Ok (<[run_id := new]> t) else refused
  end.

(** [UPDATE ... WHERE run_id=$1 AND p RETURNING *]: the row when there is one. *)
Definition update_where (s : Session) (run_id : string) (p : Row → bool) (f : Row → Row) (t : Table) : option Row * Table :=
  match seen s run_id t with
  | Some r => if p r then (Some (f r), <[run_id := f r]> t) else (None, t)
  | None => (None, t)
  end.

(** [COALESCE(a, b)]. *)
Definition coalesce {A} (a b : option A) : option A := match a with Some _ => a | None => b end.
(** [COALESCE(extra, '{}'::jsonb) || new]. *)
Definition jsonb_merge (old new : option pydict) : option pydict := (λ new, dupdate (default [] old) new) <$> new.

Section Writes.
Context {Hrepr : PyRepr}.
Context (uuid : string → option string) (jsonb : pydict → res pydict).

(** A tenant and a workspace as the statements take them. *)
Abbreviation scope := (option (string * string)).
Definition session_of (sc : scope) : Session := match sc with Some (t, w) => mkSession t w | None => no_session end.
Definition cast_scope (sc : scope) : res (option string * option string) :=
  match sc with
  | Some (t, w) => t ← cast_uuid uuid t; w ← cast_uuid uuid w; Ok (Some t, Some w)
  | None => Ok (None, None)
  end.

(** The row of a statement that names no other column. *)
Definition new_row (dag_id cartridge entity : string) (airflow mode : string) (status : string) (now : instant)
    (finished : option instant) (error : option string) (extra : pydict) (tenant workspace : option string) : Row :=
  mkRow dag_id cartridge entity (Some airflow) (Some mode) status (Some now) finished None None error (Some extra) tenant workspace None 0.

(** *** Of a synchronisation *)

Definition merge_sync_run (old new : Row) : Row :=
  let accepted := postgres_status_accepts (r_status old) (r_status new) in
  {| r_dag_id := r_dag_id old; r_cartridge_id := r_cartridge_id old; r_entity := r_entity old;
     r_airflow_dag_run_id := r_airflow_dag_run_id old; r_mode := r_mode new;
     r_status := postgres_monotonic_status (r_status old) (r_status new); r_started_at := r_started_at old;
     r_finished_at := if accepted then coalesce (r_finished_at new) (r_finished_at old) else r_finished_at old;
     r_duration := r_duration old; r_record_count := r_record_count old; r_error_message := if accepted then r_error_message new else r_error_message old;
     r_extra := if accepted then jsonb_merge (r_extra old) (r_extra new) else r_extra old;
     r_tenant_id := coalesce (r_tenant_id old) (r_tenant_id new); r_workspace_id := coalesce (r_workspace_id old) (r_workspace_id new);
     r_lease_expires_at := r_lease_expires_at old; r_fencing_token := r_fencing_token old |}.

(** Scoped or not: the statement without a scope names neither column, which are then
    null of the row it inserts and kept of the one it updates. *)
Definition _execute_sync_run_upsert_for_scope (now : instant) (run_id cartridge mode status : string) (sc : scope)
    (error_message : option string) (extra : pydict) (t : Table) : res Table :=
  let finished := if mem status SYNC_TERMINAL_STATUSES then Some now else None in
  extra ← jsonb extra;
  '(tenant, workspace) ← cast_scope sc;
  insert_or_update (session_of sc) run_id
    (new_row SYNC_NOW_DAG_ID cartridge SYNC_NOW_ENTITY run_id mode status now finished error_message extra tenant workspace)
    merge_sync_run t.

(** The texts of the scope of a context; the empty one is none. *)
Definition stripped (v : pyval) : option string := let s := strip (str_or_empty v) in if nonempty s then Some s else None.
Definition _sync_run_scope_values (ctx : pydict) : option string * option string :=
  (stripped (get "tenant_id" ctx), stripped (get "workspace_id" ctx)).
Definition both (tenant_id workspace_id : option string) : scope :=
  match tenant_id, workspace_id with Some t, Some w => Some (t, w) | _, _ => None end.

(** The columns of the scope are in the schema. *)
Definition _upsert_sync_run (now : instant) (run_id cartridge mode status : string) (ctx : pydict) (extra : pydict)
    (error_message : option string) (t : Table) : res Table :=
  let '(tenant_id, workspace_id) := _sync_run_scope_values ctx in
  let sc := both tenant_id workspace_id in
  if negb (bool_decide (cartridge = "platform")) && bool_decide (sc = None)
  then raise (HTTPException 403) "sync run tenant/workspace scope is required"
  else _execute_sync_run_upsert_for_scope now run_id cartridge mode status sc error_message extra t.

(** *** Of a trigger *)

Definition merge_trigger (old new : Row) : Row :=
  {| r_dag_id := r_dag_id old; r_cartridge_id := r_cartridge_id old; r_entity := r_entity old;
     r_airflow_dag_run_id := r_airflow_dag_run_id new; r_mode := r_mode new;
     r_status := postgres_monotonic_status (r_status old) (r_status new); r_started_at := r_started_at old;
     r_finished_at := r_finished_at old; r_duration := r_duration old; r_record_count := r_record_count old; r_error_message := r_error_message old;
     r_extra := jsonb_merge (r_extra old) (r_extra new); r_tenant_id := coalesce (r_tenant_id old) (r_tenant_id new);
     r_workspace_id := coalesce (r_workspace_id old) (r_workspace_id new); r_lease_expires_at := r_lease_expires_at old;
     r_fencing_token := r_fencing_token old |}.

Definition record_dag_pipeline_trigger (now : instant) (cartridge entity dag_id dag_run_id mode : string) (status : option string)
    (conf : pydict) (tenant_id workspace_id : option string) (t : Table) : res Table :=
  if negb (nonempty dag_run_id) then Ok t
  else
    let given_text (o : option string) := match o with Some s => if nonempty s then Some s else None | None => None end in
    let sc := both (given_text tenant_id) (given_text workspace_id) in
    if negb (bool_decide (cartridge = "platform")) && bool_decide (sc = None)
    then raise (HTTPException 403) "pipeline run tenant/workspace scope is required"
    else
      extra ← jsonb (mkdict [("raw_conf", PDict conf); ("triggered_by", PStr "console")]);
      '(tenant, workspace) ← cast_scope sc;
      insert_or_update (session_of sc) dag_run_id
        (new_row dag_id cartridge entity dag_run_id mode (normalize_airflow_state status) now None None extra tenant workspace)
        merge_trigger t.

(** *** Of an observation of Airflow *)

(** [LOWER(COALESCE(status, 'unknown')) = LOWER(COALESCE($6, 'unknown'))], and the scope. *)
Definition unchanged (status : string) (tenant workspace : option string) (r : Row) : bool :=
  bool_decide (lower (r_status r) = lower status)
  && match tenant with Some _ => bool_decide (r_tenant_id r = tenant) && bool_decide (r_workspace_id r = workspace) | None => true end.

Definition observe (now : instant) (status observed : string) (started finished : option instant) (duration : option Z) (r : Row) : Row :=
  {| r_dag_id := r_dag_id r; r_cartridge_id := r_cartridge_id r; r_entity := r_entity r; r_airflow_dag_run_id := r_airflow_dag_run_id r;
     r_mode := r_mode r; r_status := status; r_started_at := coalesce started (r_started_at r);
     r_finished_at := coalesce finished (r_finished_at r); r_duration := coalesce duration (r_duration r); r_record_count := r_record_count r;
     r_error_message := r_error_message r;
     r_extra := jsonb_merge (r_extra r) (Some (mkdict [("airflow_observation",
                  PDict (mkdict [("state", PStr observed); ("observed_at", PStr (isoformat now))]))]));
     r_tenant_id := r_tenant_id r; r_workspace_id := r_workspace_id r; r_lease_expires_at := r_lease_expires_at r;
     r_fencing_token := r_fencing_token r |}.

(** [normalize_airflow_state] of what Airflow says. *)
Definition observed_status (state : option string) : string := normalize_airflow_state state.

(** The statement of [refresh_dag_run_status]: [status] is what the row said, as
    [normalize_airflow_state] reads it. *)
Definition persist_observation (now : instant) (run_id : string) (sc : scope) (status : string) (state : option string)
    (started finished : option instant) (duration : option Z) (t : Table) : res (option Row * Table) :=
  '(tenant, workspace) ← cast_scope sc;
  let observed := observed_status state in
  let new_status := advance_pipeline_status (PStr status) (PStr observed) in
  Ok (update_where (session_of sc) run_id (unchanged status tenant workspace) (observe now new_status observed started finished duration) t).

(** *** Of a recovery *)

Definition RECOVERY_MESSAGE : string := "Recuperado por el sistema: tiempo de espera agotado".

Definition as_listed (v : pyval) : list pyval := match v with PList l => l | _ => [] end.
Definition with_applied (d : pydict) (now : instant) : pydict := dset "applied_at" (PStr (isoformat now)) d.

Definition close_stuck (now : instant) (reconciliation recovery : pydict) (message : string) (r : Row) : Row :=
  let extra := default [] (r_extra r) in
  {| r_dag_id := r_dag_id r; r_cartridge_id := r_cartridge_id r; r_entity := r_entity r; r_airflow_dag_run_id := r_airflow_dag_run_id r;
     r_mode := r_mode r; r_status := postgres_monotonic_status (r_status r) "failed"; r_started_at := r_started_at r;
     r_finished_at := coalesce (r_finished_at r) (Some now); r_duration := r_duration r; r_record_count := r_record_count r; r_error_message := Some message;
     r_extra := jsonb_merge (r_extra r)
       (Some (mkdict [("reconciliation", PList (as_listed (get "reconciliation" extra) ++ [PDict (with_applied reconciliation now)]));
                      ("recovery", PDict (with_applied (dset "previous_error" (opt_str (r_error_message r)) recovery) now))]));
     r_tenant_id := r_tenant_id r; r_workspace_id := r_workspace_id r; r_lease_expires_at := None;
     r_fencing_token := r_fencing_token r + 1 |}.

Definition recover_update_sql (now : instant) (run_id tenant workspace status : string) (started : option instant) (fencing : Z)
    (reconciliation recovery : pydict) (message : string) (t : Table) : res (option Row * Table) :=
  '(tenant_id, workspace_id) ← cast_scope (Some (tenant, workspace));
  reconciliation ← jsonb reconciliation;
  recovery ← jsonb recovery;
  Ok (update_where (mkSession tenant workspace) run_id
        (λ r, bool_decide (r_tenant_id r = tenant_id) && bool_decide (r_workspace_id r = workspace_id)
              && bool_decide (lower (r_status r) = status) && bool_decide (r_started_at r = started) && (r_fencing_token r =? fencing))
        (close_stuck now reconciliation recovery message) t).
End Writes.

(** *** Of the renaming of an entity, and of other services *)

Definition with_entity (entity : string) (r : Row) : Row :=
  {| r_dag_id := r_dag_id r; r_cartridge_id := r_cartridge_id r; r_entity := entity; r_airflow_dag_run_id := r_airflow_dag_run_id r;
     r_mode := r_mode r; r_status := r_status r; r_started_at := r_started_at r; r_finished_at := r_finished_at r;
     r_duration := r_duration r; r_record_count := r_record_count r; r_error_message := r_error_message r; r_extra := r_extra r;
     r_tenant_id := r_tenant_id r; r_workspace_id := r_workspace_id r; r_lease_expires_at := r_lease_expires_at r;
     r_fencing_token := r_fencing_token r |}.

(** [rename_entity], of the rows the connection sees. *)
Definition rename_rows (visible : Row → bool) (cartridge old new : string) (t : Table) : Table :=
  (λ r, if visible r && bool_decide (r_cartridge_id r = cartridge) && bool_decide (r_entity r = old) then with_entity new r else r) <$> t.

(** The row an extraction writes over that of its run: [storage_uri] is no column here. *)
Definition merge_extraction (old new : Row) : Row :=
  let accepted := postgres_status_accepts (r_status old) (r_status new) in
  {| r_dag_id := r_dag_id new; r_cartridge_id := r_cartridge_id new; r_entity := r_entity new;
     r_airflow_dag_run_id := r_airflow_dag_run_id old; r_mode := if accepted then r_mode new else r_mode old;
     r_status := postgres_monotonic_status (r_status old) (r_status new);
     r_started_at := if accepted then coalesce (r_started_at new) (r_started_at old) else r_started_at old;
     r_finished_at := if accepted then coalesce (r_finished_at new) (r_finished_at old) else r_finished_at old;
     r_duration := r_duration old;
     r_record_count := if accepted then coalesce (r_record_count new) (r_record_count old) else r_record_count old;
     r_error_message := if accepted then coalesce (r_error_message new) (r_error_message old) else r_error_message old;
     r_extra := if accepted then jsonb_merge (r_extra old) (r_extra new) else r_extra old;
     r_tenant_id := coalesce (r_tenant_id new) (r_tenant_id old); r_workspace_id := coalesce (r_workspace_id new) (r_workspace_id old);
     r_lease_expires_at := r_lease_expires_at old; r_fencing_token := r_fencing_token old |}.

(** The row of [pipeline_run_save] over that of its run; the scope of a row that has
    none given is that of the old. *)
Definition merge_saved (old new : Row) : Row :=
  let accepted := postgres_status_accepts (r_status old) (r_status new) in
  {| r_dag_id := r_dag_id old; r_cartridge_id := r_cartridge_id old; r_entity := r_entity old;
     r_airflow_dag_run_id := coalesce (r_airflow_dag_run_id new) (r_airflow_dag_run_id old); r_mode := r_mode old;
     r_status := postgres_monotonic_status (r_status old) (r_status new); r_started_at := r_started_at old;
     r_finished_at := if accepted then coalesce (r_finished_at new) (r_finished_at old) else r_finished_at old;
     r_duration := if accepted then coalesce (r_duration new) (r_duration old) else r_duration old;
     r_record_count := if accepted then coalesce (r_record_count new) (r_record_count old) else r_record_count old;
     r_error_message := if accepted then coalesce (r_error_message new) (r_error_message old) else r_error_message old;
     r_extra := if accepted then jsonb_merge (r_extra old) (r_extra new) else r_extra old;
     r_tenant_id := coalesce (r_tenant_id new) (r_tenant_id old); r_workspace_id := coalesce (r_workspace_id new) (r_workspace_id old);
     r_lease_expires_at := r_lease_expires_at old; r_fencing_token := r_fencing_token old |}.

(** An upsert that the policies of its role let through. *)
Definition upsert (run_id : string) (row : Row) (merge : Row → Row → Row) (t : Table) : Table :=
  <[run_id := match t !! run_id with Some old => merge old row | None => row end]> t.

(** ** What is read *)

(** A value [uuid] of a row: as the driver gives it, or as the text of it. *)
Inductive identifier := AsUuid (u : string) | AsText (s : string).
Definition id_text (i : identifier) : string := match i with AsUuid u => u | AsText s => s end.
(** An argument of type [text]: the driver takes a [str] only. *)
Definition text_argument (i : identifier) : res string :=
  match i with AsText s => Ok s | AsUuid _ => raise DataError "invalid input for query argument: expected str, got UUID" end.

(** A row as a dictionary: its columns, and the identifiers of its scope. *)
Record RunRow := mkRunRow { run : SyncRow; row_tenant : option identifier; row_workspace : option identifier }.

Section Reads.
Context {Hrepr : PyRepr}.
Context (uuid : string → option string) (jsonb_text : pydict → string).

Definition columns (run_id : string) (r : Row) : pydict :=
  mkdict [("run_id", PStr run_id); ("dag_id", PStr (r_dag_id r)); ("cartridge_id", PStr (r_cartridge_id r));
          ("entity", PStr (r_entity r)); ("airflow_dag_run_id", opt_str (r_airflow_dag_run_id r)); ("mode", opt_str (r_mode r));
          ("status", PStr (r_status r)); ("record_count", match r_record_count r with Some n => PInt n | None => PNone end);
          ("error_message", opt_str (r_error_message r));
          ("extra", match r_extra r with Some e => PStr (jsonb_text e) | None => PNone end)].

(** [dict(row)] of a [SELECT *]. *)
Definition row_dict (run_id : string) (r : Row) : RunRow :=
  mkRunRow (mkSyncRow (columns run_id r) (r_started_at r) (r_finished_at r)) (AsUuid <$> r_tenant_id r) (AsUuid <$> r_workspace_id r).

(** *** The scope of the reader *)

(** [build_security_context(user)], its tenant and its workspace. *)
Definition context_scope (user : option pydict) : pydict :=
  let d := default [] user in
  if truthy (PDict d)
  then mkdict [("tenant_id", py_or (get "active_tenant_id" d) (get "tenant_id" d));
               ("workspace_id", py_or (get "active_workspace_id" d) (get "workspace_id" d))]
  else [].

Definition workspace_scope_from_user (user : option pydict) : res (option string * string) :=
  let data := default [] user in
  let tenant_id := py_or (get "active_tenant_id" data) (get "tenant_id" data) in
  let workspace_text := strip (str_or_empty (py_or (get "active_workspace_id" data) (get "workspace_id" data))) in
  if negb (nonempty workspace_text) then raise (HTTPException 403) "active workspace is required"
  else
    let tenant_text := if truthy tenant_id then strip (py_str tenant_id) else "" in
    Ok (if nonempty tenant_text then Some tenant_text else None, workspace_text).

(** [scoped_db_for_user]: the session of the connection it gives. *)
Definition scoped_session (user : option pydict) : res Session :=
  '(tenant, workspace) ← workspace_scope_from_user user; Ok (mkSession (default "" tenant) workspace).

(** The values the clauses compare the columns with, the columns being in the schema. *)
Definition pipeline_runs_scope_predicate (user : option pydict) : option string * option string :=
  let ctx := context_scope user in
  let value k := if truthy (get k ctx) then Some (py_str (get k ctx)) else None in
  (value "tenant_id", value "workspace_id").
Definition cast_value (v : option string) : res (option string) :=
  match v with Some text => u ← cast_uuid uuid text; Ok (Some u) | None => Ok None end.

Definition in_clauses (sc : option string * option string) (r : Row) : bool :=
  match sc.2 with Some w => bool_decide (r_workspace_id r = Some w) | None => true end
  && match sc.1 with Some t => bool_decide (r_tenant_id r = Some t) | None => true end.

(** The rows a query of the user ranges over. *)
Definition rows_of (user : option pydict) (t : Table) : res (list (string * Row)) :=
  s ← scoped_session user;
  tenant ← cast_value (pipeline_runs_scope_predicate user).1;
  workspace ← cast_value (pipeline_runs_scope_predicate user).2;
  Ok (List.filter (λ kr, omega_rls_workspace_matches s kr.2 && in_clauses (tenant, workspace) kr.2) (map_to_list t)).

(** *** The runs of a synchronisation *)

(** [ORDER BY started_at DESC NULLS LAST LIMIT 1]; of rows that start together, the first. *)
Definition later (a b : string * Row) : bool :=
  match r_started_at a.2, r_started_at b.2 with Some x, Some y => x <? y | None, Some _ => true | _, None => false end.
Definition latest (rows : list (string * Row)) : option (string * Row) :=
  foldl (λ best row, match best with Some b => if later b row then Some row else Some b | None => Some row end) None rows.

(** [extra->>k], of a value that is neither an array nor an object. *)
Definition json_text (v : pyval) : option string :=
  match v with
  | PNone => None
  | PBool b => Some (if b then "true" else "false")
  | v => Some (py_str v)
  end.

(** [active_sync_run_lookup_parts]: its clauses. *)
Definition is_active_sync_run (now : instant) (cartridge mode target : string) (window : Z) (r : Row) : bool :=
  bool_decide (r_cartridge_id r = cartridge) && bool_decide (r_entity r = SYNC_NOW_ENTITY)
  && negb (mem (r_status r) SYNC_TERMINAL_STATUSES)
  && bool_decide (default mode (r_mode r) = mode)
  && bool_decide (default "all" (json_text (get "target" (default [] (r_extra r)))) = target)
  && match r_started_at r with None => true | Some started => now - Z.max window 0 * 1000000 <? started end.

(** A query that fails finds no run. *)
Definition fetch_active_sync_run (now : instant) (cartridge mode target : string) (user : option pydict) (window : Z) (t : Table) :
    option RunRow :=
  match rows_of user t with
  | Ok rows => (λ kr : string * Row, row_dict kr.1 kr.2)
                 <$> latest (List.filter (λ kr, is_active_sync_run now cartridge mode target window kr.2) rows)
  | Raise _ => None
  end.

Definition fetch_sync_run (cartridge run_id : string) (user : option pydict) (t : Table) : res (option RunRow) :=
  rows ← rows_of user t;
  Ok ((λ kr : string * Row, row_dict kr.1 kr.2)
        <$> List.find (λ kr, bool_decide (r_cartridge_id kr.2 = cartridge) && bool_decide (kr.1 = run_id)
                             && bool_decide (r_entity kr.2 = SYNC_NOW_ENTITY)) rows).

(** [ORDER BY started_at ASC]: nulls last. *)
Definition starts_before (a b : string * Row) : bool :=
  match r_started_at a.2, r_started_at b.2 with Some x, Some y => x <=? y | None, Some _ => false | _, None => true end.

Definition select_sync_child_runs (cartridge : string) (run_ids : list string) (user : option pydict) (t : Table) :
    res (list RunRow) :=
  rows ← rows_of user t;
  Ok ((λ kr : string * Row, row_dict kr.1 kr.2)
        <$> sort_by starts_before
              (List.filter (λ kr, (mem kr.1 run_ids || match r_airflow_dag_run_id kr.2 with Some a => mem a run_ids | None => false end)
                                  && bool_decide (r_cartridge_id kr.2 = cartridge)
                                  && negb (bool_decide (r_entity kr.2 = SYNC_NOW_ENTITY))) rows)).
End Reads.

(** ** A run and what Airflow says of it *)

(** What the console works on: the table, the clock of the database, and the tools of
    the infrastructure gateway. *)
Class RunsWorld (W : Type) := {
  runs : W → Table;
  set_runs : Table → W → W;
  clock : W → instant * W;
  mcp_invoke : string → string → pydict → W → res pydict * W }.

Section Refresh.
Context {Hrepr : PyRepr}.
Context (uuid : string → option string) (jsonb_text : pydict → string).
(** [parse_iso_datetime] of a text that is not empty. *)
Context (parse_iso : string → option instant).
Context {W : Type} {Hruns : RunsWorld W}.

(** A transaction. *)
Definition statement {A} (f : instant → Table → res (A * Table)) : io W A := λ w,
  let '(now, w) := clock w in
  match f now (runs w) with Ok (a, t) => (Ok a, set_runs t w) | Raise e => (Raise e, w) end.
Definition query {A} (f : instant → Table → res A) : io W A := statement (λ now t, a ← f now t; Ok (a, t)).
Definition write (f : instant → Table → res Table) : io W unit := statement (λ now t, t ← f now t; Ok (tt, t)).

(** [datetime.now(timezone.utc)]. *)
Definition utc_now : io W instant := λ w, let '(now, w) := clock w in (Ok now, w).

Definition parse_iso_datetime (v : pyval) : option instant := if truthy v then parse_iso (py_str v) else None.
Definition text_of (v : pyval) : option string := match v with PStr s => Some s | _ => None end.
Definition duration_of (started finished : option instant) : option Z :=
  match started, finished with Some s, Some f => Some (Z.max (f - s) 0) | _, _ => None end.

(** [row.get(k) or ctx.get(k)]. *)
Definition row_or_context (i : option identifier) (k : string) (user : option pydict) : option identifier :=
  match i with
  | Some i => Some i
  | None => let v := get k (context_scope user) in if truthy v then Some (AsText (py_str v)) else None
  end.

(** What the transaction of a refresh gives, of a row that was [row]. *)
Definition persist_status (row : RunRow) (tenant workspace : option identifier) (run_id status : string) (state : option string)
    (started finished : option instant) (now : instant) (t : Table) : res (RunRow * Table) :=
  sc ← (match tenant, workspace with
        | Some a, Some b => a ← text_argument a; b ← text_argument b; Ok (Some (a, b))
        | _, _ => Ok None
        end);
  '(persisted, t) ← persist_observation uuid now run_id sc status state started finished (duration_of started finished) t;
  match persisted with
  | Some r =>
      let d := row_dict jsonb_text run_id r in
      let new_status := advance_pipeline_status (PStr status) (PStr (observed_status state)) in
      Ok (mkRunRow (mkSyncRow (dset "status" (PStr new_status) (cols (run d))) started finished) (row_tenant d) (row_workspace d), t)
  | None =>
      '(tenant, workspace) ← cast_scope uuid sc;
      Ok (match seen (session_of sc) run_id t with
          | Some r => if match tenant with Some _ => bool_decide (r_tenant_id r = tenant) && bool_decide (r_workspace_id r = workspace)
                                         | None => true end
                      then row_dict jsonb_text run_id r else row
          | None => row
          end, t)
  end.

Definition refresh_dag_run_status (row : RunRow) (user : option pydict) : io W RunRow :=
  let c := cols (run row) in
  let status := normalize_airflow_state (text_of (get "status" c)) in
  let dag_id := get "dag_id" c in
  let dag_run_id := py_or (get "airflow_dag_run_id" c) (get "run_id" c) in
  if negb (mem status ["queued"; "running"; "unknown"]) || negb (truthy dag_id) || negb (truthy dag_run_id) then mret row
  else
    result ← mcp_invoke "infra" "airflow_get_run_status" (mkdict [("dag_id", dag_id); ("dag_run_id", dag_run_id)]);
    if truthy (get "error" result) || match get "found" result with PBool false => true | _ => false end then mret row
    else
      let started := match parse_iso_datetime (get "start_date" result) with Some t => Some t | None => started_at (run row) end in
      let finished := match parse_iso_datetime (get "end_date" result) with Some t => Some t | None => finished_at (run row) end in
      handling
        (statement (persist_status row (row_or_context (row_tenant row) "tenant_id" user)
                      (row_or_context (row_workspace row) "workspace_id" user) (str_or_empty (get "run_id" c)) status
                      (text_of (get "state" result)) started finished))
        (λ _, mret row).

(** [fetch_sync_child_runs]. *)
Fixpoint refresh_all (rows : list RunRow) (user : option pydict) : io W (list RunRow) :=
  match rows with
  | [] => mret []
  | row :: rows => row ← refresh_dag_run_status row user; rest ← refresh_all rows user; mret (row :: rest)
  end.
Definition fetch_sync_child_runs (cartridge : string) (run_ids : list string) (user : option pydict) : io W (list RunRow) :=
  if is_nil run_ids then mret []
  else rows ← query (λ _ t, select_sync_child_runs uuid jsonb_text cartridge run_ids user t); refresh_all rows user.
End Refresh.
