(* ===== verification/RunsFrame.v ===== *)
(** Actions on the table of runs, which others read and write too.

    What an action did: a world that keeps a record of the times it was told, of what it
    asked of the tools and was answered, and of what it wrote, with a logic of what an
    action has learned when it writes.  Nothing is said of the world that is watched:
    between two steps its table, its clock and its tools may have been moved in any way.

    What holds while a lock is held: a logic of actions between whose steps others write,
    but only as the lock lets them. *)
From S2P Require Import Prelude PyStr PyVal PyTime PyJson PyIo PyUuid SyncProgress SyncState PipelineRuns.

Open Scope Z_scope.

Inductive event :=
  | Timed (now : instant)
  | Asked (server tool : string) (args : pydict) (answer : res pydict)
  (** a transaction that found the one table and left the other *)
  | Wrote (before after : Table).

(** The latest event comes first. *)
Record monitored (W : Type) := mkMonitored { inner : W; events : list event }.
Arguments mkMonitored {W}.
Arguments inner {W}.
Arguments events {W}.

#[export] Instance monitored_runs {W : Type} {Hruns : RunsWorld W} : RunsWorld (monitored W) := {
  runs w := runs (inner w);
  set_runs t w := mkMonitored (set_runs t (inner w)) (Wrote (runs (inner w)) t :: events w);
  clock w := let '(now, i) := clock (inner w) in (now, mkMonitored i (Timed now :: events w));
  mcp_invoke s tool d w := let '(answer, i) := mcp_invoke s tool d (inner w) in (answer, mkMonitored i (Asked s tool d answer :: events w)) }.

(** An action of the world that is watched, which is not recorded. *)
Definition watch {W A} (m : io W A) : io (monitored W) A := λ w, let '(r, i) := m (inner w) in (r, mkMonitored i (events w)).

(** Each transaction is allowed by what came before it. *)
Fixpoint logged (P : list event → Table → Table → Prop) (l : list event) : Prop :=
  match l with
  | [] => True
  | Wrote t t' :: l => P l t t' ∧ logged P l
  | _ :: l => logged P l
  end.

Lemma logged_split P newer t t' older : logged P (newer ++ Wrote t t' :: older) → P older t t'.
Proof. induction newer as [|[] newer IH]; simpl; [by intros []|auto..|by intros [_ ?]; auto]. Qed.

Section Learning.
Context {W : Type} {Hruns : RunsWorld W}.
Context (P : list event → Table → Table → Prop).

(** With the events of [F] known, each transaction of [m] is allowed, and [Q] holds of
    what it returns and of the events then. *)
Definition learns {A} (F : list event) (m : io (monitored W) A) (Q : list event → A → Prop) : Prop := ∀ w,
  F ⊆ events w → logged P (events w) →
  F ⊆ events (m w).2 ∧ logged P (events (m w).2) ∧ ∀ a, (m w).1 = Ok a → Q (events (m w).2) a.

Lemma learns_ret {A} F (a : A) (Q : list event → A → Prop) : (∀ F', F ⊆ F' → Q F' a) → learns F (mret a) Q.
Proof. intros H w Hw Hl. split_and!; [done..|]. intros b [= <-]. by apply H. Qed.

Lemma learns_of_res {A} F (r : res A) (Q : list event → A → Prop) : (∀ a F', F ⊆ F' → r = Ok a → Q F' a) → learns F (of_res r) Q.
Proof. intros H w Hw Hl. split_and!; [done..|]. intros a Ha. by apply H. Qed.

Lemma learns_result {A} F (r : res A) : learns F (of_res r) (λ _ a, r = Ok a).
Proof. by apply learns_of_res. Qed.

Lemma learns_bind {A B} F (m : io (monitored W) A) (f : A → io (monitored W) B) (Q R : list event → _ → Prop) :
  learns F m Q → (∀ a F', F ⊆ F' → Q F' a → learns F' (f a) R) → learns F (m ≫= f) R.
Proof.
  intros Hm Hf w Hw Hl. unfold mbind, io_bind. destruct (Hm w Hw Hl) as (H1 & H2 & H3). destruct (m w) as [[a|e] w1]; simpl in *; [|done].
  destruct (Hf a (events w1) H1 (H3 a eq_refl) w1 ltac:(done) H2) as (H4 & H5 & H6). split_and!; [by etransitivity|done..].
Qed.

Lemma learns_trying {A} F (m : io (monitored W) A) (Q : list event → A → Prop) :
  learns F m Q → learns F (trying m) (λ F' r, ∀ a, r = Ok a → Q F' a).
Proof.
  intros Hm w Hw Hl. unfold trying. destruct (Hm w Hw Hl) as (H1 & H2 & H3). destruct (m w) as [r w1]; simpl in *.
  split_and!; [done..|]. by intros r' [= <-].
Qed.

Lemma learns_handling {A} F (m : io (monitored W) A) h (Q : list event → A → Prop) :
  learns F m Q → (∀ e F', F ⊆ F' → learns F' (h e) Q) → learns F (handling m h) Q.
Proof.
  intros Hm Hh w Hw Hl. unfold handling. destruct (Hm w Hw Hl) as (H1 & H2 & H3). destruct (m w) as [[a|e] w1]; simpl in *; [done|].
  destruct (Hh e (events w1) H1 w1 ltac:(done) H2) as (H4 & H5 & H6). split_and!; [by etransitivity|done..].
Qed.

Lemma learns_weaken {A} F (m : io (monitored W) A) (Q Q' : list event → A → Prop) :
  learns F m Q → (∀ a F', F ⊆ F' → Q F' a → Q' F' a) → learns F m Q'.
Proof. intros Hm H w Hw Hl. destruct (Hm w Hw Hl) as (H1 & H2 & H3). split_and!; [done..|]. intros a Ha. apply H; auto. Qed.

Lemma learns_watch {A} F (m : io W A) : learns F (watch m) (λ _ _, True).
Proof. intros w Hw Hl. unfold watch. by destruct (m (inner w)). Qed.

Lemma learns_mcp F s tool d : learns F (mcp_invoke s tool d) (λ F' a, Asked s tool d (Ok a) ∈ F').
Proof.
  intros w Hw Hl. simpl. destruct (mcp_invoke s tool d (inner w)) as [r i]. simpl. split_and!; [set_solver|done|].
  intros a ->. by left.
Qed.

Lemma learns_now F : learns F utc_now (λ F' now, Timed now ∈ F').
Proof.
  intros w Hw Hl. unfold utc_now. simpl. destruct (clock (inner w)) as [n i]. simpl. split_and!; [set_solver|done|].
  intros a [= <-]. by left.
Qed.

(** A transaction sees the table as it is then. *)
Lemma learns_statement {A} F (f : instant → Table → res (A * Table)) (Q : list event → A → Prop) :
  (∀ now t a t' F', F ⊆ F' → Timed now ∈ F' → f now t = Ok (a, t') → P F' t t' ∧ Q (Wrote t t' :: F') a) →
  learns F (statement f) Q.
Proof.
  intros Hf w Hw Hl. unfold statement. simpl. destruct (clock (inner w)) as [now i]. simpl.
  destruct (f now (runs i)) as [[a t]|e] eqn:E; simpl; [|split_and!; [set_solver|done..]].
  destruct (Hf _ _ _ _ (Timed now :: events w) ltac:(set_solver) ltac:(by left) E) as [H1 H2].
  split_and!; [set_solver|done..|]. by intros b [= <-].
Qed.

Lemma learns_query {A} F (f : instant → Table → res A) : (∀ F t, P F t t) →
  learns F (query f) (λ F' a, ∃ now t, f now t = Ok a ∧ Wrote t t ∈ F').
Proof.
  intros P_refl. apply learns_statement. intros now t a t' F' _ _ (x & H & [= <- <-])%bind_ok. split; [done|].
  exists now, t. split; [done|by left].
Qed.
End Learning.

(** ** To be watched changes nothing *)

Section Mimicry.
Context {W : Type} {Hruns : RunsWorld W}.

(** [m] is [m'], watched. *)
Definition mimics {A} (m : io (monitored W) A) (m' : io W A) : Prop := ∀ w, m' (inner w) = ((m w).1, inner (m w).2).

Lemma mimics_ret {A} (a : A) : mimics (mret a) (mret a).
Proof. done. Qed.
Lemma mimics_of_res {A} (r : res A) : mimics (of_res r) (of_res r).
Proof. done. Qed.

Lemma mimics_bind {A B} (m : io _ A) m' (f : A → io _ B) f' : mimics m m' → (∀ a, mimics (f a) (f' a)) → mimics (m ≫= f) (m' ≫= f').
Proof. intros Hm Hf w. unfold mbind, io_bind. rewrite (Hm w). destruct (m w) as [[a|e] w1]; simpl; [apply Hf|done]. Qed.

Lemma mimics_trying {A} (m : io _ A) m' : mimics m m' → mimics (trying m) (trying m').
Proof. intros Hm w. unfold trying. rewrite (Hm w). by destruct (m w). Qed.

Lemma mimics_handling {A} (m : io _ A) m' h h' : mimics m m' → (∀ e, mimics (h e) (h' e)) → mimics (handling m h) (handling m' h').
Proof. intros Hm Hh w. unfold handling. rewrite (Hm w). destruct (m w) as [[a|e] w1]; simpl; [done|apply Hh]. Qed.

Lemma mimics_watch {A} (m : io W A) : mimics (watch m) m.
Proof. intros w. unfold watch. by destruct (m (inner w)). Qed.

Lemma mimics_mcp s tool d : mimics (mcp_invoke s tool d) (mcp_invoke s tool d).
Proof. intros w. simpl. by destruct (mcp_invoke s tool d (inner w)). Qed.

Lemma mimics_now : mimics utc_now utc_now.
Proof. intros w. unfold utc_now. simpl. by destruct (clock (inner w)). Qed.

Lemma mimics_statement {A} (f : instant → Table → res (A * Table)) : mimics (statement f) (statement f).
Proof. intros w. unfold statement. simpl. destruct (clock (inner w)) as [now i]. simpl. by destruct (f now (runs i)) as [[a t]|]. Qed.

Lemma mimics_query {A} (f : instant → Table → res A) : mimics (query f) (query f).
Proof. apply mimics_statement. Qed.
End Mimicry.

(** Goes through an action whose calls are watched. *)
Create HintDb mimics discriminated.
#[export] Hint Resolve mimics_ret mimics_of_res mimics_watch mimics_mcp mimics_now mimics_statement mimics_query : mimics.
Ltac mimic :=
  repeat first
    [ progress cbv zeta | solve [auto with mimics] | apply mimics_bind; [|intros ?] | apply mimics_trying | apply mimics_handling; [|intros ?]
    | match goal with |- mimics (match ?x with _ => _ end) _ => destruct x end ].

(** ** What a transaction leaves of the rows it does not name *)

Definition agree_off (ids : list string) (t t' : Table) : Prop := ∀ id, id ∉ ids → t' !! id = t !! id.
#[export] Instance agree_off_pre ids : PreOrder (agree_off ids).
Proof. split; [done|]. intros t1 t2 t3 H1 H2 id Hid. by rewrite H2, H1. Qed.

(** An update that finds its row, or finds none. *)
Lemma update_where_cases s run_id p f t :
  update_where s run_id p f t = (None, t)
  ∨ ∃ r, t !! run_id = Some r ∧ omega_rls_workspace_matches s r = true ∧ p r = true
      ∧ update_where s run_id p f t = (Some (f r), <[run_id := f r]> t).
Proof.
  unfold update_where, seen. destruct (t !! run_id) as [r|] eqn:E; [|by left]. destruct (omega_rls_workspace_matches s r) eqn:Es; [|by left].
  destruct (p r) eqn:Ep; [|by left]. right. by exists r.
Qed.

(** ** While a lock is held *)

Section Interference.
Context {W : Type} {Hruns : RunsWorld W}.
(** The lock is held; what others may do to the table meanwhile. *)
Context (held : W → Prop) (others : Table → Table → Prop).

(** An action that leaves the lock as it is, and takes the table along [R]. *)
Definition within (R : Table → Table → Prop) {A} (m : W → A * W) : Prop :=
  ∀ w, held w → held (m w).2 ∧ R (runs w) (runs (m w).2).

(** What is written in the table is there; others may act whenever the clock is looked at or
    a tool is called. *)
Class SharedRuns := {
  set_runs_runs : ∀ t w, runs (set_runs t w) = t;
  set_runs_held : ∀ t w, held w → held (set_runs t w);
  clock_shared : within others clock;
  mcp_shared : ∀ s t d, within others (mcp_invoke s t d) }.

Context {Hshared : SharedRuns} (R : Table → Table → Prop) {Hpre : PreOrder R} (Hothers : ∀ t t', others t t' → R t t').

Lemma within_weaken {A} (R' : Table → Table → Prop) (m : W → A * W) : (∀ t t', R' t t' → R t t') → within R' m → within R m.
Proof. intros H Hm w Hw. destruct (Hm w Hw) as [? ?]. split; [done|by apply H]. Qed.

Lemma within_others {A} (m : W → A * W) : within others m → within R m.
Proof. by apply within_weaken. Qed.

Lemma within_ret {A} (a : A) : within R (mret a : io W A).
Proof. intros w Hw. by split. Qed.

Lemma within_of_res {A} (r : res A) : within R (of_res r : io W A).
Proof. intros w Hw. by split. Qed.

Lemma within_bind {A B} (m : io W A) (f : A → io W B) : within R m → (∀ a, within R (f a)) → within R (m ≫= f).
Proof.
  intros Hm Hf w Hw. unfold mbind, io_bind. pose proof (Hm w Hw) as [H1 H2]. destruct (m w) as [[a|e] w1]; simpl in *; [|done].
  destruct (Hf a w1 H1) as [H3 H4]. split; [done|by etransitivity].
Qed.

Lemma within_trying {A} (m : io W A) : within R m → within R (trying m).
Proof. intros Hm w Hw. unfold trying. pose proof (Hm w Hw) as H. by destruct (m w). Qed.

Lemma within_handling {A} (m : io W A) h : within R m → (∀ e, within R (h e)) → within R (handling m h).
Proof.
  intros Hm Hh w Hw. unfold handling. pose proof (Hm w Hw) as [H1 H2]. destruct (m w) as [[a|e] w1]; simpl in *; [done|].
  destruct (Hh e w1 H1) as [H3 H4]. split; [done|by etransitivity].
Qed.

Lemma within_statement {A} (f : instant → Table → res (A * Table)) :
  (∀ now t a t', f now t = Ok (a, t') → R t t') → within R (statement f).
Proof.
  intros Hf w Hw. unfold statement. destruct (clock_shared w Hw) as [H1 H2]. destruct (clock w) as [now w1]. simpl in *. apply Hothers in H2.
  destruct (f now (runs w1)) as [[a t]|] eqn:E; simpl; [|done]. split; [by apply set_runs_held|]. rewrite set_runs_runs.
  etransitivity; [exact H2|by eapply Hf].
Qed.

Lemma within_write f : (∀ now t t', f now t = Ok t' → R t t') → within R (write f).
Proof. intros Hf. apply within_statement. intros now t a t' (t1 & H & [= _ <-])%bind_ok. by eapply Hf. Qed.

Lemma within_query {A} (f : instant → Table → res A) : within R (query f).
Proof. apply within_statement. by intros now t a t' (x & _ & [= _ <-])%bind_ok. Qed.

Lemma within_now : within R utc_now.
Proof. intros w Hw. unfold utc_now. destruct (clock_shared w Hw) as [H1 H2]. destruct (clock w). split; [done|by apply Hothers]. Qed.

Lemma within_mcp s t d : within R (mcp_invoke s t d).
Proof. apply within_others, mcp_shared. Qed.

(** What a query gives is of the table as it leaves it. *)
Lemma query_ok {A} (f : instant → Table → res A) w a w' :
  query f w = (Ok a, w') → runs w' = runs (clock w).2 ∧ f (clock w).1 (runs w') = Ok a.
Proof.
  unfold query, statement. destruct (clock w) as [now w1]. simpl. destruct (f now (runs w1)) as [x|] eqn:E; [|done]. simpl.
  intros [= <- <-]. by rewrite set_runs_runs.
Qed.

(** A write that succeeds writes the table as others left it. *)
Lemma write_ok f w w' : held w → write f w = (Ok tt, w') → held w' ∧ ∃ now t, others (runs w) t ∧ f now t = Ok (runs w').
Proof.
  unfold write, statement. intros Hw. destruct (clock_shared w Hw) as [H1 H2]. destruct (clock w) as [now w1]. simpl in *.
  destruct (f now (runs w1)) as [t|] eqn:E; [|done]. simpl. intros [= <-]. split; [by apply set_runs_held|].
  exists now, (runs w1). by rewrite set_runs_runs.
Qed.
End Interference.

(** Goes through an action whose calls are known. *)
Create HintDb within discriminated.
#[export] Hint Resolve within_ret within_of_res : within.
Ltac share :=
  repeat first
    [ progress cbv zeta | solve [eauto with within] | apply within_bind; [apply _| |intros ?] | apply within_trying
    | apply within_handling; [apply _| |intros ?]
    | match goal with |- within _ _ (match ?x with _ => _ end) => destruct x end ].
