(* ===== verification/ExtractSlots.v ===== *)
(** The slots of the extractions of single entities of SAP SuccessFactors
    (console/app/domains/pipeline/successfactors_reservation.py): a transaction under a
    lock of the scope counts the runs in progress, refuses, gives back the run there is
    or reserves one. *)
From S2P Require Import Prelude PyStr PyVal PyTime PyJson PyIo PyUuid SyncProgress SyncState PipelineRuns.

Open Scope Z_scope.

Definition reservation_applies (cartridge dag_id expected_cartridge entity_dag_id : string) : bool :=
  bool_decide (cartridge = expected_cartridge) && bool_decide (dag_id = entity_dag_id).

Definition reservation_run_id (dag_id : string) (requested_dag_run_id : option string) (entity_fragment token : string) : string :=
  let requested := default "" requested_dag_run_id in
  if nonempty requested then requested else "console__" +:+ dag_id +:+ "__" +:+ entity_fragment +:+ "__" +:+ token.

Definition reservation_extra (conf : pydict) : pydict :=
  mkdict [("raw_conf", PDict conf); ("triggered_by", PStr "console"); ("reserved", PBool true);
          ("reason", PStr "successfactors_entity_extract_backpressure")].

Definition extract_all_conflict (rows : list (string * Row)) (extract_all_dag_id aggregate_entity : string) : bool :=
  existsb (λ kr, bool_decide (r_dag_id kr.2 = extract_all_dag_id) && bool_decide (r_entity kr.2 = aggregate_entity)) rows.

Definition of_entity_dag (entity_dag_id : string) (kr : string * Row) : bool := bool_decide (r_dag_id kr.2 = entity_dag_id).

Definition active_entity_run (rows : list (string * Row)) (entity entity_dag_id : string) : option (string * Row) :=
  List.find (λ kr, of_entity_dag entity_dag_id kr && bool_decide (r_entity kr.2 = entity)) rows.
Definition active_entity_run_count (rows : list (string * Row)) (entity_dag_id : string) : Z :=
  Z.of_nat (length (List.filter (of_entity_dag entity_dag_id) rows)).

(** What the transaction gives: the run that is in progress, or one that is reserved. *)
Inductive Slot :=
  | Reused (response : pydict)
  | Reserved (dag_run_id : string).

Section Slots.
Context {Hrepr : PyRepr}.
Context (uuid : string → option string) (jsonb : pydict → res pydict).
Context {W : Type} {Hruns : RunsWorld W}.

Definition merge_reservation (old new : Row) : Row :=
  let accepted := postgres_status_accepts (r_status old) (r_status new) in
  {| r_dag_id := r_dag_id old; r_cartridge_id := r_cartridge_id old; r_entity := r_entity old;
     r_airflow_dag_run_id := if accepted then r_airflow_dag_run_id new else r_airflow_dag_run_id old;
     r_mode := if accepted then r_mode new else r_mode old;
     r_status := postgres_monotonic_status (r_status old) (r_status new); r_started_at := r_started_at old;
     r_finished_at := r_finished_at old; r_duration := r_duration old; r_record_count := r_record_count old;
     r_error_message := r_error_message old;
     r_extra := if accepted then jsonb_merge (r_extra old) (r_extra new) else r_extra old;
     r_tenant_id := coalesce (r_tenant_id old) (r_tenant_id new); r_workspace_id := coalesce (r_workspace_id old) (r_workspace_id new);
     r_lease_expires_at := r_lease_expires_at old; r_fencing_token := r_fencing_token old |}.

(** The clauses of the query. *)
Definition in_progress (now : instant) (cartridge : string) (window : Z) (tenant workspace : option string) (r : Row) : bool :=
  bool_decide (r_cartridge_id r = cartridge) && mem (r_status r) ["queued"; "running"]
  && match r_started_at r with Some started => now - window * 1000000 <? started | None => false end
  && bool_decide (r_tenant_id r = tenant) && bool_decide (r_workspace_id r = workspace).
(** [ORDER BY started_at DESC]. *)
Definition starts_after (a b : string * Row) : bool :=
  match r_started_at a.2, r_started_at b.2 with Some x, Some y => y <=? x | _, _ => true end.
Definition active_rows (now : instant) (cartridge : string) (window : Z) (tenant workspace : option string) (s : Session) (t : Table) :
    list (string * Row) :=
  take 50 (sort_by starts_after
    (List.filter (λ kr, omega_rls_workspace_matches s kr.2 && in_progress now cartridge window tenant workspace kr.2) (map_to_list t))).

(** An argument of type [text]. *)
Definition text_value (v : pyval) : res string :=
  match v with PStr s => Ok s | _ => raise DataError "invalid input for query argument: expected str" end.

(** The payload of the run that is in progress. *)
Definition active_extract_run_payload (kr : string * Row) (cartridge entity dag_id : string) (conf : pydict) (reason : string) : pydict :=
  let a := default "" (r_airflow_dag_run_id kr.2) in
  let dag_run_id := PStr (if nonempty a then a else kr.1) in
  mkdict [("triggered", PBool false); ("reused", PBool true); ("cartridge", PStr cartridge); ("entity", PStr entity);
          ("dag_id", PStr dag_id); ("job_id", dag_run_id); ("run_id", dag_run_id); ("dag_run_id", dag_run_id);
          ("state", PStr (normalize_airflow_state (Some (r_status kr.2)))); ("reason", PStr reason); ("conf", PDict conf)].

Section Slot.
Context (entity dag_id : string) (conf : pydict) (run_id : string).
Context (expected_cartridge entity_dag_id extract_all_dag_id aggregate_entity : string).
Context (active_window_seconds max_active_entity_extracts : Z) (tenant_id workspace_id : pyval).

(** The transaction, of a cartridge that is the one expected.  The lock of the scope
    is taken in it first, so that those of a scope follow one another. *)
Definition reserve_slot (now : instant) (t : Table) : res (Slot * Table) :=
  tenant_text ← text_value tenant_id;
  workspace_text ← text_value workspace_id;
  '(tenant, workspace) ← cast_scope uuid (Some (tenant_text, workspace_text));
  let s := mkSession tenant_text workspace_text in
  let rows := active_rows now expected_cartridge active_window_seconds tenant workspace s t in
  if extract_all_conflict rows extract_all_dag_id aggregate_entity then raise (HTTPException 429) "extract_all_already_running"
  else
    match active_entity_run rows entity entity_dag_id with
    | Some kr => Ok (Reused (active_extract_run_payload kr expected_cartridge entity dag_id conf "active_entity_run"), t)
    | None =>
        if max_active_entity_extracts <=? active_entity_run_count rows entity_dag_id
        then raise (HTTPException 429) "too_many_active_entity_extracts"
        else
          mode ← text_value (py_or (get "mode" conf) (PStr "incremental"));
          extra ← jsonb (reservation_extra conf);
          t ← insert_or_update s run_id
                (new_row dag_id expected_cartridge entity run_id mode "queued" now None None extra tenant workspace) merge_reservation t;
          Ok (Reserved run_id, t)
    end.
End Slot.

Definition is_http (e : exn) : bool := match exn_cls e with HTTPException _ => true | _ => false end.

(** The columns of the scope are in the schema. *)
Definition reserve_entity_extract_slot (cartridge entity dag_id : string) (conf : pydict) (user : option pydict)
    (requested_dag_run_id : option string) (expected_cartridge entity_dag_id extract_all_dag_id aggregate_entity : string)
    (active_window_seconds max_active_entity_extracts : Z) (token : string) : io W (option Slot) :=
  if negb (reservation_applies cartridge dag_id expected_cartridge entity_dag_id) then mret None
  else
    let ctx := context_scope user in
    let tenant_id := py_or (get "tenant_id" conf) (get "tenant_id" ctx) in
    let workspace_id := py_or (get "workspace_id" conf) (get "workspace_id" ctx) in
    if negb (truthy tenant_id && truthy workspace_id)
    then raises (HTTPException 403) "pipeline run tenant/workspace scope is required"
    else
      let dag_run_id := reservation_run_id dag_id requested_dag_run_id (airflow_run_id_fragment entity) token in
      handling
        (slot ← statement (reserve_slot entity dag_id conf dag_run_id expected_cartridge entity_dag_id extract_all_dag_id
                             aggregate_entity active_window_seconds max_active_entity_extracts tenant_id workspace_id);
         mret (Some slot))
        (λ e, if is_http e then of_res (Raise e) else raises (HTTPException 503) "backpressure_unavailable").

(** ** What a slot that is reserved shows *)

(** The runs of entities of a scope that are in progress. *)
Definition entity_runs (now : instant) (cartridge entity_dag_id : string) (window : Z) (tenant workspace : string) (t : Table) :
    list (string * Row) :=
  List.filter (λ kr, of_entity_dag entity_dag_id kr
                     && in_progress now cartridge window (Some tenant) (Some workspace) kr.2) (map_to_list t).
(** All its runs in progress. *)
Definition scope_runs (now : instant) (cartridge : string) (window : Z) (tenant workspace : string) (t : Table) :
    list (string * Row) :=
  List.filter (λ kr, in_progress now cartridge window (Some tenant) (Some workspace) kr.2) (map_to_list t).

(** The newest of them, as many as the query gives. *)
Definition newest_runs (now : instant) (cartridge : string) (window : Z) (tenant workspace : string) (t : Table) :
    list (string * Row) :=
  take 50 (sort_by starts_after (scope_runs now cartridge window tenant workspace t)).

Lemma filter_length_insert (p : string * Row → bool) id r (t : Table) :
  (length (List.filter p (map_to_list (<[id := r]> t))) ≤ S (length (List.filter p (map_to_list t))))%nat.
Proof.
  assert (H : map_to_list (<[id := r]> t) ≡ₚ (id, r) :: map_to_list (delete id t)).
  { rewrite <- insert_delete_eq. apply map_to_list_insert, lookup_delete_eq. }
  assert (Hd : (length (List.filter p (map_to_list (delete id t))) ≤ length (List.filter p (map_to_list t)))%nat).
  { destruct (t !! id) as [r0|] eqn:E; [|by rewrite delete_id].
    rewrite <- (insert_id t id r0 E) at 2. rewrite <- insert_delete_eq. rewrite map_to_list_insert by apply lookup_delete_eq.
    simpl. destruct (p (id, r0)); simpl; lia. }
  rewrite H. simpl. destruct (p (id, r)); simpl; lia.
Qed.

Lemma filter_filter_and {A} (p q : A → bool) l : List.filter p (List.filter q l) = List.filter (λ x, p x && q x) l.
Proof. induction l as [|x l IH]; simpl; [done|]. destruct (q x); simpl; [destruct (p x); simpl; by rewrite IH|by rewrite andb_false_r]. Qed.

Lemma filter_ext_b {A} (p q : A → bool) l : (∀ x, p x = q x) → List.filter p l = List.filter q l.
Proof. intros H. induction l as [|x l IH]; simpl; [done|]. by rewrite H, IH. Qed.

(** The rows the transaction sees are the newest of the scope, when the scope is
    written as the columns are; and all of them when they are at most fifty. *)
Lemma active_rows_newest now cartridge window tenant workspace t : tenant ≠ "" → workspace ≠ "" →
  active_rows now cartridge window (Some tenant) (Some workspace) (mkSession tenant workspace) t
    = newest_runs now cartridge window tenant workspace t.
Proof.
  intros Ht Hw. unfold active_rows, newest_runs, scope_runs. do 2 f_equal.
  apply filter_ext_b. intros [k r]. cbn. destruct (in_progress _ _ _ _ _ r) eqn:E; [|by rewrite andb_false_r].
  rewrite andb_true_r. unfold in_progress in E. boolify. apply nonempty_true in Ht, Hw.
  unfold omega_rls_workspace_matches, is_setting. cbn. rewrite H1, H0, Ht, Hw. by rewrite !bool_decide_true.
Qed.

Lemma newest_runs_all now cartridge window tenant workspace t :
  (length (scope_runs now cartridge window tenant workspace t) ≤ 50)%nat →
  newest_runs now cartridge window tenant workspace t ≡ₚ scope_runs now cartridge window tenant workspace t.
Proof.
  intros Hl. unfold newest_runs. rewrite take_ge by (rewrite (Permutation_length (sort_by_perm starts_after _)); done).
  apply sort_by_perm.
Qed.

(** Rows with neither a complete extraction nor a run of the entity. *)
Lemma rows_clear (rows : list (string * Row)) extract_all_dag aggregate entity_dag entity k r :
  extract_all_conflict rows extract_all_dag aggregate = false → active_entity_run rows entity entity_dag = None → (k, r) ∈ rows →
  ¬ (r_dag_id r = extract_all_dag ∧ r_entity r = aggregate ∨ r_dag_id r = entity_dag ∧ r_entity r = entity).
Proof.
  intros Ec Ea Hin [[Hd He]|[Hd He]].
  - unfold extract_all_conflict in Ec. rewrite <- not_true_iff_false in Ec. apply Ec, existsb_exists. exists (k, r).
    rewrite <- list_elem_of_In. split; [done|]. cbn. by rewrite !bool_decide_true.
  - unfold active_entity_run in Ea. pose proof (List.find_none _ _ Ea (k, r) (proj1 (list_elem_of_In _ _) Hin)) as Hf.
    revert Hf. unfold of_entity_dag. cbn. by rewrite !bool_decide_true.
Qed.

Lemma insert_or_update_sets s id r merge t t' : insert_or_update s id r merge t = Ok t' → ∃ r', t' = <[id := r']> t.
Proof.
  unfold insert_or_update. destruct (t !! id); cbv zeta;
    (match goal with |- (if ?b then _ else _) = _ → _ => destruct b end; [|done]); intros [= <-]; by eexists.
Qed.

Context (Hset : ∀ t w, runs (set_runs t w) = t).

(** C38: A slot is reserved for an entity only when, of the fifty newest runs of the
    scope in progress, none is a complete extraction and none is of the entity, and
    fewer than the limit are of entities; the run that is reserved is in the table.
    When the scope has at most fifty runs in progress, this is so of all of them,
    and the runs of entities in progress are afterwards at most the limit; of more,
    the older ones are not looked at.  The lock of the scope makes the transaction
    one step here. *)
Theorem slots_bounded cartridge entity dag_id conf user requested entity_dag extract_all_dag aggregate window limit token
    tenant workspace w run_id w' :
  py_or (get "tenant_id" conf) (get "tenant_id" (context_scope user)) = PStr tenant →
  py_or (get "workspace_id" conf) (get "workspace_id" (context_scope user)) = PStr workspace →
  uuid tenant = Some tenant → uuid workspace = Some workspace →
  let now := (clock w).1 in
  let t := runs (clock w).2 in
  let stops (r : Row) := r_dag_id r = extract_all_dag ∧ r_entity r = aggregate ∨ r_dag_id r = entity_dag ∧ r_entity r = entity in
  reserve_entity_extract_slot cartridge entity dag_id conf user requested cartridge entity_dag extract_all_dag aggregate window limit
    token w = (Ok (Some (Reserved run_id)), w') →
  (∀ k r, (k, r) ∈ newest_runs now cartridge window tenant workspace t → ¬ stops r)
  ∧ active_entity_run_count (newest_runs now cartridge window tenant workspace t) entity_dag < limit
  ∧ is_Some (runs w' !! run_id)
  ∧ ((length (scope_runs now cartridge window tenant workspace t) ≤ 50)%nat →
      (∀ k r, (k, r) ∈ scope_runs now cartridge window tenant workspace t → ¬ stops r)
      ∧ Z.of_nat (length (entity_runs now cartridge entity_dag window tenant workspace (runs w'))) ≤ limit).
Proof.
  intros Ht Hw Hut Huw now t stops. unfold reserve_entity_extract_slot. rewrite Ht, Hw. destruct (negb _); [done|].
  destruct (truthy (PStr tenant)) eqn:Et; [|done]. destruct (truthy (PStr workspace)) eqn:Ew; [|done]. apply truthy_str in Et, Ew.
  cbn [negb andb]. unfold handling.
  match goal with |- (match ?m with _ => _ end) = _ → _ => destruct m as [[slot|e] w1] eqn:E end; [|by destruct (is_http e)].
  intros [= -> ->].
  apply io_bind_ok in E as (sl & w2 & Hs & [= -> ->]). unfold statement in Hs. subst now t. destruct (clock w) as [now w0]. cbn in *.
  unfold reserve_slot, cast_scope, cast_uuid in Hs. cbn in Hs. rewrite Hut, Huw in Hs. cbn in Hs.
  rewrite active_rows_newest in Hs by done. set (rows := newest_runs _ _ _ _ _ _) in *.
  destruct (extract_all_conflict rows _ _) eqn:Ec; [done|]. destruct (active_entity_run rows _ _) as [kr|] eqn:Ea; [done|].
  destruct (_ <=? _) eqn:Em; [done|]. apply Z.leb_gt in Em.
  destruct (text_value _) as [mode|]; [|done]. cbn in Hs. destruct (jsonb _) as [extra|]; [|done]. cbn in Hs.
  destruct (insert_or_update _ _ _ _ _) as [t'|] eqn:Ei; [|done]. injection Hs as Hid <-. rewrite Hset.
  rewrite Hid in Ei. apply insert_or_update_sets in Ei as [r ->].
  assert (Hstops : ∀ k r, (k, r) ∈ rows → ¬ stops r) by (intros k r0 Hin; by eapply rows_clear).
  split; [done|]. split; [done|]. split; [rewrite lookup_insert_eq; by eexists|]. intros Hl.
  pose proof (newest_runs_all _ _ _ _ _ _ Hl) as Hp. fold rows in Hp. split.
  - intros k r0 Hin. apply (Hstops k). by rewrite Hp.
  - etrans; [apply Nat2Z.inj_le, filter_length_insert|]. unfold active_entity_run_count in Em. rewrite Hp in Em.
    unfold scope_runs in Em. rewrite filter_filter_and in Em. lia.
Qed.
End Slots.

Module Slots.
#[local] Instance repr : PyRepr := some_repr.
Definition uuid (s : string) : option string := if Nat.eqb (slen s) 36 then Some s else None.
Definition jsonb (d : pydict) : res pydict := Ok d.
Definition tenant : string := "7a1d2c3b-0000-4000-8000-000000000001".
Definition workspace : string := "7a1d2c3b-0000-4000-8000-000000000002".
Definition user : pydict := mkdict [("tenant_id", PStr tenant); ("workspace_id", PStr workspace)].

(** The table and the clock. *)
#[local] Instance world : RunsWorld (Table * instant) := {
  runs w := w.1;
  set_runs t w := (t, w.2);
  clock w := (w.2, w);
  mcp_invoke _ _ _ w := (raise RuntimeError "", w) }.

Definition reserve (entity token : string) : io (Table * instant) (option Slot) :=
  reserve_entity_extract_slot uuid jsonb "sap_successfactors" entity "sap_successfactors_extract" [] (Some user) None
    "sap_successfactors" "sap_successfactors_extract" "sap_successfactors_extract_all" "__extract_all__" 14400 2 token.
(** One slot is taken; the second is reserved; there is no third. *)
Definition one_taken : Table * instant := (reserve "EmpJob" "a" (∅, seconds 1)).2.
Definition second : res (option Slot) * (Table * instant) := reserve "User" "b" one_taken.

Example third_is_refused : (reserve "Position" "c" second.2).1 = raise (HTTPException 429) "too_many_active_entity_extracts".
Proof. by vm_compute. Qed.

Example running_is_given_back : ∃ response, (reserve "User" "d" second.2).1 = Ok (Some (Reused response)).
Proof. vm_compute. by eexists. Qed.

Lemma slots_bounded_witness :
  ∃ w', second = (Ok (Some (Reserved "console__sap_successfactors_extract__User__b")), w')
  ∧ Z.of_nat (length (entity_runs (seconds 1) "sap_successfactors" "sap_successfactors_extract" 14400 tenant workspace w'.1)) ≤ 2
  ∧ is_Some (w'.1 !! "console__sap_successfactors_extract__User__b").
Proof.
  assert (Hset : ∀ t (w : Table * instant), runs (set_runs t w) = t) by done.
  assert (Hn : length (scope_runs (seconds 1) "sap_successfactors" 14400 tenant workspace one_taken.1) = 1%nat) by by vm_compute.
  assert (Hs : ∃ w', second = (Ok (Some (Reserved "console__sap_successfactors_extract__User__b")), w')).
  { exists second.2. rewrite (surjective_pairing second) at 1.
    by assert (second.1 = Ok (Some (Reserved "console__sap_successfactors_extract__User__b"))) as -> by by vm_compute. }
  destruct Hs as [w' Hs]. exists w'. split; [exact Hs|].
  destruct (slots_bounded uuid jsonb Hset "sap_successfactors" "User" "sap_successfactors_extract" [] (Some user) None
    "sap_successfactors_extract" "sap_successfactors_extract_all" "__extract_all__" 14400 2 "b" tenant workspace one_taken
    "console__sap_successfactors_extract__User__b" w' eq_refl eq_refl eq_refl eq_refl Hs) as (_ & _ & H2 & H).
  split; [|exact H2]. apply H.
  change (length (scope_runs (seconds 1) "sap_successfactors" 14400 tenant workspace one_taken.1) ≤ 50)%nat. rewrite Hn. lia.
Defined.

(** A complete extraction in progress is not seen behind fifty newer runs. *)
Definition row_of (dag_id entity : string) (started : instant) : Row :=
  new_row dag_id "sap_successfactors" entity "" "incremental" "running" started None None [] (Some tenant) (Some workspace).
Definition crowded (newer : nat) : Table :=
  foldr (λ i t, <[str_of_Z (Z.of_nat i) := row_of "sap_successfactors_profile" "profile" (seconds (2 + Z.of_nat i))]> t)
    {[ "all" := row_of "sap_successfactors_extract_all" "__extract_all__" (seconds 1) ]} (seq 0 newer).

Example extraction_not_seen :
  (λ n, is_ok (reserve "User" "b" (crowded n, seconds 100)).1) <$> [49%nat; 50%nat] = [false; true].
Proof. vm_compute. reflexivity. Qed.
End Slots.
