(* ===== verification/PipelineRunsSafety.v ===== *)
(** What the writers of the table of runs that are modelled keep: its rows stay and their
    statuses only advance, as the Python of status_transitions.py says, and those of
    the console keep their identity and their scope; and what the refresh of a row it
    has read does.  The slots of the materializations of Airflow, which reopen their
    rows, are in [RefreshLease]. *)
From S2P Require Import Prelude PyStr PyVal PyTime PyJson PyIo PyUuid SyncProgress SyncState PipelineRuns ExtractSlots.

Open Scope Z_scope.

(** ** The statuses in Python and in SQL *)

Lemma lstrip_smap p f s : (∀ c, p (f c) = p c) → lstrip_by p (smap f s) = smap f (lstrip_by p s).
Proof. intros H. induction s as [|c s IH]; simpl; [done|]. rewrite H. by destruct (p c). Qed.

Lemma rstrip_smap p f s : (∀ c, p (f c) = p c) → rstrip_by p (smap f s) = smap f (rstrip_by p s).
Proof.
  intros H. induction s as [|c s IH]; simpl; [done|]. rewrite IH, H. destruct (rstrip_by p s); simpl; by destruct (p c).
Qed.

Lemma is_space_lower c : is_space (lower_char c) = is_space c.
Proof. apply eqb_prop. revert c. apply (ascii_ind_all (λ c, Bool.eqb (is_space (lower_char c)) (is_space c))). vm_compute. done. Qed.

Lemma strip_lower s : strip (lower s) = lower (strip s).
Proof.
  unfold strip, strip_by, lower. rewrite lstrip_smap by apply is_space_lower. apply rstrip_smap, is_space_lower.
Qed.

Lemma nonempty_lower s : nonempty (lower s) = nonempty s.
Proof. by destruct s. Qed.

(** A status as the table has it: not empty, and not between spaces. *)
Definition plain (s : string) : Prop := s ≠ "" ∧ strip s = s.

Section Status.
Context {Hrepr : PyRepr}.

Lemma normalize_plain s : plain s → normalize_pipeline_status (PStr s) = lower s.
Proof.
  intros [Hn Hs]. unfold normalize_pipeline_status, py_or.
  assert (Ht : truthy (PStr s) = true) by (by apply truthy_str). rewrite Ht. cbn [py_str].
  rewrite Hs, nonempty_lower. by assert (nonempty s = true) as -> by (by apply nonempty_true).
Qed.

Lemma plain_lower s : plain s → plain (lower s).
Proof. intros [Hn Hs]. split; [by destruct s|]. by rewrite strip_lower, Hs. Qed.

Lemma rank_plain s : plain s → pipeline_status_rank (PStr s) = postgres_status_rank s.
Proof. intros H. unfold pipeline_status_rank. by rewrite normalize_plain. Qed.

Lemma rank_lower s : plain s → pipeline_status_rank (PStr (lower s)) = postgres_status_rank s.
Proof. intros H. rewrite rank_plain by by apply plain_lower. unfold postgres_status_rank. by rewrite lower_idem. Qed.

(** The condition under which an upsert accepts a status, as SQL, is the one that
    [pipeline_status_accepts] computes, and the status it keeps is the one that
    [advance_pipeline_status] gives, up to case. *)
Theorem transitions_agree current incoming : plain current → plain incoming →
  postgres_status_accepts current incoming = pipeline_status_accepts (PStr current) (PStr incoming)
  ∧ lower (postgres_monotonic_status current incoming) = advance_pipeline_status (PStr current) (PStr incoming).
Proof.
  intros Hc Hi. unfold postgres_status_accepts, pipeline_status_accepts, postgres_monotonic_status, advance_pipeline_status.
  rewrite !normalize_plain, !rank_lower by done. unfold postgres_status_advances. split; [apply orb_comm|].
  by destruct (_ <? _).
Qed.

End Status.

Module Transitions.
#[local] Instance repr : PyRepr := some_repr.

Lemma transitions_agree_witness : plain "Running" ∧ plain "PARTIAL"
  ∧ postgres_status_accepts "Running" "PARTIAL" = pipeline_status_accepts (PStr "Running") (PStr "PARTIAL")
  ∧ lower (postgres_monotonic_status "Running" "PARTIAL") = advance_pipeline_status (PStr "Running") (PStr "PARTIAL")
  ∧ advance_pipeline_status (PStr "Running") (PStr "PARTIAL") = "partial".
Proof.
  assert (H1 : plain "Running") by by vm_compute. assert (H2 : plain "PARTIAL") by by vm_compute.
  destruct (transitions_agree "Running" "PARTIAL" H1 H2) as [H3 H4]. repeat (split; [done|]). done.
Defined.
End Transitions.

(** ** The writers *)

(** The writers of the console - the upserts of synchronisations and of triggers, the
    observations of Airflow, the recoveries, the reservations of slots and the
    renaming of an entity -, the mirror of an extraction and the tool of the
    infrastructure gateway.  The rows of the last two are any. *)
Inductive Write :=
  | SyncRun (run_id cartridge mode status : string) (ctx extra : pydict) (error : option string)
  | Trigger (cartridge entity dag_id dag_run_id mode : string) (status : option string) (conf : pydict)
      (tenant workspace : option string)
  | Observation (run_id : string) (sc : option (string * string)) (status state : option string) (started finished : option instant)
      (duration : option Z)
  | Recovery (run_id tenant workspace status : string) (started : option instant) (fencing : Z) (reconciliation recovery : pydict)
      (message : string)
  | Reservation (entity dag_id : string) (conf : pydict) (run_id cartridge entity_dag extract_all aggregate : string) (window limit : Z)
      (tenant_id workspace_id : pyval)
  | Renaming (visible : Row → bool) (cartridge old new : string)
  | Extraction (run_id : string) (row : Row)
  | Saving (run_id : string) (row : Row).

(** The writers that keep the identity and the scope of a row. *)
Definition keeps_identity (x : Write) : bool :=
  match x with Renaming _ _ _ _ | Extraction _ _ | Saving _ _ => false | _ => true end.

Section Writes.
Context {Hrepr : PyRepr}.
Context (uuid : string → option string) (jsonb : pydict → res pydict).

Definition perform (now : instant) (x : Write) (t : Table) : res Table :=
  match x with
  | SyncRun run_id cartridge mode status ctx extra error => _upsert_sync_run uuid jsonb now run_id cartridge mode status ctx extra error t
  | Trigger cartridge entity dag_id dag_run_id mode status conf tenant workspace =>
      record_dag_pipeline_trigger uuid jsonb now cartridge entity dag_id dag_run_id mode status conf tenant workspace t
  | Observation run_id sc status state started finished duration =>
      r ← persist_observation uuid now run_id sc (normalize_airflow_state status) state started finished duration t; Ok r.2
  | Recovery run_id tenant workspace status started fencing reconciliation recovery message =>
      r ← recover_update_sql uuid jsonb now run_id tenant workspace status started fencing reconciliation recovery message t; Ok r.2
  | Reservation entity dag_id conf run_id cartridge entity_dag extract_all aggregate window limit tenant_id workspace_id =>
      r ← reserve_slot uuid jsonb entity dag_id conf run_id cartridge entity_dag extract_all aggregate window limit tenant_id
            workspace_id now t; Ok r.2
  | Renaming visible cartridge old new => Ok (rename_rows visible cartridge old new t)
  | Extraction run_id row => Ok (upsert run_id row merge_extraction t)
  | Saving run_id row => Ok (upsert run_id row merge_saved t)
  end.

(** A statement that fails leaves the table. *)
Definition performed (t : Table) (x : instant * Write) : Table :=
  match perform x.1 x.2 t with Ok t => t | Raise _ => t end.

(** What every writer keeps of a row. *)
Record advanced (r r' : Row) : Prop := {
  a_status : lower (r_status r') = lower (r_status r) ∨ postgres_status_rank (r_status r) < postgres_status_rank (r_status r');
  a_finished : is_Some (r_finished_at r) → is_Some (r_finished_at r');
  a_fencing : r_fencing_token r ≤ r_fencing_token r' }.

Lemma advanced_trans r1 r2 r3 : advanced r1 r2 → advanced r2 r3 → advanced r1 r3.
Proof.
  intros [S1 F1 T1] [S2 F2 T2]. constructor; [|auto|lia]. unfold postgres_status_rank in *. destruct S1 as [E|E], S2 as [E'|E'].
  - left. congruence.
  - right. by rewrite <- E.
  - right. by rewrite E'.
  - right. lia.
Qed.

(** What the writers that keep identities keep of it. *)
Record kept (r r' : Row) : Prop := {
  k_dag : r_dag_id r' = r_dag_id r;
  k_cartridge : r_cartridge_id r' = r_cartridge_id r;
  k_entity : r_entity r' = r_entity r;
  k_tenant : ∀ x, r_tenant_id r = Some x → r_tenant_id r' = Some x;
  k_workspace : ∀ x, r_workspace_id r = Some x → r_workspace_id r' = Some x;
  k_status : lower (r_status r') = lower (r_status r) ∨ postgres_status_rank (r_status r) < postgres_status_rank (r_status r');
  k_finished : is_Some (r_finished_at r) → is_Some (r_finished_at r');
  k_fencing : r_fencing_token r ≤ r_fencing_token r' }.

Lemma kept_refl r : kept r r.
Proof. constructor; auto. lia. Qed.

Lemma kept_advanced r r' : kept r r' → advanced r r'.
Proof. by intros []. Qed.

Lemma kept_trans r1 r2 r3 : kept r1 r2 → kept r2 r3 → kept r1 r3.
Proof.
  intros H1 H2. destruct (advanced_trans _ _ _ (kept_advanced _ _ H1) (kept_advanced _ _ H2)). destruct H1, H2.
  constructor; try congruence; auto.
Qed.

Lemma coalesce_some {A} (a b : option A) x : a = Some x → coalesce a b = Some x.
Proof. by intros ->. Qed.

Lemma coalesce_is_some {A} (a b : option A) : is_Some b → is_Some (coalesce a b).
Proof. destruct a; [eauto|done]. Qed.

Lemma monotonic_status a b :
  lower (postgres_monotonic_status a b) = lower a ∨ postgres_status_rank a < postgres_status_rank (postgres_monotonic_status a b).
Proof.
  unfold postgres_monotonic_status, postgres_status_advances. destruct (_ <? _) eqn:E; [|by left].
  apply Z.ltb_lt in E. by right.
Qed.

Lemma merge_sync_kept r new : kept r (merge_sync_run r new).
Proof.
  constructor; simpl; try done; [intros x; apply coalesce_some|intros x; apply coalesce_some|apply monotonic_status|].
  destruct (postgres_status_accepts _ _); [apply coalesce_is_some|done].
Qed.

Lemma merge_trigger_kept r new : kept r (merge_trigger r new).
Proof.
  constructor; simpl; try done; [intros x; apply coalesce_some|intros x; apply coalesce_some|apply monotonic_status].
Qed.

Lemma merge_reservation_kept r new : kept r (merge_reservation r new).
Proof.
  constructor; simpl; try done; [intros x; apply coalesce_some|intros x; apply coalesce_some|apply monotonic_status].
Qed.

Lemma merge_extraction_advanced r new : advanced r (merge_extraction r new).
Proof.
  constructor; simpl; [apply monotonic_status| |done]. destruct (postgres_status_accepts _ _); [apply coalesce_is_some|done].
Qed.

Lemma merge_saved_advanced r new : advanced r (merge_saved r new).
Proof.
  constructor; simpl; [apply monotonic_status| |done]. destruct (postgres_status_accepts _ _); [apply coalesce_is_some|done].
Qed.

Lemma advanced_refl r : advanced r r.
Proof. apply kept_advanced, kept_refl. Qed.

Lemma normalize_airflow_state_in state : normalize_airflow_state state ∈ ["queued"; "running"; "success"; "failed"; "partial"; "unknown"].
Proof.
  unfold normalize_airflow_state. destruct (mem _ _) eqn:E; [|set_solver]. apply mem_true in E. set_solver.
Qed.

(** What is observed of a run whose status is that of the row. *)
Lemma advance_observed s o : s ∈ ["queued"; "running"; "success"; "failed"; "partial"; "unknown"] →
  o ∈ ["queued"; "running"; "success"; "failed"; "partial"; "unknown"] →
  let n := advance_pipeline_status (PStr s) (PStr o) in lower n = s ∨ rank_of s < rank_of (lower n).
Proof.
  intros Hs Ho.
  assert (H : forallb (λ s, forallb (λ o, let n := advance_pipeline_status (PStr s) (PStr o) in
                bool_decide (lower n = s) || (rank_of s <? rank_of (lower n)))
              ["queued"; "running"; "success"; "failed"; "partial"; "unknown"]) ["queued"; "running"; "success"; "failed"; "partial"; "unknown"]
            = true) by by vm_compute.
  rewrite forallb_elem in H. specialize (H s Hs). rewrite forallb_elem in H. specialize (H o Ho).
  apply orb_true_iff in H as [H|H]; [left; by apply bool_decide_eq_true in H|right; by apply Z.ltb_lt].
Qed.

Lemma observe_kept now status state started finished duration r :
  lower (r_status r) = lower (normalize_airflow_state status) →
  kept r (observe now (advance_pipeline_status (PStr (normalize_airflow_state status)) (PStr (observed_status state)))
            (observed_status state) started finished duration r).
Proof.
  intros Hs. pose proof (normalize_airflow_state_in status) as Hi.
  assert (Hl : lower (normalize_airflow_state status) = normalize_airflow_state status)
    by (unfold normalize_airflow_state; destruct (mem _ _); [apply lower_idem|done]).
  rewrite Hl in Hs. constructor; simpl; try done; [|intros Hf; by apply coalesce_is_some].
  unfold postgres_status_rank. rewrite Hs. destruct (advance_observed _ _ Hi (normalize_airflow_state_in state)) as [E|E]; [left|right]; done.
Qed.

Lemma close_kept now a b message r : kept r (close_stuck now a b message r).
Proof.
  constructor; simpl; try done; [apply monotonic_status|intros [x ->]; by eexists|lia].
Qed.

(** The rows stay, but the one a statement changes is kept as [kept] says. *)
Definition extends (t t' : Table) : Prop := ∀ id r, t !! id = Some r → ∃ r', t' !! id = Some r' ∧ kept r r'.

Lemma extends_refl t : extends t t.
Proof. intros id r H. exists r. split; [done|apply kept_refl]. Qed.

Lemma extends_trans t1 t2 t3 : extends t1 t2 → extends t2 t3 → extends t1 t3.
Proof.
  intros H1 H2 id r H. destruct (H1 _ _ H) as (r' & H' & K). destruct (H2 _ _ H') as (r'' & H'' & K').
  exists r''. split; [done|by eapply kept_trans].
Qed.

#[export] Instance extends_pre : PreOrder extends.
Proof. split; [exact extends_refl|exact extends_trans]. Qed.

Lemma insert_extends t id r' : (∀ r, t !! id = Some r → kept r r') → extends t (<[id := r']> t).
Proof.
  intros H j r Hj. destruct (decide (j = id)) as [->|Hne].
  - exists r'. split; [by rewrite lookup_insert_eq|by apply H].
  - exists r. rewrite lookup_insert_ne by done. split; [done|apply kept_refl].
Qed.

Lemma upsert_extends s id row merge t t' : (∀ r, kept r (merge r row)) → insert_or_update s id row merge t = Ok t' → extends t t'.
Proof.
  intros Hm. unfold insert_or_update. destruct (t !! id) as [old|] eqn:E; (destruct (_ : bool); [|done]); intros [= <-];
    apply insert_extends; intros r Hr; [|congruence]. replace r with old by congruence. apply Hm.
Qed.

Lemma update_extends s id p f t : (∀ r, p r = true → kept r (f r)) → extends t (update_where s id p f t).2.
Proof.
  intros Hf. unfold update_where, seen. destruct (t !! id) as [r|] eqn:E; [|apply extends_refl].
  destruct (omega_rls_workspace_matches s r); [|apply extends_refl]. destruct (p r) eqn:Hp; [|apply extends_refl].
  apply insert_extends. intros r' H. replace r' with r by congruence. by apply Hf.
Qed.

(** A reservation gives back a run there is, or reserves one. *)
Lemma reserve_extends now entity dag_id conf run_id cartridge entity_dag extract_all aggregate window limit tenant_id workspace_id t slot t' :
  reserve_slot uuid jsonb entity dag_id conf run_id cartridge entity_dag extract_all aggregate window limit tenant_id workspace_id now t
    = Ok (slot, t') → extends t t'.
Proof.
  unfold reserve_slot. intros H. apply bind_ok in H as (a & _ & H). apply bind_ok in H as (b & _ & H).
  apply bind_ok in H as ([tenant workspace] & _ & H). destruct (extract_all_conflict _ _ _); [done|].
  destruct (active_entity_run _ _ _); [by injection H as _ <-|]. destruct (_ <=? _); [done|].
  apply bind_ok in H as (mode & _ & H). apply bind_ok in H as (extra & _ & H). apply bind_ok in H as (t1 & H & [= _ <-]).
  eapply upsert_extends, H. intros. apply merge_reservation_kept.
Qed.

Lemma perform_extends now x t t' : keeps_identity x = true → perform now x t = Ok t' → extends t t'.
Proof.
  intros Hx. destruct x; simpl; try done.
  - unfold _upsert_sync_run, _execute_sync_run_upsert_for_scope. destruct (_sync_run_scope_values ctx) as [a b].
    intros H. repeat step_in H; eapply upsert_extends, H; intros; apply merge_sync_kept.
  - unfold record_dag_pipeline_trigger. intros H. destruct (negb (nonempty dag_run_id)); [injection H as <-; apply extends_refl|].
    repeat step_in H; eapply upsert_extends, H; intros; apply merge_trigger_kept.
  - unfold persist_observation. intros H. destruct (cast_scope uuid sc) as [[tenant workspace]|]; [|done].
    injection H as <-. apply update_extends. intros r [Hs _]%andb_true_iff. apply bool_decide_eq_true in Hs. by apply observe_kept.
  - unfold recover_update_sql. intros H. destruct (cast_scope _ _) as [[a b]|]; [|done]. cbn in H.
    destruct (jsonb reconciliation); [|done]. cbn in H. destruct (jsonb recovery); [|done]. injection H as <-.
    apply update_extends. intros. apply close_kept.
  - intros H. apply bind_ok in H as ([slot t1] & H & [= <-]). by eapply reserve_extends.
Qed.

Lemma upsert_advanced id row merge t k r :
  (∀ r, advanced r (merge r row)) → t !! k = Some r → ∃ r', upsert id row merge t !! k = Some r' ∧ advanced r r'.
Proof.
  intros Hm Hr. unfold upsert. destruct (decide (id = k)) as [->|Hne].
  - rewrite lookup_insert_eq, Hr. eexists. split; [done|apply Hm].
  - rewrite lookup_insert_ne by done. exists r. split; [done|apply advanced_refl].
Qed.

(** A write advances every row, and keeps it when it is a writer that keeps identities. *)
Lemma performed_row t x id r : t !! id = Some r →
  ∃ r', performed t x !! id = Some r' ∧ advanced r r' ∧ (keeps_identity x.2 = true → kept r r').
Proof.
  intros Hr. unfold performed. destruct (perform x.1 x.2 t) as [t'|] eqn:E.
  2: { exists r. split; [done|]. split; [apply advanced_refl|intros; apply kept_refl]. }
  destruct (keeps_identity x.2) eqn:Ek.
  { destruct (perform_extends _ _ _ _ Ek E id r Hr) as (r' & Hr' & K). exists r'. split; [done|]. by split; [apply kept_advanced|]. }
  destruct x as [now x]. cbn in *.
  assert (∃ r', t' !! id = Some r' ∧ advanced r r') as (r' & H1 & H2); [|by exists r'].
  destruct x; try discriminate Ek; cbn in E; injection E as <-.
  - unfold rename_rows. rewrite lookup_fmap, Hr. eexists. split; [done|]. case_match; [|apply advanced_refl].
    constructor; simpl; [by left|done|lia].
  - eapply upsert_advanced, Hr. intros. apply merge_extraction_advanced.
  - eapply upsert_advanced, Hr. intros. apply merge_saved_advanced.
Qed.

(** C26: Whatever the writers that are modelled write, and in whatever order - the
    console's upserts, observations, recoveries, reservations and renamings, the mirror
    of an extraction and the tool of the gateway -, a row stays; its status stays or
    goes to one of a greater rank, so that a run that is over is not opened again; it
    stays finished; and its fencing token does not go back.  When none of them renames
    an entity, mirrors an extraction or is the gateway, it also keeps its dag, its
    source, its entity and the scope it has been given.  (The slots of Airflow's
    materializations, which reopen their own rows, and the operator's scripts are not
    among them.) *)
Theorem runs_only_advance (log : list (instant * Write)) t id r : t !! id = Some r →
  ∃ r', foldl performed t log !! id = Some r' ∧ advanced r r' ∧ (forallb (λ x, keeps_identity x.2) log = true → kept r r').
Proof.
  revert t r. induction log as [|x log IH]; intros t r Hr; simpl.
  { exists r. split; [done|]. split; [apply advanced_refl|intros; apply kept_refl]. }
  destruct (performed_row t x id r Hr) as (r1 & H1 & A1 & K1). destruct (IH _ _ H1) as (r2 & H2 & A2 & K2).
  exists r2. split; [done|]. split; [by eapply advanced_trans|]. intros [E1 E2]%andb_true_iff. eapply kept_trans; auto.
Qed.
End Writes.

(** ** A refresh of rows that were selected *)

Section Refreshed.
Context {Hrepr : PyRepr}.
Context (uuid : string → option string) (jsonb_text : pydict → string) (parse_iso : string → option instant).
Context {W : Type} {Hruns : RunsWorld W}.

Abbreviation refresh := (refresh_dag_run_status uuid jsonb_text parse_iso).

(** The identifiers of a row as the driver gives them. *)
Definition selected (row : RunRow) : Prop := ∃ a b, row_tenant row = Some (AsUuid a) ∧ row_workspace row = Some (AsUuid b).

Lemma refresh_selected row user w r w' : selected row → refresh row user w = (Ok r, w') → r = row.
Proof.
  intros (a & b & Ha & Hb). unfold refresh_dag_run_status. cbv zeta. destruct (_ || negb (truthy (py_or _ _))); [by intros [= -> _]|].
  intros (result & w1 & _ & H)%io_bind_ok. destruct (_ || _) in H; [by injection H as -> _|].
  unfold handling, statement, persist_status, row_or_context in H. rewrite Ha, Hb in H.
  destruct (clock w1) as [now w2]. cbn in H. by injection H as -> _.
Qed.

Lemma refresh_all_selected rows user w rows' w' : Forall selected rows →
  refresh_all uuid jsonb_text parse_iso rows user w = (Ok rows', w') → rows' = rows.
Proof.
  intros Hs. revert w rows' w'. induction Hs as [|row rows Hr _ IH]; simpl; intros w rows' w'; [by intros [= -> _]|].
  intros (r & w1 & H1 & H)%io_bind_ok. apply io_bind_ok in H as (rest & w2 & H2 & [= <- _]).
  apply (refresh_selected _ _ _ _ _ Hr) in H1 as ->. by apply IH in H2 as ->.
Qed.

Lemma rows_of_selected user t rows : truthy (get "tenant_id" (context_scope user)) = true → rows_of uuid user t = Ok rows →
  ∀ kr, kr ∈ rows → selected (row_dict jsonb_text kr.1 kr.2).
Proof.
  intros Ht. unfold rows_of, pipeline_runs_scope_predicate. rewrite Ht. cbn [fst snd cast_value]. intros H.
  step_in H. destruct (cast_uuid uuid _) as [tenant|] eqn:Et in H; [|done]. cbn in H. step_in H. injection H as <-.
  intros [k r] [_ [Hr [_ Hc]%andb_true_iff]%andb_true_iff]%elem_of_List_filter. cbn in *.
  apply bool_decide_eq_true in Hc. apply andb_true_iff in Hr as [Hw _].
  unfold is_setting in Hw. apply andb_true_iff in Hw as [_ Hw]. apply bool_decide_eq_true in Hw.
  exists tenant. eexists. cbn. by rewrite Hc, Hw.
Qed.

(** The runs of the entities, as a synchronisation reads them for a user that has a
    tenant, are those stored, whatever Airflow says of them: the values of the row
    that scope the transaction of a refresh are [uuid]s, which [set_config] does not
    take, and the error of the driver is passed over. *)
Theorem children_as_stored cartridge run_ids user w rows w' :
  run_ids ≠ [] → truthy (get "tenant_id" (context_scope user)) = true →
  fetch_sync_child_runs uuid jsonb_text parse_iso cartridge run_ids user w = (Ok rows, w') →
  select_sync_child_runs uuid jsonb_text cartridge run_ids user (runs (clock w).2) = Ok rows.
Proof.
  intros Hn Ht. unfold fetch_sync_child_runs. destruct run_ids as [|i ids]; [done|]. cbn [is_nil].
  intros (stored & w1 & Hq & Hr)%io_bind_ok. unfold query, statement in Hq. destruct (clock w) as [now w0]. cbn.
  destruct (select_sync_child_runs _ _ _ _ _ (runs w0)) as [l|] eqn:El; [|done]. injection Hq as -> _. f_equal. symmetry.
  eapply refresh_all_selected, Hr. apply Forall_forall. intros x Hx.
  unfold select_sync_child_runs in El. destruct (rows_of uuid user (runs w0)) as [all|] eqn:Ea; [|done]. injection El as <-.
  apply list_elem_of_fmap in Hx as (kr & -> & Hin). rewrite elem_of_sort_by in Hin.
  apply elem_of_List_filter in Hin as [Hin _]. by eapply rows_of_selected.
Qed.
End Refreshed.

(** ** A day *)

Module Day.
#[local] Instance repr : PyRepr := some_repr.

Definition uuid (s : string) : option string := if Nat.eqb (slen s) 36 then Some s else None.
Definition jsonb (d : pydict) : res pydict := Ok d.
Definition tenant : string := "7a1d2c3b-0000-4000-8000-000000000001".
Definition workspace : string := "7a1d2c3b-0000-4000-8000-000000000002".
Definition user : pydict := mkdict [("tenant_id", PStr tenant); ("workspace_id", PStr workspace)].

Definition sync_run (status : string) : Write := SyncRun "r" "sap_successfactors" "full" status user (mkdict [("step", PStr status)]) None.
Definition closing (fencing : Z) : Write :=
  Recovery "e" tenant workspace "running" (Some (seconds 2)) fencing [] [] "timeout".

(** A synchronisation and a run of one of its entities, each written more than once. *)
Definition log : list (instant * Write) :=
  [(seconds 1, sync_run "running");
   (seconds 2, Trigger "sap_successfactors" "EmpJob" "sap_successfactors_extract" "e" "full" (Some "running") [] (Some tenant) (Some workspace));
   (seconds 3, sync_run "partial"); (seconds 4, sync_run "success");
   (seconds 5, closing 1); (seconds 6, closing 0); (seconds 7, closing 0);
   (seconds 8, Observation "e" (Some (tenant, workspace)) (Some "failed") (Some "success") None None None)].
(** The entity is renamed, and the tools of other services write over its run. *)
Definition evening : list (instant * Write) :=
  let row status := new_row "extract" "hubspot" "Job" "x" "full" status (seconds 9) None None [] None None in
  [(seconds 9, Renaming (λ _, true) "sap_successfactors" "EmpJob" "Job"); (seconds 10, Saving "e" (row "success"));
   (seconds 11, Extraction "e" (row "running"))].
Definition table : Table := foldl (performed uuid jsonb) ∅ log.
Definition first : Row :=
  new_row "sync_now" "sap_successfactors" "__sync_now__" "r" "full" "running" (seconds 1) None None (mkdict [("step", PStr "running")])
    (Some tenant) (Some workspace).

Example evening_written :
  (λ r, (r_status r, r_cartridge_id r, r_entity r, r_finished_at r)) <$> foldl (performed uuid jsonb) table evening !! "e"
  = Some ("failed", "hubspot", "Job", Some (seconds 6)).
Proof. by vm_compute. Qed.

Lemma runs_only_advance_witness :
  performed uuid jsonb ∅ (seconds 1, sync_run "running") !! "r" = Some first
  ∧ (∃ r', foldl (performed uuid jsonb) (performed uuid jsonb ∅ (seconds 1, sync_run "running")) (tail log) !! "r" = Some r' ∧ kept first r')
  ∧ (r_status <$> table !! "r") = Some "partial" ∧ (r_finished_at <$> table !! "r") = Some (Some (seconds 3))
  ∧ (r_status <$> table !! "e") = Some "failed" ∧ (r_fencing_token <$> table !! "e") = Some 1.
Proof.
  assert (H : performed uuid jsonb ∅ (seconds 1, sync_run "running") !! "r" = Some first) by by vm_compute.
  split; [exact H|]. split; [|by vm_compute].
  destruct (runs_only_advance uuid jsonb (tail log) _ "r" first H) as (r' & H1 & _ & H2). exists r'. split; [exact H1|].
  apply H2. reflexivity.
Defined.

(** The table and the clock; Airflow has finished every run. *)
#[local] Instance world : RunsWorld (Table * instant) := {
  runs w := w.1;
  set_runs t w := (t, w.2);
  clock w := (w.2, w);
  mcp_invoke _ _ _ w := (Ok (mkdict [("state", PStr "success"); ("found", PBool true); ("end_date", PStr "noon")]), w) }.
Definition text (_ : pydict) : string := "{}".
Definition parse_iso (_ : string) : option instant := Some (seconds 10).
Definition running : Table := foldl (performed uuid jsonb) ∅ (take 2 log).
Definition statuses (r : res (list RunRow)) : list pyval :=
  match r with Ok rows => (λ row, get "status" (cols (run row))) <$> rows | Raise _ => [] end.

Lemma children_as_stored_witness :
  ∃ rows w, fetch_sync_child_runs uuid text parse_iso "sap_successfactors" ["e"] (Some user) (running, seconds 9) = (Ok rows, w)
  ∧ select_sync_child_runs uuid text "sap_successfactors" ["e"] (Some user) running = Ok rows ∧ statuses (Ok rows) = [PStr "running"].
Proof.
  assert (Hok : is_ok (fetch_sync_child_runs uuid text parse_iso "sap_successfactors" ["e"] (Some user) (running, seconds 9)).1 = true)
    by by vm_compute.
  assert (Hs : statuses (select_sync_child_runs uuid text "sap_successfactors" ["e"] (Some user) running) = [PStr "running"]) by by vm_compute.
  destruct (fetch_sync_child_runs _ _ _ _ _ _ _) as [[rows|e] w] eqn:E; [|done]. exists rows, w. split; [reflexivity|].
  pose proof (children_as_stored uuid text parse_iso "sap_successfactors" ["e"] (Some user) (running, seconds 9) rows w ltac:(done) eq_refl E)
    as H. cbn [clock world snd runs fst] in H. split; [exact H|]. by rewrite H in Hs.
Defined.
End Day.
