(* ===== verification/SyncSafety.v ===== *)
(** What the steps of a synchronisation promise: the numbers that are shown stay within
    their bounds and are those that are kept, and a synchronisation that is a success
    has no run that failed, or goes on. *)
From S2P Require Import Prelude PyStr PyVal PyTime PyJson PyUuid SyncProgress SyncState.

Open Scope Z_scope.

(** ** The numbers of a step *)

Lemma nonzero_true z : nonzero z = true ↔ z ≠ 0.
Proof. unfold nonzero. rewrite negb_true_iff. apply Z.eqb_neq. Qed.

Lemma nonzero_false z : nonzero z = false ↔ z = 0.
Proof. unfold nonzero. rewrite negb_false_iff. apply Z.eqb_eq. Qed.

Lemma int_or_zero_int z : int_or_zero (PInt z) = Ok z.
Proof. by destruct z. Qed.

Lemma dict_put_id k v d : dict_find k d = Some v → dict_put k v d = d.
Proof.
  induction d as [|[k' v'] d IH]; simpl; [done|]. destruct (decide (k = k')) as [->|].
  - by intros [= ->].
  - intros H. by rewrite IH.
Qed.

Lemma dset_id k v d : dget k d = Some v → dset k v d = d.
Proof. apply dict_put_id. Qed.

(** A step whose numbers may be shown. *)
Record within_bounds (step : pydict) (completed total percent : Z) : Prop := mkBounds {
  wb_completed : dget "completed" step = Some (PInt completed);
  wb_total : dget "total" step = Some (PInt total);
  wb_percent : dget "percent" step = Some (PInt percent);
  wb_range : 0 ≤ completed ∧ 0 ≤ total ∧ 0 ≤ percent ≤ 100;
  wb_of_total : total ≠ 0 → completed ≤ total }.

(** What [normalize_sync_step_payload] makes of the numbers of a step of this status. *)
Definition settled_total (status : string) (total : Z) : Z :=
  let total := Z.max total 0 in
  if mem status ["success"; "skipped"; "skipped_explicit"; "failed"; "blocked"] && negb (nonzero total) then 1 else total.
Definition settled_completed (status : string) (completed total : Z) : Z :=
  let done := if mem status ["success"; "skipped"; "skipped_explicit"] && negb (nonzero (Z.max total 0)) then 1 else Z.max completed 0 in
  let total := settled_total status total in
  if nonzero total then Z.min done total else done.

Lemma settled_total_steps status t :
  (let t' := if mem status ["success"; "skipped"; "skipped_explicit"] && negb (nonzero (Z.max t 0)) then 1 else Z.max t 0 in
   if mem status ["failed"; "blocked"] && negb (nonzero t') then 1 else t') = settled_total status t.
Proof.
  assert (mem status ["success"; "skipped"; "skipped_explicit"; "failed"; "blocked"]
          = mem status ["success"; "skipped"; "skipped_explicit"] || mem status ["failed"; "blocked"]) as H.
  { apply eq_iff_eq_true. rewrite orb_true_iff, !mem_true. set_solver. }
  unfold settled_total. rewrite H. cbv zeta. generalize (mem status ["success"; "skipped"; "skipped_explicit"]) (mem status ["failed"; "blocked"]).
  intros [] []; destruct (nonzero (Z.max t 0)) eqn:E; cbn [andb orb negb]; rewrite ?E; done.
Qed.

Lemma settled_total_idem status t : settled_total status (settled_total status t) = settled_total status t.
Proof. unfold settled_total, nonzero. destruct (mem status _), (Z.max t 0 =? 0) eqn:E; simpl; repeat case_match; lia. Qed.

Lemma settled_range status c t : 0 ≤ settled_total status t ∧ 0 ≤ settled_completed status c t
  ∧ (settled_total status t ≠ 0 → settled_completed status c t ≤ settled_total status t).
Proof. unfold settled_completed, settled_total, nonzero. repeat case_match; simpl in *; try lia. Qed.

Lemma whole_settled status t : mem status ["success"; "skipped"; "skipped_explicit"] = true → settled_total status t ≠ 0.
Proof.
  intros H. unfold settled_total. assert (mem status ["success"; "skipped"; "skipped_explicit"; "failed"; "blocked"] = true) as ->
    by (apply mem_true in H; apply mem_true; set_solver).
  unfold nonzero. repeat case_match; simpl in *; lia.
Qed.

Lemma settled_completed_idem status c t :
  settled_completed status (settled_completed status c t) (settled_total status t) = settled_completed status c t.
Proof.
  pose proof (settled_range status c t) as (Ht & Hc & Hle). pose proof (whole_settled status t) as Hw.
  unfold settled_completed at 1. rewrite settled_total_idem. rewrite (Z.max_l (settled_completed _ _ _)), (Z.max_l (settled_total _ _)) by done.
  destruct (mem status _); [assert (nonzero (settled_total status t) = true) as -> by (apply nonzero_true; auto)|];
    simpl; [lia|]. destruct (nonzero _) eqn:E; [|done]. apply nonzero_true in E. lia.
Qed.

Section Steps.
Context {Hrepr : PyRepr}.
Context (recompute : list string).

Abbreviation normalize := (SyncProgress.normalize_sync_step_payload recompute).
Definition status_of (step : pydict) : string := py_str (py_or (get "status" step) (PStr "queued")).

(** The percentage of a step whose numbers are settled. *)
Definition settled_percent (status : string) (step : pydict) (completed total : Z) : res Z :=
  if nonzero total && mem status recompute then round_percent completed total
  else if has_key "percent" step && negb (is_none (get "percent" step)) then int_or_zero (get "percent" step)
  else if nonzero total then round_percent completed total
  else Ok (if mem status ["success"; "skipped"; "skipped_explicit"] then 100
           else if bool_decide (status = "running") then 50 else 0).

Lemma normalize_ok step s : normalize step = Ok s ↔
  ∃ t c p, int_or_zero (get "total" step) = Ok t ∧ int_or_zero (get "completed" step) = Ok c
    ∧ settled_percent (status_of step) step (settled_completed (status_of step) c t) (settled_total (status_of step) t) = Ok p
    ∧ s = dset "percent" (PInt (Z.max 0 (Z.min p 100))) (dset "total" (PInt (settled_total (status_of step) t))
            (dset "completed" (PInt (settled_completed (status_of step) c t)) step)).
Proof.
  unfold SyncProgress.normalize_sync_step_payload. fold (status_of step). generalize (status_of step) as status. intros status.
  destruct (int_or_zero (get "total" step)) as [t|]; [|split; [done|by intros (?&?&?&?&_)]]. cbn.
  destruct (int_or_zero (get "completed" step)) as [c|]; [|split; [done|by intros (?&?&?&_&?&_)]]. cbn.
  rewrite settled_total_steps. fold (settled_completed status c t).
  fold (settled_percent status step (settled_completed status c t) (settled_total status t)).
  destruct (settled_percent _ _ _ _) as [p|] eqn:Ep; cbn.
  - split; [intros [= <-]; by eauto 10|]. intros (t' & c' & p' & [= <-] & [= <-] & Hp & ->). congruence.
  - split; [done|]. intros (t' & c' & p' & [= <-] & [= <-] & Hp & _). congruence.
Qed.

Lemma normalize_bounds step s : normalize step = Ok s → ∃ c t p, within_bounds s c t p.
Proof.
  intros (t & c & p & _ & _ & _ & ->)%normalize_ok.
  eexists _, _, _. pose proof (settled_range (status_of step) c t) as (H1 & H2 & H3).
  split; [by rewrite !dget_dset_ne, dget_dset_eq by done|by rewrite dget_dset_ne, dget_dset_eq by done|apply dget_dset_eq| |done].
  split_and!; try done; lia.
Qed.

(** A step that has been normalized is not changed by being normalized again. *)
Lemma normalize_idem step s : normalize step = Ok s → normalize s = Ok s.
Proof.
  intros (t & c & p & _ & _ & Hp & Hs)%normalize_ok. set (T := settled_total _ _) in *. set (C := settled_completed _ _ _) in *.
  set (P := Z.max 0 (Z.min p 100)) in *.
  assert (Hst : status_of s = status_of step) by (unfold status_of; rewrite Hs, !get_dset_ne by done; done).
  assert (HP : dget "percent" s = Some (PInt P)) by by rewrite Hs, dget_dset_eq.
  assert (HT : dget "total" s = Some (PInt T)) by (rewrite Hs, dget_dset_ne by done; apply dget_dset_eq).
  assert (HC : dget "completed" s = Some (PInt C)) by (rewrite Hs, !dget_dset_ne by done; apply dget_dset_eq).
  assert (HT' : settled_total (status_of s) T = T) by (rewrite Hst; apply settled_total_idem).
  assert (HC' : settled_completed (status_of s) C T = C) by (rewrite Hst; apply settled_completed_idem).
  assert (∃ q, settled_percent (status_of s) s C T = Ok q ∧ Z.max 0 (Z.min q 100) = P) as (q & Hq & HqP).
  { revert Hp. unfold settled_percent. rewrite Hst. destruct (nonzero T && mem (status_of step) recompute); [intros ->; by exists p|].
    intros _. unfold has_key, get. rewrite HP. rewrite bool_decide_eq_true_2 by by eexists. cbn [from_option id is_none negb andb].
    rewrite int_or_zero_int. exists P. split; [done|lia]. }
  apply normalize_ok. exists T, C, q. unfold get. rewrite HT, HC. cbn [from_option id]. rewrite !int_or_zero_int, HT', HC', HqP.
  split_and!; try done. by rewrite (dset_id "completed"), (dset_id "total"), (dset_id "percent").
Qed.

Lemma mapR_normalize l k : mapR normalize l = Ok k → Forall (λ s, ∃ c t p, within_bounds s c t p) k ∧ mapR normalize k = Ok k.
Proof.
  intros H%mapR_ok. split; [eapply Forall2_Forall_r; [done|]; apply Forall_forall; intros x _ s; apply normalize_bounds|].
  apply mapR_ok. induction H; constructor; [by eapply normalize_idem|done].
Qed.
End Steps.

(** ** The steps that are kept are those that are shown *)

Section Shown.
Context {Hrepr : PyRepr}.

Lemma only_dicts_fmap (l : list pydict) : only_dicts (PDict <$> l) = l.
Proof. induction l as [|d l IH]; [done|]. exact (f_equal (cons d) IH). Qed.

(** The steps by their identifier, each under its own. *)
Definition named (base : list (string * pydict)) : Prop := ∀ k d, afind k base = Some d → py_str (get "id" d) = k.

Lemma named_aput k d base : named base → py_str (get "id" d) = k → named (aput k d base).
Proof. intros Hb Hd j e. rewrite afind_aput. destruct (decide (j = k)) as [->|]; [by intros [= <-]|apply Hb]. Qed.

Lemma steps_by_id_named steps : named (steps_by_id steps).
Proof.
  unfold steps_by_id. assert (H : named []) by done. revert H. generalize (@nil (string * pydict)) as base.
  induction steps as [|v steps IH]; simpl; intros base Hb; [done|]. apply IH. destruct v; try done. destruct (truthy _); [|done].
  by apply named_aput.
Qed.

Lemma normalize_keeps k step s : normalize_sync_step_payload step = Ok s → k ∉ ["percent"; "total"; "completed"] → get k s = get k step.
Proof. intros (t & c & p & _ & _ & _ & ->)%normalize_ok Hk. rewrite !get_dset_ne by set_solver. done. Qed.

Lemma apply_updates_named u base base' :
  named base → foldR (apply_update normalize_sync_step_payload) u base = Ok base' → named base'.
Proof.
  intros Hb H. refine (foldR_inv _ named u base base' _ Hb H). intros b [k d] b' _ Hn Hs. unfold apply_update in Hs.
  step_in Hs. injection Hs as <-. apply named_aput; [done|]. erewrite normalize_keeps by (done || set_solver). by rewrite get_dset_eq.
Qed.
(** What an update says of its step is what the step says. *)
Lemma dict_find_dupdate k (d e : pydict) : NoDup (dkeys e) → dict_find k (dupdate d e) = match dict_find k e with Some v => Some v | None => dict_find k d end.
Proof.
  unfold dupdate, dkeys. revert d. induction e as [|[j v] e IH]; simpl; intros d; [done|]. intros [Hj He]%NoDup_cons.
  rewrite IH by done. rewrite dict_find_put. destruct (decide (k = j)) as [->|]; [|done].
  destruct (dict_find j e) as [x|] eqn:E; [|done]. exfalso. apply Hj. apply dict_find_is_Some. by eexists.
Qed.

Lemma NoDup_dict_put k v d : NoDup (dkeys d) → NoDup (dkeys (dict_put k v d)).
Proof.
  unfold dkeys. induction d as [|[j w] d IH]; simpl; intros H; [by apply NoDup_singleton|]. apply NoDup_cons in H as [Hj Hd].
  destruct (decide (k = j)); simpl; apply NoDup_cons; [done|]. split; [|by apply IH].
  intros ([i x] & -> & [Hi|[-> ->]]%elem_of_put)%list_elem_of_fmap; [|done]. apply Hj. by apply (list_elem_of_fmap_2 fst _ (i, x)).
Qed.

Lemma NoDup_mkdict l : NoDup (dkeys (mkdict l)).
Proof.
  unfold mkdict. assert (H : NoDup (dkeys [])) by constructor. revert H. generalize (@nil (pykey * pyval)) as d.
  induction l as [|[k v] l IH]; simpl; intros d Hd; [done|]. by apply IH, NoDup_dict_put.
Qed.

Lemma apply_updates_other k u base base' : k ∉ u.*1 →
  foldR (apply_update normalize_sync_step_payload) u base = Ok base' → afind k base' = afind k base.
Proof.
  intros Hk H. refine (foldR_inv _ (λ b, afind k b = afind k base) u base base' _ eq_refl H). intros b [j d] b' Hj Hb Hs.
  unfold apply_update in Hs. step_in Hs. injection Hs as <-. rewrite afind_aput, decide_False; [done|]. intros <-.
  apply Hk. by apply (list_elem_of_fmap_2 fst _ (k, d)).
Qed.

(** The step a merge makes of an update. *)
Lemma merge_step cur (u1 u2 : updates) k d kept : merge_sync_steps cur (u1 ++ (k, d) :: u2) = Ok kept → k ∉ u2.*1 → k ∈ SYNC_STEP_ORDER →
  NoDup (dkeys d) → is_Some (dget "status" d) → ∃ s, s ∈ kept ∧ get "status" s = get "status" d.
Proof.
  unfold merge_sync_steps, SyncProgress.merge_sync_steps. intros H Hk Ho Hd [v Hv]. apply bind_ok in H as (steps & _ & H).
  apply bind_ok in H as (base & Hb & H). rewrite foldR_app in Hb. apply bind_ok in Hb as (b1 & _ & Hb).
  apply bind_ok in Hb as (b2 & Hs & Hb). unfold apply_update in Hs. cbn [fst snd] in Hs.
  destruct (normalize_sync_step_payload _) as [step|] eqn:En in Hs; [|done]. injection Hs as <-.
  assert (Hf : afind k base = Some step) by (by rewrite (apply_updates_other k u2 _ _ Hk Hb), afind_aput, decide_True).
  apply mapR_ok in H. assert (Hin : step ∈ omap (M:=list) (λ item, afind item base) SYNC_STEP_ORDER) by (apply list_elem_of_omap; by exists k).
  apply list_elem_of_lookup in Hin as [i Hi]. destruct (Forall2_lookup_l _ _ _ _ _ H Hi) as (s & Hs & Hn).
  exists s. split; [by eapply list_elem_of_lookup_2|]. erewrite !normalize_keeps by (done || set_solver).
  rewrite get_dset_ne by done. unfold get, dget. rewrite dict_find_dupdate by done. unfold dget in Hv. by rewrite Hv.
Qed.
(** The steps are in the order of [SYNC_STEP_ORDER], each at most once. *)
Lemma omap_named base l : named base →
  (λ d, py_str (get "id" d)) <$> omap (M:=list) (λ item, afind item base) l `sublist_of` l.
Proof.
  intros Hb. induction l as [|k l IH]; [done|]. cbn [omap list_omap]. destruct (afind k base) as [d|] eqn:E.
  - cbn [fmap list_fmap]. rewrite (Hb _ _ E). by constructor.
  - by constructor.
Qed.

Lemma merge_in_order cur u kept : merge_sync_steps cur u = Ok kept → (λ s, py_str (get "id" s)) <$> kept `sublist_of` SYNC_STEP_ORDER.
Proof.
  unfold merge_sync_steps, SyncProgress.merge_sync_steps. intros (steps & _ & (base & Hb & H%mapR_ok)%bind_ok)%bind_ok.
  apply apply_updates_named in Hb; [|apply steps_by_id_named].
  pose proof (omap_named _ SYNC_STEP_ORDER Hb) as Hs. revert H Hs. generalize (omap (M:=list) (λ item, afind item base) SYNC_STEP_ORDER).
  intros l H Hs. assert ((λ s, py_str (get "id" s)) <$> kept = (λ d, py_str (get "id" d)) <$> l) as ->; [|done].
  clear Hs. induction H as [|d s l kept Hn _ IH]; [done|]. cbn [fmap list_fmap]. rewrite IH.
  by erewrite normalize_keeps by (done || set_solver).
Qed.

Lemma merge_normalized cur u kept : merge_sync_steps cur u = Ok kept →
  Forall (λ s, ∃ c t p, within_bounds s c t p) kept ∧ mapR normalize_sync_step_payload kept = Ok kept.
Proof. intros (steps & _ & (base & _ & H)%bind_ok)%bind_ok. by eapply mapR_normalize. Qed.

(** C40: the steps that a merge keeps are, as they are kept, those that the payload of the run
    shows: in their order, each at most once, each with [0 <= completed <= total] when
    it has a total and a percentage between 0 and 100; and the progress of the run is a
    percentage between 0 and 100. *)
Theorem kept_steps_are_shown cur u kept row extra p :
  merge_sync_steps cur u = Ok kept →
  sync_public_payload row (dset "steps" (PList (PDict <$> kept)) extra) = Ok p →
  get "steps" p = PList (PDict <$> kept)
  ∧ Forall (λ s, ∃ completed total percent, within_bounds s completed total percent) kept
  ∧ (λ s, py_str (get "id" s)) <$> kept `sublist_of` SYNC_STEP_ORDER
  ∧ ∃ z, get "progress_percent" p = PInt z ∧ 0 ≤ z ≤ 100.
Proof.
  intros Hk Hp. destruct (merge_normalized _ _ _ Hk) as [Hb Hn]. pose proof (merge_in_order _ _ _ Hk) as Ho.
  unfold sync_public_payload, public_sync_payload, public_steps in Hp. rewrite get_dset_eq, only_dicts_fmap, Hn in Hp.
  cbn [mbind res_bind] in Hp. apply bind_ok in Hp as (z & _ & [= <-]).
  split; [reflexivity|]. split; [done|]. split; [done|]. exists (Z.max 0 (Z.min z 100)). split; [reflexivity|lia].
Qed.
End Shown.

(** ** A success has no run that failed *)

Section Success.
Context {Hrepr : PyRepr}.
Context (json_loads : string → res pyval).

(** The statuses that keep a synchronisation from being a success. *)
Definition hindering : list string := ["failed"; "running"; "queued"; "partial"; "blocked"; "skipped_explicit"].

Lemma success_steps kept s : sync_status_from_steps kept = "success" → s ∈ kept → step_status s ∉ hindering.
Proof.
  unfold sync_status_from_steps. intros H Hs Hh. apply (list_elem_of_fmap_2 step_status) in Hs. revert H.
  destruct (mem "failed" _) eqn:E1; [done|]. destruct (mem "running" _ || mem "queued" _) eqn:E2; [done|].
  destruct (existsb _ _) eqn:E3; [done|]. apply orb_false_iff in E2 as [E2 E4]. rewrite mem_false in E1, E2, E4.
  rewrite existsb_false_elem in E3. pose proof (E3 "partial" ltac:(set_solver)) as F1. pose proof (E3 "blocked" ltac:(set_solver)) as F2.
  pose proof (E3 "skipped_explicit" ltac:(set_solver)) as F3. rewrite mem_false in F1, F2, F3. unfold hindering in Hh.
  repeat (apply elem_of_cons in Hh as [Hh|Hh]; [by rewrite Hh in Hs|]). by apply elem_of_nil in Hh.
Qed.

Lemma success_updates cur (u : updates) kept k d : merge_sync_steps cur u = Ok kept → sync_status_from_steps kept = "success" →
  NoDup u.*1 → (k, d) ∈ u → k ∈ SYNC_STEP_ORDER → NoDup (dkeys d) → ∀ st, dget "status" d = Some (PStr st) → st ∉ hindering.
Proof.
  intros Hm Hs Hu (u1 & u2 & ->)%list_elem_of_split Hk Hd st Hst. rewrite fmap_app, fmap_cons in Hu.
  apply NoDup_app in Hu as (_ & _ & [Hu _]%NoDup_cons).
  destruct (merge_step _ _ _ _ _ _ Hm Hu Hk Hd) as (s & Hin & Hg); [by eexists|].
  pose proof (success_steps _ _ Hs Hin) as Hn. unfold step_status in Hn.
  assert (get "status" s = PStr st) as Hp by (rewrite Hg; unfold get; by rewrite Hst). by rewrite Hp, str_or_empty_str in Hn.
Qed.

Lemma connection_keys triggered child_rows bronze_ready check :
  NoDup (dkeys (sync_connection_step_update triggered child_rows bronze_ready check)).
Proof. unfold sync_connection_step_update. repeat case_match; apply NoDup_mkdict. Qed.

Lemma bronze_keys running pending n failed success partial blocked errors done total ready summary d :
  sync_bronze_step_update running pending n failed success partial blocked errors done total ready summary = Some d → NoDup (dkeys d).
Proof.
  unfold sync_bronze_step_update. intros H. repeat case_match; try done; apply (inj Some) in H as <-; first [apply NoDup_mkdict|apply NoDup_dict_put, NoDup_mkdict].
Qed.

Lemma silver_gold_keys status running total silver gold failed partial blocked gold_partial errors d :
  sync_silver_gold_step_update status running total silver gold failed partial blocked gold_partial errors = Some d → NoDup (dkeys d).
Proof. unfold sync_silver_gold_step_update. intros H. repeat case_match; try done; apply (inj Some) in H as <-; apply NoDup_mkdict. Qed.

(** What the update of each step says when its status does not hinder. *)
Lemma connection_unhindered triggered child_rows bronze_ready check :
  (∀ st, dget "status" (sync_connection_step_update triggered child_rows bronze_ready check) = Some (PStr st) → st ∉ hindering) →
  check_status check ≠ "failed" ∧ (check_status check = "unverified" → bronze_ready ≠ 0).
Proof.
  unfold sync_connection_step_update. intros H.
  destruct (bool_decide (check_status check = "failed")) eqn:E.
  { destruct (H "failed" ltac:(by destruct (nonempty _))). set_solver. }
  apply bool_decide_eq_false in E. split; [done|]. intros Hu. rewrite Hu in H. rewrite bool_decide_false in H by done.
  rewrite bool_decide_true in H by done. destruct (nonzero bronze_ready) eqn:En; [by apply nonzero_true in En|].
  destruct (H "partial" eq_refl). set_solver.
Qed.

Lemma bronze_unhindered running pending n failed success partial blocked errors done total ready summary :
  (∀ d st, sync_bronze_step_update running pending n failed success partial blocked errors done total ready summary = Some d →
     dget "status" d = Some (PStr st) → st ∉ hindering) →
  running = false ∧ failed = 0 ∧ partial = 0 ∧ blocked = 0 ∧ errors = [].
Proof.
  unfold sync_bronze_step_update. intros H. destruct running; [exfalso; eapply (H _ "running"); [done|done|set_solver]|].
  destruct (nonzero failed && _ && _); [exfalso; eapply (H _ "failed"); [done|done|set_solver]|].
  destruct (nonzero failed || nonzero partial || nonzero blocked || some_errors errors) eqn:E;
    [exfalso; eapply (H _ "partial"); [done|done|set_solver]|].
  rewrite !orb_false_iff, !nonzero_false in E. destruct E as (((-> & ->) & ->) & E). by destruct errors.
Qed.

Lemma silver_gold_unhindered bronze_status running total silver gold failed partial blocked gold_partial errors :
  (∀ d st, sync_silver_gold_step_update bronze_status running total silver gold failed partial blocked gold_partial errors = Some d →
     dget "status" d = Some (PStr st) → st ∉ hindering) →
  (gold ≠ 0 → gold_partial = false) ∧ (silver ≠ 0 → gold ≠ 0).
Proof.
  unfold sync_silver_gold_step_update. intros H.
  destruct (mem _ _ || running); [exfalso; eapply (H _ "queued"); [done|done|set_solver]|].
  destruct (nonzero gold) eqn:Eg.
  - apply nonzero_true in Eg. split; [|done]. intros _. destruct gold_partial; [|done].
    rewrite andb_false_r in H. exfalso; eapply (H _ "partial"); [done|done|set_solver].
  - apply nonzero_false in Eg. split; [done|]. destruct (nonzero silver) eqn:Es; [|by apply nonzero_false in Es].
    exfalso; eapply (H _ "partial"); [done|done|set_solver].
Qed.
Lemma count_if_zero {A} (p : A → bool) l : count_if p l = 0 → ∀ x, x ∈ l → p x = false.
Proof.
  unfold count_if. intros H x Hx. destruct (p x) eqn:E; [|done]. exfalso.
  assert (Hin : x ∈ List.filter p l) by by apply elem_of_List_filter. destruct (List.filter p l); [by apply elem_of_nil in Hin|simpl in H; lia].
Qed.

(** The statuses of the runs of the entities that are counted against it.  The other
    statuses of the ranks (status_transitions.py) are not: scheduled, up_for_retry,
    upstream_failed, cancelled and removed besides success and noop. *)
Definition counted_against : list string :=
  ["queued"; "running"; "unknown"; "failed"; "error"; "partial"; "blocked"; "skipped"; "skipped_explicit"].

Lemma quiet_rows row child_rows ids triggered errors now stale r :
  sync_child_runtime_state json_loads row child_rows ids triggered errors now stale = Ok r →
  rt_running r = false → rt_failed r = 0 → rt_partial r = 0 → rt_blocked r = 0 →
  ∀ x, x ∈ rt_progress_rows r → row_status x ∉ counted_against.
Proof.
  unfold sync_child_runtime_state. intros (g & _ & (p & _ & (es & _ & [= <-])%bind_ok)%bind_ok)%bind_ok. cbn -[row_status sync_child_status_counts].
  destruct (stale_running _ _ _ _); [intros; lia|]. cbn. intros Hr Hf Hp Hb x Hx Hu.
  apply (list_elem_of_fmap_2 row_status) in Hx. rewrite existsb_false_elem in Hr.
  pose proof (Hr _ Hx) as H1. pose proof (count_if_zero _ _ Hf _ Hx) as H2. pose proof (count_if_zero _ _ Hp _ Hx) as H3.
  pose proof (count_if_zero _ _ Hb _ Hx) as H4. rewrite !mem_false in H1, H2, H3, H4. unfold counted_against, SYNC_CHILD_BLOCKED_STATUSES in *. set_solver.
Qed.

(** What a summary of the datasets says when nothing in Gold is partial. *)
Lemma gold_not_partial rows summary m :
  sync_materialization_state rows summary = Ok m → gold_partial m = false →
  row_status summary ≠ "partial"
  ∧ ∀ n t, int_or_zero (get "materialized" summary) = Ok n → int_or_zero (get "total" summary) = Ok t → t ≠ 0 → t <= n.
Proof.
  unfold sync_materialization_state, sync_pipeline_materialization_summary.
  intros (bs & _ & (sn & _ & (gn & _ & (n & Hn & (t & Ht & [= <-])%bind_ok)%bind_ok)%bind_ok)%bind_ok)%bind_ok.
  cbn. intros [Hp Hs]%orb_false_iff. split; [by apply bool_decide_eq_false in Hs|]. intros n' t' Hn' Ht' Hz.
  rewrite Hn in Hn'. rewrite Ht in Ht'. injection Hn' as <-. injection Ht' as <-.
  apply andb_false_iff in Hp as [Hp|Hp]; [by apply nonzero_false in Hp|]. by apply Z.ltb_ge in Hp.
Qed.

(** C37: A synchronisation whose steps say that it is a success, after what its runs and
    the datasets say of them, has no error, and none of the runs its progress counts
    is queued, running, unknown, failed, in error, partial, blocked or skipped (the
    statuses scheduled, up_for_retry, upstream_failed, cancelled and removed are not
    counted against it); its connection did not fail, or was confirmed by data when it
    could not be verified; when a dataset of Silver is ready one of Gold is; and when
    one of Gold is, the summary of the refresh is not partial and, when it counts
    datasets, has them all materialized. *)
Theorem success_is_earned row child_rows ids triggered errors now stale r m errs check cur (rest : updates) kept :
  sync_child_runtime_state json_loads row child_rows ids triggered errors now stale = Ok r →
  rest.*1 = ["control_room"; "agents_intelligence"] →
  merge_sync_steps cur (sync_core_step_updates triggered child_rows r m errs check ++ rest) = Ok kept →
  sync_status_from_steps kept = "success" →
  errs = [] ∧ (∀ x, x ∈ rt_progress_rows r → row_status x ∉ counted_against)
  ∧ check_status check ≠ "failed" ∧ (check_status check = "unverified" → bronze_ready m ≠ 0)
  ∧ (silver_ready m ≠ 0 → gold_ready m ≠ 0) ∧ (gold_ready m ≠ 0 → gold_partial m = false)
  ∧ ∀ rows, let summary := rt_gold_refresh_summary r in
      sync_materialization_state rows summary = Ok m → gold_ready m ≠ 0 →
      row_status summary ≠ "partial"
      ∧ ∀ n t, int_or_zero (get "materialized" summary) = Ok n → int_or_zero (get "total" summary) = Ok t → t ≠ 0 → t <= n.
Proof.
  intros Hr Hrest Hm Hs. assert (Hk : NoDup (sync_core_step_updates triggered child_rows r m errs check ++ rest).*1).
  { rewrite fmap_app, Hrest. unfold sync_core_step_updates.
    destruct (sync_bronze_step_update _ _ _ _ _ _ _ _ _ _ _ _), (sync_silver_gold_step_update _ _ _ _ _ _ _ _ _ _);
      cbn [opt_update app fmap list_fmap fst]; refine (bool_decide_eq_true_1 _ _); by vm_compute. }
  pose proof (λ k d, success_updates _ _ _ k d Hm Hs Hk) as H. clear Hm Hs Hk Hrest.
  unfold sync_core_step_updates in H. set (br := sync_bronze_step_update _ _ _ _ _ _ _ _ _ _ _ _) in H.
  set (sg := sync_silver_gold_step_update _ _ _ _ _ _ _ _ _ _) in H.
  destruct (connection_unhindered triggered child_rows (bronze_ready m) check) as [Hc Hu].
  { apply (H "connection"); [left|left|apply connection_keys]. }
  assert (Hb : ∀ d st, br = Some d → dget "status" d = Some (PStr st) → st ∉ hindering).
  { intros d st E. apply (H "bronze"); [rewrite E; right; left|right; left|by eapply bronze_keys]. }
  assert (Hg : ∀ d st, sg = Some d → dget "status" d = Some (PStr st) → st ∉ hindering).
  { intros d st E. apply (H "silver_gold"); [|right; right; left|by eapply silver_gold_keys].
    right. apply elem_of_app. left. apply elem_of_app. right. rewrite E. left. }
  apply bronze_unhindered in Hb as (Hrun & Hf & Hp & Hbl & ->). apply silver_gold_unhindered in Hg as [Hg1 Hg2].
  split; [done|]. split; [by eapply quiet_rows|].
  do 4 (split; [done|]). intros rows summary Hst Hg. by eapply gold_not_partial; [|apply Hg1].
Qed.
End Success.

(** ** A synchronisation *)

Module Steps.
#[local] Instance repr : PyRepr := some_repr.

Definition or_nil {A} (r : res (list A)) : list A := match r with Ok l => l | Raise _ => [] end.
Definition row : SyncRow := mkSyncRow (mkdict [("run_id", PStr "r"); ("status", PStr "running")]) (Some 0) None.

(** Half of the entities were extracted. *)
Definition extracting : updates :=
  sync_start_step_updates ++ [("bronze", mkdict (step_of "Bronze" "partial" "3 OK; 0 parciales; 3 bloqueadas; 0 con error." 3 6))].
Definition kept : list pydict := or_nil (merge_sync_steps None extracting).

Lemma kept_steps_are_shown_witness :
  ∃ p, sync_public_payload row (dset "steps" (PList (PDict <$> kept)) []) = Ok p
  ∧ get "steps" p = PList (PDict <$> kept) ∧ get "progress_percent" p = PInt 10
  ∧ (λ s, get "percent" s) <$> kept = [PInt 0; PInt 50; PInt 0; PInt 0; PInt 0].
Proof.
  assert (Hm : merge_sync_steps None extracting = Ok kept) by by vm_compute.
  assert (Hp : match sync_public_payload row (dset "steps" (PList (PDict <$> kept)) []) with
               | Ok p => get "progress_percent" p = PInt 10
               | Raise _ => False
               end) by by vm_compute.
  destruct (sync_public_payload row (dset "steps" (PList (PDict <$> kept)) [])) as [p|] eqn:E; [|by destruct Hp].
  exists p. split; [reflexivity|]. destruct (kept_steps_are_shown _ _ _ _ _ _ Hm E) as [H _]. split; [exact H|].
  split; [exact Hp|]. by vm_compute.
Defined.

(** The runs of two entities, that succeeded, and what is in Gold. *)
Definition json_loads (_ : string) : res pyval := raise JSONDecodeError "".
Definition child (entity status : string) : pydict := mkdict [("entity", PStr entity); ("status", PStr status)].
Definition children : list pydict := [child "EmpJob" "success"; child "User" "success"].
Definition runtime (children : list pydict) : res ChildRuntime :=
  sync_child_runtime_state json_loads row children [] [] [] (seconds 60) (seconds 3600).
Definition gold : Materialization := mkMaterialization [] 2 [] 2 [] 2 2 false.
Definition done (k label : string) : string * pydict := (k, mkdict (step_of label "success" "" 1 1)).
Definition rest : updates := [done "control_room" "Control Room"; done "agents_intelligence" "Agentes/IA"].
Definition ended (children : list pydict) (m : Materialization) : list pydict :=
  match runtime children with
  | Ok r => or_nil (merge_sync_steps (Some (PDict <$> kept)) (sync_core_step_updates [PNone; PNone] children r m [] None ++ rest))
  | Raise _ => []
  end.

(** A run that was cancelled or waits to be tried again hinders nothing, and one
    dataset of Gold is enough for three of Silver when no refresh is summarised. *)
Example cancelled_is_success :
  (λ status, sync_status_from_steps (ended (child "Position" status :: children) gold))
    <$> ["cancelled"; "upstream_failed"; "up_for_retry"; "scheduled"; "removed"]
  = ["success"; "success"; "success"; "success"; "success"].
Proof. by vm_compute. Qed.

Example one_gold_is_enough :
  sync_status_from_steps (ended children (mkMaterialization [] 3 [] 3 [] 1 3 false)) = "success".
Proof. by vm_compute. Qed.

Lemma success_is_earned_witness :
  sync_status_from_steps (ended children gold) = "success"
  ∧ (∃ r, runtime children = Ok r ∧ ∀ x, x ∈ rt_progress_rows r → row_status x ∉ counted_against)
  ∧ sync_status_from_steps (ended (child "Position" "error" :: children) gold) = "partial".
Proof.
  split; [by vm_compute|]. split; [|by vm_compute].
  assert (Hm : match runtime children with
               | Ok r => merge_sync_steps (Some (PDict <$> kept)) (sync_core_step_updates [PNone; PNone] children r gold [] None ++ rest)
                         = Ok (ended children gold)
               | Raise _ => False
               end) by by vm_compute.
  destruct (runtime children) as [r|] eqn:E; [|done]. exists r. split; [reflexivity|].
  exact (proj1 (proj2 (success_is_earned json_loads row children [] [] [] (seconds 60) (seconds 3600) r gold [] None _ rest _
           E eq_refl Hm ltac:(by vm_compute)))).
Defined.
End Steps.
