(* ===== verification/StuckRuns.v ===== *)
(** The recovery of runs that are stuck (console/app/domains/pipeline/
    stuck_run_recovery.py and stuck_run_recovery_service.py): what Airflow is asked of a
    run that is pending, the verdict on it, and what is done of the verdicts: a run is
    closed, when Airflow has stopped it if it has to be, or its final state is taken.

    Observations follow one another here; the code makes them concurrently, and an
    observation that does not end in time is one that failed.  The scan of the runs
    Airflow keeps of rows that are closed is not modelled. *)
From S2P Require Import Prelude PyStr PyVal PyTime PyJson PyIo PyUuid SyncProgress SyncState PipelineRuns.

Open Scope Z_scope.

(** ** Verdicts *)

Definition DEFAULT_THRESHOLD : Z := 15 * 60 * 1000000.
Definition DEFAULT_MISSING_GRACE : Z := 2 * 60 * 1000000.
Definition LEASE_GOVERNED_DAG_IDS : list string := ["dataset_refresh_chain"].
Definition CANDIDATE_STATUSES : list string := ["queued"; "running"; "unknown"; "scheduled"; "up_for_retry"].

Inductive classification :=
  | NOT_APPLICABLE | TOO_RECENT | LIVE | WAITING_TURN | AIRFLOW_TERMINAL | MISSING_IN_AIRFLOW | STALLED_QUEUED_PAUSED_DAG
  | STALLED_QUEUED_NO_PROGRESS | STALLED_RUNNING_NO_TASKS | UNVERIFIABLE | AIRFLOW_ORPHAN.
#[export] Instance classification_eq_dec : EqDecision classification.
Proof. solve_decision. Defined.

Inductive recovery_action := ACTION_MARK_FAILED | ACTION_SYNC_TERMINAL | ACTION_NONE | ACTION_NEUTRALIZE_AIRFLOW.
#[export] Instance recovery_action_eq_dec : EqDecision recovery_action.
Proof. solve_decision. Defined.

(** The texts of the classifications. *)
Definition class_text (c : classification) : string :=
  match c with
  | NOT_APPLICABLE => "not_applicable" | TOO_RECENT => "too_recent" | LIVE => "live" | WAITING_TURN => "waiting_turn"
  | AIRFLOW_TERMINAL => "airflow_terminal" | MISSING_IN_AIRFLOW => "missing_in_airflow"
  | STALLED_QUEUED_PAUSED_DAG => "stalled_queued_paused_dag" | STALLED_QUEUED_NO_PROGRESS => "stalled_queued_no_progress"
  | STALLED_RUNNING_NO_TASKS => "stalled_running_no_tasks" | UNVERIFIABLE => "unverifiable" | AIRFLOW_ORPHAN => "airflow_orphan"
  end.

Definition STALLED_CLASSES : list classification := [STALLED_QUEUED_PAUSED_DAG; STALLED_QUEUED_NO_PROGRESS; STALLED_RUNNING_NO_TASKS].
Definition MARK_FAILED_CLASSES : list classification := MISSING_IN_AIRFLOW :: STALLED_CLASSES.
Definition IN_PROGRESS_CLASSES : list classification := [TOO_RECENT; LIVE; WAITING_TURN].
Definition ACTIVE_TASK_STATES : list string :=
  ["running"; "queued"; "scheduled"; "up_for_retry"; "up_for_reschedule"; "deferred"; "restarting"].
Definition AIRFLOW_TERMINAL_RUN_STATES : list string := ["success"; "failed"].
Definition DEFAULT_ALLOWED_CLASSES : list classification := AIRFLOW_TERMINAL :: AIRFLOW_ORPHAN :: MARK_FAILED_CLASSES.
Definition MAX_CANDIDATES : nat := 200.

(** What Airflow says of a run; [None] is what it does not say. *)
Record AirflowRunTruth := mkTruth {
  found : option bool; state : option string; queued_at : option instant; start_date : option instant; end_date : option instant;
  active_tasks : option Z; last_task_activity_at : option instant; dag_found : option bool; dag_paused : option bool;
  schedule_kind : option string; sibling_running : option bool; scheduler_healthy : option bool; error : option string }.

Definition truth_error (e : string) : AirflowRunTruth :=
  mkTruth None None None None None None None None None None None None (Some e).

(** [v_reason] is the key of the sentence in [_REASONS_ES]. *)
Record RunVerdict := mkVerdict { v_class : classification; v_action : recovery_action; v_neutralize : bool; v_certain : bool; v_reason : string }.
Definition _verdict (c : classification) : RunVerdict := mkVerdict c ACTION_NONE false true (class_text c).
Definition not_applicable (reason_key : string) : RunVerdict := mkVerdict NOT_APPLICABLE ACTION_NONE false true reason_key.
Definition uncertain (reason_key : string) : RunVerdict := mkVerdict UNVERIFIABLE ACTION_NONE false false reason_key.
Definition mark_failed (c : classification) (neutralize : bool) : RunVerdict :=
  mkVerdict c ACTION_MARK_FAILED neutralize true (class_text c).

(** A row of the query of the candidates: its columns, the lease and the token; the
    identifiers of its scope are read as texts. *)
Record Candidate := mkCandidate { c_row : SyncRow; c_lease_expires_at : option instant; c_fencing_token : Z;
                                  c_tenant : option string; c_workspace : option string }.

Section Verdicts.
Context {Hrepr : PyRepr}.
Context (json_loads : string → res pyval).

(** [bool(pipeline_run_extra(row).get("reserved"))]. *)
Definition pipeline_run_extra (row : pydict) : res pydict := sync_extra_from_row json_loads row.
Definition _is_reserved (row : pydict) : res bool := extra ← pipeline_run_extra row; Ok (truthy (get "reserved" extra)).

Definition pre_airflow_verdict (row : Candidate) : option RunVerdict :=
  let c := cols (c_row row) in
  let text k := str_or_empty (get k c) in
  if mem (normalize_pipeline_status (get "status" c)) PIPELINE_TERMINAL_STATUSES then Some (not_applicable "terminal")
  else if bool_decide (text "dag_id" = SYNC_NOW_DAG_ID) || bool_decide (text "entity" = SYNC_NOW_ENTITY)
  then Some (not_applicable "sync_now")
  else if mem (text "dag_id") LEASE_GOVERNED_DAG_IDS || negb (bool_decide (c_lease_expires_at row = None))
  then Some (not_applicable "lease")
  else if negb (nonempty (strip (text "airflow_dag_run_id"))) || negb (nonempty (strip (text "dag_id")))
  then Some (not_applicable "no_airflow_run")
  else None.

(** [moment is not None and now - moment < limit]. *)
Definition younger (now : instant) (moment : option instant) (limit : Z) : bool :=
  match moment with Some m => now - m <? limit | None => false end.
Definition first_of (a b : option instant) : option instant := coalesce a b.

(** [None] is "scheduler_unhealthy". *)
Definition running_liveness (truth : AirflowRunTruth) (now : instant) (threshold : Z) (fallback_start : option instant) :
    option classification :=
  match active_tasks truth with
  | None => Some UNVERIFIABLE
  | Some n =>
      if 0 <? n then Some LIVE
      else if younger now (first_of (last_task_activity_at truth) (first_of (start_date truth) fallback_start)) threshold then Some LIVE
      else if bool_decide (dag_paused truth = Some true) then Some STALLED_RUNNING_NO_TASKS
      else if negb (bool_decide (scheduler_healthy truth = Some true)) then None
      else Some STALLED_RUNNING_NO_TASKS
  end.

(** Of a run Airflow has, that is queued and older than the threshold. *)
Definition queued_verdict (truth : AirflowRunTruth) (now : instant) (threshold : Z) (started : option instant) : RunVerdict :=
  if bool_decide (dag_paused truth = Some true) then mark_failed STALLED_QUEUED_PAUSED_DAG true
  else if negb (bool_decide (dag_paused truth = Some false)) then uncertain "unverifiable"
  else if negb (bool_decide (scheduler_healthy truth = Some true)) then uncertain "scheduler_unhealthy"
  else if bool_decide (sibling_running truth = Some true) then _verdict WAITING_TURN
  else if negb (bool_decide (sibling_running truth = Some false)) then uncertain "unverifiable"
  else if younger now (first_of (queued_at truth) started) threshold then _verdict TOO_RECENT
  else mark_failed STALLED_QUEUED_NO_PROGRESS true.

Definition classify_stuck_run (row : Candidate) (truth : option AirflowRunTruth) (now : instant) (threshold missing_grace : Z) :
    res RunVerdict :=
  let started := started_at (c_row row) in
  match pre_airflow_verdict row, truth with
  | Some early, _ => Ok early
  | None, None => Ok (uncertain "unverifiable")
  | None, Some truth =>
      let state := lower (strip (default "" (state truth))) in
      if nonempty (default "" (error truth)) then Ok (uncertain "unverifiable")
      else if bool_decide (found truth = Some true) && mem state AIRFLOW_TERMINAL_RUN_STATES
      then Ok (mkVerdict AIRFLOW_TERMINAL ACTION_SYNC_TERMINAL false true "airflow_terminal")
      else if bool_decide (found truth = Some false) then
        if negb (bool_decide (dag_found truth = Some true)) then Ok (uncertain "dag_missing")
        else
          reserved ← _is_reserved (cols (c_row row));
          if younger now started (if reserved : bool then missing_grace else threshold) then Ok (_verdict TOO_RECENT)
          else Ok (mark_failed MISSING_IN_AIRFLOW false)
      else if negb (bool_decide (found truth = Some true)) then Ok (uncertain "unverifiable")
      else if younger now started threshold then Ok (_verdict TOO_RECENT)
      else if bool_decide (state = "running") then
        Ok (match running_liveness truth now threshold started with
            | Some LIVE => _verdict LIVE
            | None => uncertain "scheduler_unhealthy"
            | Some STALLED_RUNNING_NO_TASKS => mark_failed STALLED_RUNNING_NO_TASKS true
            | Some _ => uncertain "unverifiable"
            end)
      else if bool_decide (state = "queued") then Ok (queued_verdict truth now threshold started)
      else Ok (uncertain "unverifiable")
  end.
End Verdicts.

(** ** What Airflow is asked *)

Section Recovery.
Context {Hrepr : PyRepr}.
Context (json_loads : string → res pyval) (uuid : string → option string) (jsonb : pydict → res pydict).
Context (jsonb_text : pydict → string) (sha256_hex : string → string) (json_dumps : pyval → string).
Context (parse_iso : string → option instant) (class_name : exn → string).
Context {W : Type} {Hruns : RunsWorld W}.

(** A time without a zone is in UTC. *)
Definition as_utc_datetime (v : pyval) : option instant :=
  match v with PNone | PStr "" => None | v => parse_iso (py_str v) end.

Definition _describe_runs (payload : pydict) : res (list pydict) :=
  runs ← py_iter (py_or (get "runs" payload) (PList [])); Ok (only_dicts runs).

Definition _foreign_running (payload : pydict) : Z :=
  match get "foreign" payload with
  | PDict foreign => match int_or_zero (get "running" foreign) with Ok n => Z.max 0 n | Raise _ => 0 end
  | _ => 0
  end.

Definition _latest_task_activity (tasks : list pydict) : option instant :=
  let moments := omap (M:=list) (λ m, m) (concat ((λ task, [as_utc_datetime (get "start_date" task); as_utc_datetime (get "end_date" task)]) <$> tasks)) in
  match moments with [] => None | m :: ms => Some (foldl Z.max m ms) end.

Definition opt_truthy (v : pyval) : option bool := if is_none v then None else Some (truthy v).

Definition _describe (dag_id : string) : io W pydict :=
  handling (mcp_invoke "infra" "airflow_describe_dag" (mkdict [("dag_id", PStr dag_id)]))
    (λ e, mret (mkdict [("error", PStr (class_name e))])).

Definition _task_activity (dag_id dag_run_id : string) : io W (option Z * option instant) :=
  payload ← trying (mcp_invoke "infra" "airflow_list_task_instances" (mkdict [("dag_id", PStr dag_id); ("dag_run_id", PStr dag_run_id)]));
  match payload with
  | Raise _ => mret (None, None)
  | Ok payload =>
      if truthy (get "error" payload) then mret (None, None)
      else
        tasks ← of_res (py_iter (py_or (get "tasks" payload) (PList [])));
        let tasks := only_dicts tasks in
        mret (Some (count_if (λ task, mem (lower (str_or_empty (get "state" task))) ACTIVE_TASK_STATES) tasks),
              _latest_task_activity tasks)
  end.

(** What is known of the DAGs and of a run. *)
Definition truth_of (dag status : pydict) (dag_run_id : string) (state : string) (is_found : bool)
    (activity : option Z * option instant) : res AirflowRunTruth :=
  let dag_ok := negb (truthy (get "error" dag)) in
  own_runs ← (if dag_ok then _describe_runs dag else Ok []);
  let is_this run := eq_str (get "dag_run_id" run) dag_run_id in
  let listed := default [] (List.find is_this own_runs) in
  let sibling := (0 <? _foreign_running dag)
                 || existsb (λ run, bool_decide (lower (str_or_empty (get "state" run)) = "running") && negb (is_this run)) own_runs in
  Ok {| found := Some is_found; state := if nonempty state then Some state else None;
        queued_at := as_utc_datetime (get "queued_at" listed); start_date := as_utc_datetime (get "start_date" status);
        end_date := as_utc_datetime (get "end_date" status); active_tasks := activity.1; last_task_activity_at := activity.2;
        dag_found := if dag_ok then Some (truthy (get "found" dag)) else None;
        dag_paused := if dag_ok then opt_truthy (get "is_paused" dag) else None;
        schedule_kind := if dag_ok then Some (py_str (get "schedule_kind" dag)) else None;
        sibling_running := if dag_ok then (if negb sibling && truthy (get "running_truncated" dag) then None else Some sibling) else None;
        scheduler_healthy := if dag_ok then opt_truthy (get "scheduler_healthy" dag) else None; error := None |}.

(** The DAGs that have been described. *)
Abbreviation described := (list (string * pydict)).
Definition describe_once (dag_id : string) (known : described) : io W (pydict * described) :=
  match afind dag_id known with
  | Some dag => mret (dag, known)
  | None => dag ← _describe dag_id; mret (dag, aput dag_id dag known)
  end.

Definition observe_run (dag : pydict) (dag_id dag_run_id : string) : io W AirflowRunTruth :=
  status ← trying (mcp_invoke "infra" "airflow_get_run_status" (mkdict [("dag_id", PStr dag_id); ("dag_run_id", PStr dag_run_id)]));
  match status with
  | Raise e => mret (truth_error (class_name e))
  | Ok status =>
      if truthy (get "error" status) then mret (truth_error "airflow_status_unavailable")
      else
        let state := lower (strip (str_or_empty (get "state" status))) in
        let is_found := match opt_truthy (get "found" status) with
                        | Some b => b
                        | None => nonempty state && negb (bool_decide (state = "not_found"))
                        end in
        activity ← (if is_found && bool_decide (state = "running") then _task_activity dag_id dag_run_id else mret (None, None));
        of_res (truth_of dag status dag_run_id state is_found activity)
  end.

Definition _observe (row : Candidate) (known : described) : io W (AirflowRunTruth * described) :=
  let dag_id := str_or_empty (get "dag_id" (cols (c_row row))) in
  let dag_run_id := str_or_empty (get "airflow_dag_run_id" (cols (c_row row))) in
  dk ← describe_once dag_id known;
  truth ← observe_run dk.1 dag_id dag_run_id;
  mret (truth, dk.2).

Fixpoint observe_airflow_truth (rows : list Candidate) (known : described) : io W (list (string * AirflowRunTruth)) :=
  match rows with
  | [] => mret []
  | row :: rows =>
      tk ← _observe row known;
      rest ← observe_airflow_truth rows tk.2;
      mret ((str_or_empty (get "run_id" (cols (c_row row))), tk.1) :: rest)
  end.
(** ** Who is a candidate *)

Definition _scope (user : option pydict) : res (string * string) :=
  let data := default [] user in
  let tenant_id := strip (str_or_empty (py_or (get "active_tenant_id" data) (get "tenant_id" data))) in
  let workspace_id := strip (str_or_empty (py_or (get "active_workspace_id" data) (get "workspace_id" data))) in
  if negb (nonempty tenant_id) || negb (nonempty workspace_id) then raise (HTTPException 403) "active tenant/workspace is required"
  else Ok (tenant_id, workspace_id).

(** What narrows the query: each filter is absent, or applies. *)
Record Filters := mkFilters {
  f_cartridge : option string; f_visible : option (list string); f_dag_ids : list string; f_exclude : list string;
  f_max_age_seconds : option Z }.
Definition passes (f : Filters) (now : instant) (id : string) (r : Row) : bool :=
  match f_cartridge f with Some c => bool_decide (r_cartridge_id r = c) | None => true end
  && match f_visible f with Some l => mem (r_cartridge_id r) l | None => true end
  && (is_nil (f_dag_ids f) || mem (r_dag_id r) (f_dag_ids f))
  && negb (mem id (f_exclude f))
  && match f_max_age_seconds f with
     | Some age => match r_started_at r with Some started => now - age * 1000000 <? started | None => false end
     | None => true
     end.

Definition candidate (id : string) (r : Row) : Candidate :=
  mkCandidate (mkSyncRow (columns jsonb_text id r) (r_started_at r) (r_finished_at r)) (r_lease_expires_at r) (r_fencing_token r)
    (r_tenant_id r) (r_workspace_id r).

Definition is_candidate (f : Filters) (now : instant) (s : Session) (tenant workspace : option string) (kr : string * Row) : bool :=
  omega_rls_workspace_matches s kr.2 && bool_decide (r_tenant_id kr.2 = tenant) && bool_decide (r_workspace_id kr.2 = workspace)
  && mem (lower (r_status kr.2)) CANDIDATE_STATUSES && passes f now kr.1 kr.2.
(** [ORDER BY started_at ASC NULLS FIRST, run_id ASC]. *)
Definition older_first (a b : string * Row) : bool :=
  match r_started_at a.2, r_started_at b.2 with
  | Some x, Some y => (x <? y) || ((x =? y) && String.leb a.1 b.1)
  | None, None => String.leb a.1 b.1
  | None, Some _ => true
  | Some _, None => false
  end.

Definition load_recovery_candidates (f : Filters) (limit : nat) (tenant_id workspace_id : string) (now : instant) (t : Table) :
    res (list Candidate) :=
  '(tenant, workspace) ← cast_scope uuid (Some (tenant_id, workspace_id));
  Ok ((λ kr : string * Row, candidate kr.1 kr.2)
        <$> take (S limit) (sort_by older_first
              (List.filter (is_candidate f now (mkSession tenant_id workspace_id) tenant workspace) (map_to_list t)))).

(** ** The plan *)

Definition action_text (a : recovery_action) : string :=
  match a with
  | ACTION_MARK_FAILED => "mark_failed" | ACTION_SYNC_TERMINAL => "sync_terminal" | ACTION_NONE => "none"
  | ACTION_NEUTRALIZE_AIRFLOW => "neutralize_airflow"
  end.

Definition _planned_action (verdict : RunVerdict) (allowed_classes : list classification) (neutralize_airflow : bool) :
    recovery_action * bool :=
  if bool_decide (v_action verdict = ACTION_NONE) || negb (mem (v_class verdict) allowed_classes) then (ACTION_NONE, false)
  else if v_neutralize verdict && negb neutralize_airflow then (ACTION_NONE, false)
  else (v_action verdict, v_neutralize verdict).

Record Planned := mkPlanned {
  p_row : Candidate; p_truth : option AirflowRunTruth; p_verdict : RunVerdict; p_action : recovery_action; p_neutralize : bool }.
Definition run_id_of (row : Candidate) : string := str_or_empty (get "run_id" (cols (c_row row))).

Definition plan_one (truths : list (string * AirflowRunTruth)) (now : instant) (threshold : Z) (allowed : list classification)
    (neutralize_airflow : bool) (row : Candidate) : res Planned :=
  let truth := afind (run_id_of row) truths in
  verdict ← classify_stuck_run json_loads row truth now threshold DEFAULT_MISSING_GRACE;
  let '(action, neutralize) := _planned_action verdict allowed neutralize_airflow in
  Ok (mkPlanned row truth verdict action neutralize).

Definition plan_entry (p : Planned) : pydict :=
  mkdict [("run_id", PStr (run_id_of (p_row p)));
          ("status", PStr (normalize_pipeline_status (get "status" (cols (c_row (p_row p))))));
          ("started_at", opt_time (started_at (c_row (p_row p)))); ("fencing_token", PInt (c_fencing_token (p_row p)));
          ("classification", PStr (class_text (v_class (p_verdict p)))); ("action", PStr (action_text (p_action p)))].
(** SHA-256 of the canonical text of what is to be done. *)
Definition plan_digest (planned : list Planned) : string :=
  let actionable := List.filter (λ p, negb (bool_decide (p_action p = ACTION_NONE))) planned in
  sha256_hex (utf8 (json_dumps (PList (PDict <$> (plan_entry <$> sort_by (λ p q, String.leb (run_id_of (p_row p)) (run_id_of (p_row q))) actionable))))).

Abbreviation counters := (list (string * Z)).
Definition bump (k : string) (c : counters) : counters := aput k (default 0 (afind k c) + 1) c.
Definition _count_template : counters :=
  (λ k, (k, 0)) <$> ["candidates"; "recoverable"; "recovered"; "synced_terminal"; "live"; "unverifiable"; "not_applicable"; "conflicts";
                     "airflow_neutralized"; "airflow_neutralize_failed"].
Definition count_planned (c : counters) (p : Planned) : counters :=
  let cls := v_class (p_verdict p) in
  let c := if mem cls IN_PROGRESS_CLASSES then bump "live" c
           else if bool_decide (cls = UNVERIFIABLE) then bump "unverifiable" c
           else if bool_decide (cls = NOT_APPLICABLE) then bump "not_applicable" c else c in
  if bool_decide (p_action p = ACTION_NONE) then c else bump "recoverable" c.

(** ** What is done of it *)

Inductive stopping := stop_ok | stop_gone | stop_state_changed | stop_failed.
#[export] Instance stopping_eq_dec : EqDecision stopping.
Proof. solve_decision. Defined.

(** The run is stopped in Airflow first. *)
Definition _neutralize (row : Candidate) (truth : option AirflowRunTruth) : io W stopping :=
  let state := lower (default "" (truth ≫= state)) in
  if negb (mem state ["queued"; "running"]) then mret stop_failed
  else
    result ← trying (mcp_invoke "infra" "airflow_mark_dag_run_failed" (mkdict
      [("dag_id", PStr (str_or_empty (get "dag_id" (cols (c_row row)))));
       ("dag_run_id", PStr (str_or_empty (get "airflow_dag_run_id" (cols (c_row row))))); ("expected_states", strs [state])]));
    mret (match result with
          | Raise _ => stop_failed
          | Ok result =>
              if truthy (get "error" result) then stop_failed
              else if truthy (get "marked" result) then stop_ok
              else match get "found" result with
                   | PBool false => stop_gone
                   | _ => if eq_str (get "reason" result) "state_changed" then stop_state_changed else stop_failed
                   end
          end).

(** The audit, which may refuse. *)
Context (record_event : pydict → io W unit).

Definition opt_state (truth : option AirflowRunTruth) : pyval := opt_str (truth ≫= state).
Definition reconciliation_of (verdict : RunVerdict) (truth : option AirflowRunTruth) (actor : string) (neutralized : bool) : pydict :=
  mkdict [("reason", PStr (class_text (v_class verdict))); ("actor", PStr actor); ("source", PStr "console.stuck_run_recovery");
          ("airflow_state", opt_state truth); ("airflow_neutralized", PBool neutralized)].
Definition recovery_of (verdict : RunVerdict) (truth : option AirflowRunTruth) (actor : string) : pydict :=
  mkdict [("reason", PStr (class_text (v_class verdict))); ("airflow_state", opt_state truth);
          ("dag_paused", match truth ≫= dag_paused with Some b => PBool b | None => PNone end); ("actor", PStr actor)].
Definition event_of (row : Candidate) (verdict : RunVerdict) (truth : option AirflowRunTruth) (actor : string) (neutralized : bool)
    (digest : string) : pydict :=
  let text k := PStr (str_or_empty (get k (cols (c_row row)))) in
  mkdict [("action", PStr "pipeline_run.recover_stuck"); ("resource_type", PStr "pipeline_run"); ("resource_id", text "run_id");
          ("status", PStr "success");
          ("metadata", PDict (mkdict
             [("severity", PStr "critical"); ("actor", PStr actor); ("tenant_id", opt_str (c_tenant row));
              ("workspace_id", opt_str (c_workspace row)); ("dag_id", text "dag_id"); ("cartridge_id", text "cartridge_id");
              ("entity", text "entity"); ("classification", PStr (class_text (v_class verdict)));
              ("previous_status", PStr (normalize_pipeline_status (get "status" (cols (c_row row)))));
              ("expected_fencing_token", PInt (c_fencing_token row)); ("airflow_state", opt_state truth);
              ("airflow_neutralized", PBool neutralized); ("plan_digest", PStr digest)]))].

(** The transaction: the row is closed if it is as it was read, and the audit says so;
    when the audit fails the row, which is locked meanwhile, is as it was. *)
Definition rolled_back (run_id : string) (before : Table) (t : Table) : Table :=
  match before !! run_id with Some old => <[run_id := old]> t | None => t end.
Definition _apply_mark_failed (row : Candidate) (verdict : RunVerdict) (truth : option AirflowRunTruth) (actor : string)
    (neutralized : bool) (digest : string) : io W (option Row) := λ w,
  let '(now, w) := clock w in
  match recover_update_sql uuid jsonb now (run_id_of row) (default "None" (c_tenant row)) (default "None" (c_workspace row))
          (normalize_pipeline_status (get "status" (cols (c_row row)))) (started_at (c_row row)) (c_fencing_token row)
          (reconciliation_of verdict truth actor neutralized) (recovery_of verdict truth actor) RECOVERY_MESSAGE (runs w) with
  | Raise e => (Raise e, w)
  | Ok (None, _) => (Ok None, w)
  | Ok (Some r, t) =>
      match record_event (event_of row verdict truth actor neutralized digest) (set_runs t w) with
      | (Ok _, w') => (Ok (Some r), w')
      | (Raise e, w') => (Raise e, set_runs (rolled_back (run_id_of row) (runs w) (runs w')) w')
      end
  end.

(** A planned run, with what is counted of it and the status it ends with. *)
Definition close_run (p : Planned) (actor digest : string) (neutralized : bool) (c : counters) : io W (counters * option string) :=
  updated ← trying (_apply_mark_failed (p_row p) (p_verdict p) (p_truth p) actor neutralized digest);
  mret (match updated with
        | Ok (Some r) => (bump "recovered" c, Some (normalize_pipeline_status (PStr (r_status r))))
        | _ => (bump "conflicts" c, None)
        end).

Definition as_run_row (row : Candidate) : RunRow :=
  mkRunRow (c_row row) (AsText <$> c_tenant row) (AsText <$> c_workspace row).

Definition sync_terminal (p : Planned) (user : option pydict) (c : counters) : io W (counters * option string) :=
  refreshed ← trying (refresh_dag_run_status uuid jsonb_text parse_iso (as_run_row (p_row p)) user);
  mret (match refreshed with
        | Raise _ => (bump "conflicts" c, None)
        | Ok refreshed =>
            let status_after := normalize_pipeline_status (get "status" (cols (run refreshed))) in
            if mem status_after PIPELINE_TERMINAL_STATUSES then (bump "synced_terminal" c, Some status_after)
            else (bump "conflicts" c, None)
        end).

Definition apply_planned (user : option pydict) (actor digest : string) (c : counters) (p : Planned) : io W (counters * option string) :=
  match p_action p with
  | ACTION_NONE | ACTION_NEUTRALIZE_AIRFLOW => mret (c, None)
  | ACTION_SYNC_TERMINAL => sync_terminal p user c
  | ACTION_MARK_FAILED =>
      if negb (p_neutralize p) then close_run p actor digest false c
      else
        outcome ← _neutralize (p_row p) (p_truth p);
        match outcome with
        | stop_ok => close_run p actor digest true (bump "airflow_neutralized" c)
        | stop_gone => close_run p actor digest false c
        | stop_state_changed => mret (bump "conflicts" c, None)
        | stop_failed => mret (bump "airflow_neutralize_failed" c, None)
        end
  end.

Fixpoint apply_plan (user : option pydict) (actor digest : string) (c : counters) (planned : list Planned) :
    io W (counters * list (option string)) :=
  match planned with
  | [] => mret (c, [])
  | p :: planned =>
      ca ← apply_planned user actor digest c p;
      rest ← apply_plan user actor digest ca.1 planned;
      mret (rest.1, ca.2 :: rest.2)
  end.

(** What a recovery reports: its runs with their plan and the status they end with. *)
Record RecoveryReport := mkReport {
  rep_applied : bool; rep_threshold_minutes : Z; rep_digest : string; rep_counts : counters;
  rep_runs : list (Planned * option string); rep_truncated : bool }.

(** [mode] apply, or a dry run. *)
Definition recover_stuck_runs (user : option pydict) (apply : bool) (actor : string) (filters : Filters) (threshold : Z)
    (allowed_classes : list classification) (neutralize_airflow : bool) (expected_plan_digest : option string) (now : option instant)
    (max_candidates : Z) : io W RecoveryReport :=
  '(tenant_id, workspace_id) ← of_res (_scope user);
  let allowed := if is_nil allowed_classes then DEFAULT_ALLOWED_CLASSES else allowed_classes in
  let limit := Z.to_nat (Z.max 1 (Z.min max_candidates (Z.of_nat MAX_CANDIDATES))) in
  checked_at ← (match now with Some now => mret now | None => utc_now end);
  loaded ← query (load_recovery_candidates filters limit tenant_id workspace_id);
  let truncated := Nat.ltb limit (length loaded) in
  let rows := take limit loaded in
  truths ← observe_airflow_truth (List.filter (λ row, bool_decide (pre_airflow_verdict row = None)) rows) [];
  planned ← of_res (mapR (plan_one truths checked_at threshold allowed neutralize_airflow) rows);
  let counts := aput "candidates" (Z.of_nat (length rows)) (foldl count_planned _count_template planned) in
  let digest := plan_digest planned in
  let minutes := Z.max 1 (threshold / 60000000) in
  let report counts after := mkReport apply minutes digest counts (zip planned after) truncated in
  if negb apply then mret (report counts ((λ _, None) <$> planned))
  else
    match expected_plan_digest with
    | Some expected =>
        if negb (bool_decide (expected = digest)) then raises RuntimeError "recovery plan changed"
        else ca ← apply_plan user actor digest counts planned; mret (report ca.1 ca.2)
    | None => ca ← apply_plan user actor digest counts planned; mret (report ca.1 ca.2)
    end.

Definition pre_trigger_allowed_classes (neutralize : bool) : list classification :=
  [AIRFLOW_TERMINAL; MISSING_IN_AIRFLOW] ++ (if neutralize then STALLED_CLASSES else []).

(** Whatever it raises, the trigger goes on. *)
Definition recover_before_reservation (user : option pydict) (cartridge : string) (dag_ids : list string) (neutralize : bool)
    (max_age_seconds : option Z) (max_candidates : Z) : io W (option RecoveryReport) :=
  if negb (truthy (PDict (default [] user))) then mret None
  else
    report ← trying (recover_stuck_runs user true "system:pre-trigger-recovery" (mkFilters (Some cartridge) None dag_ids [] max_age_seconds)
                       DEFAULT_THRESHOLD (pre_trigger_allowed_classes neutralize) neutralize None None max_candidates);
    mret (match report with Ok report => Some report | Raise _ => None end).
End Recovery.
