(* ===== verification/StuckRunsSafety.v ===== *)
(** What a recovery of stuck runs may write, whatever others write and Airflow answers
    meanwhile: what it was told at the time, by the answers it had, is its evidence. *)
From S2P Require Import Prelude PyStr PyVal PyTime PyJson PyIo PyUuid SyncProgress SyncState PipelineRuns RunsFrame PipelineRunsSafety SyncSafety StuckRuns.

Open Scope Z_scope.

(** ** Verdicts and what they rest on *)

(** At least [limit] has passed since [moment], if there is one. *)
Definition passed (limit : Z) (now : instant) (moment : option instant) : Prop := ∀ m, moment = Some m → limit ≤ now - m.

Lemma younger_false now moment limit : younger now moment limit = false ↔ passed limit now moment.
Proof.
  unfold younger, passed. destruct moment as [m|]; [|done]. rewrite Z.ltb_ge. split; [by intros H m' [= <-]|auto].
Qed.

(** What is believed of Airflow when a run is closed or its final state is taken. *)
Definition truth_shows (c : classification) (truth : AirflowRunTruth) (reserved : bool) (started : option instant) (now : instant)
    (threshold grace : Z) : Prop :=
  let is_in (s : string) := found truth = Some true ∧ lower (strip (default "" (state truth))) = s ∧ passed threshold now started in
  match c with
  | AIRFLOW_TERMINAL => found truth = Some true ∧ lower (strip (default "" (state truth))) ∈ AIRFLOW_TERMINAL_RUN_STATES
  | MISSING_IN_AIRFLOW =>
      found truth = Some false ∧ dag_found truth = Some true ∧ passed (if reserved then grace else threshold) now started
  | STALLED_RUNNING_NO_TASKS =>
      is_in "running" ∧ (∃ n, active_tasks truth = Some n ∧ n ≤ 0)
      ∧ passed threshold now (first_of (last_task_activity_at truth) (first_of (start_date truth) started))
      ∧ (dag_paused truth = Some true ∨ scheduler_healthy truth = Some true)
  | STALLED_QUEUED_PAUSED_DAG => is_in "queued" ∧ dag_paused truth = Some true
  | STALLED_QUEUED_NO_PROGRESS =>
      is_in "queued" ∧ dag_paused truth = Some false ∧ scheduler_healthy truth = Some true ∧ sibling_running truth = Some false
      ∧ passed threshold now (first_of (queued_at truth) started)
  | _ => False
  end.

Section Verdicts.
Context {Hrepr : PyRepr}.
Context (json_loads : string → res pyval).

Lemma queued_shows truth now threshold started :
  let v := queued_verdict truth now threshold started in
  v_action v = ACTION_NONE
  ∨ v = mark_failed STALLED_QUEUED_PAUSED_DAG true ∧ dag_paused truth = Some true
  ∨ v = mark_failed STALLED_QUEUED_NO_PROGRESS true ∧ dag_paused truth = Some false ∧ scheduler_healthy truth = Some true
    ∧ sibling_running truth = Some false ∧ passed threshold now (first_of (queued_at truth) started).
Proof.
  unfold queued_verdict. rewrite <- younger_false. repeat case_match; rewrite ?negb_false_iff, ?bool_decide_eq_true in *; auto 10.
Qed.

Lemma running_shows truth now threshold started :
  running_liveness truth now threshold started = Some STALLED_RUNNING_NO_TASKS →
  (∃ n, active_tasks truth = Some n ∧ n ≤ 0)
  ∧ passed threshold now (first_of (last_task_activity_at truth) (first_of (start_date truth) started))
  ∧ (dag_paused truth = Some true ∨ scheduler_healthy truth = Some true).
Proof.
  unfold running_liveness. destruct (active_tasks truth) as [n|]; [|done]. rewrite <- younger_false.
  repeat case_match; try done; rewrite ?negb_false_iff, ?bool_decide_eq_true, ?Z.ltb_ge in *; eauto 6.
Qed.

(** What a verdict asks for is of its class, and it asks on what is believed. *)
Definition action_of (c : classification) : recovery_action :=
  if bool_decide (c = AIRFLOW_TERMINAL) then ACTION_SYNC_TERMINAL else ACTION_MARK_FAILED.
Definition sound_verdict (row : Candidate) (truth : option AirflowRunTruth) (now : instant) (threshold grace : Z) (v : RunVerdict) : Prop :=
  v_action v = ACTION_NONE
  ∨ (v_action v = action_of (v_class v) ∧ v_neutralize v = bool_decide (v_class v ∈ STALLED_CLASSES)
     ∧ ∃ t reserved, truth = Some t ∧ (v_class v = MISSING_IN_AIRFLOW → _is_reserved json_loads (cols (c_row row)) = Ok reserved)
         ∧ truth_shows (v_class v) t reserved (started_at (c_row row)) now threshold grace).

Lemma classify_sound row truth now threshold grace v :
  pre_airflow_verdict row = None → classify_stuck_run json_loads row truth now threshold grace = Ok v →
  sound_verdict row truth now threshold grace v.
Proof.
  unfold classify_stuck_run, sound_verdict. intros -> H. destruct truth as [t|]; [|injection H as <-; by left].
  destruct (nonempty _); [injection H as <-; by left|].
  destruct (bool_decide (found t = Some true) && _) eqn:E1.
  { injection H as <-. apply andb_true_iff in E1 as [E1%bool_decide_eq_true E2%mem_true]. right. split_and!; [done..|].
    by exists t, false. }
  destruct (bool_decide (found t = Some false)) eqn:E2.
  { apply bool_decide_eq_true in E2. destruct (bool_decide (dag_found t = Some true)) eqn:E3; [|injection H as <-; by left].
    apply bool_decide_eq_true in E3. simpl in H. apply bind_ok in H as (reserved & Hr & H).
    destruct (younger _ _ _) eqn:Ey in H; [injection H as <-; by left|]. apply younger_false in Ey. injection H as <-.
    right. split_and!; [done..|]. by exists t, reserved. }
  destruct (bool_decide (found t = Some true)) eqn:E3; [|injection H as <-; by left]. apply bool_decide_eq_true in E3. simpl in H.
  destruct (younger _ _ threshold) eqn:Ey in H; [injection H as <-; by left|]. apply younger_false in Ey.
  destruct (bool_decide (_ = "running")) eqn:E4 in H; [|destruct (bool_decide (_ = "queued")) eqn:E5 in H; [|injection H as <-; by left]].
  - apply bool_decide_eq_true in E4. injection H as <-. destruct (running_liveness _ _ _ _) as [[]|] eqn:El; try by left.
    apply running_shows in El. right. split_and!; [done..|]. by exists t, false.
  - apply bool_decide_eq_true in E5. injection H as <-. destruct (queued_shows t now threshold (started_at (c_row row))) as [Hn|[Hv|Hv]];
      [by left| |]; destruct Hv as (-> & Hs); right; (split_and!; [done..|]); by exists t, false.
Qed.
End Verdicts.

(** ** What Airflow said *)

Section Said.
Context {Hrepr : PyRepr}.
Context (json_loads : string → res pyval) (parse_iso : string → option instant) (class_name : exn → string).

(** The DAG of a row and its run there. *)
Definition dag_of (row : Candidate) : string := str_or_empty (get "dag_id" (cols (c_row row))).
Definition airflow_run_of (row : Candidate) : string := str_or_empty (get "airflow_dag_run_id" (cols (c_row row))).

(** What has happened. *)
Context (F : list event).

(** A tool of the gateway was asked and gave an answer that is no error. *)
Definition said (tool : string) (args : list (string * pyval)) (answer : pydict) : Prop :=
  Asked "infra" tool (mkdict args) (Ok answer) ∈ F ∧ truthy (get "error" answer) = false.
Definition status_said (row : Candidate) : pydict → Prop :=
  said "airflow_get_run_status" [("dag_id", PStr (dag_of row)); ("dag_run_id", PStr (airflow_run_of row))].
Definition dag_said (row : Candidate) : pydict → Prop := said "airflow_describe_dag" [("dag_id", PStr (dag_of row))].
Definition tasks_said (row : Candidate) (tasks : list pydict) : Prop := ∃ payload listed,
  said "airflow_list_task_instances" [("dag_id", PStr (dag_of row)); ("dag_run_id", PStr (airflow_run_of row))] payload
  ∧ py_iter (py_or (get "tasks" payload) (PList [])) = Ok listed ∧ tasks = only_dicts listed.

(** The run is there; the state it is in; a flag that is set, or said not to be. *)
Definition state_in (status : pydict) : string := lower (strip (str_or_empty (get "state" status))).
Definition there (status : pydict) : bool :=
  match opt_truthy (get "found" status) with
  | Some b => b
  | None => nonempty (state_in status) && negb (bool_decide (state_in status = "not_found"))
  end.
Definition yes (k : string) (d : pydict) : Prop := truthy (get k d) = true.
Definition no (k : string) (d : pydict) : Prop := get k d ≠ PNone ∧ truthy (get k d) = false.

Definition running_in (run : pydict) : bool := bool_decide (lower (str_or_empty (get "state" run)) = "running").
Definition active_in (task : pydict) : bool := mem (lower (str_or_empty (get "state" task))) ACTIVE_TASK_STATES.
(** No other run of the DAG is running, whoever runs it, of a list that is complete. *)
Definition alone (row : Candidate) (own : list pydict) (dag : pydict) : Prop :=
  _describe_runs dag = Ok own ∧ _foreign_running dag ≤ 0
  ∧ (∀ run, run ∈ own → running_in run = true → get "dag_run_id" run = PStr (airflow_run_of row))
  ∧ truthy (get "running_truncated" dag) = false.
Definition listed_as (row : Candidate) (own : list pydict) : pydict :=
  default [] (List.find (λ run, eq_str (get "dag_run_id" run) (airflow_run_of row)) own).

(** The answers that a run of a row is closed on, or that its final state is taken on. *)
Definition evidence (row : Candidate) (now : instant) (threshold grace : Z) (c : classification) : Prop :=
  let started := started_at (c_row row) in
  let is_in s status := status_said row status ∧ there status = true ∧ state_in status = s in
  match c with
  | AIRFLOW_TERMINAL => ∃ s status, is_in s status ∧ s ∈ AIRFLOW_TERMINAL_RUN_STATES
  | MISSING_IN_AIRFLOW => ∃ status dag reserved,
      status_said row status ∧ there status = false ∧ dag_said row dag ∧ yes "found" dag
      ∧ _is_reserved json_loads (cols (c_row row)) = Ok reserved ∧ passed (if reserved then grace else threshold) now started
  | STALLED_RUNNING_NO_TASKS => ∃ status tasks dag,
      is_in "running" status ∧ tasks_said row tasks ∧ (∀ task, task ∈ tasks → active_in task = false)
      ∧ passed threshold now started
      ∧ passed threshold now (first_of (_latest_task_activity parse_iso tasks) (first_of (as_utc_datetime parse_iso (get "start_date" status)) started))
      ∧ dag_said row dag ∧ (yes "is_paused" dag ∨ yes "scheduler_healthy" dag)
  | STALLED_QUEUED_PAUSED_DAG => ∃ status dag,
      is_in "queued" status ∧ passed threshold now started ∧ dag_said row dag ∧ yes "is_paused" dag
  | STALLED_QUEUED_NO_PROGRESS => ∃ status dag own,
      is_in "queued" status ∧ passed threshold now started ∧ dag_said row dag ∧ no "is_paused" dag ∧ yes "scheduler_healthy" dag
      ∧ alone row own dag ∧ passed threshold now (first_of (as_utc_datetime parse_iso (get "queued_at" (listed_as row own))) started)
  | _ => False
  end.

(** The run was asked to be stopped in the state it was said to be in, and was, or is gone. *)
Definition stopped (row : Candidate) : Prop := ∃ state answer,
  state ∈ ["queued"; "running"]
  ∧ said "airflow_mark_dag_run_failed"
      [("dag_id", PStr (dag_of row)); ("dag_run_id", PStr (airflow_run_of row)); ("expected_states", strs [state])] answer
  ∧ (yes "marked" answer ∨ get "found" answer = PBool false).

(** *** What is believed is what was said *)

(** A DAG as it is kept: what was said of it, or that it could not be described. *)
Definition described_as (dag_id : string) (dag : pydict) : Prop :=
  said "airflow_describe_dag" [("dag_id", PStr dag_id)] dag ∨ truthy (get "error" dag) = true ∨ ∃ e, dag = mkdict [("error", PStr e)].
Definition activity_as (row : Candidate) (running : bool) (activity : option Z * option instant) : Prop :=
  activity = (None, None)
  ∨ running = true ∧ ∃ tasks, tasks_said row tasks
      ∧ activity = (Some (count_if active_in tasks), _latest_task_activity parse_iso tasks).
Definition told (row : Candidate) (truth : AirflowRunTruth) : Prop :=
  found truth = None
  ∨ ∃ dag status activity,
      described_as (dag_of row) dag ∧ status_said row status ∧ activity_as row (there status && bool_decide (state_in status = "running")) activity
      ∧ truth_of parse_iso dag status (airflow_run_of row) (state_in status) (there status) activity = Ok truth.

Lemma described_said dag_id dag : described_as dag_id dag → truthy (get "error" dag) = false →
  said "airflow_describe_dag" [("dag_id", PStr dag_id)] dag ∨ ∃ e, dag = mkdict [("error", PStr e)].
Proof. intros [H|[H|H]] He; [by left|congruence|by right]. Qed.

Lemma said_flag row dag k : described_as (dag_of row) dag → truthy (get "error" dag) = false → k ≠ "error" →
  get k dag ≠ PNone → dag_said row dag.
Proof.
  intros Hd He Hk Hg. destruct (described_said _ _ Hd He) as [H|[e ->]]; [done|]. destruct Hg.
  unfold get, mkdict. simpl. rewrite dget_dset_ne by done. done.
Qed.

Lemma truthy_not_none v : truthy v = true → v ≠ PNone.
Proof. by intros H ->. Qed.

Lemma opt_truthy_some v b : opt_truthy v = Some b ↔ v ≠ PNone ∧ truthy v = b.
Proof. unfold opt_truthy. destruct v; simpl; split; naive_solver. Qed.

(** What a truth believes of the DAG was said of it. *)
Lemma truth_flags row dag status id state is_found activity truth :
  described_as (dag_of row) dag → truth_of parse_iso dag status id state is_found activity = Ok truth →
  (dag_found truth = Some true → dag_said row dag ∧ yes "found" dag)
  ∧ (dag_paused truth = Some true → dag_said row dag ∧ yes "is_paused" dag)
  ∧ (dag_paused truth = Some false → dag_said row dag ∧ no "is_paused" dag)
  ∧ (scheduler_healthy truth = Some true → dag_said row dag ∧ yes "scheduler_healthy" dag).
Proof.
  unfold truth_of. cbv zeta. intros Hd (own & _ & [= <-])%bind_ok. simpl. destruct (truthy (get "error" dag)) eqn:He; simpl; [done|].
  unfold yes, no. rewrite !opt_truthy_some. split_and!.
  - intros [= H]. split; [|done]. eapply (said_flag _ _ "found"); [done..|]. by apply truthy_not_none.
  - intros [Hn H]. split; [|done]. by eapply (said_flag _ _ "is_paused").
  - intros [Hn H]. split; [|done]. by eapply (said_flag _ _ "is_paused").
  - intros [Hn H]. split; [|done]. by eapply (said_flag _ _ "scheduler_healthy").
Qed.

Lemma truth_alone row dag status state is_found activity truth :
  truth_of parse_iso dag status (airflow_run_of row) state is_found activity = Ok truth →
  truthy (get "error" dag) = false → sibling_running truth = Some false →
  ∃ own, alone row own dag ∧ queued_at truth = as_utc_datetime parse_iso (get "queued_at" (listed_as row own)).
Proof.
  unfold truth_of. cbv zeta. intros (own & Ho & [= <-])%bind_ok He. rewrite He in *. simpl in *. intros H. exists own. split; [|done].
  set (sibling := (0 <? _foreign_running dag) || _) in H. destruct (negb sibling && _) eqn:E; [done|]. injection H as Hs.
  rewrite Hs in E. simpl in E. subst sibling. apply orb_false_iff in Hs as [Hf Hs]. split_and!; [done|by apply Z.ltb_ge in Hf| |done].
  intros run Hin Hrun. apply not_true_iff_false in Hs. destruct (eq_str (get "dag_run_id" run) (airflow_run_of row)) eqn:Ee; [by apply eq_str_true|].
  destruct Hs. apply existsb_exists. exists run. split; [by apply list_elem_of_In|]. unfold running_in in Hrun. by rewrite Hrun, Ee.
Qed.

Lemma truth_fields dag status id state' is_found activity truth :
  truth_of parse_iso dag status id state' is_found activity = Ok truth →
  found truth = Some is_found ∧ default "" (state truth) = state' ∧ start_date truth = as_utc_datetime parse_iso (get "start_date" status)
  ∧ active_tasks truth = activity.1 ∧ last_task_activity_at truth = activity.2.
Proof. unfold truth_of. cbv zeta. intros (own & _ & [= <-])%bind_ok. simpl. split_and!; [done| |done..]. by destruct state'. Qed.

Lemma told_evidence row c truth reserved now threshold grace :
  told row truth → truth_shows c truth reserved (started_at (c_row row)) now threshold grace →
  (c = MISSING_IN_AIRFLOW → _is_reserved json_loads (cols (c_row row)) = Ok reserved) →
  evidence row now threshold grace c.
Proof.
  intros [Hn|(dag & status & activity & Hd & Hst & Hact & Ht)] Hs Hr.
  { destruct c; simpl in Hs; naive_solver congruence. }
  destruct (truth_flags _ _ _ _ _ _ _ _ Hd Ht) as (Ffound & Fpaused & Fgoing & Fsched).
  pose proof (truth_alone row dag status _ _ _ _ Ht) as Falone. destruct (truth_fields _ _ _ _ _ _ _ Ht) as (Ef & Estate & Estart & Etasks & Elast).
  assert (lower (strip (state_in status)) = state_in status) as Hstate.
  { unfold state_in. by rewrite strip_lower, strip_idem, lower_idem. }
  unfold truth_shows in Hs. rewrite Ef, Estate, Hstate in Hs. clear Ht Ef Estate Hstate. destruct c; simpl in Hs |- *; try done.
  - destruct Hs as [[= ?] ?]. by exists (state_in status), status.
  - destruct Hs as ([= ?] & [? ?]%Ffound & ?). exists status, dag, reserved. auto 10.
  - destruct Hs as (([= ?] & ? & ?) & [? ?]%Fpaused). by exists status, dag.
  - destruct Hs as (([= ?] & ? & ?) & [? ?]%Fgoing & [Hsaid ?]%Fsched & Hsib & Hq). destruct (Falone (proj2 Hsaid) Hsib) as (own & ? & Eq).
    rewrite Eq in Hq. by exists status, dag, own.
  - destruct Hs as (([= Hf] & Hrun & ?) & (n & Hn & Hle) & Hp & Hflag). rewrite Etasks in Hn. rewrite Elast, Estart in Hp.
    destruct Hact as [->|(_ & tasks & Htasks & ->)]; [done|]. injection Hn as <-. exists status, tasks, dag. split_and!; try done; try tauto.
    apply count_if_zero. unfold count_if in *. lia.
Qed.
End Said.

(** *** What is said stays said *)

Section Observing.
Context {Hrepr : PyRepr}.
Context (json_loads : string → res pyval) (parse_iso : string → option instant) (class_name : exn → string).

Lemma said_mono F F' tool args answer : F ⊆ F' → said F tool args answer → said F' tool args answer.
Proof. intros H [Ha He]. by split; [apply H|]. Qed.

Lemma described_mono F F' dag_id dag : F ⊆ F' → described_as F dag_id dag → described_as F' dag_id dag.
Proof. intros H [Hs|Hs]; [left; by eapply said_mono|by right]. Qed.

Lemma stopped_mono F F' row : F ⊆ F' → stopped F row → stopped F' row.
Proof. intros H (state & answer & Hs & Ha & Ho). exists state, answer. split_and!; [done|by eapply said_mono|done]. Qed.

Lemma tasks_mono F F' row tasks : F ⊆ F' → tasks_said F row tasks → tasks_said F' row tasks.
Proof. intros H (payload & listed & Hs & Hl). exists payload, listed. split; [by eapply said_mono|done]. Qed.

Lemma told_mono F F' row truth : F ⊆ F' → told parse_iso F row truth → told parse_iso F' row truth.
Proof.
  intros H [Hn|(dag & status & activity & Hd & Hst & Hact & Ht)]; [by left|right]. exists dag, status, activity. split_and!.
  - by eapply described_mono.
  - by eapply said_mono.
  - destruct Hact as [Ha|(Hr & tasks & Hts & Ha)]; [by left|right]. split; [done|]. exists tasks. split; [by eapply tasks_mono|done].
  - done.
Qed.

Lemma evidence_mono F F' row now threshold grace c : F ⊆ F' →
  evidence json_loads parse_iso F row now threshold grace c → evidence json_loads parse_iso F' row now threshold grace c.
Proof.
  intros H. assert (Hs : ∀ d, status_said F row d → status_said F' row d) by (intros d; by apply said_mono).
  assert (Hd : ∀ d, dag_said F row d → dag_said F' row d) by (intros d; by apply said_mono).
  destruct c; try done; simpl.
  - intros (s & d & (? & ?) & ?). exists s, d. auto.
  - intros (d & g & b & ? & ? & ? & ?). exists d, g, b. auto.
  - intros (d & g & (? & ?) & ? & ? & ?). exists d, g. auto.
  - intros (d & g & own & (? & ?) & ? & ? & ?). exists d, g, own. auto 10.
  - intros (d & tasks & g & (? & ?) & Ht & ? & ? & ? & ? & ?). exists d, tasks, g. assert (tasks_said F' row tasks) by (by apply (tasks_mono F)). auto 10.
Qed.

Context {W : Type} {Hruns : RunsWorld W}.
Context (P : list event → Table → Table → Prop).
Abbreviation learns := (learns P).

(** The DAGs that are known are as they were described. *)
Definition known_dags (F : list event) (known : list (string * pydict)) : Prop :=
  ∀ dag_id dag, afind dag_id known = Some dag → described_as F dag_id dag.

Lemma described_answer F dag_id dag :
  Asked "infra" "airflow_describe_dag" (mkdict [("dag_id", PStr dag_id)]) (Ok dag) ∈ F → described_as F dag_id dag.
Proof. intros H. destruct (truthy (get "error" dag)) eqn:E; [right; by left|left; by split]. Qed.

Lemma learns_describe F dag_id known : known_dags F known →
  learns F (describe_once class_name (W:=monitored W) dag_id known) (λ F' dk, described_as F' dag_id dk.1 ∧ known_dags F' dk.2).
Proof.
  intros Hk. assert (Hmono : ∀ F', F ⊆ F' → known_dags F' known).
  { intros F' H i dag Hd. eapply described_mono; [exact H|by apply Hk]. }
  unfold describe_once. destruct (afind dag_id known) as [dag|] eqn:E.
  { apply learns_ret. intros F' H. split; [by apply Hmono|by apply Hmono]. }
  apply (learns_bind P F _ _ (λ F' dag, described_as F' dag_id dag)).
  - unfold _describe. apply learns_handling; [eapply learns_weaken; [apply learns_mcp|]|].
    + intros dag F' _ Ha. by apply described_answer.
    + intros e F' _. apply learns_ret. intros F2 _. right. right. by eexists.
  - intros dag F' H Hd. apply learns_ret. intros F2 H2. assert (Hd2 : described_as F2 dag_id dag) by by eapply described_mono.
    split; [done|]. intros i dag' Hi. simpl in Hi. destruct (decide (i = dag_id)) as [->|Hne].
    + rewrite afind_aput, decide_True in Hi by done. by injection Hi as <-.
    + rewrite afind_aput, decide_False in Hi by done. apply (Hmono F2); [by etransitivity|done].
Qed.

Lemma learns_activity F row :
  learns F (_task_activity parse_iso (W:=monitored W) (dag_of row) (airflow_run_of row)) (λ F' a, activity_as parse_iso F' row true a).
Proof.
  unfold _task_activity. eapply learns_bind; [apply learns_trying, learns_mcp|]. intros [payload|e] F' _ Ha.
  - specialize (Ha payload eq_refl). destruct (truthy (get "error" payload)) eqn:E; [apply learns_ret; intros; by left|].
    eapply learns_bind; [apply learns_result|]. intros listed F2 H2 Hl. apply learns_ret. intros F3 H3. right. split; [done|]. exists (only_dicts listed). split; [|done].
    exists payload, listed. split_and!; [split; [by apply H3, H2|done]|done..].
  - apply learns_ret. intros. by left.
Qed.

Lemma learns_run F dag row : described_as F (dag_of row) dag →
  learns F (observe_run parse_iso class_name (W:=monitored W) dag (dag_of row) (airflow_run_of row)) (λ F' truth, told parse_iso F' row truth).
Proof.
  intros Hd. unfold observe_run. eapply learns_bind; [apply learns_trying, learns_mcp|]. intros [status|e] F' HF Ha.
  2:{ apply learns_ret. intros. by left. }
  specialize (Ha status eq_refl). destruct (truthy (get "error" status)) eqn:E; [apply learns_ret; intros; by left|]. cbv zeta.
  change (match opt_truthy (get "found" status) with Some b => b | None => _ end) with (there status).
  change (lower (strip (str_or_empty (get "state" status)))) with (state_in status).
  apply (learns_bind P F' _ _ (λ F2 a, F' ⊆ F2 ∧ activity_as parse_iso F2 row (there status && bool_decide (state_in status = "running")) a)).
  - destruct (there status && _); [|apply learns_ret; intros; split; [done|by left]].
    intros w Hw Hl. destruct (learns_activity F' row w Hw Hl) as (H1 & H2 & H3). split_and!; [done..|]. intros a Hr. split; [done|by apply H3].
  - intros activity F2 _ [H2 Hact]. apply learns_of_res. intros truth F3 H3 Ht. apply (told_mono F2); [done|].
    right. exists dag, status, activity. split_and!; [|split; [by apply H2|done]|done..].
    eapply described_mono; [|exact Hd]. by etransitivity.
Qed.

(** Each truth is what was told of a row of its run. *)
Definition told_each (rows : list Candidate) (F : list event) (truths : list (string * AirflowRunTruth)) : Prop :=
  ∀ id truth, afind id truths = Some truth → ∃ row, row ∈ rows ∧ run_id_of row = id ∧ told parse_iso F row truth.

Lemma learns_observe F rows known : known_dags F known →
  learns F (observe_airflow_truth parse_iso class_name (W:=monitored W) rows known) (told_each rows).
Proof.
  revert F known. induction rows as [|row rows IH]; intros F known Hk; [apply learns_ret; by intros F' _ id truth|].
  simpl. apply (learns_bind P F _ _ (λ F' tk, told parse_iso F' row tk.1 ∧ known_dags F' tk.2)).
  - unfold _observe. eapply learns_bind; [by apply learns_describe|]. intros [dag known'] F' HF [Hd Hk'].
    eapply learns_bind; [by apply learns_run|]. intros truth F2 H2 Ht. apply learns_ret. intros F3 H3. simpl. split; [by eapply told_mono|].
    intros i d Hi. eapply described_mono; [|by apply Hk']. by etransitivity.
  - intros [truth known'] F' HF [Ht Hk']. eapply learns_bind; [by apply IH|]. intros rest F2 H2 Hrest. apply learns_ret.
    intros F3 H3 id t Hf. simpl in Hf. destruct (decide (id = run_id_of row)) as [->|Hne].
    + rewrite decide_True in Hf by done. injection Hf as <-. exists row. split_and!; [by left|done|].
      eapply told_mono; [|exact Ht]. by etransitivity.
    + destruct (Hrest id t) as (row' & Hin & <- & Htold); [by rewrite decide_False in Hf|].
      exists row'. split_and!; [by right|done|by eapply told_mono].
Qed.
End Observing.

(** ** What a recovery may write *)

Section Recovery.
Context {Hrepr : PyRepr}.
Context (json_loads : string → res pyval) (uuid : string → option string) (jsonb : pydict → res pydict).
Context (jsonb_text : pydict → string) (sha256_hex : string → string) (json_dumps : pyval → string).
Context (parse_iso : string → option instant) (class_name : exn → string).
Context {W : Type} {Hruns : RunsWorld W}.
Context (record_event : pydict → io W unit).
(** The request. *)
Context (user : option pydict) (apply : bool) (threshold : Z) (allowed : list classification) (neutralize : bool) (now : option instant).

Abbreviation row_of := (candidate jsonb_text).
Abbreviation evidence F := (evidence json_loads parse_iso F).

(** A run that was read, of the scope of the user, that is not over, nor one of a
    synchronisation, and holds no lease; it is [r0] as it was read. *)
Record chosen (F : list event) (id : string) (r0 : Row) : Prop := mkChosen {
  ch_read : ∃ t, Wrote t t ∈ F ∧ t !! id = Some r0;
  ch_scope : ∃ tenant_id workspace_id tenant workspace, _scope user = Ok (tenant_id, workspace_id)
    ∧ uuid tenant_id = Some tenant ∧ uuid workspace_id = Some workspace
    ∧ r_tenant_id r0 = Some tenant ∧ r_workspace_id r0 = Some workspace;
  ch_status : lower (r_status r0) ∈ CANDIDATE_STATUSES;
  ch_early : pre_airflow_verdict (row_of id r0) = None }.

(** The row is still of the scope it was read in, and as it was read. *)
Definition same_scope (r0 r : Row) : Prop := r_tenant_id r = r_tenant_id r0 ∧ r_workspace_id r = r_workspace_id r0.
Definition as_read (r0 r : Row) : Prop :=
  same_scope r0 r ∧ lower (r_status r) = lower (r_status r0) ∧ r_started_at r = r_started_at r0 ∧ r_fencing_token r = r_fencing_token r0.

(** The time it goes by. *)
Definition looked_at (F : list event) (at_ : instant) : Prop := match now with Some n => at_ = n | None => Timed at_ ∈ F end.

(** What may be written of a class of runs, on what came before. *)
Record justified (F : list event) (id : string) (r0 : Row) (c : classification) : Prop := mkJustified {
  j_chosen : chosen F id r0;
  j_allowed : c ∈ (if is_nil allowed then DEFAULT_ALLOWED_CLASSES else allowed);
  j_evidence : ∃ checked_at, looked_at F checked_at ∧ evidence F (row_of id r0) checked_at threshold DEFAULT_MISSING_GRACE c }.

Inductive recovery_write (F : list event) (t : Table) : Table → Prop :=
  (** The run is closed, when it is still as it was read; one that Airflow had has been
      stopped there, as was asked. *)
  | closes id r0 r c at_ reconciliation recovery :
      justified F id r0 c → c ∈ MARK_FAILED_CLASSES →
      (c ∈ STALLED_CLASSES → neutralize = true ∧ stopped F (row_of id r0)) →
      t !! id = Some r → as_read r0 r → Timed at_ ∈ F →
      recovery_write F t (<[id := close_stuck at_ reconciliation recovery RECOVERY_MESSAGE r]> t)
  (** The state that Airflow says is taken, when the status is still what it was. *)
  | ends id r0 r status at_ started finished duration :
      justified F id r0 AIRFLOW_TERMINAL → status_said F (row_of id r0) status → get "found" status ≠ PBool false →
      t !! id = Some r → same_scope r0 r → Timed at_ ∈ F →
      let before := normalize_airflow_state (Some (r_status r0)) in
      let observed := normalize_airflow_state (text_of (get "state" status)) in
      lower (r_status r) = lower before →
      recovery_write F t (<[id := observe at_ (advance_pipeline_status (PStr before) (PStr observed)) observed started finished duration r]> t)
  (** What was closed is given back, as it was. *)
  | gives_back id r t0 t1 at_ reconciliation recovery :
      Wrote t0 t1 ∈ F → t0 !! id = Some r → t1 !! id = Some (close_stuck at_ reconciliation recovery RECOVERY_MESSAGE r) →
      recovery_write F t (<[id := r]> t).

Definition allowed_write (F : list event) (t t' : Table) : Prop := t' = t ∨ apply = true ∧ recovery_write F t t'.
Abbreviation learns := (learns allowed_write).

Lemma unchanged_allowed F t : allowed_write F t t.
Proof. by left. Qed.

Lemma justified_mono F F' id r0 c : F ⊆ F' → justified F id r0 c → justified F' id r0 c.
Proof.
  intros H [[(t & Ht & Hr) Hs Hst He] Ha (at_ & Hl & Hev)]. split; [split; [exists t; by split; [apply H|]|done..]|done|].
  exists at_. split; [unfold looked_at in *; destruct now; [done|by apply H]|by eapply evidence_mono].
Qed.

(** *** The statements *)

Lemma candidate_status r0 : lower (r_status r0) ∈ CANDIDATE_STATUSES → normalize_pipeline_status (PStr (r_status r0)) = lower (r_status r0).
Proof.
  intros H. unfold normalize_pipeline_status, py_or. assert (Hne : nonempty (lower (r_status r0)) = true ∧ strip (lower (r_status r0)) = lower (r_status r0)).
  { revert H. generalize (lower (r_status r0)). apply Forall_forall. by repeat constructor. }
  rewrite nonempty_lower in Hne. destruct Hne as [Hne Hst]. rewrite (proj2 (truthy_str _)) by by apply nonempty_true. cbn [py_str].
  rewrite <- strip_lower, Hst, nonempty_lower, Hne. done.
Qed.

Lemma run_id_row id r : run_id_of (row_of id r) = id.
Proof. apply (str_or_empty_str id). Qed.

(** The policies and the clauses together keep a statement to the scope of the row. *)
Lemma scoped tenant workspace a b r :
  cast_scope uuid (Some (tenant, workspace)) = Ok (a, b) →
  omega_rls_workspace_matches (mkSession tenant workspace) r = true → r_tenant_id r = a →
  r_tenant_id r = Some tenant ∧ r_workspace_id r = Some workspace.
Proof.
  unfold cast_scope, cast_uuid. destruct (uuid tenant) as [x|]; [|done]. cbn. destruct (uuid workspace) as [y|]; [|done]. cbn.
  intros [= <- <-] H Hx. unfold omega_rls_workspace_matches, is_setting in H. rewrite Hx in H. simpl in H.
  rewrite !andb_true_iff, !bool_decide_eq_true in H. destruct H as ((_ & ?) & (_ & ?)). by rewrite Hx.
Qed.

Lemma close_statement F id r0 at_ a b message t o t' : chosen F id r0 →
  recover_update_sql uuid jsonb at_ (run_id_of (row_of id r0)) (default "None" (c_tenant (row_of id r0))) (default "None" (c_workspace (row_of id r0)))
    (normalize_pipeline_status (get "status" (cols (c_row (row_of id r0))))) (started_at (c_row (row_of id r0)))
    (c_fencing_token (row_of id r0)) a b message t = Ok (o, t') →
  o = None ∧ t' = t
  ∨ ∃ r a b, t !! id = Some r ∧ as_read r0 r ∧ o = Some (close_stuck at_ a b message r) ∧ t' = <[id := close_stuck at_ a b message r]> t.
Proof.
  intros [_ (tenant_id & workspace_id & tenant & workspace & _ & _ & _ & Ht & Hw) Hst _] H.
  assert (E1 : default "None" (c_tenant (row_of id r0)) = tenant) by (simpl; by rewrite Ht).
  assert (E2 : default "None" (c_workspace (row_of id r0)) = workspace) by (simpl; by rewrite Hw).
  rewrite run_id_row, E1, E2 in H. change (get "status" _) with (PStr (r_status r0)) in H. rewrite candidate_status in H by done.
  unfold recover_update_sql in H. apply bind_ok in H as ([x y] & Hcast & H). apply bind_ok in H as (a' & _ & H).
  apply bind_ok in H as (b' & _ & [= H]). simpl in H.
  destruct (update_where_cases (mkSession tenant workspace) id (λ r, bool_decide (r_tenant_id r = x) && bool_decide (r_workspace_id r = y)
    && bool_decide (lower (r_status r) = lower (r_status r0)) && bool_decide (r_started_at r = r_started_at r0) && (r_fencing_token r =? r_fencing_token r0))
    (close_stuck at_ a' b' message) t) as [E|(r & Hr & Hs & Hp & E)]; rewrite E in H; injection H as <- <-; [by left|right].
  exists r, a', b'. split_and!; try done. rewrite !andb_true_iff, !bool_decide_eq_true, Z.eqb_eq in Hp.
  destruct Hp as ((((Hx & _) & ?) & ?) & ?). destruct (scoped _ _ _ _ _ Hcast Hs Hx) as [? ?]. unfold as_read, same_scope. by rewrite Ht, Hw.
Qed.

(** A run is closed, and given back when the audit fails. *)
Lemma learns_close F id r0 p actor digest neutralized :
  apply = true → p_row p = row_of id r0 → justified F id r0 (v_class (p_verdict p)) → v_class (p_verdict p) ∈ MARK_FAILED_CLASSES →
  (v_class (p_verdict p) ∈ STALLED_CLASSES → neutralize = true ∧ stopped F (row_of id r0)) →
  learns F (_apply_mark_failed uuid jsonb (λ d, watch (record_event d)) (p_row p) (p_verdict p) (p_truth p) actor neutralized digest)
    (λ _ _, True).
Proof.
  intros Ha -> Hj Hc Hstop w HF Hl. unfold _apply_mark_failed. simpl. destruct (clock (inner w)) as [at_ i]. cbn [fst snd runs].
  set (F1 := Timed at_ :: events w). assert (H1 : F ⊆ F1) by set_solver.
  destruct (recover_update_sql _ _ _ _ _ _ _ _ _ _ _ _ _) as [[o t']|e] eqn:E; [|split_and!; [set_solver|done..]].
  apply (close_statement F1 id r0) in E; [|by eapply j_chosen, justified_mono].
  assert (Hcl : allowed_write F1 (runs i) t').
  { destruct E as [[_ ->]|(r & a & b & Hr & Has & _ & ->)]; [by left|right]. split; [done|].
    eapply closes; [by eapply justified_mono|done| |done|done|by left]. intros Hst. destruct (Hstop Hst). split; [done|by eapply stopped_mono]. }
  destruct E as [[-> _]|(r & a & b & Hr & _ & -> & Ht)]; [split_and!; [set_solver|done..]|].
  cbn [inner] in Hr. unfold watch. cbn [inner events]. rewrite run_id_row. unfold rolled_back. rewrite Hr.
  destruct (record_event _ (set_runs t' i)) as [[[]|e] i2]; simpl; (split; [set_solver|split; [|done]]); [by split|].
  split; [|by split]. right. split; [done|]. eapply gives_back; [by left|exact Hr|]. rewrite Ht. apply lookup_insert_eq.
Qed.

(** The final state that Airflow says is taken. *)
Lemma candidate_arguments id r0 : pre_airflow_verdict (row_of id r0) = None →
  let c := cols (run (as_run_row (row_of id r0))) in
  get "dag_id" c = PStr (dag_of (row_of id r0)) ∧ py_or (get "airflow_dag_run_id" c) (get "run_id" c) = PStr (airflow_run_of (row_of id r0)).
Proof.
  intros H. split; [unfold dag_of; by rewrite (str_or_empty_str (r_dag_id r0))|].
  unfold airflow_run_of. change (get "airflow_dag_run_id" _) with (opt_str (r_airflow_dag_run_id r0)).
  unfold pre_airflow_verdict in H. cbv zeta in H. destruct (mem _ _) in H; [done|]. destruct (_ || _) in H; [done|].
  destruct (_ || _) in H; [done|]. change (get "airflow_dag_run_id" _) with (opt_str (r_airflow_dag_run_id r0)) in H.
  destruct (r_airflow_dag_run_id r0) as [a|]; simpl in *; [|done].
  destruct (truthy (PStr a)) eqn:Ht; [unfold py_or; by rewrite Ht, (str_or_empty_str a)|].
  apply not_true_iff_false in Ht. rewrite truthy_str in Ht. destruct a; [done|by destruct Ht].
Qed.
Lemma observe_statement F id r0 status state started finished at_ t a t' : chosen F id r0 →
  PipelineRuns.persist_status uuid jsonb_text (as_run_row (row_of id r0)) (row_or_context (row_tenant (as_run_row (row_of id r0))) "tenant_id" user)
    (row_or_context (row_workspace (as_run_row (row_of id r0))) "workspace_id" user) id status state started finished at_ t = Ok (a, t') →
  t' = t ∨ ∃ r, t !! id = Some r ∧ same_scope r0 r ∧ lower (r_status r) = lower status
    ∧ t' = <[id := observe at_ (advance_pipeline_status (PStr status) (PStr (observed_status state))) (observed_status state) started finished
                     (duration_of started finished) r]> t.
Proof.
  intros [_ (_ & _ & tenant & workspace & _ & _ & _ & Ht & Hw) _ _] H. unfold PipelineRuns.persist_status, as_run_row in H. simpl in H.
  rewrite Ht, Hw in H. simpl in H. apply bind_ok in H as ([o t1] & Ho & H). unfold persist_observation in Ho.
  apply bind_ok in Ho as ([x y] & Hcast & [= Ho]). simpl in Ho.
  assert (t' = t1) as ->. { destruct o; [by injection H as _ <-|]. by apply bind_ok in H as ([? ?] & _ & [= _ <-]). }
  match type of Ho with update_where ?s ?i ?p ?f ?t0 = _ => destruct (update_where_cases s i p f t0) as [E|(r & Hr & Hs & Hp & E)] end;
    rewrite E in Ho; injection Ho as <- <-; [by left|right].
  exists r. split; [done|]. unfold unchanged in Hp. apply andb_true_iff in Hp as [Hst%bool_decide_eq_true Hsc].
  assert (Hx : r_tenant_id r = x).
  { pose proof Hcast as Hc. unfold cast_scope in Hc. apply bind_ok in Hc as (u & _ & (v & _ & [= <- <-])%bind_ok).
    by apply andb_true_iff in Hsc as [?%bool_decide_eq_true _]. }
  destruct (scoped _ _ _ _ _ Hcast Hs Hx) as [? ?]. unfold same_scope. by rewrite Ht, Hw.
Qed.

Lemma learns_final F id r0 p c : apply = true → p_row p = row_of id r0 → justified F id r0 AIRFLOW_TERMINAL →
  learns F (sync_terminal uuid jsonb_text parse_iso (W:=monitored W) p user c) (λ _ _, True).
Proof.
  intros Ha Hp Hj. unfold sync_terminal. rewrite Hp. eapply learns_bind; [apply (learns_trying _ _ _ (λ _ _, True))|by intros; apply learns_ret].
  pose proof (j_chosen _ _ _ _ Hj) as Hch. destruct (candidate_arguments id r0 (ch_early _ _ _ Hch)) as [Ed Er].
  unfold refresh_dag_run_status. cbv zeta. rewrite Ed, Er. destruct (_ || _); [by apply learns_ret|].
  eapply learns_bind; [apply learns_mcp|]. intros d F1 H1 Hd.
  destruct (truthy (get "error" d)) eqn:Ee; [by apply learns_ret|]. simpl.
  destruct (match get "found" d with PBool false => true | _ => false end) eqn:Ef; [by apply learns_ret|].
  apply learns_handling; [|intros; by apply learns_ret]. apply learns_statement. intros at_ t a t' F2 H2 Hat H. split; [|done].
  change (str_or_empty (get "run_id" _)) with (run_id_of (row_of id r0)) in H. rewrite run_id_row in H.
  assert (Hj2 : justified F2 id r0 AIRFLOW_TERMINAL) by (eapply justified_mono; [|exact Hj]; by etransitivity).
  apply (observe_statement F2 id r0) in H as [->|(r & Hr & Hsc & Hst & ->)]; [by left| |by eapply j_chosen].
  right. split; [done|]. eapply ends; [done|split; [by apply H2|done]|by intros E; rewrite E in Ef|done..].
Qed.

Lemma learns_neutralize F row truth :
  learns F (_neutralize (W:=monitored W) row truth) (λ F' o, o = stop_ok ∨ o = stop_gone → stopped F' row).
Proof.
  unfold _neutralize. cbv zeta. destruct (mem _ ["queued"; "running"]) eqn:Em; simpl; [|by apply learns_ret; intros F' _ [|]].
  apply mem_true in Em. eapply learns_bind; [apply learns_trying, learns_mcp|]. intros answer F1 _ Ha. apply learns_ret. intros F2 H2 Ho.
  destruct answer as [d|e]; [|by destruct Ho]. specialize (Ha d eq_refl). destruct (truthy (get "error" d)) eqn:Ee; [by destruct Ho|].
  eexists _, d. split; [exact Em|]. split; [split; [by apply H2|done]|]. unfold yes.
  destruct (truthy (get "marked" d)); [by left|right]. destruct (get "found" d) as [|[]| | | | |]; try done; case_match; by destruct Ho.
Qed.

(** What is planned of a run is of its class, and on evidence. *)
Definition planned_well (F : list event) (p : Planned) : Prop :=
  p_action p = ACTION_NONE
  ∨ ∃ id r0, p_row p = row_of id r0 ∧ justified F id r0 (v_class (p_verdict p))
      ∧ p_action p = action_of (v_class (p_verdict p)) ∧ v_class (p_verdict p) ∈ AIRFLOW_TERMINAL :: MARK_FAILED_CLASSES
      ∧ (v_class (p_verdict p) ∈ STALLED_CLASSES → neutralize = true ∧ p_neutralize p = true).

Lemma planned_mono F F' p : F ⊆ F' → planned_well F p → planned_well F' p.
Proof. intros H [Hn|(id & r0 & ? & ? & ?)]; [by left|right]. exists id, r0. split; [done|]. split; [by eapply justified_mono|done]. Qed.
Abbreviation audit := (λ d, watch (record_event d)).

Lemma learns_planned F actor digest c p : apply = true → planned_well F p →
  learns F (apply_planned uuid jsonb jsonb_text parse_iso audit user actor digest c p) (λ _ _, True).
Proof.
  intros Ha Hp. unfold apply_planned. destruct Hp as [->|(id & r0 & Hr & Hj & Hact & Hc & Hn)]; [by apply learns_ret|].
  assert (Hclose : ∀ F' n c', F ⊆ F' → v_class (p_verdict p) ∈ MARK_FAILED_CLASSES →
    (v_class (p_verdict p) ∈ STALLED_CLASSES → stopped F' (row_of id r0)) →
    learns F' (close_run uuid jsonb audit p actor digest n c') (λ _ _, True)).
  { intros F' n c' H Hm Hs. unfold close_run. eapply learns_bind; [eapply learns_trying, learns_close; try done|by intros; apply learns_ret].
    - by eapply justified_mono.
    - intros Hst. destruct (Hn Hst) as [-> _]. split; [done|by apply Hs]. }
  rewrite Hact. unfold action_of. destruct (bool_decide (v_class (p_verdict p) = AIRFLOW_TERMINAL)) eqn:Et.
  { apply bool_decide_eq_true in Et. rewrite Et in Hj. by apply (learns_final F id r0). }
  apply bool_decide_eq_false in Et. assert (Hm : v_class (p_verdict p) ∈ MARK_FAILED_CLASSES) by (apply elem_of_cons in Hc as [Hc|Hc]; [by destruct Et|done]).
  destruct (p_neutralize p) eqn:Ep; simpl; [|apply Hclose; [done..|]; intros Hst; by destruct (Hn Hst)].
  rewrite Hr. eapply learns_bind; [apply learns_neutralize|]. intros o F' H Ho.
  destruct o; [apply Hclose; [done..|]; intros; by apply Ho; left|apply Hclose; [done..|]; intros; by apply Ho; right|by apply learns_ret..].
Qed.

Lemma learns_plan F actor digest c planned : apply = true → (∀ p, p ∈ planned → planned_well F p) →
  learns F (apply_plan uuid jsonb jsonb_text parse_iso audit user actor digest c planned) (λ _ _, True).
Proof.
  intros Ha. revert F c. induction planned as [|p planned IH]; intros F c Hp; [by apply learns_ret|]. simpl.
  eapply learns_bind; [apply learns_planned; [done|apply Hp; by left]|]. intros ca F' H _.
  eapply learns_bind; [apply IH; intros q Hq; eapply planned_mono; [exact H|apply Hp; by right]|by intros; apply learns_ret].
Qed.

(** *** The plan *)

(** The candidates are the rows that were read. *)
Definition read_rows (t : Table) (rows : list Candidate) : Prop :=
  ∀ row, row ∈ rows → ∃ id r0, row = row_of id r0 ∧ t !! id = Some r0 ∧ lower (r_status r0) ∈ CANDIDATE_STATUSES
    ∧ ∃ tenant_id workspace_id tenant workspace, _scope user = Ok (tenant_id, workspace_id)
      ∧ uuid tenant_id = Some tenant ∧ uuid workspace_id = Some workspace ∧ r_tenant_id r0 = Some tenant ∧ r_workspace_id r0 = Some workspace.

Lemma loaded_rows f limit tenant_id workspace_id at_ t rows : _scope user = Ok (tenant_id, workspace_id) →
  load_recovery_candidates uuid jsonb_text f limit tenant_id workspace_id at_ t = Ok rows → read_rows t rows.
Proof.
  intros Hs. unfold load_recovery_candidates, cast_scope, cast_uuid. destruct (uuid tenant_id) as [a|] eqn:Ea; [|done]. cbn.
  destruct (uuid workspace_id) as [b|] eqn:Eb; [|done]. cbn. intros [= <-] row ([id r] & -> & Hin)%list_elem_of_fmap. exists id, r.
  apply elem_of_take in Hin as (i & Hi & _). apply list_elem_of_lookup_2 in Hi. rewrite elem_of_sort_by in Hi.
  apply elem_of_List_filter in Hi as [Hi Hc]. apply elem_of_map_to_list in Hi. unfold is_candidate in Hc. cbn in Hc.
  rewrite !andb_true_iff, !bool_decide_eq_true, mem_true in Hc. destruct Hc as ((((_ & ?) & ?) & ?) & _).
  split_and!; [done..|]. by exists tenant_id, workspace_id, a, b.
Qed.

Lemma plan_well F t rows asked truths checked_at row p :
  Wrote t t ∈ F → read_rows t rows → (∀ r, r ∈ asked → r ∈ rows) → looked_at F checked_at → told_each parse_iso asked F truths → row ∈ rows →
  plan_one json_loads truths checked_at threshold (if is_nil allowed then DEFAULT_ALLOWED_CLASSES else allowed) neutralize row = Ok p →
  planned_well F p.
Proof.
  intros Ht Hread Hasked Hat Htold Hin. unfold plan_one. intros (v & Hv & H)%bind_ok.
  set (classes := if is_nil allowed then _ else _) in *. destruct (_planned_action v classes neutralize) as [action n] eqn:Ea.
  injection H as <-. unfold planned_well. simpl. unfold _planned_action in Ea.
  destruct (bool_decide (v_action v = ACTION_NONE)) eqn:E1; [left; by injection Ea as <- _|]. apply bool_decide_eq_false in E1.
  destruct (mem (v_class v) classes) eqn:E2; [|left; by injection Ea as <- _]. apply mem_true in E2. simpl in Ea.
  destruct (v_neutralize v && negb neutralize) eqn:E3; [left; by injection Ea as <- _|]. injection Ea as <- <-. right.
  destruct (Hread row Hin) as (id & r0 & -> & Hr0 & Hst & Hsc). exists id, r0. split; [done|]. rewrite run_id_row in Hv.
  destruct (pre_airflow_verdict (row_of id r0)) as [early|] eqn:Ep.
  { exfalso. apply E1. unfold classify_stuck_run in Hv. rewrite Ep in Hv. injection Hv as <-. unfold pre_airflow_verdict in Ep.
    by repeat case_match; simplify_eq. }
  destruct (classify_sound json_loads _ _ _ _ _ _ Ep Hv) as [Hn|(Hact & Hneu & truth & reserved & Hf & Hres & Hshow)]; [done|].
  destruct (Htold _ _ Hf) as (row & Hrow & Hid & Htl). destruct (Hread row (Hasked row Hrow)) as (id' & r' & -> & Hr' & _).
  rewrite run_id_row in Hid. subst id'. replace r' with r0 in * by congruence.
  assert (Hev : evidence F (row_of id r0) checked_at threshold DEFAULT_MISSING_GRACE (v_class v)) by by eapply told_evidence.
  split_and!; [split; [split; [by exists t|done..]|done|by exists checked_at]|done| |].
  - destruct (v_class v); simpl in Hshow; try done; apply mem_true; by vm_compute.
  - intros Hs. rewrite Hneu, bool_decide_true in * by done. by destruct neutralize.
Qed.

Abbreviation recover := (recover_stuck_runs json_loads uuid jsonb jsonb_text sha256_hex json_dumps parse_iso class_name audit).

Lemma learns_recover actor f expected max :
  learns [] (recover user apply actor f threshold allowed neutralize expected now max) (λ _ _, True).
Proof.
  unfold recover_stuck_runs.
  eapply learns_bind; [apply learns_result|]. intros [tenant_id workspace_id] F0 _ Hs. cbv zeta.
  eapply (learns_bind _ _ _ _ (λ F c, looked_at F c)).
  { unfold looked_at. destruct now; [by apply learns_ret|apply learns_now]. }
  intros checked_at F1 _ Hat. eapply learns_bind; [apply learns_query, unchanged_allowed|].
  intros loaded F2 H2 (at_ & t & Hl & Ht). apply (loaded_rows _ _ _ _ _ _ _ Hs) in Hl.
  set (rows := take _ loaded). set (asked := List.filter _ rows).
  assert (Hread : read_rows t rows). { intros row (j & Hj & _)%elem_of_take. apply Hl. by eapply list_elem_of_lookup_2. }
  eapply learns_bind; [by apply learns_observe|]. intros truths F3 H3 Htold.
  eapply learns_bind; [apply learns_result|]. intros planned F4 H4 Hp.
  assert (Hwell : ∀ p, p ∈ planned → planned_well F4 p).
  { intros p Hin. apply mapR_ok in Hp. apply list_elem_of_lookup in Hin as [i Hi]. destruct (Forall2_lookup_r _ _ _ _ _ Hp Hi) as (row & Hrow & Hpl).
    apply list_elem_of_lookup_2 in Hrow. eapply planned_mono; [exact H4|].
    eapply (plan_well F3 t rows asked); [by apply H3|done|by intros r [? _]%elem_of_List_filter| |done..].
    unfold looked_at in *. destruct now; [done|]. by apply H3, H2. }
  destruct (negb apply) eqn:Ea; [by apply learns_ret|]. apply negb_false_iff in Ea.
  destruct expected as [e|]; [destruct (negb _); [by apply learns_of_res|]|];
    (eapply learns_bind; [by apply learns_plan|by intros; apply learns_ret]).
Qed.

(** *** Watched or not *)

Abbreviation recover_alone := (recover_stuck_runs json_loads uuid jsonb jsonb_text sha256_hex json_dumps parse_iso class_name record_event).

Lemma mimics_observe rows known : mimics (observe_airflow_truth parse_iso class_name rows known) (observe_airflow_truth parse_iso class_name rows known).
Proof.
  revert known. induction rows as [|row rows IH]; intros known; simpl; [mimic|].
  unfold _observe, describe_once, _describe, observe_run, _task_activity. mimic.
Qed.

Lemma mimics_close row verdict truth actor neutralized digest :
  mimics (_apply_mark_failed uuid jsonb audit row verdict truth actor neutralized digest)
    (_apply_mark_failed uuid jsonb record_event row verdict truth actor neutralized digest).
Proof.
  intros w. unfold _apply_mark_failed. simpl. destruct (clock (inner w)) as [at_ i]. simpl.
  destruct (recover_update_sql _ _ _ _ _ _ _ _ _ _ _ _ _) as [[[r|] t]|]; [|done..]. unfold watch. cbn [inner events].
  by destruct (record_event _ (set_runs t i)) as [[]].
Qed.

Lemma mimics_plan actor digest c planned :
  mimics (apply_plan uuid jsonb jsonb_text parse_iso audit user actor digest c planned)
    (apply_plan uuid jsonb jsonb_text parse_iso record_event user actor digest c planned).
Proof.
  revert c. induction planned as [|p planned IH]; intros c; simpl; [mimic|].
  unfold apply_planned, close_run, sync_terminal, refresh_dag_run_status, _neutralize. mimic; apply mimics_close.
Qed.

Lemma recover_watched actor f expected max :
  mimics (recover user apply actor f threshold allowed neutralize expected now max)
    (recover_alone user apply actor f threshold allowed neutralize expected now max).
Proof. unfold recover_stuck_runs. mimic; first [apply mimics_observe|apply mimics_of_res|apply mimics_plan]. Qed.

(** C32: whatever Airflow answers and others write meanwhile, a recovery writes a run only
    when it is applied: it closes one that it read, of the tenant and the workspace of
    the user, not over, not of a synchronisation and without a lease, of a class that
    was allowed, on the answers it had had by then; when the row is still as it was
    read, by its status, its start and its fencing token; and one that Airflow has only
    when that was asked and Airflow has stopped it.  Or it takes the state that Airflow
    says, of one it said is over; or gives back, as it was, a run it had closed. *)
Theorem recovery_needs_evidence actor f expected max w :
  let '(r, w') := recover user apply actor f threshold allowed neutralize expected now max (mkMonitored w []) in
  recover_alone user apply actor f threshold allowed neutralize expected now max w = (r, inner w')
  ∧ ∀ newer before after older, events w' = newer ++ Wrote before after :: older →
      after = before ∨ apply = true ∧ recovery_write older before after.
Proof.
  pose proof (recover_watched actor f expected max (mkMonitored w [])) as Hm.
  destruct (learns_recover actor f expected max (mkMonitored w []) ltac:(done) I) as (_ & Hl & _).
  revert Hm Hl. cbn [inner]. destruct (recover _ _ _ _ _ _ _ _ _ _ _) as [r w']. intros Hm Hl. split; [exact Hm|]. intros newer before after older E. cbn [snd] in Hl. rewrite E in Hl.
  by apply logged_split in Hl.
Qed.
End Recovery.

(** ** A recovery *)

Module Recovered.
#[local] Instance repr : PyRepr := some_repr.

Definition uuid (s : string) : option string := if Nat.eqb (slen s) 36 then Some s else None.
Definition jsonb (d : pydict) : res pydict := Ok d.
Definition tenant : string := "7a1d2c3b-0000-4000-8000-000000000001".
Definition workspace : string := "7a1d2c3b-0000-4000-8000-000000000002".
Definition elsewhere : string := "7a1d2c3b-0000-4000-8000-000000000003".
Definition user : option pydict := Some (mkdict [("tenant_id", PStr tenant); ("workspace_id", PStr workspace)]).

(** A run of the workspace of the user and one of another, both queued. *)
Definition queued (airflow workspace : string) : Row :=
  new_row "sap_successfactors_extract" "sap_successfactors" "EmpJob" airflow "full" "queued" (seconds 60) None None [] (Some tenant)
    (Some workspace).
Definition table : Table := <["a" := queued "a" workspace]> (<["b" := queued "b" elsewhere]> ∅).

(** The clock has gone on by a minute at each look, and others by [meanwhile] at each
    question to Airflow, which answers by the tool. *)
Definition world (meanwhile : Table → Table) (answer : string → res pydict) : RunsWorld (Table * instant) := {|
  runs w := w.1;
  set_runs t w := (t, w.2);
  clock w := (w.2, (w.1, w.2 + seconds 60));
  mcp_invoke _ tool _ w := (answer tool, (meanwhile w.1, w.2)) |}.
(** It has the DAG and none of its runs. *)
Definition no_run (tool : string) : res pydict :=
  Ok (if bool_decide (tool = "airflow_describe_dag") then mkdict [("found", PBool true)]
      else mkdict [("found", PBool false); ("state", PStr "not_found")]).
(** It has the DAG, paused, and its run, running, whose tasks it does not list. *)
Definition no_tasks (tool : string) : res pydict :=
  if bool_decide (tool = "airflow_describe_dag") then Ok (mkdict [("found", PBool true); ("is_paused", PBool true)])
  else if bool_decide (tool = "airflow_list_task_instances") then Raise (Exn TimeoutError "")
  else Ok (mkdict [("found", PBool true); ("state", PStr "running"); ("marked", PBool true)]).
(** The run is taken in hand: its token is another. *)
Definition taken (t : Table) : Table := alter (λ r, mkRow (r_dag_id r) (r_cartridge_id r) (r_entity r) (r_airflow_dag_run_id r) (r_mode r)
  (r_status r) (r_started_at r) (r_finished_at r) (r_duration r) (r_record_count r) (r_error_message r) (r_extra r) (r_tenant_id r)
  (r_workspace_id r) (r_lease_expires_at r) (r_fencing_token r + 1)) "a" t.
#[local] Instance idle : RunsWorld (Table * instant) := world id no_run.
Definition text (_ : pydict) : string := "{}".
Definition json_loads (_ : string) : res pyval := Ok (PDict []).
Definition class_name (_ : exn) : string := "TimeoutError".
Definition record_event (_ : pydict) : io (Table * instant) unit := mret tt.
Definition start : Table * instant := (table, seconds 7200).
Definition recover {W} {Hruns : RunsWorld W} (audit : pydict → io W unit) (apply neutralize : bool) : io W RecoveryReport :=
  recover_stuck_runs json_loads uuid jsonb text (λ s, s) (λ _, "") (λ _, None) class_name audit user apply "operator"
    (mkFilters None None [] [] None) DEFAULT_THRESHOLD [] neutralize None None 50.
Definition after (w : RunsWorld (Table * instant)) (apply neutralize : bool) (id : string) : option string :=
  r_status <$> (recover record_event apply neutralize start).2.1 !! id.

(** The run is closed; the other workspace's is not, and neither is when nothing is to be
    applied, when another takes it in hand meanwhile, or when Airflow does not say what
    its tasks do. *)
Example one_is_closed :
  after (world id no_run) true false "a" = Some "failed" ∧ after (world id no_run) true false "b" = Some "queued"
  ∧ after (world id no_run) false false "a" = Some "queued" ∧ after (world taken no_run) true false "a" = Some "queued"
  ∧ after (world id no_tasks) true true "a" = Some "queued".
Proof. by vm_compute. Qed.

Definition watched : io (monitored (Table * instant)) RecoveryReport := recover (λ d, watch (record_event d)) true false.

Lemma recovery_needs_evidence_witness :
  ∃ t t' older, events (watched (mkMonitored start [])).2 = Wrote t t' :: older ∧ t' ≠ t
    ∧ recovery_write json_loads uuid text (λ _, None) user DEFAULT_THRESHOLD [] false None older t t'.
Proof.
  pose proof (recovery_needs_evidence json_loads uuid jsonb text (λ s, s) (λ _, "") (λ _, None) class_name record_event user true
    DEFAULT_THRESHOLD [] false None "operator" (mkFilters None None [] [] None) None 50 start) as H.
  change (recover_stuck_runs _ _ _ _ _ _ _ _ _ _ _ _ _ _ _ _ _ _ _ (mkMonitored start [])) with (watched (mkMonitored start [])) in H.
  assert (Hw : match events (watched (mkMonitored start [])).2 with Wrote t t' :: _ => r_status <$> t !! "a" ≠ r_status <$> t' !! "a" | _ => False end)
    by by vm_compute.
  destruct (watched (mkMonitored start [])) as [r w']. destruct H as [_ H]. simpl in *. destruct (events w') as [|[|s tool d a|t t'] older] eqn:E; try done.
  assert (Hne : t' ≠ t) by (intros ->; by apply Hw). exists t, t', older. split; [done|]. split; [done|].
  by destruct (H [] t t' older eq_refl) as [Hs|[_ Hr]].
Defined.
End Recovered.
