(* ===== verification/SyncRefreshes.v ===== *)
(** What a synchronisation refreshes when its data is there (console/app/domains/pipeline/
    control_room_refresh.py and agentops_refresh.py): the intelligence of the Gold
    datasets, the dashboard of the control room and the monitors of the agents, with the
    updates of the steps they give. *)
From S2P Require Import Prelude PyStr PyVal PyTime PyJson PyIo PyUuid SyncProgress SyncState PipelineRuns.

Open Scope Z_scope.

(** An agent as the runtime loads it. *)
Record Agent := mkAgent { ag_id : pyval; ag_tenant_id : pyval; ag_workspace_id : pyval; ag_slug : pyval; ag_cartridge_id : pyval }.

(** What the services of the control room and of the agents are asked for the user of the
    request: their code is modelled elsewhere or not at all. *)
Class RefreshWorld (W : Type) := {
  run_intelligence : pydict → W → res pyval * W;
  dashboard : bool → W → res pyval * W;
  sap_successfactors_gold_kpis : W → res pyval * W;
  sap_successfactors_talent_kpis : W → res pyval * W;
  ensure_monitors : string → W → res unit * W;
  list_agents : string → W → res (list pydict) * W;
  load_agent : string → W → res (option Agent) * W;
  reserve_scheduled_run : pydict → W → res pydict * W;
  execute_reserved_scheduled_monitor : Agent → string → pydict → string → pydict → W → res pyval * W }.

Definition SYNC_AGENTOPS_TOOLS : list string :=
  ["mcp-infra__simulation__monte_carlo_run"; "mcp-infra__market_context_read"; "mcp-infra__decision__orchestrate";
   "mcp-infra__wisdom_bits__run"; "mcp-infra__control_room__raise_alert"; "mcp-infra__control_room__raise_analysis_alert";
   "infra__simulation__monte_carlo_run"; "infra__market_context_read"; "infra__decision__orchestrate"; "infra__wisdom_bits__run";
   "infra__control_room__raise_alert"; "infra__control_room__raise_analysis_alert"].

Section Refreshes.
Context {Hrepr : PyRepr}.
Context (sha1 : string → string) (class_name : exn → string).
Context {W : Type} {Hruns : RunsWorld W} {Hrefresh : RefreshWorld W}.
Context (user : option pydict).

(** [datetime.now(timezone.utc).isoformat()]. *)
Definition now_iso : io W string := now ← utc_now; mret (isoformat now).

(** ** The intelligence of the Gold datasets *)

(** [str(ctx.get(k) or ctx.get(active_k) or "").strip()]; the context has no active keys. *)
Definition scope_text (k : string) : string := strip (str_or_empty (get k (context_scope user))).

Definition run_sync_control_room_gold_refresh (cartridge : string) (row : SyncRow) (child_rows : list pydict)
    (gold_refresh_summary : pydict) : io W pydict :=
  checked_at ← now_iso;
  datasets ← of_res (gold_refresh_dataset_names gold_refresh_summary);
  if is_nil datasets then mret (gold_refresh_skipped_payload checked_at)
  else if negb (nonempty (scope_text "tenant_id")) || negb (nonempty (scope_text "workspace_id"))
  then mret (gold_refresh_missing_scope_payload checked_at datasets)
  else
    let airflow_dag_run_id := gold_refresh_airflow_run_id (cols row) child_rows SYNC_AGGREGATE_ENTITY in
    let run_ref := gold_refresh_run_ref (scope_text "workspace_id") cartridge airflow_dag_run_id in
    result ← trying (run_intelligence
                       (gold_refresh_intelligence_payload cartridge datasets row airflow_dag_run_id run_ref gold_refresh_summary));
    match result with
    | Raise e => mret (gold_refresh_error_payload checked_at run_ref datasets (class_name e +:+ ": " +:+ exn_msg e))
    | Ok result => of_res (gold_refresh_result_payload checked_at run_ref datasets (as_dict result))
    end.

(** ** The control room *)

Record ControlRoomStatus := mkControlRoom { cr_ready : bool; cr_checked_at : pyval; cr_snapshot : pydict; cr_update : pydict }.

(** When an update cannot be given, it says the error; the rest is as it was. *)
Definition or_error (ready : bool) (checked_at : string) (snapshot : pydict) (update : res pydict) : io W ControlRoomStatus :=
  match update with
  | Ok update => mret (mkControlRoom ready (PStr checked_at) snapshot update)
  | Raise e => now ← now_iso; mret (mkControlRoom ready (PStr now) snapshot (sync_control_room_error_step_update (exn_msg e)))
  end.

(** Whether the KPIs are there, the time of the check and the snapshot. *)
Definition observe_successfactors (gold_ready : Z) (control_room_gold_refresh : pydict) (persist : bool) : io W (bool * string * pydict) :=
  dashboard_payload ← dashboard persist;
  gold_kpis ← (if nonzero gold_ready then sap_successfactors_gold_kpis else mret (PDict []));
  talent_kpis ← (if nonzero gold_ready then sap_successfactors_talent_kpis else mret (PDict []));
  checked_at ← now_iso;
  snapshot ← of_res (sync_control_room_snapshot dashboard_payload control_room_gold_refresh);
  mret (truthy gold_kpis && truthy talent_kpis, checked_at, snapshot).

Definition observe_dashboard (control_room_gold_refresh : pydict) (persist : bool) : io W (string * pydict) :=
  dashboard_payload ← dashboard persist;
  checked_at ← now_iso;
  snapshot ← of_res (sync_control_room_snapshot dashboard_payload control_room_gold_refresh);
  mret (checked_at, snapshot).

Definition run_sync_control_room_status (cartridge : string) (bronze_ready silver_ready gold_ready : Z) (running_children : bool)
    (control_room_gold_refresh : pydict) (persist : bool) : io W ControlRoomStatus :=
  let some := nonzero bronze_ready || nonzero silver_ready || nonzero gold_ready in
  if bool_decide (cartridge = SAP_SUCCESSFACTORS_CARTRIDGE) && some then
    observed ← trying (observe_successfactors gold_ready control_room_gold_refresh persist);
    match observed with
    | Raise e => now ← now_iso; mret (mkControlRoom false (PStr now) [] (sync_control_room_error_step_update (exn_msg e)))
    | Ok (kpis, checked_at, snapshot) =>
        let publish_failed := bool_decide (row_status control_room_gold_refresh = "failed") in
        let ready := nonzero gold_ready && kpis && negb publish_failed in
        or_error ready checked_at snapshot (sync_control_room_step_update snapshot ready publish_failed gold_ready)
    end
  else if bool_decide (cartridge = SAP_SUCCESSFACTORS_CARTRIDGE) then
    now ← now_iso; mret (mkControlRoom false (PStr now) [] (sync_control_room_waiting_step_update running_children))
  else if some then
    observed ← trying (observe_dashboard control_room_gold_refresh persist);
    match observed with
    | Raise e => now ← now_iso; mret (mkControlRoom false (PStr now) [] (sync_control_room_error_step_update (exn_msg e)))
    | Ok (checked_at, snapshot) =>
        mret (mkControlRoom (nonzero gold_ready) (PStr checked_at) snapshot (sync_control_room_generic_step_update gold_ready))
    end
  else mret (mkControlRoom false PNone [] (sync_control_room_generic_step_update 0)).

(** ** The monitors *)

(** A monitor of the scope that may use one of the tools. *)
Definition is_monitor_candidate (agent : pydict) : res bool :=
  let text k := strip (str_or_empty (get k agent)) in
  if negb (truthy (default (PBool true) (dget "is_active" agent))) then Ok false
  else if negb (nonempty (text "tenant_id") && nonempty (text "workspace_id")) then Ok false
  else
    let extra := default [] (as_dict (get "extra" agent)) in
    tools ← py_iter (py_or (get "allowed_tools" agent) (PList []));
    Ok (bool_decide (lower (strip (str_or_empty (get "role" extra))) = "monitor")
        && is_dict (get "monitor" extra) && truthy (get "monitor" extra)
        && existsb (λ tool, match tool with PStr s => nonempty (strip s) && mem s SYNC_AGENTOPS_TOOLS | _ => false end) tools).
Definition sync_agentops_monitor_candidates (agents : list pydict) : res (list pydict) := filterR is_monitor_candidate agents.

(** What the loop has: completed, failed and results. *)
Record MonitorRuns := mkMonitorRuns { mr_completed : Z; mr_failed : Z; mr_results : list pydict }.
Definition add_result (st : MonitorRuns) (completed failed : Z) (result : pydict) : MonitorRuns :=
  mkMonitorRuns (mr_completed st + completed) (mr_failed st + failed) (mr_results st ++ [result]).

Definition sync_message (cartridge : string) : string :=
  "Ejecuta el monitor operativo posterior a sincronizacion para " +:+ cartridge
  +:+ ". Usa datos reales recien extraidos; no simules.".

(** What is asked of the scheduler; the time is that of the epoch, so that the key alone
    tells the runs of one synchronisation. *)
Definition reservation_of (agent : Agent) (sync_run_id checked_at : string) : pydict :=
  mkdict [("agent_id", PStr (py_str (ag_id agent))); ("tenant_id", PStr (py_str (ag_tenant_id agent)));
          ("workspace_id", PStr (py_str (ag_workspace_id agent))); ("scheduled_fire_at", PStr (isoformat 0));
          ("schedule_key", PStr (sync_agentops_schedule_key sha1 sync_run_id)); ("airflow_dag_run_id", PStr sync_run_id);
          ("metadata", PDict (mkdict [("agent_slug", ag_slug agent); ("cartridge_id", ag_cartridge_id agent);
                                      ("sync_run_id", PStr sync_run_id); ("checked_at", PStr checked_at); ("source", PStr "sync-now")]))].

Definition run_monitor (cartridge sync_run_id checked_at agent_id agent_slug : string) (st : MonitorRuns) : io W MonitorRuns :=
  loaded ← load_agent agent_id;
  match loaded with
  | None => raises RuntimeError "agent not found in scoped runtime"
  | Some agent =>
      if negb (nonempty (strip (str_or_empty (ag_tenant_id agent))) && nonempty (strip (str_or_empty (ag_workspace_id agent))))
      then raises RuntimeError "monitor agent requires tenant/workspace scope"
      else
        reservation ← reserve_scheduled_run (reservation_of agent sync_run_id checked_at);
        if truthy (get "duplicate" reservation) then
          let '(completed, failed) := duplicate_monitor_counters (py_str (py_or (get "status" reservation) (PStr "unknown"))) in
          mret (add_result st completed failed (duplicate_monitor_result agent_id agent_slug reservation))
        else
          result ← execute_reserved_scheduled_monitor agent (sync_message cartridge) reservation checked_at
                     (mkdict [("sync_run_id", PStr sync_run_id); ("checked_at", PStr checked_at)]);
          mret (add_result st 1 0 (scheduled_monitor_success_result agent_id agent_slug (as_dict result) reservation))
  end.

(** A monitor that fails is counted. *)
Definition monitor_row (cartridge sync_run_id checked_at : string) (st : MonitorRuns) (agent_row : pydict) : io W MonitorRuns :=
  let agent_id := strip (str_or_empty (get "id" agent_row)) in
  let agent_slug := py_str (py_or (get "slug" agent_row) (PStr agent_id)) in
  if negb (nonempty agent_id) then mret (add_result st 0 1 (missing_agent_id_result agent_slug))
  else
    handling (run_monitor cartridge sync_run_id checked_at agent_id agent_slug st)
      (λ e, mret (add_result st 0 1 (scheduled_monitor_failure_result agent_id agent_slug (exn_msg e)))).

Fixpoint run_monitors (cartridge sync_run_id checked_at : string) (rows : list pydict) (st : MonitorRuns) : io W MonitorRuns :=
  match rows with
  | [] => mret st
  | row :: rows => st ← monitor_row cartridge sync_run_id checked_at st row; run_monitors cartridge sync_run_id checked_at rows st
  end.

Definition run_sync_agentops_monitors (cartridge sync_run_id : string) : io W pydict :=
  checked_at ← now_iso;
  _ ← ensure_monitors cartridge;
  agents ← list_agents cartridge;
  candidates ← of_res (sync_agentops_monitor_candidates agents);
  let candidates := take 12 candidates in
  if is_nil candidates then mret (no_monitor_candidates_payload checked_at)
  else
    st ← run_monitors cartridge sync_run_id checked_at candidates (mkMonitorRuns 0 0 []);
    mret (sync_agentops_summary checked_at sync_run_id (Z.of_nat (length candidates)) (mr_completed st) (mr_failed st) (mr_results st)).

Definition agentops_failed_payload (checked_at error : string) : pydict :=
  mkdict [("status", PStr "failed"); ("checked_at", PStr checked_at); ("total", PInt 1); ("completed", PInt 0); ("failed", PInt 1);
          ("results", PList []); ("reason", PStr (stake 500 error))].

(** What the agents have done, and the update of their step. *)
Definition run_sync_agentops_status (cartridge sync_run_id : string) (running_children : bool) (bronze_ready silver_ready gold_ready : Z)
    (control_room_update agentops_refresh : pydict) : io W (pydict * pydict) :=
  if mem cartridge AGENTOPS_MONITOR_CARTRIDGES then
    let can_run_agentops := negb running_children && mem (str_or_empty (get "status" control_room_update)) ["success"; "partial"]
                            && (nonzero bronze_ready || nonzero silver_ready || nonzero gold_ready) in
    agentops_refresh ←
      (if can_run_agentops && negb (sync_agentops_is_terminal agentops_refresh) then
         handling (run_sync_agentops_monitors cartridge sync_run_id)
           (λ e, now ← now_iso; mret (agentops_failed_payload now (class_name e +:+ ": " +:+ exn_msg e)))
       else mret agentops_refresh);
    update ← of_res (sync_agents_intelligence_step_update true can_run_agentops running_children agentops_refresh);
    mret (agentops_refresh, update)
  else
    update ← of_res (sync_agents_intelligence_step_update false false running_children []);
    mret ([], update).
End Refreshes.
