(* ===== verification/SyncNow.v ===== *)
(** A synchronisation from request to status (console/app/main.py, from
    [api_cartridge_sync_now] to [api_cartridge_sync_run], and console/app/domains/pipeline/
    sync_state.py and aggregate_trigger.py): it is reserved under the advisory lock of
    its key, the source is probed, its extractions are triggered, and whenever it is
    asked for its status is rebuilt from its runs and kept.

    The route's permission, the resolution of the cartridge and of its connection, and
    the diagnostics that are logged are not modelled. *)
From S2P Require Import Prelude PyStr PyVal PyTime PyJson PyIo PyUuid SyncProgress SyncState PipelineRuns StuckRuns SyncRefreshes.

Open Scope Z_scope.

(** What the check of a DAG before its trigger gives. *)
Record DagPreflight := mkPreflight {
  pf_was_paused : option bool; pf_unpaused : bool; pf_reuse_run_id : option string; pf_message_es : option string; pf_checked : bool }.
Inductive preflight :=
  | passed_preflight (checked : option DagPreflight)
  | refused_409 (detail : pyval). (** [HTTPException(409, detail)] *)

(** What a synchronisation calls beside the table of runs, for the user of the request. *)
Class SyncWorld (W : Type) := {
  advisory_lock : string → W → res unit * W;
  advisory_unlock : string → W → res unit * W;
  call_pipeline : string → W → res pydict * W;
  control_room_cache_invalidate : W → res unit * W;
  invalidate_read_caches : W → res unit * W;
  (** within the timeout of the check, which is a [TimeoutError] *)
  probe_cartridge_connection : string → option string → W → res pyval * W;
  record_probe_event : pydict → W → res unit * W;
  seed_packaged_datasets : option string → string → string → W → res pydict * W;
  pipeline_extract_preflight : string → string → string → W → res preflight * W;
  trigger_airflow_extract_dag : string → pydict → option string → W → res pydict * W;
  api_pipeline_extract_all : string → pydict → W → res pydict * W;
  sleep : Z → W → res unit * W;
  orchestrator_status : string → W → res pydict * W }.

Section SyncNow.
Context {Hrepr : PyRepr}.
Context (json_loads : string → res pyval) (sha1 : string → string) (uuid : string → option string) (jsonb : pydict → res pydict).
Context (jsonb_text : pydict → string) (sha256_hex : string → string) (json_dumps : pyval → string).
Context (parse_iso : string → option instant) (class_name : exn → string).
Context {W : Type} {Hruns : RunsWorld W} {Hrefresh : RefreshWorld W} {Hsync : SyncWorld W}.
(** The audit of a recovery; the context that goes with a DAG, of the user. *)
Context (record_event : pydict → io W unit) (build_security_context : option pydict → pydict).
(** The settings: in seconds, but [stale_after] which is in microseconds. *)
Context (active_window : Z) (stale_after : Z) (auto_neutralize : bool).
Context (user : option pydict).

(** ** The table, for the user *)

Definition _upsert (run_id cartridge mode status : string) (extra : pydict) (error_message : option string) : io W unit :=
  write (λ now t, _upsert_sync_run uuid jsonb now run_id cartridge mode status (context_scope user) extra error_message t).
Definition _fetch_sync_run (cartridge run_id : string) : io W (option RunRow) :=
  query (λ _ t, fetch_sync_run uuid jsonb_text cartridge run_id user t).
Definition _fetch_active_sync_run (cartridge mode target : string) : io W (option RunRow) :=
  query (λ now t, Ok (fetch_active_sync_run uuid jsonb_text now cartridge mode target user active_window t)).
Definition extra_of (row : RunRow) : res pydict := sync_extra_from_row json_loads (cols (run row)).
Definition run_id_of_row (row : RunRow) : string := py_str (get "run_id" (cols (run row))).

(** ** The status *)

(** What the pipeline says of the datasets; when it does not answer, that is an error. *)
Definition pipeline_error (e : exn) : pyval :=
  PDict (mkdict [("entity", PStr "__pipeline__"); ("status_code", PInt 503); ("error", PStr (exn_msg e))]).
Definition pipeline_rows (cartridge : string) (errors : list pyval) : io W (list pyval * list pyval) :=
  payload ← trying (call_pipeline cartridge);
  match payload with
  | Ok payload => rows ← of_res (py_iter (py_or (get "pipeline" payload) (PList []))); mret (rows, errors)
  | Raise e => mret ([], errors ++ [pipeline_error e])
  end.

Definition dict_at (k : string) (d : pydict) : pydict := default [] (as_dict (get k d)).

Definition gold_refresh_step (cartridge : string) (row : RunRow) (child_rows : list pydict) (r : ChildRuntime) (m : Materialization)
    (known : pydict) : io W pydict :=
  if bool_decide (cartridge = SAP_SUCCESSFACTORS_CARTRIDGE) && nonzero (gold_ready m) && negb (rt_running r)
     && negb (control_room_gold_refresh_terminal (PDict known))
  then run_sync_control_room_gold_refresh class_name user cartridge (run row) child_rows (rt_gold_refresh_summary r)
  else mret known.

(** What is kept of the run, and the status its steps have together. *)
Definition persist_status (cartridge : string) (row : RunRow) (st : WorkingState) (child_rows : list pydict) (r : ChildRuntime)
    (errors : list pyval) (gold_refresh : pydict) (cr : ControlRoomStatus) (agentops_refresh : pydict) (steps : list pydict) :
    io W pydict :=
  let status := sync_status_from_steps steps in
  let row_mode := let s := str_or_empty (get "mode" (cols (run row))) in if nonempty s then Some s else None in
  let updated_extra := sync_updated_extra steps (w_triggered st) errors (cr_ready cr) (cr_checked_at cr) (cr_snapshot cr)
    agentops_refresh (rt_gold_refresh_summary r) gold_refresh (rt_aggregate_payload_ready r) (rt_aggregate_summary_pending r)
    (length child_rows) (length (rt_entity_child_rows r)) (rt_entity_summary r) (w_extra st) row_mode in
  _ ← _upsert (run_id_of_row row) cartridge (py_str (py_or (get "mode" (cols (run row))) (get "mode" updated_extra))) status updated_extra
        (sync_run_error_message errors);
  _ ← (if mem status SYNC_TERMINAL_STATUSES then trying control_room_cache_invalidate else mret (Ok tt));
  refreshed ← _fetch_sync_run cartridge (run_id_of_row row);
  of_res (sync_public_payload (run (default row refreshed)) (dupdate (w_extra st) updated_extra)).

Definition build_sync_run_status (cartridge : string) (row : RunRow) (persist_control_room_state : bool) : io W pydict :=
  st ← of_res (sync_run_working_state json_loads (cols (run row)));
  children ← fetch_sync_child_runs uuid jsonb_text parse_iso cartridge (w_child_run_ids st) user;
  let child_rows := (λ c, cols (run c)) <$> (children : list RunRow) in
  now ← utc_now;
  r ← of_res (sync_child_runtime_state json_loads (run row) child_rows (w_child_run_ids st) (w_triggered st) (w_errors st) now stale_after);
  '(rows, errors) ← pipeline_rows cartridge (rt_errors r);
  m ← of_res (sync_materialization_state rows (rt_gold_refresh_summary r));
  gold_refresh ← gold_refresh_step cartridge row child_rows r m (dict_at "control_room_gold_refresh" (w_extra st));
  let updates := sync_core_step_updates (w_triggered st) child_rows r m errors (as_dict (get "connection_check" (w_extra st))) in
  cr ← run_sync_control_room_status cartridge (bronze_ready m) (silver_ready m) (gold_ready m) (rt_running r) gold_refresh
         persist_control_room_state;
  '(agentops_refresh, agents_update) ← run_sync_agentops_status sha1 class_name cartridge (run_id_of_row row) (rt_running r)
    (bronze_ready m) (silver_ready m) (gold_ready m) (cr_update cr) (dict_at "agentops_refresh" (w_extra st));
  steps ← of_res (merge_sync_steps (Some (w_steps st))
                    (updates ++ [("control_room", cr_update cr); ("agents_intelligence", agents_update)]));
  persist_status cartridge row st child_rows r errors gold_refresh cr agentops_refresh steps.

(** ** The reservation *)

Definition _recover_before_reservation (cartridge : string) (max_age_seconds : option Z) : io W (option RecoveryReport) :=
  let normalized := smap (λ c, if bool_decide (c = "-"%char) then "_"%char else c) cartridge in
  recover_before_reservation json_loads uuid jsonb jsonb_text sha256_hex json_dumps parse_iso class_name record_event user cartridge
    [normalized +:+ "_extract"; normalized +:+ "_extract_all"] auto_neutralize max_age_seconds 50.

(** A request that was made before: its run, as it is or rebuilt. *)
Definition _existing_sync_now_response (cartridge run_id : string) (request_id : option string) : io W (option pydict) :=
  if negb (nonempty (default "" request_id)) then mret None
  else
    existing ← _fetch_sync_run cartridge run_id;
    match existing with
    | None => mret None
    | Some row =>
        extra ← of_res (extra_of row);
        if mem (row_status (cols (run row))) SYNC_TERMINAL_STATUSES && negb (sync_run_needs_final_reconcile (cols (run row)) extra)
        then payload ← of_res (sync_public_payload (run row) extra); mret (Some payload)
        else payload ← build_sync_run_status cartridge row true; mret (Some payload)
    end.

(** A run of the same key that goes on. *)
Definition _active_sync_now_response (cartridge mode target : string) : io W (option pydict) :=
  active ← _fetch_active_sync_run cartridge mode target;
  match active with
  | None => mret None
  | Some row =>
      active_status ← build_sync_run_status cartridge row true;
      mret (if mem (row_status active_status) SYNC_TERMINAL_STATUSES then None else Some active_status)
  end.

Definition _record_sync_now_start (run_id cartridge mode target : string) (conn_id request_id : option string) : io W (list pydict) :=
  initial ← of_res initial_sync_steps;
  steps ← of_res (merge_sync_steps (Some (PDict <$> (initial : list pydict))) sync_start_step_updates);
  _ ← _upsert run_id cartridge mode "running" (sync_running_extra mode target conn_id request_id steps) None;
  mret steps.

Definition _sync_now_lock_key (cartridge mode target : string) (conn_id : option string) : string :=
  sync_now_lock_key cartridge mode target (opt_str conn_id) (get "tenant_id" (context_scope user)) (get "workspace_id" (context_scope user)).

(** [fresh] is the text of a new [uuid4]. *)
Definition _reserve_sync_now_run_or_response (fresh cartridge mode target : string) (conn_id request_id : option string) :
    io W (string * list pydict * option pydict) :=
  let lock_key := _sync_now_lock_key cartridge mode target conn_id in
  _ ← _recover_before_reservation cartridge (Some active_window);
  _ ← advisory_lock lock_key;
  finally
    (let run_id := sync_now_run_id_from_request_id sha1 fresh cartridge request_id lock_key in
     existing ← _existing_sync_now_response cartridge run_id request_id;
     match existing with
     | Some response => mret (run_id, [], Some response)
     | None =>
         active ← _active_sync_now_response cartridge mode target;
         match active with
         | Some response => mret (run_id, [], Some response)
         | None => steps ← _record_sync_now_start run_id cartridge mode target conn_id request_id; mret (run_id, steps, None)
         end
     end)
    (advisory_unlock lock_key).
(** ** The probe of the source *)

Definition failed_probe (message : string) (latency_ms : Z) : pydict :=
  mkdict [("checked", PBool false); ("ok", PBool false); ("message", PStr message); ("latency_ms", PInt latency_ms); ("status", PNone);
          ("missing", PNone)].
Definition probe_event (cartridge : string) (conn_id : option string) (probe : pydict) : pydict :=
  mkdict [("action", PStr "pipeline.sync_now.connection_probe"); ("resource_type", PStr "cartridge"); ("resource_id", PStr cartridge);
          ("status", PStr (if truthy (get "ok" probe) then "success" else "failure"));
          ("metadata", PDict (mkdict
             ([("checked", PBool (truthy (get "checked" probe))); ("latency_ms", get "latency_ms" probe);
               ("outcome_message", PStr (stake 160 (str_or_empty (get "message" probe))))]
              ++ given (nonempty (default "" conn_id)) "conn_id" (opt_str conn_id))))].

(** The event of what is not a dictionary raises, and that is passed over too. *)
Definition _run_sync_now_connection_probe (cartridge : string) (conn_id : option string) : io W pyval :=
  probe ← handling (probe_cartridge_connection cartridge conn_id)
    (λ e, mret (PDict (if exn_isa (exn_cls e) TimeoutError then failed_probe "connection check timed out" 10000
                       else failed_probe (let m := stake 200 (exn_msg e) in if nonempty m then m else "connection check error") 0)));
  _ ← trying (match probe with
              | PDict p => record_probe_event (probe_event cartridge conn_id p)
              | _ => raises AttributeError "get"
              end);
  mret probe.

(** The check, the steps, and the answer when the source refused. *)
Definition sync_now_connection_check_or_response (cartridge mode target : string) (conn_id request_id : option string) (run_id : string)
    (steps : list pydict) : io W (pydict * list pydict * option pydict) :=
  probe ← _run_sync_now_connection_probe cartridge conn_id;
  let connection_check := sync_connection_check_state (default [] (as_dict probe)) in
  if negb (eq_str (get "status" connection_check) "failed") then mret (connection_check, steps, None)
  else
    let message := str_or_empty (get "message" connection_check) in
    let failure_kind := py_str (py_or (get "failure_kind" connection_check) (PStr "credentials")) in
    let headline := sync_connection_failure_headline failure_kind in
    steps ← of_res (merge_sync_steps (Some (PDict <$> steps)) (sync_connection_failure_step_updates message failure_kind));
    _ ← _upsert run_id cartridge mode "failed" (sync_connection_failure_extra mode target conn_id request_id steps message connection_check)
          (Some (stake 500 (if nonempty message then headline +:+ ": " +:+ message else headline)));
    row ← _fetch_sync_run cartridge run_id;
    match row with
    | Some row =>
        extra ← of_res (extra_of row);
        payload ← of_res (sync_public_payload (run row) extra);
        mret (connection_check, steps, Some payload)
    | None => raises (HTTPException 500) "sync connection check failed before Airflow trigger"
    end.

(** ** The datasets that come packaged *)

Definition ensure_sync_packaged_datasets (cartridge : string) : io W pydict :=
  if negb (bool_decide (cartridge = SAP_SUCCESSFACTORS_CARTRIDGE))
  then mret (mkdict [("status", PStr "skipped"); ("reason", PStr "cartridge_not_packaged")])
  else
    '(tenant_id, workspace_id) ← of_res (workspace_scope_from_user user);
    seed_packaged_datasets tenant_id workspace_id cartridge.

Definition _sync_packaged_dataset_seed_failure_response (e : exn) (cartridge mode target : string) (conn_id request_id : option string)
    (run_id : string) (steps : list pydict) : io W (option pydict * list pydict * option pydict) :=
  let message := class_name e +:+ ": " +:+ exn_msg e in
  steps ← of_res (merge_sync_steps (Some (PDict <$> steps)) (sync_dataset_seed_failure_step_updates message));
  _ ← _upsert run_id cartridge mode "failed" (sync_dataset_seed_failure_extra mode target conn_id request_id steps message)
        (Some (stake 500 message));
  row ← _fetch_sync_run cartridge run_id;
  match row with
  | Some row =>
      extra ← of_res (extra_of row); payload ← of_res (sync_public_payload (run row) extra); mret (None, steps, Some payload)
  | None => raises (HTTPException 500) "sync packaged dataset seed failed before Airflow trigger"
  end.

Definition _seed_sync_packaged_datasets_or_response (cartridge mode target : string) (conn_id request_id : option string)
    (run_id : string) (steps : list pydict) : io W (option pydict * list pydict * option pydict) :=
  if negb (bool_decide (cartridge = SAP_SUCCESSFACTORS_CARTRIDGE)) then mret (None, steps, None)
  else
    handling (seed ← ensure_sync_packaged_datasets cartridge; mret (Some seed, steps, None))
      (λ e, _sync_packaged_dataset_seed_failure_response e cartridge mode target conn_id request_id run_id steps).

(** ** The trigger of the extractions *)

Definition given_text (o : option string) : bool := nonempty (default "" o).

Definition dag_run_id_from_idempotency_key (dag_id : string) (idempotency_key : option string) : res (option string) :=
  match idempotency_key with
  | None => Ok None
  | Some key =>
      let key := strip key in
      if negb (nonempty key) then Ok None
      else if Nat.ltb 160 (slen key) then raise (HTTPException 400) "idempotency_key is too long"
      else Ok (Some ("console__" +:+ dag_id +:+ "__" +:+ url_digest sha1 (dag_id +:+ ":" +:+ key)))
  end.

(** The scope of the user over that of the configuration, which may not be another. *)
Definition scoped_value (k : string) (value : pyval) (conf : pydict) : res pydict :=
  let existing := get k conf in
  if truthy existing && negb (bool_decide (py_str existing = py_str value)) then raise (HTTPException 403) (k +:+ " scope mismatch")
  else Ok (dset k (PStr (py_str value)) conf).
Definition apply_user_scope_to_dag_conf (conf : pydict) : res pydict :=
  let scoped := dpop "security_context" conf in
  let ctx := build_security_context user in
  let tenant_id := get "tenant_id" ctx in
  let workspace_id := get "workspace_id" ctx in
  if negb (truthy tenant_id) || negb (truthy workspace_id) then Ok scoped
  else
    scoped ← scoped_value "tenant_id" tenant_id scoped;
    scoped ← scoped_value "workspace_id" workspace_id scoped;
    Ok (dset "security_context" (PDict ctx) scoped).

(** What an aggregate trigger answers, and how it goes on. *)
Definition aggregate_payload (cartridge : string) (triggered errors : list pyval) (rest : list (string * pyval)) : pydict :=
  mkdict ([("cartridge", PStr cartridge); ("triggered", PList triggered); ("errors", PList errors);
           ("count", PInt (Z.of_nat (length triggered))); ("error_count", PInt (Z.of_nat (length errors)));
           ("trigger_strategy", PStr "aggregate_dag")] ++ rest).

Definition _preflight_error_payload (cartridge : string) (detail : pyval) : pydict :=
  let d := default [] (as_dict detail) in
  aggregate_payload cartridge []
    [PDict (mkdict ([("entity", PStr SYNC_AGGREGATE_ENTITY); ("status_code", PInt 409);
                     ("error", PStr (py_str (py_or (py_or (get "public_message" d) (get "message" d)) detail)))]
                    ++ given (truthy (get "reason" d)) "reason" (PStr (py_str (get "reason" d)))))] [].

Definition opt_bool (o : option bool) : pyval := match o with Some b => PBool b | None => PNone end.
Definition automation_of (c : option DagPreflight) : list (string * pyval) :=
  match c with
  | Some p => given (pf_checked p) "automation"
                (PDict (mkdict [("was_paused", opt_bool (pf_was_paused p)); ("unpaused", PBool (pf_unpaused p));
                                ("message_es", opt_str (pf_message_es p))]))
  | None => []
  end.

Definition aggregate_conf (cartridge mode target : string) (conn_id : option string) (run_id : string) : pydict :=
  mkdict ([("cartridge_id", PStr cartridge); ("mode", PStr mode); ("target", PStr target); ("idempotency_key", PStr run_id)]
          ++ given (given_text conn_id) "conn_id" (opt_str conn_id)).

(** The DAG is triggered, and recorded as a run. *)
Definition trigger_aggregate (cartridge dag_id mode target : string) (conn_id : option string) (run_id : string)
    (automation : list (string * pyval)) : io W pydict :=
  conf ← of_res (apply_user_scope_to_dag_conf (aggregate_conf cartridge mode target conn_id run_id));
  requested ← of_res (dag_run_id_from_idempotency_key dag_id (Some run_id));
  result ← trigger_airflow_extract_dag dag_id conf requested;
  if truthy (get "error" result) then
    mret (aggregate_payload cartridge []
            [PDict (mkdict [("entity", PStr SYNC_AGGREGATE_ENTITY); ("status_code", PInt 502);
               ("error", PStr (of_utf8 "No se pudo iniciar la extracción en el orquestador: " +:+ py_str (get "error" result)));
               ("reason", PStr "airflow_trigger_failed")])] [])
  else
    let dag_run_id := py_or (py_or (get "dag_run_id" result) (get "run_id" result)) (opt_str requested) in
    _ ← write (λ now t, record_dag_pipeline_trigger uuid jsonb now cartridge SYNC_AGGREGATE_ENTITY dag_id (str_or_empty dag_run_id) mode
                 (Some (py_str (py_or (get "state" result) (PStr "queued")))) conf (text_of (get "tenant_id" conf))
                 (text_of (get "workspace_id" conf)) t);
    mret (aggregate_payload cartridge
            [PDict (mkdict [("entity", PStr SYNC_AGGREGATE_ENTITY); ("job_id", dag_run_id); ("dag_run_id", dag_run_id);
                            ("dag_id", PStr dag_id); ("state", get "state" result); ("result", PDict result)])] [] automation).

Definition reused_payload (cartridge dag_id reuse_run_id : string) (automation : list (string * pyval)) : pydict :=
  let id := PStr reuse_run_id in
  aggregate_payload cartridge
    [PDict (mkdict [("entity", PStr SYNC_AGGREGATE_ENTITY); ("job_id", id); ("dag_run_id", id); ("dag_id", PStr dag_id); ("state", PNone);
                    ("reused", PBool true)])] []
    ([("reused", PBool true); ("reason", PStr "active_extract_all_run")] ++ automation).

Definition trigger_sync_aggregate_extract_all (cartridge mode target : string) (conn_id : option string) (run_id : string) :
    io W (option pydict) :=
  match afind cartridge SYNC_EXTRACT_ALL_DAGS with
  | None => mret None
  | Some dag_id =>
      checked ← pipeline_extract_preflight dag_id mode target;
      match checked with
      | refused_409 detail => mret (Some (_preflight_error_payload cartridge detail))
      | passed_preflight c =>
          let reuse_run_id := default "" (c ≫= pf_reuse_run_id) in
          if nonempty reuse_run_id then mret (Some (reused_payload cartridge dag_id reuse_run_id (automation_of c)))
          else
            payload ← trigger_aggregate cartridge dag_id mode target conn_id run_id (automation_of c);
            mret (Some payload)
      end
  end.
(** [maybe_trigger_aggregate_extract_all], of the route that extracts everything; [conn_id]
    is resolved of the body. *)
Definition maybe_trigger_aggregate_extract_all (fresh cartridge : string) (body : pydict) (conn_id : option string) :
    io W (option pydict) :=
  match afind cartridge SYNC_EXTRACT_ALL_DAGS with
  | None => mret None
  | Some _ =>
      '(mode, target) ← of_res (pipeline_extract_all_mode_target body);
      run_id ← of_res (pipeline_extract_all_run_id sha1 fresh cartridge mode target conn_id body);
      result ← trigger_sync_aggregate_extract_all cartridge mode target conn_id run_id;
      match result with
      | None => mret None
      | Some result => response ← of_res (extract_all_public_response result); mret (Some response)
      end
  end.

Definition extract_attempt (cartridge mode target : string) (conn_id : option string) (run_id : string) (extract_body : pydict) :
    io W pydict :=
  aggregate_result ← trigger_sync_aggregate_extract_all cartridge mode target conn_id run_id;
  match aggregate_result with Some result => mret result | None => api_pipeline_extract_all cartridge extract_body end.

(** [for attempt in range(...)]: [more] attempts, of which the first is [attempt]. *)
Fixpoint extract_attempts (cartridge mode target : string) (conn_id : option string) (run_id : string) (extract_body : pydict)
    (more : nat) (attempt : Z) : io W (pydict * Z) :=
  match more with
  | O => mret ([], 0)
  | S more =>
      result ← extract_attempt cartridge mode target conn_id run_id extract_body;
      if is_listed (get "triggered" result) then mret (result, attempt)
      else
        retry ← of_res (sync_errors_retryable (list_or_nil (get "errors" result)));
        if negb retry || Nat.eqb more 0 then mret (result, attempt)
        else
          _ ← sleep (2 * attempt);
          extract_attempts cartridge mode target conn_id run_id extract_body more (attempt + 1)
  end.

Definition run_sync_extract_all_with_retries (cartridge mode target : string) (conn_id : option string) (run_id : string)
    (extract_body : pydict) : io W (pydict * Z) :=
  extract_attempts cartridge mode target conn_id run_id extract_body 3 1.

Definition _sync_extract_all_trigger_body (mode target run_id : string) (conn_id : option string) : pydict :=
  mkdict ([("mode", PStr mode); ("target", PStr target); ("idempotency_key", PStr run_id)]
          ++ given (given_text conn_id) "conn_id" (opt_str conn_id)).

Definition _trigger_sync_extract_all_components (cartridge mode target : string) (conn_id : option string) (run_id : string) :
    io W (pydict * Z * list pyval * list pyval) :=
  '(result, attempts) ← run_sync_extract_all_with_retries cartridge mode target conn_id run_id
                          (_sync_extract_all_trigger_body mode target run_id conn_id);
  let state := sync_extract_all_result_state result in
  mret (result, attempts, rs_triggered state, rs_errors state).

Definition _persist_sync_extract_trigger_result (run_id cartridge mode target : string) (conn_id request_id : option string)
    (steps : list pydict) (triggered_entities errors : list pyval) (attempts : Z) (result : pydict) (dataset_seed : option pydict)
    (connection_check : pydict) : io W (list pydict) :=
  steps ← of_res (merge_sync_steps (Some (PDict <$> steps))
                    (sync_extract_all_trigger_step_updates triggered_entities errors attempts (Some connection_check)));
  _ ← _upsert run_id cartridge mode (sync_status_from_steps steps)
        (sync_extract_all_trigger_extra mode target conn_id request_id steps triggered_entities errors result dataset_seed
           (Some connection_check))
        (sync_extract_all_error_message errors);
  mret steps.

Definition _sync_now_status_or_diagnostics (run_id cartridge : string) : io W pydict :=
  row ← _fetch_sync_run cartridge run_id;
  match row with
  | Some row => build_sync_run_status cartridge row true
  | None => raises (HTTPException 500) "sync run was not recorded; scope diagnostics logged"
  end.

(** ** The requests *)

Definition _continue_sync_now_after_reservation (cartridge mode target : string) (conn_id request_id : option string) (run_id : string)
    (steps : list pydict) : io W pydict :=
  '(connection_check, steps, connection_response) ←
    sync_now_connection_check_or_response cartridge mode target conn_id request_id run_id steps;
  match connection_response with
  | Some response => mret response
  | None =>
      '(dataset_seed, steps, early_response) ←
        _seed_sync_packaged_datasets_or_response cartridge mode target conn_id request_id run_id steps;
      match early_response with
      | Some response => mret response
      | None =>
          '(result, attempts, triggered_entities, errors) ← _trigger_sync_extract_all_components cartridge mode target conn_id run_id;
          _ ← _persist_sync_extract_trigger_result run_id cartridge mode target conn_id request_id steps triggered_entities errors attempts
                result dataset_seed connection_check;
          _sync_now_status_or_diagnostics run_id cartridge
      end
  end.

(** The cartridge and its connection are resolved. *)
Definition api_cartridge_sync_now (fresh cartridge : string) (body : pydict) (resolve_conn_id : pyval → io W (option string)) : io W pydict :=
  mode ← of_res (sync_clean_mode (get "mode" body));
  target ← of_res (sync_clean_target (get "target" body));
  conn_id ← resolve_conn_id (py_or (get "conn_id" body) (get "connection_id" body));
  request_id ← of_res (normalize_sync_now_request_id (py_or (get "request_id" body) (get "idempotency_key" body)));
  '(run_id, steps, reserved_response) ← _reserve_sync_now_run_or_response fresh cartridge mode target conn_id request_id;
  match reserved_response with
  | Some response => mret response
  | None =>
      _ ← invalidate_read_caches;
      _continue_sync_now_after_reservation cartridge mode target conn_id request_id run_id steps
  end.

Definition with_orchestrator (cartridge : string) (payload : pydict) : io W pydict :=
  block ← orchestrator_status cartridge; mret (dset "orchestrator" (PDict block) payload).

Definition api_cartridge_active_sync_run (cartridge : string) (mode target conn_id : pyval)
    (resolve_conn_id : pyval → io W (option string)) : io W pydict :=
  mode ← of_res (sync_clean_mode mode);
  target ← of_res (sync_clean_target target);
  resolved ← resolve_conn_id conn_id;
  row ← _fetch_active_sync_run cartridge mode target;
  match row with
  | None => mret (inactive_sync_run_payload cartridge mode target resolved)
  | Some row =>
      payload ← handling (build_sync_run_status cartridge row false)
        (λ _, of_res (extra ← extra_of row; sync_public_payload (run row) extra));
      with_orchestrator cartridge payload
  end.

Definition api_cartridge_sync_run (cartridge run_id : string) : io W pydict :=
  row ← _fetch_sync_run cartridge run_id;
  match row with
  | None => raises (HTTPException 404) "sync run not found"
  | Some row =>
      extra ← of_res (extra_of row);
      payload ← (if mem (str_or_empty (get "status" (cols (run row)))) SYNC_TERMINAL_STATUSES
                    && negb (sync_run_needs_final_reconcile (cols (run row)) extra)
                 then of_res (sync_public_payload (run row) extra)
                 else build_sync_run_status cartridge row false);
      with_orchestrator cartridge payload
  end.
End SyncNow.
