(* ===== verification/SyncNowSafety.v ===== *)
(** What a synchronisation keeps while others work on the same table: under the lock of its
    key it starts when no other run of its source, mode, target and connection goes on,
    and none comes to while it starts. *)
From S2P Require Import Prelude PyStr PyVal PyTime PyJson PyIo PyUuid SyncProgress SyncState PipelineRuns RunsFrame PipelineRunsSafety StuckRuns SyncRefreshes SyncNow.

Open Scope Z_scope.

(** ** Rows of the scope *)

Lemma latest_in rows kr : latest rows = Some kr → kr ∈ rows.
Proof.
  unfold latest. assert (H : ∀ l b, foldl (λ best row, match best with Some b => if later b row then Some row else Some b | None => Some row end) b l = Some kr →
    kr ∈ l ∨ b = Some kr).
  { induction l as [|x l IH]; simpl; intros b Hb; [by right|]. apply IH in Hb as [Hb|Hb]; [left; by right|].
    destruct b as [b|]; [destruct (later b x)|]; simplify_eq; (try by right); left; left. }
  intros Hl. by apply H in Hl as [Hl|Hl].
Qed.

Lemma latest_none rows : latest rows = None → rows = [].
Proof.
  unfold latest. assert (H : ∀ l b, is_Some b → is_Some (foldl (λ best row, match best with Some b => if later b row then Some row else Some b
    | None => Some row end) b l)).
  { induction l as [|x l IH]; simpl; intros b [y ->]; [by eexists|]. apply IH. destruct (later y x); by eexists. }
  destruct rows as [|x rows]; [done|]. simpl. intros Hn. destruct (H rows (Some x) ltac:(by eexists)) as [y Hy]. congruence.
Qed.

Section Scope.
Context {Hrepr : PyRepr}.
Context (uuid : string → option string) (jsonb : pydict → res pydict) (jsonb_text : pydict → string).
Context (user : option pydict) (tenant workspace : string).

(** The user is in the workspace, with the tenant, that the texts name. *)
Record signed_in : Prop := mkSignedIn {
  si_session : scoped_session user = Ok (mkSession tenant workspace);
  si_predicate : pipeline_runs_scope_predicate user = (Some tenant, Some workspace);
  si_values : _sync_run_scope_values (context_scope user) = (Some tenant, Some workspace);
  si_tenant : uuid tenant = Some tenant; si_workspace : uuid workspace = Some workspace;
  si_nonempty : tenant ≠ "" ∧ workspace ≠ "" }.
Context (Hin : signed_in).

Definition in_scope (r : Row) : Prop := r_tenant_id r = Some tenant ∧ r_workspace_id r = Some workspace.

Lemma signed_truthy : truthy (get "tenant_id" (context_scope user)) = true.
Proof. pose proof (si_predicate Hin) as H. unfold pipeline_runs_scope_predicate in H. by destruct (truthy _). Qed.

Lemma rls_in_scope r : in_scope r ↔ omega_rls_workspace_matches (mkSession tenant workspace) r && in_clauses (Some tenant, Some workspace) r = true.
Proof.
  unfold omega_rls_workspace_matches, in_clauses, is_setting, in_scope. cbn. destruct (si_nonempty Hin) as [Ht Hw].
  apply nonempty_true in Ht, Hw. rewrite Ht, Hw. rewrite !andb_true_iff, !bool_decide_eq_true. cbn. split.
  - intros [-> ->]. by rewrite bool_decide_true.
  - by intros [_ [? ?]].
Qed.

Lemma rows_of_in t : ∃ rows, rows_of uuid user t = Ok rows ∧ ∀ kr, kr ∈ rows ↔ t !! kr.1 = Some kr.2 ∧ in_scope kr.2.
Proof.
  unfold rows_of. rewrite (si_session Hin), (si_predicate Hin). unfold cast_value, cast_uuid. cbn.
  rewrite (si_tenant Hin), (si_workspace Hin). cbn. eexists. split; [done|]. intros [k r].
  rewrite elem_of_List_filter, elem_of_map_to_list. cbn. by rewrite rls_in_scope.
Qed.

(** ** What is in progress *)

Definition going_on (window : Z) (cartridge mode target : string) (now : instant) (t : Table) (id : string) : Prop :=
  ∃ r, t !! id = Some r ∧ in_scope r ∧ is_active_sync_run now cartridge mode target window r = true.

Lemma going_on_earlier window cartridge mode target n n' t id :
  n ≤ n' → going_on window cartridge mode target n' t id → going_on window cartridge mode target n t id.
Proof.
  intros Hn (r & Hr & Hs & Ha). exists r. split; [done|]. split; [done|]. unfold is_active_sync_run in *.
  rewrite !andb_true_iff in *. destruct Ha as [Ha Hs']. split; [done|]. destruct (r_started_at r); [|done]. apply Z.ltb_lt in Hs'.
  apply Z.ltb_lt. lia.
Qed.

Lemma active_entity now cartridge mode target window r : is_active_sync_run now cartridge mode target window r = true →
  r_entity r = SYNC_NOW_ENTITY ∧ mem (r_status r) SYNC_TERMINAL_STATUSES = false.
Proof. unfold is_active_sync_run. rewrite !andb_true_iff, !bool_decide_eq_true, negb_true_iff. by intros (((((_ & ?) & ?) & _) & _) & _). Qed.

Lemma fetch_active_spec now cartridge mode target window t :
  match fetch_active_sync_run uuid jsonb_text now cartridge mode target user window t with
  | Some row => ∃ id r, row = row_dict jsonb_text id r ∧ t !! id = Some r ∧ in_scope r ∧ is_active_sync_run now cartridge mode target window r = true
  | None => ∀ id, ¬ going_on window cartridge mode target now t id
  end.
Proof.
  unfold fetch_active_sync_run. destruct (rows_of_in t) as (rows & -> & Hr).
  destruct (latest _) as [[id r]|] eqn:El; simpl.
  - apply latest_in, elem_of_List_filter in El as [[H1 H2]%Hr Ha]. by exists id, r.
  - apply latest_none in El. intros id (r & H1 & H2 & Ha). assert (Hx : (id, r) ∈ rows) by by apply Hr.
    assert (Hf : (id, r) ∈ List.filter (λ kr, is_active_sync_run now cartridge mode target window kr.2) rows) by by apply elem_of_List_filter.
    rewrite El in Hf. by apply elem_of_nil in Hf.
Qed.

Lemma fetch_sync_spec cartridge run_id t row :
  fetch_sync_run uuid jsonb_text cartridge run_id user t = Ok row →
  match row with
  | Some row => ∃ r, row = row_dict jsonb_text run_id r ∧ t !! run_id = Some r ∧ r_entity r = SYNC_NOW_ENTITY
  | None => True
  end.
Proof.
  unfold fetch_sync_run. destruct (rows_of_in t) as (rows & -> & Hr). cbn. intros [= <-].
  destruct (List.find _ rows) as [[id r]|] eqn:Ef; simpl; [|done].
  apply List.find_some in Ef as [Hx%list_elem_of_In Hp]. apply Hr in Hx as [Hx _]. simpl in *.
  rewrite !andb_true_iff, !bool_decide_eq_true in Hp. destruct Hp as [[_ ->] ?]. by exists r.
Qed.

(** The statuses of synchronisations are kept in lower case. *)
Definition plain_syncs (t : Table) : Prop :=
  ∀ id r, t !! id = Some r → r_entity r = SYNC_NOW_ENTITY → r_status r ≠ "" ∧ lower (r_status r) = r_status r.
Definition keeps_plain (t t' : Table) : Prop := plain_syncs t → plain_syncs t'.
#[export] Instance keeps_plain_pre : PreOrder keeps_plain.
Proof. split; [by intros t H|]. intros t1 t2 t3 H1 H2 H. by apply H2, H1. Qed.

(** What an upsert of the run [id] may do. *)
Definition of_run (id : string) (t t' : Table) : Prop := agree_off [id] t t' ∧ keeps_plain t t'.
#[export] Instance of_run_pre id : PreOrder (of_run id).
Proof. split; [intros t; by split|]. intros t1 t2 t3 [] []. split; by etransitivity. Qed.

Lemma upsert_off now run_id cartridge mode status extra error t t' :
  _upsert_sync_run uuid jsonb now run_id cartridge mode status (context_scope user) extra error t = Ok t' →
  agree_off [run_id] t t' ∧ is_Some (t' !! run_id)
  ∧ (status ≠ "" → lower status = status → keeps_plain t t').
Proof.
  clear jsonb_text. unfold _upsert_sync_run, _execute_sync_run_upsert_for_scope. rewrite (si_values Hin). cbn. rewrite andb_false_r.
  unfold cast_uuid. rewrite (si_tenant Hin), (si_workspace Hin). intros (e & _ & H)%bind_ok. cbn in H. unfold insert_or_update in H.
  set (new := new_row _ _ _ _ _ _ _ _ _ _ _ _) in H.
  assert (∃ r, t' = <[run_id := r]> t ∧ (r = new ∨ ∃ old, t !! run_id = Some old ∧ r = merge_sync_run old new)) as (r & -> & Hr).
  { destruct (t !! run_id) as [old|]; cbv zeta in H; (match type of H with (if ?b then _ else _) = _ => destruct b end; [|done]);
      injection H as <-; eexists; (split; [done|]); [right; by eexists|by left]. }
  split; [intros id Hid; rewrite lookup_insert_ne; [done|set_solver]|]. split; [rewrite lookup_insert_eq; by eexists|].
  intros Hs Hl Hp id x Hx He. destruct (decide (id = run_id)) as [->|Hne]; [|rewrite lookup_insert_ne in Hx by done; by apply (Hp id)].
  rewrite lookup_insert_eq in Hx. injection Hx as <-. destruct Hr as [->|(old & Hold & ->)]; [by split|].
  simpl in He. destruct (Hp _ _ Hold He) as [H1 H2]. simpl. unfold postgres_monotonic_status. by destruct (postgres_status_advances _ _).
Qed.
End Scope.

(** ** One synchronisation at a time *)

Section SingleFlight.
Context {Hrepr : PyRepr}.
Context (json_loads : string → res pyval) (sha1 : string → string) (uuid : string → option string) (jsonb : pydict → res pydict).
Context (jsonb_text : pydict → string) (sha256_hex : string → string) (json_dumps : pyval → string).
Context (parse_iso : string → option instant) (class_name : exn → string).
Context {W : Type} {Hruns : RunsWorld W} {Hrefresh : RefreshWorld W} {Hsync : SyncWorld W}.
Context (record_event : pydict → io W unit).
Context (active_window stale_after : Z) (auto_neutralize : bool).
Context (user : option pydict) (tenant workspace : string) (Hin : signed_in uuid user tenant workspace).
(** The request. *)
Context (cartridge mode target : string) (conn_id : option string).

Abbreviation lock_key := (_sync_now_lock_key user cartridge mode target conn_id).
Abbreviation recovered := (_recover_before_reservation json_loads uuid jsonb jsonb_text sha256_hex json_dumps parse_iso class_name record_event
  auto_neutralize user cartridge (Some active_window)).
Abbreviation repeated run_id request_id :=
  (_existing_sync_now_response json_loads sha1 uuid jsonb jsonb_text parse_iso class_name stale_after user cartridge run_id request_id).
Abbreviation in_flight :=
  (_active_sync_now_response json_loads sha1 uuid jsonb jsonb_text parse_iso class_name active_window stale_after user cartridge mode target).
Abbreviation recorded run_id request_id := (_record_sync_now_start uuid jsonb user run_id cartridge mode target conn_id request_id).
Abbreviation ongoing := (going_on tenant workspace active_window cartridge mode target).

(** A run of the connection of the request, as its lock has it. *)
Definition of_connection (r : Row) : Prop :=
  stripped_or (get "conn_id" (default [] (r_extra r))) "__default__" = stripped_or (opt_str conn_id) "__default__".
Definition same_key (now : instant) (t : Table) (id : string) : Prop :=
  ∃ r, t !! id = Some r ∧ of_connection r ∧ in_scope tenant workspace r ∧ is_active_sync_run now cartridge mode target active_window r = true.

(** What others may do while the lock is held: whatever they write, statuses stay in lower
    case, and no run of the key comes to be in progress. *)
Definition respects (t t' : Table) : Prop := keeps_plain t t' ∧ ∀ now id, same_key now t' id → same_key now t id.

(** The lock is held from the time it is given; others work whenever the world is called. *)
Class SharedWorld (held : W → Prop) := {
  shared_runs :: SharedRuns held respects;
  lock_held : ∀ w w', advisory_lock lock_key w = (Ok tt, w') → held w';
  intelligence_shared : ∀ p, within held respects (run_intelligence p);
  dashboard_shared : ∀ b, within held respects (dashboard b);
  gold_kpis_shared : within held respects sap_successfactors_gold_kpis;
  talent_kpis_shared : within held respects sap_successfactors_talent_kpis;
  ensure_shared : ∀ c, within held respects (ensure_monitors c);
  list_shared : ∀ c, within held respects (list_agents c);
  load_shared : ∀ c, within held respects (load_agent c);
  reserve_shared : ∀ p, within held respects (reserve_scheduled_run p);
  execute_shared : ∀ a m p t d, within held respects (execute_reserved_scheduled_monitor a m p t d);
  pipeline_shared : ∀ c, within held respects (call_pipeline c);
  cache_shared : within held respects control_room_cache_invalidate }.

Context (held : W → Prop) {Hworld : SharedWorld held}.

Abbreviation build := (build_sync_run_status json_loads sha1 uuid jsonb jsonb_text parse_iso class_name stale_after user).
Abbreviation upsert := (_upsert uuid jsonb user).

(** What a run that is rebuilt, or started, may do with the others: of the key none but the
    run [id] comes to be in progress. *)
Definition others_stay (id : string) (t t' : Table) : Prop :=
  keeps_plain t t' ∧ ∀ now j, j ≠ id → same_key now t' j → same_key now t j.
#[local] Instance respects_pre : PreOrder respects.
Proof. split; [by split|]. intros t1 t2 t3 [H1 H2] [H3 H4]. split; [by etransitivity|auto]. Qed.
#[local] Instance others_stay_pre id : PreOrder (others_stay id).
Proof. split; [by split|]. intros t1 t2 t3 [H1 H2] [H3 H4]. split; [by etransitivity|auto]. Qed.

Lemma respects_stay id t t' : respects t t' → others_stay id t t'.
Proof. intros [H1 H2]. split; auto. Qed.
Hint Resolve respects_stay intelligence_shared dashboard_shared gold_kpis_shared talent_kpis_shared ensure_shared list_shared load_shared
  reserve_shared execute_shared pipeline_shared cache_shared : within.

Lemma of_run_stay id t t' : of_run id t t' → others_stay id t t'.
Proof.
  intros [Hoff Hp]. split; [done|]. intros now j Hj (r & Hr & H). exists r. split; [|done]. rewrite <- (Hoff j); [done|].
  by intros ?%list_elem_of_singleton.
Qed.

Section Rebuild.
Context (R : Table → Table → Prop) {Hpre : PreOrder R} (HR : ∀ t t', respects t t' → R t t').

Lemma mcp_along s t d : within held R (mcp_invoke s t d).
Proof. by apply (within_mcp held respects). Qed.
Lemma query_along {A} (f : instant → Table → res A) : within held R (query f).
Proof. by apply (within_query held respects). Qed.
Lemma now_along : within held R utc_now.
Proof. by apply (within_now held respects). Qed.
Lemma others_along {A} (m : W → A * W) : within held respects m → within held R m.
Proof. by apply within_others. Qed.
Hint Resolve mcp_along query_along now_along others_along : within.

(** The runs of the entities are read, and none is changed. *)
Lemma refresh_shared row : selected row → within held R (refresh_dag_run_status uuid jsonb_text parse_iso row user).
Proof.
  intros (a & b & Ha & Hb). unfold refresh_dag_run_status, row_or_context. rewrite Ha, Hb. share.
  apply (within_statement held respects); [apply _|done|]. by intros now t x t'.
Qed.

Lemma refresh_all_shared rows : Forall selected rows → within held R (refresh_all uuid jsonb_text parse_iso rows user).
Proof. induction 1 as [|row rows Hr _ IH]; simpl; share. by apply refresh_shared. Qed.

Lemma children_shared c ids : within held R (fetch_sync_child_runs uuid jsonb_text parse_iso c ids user).
Proof.
  unfold fetch_sync_child_runs. destruct (is_nil ids); [share|]. intros w Hw. unfold mbind, io_bind.
  destruct (query_along (λ _ t, select_sync_child_runs uuid jsonb_text c ids user t) w Hw) as [H1 H2].
  destruct (query _ w) as [[rows|e] w1] eqn:Eq; simpl in *; [|done]. apply (query_ok held respects) in Eq as [_ Hq].
  destruct (refresh_all_shared rows) with (w := w1) as [H3 H4]; [|done|split; [done|by etransitivity]].
  unfold select_sync_child_runs in Hq. destruct (rows_of _ _ _) as [all|] eqn:Ea in Hq; [|done]. injection Hq as <-.
  apply Forall_forall. intros x (kr & -> & Hk)%list_elem_of_fmap. rewrite elem_of_sort_by in Hk. apply elem_of_List_filter in Hk as [Hk _].
  by eapply rows_of_selected, Hk; [apply (signed_truthy _ _ _ _ Hin)|].
Qed.
Hint Resolve children_shared : within.

(** *** The status *)

Lemma gold_refresh_along c row child_rows r m known : within held R (gold_refresh_step class_name user c row child_rows r m known).
Proof. unfold gold_refresh_step, run_sync_control_room_gold_refresh, now_iso. share. Qed.

Lemma control_room_along c b s g running gold persist : within held R (run_sync_control_room_status c b s g running gold persist).
Proof. unfold run_sync_control_room_status, observe_successfactors, observe_dashboard, or_error, now_iso. share. Qed.

Lemma monitors_along c id checked_at rows st : within held R (run_monitors sha1 c id checked_at rows st).
Proof.
  revert st. induction rows as [|row rows IH]; intros st; simpl; [share|]. apply within_bind; [apply _| |intros; apply IH].
  unfold monitor_row, run_monitor. share.
Qed.
Hint Resolve monitors_along : within.

Lemma agentops_along c id running b s g update known :
  within held R (run_sync_agentops_status sha1 class_name c id running b s g update known).
Proof. unfold run_sync_agentops_status, run_sync_agentops_monitors, now_iso. share. Qed.
Hint Resolve gold_refresh_along control_room_along agentops_along : within.

(** A status that is rebuilt is kept in the row of the run alone. *)
Lemma build_along c row persist :
  (∀ mode status extra error, status ≠ "" → lower status = status → within held R (upsert (run_id_of_row row) c mode status extra error)) →
  within held R (build c row persist).
Proof.
  intros Hup. unfold build_sync_run_status, pipeline_rows, SyncNow.persist_status, _fetch_sync_run. share.
  apply Hup; unfold sync_status_from_steps; repeat case_match; done.
Qed.
End Rebuild.

Lemma upsert_along run_id c m status extra error : status ≠ "" → lower status = status →
  within held (others_stay run_id) (upsert run_id c m status extra error).
Proof.
  intros Hs Hl. apply (within_write held respects); [apply _|apply respects_stay|]. intros now t t' H. apply of_run_stay.
  eapply upsert_off in H as (H1 & _ & H2); [|exact Hin]. split; [done|by apply H2].
Qed.

(** What is shown is of the row as it is then. *)
Lemma build_shown c row persist w payload w' : build c row persist w = (Ok payload, w') →
  ∃ refreshed extra, fetch_sync_run uuid jsonb_text c (run_id_of_row row) user (runs w') = Ok refreshed
    ∧ sync_public_payload (run (default row refreshed)) extra = Ok payload.
Proof.
  unfold build_sync_run_status. intros H. repeat (apply io_bind_ok in H as (? & ? & ?Hstep & H); try (case_match; simplify_eq)).
  all: apply of_res_ok in H as [H ->]; match goal with H : _fetch_sync_run _ _ _ _ _ _ = (Ok ?o, _) |- _ => apply (query_ok held respects) in H as [_ Hf]; exists o end;
    by eexists.
Qed.

Lemma payload_status id r extra payload :
  sync_public_payload (run (row_dict jsonb_text id r)) extra = Ok payload → r_status r ≠ "" → row_status payload = lower (r_status r).
Proof.
  unfold sync_public_payload, public_sync_payload. intros (steps & _ & (z & _ & [= <-])%bind_ok)%bind_ok Hne.
  assert (Hs : py_str (py_or (py_or (PStr (r_status r)) (get "status" extra)) (PStr "running")) = r_status r).
  { apply truthy_str in Hne. unfold py_or. by rewrite !Hne. }
  unfold row_status. f_equal. exact (eq_trans (str_or_empty_str _) Hs).
Qed.

(** The row of a run whose rebuilt status is one of those that end it. *)
Lemma build_terminal c id r persist w payload w' :
  held w → plain_syncs (runs w) → r_entity r = SYNC_NOW_ENTITY → r_status r ≠ "" → lower (r_status r) = r_status r →
  mem (r_status r) SYNC_TERMINAL_STATUSES = false →
  build c (row_dict jsonb_text id r) persist w = (Ok payload, w') → mem (row_status payload) SYNC_TERMINAL_STATUSES = true →
  others_stay id (runs w) (runs w') ∧ ∀ now, ¬ same_key now (runs w') id.
Proof.
  intros Hw Hp He Hne Hl Hn Hb Ht.
  destruct (build_along (others_stay id) (respects_stay id) c (row_dict jsonb_text id r) persist
    (λ mode status extra error Hs Hl, upsert_along id c mode status extra error Hs Hl) w Hw) as [Hw' Hm].
  rewrite Hb in Hw', Hm. cbn [snd] in *. split; [done|]. intros now (r' & Hr' & _ & _ & Ha).
  destruct (active_entity _ _ _ _ _ _ Ha) as [He' Hn']. destruct (proj1 Hm Hp _ _ Hr' He') as [Hne' Hl'].
  apply build_shown in Hb as (refreshed & extra & Hf & Hs). apply (fetch_sync_spec _ _ _ _ _ Hin) in Hf.
  change (run_id_of_row (row_dict jsonb_text id r)) with id in Hf. destruct refreshed as [row|].
  - destruct Hf as (r1 & -> & H1 & H2). assert (r' = r1) as -> by congruence. rewrite (payload_status _ _ _ _ Hs Hne'), Hl' in Ht. congruence.
  - rewrite (payload_status _ _ _ _ Hs Hne), Hl in Ht. congruence.
Qed.

(** When no run is found that goes on, none of the key is left. *)
Lemma active_response_none w w' : held w →
  in_flight w = (Ok None, w') →
  held w' ∧ let '(now, look) := clock w in
  plain_syncs (runs look) → (∀ a b, ongoing now (runs look) a → ongoing now (runs look) b → a = b) →
  plain_syncs (runs w') ∧ ∀ id, ¬ same_key now (runs w') id.
Proof.
  intros Hw H. unfold _active_sync_now_response in H. apply io_bind_ok in H as (active & w1 & Hq & H).
  destruct (query_along respects (λ _ _ h, h) (λ now t, Ok (fetch_active_sync_run uuid jsonb_text now cartridge mode target user active_window t)) w Hw) as [Hw1 _].
  unfold _fetch_active_sync_run in Hq. rewrite Hq in Hw1. cbn [snd] in Hw1. apply (query_ok held respects) in Hq as [Hr1 Hq].
  destruct (clock w) as [now look]. cbn [fst snd] in *. injection Hq as Hq.
  pose proof (fetch_active_spec _ jsonb_text _ _ _ Hin now cartridge mode target active_window (runs w1)) as Hf. rewrite Hq, Hr1 in Hf.
  destruct active as [row|]; [|injection H as <-; split; [done|intros Hp _; rewrite Hr1; split; [done|]]].
  2:{ intros id (r & Hr & _ & Hsc). by apply (Hf id); exists r. }
  destruct Hf as (id & r & -> & Hr & Hsc & Ha). destruct (active_entity _ _ _ _ _ _ Ha) as [He Hn].
  apply io_bind_ok in H as (payload & w2 & Hb & [= Hn' ->]). destruct (mem (row_status payload) SYNC_TERMINAL_STATUSES) eqn:Ht; [|done].
  pose proof (build_along (others_stay id) (respects_stay id) cartridge (row_dict jsonb_text id r) true
    (λ mode status extra error Hs Hl, upsert_along id cartridge mode status extra error Hs Hl) w1 Hw1) as [Hw2 _]. rewrite Hb in Hw2. split; [done|].
  intros Hp H1. destruct (Hp _ _ Hr He) as [Hne Hl]. rewrite <- Hr1 in Hp.
  destruct (build_terminal _ _ _ _ _ _ _ Hw1 Hp He Hne Hl Hn Hb Ht) as [[Hpl Hoff] Hend]. split; [auto|]. intros j Hj.
  destruct (decide (j = id)) as [->|Hji]; [by apply (Hend now)|]. apply Hoff in Hj as (r' & Hr' & _ & Hsc'); [|done].
  rewrite Hr1 in Hr'. apply Hji, H1; [by exists r'|by exists r].
Qed.

(** The start of a run is a row of its own. *)
Lemma start_recorded run_id request_id w steps w' : held w →
  recorded run_id request_id w = (Ok steps, w') →
  held w' ∧ others_stay run_id (runs w) (runs w') ∧ is_Some (runs w' !! run_id).
Proof.
  intros Hw H. unfold _record_sync_now_start in H. apply io_bind_ok in H as (initial & w1 & [_ ->]%of_res_ok & H).
  apply io_bind_ok in H as (st & w2 & [_ ->]%of_res_ok & H). apply io_bind_ok in H as ([] & w3 & Hup & [= _ <-]).
  apply (write_ok held respects) in Hup as (Hw3 & now & t & Ht & Hup); [|done].
  eapply upsert_off in Hup as (H1 & H2 & H3); [|exact Hin]. split; [done|]. split; [|done].
  etransitivity; [by apply respects_stay|]. apply of_run_stay. split; [done|by apply H3].
Qed.

(** C23: a synchronisation is started under the lock of its key, which is held from before
    it looks for runs in progress until its row is written.  Others may write the table
    at every step, but start no run of the key meanwhile, since such a start holds the
    lock: so that, unless two runs of the source, mode and target were in progress when
    it looked, no other run of its key, which is of its connection, is in progress once
    it is written.  Requests for two connections take two locks and are not kept apart. *)
Theorem sync_single_flight fresh request_id w run_id steps w' :
  _reserve_sync_now_run_or_response json_loads sha1 uuid jsonb jsonb_text sha256_hex json_dumps parse_iso class_name record_event
    active_window stale_after auto_neutralize user fresh cartridge mode target conn_id request_id w = (Ok (run_id, steps, None), w') →
  ∃ report before locked looking found_none started,
    recovered w = (Ok report, before) ∧ advisory_lock lock_key before = (Ok tt, locked)
    ∧ repeated run_id request_id locked = (Ok None, looking) ∧ in_flight looking = (Ok None, found_none)
    ∧ recorded run_id request_id found_none = (Ok steps, started) ∧ advisory_unlock lock_key started = (Ok tt, w')
    ∧ held locked ∧ held looking ∧ held found_none ∧ held started
    ∧ is_Some (runs started !! run_id)
    ∧ let '(now, look) := clock looking in
      plain_syncs (runs look) → (∀ a b, ongoing now (runs look) a → ongoing now (runs look) b → a = b) →
      ∀ id, same_key now (runs started) id → id = run_id.
Proof.
  intros H. unfold _reserve_sync_now_run_or_response in H. cbv zeta in H.
  apply io_bind_ok in H as (rep & w1 & Hrep & H). apply io_bind_ok in H as ([] & w2 & Hlock & H). pose proof (lock_held _ _ Hlock) as Hw2. unfold finally in H.
  match type of H with (let '(_, _) := ?m in _) = _ => destruct m as [[res|e] w3] eqn:E end;
    (match type of H with (match ?m with _ => _ end) = _ => destruct m as [[[]|] w4] eqn:Eu end); try done.
  injection H as -> ->. apply io_bind_ok in E as (existing & w5 & Hex & E). destruct existing as [resp|]; [by injection E as _ _|].
  assert (Hw5 : held w5).
  { unfold _existing_sync_now_response in Hex. destruct (negb _) in Hex; [by injection Hex as <-|].
    apply io_bind_ok in Hex as (row & w6 & Hq & Hex).
    destruct (query_along respects (λ _ _ h, h) (λ _ t, fetch_sync_run uuid jsonb_text cartridge (sync_now_run_id_from_request_id sha1 fresh cartridge request_id lock_key) user t) w2 Hw2) as [Hw6 _].
    unfold _fetch_sync_run in Hq. rewrite Hq in Hw6. destruct row as [row|]; [|by injection Hex as <-].
    exfalso. apply io_bind_ok in Hex as (? & ? & _ & Hex). case_match; by apply io_bind_ok in Hex as (? & ? & _ & [=]). }
  apply io_bind_ok in E as (active & w6 & Ha & E). destruct active as [resp|]; [by injection E as _ _|].
  destruct (active_response_none _ _ Hw5 Ha) as [Hw6 Hnone].
  apply io_bind_ok in E as (st & w7 & Hrs & [= <- <- <-]). destruct (start_recorded _ _ _ _ _ Hw6 Hrs) as (Hw7 & [_ Hoff] & Hrow).
  exists rep, w1, w2, w5, w6, w7. repeat (split; [assumption|]). destruct (clock w5) as [now look]. intros Hp H1. destruct (Hnone Hp H1) as [_ Hn].
  intros id Hid. destruct (decide (id = sync_now_run_id_from_request_id sha1 fresh cartridge request_id lock_key)) as [|Hne]; [done|].
  destruct (Hn id (Hoff now id Hne Hid)).
Qed.
End SingleFlight.

(** ** A workspace with two connections *)

Module OneSync.
#[local] Instance repr : PyRepr := some_repr.

Definition uuid (s : string) : option string := if Nat.eqb (slen s) 36 then Some s else None.
Definition jsonb (d : pydict) : res pydict := Ok d.
Definition tenant : string := "7a1d2c3b-0000-4000-8000-000000000001".
Definition workspace : string := "7a1d2c3b-0000-4000-8000-000000000002".
Definition user : option pydict := Some (mkdict [("tenant_id", PStr tenant); ("workspace_id", PStr workspace)]).
Definition window : Z := 14400.
Definition key : string := _sync_now_lock_key user "sap_successfactors" "incremental" "all" (Some "a").

(** The run that a request for another connection starts. *)
Definition other : Row := new_row SYNC_NOW_DAG_ID "sap_successfactors" SYNC_NOW_ENTITY "sync_now:other" "incremental" "running" (seconds 43200)
  None None (sync_running_extra "incremental" "all" (Some "b") None []) (Some tenant) (Some workspace).

(** The table, at noon, whether the lock is held, and how often the clock was looked at:
    the other request starts its run at the look [joins]. *)
Record state := mkState { table : Table; locked : bool; looks : nat }.
Definition arrive (joins : nat) (w : state) : state :=
  mkState (if Nat.eqb (looks w) joins then <["sync_now:other" := other]> (table w) else table w) (locked w) (S (looks w)).
#[local] Instance refreshes : RefreshWorld state := {
  run_intelligence _ w := (Ok PNone, w); dashboard _ w := (Ok (PDict []), w);
  sap_successfactors_gold_kpis w := (Ok PNone, w); sap_successfactors_talent_kpis w := (Ok PNone, w);
  ensure_monitors _ w := (Ok tt, w); list_agents _ w := (Ok [], w); load_agent _ w := (Ok None, w);
  reserve_scheduled_run _ w := (Ok [], w); execute_reserved_scheduled_monitor _ _ _ _ _ w := (Ok PNone, w) }.
#[local] Instance services : SyncWorld state := {
  advisory_lock _ w := (Ok tt, mkState (table w) true (looks w)); advisory_unlock _ w := (Ok tt, mkState (table w) false (looks w));
  call_pipeline _ w := (Ok [], w);
  control_room_cache_invalidate w := (Ok tt, w); invalidate_read_caches w := (Ok tt, w);
  probe_cartridge_connection _ _ w := (Ok (PDict (mkdict [("checked", PBool true); ("ok", PBool false); ("message", PStr "401")])), w);
  record_probe_event _ w := (Ok tt, w); seed_packaged_datasets _ _ _ w := (Ok [], w);
  pipeline_extract_preflight _ _ _ w := (Ok (passed_preflight None), w); trigger_airflow_extract_dag _ _ _ w := (Ok [], w);
  api_pipeline_extract_all _ _ w := (Ok [], w); sleep _ w := (Ok tt, w); orchestrator_status _ w := (Ok [], w) }.

Section At.
Context (joins : nat).
#[local] Instance world : RunsWorld state := {
  runs := table; set_runs t w := mkState t (locked w) (looks w); clock w := (seconds 43200, arrive joins w);
  mcp_invoke _ _ _ w := (Ok [], w) }.

Abbreviation conn := (Some "a").
Abbreviation respects := (respects window tenant workspace "sap_successfactors" "incremental" "all" conn).

(** The other request takes another lock, and its run is of another key. *)
Lemma other_respects t : respects t (<["sync_now:other" := other]> t).
Proof.
  split.
  - intros Hp id r Hr He. destruct (decide (id = "sync_now:other")) as [->|Hne].
    + rewrite lookup_insert_eq in Hr. by injection Hr as <-.
    + rewrite lookup_insert_ne in Hr by done. by apply (Hp id).
  - intros now id (r & Hr & Hc & Hs). destruct (decide (id = "sync_now:other")) as [->|Hne].
    + rewrite lookup_insert_eq in Hr. injection Hr as <-. by vm_compute in Hc.
    + rewrite lookup_insert_ne in Hr by done. by exists r.
Qed.

Lemma nothing_else t : respects t t.
Proof. split; [by intros H|auto]. Qed.

Definition held (w : state) : Prop := locked w = true.
#[local] Instance shared : SharedWorld window user tenant workspace "sap_successfactors" "incremental" "all" conn held.
Proof.
  split; try (by intros; intros w Hw; split; [|apply nothing_else]); [split; try done|by intros w w' [= <-]].
  intros w Hw. split; [done|]. simpl. destruct (Nat.eqb _ _); [apply other_respects|apply nothing_else].
Qed.

Definition json_loads (_ : string) : res pyval := Ok (PDict []).
Definition text (_ : pydict) : string := "{}".
Definition record_event (_ : pydict) : io state unit := mret tt.
Definition reserve (fresh : string) : io state (string * list pydict * option pydict) :=
  _reserve_sync_now_run_or_response json_loads (λ s, s) uuid jsonb text (λ s, s) (λ _, "") (λ _, None) (λ _, "") record_event window
    (seconds 5400) false user fresh "sap_successfactors" "incremental" "all" conn None.

Definition in_progress (t : Table) : list string := (List.filter (λ kr, is_active_sync_run (seconds 43200) "sap_successfactors" "incremental"
  "all" window kr.2) (map_to_list t)).*1.
Definition start : state := mkState ∅ false 0.
End At.

(** With nobody else, the second request is answered with the run of the first; when one
    for the other connection starts its run between the look and the start, two are in
    progress. *)
Example second_is_answered :
  match reserve 100 "x" start with
  | (Ok (id, _, None), w) => id = "sync_now:sap_successfactors:x"
      ∧ match reserve 100 "y" w with (Ok (_, _, Some response), _) => get "run_id" response = PStr id | _ => False end
  | _ => False
  end.
Proof. by vm_compute. Qed.

Example connections_race :
  match reserve 3 "x" start with
  | (Ok (id, _, None), w) => length (in_progress (table w)) = 2%nat
  | _ => False
  end.
Proof. by vm_compute. Qed.

Lemma user_signed_in : signed_in uuid user tenant workspace.
Proof. by split. Qed.

(** It has looked at the clock twice when it holds the lock and looks for runs. *)
Definition looked : state := mkState ∅ true 2.

Lemma sync_single_flight_witness :
  ∃ started, held started ∧ is_Some (table started !! "sync_now:sap_successfactors:x") ∧ is_Some (table started !! "sync_now:other")
    ∧ ∀ id, same_key window tenant workspace "sap_successfactors" "incremental" "all" (Some "a") (seconds 43200) (table started) id →
        id = "sync_now:sap_successfactors:x".
Proof.
  assert (H : match reserve 3 "x" start with
              | (Ok (id, _, None), w) => id = "sync_now:sap_successfactors:x" ∧ is_Some (table w !! "sync_now:other")
              | _ => False
              end) by (by vm_compute; eauto).
  destruct (reserve 3 "x" start) as [[[[id steps] [response|]]|e] w] eqn:E; [destruct H| |destruct H]. destruct H as [-> Ho].
  destruct (sync_single_flight (Hruns := world 3) (Hworld := shared 3) json_loads (λ s, s) uuid jsonb text (λ s, s) (λ _, "") (λ _, None)
    (λ _, "") record_event window (seconds 5400) false user tenant workspace user_signed_in "sap_successfactors" "incremental" "all" (Some "a")
    held "x" None start _ steps w E)
    as (report & before & locked_at & looking & found & started & H1 & H2 & H3 & H4 & H5 & H6 & _ & _ & _ & H10 & H11 & H12).
  assert (looking = looked) as ->.
  { assert (Hb : before = mkState ∅ false 2) by (vm_compute in H1; by injection H1 as _ <-). subst before.
    injection H2 as <-. by injection H3 as <-. }
  exists started. split; [done|]. split; [done|]. split; [by injection H6 as <-|].
  apply H12.
  - intros id r Hr. destruct (lookup_empty_Some (M:=gmap string) _ r Hr).
  - intros a b (r & Hr & _). destruct (lookup_empty_Some (M:=gmap string) _ r Hr).
Defined.
End OneSync.
