(* ===== verification/Workflow.v ===== *)
(** The workflows of the copilot (console/app/services/workflow_executor.py and
    console/app/routers/copilot_workflows.py): a plan a language model proposes, its steps,
    and the executor that runs them one after another, pausing where a person must approve.

    The tables are those of infra/init/53_copilot_workflows.sql and 56, under the row-level
    security of 99w_tenant_isolation_20b.sql.  A function that takes a connection runs in
    the transaction of [scoped_db_for_user]: when it raises, its rows are as they were, and
    what it has asked of the tools or recorded in the audit, which have connections of their
    own, is done.  The reading and writing of JSON, [text::uuid] and the model are
    parameters; the order of the keys of a jsonb is not looked at. *)
From S2P Require Import Prelude PyStr PyVal PyTime PyIo PyUuid Permissions ToolPolicy PipelineRuns.

Open Scope Z_scope.

Definition MAX_ATTEMPTS : nat := 3.
Definition BASE_BACKOFF_SECONDS : Z := 1.
Definition DEFAULT_STEP_TIMEOUT_SECONDS : Z := 60.
Definition TERMINAL_RUN_STATUSES : list string := ["completed"; "failed"; "cancelled"].
Definition ACTIVE_STEP_STATUSES : list string := ["pending"; "waiting_approval"].
(** The literal of the statements that start or cancel a run. *)
Definition OPEN_RUN_STATUSES : list string := ["planning"; "running"; "waiting_approval"].

(** ** The tables *)

Record Run := mkRun {
  run_user_id : Z; run_conversation_id : option string; run_intent : string; run_plan : pyval; run_status : string;
  run_current_step : Z; run_error : option string; run_created_at : instant; run_finished_at : option instant;
  run_started_at : option instant; run_completed_at : option instant; run_step_results : pyval;
  run_tenant_id : option string; run_workspace_id : option string; run_scope_status : string }.

Record Step := mkStep {
  step_description : string; step_tool : option string; step_args : pyval; step_result : option pyval; step_status : string;
  step_started_at : option instant; step_finished_at : option instant;
  step_tenant_id : option string; step_workspace_id : option string; step_scope_status : string }.

(** Workflows by id; steps by workflow and index, which are unique together. *)
Record Tables := mkTables { workflow_runs : gmap string Run; workflow_steps : gmap (string * Z) Step }.

(** The policies [_20b_scoped_rw]; the other policy is for sessions without a workspace. *)
Definition visible (s : Session) (scope_status : string) (tenant workspace : option string) : bool :=
  bool_decide (scope_status = "scoped") && is_setting workspace (app_workspace_id s)
  && match tenant with None => true | t => is_setting t (app_tenant_id s) end.
Definition run_visible (s : Session) (r : Run) : bool := visible s (run_scope_status r) (run_tenant_id r) (run_workspace_id r).
Definition step_visible (s : Session) (st : Step) : bool := visible s (step_scope_status st) (step_tenant_id st) (step_workspace_id st).

Definition find_run (s : Session) (id : string) (t : Tables) : option Run :=
  match workflow_runs t !! id with Some r => if run_visible s r then Some r else None | None => None end.
Definition find_step (s : Session) (id : string) (idx : Z) (t : Tables) : option Step :=
  match workflow_steps t !! (id, idx) with Some st => if step_visible s st then Some st else None | None => None end.

(** [UPDATE workflow_runs SET f WHERE id=$1 AND p RETURNING *]; no statement changes a scope. *)
Definition update_run (s : Session) (id : string) (p : Run → bool) (f : Run → Run) (t : Tables) : option Run * Tables :=
  match find_run s id t with
  | Some r => if p r then (Some (f r), mkTables (<[id := f r]> (workflow_runs t)) (workflow_steps t)) else (None, t)
  | None => (None, t)
  end.
Definition update_step (s : Session) (id : string) (idx : Z) (p : Step → bool) (f : Step → Step) (t : Tables) : option Step * Tables :=
  match find_step s id idx t with
  | Some st => if p st then (Some (f st), mkTables (workflow_runs t) (<[(id, idx) := f st]> (workflow_steps t))) else (None, t)
  | None => (None, t)
  end.
Definition update_steps (s : Session) (id : string) (p : Z → Step → bool) (f : Step → Step) (t : Tables) : Tables :=
  mkTables (workflow_runs t)
    (map_imap (λ k st, Some (if bool_decide (k.1 = id) && step_visible s st && p k.2 st then f st else st)) (workflow_steps t)).

(** [INSERT INTO workflow_steps ... ON CONFLICT (workflow_id, step_idx) DO NOTHING]. *)
Definition insert_step (s : Session) (id : string) (idx : Z) (st : Step) (t : Tables) : res Tables :=
  if negb (step_visible s st) then refused
  else Ok (match workflow_steps t !! (id, idx) with
           | Some _ => t
           | None => mkTables (workflow_runs t) (<[(id, idx) := st]> (workflow_steps t))
           end).

(** [ORDER BY step_idx]. *)
Definition by_index (a b : Z * Step) : bool := a.1 <=? b.1.
Definition select_steps (s : Session) (id : string) (t : Tables) : list (Z * Step) :=
  sort_by by_index (omap (λ kst, if bool_decide (kst.1.1 = id) && step_visible s kst.2 then Some (kst.1.2, kst.2) else None)
                      (map_to_list (workflow_steps t))).

(** An argument of type [integer]. *)
Definition int4_argument (z : Z) : res Z :=
  if (- 2147483648 <=? z) && (z <=? 2147483647) then Ok z else raise DataError "value out of int32 range".

(** *** What the statements set *)

Definition start_run (now : instant) (r : Run) : Run :=
  mkRun (run_user_id r) (run_conversation_id r) (run_intent r) (run_plan r) "running" (run_current_step r) (run_error r) (run_created_at r)
    (run_finished_at r) (coalesce (run_started_at r) (Some now)) (run_completed_at r) (run_step_results r) (run_tenant_id r)
    (run_workspace_id r) (run_scope_status r).
Definition at_step (status : string) (idx : Z) (r : Run) : Run :=
  mkRun (run_user_id r) (run_conversation_id r) (run_intent r) (run_plan r) status idx (run_error r) (run_created_at r)
    (run_finished_at r) (run_started_at r) (run_completed_at r) (run_step_results r) (run_tenant_id r) (run_workspace_id r) (run_scope_status r).
Definition end_run (now : instant) (status : string) (error : option string) (current : Z) (r : Run) : Run :=
  mkRun (run_user_id r) (run_conversation_id r) (run_intent r) (run_plan r) status current error (run_created_at r)
    (Some now) (run_started_at r) (Some now) (run_step_results r) (run_tenant_id r) (run_workspace_id r) (run_scope_status r).
Definition fail_run (now : instant) (error : option string) (r : Run) : Run := end_run now "failed" error (run_current_step r) r.
Definition cancel_run (now : instant) (r : Run) : Run := end_run now "cancelled" (run_error r) (run_current_step r) r.
Definition complete_run (now : instant) (last : Z) (r : Run) : Run :=
  end_run now "completed" (run_error r) (Z.max (run_current_step r) last) r.
Definition with_results (results : pyval) (r : Run) : Run :=
  mkRun (run_user_id r) (run_conversation_id r) (run_intent r) (run_plan r) (run_status r) (run_current_step r) (run_error r)
    (run_created_at r) (run_finished_at r) (run_started_at r) (run_completed_at r) results (run_tenant_id r) (run_workspace_id r)
    (run_scope_status r).
Definition with_plan (plan : pyval) (r : Run) : Run :=
  mkRun (run_user_id r) (run_conversation_id r) (run_intent r) plan "running" (run_current_step r) (run_error r) (run_created_at r)
    (run_finished_at r) (run_started_at r) (run_completed_at r) (run_step_results r) (run_tenant_id r) (run_workspace_id r)
    (run_scope_status r).
Definition set_step (status : string) (result : option pyval) (started finished : option instant) (st : Step) : Step :=
  mkStep (step_description st) (step_tool st) (step_args st) result status started finished (step_tenant_id st) (step_workspace_id st)
    (step_scope_status st).
Definition new_step (description : string) (tool : option string) (args : pyval) (tenant workspace : option string) : Step :=
  mkStep description tool args None "pending" None None tenant workspace "scoped".

(** [jsonb_set(COALESCE(result, '{}'), '{k}', 'true', true)]. *)
Definition jsonb_set_true (k : string) (result : option pyval) : res pyval :=
  match default (PDict []) result with
  | PDict d => Ok (PDict (dset k (PBool true) d))
  | PList _ => raise (PgError "22P02" "") "path element is not an integer"
  | _ => raise (PgError "22023" "") "cannot set path in scalar"
  end.
(** [COALESCE(result, '{}') @> '{k: true}']. *)
Definition contains_true (k : string) (result : option pyval) : bool :=
  match result with Some (PDict d) => is_true (get k d) | _ => false end.

(** ** The world *)

Class WorkflowWorld (W : Type) := {
  tables : W → Tables;
  set_tables : Tables → W → W;
  (** [NOW()] of the transaction. *)
  transaction_time : W → instant;
  (** [_assert_scheduled_effect_authority], of the user of a scheduled effect. *)
  assert_authority : pydict → io W unit;
  (** mcp_registry: the servers, the tools of one, and a call with its timeout in seconds. *)
  list_servers : io W (list pyval);
  list_tools : string → io W (list pyval);
  invoke : string → string → pydict → pydict → Z → io W pyval;
  record_event : pydict → io W unit;
  (** [asyncio.sleep], in seconds. *)
  sleep : Z → io W unit;
  (** The reply of the model to the message of a planner. *)
  chat : string → io W pyval;
  (** A conversation of the user in the workspace has this id. *)
  conversation_allowed : pyval → Z → string → io W bool }.

(** A step as a dictionary, its JSON read. *)
Record LoadedStep := mkLoaded {
  ls_idx : Z; ls_description : string; ls_tool : option string; ls_args : pyval; ls_result : pyval; ls_status : string;
  ls_started_at : option instant; ls_finished_at : option instant }.

(** [{"ok", "workflow_id", "status", "step_results"}]. *)
Record Answer := mkAnswer { ans_ok : bool; ans_workflow_id : string; ans_status : string; ans_results : pyval }.

Section Executor.
Context {Hrepr : PyRepr}.
Context (uuid : string → option string) (json_loads : string → res pyval) (jsonb : pyval → res pyval) (jsonb_text : pyval → string).

(** A column jsonb as the driver gives it. *)
Definition json_column (v : option pyval) : pyval := match v with Some v => PStr (jsonb_text v) | None => PNone end.

(** *** Values *)

Definition _json_load (value default : pyval) : pyval :=
  match value with
  | PNone => default
  | PStr s => match json_loads s with Ok v => v | Raise _ => default end
  | v => v
  end.

(** [s.split(sep, 1)] of a text that contains [sep]: what comes before it and after it. *)
Fixpoint split_at (sep s : string) : option (string * string) :=
  if startswith sep s then Some ("", sdrop (slen sep) s)
  else match s with
       | "" => None
       | String c s => match split_at sep s with Some (a, b) => Some (String c a, b) | None => None end
       end.

Definition _split_tool (tool : string) (args : pyval) : res (string * string) :=
  match split_at "." tool with
  | Some p => Ok p
  | None =>
      match split_at "___" tool with
      | Some p => Ok p
      | None =>
          server ← val_get "server_id" args;
          server ← (if truthy server then Ok server else val_get "server" args);
          if truthy server then Ok (py_str server, tool) else raise ValueError "workflow step tool must be server.tool"
      end
  end.

Definition _step_timeout (args : pyval) : res Z :=
  raw ← val_get "timeout_seconds" args;
  raw ← (if truthy raw then Ok raw else val_get "timeout_s" args);
  match py_int raw with
  | Ok timeout => Ok (Z.max 1 (Z.min timeout 300))
  | Raise e => if exn_isa (exn_cls e) TypeError || exn_isa (exn_cls e) ValueError then Ok DEFAULT_STEP_TIMEOUT_SECONDS else Raise e
  end.

Definition _is_approved (step : LoadedStep) : res bool :=
  approved ← val_get "approved" (_json_load (ls_result step) (PDict []));
  Ok (is_true approved).

Definition secret_words : list string := ["password"; "secret"; "token"; "api_key"; "apikey"].
Fixpoint _scrub_args (args : pyval) : pyval :=
  match args with
  | PDict d =>
      PDict ((fix items (out d : pydict) : pydict :=
        match d with
        | [] => out
        | (key, value) :: d =>
            items (dict_put key (if existsb (λ token, contains token (lower (key_str key))) secret_words then PStr "***" else _scrub_args value) out) d
        end) [] d)
  | PList l => PList (_scrub_args <$> l)
  | v => v
  end.

(** Of a text, and of a value: [str(error or ...)]. *)
Definition redacted (text : string) : string :=
  let text := stake 500 text in
  if existsb (λ token, contains token (lower text)) (secret_words ++ ["authorization"])%list then "upstream error redacted" else text.
Definition _safe_error (error : pyval) : string := redacted (py_str (py_or error (PStr "tool invocation failed"))).

Context {W : Type} {Hworld : WorkflowWorld W}.

(** *** Statements *)

Definition statement {A} (f : instant → Tables → res (A * Tables)) : io W A := λ w,
  match f (transaction_time w) (tables w) with Ok (a, t) => (Ok a, set_tables t w) | Raise e => (Raise e, w) end.
Definition query {A} (f : Tables → res A) : io W A := statement (λ _ t, a ← f t; Ok (a, t)).
(** [UPDATE ... RETURNING], which may find no row. *)
Definition updating {A} (f : instant → Tables → option A * Tables) : io W bool :=
  statement (λ now t, let '(row, t) := f now t in Ok (bool_decide (is_Some row), t)).
Definition execute (f : instant → Tables → Tables) : io W unit := statement (λ now t, Ok (tt, f now t)).

Definition transaction {A} (m : io W A) : io W A := λ w,
  let t := tables w in
  match m w with (Ok a, w) => (Ok a, w) | (Raise e, w) => (Raise e, set_tables t w) end.

Definition scoped_db_for_user {A} (user : pydict) (body : Session → io W A) : io W A :=
  s ← of_res (scoped_session (Some user));
  transaction (_ ← (if is_none (get "_scheduled_effect_authority" user) then mret tt else assert_authority user); body s).

(** [user["id"]], as an argument of type [bigint]. *)
Definition user_id (user : pydict) : res Z :=
  match dget "id" user with
  | Some (PInt z) => Ok z
  | Some _ => raise DataError "invalid input for query argument: expected int"
  | None => raise KeyError "id"
  end.

Definition event_of (user : pydict) (action id status : string) (metadata : pyval) (critical : bool) : pydict :=
  mkdict [("user_id", get "id" user); ("email", get "email" user); ("action", PStr action); ("resource_type", PStr "workflow_run");
          ("resource_id", PStr id); ("status", PStr status); ("metadata", metadata); ("critical", PBool critical)].

Definition _record_step_audit (user : pydict) (workflow_id : string) (step_idx : Z) (tool_name : option string) (args : pyval)
    (risk_level status : string) (metadata : list (string * pyval)) : io W unit :=
  record_event
    (dupdate (event_of user "copilot.workflow.step" workflow_id status (PDict (mkdict (("step_index", PInt step_idx) :: metadata))) true)
       (mkdict [("tool_name", opt_str tool_name); ("tool_args", _scrub_args (py_or args (PDict []))); ("tool_result_status", PStr status);
                ("risk_level", PStr risk_level)])).

(** The row of a workflow of the user in the session. *)
Definition owned (user : Z) (tenant : option string) (workspace : string) (r : Run) : bool :=
  (run_user_id r =? user) && bool_decide (run_scope_status r = "scoped") && bool_decide (run_workspace_id r = Some workspace)
  && match tenant with Some t => bool_decide (run_tenant_id r = Some t) | None => true end.
Definition scope_arguments (user : pydict) : res (option string * string) :=
  '(tenant, workspace) ← workspace_scope_from_user (Some user);
  tenant ← (match tenant with Some t => t ← cast_uuid uuid t; Ok (Some t) | None => Ok None end);
  workspace ← cast_uuid uuid workspace;
  Ok (tenant, workspace).
Definition select_owned (s : Session) (workflow_id : string) (user : pydict) (t : Tables) : res (option Run) :=
  u ← user_id user;
  '(tenant, workspace) ← scope_arguments user;
  Ok (match find_run s workflow_id t with Some r => if owned u tenant workspace r then Some r else None | None => None end).

Definition _load_workflow (s : Session) (workflow_id : string) (user : pydict) : io W Run :=
  row ← query (select_owned s workflow_id user);
  match row with Some r => mret r | None => raises (HTTPException 404) "Workflow not found" end.

Definition load_step (kst : Z * Step) : LoadedStep :=
  let st := kst.2 in
  mkLoaded kst.1 (step_description st) (step_tool st) (_json_load (json_column (Some (step_args st))) (PDict []))
    (_json_load (json_column (step_result st)) (PDict [])) (step_status st) (step_started_at st) (step_finished_at st).
Definition _load_steps (s : Session) (workflow_id : string) : io W (list LoadedStep) :=
  query (λ t, Ok (load_step <$> List.filter (λ kst, bool_decide (step_scope_status kst.2 = "scoped")) (select_steps s workflow_id t))).

(** [str] of an instant. *)
Definition time_text (t : option instant) : pyval := match t with Some t => PStr (sreplace "T" " " (isoformat t)) | None => PNone end.
Definition step_summary (step : LoadedStep) : pyval :=
  PDict (mkdict [("step_idx", PInt (ls_idx step)); ("tool", opt_str (ls_tool step)); ("status", PStr (ls_status step));
                 ("result", _scrub_args (ls_result step)); ("started_at", time_text (ls_started_at step));
                 ("finished_at", time_text (ls_finished_at step))]).
Definition _refresh_step_results (s : Session) (workflow_id : string) : io W pyval :=
  steps ← _load_steps s workflow_id;
  let results := PList (step_summary <$> steps) in
  stored ← of_res (jsonb results);
  _ ← execute (λ _ t, (update_run s workflow_id (λ _, true) (with_results stored) t).2);
  mret results.

(** [str(item.get("description") or f"Step {idx + 1}")[:500]], and an argument of type [text]. *)
Definition plan_description (item : pydict) (idx : Z) : string :=
  stake 500 (py_str (py_or (get "description" item) (PStr ("Step " +:+ str_of_Z (idx + 1))))).
Definition text_param (v : pyval) : res (option string) :=
  match v with PNone => Ok None | PStr s => Ok (Some s) | _ => raise DataError "invalid input for query argument: expected str" end.

Fixpoint materialise (s : Session) (id : string) (tenant workspace : option string) (idx : Z) (plan : list pyval) : io W unit :=
  match plan with
  | [] => mret tt
  | PDict item :: plan =>
      let args := match get "args" item with PDict d => PDict d | _ => PDict [] end in
      _ ← statement (λ _ t,
            tool ← text_param (get "tool" item);
            args ← jsonb args;
            t ← insert_step s id idx (new_step (plan_description item idx) tool args tenant workspace) t; Ok (tt, t));
      materialise s id tenant workspace (idx + 1) plan
  | _ :: plan => materialise s id tenant workspace (idx + 1) plan
  end.
Definition _materialise_steps_if_needed (s : Session) (workflow_id : string) (workflow : Run) : io W unit :=
  existing ← query (λ t, Ok (length (select_steps s workflow_id t)));
  if negb (Nat.eqb existing 0) then mret tt
  else match _json_load (json_column (Some (run_plan workflow))) (PList []) with
       | PList plan => materialise s workflow_id (run_tenant_id workflow) (run_workspace_id workflow) 0 plan
       | _ => mret tt
       end.

Definition _mark_remaining_skipped (s : Session) (workflow_id : string) (after_idx : Z) : io W unit :=
  execute (λ now t, update_steps s workflow_id (λ idx st, (after_idx <? idx) && mem (step_status st) ACTIVE_STEP_STATUSES)
                      (λ st, set_step "skipped" (step_result st) (step_started_at st) (coalesce (step_finished_at st) (Some now)) st) t).

(** No earlier step is unfinished, and the run is not cancelled. *)
Definition turn_of (s : Session) (id : string) (idx : Z) (t : Tables) : bool :=
  List.forallb (λ kst, negb (kst.1 <? idx) || mem (step_status kst.2) ["completed"; "skipped"]) (select_steps s id t).
Definition not_cancelled (s : Session) (id : string) (t : Tables) : bool :=
  match find_run s id t with Some r => negb (bool_decide (run_status r = "cancelled")) | None => false end.

Definition _claim_step (s : Session) (workflow_id : string) (step_idx : Z) : io W (option LoadedStep) :=
  row ← statement (λ now t,
          Ok (update_step s workflow_id step_idx
                (λ st, bool_decide (step_status st = "pending") && turn_of s workflow_id step_idx t && not_cancelled s workflow_id t)
                (λ st, set_step "running" (step_result st) (coalesce (step_started_at st) (Some now)) (step_finished_at st) st) t));
  mret ((λ st, load_step (step_idx, st)) <$> row).

Definition _complete_human_step (s : Session) (workflow_id : string) (step_idx : Z) : io W bool :=
  statement (λ now t,
    match find_step s workflow_id step_idx t with
    | Some st =>
        if bool_decide (step_status st = "pending") && contains_true "approved" (step_result st) then
          result ← jsonb_set_true "human_review_completed" (step_result st);
          Ok (true, (update_step s workflow_id step_idx (λ _, true)
                       (λ st, set_step "completed" (Some result) (step_started_at st) (Some now) st) t).2)
        else Ok (false, t)
    | None => Ok (false, t)
    end).

(** [SELECT status FROM workflow_runs WHERE id = $1]. *)
Definition latest_status (s : Session) (workflow_id : string) : io W (option string) :=
  query (λ t, Ok (run_status <$> find_run s workflow_id t)).

(** *** A tool *)

(** [str(item.get("name") or "")] is the tool's name, qualified or not. *)
Definition names_tool (tool : string) (item : pydict) : bool :=
  let name := str_or_empty (get "name" item) in
  bool_decide (name = tool) || endswith ("__" +:+ tool) name || endswith ("." +:+ tool) name.
Definition _live_tool_schema (server_id tool : string) : io W (option pydict) :=
  handling
    (tools ← list_tools server_id;
     mret (match List.find (names_tool tool) (only_dicts tools) with
           | Some item => Some (default [] (as_dict (get "input_schema" item)))
           | None => None
           end))
    (λ _, mret None).

(** [2 ** attempt] seconds between attempts. *)
Fixpoint attempts (remaining : nat) (attempt : Z) (last_error : string) (call : io W pyval) : io W (bool * pyval * option string) :=
  match remaining with
  | O => mret (false, PNone, Some (if nonempty last_error then last_error else "tool invocation failed"))
  | S remaining =>
      r ← trying call;
      match r with
      | Ok (PDict result) =>
          if truthy (get "_error" result) || truthy (get "error" result)
          then mret (false, PNone, Some (_safe_error (py_or (get "error_message" result) (get "error" result))))
          else mret (true, PDict result, None)
      | Ok result => mret (true, result, None)
      | Raise e =>
          match exn_cls e with
          | HTTPException _ => mret (false, PNone, Some (_safe_error (PStr (exn_msg e))))
          | _ =>
              _ ← (if Nat.eqb remaining 0 then mret tt else sleep (BASE_BACKOFF_SECONDS * 2 ^ attempt));
              attempts remaining (attempt + 1) (redacted (exn_msg e)) call
          end
      end
  end.

Definition risk_of (tool : string) : string := py_str (py_or (get "risk_level" (classify_tool tool)) (PStr "write")).

Definition _invoke_with_retry (server_id tool : string) (args : pyval) (timeout_seconds : Z) (user : pydict) :
    io W (bool * pyval * option string) :=
  input_schema ← _live_tool_schema server_id tool;
  match input_schema with
  | None => mret (false, PNone, Some "live tool schema unavailable")
  | Some input_schema =>
      match validate_tool_args tool args (PDict input_schema) (risk_of tool) with
      | Ok args => attempts MAX_ATTEMPTS 0 "" (invoke server_id tool args user timeout_seconds)
      | Raise e => if exn_isa (exn_cls e) ToolPolicyError then mret (false, PNone, Some (redacted (exn_msg e))) else of_res (Raise e)
      end
  end.

(** *** The executor *)

Definition answer (s : Session) (workflow_id : string) (ok : bool) (status : string) : io W Answer :=
  results ← _refresh_step_results s workflow_id; mret (mkAnswer ok workflow_id status results).

(** A step waits for a person, and its run with it. *)
Definition pause (s : Session) (user : pydict) (workflow_id : string) (step_idx : Z) (tool : option string) (args : pyval) (risk : string)
    (result : pydict) : io W Answer :=
  result ← of_res (jsonb (PDict result));
  _ ← execute (λ now t, (update_step s workflow_id step_idx (λ _, true)
        (λ st, set_step "waiting_approval" (Some result) (coalesce (step_started_at st) (Some now)) (step_finished_at st) st) t).2);
  _ ← execute (λ _ t, (update_run s workflow_id (λ _, true) (at_step "waiting_approval" step_idx) t).2);
  _ ← _record_step_audit user workflow_id step_idx tool args risk "pending_approval" [];
  answer s workflow_id true "waiting_approval".

(** A step without a tool. *)
Definition human_step (s : Session) (user : pydict) (workflow_id : string) (step : LoadedStep) (args : pyval) : io W (option Answer) :=
  approved ← of_res (_is_approved step);
  if approved : bool then
    completed ← _complete_human_step s workflow_id (ls_idx step);
    _ ← (if completed : bool
         then _record_step_audit user workflow_id (ls_idx step) None args "write" "success" [("human_review_step", PBool true)]
         else mret tt);
    mret None
  else
    a ← pause s user workflow_id (ls_idx step) None args "write"
          (mkdict [("approval_required", PBool true); ("reason", PStr "human_review_step")]);
    mret (Some a).

(** The tool of a step names no server. *)
Definition refuse_step (s : Session) (workflow_id : string) (step_idx : Z) (error : string) : io W Answer :=
  result ← of_res (jsonb (PDict (mkdict [("error", PStr error)])));
  _ ← execute (λ now t, (update_step s workflow_id step_idx (λ _, true)
        (λ st, set_step "failed" (Some result) (step_started_at st) (Some now) st) t).2);
  _ ← _mark_remaining_skipped s workflow_id step_idx;
  _ ← execute (λ now t, (update_run s workflow_id (λ _, true) (fail_run now (Some error)) t).2);
  answer s workflow_id false "failed".

Definition is_running (s : Session) (id : string) (t : Tables) (st : Step) : bool :=
  bool_decide (step_status st = "running") && not_cancelled s id t.
Definition finish_step (s : Session) (workflow_id : string) (step_idx : Z) (status : string) (result : pyval) : io W bool :=
  updating (λ now t, update_step s workflow_id step_idx (is_running s workflow_id t)
                       (λ st, set_step status (Some result) (step_started_at st) (Some now) st) t).
Definition not_cancelled_run (r : Run) : bool := negb (bool_decide (run_status r = "cancelled")).

(** A step whose tool may be called. *)
Definition run_tool (s : Session) (user : pydict) (workflow_id : string) (step_idx : Z) (server_id bare_tool risk : string) :
    io W (option Answer) :=
  claimed ← _claim_step s workflow_id step_idx;
  match claimed with
  | None =>
      latest ← latest_status s workflow_id;
      a ← answer s workflow_id true (match latest with Some st => if nonempty st then st else "running" | None => "running" end);
      mret (Some a)
  | Some claimed =>
      let args := ls_args claimed in
      run_row ← updating (λ _ t, update_run s workflow_id not_cancelled_run (at_step "running" step_idx) t);
      if negb run_row then a ← answer s workflow_id true "cancelled"; mret (Some a)
      else
        timeout ← of_res (_step_timeout args);
        '(ok, result, error) ← _invoke_with_retry server_id bare_tool args timeout user;
        if ok : bool then
          stored ← of_res (jsonb result);
          row ← finish_step s workflow_id step_idx "completed" stored;
          if negb row then a ← answer s workflow_id true "cancelled"; mret (Some a)
          else
            _ ← _record_step_audit user workflow_id step_idx (Some bare_tool) args risk "success" [("server", PStr server_id)];
            mret None
        else
          latest ← latest_status s workflow_id;
          if bool_decide (latest = Some "cancelled") then a ← answer s workflow_id true "cancelled"; mret (Some a)
          else
            stored ← of_res (jsonb (PDict (mkdict [("error", opt_str error)])));
            row ← finish_step s workflow_id step_idx "failed" stored;
            if negb row then a ← answer s workflow_id true "cancelled"; mret (Some a)
            else
              _ ← _mark_remaining_skipped s workflow_id step_idx;
              _ ← updating (λ now t, update_run s workflow_id not_cancelled_run (fail_run now error) t);
              _ ← _record_step_audit user workflow_id step_idx (Some bare_tool) args risk "failed"
                    [("server", PStr server_id); ("error", opt_str error)];
              a ← answer s workflow_id false "failed";
              mret (Some a)
  end.

(** One iteration of the loop: the answer when it returns. *)
Definition run_step (s : Session) (user : pydict) (workflow_id : string) (step : LoadedStep) : io W (option Answer) :=
  latest ← latest_status s workflow_id;
  if bool_decide (latest = Some "cancelled") then a ← answer s workflow_id true "cancelled"; mret (Some a)
  else if bool_decide (ls_status step = "completed") || negb (mem (ls_status step) ACTIVE_STEP_STATUSES) then mret None
  else
    let args := _json_load (ls_args step) (PDict []) in
    let tool_full := default "" (ls_tool step) in
    if negb (nonempty tool_full) then human_step s user workflow_id step args
    else
      match _split_tool tool_full args with
      | Raise e =>
          if exn_isa (exn_cls e) ValueError then a ← refuse_step s workflow_id (ls_idx step) (exn_msg e); mret (Some a)
          else of_res (Raise e)
      | Ok (server_id, bare_tool) =>
          let risk := py_str (get "risk_level" (classify_tool bare_tool)) in
          approved ← (if requires_approval bare_tool then of_res (_is_approved step) else mret true);
          if negb approved then
            a ← pause s user workflow_id (ls_idx step) (Some bare_tool) args risk
                  (mkdict [("approval_required", PBool true); ("server", PStr server_id); ("tool", PStr bare_tool); ("args", _scrub_args args)]);
            mret (Some a)
          else run_tool s user workflow_id (ls_idx step) server_id bare_tool risk
      end.

Fixpoint run_steps (s : Session) (user : pydict) (workflow_id : string) (steps : list LoadedStep) : io W (option Answer) :=
  match steps with
  | [] => mret None
  | step :: steps =>
      a ← run_step s user workflow_id step;
      match a with Some a => mret (Some a) | None => run_steps s user workflow_id steps end
  end.

(** After the last step. *)
Definition complete (s : Session) (workflow_id : string) (steps : list LoadedStep) : io W Answer :=
  results ← _refresh_step_results s workflow_id;
  row ← updating (λ now t, update_run s workflow_id not_cancelled_run
                    (complete_run now (match steps with [] => 0 | _ => Z.of_nat (length steps) - 1 end)) t);
  mret (mkAnswer true workflow_id (if row : bool then "completed" else "cancelled") results).

Definition _execute_workflow_scoped (s : Session) (workflow_id : string) (user : pydict) : io W Answer :=
  workflow ← _load_workflow s workflow_id user;
  if mem (run_status workflow) TERMINAL_RUN_STATUSES
  then mret (mkAnswer true workflow_id (run_status workflow) (_json_load (json_column (Some (run_step_results workflow))) (PList [])))
  else
    _ ← _materialise_steps_if_needed s workflow_id workflow;
    row ← updating (λ now t, update_run s workflow_id (λ r, mem (run_status r) OPEN_RUN_STATUSES) (start_run now) t);
    if negb row then
      results ← _refresh_step_results s workflow_id;
      latest ← latest_status s workflow_id;
      mret (mkAnswer true workflow_id (match latest with Some st => if nonempty st then st else "cancelled" | None => "cancelled" end) results)
    else
      steps ← _load_steps s workflow_id;
      a ← run_steps s user workflow_id steps;
      match a with Some a => mret a | None => complete s workflow_id steps end.

Definition execute_workflow (workflow_id : string) (user : pydict) : io W Answer :=
  scoped_db_for_user user (λ s, _execute_workflow_scoped s workflow_id user).

(** The status, the current step, the error and the results. *)
Definition workflow_status (workflow_id : string) (user : pydict) : io W (string * Z * option string * pyval) :=
  scoped_db_for_user user (λ s,
    workflow ← _load_workflow s workflow_id user;
    results ← _refresh_step_results s workflow_id;
    mret (run_status workflow, run_current_step workflow, run_error workflow, results)).

Definition _cancel_workflow_scoped (s : Session) (workflow_id : string) (user : pydict) : io W Answer :=
  u ← of_res (user_id user);
  row ← updating (λ now t, update_run s workflow_id
                    (λ r, (run_user_id r =? u) && bool_decide (run_scope_status r = "scoped") && mem (run_status r) OPEN_RUN_STATUSES)
                    (cancel_run now) t);
  if negb row then raises (HTTPException 404) "Workflow not found"
  else
    _ ← _mark_remaining_skipped s workflow_id (-1);
    _ ← record_event (event_of user "copilot.workflow.cancel" workflow_id "success" PNone false);
    answer s workflow_id true "cancelled".
Definition cancel_workflow (workflow_id : string) (user : pydict) : io W Answer :=
  scoped_db_for_user user (λ s, _cancel_workflow_scoped s workflow_id user).

(** What the audit keeps of an approval. *)
Definition approval_event (user : pydict) (workflow_id : string) (step_idx : Z) : pydict :=
  event_of user "copilot.workflow.step.approve" workflow_id "approved"
    (PDict (mkdict [("step_index", PInt step_idx); ("state_transition", PStr "waiting_approval_to_pending")])) true.

Definition approve (s : Session) (workflow_id : string) (step_idx : Z) : io W bool :=
  statement (λ _ t,
    step_idx ← int4_argument step_idx;
    match find_step s workflow_id step_idx t with
    | Some st =>
        if bool_decide (step_status st = "waiting_approval") then
          result ← jsonb_set_true "approved" (step_result st);
          Ok (true, (update_step s workflow_id step_idx (λ _, true)
                       (λ st, set_step "pending" (Some result) (step_started_at st) (step_finished_at st) st) t).2)
        else Ok (false, t)
    | None => Ok (false, t)
    end).

Definition _approve_step_scoped (s : Session) (workflow_id : string) (step_idx : Z) (user : pydict) : io W Answer :=
  allowed ← of_res (Permissions.has_permission user "copilot.execute");
  if negb allowed then raises (HTTPException 403) "permission required: copilot.execute"
  else
    _ ← _load_workflow s workflow_id user;
    _ ← record_event (approval_event user workflow_id step_idx);
    row ← approve s workflow_id step_idx;
    if negb row then raises (HTTPException 404) "Workflow step not waiting approval"
    else
      run_row ← updating (λ _ t, update_run s workflow_id not_cancelled_run (at_step "running" step_idx) t);
      if negb run_row then answer s workflow_id true "cancelled" else _execute_workflow_scoped s workflow_id user.
Definition approve_step (workflow_id : string) (step_idx : Z) (user : pydict) : io W Answer :=
  scoped_db_for_user user (λ s, _approve_step_scoped s workflow_id step_idx user).
End Executor.
