(* ===== verification/WorkflowRoutes.v ===== *)
(** The routes of the workflows (console/app/routers/copilot_workflows.py): creating one,
    planning it with the model, and the executor behind the permissions of its user.  The
    session cookie and its CSRF token are checked before. *)
From S2P Require Import Prelude PyStr PyVal PyTime PyIo PyUuid Permissions ToolPolicy PipelineRuns Workflow.

Open Scope Z_scope.

Definition _MAX_INTENT_LEN : nat := 1000.
Definition MAX_PLAN_STEPS : nat := 8.

(** ** Plans *)

(** [_DESTRUCTIVE_TOOL_RE]: a word of the list after the start, a dot or an underscore,
    and no word character after it. *)
Definition DESTRUCTIVE_WORDS : list string :=
  ["delete"; "drop"; "truncate"; "set_variable"; "create_dag"; "destroy"; "wipe"; "reset"].
Definition is_word (c : ascii) : bool := is_alnum c || bool_decide (c = "_"%char).
Definition word_ends (s : string) : bool := match s with "" => true | String c _ => negb (is_word c) end.
Definition destructive_here (s : string) : bool :=
  existsb (λ word, startswith word s && word_ends (sdrop (slen word) s)) DESTRUCTIVE_WORDS.
Fixpoint destructive_after (s : string) : bool :=
  match s with
  | "" => false
  | String c s => (mem c ["."%char; "_"%char] && destructive_here s) || destructive_after s
  end.
Definition _DESTRUCTIVE_TOOL_RE (name : string) : bool := destructive_here (lower name) || destructive_after (lower name).

(** [re.search] takes a text only. *)
Definition _is_destructive_tool (name : pyval) : res bool :=
  if negb (truthy name) then Ok false
  else match name with PStr s => Ok (_DESTRUCTIVE_TOOL_RE s) | _ => raise TypeError "" end.

(** [re.search(r"\[.*\]", s, DOTALL)]: from the first opening bracket to the last closing one. *)
Fixpoint until_last (c : ascii) (s : string) : option string :=
  match s with
  | "" => None
  | String d s =>
      match until_last c s with
      | Some t => Some (String d t)
      | None => if bool_decide (d = c) then Some (one d) else None
      end
  end.
Fixpoint from_first (c : ascii) (s : string) : option string :=
  match s with
  | "" => None
  | String d s' => if bool_decide (d = c) then Some s else from_first c s'
  end.
Definition bracketed (s : string) : option string :=
  match from_first "["%char s with
  | Some (String c rest) => String c <$> until_last "]"%char rest
  | _ => None
  end.

Section Routes.
Context {Hrepr : PyRepr}.
Context (uuid : string → option string) (json_loads : string → res pyval) (jsonb : pyval → res pyval) (jsonb_text : pyval → string).

(** An item of the array, the [i]th; none when it is dropped. *)
Definition parse_item (i : Z) (v : pyval) : res (option pydict) :=
  match v with
  | PDict item =>
      description ← strip_value (py_or (get "description" item) (PStr ""));
      if negb (nonempty description) then Ok None
      else
        let raw_tool := py_or (get "tool" item) PNone in
        destructive ← _is_destructive_tool raw_tool;
        Ok (Some (mkdict [("step", default (PInt i) (dget "step" item)); ("description", PStr (stake 500 description));
                          ("tool", if destructive : bool then PNone else raw_tool);
                          ("args", match get "args" item with PDict d => PDict d | _ => PDict [] end)]))
  | _ => Ok None
  end.
Fixpoint parse_items (i : Z) (l : list pyval) : res (list pydict) :=
  match l with
  | [] => Ok []
  | v :: l => item ← parse_item i v; rest ← parse_items (i + 1) l; Ok (match item with Some d => d :: rest | None => rest end)
  end.

Definition _parse_plan_json (raw : string) : res (list pydict) :=
  let s := strip raw in
  let parsed :=
    match json_loads s with
    | Ok v => Some v
    | Raise _ =>
        match bracketed s with
        | Some m => match json_loads m with Ok v => Some v | Raise _ => None end
        | None => None
        end
    end in
  match parsed with Some (PList l) => parse_items 1 (take MAX_PLAN_STEPS l) | _ => Ok [] end.

(** [tool.split(".", 1)[1] if "." in tool else tool]. *)
Definition bare_name (tool : string) : string := match split_at "." tool with Some (_, b) => b | None => tool end.

Definition human_review (idx : Z) (step : pydict) : res pydict :=
  description ← strip_value (default (PStr "") (dget "description" step));
  Ok (dupdate step (mkdict [("step", default (PInt idx) (dget "step" step)); ("tool", PNone); ("args", PDict []);
                            ("description", PStr (description +:+ " (requiere aprobacion humana)"))])).

Definition validate_step (idx : Z) (step : pydict) (tool_meta : list (string * pydict)) : res pydict :=
  let args := match get "args" step with PDict d => PDict d | _ => PDict [] end in
  if negb (truthy (get "tool" step)) then Ok (dset "args" args (dset "tool" PNone step))
  else
    let tool := py_str (get "tool" step) in
    match afind tool tool_meta with
    | None => raise (HTTPException 502) ("planner emitted unavailable tool: " +:+ tool)
    | Some meta =>
        let bare := bare_name tool in
        let risk := risk_of bare in
        if truthy (get "requires_approval" (classify_tool bare)) || mem risk ["write"; "destructive"] then human_review idx step
        else
          match validate_tool_args bare args
                  (py_or (get "input_schema" meta) (PDict (mkdict [("type", PStr "object"); ("properties", PDict [])]))) risk with
          | Ok clean => Ok (dset "args" (PDict clean) (dset "tool" (PStr tool) step))
          | Raise e =>
              if exn_isa (exn_cls e) ToolPolicyError
              then raise (HTTPException 502) ("planner emitted invalid args for " +:+ tool +:+ ": " +:+ exn_msg e) else Raise e
          end
    end.
Fixpoint validate_steps (idx : Z) (plan : list pydict) (tool_meta : list (string * pydict)) : res (list pydict) :=
  match plan with
  | [] => Ok []
  | step :: plan => step ← validate_step idx step tool_meta; rest ← validate_steps (idx + 1) plan tool_meta; Ok (step :: rest)
  end.
Definition _validate_planned_steps (plan : list pydict) (tool_meta : list (string * pydict)) : res (list pydict) :=
  validate_steps 1 (take MAX_PLAN_STEPS plan) tool_meta.

Context {W : Type} {Hworld : WorkflowWorld W}.

(** ** The planner *)

(** The tools of every server, by their full names; those of a server that fails are left out. *)
Definition tools_of (server : pyval) : io W (list (string * pydict)) :=
  match server with
  | PDict d =>
      handling
        (match dget "id" d with
         | Some id =>
             tools ← list_tools (py_str id);
             mret (omap (λ t, match as_dict t with
                              | Some t => if truthy (get "name" t) then Some (py_str id +:+ "." +:+ py_str (get "name" t), t) else None
                              | None => None
                              end) tools)
         | None => raises KeyError "id"
         end)
        (λ _, mret [])
  | _ => mret []
  end.
Fixpoint tools_of_all (servers : list pyval) : io W (list (string * pydict)) :=
  match servers with
  | [] => mret []
  | server :: servers => tools ← tools_of server; rest ← tools_of_all servers; mret (tools ++ rest)%list
  end.
Definition available_tools : io W (list (string * pydict)) :=
  handling (servers ← list_servers; tools_of_all servers) (λ _, mret []).

(** [tool_meta]: of two tools of the same full name, the last. *)
Definition meta_of (tools : list (string * pydict)) : list (string * pydict) :=
  foldl (λ m kt, aput kt.1 kt.2 m) [] tools.

Definition LF : string := one (ascii_of_N 10).
Definition planner_message (intent : string) (names : list string) : string :=
  "Objetivo del usuario: " +:+ intent +:+ LF +:+ LF +:+ "Tools MCP disponibles (" +:+ str_of_Z (Z.of_nat (length names)) +:+ "):" +:+ LF
  +:+ join LF ((λ t, "- " +:+ t) <$> take 50 names).
Definition _llm_plan (intent : string) (names : list string) : io W (list pydict) :=
  reply ← chat (planner_message intent names);
  of_res (_parse_plan_json (str_or_empty reply)).

(** The steps of a plan that was claimed. *)
Fixpoint insert_steps (s : Session) (workflow_id : string) (tenant workspace : option string) (idx : Z) (plan : list pydict) : io W unit :=
  match plan with
  | [] => mret tt
  | step :: plan =>
      _ ← statement (λ _ t,
            description ← text_param (get "description" step);
            tool ← text_param (get "tool" step);
            args ← jsonb (get "args" step);
            t ← insert_step s workflow_id idx (new_step (default "" description) tool args tenant workspace) t; Ok (tt, t));
      insert_steps s workflow_id tenant workspace (idx + 1) plan
  end.

Definition planning (user : Z) (tenant : option string) (workspace : string) (r : Run) : bool :=
  owned user tenant workspace r && bool_decide (run_status r = "planning").

Definition claim_plan (s : Session) (workflow_id : string) (user : pydict) (plan : list pydict) : io W unit :=
  u ← of_res (user_id user);
  '(tenant, workspace) ← of_res (scope_arguments uuid user);
  stored ← of_res (jsonb (PList (PDict <$> plan)));
  claimed ← updating (λ _ t, update_run s workflow_id (planning u tenant workspace) (with_plan stored) t);
  if negb claimed then raises (HTTPException 409) "Workflow already planned or finished"
  else insert_steps s workflow_id tenant (Some workspace) 0 plan.

Definition plan_workflow (workflow_id : string) (user : pydict) : io W (list pydict) :=
  run ← scoped_db_for_user user (λ s, query (select_owned uuid s workflow_id user));
  match run with
  | None => raises (HTTPException 404) "Workflow not found"
  | Some run =>
      if negb (bool_decide (run_status run = "planning")) then raises (HTTPException 409) "Workflow already planned or finished"
      else
        tools ← available_tools;
        plan ← handling (_llm_plan (run_intent run) tools.*1) (λ _, raises (HTTPException 502) "planner LLM call failed");
        if Nat.eqb (length plan) 0 then raises (HTTPException 502) "planner returned empty plan"
        else
          plan ← of_res (_validate_planned_steps plan (meta_of tools));
          _ ← scoped_db_for_user user (λ s, claim_plan s workflow_id user plan);
          _ ← record_event (event_of user "copilot.workflow.plan" workflow_id "success"
                              (PDict (mkdict [("steps", PInt (Z.of_nat (length plan)))])) false);
          mret plan
  end.

(** ** The requests *)

Definition new_run (now : instant) (user : Z) (tenant workspace conversation : option string) (intent : string) : Run :=
  mkRun user conversation intent (PList []) "planning" 0 None now None None None (PList []) tenant workspace "scoped".

(** [gen_random_uuid()] gives [fresh]. *)
Definition insert_run (s : Session) (fresh : string) (r : Run) (t : Tables) : res Tables :=
  if negb (run_visible s r) then refused
  else match workflow_runs t !! fresh with
       | Some _ => raise UniqueViolationError "workflow_runs_pkey"
       | None => Ok (mkTables (<[fresh := r]> (workflow_runs t)) (workflow_steps t))
       end.

Definition create_workflow (fresh : string) (payload user : pydict) : io W Run :=
  intent ← of_res (strip_value (default (PStr "") (dget "intent" payload)));
  let conv_id := get "conversation_id" payload in
  if negb (nonempty intent) then raises (HTTPException 400) "intent is required"
  else if Nat.ltb _MAX_INTENT_LEN (slen intent) then raises (HTTPException 400) "intent too long (max 1000)"
  else
    row ← scoped_db_for_user user (λ s,
      u ← of_res (user_id user);
      '(tenant, workspace) ← of_res (scope_arguments uuid user);
      allowed ← (if truthy conv_id then conversation_allowed conv_id u workspace else mret true);
      if negb allowed then raises (HTTPException 404) "Workflow not found"
      else
        conversation ← of_res (c ← text_param conv_id; match c with Some c => c ← cast_uuid uuid c; Ok (Some c) | None => Ok None end);
        statement (λ now t,
          let row := new_run now u tenant (Some workspace) conversation intent in
          t ← insert_run s fresh row t; Ok (row, t)));
    _ ← record_event (event_of user "copilot.workflow.create" fresh "success"
                        (PDict (mkdict [("intent_len", PInt (Z.of_nat (slen intent)))])) false);
    mret row.

(** The rows of a user, the newest first. *)
Definition newer (a b : string * Run) : bool := run_created_at b.2 <=? run_created_at a.2.
Definition get_workflow (workflow_id : string) (user : pydict) : io W (Run * list (Z * Step)) :=
  scoped_db_for_user user (λ s,
    run ← query (select_owned uuid s workflow_id user);
    match run with
    | None => raises (HTTPException 404) "Workflow not found"
    | Some run =>
        steps ← query (λ t,
          '(tenant, workspace) ← scope_arguments uuid user;
          Ok (List.filter (λ kst, bool_decide (step_scope_status kst.2 = "scoped") && bool_decide (step_workspace_id kst.2 = Some workspace)
                                  && match tenant with Some t => bool_decide (step_tenant_id kst.2 = Some t) | None => true end)
                (select_steps s workflow_id t)));
        mret (run, steps)
    end).
Definition list_workflows (user : pydict) : io W (list (string * Run)) :=
  scoped_db_for_user user (λ s, query (λ t,
    u ← user_id user;
    '(tenant, workspace) ← scope_arguments uuid user;
    Ok (take 50 (sort_by newer (List.filter (λ kr, run_visible s kr.2 && owned u tenant workspace kr.2) (map_to_list (workflow_runs t))))))).

(** [str(uuid.UUID(value))]. *)
Fixpoint hex_of_Z (digits : nat) (z : Z) (acc : string) : string :=
  match digits with
  | O => acc
  | S digits =>
      let d := z mod 16 in
      hex_of_Z digits (z / 16) (String (ascii_of_N (Z.to_N (if d <? 10 then 48 + d else 87 + d))) acc)
  end.
Definition _validate_uuid (value label : string) : res string :=
  match parse_uuid value with
  | Ok z => Ok (uuid_text (hex_of_Z 32 z ""))
  | Raise _ => raise (HTTPException 400) ("Invalid " +:+ label)
  end.

Inductive request :=
  | Create (fresh : string) (payload : pydict)
  | Get (workflow_id : string)
  | Browse
  | Plan (workflow_id : string)
  | Execute (workflow_id : string)
  | Status (workflow_id : string)
  | Cancel (workflow_id : string)
  | Approve (workflow_id : string) (step_idx : Z).

(** The permission a route asks for besides the one of its router. *)
Definition route_permission (r : request) : string :=
  match r with
  | Create _ _ | Get _ | Browse | Status _ => "copilot.use"
  | Plan _ | Approve _ _ => "copilot.execute"
  | Execute _ | Cancel _ => "copilot.write"
  end.

Definition forget {A} (m : io W A) : io W unit := _ ← m; mret tt.
Definition handle (user : pydict) (r : request) : io W unit :=
  match r with
  | Create fresh payload => forget (create_workflow fresh payload user)
  | Get id => id ← of_res (_validate_uuid id "workflow_id"); forget (get_workflow id user)
  | Browse => forget (list_workflows user)
  | Plan id => id ← of_res (_validate_uuid id "workflow_id"); forget (plan_workflow id user)
  | Execute id => id ← of_res (_validate_uuid id "workflow_id"); forget (execute_workflow uuid json_loads jsonb jsonb_text id user)
  | Status id => id ← of_res (_validate_uuid id "workflow_id"); forget (workflow_status uuid json_loads jsonb jsonb_text id user)
  | Cancel id => id ← of_res (_validate_uuid id "workflow_id"); forget (cancel_workflow json_loads jsonb jsonb_text id user)
  | Approve id step_idx =>
      id ← of_res (_validate_uuid id "workflow_id");
      if step_idx <? 0 then raises (HTTPException 400) "Invalid step index"
      else forget (approve_step uuid json_loads jsonb jsonb_text id step_idx user)
  end.

Definition route (user : pydict) (r : request) : io W unit :=
  _ ← of_res (require_permission "copilot.use" user);
  _ ← of_res (require_permission (route_permission r) user);
  handle user r.

(** Requests one after another. *)
Definition serve (requests : list (pydict * request)) (w : W) : W := foldl (λ w ur, (route ur.1 ur.2 w).2) w requests.
End Routes.

(** ** What a plan may ask for *)

Section Plans.
Context {Hrepr : PyRepr}.

(** No tool, or one that only reads, which a server offers, with arguments its policy accepts. *)
Definition reading_step (tool_meta : list (string * pydict)) (step : pydict) : Prop :=
  get "tool" step = PNone
  ∨ ∃ tool meta args checked, get "tool" step = PStr tool ∧ afind tool tool_meta = Some meta ∧ bare_name tool ∈ READ_ONLY_TOOLS
    ∧ get "args" step = PDict checked
    ∧ validate_tool_args (bare_name tool) args (py_or (get "input_schema" meta) (PDict (mkdict [("type", PStr "object"); ("properties", PDict [])]))) "read" = Ok checked.

Lemma human_review_reads idx step step' : human_review idx step = Ok step' → get "tool" step' = PNone.
Proof.
  unfold human_review. intros (description & _ & [= <-])%bind_ok. unfold get, dget, dupdate. simpl. by rewrite !dict_find_put.
Qed.

Lemma risk_read tool : truthy (get "requires_approval" (classify_tool tool)) = false → mem (risk_of tool) ["write"; "destructive"] = false →
  tool ∈ READ_ONLY_TOOLS ∧ risk_of tool = "read".
Proof.
  unfold risk_of, classify_tool. destruct (mem tool READ_ONLY_TOOLS) eqn:Er; [intros _ _; split; [by apply mem_true|done]|].
  repeat case_match; done.
Qed.

Lemma validate_step_reads idx step meta step' : validate_step idx step meta = Ok step' → reading_step meta step'.
Proof.
  unfold validate_step. cbv zeta. destruct (truthy (get "tool" step)); cbn [negb].
  2:{ intros [= <-]. left. rewrite get_dset_ne by done. apply get_dset_eq. }
  set (tool := py_str (get "tool" step)). destruct (afind tool meta) as [m|] eqn:Em; [|done].
  destruct (truthy (get "requires_approval" _) || _) eqn:Er; [intros H; left; by eapply human_review_reads|].
  apply orb_false_iff in Er as [Ha Hr]. destruct (risk_read _ Ha Hr) as [Hin Hrisk]. rewrite Hrisk.
  destruct (validate_tool_args _ _ _ _) as [clean|e] eqn:Ev; [|by destruct (exn_isa _ _)]. intros [= <-]. right.
  eexists tool, m, _, clean. rewrite (get_dset_ne "tool") by done. rewrite !get_dset_eq. by repeat split.
Qed.

(** Whatever the model proposed, each step of a plan that is kept has no tool, or one that only reads, which a server offers,
    with arguments that the policy of tools accepts. *)
Theorem plans_only_read plan tool_meta steps : _validate_planned_steps plan tool_meta = Ok steps → Forall (reading_step tool_meta) steps.
Proof.
  unfold _validate_planned_steps. generalize (take MAX_PLAN_STEPS plan), 1. clear plan. intros plan. revert steps.
  induction plan as [|step plan IH]; simpl; intros steps idx; [by intros [= <-]|].
  intros (step' & Hs & (rest & Hr & [= <-])%bind_ok)%bind_ok. constructor; [by eapply validate_step_reads|by eapply IH].
Qed.
End Plans.
