(* ===== verification/WorkflowApprovals.v ===== *)
(** What approvals protect: a tool that takes an approval is called for a step that a user
    who may approve has approved before, and the audit says so; whatever fails in between,
    and though the rows of a transaction that fails are undone. *)
From S2P Require Import Prelude PyStr PyVal PyTime PyIo PyUuid Permissions ToolPolicy PipelineRuns Workflow WorkflowRoutes.

Open Scope Z_scope.

(** What is done outside of the transactions, and stays. *)
Inductive event := Called (server tool : string) (args user : pydict) | Recorded (e : pydict).

Class WorkflowLaws (W : Type) {Hworld : WorkflowWorld W} := {
  log : W → list event;
  set_tables_tables : ∀ t w, tables (set_tables t w) = t;
  set_tables_log : ∀ t w, log (set_tables t w) = log w;
  authority_silent : ∀ u w, tables (assert_authority u w).2 = tables w ∧ log (assert_authority u w).2 = log w;
  servers_silent : ∀ w, tables (list_servers w).2 = tables w ∧ log (list_servers w).2 = log w;
  tools_silent : ∀ s w, tables (list_tools s w).2 = tables w ∧ log (list_tools s w).2 = log w;
  sleep_silent : ∀ n w, tables (sleep n w).2 = tables w ∧ log (sleep n w).2 = log w;
  chat_silent : ∀ m w, tables (chat m w).2 = tables w ∧ log (chat m w).2 = log w;
  conversation_silent : ∀ c u s w, tables (conversation_allowed c u s w).2 = tables w ∧ log (conversation_allowed c u s w).2 = log w;
  invoke_calls : ∀ s t a u n w, tables (invoke s t a u n w).2 = tables w ∧ log (invoke s t a u n w).2 = (log w ++ [Called s t a u])%list;
  (** An event that is critical is recorded when the call returns. *)
  record_keeps : ∀ e w, tables (record_event e w).2 = tables w
    ∧ (log (record_event e w).2 = (log w ++ [Recorded e])%list
       ∨ log (record_event e w).2 = log w ∧ ((record_event e w).1 = Ok tt → get "critical" e ≠ PBool true)) }.

Section Approvals.
Context {Hrepr : PyRepr}.
Context (uuid : string → option string) (json_loads : string → res pyval) (jsonb : pyval → res pyval) (jsonb_text : pyval → string).

(** A jsonb keeps what its object says of its approval, and reads back so. *)
Context (Hkeeps : ∀ d v, jsonb (PDict d) = Ok v → ∃ d', v = PDict d' ∧ is_true (get "approved" d') = is_true (get "approved" d)).
Context (Hreads : ∀ d, ∃ d', json_loads (jsonb_text (PDict d)) = Ok (PDict d') ∧ is_true (get "approved" d') = is_true (get "approved" d)).
Context {W : Type} {Hworld : WorkflowWorld W} {Hlaws : WorkflowLaws W}.

Abbreviation read v := (_json_load json_loads v (PDict [])).
(** The server and the tool a step asks for. *)
Definition call_of (tool : option string) (args : pyval) : option (string * string) :=
  match _split_tool (default "" tool) (read args) with Ok p => Some p | Raise _ => None end.
Definition step_call (st : Step) : option (string * string) :=
  call_of (step_tool st) (read (json_column jsonb_text (Some (step_args st)))).

Definition asked (t : Tables) (k : string * Z) (call : option (string * string)) : Prop :=
  ∃ st, workflow_steps t !! k = Some st ∧ step_call st = call.
Definition approved_by (l : list event) (k : string * Z) : Prop :=
  ∃ user, Recorded (approval_event user k.1 k.2) ∈ l ∧ Permissions.has_permission user "copilot.execute" = Ok true.

(** Each call of [l] that takes an approval came after one of its step. *)
Definition audited (t : Tables) (l : list event) : Prop :=
  ∀ l1 server tool args user l2, l = (l1 ++ Called server tool args user :: l2)%list → requires_approval tool = true →
    ∃ k, asked t k (Some (server, tool)) ∧ approved_by l1 k.

Definition active (st : Step) : Prop := mem (step_status st) ACTIVE_STEP_STATUSES = true.
Definition plain (result : option pyval) : Prop := match result with None | Some (PDict _) => True | _ => False end.
Abbreviation flagged st := (contains_true "approved" (step_result st) = true).

(** In a transaction that began with the rows [t0], when [l0] had been done. *)
Record guarded (t0 : Tables) (l0 : list event) (w : W) : Prop := mkGuarded {
  g_active : ∀ k st, workflow_steps (tables w) !! k = Some st → active st →
    plain (step_result st) ∧ (flagged st → approved_by (log w) k ∧ asked t0 k (step_call st));
  g_kept : ∀ k st, workflow_steps t0 !! k = Some st → asked (tables w) k (step_call st);
  g_log : audited t0 (log w);
  g_past : l0 ⊆ log w }.
(** Between transactions. *)
Definition lawful (w : W) : Prop := guarded (tables w) [] w.

Lemma approved_mono l l' k : l ⊆ l' → approved_by l k → approved_by l' k.
Proof. intros Hs (u & Hu & Hp). exists u. split; [by apply Hs|done]. Qed.

Lemma asked_trans t t' k call : (∀ k st, workflow_steps t !! k = Some st → asked t' k (step_call st)) → asked t k call → asked t' k call.
Proof. intros H (st & Hst & <-). by apply H. Qed.

Lemma audited_mono t t' l : (∀ k st, workflow_steps t !! k = Some st → asked t' k (step_call st)) → audited t l → audited t' l.
Proof. intros H Ha l1 s tool a u l2 -> Hg. destruct (Ha l1 s tool a u l2 eq_refl Hg) as (k & Hk & Hp). exists k. split; [by eapply asked_trans|done]. Qed.

Lemma audited_snoc t l e : audited t l →
  (∀ s tool a u, e = Called s tool a u → requires_approval tool = true → ∃ k, asked t k (Some (s, tool)) ∧ approved_by l k) →
  audited t (l ++ [e])%list.
Proof.
  intros Ha He l1 s tool a u l2 Hl Hg. destruct l2 as [|x l2 _] using rev_ind.
  - apply app_inj_tail in Hl as [-> ->]. by eapply He.
  - rewrite app_comm_cons, app_assoc in Hl. apply app_inj_tail in Hl as [-> _]. by eapply Ha.
Qed.

Lemma guarded_weaken t0 l0 l1 w : l1 ⊆ l0 → guarded t0 l0 w → guarded t0 l1 w.
Proof. intros Hs [H1 H2 H3 H4]. split; [done..|]. by etransitivity. Qed.

Lemma guarded_now t0 l0 w : guarded t0 l0 w → guarded t0 (log w) w.
Proof. by intros [H1 H2 H3 H4]. Qed.

(** ** Statements *)

(** A row that is written asks what it asked, and is no approved step that may still run. *)
Definition harmless (st : Step) : Prop := active st → plain (step_result st) ∧ ¬ flagged st.
Definition mild (t t' : Tables) : Prop := ∀ k,
  match workflow_steps t !! k, workflow_steps t' !! k with
  | Some st, Some st' => st' = st ∨ (step_call st' = step_call st ∧ harmless st')
  | None, Some st' => harmless st'
  | None, None => True
  | Some _, None => False
  end.

Lemma mild_same t t' : workflow_steps t' = workflow_steps t → mild t t'.
Proof. intros H k. rewrite H. destruct (_ !! k); auto. Qed.

Lemma guarded_mild t0 l0 w t : guarded t0 l0 w → mild (tables w) t → guarded t0 l0 (set_tables t w).
Proof.
  intros [H1 H2 H3 H4] Hm. split; rewrite ?set_tables_tables, ?set_tables_log; [| |done|done].
  - intros k st Hst Ha. specialize (Hm k). rewrite Hst in Hm. destruct (workflow_steps (tables w) !! k) as [old|] eqn:Ho.
    + destruct Hm as [->|[Hc Hh]]; [by apply (H1 k)|]. destruct (Hh Ha) as [Hp Hf]. by split.
    + destruct (Hm Ha) as [Hp Hf]. by split.
  - intros k st Hst. destruct (H2 k st Hst) as (old & Ho & Hc). specialize (Hm k). rewrite Ho in Hm.
    destruct (workflow_steps t !! k) as [st'|] eqn:E; [|done]. exists st'. split; [done|]. destruct Hm as [->|[-> _]]; done.
Qed.

Lemma mild_update_run s id p f t : mild t (update_run s id p f t).2.
Proof. apply mild_same. unfold update_run. by repeat case_match. Qed.

Lemma mild_update_step s id idx p f t :
  (∀ st, find_step s id idx t = Some st → p st = true → step_call (f st) = step_call st ∧ harmless (f st)) → mild t (update_step s id idx p f t).2.
Proof.
  intros Hf. unfold update_step. destruct (find_step s id idx t) as [st|] eqn:E; [|by apply mild_same].
  destruct (p st) eqn:Ep; [|by apply mild_same]. destruct (Hf st eq_refl Ep) as [Hc Hh].
  unfold find_step in E. destruct (workflow_steps t !! (id, idx)) as [old|] eqn:Eo; [|done]. destruct (step_visible s old); [|done].
  injection E as ->. intros k. simpl. destruct (decide (k = (id, idx))) as [->|Hne].
  - rewrite lookup_insert_eq, Eo. by right.
  - rewrite lookup_insert_ne by done. destruct (workflow_steps t !! k); auto.
Qed.

Lemma mild_update_steps s id p f t : (∀ st, step_call (f st) = step_call st ∧ harmless (f st)) → mild t (update_steps s id p f t).
Proof.
  intros Hf k. unfold update_steps. simpl. rewrite map_lookup_imap. destruct (workflow_steps t !! k) as [st|]; simpl; [|done].
  case_match; [right; apply Hf|by left].
Qed.

Lemma mild_insert_step s id idx st t t' : harmless st → insert_step s id idx st t = Ok t' → mild t t'.
Proof.
  intros Hh. unfold insert_step. destruct (negb _); [done|]. destruct (workflow_steps t !! (id, idx)) as [old|] eqn:E; intros [= <-]; [by apply mild_same|].
  intros k. simpl. destruct (decide (k = (id, idx))) as [->|Hne]; [by rewrite lookup_insert_eq, E|].
  rewrite lookup_insert_ne by done. destruct (workflow_steps t !! k); auto.
Qed.

Lemma harmless_new description tool args tenant workspace : harmless (new_step description tool args tenant workspace).
Proof. done. Qed.

Lemma harmless_ended status result started finished st : mem status ACTIVE_STEP_STATUSES = false → harmless (set_step status result started finished st).
Proof. unfold harmless, active. simpl. by intros ->. Qed.

Lemma harmless_paused d v started finished st : jsonb (PDict d) = Ok v → is_true (get "approved" d) = false →
  harmless (set_step "waiting_approval" (Some v) started finished st).
Proof. intros (d' & -> & Hd)%Hkeeps Hf _. simpl. rewrite Hd, Hf. by split. Qed.

Lemma guarded_statement {A} t0 l0 (f : instant → Tables → res (A * Tables)) :
  (∀ now t a t', f now t = Ok (a, t') → mild t t') → keeps (guarded t0 l0) (statement f).
Proof.
  intros Hf w Hw. unfold statement. destruct (f _ _) as [[a t]|] eqn:E; [|done]. apply guarded_mild; [done|]. by eapply Hf.
Qed.

Lemma guarded_query {A} t0 l0 (f : Tables → res A) : keeps (guarded t0 l0) (query f).
Proof. apply guarded_statement. intros now t a t' (x & _ & [= _ <-])%bind_ok. by apply mild_same. Qed.

Lemma guarded_execute t0 l0 f : (∀ now t, mild t (f now t)) → keeps (guarded t0 l0) (execute f).
Proof. intros Hf. apply guarded_statement. intros now t a t' [= _ <-]. apply Hf. Qed.

Lemma guarded_updating {A} t0 l0 (f : instant → Tables → option A * Tables) : (∀ now t, mild t (f now t).2) → keeps (guarded t0 l0) (updating f).
Proof. intros Hf. apply guarded_statement. intros now t a t'. specialize (Hf now t). destruct (f now t). by intros [= _ <-]. Qed.

(** ** Services *)

Lemma guarded_silent {A} t0 l0 (m : io W A) : (∀ w, tables (m w).2 = tables w ∧ log (m w).2 = log w) → keeps (guarded t0 l0) m.
Proof.
  intros Hm w [H1 H2 H3 H4]. destruct (Hm w) as [Ht Hl]. destruct (m w) as [[a|e] w1]; simpl in *; split; rewrite ?Ht, ?Hl; done.
Qed.

Lemma guarded_grows t0 l0 w w1 e : guarded t0 l0 w → tables w1 = tables w → log w1 = (log w ++ [e])%list →
  (∀ s tool a u, e = Called s tool a u → requires_approval tool = true → ∃ k, asked t0 k (Some (s, tool)) ∧ approved_by (log w) k) →
  guarded t0 l0 w1.
Proof.
  intros [H1 H2 H3 H4] Ht Hl He. assert (Hs : log w ⊆ log w1) by (rewrite Hl; by apply list_subseteq_app_l).
  split; rewrite ?Ht.
  - intros k st Hst Ha. destruct (H1 k st Hst Ha) as [Hp Hf]. split; [done|]. intros Hfl. destruct (Hf Hfl) as [Hb Hk].
    split; [by eapply approved_mono|done].
  - done.
  - rewrite Hl. by apply audited_snoc.
  - by etransitivity.
Qed.

Lemma guarded_record t0 l0 e : keeps (guarded t0 l0) (record_event e).
Proof.
  intros w Hw. destruct (record_keeps e w) as [Ht [Hl|[Hl _]]]; destruct (record_event e w) as [[a|ex] w1]; simpl in *.
  1,2: by eapply guarded_grows.
  1,2: destruct Hw as [H1 H2 H3 H4]; split; rewrite ?Ht, ?Hl; done.
Qed.

Lemma guarded_invoke t0 l0 server tool args user n :
  (requires_approval tool = true → ∃ k, asked t0 k (Some (server, tool)) ∧ approved_by l0 k) →
  keeps (guarded t0 l0) (invoke server tool args user n).
Proof.
  intros H w Hw. destruct (invoke_calls server tool args user n w) as [Ht Hl].
  destruct (invoke server tool args user n w) as [[a|ex] w1]; simpl in *; (eapply guarded_grows; [exact Hw|done|exact Hl|]);
    intros s tl a' u [= <- <- <- <-] Hg; destruct (H Hg) as (k & Hk & Hb); exists k; (split; [done|]); eapply approved_mono; [apply Hw|done|apply Hw|done].
Qed.

(** ** Operations *)

#[local] Hint Resolve guarded_query guarded_record mild_update_run authority_silent servers_silent tools_silent sleep_silent chat_silent
  conversation_silent : keeps.
#[local] Hint Resolve guarded_silent | 3 : keeps.
#[local] Hint Extern 2 (triple _ (execute _) _ _) => apply guarded_execute; intros; apply mild_update_run : keeps.
#[local] Hint Extern 2 (triple _ (updating _) _ _) => apply guarded_updating; intros; apply mild_update_run : keeps.

Lemma guarded_refresh t0 l0 s id : keeps (guarded t0 l0) (_refresh_step_results json_loads jsonb jsonb_text s id).
Proof. unfold _refresh_step_results, _load_steps. keep. Qed.

Lemma guarded_answer t0 l0 s id ok status : keeps (guarded t0 l0) (answer json_loads jsonb jsonb_text s id ok status).
Proof. unfold answer. pose proof guarded_refresh. keep. Qed.

Lemma guarded_step_audit t0 l0 user id idx tool args risk status metadata :
  keeps (guarded t0 l0) (_record_step_audit user id idx tool args risk status metadata).
Proof. apply guarded_record. Qed.

Lemma guarded_skip t0 l0 s id idx : keeps (guarded t0 l0) (_mark_remaining_skipped s id idx).
Proof. apply guarded_execute. intros now t. apply mild_update_steps. intros st. split; [done|by apply harmless_ended]. Qed.
#[local] Hint Resolve guarded_refresh guarded_answer guarded_step_audit guarded_skip : keeps.

Lemma guarded_pause t0 l0 s user id idx tool args risk d : is_true (get "approved" d) = false →
  keeps (guarded t0 l0) (pause json_loads jsonb jsonb_text s user id idx tool args risk d).
Proof.
  intros Hd. unfold pause. apply keeps_bind_res. intros v Hv. apply keeps_bind; [|intros []; keep].
  apply guarded_execute. intros now t. apply mild_update_step. intros st _ _. split; [done|by eapply harmless_paused].
Qed.

Lemma guarded_finish t0 l0 s id idx status result : mem status ACTIVE_STEP_STATUSES = false →
  keeps (guarded t0 l0) (finish_step s id idx status result).
Proof. intros Hs. apply guarded_updating. intros now t. apply mild_update_step. intros st _ _. split; [done|by apply harmless_ended]. Qed.

Lemma guarded_refuse t0 l0 s id idx error : keeps (guarded t0 l0) (refuse_step json_loads jsonb jsonb_text s id idx error).
Proof.
  unfold refuse_step. apply keeps_bind_res. intros v _. apply keeps_bind; [|intros []; keep].
  apply guarded_execute. intros now t. apply mild_update_step. intros st _ _. split; [done|by apply harmless_ended].
Qed.

Lemma guarded_human t0 l0 s user id step args : keeps (guarded t0 l0) (human_step json_loads jsonb jsonb_text s user id step args).
Proof.
  unfold human_step. apply keeps_bind_res. intros [] _.
  - apply keeps_bind; [|intros a; keep]. apply guarded_statement. intros now t a t'.
    destruct (find_step s id (ls_idx step) t) as [st|]; [|by intros [= _ <-]; apply mild_same].
    case_match; [|by intros [= _ <-]; apply mild_same]. intros (r & _ & [= _ <-])%bind_ok.
    apply mild_update_step. intros st' _ _. split; [done|by apply harmless_ended].
  - apply keeps_bind; [by apply guarded_pause|intros a; keep].
Qed.

Lemma guarded_claim t0 l0 s id idx : keeps (guarded t0 l0) (_claim_step json_loads jsonb_text s id idx).
Proof.
  unfold _claim_step. apply keeps_bind; [|intros a; keep]. apply guarded_statement. intros now t a t' [= Hu]. apply (f_equal snd) in Hu. cbn [snd] in Hu. subst t'.
  apply mild_update_step. intros st _ _. split; [done|by apply harmless_ended].
Qed.

Lemma guarded_attempts t0 l0 n k e call : keeps (guarded t0 l0) call → keeps (guarded t0 l0) (attempts n k e call).
Proof. intros Hc. revert k e. induction n as [|n IH]; intros k e; simpl; [keep|]. pose proof (IH (k + 1)). keep. Qed.

Lemma guarded_retry t0 l0 server tool args n user : (requires_approval tool = true → ∃ k, asked t0 k (Some (server, tool)) ∧ approved_by l0 k) →
  keeps (guarded t0 l0) (_invoke_with_retry server tool args n user).
Proof.
  intros H. unfold _invoke_with_retry. apply keeps_bind.
  - unfold _live_tool_schema. keep.
  - intros [schema|]; [|keep]. case_match; [|keep]. apply guarded_attempts. by apply guarded_invoke.
Qed.
#[local] Hint Resolve guarded_human guarded_refuse guarded_claim : keeps.

Lemma guarded_run_tool t0 l0 s user id idx server tool risk : (requires_approval tool = true → ∃ k, asked t0 k (Some (server, tool)) ∧ approved_by l0 k) →
  keeps (guarded t0 l0) (run_tool json_loads jsonb jsonb_text s user id idx server tool risk).
Proof.
  intros H. unfold run_tool. pose proof (λ a n, guarded_retry t0 l0 server tool a n user H).
  pose proof (λ v, guarded_finish t0 l0 s id idx "completed" v eq_refl). pose proof (λ v, guarded_finish t0 l0 s id idx "failed" v eq_refl).
  unfold latest_status. keep.
Qed.

(** ** An execution *)

(** A step as it was read may be run, as far as its approval goes. *)
Definition licensed (t0 : Tables) (l : list event) (id : string) (ls : LoadedStep) : Prop :=
  mem (ls_status ls) ACTIVE_STEP_STATUSES = true → _is_approved json_loads ls = Ok true →
    approved_by l (id, ls_idx ls) ∧ asked t0 (id, ls_idx ls) (call_of (ls_tool ls) (ls_args ls)).

Lemma select_steps_lookup s id t idx st : (idx, st) ∈ select_steps s id t → workflow_steps t !! (id, idx) = Some st.
Proof.
  unfold select_steps. rewrite elem_of_sort_by, list_elem_of_omap. intros ([[i x] st'] & Hin & H). simpl in H.
  case_match eqn:E; [|done]. injection H as -> ->. apply andb_prop in E as [->%bool_decide_eq_true _]. by apply elem_of_map_to_list in Hin.
Qed.

Lemma is_approved_flagged k st : plain (step_result st) → _is_approved json_loads (load_step json_loads jsonb_text (k, st)) = Ok true → flagged st.
Proof.
  unfold _is_approved, load_step. simpl. destruct (step_result st) as [[]|]; try done. intros _. simpl.
  destruct (Hreads d) as (d' & -> & <-). simpl. intros [= ->]. done.
Qed.

Lemma load_licensed t0 l0 s id : triple (guarded t0 l0) (_load_steps json_loads jsonb_text s id) (λ steps w, guarded t0 l0 w ∧ Forall (licensed t0 (log w) id) steps) (guarded t0 l0).
Proof.
  intros w Hw. unfold _load_steps, query, statement. simpl. split.
  - apply guarded_mild; [done|by apply mild_same].
  - rewrite set_tables_log. apply Forall_fmap, Forall_forall. intros [idx st] Hin Ha Hap.
    apply list_elem_of_In, filter_In in Hin as [Hin%list_elem_of_In%select_steps_lookup _].
    destruct (g_active _ _ _ Hw _ _ Hin Ha) as [Hp Hf]. by apply Hf, (is_approved_flagged idx).
Qed.

Lemma guarded_run_step t0 l0 s user id ls : licensed t0 l0 id ls → keeps (guarded t0 l0) (run_step json_loads jsonb jsonb_text s user id ls).
Proof.
  intros Hl. unfold run_step, latest_status. apply keeps_bind; [keep|intros latest]. case_match; [keep|].
  destruct (bool_decide _ || negb _) eqn:Ea; [keep|]. apply orb_false_iff in Ea as [_ Ea]. apply negb_false_iff in Ea.
  cbv zeta. case_match; [keep|]. destruct (_split_tool _ _) as [[server bare]|e] eqn:Es; [|keep].
  destruct (requires_approval bare) eqn:Er.
  - apply keeps_bind_res. intros [] Hap; [|apply keeps_bind; [by apply guarded_pause|keep]].
    apply guarded_run_tool. intros _. exists (id, ls_idx ls). destruct (Hl Ea Hap) as [Hb Hk]. split; [|done].
    unfold call_of in Hk. by rewrite Es in Hk.
  - apply keeps_bind; [keep|intros []; [apply guarded_run_tool; congruence|apply keeps_bind; [by apply guarded_pause|keep]]].
Qed.

Lemma guarded_run_steps t0 l0 s user id steps : Forall (licensed t0 l0 id) steps →
  keeps (guarded t0 l0) (run_steps json_loads jsonb jsonb_text s user id steps).
Proof.
  induction 1 as [|ls steps Hl _ IH]; simpl; [keep|]. apply keeps_bind; [by apply guarded_run_step|]. intros []; keep.
Qed.

Lemma guarded_since {A} t0 l0 (F : list event → Prop) (m : io W A) : (∀ l, F l → keeps (guarded t0 l) m) →
  triple (λ w, guarded t0 l0 w ∧ F (log w)) m (λ _, guarded t0 l0) (guarded t0 l0).
Proof.
  intros Hm w [Hw HF]. specialize (Hm _ HF w (guarded_now _ _ _ Hw)).
  destruct (m w) as [[a|e] w1]; (eapply guarded_weaken; [apply Hw|done]).
Qed.

Lemma guarded_load t0 l0 s id user : keeps (guarded t0 l0) (_load_workflow uuid s id user).
Proof. unfold _load_workflow, raises. keep. Qed.

Lemma guarded_materialise t0 l0 s id tenant workspace idx plan : keeps (guarded t0 l0) (materialise jsonb s id tenant workspace idx plan).
Proof.
  revert idx. induction plan as [|v plan IH]; intros idx; simpl; [keep|]. pose proof (IH (idx + 1)). destruct v; try done.
  apply keeps_bind; [|done]. apply guarded_statement. intros now t a t' (tool & _ & (args & _ & (t1 & Ht & [= _ <-])%bind_ok)%bind_ok)%bind_ok.
  eapply mild_insert_step; [|exact Ht]. done.
Qed.
#[local] Hint Resolve guarded_load guarded_materialise : keeps.

Lemma guarded_execution t0 l0 s id user : keeps (guarded t0 l0) (_execute_workflow_scoped uuid json_loads jsonb jsonb_text s id user).
Proof.
  unfold _execute_workflow_scoped. apply keeps_bind; [keep|intros run]. case_match; [keep|].
  apply keeps_bind; [unfold _materialise_steps_if_needed; keep|intros _]. apply keeps_bind; [keep|intros row].
  case_match; [unfold latest_status; keep|]. eapply triple_bind; [apply load_licensed|]. intros steps.
  apply (guarded_since t0 l0 (λ l, Forall (licensed t0 l id) steps)). intros l Hl.
  apply keeps_bind; [by apply guarded_run_steps|]. intros [a|]; [keep|]. unfold complete. keep.
Qed.

(** ** The other requests *)

Lemma tables_query {A} t (f : Tables → res A) : keeps (λ w, tables w = t) (query f).
Proof. intros w Hw. unfold query, statement. destruct (f (tables w)); simpl; [by rewrite set_tables_tables|done]. Qed.

Lemma tables_load t s id user : keeps (λ w, tables w = t) (_load_workflow uuid s id user).
Proof. unfold _load_workflow, raises. pose proof (@tables_query). keep. Qed.

Lemma approval_recorded t0 l0 user id idx : Permissions.has_permission user "copilot.execute" = Ok true →
  triple (λ w, guarded t0 l0 w ∧ tables w = t0) (record_event (approval_event user id idx))
    (λ _ w, guarded t0 l0 w ∧ tables w = t0 ∧ approved_by (log w) (id, idx)) (guarded t0 l0).
Proof.
  intros Hp w [Hw Ht]. pose proof (guarded_record t0 l0 (approval_event user id idx) w Hw) as Hg.
  destruct (record_keeps (approval_event user id idx) w) as [Ht1 Hl]. destruct (record_event _ w) as [[[]|e] w1]; [|done]. simpl in *.
  split; [done|]. split; [congruence|]. destruct Hl as [Hl|[_ Hn]]; [|by destruct Hn]. exists user. split; [|done]. rewrite Hl. apply elem_of_app. right. by left.
Qed.

Lemma guarded_approve t0 l0 s id idx :
  triple (λ w, guarded t0 l0 w ∧ tables w = t0 ∧ approved_by (log w) (id, idx)) (approve s id idx) (λ _, guarded t0 l0) (guarded t0 l0).
Proof.
  intros w (Hw & Ht & Hap). unfold approve, statement. unfold int4_argument. destruct (_ && _); simpl; [|done].
  assert (Hsame : guarded t0 l0 (set_tables (tables w) w)) by (apply guarded_mild; [done|by apply mild_same]).
  unfold update_step. destruct (find_step s id idx (tables w)) as [st|] eqn:Ef; [|done]. destruct (bool_decide _) eqn:Es; [|done].
  unfold jsonb_set_true. pose proof Ef as Ef'. unfold find_step in Ef. destruct (workflow_steps (tables w) !! (id, idx)) as [old|] eqn:Eo; [|done].
  destruct (step_visible s old); [|done]. injection Ef as ->. destruct Hw as [H1 H2 H3 H4].
  assert (Ha : active st) by (unfold active; by rewrite bool_decide_eq_true in Es; rewrite Es).
  assert (Hpl : ∃ d, default (PDict []) (step_result st) = PDict d).
  { destruct (H1 _ _ Eo Ha) as [Hp _]. destruct (step_result st) as [[]|]; try done; by eexists. }
  destruct Hpl as [d ->]. simpl. split; rewrite ?set_tables_tables, ?set_tables_log; [| |done|done].
  - intros k st'. simpl. destruct (decide (k = (id, idx))) as [->|Hne].
    + rewrite lookup_insert_eq. intros [= <-] _. split; [done|]. intros _. split; [done|]. exists st. split; [by rewrite <- Ht|done].
    + rewrite lookup_insert_ne by done. apply H1.
  - intros k st' Hk. destruct (H2 k st' Hk) as (old & Hold & Hc). simpl. destruct (decide (k = (id, idx))) as [->|Hne].
    + exists (set_step "pending" (Some (PDict (dset "approved" (PBool true) d))) (step_started_at st) (step_finished_at st) st).
      simpl. rewrite lookup_insert_eq. split; [done|]. rewrite Eo in Hold. injection Hold as <-. exact Hc.
    + exists old. simpl. by rewrite lookup_insert_ne.
Qed.

Lemma guarded_approval t0 l0 s id idx user :
  triple (λ w, guarded t0 l0 w ∧ tables w = t0) (_approve_step_scoped uuid json_loads jsonb jsonb_text s id idx user) (λ _, guarded t0 l0) (guarded t0 l0).
Proof.
  unfold _approve_step_scoped. eapply triple_bind; [eapply triple_conseq; [apply triple_of_res|exact (λ w H, H)|exact (λ a w H, H)|by intros w [? _]]|].
  intros allowed. apply triple_fact. intros Hp. destruct allowed; [|intros w [Hw _]; exact Hw]. cbn [negb].
  eapply triple_bind; [eapply triple_conseq; [apply (triple_and _ _ _ _ _ _ _ (guarded_load t0 l0 s id user) (tables_load t0 s id user))|done|exact (λ a w H, H)|by intros w [? _]]|].
  intros run. eapply triple_bind; [by apply approval_recorded|]. intros []. eapply triple_bind; [apply guarded_approve|].
  intros row. pose proof (guarded_execution t0 l0 s id user). unfold raises. keep.
Qed.

Lemma guarded_cancel t0 l0 s id user : keeps (guarded t0 l0) (_cancel_workflow_scoped json_loads jsonb jsonb_text s id user).
Proof. unfold _cancel_workflow_scoped, raises. keep. Qed.

Lemma guarded_insert_steps t0 l0 s id tenant workspace idx plan : keeps (guarded t0 l0) (insert_steps jsonb s id tenant workspace idx plan).
Proof.
  revert idx. induction plan as [|step plan IH]; intros idx; simpl; [keep|]. pose proof (IH (idx + 1)). apply keeps_bind; [|done].
  apply guarded_statement. intros now t x t' (? & _ & (? & _ & (? & _ & (t1 & Ht & [= _ <-])%bind_ok)%bind_ok)%bind_ok)%bind_ok.
  eapply mild_insert_step; [|exact Ht]. done.
Qed.

Lemma guarded_claim_plan t0 l0 s id user plan : keeps (guarded t0 l0) (claim_plan uuid jsonb s id user plan).
Proof. unfold claim_plan, raises. pose proof guarded_insert_steps. keep. Qed.

(** ** Transactions *)

Lemma lawful_guarded w : lawful w ↔ guarded (tables w) (log w) w.
Proof. split; intros [H1 H2 H3 H4]; split; try done. by intros e He%elem_of_nil. Qed.

Lemma lawful_transaction {A} (m : io W A) :
  (∀ t0 l0, triple (λ w, guarded t0 l0 w ∧ tables w = t0) m (λ _, guarded t0 l0) (guarded t0 l0)) → keeps lawful (transaction m).
Proof.
  intros Hm w Hw. unfold transaction. specialize (Hm (tables w) (log w) w (conj (proj1 (lawful_guarded w) Hw) eq_refl)).
  destruct (m w) as [[a|e] w1].
  - destruct Hm as [H1 H2 H3 H4]. split; [|by eexists| |by intros ? ?%elem_of_nil].
    + intros k st Hk Ha. destruct (H1 k st Hk Ha) as [Hp Hf]. split; [done|]. intros Hfl. destruct (Hf Hfl). split; [done|]. by eapply asked_trans.
    + by eapply audited_mono.
  - destruct Hw as [H1 H2 _ _], Hm as [_ _ H3 H4]. split; rewrite ?set_tables_tables, ?set_tables_log; [|by eexists|done|by intros ? ?%elem_of_nil].
    intros k st Hk Ha. destruct (H1 k st Hk Ha) as [Hp Hf]. split; [done|]. intros Hfl. destruct (Hf Hfl). split; [by eapply approved_mono|done].
Qed.

Lemma lawful_scoped {A} user (body : Session → io W A) :
  (∀ s t0 l0, triple (λ w, guarded t0 l0 w ∧ tables w = t0) (body s) (λ _, guarded t0 l0) (guarded t0 l0)) → keeps lawful (scoped_db_for_user user body).
Proof.
  intros Hb. unfold scoped_db_for_user. apply keeps_bind_res. intros s _. apply lawful_transaction. intros t0 l0.
  apply (triple_bind _ _ _ (λ _ w, guarded t0 l0 w ∧ tables w = t0)); [|intros []; apply Hb].
  case_match; intros w [Hw Ht]; [done|]. pose proof (guarded_silent t0 l0 _ (authority_silent user) w Hw) as Hg.
  destruct (authority_silent user w) as [Ht' _]. destruct (assert_authority user w) as [[[]|e] w1]; simpl in *; [split; [done|congruence]|done].
Qed.

Lemma lawful_scoped_keeps {A} user (body : Session → io W A) :
  (∀ s t0 l0, keeps (guarded t0 l0) (body s)) → keeps lawful (scoped_db_for_user user body).
Proof. intros Hb. apply lawful_scoped. intros s t0 l0 w [Hw _]. by apply Hb. Qed.

Lemma lawful_record e : keeps lawful (record_event e).
Proof.
  intros w Hw. apply lawful_guarded in Hw. pose proof (guarded_record _ _ e w Hw) as Hg. destruct (record_keeps e w) as [Ht _].
  unfold lawful. destruct (record_event e w) as [[a|ex] w1]; simpl in *; rewrite Ht; (eapply guarded_weaken; [|exact Hg]; by intros ? ?%elem_of_nil).
Qed.

Lemma lawful_silent {A} (m : io W A) : (∀ w, tables (m w).2 = tables w ∧ log (m w).2 = log w) → keeps lawful m.
Proof.
  intros Hm w Hw. pose proof (guarded_silent (tables w) [] m Hm w Hw) as Hg. destruct (Hm w) as [Ht _].
  unfold lawful. destruct (m w) as [[a|e] w1]; simpl in *; by rewrite Ht.
Qed.

(** ** Requests *)

#[local] Hint Resolve lawful_record : keeps.
#[local] Hint Resolve lawful_silent | 3 : keeps.

Lemma lawful_create fresh payload user : keeps lawful (create_workflow uuid fresh payload user).
Proof.
  unfold create_workflow, raises. apply keeps_bind_res. intros intent _. cbv zeta. do 2 (case_match; [keep|]).
  apply keeps_bind; [|intros r; keep]. apply lawful_scoped_keeps. intros s t0 l0. apply keeps_bind_res. intros u _.
  apply keeps_bind_res. intros [tenant workspace] _. apply keeps_bind; [keep|intros allowed]. case_match; [keep|].
  apply keeps_bind_res. intros conversation _. apply guarded_statement.
  intros now t a t' (t1 & Ht & [= _ <-])%bind_ok. unfold insert_run in Ht. case_match; [done|]. case_match; [done|].
  injection Ht as <-. by apply mild_same.
Qed.

Lemma lawful_tools : keeps lawful available_tools.
Proof.
  unfold available_tools. apply keeps_handling; [|intros e; keep]. apply keeps_bind; [keep|intros servers].
  induction servers as [|server servers IH]; simpl; [keep|]. apply keeps_bind; [|intros tools; keep].
  unfold tools_of, raises. destruct server; keep.
Qed.

Lemma lawful_plan id user : keeps lawful (plan_workflow uuid json_loads jsonb id user).
Proof.
  unfold plan_workflow, raises. apply keeps_bind; [apply lawful_scoped_keeps; intros; keep|intros [run|]; [|keep]].
  case_match; [keep|]. apply keeps_bind; [apply lawful_tools|intros tools]. apply keeps_bind; [unfold _llm_plan; keep|intros plan].
  case_match; [keep|]. apply keeps_bind_res. intros plan' _.
  apply keeps_bind; [apply lawful_scoped_keeps; intros; apply guarded_claim_plan|intros _; keep].
Qed.

Lemma lawful_handle user r : keeps lawful (handle uuid json_loads jsonb jsonb_text user r).
Proof.
  destruct r as [fresh payload|id| |id|id|id|id|id idx]; simpl; unfold forget, raises.
  - apply keeps_bind; [apply lawful_create|keep].
  - apply keeps_bind_res; intros i _. apply keeps_bind; [|keep]. unfold get_workflow. apply lawful_scoped_keeps. intros. keep.
  - apply keeps_bind; [|keep]. unfold list_workflows. apply lawful_scoped_keeps. intros. keep.
  - apply keeps_bind_res; intros i _. apply keeps_bind; [apply lawful_plan|keep].
  - apply keeps_bind_res; intros i _. apply keeps_bind; [|keep]. apply lawful_scoped_keeps. intros. apply guarded_execution.
  - apply keeps_bind_res; intros i _. apply keeps_bind; [|keep]. apply lawful_scoped_keeps. intros. keep.
  - apply keeps_bind_res; intros i _. apply keeps_bind; [|keep]. apply lawful_scoped_keeps. intros. apply guarded_cancel.
  - apply keeps_bind_res; intros i _. case_match; [keep|]. apply keeps_bind; [|keep]. apply lawful_scoped. intros. apply guarded_approval.
Qed.

Lemma lawful_serve requests w : lawful w → lawful (serve uuid json_loads jsonb jsonb_text requests w).
Proof.
  revert w. induction requests as [|[user r] requests IH]; intros w Hw; simpl; [done|]. apply IH.
  assert (H : keeps lawful (route uuid json_loads jsonb jsonb_text user r)).
  { unfold route. apply keeps_bind_res. intros ? _. apply keeps_bind_res. intros ? _. apply lawful_handle. }
  specialize (H w Hw). by destruct (route _ _ _ _ _ _ w) as [[a|e] w1].
Qed.

(** C17: whatever users ask of the workflows, one request after another, and whatever the tools, the audit and the model do,
    a call of a tool that takes an approval comes after the audit has recorded that a user with the permission
    [copilot.execute] approved the step that asks for it; this holds even of the calls of transactions that were undone. *)
Theorem gated_calls_are_approved requests w :
  (∀ k st, workflow_steps (tables w) !! k = Some st → active st → step_result st = None) → log w = [] →
  ∀ l1 server tool args caller l2,
    log (serve uuid json_loads jsonb jsonb_text requests w) = (l1 ++ Called server tool args caller :: l2)%list → requires_approval tool = true →
    ∃ id idx step approver,
      workflow_steps (tables (serve uuid json_loads jsonb jsonb_text requests w)) !! (id, idx) = Some step
      ∧ step_call step = Some (server, tool)
      ∧ Recorded (approval_event approver id idx) ∈ l1 ∧ Permissions.has_permission approver "copilot.execute" = Ok true.
Proof.
  intros Hs Hl l1 server tool args caller l2 Hlog Hg.
  assert (H : lawful w).
  { split; [|by eexists| |by intros ? ?%elem_of_nil]; [|rewrite Hl; by intros [] ? ? ? ? ?].
    intros k st Hk Ha. rewrite (Hs k st Hk Ha). by split. }
  apply (lawful_serve requests) in H. destruct (g_log _ _ _ H _ _ _ _ _ _ Hlog Hg) as ([id idx] & (step & Hstep & Hc) & (approver & Ha & Hp)).
  by exists id, idx, step, approver.
Qed.
End Approvals.

(** ** A workflow whose only step starts a DAG *)

Module OneApproval.
#[local] Instance repr : PyRepr := some_repr.

Record Copilot := mkCopilot { c_tables : Tables; c_log : list event }.
Definition noted (e : event) (c : Copilot) : Copilot := mkCopilot (c_tables c) (c_log c ++ [e])%list.
#[local] Instance world : WorkflowWorld Copilot := {
  tables := c_tables; set_tables t c := mkCopilot t (c_log c); transaction_time _ := seconds 43200;
  assert_authority _ c := (Ok tt, c); list_servers c := (Ok [], c);
  list_tools _ c := (Ok [PDict (mkdict [("name", PStr "airflow_trigger_dag")])], c);
  invoke s t a u _ c := (Ok (PDict []), noted (Called s t a u) c); record_event e c := (Ok tt, noted (Recorded e) c);
  sleep _ c := (Ok tt, c); chat _ c := (Ok PNone, c); conversation_allowed _ _ _ c := (Ok true, c) }.
#[local] Instance laws : WorkflowLaws Copilot.
Proof. unshelve econstructor; [exact c_log|try by split..]. intros e w. split; [reflexivity|by left]. Defined.

Definition json_loads (s : string) : res pyval := Ok (PDict (if bool_decide (s = "1") then mkdict [("approved", PBool true)] else [])).
Definition jsonb_text (v : pyval) : string := match v with PDict d => if is_true (get "approved" d) then "1" else "0" | _ => "" end.
Definition uuid (s : string) : option string := Some s.
Definition tenant : string := "7a1d2c3b-0000-4000-8000-000000000001".
Definition workspace : string := "7a1d2c3b-0000-4000-8000-000000000002".
Definition workflow : string := "7a1d2c3b-0000-4000-8000-000000000003".
Definition owner : pydict :=
  mkdict [("id", PInt 7); ("role", PStr "owner"); ("tenant_id", PStr tenant); ("workspace_id", PStr workspace)].
Definition run : Run := mkRun 7 None "start it" (PList []) "running" 0 None 0 None None None (PList []) (Some tenant) (Some workspace) "scoped".
Definition start : Copilot :=
  mkCopilot (mkTables {[ workflow := run ]} {[ (workflow, 0) := new_step "start" (Some "infra.airflow_trigger_dag") (PDict []) (Some tenant) (Some workspace) ]}) [].
Definition requests : list (pydict * request) := [(owner, Execute workflow); (owner, Approve workflow 0)].
Definition after : Copilot := serve uuid json_loads Ok jsonb_text requests start.

Lemma keeps_approval d v : Ok (PDict d) = Ok v → ∃ d', v = PDict d' ∧ is_true (get "approved" d') = is_true (get "approved" d).
Proof. intros [= <-]. by exists d. Qed.

Lemma reads_approval d : ∃ d', json_loads (jsonb_text (PDict d)) = Ok (PDict d') ∧ is_true (get "approved" d') = is_true (get "approved" d).
Proof. unfold json_loads, jsonb_text. by destruct (is_true (get "approved" d)); eexists. Qed.

(** The DAG is started by the second request, and by neither before. *)
Lemma gated_calls_are_approved_witness :
  ∃ l1 l2, log after = (l1 ++ Called "infra" "airflow_trigger_dag" [] owner :: l2)%list
  ∧ ∃ id idx approver, Recorded (approval_event approver id idx) ∈ l1 ∧ Permissions.has_permission approver "copilot.execute" = Ok true.
Proof.
  unfold after. assert (H : match log (serve uuid json_loads Ok jsonb_text requests start) with
              | [e1; e2; Called server tool args user; e4] => server = "infra" ∧ tool = "airflow_trigger_dag" ∧ args = [] ∧ user = owner
              | _ => False
              end) by by vm_compute.
  destruct (log (serve uuid json_loads Ok jsonb_text requests start)) as [|e1 [|e2 [|[server tool args user|] [|e4 [|]]]]] eqn:E; try (exfalso; exact H). destruct H as (-> & -> & -> & ->).
  exists [e1; e2], [e4]. split; [reflexivity|].
  destruct (gated_calls_are_approved uuid json_loads Ok jsonb_text keeps_approval reads_approval requests start) with
    (l1 := [e1; e2]) (server := "infra") (tool := "airflow_trigger_dag") (args := @nil (pykey * pyval)) (caller := owner) (l2 := [e4])
    as (id & idx & step & approver & _ & _ & Ha & Hp).
  - intros k st Hk _. cbn [tables world start c_tables workflow_steps] in Hk. apply lookup_singleton_Some in Hk as [_ <-]. reflexivity.
  - reflexivity.
  - exact E.
  - vm_compute. reflexivity.
  - exists id, idx, approver. split; [exact Ha|exact Hp].
Defined.
End OneApproval.
