(* ===== verification/WorkflowShape.v ===== *)
(** The shape of a workflow: its steps are done one after another, a step that failed ends
    it and skips the rest, and what an execution answers is the status it leaves. *)
From S2P Require Import Prelude PyStr PyVal PyTime PyIo PyUuid Permissions ToolPolicy PipelineRuns Workflow WorkflowRoutes WorkflowApprovals.

Open Scope Z_scope.

(** ** Actions and the tables *)

Section Actions.
Context {W : Type} {Hworld : WorkflowWorld W} {Hlaws : WorkflowLaws W}.

(** When [m] returns, its value and the tables it leaves are in [R]. *)
Definition does {A} (Q : Tables → Prop) (m : io W A) (R : A → Tables → Prop) : Prop :=
  triple (λ w, Q (tables w)) m (λ a w, R a (tables w)) (λ _, True).

Lemma does_ret {A} (a : A) (Q : A → Tables → Prop) : does (Q a) (mret a) Q.
Proof. by intros w Hw. Qed.

Lemma does_bind {A B} Q (m : io W A) (f : A → io W B) R S : does Q m R → (∀ a, does (R a) (f a) S) → does Q (m ≫= f) S.
Proof. apply triple_bind. Qed.

Lemma does_bind_ret {A B} (a : A) (f : A → io W B) Q R : does Q (f a) R → does Q (mret a ≫= f) R.
Proof. done. Qed.

Lemma does_of_res {A} (r : res A) Q : does Q (of_res r) (λ a t, r = Ok a ∧ Q t).
Proof. intros w Hw. unfold of_res. by destruct r. Qed.

Lemma does_raises {A} e Q (R : A → Tables → Prop) : does Q (of_res (Raise e)) R.
Proof. by intros w Hw. Qed.

Lemma does_fact {A} (F : Prop) Q (m : io W A) R : (F → does Q m R) → does (λ t, F ∧ Q t) m R.
Proof. apply triple_fact. Qed.

Lemma does_pre {A} (Q Q' : Tables → Prop) (m : io W A) R : (∀ t, Q t → Q' t) → does Q' m R → does Q m R.
Proof. intros H Hm w Hw. by apply Hm, H. Qed.

Lemma does_post {A} (Q : Tables → Prop) (m : io W A) R R' : (∀ a t, R' a t → R a t) → does Q m R' → does Q m R.
Proof. intros H Hm. eapply triple_conseq; [exact Hm|done|intros a w; apply H|done]. Qed.

Lemma does_statement {A} (Q : Tables → Prop) (R : A → Tables → Prop) f :
  (∀ now t a t', Q t → f now t = Ok (a, t') → R a t') → does Q (statement f) R.
Proof. intros Hf w Hw. unfold statement. destruct (f _ _) as [[a t]|] eqn:E; [|done]. rewrite set_tables_tables. by eapply Hf. Qed.

Lemma does_query {A} (Q : Tables → Prop) (f : Tables → res A) : does Q (query f) (λ a t, f t = Ok a ∧ Q t).
Proof. apply does_statement. intros now t a t' Ht (x & Hx & [= <- <-])%bind_ok. done. Qed.

Lemma does_read {A} (Q : Tables → Prop) (f : Tables → res A) : does Q (query f) (λ _, Q).
Proof. eapply does_post; [|apply does_query]. by intros a t [_ Ht]. Qed.

Lemma does_execute (Q R : Tables → Prop) f : (∀ now t, Q t → R (f now t)) → does Q (execute f) (λ _, R).
Proof. intros Hf. apply does_statement. intros now t a t' Ht [= _ <-]. by apply Hf. Qed.

Lemma does_updating {A} (Q : Tables → Prop) (R : bool → Tables → Prop) (f : instant → Tables → option A * Tables) :
  (∀ now t, Q t → R (bool_decide (is_Some (f now t).1)) (f now t).2) → does Q (updating f) R.
Proof.
  intros Hf. apply does_statement. intros now t a t' Ht. specialize (Hf now t Ht). destruct (f now t). by intros [= <- <-].
Qed.

(** Services leave the tables. *)
Definition leaves {A} (m : io W A) : Prop := ∀ w, tables (m w).2 = tables w.

Lemma does_leaves {A} (Q : Tables → Prop) (m : io W A) : leaves m → does Q m (λ _, Q).
Proof. intros Hm w Hw. specialize (Hm w). destruct (m w) as [[a|e] w1]; simpl in *; [by rewrite Hm|done]. Qed.

Lemma leaves_keeps {A} (m : io W A) : (∀ t, keeps (λ w, tables w = t) m) → leaves m.
Proof. intros Hm w. specialize (Hm (tables w) w eq_refl). by destruct (m w) as [[a|e] w1]. Qed.

Lemma keeps_leaves {A} t (m : io W A) : leaves m → keeps (λ w, tables w = t) m.
Proof. intros Hm w Hw. specialize (Hm w). destruct (m w) as [[a|e] w1]; simpl in *; congruence. Qed.

Lemma leaves_record e : leaves (record_event e).
Proof. intros w. apply record_keeps. Qed.

Lemma leaves_retry {Hrepr : PyRepr} server tool args n user : leaves (_invoke_with_retry server tool args n user).
Proof.
  apply leaves_keeps. intros t. unfold _invoke_with_retry.
  assert (Hi : ∀ a, keeps (λ w, tables w = t) (invoke server tool a user n)) by (intros a; apply keeps_leaves; intros w; apply invoke_calls).
  assert (Hs : ∀ k, keeps (λ w, tables w = t) (sleep k)) by (intros k; apply keeps_leaves; intros w; apply sleep_silent).
  assert (Hl : keeps (λ w, tables w = t) (list_tools server)) by (apply keeps_leaves; intros w; apply tools_silent).
  apply keeps_bind; [unfold _live_tool_schema; keep|]. intros [schema|]; [|keep]. case_match; [|keep]. rename a into checked.
  generalize 0, "", MAX_ATTEMPTS. intros k e m. revert k e. induction m as [|m IH]; intros k e; simpl; [keep|]. pose proof (IH (k + 1)). keep.
Qed.
End Actions.

(** ** Shapes *)

Section Shape.
Context {Hrepr : PyRepr}.
Context (uuid : string → option string) (json_loads : string → res pyval) (jsonb : pyval → res pyval) (jsonb_text : pyval → string).
Context (Hkeeps : ∀ d v, jsonb (PDict d) = Ok v → ∃ d', v = PDict d' ∧ is_true (get "approved" d') = is_true (get "approved" d)).
Context (Hreads : ∀ d, ∃ d', json_loads (jsonb_text (PDict d)) = Ok (PDict d') ∧ is_true (get "approved" d') = is_true (get "approved" d)).

Definition Scope : Type := option string * option string * string.
Definition run_scope (r : Run) : Scope := (run_tenant_id r, run_workspace_id r, run_scope_status r).
Definition step_scope (st : Step) : Scope := (step_tenant_id st, step_workspace_id st, step_scope_status st).
Definition in_sight (s : Session) (sc : Scope) : bool := visible s sc.2 sc.1.1 sc.1.2.

Abbreviation row t id idx st := (workflow_steps t !! (id, idx) = Some st).
Definition run_is (t : Tables) (id status : string) (sc : Scope) : Prop :=
  ∃ r, workflow_runs t !! id = Some r ∧ run_status r = status ∧ run_scope r = sc.

Abbreviation completed st := (step_status st = "completed").
(** A step that waits asks for a person: it has no tool, or one that takes an approval. *)
Definition asks_person (st : Step) : Prop :=
  default "" (step_tool st) = ""
  ∨ ∃ server tool, step_call json_loads jsonb_text st = Some (server, tool) ∧ requires_approval tool = true.
(** A step that may still run: a waiting one is not approved, and asks for a person. *)
Definition live (st : Step) : Prop :=
  active st ∧ plain (step_result st)
  ∧ (step_status st = "waiting_approval" → contains_true "approved" (step_result st) = false ∧ asks_person st).

(** A step of a run of this scope. *)
Definition placed (sc : Scope) (idx : Z) (st : Step) : Prop := 0 ≤ idx ∧ step_scope st = sc.
Definition scoped (sc : Scope) (id : string) (t : Tables) : Prop := ∀ idx st, row t id idx st → placed sc idx st.
(** Steps end in their order. *)
Definition in_order (id : string) (t : Tables) : Prop :=
  ∀ i j a b, row t id i a → row t id j b → i < j → completed b → completed a.

Definition shaped (status : string) (id : string) (t : Tables) : Prop :=
  (status = "planning" ∧ ∀ idx st, ¬ row t id idx st)
  ∨ (mem status ["running"; "waiting_approval"] = true ∧ (∀ idx st, row t id idx st → completed st ∨ live st) ∧ in_order id t
      ∧ (status = "waiting_approval" → ∃ idx st, row t id idx st ∧ step_status st = "waiting_approval"))
  ∨ (status = "completed" ∧ ∀ idx st, row t id idx st → completed st)
  ∨ (status = "failed" ∧ ∃ f, ∀ idx st, row t id idx st →
       (idx < f ∧ completed st) ∨ (idx = f ∧ step_status st = "failed") ∨ (f < idx ∧ step_status st = "skipped"))
  ∨ (status = "cancelled" ∧ (∀ idx st, row t id idx st → completed st ∨ step_status st = "skipped") ∧ in_order id t).

(** One workflow; every one, and steps are of a workflow that exists. *)
Definition sound (id : string) (t : Tables) : Prop := ∃ status sc, run_is t id status sc ∧ scoped sc id t ∧ shaped status id t.
Definition wellformed (t : Tables) : Prop :=
  (∀ id, is_Some (workflow_runs t !! id) → sound id t) ∧ (∀ id idx st, row t id idx st → is_Some (workflow_runs t !! id)).

(** Other workflows are as they were. *)
Definition elsewhere (id : string) (t t' : Tables) : Prop :=
  (∀ i, i ≠ id → workflow_runs t' !! i = workflow_runs t !! i) ∧ (∀ i k, i ≠ id → workflow_steps t' !! (i, k) = workflow_steps t !! (i, k)).

#[export] Instance elsewhere_pre id : PreOrder (elsewhere id).
Proof.
  split; [done|]. intros t1 t2 t3 [H1 H2] [H3 H4]. split; intros; [rewrite H3 by done; by apply H1|rewrite H4 by done; by apply H2].
Qed.

Lemma wellformed_elsewhere id t t' : wellformed t → elsewhere id t t' → sound id t' → wellformed t'.
Proof.
  intros [Hs Hf] [Hr Hk] Hid. split.
  - intros i Hi. destruct (decide (i = id)) as [->|Hne]; [done|]. rewrite Hr in Hi by done.
    destruct (Hs i Hi) as (status & sc & (r & Hrun & He) & Hsc & Hsh). exists status, sc. split; [exists r; by rewrite Hr|].
    split; [intros idx st; rewrite Hk by done; apply Hsc|]. unfold shaped, in_order in *. setoid_rewrite (Hk i) ; done.
  - intros i idx st Hrow. destruct (decide (i = id)) as [->|Hne]; [destruct Hid as (? & ? & (r & Hrun & _) & _); by exists r|].
    rewrite Hr by done. rewrite Hk in Hrow by done. by eapply Hf.
Qed.

(** ** The steps that are read *)

Lemma select_steps_elem s id t idx st : (idx, st) ∈ select_steps s id t ↔ row t id idx st ∧ step_visible s st = true.
Proof.
  unfold select_steps. rewrite elem_of_sort_by, list_elem_of_omap. split.
  - intros ([[i x] st'] & Hin & H). simpl in H. case_match eqn:E; [|done]. injection H as -> ->.
    apply andb_prop in E as [->%bool_decide_eq_true Hv]. by apply elem_of_map_to_list in Hin.
  - intros [Hr Hv]. exists ((id, idx), st). split; [by apply elem_of_map_to_list|]. simpl. by rewrite bool_decide_eq_true_2, Hv.
Qed.

Lemma select_steps_nodup s id t : NoDup (select_steps s id t).*1.
Proof.
  unfold select_steps. rewrite (sort_by_perm by_index). pose proof (NoDup_fst_map_to_list (workflow_steps t)) as Hn.
  induction (map_to_list (workflow_steps t)) as [|[[i x] st] l IH]; simpl; [constructor|]. apply NoDup_cons in Hn as [Hx Hn].
  specialize (IH Hn). destruct (bool_decide (i = id) && step_visible s st) eqn:E; simpl; [|exact IH].
  apply andb_prop in E as [->%bool_decide_eq_true _]. constructor; [|exact IH]. intros ([j st'] & -> & Hin)%list_elem_of_fmap.
  apply list_elem_of_omap in Hin as ([[i y] st2] & Hin & H). simpl in H. case_match eqn:E; [|done]. injection H as -> ->.
  apply andb_prop in E as [->%bool_decide_eq_true _]. apply Hx. apply list_elem_of_fmap. by exists ((id, j), st').
Qed.

Lemma select_steps_sorted s id t : StronglySorted (λ a b, a.1 < b.1) (select_steps s id t).
Proof.
  assert (Hs : StronglySorted (λ a b : Z * Step, a.1 ≤ b.1) (select_steps s id t)).
  { apply sort_by_sorted; [intros ???; lia|..]; intros a b; unfold by_index; lia. }
  pose proof (select_steps_nodup s id t) as Hn. induction Hs as [|a l Hl IH Ha]; [constructor|].
  apply NoDup_cons in Hn as [Hx Hn]. constructor; [by apply IH|]. rewrite Forall_forall in Ha |- *. intros b Hb. specialize (Ha b Hb).
  assert (a.1 ≠ b.1); [|lia]. intros He. apply Hx. rewrite He. by apply list_elem_of_fmap_2.
Qed.

(** ** A workflow in the sight of a session *)

Section One.
Context (s : Session) (id : string) (sc : Scope) (Hsight : in_sight s sc = true) (t0 : Tables).

Lemma find_run_sight t r : workflow_runs t !! id = Some r → run_scope r = sc → find_run s id t = Some r.
Proof. unfold find_run. intros -> Hr. pose proof Hsight as Hv. rewrite <- Hr in Hv. by rewrite (Hv : run_visible s r = true). Qed.

Lemma find_step_sight t idx st : row t id idx st → placed sc idx st → find_step s id idx t = Some st.
Proof. unfold find_step. intros -> [_ Hr]. pose proof Hsight as Hv. rewrite <- Hr in Hv. by rewrite (Hv : step_visible s st = true). Qed.

(** A run whose status and scope are those of another is as good. *)
Lemma update_run_is t status sc' p f : run_is t id status sc → (∀ r, run_scope (f r) = run_scope r) →
  (∀ r, run_status r = status → p r = true ∧ run_status (f r) = sc') →
  run_is (update_run s id p f t).2 id sc' sc ∧ (update_run s id p f t).1 ≠ None
  ∧ workflow_steps (update_run s id p f t).2 = workflow_steps t ∧ elsewhere id t (update_run s id p f t).2.
Proof.
  intros (r & Hr & Hs & Hsc) Hf Hp. unfold update_run. rewrite (find_run_sight _ _ Hr Hsc). destruct (Hp r Hs) as [-> Hs']. simpl.
  split; [exists (f r); split; [apply lookup_insert_eq|split; [done|by rewrite Hf]]|]. split; [done|]. split; [done|].
  split; [intros i Hi; simpl; by rewrite lookup_insert_ne|done].
Qed.

Lemma update_step_row t idx st p f : row t id idx st → placed sc idx st → p st = true →
  (update_step s id idx p f t).1 = Some (f st) ∧ row (update_step s id idx p f t).2 id idx (f st)
  ∧ (∀ k, k ≠ (id, idx) → workflow_steps (update_step s id idx p f t).2 !! k = workflow_steps t !! k)
  ∧ workflow_runs (update_step s id idx p f t).2 = workflow_runs t.
Proof.
  intros Hr Hsc Hp. unfold update_step. rewrite (find_step_sight _ _ _ Hr Hsc), Hp. simpl.
  split; [done|]. split; [apply lookup_insert_eq|]. split; [|done]. intros k Hk. by rewrite lookup_insert_ne.
Qed.

(** *** The state of the loop

    The steps before [rest] are completed, the run is running; or, of the step [idx]
    whose turn it is, it is whatever [st] says. *)
Definition ahead (rest : list (Z * Step)) (t : Tables) : Prop :=
  run_is t id "running" sc ∧ scoped sc id t ∧ in_order id t ∧ elsewhere id t0 t
  ∧ (∀ i st, row t id i st → completed st ∨ (live st ∧ (i, st) ∈ rest))
  ∧ (∀ i st, (i, st) ∈ rest → row t id i st) ∧ StronglySorted (λ a b, a.1 < b.1) rest.

Definition front (status : string) (idx : Z) (ok : Step → Prop) (rest : list (Z * Step)) (t : Tables) : Prop :=
  run_is t id status sc ∧ elsewhere id t0 t
  ∧ (∃ st, row t id idx st ∧ placed sc idx st ∧ ok st)
  ∧ (∀ i st, row t id i st → i ≠ idx → placed sc i st ∧ ((i < idx ∧ completed st) ∨ (idx < i ∧ live st ∧ (i, st) ∈ rest)))
  ∧ (∀ i st, (i, st) ∈ rest → row t id i st ∧ idx < i) ∧ StronglySorted (λ a b, a.1 < b.1) rest.

Lemma live_not_completed st : live st → ¬ completed st.
Proof. intros [Ha _] Hc. unfold active in Ha. by rewrite Hc in Ha. Qed.

Lemma ahead_front idx st rest t : ahead ((idx, st) :: rest) t → live st → front "running" idx (λ st', st' = st) rest t.
Proof.
  intros (Hrun & Hsc & Ho & He & Hr & Hin & Hsorted) Hl. apply StronglySorted_inv in Hsorted as [Hs Hf].
  assert (Hst : row t id idx st) by (apply Hin; by left).
  split; [done|]. split; [done|]. split; [exists st; split; [done|split; [by eapply Hsc|done]]|]. split; [|split; [|done]].
  - intros i a Ha Hi. split; [by eapply Hsc|]. destruct (Hr i a Ha) as [Hc|[Hla Hia]].
    + left. split; [|done]. destruct (Z.lt_trichotomy i idx) as [|[|Hgt]]; [done..|]. by destruct (live_not_completed _ Hl (Ho _ _ _ _ Hst Ha Hgt Hc)).
    + apply elem_of_cons in Hia as [[= -> ->]|Hia]; [done|]. right. split; [|done]. rewrite Forall_forall in Hf. by apply (Hf (i, a)).
  - intros i a Hia. split; [apply Hin; by right|]. rewrite Forall_forall in Hf. by apply (Hf (i, a)).
Qed.

Lemma front_ahead idx rest t : front "running" idx (λ st, completed st) rest t → ahead rest t.
Proof.
  intros (Hrun & He & (st & Hst & Hsc & Hc) & Hr & Hin & Hs).
  assert (Hdone : ∀ i a, row t id i a → i ≤ idx → completed a).
  { intros i a Ha Hi. destruct (decide (i = idx)) as [->|Hne]; [rewrite Hst in Ha; by injection Ha as <-|].
    destruct (Hr i a Ha Hne) as [_ [[_ Hca]|[Hlt _]]]; [done|lia]. }
  split; [done|]. split; [|split; [|split; [done|split; [|split; [by intros i a Hia; apply Hin|done]]]]].
  - intros i a Ha. destruct (decide (i = idx)) as [->|Hne]; [rewrite Hst in Ha; by injection Ha as <-|]. by apply (Hr i a Ha Hne).
  - intros i j a b Ha Hb Hij Hcb. apply (Hdone i a Ha). destruct (decide (i ≤ idx)) as [|Hgt]; [done|].
    destruct (Hr j b Hb ltac:(lia)) as [_ [[? _]|(_ & Hlb & _)]]; [lia|]. by destruct (live_not_completed _ Hlb).
  - intros i a Ha. destruct (decide (i ≤ idx)) as [Hle|Hgt]; [left; by apply (Hdone i a)|].
    destruct (Hr i a Ha ltac:(lia)) as [_ [[? _]|(_ & Hla & Hia)]]; [lia|by right].
Qed.

Lemma ahead_skip idx st rest t : ahead ((idx, st) :: rest) t → completed st → ahead rest t.
Proof.
  intros (Hrun & Hsc & Ho & He & Hr & Hin & Hsorted) Hc. apply StronglySorted_inv in Hsorted as [Hs _].
  split; [done|]. split; [done|]. split; [done|]. split; [done|]. split; [|split; [intros i a Hia; apply Hin; by right|done]].
  intros i a Ha. destruct (Hr i a Ha) as [|[Hl Hia]]; [by left|]. apply elem_of_cons in Hia as [[= -> ->]|Hia]; [by left|by right].
Qed.

(** The step whose turn it is changes. *)
Lemma front_step status idx ok ok' rest t p f : front status idx ok rest t → (∀ st, step_scope (f st) = step_scope st) →
  (∀ st, ok st → p st = true ∧ ok' (f st)) →
  front status idx ok' rest (update_step s id idx p f t).2
  ∧ ∃ st, ok st ∧ row t id idx st ∧ (update_step s id idx p f t).1 = Some (f st).
Proof.
  intros (Hrun & He & (st & Hst & Hsc & Hok) & Hr & Hin & Hs) Hf Hp. destruct (Hp st Hok) as [Hpt Hok'].
  destruct (update_step_row t idx st p f Hst Hsc Hpt) as (H1 & H2 & H3 & H4).
  split; [|exists st; by split]. destruct (update_step s id idx p f t) as [o t']. simpl in *. clear H1.
  split; [unfold run_is; by rewrite H4|]. split.
  - etransitivity; [exact He|]. split; [intros i Hi; by rewrite H4|intros i k Hi; apply H3; congruence].
  - split; [exists (f st); split; [done|split; [destruct Hsc; split; [done|by rewrite Hf]|done]]|]. split; [|split; [|done]].
    + intros i a Ha Hi. rewrite H3 in Ha by congruence. by apply Hr.
    + intros i a Hia. destruct (Hin i a Hia) as [Ha Hlt]. split; [|done]. rewrite H3; [done|]. injection 1 as ->. lia.
Qed.

Lemma front_run status status' idx ok rest t p f : front status idx ok rest t → (∀ r, run_scope (f r) = run_scope r) →
  (∀ r, run_status r = status → p r = true ∧ run_status (f r) = status') →
  front status' idx ok rest (update_run s id p f t).2 ∧ (update_run s id p f t).1 ≠ None.
Proof.
  intros (Hrun & He & Hst & Hr & Hin & Hs) Hf Hp. destruct (update_run_is t status status' p f Hrun Hf Hp) as (H1 & H2 & H3 & H4).
  split; [|done]. split; [done|]. split; [by etransitivity|]. by rewrite H3.
Qed.

(** *** The ends of the loop *)

Definition ended (status : string) (t : Tables) : Prop := run_is t id status sc ∧ scoped sc id t ∧ shaped status id t ∧ elsewhere id t0 t.

Lemma front_scoped status idx ok rest t : front status idx ok rest t → scoped sc id t.
Proof.
  intros (_ & _ & (st & Hst & Hsc & _) & Hr & _) i a Ha. destruct (decide (i = idx)) as [->|Hne]; [rewrite Hst in Ha; by injection Ha as <-|].
  by apply (Hr i a Ha Hne).
Qed.

Definition waits (st : Step) : Prop := live st ∧ step_status st = "waiting_approval".
Lemma front_waiting idx rest t : front "waiting_approval" idx waits rest t → ended "waiting_approval" t.
Proof.
  intros Hfr. pose proof (front_scoped _ _ _ _ _ Hfr) as Hsc. destruct Hfr as (Hrun & He & (st & Hst & _ & Hl & Hwait) & Hr & _).
  split; [done|]. split; [done|]. split; [|done]. right. left. split; [done|]. split; [|split; [|intros _; by exists idx, st]].
  - intros i a Ha. destruct (decide (i = idx)) as [->|Hne]; [rewrite Hst in Ha; injection Ha as <-; by right|].
    destruct (Hr i a Ha Hne) as [_ [[_ ?]|(_ & ? & _)]]; [by left|by right].
  - intros i j a b Ha Hb Hij Hcb. assert (Hj : j < idx).
    { destruct (decide (j = idx)) as [->|Hne]; [rewrite Hst in Hb; injection Hb as <-; by destruct (live_not_completed _ Hl)|].
      destruct (Hr j b Hb Hne) as [_ [[? _]|(_ & Hlb & _)]]; [done|by destruct (live_not_completed _ Hlb)]. }
    destruct (Hr i a Ha ltac:(lia)) as [_ [[_ ?]|(? & _)]]; [done|lia].
Qed.

Lemma ahead_all t : ahead [] t → ∀ i st, row t id i st → completed st.
Proof. intros (_ & _ & _ & _ & Hr & _) i st Hst. destruct (Hr i st Hst) as [|[_ ?%elem_of_nil]]; done. Qed.

(** The step [idx] is over, and those after it are skipped. *)
Definition cut (status : string) (idx : Z) (ok : Step → Prop) (t : Tables) : Prop :=
  run_is t id status sc ∧ elsewhere id t0 t
  ∧ (∃ st, row t id idx st ∧ placed sc idx st ∧ ok st)
  ∧ ∀ i st, row t id i st → i ≠ idx → placed sc i st ∧ ((i < idx ∧ completed st) ∨ (idx < i ∧ step_status st = "skipped")).

Lemma update_steps_row p f t i k : workflow_steps (update_steps s id p f t) !! (i, k) =
  (λ st, if bool_decide (i = id) && step_visible s st && p k st then f st else st) <$> workflow_steps t !! (i, k).
Proof. unfold update_steps. simpl. rewrite map_lookup_imap. by destruct (workflow_steps t !! (i, k)). Qed.

Lemma update_steps_elsewhere p f t : elsewhere id t (update_steps s id p f t).
Proof.
  split; [done|]. intros i k Hi. rewrite update_steps_row, bool_decide_eq_false_2 by done. by destruct (workflow_steps t !! (i, k)).
Qed.

Definition skip_after (idx : Z) (now : instant) (t : Tables) : Tables :=
  update_steps s id (λ i st, (idx <? i) && mem (step_status st) ACTIVE_STEP_STATUSES)
    (λ st, set_step "skipped" (step_result st) (step_started_at st) (coalesce (step_finished_at st) (Some now)) st) t.

Lemma sight_step idx st : placed sc idx st → step_visible s st = true.
Proof. intros [_ Hr]. pose proof Hsight as Hv. rewrite <- Hr in Hv. exact Hv. Qed.

Lemma front_cut status idx ok rest now t : front status idx ok rest t → cut status idx ok (skip_after idx now t).
Proof.
  intros (Hrun & He & (st & Hst & Hsc & Hok) & Hr & _). split; [done|]. split; [etransitivity; [exact He|apply update_steps_elsewhere]|].
  unfold skip_after. split.
  - exists st. rewrite update_steps_row, Hst. simpl. by rewrite Z.ltb_irrefl, andb_false_r.
  - intros i a. rewrite update_steps_row. destruct (workflow_steps t !! (id, i)) as [b|] eqn:Eb; [|done]. simpl. intros [= <-] Hi.
    destruct (Hr i b Eb Hi) as [Hb Hcase]. rewrite bool_decide_eq_true_2, (sight_step _ _ Hb) by done. simpl.
    destruct Hcase as [[Hlt Hc]|(Hlt & [Ha _] & _)].
    + rewrite (proj2 (Z.ltb_ge idx i)) by lia. simpl. split; [done|by left].
    + rewrite (proj2 (Z.ltb_lt idx i)), (Ha : mem _ _ = true) by lia. simpl. split; [done|by right].
Qed.

Lemma cut_run status status' idx ok t p f : cut status idx ok t → (∀ r, run_scope (f r) = run_scope r) →
  (∀ r, run_status r = status → p r = true ∧ run_status (f r) = status') → cut status' idx ok (update_run s id p f t).2.
Proof.
  intros (Hrun & He & Hst & Hr) Hf Hp. destruct (update_run_is t status status' p f Hrun Hf Hp) as (H1 & _ & H3 & H4).
  split; [done|]. split; [by etransitivity|]. by rewrite H3.
Qed.

Lemma cut_failed idx t : cut "failed" idx (λ st, step_status st = "failed") t → ended "failed" t.
Proof.
  intros (Hrun & He & (st & Hst & Hsc & Hok) & Hr). split; [done|]. split; [|split; [|done]].
  - intros i a Ha. destruct (decide (i = idx)) as [->|Hne]; [rewrite Hst in Ha; by injection Ha as <-|]. by apply (Hr i a Ha Hne).
  - do 3 right. left. split; [done|]. exists idx. intros i a Ha. destruct (decide (i = idx)) as [->|Hne].
    + rewrite Hst in Ha. injection Ha as <-. right. by left.
    + destruct (Hr i a Ha Hne) as [_ [?|?]]; [by left|by do 2 right].
Qed.

Lemma ended_run status status' t p f : ended status t → (∀ r, run_scope (f r) = run_scope r) →
  (∀ r, run_status r = status → p r = true ∧ run_status (f r) = status') → shaped status' id t → ended status' (update_run s id p f t).2.
Proof.
  intros (Hrun & Hsc & _ & He) Hf Hp Hsh. destruct (update_run_is t status status' p f Hrun Hf Hp) as (H1 & _ & H3 & H4).
  split; [done|]. unfold scoped, shaped, in_order in *. rewrite H3. split; [done|]. split; [done|by etransitivity].
Qed.

Lemma ended_results status v t : ended status t → ended status (update_run s id (λ _, true) (with_results v) t).2.
Proof. intros H. eapply ended_run; [done|done| |apply H]. intros r Hr. by split. Qed.

Lemma ahead_run rest t p f : ahead rest t → (∀ r, run_scope (f r) = run_scope r) →
  (∀ r, run_status r = "running" → p r = true ∧ run_status (f r) = "running") → ahead rest (update_run s id p f t).2.
Proof.
  intros (Hrun & Hsc & Ho & He & Hr & Hin & Hs) Hf Hp. destruct (update_run_is t _ _ p f Hrun Hf Hp) as (H1 & _ & H3 & H4).
  unfold ahead, scoped, in_order in *. rewrite H3. repeat (split; [done|]). split; [by etransitivity|done].
Qed.

(** ** The loop *)

Context {W : Type} {Hworld : WorkflowWorld W} {Hlaws : WorkflowLaws W}.

Lemma refresh_does (Q : Tables → Prop) : (∀ v t, Q t → Q (update_run s id (λ _, true) (with_results v) t).2) →
  does Q (_refresh_step_results json_loads jsonb jsonb_text s id) (λ _, Q).
Proof.
  intros HQ. unfold _refresh_step_results, _load_steps. eapply does_bind; [apply does_read|]. intros steps. cbv zeta.
  eapply does_bind; [apply does_of_res|]. intros stored. apply does_fact. intros _.
  eapply does_bind; [by apply (does_execute Q Q); intros now t; apply HQ|]. intros []. apply (does_ret _ (λ _, Q)).
Qed.

(** The answer says the status of the run, which is not left running. *)
Definition SETTLED_RUN_STATUSES : list string := "waiting_approval" :: TERMINAL_RUN_STATUSES.
Definition answered (a : Answer) (t : Tables) : Prop := ended (ans_status a) t ∧ mem (ans_status a) SETTLED_RUN_STATUSES = true.

Lemma answer_does ok status : mem status SETTLED_RUN_STATUSES = true → does (ended status) (answer json_loads jsonb jsonb_text s id ok status) answered.
Proof.
  intros Hs. unfold answer. eapply does_bind; [apply refresh_does; intros v t; apply ended_results|]. intros results.
  eapply does_pre; [|apply (does_ret (mkAnswer ok id status results) answered)]. by split.
Qed.

Lemma event_does Q e : does Q (record_event e) (λ _, Q).
Proof. apply does_leaves, leaves_record. Qed.

Lemma not_cancelled_running t status : run_is t id status sc → status ≠ "cancelled" → not_cancelled s id t = true.
Proof.
  intros (r & Hr & Hs & Hsc) Hne. unfold not_cancelled. rewrite (find_run_sight _ _ Hr Hsc), Hs. by rewrite bool_decide_eq_false_2.
Qed.

Lemma latest_does status (Q : Tables → Prop) : (∀ t, Q t → run_is t id status sc) → does Q (latest_status s id) (λ st t, st = Some status ∧ Q t).
Proof.
  intros HQ. eapply does_post; [|apply does_query]. intros st t [Hst Ht]. split; [|done]. destruct (HQ t Ht) as (r & Hr & Hs & Hsc).
  rewrite (find_run_sight _ _ Hr Hsc) in Hst. injection Hst as <-. by rewrite <- Hs.
Qed.

Lemma pause_does idx ok rest user tool args risk d : is_true (get "approved" d) = false → (∀ st, ok st → asks_person st) →
  does (front "running" idx ok rest) (pause json_loads jsonb jsonb_text s user id idx tool args risk d) answered.
Proof.
  intros Hd Hok. unfold pause. eapply does_bind; [apply does_of_res|]. intros result. apply does_fact. intros (d' & -> & Hd')%Hkeeps.
  eapply does_bind.
  { apply (does_execute _ (front "running" idx waits rest)). intros now t Ht. refine (proj1 (front_step _ _ ok waits rest t _ _ Ht _ _)); [done|].
    intros st Hst. split; [done|]. split; [|done]. split; [done|]. simpl. split; [done|]. intros _. rewrite Hd', Hd. split; [done|]. exact (Hok st Hst). }
  intros []. eapply does_bind.
  { apply (does_execute _ (front "waiting_approval" idx waits rest)). intros now t Ht. refine (proj1 (front_run _ _ _ _ _ _ _ _ Ht _ _)); [done|by split]. }
  intros []. eapply does_bind; [apply event_does|]. intros []. eapply does_pre; [|by apply answer_does]. intros t. apply front_waiting.
Qed.

Lemma skip_does status idx ok rest : does (front status idx ok rest) (_mark_remaining_skipped s id idx) (λ _, cut status idx ok).
Proof. apply does_execute. intros now t. apply front_cut. Qed.

Lemma refuse_does idx ok rest error : does (front "running" idx ok rest) (refuse_step json_loads jsonb jsonb_text s id idx error) answered.
Proof.
  unfold refuse_step. eapply does_bind; [apply does_of_res|]. intros result. apply does_fact. intros _. eapply does_bind.
  { apply (does_execute _ (front "running" idx (λ st, step_status st = "failed") rest)). intros now t Ht.
    refine (proj1 (front_step _ _ ok _ rest t _ _ Ht _ _)); [done|by split]. }
  intros []. eapply does_bind; [apply skip_does|]. intros []. eapply does_bind.
  { apply (does_execute _ (cut "failed" idx (λ st, step_status st = "failed"))). intros now t Ht. eapply cut_run; [exact Ht|done|by split]. }
  intros []. eapply does_pre; [|by apply answer_does]. intros t. apply cut_failed.
Qed.

(** What an iteration leaves: the next step to take, or an answer. *)
Definition stepped (rest : list (Z * Step)) (a : option Answer) (t : Tables) : Prop :=
  match a with None => ahead rest t | Some a => answered a t end.

Lemma stepped_answer Q (m : io W Answer) rest : does Q m answered → does Q (a ← m; mret (Some a)) (stepped rest).
Proof. intros Hm. eapply does_bind; [exact Hm|]. intros a. apply (does_ret (Some a) (stepped rest)). Qed.

Lemma complete_human_does idx st rest : step_status st = "pending" → contains_true "approved" (step_result st) = true →
  does (front "running" idx (λ st', st' = st) rest) (_complete_human_step s id idx) (λ b t, b = true ∧ front "running" idx (λ st, completed st) rest t).
Proof.
  intros Hp Ha. apply does_statement. intros now t a t' Ht. pose proof Ht as (_ & _ & (st' & Hst & Hsc & ->) & _).
  rewrite (find_step_sight _ _ _ Hst Hsc), Ha, bool_decide_eq_true_2 by done. simpl. intros (result & _ & [= <- <-])%bind_ok. split; [done|].
  refine (proj1 (front_step _ _ _ _ rest t _ _ Ht _ _)); [done|by split].
Qed.

Lemma live_pending st : live st → (step_status st = "waiting_approval" → False) → step_status st = "pending".
Proof.
  intros [Ha _] Hw. unfold active, mem in Ha. apply bool_decide_eq_true in Ha. unfold ACTIVE_STEP_STATUSES in Ha.
  rewrite !elem_of_cons, elem_of_nil in Ha. naive_solver.
Qed.

Lemma human_does user idx st rest args : live st → default "" (step_tool st) = "" →
  does (front "running" idx (λ st', st' = st) rest) (human_step json_loads jsonb jsonb_text s user id (load_step json_loads jsonb_text (idx, st)) args) (stepped rest).
Proof.
  intros Hl Htool. unfold human_step. eapply does_bind; [apply does_of_res|]. intros [] ; apply does_fact; intros Hap.
  - apply (is_approved_flagged json_loads jsonb_text Hreads) in Hap; [|apply Hl].
    eapply does_bind; [apply complete_human_does; [|done]|].
    { apply live_pending; [done|]. intros Hw. destruct Hl as (_ & _ & Hl). destruct (Hl Hw) as [Hn _]. congruence. }
    intros completed. apply does_fact. intros ->. eapply does_bind; [apply event_does|]. intros [].
    eapply does_pre; [|apply (does_ret None (stepped rest))]. apply front_ahead.
  - apply stepped_answer, pause_does; [done|]. intros st' ->. by left.
Qed.

Lemma turn_front idx ok rest t : front "running" idx ok rest t → turn_of s id idx t = true.
Proof.
  intros (_ & _ & _ & Hr & _). unfold turn_of. apply forallb_forall. intros [i a] Hin%list_elem_of_In%select_steps_lookup. simpl.
  destruct (i <? idx) eqn:E; [|done]. apply Z.ltb_lt in E. destruct (Hr i a Hin ltac:(lia)) as [_ [[_ Hc]|[? _]]]; [|lia]. by rewrite Hc.
Qed.

Lemma claim_does idx st rest : step_status st = "pending" →
  does (front "running" idx (λ st', st' = st) rest) (_claim_step json_loads jsonb_text s id idx)
    (λ c t, is_Some c ∧ front "running" idx (λ st, step_status st = "running") rest t).
Proof.
  intros Hp. unfold _claim_step. eapply does_bind.
  - apply (does_statement _ (λ row t, is_Some row ∧ front "running" idx (λ st, step_status st = "running") rest t)).
    intros now t a t' Ht [= Hu]. pose proof (turn_front _ _ _ _ Ht) as Hturn. pose proof Ht as (Hrun & _).
    edestruct (front_step "running" idx (λ st', st' = st) (λ st, step_status st = "running") rest t) as (Hf & st' & _ & _ & Hs);
      [exact Ht|..|rewrite Hu in Hf, Hs; simpl in *; split; [by rewrite Hs|exact Hf]]; [done|].
    intros st' ->. rewrite Hp, Hturn, (not_cancelled_running _ _ Hrun) by done. by split.
  - intros row. apply does_fact. intros [st' ->]. eapply does_pre; [|apply (does_ret _ (λ c t, is_Some c ∧ front "running" idx (λ st, step_status st = "running") rest t))].
    intros t Ht. split; [by eexists|done].
Qed.

Lemma finish_does idx rest status result :
  does (front "running" idx (λ st, step_status st = "running") rest) (finish_step s id idx status result)
    (λ b t, b = true ∧ front "running" idx (λ st, step_status st = status) rest t).
Proof.
  apply does_updating. intros now t Ht. pose proof Ht as (Hrun & _).
  edestruct (front_step "running" idx (λ st, step_status st = "running") (λ st, step_status st = status) rest t) as (Hf & st' & _ & _ & Hs);
    [exact Ht|..|rewrite Hs; split; [done|exact Hf]]; [done|].
  intros st Hst. unfold is_running. by rewrite Hst, (not_cancelled_running _ _ Hrun).
Qed.

Lemma running_again idx ok rest : does (front "running" idx ok rest) (updating (λ _ t, update_run s id not_cancelled_run (at_step "running" idx) t))
  (λ b t, b = true ∧ front "running" idx ok rest t).
Proof.
  apply does_updating. intros now t Ht.
  destruct (front_run _ "running" _ _ _ _ not_cancelled_run (at_step "running" idx) Ht) as [Hf Hn]; [done|intros r Hr; unfold not_cancelled_run; by rewrite Hr|].
  split; [|done]. apply bool_decide_eq_true_2. by apply not_eq_None_Some.
Qed.

Lemma run_tool_does user idx st rest server tool risk : step_status st = "pending" →
  does (front "running" idx (λ st', st' = st) rest) (run_tool json_loads jsonb jsonb_text s user id idx server tool risk) (stepped rest).
Proof.
  intros Hp. unfold run_tool. eapply does_bind; [by apply claim_does|]. intros claimed. apply does_fact. intros [ls ->]. cbv zeta.
  eapply does_bind; [apply running_again|]. intros b. apply does_fact. intros ->. simpl.
  eapply does_bind; [apply does_of_res|]. intros timeout. apply does_fact. intros _.
  eapply does_bind; [apply does_leaves, leaves_retry|]. intros [[[] result] error].
  - eapply does_bind; [apply does_of_res|]. intros stored. apply does_fact. intros _. eapply does_bind; [apply finish_does|].
    intros b. apply does_fact. intros ->. simpl. eapply does_bind; [apply event_does|]. intros [].
    eapply does_pre; [|apply (does_ret None (stepped rest))]. apply front_ahead.
  - eapply does_bind; [apply (latest_does "running" (front "running" idx (λ st, step_status st = "running") rest)); by intros t [? _]|]. intros latest. apply does_fact. intros ->. simpl.
    eapply does_bind; [apply does_of_res|]. intros stored. apply does_fact. intros _. eapply does_bind; [apply finish_does|].
    intros b. apply does_fact. intros ->. simpl. eapply does_bind; [apply skip_does|]. intros []. eapply does_bind.
    { apply (does_updating _ (λ _, ended "failed")). intros now t Ht. apply (cut_failed idx). eapply cut_run; [exact Ht|done|].
      intros r Hr. unfold not_cancelled_run. by rewrite Hr. }
    intros b. eapply does_bind; [apply event_does|]. intros []. by apply stepped_answer, answer_does.
Qed.

Lemma run_step_does user idx st rest :
  does (ahead ((idx, st) :: rest)) (run_step json_loads jsonb jsonb_text s user id (load_step json_loads jsonb_text (idx, st))) (stepped rest).
Proof.
  unfold run_step. eapply does_bind; [apply (latest_does "running" (ahead ((idx, st) :: rest))); by intros t [? _]|].
  intros latest. apply does_fact. intros ->. simpl.
  eapply does_pre; [|apply (does_fact (completed st ∨ live st))].
  { intros t Ht. split; [|exact Ht]. destruct Ht as (_ & _ & _ & _ & Hr & Hin & _). destruct (Hr idx st) as [|[? _]]; [apply Hin; by left|by left|by right]. }
  intros [Hc|Hl].
  { rewrite Hc. eapply does_pre; [|apply (does_ret None (stepped rest))]. intros t Ht. by eapply ahead_skip. }
  eapply does_pre; [intros t Ht; by apply (ahead_front _ _ _ _ Ht Hl)|]. pose proof Hl as (Ha & Hpl & Hw). unfold active in Ha.
  rewrite Ha. rewrite bool_decide_eq_false_2 by (by apply live_not_completed). cbn [negb orb].
  destruct (nonempty (default "" (step_tool st))) eqn:Et; cbn [negb].
  2:{ apply human_does; [done|]. unfold nonempty in Et. apply negb_false_iff, bool_decide_eq_true in Et. done. }
  assert (Hperson : asks_person st → ∃ server tool, step_call json_loads jsonb_text st = Some (server, tool) ∧ requires_approval tool = true).
  { intros [He|H]; [by rewrite He in Et|done]. }
  unfold step_call, call_of in Hperson.
  destruct (_split_tool _ _) as [[server bare]|e] eqn:Es; [|destruct (exn_isa _ _); [apply stepped_answer, refuse_does|by apply does_raises]].
  destruct (requires_approval bare) eqn:Er.
  - eapply does_bind; [apply does_of_res|]. intros [] ; apply does_fact; intros Hap; cbn [negb].
    + apply (is_approved_flagged json_loads jsonb_text Hreads) in Hap; [|done]. apply run_tool_does, live_pending; [done|].
      intros Hst. destruct (Hw Hst) as [Hn _]. congruence.
    + apply stepped_answer, pause_does; [done|]. intros st' ->. right. exists server, bare. unfold step_call, call_of. by rewrite Es.
  - apply does_bind_ret. cbn [negb]. apply run_tool_does, live_pending; [done|].
    intros Hst. destruct (Hw Hst) as [_ Hask]. destruct (Hperson Hask) as (? & tool & [= <- <-] & Hg). congruence.
Qed.

Lemma run_steps_does user rest :
  does (ahead rest) (run_steps json_loads jsonb jsonb_text s user id (load_step json_loads jsonb_text <$> rest)) (stepped []).
Proof.
  induction rest as [|[idx st] rest IH]; [apply (does_ret None (stepped []))|]. simpl. eapply does_bind; [apply run_step_does|].
  intros [a|]; [apply (does_ret (Some a) (stepped []))|exact IH].
Qed.

Lemma complete_does steps : does (ahead []) (complete json_loads jsonb jsonb_text s id steps) answered.
Proof.
  unfold complete. eapply does_bind; [apply refresh_does|].
  { intros v t Ht. apply ahead_run; [done|done|]. intros r Hr. by split. }
  intros results. eapply does_bind.
  - apply (does_updating _ (λ b t, b = true ∧ ended "completed" t)). intros now t Ht. pose proof Ht as (Hrun & Hsc & _ & He & _).
    pose proof (ahead_all _ Ht) as Hall. set (last := match steps with [] => _ | _ => _ end).
    destruct (update_run_is t "running" "completed" not_cancelled_run (complete_run now last) Hrun) as (H1 & H2 & H3 & H4);
      [done|intros r Hr; unfold not_cancelled_run; by rewrite Hr|].
    split; [apply bool_decide_eq_true_2; by apply not_eq_None_Some|]. split; [done|]. unfold scoped, shaped, in_order in *. rewrite H3.
    split; [done|]. split; [|by etransitivity]. right. right. by left.
  - intros b. apply does_fact. intros ->. eapply does_pre; [|apply (does_ret (mkAnswer true id "completed" results) answered)]. by split.
Qed.

(** ** An execution *)

Definition begun (t : Tables) : Prop := ∃ status, ended status t.

(** Not over yet; [ok] of each step. *)
Definition opened (ok : Step → Prop) (t : Tables) : Prop :=
  (∃ status, mem status OPEN_RUN_STATUSES = true ∧ run_is t id status sc) ∧ scoped sc id t ∧ in_order id t ∧ elsewhere id t0 t
  ∧ ∀ i st, row t id i st → ok st.

Lemma does_exists {A X} (Q : X → Tables → Prop) (m : io W A) R : (∀ x, does (Q x) m R) → does (λ t, ∃ x, Q x t) m R.
Proof. intros H w [x Hx]. by apply (H x). Qed.

Lemma begun_opened status t : ended status t → mem status TERMINAL_RUN_STATUSES = false → opened (λ st, completed st ∨ live st) t.
Proof.
  intros (Hrun & Hsc & Hsh & He) Hs. destruct Hsh as [[-> Hr]|[(Ho & Hr & Hord & _)|[[-> _]|[[-> _]|[-> _]]]]]; [| |done..].
  - split; [by exists "planning"|]. split; [done|]. split; [intros i j a b Ha|split; [done|intros i st Ha]]; by destruct (Hr _ _ Ha).
  - split; [|done]. exists status. split; [|done]. unfold mem in *. rewrite bool_decide_eq_true in *. set_solver.
Qed.

Lemma load_does user : does begun (_load_workflow uuid s id user) (λ r t, run_scope r = sc ∧ workflow_runs t !! id = Some r ∧ ended (run_status r) t).
Proof.
  unfold _load_workflow. eapply does_bind; [apply does_query|]. intros [r|]; [|by apply does_raises].
  eapply does_pre; [|apply (does_ret r (λ r t, run_scope r = sc ∧ workflow_runs t !! id = Some r ∧ ended (run_status r) t))].
  intros t [Hq [status He]]. pose proof He as ((r' & Hr & Hs & Hsc) & _). unfold select_owned in Hq.
  apply bind_ok in Hq as (u & _ & Hq). apply bind_ok in Hq as ([tenant workspace] & _ & Hq). rewrite (find_run_sight _ _ Hr Hsc) in Hq.
  case_match; [|done]. injection Hq as ->. split; [done|]. split; [done|]. by rewrite Hs.
Qed.

Lemma insert_does ok idx st t t' : opened ok t → ok st → ¬ completed st → (∀ st, ok st → ¬ completed st) → placed sc idx st → insert_step s id idx st t = Ok t' → opened ok t'.
Proof.
  intros (Hrun & Hsc & Ho & He & Hr) Hok Hn Hall Hst. unfold insert_step. rewrite (sight_step _ _ Hst). simpl.
  destruct (workflow_steps t !! (id, idx)) eqn:E; intros [= <-]; [done|].
  assert (Hcase : ∀ i a, <[(id, idx):=st]> (workflow_steps t) !! (id, i) = Some a → (i = idx ∧ a = st) ∨ row t id i a).
  { intros i a. destruct (decide (i = idx)) as [->|Hne]; [rewrite lookup_insert_eq; intros [= ->]; by left|].
    rewrite lookup_insert_ne by congruence. by right. }
  split; [done|]. split; [intros i a [[-> ->]|Ha]%Hcase; [done|by eapply Hsc]|]. split; [|split].
  - intros i j a b _ Hb _ Hcb. exfalso. apply Hcase in Hb as [[-> ->]|Hb]; [done|]. by apply (Hall b); [eapply Hr|].
  - etransitivity; [exact He|]. split; [done|]. intros i k Hi. simpl. rewrite lookup_insert_ne; [done|congruence].
  - intros i a [[-> ->]|Ha]%Hcase; [done|by eapply Hr].
Qed.

Lemma live_new description tool args tenant workspace : live (new_step description tool args tenant workspace).
Proof. by split. Qed.

Lemma materialise_does r plan idx : run_scope r = sc → 0 ≤ idx →
  does (opened live) (materialise jsonb s id (run_tenant_id r) (run_workspace_id r) idx plan) (λ _, opened live).
Proof.
  intros Hr. revert idx. induction plan as [|v plan IH]; intros idx Hi0; simpl; [apply (does_ret tt (λ _, opened live))|].
  assert (Hi1 : 0 ≤ idx + 1) by lia. specialize (IH _ Hi1). destruct v; try exact IH.
  apply (does_bind _ _ _ (λ _, opened live)); [|intros []; exact IH]. apply does_statement.
  intros now t a t' Ht (tool & _ & (args & _ & (t1 & Hi & [= _ <-])%bind_ok)%bind_ok)%bind_ok.
  eapply insert_does; [exact Ht|apply live_new|by apply live_not_completed, live_new|by intros st ?%live_not_completed| |exact Hi].
  split; [done|]. rewrite <- Hr. unfold step_scope, run_scope. simpl. pose proof Hsight as Hv. rewrite <- Hr in Hv. unfold in_sight, visible in Hv. simpl in Hv.
  apply andb_prop in Hv as [[->%bool_decide_eq_true _]%andb_prop _]. done.
Qed.

Lemma needed_does r : run_scope r = sc →
  does (opened (λ st, completed st ∨ live st)) (_materialise_steps_if_needed json_loads jsonb jsonb_text s id r) (λ _, opened (λ st, completed st ∨ live st)).
Proof.
  intros Hr. set (ok := λ st, completed st ∨ live st). unfold _materialise_steps_if_needed. eapply does_bind; [apply does_query|]. intros n.
  destruct (Nat.eqb n 0) eqn:En; simpl; [|eapply does_pre; [|apply (does_ret tt (λ _, opened ok))]; by intros t [_ Ht]].
  apply Nat.eqb_eq in En as ->. eapply does_pre.
  { intros t [[= Hlen] (H1 & H2 & H3 & H4 & H5)]. assert (Hnone : opened live t); [|exact Hnone]. split; [done|]. split; [done|]. split; [done|].
    split; [done|]. intros i st Hst. exfalso. apply nil_length_inv in Hlen.
    assert (Hin : (i, st) ∈ select_steps s id t) by (apply select_steps_elem; split; [done|]; apply (sight_step i); by eapply H2).
    rewrite Hlen in Hin. by apply elem_of_nil in Hin. }
  eapply (does_post _ _ _ (λ _, opened live)).
  { intros [] t (H1 & H2 & H3 & H4 & H5). split; [done|]. split; [done|]. split; [done|]. split; [done|]. intros i st Hst. right. by eapply H5. }
  case_match; try apply (does_ret tt (λ _, opened live)). by apply materialise_does.
Qed.

Lemma loaded_does : does (λ t, opened (λ st, completed st ∨ live st) t ∧ run_is t id "running" sc) (_load_steps json_loads jsonb_text s id)
  (λ steps t, ∃ rest, steps = load_step json_loads jsonb_text <$> rest ∧ ahead rest t).
Proof.
  eapply does_post; [|apply does_query]. intros steps t [[= <-] [(_ & Hsc & Ho & He & Hr) Hrun]].
  assert (Hall : List.filter (λ kst, bool_decide (step_scope_status kst.2 = "scoped")) (select_steps s id t) = select_steps s id t).
  { apply filter_all_of. intros [i st] [Hst Hv]%select_steps_elem. unfold step_visible, visible in Hv.
    by apply andb_prop in Hv as [[Hb _]%andb_prop _]. }
  rewrite Hall. eexists. split; [reflexivity|]. split; [done|]. split; [done|]. split; [done|]. split; [done|]. split; [|split; [|apply select_steps_sorted]].
  - intros i st Hst. destruct (Hr i st Hst) as [|Hl]; [by left|]. right. split; [done|]. apply select_steps_elem. split; [done|]. apply (sight_step i). by eapply Hsc.
  - by intros i st [Hst _]%select_steps_elem.
Qed.

Lemma execution_does user : does begun (_execute_workflow_scoped uuid json_loads jsonb jsonb_text s id user) answered.
Proof.
  unfold _execute_workflow_scoped. eapply does_bind; [apply load_does|]. intros r. apply does_fact. intros Hr.
  destruct (mem (run_status r) TERMINAL_RUN_STATUSES) eqn:Et.
  { eapply does_pre; [|apply (does_ret _ answered)]. intros t [_ Ht]. split; [done|]. simpl. unfold mem in *. rewrite bool_decide_eq_true in *. by right. }
  eapply does_bind; [eapply does_pre; [|by apply needed_does]; intros t [_ Ht]; by apply (begun_opened (run_status r))|]. intros [].
  eapply does_bind.
  { apply (does_updating _ (λ b t, b = true ∧ opened (λ st, completed st ∨ live st) t ∧ run_is t id "running" sc)).
    intros now t ((status & Hs & Hrun) & Hsc & Ho & He & Hrows).
    destruct (update_run_is t status "running" (λ r, mem (run_status r) OPEN_RUN_STATUSES) (start_run now) Hrun) as (H1 & H2 & H3 & H4);
      [done|by intros r' ->|].
    split; [apply bool_decide_eq_true_2; by apply not_eq_None_Some|]. split; [|done]. unfold opened, scoped, in_order in *. rewrite H3.
    split; [by exists "running"|]. split; [done|]. split; [done|]. split; [by etransitivity|done]. }
  intros b. apply does_fact. intros ->. simpl. eapply does_bind; [apply loaded_does|]. intros steps. apply does_exists. intros rest.
  apply does_fact. intros ->. eapply does_bind; [apply run_steps_does|]. intros [a|]; [apply (does_ret a answered)|apply complete_does].
Qed.

(** ** An approval and a cancellation *)

Lemma open_not_terminal status : mem status OPEN_RUN_STATUSES = true → mem status TERMINAL_RUN_STATUSES = false.
Proof.
  unfold mem, OPEN_RUN_STATUSES. rewrite bool_decide_eq_true, !elem_of_cons, elem_of_nil. by intros [->|[->|[->|[]]]].
Qed.

Lemma waiting_live status idx st t : ended status t → row t id idx st → step_status st = "waiting_approval" → opened (λ st, completed st ∨ live st) t ∧ live st.
Proof.
  intros He Hst Hw. pose proof He as (_ & _ & Hsh & _).
  destruct Hsh as [[-> Hr]|[(Ho & Hr & _)|[[-> Hr]|[[-> [f Hr]]|[-> [Hr _]]]]]]; [by destruct (Hr _ _ Hst)| |exfalso..].
  - split; [|destruct (Hr _ _ Hst) as [Hc|]; [congruence|done]]. apply (begun_opened status); [done|]. apply open_not_terminal.
    unfold mem in *. rewrite bool_decide_eq_true in *. by right.
  - specialize (Hr _ _ Hst). congruence.
  - destruct (Hr _ _ Hst) as [[_ Hc]|[[_ Hc]|[_ Hc]]]; congruence.
  - destruct (Hr _ _ Hst) as [Hc|Hc]; congruence.
Qed.

Lemma opened_live idx st st' t p : opened (λ st, completed st ∨ live st) t → row t id idx st → live st → live st' → step_scope st' = step_scope st → p st = true →
  opened (λ st, completed st ∨ live st) (update_step s id idx p (λ _, st') t).2.
Proof.
  intros (Hrun & Hsc & Ho & He & Hr) Hst Hl Hl' Hs' Hp. pose proof (Hsc _ _ Hst) as Hpl.
  destruct (update_step_row t idx st p (λ _, st') Hst Hpl Hp) as (_ & Hrow & Hoff & Hruns).
  destruct (update_step s id idx p (λ _, st') t) as [o t']. simpl in *.
  assert (Hcase : ∀ i a, row t' id i a → (i = idx ∧ a = st') ∨ (i ≠ idx ∧ row t id i a)).
  { intros i a Ha. destruct (decide (i = idx)) as [->|Hne]; [left; rewrite Hrow in Ha; by injection Ha as <-|].
    right. split; [done|]. rewrite <- Hoff; [done|congruence]. }
  split; [unfold run_is; rewrite Hruns; exact Hrun|]. split; [|split; [|split]].
  - intros i a [[-> ->]|[_ Ha]]%Hcase; [|by eapply Hsc]. destruct Hpl. split; [done|congruence].
  - intros i j a b Ha Hb Hij Hcb. apply Hcase in Hb as [[-> ->]|[_ Hb]]; [by destruct (live_not_completed _ Hl')|].
    apply Hcase in Ha as [[-> ->]|[_ Ha]]; [|by eapply Ho]. by destruct (live_not_completed _ Hl (Ho _ _ _ _ Hst Hb Hij Hcb)).
  - etransitivity; [exact He|]. split; [intros i Hi; by rewrite Hruns|intros i k Hi; apply Hoff; congruence].
  - intros i a [[-> ->]|[_ Ha]]%Hcase; [by right|by eapply Hr].
Qed.

Lemma approve_does idx : does begun (approve s id idx) (λ b t, if b : bool then opened (λ st, completed st ∨ live st) t else begun t).
Proof.
  apply does_statement. intros now t b t' Hb. unfold int4_argument. destruct (_ && _); [|done]. simpl.
  destruct (find_step s id idx t) as [st|] eqn:Ef; [|by intros [= <- <-]]. destruct (bool_decide _) eqn:Ew; [|by intros [= <- <-]].
  apply bool_decide_eq_true in Ew. intros (result & Hres & [= <- <-])%bind_ok. destruct Hb as [status He].
  unfold find_step in Ef. destruct (workflow_steps t !! (id, idx)) as [old|] eqn:Eo; [|done]. destruct (step_visible s old); [|done]. injection Ef as ->.
  destruct (waiting_live _ _ _ _ He Eo Ew) as [Ho Hl].
  assert (Hd : ∃ d, result = PDict d).
  { destruct Hl as (_ & Hp & _). destruct (step_result st) as [[]|]; try done; injection Hres as <-; by eexists. }
  destruct Hd as [d ->]. pose proof (opened_live idx st (set_step "pending" (Some (PDict d)) (step_started_at st) (step_finished_at st) st) t (λ _, true) Ho Eo Hl) as H.
  unfold update_step in *. destruct Ho as (_ & Hsc & _). rewrite (find_step_sight _ _ _ Eo (Hsc _ _ Eo)) in *. apply H; done.
Qed.

Lemma opened_running t p f : opened (λ st, completed st ∨ live st) t → (∀ r, run_scope (f r) = run_scope r) →
  (∀ r, mem (run_status r) OPEN_RUN_STATUSES = true → p r = true ∧ run_status (f r) = "running") →
  ended "running" (update_run s id p f t).2 ∧ (update_run s id p f t).1 ≠ None.
Proof.
  intros ((status & Hs & Hrun) & Hsc & Ho & He & Hr) Hf Hp.
  destruct (update_run_is t status "running" p f Hrun Hf) as (H1 & H2 & H3 & H4); [by intros r <-; apply Hp|].
  split; [|done]. unfold ended, scoped, shaped, in_order in *. rewrite H3. split; [done|]. split; [done|]. split; [|by etransitivity].
  right. left. done.
Qed.

Lemma approval_does idx user : does begun (_approve_step_scoped uuid json_loads jsonb jsonb_text s id idx user) answered.
Proof.
  unfold _approve_step_scoped. eapply does_bind; [apply does_of_res|]. intros allowed. apply does_fact. intros _.
  destruct allowed; simpl; [|by apply does_raises]. eapply does_bind; [apply load_does|]. intros r.
  apply (does_pre _ begun); [intros t (_ & _ & He); by exists (run_status r)|].
  eapply does_bind; [apply event_does|]. intros []. eapply does_bind; [apply approve_does|]. intros [|]; simpl; [|by apply does_raises].
  eapply does_bind.
  { apply (does_updating _ (λ b t, b = true ∧ ended "running" t)). intros now t Ht.
    destruct (opened_running t not_cancelled_run (at_step "running" idx) Ht) as [H1 H2]; [done| |split; [|done]; apply bool_decide_eq_true_2; by apply not_eq_None_Some].
    intros r' Hr'. split; [|done]. unfold not_cancelled_run. rewrite bool_decide_eq_false_2; [done|]. intros E. by rewrite E in Hr'. }
  intros b. apply does_fact. intros ->. simpl. eapply does_pre; [|apply execution_does]. intros t He. by eexists.
Qed.

Lemma skip_all_row now t i a : scoped sc id t → (∀ i st, row t id i st → completed st ∨ live st) → row (skip_after (-1) now t) id i a →
  placed sc i a ∧ ((completed a ∧ row t id i a) ∨ (step_status a = "skipped" ∧ ∃ b, row t id i b ∧ ¬ completed b)).
Proof.
  intros Hsc Hr. unfold skip_after. rewrite update_steps_row. destruct (workflow_steps t !! (id, i)) as [b|] eqn:Eb; [|done]. simpl. intros [= <-].
  pose proof (Hsc _ _ Eb) as Hp. assert (Hi : (-1 <? i) = true) by (apply Z.ltb_lt; destruct Hp; lia).
  rewrite bool_decide_eq_true_2, (sight_step _ _ Hp), Hi by done. simpl. destruct (Hr _ _ Eb) as [Hc|Hl].
  - rewrite Hc. simpl. split; [done|]. by left.
  - rewrite (proj1 Hl : mem _ _ = true). simpl. split; [done|]. right. split; [done|]. exists b. split; [done|]. by apply live_not_completed.
Qed.

Lemma cancel_does user : does begun (_cancel_workflow_scoped json_loads jsonb jsonb_text s id user) answered.
Proof.
  unfold _cancel_workflow_scoped. eapply does_bind; [apply does_of_res|]. intros u. apply does_fact. intros _.
  set (Q := λ t, run_is t id "cancelled" sc ∧ scoped sc id t ∧ in_order id t ∧ elsewhere id t0 t ∧ ∀ i st, row t id i st → completed st ∨ live st).
  eapply does_bind.
  - apply (does_updating _ (λ b t, b = true → Q t)). intros now t [status He] Hb. apply bool_decide_eq_true in Hb.
    pose proof He as ((r & Hr & Hs & Hsc) & _). set (p := λ r : Run, (run_user_id r =? u) && bool_decide (run_scope_status r = "scoped") && mem (run_status r) OPEN_RUN_STATUSES) in *.
    destruct (p r) eqn:Ep.
    2:{ unfold update_run in Hb. rewrite (find_run_sight _ _ Hr Hsc), Ep in Hb. by destruct Hb. }
    assert (Ho : opened (λ st, completed st ∨ live st) t).
    { apply (begun_opened status); [done|]. rewrite <- Hs. unfold p in Ep. apply andb_prop in Ep as [_ Ep]. by apply open_not_terminal. }
    destruct Ho as (_ & H1 & H2 & H3 & H4). unfold Q, update_run in *. rewrite (find_run_sight _ _ Hr Hsc), Ep. simpl.
    split; [exists (cancel_run now r); split; [apply lookup_insert_eq|done]|]. split; [done|]. split; [done|]. split; [|done].
    etransitivity; [exact H3|]. split; [intros i Hi; simpl; by rewrite lookup_insert_ne|done].
  - intros [|]; simpl; [|by apply does_raises]. eapply does_bind.
    { apply (does_execute _ (ended "cancelled")). intros now t HQ. destruct (HQ eq_refl) as (H1 & H2 & H3 & H4 & H5). change (ended "cancelled" (skip_after (-1) now t)).
      pose proof (λ i a, skip_all_row now t i a H2 H5) as Hkind.
      split; [done|]. split; [by intros i a [? _]%Hkind|]. split; [|etransitivity; [exact H4|apply update_steps_elsewhere]].
      do 4 right. split; [done|]. split; [intros i a [_ [[? _]|[? _]]]%Hkind; [by left|by right]|].
      intros i j a b Ha Hb Hij Hcb. apply Hkind in Hb as [_ [[_ Hb]|[Hs _]]]; [|congruence].
      apply Hkind in Ha as [_ [[? _]|[_ (c & Hc & Hn)]]]; [done|]. destruct Hn. by eapply H3. }
    intros []. eapply does_bind; [apply event_does|]. intros []. by apply answer_does.
Qed.

(** ** A plan *)

Definition planned (t : Tables) : Prop := opened live t ∧ run_is t id "running" sc.

Lemma planned_ended t : planned t → ended "running" t.
Proof.
  intros [(_ & Hsc & Ho & He & Hr) Hrun]. split; [done|]. split; [done|]. split; [|done]. right. left. split; [done|].
  split; [intros i a Ha; right; by eapply Hr|]. by split.
Qed.

Lemma insert_steps_does tenant workspace idx plan : (tenant, workspace, "scoped") = sc → 0 ≤ idx →
  does planned (insert_steps jsonb s id tenant workspace idx plan) (λ _, planned).
Proof.
  intros Hsc. revert idx. induction plan as [|step plan IH]; intros idx Hi0; simpl; [apply (does_ret tt (λ _, planned))|].
  assert (Hi1 : 0 ≤ idx + 1) by lia. specialize (IH _ Hi1). apply (does_bind _ _ _ (λ _, planned)); [|intros []; exact IH].
  apply does_statement. intros now t x t' [Ho Hrun] (? & _ & (? & _ & (? & _ & (t1 & Ht & [= _ <-])%bind_ok)%bind_ok)%bind_ok)%bind_ok.
  split.
  - eapply insert_does; [exact Ho|apply live_new|by apply live_not_completed, live_new|by intros st ?%live_not_completed|split; [exact Hi0|exact Hsc]|exact Ht].
  - unfold insert_step in Ht. case_match; [done|]. injection Ht as <-. by case_match.
Qed.

Lemma claim_plan_does user plan : scoped_session (Some user) = Ok s → does begun (claim_plan uuid jsonb s id user plan) (λ _, ended "running").
Proof.
  intros Hs. unfold claim_plan. eapply does_bind; [apply does_of_res|]. intros u. apply does_fact. intros _.
  eapply does_bind; [apply does_of_res|]. intros [tenant workspace]. apply does_fact. intros Hargs.
  eapply does_bind; [apply does_of_res|]. intros stored. apply does_fact. intros _.
  eapply does_bind.
  - apply (does_updating _ (λ b t, b = true → (tenant, Some workspace, "scoped") = sc ∧ planned t)). intros now t [status He] Hb.
    apply bool_decide_eq_true in Hb. pose proof He as ((r & Hr & Hst & Hsc) & Hsco & Hsh & Hel). unfold update_run in *.
    rewrite (find_run_sight _ _ Hr Hsc) in *. destruct (planning u tenant workspace r) eqn:Ep; [|by destruct Hb]. clear Hb. simpl.
    unfold planning, owned in Ep. apply andb_prop in Ep as [Ep Hpl%bool_decide_eq_true]. apply andb_prop in Ep as [Ep Hten].
    apply andb_prop in Ep as [Ep Hws%bool_decide_eq_true]. apply andb_prop in Ep as [_ Hss%bool_decide_eq_true]. split.
    + rewrite <- Hsc. unfold run_scope. rewrite Hws, Hss. do 2 f_equal. destruct tenant as [tn|]; [by apply bool_decide_eq_true in Hten|].
      unfold scoped_session, scope_arguments in *. destruct (workspace_scope_from_user (Some user)) as [[[t1|] ws]|]; [|injection Hs as <-|done].
      { exfalso. simpl in Hargs. destruct (cast_uuid uuid t1); simpl in Hargs; [|done]. by destruct (cast_uuid uuid ws). }
      pose proof Hsight as Hv. rewrite <- Hsc in Hv. unfold in_sight, visible in Hv. simpl in Hv. apply andb_prop in Hv as [_ Hv].
      destruct (run_tenant_id r); [|done]. by unfold is_setting in Hv.
    + assert (Hnone : ∀ i a, ¬ row t id i a).
      { destruct Hsh as [[_ Hn]|[[Hm _]|[[-> _]|[[-> _]|[-> _]]]]]; [done| |congruence..]. rewrite <- Hst, Hpl in Hm. done. }
      split; [|exists (with_plan stored r); split; [apply lookup_insert_eq|done]]. split; [exists "running"; split; [done|exists (with_plan stored r); split; [apply lookup_insert_eq|done]]|].
      split; [done|]. split; [intros i j a b Ha; by destruct (Hnone i a)|]. split; [|intros i a Ha; by destruct (Hnone i a)].
      etransitivity; [exact Hel|]. split; [intros i Hi; simpl; by rewrite lookup_insert_ne|done].
  - intros [|]; simpl; [|by apply does_raises].
    apply (does_pre _ (λ t, (tenant, Some workspace, "scoped") = sc ∧ planned t)); [intros t H; by apply H|]. apply does_fact. intros Hsc.
    eapply does_post; [|by apply insert_steps_does]. intros [] t. apply planned_ended.
Qed.
End One.

(** ** Every request *)

Context {W : Type} {Hworld : WorkflowWorld W} {Hlaws : WorkflowLaws W}.

Lemma ended_wellformed id sc t0 status t : wellformed t0 → ended id sc t0 status t → wellformed t.
Proof. intros Hw (Hrun & Hsc & Hsh & He). eapply wellformed_elsewhere; [exact Hw|exact He|]. by exists status, sc. Qed.

(** What a body does of a workflow that its session sees, when without one it raises. *)
Lemma does_seen {A} s id t0 (m : io W A) (R : Scope → A → Tables → Prop) : wellformed t0 →
  (find_run s id t0 = None → does (λ t, t = t0) m (λ _ _, False)) →
  (∀ sc, in_sight s sc = true → does (begun id sc t0) m (R sc)) → does (λ t, t = t0) m (λ a t, ∃ sc, R sc a t).
Proof.
  intros [Hs _] Hn Hm. destruct (find_run s id t0) as [r|] eqn:Ef; [|by eapply does_post; [|apply Hn]].
  unfold find_run in Ef. destruct (workflow_runs t0 !! id) as [r'|] eqn:Er; [|done]. destruct (run_visible s r') eqn:Ev; [|done]. injection Ef as ->.
  eapply does_post; [|eapply does_pre; [|apply (Hm (run_scope r)); exact Ev]]; [intros a t H; by exists (run_scope r)|].
  intros t ->. destruct (Hs id (ex_intro _ r Er)) as (status & sc & (r' & Hr' & Hst & Hsc) & Hsco & Hsh).
  rewrite Er in Hr'. injection Hr' as <-. subst sc. exists status. split; [by exists r|]. by split.
Qed.

Lemma wellformed_scoped {A} user (body : Session → io W A) (R : A → Tables → Prop) :
  (∀ s t0, scoped_session (Some user) = Ok s → wellformed t0 → does (λ t, t = t0) (body s) (λ a t, wellformed t ∧ R a t)) →
  triple (λ w, wellformed (tables w)) (scoped_db_for_user user body) (λ a w, wellformed (tables w) ∧ R a (tables w)) (λ w, wellformed (tables w)).
Proof.
  intros Hb w Hw. unfold scoped_db_for_user, of_res, mbind, io_bind. destruct (scoped_session (Some user)) as [s|] eqn:Es; [|done].
  unfold transaction. pose proof (authority_silent user w) as [Ht _]. specialize (Hb s (tables w) eq_refl Hw).
  assert (Ha : does (λ t, t = tables w) (_ ← (if is_none (get "_scheduled_effect_authority" user) then mret tt else assert_authority user); body s) (λ a t, wellformed t ∧ R a t)).
  { case_match; [apply does_bind_ret; exact Hb|]. eapply does_bind; [apply does_leaves; intros w1; apply authority_silent|]. intros []. exact Hb. }
  specialize (Ha w eq_refl). unfold mbind, io_bind in Ha. match type of Ha with match ?m with _ => _ end => destruct m as [[a|e] w1] end; [exact Ha|].
  by rewrite set_tables_tables.
Qed.

Lemma load_unseen s id t0 user {B} (f : Run → io W B) R : find_run s id t0 = None → does (λ t, t = t0) (_load_workflow uuid s id user ≫= f) R.
Proof.
  intros Hn. apply (does_bind _ _ _ (λ _ _, False)); [|by intros a w]. unfold _load_workflow.
  eapply does_bind; [apply does_query|]. intros [r|]; [|by apply does_raises]. intros w [Hq Ht]. exfalso. unfold select_owned in Hq.
  apply bind_ok in Hq as (u & _ & Hq). apply bind_ok in Hq as ([tenant workspace] & _ & Hq). by rewrite Ht, Hn in Hq.
Qed.

(** What is answered of a workflow, from the tables it leaves. *)
Definition settled (id : string) (a : Answer) (t : Tables) : Prop :=
  ∃ sc, run_is t id (ans_status a) sc ∧ mem (ans_status a) SETTLED_RUN_STATUSES = true ∧ shaped (ans_status a) id t.

Lemma answered_settled id sc t0 a t : wellformed t0 → answered id sc t0 a t → wellformed t ∧ settled id a t.
Proof. intros Hw [He Hm]. split; [by eapply ended_wellformed|]. destruct He as (Hrun & _ & Hsh & _). by exists sc. Qed.

Lemma settled_scoped id user (body : Session → io W Answer) :
  (∀ s t0, find_run s id t0 = None → does (λ t, t = t0) (body s) (λ _ _, False)) →
  (∀ s sc t0, in_sight s sc = true → does (begun id sc t0) (body s) (answered id sc t0)) →
  triple (λ w, wellformed (tables w)) (scoped_db_for_user user body) (λ a w, wellformed (tables w) ∧ settled id a (tables w)) (λ w, wellformed (tables w)).
Proof.
  intros Hn Hb. apply wellformed_scoped. intros s t0 _ Hw.
  eapply does_post; [|apply (does_seen s id t0 (body s) (λ sc, answered id sc t0)); [done|apply Hn|intros sc Hsc; by apply Hb]].
  intros a t [sc Ha]. by eapply answered_settled.
Qed.

Lemma execute_settles id user : triple (λ w, wellformed (tables w)) (execute_workflow uuid json_loads jsonb jsonb_text id user)
  (λ a w, wellformed (tables w) ∧ settled id a (tables w)) (λ w, wellformed (tables w)).
Proof. apply settled_scoped; [intros s t0; apply load_unseen|intros s sc t0 Hs; by apply execution_does]. Qed.

Lemma approve_settles id idx user : triple (λ w, wellformed (tables w)) (approve_step uuid json_loads jsonb jsonb_text id idx user)
  (λ a w, wellformed (tables w) ∧ settled id a (tables w)) (λ w, wellformed (tables w)).
Proof.
  apply settled_scoped; [|intros s sc t0 Hs; by apply approval_does]. intros s t0 Hn. unfold _approve_step_scoped.
  eapply does_bind; [apply does_of_res|]. intros []; apply does_fact; intros _; simpl; [by apply load_unseen|by apply does_raises].
Qed.

Lemma cancel_settles id user : triple (λ w, wellformed (tables w)) (cancel_workflow json_loads jsonb jsonb_text id user)
  (λ a w, wellformed (tables w) ∧ settled id a (tables w)) (λ w, wellformed (tables w)).
Proof.
  apply settled_scoped; [|intros s sc t0 Hs; by apply cancel_does]. intros s t0 Hn. unfold _cancel_workflow_scoped.
  eapply does_bind; [apply does_of_res|]. intros u. apply does_fact. intros _.
  eapply does_bind; [apply (does_updating _ (λ b t, b = false))|].
  { intros now t ->. unfold update_run. by rewrite Hn. }
  intros [|]; simpl; [by intros w|by apply does_raises].
Qed.








Abbreviation well := (λ w, wellformed (tables w)).

Lemma well_scoped {A} user (body : Session → io W A) :
  (∀ s t0, scoped_session (Some user) = Ok s → wellformed t0 → does (λ t, t = t0) (body s) (λ _, wellformed)) → keeps well (scoped_db_for_user user body).
Proof.
  intros Hb. eapply triple_conseq; [apply (wellformed_scoped user body (λ _ _, True))|done|by intros a w [? _]|done].
  intros s t0 Hs Hw. eapply does_post; [|by apply Hb]. by intros a t H.
Qed.

Lemma well_reading {A} user (body : Session → io W A) : (∀ s, leaves (body s)) → keeps well (scoped_db_for_user user body).
Proof. intros Hb. apply well_scoped. intros s t0 _ Hw. eapply does_pre; [|by apply does_leaves]. by intros t ->. Qed.

Lemma well_leaves {A} (m : io W A) : leaves m → keeps well m.
Proof. intros Hm w Hw. specialize (Hm w). destruct (m w) as [[a|e] w1]; simpl in *; by rewrite Hm. Qed.

Lemma leaves_query {A} (f : Tables → res A) : leaves (query f).
Proof. apply leaves_keeps. intros t. apply tables_query. Qed.

Lemma well_status id user : keeps well (workflow_status uuid json_loads jsonb jsonb_text id user).
Proof.
  apply well_scoped. intros s t0 _ Hw.
  eapply does_post; [|apply (does_seen s id t0 _ (λ sc _, begun id sc t0)); [done|intros Hn; by apply load_unseen|]].
  { intros a t [sc [status He]]. by eapply ended_wellformed. }
  intros sc Hs. eapply does_bind; [by apply load_does|]. intros r. apply does_fact. intros _.
  apply (does_pre _ (ended id sc t0 (run_status r))); [by intros t [_ Ht]|].
  eapply does_bind; [apply (refresh_does s id (ended id sc t0 (run_status r))); intros v t Ht; by apply ended_results|]. intros results.
  eapply does_pre; [|apply (does_ret _ (λ _, begun id sc t0))]. intros t He. by eexists.
Qed.

Lemma well_claim_plan id user plan : keeps well (scoped_db_for_user user (λ s, claim_plan uuid jsonb s id user plan)).
Proof.
  apply well_scoped. intros s t0 Hs Hw.
  eapply does_post; [|apply (does_seen s id t0 _ (λ sc _, ended id sc t0 "running")); [done| |intros sc Hsc; by apply claim_plan_does]].
  { intros a t [sc He]. by eapply ended_wellformed. }
  intros Hn. unfold claim_plan. eapply does_bind; [apply does_of_res|]. intros u. apply does_fact. intros _.
  eapply does_bind; [apply does_of_res|]. intros [tenant workspace]. apply does_fact. intros _. eapply does_bind; [apply does_of_res|]. intros stored. apply does_fact. intros _.
  eapply does_bind; [apply (does_updating _ (λ b t, b = false))|]; [intros now t ->; unfold update_run; by rewrite Hn|].
  intros [|]; simpl; [by intros w|by apply does_raises].
Qed.

Lemma insert_run_wellformed s fresh r t t' : wellformed t → run_status r = "planning" → insert_run s fresh r t = Ok t' → wellformed t'.
Proof.
  intros Hw Hr. unfold insert_run. case_match; [done|]. destruct (workflow_runs t !! fresh) eqn:E; [done|]. intros [= <-].
  assert (Hnone : ∀ idx st, ¬ row t fresh idx st) by (intros idx st Hst; destruct (proj2 Hw fresh idx st Hst); congruence).
  eapply (wellformed_elsewhere fresh); [exact Hw|split; [intros i Hi; simpl; by rewrite lookup_insert_ne|done]|].
  exists "planning", (run_scope r). split; [exists r; split; [apply lookup_insert_eq|done]|]. split; [intros idx st Hst; by destruct (Hnone idx st)|by left].
Qed.

Lemma well_create fresh payload user : keeps well (create_workflow uuid fresh payload user).
Proof.
  unfold create_workflow, raises. apply keeps_bind_res. intros intent _. cbv zeta. do 2 (case_match; [apply keeps_of_res|]).
  apply keeps_bind; [|intros r; apply keeps_bind; [apply well_leaves, leaves_record|intros a; apply keeps_ret]].
  apply well_scoped. intros s t0 _ Hw. eapply does_bind; [apply does_of_res|]. intros u. apply does_fact. intros _.
  eapply does_bind; [apply does_of_res|]. intros [tenant workspace]. apply does_fact. intros _.
  apply (does_bind _ _ _ (λ _ t, t = t0)).
  { case_match; [apply does_leaves; intros w; apply conversation_silent|apply (does_ret true (λ _ t, t = t0))]. }
  intros allowed. case_match; [by apply does_raises|]. eapply does_bind; [apply does_of_res|]. intros conversation. apply does_fact. intros _.
  apply does_statement. intros now t a t' -> (t1 & Ht & [= _ <-])%bind_ok. by eapply insert_run_wellformed; [| |exact Ht].
Qed.

Lemma leaves_bind {A B} (m : io W A) (f : A → io W B) : leaves m → (∀ a, leaves (f a)) → leaves (m ≫= f).
Proof. intros Hm Hf. apply leaves_keeps. intros t. apply keeps_bind; [by apply keeps_leaves|intros a; by apply keeps_leaves]. Qed.

Lemma leaves_available : leaves available_tools.
Proof.
  apply leaves_keeps. intros t. unfold available_tools. apply keeps_handling; [|intros e; apply keeps_ret].
  apply keeps_bind; [apply keeps_leaves; intros w; apply servers_silent|intros servers].
  assert (Hl : ∀ x, keeps (λ w, tables w = t) (list_tools x)) by (intros x; apply keeps_leaves; intros w; apply tools_silent).
  induction servers as [|server servers IH]; simpl; [keep|]. apply keeps_bind; [|intros tools; keep]. unfold tools_of, raises. destruct server; keep.
Qed.

Lemma well_plan id user : keeps well (plan_workflow uuid json_loads jsonb id user).
Proof.
  unfold plan_workflow, raises. apply keeps_bind; [apply well_reading; intros s; apply leaves_query|intros [run|]; [|keep]].
  case_match; [keep|]. apply keeps_bind; [apply well_leaves, leaves_available|intros tools].
  apply keeps_bind; [apply keeps_handling; [|intros e; keep]; unfold _llm_plan; apply keeps_bind; [apply well_leaves; intros w; apply chat_silent|intros reply; keep]|intros plan].
  case_match; [keep|]. apply keeps_bind_res. intros plan' _. apply keeps_bind; [apply well_claim_plan|intros _].
  apply keeps_bind; [apply well_leaves, leaves_record|intros _; keep].
Qed.

Lemma well_forget {A} (m : io W A) R : triple well m (λ a w, well w ∧ R a w) well → keeps well (forget m).
Proof. intros Hm. apply keeps_bind; [|intros a; keep]. eapply triple_conseq; [exact Hm|done|by intros a w [? _]|done]. Qed.

Lemma well_route user r : keeps well (route uuid json_loads jsonb jsonb_text user r).
Proof.
  unfold route. apply keeps_bind_res. intros ? _. apply keeps_bind_res. intros ? _.
  destruct r as [fresh payload|id| |id|id|id|id|id idx]; simpl; unfold raises.
  - apply keeps_bind; [apply well_create|intros ?; keep].
  - apply keeps_bind_res; intros i _. apply keeps_bind; [|intros ?; keep]. apply well_reading. intros s. apply leaves_bind; [apply leaves_query|].
    intros [run|]; [apply leaves_bind; [apply leaves_query|by intros steps w]|by intros w].
  - apply keeps_bind; [|intros ?; keep]. apply well_reading. intros s. apply leaves_query.
  - apply keeps_bind_res; intros i _. apply keeps_bind; [apply well_plan|intros ?; keep].
  - apply keeps_bind_res; intros i _. eapply well_forget, execute_settles.
  - apply keeps_bind_res; intros i _. apply keeps_bind; [apply well_status|intros ?; keep].
  - apply keeps_bind_res; intros i _. eapply well_forget, cancel_settles.
  - apply keeps_bind_res; intros i _. case_match; [keep|]. eapply well_forget, approve_settles.
Qed.

(** C33: whatever users ask of the workflows, one request after another, and whatever the tools, the audit and the model do, every
    workflow stays in shape: its steps end in their order, one that waits has no tool or one that takes an approval, a
    completed run has completed its steps, and a failed one completed those before the step that failed and skipped the rest. *)
Theorem workflows_stay_in_shape requests w : wellformed (tables w) → wellformed (tables (serve uuid json_loads jsonb jsonb_text requests w)).
Proof.
  revert w. induction requests as [|[user r] requests IH]; intros w Hw; simpl; [done|]. apply IH.
  pose proof (well_route user r w Hw) as H. by destruct (route _ _ _ _ _ _ w) as [[a|e] w1].
Qed.

(** C39: when an execution of a workflow answers, the status it answers is that of the run it leaves, which is not running any
    more: all its steps are completed, or one waits for a person, or one failed, and the steps before it are completed. *)
Theorem execution_answers_status id user w a w' : wellformed (tables w) →
  execute_workflow uuid json_loads jsonb jsonb_text id user w = (Ok a, w') →
  ∃ r, workflow_runs (tables w') !! id = Some r ∧ run_status r = ans_status a
  ∧ ((ans_status a = "completed" ∧ ∀ idx st, row (tables w') id idx st → completed st)
     ∨ (ans_status a = "waiting_approval" ∧ ∃ idx st, row (tables w') id idx st ∧ step_status st = "waiting_approval" ∧ asks_person st)
     ∨ (ans_status a = "failed" ∧ ∃ f, ∀ idx st, row (tables w') id idx st →
          (idx < f ∧ completed st) ∨ (idx = f ∧ step_status st = "failed") ∨ (f < idx ∧ step_status st = "skipped"))
     ∨ ans_status a = "cancelled").
Proof.
  intros Hw H. pose proof (execute_settles id user w Hw) as Hs. rewrite H in Hs.
  destruct Hs as [_ (sc & (r & Hr & Hst & _) & Hm & Hsh)]. exists r. split; [done|]. split; [done|].
  destruct Hsh as [[E _]|[(E & Hrows & _ & Hwait)|[[E Hc]|[[E Hf]|[E _]]]]]; [by rewrite E in Hm| |by left|by do 2 right; left|by do 3 right].
  right. left. destruct (decide (ans_status a = "waiting_approval")) as [Ew|Hne].
  - split; [done|]. destruct (Hwait Ew) as (idx & st & Hrow & Hs). exists idx, st. split; [done|]. split; [done|].
    destruct (Hrows idx st Hrow) as [Hc|(_ & _ & Hl)]; [congruence|]. by apply Hl.
  - exfalso. unfold mem in E. rewrite bool_decide_eq_true, !elem_of_cons, elem_of_nil in E. destruct E as [E|[E|[]]]; [|done]. by rewrite E in Hm.
Qed.
End Shape.

(** ** The workflow whose only step starts a DAG *)

Module OneShape.
Import OneApproval.
#[local] Existing Instance OneApproval.repr.
#[local] Existing Instance OneApproval.world.
#[local] Existing Instance OneApproval.laws.

Lemma start_wellformed : wellformed json_loads jsonb_text (tables start).
Proof.
  assert (Hrow : ∀ i idx st, workflow_steps (tables start) !! (i, idx) = Some st → i = workflow ∧ idx = 0
    ∧ st = new_step "start" (Some "infra.airflow_trigger_dag") (PDict []) (Some tenant) (Some workspace)).
  { intros i idx st Hst. cbn [tables world start c_tables workflow_steps] in Hst. apply lookup_singleton_Some in Hst as [[= <- <-] <-]. done. }
  assert (Hrun : workflow_runs (tables start) !! workflow = Some run) by (cbn [tables world start c_tables workflow_runs]; apply lookup_singleton_eq).
  split; [|intros i idx st (-> & _)%Hrow; by eexists].
  intros i [r Hr]. cbn [tables world start c_tables workflow_runs] in Hr. apply lookup_singleton_Some in Hr as [<- <-].
  exists "running", (run_scope run). split; [by exists run|]. split; [intros idx st (_ & -> & ->)%Hrow; by split|].
  right. left. split; [done|]. split; [intros idx st (_ & _ & ->)%Hrow; right; by split|]. split; [|done].
  intros j k a b (_ & -> & _)%Hrow (_ & -> & _)%Hrow ?. lia.
Qed.

(** The first request leaves it waiting, the second completes it. *)
Lemma workflows_stay_in_shape_witness : wellformed json_loads jsonb_text (tables after)
  ∧ option_map run_status (workflow_runs (tables after) !! workflow) = Some "completed".
Proof.
  split; [|vm_compute; reflexivity].
  apply (workflows_stay_in_shape uuid json_loads Ok jsonb_text keeps_approval reads_approval requests start start_wellformed).
Defined.

Lemma execution_answers_status_witness : ∃ w', workflow_runs (tables w') !! workflow ≠ None
  ∧ ∃ idx st, workflow_steps (tables w') !! (workflow, idx) = Some st ∧ step_status st = "waiting_approval".
Proof.
  assert (H : match execute_workflow uuid json_loads Ok jsonb_text workflow owner start with
              | (Ok a, _) => ans_status a = "waiting_approval"
              | _ => False
              end) by by vm_compute.
  destruct (execute_workflow uuid json_loads Ok jsonb_text workflow owner start) as [[a|e] w'] eqn:E; [|destruct H].
  exists w'. destruct (execution_answers_status uuid json_loads Ok jsonb_text keeps_approval reads_approval workflow owner start a w' start_wellformed E)
    as (r & Hr & _ & [[Hs _]|[(_ & idx & st & Hrow & Hst & _)|[[Hs _]|Hs]]]); [exfalso; congruence| |exfalso; congruence|exfalso; congruence].
  split; [rewrite Hr; discriminate|]. exists idx, st. split; [exact Hrow|exact Hst].
Defined.
End OneShape.

(** ** What an execution leaves undone *)

Module Undone.
Import OneApproval.
#[local] Existing Instance OneApproval.repr.

(** The audit of the steps fails. *)
#[local] Instance failing : WorkflowWorld Copilot := {
  tables := c_tables; set_tables t c := mkCopilot t (c_log c); transaction_time _ := seconds 43200;
  assert_authority _ c := (Ok tt, c); list_servers c := (Ok [], c);
  list_tools _ c := (Ok [PDict (mkdict [("name", PStr "airflow_trigger_dag")])], c);
  invoke s t a u _ c := (Ok (PDict []), noted (Called s t a u) c);
  record_event e c := if eq_str (get "action" e) "copilot.workflow.step" then (raise RuntimeError "", c) else (Ok tt, noted (Recorded e) c);
  sleep _ c := (Ok tt, c); chat _ c := (Ok PNone, c); conversation_allowed _ _ _ c := (Ok true, c) }.

Definition waiting_step : Step :=
  set_step "waiting_approval" (Some (PDict [])) None None (new_step "start" (Some "infra.airflow_trigger_dag") (PDict []) (Some tenant) (Some workspace)).
Definition waiting : Copilot := mkCopilot (mkTables {[ workflow := run ]} {[ (workflow, 0) := waiting_step ]}) [].

(** The step is approved and its tool called, and yet it waits as before; approved again, it is called again. *)
Lemma called_and_undone :
  match c_log (serve uuid json_loads Ok jsonb_text [(owner, Approve workflow 0)] waiting) with [Recorded _; Called _ _ _ _] => True | _ => False end
  ∧ option_map step_status (workflow_steps (c_tables (serve uuid json_loads Ok jsonb_text [(owner, Approve workflow 0)] waiting)) !! (workflow, 0)) = Some "waiting_approval"
  ∧ match c_log (serve uuid json_loads Ok jsonb_text [(owner, Approve workflow 0); (owner, Approve workflow 0)] waiting) with
    | [Recorded _; Called _ _ _ _; Recorded _; Called _ _ _ _] => True
    | _ => False
    end.
Proof. vm_compute. repeat split. Qed.

(** A workflow that has not been planned is executed, and it is completed without a step. *)
Definition unplanned : Copilot := mkCopilot (mkTables {[ workflow := new_run 0 7 (Some tenant) (Some workspace) None "close the month" ]} ∅) [].
Lemma completed_unplanned :
  match execute_workflow uuid (λ _, Ok (PList [])) Ok jsonb_text workflow owner unplanned with
  | (Ok a, c) => ans_status a = "completed" ∧ map_to_list (workflow_steps (c_tables c)) = []
  | _ => False
  end.
Proof. vm_compute. by split. Qed.
End Undone.
